(* ===== verification/_CoqProject ===== *)
-Q . S2P
Prelude.v
Types.v
Mem.v
DList.v
SetLru.v
Scan.v
Fifo.v
Rand.v
Lru.v
Policy.v
Thresh.v
Lookup.v
SetSeq.v
World.v
Dispatch.v
Disk.v
Clean.v
CleanIo.v
CleanState.v
CleanSet.v
CleanThread.v
WbAlloc.v
IoWorld.v
MdUpdate.v
MdWrite.v
MdDo.v
Refs.v
MdFlow.v
Peek.v
IoPath.v
IoMap.v
Split.v
Mapping.v
Hits.v
Superblock.v
MdStore.v
MdCreate.v
MdLoad.v
PageIo.v
LoadLoop.v
Recovery.v
Saved.v
Restart.v
Suspend.v
Gone.v
Resume.v
Cold.v
Notify.v
Concrete.v
CleanConcrete.v
IoConcrete.v
Sysctl.v
Edit.v
Ttc.v
TtcReg.v
TtcRoute.v
TtcCorrectness.v
Create.v
CreateNew.v
CreateOk.v
EditOk.v
Delete.v
Tunables.v
TuneUse.v
Created.v
AdminConcrete.v
SysctlConcrete.v
AdminCorrectness.v
SuspendCorrectness.v
SysctlCorrectness.v
AdmCorrectness.v
Correctness.v
CleanCorrectness.v
MdCorrectness.v
IoCorrectness.v
