(* ===== verification/Prelude.v ===== *)
(** * EnhanceIO: a verification development

    EnhanceIO is a Linux block-layer driver that puts an SSD in front of a
    source volume as a set-associative cache.  This library models the driver,
    [src/Driver/enhanceio], as executable definitions and proves what it
    guarantees.  File names below without a directory are files of the driver.

    ** The program

    A cache ([struct cache_c]) has [num_sets] sets of [assoc] blocks.  Each
    block has a state word: invalid, or valid with the number of the source
    sector it holds, perhaps dirty, perhaps with an operation in progress.  A
    bio that arrives ([eio_map]) is split at block boundaries; each split is
    looked up in the set of its sector ([eio_lookup]), reserves its block
    ([eio_read_peek], [eio_write_peek]) and is served by the SSD alone, or by
    the disk with the SSD kept up to date.  In a write-back cache a write that
    dirties a block ends only after the block's metadata entry on the SSD says
    so ([eio_md_write], [eio_do_mdupdate], [eio_post_mdupdate]).  Dirty blocks
    go back to the disk set by set ([eio_clean_set]), on the request of the
    thresholds, of the clean thread, or of [eio_clean_all].  At shutdown the
    metadata and the superblock are stored ([eio_md_store], [eio_sb_store]), and
    at the start of a cache they are created or loaded ([eio_md_create],
    [eio_md_load]); after a crash only the blocks that are dirty on the SSD are
    loaded.  When a device disappears the cache is suspended, and resumed when
    an SSD comes back ([eio_subr.c]).

    ** State

    The records nest.

    - [Types.cache_c] is [struct cache_c]: its flags, counters, tunables, the
      cache sets, the metadata arrays, the data of the replacement policy and
      of the dirty-set LRU.  Every operation that touches only the cache runs
      on it.
    - [Clean.cworld] adds the environment of a clean: the two devices
      ([Disk.v]: maps from sectors to contents), the memory pages, the results
      of the coming transfers and a trace of the writes with the devices before
      each, from which what a crash leaves is derived.
    - [IoWorld.io_world] adds the objects of the I/Os in progress (bios,
      containers, splits, jobs, metadata-update requests, each a map from its
      address), the transfers and the work that are pending.
    - [Superblock.conf_world] instead adds what the administration uses: the
      page allocator, the outcomes of the coming allocations, the superblock's
      other fields.  [Sysctl.sys_world] adds the pending tunables, the
      registered files and the delayed work of the aged sets;
      [Edit.cache_ctl] the clean thread, the buffers of a write-back cache and
      the lock of the device's list; [Create.adm] the table of caches, the list
      of caches and the open devices.
    - [Ttc.ttc_world] is the table of caches with the request functions of the
      disks, the bios cut into sectors and what was done with each bio.

    Operations are functions of the state monad [M] below: [None] is an
    [EIO_ASSERT] that fires or an access through a pointer that is not valid.
    A theorem that gives a result [Some _] proves the absence of both.

    ** Conventions

    - Integers are [Z].  Conversions to a C width are written ([u32], [i32],
      ...) wherever a value can leave its width; the theorems about bounds say
      when they do nothing.
    - What the environment decides is an argument or an oracle: the outcome of
      each allocation (a list; an exhausted list means success), the result of
      each transfer (refused, failed after some sectors, complete), the
      capacity of each bio, the clock, the order in which callbacks and
      work items run.  The theorems quantify over them.
    - Locks are implicit: a function runs while it holds the locks the code
      takes, so it is one step; callbacks and works run between functions.
      [SetSeq] and [Refs] prove which set locks a bio takes and releases.
    - A string of the user is left out where only its length or its presence
      matters.

    ** The files

    Foundations.
    - [Prelude]: integers, the state monad and its reasoning rule [wp],
      loops, lists, tactics, the hint databases [wp] and [eio].
    - [Types]: constants and structures of [eio.h].
    - [Mem]: [eio_mem.c] and the metadata accessors of [eio.h], 4- and 8-byte
      format ([hash_block], [EIO_DBN_SET], [EIO_CACHE_STATE_SET], ...).
    - [DList]: doubly linked lists in arrays, used by [SetLru] and [Lru].

    Policies and dirty sets.
    - [SetLru]: [eio_setlru.c].  [Scan]: the two questions to a policy, for an
      abstract order of visit.  [Fifo], [Rand], [Lru]: [eio_fifo.c],
      [eio_rand.c], [eio_lru.c].
    - [Policy]: [eio_policy.c].  The class [ReplPolicy] is the contract between
      a policy and the driver; its three instances discharge it and the
      driver's theorems use only the class.
    - [Thresh]: dirty thresholds and the clean queue of [eio_main.c].

    The I/O path of [eio_main.c] and [eio_ttc.c].
    - [Lookup]: lookup, replacement and invalidation with the invariant
      [blk_inv].  [SetSeq]: the sets of a bio.  [Dispatch]: [eio_do_io] and its
      completion count.  [Peek]: the reservation of a block.
    - [World], [IoWorld]: the objects.  [IoPath]: callbacks; [IoMap]:
      transfers, [eio_map], [eio_read], [eio_write], and the events.
    - [Split]: the splits of a bio and the two ends of an uncached write.
      [Mapping]: [eio_map] as a whole.  [Hits]: cached reads and writes.
    - [MdUpdate]: [eio_md_write], [eio_enq_mdupdate], [eio_do_mdupdate],
      [eio_mdupdate_callback], [eio_post_mdupdate]; lemmas in [MdWrite]
      (atomicity), [MdDo] (transfers), [Refs] (reference counts), [MdFlow].

    Cleaning.
    - [Disk]: devices and the format of the metadata.  [Clean]: the whole of
      [eio_clean_set]; lemmas in [CleanIo], [CleanState], [CleanSet].
      [CleanThread]: [eio_clean_all], the clean thread, aged sets.  [WbAlloc]:
      the buffers of a clean ([eio_ttc.c], [eio_conf.c]).

    Metadata on the SSD ([eio_conf.c], [eio_subr.c]).
    - [Superblock]: the superblock as the compiler lays it out.  [MdStore],
      [MdCreate], [MdLoad]: storing, creating, loading.  [PageIo], [LoadLoop],
      [Recovery], [Saved], [Restart]: their lemmas, the last with the layout of
      a new cache.

    Administration.
    - [Suspend]: removal and return of a device ([eio_suspend_caching],
      [eio_resume_caching], [eio_ctr_ssd_add], [eio_notify_ssd_rm]).  [Gone]:
      what an operation leaves alone, whatever fails, and the abstract machine
      of the devices.  [Resume]: a write-back cache keeps its blocks.  [Cold]:
      any other cache is emptied.  [Notify]: the notifier.
    - [Sysctl]: [eio_procfs.c], the tunables with their handlers and the files
      under [/proc].  [Tunables]: the handlers; [TuneUse]: what a request of the
      user reaches, the files, the percentages.
    - [Ttc]: the table of caches and [eio_make_request_fn] ([eio_ttc.c]).
      [TtcReg]: the invariant of the table.  [TtcRoute]: where each sector of a
      bio goes.
    - [Edit]: [eio_cache_edit] with the clean thread and [eio_finish_nrdirty];
      lemmas in [EditOk].  [Create]: [eio_cache_create]; lemmas in [CreateOk].
      [Delete]: [eio_cache_delete], [eio_ttc_deactivate], [eio_reboot_handling],
      with their lemmas.

    Theorems, each with an instance on a concrete cache: [Correctness],
    [CleanCorrectness], [MdCorrectness], [IoCorrectness], [AdminCorrectness],
    [SuspendCorrectness], [SysctlCorrectness], [TtcCorrectness],
    [AdmCorrectness]; the concrete caches are in [Concrete], [CleanConcrete],
    [IoConcrete], [AdminConcrete], [SysctlConcrete].

    ** The abstract specification

    The cache stands for the contents of a volume: [contents] reads a sector
    from the SSD where a dirty block holds it and from the disk elsewhere;
    [recovered] is the same for the metadata on the SSD, what a restart after
    a crash finds.  The theorems about cleans, metadata updates, cached reads
    and writes, crash recovery and shutdown are stated in these terms.

    ** What the theorems show

    - Durability: a metadata update makes a write durable before it ends
      ([mdupdate_durable]); a crash at any moment of an update or of a clean
      loses nothing ([eio_do_mdupdate_correct], [eio_clean_set_correct]);
      loading after a crash gives back the volume ([crash_recovery_correct]);
      a shutdown gives back every block ([shutdown_restart_correct]); the
      superblock never claims clean metadata that were not written
      ([eio_md_store_correct]) and keeps each field ([eio_sb_store_correct]).
    - The I/O path: hits give the volume's data, writes reach it, errors are
      repeated on the disk, splits cover the bio, a bio ends once
      ([cached_read_correct], [cached_write_correct], [failed_read_repeated],
      [map_split_correct], [eb_endio_correct], [eio_map_correct],
      [uncached_write_ends_commute], ...).
    - Lookup, policies, thresholds, geometry, dispatch, buffers: the invariant
      of the in-core metadata and its preservation, the refinement of the
      policies to a scan in their order, bounds of the geometry and of the
      layout, allocation failure.
    - Termination and progress: [eio_clean_all], the clean thread, the
      completion count of an asynchronous I/O.
    - Suspension: the flags of a cache always tell which of its devices are gone
      ([suspend_resume_correct]); a write-back cache has its volume back when
      its SSD returns ([resume_write_back_correct]), any other is empty then
      ([resume_cold_correct]); the notifier suspends the caches of a removed
      device ([device_removal_correct]).
    - Interception: a bio reaches the cache that owns each of its sectors, at the
      right sector of the volume, or the disk ([make_request_correct]); a bio
      that was cut ends once, with success only if all parts did
      ([divided_bio_ends_once]); the table and the request functions agree
      whatever is activated and deactivated ([registry_invariant],
      [activate_deactivate]).
    - Tunables: in range whatever users write ([tunables_invariant]); a write is
      in force and stored, or refused without a trace
      ([tunable_write_correct], [tunable_error_changes_nothing]); the requests to
      clean and to invalidate do it ([clean_request_correct],
      [invalidate_writes_correct]).
    - Administration: a creation and a deletion do all or nothing
      ([create_all_or_nothing], [delete_all_or_nothing]), a creation leaves
      counters that fit the blocks ([create_counts_correct]), leaving write-back
      mode cleans every block ([finish_nrdirty_correct]).
    - What the code does not do: the theorems [cached_write_error_hangs],
      [dirty_write_error_lost], [md_load_policy_error_lost],
      [mdupdate_refused_stalls], [mdupdate_failed_stays_on_ssd],
      [removal_during_resume], [finish_nrdirty_spins],
      [policy_switch_keeps_old_policy], [edit_store_failure_keeps_lock],
      [stale_delete_leaves_thread] and [contained_partition_bypassed] exhibit
      paths on which an error is lost, an I/O or a command never ends, a command
      does nothing, or the cache is passed by.

    ** Loops and fuel

    A loop whose recursion is not structural takes fuel, and the theorem about
    its caller shows that the fuel given is enough: [dispatch_loop] one more
    than the buffers, [map_split] one more than the sectors of the bio,
    [inval_range_loop] the sectors of the range, the loops of [Fifo], [Rand]
    and [Lru] the blocks of the set, [clean_all_loop] the sets,
    [clean_aged_loop] the elements of the dirty-set list, [read_runs] the
    blocks of the set, [load_loop] the blocks of the cache.  The loop of
    [eio_process_jobs] and that of the read fills run as often as their
    caller says, since new work can arrive meanwhile.  The depth of
    [eio_make_request_fn] is two: a bio that is cut is sent through it once
    more, in sectors, which are not cut again.  [finish_loop] answers [None]
    while it still runs: one round is enough when nothing fails, and no number
    of rounds after a failure.

    ** Not modelled

    - Locks, wait queues, work queues, timers, reference counts of kernel
      objects: the kernel's.  The model gives the order of events instead.
    - [eio_ioctl.c] and [eio_get_cache_list] copy records between user space and
      the administration functions modelled here; opening and closing of devices
      and the control device are calls of the kernel, whose result is an argument.
    - Start and end of the module: registrations with the kernel.
    - Formatting of the lines under [/proc]: the values of each line are
      modelled, the conversion of numbers is the kernel's.
    - [vfree] of a page that was not allocated by [vmalloc] on an error path.
    - The command-line tool, documents and benchmarks. *)

From Stdlib Require Export ZArith Lia.
From stdpp Require Export base gmap list sorting.

#[global] Open Scope Z_scope.

Declare Scope eio_scope.
Delimit Scope eio_scope with eio.
#[global] Open Scope eio_scope.

(** ** Fixed-width integers *)

(** The driver stores its counters and metadata words in C integers.  A value
    is a [Z]; these functions are the conversions the C code performs when it
    stores a result in a variable of the given type. *)
Definition u8 (x : Z) : Z := x mod 2 ^ 8.
Definition u16 (x : Z) : Z := x mod 2 ^ 16.
Definition u32 (x : Z) : Z := x mod 2 ^ 32.
Definition u64 (x : Z) : Z := x mod 2 ^ 64.
Definition i32 (x : Z) : Z := (x + 2 ^ 31) mod 2 ^ 32 - 2 ^ 31.
Definition i64 (x : Z) : Z := (x + 2 ^ 63) mod 2 ^ 64 - 2 ^ 63.

(** [flags & mask] used as a condition. *)
Definition tst (flags mask : Z) : bool := negb (Z.land flags mask =? 0).

(** [x & ~mask] on non-negative values of any width. *)
Definition clr (x mask : Z) : Z := Z.ldiff x mask.

(** ** A state monad with kernel panics

    An operation runs on a state [S] and returns a value and the next state,
    or [None] when an [EIO_ASSERT] ([BUG_ON]) fires. *)
Definition M (S A : Type) : Type := S -> option (A * S).

Definition ret {S A} (a : A) : M S A := fun s => Some (a, s).
Definition bind {S A B} (m : M S A) (k : A -> M S B) : M S B :=
  fun s => match m s with Some (a, s') => k a s' | None => None end.
Definition panic {S A} : M S A := fun _ => None.
Definition gets {S A} (f : S -> A) : M S A := fun s => Some (f s, s).
Definition modify {S} (f : S -> S) : M S unit := fun s => Some (tt, f s).
Definition EIO_ASSERT {S} (b : bool) : M S unit := if b then ret tt else panic.
Definition lift {S A} (o : option A) : M S A :=
  fun s => match o with Some a => Some (a, s) | None => None end.
(** an expression that reads the state and may assert *)
Definition eval {S A} (f : S -> option A) : M S A :=
  fun s => match f s with Some a => Some (a, s) | None => None end.

Notation "x <- m ;; k" := (bind m (fun x => k))
  (at level 100, m at next level, right associativity) : eio_scope.
Notation "m ;; k" := (bind m (fun _ => k))
  (at level 100, right associativity) : eio_scope.

(** [when c m] is [if (c) m;] *)
Definition when {S} (c : bool) (m : M S unit) : M S unit := if c then m else ret tt.

(** [for] over the elements of a list, and the same loop left early by the
    first iteration that returns a value. *)
Fixpoint mfor {S A} (l : list A) (f : A -> M S unit) : M S unit :=
  match l with
  | [] => ret tt
  | x :: l' => bind (f x) (fun _ => mfor l' f)
  end.

Fixpoint mfor_until {S A R} (l : list A) (f : A -> M S (option R)) : M S (option R) :=
  match l with
  | [] => ret None
  | x :: l' => bind (f x) (fun r => match r with Some _ => ret r | None => mfor_until l' f end)
  end.

(** ** Total-correctness assertions

    [wp m s Q]: run from [s], [m] does not panic and its result and final
    state satisfy [Q]. *)
Definition wp {S A} (m : M S A) (s : S) (Q : A -> S -> Prop) : Prop :=
  match m s with Some (a, s') => Q a s' | None => False end.

Section wp_rules.
Context {S : Type}.
Implicit Types s : S.

Lemma wp_ret {A} (a : A) s (Q : A -> S -> Prop) : Q a s -> wp (ret a) s Q.
Proof. done. Qed.

Lemma wp_bind {A B} (m : M S A) (k : A -> M S B) s (Q : B -> S -> Prop) :
  wp m s (fun a s' => wp (k a) s' Q) -> wp (bind m k) s Q.
Proof. unfold wp, bind. by destruct (m s) as [[a s']|]. Qed.

Lemma wp_gets {A} (f : S -> A) s (Q : A -> S -> Prop) : Q (f s) s -> wp (gets f) s Q.
Proof. done. Qed.

Lemma wp_modify (f : S -> S) s (Q : unit -> S -> Prop) : Q tt (f s) -> wp (modify f) s Q.
Proof. done. Qed.

Lemma wp_assert b s (Q : unit -> S -> Prop) : b = true -> Q tt s -> wp (EIO_ASSERT b) s Q.
Proof. by intros ->. Qed.

Lemma wp_eval {A} (f : S -> option A) a s (Q : A -> S -> Prop) :
  f s = Some a -> Q a s -> wp (eval f) s Q.
Proof. unfold wp, eval. by intros ->. Qed.

Lemma wp_lift {A} (o : option A) a s (Q : A -> S -> Prop) :
  o = Some a -> Q a s -> wp (lift o) s Q.
Proof. unfold wp, lift. by intros ->. Qed.

Lemma wp_when c (m : M S unit) s (Q : unit -> S -> Prop) :
  (c = true -> wp m s Q) -> (c = false -> Q tt s) -> wp (when c m) s Q.
Proof. destruct c; simpl; intros H1 H2; [by apply H1|by apply H2]. Qed.

Lemma wp_mono {A} (m : M S A) s (Q Q' : A -> S -> Prop) :
  wp m s Q -> (forall a s', Q a s' -> Q' a s') -> wp m s Q'.
Proof. unfold wp. destruct (m s) as [[a s']|]; eauto. Qed.

Lemma wp_eq {A} (m : M S A) s a s' (Q : A -> S -> Prop) :
  m s = Some (a, s') -> Q a s' -> wp m s Q.
Proof. unfold wp. by intros ->. Qed.

Lemma wp_inv {A} (m : M S A) s (Q : A -> S -> Prop) :
  wp m s Q -> exists a s', m s = Some (a, s') /\ Q a s'.
Proof. unfold wp. destruct (m s) as [[a s']|]; [eauto|done]. Qed.

(** The loop rule: an invariant on the elements already visited. *)
Lemma wp_mfor {A} (I : list A -> S -> Prop) (l : list A) (f : A -> M S unit) s
    (Q : unit -> S -> Prop) :
  I [] s ->
  (forall done x rest s', l = done ++ x :: rest -> I done s' ->
     wp (f x) s' (fun _ s'' => I (done ++ [x]) s'')) ->
  (forall s', I l s' -> Q tt s') ->
  wp (mfor l f) s Q.
Proof.
  intros H0 Hstep Hend.
  assert (G : forall rest done s', l = done ++ rest -> I done s' ->
            wp (mfor rest f) s' (fun _ s'' => I l s'')).
  { induction rest as [|x rest IH]; intros don s' El HI; simpl.
    - rewrite app_nil_r in El. subst. by apply wp_ret.
    - apply wp_bind. eapply wp_mono; [by apply (Hstep don x rest)|].
      intros [] s'' HI'. apply (IH (don ++ [x])); [|done].
      by rewrite <-app_assoc. }
  eapply wp_mono; [by apply (G l [])|]. intros [] s'. apply Hend.
Qed.
End wp_rules.

Create HintDb wp discriminated.
Create HintDb eio discriminated.
#[export] Hint Resolve wp_ret wp_gets wp_modify : wp.

(** Runs the straight-line prefix of a [wp] goal. *)
Ltac wp_step :=
  match goal with
  | |- wp (bind _ _) _ _ => apply wp_bind
  | |- wp (ret _) _ _ => apply wp_ret
  | |- wp (gets _) _ _ => apply wp_gets
  | |- wp (modify _) _ _ => apply wp_modify
  | |- wp (EIO_ASSERT _) _ _ => apply wp_assert
  | |- wp (when _ _) _ _ => apply wp_when
  end; cbv beta.
Ltac wp_steps := repeat wp_step.

(** ** Bit operations on non-negative integers *)

Lemma land_ones_mod x k : 0 <= k -> Z.land x (2 ^ k - 1) = x mod 2 ^ k.
Proof. intros. rewrite <-Z.land_ones, Z.ones_equiv by lia. by rewrite Z.sub_1_r. Qed.

Lemma pow2_pos k : 0 <= k -> 0 < 2 ^ k.
Proof. intros. apply Z.pow_pos_nonneg; lia. Qed.

(** [lor] of a multiple of [2^k] and a value below [2^k] is their sum. *)
Lemma lor_shiftl_add hi lo k :
  0 <= k -> 0 <= lo < 2 ^ k -> Z.lor (Z.shiftl hi k) lo = hi * 2 ^ k + lo.
Proof.
  intros Hk Hlo. rewrite <-Z.shiftl_mul_pow2 by lia.
  rewrite Z.lor_comm, Z.add_comm.
  assert (Hl : Z.land lo (Z.shiftl hi k) = 0).
  { apply Z.bits_inj'. intros n Hn. rewrite Z.land_spec, Z.bits_0.
    destruct (Z.lt_ge_cases n k).
    - rewrite Z.shiftl_spec_low by lia. apply andb_false_r.
    - rewrite <-(Z.mod_small lo (2 ^ k)), Z.mod_pow2_bits_high by lia. done. }
  symmetry. by apply Z.add_nocarry_lor.
Qed.

Lemma tst_spec x k : 0 <= k -> tst x (2 ^ k) = Z.testbit x k.
Proof.
  intros Hk. unfold tst.
  assert (E : Z.land x (2 ^ k) = if Z.testbit x k then 2 ^ k else 0).
  { apply Z.bits_inj'. intros n Hn. rewrite Z.land_spec, Z.pow2_bits_eqb by lia.
    destruct (Z.eqb_spec k n) as [->|].
    - destruct (Z.testbit x n); simpl; [by rewrite Z.pow2_bits_true|by rewrite Z.bits_0].
    - rewrite andb_false_r. destruct (Z.testbit x k); [by rewrite Z.pow2_bits_false|by rewrite Z.bits_0]. }
  rewrite E. pose proof (pow2_pos k Hk). destruct (Z.testbit x k); [|done].
  apply negb_true_iff, Z.eqb_neq. lia.
Qed.

(** ** Arrays filled by a loop *)
Lemma foldl_insert_lookup {A} (f : Z -> A) (ks : list Z) (m : gmap Z A) i :
  foldl (fun e k => <[k := f k]> e) m ks !! i = if decide (i ∈ ks) then Some (f i) else m !! i.
Proof.
  revert m. induction ks as [|k ks IH]; intros m; cbn [foldl];
    [by rewrite decide_False by apply not_elem_of_nil|].
  rewrite IH. destruct (decide (i ∈ ks)).
  - by rewrite decide_True by (apply elem_of_cons; by right).
  - destruct (decide (k = i)) as [->|Hne].
    + by rewrite lookup_insert_eq, decide_True by (apply elem_of_cons; by left).
    + rewrite lookup_insert_ne, decide_False by (done || (intros [?|?]%elem_of_cons; congruence)). done.
Qed.

(** ** Searching loops

    A loop that leaves at the first element satisfying [P] runs the body on
    that element only. *)
Lemma mfor_until_find {S A R} (P : A -> bool) (f : A -> M S (option R)) l s :
  (forall x, x ∈ l -> P x = false -> f x s = Some (None, s)) ->
  (forall x, x ∈ l -> P x = true -> exists r s', f x s = Some (Some r, s')) ->
  mfor_until l f s = match List.find P l with Some x => f x s | None => Some (None, s) end.
Proof.
  induction l as [|x l IH]; intros H0 H1; [done|]. cbn [mfor_until List.find].
  unfold bind. destruct (P x) eqn:E.
  - destruct (H1 x) as (r & s' & ->); [apply elem_of_cons; by left|done|]. done.
  - rewrite H0 by (done || (apply elem_of_cons; by left)). apply IH; intros y Hy; [apply H0|apply H1]; apply elem_of_cons; by right.
Qed.

Lemma list_find_Some {A} (P : A -> bool) l x : List.find P l = Some x -> x ∈ l /\ P x = true.
Proof. intros [H ?]%List.find_some. split; [by apply list_elem_of_In|done]. Qed.
Lemma list_find_None {A} (P : A -> bool) l : List.find P l = None -> forall x, x ∈ l -> P x = false.
Proof. intros H x Hx%list_elem_of_In. by apply (List.find_none P l). Qed.

(** ** Running a program on a known state *)
Section run.
Context {S A B : Type}.
Lemma bind_gets (f : S -> A) (k : A -> M S B) s : bind (gets f) k s = k (f s) s.
Proof. done. Qed.
Lemma bind_ret (a : A) (k : A -> M S B) s : bind (ret a) k s = k a s.
Proof. done. Qed.
Lemma bind_modify (f : S -> S) (k : unit -> M S B) s : bind (modify f) k s = k tt (f s).
Proof. done. Qed.
Lemma bind_run (m : M S A) (k : A -> M S B) s a s' : m s = Some (a, s') -> bind m k s = k a s'.
Proof. unfold bind. by intros ->. Qed.
Lemma bind_eval (f : S -> option A) (k : A -> M S B) s a : f s = Some a -> bind (eval f) k s = k a s.
Proof. unfold bind, eval. by intros ->. Qed.
Lemma bind_assert b (k : unit -> M S B) s : b = true -> bind (EIO_ASSERT b) k s = k tt s.
Proof. by intros ->. Qed.
Lemma bind_bind {C} (m : M S A) (k : A -> M S B) (h : B -> M S C) s :
  bind (bind m k) h s = bind m (fun a => bind (k a) h) s.
Proof. unfold bind. by destruct (m s) as [[a s']|]. Qed.
End run.

(** executes the reads and writes a program starts with *)
Ltac mrun := repeat (first [rewrite bind_gets | rewrite bind_ret | rewrite bind_modify | rewrite bind_bind]; cbv beta).

(** a search loop whose body never leaves *)
Lemma wp_mfor_until_all {S A R} (I : list A -> S -> Prop) (l : list A) (f : A -> M S (option R)) s
    (Q : option R -> S -> Prop) :
  I [] s ->
  (forall done x rest s', l = done ++ x :: rest -> I done s' ->
     wp (f x) s' (fun r s'' => r = None /\ I (done ++ [x]) s'')) ->
  (forall s', I l s' -> Q None s') ->
  wp (mfor_until l f) s Q.
Proof.
  intros H0 Hstep Hend.
  assert (G : forall rest done s', l = done ++ rest -> I done s' ->
            wp (mfor_until rest f) s' (fun r s'' => r = None /\ I l s'')).
  { induction rest as [|x rest IH]; intros don s' El HI; simpl.
    - rewrite app_nil_r in El. subst. by apply wp_ret.
    - apply wp_bind. eapply wp_mono; [by apply (Hstep don x rest)|].
      intros r s'' [-> HI']. apply (IH (don ++ [x])); [|done].
      by rewrite <-app_assoc. }
  eapply wp_mono; [by apply (G l [])|]. intros r s' [-> ?]. by apply Hend.
Qed.
