(* ===== verification/Types.v ===== *)
(** * The cache context: constants and data of [eio.h]

    The macros of [eio.h] that the modelled code uses, and the structures it
    keeps: [struct cache_c] with its statistics, error counters, tunables,
    cache sets, the in-core metadata arrays and the data of the replacement
    policies and of the dirty-set LRU.  Arrays indexed by block or set number
    are finite maps from the index; an operation that writes outside an array
    would enlarge its domain, so "the domain does not change" states that
    every write is in bounds. *)

From S2P Require Import Prelude.

(** ** States of a cache block (one byte) *)
Definition INVALID : Z := 0x0001.
Definition VALID : Z := 0x0002.
Definition DISKREADINPROG : Z := 0x0004.
Definition DISKWRITEINPROG : Z := 0x0008.
Definition CACHEREADINPROG : Z := 0x0010.
Definition CACHEWRITEINPROG : Z := 0x0020.
Definition DIRTY : Z := 0x0040.
Definition QUEUED : Z := 0x0080.
Definition BLOCK_IO_INPROG : Z :=
  Z.lor (Z.lor DISKREADINPROG DISKWRITEINPROG) (Z.lor CACHEREADINPROG CACHEWRITEINPROG).
Definition DIRTY_INPROG : Z := Z.lor (Z.lor VALID DIRTY) CACHEWRITEINPROG.
Definition CLEAN_INPROG : Z := Z.lor (Z.lor VALID DIRTY) DISKWRITEINPROG.
Definition ALREADY_DIRTY : Z := Z.lor VALID DIRTY.
Definition NO_SSD_IO_INPROG : Z := Z.lor VALID INVALID.

(** ** Superblock states, modes, policies *)
Definition CACHE_MD_STATE_DIRTY : Z := 0x55daddee.
Definition CACHE_MD_STATE_CLEAN : Z := 0xacceded1.
Definition CACHE_MD_STATE_FASTCLEAN : Z := 0xcafebabf.
Definition CACHE_MD_STATE_UNSTABLE : Z := 0xdeaddeee.

Definition CACHE_MODE_WB : Z := 1.
Definition CACHE_MODE_RO : Z := 2.
Definition CACHE_MODE_WT : Z := 3.

Definition EIO_CLEAN_START : Z := 1.
Definition EIO_CLEAN_KEEP : Z := 2.

Definition EIO_MAGIC : Z := 0xE10CAC6E.
Definition EIO_BAD_MAGIC : Z := 0xBADCAC6E.
Definition EIO_SB_VERSION : Z := 3.
Definition EIO_SB_MAGIC_VERSION : Z := 3.
Definition EIO_SUPERBLOCK_SIZE : Z := 4096.

Definition CACHE_RELOAD : Z := 1.
Definition CACHE_CREATE : Z := 2.
Definition CACHE_FORCECREATE : Z := 3.

Definition CACHE_REPL_FIFO : Z := 1.
Definition CACHE_REPL_LRU : Z := 2.
Definition CACHE_REPL_RANDOM : Z := 3.
Definition CACHE_REPL_DEFAULT : Z := CACHE_REPL_FIFO.

(** ** Bits of [cache_flags] *)
Definition CACHE_FLAGS_VERBOSE : Z := 2 ^ 0.
Definition CACHE_FLAGS_INVALIDATE : Z := 2 ^ 1.
Definition CACHE_FLAGS_FAST_REMOVE : Z := 2 ^ 2.
Definition CACHE_FLAGS_DEGRADED : Z := 2 ^ 3.
Definition CACHE_FLAGS_SSD_ADD_INPROG : Z := 2 ^ 4.
Definition CACHE_FLAGS_MD8 : Z := 2 ^ 5.
Definition CACHE_FLAGS_FAILED : Z := 2 ^ 6.
Definition CACHE_FLAGS_STALE : Z := 2 ^ 7.
Definition CACHE_FLAGS_SHUTDOWN_INPROG : Z := 2 ^ 8.
Definition CACHE_FLAGS_MOD_INPROG : Z := 2 ^ 9.
Definition CACHE_FLAGS_DELETED : Z := 2 ^ 10.
Definition CACHE_FLAGS_INCORE_ONLY : Z :=
  Z.lor CACHE_FLAGS_DEGRADED (Z.lor CACHE_FLAGS_SSD_ADD_INPROG
    (Z.lor CACHE_FLAGS_FAILED (Z.lor CACHE_FLAGS_SHUTDOWN_INPROG
      (Z.lor CACHE_FLAGS_MOD_INPROG (Z.lor CACHE_FLAGS_STALE CACHE_FLAGS_DELETED))))).

Definition BOOT_FLAG_COLD_ENABLE : Z := 2 ^ 0.
Definition BOOT_FLAG_FORCE_WARM : Z := 2 ^ 1.

Inductive dev_notifier :=
  NOTIFY_INITIALIZER | NOTIFY_SSD_ADD | NOTIFY_SSD_REMOVED | NOTIFY_SRC_REMOVED.

(** ** Error numbers of the kernel *)
Definition EPERM : Z := 1.
Definition EIO : Z := 5.
Definition ENOMEM : Z := 12.
Definition EBUSY : Z := 16.
Definition ENODEV : Z := 19.
Definition EINVAL : Z := 22.

(** ** Arithmetic helpers *)

Definition PAGE_SIZE : Z := 4096.
Definition SECTOR_SHIFT : Z := 9.
Definition SECTORS_PER_PAGE : Z := PAGE_SIZE / 512.

(** [do_div] on a 64-bit dividend and a 32-bit divisor *)
Definition EIO_DIV (dividend_64 divisor_32 : Z) : Z := dividend_64 / divisor_32.
Definition EIO_REM (dividend_64 divisor_32 : Z) : Z := dividend_64 mod divisor_32.
Definition eio_to_sector (size_in_bytes : Z) : Z := Z.shiftr size_in_bytes SECTOR_SHIFT.
(** the kernel's [to_bytes] *)
Definition to_bytes (sectors : Z) : Z := Z.shiftl sectors SECTOR_SHIFT.

(** [EIO_CALCULATE_PERCENTAGE]: both operands are halved until the divisor
    fits in 32 bits; at most 32 rounds, since [h_y32] has 32 bits. *)
Fixpoint calc_pct_loop (fuel : nat) (h_y32 y64 result : Z) : Z * Z :=
  match fuel with
  | O => (y64, result)
  | S n => if h_y32 =? 0 then (y64, result)
           else calc_pct_loop n (Z.shiftr h_y32 1) (Z.shiftr y64 1) (Z.shiftr result 1)
  end.
Definition EIO_CALCULATE_PERCENTAGE (x64 y64 : Z) : Z :=
  let '(y, r) := calc_pct_loop 32 (u32 (Z.shiftr y64 32)) y64 (u64 (x64 * 100)) in
  EIO_DIV r (u32 y).

(** ** Structures *)

Record cache_set := mk_cache_set {
  cs_nr_dirty : Z;           (* u_int32_t nr_dirty *)
  cs_flags : Z;              (* SETFLAG_* *)
  cs_mdreq : option Z        (* pointer to the pending mdupdate_request *)
}.
#[export] Instance cache_set_inhabited : Inhabited cache_set := populate (mk_cache_set 0 0 None).

Definition SETFLAG_CLEAN_INPROG : Z := 1.
Definition SETFLAG_CLEAN_WHOLE : Z := 2.

Record eio_errors := mk_errors {
  disk_read_errors : Z; disk_write_errors : Z;
  ssd_read_errors : Z; ssd_write_errors : Z;
  memory_alloc_errors : Z; no_cache_dev : Z; no_source_dev : Z
}.

Record eio_stats := mk_stats {
  st_reads : Z; st_writes : Z; st_read_hits : Z; st_write_hits : Z;
  st_dirty_write_hits : Z; st_cached_blocks : Z; st_rd_replace : Z;
  st_wr_replace : Z; st_noroom : Z; st_md_write_dirty : Z;
  st_md_ssd_writes : Z; st_uncached_reads : Z; st_uncached_writes : Z;
  st_uncached_map_size : Z; st_uncached_map_uncacheable : Z;
  st_disk_reads : Z; st_disk_writes : Z; st_ssd_reads : Z; st_ssd_writes : Z;
  st_ssd_readfills : Z; st_ssd_readfill_unplugs : Z; st_readdisk : Z;
  st_writedisk : Z; st_readcache : Z; st_readfill : Z; st_writecache : Z;
  st_readcount : Z; st_writecount : Z; st_rdtime_ms : Z; st_wrtime_ms : Z;
  st_cleanings : Z; st_md_write_clean : Z (* never counted *)
}.

Record eio_sysctl := mk_sysctl {
  fast_remove : Z; do_clean : Z;
  dirty_high_threshold : Z; dirty_low_threshold : Z;
  dirty_set_high_threshold : Z; dirty_set_low_threshold : Z;
  time_based_clean_interval : Z; autoclean_threshold : Z; mem_limit_pct : Z;
  zerostats : Z; control : Z; invalidate : Z
}.

(** [struct eio_lru_cache_set], [struct eio_lru_cache_block] (eio_lru.c) and
    [struct eio_fifo_cache_set] (eio_fifo.c). *)
Record eio_lru_cache_set := mk_lru_set { lru_head : Z; lru_tail : Z }.
Record eio_lru_cache_block := mk_lru_block { lru_prev : Z; lru_next : Z }.
Record eio_fifo_cache_set := mk_fifo_set { set_fifo_next : Z; set_clean_next : Z }.
#[export] Instance lru_set_inhabited : Inhabited eio_lru_cache_set := populate (mk_lru_set 0 0).
#[export] Instance lru_block_inhabited : Inhabited eio_lru_cache_block := populate (mk_lru_block 0 0).
#[export] Instance fifo_set_inhabited : Inhabited eio_fifo_cache_set := populate (mk_fifo_set 0 0).

(** [dmc->sp_cache_set], a [void *] whose contents depend on the policy. *)
Inductive sp_sets :=
| SpNull
| SpLru (m : gmap Z eio_lru_cache_set)
| SpFifo (m : gmap Z eio_fifo_cache_set).

(** [struct lru_elem], [struct lru_ls] (eio_setlru.h) *)
Record lru_elem := mk_lru_elem { le_next : Z; le_prev : Z; le_key : Z }.
#[export] Instance lru_elem_inhabited : Inhabited lru_elem := populate (mk_lru_elem 0 0 0).
Record lru_ls := mk_lru_ls {
  ll_head : Z; ll_tail : Z; ll_max : Z; ll_size : Z; ll_elem : gmap Z lru_elem
}.

(** [dmc->policy_ops]: the instance is identified by its policy; its function
    table is [policy_table] in [Policy]. *)
Inductive policy_id := PolFifo | PolLru | PolRand.

Record cache_c := mk_cache_c {
  (* geometry *)
  dmc_size : Z;              (* u_int64_t size, in blocks *)
  assoc : Z;
  block_size : Z;            (* in sectors *)
  block_shift : Z;
  consecutive_shift : Z;
  num_sets : Z;
  num_sets_bits : Z;
  num_sets_mask : Z;
  md_start_sect : Z;
  md_sectors : Z;
  disk_dev_size : Z;         (* disk_dev->bdev->bd_inode->i_size *)
  cache_dev_size : Z;        (* cache_dev->bdev->bd_inode->i_size *)
  cache_dev_start_sect : Z;
  bio_nr_pages : Z;
  (* configuration *)
  mode : Z;
  cache_rdonly : Z;
  cache_flags : Z;
  persistence : Z;
  cold_boot : Z;
  sb_state : Z;
  sb_version : Z;
  req_policy : Z;
  policy_ops : option policy_id;
  sysctl_active : eio_sysctl;
  (* metadata *)
  cache : gmap Z Z;          (* u_int32_t words *)
  cache_md8 : gmap Z Z;      (* u_int64_t words *)
  index_zero : Z;
  (* replacement policy *)
  random : Z;
  sp_cache_blk : gmap Z eio_lru_cache_block;
  sp_cache_set : sp_sets;
  (* cache sets and cleaning *)
  cache_sets : gmap Z cache_set;
  nr_dirty : Z;
  nr_ios : Z;
  cleanq : list Z;
  clean_pendings : Z;
  clean_excess_dirty : Z;
  clean_index : Z;
  dirty_set_lru : option lru_ls;   (* NULL unless write-back *)
  is_clean_aged_sets_sched : Z;
  (* jobs *)
  nr_jobs : Z;
  readfill_queue : list Z;
  readfill_in_prog : Z;
  size_hist : gmap Z Z;
  (* counters *)
  stats : eio_stats;
  errors : eio_errors
}.

Definition lru_sets (d : cache_c) : gmap Z eio_lru_cache_set :=
  match sp_cache_set d with SpLru m => m | _ => ∅ end.
Definition fifo_sets (d : cache_c) : gmap Z eio_fifo_cache_set :=
  match sp_cache_set d with SpFifo m => m | _ => ∅ end.

(** ** Field assignments *)
Definition set_cache v (d : cache_c) := {| d with cache := v |}.
Definition set_cache_md8 v (d : cache_c) := {| d with cache_md8 := v |}.
Definition set_index_zero v (d : cache_c) := {| d with index_zero := v |}.
Definition set_random v (d : cache_c) := {| d with random := v |}.
Definition set_sp_cache_blk v (d : cache_c) := {| d with sp_cache_blk := v |}.
Definition set_sp_cache_set v (d : cache_c) := {| d with sp_cache_set := v |}.
Definition set_cache_sets v (d : cache_c) := {| d with cache_sets := v |}.
Definition set_nr_dirty v (d : cache_c) := {| d with nr_dirty := v |}.
Definition set_nr_ios v (d : cache_c) := {| d with nr_ios := v |}.
Definition set_cleanq v (d : cache_c) := {| d with cleanq := v |}.
Definition set_clean_pendings v (d : cache_c) := {| d with clean_pendings := v |}.
Definition set_clean_excess_dirty v (d : cache_c) := {| d with clean_excess_dirty := v |}.
Definition set_clean_index v (d : cache_c) := {| d with clean_index := v |}.
Definition set_dirty_set_lru v (d : cache_c) := {| d with dirty_set_lru := v |}.
Definition set_is_clean_aged_sets_sched v (d : cache_c) := {| d with is_clean_aged_sets_sched := v |}.
Definition set_nr_jobs v (d : cache_c) := {| d with nr_jobs := v |}.
Definition set_readfill_queue v (d : cache_c) := {| d with readfill_queue := v |}.
Definition set_readfill_in_prog v (d : cache_c) := {| d with readfill_in_prog := v |}.
Definition set_size_hist v (d : cache_c) := {| d with size_hist := v |}.
Definition set_stats v (d : cache_c) := {| d with stats := v |}.
Definition set_errors v (d : cache_c) := {| d with errors := v |}.
Definition set_cache_flags v (d : cache_c) := {| d with cache_flags := v |}.
Definition set_sysctl_active v (d : cache_c) := {| d with sysctl_active := v |}.
Definition set_policy_ops v (d : cache_c) := {| d with policy_ops := v |}.
Definition set_req_policy v (d : cache_c) := {| d with req_policy := v |}.
Definition set_sb_state v (d : cache_c) := {| d with sb_state := v |}.

(** ** Flag tests of [eio.h] *)
Definition CACHE_FAST_REMOVE_IS_SET (d : cache_c) : bool := tst (cache_flags d) CACHE_FLAGS_FAST_REMOVE.
Definition CACHE_DEGRADED_IS_SET (d : cache_c) : bool := tst (cache_flags d) CACHE_FLAGS_DEGRADED.
Definition CACHE_SSD_ADD_INPROG_IS_SET (d : cache_c) : bool := tst (cache_flags d) CACHE_FLAGS_SSD_ADD_INPROG.
Definition CACHE_MD8_IS_SET (d : cache_c) : bool := tst (cache_flags d) CACHE_FLAGS_MD8.
Definition CACHE_FAILED_IS_SET (d : cache_c) : bool := tst (cache_flags d) CACHE_FLAGS_FAILED.
Definition CACHE_STALE_IS_SET (d : cache_c) : bool := tst (cache_flags d) CACHE_FLAGS_STALE.
Definition CACHE_SRC_IS_ABSENT (d : cache_c) : bool := no_source_dev (errors d) =? 1.
Definition EIO_MD8 (d : cache_c) : bool := CACHE_MD8_IS_SET d.

(** [EIO_ROUND_SECTOR], [EIO_ROUND_SET_SECTOR] *)
Definition EIO_ROUND_SECTOR (d : cache_c) (sector : Z) : Z := clr sector (block_size d - 1).
Definition EIO_ROUND_SET_SECTOR (d : cache_c) (sector : Z) : Z :=
  clr sector (u32 (block_size d * assoc d) - 1).

(** [atomic64_inc], [atomic64_add], [atomic64_dec_if_positive] *)
Definition atomic64_inc (x : Z) : Z := i64 (x + 1).
Definition atomic64_dec (x : Z) : Z := i64 (x - 1).
Definition atomic64_add (n x : Z) : Z := i64 (x + n).
Definition atomic64_dec_if_positive (x : Z) : Z := if x - 1 <? 0 then x else x - 1.
