(* ===== verification/Mem.v ===== *)
(** * In-core metadata: [eio_mem.c] and the accessors of [eio.h]

    A cache block has one metadata word: 8 bits of state above the number of
    the source sector it caches.  With at least [2^15] sets the word is 32 bits
    wide and holds a 24-bit compressed sector number, from which the bits that
    the set number determines have been removed; otherwise the word has 64 bits
    and the sector number is stored as it is. *)

From S2P Require Import Prelude Types.

(** ** Layout constants *)
Definition EIO_MAX_SECTOR : Z := 2 ^ 40.
Definition EIO_MD4_DBN_BITS : Z := 32 - 8.
Definition EIO_MD4_DBN_MASK : Z := 2 ^ EIO_MD4_DBN_BITS - 1.
Definition EIO_MD4_INVALID : Z := Z.shiftl INVALID EIO_MD4_DBN_BITS.
Definition EIO_MD8_DBN_BITS : Z := 64 - 8.
Definition EIO_MD8_DBN_MASK : Z := 2 ^ EIO_MD8_DBN_BITS - 1.
Definition EIO_MD8_INVALID : Z := Z.shiftl INVALID EIO_MD8_DBN_BITS.

Definition SECTORS_PER_SET (d : cache_c) : Z := u32 (assoc d * block_size d).
Definition SECTORS_PER_SET_SHIFT (d : cache_c) : Z := consecutive_shift d + block_shift d.
Definition SECTORS_PER_SET_MASK (d : cache_c) : Z := SECTORS_PER_SET d - 1.

(** ** From a sector to its cache set *)

(** [EIO_DBN_TO_SET]: the set number and the [wrapped] bit. *)
Definition EIO_DBN_TO_SET (d : cache_c) (dbn : Z) : Z * Z :=
  let value := Z.shiftr dbn (SECTORS_PER_SET_SHIFT d) in
  let mid_i := Z.land value (num_sets_mask d) in
  if num_sets d <=? mid_i then (mid_i - num_sets d, 1) else (mid_i, 0).

Definition eio_hash_block (d : cache_c) (dbn : Z) : option Z :=
  let '(set_number, _) := EIO_DBN_TO_SET d dbn in
  if set_number <? num_sets d then Some (u32 set_number) else None.

(** ** [eio_mem_init]

    The loop that counts the bits of [num_sets]; a shift by the width of the
    operand is undefined in C, and the function returns [None] there. *)
Fixpoint num_bits_loop (fuel : nat) (num_sets bits : Z) : option Z :=
  match fuel with
  | O => None
  | S n => if Z.shiftr num_sets bits =? 0 then Some bits else num_bits_loop n num_sets (bits + 1)
  end.

Definition set_num_sets ns bits mask (d : cache_c) : cache_c :=
  {| d with num_sets := ns; num_sets_bits := bits; num_sets_mask := mask |}.

Definition eio_mem_init : M cache_c Z := fun d =>
  let num_sets_64 := EIO_DIV (dmc_size d) (assoc d) in
  if 2 ^ 32 - 1 <? num_sets_64 then Some (-1, d)
  else
    match num_bits_loop 32 (u32 num_sets_64) 0 with
    | None => None
    | Some bits =>
      if bits =? 0 then None   (* shift by 64 *)
      else
        let d1 := set_num_sets (u32 num_sets_64) bits (Z.shiftr (2 ^ 64 - 1) (64 - bits)) d in
        if bits <? 16 then
          Some (1, set_cache_flags (Z.lor (cache_flags d1) CACHE_FLAGS_MD8) d1)
        else
          let lsb_bits := u32 (consecutive_shift d1 + block_shift d1) in
          let msb_bits_24 := u32 (24 - 1 - lsb_bits) in
          let max_dbn := u64 (Z.shiftl 1 (u32 (msb_bits_24 + bits + lsb_bits))) in
          if max_dbn <? eio_to_sector (disk_dev_size d1) then
            Some (1, set_cache_flags (Z.lor (cache_flags d1) CACHE_FLAGS_MD8) d1)
          else Some (0, d1)
    end.

(** ** Block states *)
Definition EIO_CACHE_STATE_GET (d : cache_c) (index : Z) : Z :=
  if EIO_MD8 d then u8 (Z.shiftr (cache_md8 d !!! index) EIO_MD8_DBN_BITS)
  else u8 (Z.shiftr (cache d !!! index) EIO_MD4_DBN_BITS).

Definition EIO_CACHE_STATE_SET (d : cache_c) (index cache_state : Z) : cache_c :=
  if EIO_MD8 d then
    set_cache_md8 (<[index := Z.lor (Z.shiftl (u8 cache_state) EIO_MD8_DBN_BITS)
                                (Z.land (cache_md8 d !!! index) EIO_MD8_DBN_MASK)]> (cache_md8 d)) d
  else
    set_cache (<[index := Z.lor (Z.shiftl (u8 cache_state) EIO_MD4_DBN_BITS)
                            (Z.land (cache d !!! index) EIO_MD4_DBN_MASK)]> (cache d)) d.

Definition EIO_CACHE_STATE_OFF (d : cache_c) (index bitmask : Z) : cache_c :=
  EIO_CACHE_STATE_SET d index (clr (EIO_CACHE_STATE_GET d index) bitmask).

Definition EIO_CACHE_STATE_ON (d : cache_c) (index bitmask : Z) : cache_c :=
  EIO_CACHE_STATE_SET d index (Z.lor (EIO_CACHE_STATE_GET d index) bitmask).

(** ** Compressed sector numbers *)
Definition eio_shrink_dbn (d : cache_c) (dbn : Z) : option Z :=
  if EIO_MD8 d then None
  else if dbn =? 0 then Some 0
  else
    let lsb := Z.land dbn (SECTORS_PER_SET_MASK d) in
    let '(_, wrapped) := EIO_DBN_TO_SET d dbn in
    let msb := Z.shiftr dbn (num_sets_bits d + SECTORS_PER_SET_SHIFT d) in
    Some (u32 (Z.lor (Z.lor lsb (Z.shiftl wrapped (SECTORS_PER_SET_SHIFT d)))
                     (Z.shiftl msb (SECTORS_PER_SET_SHIFT d + 1)))).

Definition eio_expand_dbn (d : cache_c) (index : Z) : option Z :=
  if EIO_MD8 d then None
  else if (index =? index_zero d) && (index_zero d <? assoc d) then Some 0
  else
    let dbn_24 := Z.land (cache d !!! index) EIO_MD4_DBN_MASK in
    if (dbn_24 =? 0) && (EIO_CACHE_STATE_GET d index =? INVALID) then Some 0
    else
      let set_number := EIO_DIV index (assoc d) in
      let lsb := Z.land dbn_24 (SECTORS_PER_SET_MASK d) in
      let msb := Z.shiftr dbn_24 (SECTORS_PER_SET_SHIFT d + 1) in
      let hi := Z.shiftl msb (num_sets_bits d + SECTORS_PER_SET_SHIFT d) in
      let mid := if negb (Z.land dbn_24 (SECTORS_PER_SET d) =? 0)
                 then Z.shiftl (set_number + num_sets d) (SECTORS_PER_SET_SHIFT d)
                 else Z.shiftl set_number (SECTORS_PER_SET_SHIFT d) in
      let dbn_40 := u64 (Z.lor (Z.lor hi mid) lsb) in
      if dbn_40 <? EIO_MAX_SECTOR then Some dbn_40 else None.

Definition eio_invalidate_md (d : cache_c) (index : Z) : cache_c :=
  if EIO_MD8 d then set_cache_md8 (<[index := EIO_MD8_INVALID]> (cache_md8 d)) d
  else set_cache (<[index := EIO_MD4_INVALID]> (cache d)) d.

(** the "excessive debugging" tail shared by the two setters *)
Definition forget_index_zero (d : cache_c) (index dbn : Z) : cache_c :=
  if (index_zero d <? assoc d) && (index =? index_zero d) && negb (dbn =? 0)
  then set_index_zero (assoc d) d else d.

Definition eio_md4_dbn_set (d : cache_c) (index dbn_24 : Z) : option cache_c :=
  if negb (clr dbn_24 EIO_MD4_DBN_MASK =? 0) then None
  else
    let w := Z.lor (clr (cache d !!! index) EIO_MD4_DBN_MASK) dbn_24 in
    Some (forget_index_zero (set_cache (<[index := w]> (cache d)) d) index dbn_24).

Definition eio_md8_dbn_set (d : cache_c) (index dbn : Z) : option cache_c :=
  if negb (clr dbn EIO_MD8_DBN_MASK =? 0) then None
  else
    let w := Z.lor (clr (cache_md8 d !!! index) EIO_MD8_DBN_MASK) dbn in
    Some (forget_index_zero (set_cache_md8 (<[index := w]> (cache_md8 d)) d) index dbn).

Definition EIO_DBN_SET (d : cache_c) (index dbn : Z) : option cache_c :=
  let r := if EIO_MD8 d then eio_md8_dbn_set d index dbn
           else match eio_shrink_dbn d dbn with
                | Some dbn_24 => eio_md4_dbn_set d index dbn_24
                | None => None
                end in
  match r with
  | Some d' => Some (if dbn =? 0 then set_index_zero index d' else d')
  | None => None
  end.

Definition EIO_DBN_GET (d : cache_c) (index : Z) : option Z :=
  if EIO_MD8 d then Some (Z.land (cache_md8 d !!! index) EIO_MD8_DBN_MASK)
  else eio_expand_dbn d index.

(** ** Geometry

    What [eio_md_create] and [eio_mem_init] establish and no later operation
    changes: the associativity and the block size are powers of two, the cache
    holds [num_sets] sets of [assoc] blocks, and [num_sets_bits] is the number
    of bits of [num_sets]. *)
Record wf_geom (d : cache_c) : Prop := {
  geo_cs : 0 <= consecutive_shift d;
  geo_bs : 0 <= block_shift d;
  geo_lsb : consecutive_shift d + block_shift d <= 23;
  geo_assoc : assoc d = 2 ^ consecutive_shift d;
  geo_block : block_size d = 2 ^ block_shift d;
  geo_bits : 1 <= num_sets_bits d <= 31;
  geo_sets : 2 ^ (num_sets_bits d - 1) <= num_sets d < 2 ^ num_sets_bits d;
  geo_mask : num_sets_mask d = 2 ^ num_sets_bits d - 1;
  geo_size : dmc_size d = num_sets d * assoc d
}.

(** the fields that fix the geometry and the metadata format *)
Definition geom (d : cache_c) :=
  (dmc_size d, assoc d, block_size d, block_shift d, consecutive_shift d,
   num_sets d, num_sets_bits d, num_sets_mask d, EIO_MD8 d).

Lemma wf_geom_eq d d' : geom d' = geom d -> wf_geom d -> wf_geom d'.
Proof.
  unfold geom. intros E H. inversion E as [[E1 E2 E3 E4 E5 E6 E7 E8 E9]].
  destruct H. constructor; rewrite ?E1, ?E2, ?E3, ?E4, ?E5, ?E6, ?E7, ?E8; done.
Qed.

Lemma assoc_pos d : wf_geom d -> 0 < assoc d.
Proof. intros []. rewrite geo_assoc0. by apply pow2_pos. Qed.
Lemma block_size_pos d : wf_geom d -> 0 < block_size d.
Proof. intros []. rewrite geo_block0. by apply pow2_pos. Qed.
Lemma num_sets_pos d : wf_geom d -> 0 < num_sets d.
Proof. intros []. pose proof (pow2_pos (num_sets_bits d - 1)). lia. Qed.
Lemma sets_count d : wf_geom d -> Z.shiftr (dmc_size d) (consecutive_shift d) = num_sets d.
Proof.
  intros []. rewrite Z.shiftr_div_pow2, geo_size0, geo_assoc0 by lia.
  apply Z.div_mul. pose proof (pow2_pos (consecutive_shift d)). lia.
Qed.
Lemma i32_small x : - 2 ^ 31 <= x < 2 ^ 31 -> i32 x = x.
Proof. intros. unfold i32. rewrite Z.mod_small; lia. Qed.
(** the loop bound [(int)(dmc->size >> dmc->consecutive_shift)] *)
Lemma sets_count_i32 d : wf_geom d -> i32 (Z.shiftr (dmc_size d) (consecutive_shift d)) = num_sets d.
Proof.
  intros Hg. rewrite sets_count by done. apply i32_small. pose proof (num_sets_pos d Hg).
  pose proof (geo_sets d Hg). pose proof (geo_bits d Hg).
  pose proof (Z.pow_le_mono_r 2 (num_sets_bits d) 31). lia.
Qed.
#[export] Hint Resolve assoc_pos block_size_pos num_sets_pos : eio.

Lemma sectors_per_set_eq d : wf_geom d ->
  SECTORS_PER_SET d = 2 ^ SECTORS_PER_SET_SHIFT d.
Proof.
  intros []. unfold SECTORS_PER_SET, SECTORS_PER_SET_SHIFT, u32.
  rewrite geo_assoc0, geo_block0, <-Z.pow_add_r by lia.
  apply Z.mod_small. split; [apply Z.pow_nonneg; lia|].
  apply Z.pow_lt_mono_r; lia.
Qed.

(** ** Packing three bit fields *)
Lemma pack_fields lsb w msb sh :
  0 <= sh -> 0 <= lsb < 2 ^ sh -> 0 <= w <= 1 -> 0 <= msb ->
  Z.lor (Z.lor lsb (Z.shiftl w sh)) (Z.shiftl msb (sh + 1)) =
  lsb + w * 2 ^ sh + msb * 2 ^ (sh + 1).
Proof.
  intros Hsh Hl Hw Hm.
  rewrite (Z.lor_comm lsb), lor_shiftl_add by lia.
  rewrite Z.lor_comm, lor_shiftl_add; [lia|lia|].
  rewrite Z.pow_add_r by lia. nia.
Qed.

Lemma unpack_fields lsb w msb sh (n := lsb + w * 2 ^ sh + msb * 2 ^ (sh + 1)) :
  0 <= sh -> 0 <= lsb < 2 ^ sh -> 0 <= w <= 1 -> 0 <= msb ->
  n mod 2 ^ sh = lsb /\ Z.shiftr n (sh + 1) = msb /\ Z.testbit n sh = (w =? 1).
Proof.
  intros Hsh Hl Hw Hm. subst n. pose proof (pow2_pos sh Hsh).
  rewrite Z.shiftr_div_pow2, Z.testbit_eqb by lia.
  rewrite (Z.pow_add_r 2 sh 1), Z.pow_1_r by lia.
  replace (lsb + w * 2 ^ sh + msb * (2 ^ sh * 2)) with (lsb + (w + 2 * msb) * 2 ^ sh) by ring.
  split; [|split].
  - rewrite Z.mod_add by lia. by apply Z.mod_small.
  - rewrite <-Z.div_div, Z.div_add by lia.
    rewrite (Z.div_small lsb) by lia. rewrite Z.add_0_l.
    rewrite (Z.mul_comm 2), Z.div_add by lia. rewrite Z.div_small; lia.
  - rewrite Z.div_add, (Z.div_small lsb), Z.add_0_l by lia.
    rewrite (Z.mul_comm 2), Z.mod_add by lia. by rewrite Z.mod_small by lia.
Qed.

(** ** The set of a sector *)
Definition dbn_set (d : cache_c) (dbn : Z) : Z := (EIO_DBN_TO_SET d dbn).1.
Definition dbn_wrapped (d : cache_c) (dbn : Z) : Z := (EIO_DBN_TO_SET d dbn).2.

Lemma dbn_to_set_spec d dbn : wf_geom d -> 0 <= dbn ->
  0 <= dbn_set d dbn < num_sets d /\ 0 <= dbn_wrapped d dbn <= 1 /\
  dbn_set d dbn + dbn_wrapped d dbn * num_sets d =
    dbn / 2 ^ SECTORS_PER_SET_SHIFT d mod 2 ^ num_sets_bits d.
Proof.
  intros Hg Hd. pose proof (num_sets_pos d Hg) as Hns. destruct Hg.
  unfold dbn_set, dbn_wrapped, EIO_DBN_TO_SET.
  rewrite geo_mask0, land_ones_mod by lia.
  rewrite Z.shiftr_div_pow2 by (unfold SECTORS_PER_SET_SHIFT; lia).
  set (mid := _ mod _).
  assert (0 <= mid < 2 ^ num_sets_bits d) by (apply Z.mod_pos_bound, pow2_pos; lia).
  assert (2 ^ num_sets_bits d = 2 * 2 ^ (num_sets_bits d - 1)).
  { rewrite <-Z.pow_succ_r by lia. f_equal; lia. }
  destruct (Z.leb_spec (num_sets d) mid); simpl; lia.
Qed.

Lemma eio_hash_block_ok d dbn : wf_geom d -> 0 <= dbn ->
  eio_hash_block d dbn = Some (dbn_set d dbn).
Proof.
  intros Hg Hd. destruct (dbn_to_set_spec d dbn Hg Hd) as (Hs & _ & _).
  unfold eio_hash_block, dbn_set in *. destruct (EIO_DBN_TO_SET d dbn) as [s w]; simpl in *.
  destruct Hg. destruct (Z.ltb_spec s (num_sets d)); [|lia].
  f_equal. unfold u32. apply Z.mod_small.
  pose proof (Z.pow_le_mono_r 2 (num_sets_bits d) 32). lia.
Qed.

(** a sector is the concatenation of its four fields *)
Lemma dbn_decompose d dbn (sh := SECTORS_PER_SET_SHIFT d) : wf_geom d -> 0 <= dbn ->
  dbn = dbn / 2 ^ (num_sets_bits d + sh) * 2 ^ (num_sets_bits d + sh) +
        (dbn_set d dbn + dbn_wrapped d dbn * num_sets d) * 2 ^ sh + dbn mod 2 ^ sh.
Proof.
  intros Hg Hd. destruct (dbn_to_set_spec d dbn Hg Hd) as (_ & _ & ->).
  destruct Hg. subst sh. set (sh := SECTORS_PER_SET_SHIFT d).
  assert (0 <= sh) by (subst sh; unfold SECTORS_PER_SET_SHIFT; lia).
  rewrite Z.pow_add_r by lia.
  rewrite (Z.mul_comm (2 ^ num_sets_bits d)), <-Z.div_div by (pose proof (pow2_pos sh); pose proof (pow2_pos (num_sets_bits d)); lia).
  pose proof (pow2_pos sh). pose proof (pow2_pos (num_sets_bits d)).
  pose proof (Z.div_mod dbn (2 ^ sh)). pose proof (Z.div_mod (dbn / 2 ^ sh) (2 ^ num_sets_bits d)).
  nia.
Qed.

(** ** States and stored sector numbers as independent fields of the word *)

(** the sector-number field of the metadata word *)
Definition md_raw (d : cache_c) (i : Z) : Z :=
  if EIO_MD8 d then Z.land (cache_md8 d !!! i) EIO_MD8_DBN_MASK
  else Z.land (cache d !!! i) EIO_MD4_DBN_MASK.

(** every metadata word lies in its array *)
Definition md_dom (d : cache_c) : gset Z :=
  if EIO_MD8 d then dom (cache_md8 d) else dom (cache d).

Lemma word_state s x k : 0 <= k -> 0 <= s < 256 ->
  u8 (Z.shiftr (Z.lor (Z.shiftl s k) (Z.land x (2 ^ k - 1))) k) = s.
Proof.
  intros Hk Hs. rewrite land_ones_mod by lia.
  pose proof (pow2_pos k Hk). pose proof (Z.mod_pos_bound x (2 ^ k)).
  rewrite lor_shiftl_add, Z.shiftr_div_pow2, Z.div_add_l by lia.
  rewrite Z.div_small by lia. unfold u8. rewrite Z.mod_small; lia.
Qed.

Lemma word_raw s x k : 0 <= k ->
  Z.land (Z.lor (Z.shiftl s k) (Z.land x (2 ^ k - 1))) (2 ^ k - 1) = Z.land x (2 ^ k - 1).
Proof.
  intros Hk. rewrite !land_ones_mod by lia.
  pose proof (pow2_pos k Hk). pose proof (Z.mod_pos_bound x (2 ^ k)).
  rewrite lor_shiftl_add, Z.add_comm, Z.mod_add by lia. apply Z.mod_small. lia.
Qed.

Lemma u8_small s : 0 <= s < 256 -> u8 s = s.
Proof. intros. unfold u8. by apply Z.mod_small. Qed.
Lemma u8_range s : 0 <= u8 s < 256.
Proof. unfold u8. apply Z.mod_pos_bound. lia. Qed.

Lemma geom_set_cache v d : geom (set_cache v d) = geom d. Proof. done. Qed.
Lemma geom_set_cache_md8 v d : geom (set_cache_md8 v d) = geom d. Proof. done. Qed.

Section block_state.
Implicit Types d : cache_c.

Lemma state_set_geom d i s : geom (EIO_CACHE_STATE_SET d i s) = geom d.
Proof. unfold EIO_CACHE_STATE_SET. by destruct (EIO_MD8 d). Qed.

Lemma state_set_md8 d i s : EIO_MD8 (EIO_CACHE_STATE_SET d i s) = EIO_MD8 d.
Proof. unfold EIO_CACHE_STATE_SET. destruct (EIO_MD8 d) eqn:E; exact E. Qed.

Lemma state_get_set_eq d i s : 0 <= s < 256 ->
  EIO_CACHE_STATE_GET (EIO_CACHE_STATE_SET d i s) i = s.
Proof.
  intros Hs. unfold EIO_CACHE_STATE_GET. rewrite state_set_md8.
  unfold EIO_CACHE_STATE_SET. rewrite (u8_small s Hs).
  destruct (EIO_MD8 d) eqn:E; simpl; rewrite lookup_total_insert_eq;
    apply word_state; unfold EIO_MD8_DBN_BITS, EIO_MD4_DBN_BITS; lia.
Qed.

Lemma state_get_set_ne d i j s : i <> j ->
  EIO_CACHE_STATE_GET (EIO_CACHE_STATE_SET d i s) j = EIO_CACHE_STATE_GET d j.
Proof.
  intros Hne. unfold EIO_CACHE_STATE_GET. rewrite state_set_md8.
  unfold EIO_CACHE_STATE_SET. destruct (EIO_MD8 d) eqn:E; simpl;
    by rewrite lookup_total_insert_ne.
Qed.

Lemma state_set_raw d i s j : md_raw (EIO_CACHE_STATE_SET d i s) j = md_raw d j.
Proof.
  unfold md_raw. rewrite state_set_md8. unfold EIO_CACHE_STATE_SET.
  destruct (EIO_MD8 d) eqn:E; simpl; (destruct (decide (i = j)) as [->|];
    [rewrite lookup_total_insert_eq; apply word_raw;
       unfold EIO_MD8_DBN_BITS, EIO_MD4_DBN_BITS; lia
    |by rewrite lookup_total_insert_ne]).
Qed.

Lemma state_set_index_zero d i s : index_zero (EIO_CACHE_STATE_SET d i s) = index_zero d.
Proof. unfold EIO_CACHE_STATE_SET. by destruct (EIO_MD8 d). Qed.

Lemma state_get_range d i : 0 <= EIO_CACHE_STATE_GET d i < 256.
Proof. unfold EIO_CACHE_STATE_GET. destruct (EIO_MD8 d); apply u8_range. Qed.

Lemma state_set_dom d i s : i ∈ md_dom d -> md_dom (EIO_CACHE_STATE_SET d i s) = md_dom d.
Proof.
  unfold md_dom. rewrite state_set_md8. unfold EIO_CACHE_STATE_SET.
  destruct (EIO_MD8 d) eqn:E; simpl; intros; rewrite dom_insert_L; set_solver.
Qed.
End block_state.

(** [clr] and [lor] with a byte mask stay in the byte *)
Lemma lor_byte a b : 0 <= a < 256 -> 0 <= b < 256 -> 0 <= Z.lor a b < 256.
Proof.
  intros Ha Hb. split; [apply Z.lor_nonneg; lia|].
  destruct (Z.eq_dec (Z.lor a b) 0) as [->|Hne]; [lia|].
  assert (0 <= Z.lor a b) by (apply Z.lor_nonneg; lia).
  apply (Z.log2_lt_pow2 _ 8); [lia|]. rewrite Z.log2_lor by lia.
  assert (Z.log2 a < 8) by (destruct (Z.eq_dec a 0) as [->|]; [done|apply Z.log2_lt_pow2; lia]).
  assert (Z.log2 b < 8) by (destruct (Z.eq_dec b 0) as [->|]; [done|apply Z.log2_lt_pow2; lia]).
  lia.
Qed.
Lemma clr_byte a b : 0 <= a < 256 -> 0 <= clr a b < 256.
Proof.
  intros Ha. unfold clr. split.
  - apply Z.ldiff_nonneg. lia.
  - assert (E : Z.ldiff a b + Z.land a b = a).
    { rewrite Z.add_nocarry_lor; [apply Z.lor_ldiff_and|].
      rewrite (Z.land_comm a b), Z.land_assoc, Z.land_ldiff. done. }
    assert (0 <= Z.land a b) by (apply Z.land_nonneg; lia). lia.
Qed.

Lemma state_get_on_eq d i m : 0 <= m < 256 ->
  EIO_CACHE_STATE_GET (EIO_CACHE_STATE_ON d i m) i = Z.lor (EIO_CACHE_STATE_GET d i) m.
Proof. intros. apply state_get_set_eq, lor_byte; [apply state_get_range|done]. Qed.
Lemma state_get_off_eq d i m :
  EIO_CACHE_STATE_GET (EIO_CACHE_STATE_OFF d i m) i = clr (EIO_CACHE_STATE_GET d i) m.
Proof. intros. apply state_get_set_eq, clr_byte, state_get_range. Qed.

(** ** Sector numbers *)

(** clearing and setting the sector-number field of a word *)
Lemma word_set_raw x v k : 0 <= k -> 0 <= v < 2 ^ k ->
  Z.land (Z.lor (clr x (2 ^ k - 1)) v) (2 ^ k - 1) = v /\
  Z.shiftr (Z.lor (clr x (2 ^ k - 1)) v) k = Z.shiftr x k.
Proof.
  intros Hk Hv. unfold clr.
  replace (2 ^ k - 1) with (Z.ones k) by (rewrite Z.ones_equiv; lia).
  rewrite Z.ldiff_ones_r by lia. rewrite lor_shiftl_add by lia.
  rewrite Z.land_ones, !Z.shiftr_div_pow2 by lia. pose proof (pow2_pos k Hk).
  rewrite Z.add_comm, Z.mod_add, Z.div_add, Z.mod_small, Z.div_small by lia. lia.
Qed.

Lemma mask_clear v k : 0 <= k -> 0 <= v < 2 ^ k -> clr v (2 ^ k - 1) = 0.
Proof.
  intros Hk Hv. unfold clr.
  replace (2 ^ k - 1) with (Z.ones k) by (rewrite Z.ones_equiv; lia).
  rewrite Z.ldiff_ones_r, Z.shiftr_div_pow2, Z.div_small by lia. apply Z.shiftl_0_l.
Qed.

(** the compressed form of a sector *)
Definition shrunk (d : cache_c) (dbn : Z) : Z :=
  let sh := SECTORS_PER_SET_SHIFT d in
  dbn mod 2 ^ sh + dbn_wrapped d dbn * 2 ^ sh
  + dbn / 2 ^ (num_sets_bits d + sh) * 2 ^ (sh + 1).

(** the largest sector the compressed form can hold, as [eio_mem_init] computes it *)
Definition md4_limit (d : cache_c) : Z := 2 ^ (23 + num_sets_bits d).

Section sectors.
Context (d : cache_c) (Hg : wf_geom d).
Abbreviation sh := (SECTORS_PER_SET_SHIFT d).

Lemma sh_range : 0 <= sh <= 23.
Proof. destruct Hg. unfold SECTORS_PER_SET_SHIFT. lia. Qed.

Lemma shrunk_fields dbn : 0 <= dbn < md4_limit d ->
  0 <= dbn mod 2 ^ sh < 2 ^ sh /\ 0 <= dbn_wrapped d dbn <= 1 /\
  0 <= dbn / 2 ^ (num_sets_bits d + sh) < 2 ^ (23 - sh).
Proof.
  intros Hd. pose proof sh_range. destruct Hg.
  destruct (dbn_to_set_spec d dbn Hg) as (_ & ? & _); [lia|].
  pose proof (pow2_pos (num_sets_bits d + sh)).
  split; [apply Z.mod_pos_bound, pow2_pos; lia|]. split; [done|].
  split; [apply Z.div_pos; lia|]. apply Z.div_lt_upper_bound; [lia|].
  rewrite <-Z.pow_add_r by lia. unfold md4_limit in Hd.
  replace (num_sets_bits d + sh + (23 - sh)) with (23 + num_sets_bits d) by lia. lia.
Qed.

Lemma shrunk_range dbn : 0 <= dbn < md4_limit d -> 0 <= shrunk d dbn < 2 ^ 24.
Proof.
  intros Hd. destruct (shrunk_fields dbn Hd) as (? & ? & ?). pose proof sh_range.
  unfold shrunk. assert (E : 2 ^ 24 = 2 ^ (23 - sh) * 2 ^ (sh + 1)).
  { rewrite <-Z.pow_add_r by lia. f_equal. lia. }
  rewrite E. rewrite (Z.pow_add_r 2 sh 1) in * by lia. nia.
Qed.

Lemma shrunk_0 : shrunk d 0 = 0.
Proof.
  unfold shrunk. rewrite Zmod_0_l, !Zdiv_0_l.
  pose proof (dbn_to_set_spec d 0 Hg). pose proof (num_sets_pos d Hg).
  rewrite Zdiv_0_l, Zmod_0_l in *. nia.
Qed.

Lemma eio_shrink_dbn_ok dbn : EIO_MD8 d = false -> 0 <= dbn < md4_limit d ->
  eio_shrink_dbn d dbn = Some (shrunk d dbn).
Proof.
  intros H4 Hd. unfold eio_shrink_dbn. rewrite H4. pose proof sh_range.
  destruct (shrunk_fields dbn Hd) as (? & ? & ?).
  destruct (Z.eqb_spec dbn 0) as [->|Hne].
  - by rewrite shrunk_0.
  - unfold SECTORS_PER_SET_MASK. rewrite sectors_per_set_eq, land_ones_mod by (done || lia).
    unfold dbn_wrapped in *. pose proof (shrunk_range dbn Hd) as Hr. unfold shrunk, dbn_wrapped in *.
    destruct (EIO_DBN_TO_SET d dbn) as [s w] eqn:E; simpl in *.
    destruct Hg. rewrite Z.shiftr_div_pow2, pack_fields by lia.
    f_equal. unfold u32. rewrite Z.mod_small; lia.
Qed.

Lemma dbn_set_zero : dbn_set d 0 = 0.
Proof.
  destruct (dbn_to_set_spec d 0 Hg) as (? & ? & E); [lia|]. pose proof (num_sets_pos d Hg).
  rewrite Zdiv_0_l, Zmod_0_l in E. nia.
Qed.

(** the arithmetic of [eio_expand_dbn]: the compressed form, put back together
    with the set number, is the sector *)
Lemma expand_core i dbn (n := shrunk d dbn) :
  0 <= dbn < md4_limit d -> i / assoc d = dbn_set d dbn ->
  u64 (Z.lor (Z.lor (Z.shiftl (Z.shiftr n (sh + 1)) (num_sets_bits d + sh))
                (if negb (Z.land n (SECTORS_PER_SET d) =? 0)
                 then Z.shiftl (EIO_DIV i (assoc d) + num_sets d) sh
                 else Z.shiftl (EIO_DIV i (assoc d)) sh))
             (Z.land n (SECTORS_PER_SET_MASK d))) = dbn.
Proof.
  intros Hd Hi. pose proof sh_range as Hsh.
  destruct (shrunk_fields dbn Hd) as (Hl & Hw & Hm).
  destruct (dbn_to_set_spec d dbn Hg) as (Hs & _ & Hmid); [lia|].
  destruct (unpack_fields _ _ _ sh (proj1 Hsh) Hl Hw (proj1 Hm)) as (E1 & E2 & E3).
  unfold SECTORS_PER_SET_MASK, EIO_DIV. rewrite Hi, sectors_per_set_eq by done.
  change (negb _) with (tst n (2 ^ sh)). rewrite tst_spec, land_ones_mod by lia.
  subst n. unfold shrunk in *. rewrite E1, E2, E3.
  replace (if dbn_wrapped d dbn =? 1 then _ else _)
    with (Z.shiftl (dbn_set d dbn + dbn_wrapped d dbn * num_sets d) sh)
    by (assert (dbn_wrapped d dbn = 0 \/ dbn_wrapped d dbn = 1) as [->| ->] by lia; simpl; f_equal; lia).
  assert (Hb : 0 <= dbn / 2 ^ sh mod 2 ^ num_sets_bits d < 2 ^ num_sets_bits d)
    by (apply Z.mod_pos_bound, pow2_pos; destruct Hg; lia).
  pose proof (dbn_decompose d dbn Hg (proj1 Hd)) as Hdec. rewrite <-Hmid in Hb.
  set (mid := dbn_set d dbn + _) in *. set (msb := dbn / _) in *.
  destruct Hg. pose proof (pow2_pos sh). rewrite <-Z.shiftl_shiftl by lia.
  rewrite <-Z.shiftl_lor, lor_shiftl_add by lia. rewrite lor_shiftl_add by lia.
  unfold u64. rewrite Z.mod_small.
  - rewrite Z.pow_add_r in Hdec by lia. lia.
  - assert (md4_limit d <= 2 ^ 64) by (apply Z.pow_le_mono_r; lia).
    rewrite Z.pow_add_r in Hdec by lia. lia.
Qed.

(** [eio_expand_dbn] undoes the compression when the block lies in the set of
    the sector. *)
Lemma expand_shrunk i dbn :
  EIO_MD8 d = false -> 0 <= dbn < md4_limit d -> dbn < EIO_MAX_SECTOR ->
  i / assoc d = dbn_set d dbn ->
  Z.land (cache d !!! i) EIO_MD4_DBN_MASK = shrunk d dbn ->
  (i = index_zero d -> index_zero d < assoc d -> dbn = 0) ->
  (EIO_CACHE_STATE_GET d i = INVALID -> shrunk d dbn = 0 -> dbn = 0) ->
  eio_expand_dbn d i = Some dbn.
Proof.
  intros H4 Hd Hmax Hi Hraw Hz Hinv. unfold eio_expand_dbn. rewrite H4, Hraw.
  destruct (_ && _) eqn:E1.
  { rewrite Hz; [done| |]; apply andb_true_iff in E1; lia. }
  destruct ((shrunk d dbn =? 0) && _) eqn:E2.
  { rewrite Hinv; [done| |]; apply andb_true_iff in E2; lia. }
  cbv zeta. rewrite expand_core by done.
  destruct (Z.ltb_spec dbn EIO_MAX_SECTOR); [done|lia].
Qed.
End sectors.

(** ** Reading and writing sector numbers *)

(** [index_zero], when it designates a block, designates one whose
    sector-number field is zero. *)
Definition wf_zero (d : cache_c) : Prop :=
  0 <= index_zero d /\ (index_zero d < assoc d -> md_raw d (index_zero d) = 0).

(** the sectors a metadata word can represent *)
Definition dbn_ok (d : cache_c) (dbn : Z) : Prop :=
  0 <= dbn /\
  if EIO_MD8 d then dbn < 2 ^ EIO_MD8_DBN_BITS else dbn < md4_limit d /\ dbn < EIO_MAX_SECTOR.

Lemma geom_fields d d' : geom d' = geom d ->
  dmc_size d' = dmc_size d /\ assoc d' = assoc d /\ block_size d' = block_size d /\
  block_shift d' = block_shift d /\ consecutive_shift d' = consecutive_shift d /\
  num_sets d' = num_sets d /\ num_sets_bits d' = num_sets_bits d /\
  num_sets_mask d' = num_sets_mask d /\ EIO_MD8 d' = EIO_MD8 d.
Proof. unfold geom. intros E. inversion E. done. Qed.

Lemma geom_dbn_set d d' dbn : geom d' = geom d -> dbn_set d' dbn = dbn_set d dbn.
Proof.
  intros (_ & _ & _ & E1 & E2 & E3 & _ & E4 & _)%geom_fields.
  unfold dbn_set, EIO_DBN_TO_SET, SECTORS_PER_SET_SHIFT. by rewrite E1, E2, E3, E4.
Qed.

Lemma geom_dbn_ok d d' dbn : geom d' = geom d -> dbn_ok d dbn -> dbn_ok d' dbn.
Proof.
  intros (_ & _ & _ & _ & _ & _ & E3 & _ & E9)%geom_fields.
  unfold dbn_ok, md4_limit. by rewrite E9, E3.
Qed.

Lemma expand_zero d i : EIO_MD8 d = false -> 0 <= i < assoc d -> md_raw d i = 0 ->
  eio_expand_dbn d i = Some 0.
Proof.
  intros H4 Hi Hr. unfold eio_expand_dbn, md_raw in *. rewrite H4 in *. rewrite Hr.
  destruct (_ && _); [done|]. destruct (_ && _); [done|].
  unfold EIO_DIV. rewrite (Z.div_small i) by lia.
  rewrite Z.shiftr_0_l, !Z.shiftl_0_l, !Z.land_0_l. done.
Qed.

(** The sector of a block depends on its word only, not on which block holds
    sector zero. *)
Lemma dbn_get_indep d d' j :
  geom d' = geom d -> wf_zero d -> wf_zero d' -> 0 <= j ->
  md_raw d' j = md_raw d j ->
  (EIO_CACHE_STATE_GET d' j = INVALID <-> EIO_CACHE_STATE_GET d j = INVALID) ->
  EIO_DBN_GET d' j = EIO_DBN_GET d j.
Proof.
  intros Hgeo [_ Hz] [_ Hz'] Hj Hraw Hst.
  destruct (geom_fields _ _ Hgeo) as (_ & E2 & E3 & E4 & E5 & E6 & E7 & _ & E9).
  unfold EIO_DBN_GET. destruct (EIO_MD8 d) eqn:H8; rewrite E9.
  { unfold md_raw in Hraw. rewrite H8, E9 in Hraw. by rewrite Hraw. }
  destruct (decide (j = index_zero d /\ index_zero d < assoc d)) as [[-> Hlt]|Hn].
  { rewrite !expand_zero; try done; rewrite ?Hraw; auto; lia. }
  destruct (decide (j = index_zero d' /\ index_zero d' < assoc d')) as [[-> Hlt]|Hn'].
  { rewrite !expand_zero; try done; rewrite <-?Hraw; auto; lia. }
  assert (Z0 : forall e, ~ (j = index_zero e /\ index_zero e < assoc e) ->
            (j =? index_zero e) && (index_zero e <? assoc e) = false).
  { intros e He. apply andb_false_iff. destruct (Z.eqb_spec j (index_zero e)); [|by left].
    right. apply Z.ltb_ge. destruct (Z.lt_ge_cases (index_zero e) (assoc e)); [|done]. exfalso; auto. }
  unfold eio_expand_dbn, md_raw in *. rewrite H8, E9 in *. rewrite !Z0 by done. rewrite Hraw.
  replace (EIO_CACHE_STATE_GET d' j =? INVALID) with (EIO_CACHE_STATE_GET d j =? INVALID)
    by (apply eq_true_iff_eq; rewrite !Z.eqb_eq; tauto).
  unfold SECTORS_PER_SET_MASK, SECTORS_PER_SET_SHIFT, SECTORS_PER_SET.
  by rewrite E2, E3, E4, E5, E6, E7.
Qed.

(** Only the metadata words and [index_zero] differ. *)
Definition md_only (d d' : cache_c) : Prop :=
  exists c c8 z, d' = set_index_zero z (set_cache c (set_cache_md8 c8 d)).

#[export] Instance md_only_refl : Reflexive md_only.
Proof. intros d. exists (cache d), (cache_md8 d), (index_zero d). by destruct d. Qed.
#[export] Instance md_only_trans : Transitive md_only.
Proof. intros d1 d2 d3 (c & c8 & z & ->) (c' & c8' & z' & ->). exists c', c8', z'. by destruct d1. Qed.

Lemma md_only_geom d d' : md_only d d' -> geom d' = geom d.
Proof. by intros (c & c8 & z & ->). Qed.

Lemma md_only_set_cache v d : md_only d (set_cache v d).
Proof. exists v, (cache_md8 d), (index_zero d). by destruct d. Qed.
Lemma md_only_set_cache_md8 v d : md_only d (set_cache_md8 v d).
Proof. exists (cache d), v, (index_zero d). by destruct d. Qed.

Lemma state_set_md_only d i s : md_only d (EIO_CACHE_STATE_SET d i s).
Proof.
  unfold EIO_CACHE_STATE_SET.
  destruct (EIO_MD8 d); [apply md_only_set_cache_md8|apply md_only_set_cache].
Qed.
#[export] Hint Resolve state_set_md_only md_only_geom : eio.

(** what [EIO_DBN_SET] stores in the sector-number field *)
Definition stored_dbn (d : cache_c) (dbn : Z) : Z := if EIO_MD8 d then dbn else shrunk d dbn.

Definition next_index_zero (d : cache_c) (i dbn : Z) : Z :=
  if dbn =? 0 then i
  else if (index_zero d <? assoc d) && (i =? index_zero d) && negb (stored_dbn d dbn =? 0)
  then assoc d else index_zero d.

Lemma state_set_raw_word x v k : 0 <= k -> 0 <= v < 2 ^ k ->
  u8 (Z.shiftr (Z.lor (clr x (2 ^ k - 1)) v) k) = u8 (Z.shiftr x k).
Proof. intros Hk Hv. by destruct (word_set_raw x v k Hk Hv) as [_ ->]. Qed.

Lemma forget_index_zero_eq d i v :
  forget_index_zero d i v =
  set_index_zero (if (index_zero d <? assoc d) && (i =? index_zero d) && negb (v =? 0)
                  then assoc d else index_zero d) d.
Proof. unfold forget_index_zero. destruct (_ && _); [done|]. by destruct d. Qed.

(** replacing the sector-number field of a word *)
Definition put_raw (d : cache_c) (i v : Z) : cache_c :=
  if EIO_MD8 d then set_cache_md8 (<[i := Z.lor (clr (cache_md8 d !!! i) EIO_MD8_DBN_MASK) v]> (cache_md8 d)) d
  else set_cache (<[i := Z.lor (clr (cache d !!! i) EIO_MD4_DBN_MASK) v]> (cache d)) d.

(** the values the field can hold *)
Definition raw_ok (d : cache_c) (v : Z) : Prop :=
  0 <= v < 2 ^ (if EIO_MD8 d then EIO_MD8_DBN_BITS else EIO_MD4_DBN_BITS).

Lemma put_raw_md8 d i v : EIO_MD8 (put_raw d i v) = EIO_MD8 d.
Proof. unfold put_raw. destruct (EIO_MD8 d) eqn:E; exact E. Qed.

Lemma put_raw_get d i v j : raw_ok d v ->
  md_raw (put_raw d i v) j = if decide (i = j) then v else md_raw d j.
Proof.
  intros Hv. unfold md_raw. rewrite put_raw_md8. unfold put_raw, raw_ok in *.
  destruct (EIO_MD8 d) eqn:E; simpl; rewrite lookup_total_insert; case_decide; subst; try done;
    by apply word_set_raw.
Qed.

Lemma put_raw_state d i v j : raw_ok d v ->
  EIO_CACHE_STATE_GET (put_raw d i v) j = EIO_CACHE_STATE_GET d j.
Proof.
  intros Hv. unfold EIO_CACHE_STATE_GET. rewrite put_raw_md8. unfold put_raw, raw_ok in *.
  destruct (EIO_MD8 d) eqn:E; simpl; rewrite lookup_total_insert; case_decide; subst; try done;
    by apply state_set_raw_word.
Qed.

Lemma put_raw_dom d i v : i ∈ md_dom d -> md_dom (put_raw d i v) = md_dom d.
Proof.
  unfold md_dom. rewrite put_raw_md8. unfold put_raw.
  destruct (EIO_MD8 d) eqn:E; simpl; intros; rewrite dom_insert_L; set_solver.
Qed.

Lemma put_raw_md_only d i v z : md_only d (set_index_zero z (put_raw d i v)).
Proof.
  unfold put_raw. destruct (EIO_MD8 d).
  - exists (cache d), (<[i := Z.lor (clr (cache_md8 d !!! i) EIO_MD8_DBN_MASK) v]> (cache_md8 d)), z. by destruct d.
  - exists (<[i := Z.lor (clr (cache d !!! i) EIO_MD4_DBN_MASK) v]> (cache d)), (cache_md8 d), z. by destruct d.
Qed.

Lemma stored_raw_ok d dbn : wf_geom d -> dbn_ok d dbn -> raw_ok d (stored_dbn d dbn).
Proof.
  intros Hg [Hd Hok]. unfold raw_ok, stored_dbn. destruct (EIO_MD8 d); [lia|].
  apply shrunk_range; [done|lia].
Qed.

(** [EIO_DBN_SET] never asserts on a representable sector; it stores the
    sector in the field of block [i] and changes nothing else. *)
Lemma dbn_set_form d i dbn : wf_geom d -> dbn_ok d dbn ->
  EIO_DBN_SET d i dbn =
  Some (set_index_zero (next_index_zero d i dbn) (put_raw d i (stored_dbn d dbn))).
Proof.
  intros Hg Hok. pose proof (stored_raw_ok d dbn Hg Hok) as Hr. destruct Hok as [Hd Hok].
  unfold EIO_DBN_SET, next_index_zero, put_raw, stored_dbn, raw_ok in *.
  destruct (EIO_MD8 d) eqn:H8.
  - unfold eio_md8_dbn_set. unfold EIO_MD8_DBN_MASK at 1. rewrite mask_clear by done.
    simpl negb. cbv iota. rewrite forget_index_zero_eq.
    cbn [index_zero assoc set_cache_md8]. by destruct (dbn =? 0), (_ && _ && _).
  - rewrite eio_shrink_dbn_ok by (done || lia). unfold eio_md4_dbn_set.
    unfold EIO_MD4_DBN_MASK at 1. rewrite mask_clear by done.
    simpl negb. cbv iota. rewrite forget_index_zero_eq.
    cbn [index_zero assoc set_cache]. by destruct (dbn =? 0), (_ && _ && _).
Qed.

Lemma raw_set_index_zero z d j : md_raw (set_index_zero z d) j = md_raw d j.
Proof. done. Qed.
Lemma state_set_index_zero' z d j : EIO_CACHE_STATE_GET (set_index_zero z d) j = EIO_CACHE_STATE_GET d j.
Proof. done. Qed.

Lemma dbn_set_exact d i dbn : wf_geom d -> dbn_ok d dbn ->
  exists d', EIO_DBN_SET d i dbn = Some d' /\ md_only d d' /\
    index_zero d' = next_index_zero d i dbn /\
    (forall j, md_raw d' j = if decide (i = j) then stored_dbn d dbn else md_raw d j) /\
    (forall j, EIO_CACHE_STATE_GET d' j = EIO_CACHE_STATE_GET d j) /\
    (i ∈ md_dom d -> md_dom d' = md_dom d).
Proof.
  intros Hg Hok. pose proof (stored_raw_ok d dbn Hg Hok) as Hr.
  eexists; split; [by apply dbn_set_form|]. split_and!.
  - apply put_raw_md_only.
  - done.
  - intros j. rewrite raw_set_index_zero. by apply put_raw_get.
  - intros j. rewrite state_set_index_zero'. by apply put_raw_state.
  - apply put_raw_dom.
Qed.

(** a zero field in the set of the sector stands for sector zero, or for a
    block outside set zero *)
Lemma shrunk_zero_set d dbn i : wf_geom d -> 0 <= dbn < md4_limit d -> dbn <> 0 ->
  shrunk d dbn = 0 -> i / assoc d = dbn_set d dbn -> 0 <= i -> assoc d <= i.
Proof.
  intros Hg Hd Hne Hs Hi Hi0. destruct (Z.lt_ge_cases i (assoc d)); [|lia]. exfalso.
  rewrite Z.div_small in Hi by lia. apply Hne.
  rewrite <-(expand_core d Hg 0 dbn) by (rewrite ?Z.div_0_l, <-?Hi; auto; pose proof (assoc_pos d Hg); lia).
  rewrite Hs, Z.shiftr_0_l, !Z.land_0_l, Z.shiftl_0_l. unfold EIO_DIV.
  rewrite Z.div_0_l by (pose proof (assoc_pos d Hg); lia). by rewrite Z.eqb_refl, Z.shiftl_0_l.
Qed.

Lemma next_index_zero_wf d d' i dbn : wf_geom d -> dbn_ok d dbn -> wf_zero d ->
  0 <= i -> i / assoc d = dbn_set d dbn ->
  geom d' = geom d -> index_zero d' = next_index_zero d i dbn ->
  (forall j, md_raw d' j = if decide (i = j) then stored_dbn d dbn else md_raw d j) ->
  wf_zero d'.
Proof.
  intros Hg [Hd Hok] [Hz0 Hz] Hi0 Hi Hgeo Hidx Hraw. unfold wf_zero. rewrite Hidx.
  destruct (geom_fields _ _ Hgeo) as (_ & -> & _). unfold next_index_zero.
  assert (S0 : stored_dbn d 0 = 0).
  { unfold stored_dbn. destruct (EIO_MD8 d); [done|]. by apply shrunk_0. }
  pose proof (assoc_pos d Hg).
  destruct (Z.eqb_spec dbn 0) as [->|Hne].
  { split; [done|]. intros _. rewrite Hraw. by case_decide. }
  destruct (_ && _) eqn:E; split; try lia.
  intros Hlt. rewrite Hraw. case_decide as Heq; [subst i|auto].
  apply andb_false_iff in E. rewrite Z.eqb_refl, andb_true_r in E.
  destruct E as [E|E]; [lia|]. apply negb_false_iff, Z.eqb_eq in E. done.
Qed.

(** The main facts on [EIO_DBN_SET]: on a block that is not [INVALID], in the
    set of the sector, the sector can be read back, and no other block changes. *)
Lemma dbn_set_get d i dbn : wf_geom d -> wf_zero d -> dbn_ok d dbn ->
  0 <= i -> i / assoc d = dbn_set d dbn -> EIO_CACHE_STATE_GET d i <> INVALID ->
  exists d', EIO_DBN_SET d i dbn = Some d' /\ md_only d d' /\ wf_zero d' /\
    EIO_DBN_GET d' i = Some dbn /\
    (forall j, 0 <= j -> i <> j -> EIO_DBN_GET d' j = EIO_DBN_GET d j) /\
    (forall j, EIO_CACHE_STATE_GET d' j = EIO_CACHE_STATE_GET d j) /\
    (i ∈ md_dom d -> md_dom d' = md_dom d).
Proof.
  intros Hg Hz Hok Hi0 Hi Hst.
  destruct (dbn_set_exact d i dbn Hg Hok) as (d' & E & Hmd & Hidx & Hraw & Hstate & Hdom).
  pose proof (md_only_geom _ _ Hmd) as Hgeo.
  assert (Hz' : wf_zero d') by eauto using next_index_zero_wf.
  exists d'. split_and!; try done.
  - pose proof (wf_geom_eq _ _ Hgeo Hg) as Hg'. pose proof (Hraw i) as Hri. rewrite decide_True in Hri by done.
    destruct (geom_fields _ _ Hgeo) as (_ & Ea & _ & Eb & Ec & En & Enb & Em & E8).
    unfold EIO_DBN_GET. unfold md_raw, stored_dbn in Hri. rewrite E8 in *. destruct Hok as [Hd Hok].
    destruct (EIO_MD8 d) eqn:H8; [by rewrite Hri|]. destruct Hok as [Hlim Hmax].
    assert (Hsh : shrunk d' dbn = shrunk d dbn).
    { unfold shrunk, dbn_wrapped, EIO_DBN_TO_SET, SECTORS_PER_SET_SHIFT. by rewrite Eb, Ec, En, Enb, Em. }
    apply expand_shrunk; try done.
    + unfold md4_limit in *. rewrite Enb. lia.
    + by rewrite Ea, (geom_dbn_set _ _ _ Hgeo).
    + by rewrite Hsh.
    + rewrite Hidx, Ea. unfold next_index_zero, stored_dbn. rewrite H8.
      destruct (Z.eqb_spec dbn 0); [done|].
      destruct (_ && _) eqn:E'; [lia|]. intros -> Hlt. exfalso.
      rewrite Z.eqb_refl, andb_true_r in E'.
      apply andb_false_iff in E' as [E'|E']; [lia|]. apply negb_false_iff, Z.eqb_eq in E'.
      pose proof (shrunk_zero_set d dbn (index_zero d) Hg). lia.
    + rewrite Hstate. done.
  - intros j Hj Hne. apply dbn_get_indep; try done.
    + rewrite Hraw. by rewrite decide_False.
    + by rewrite Hstate.
Qed.

(** ** [eio_mem_init] establishes the geometry *)
Lemma num_bits_loop_ok n fuel : forall b, 0 < n -> 0 <= b <= Z.log2 n + 1 -> Z.log2 n + 1 < b + Z.of_nat fuel ->
  num_bits_loop fuel n b = Some (Z.log2 n + 1).
Proof.
  induction fuel as [|fuel IH]; intros b Hn Hb Hf; [lia|]. cbn [num_bits_loop].
  rewrite Z.shiftr_div_pow2 by lia. pose proof (Z.log2_spec n Hn) as [H1 H2]. pose proof (pow2_pos b).
  destruct (Z.eq_dec b (Z.log2 n + 1)) as [->|Hne].
  - rewrite Z.div_small by (rewrite Z.add_1_r; lia). done.
  - assert (2 ^ b <= n). { etransitivity; [|exact H1]. apply Z.pow_le_mono_r; lia. }
    assert (0 < n / 2 ^ b) by (apply Z.div_str_pos; lia).
    destruct (Z.eqb_spec (n / 2 ^ b) 0); [lia|]. apply IH; lia.
Qed.

(** what the callers of [eio_mem_init] have set up: powers of two for the
    block size and the associativity, and a whole number of sets *)
Record mem_geom_pre (d : cache_c) : Prop := {
  mi_cs : 0 <= consecutive_shift d;
  mi_bs : 0 <= block_shift d;
  mi_lsb : consecutive_shift d + block_shift d <= 23;
  mi_assoc : assoc d = 2 ^ consecutive_shift d;
  mi_block : block_size d = 2 ^ block_shift d;
  mi_size : dmc_size d = dmc_size d / assoc d * assoc d;
  mi_sets : 1 <= dmc_size d / assoc d < 2 ^ 31
}.
(** and a new cache, whose flags do not choose the width of the words *)
Record mem_init_pre (d : cache_c) : Prop := {
  mi_geom : mem_geom_pre d;
  mi_md8 : EIO_MD8 d = false
}.

Lemma lor_md8 f : tst (Z.lor f CACHE_FLAGS_MD8) CACHE_FLAGS_MD8 = true.
Proof. unfold CACHE_FLAGS_MD8. rewrite tst_spec by lia. rewrite Z.lor_spec. by rewrite Z.pow2_bits_true, orb_true_r. Qed.

(** what it leaves: the number of sets, its bits and mask, and the flags [f] *)
Definition mem_inited (f : Z) (d : cache_c) : cache_c :=
  let ns := dmc_size d / assoc d in set_cache_flags f (set_num_sets ns (Z.log2 ns + 1) (2 ^ (Z.log2 ns + 1) - 1) d).

Lemma eio_mem_init_form d : mem_geom_pre d -> exists r f,
  eio_mem_init d = Some (r, mem_inited f d) /\ (forall f, wf_geom (mem_inited f d)) /\
  ((r = 1 /\ f = Z.lor (cache_flags d) CACHE_FLAGS_MD8 /\
    (num_sets (mem_inited f d) < 2 ^ 15 \/ md4_limit (mem_inited f d) < eio_to_sector (disk_dev_size d))) \/
   (r = 0 /\ f = cache_flags d /\ 2 ^ 15 <= num_sets (mem_inited f d) /\ eio_to_sector (disk_dev_size d) <= md4_limit (mem_inited f d))).
Proof.
  intros []. unfold eio_mem_init, EIO_DIV. set (ns := dmc_size d / assoc d) in *.
  destruct (Z.ltb_spec (2 ^ 32 - 1) ns); [lia|].
  assert (Eu : u32 ns = ns) by (unfold u32; apply Z.mod_small; lia). rewrite Eu.
  assert (Hl : 0 <= Z.log2 ns < 31).
  { split; [apply Z.log2_nonneg|]. apply Z.log2_lt_pow2; lia. }
  rewrite num_bits_loop_ok by lia. destruct (Z.eqb_spec (Z.log2 ns + 1) 0); [lia|].
  pose proof (Z.log2_spec ns ltac:(lia)) as [L1 L2].
  assert (Em : Z.shiftr (2 ^ 64 - 1) (64 - (Z.log2 ns + 1)) = 2 ^ (Z.log2 ns + 1) - 1).
  { rewrite Z.shiftr_div_pow2 by lia. symmetry. apply Z.div_unique with (2 ^ (64 - (Z.log2 ns + 1)) - 1).
    - pose proof (pow2_pos (64 - (Z.log2 ns + 1))). lia.
    - assert (E : 2 ^ 64 = 2 ^ (64 - (Z.log2 ns + 1)) * 2 ^ (Z.log2 ns + 1)) by (rewrite <-Z.pow_add_r by lia; f_equal; lia).
      rewrite E. lia. }
  rewrite Em. set (d1 := set_num_sets ns _ _ d).
  assert (Hg : forall f, wf_geom (set_cache_flags f d1)).
  { intros f. constructor; cbn; try done; try lia.
    replace (Z.log2 ns + 1 - 1) with (Z.log2 ns) by lia. rewrite Z.add_1_r. done. }
  destruct (Z.ltb_spec (Z.log2 ns + 1) 16).
  { eexists _, _; split; [done|]. split; [exact Hg|]. left. split; [done|]. split; [done|]. left. cbn. fold ns.
    eapply Z.lt_le_trans; [exact L2|]. apply Z.pow_le_mono_r; lia. }
  assert (Elim : u64 (Z.shiftl 1 (u32 (u32 (24 - 1 - u32 (consecutive_shift d1 + block_shift d1)) + (Z.log2 ns + 1) + u32 (consecutive_shift d1 + block_shift d1)))) = 2 ^ (23 + (Z.log2 ns + 1))).
  { change (consecutive_shift d1) with (consecutive_shift d). change (block_shift d1) with (block_shift d).
    unfold u32. rewrite (Z.mod_small (consecutive_shift d + block_shift d)) by lia.
    rewrite (Z.mod_small (24 - 1 - _)) by lia. rewrite Z.mod_small by lia.
    rewrite Z.shiftl_mul_pow2 by lia. unfold u64. rewrite Z.mul_1_l.
    replace (24 - 1 - (consecutive_shift d + block_shift d) + (Z.log2 ns + 1) + (consecutive_shift d + block_shift d)) with (23 + (Z.log2 ns + 1)) by lia.
    apply Z.mod_small. split; [apply Z.pow_nonneg; lia|]. apply Z.pow_lt_mono_r; lia. }
  rewrite Elim. destruct (Z.ltb_spec (2 ^ (23 + (Z.log2 ns + 1))) (eio_to_sector (disk_dev_size d1))).
  { eexists _, _; split; [done|]. split; [exact Hg|]. left. split; [done|]. split; [done|]. by right. }
  exists 0, (cache_flags d). split; [by destruct d|]. split; [exact Hg|]. right. split_and!; [done|done| |].
  { cbn. fold ns. transitivity (2 ^ Z.log2 ns); [|done]. apply Z.pow_le_mono_r; lia. }
  done.
Qed.

Lemma eio_mem_init_ok d : mem_init_pre d ->
  exists r d', eio_mem_init d = Some (r, d') /\ wf_geom d' /\
    num_sets d' = dmc_size d / assoc d /\
    ((r = 1 /\ EIO_MD8 d' = true) \/
     (r = 0 /\ EIO_MD8 d' = false /\ 2 ^ 15 <= num_sets d' /\
      eio_to_sector (disk_dev_size d') <= md4_limit d')).
Proof.
  intros [Hp H8]. destruct (eio_mem_init_form d Hp) as (r & f & E & Hg & Hc). exists r, (mem_inited f d).
  split; [done|]. split; [done|]. split; [done|]. destruct Hc as [(-> & -> & _)|(-> & -> & H1 & H2)]; [left|by right].
  split; [done|]. apply lor_md8.
Qed.
