(* ===== verification/DList.v ===== *)
(** * Doubly linked lists threaded through an array

    Both [eio_setlru.c] (the LRU of dirty sets) and [eio_lru.c] (the LRU of the
    blocks of a set) keep a list as [prev]/[next] indices inside an array, with
    a distinguished null index.  This file relates such an array to the
    sequence of indices it represents, once, for both. *)

From S2P Require Import Prelude.

Section dlist.
Context {E : Type} (nxt prv : E -> Z).
Implicit Types (e : Z -> E) (xs : list Z).

(** [linked e p xs n]: following [nxt] from the first element of [xs] visits
    [xs] and ends in [n], and [prv] goes back the same way to [p]. *)
Fixpoint linked e (p : Z) xs (n : Z) : Prop :=
  match xs with
  | [] => True
  | i :: xs' => prv (e i) = p /\ nxt (e i) = default n (head xs') /\ linked e i xs' n
  end.

#[local] Ltac not_an_end :=
  let Hh := fresh in
  intros Hh; first [apply last_Some_elem_of in Hh | apply head_Some_elem_of in Hh | injection Hh as Hh; subst];
  set_solver.

Lemma linked_ext e e' p xs n :
  (forall i, i ∈ xs -> prv (e' i) = prv (e i) /\ nxt (e' i) = nxt (e i)) ->
  linked e p xs n -> linked e' p xs n.
Proof.
  revert p. induction xs as [|i xs IH]; intros p Hext; simpl; [done|].
  intros (Hp & Hn & Hl). destruct (Hext i) as [-> ->]; [set_solver|].
  split_and!; [done..|]. apply IH; [|done]. intros j Hj. apply Hext. set_solver.
Qed.

Lemma linked_app e p xs ys n :
  linked e p (xs ++ ys) n <->
  linked e p xs (default n (head ys)) /\ linked e (default p (last xs)) ys n.
Proof.
  revert p. induction xs as [|i xs IH]; intros p; [simpl; tauto|].
  cbn [linked app]. rewrite IH. replace (default p (last (i :: xs))) with (default i (last xs))
    by (rewrite last_cons; by destruct (last xs)).
  replace (default n (head (xs ++ ys))) with (default (default n (head ys)) (head xs))
    by (by destruct xs).
  tauto.
Qed.

Lemma linked_prev_ne e p xs n i : linked e p xs n -> i ∈ xs ->
  prv (e i) = p \/ prv (e i) ∈ xs.
Proof.
  revert p. induction xs as [|j xs IH]; intros p; simpl; [set_solver|].
  intros (Hp & _ & Hl) [->|Hi]%elem_of_cons; [by left|].
  destruct (IH _ Hl Hi) as [H|H]; right; set_solver.
Qed.

Lemma linked_next_ne e p xs n i : linked e p xs n -> i ∈ xs ->
  nxt (e i) = n \/ nxt (e i) ∈ xs.
Proof.
  revert p. induction xs as [|j xs IH]; intros p; simpl; [set_solver|].
  intros (_ & Hn & Hl) [->|Hi]%elem_of_cons.
  - destruct xs as [|k xs]; simpl in *; [by left|]. right. rewrite Hn. set_solver.
  - destruct (IH _ Hl Hi) as [H|H]; [by left|right; set_solver].
Qed.

(** the neighbours of an element *)
Lemma linked_mid e p l1 i l2 n : linked e p (l1 ++ i :: l2) n ->
  prv (e i) = default p (last l1) /\ nxt (e i) = default n (head l2).
Proof. intros [_ (? & ? & _)]%linked_app. done. Qed.

(** unlinking [i]: the element before it takes its [nxt], the one after it
    its [prv] *)
Lemma linked_remove e e' p l1 i l2 n :
  NoDup (l1 ++ i :: l2) -> linked e p (l1 ++ i :: l2) n ->
  (forall j, j ∈ l1 ++ l2 ->
     nxt (e' j) = (if decide (last l1 = Some j) then nxt (e i) else nxt (e j)) /\
     prv (e' j) = (if decide (head l2 = Some j) then prv (e i) else prv (e j))) ->
  linked e' p (l1 ++ l2) n.
Proof.
  intros Hnd Hl He'. destruct (linked_mid _ _ _ _ _ _ Hl) as [Hpi Hni].
  apply linked_app in Hl as [Hl1 Hl2]. simpl in Hl2. destruct Hl2 as (_ & _ & Hl2).
  apply NoDup_app in Hnd as (Hnd1 & Hd & Hnd2). apply NoDup_cons in Hnd2 as [Hi2 Hnd2].
  apply linked_app. split.
  - destruct l1 as [|x l1' _] using rev_ind; [done|].
    rewrite last_snoc in *. apply linked_app in Hl1 as [Ha (Hx1 & Hx2 & _)].
    apply NoDup_app in Hnd1 as (Hnd1 & Hd1 & _).
    apply linked_app. split; [|simpl; split_and!; [| |done]].
    + eapply linked_ext; [|exact Ha]. intros j Hj. destruct (He' j) as [-> ->]; [set_solver|].
      rewrite !decide_False; [done| |]; not_an_end.
    + destruct (He' x) as [_ ->]; [set_solver|]. rewrite decide_False; [done|not_an_end].
    + destruct (He' x) as [-> _]; [set_solver|]. rewrite decide_True by done. done.
  - destruct l2 as [|y l2]; [done|]. simpl in Hl2 |- *. destruct Hl2 as (Hy1 & Hy2 & Hl2).
    apply NoDup_cons in Hnd2 as [Hy Hnd2].
    destruct (He' y) as [Hyn Hyp]; [set_solver|]. simpl in Hyp. rewrite decide_True in Hyp by done.
    rewrite decide_False in Hyn by not_an_end.
    split_and!; [congruence|congruence|].
    eapply linked_ext; [|exact Hl2]. intros j Hj. destruct (He' j) as [-> ->]; [set_solver|].
    simpl. rewrite !decide_False; [done| |]; not_an_end.
Qed.

(** linking [i] after the last element *)
Lemma linked_snoc e e' p xs i n :
  i ∉ xs -> NoDup xs -> linked e p xs n ->
  prv (e' i) = default p (last xs) -> nxt (e' i) = n ->
  (forall j, j ∈ xs -> prv (e' j) = prv (e j) /\
     nxt (e' j) = (if decide (last xs = Some j) then i else nxt (e j))) ->
  linked e' p (xs ++ [i]) n.
Proof.
  intros Hi Hnd Hl Hp Hn He'. apply linked_app. simpl. split; [|done].
  destruct xs as [|x xs _] using rev_ind; [done|]. rewrite last_snoc in *.
  apply linked_app in Hl as [Ha (Hx1 & _ & _)].
  apply NoDup_app in Hnd as (Hnd & Hd & _). apply linked_app. split.
  - eapply linked_ext; [|exact Ha]. intros j Hj. destruct (He' j) as [-> ->]; [set_solver|].
    rewrite decide_False; [done|not_an_end].
  - destruct (He' x) as [H1 H2]; [set_solver|]. rewrite decide_True in H2 by done.
    simpl. split_and!; [congruence|done|done].
Qed.

(** following [nxt] from the head visits the list: the recursion every
    traversal of the driver performs *)
Lemma linked_head e p i xs n : linked e p (i :: xs) n -> nxt (e i) = default n (head xs).
Proof. intros (_ & H & _). done. Qed.
End dlist.

(** the sequence without [i] *)
Definition without (i : Z) (xs : list Z) : list Z := filter (fun j => j <> i) xs.

Lemma without_notin i xs : i ∉ xs -> without i xs = xs.
Proof.
  intros Hi. unfold without. induction xs as [|x xs IH]; [done|].
  rewrite filter_cons_True by set_solver. rewrite IH; set_solver.
Qed.
Lemma without_mid l1 i l2 : NoDup (l1 ++ i :: l2) -> without i (l1 ++ i :: l2) = l1 ++ l2.
Proof.
  intros (H1 & H2 & [H3 _]%NoDup_cons)%NoDup_app. unfold without.
  rewrite filter_app, filter_cons_False by auto. f_equal; apply without_notin; set_solver.
Qed.
Lemma elem_of_without i j xs : j ∈ without i xs <-> j <> i /\ j ∈ xs.
Proof. unfold without. rewrite list_elem_of_filter. done. Qed.
Lemma without_nodup i xs : NoDup xs -> NoDup (without i xs).
Proof. apply NoDup_filter. Qed.
Lemma without_shift i k xs : without (i + k) (map (fun r => r + k) xs) = map (fun r => r + k) (without i xs).
Proof.
  unfold without. induction xs as [|x xs IH]; [done|]. cbn [map]. rewrite !filter_cons, IH.
  repeat case_decide; done || lia.
Qed.
