(* ===== verification/SetLru.v ===== *)
(** * The LRU list of dirty sets: [eio_setlru.c]

    A write-back cache keeps the indices of its dirty sets in a list ordered by
    the time each set was last dirtied.  The list lives in an array with one
    element per set; [NULL] is [None].  Refinement: the list holds a sequence of
    distinct set indices, and each operation is the expected operation on it. *)

From S2P Require Import Prelude Types DList.

Definition LRU_NULL : Z := -1.

Definition lru_init (vmalloc_ok : bool) (max : Z) : option (Z * option lru_ls) :=
  if negb (0 <? max) then None
  else if negb vmalloc_ok then Some (- ENOMEM, None)
  else Some (0, Some {|
         ll_head := LRU_NULL; ll_tail := LRU_NULL; ll_max := max; ll_size := 0;
         ll_elem := foldl (fun e i => <[i := mk_lru_elem LRU_NULL LRU_NULL 0]> e) ∅ (seqZ 0 max) |}).

Definition lru_uninit (llist : option lru_ls) : option lru_ls := None.

(** assignments to one field of an element *)
Definition set_le_next (e : gmap Z lru_elem) (i v : Z) : gmap Z lru_elem :=
  <[i := mk_lru_elem v (le_prev (e !!! i)) (le_key (e !!! i))]> e.
Definition set_le_prev (e : gmap Z lru_elem) (i v : Z) : gmap Z lru_elem :=
  <[i := mk_lru_elem (le_next (e !!! i)) v (le_key (e !!! i))]> e.
Definition set_le_key (e : gmap Z lru_elem) (i v : Z) : gmap Z lru_elem :=
  <[i := mk_lru_elem (le_next (e !!! i)) (le_prev (e !!! i)) v]> e.

Definition lru_add (index key : Z) : M (option lru_ls) Z := fun llist =>
  match llist with
  | None => Some (- EINVAL, llist)
  | Some l =>
    if ll_max l <=? index then Some (- EINVAL, llist)
    else
      let e := set_le_prev (ll_elem l) index (ll_tail l) in
      let e := set_le_next e index LRU_NULL in
      let e := set_le_key e index key in
      if negb (ll_tail l =? LRU_NULL) then
        let e := set_le_next e (ll_tail l) index in
        Some (0, Some {| l with ll_tail := index; ll_size := u64 (ll_size l + 1); ll_elem := e |})
      else if ll_head l =? LRU_NULL then
        Some (0, Some {| l with ll_head := index; ll_tail := index;
                                ll_size := u64 (ll_size l + 1); ll_elem := e |})
      else None
  end.

(** the neighbours of [index] are linked to each other *)
Definition bypass (e : gmap Z lru_elem) (index : Z) : gmap Z lru_elem :=
  let e := if negb (le_prev (e !!! index) =? LRU_NULL)
           then set_le_next e (le_prev (e !!! index)) (le_next (e !!! index)) else e in
  if negb (le_next (e !!! index) =? LRU_NULL)
  then set_le_prev e (le_next (e !!! index)) (le_prev (e !!! index)) else e.

Definition lru_rem (index : Z) : M (option lru_ls) Z := fun llist =>
  match llist with
  | None => Some (- EINVAL, llist)
  | Some l =>
    if (ll_max l <=? index) || (index =? LRU_NULL) then Some (- EINVAL, llist)
    else if (ll_head l =? LRU_NULL) && (ll_tail l =? LRU_NULL) then Some (- EINVAL, llist)
    else if (le_prev (ll_elem l !!! index) =? LRU_NULL) && (le_next (ll_elem l !!! index) =? LRU_NULL)
            && negb (ll_head l =? index) && negb (ll_tail l =? index) then Some (0, llist)
    else
      let e := bypass (ll_elem l) index in
      let hd := if ll_head l =? index then le_next (e !!! index) else ll_head l in
      let tl := if ll_tail l =? index then le_prev (e !!! index) else ll_tail l in
      let e := set_le_prev e index LRU_NULL in
      let e := set_le_next e index LRU_NULL in
      if ll_size l =? 0 then None
      else Some (0, Some {| l with ll_head := hd; ll_tail := tl;
                                   ll_size := u64 (ll_size l - 1); ll_elem := e |})
  end.

Definition lru_touch (index key : Z) : M (option lru_ls) Z := fun llist =>
  match llist with
  | None => Some (- EINVAL, llist)
  | Some l =>
    if ll_max l <=? index then Some (- EINVAL, llist)
    else if ll_tail l =? index then
      Some (0, Some {| l with ll_elem := set_le_key (ll_elem l) index key |})
    else bind (lru_rem index) (fun _ => bind (lru_add index key) (fun _ => ret 0)) llist
  end.

(** [lru_read_head], [lru_rem_head]: the return code and the two output
    parameters. *)
Definition lru_read_head (llist : option lru_ls) : Z * Z * Z :=
  match llist with
  | None => (- EINVAL, 0, 0)
  | Some l => if ll_head l =? LRU_NULL then (0, LRU_NULL, 0)
              else (0, ll_head l, le_key (ll_elem l !!! ll_head l))
  end.

Definition lru_rem_head : M (option lru_ls) (Z * Z * Z) := fun llist =>
  match llist with
  | None => Some ((- EINVAL, 0, 0), llist)
  | Some l =>
    if ll_head l =? LRU_NULL then Some ((0, LRU_NULL, 0), llist)
    else bind (lru_rem (ll_head l))
           (fun _ => ret (0, ll_head l, le_key (ll_elem l !!! ll_head l))) llist
  end.

(** ** Representation *)
Record lru_rep (l : lru_ls) (xs : list Z) : Prop := {
  rep_nodup : NoDup xs;
  rep_range : forall i, i ∈ xs -> 0 <= i < ll_max l;
  rep_head : ll_head l = default LRU_NULL (head xs);
  rep_tail : ll_tail l = default LRU_NULL (last xs);
  rep_linked : linked le_next le_prev (fun i => ll_elem l !!! i) LRU_NULL xs LRU_NULL;
  rep_free : forall i, 0 <= i < ll_max l -> i ∉ xs ->
    le_prev (ll_elem l !!! i) = LRU_NULL /\ le_next (ll_elem l !!! i) = LRU_NULL;
  rep_size : ll_size l = Z.of_nat (length xs);
  rep_max : 0 < ll_max l < 2 ^ 63;
  rep_dom : forall i, i ∈ dom (ll_elem l) <-> 0 <= i < ll_max l
}.

(** the time a set was last touched *)
Definition key_of (l : lru_ls) (i : Z) : Z := le_key (ll_elem l !!! i).
(** ** Refinement of each operation *)

Lemma lru_init_rep max : 0 < max < 2 ^ 63 ->
  exists l, lru_init true max = Some (0, Some l) /\ lru_rep l [] /\ ll_max l = max.
Proof.
  intros Hmax. unfold lru_init. destruct (Z.ltb_spec 0 max); [|lia]. cbn [negb].
  eexists; split; [done|]. split; [|done].
  assert (L : forall i, 0 <= i < max ->
    foldl (fun e i => <[i := mk_lru_elem LRU_NULL LRU_NULL 0]> e) (∅ : gmap Z lru_elem) (seqZ 0 max) !! i
    = Some (mk_lru_elem LRU_NULL LRU_NULL 0)).
  { intros i Hi. rewrite (foldl_insert_lookup (fun _ => mk_lru_elem LRU_NULL LRU_NULL 0)). rewrite decide_True; [done|]. apply elem_of_seqZ. lia. }
  constructor; cbn [ll_head ll_tail ll_max ll_size ll_elem]; try done; try set_solver.
  - constructor.
  - intros i Hi _. rewrite (lookup_total_correct _ _ _ (L i Hi)). done.
  - intros i. rewrite elem_of_dom. split.
    + rewrite (foldl_insert_lookup (fun _ => mk_lru_elem LRU_NULL LRU_NULL 0)). case_decide as Hi; [apply elem_of_seqZ in Hi; lia|].
      rewrite lookup_empty. by intros [].
    + intros Hi. rewrite L by done. eauto.
Qed.

Section rep.
Context (l : lru_ls) (xs : list Z) (Hrep : lru_rep l xs).

Lemma rep_null_notin : LRU_NULL ∉ xs.
Proof. intros H. pose proof Hrep as []. apply rep_range0 in H. unfold LRU_NULL in H. lia. Qed.

Lemma rep_tail_null : ll_tail l = LRU_NULL <-> xs = [].
Proof.
  rewrite (rep_tail _ _ Hrep). split; [|by intros ->].
  destruct (last xs) as [x|] eqn:E; [|by apply last_None in E].
  simpl. intros ->. apply last_Some_elem_of in E. by destruct rep_null_notin.
Qed.
Lemma rep_head_null : ll_head l = LRU_NULL <-> xs = [].
Proof.
  rewrite (rep_head _ _ Hrep). split; [|by intros ->].
  destruct (head xs) as [x|] eqn:E; [|by destruct xs].
  simpl. intros ->. apply head_Some_elem_of in E. by destruct rep_null_notin.
Qed.

Lemma rep_length : Z.of_nat (length xs) <= ll_max l.
Proof.
  pose proof Hrep as [].
  assert (length xs <= length (seqZ 0 (ll_max l)))%nat as Hle.
  { apply submseteq_length, NoDup_submseteq; [done|]. intros i Hi. apply elem_of_seqZ. specialize (rep_range0 i Hi). lia. }
  rewrite length_seqZ in Hle. lia.
Qed.

Lemma lru_add_rep i k : 0 <= i < ll_max l -> i ∉ xs ->
  exists l', lru_add i k (Some l) = Some (0, Some l') /\ lru_rep l' (xs ++ [i]) /\
    ll_max l' = ll_max l /\ key_of l' i = k /\ (forall j, i <> j -> key_of l' j = key_of l j).
Proof.
  intros Hi Hni. pose proof rep_length as Hlen. pose proof (rep_max _ _ Hrep) as Hmax.
  unfold lru_add. destruct (Z.leb_spec (ll_max l) i); [lia|].
  destruct (Z.eqb_spec (ll_tail l) LRU_NULL) as [Ht|Ht]; cbn [negb].
  - (* first element *)
    apply rep_tail_null in Ht as Hxs. destruct (Z.eqb_spec (ll_head l) LRU_NULL) as [_|Hh];
      [|by destruct Hh; apply rep_head_null].
    eexists; split; [done|]. rewrite Hxs. cbn [app].
    set (e' := set_le_key _ _ _).
    assert (Ei : e' !!! i = mk_lru_elem LRU_NULL LRU_NULL k).
    { subst e'. unfold set_le_key, set_le_next, set_le_prev. rewrite !lookup_total_insert_eq. cbn. by rewrite Ht. }
    assert (Ej : forall j, i <> j -> e' !!! j = ll_elem l !!! j).
    { intros j Hj. subst e'. unfold set_le_key, set_le_next, set_le_prev. by rewrite !lookup_total_insert_ne. }
    split_and!; [|done|unfold key_of; cbn; by rewrite Ei|intros j Hj; unfold key_of; cbn; by rewrite Ej].
    pose proof Hrep as []. constructor; cbn [ll_head ll_tail ll_max ll_size ll_elem]; try done.
    + apply NoDup_singleton.
    + intros j ->%list_elem_of_singleton. done.
    + cbn. by rewrite Ei.
    + intros j Hj Hne. assert (i <> j) by set_solver. rewrite Ej by done. apply rep_free0; [done|]. rewrite Hxs. set_solver.
    + rewrite rep_size0, Hxs. unfold u64. by rewrite Z.mod_small.
    + intros j. subst e'. unfold set_le_key, set_le_next, set_le_prev. rewrite !dom_insert, <-rep_dom0. set_solver by lia.
  - (* after the tail *)
    eexists; split; [done|].
    assert (Hne : xs <> []) by (intros Hxs; by destruct Ht; apply rep_tail_null).
    destruct (last xs) as [t|] eqn:El; [|by apply last_None in El].
    pose proof (rep_tail _ _ Hrep) as Etl. rewrite El in Etl. cbn in Etl.
    assert (Htin : t ∈ xs) by by apply last_Some_elem_of.
    assert (Hti : t <> i) by set_solver.
    set (e' := set_le_next _ (ll_tail l) _).
    assert (Ei : e' !!! i = mk_lru_elem LRU_NULL t k).
    { subst e'. rewrite Etl. unfold set_le_key, set_le_next, set_le_prev.
      rewrite lookup_total_insert_ne by done. rewrite !lookup_total_insert_eq. done. }
    assert (Et : e' !!! t = mk_lru_elem i (le_prev (ll_elem l !!! t)) (key_of l t)).
    { subst e'. rewrite Etl. unfold set_le_key, set_le_next, set_le_prev, key_of.
      rewrite lookup_total_insert_eq. rewrite !lookup_total_insert_ne by done. done. }
    assert (Ej : forall j, i <> j -> t <> j -> e' !!! j = ll_elem l !!! j).
    { intros j Hj Hj'. subst e'. rewrite Etl. unfold set_le_key, set_le_next, set_le_prev. by rewrite !lookup_total_insert_ne. }
    split_and!; [|done|unfold key_of; cbn; by rewrite Ei|].
    2:{ intros j Hj. unfold key_of; cbn. destruct (decide (t = j)) as [<-|]; [by rewrite Et|by rewrite Ej]. }
    pose proof Hrep as []. constructor; cbn [ll_head ll_tail ll_max ll_size ll_elem]; try done.
    + apply NoDup_app; split_and!; [done|set_solver|apply NoDup_singleton].
    + intros j. rewrite elem_of_app, list_elem_of_singleton. intros [?| ->]; auto.
    + rewrite rep_head0. by destruct xs.
    + by rewrite last_snoc.
    + eapply linked_snoc; [done..| | |]; cbn; [by rewrite Ei, El|by rewrite Ei|].
      intros j Hj. assert (i <> j) by set_solver. destruct (decide (t = j)) as [<-|Hne'].
      * rewrite Et, decide_True by done. done.
      * rewrite Ej, decide_False by congruence. done.
    + intros j Hj Hne'. assert (i <> j) by set_solver. assert (t <> j) by set_solver.
      rewrite Ej by done. apply rep_free0; [done|]. set_solver.
    + rewrite rep_size0, length_app. unfold u64. rewrite Z.mod_small by lia. simpl length. lia.
    + intros j. subst e'. rewrite Etl. unfold set_le_key, set_le_next, set_le_prev. rewrite !dom_insert, <-rep_dom0.
      assert (t ∈ dom (ll_elem l)) by (apply rep_dom0; auto). assert (i ∈ dom (ll_elem l)) by by apply rep_dom0.
      set_solver.
Qed.

Lemma bypass_lookup l1 i l2 j : xs = l1 ++ i :: l2 ->
  bypass (ll_elem l) i !!! j =
  mk_lru_elem
    (if decide (last l1 = Some j) then le_next (ll_elem l !!! i) else le_next (ll_elem l !!! j))
    (if decide (head l2 = Some j) then le_prev (ll_elem l !!! i) else le_prev (ll_elem l !!! j))
    (key_of l j).
Proof.
  intros Hxs. pose proof Hrep as []. pose proof rep_null_notin as Hnull.
  rewrite Hxs in *. destruct (linked_mid _ _ _ _ _ _ _ _ rep_linked0) as [Hp Hn].
  apply NoDup_app in rep_nodup0 as (_ & H1 & [Hi2 _]%NoDup_cons).
  unfold bypass, key_of. cbv zeta.
  set (e := ll_elem l) in *. set (p := le_prev (e !!! i)) in *. set (n := le_next (e !!! i)) in *.
  set (e1 := if negb (p =? LRU_NULL) then _ else _).
  assert (E1 : forall k, e1 !!! k = if decide (last l1 = Some k) then mk_lru_elem n (le_prev (e !!! k)) (le_key (e !!! k)) else e !!! k).
  { intros k. subst e1. destruct (last l1) as [t|] eqn:El; cbn in Hp; rewrite Hp; [|done].
    assert (t ∈ l1) by by apply last_Some_elem_of.
    destruct (Z.eqb_spec t LRU_NULL) as [->|]; [destruct Hnull; apply elem_of_app; by left|]. cbn [negb]. unfold set_le_next.
    rewrite lookup_total_insert. case_decide as C; [rewrite <-C; by rewrite decide_True|].
    rewrite decide_False by congruence. done. }
  assert (E1i : e1 !!! i = e !!! i).
  { rewrite E1. rewrite decide_False; [done|]. intros El%last_Some_elem_of. apply (H1 _ El), elem_of_cons. by left. }
  rewrite E1i. fold n p.
  assert (E2 : (if negb (n =? LRU_NULL) then set_le_prev e1 n p else e1) !!! j
     = if decide (head l2 = Some j) then mk_lru_elem (le_next (e1 !!! j)) p (le_key (e1 !!! j)) else e1 !!! j).
  { destruct (head l2) as [t|] eqn:El; cbn in Hn; rewrite Hn; [|done].
    assert (t ∈ l2) by by apply head_Some_elem_of.
    destruct (Z.eqb_spec t LRU_NULL) as [->|]; [destruct Hnull; apply elem_of_app; right; apply elem_of_cons; by right|].
    cbn [negb]. unfold set_le_prev.
    rewrite lookup_total_insert. case_decide as C; [rewrite <-C; by rewrite decide_True|].
    rewrite decide_False by congruence. done. }
  rewrite E2, E1. destruct (decide (last l1 = Some j)), (decide (head l2 = Some j)); cbn; try done; by destruct (e !!! j).
Qed.

Lemma bypass_dom l1 i l2 j : xs = l1 ++ i :: l2 ->
  j ∈ dom (bypass (ll_elem l) i) <-> 0 <= j < ll_max l.
Proof.
  intros Hxs. pose proof Hrep as []. rewrite <-rep_dom0.
  pose proof rep_linked0 as Hl. assert (Hi : i ∈ xs) by (rewrite Hxs; set_solver+).
  assert (D : forall k, k <> LRU_NULL -> k = LRU_NULL \/ k ∈ xs -> k ∈ dom (ll_elem l)).
  { intros k Hk [?|Hin]; [done|]. apply rep_dom0. auto. }
  pose proof (linked_prev_ne _ _ _ _ _ _ _ Hl Hi) as Hp. pose proof (linked_next_ne _ _ _ _ _ _ _ Hl Hi) as Hn.
  cbv beta in Hp, Hn. unfold bypass, set_le_next, set_le_prev.
  destruct (Z.eqb_spec (le_prev (ll_elem l !!! i)) LRU_NULL) as [P|P]; cbn [negb].
  - destruct (Z.eqb_spec (le_next (ll_elem l !!! i)) LRU_NULL) as [N|N]; cbn [negb]; [done|].
    rewrite dom_insert. pose proof (D _ N Hn). set_solver+H.
  - pose proof (D _ P Hp) as DP. rewrite lookup_total_insert_ne.
    2:{ intros Hpi. rewrite Hxs in *. destruct (linked_mid _ _ _ _ _ _ _ _ Hl) as [Hp' _]. cbv beta in Hp'. rewrite Hp' in Hpi.
        apply NoDup_app in rep_nodup0 as (_ & H1 & _).
        destruct (last l1) eqn:El; cbn in *; [apply last_Some_elem_of in El; subst; apply (H1 _ El), elem_of_cons; by left|].
        by rewrite Hp' in P. }
    destruct (Z.eqb_spec (le_next (ll_elem l !!! i)) LRU_NULL) as [N|N]; cbn [negb]; rewrite !dom_insert.
    + set_solver+DP.
    + pose proof (D _ N Hn) as DN. set_solver+DP DN.
Qed.

Lemma lru_rem_in i : i ∈ xs ->
  exists l', lru_rem i (Some l) = Some (0, Some l') /\ lru_rep l' (without i xs) /\
    ll_max l' = ll_max l /\ (forall j, key_of l' j = key_of l j).
Proof.
  intros Hi. destruct (list_elem_of_split _ _ Hi) as (l1 & l2 & Hxs).
  pose proof (fun j => bypass_lookup l1 i l2 j Hxs) as Hb. pose proof (fun j => bypass_dom l1 i l2 j Hxs) as Hbd.
  pose proof rep_null_notin as Hnull. pose proof rep_head_null as Hhn. pose proof rep_length as Hlen.
  pose proof Hrep as []. pose proof (rep_range0 i Hi) as Hir.
  unfold lru_rem. destruct (Z.leb_spec (ll_max l) i); [lia|].
  destruct (Z.eqb_spec i LRU_NULL) as [->|]; [done|]. cbn [orb].
  destruct (Z.eqb_spec (ll_head l) LRU_NULL) as [Hh|Hh]; [apply Hhn in Hh; rewrite Hh in Hi; by apply not_elem_of_nil in Hi|]. cbn [andb].
  rewrite Hxs in rep_linked0. destruct (linked_mid _ _ _ _ _ _ _ _ rep_linked0) as [Hp Hn].
  set (c := _ && negb (ll_tail l =? i)).
  assert (Hc : c = false).
  { subst c. rewrite Hp, rep_tail0, rep_head0, Hxs. destruct (last l1) as [t|] eqn:El.
    - cbn. destruct (Z.eqb_spec t LRU_NULL) as [->|]; [|done]. apply last_Some_elem_of in El. destruct Hnull. rewrite Hxs. apply elem_of_app. by left.
    - apply last_None in El as ->. cbn. rewrite Z.eqb_refl. by rewrite andb_false_r. }
  rewrite Hc. cbv zeta. clear c Hc.
  destruct (Z.eqb_spec (ll_size l) 0) as [Hs|_].
  { rewrite rep_size0, Hxs, length_app in Hs. simpl in Hs. lia. }
  eexists; split; [done|].
  rewrite Hxs in rep_nodup0 |- *. rewrite without_mid by done.
  assert (El : (i ∉ l1) /\ (i ∉ l2)).
  { apply NoDup_app in rep_nodup0 as (_ & H1 & [H2 _]%NoDup_cons). split; [|done].
    intros Hj. apply (H1 _ Hj), elem_of_cons. by left. }
  destruct El as [Ei1 Ei2].
  assert (Hbi : bypass (ll_elem l) i !!! i = ll_elem l !!! i).
  { rewrite Hb, !decide_False; [unfold key_of; by destruct (ll_elem l !!! i)| |].
    - intros ?%head_Some_elem_of. done. - intros ?%last_Some_elem_of. done. }
  set (e' := set_le_next _ i LRU_NULL).
  assert (He' : forall j, e' !!! j = if decide (i = j) then mk_lru_elem LRU_NULL LRU_NULL (key_of l j) else bypass (ll_elem l) i !!! j).
  { intros j. subst e'. unfold set_le_next, set_le_prev. rewrite lookup_total_insert.
    case_decide as C; [rewrite <-C, lookup_total_insert_eq; cbn; by rewrite Hbi|].
    by rewrite lookup_total_insert_ne. }
  split_and!; [|done|].
  2:{ intros j. unfold key_of at 1. cbn [ll_elem]. rewrite He', Hb. by case_decide. }
  constructor; cbn [ll_head ll_tail ll_max ll_size ll_elem].
  - apply NoDup_app in rep_nodup0 as (? & H1 & [? ?]%NoDup_cons). apply NoDup_app. split_and!; [done| |done].
    intros j Hj Hj'. apply (H1 _ Hj), elem_of_cons. by right.
  - intros j Hj. apply rep_range0. rewrite Hxs. apply elem_of_app in Hj as [?|?]; apply elem_of_app; [by left|right; apply elem_of_cons; by right].
  - rewrite Hbi, rep_head0, Hxs. destruct l1 as [|x l1]; cbn.
    + by rewrite Z.eqb_refl, Hn.
    + destruct (Z.eqb_spec x i) as [->|]; [|done]. destruct Ei1. apply elem_of_cons. by left.
  - rewrite Hbi, rep_tail0, Hxs, !last_app. cbn [head]. destruct (last l2) as [x|] eqn:L2.
    + rewrite last_cons, L2. cbn. apply last_Some_elem_of in L2. destruct (Z.eqb_spec x i) as [->|]; done.
    + rewrite last_cons, L2. cbn. rewrite Z.eqb_refl, Hp. done.
  - eapply linked_remove; [exact rep_nodup0|exact rep_linked0|]. intros j Hj. cbv beta.
    rewrite He', decide_False, Hb; [done|]. intros <-. apply elem_of_app in Hj as [?|?]; done.
  - intros j Hj Hnj. rewrite He'. case_decide as C; [done|]. rewrite Hb, !decide_False; cbn.
    + apply rep_free0; [done|]. rewrite Hxs, elem_of_app, elem_of_cons. rewrite elem_of_app in Hnj. intuition.
    + intros ?%head_Some_elem_of. apply Hnj, elem_of_app. by right.
    + intros ?%last_Some_elem_of. apply Hnj, elem_of_app. by left.
  - rewrite rep_size0, Hxs, !length_app. cbn [length]. unfold u64. rewrite Hxs, length_app in Hlen. cbn [length] in Hlen.
    rewrite Z.mod_small; lia.
  - done.
  - intros j. subst e'. unfold set_le_next, set_le_prev. rewrite !dom_insert, <-Hbd.
    assert (i ∈ dom (bypass (ll_elem l) i)) by by apply Hbd. set_solver+H0.
Qed.

Lemma lru_rem_notin i : 0 <= i < ll_max l -> i ∉ xs ->
  exists r, lru_rem i (Some l) = Some (r, Some l).
Proof.
  intros Hi Hni. pose proof Hrep as [].
  unfold lru_rem. destruct (Z.leb_spec (ll_max l) i); [lia|].
  destruct (Z.eqb_spec i LRU_NULL); [unfold LRU_NULL in *; lia|]. cbn [orb].
  destruct (_ && _) eqn:Eh; [eauto|].
  destruct (rep_free0 i Hi Hni) as [-> ->]. rewrite !Z.eqb_refl. cbn [andb].
  assert (Hh : ll_head l <> i).
  { rewrite rep_head0. destruct (head xs) eqn:E; cbn; [|lia]. apply head_Some_elem_of in E. by intros ->. }
  assert (Ht : ll_tail l <> i).
  { rewrite rep_tail0. destruct (last xs) eqn:E; cbn; [|lia]. apply last_Some_elem_of in E. by intros ->. }
  destruct (Z.eqb_spec (ll_head l) i); [done|]. destruct (Z.eqb_spec (ll_tail l) i); [done|]. cbn. eauto.
Qed.

Lemma lru_rem_rep i : 0 <= i < ll_max l ->
  exists r l', lru_rem i (Some l) = Some (r, Some l') /\ lru_rep l' (without i xs) /\
    ll_max l' = ll_max l /\ (forall j, key_of l' j = key_of l j).
Proof.
  intros Hi. destruct (decide (i ∈ xs)) as [Hin|Hni].
  - destruct (lru_rem_in i Hin) as (l' & ? & ? & ? & ?). eauto 10.
  - destruct (lru_rem_notin i Hi Hni) as [r Hr]. exists r, l. rewrite without_notin by done. eauto.
Qed.
End rep.

(** moving to the tail keeps the rest in order *)
Lemma lru_touch_rep l xs i k : lru_rep l xs -> 0 <= i < ll_max l ->
  exists l', lru_touch i k (Some l) = Some (0, Some l') /\ lru_rep l' (without i xs ++ [i]) /\
    ll_max l' = ll_max l /\ key_of l' i = k /\ (forall j, i <> j -> key_of l' j = key_of l j).
Proof.
  intros Hrep Hi. unfold lru_touch. destruct (Z.leb_spec (ll_max l) i); [lia|].
  destruct (Z.eqb_spec (ll_tail l) i) as [Ht|Ht].
  - assert (Hlast : last xs = Some i).
    { rewrite (rep_tail _ _ Hrep) in Ht. destruct (last xs); cbn in Ht; [congruence|unfold LRU_NULL in Ht; lia]. }
    apply last_Some in Hlast as [ys ->].
    eexists; split; [done|]. pose proof Hrep as [].
    assert (Hni : i ∉ ys) by (apply NoDup_app in rep_nodup0 as (_ & H1 & _); intros Hj; apply (H1 _ Hj); set_solver+).
    rewrite without_mid, app_nil_r by done.
    assert (Eu : forall j, le_next (set_le_key (ll_elem l) i k !!! j) = le_next (ll_elem l !!! j) /\
                          le_prev (set_le_key (ll_elem l) i k !!! j) = le_prev (ll_elem l !!! j)).
    { intros j. unfold set_le_key. rewrite lookup_total_insert. case_decide as C; [by rewrite <-C|done]. }
    split_and!; [|done| |].
    + constructor; cbn [ll_head ll_tail ll_max ll_size ll_elem]; try done.
      * eapply linked_ext; [|exact rep_linked0]. intros j _. destruct (Eu j) as [-> ->]. done.
      * intros j Hj Hnj. destruct (Eu j) as [-> ->]. auto.
      * intros j. unfold set_le_key. rewrite dom_insert, <-rep_dom0.
        assert (i ∈ dom (ll_elem l)) by by apply rep_dom0. set_solver+H0.
    + unfold key_of, set_le_key; cbn. by rewrite lookup_total_insert_eq.
    + intros j Hj. unfold key_of, set_le_key; cbn. by rewrite lookup_total_insert_ne.
  - destruct (lru_rem_rep l xs Hrep i Hi) as (r & l1 & E1 & Hrep1 & Hm1 & Hk1).
    destruct (lru_add_rep l1 _ Hrep1 i k) as (l2 & E2 & Hrep2 & Hm2 & Hk2 & Hk2').
    { by rewrite Hm1. } { rewrite elem_of_without. tauto. }
    exists l2. unfold bind. rewrite E1, E2. split; [done|]. split; [done|]. split; [congruence|]. split; [done|].
    intros j Hj. rewrite Hk2' by done. apply Hk1.
Qed.

Lemma lru_rem_head_rep l xs : lru_rep l xs ->
  exists l', lru_rem_head (Some l) =
    Some ((0, default LRU_NULL (head xs), match head xs with Some i => key_of l i | None => 0 end), Some l') /\
    lru_rep l' (tail xs) /\ ll_max l' = ll_max l /\ (forall j, key_of l' j = key_of l j).
Proof.
  intros Hrep. unfold lru_rem_head. pose proof (rep_head_null l xs Hrep) as Hn.
  pose proof (rep_head _ _ Hrep) as Hh. destruct xs as [|i xs]; cbn in Hh |- *.
  - rewrite Hh. rewrite Z.eqb_refl. eauto.
  - destruct (Z.eqb_spec (ll_head l) LRU_NULL) as [E|_]; [by apply Hn in E|].
    destruct (lru_rem_in l (i :: xs) Hrep i) as (l' & E & Hrep' & Hm & Hk); [set_solver+|].
    rewrite Hh. unfold bind. rewrite E. exists l'. cbn. split; [done|]. split; [|done].
    pose proof (without_mid [] i xs (rep_nodup _ _ Hrep)) as W. cbn in W. by rewrite <-W.
Qed.

(** ** The list is ordered by age *)
Definition by_age (l : lru_ls) (xs : list Z) : Prop :=
  StronglySorted (fun i j => key_of l i <= key_of l j) xs.

Lemma StronglySorted_without (R : Z -> Z -> Prop) i xs :
  StronglySorted R xs -> StronglySorted R (without i xs).
Proof.
  unfold without. induction 1 as [|x xs Hs IH Hx]; [constructor|]. rewrite filter_cons. case_decide; [|done].
  constructor; [done|]. rewrite Forall_forall in *. intros y Hy. apply Hx. by apply list_elem_of_filter in Hy as [_ ?].
Qed.

Lemma StronglySorted_ext (R R' : Z -> Z -> Prop) xs :
  (forall i j, i ∈ xs -> j ∈ xs -> R i j -> R' i j) -> StronglySorted R xs -> StronglySorted R' xs.
Proof.
  intros Hext. induction 1 as [|x xs Hs IH Hx]; constructor.
  - apply IH. intros i j Hi Hj. apply Hext; set_solver+Hi Hj.
  - rewrite Forall_forall in *. intros y Hy. apply Hext; [set_solver+|set_solver+Hy|auto].
Qed.

Lemma StronglySorted_snoc (R : Z -> Z -> Prop) xs x :
  StronglySorted R xs -> (forall y, y ∈ xs -> R y x) -> StronglySorted R (xs ++ [x]).
Proof.
  induction 1 as [|y xs Hs IH Hy]; intros Hx; cbn; [repeat constructor|].
  constructor; [apply IH; intros z Hz; apply Hx; set_solver+Hz|].
  apply Forall_app. split; [done|]. constructor; [apply Hx; set_solver+|done].
Qed.

Lemma touch_by_age l l' xs i now : lru_rep l xs -> by_age l xs -> (forall j, j ∈ xs -> key_of l j <= now) ->
  key_of l' i = now -> (forall j, i <> j -> key_of l' j = key_of l j) -> by_age l' (without i xs ++ [i]).
Proof.
  intros Hrep Hage Hnow Hk Hk'. apply StronglySorted_snoc.
  - eapply StronglySorted_ext; [|by apply StronglySorted_without, Hage].
    intros a b [Ha _]%elem_of_without [Hb _]%elem_of_without. cbv beta. rewrite !Hk' by auto. done.
  - intros y [Hy Hin]%elem_of_without. rewrite Hk, Hk' by auto. by apply Hnow.
Qed.

Lemma rem_head_oldest l xs : lru_rep l xs -> by_age l xs ->
  exists l' i t, lru_rem_head (Some l) = Some ((0, i, t), Some l') /\ lru_rep l' (tail xs) /\ by_age l' (tail xs) /\
    (i = LRU_NULL <-> xs = []) /\ (xs <> [] -> i ∈ xs /\ t = key_of l i /\ forall j, j ∈ xs -> t <= key_of l j).
Proof.
  intros Hrep Hage. destruct (lru_rem_head_rep l xs Hrep) as (l' & E & Hr & _ & Hk).
  eexists l', _, _. split; [exact E|]. split; [done|]. destruct xs as [|i xs]; cbn [tail head default from_option id] in *.
  - split_and!; [constructor|done|done].
  - apply StronglySorted_inv in Hage as [Hage Hall]. split_and!.
    + eapply StronglySorted_ext; [|exact Hage]. intros a b _ _. cbv beta. by rewrite !Hk.
    + split; [|done]. intros ->. destruct (rep_null_notin l (LRU_NULL :: xs) Hrep). apply elem_of_cons. by left.
    + intros _. split_and!; [apply elem_of_cons; by left|done|]. intros j [->|Hj]%elem_of_cons; [lia|].
      rewrite Forall_forall in Hall. by apply Hall.
Qed.
