(* ===== verification/Scan.v ===== *)
(** * Scanning the blocks of a set

    Every replacement policy answers two questions about a set: which [VALID]
    block to evict, and which dirty blocks to start cleaning.  Each visits the
    blocks of the set in an order of its own and stops early.  This file states
    both answers for an arbitrary order; [Fifo], [Rand] and [Lru] show that the
    loops of their source file compute them. *)

From S2P Require Import Prelude Types Mem.

(** the blocks of set [set] *)
Definition set_start (d : cache_c) (set : Z) : Z := set * assoc d.
Definition set_blocks (d : cache_c) (set : Z) : list Z := seqZ (set_start d set) (assoc d).

Lemma elem_of_set_blocks d set i : wf_geom d ->
  i ∈ set_blocks d set <-> i / assoc d = set.
Proof.
  intros Hg. pose proof (assoc_pos d Hg). unfold set_blocks, set_start. rewrite elem_of_seqZ.
  split; [intros ?; symmetry; apply Z.div_unique with (i - set * assoc d); lia|].
  intros <-. pose proof (Z.div_mod i (assoc d)). pose proof (Z.mod_pos_bound i (assoc d)). nia.
Qed.

(** ** Eviction: the first block in the order whose state is exactly [VALID] *)
Definition is_valid (d : cache_c) (i : Z) : bool := EIO_CACHE_STATE_GET d i =? VALID.
Definition first_valid (d : cache_c) (order : list Z) : option Z := List.find (is_valid d) order.

(** ** Cleaning: mark dirty idle blocks until [to_clean] are marked *)
Definition cleanable (d : cache_c) (i : Z) : bool :=
  Z.land (EIO_CACHE_STATE_GET d i) (Z.lor DIRTY BLOCK_IO_INPROG) =? DIRTY.

Fixpoint scan_clean (d : cache_c) (order : list Z) (to_clean nr_writes : Z) : Z * cache_c :=
  match order with
  | [] => (nr_writes, d)
  | i :: order' =>
    if negb (nr_writes <? to_clean) then (nr_writes, d)
    else if cleanable d i
         then scan_clean (EIO_CACHE_STATE_ON d i DISKWRITEINPROG) order' to_clean (nr_writes + 1)
         else scan_clean d order' to_clean nr_writes
  end.

(** the blocks a scan marks *)
Fixpoint scan_marked (d : cache_c) (order : list Z) (budget : nat) : list Z :=
  match order, budget with
  | i :: order', S n => if cleanable d i then i :: scan_marked d order' n else scan_marked d order' budget
  | _, _ => []
  end.

Lemma first_valid_Some d order i : first_valid d order = Some i ->
  i ∈ order /\ EIO_CACHE_STATE_GET d i = VALID.
Proof.
  intros [Hin Hv]%List.find_some. split; [by apply list_elem_of_In|]. by apply Z.eqb_eq.
Qed.
Lemma first_valid_None d order : first_valid d order = None ->
  forall i, i ∈ order -> EIO_CACHE_STATE_GET d i <> VALID.
Proof.
  intros Hf i Hi%list_elem_of_In. pose proof (List.find_none _ _ Hf i Hi) as H.
  by apply Z.eqb_neq in H.
Qed.

Section scan.
Implicit Types (d : cache_c) (order : list Z).

Lemma state_on_md_only d i m : md_only d (EIO_CACHE_STATE_ON d i m).
Proof. apply state_set_md_only. Qed.

Lemma scan_clean_md_only d order n k : md_only d (scan_clean d order n k).2.
Proof.
  revert d k. induction order as [|i order IH]; intros d k; cbn; [done|].
  destruct (negb _); [done|]. destruct (cleanable d i); [|apply IH].
  etransitivity; [apply state_on_md_only|apply IH].
Qed.

Lemma scan_marked_order d order n i : i ∈ scan_marked d order n -> i ∈ order /\ cleanable d i = true.
Proof.
  revert n. induction order as [|j order IH]; intros [|n]; cbn; try by intros ?%not_elem_of_nil.
  destruct (cleanable d j) eqn:E; [intros [->|H]%elem_of_cons|intros H].
  - split; [by apply elem_of_cons; left|done].
  - destruct (IH _ H). split; [by apply elem_of_cons; right|done].
  - destruct (IH _ H). split; [by apply elem_of_cons; right|done].
Qed.

Lemma scan_marked_ext d d' order n :
  (forall i, i ∈ order -> EIO_CACHE_STATE_GET d' i = EIO_CACHE_STATE_GET d i) ->
  scan_marked d' order n = scan_marked d order n.
Proof.
  revert n. induction order as [|i order IH]; intros [|n] H; cbn; try done.
  unfold cleanable. rewrite H by (apply elem_of_cons; by left).
  rewrite !IH; [done|..]; intros j Hj; apply H; apply elem_of_cons; by right.
Qed.

Lemma scan_marked_length d order n : (length (scan_marked d order n) <= n)%nat.
Proof.
  revert n. induction order as [|i order IH]; intros [|n]; cbn; try lia.
  destruct (cleanable d i); cbn; [specialize (IH n)|specialize (IH (S n))]; lia.
Qed.

(** The scan marks the first [to_clean] dirty idle blocks of the order, sets
    [DISKWRITEINPROG] on exactly those, and returns their number. *)
Lemma scan_clean_spec d order to_clean k :
  NoDup order -> k <= to_clean ->
  let n := Z.to_nat (to_clean - k) in
  let marked := scan_marked d order n in
  let '(nr, d') := scan_clean d order to_clean k in
  nr = k + Z.of_nat (length marked) /\
  (forall i, EIO_CACHE_STATE_GET d' i =
     if decide (i ∈ marked) then Z.lor (EIO_CACHE_STATE_GET d i) DISKWRITEINPROG
     else EIO_CACHE_STATE_GET d i) /\
  (forall i, md_raw d' i = md_raw d i) /\ index_zero d' = index_zero d.
Proof.
  revert d k. induction order as [|i order IH]; intros d k Hnd Hk n marked; subst n marked.
  { cbn [scan_clean scan_marked length]. split_and!; intros; rewrite ?decide_False by apply not_elem_of_nil; done || lia. }
  apply NoDup_cons in Hnd as [Hi Hnd]. cbn [scan_clean].
  destruct (Z.ltb_spec k to_clean); cbn [negb].
  2:{ replace (to_clean - k) with 0 by lia. change (Z.to_nat 0) with O. cbn [scan_marked length]. split_and!; intros; rewrite ?decide_False by apply not_elem_of_nil; done || lia. }
  destruct (Z.to_nat (to_clean - k)) as [|n] eqn:En; [lia|]. cbn [scan_marked].
  destruct (cleanable d i) eqn:Ec.
  - set (d1 := EIO_CACHE_STATE_ON d i DISKWRITEINPROG).
    assert (Hd1 : forall j, j ∈ order -> EIO_CACHE_STATE_GET d1 j = EIO_CACHE_STATE_GET d j).
    { intros j Hj. apply state_get_set_ne. by intros ->. }
    specialize (IH d1 (k + 1) Hnd ltac:(lia)). cbv zeta in IH.
    replace (Z.to_nat (to_clean - (k + 1))) with n in IH by lia.
    rewrite (scan_marked_ext _ _ _ _ Hd1) in IH.
    destruct (scan_clean d1 order to_clean (k + 1)) as [nr d'].
    destruct IH as (-> & Hst & Hraw & Hz). split_and!.
    + cbn [length]. lia.
    + intros j. rewrite Hst. destruct (decide (i = j)) as [<-|Hij].
      * rewrite decide_False by (intros [? _]%scan_marked_order; done).
        rewrite decide_True by (apply elem_of_cons; by left). by apply state_get_on_eq.
      * assert (Ej : EIO_CACHE_STATE_GET d1 j = EIO_CACHE_STATE_GET d j) by by apply state_get_set_ne.
        rewrite Ej. destruct (decide (j ∈ scan_marked d order n)).
        -- rewrite decide_True by (apply elem_of_cons; by right). done.
        -- rewrite decide_False by (intros [?|?]%elem_of_cons; congruence). done.
    + intros j. rewrite Hraw. apply state_set_raw.
    + rewrite Hz. apply state_set_index_zero.
  - specialize (IH d k Hnd Hk). cbv zeta in IH. rewrite En in IH. done.
Qed.
End scan.

(** [DIRTY] and no I/O in progress: the state byte of a cleanable block is a
    dirty one without in-progress bits *)
Lemma cleanable_dirty d i : cleanable d i = true -> tst (EIO_CACHE_STATE_GET d i) DIRTY = true.
Proof.
  unfold cleanable, tst. rewrite Z.eqb_eq. intros H. apply negb_true_iff, Z.eqb_neq. intros H'.
  assert (E : Z.land (Z.land (EIO_CACHE_STATE_GET d i) (Z.lor DIRTY BLOCK_IO_INPROG)) DIRTY = DIRTY) by by rewrite H.
  rewrite <-Z.land_assoc in E. change (Z.land (Z.lor DIRTY BLOCK_IO_INPROG) DIRTY) with DIRTY in E.
  rewrite H' in E. done.
Qed.

(** ** Cyclic orders *)

(** the [n] blocks from [start], beginning at offset [a] and wrapping around *)
Definition ring_order (start n a : Z) : list Z := map (fun j => start + (a + j) mod n) (seqZ 0 n).

Lemma ring_order_perm start n a : 0 < n -> ring_order start n a ≡ₚ seqZ start n.
Proof.
  intros Hn. apply NoDup_Permutation.
  - apply NoDup_fmap_2_strong; [|apply NoDup_seqZ].
    intros x y Hx%elem_of_seqZ Hy%elem_of_seqZ E.
    assert ((a + x) mod n = (a + y) mod n) as E' by lia.
    pose proof (Z.div_mod (a + x) n ltac:(lia)) as D1. pose proof (Z.div_mod (a + y) n ltac:(lia)) as D2.
    rewrite E' in D1. generalize dependent ((a + y) mod n). generalize dependent ((a + x) / n).
    generalize dependent ((a + y) / n). intros q2 q1 r _ D1 D2.
    destruct (Z.lt_trichotomy q1 q2) as [?|[->|?]]; nia.
  - apply NoDup_seqZ.
  - intros x. unfold ring_order. rewrite list_elem_of_fmap. setoid_rewrite elem_of_seqZ. split.
    + intros (j & -> & Hj). pose proof (Z.mod_pos_bound (a + j) n). lia.
    + intros Hx. exists ((x - start - a) mod n). pose proof (Z.mod_pos_bound (x - start - a) n).
      split; [|lia]. rewrite Zplus_mod_idemp_r. replace (a + (x - start - a)) with (x - start) by lia.
      rewrite Z.mod_small; lia.
Qed.

(** the successor used by the loops that wrap from [end_index] to [start_index] *)
Definition ring_next (start end_ i : Z) : Z := if i + 1 =? end_ then start else i + 1.
Fixpoint ring_from (k : nat) (start end_ i : Z) : list Z :=
  match k with O => [] | S k => i :: ring_from k start end_ (ring_next start end_ i) end.

Lemma ring_next_range start n i : 0 < n -> start <= i < start + n ->
  start <= ring_next start (start + n) i < start + n.
Proof. intros. unfold ring_next. destruct (Z.eqb_spec (i + 1) (start + n)); lia. Qed.

Lemma ring_next_mod start n i : 0 < n -> start <= i < start + n ->
  ring_next start (start + n) i = start + (i - start + 1) mod n.
Proof.
  intros. unfold ring_next. destruct (Z.eqb_spec (i + 1) (start + n)).
  - replace (i - start + 1) with n by lia. rewrite Z.mod_same; lia.
  - rewrite Z.mod_small; lia.
Qed.

Lemma ring_from_eq start n i k : 0 < n -> start <= i < start + n ->
  ring_from k start (start + n) i = map (fun j => start + (i - start + j) mod n) (seqZ 0 (Z.of_nat k)).
Proof.
  intros Hn. revert i. induction k as [|k IH]; intros i Hi; [done|]. cbn [ring_from].
  rewrite seqZ_cons by lia. cbn [map]. f_equal; [rewrite Z.add_0_r, Z.mod_small; lia|].
  rewrite IH by by apply ring_next_range. replace (Z.pred (Z.of_nat (S k))) with (Z.of_nat k) by lia.
  rewrite <-(fmap_add_seqZ 1 0), map_map. apply map_ext. intros j. rewrite ring_next_mod by done.
  replace (start + (i - start + 1) mod n - start + j) with ((i - start + 1) mod n + j) by lia.
  rewrite Zplus_mod_idemp_l. do 2 f_equal. lia.
Qed.

Lemma ring_from_order start n i : 0 < n -> start <= i < start + n ->
  ring_from (Z.to_nat n) start (start + n) i = ring_order start n (i - start).
Proof. intros. rewrite ring_from_eq by done. unfold ring_order. do 2 f_equal. lia. Qed.
