(* ===== verification/Fifo.v ===== *)
(** * FIFO replacement: [eio_fifo.c]

    Each set has two cursors: where to look for the next victim and where to
    look for the next block to clean.  Both move around the set. *)

From S2P Require Import Prelude Types Mem Scan.

Definition eio_fifo_init (d : cache_c) : Z := 0.

(** [sp_cache_set] is allocated ([vmalloc_ok]) and both cursors of every set
    are put on its first block. *)
Definition eio_fifo_cache_sets_init (vmalloc_ok : bool) : M cache_c Z := fun d =>
  if negb vmalloc_ok then Some (- ENOMEM, set_sp_cache_set SpNull d)
  else
    let n := i32 (Z.shiftr (dmc_size d) (consecutive_shift d)) in
    let sets := foldl (fun m i => <[i := mk_fifo_set (i * assoc d) (i * assoc d)]> m)
                  (∅ : gmap Z eio_fifo_cache_set) (seqZ 0 n) in
    Some (0, set_sp_cache_set (SpFifo sets) d).

Definition eio_fifo_cache_blk_init : M cache_c Z := ret 0.

(** the search loop: the victim, if any, and the cursor when the loop ends *)
Fixpoint fifo_search (fuel : nat) (d : cache_c) (start_index end_index slots_searched i : Z)
  : option (option Z * Z) :=
  match fuel with
  | O => None
  | S n =>
    if slots_searched <? assoc d then
      if negb (start_index <=? i) then None
      else if negb (i <? end_index) then None
      else if EIO_CACHE_STATE_GET d i =? VALID then Some (Some i, i)
      else fifo_search n d start_index end_index (slots_searched + 1)
             (ring_next start_index end_index i)
    else Some (None, i)
  end.

Definition eio_fifo_find_reclaim_dbn (start_index index : Z) : M cache_c Z := fun d =>
  let set := start_index / assoc d in
  let end_index := start_index + assoc d in
  match fifo_search (S (Z.to_nat (assoc d))) d start_index end_index 0 (set_fifo_next (fifo_sets d !!! set)) with
  | None => None
  | Some (found, i) =>
    let s := fifo_sets d !!! set in
    let s' := mk_fifo_set (ring_next start_index end_index i) (set_clean_next s) in
    Some (default index found, set_sp_cache_set (SpFifo (<[set := s']> (fifo_sets d))) d)
  end.

(** the cleaning loop: blocks marked, cursor, and the new state *)
Fixpoint fifo_clean_loop (fuel : nat) (d : cache_c) (start_index end_index scanned nr_writes to_clean i : Z)
  : option (Z * Z * cache_c) :=
  match fuel with
  | O => None
  | S n =>
    if (scanned <? assoc d) && (nr_writes <? to_clean) then
      if Z.land (EIO_CACHE_STATE_GET d i) (Z.lor DIRTY BLOCK_IO_INPROG) =? DIRTY
      then fifo_clean_loop n (EIO_CACHE_STATE_ON d i DISKWRITEINPROG) start_index end_index
             (scanned + 1) (nr_writes + 1) to_clean (ring_next start_index end_index i)
      else fifo_clean_loop n d start_index end_index (scanned + 1) nr_writes to_clean
             (ring_next start_index end_index i)
    else Some (nr_writes, i, d)
  end.

Definition eio_fifo_clean_set (set to_clean : Z) : M cache_c Z := fun d =>
  let start_index := set * assoc d in
  let end_index := start_index + assoc d in
  match fifo_clean_loop (S (Z.to_nat (assoc d))) d start_index end_index 0 0 to_clean
          (set_clean_next (fifo_sets d !!! set)) with
  | None => None
  | Some (nr_writes, i, d') =>
    let s := fifo_sets d' !!! set in
    Some (nr_writes, set_sp_cache_set (SpFifo (<[set := mk_fifo_set (set_fifo_next s) i]> (fifo_sets d'))) d')
  end.

(** ** Invariant: both cursors stay inside their set *)
Definition fifo_inv (d : cache_c) : Prop :=
  exists m, sp_cache_set d = SpFifo m /\
    forall set, 0 <= set < num_sets d ->
      is_Some (m !! set) /\
      (set_fifo_next (m !!! set)) / assoc d = set /\ (set_clean_next (m !!! set)) / assoc d = set.

Lemma fifo_sets_eq d m : sp_cache_set d = SpFifo m -> fifo_sets d = m.
Proof. unfold fifo_sets. by intros ->. Qed.

Section fifo.
Context (d : cache_c) (Hg : wf_geom d).

Lemma set_range_div set i : i / assoc d = set <-> set_start d set <= i < set_start d set + assoc d.
Proof.
  pose proof (assoc_pos d Hg). unfold set_start. split.
  - intros <-. pose proof (Z.div_mod i (assoc d)). pose proof (Z.mod_pos_bound i (assoc d)). nia.
  - intros. symmetry. apply Z.div_unique with (i - set * assoc d); lia.
Qed.

Lemma fifo_search_ok start k : forall i slots, start <= i < start + assoc d ->
  0 <= slots -> slots + Z.of_nat k = assoc d ->
  exists j, fifo_search (S k) d start (start + assoc d) slots i
      = Some (first_valid d (ring_from k start (start + assoc d) i), j) /\
    start <= j < start + assoc d.
Proof.
  pose proof (assoc_pos d Hg). induction k as [|k IH]; intros i slots Hi Hs Hk.
  - exists i. cbn [fifo_search]. destruct (Z.ltb_spec slots (assoc d)); [lia|]. done.
  - remember (S k) as fuel. cbn [fifo_search]. subst fuel.
    destruct (Z.ltb_spec slots (assoc d)); [|lia].
    destruct (Z.leb_spec start i); [|lia]. destruct (Z.ltb_spec i (start + assoc d)); [|lia].
    cbn [negb ring_from first_valid List.find]. fold (first_valid d).
    unfold is_valid at 1. destruct (EIO_CACHE_STATE_GET d i =? VALID); [by exists i|].
    destruct (IH (ring_next start (start + assoc d) i) (slots + 1)) as (j & E & Hj);
      [by apply ring_next_range|lia|lia|]. exists j. by rewrite E.
Qed.

Lemma fifo_clean_ok start to_clean : forall k d' i scanned nr,
  md_only d d' -> start <= i < start + assoc d -> 0 <= scanned -> scanned + Z.of_nat k = assoc d ->
  exists j, fifo_clean_loop (S k) d' start (start + assoc d) scanned nr to_clean i
      = Some ((scan_clean d' (ring_from k start (start + assoc d) i) to_clean nr).1, j,
              (scan_clean d' (ring_from k start (start + assoc d) i) to_clean nr).2) /\
    start <= j < start + assoc d.
Proof.
  pose proof (assoc_pos d Hg). induction k as [|k IH]; intros d' i scanned nr Hmd Hi Hs Hk.
  - exists i. cbn [fifo_clean_loop]. destruct (geom_fields _ _ (md_only_geom _ _ Hmd)) as (_ & -> & _).
    destruct (Z.ltb_spec scanned (assoc d)); [lia|]. done.
  - remember (S k) as fuel. cbn [fifo_clean_loop]. subst fuel.
    destruct (geom_fields _ _ (md_only_geom _ _ Hmd)) as (_ & -> & _).
    destruct (Z.ltb_spec scanned (assoc d)); [|lia]. cbn [ring_from scan_clean].
    destruct (nr <? to_clean) eqn:En; cbn [negb andb]; [|by exists i].
    unfold cleanable. destruct (_ =? DIRTY).
    + apply IH; [etransitivity; [exact Hmd|apply state_on_md_only]|by apply ring_next_range|lia|lia].
    + apply IH; [done|by apply ring_next_range|lia|lia].
Qed.
End fifo.

(** the order in which FIFO looks for a victim, and for blocks to clean *)
Definition fifo_order (d : cache_c) (set : Z) : list Z :=
  ring_order (set_start d set) (assoc d) (set_fifo_next (fifo_sets d !!! set) - set_start d set).
Definition fifo_clean_order (d : cache_c) (set : Z) : list Z :=
  ring_order (set_start d set) (assoc d) (set_clean_next (fifo_sets d !!! set) - set_start d set).

Lemma fifo_find_reclaim_spec d set index : wf_geom d -> fifo_inv d -> 0 <= set < num_sets d ->
  exists m', eio_fifo_find_reclaim_dbn (set_start d set) index d
     = Some (default index (first_valid d (fifo_order d set)), set_sp_cache_set (SpFifo m') d) /\
    fifo_inv (set_sp_cache_set (SpFifo m') d).
Proof.
  intros Hg (m & Hm & Hinv) Hset. pose proof (assoc_pos d Hg) as Ha.
  destruct (Hinv set Hset) as (Hs & Hf & Hc). unfold eio_fifo_find_reclaim_dbn.
  replace (set_start d set / assoc d) with set by (unfold set_start; rewrite Z.div_mul; lia).
  rewrite (fifo_sets_eq d m Hm). apply (set_range_div d Hg) in Hf as Hr.
  destruct (fifo_search_ok d Hg (set_start d set) (Z.to_nat (assoc d)) (set_fifo_next (m !!! set)) 0)
    as (j & E & Hj); [done|lia|lia|].
  rewrite E. rewrite ring_from_order by done. eexists. split.
  { unfold fifo_order. by rewrite (fifo_sets_eq d m Hm). }
  eexists; split; [done|]. intros s Hs'. cbn. change (assoc (set_sp_cache_set _ d)) with (assoc d).
  destruct (decide (set = s)) as [<-|Hne].
  - rewrite lookup_insert_eq, lookup_total_insert_eq. cbn. split_and!; [eauto| |done].
    apply (set_range_div d Hg). by apply ring_next_range.
  - rewrite lookup_insert_ne, lookup_total_insert_ne by done. by apply Hinv.
Qed.

Lemma fifo_clean_set_spec d set to_clean : wf_geom d -> fifo_inv d -> 0 <= set < num_sets d ->
  let r := scan_clean d (fifo_clean_order d set) to_clean 0 in
  exists m', eio_fifo_clean_set set to_clean d = Some (r.1, set_sp_cache_set (SpFifo m') r.2) /\
    fifo_inv (set_sp_cache_set (SpFifo m') r.2).
Proof.
  intros Hg (m & Hm & Hinv) Hset r. pose proof (assoc_pos d Hg) as Ha.
  destruct (Hinv set Hset) as (Hs & Hf & Hc). unfold eio_fifo_clean_set. fold (set_start d set).
  rewrite (fifo_sets_eq d m Hm). apply (set_range_div d Hg) in Hc as Hr.
  destruct (fifo_clean_ok d Hg (set_start d set) to_clean (Z.to_nat (assoc d)) d (set_clean_next (m !!! set)) 0 0)
    as (j & E & Hj); [done|done|lia|lia|].
  rewrite E, ring_from_order by done. replace (ring_order _ _ _) with (fifo_clean_order d set)
    by (unfold fifo_clean_order; by rewrite (fifo_sets_eq d m Hm)).
  fold r. pose proof (scan_clean_md_only d (fifo_clean_order d set) to_clean 0) as Hmd. fold r in Hmd.
  destruct Hmd as (c & c8 & z & ->). cbv beta iota zeta.
  eexists; split; [done|]. eexists; split; [done|]. intros s Hs'. cbn.
  rewrite (fifo_sets_eq _ m) by exact Hm.
  destruct (decide (set = s)) as [<-|Hne].
  - rewrite lookup_insert_eq, lookup_total_insert_eq. cbn. split_and!; [eauto|done|].
    by apply (set_range_div d Hg).
  - rewrite lookup_insert_ne, lookup_total_insert_ne by done. by apply Hinv.
Qed.

Lemma fifo_sets_init_inv d : wf_geom d ->
  exists d', eio_fifo_cache_sets_init true d = Some (0, d') /\ fifo_inv d' /\ geom d' = geom d.
Proof.
  intros Hg. pose proof (assoc_pos d Hg). eexists; split; [done|]. split; [|done].
  eexists; split; [done|]. intros set Hset.
  change (num_sets (set_sp_cache_set _ d)) with (num_sets d) in Hset.
  change (assoc (set_sp_cache_set _ d)) with (assoc d). rewrite sets_count_i32 by done.
  assert (L := foldl_insert_lookup (fun i => mk_fifo_set (i * assoc d) (i * assoc d)) (seqZ 0 (num_sets d)) ∅ set).
  rewrite decide_True in L by (apply elem_of_seqZ; lia).
  rewrite (lookup_total_correct _ _ _ L), L. cbn. rewrite Z.div_mul by lia. eauto.
Qed.
