(* ===== verification/Rand.v ===== *)
(** * Random replacement: [eio_rand.c]

    The victim search starts at a counter that is never reset, and the
    cleaning scan goes over the set from its first block. *)

From S2P Require Import Prelude Types Mem Scan.

Definition eio_rand_init (d : cache_c) : Z := 0.
Definition eio_rand_cache_sets_init : M cache_c Z := ret 0.
Definition eio_rand_cache_blk_init : M cache_c Z := ret 0.

(** [k] iterations of the [for] loop remain *)
Fixpoint rand_search (k : nat) (start_index index : Z) (d : cache_c) : Z * cache_c :=
  match k with
  | O => (index, d)
  | S k =>
    let idx := random d mod assoc d in
    let d' := set_random (u32 (random d + 1)) d in
    if EIO_CACHE_STATE_GET d' (start_index + idx) =? VALID then (start_index + idx, d')
    else rand_search k start_index index d'
  end.

Definition eio_rand_find_reclaim_dbn (start_index index : Z) : M cache_c Z := fun d =>
  let start_index := start_index / assoc d * assoc d in
  Some (rand_search (Z.to_nat (assoc d)) start_index index d).

Fixpoint rand_clean_loop (fuel : nat) (d : cache_c) (start_index i nr_writes to_clean : Z)
  : option (Z * cache_c) :=
  match fuel with
  | O => None
  | S n =>
    if (i <? assoc d) && (nr_writes <? to_clean) then
      if Z.land (EIO_CACHE_STATE_GET d (start_index + i)) (Z.lor DIRTY BLOCK_IO_INPROG) =? DIRTY
      then rand_clean_loop n (EIO_CACHE_STATE_ON d (start_index + i) DISKWRITEINPROG) start_index
             (i + 1) (nr_writes + 1) to_clean
      else rand_clean_loop n d start_index (i + 1) nr_writes to_clean
    else Some (nr_writes, d)
  end.

Definition eio_rand_clean_set (set to_clean : Z) : M cache_c Z := fun d =>
  rand_clean_loop (S (Z.to_nat (assoc d))) d (set * assoc d) 0 0 to_clean.

(** ** Orders *)
Definition rand_order (d : cache_c) (set : Z) : list Z :=
  ring_order (set_start d set) (assoc d) (random d).

Lemma u32_mod_assoc d x : wf_geom d -> u32 x mod assoc d = x mod assoc d.
Proof.
  intros Hg. pose proof (assoc_pos d Hg). pose proof (geo_lsb d Hg). pose proof (geo_cs d Hg). pose proof (geo_bs d Hg). unfold u32.
  assert (E : 2 ^ 32 = 2 ^ (32 - consecutive_shift d) * assoc d).
  { rewrite (geo_assoc d Hg), <-Z.pow_add_r by lia. f_equal; lia. }
  rewrite E, Z.mul_comm. pose proof (pow2_pos (32 - consecutive_shift d)).
  rewrite Z.rem_mul_r by lia. rewrite (Z.mul_comm (assoc d)), Z.mod_add by lia. apply Z.mod_mod. lia.
Qed.

Lemma rand_search_spec d start index k : wf_geom d ->
  exists r, rand_search k start index d
    = (default index (first_valid d (map (fun j => start + (random d + j) mod assoc d) (seqZ 0 (Z.of_nat k)))),
       set_random r d) /\ (0 <= random d < 2 ^ 32 -> 0 <= r < 2 ^ 32).
Proof.
  intros Hg. revert d Hg. induction k as [|k IH]; intros d Hg.
  - exists (random d). by destruct d.
  - cbn [rand_search]. rewrite seqZ_cons by lia. cbn [map first_valid List.find]. fold (first_valid d).
    set (d' := set_random _ d).
    change (EIO_CACHE_STATE_GET d' (start + random d mod assoc d)) with (EIO_CACHE_STATE_GET d (start + random d mod assoc d)).
    unfold is_valid at 1. rewrite Z.add_0_r. pose proof (Z.mod_pos_bound (random d + 1) (2 ^ 32)).
    destruct (EIO_CACHE_STATE_GET d _ =? VALID); [exists (u32 (random d + 1)); split; [done|]; intros _; unfold u32; lia|].
    destruct (IH d' (wf_geom_eq d d' eq_refl Hg)) as (r & -> & Hr). exists r. split; [|intros; apply Hr; cbn; unfold u32; lia].
    replace (Z.pred (Z.of_nat (S k))) with (Z.of_nat k) by lia. f_equal.
    f_equal. change (first_valid d') with (first_valid d). f_equal.
    rewrite <-(fmap_add_seqZ 1 0), map_map. apply map_ext. intros j. f_equal.
    change (assoc d') with (assoc d). change (random d') with (u32 (random d + 1)).
    rewrite <-(Zplus_mod_idemp_l (u32 _)), u32_mod_assoc, Zplus_mod_idemp_l by done. f_equal. lia.
Qed.

Lemma rand_find_reclaim_spec d set index : wf_geom d ->
  exists r, eio_rand_find_reclaim_dbn (set_start d set) index d
    = Some (default index (first_valid d (rand_order d set)), set_random r d).
Proof.
  intros Hg. pose proof (assoc_pos d Hg). unfold eio_rand_find_reclaim_dbn.
  replace (set_start d set / assoc d) with set by (unfold set_start; rewrite Z.div_mul; lia).
  fold (set_start d set).
  destruct (rand_search_spec d (set_start d set) index (Z.to_nat (assoc d)) Hg) as (r & -> & _).
  exists r. unfold rand_order, ring_order. by rewrite Z2Nat.id by lia.
Qed.

Lemma rand_clean_ok d start to_clean : wf_geom d -> forall k d' i nr,
  md_only d d' -> 0 <= i -> i + Z.of_nat k = assoc d ->
  rand_clean_loop (S k) d' start i nr to_clean = Some (scan_clean d' (seqZ (start + i) (Z.of_nat k)) to_clean nr).
Proof.
  intros Hg. induction k as [|k IH]; intros d' i nr Hmd Hi Hk.
  - cbn [rand_clean_loop]. destruct (geom_fields _ _ (md_only_geom _ _ Hmd)) as (_ & -> & _).
    destruct (Z.ltb_spec i (assoc d)); [lia|]. done.
  - remember (S k) as fuel. cbn [rand_clean_loop]. rewrite seqZ_cons by lia. cbn [scan_clean]. subst fuel.
    destruct (geom_fields _ _ (md_only_geom _ _ Hmd)) as (_ & -> & _).
    destruct (Z.ltb_spec i (assoc d)); [|lia].
    destruct (nr <? to_clean) eqn:En; cbn [negb andb]; [|done].
    replace (Z.succ (start + i)) with (start + (i + 1)) by lia.
    replace (Z.pred (Z.of_nat (S k))) with (Z.of_nat k) by lia.
    unfold cleanable. destruct (_ =? DIRTY).
    + apply IH; [etransitivity; [exact Hmd|apply state_on_md_only]|lia|lia].
    + apply IH; [done|lia|lia].
Qed.

Lemma rand_clean_set_spec d set to_clean : wf_geom d ->
  eio_rand_clean_set set to_clean d = Some (scan_clean d (set_blocks d set) to_clean 0).
Proof.
  intros Hg. pose proof (assoc_pos d Hg). unfold eio_rand_clean_set, set_blocks, set_start.
  rewrite (rand_clean_ok d _ _ Hg) by (done || lia). rewrite Z.add_0_r. do 3 f_equal. lia.
Qed.
