(* ===== verification/Lru.v ===== *)
(** * LRU replacement: [eio_lru.c]

    The blocks of a set form a doubly linked list, least recently allocated
    first, threaded through [sp_cache_blk] by 16-bit indices relative to the
    first block of the set. *)

From S2P Require Import Prelude Types Mem DList Scan.

Definition EIO_LRU_NULL : Z := 0xFFFF.

Definition eio_lru_init (d : cache_c) : Z := 0.

Definition eio_lru_cache_sets_init (vmalloc_ok : bool) : M cache_c Z := fun d =>
  if negb vmalloc_ok then Some (- ENOMEM, set_sp_cache_set SpNull d)
  else
    let n := i32 (Z.shiftr (dmc_size d) (consecutive_shift d)) in
    let sets := foldl (fun m i => <[i := mk_lru_set EIO_LRU_NULL EIO_LRU_NULL]> m)
                  (∅ : gmap Z eio_lru_cache_set) (seqZ 0 n) in
    Some (0, set_sp_cache_set (SpLru sets) d).

(** the array is allocated and left uninitialised: [fresh] is its contents *)
Definition eio_lru_cache_blk_init (fresh : option (gmap Z eio_lru_cache_block)) : M cache_c Z := fun d =>
  match fresh with
  | None => Some (- ENOMEM, set_sp_cache_blk ∅ d)
  | Some b => Some (0, set_sp_cache_blk b d)
  end.

(** assignments to [lru_next] and [lru_prev] of a block *)
Definition put_next (b : gmap Z eio_lru_cache_block) (i v : Z) :=
  <[i := mk_lru_block (lru_prev (b !!! i)) v]> b.
Definition put_prev (b : gmap Z eio_lru_cache_block) (i v : Z) :=
  <[i := mk_lru_block v (lru_next (b !!! i))]> b.

(** "Remove from LRU": the fields of [cacheblk] are read again after the
    first assignment, which may have gone through an alias of it *)
Definition lru_unlink (b : gmap Z eio_lru_cache_block) (s : eio_lru_cache_set) (start_index index : Z)
  : gmap Z eio_lru_cache_block * eio_lru_cache_set :=
  if negb (lru_prev (b !!! index) =? EIO_LRU_NULL) || negb (lru_next (b !!! index) =? EIO_LRU_NULL) then
    let '(b, s) :=
      if negb (lru_prev (b !!! index) =? EIO_LRU_NULL)
      then (put_next b (lru_prev (b !!! index) + start_index) (lru_next (b !!! index)), s)
      else (b, mk_lru_set (lru_next (b !!! index)) (lru_tail s)) in
    if negb (lru_next (b !!! index) =? EIO_LRU_NULL)
    then (put_prev b (lru_next (b !!! index) + start_index) (lru_prev (b !!! index)), s)
    else (b, mk_lru_set (lru_head s) (lru_prev (b !!! index)))
  else (b, s).

(** "And add it to LRU Tail" *)
Definition lru_link_tail (b : gmap Z eio_lru_cache_block) (s : eio_lru_cache_set) (start_index index my_index : Z)
  : gmap Z eio_lru_cache_block * eio_lru_cache_set :=
  let b := put_next b index EIO_LRU_NULL in
  let b := put_prev b index (lru_tail s) in
  let '(b, s) :=
    if lru_tail s =? EIO_LRU_NULL
    then (b, mk_lru_set (u16 my_index) (lru_tail s))
    else (put_next b (lru_tail s + start_index) (u16 my_index), s) in
  (b, mk_lru_set (lru_head s) (u16 my_index)).

Definition eio_reclaim_lru_movetail (index : Z) (d : cache_c) : cache_c :=
  let set := index / assoc d in
  let start_index := set * assoc d in
  let my_index := index - start_index in
  let '(b, s) := lru_unlink (sp_cache_blk d) (lru_sets d !!! set) start_index index in
  let '(b, s) := lru_link_tail b s start_index index my_index in
  set_sp_cache_set (SpLru (<[set := s]> (lru_sets d))) (set_sp_cache_blk b d).

(** the [while] loop of the search; the list may in principle be cyclic, and
    [fuel] bounds the number of iterations *)
Fixpoint lru_search (fuel : nat) (d : cache_c) (start_index lru_rel_index : Z) : option (option Z) :=
  match fuel with
  | O => None
  | S n =>
    if lru_rel_index =? EIO_LRU_NULL then Some None
    else if EIO_CACHE_STATE_GET d (lru_rel_index + start_index) =? VALID
    then Some (Some (lru_rel_index + start_index))
    else lru_search n d start_index (lru_next (sp_cache_blk d !!! (lru_rel_index + start_index)))
  end.

Definition eio_lru_find_reclaim_dbn (start_index index : Z) : M cache_c Z := fun d =>
  let set := start_index / assoc d in
  match lru_search (S (Z.to_nat (assoc d))) d start_index (lru_head (lru_sets d !!! set)) with
  | None => None
  | Some None => Some (index, d)
  | Some (Some i) => Some (i, eio_reclaim_lru_movetail i d)
  end.

Fixpoint lru_clean_loop (fuel : nat) (d : cache_c) (start_index lru_rel_index nr_writes to_clean : Z)
  : option (Z * cache_c) :=
  match fuel with
  | O => None
  | S n =>
    if negb (lru_rel_index =? EIO_LRU_NULL) && (nr_writes <? to_clean) then
      let dmc_idx := lru_rel_index + start_index in
      let next := lru_next (sp_cache_blk d !!! dmc_idx) in
      if Z.land (EIO_CACHE_STATE_GET d dmc_idx) (Z.lor DIRTY BLOCK_IO_INPROG) =? DIRTY
      then lru_clean_loop n (EIO_CACHE_STATE_ON d dmc_idx DISKWRITEINPROG) start_index next (nr_writes + 1) to_clean
      else lru_clean_loop n d start_index next nr_writes to_clean
    else Some (nr_writes, d)
  end.

Definition eio_lru_clean_set (set to_clean : Z) : M cache_c Z := fun d =>
  lru_clean_loop (S (Z.to_nat (assoc d))) d (set * assoc d) (lru_head (lru_sets d !!! set)) 0 to_clean.

(** one iteration of [eio_lru_pushblks] *)
Definition lru_pushblk (d : cache_c) (i : Z) : cache_c :=
  let b := put_next (put_prev (sp_cache_blk d) i EIO_LRU_NULL) i EIO_LRU_NULL in
  eio_reclaim_lru_movetail i (set_sp_cache_blk b d).

Definition eio_lru_pushblks (d : cache_c) : cache_c :=
  foldl lru_pushblk d (seqZ 0 (i32 (dmc_size d))).

(** ** The list a set represents *)

(** reading the list from its head, at most [fuel] blocks *)
Fixpoint lru_follow (fuel : nat) (b : gmap Z eio_lru_cache_block) (start rel : Z) : list Z :=
  match fuel with
  | O => []
  | S n => if rel =? EIO_LRU_NULL then [] else rel :: lru_follow n b start (lru_next (b !!! (rel + start)))
  end.

(** the blocks of the set, from the head of its list *)
Definition lru_order (d : cache_c) (set : Z) : list Z :=
  map (fun r => r + set_start d set)
      (lru_follow (Z.to_nat (assoc d)) (sp_cache_blk d) (set_start d set) (lru_head (lru_sets d !!! set))).

(** [s] and the links of [b] from [start] on represent the sequence [xs] of
    relative indices, all below [n] *)
Record lru_seg (n : Z) (b : gmap Z eio_lru_cache_block) (s : eio_lru_cache_set) (start : Z) (xs : list Z) : Prop := {
  seg_nodup : NoDup xs;
  seg_range : forall i, i ∈ xs -> 0 <= i < n;
  seg_head : lru_head s = default EIO_LRU_NULL (head xs);
  seg_tail : lru_tail s = default EIO_LRU_NULL (last xs);
  seg_linked : linked lru_next lru_prev (fun i => b !!! (i + start)) EIO_LRU_NULL xs EIO_LRU_NULL
}.

Section seg.
Context (n : Z) (Hn : n <= EIO_LRU_NULL) (start : Z).
Implicit Types (b : gmap Z eio_lru_cache_block) (s : eio_lru_cache_set) (xs : list Z).

Lemma seg_null_notin b s xs : lru_seg n b s start xs -> EIO_LRU_NULL ∉ xs.
Proof. intros H Hin. apply (seg_range _ _ _ _ _ H) in Hin. lia. Qed.

Lemma seg_follow b xs p fuel : EIO_LRU_NULL ∉ xs ->
  linked lru_next lru_prev (fun i => b !!! (i + start)) p xs EIO_LRU_NULL -> (length xs <= fuel)%nat ->
  lru_follow fuel b start (default EIO_LRU_NULL (head xs)) = xs.
Proof.
  revert p fuel. induction xs as [|x xs IH]; intros p fuel Hnull Hl Hf.
  - by destruct fuel.
  - destruct fuel as [|fuel]; [cbn in Hf; lia|]. apply not_elem_of_cons in Hnull as [Hx Hnull].
    destruct Hl as (_ & Hnx & Hl). cbn. destruct (Z.eqb_spec x EIO_LRU_NULL) as [->|_]; [done|].
    f_equal. rewrite Hnx. eapply IH; [done..|]. cbn in Hf. lia.
Qed.

Lemma seg_length b s xs : lru_seg n b s start xs -> (length xs <= Z.to_nat n)%nat.
Proof.
  intros [Hnd Hr _ _ _]. rewrite <-(length_seqZ 0 n). apply submseteq_length, NoDup_submseteq; [done|].
  intros i Hi. apply elem_of_seqZ. specialize (Hr i Hi). lia.
Qed.

Lemma put_next_lookup b i v j :
  put_next b i v !!! j = mk_lru_block (lru_prev (b !!! j)) (if decide (i = j) then v else lru_next (b !!! j)).
Proof. unfold put_next. rewrite lookup_total_insert. case_decide as E; [by rewrite E|]. by destruct (b !!! j). Qed.
Lemma put_prev_lookup b i v j :
  put_prev b i v !!! j = mk_lru_block (if decide (i = j) then v else lru_prev (b !!! j)) (lru_next (b !!! j)).
Proof. unfold put_prev. rewrite lookup_total_insert. case_decide as E; [by rewrite E|]. by destruct (b !!! j). Qed.

(** Unlinking an element of a list of at least two. *)
Lemma lru_unlink_lookup b s l1 i l2 : lru_seg n b s start (l1 ++ i :: l2) -> l1 ++ l2 <> [] ->
  let '(b', s') := lru_unlink b s start (i + start) in
  s' = mk_lru_set (default EIO_LRU_NULL (head (l1 ++ l2))) (default EIO_LRU_NULL (last (l1 ++ l2))) /\
  forall j, b' !!! j =
    mk_lru_block (if decide (head l2 = Some (j - start)) then lru_prev (b !!! (i + start)) else lru_prev (b !!! j))
                 (if decide (last l1 = Some (j - start)) then lru_next (b !!! (i + start)) else lru_next (b !!! j)).
Proof.
  intros Hseg Hne. pose proof (seg_null_notin _ _ _ Hseg) as Hnull. destruct Hseg as [Hnd Hr Hh Ht Hl].
  destruct (linked_mid _ _ _ _ _ _ _ _ Hl) as [Hp Hx]. cbv beta in Hp, Hx.
  apply NoDup_app in Hnd as (_ & Hd1 & [Hi2 _]%NoDup_cons).
  apply not_elem_of_app in Hnull as [Hn1 [_ Hn2]%not_elem_of_cons].
  assert (Hi1 : last l1 <> Some i) by (intros E%last_Some_elem_of; apply (Hd1 _ E), elem_of_cons; by left).
  assert (Hi2' : head l2 <> Some i) by (intros E%head_Some_elem_of; done).
  unfold lru_unlink. rewrite Hp, Hx.
  destruct (last l1) as [p|] eqn:E1; cbn [default from_option id].
  - assert (p <> EIO_LRU_NULL) by (intros ->; by apply Hn1, last_Some_elem_of).
    rewrite (proj2 (Z.eqb_neq _ _)) by done. cbn [negb orb]. rewrite !put_next_lookup, decide_False, Hp, Hx by (intros ?; apply Hi1; f_equal; lia).
    cbn [lru_next lru_prev]. destruct (head l2) as [x|] eqn:E2; cbn [default from_option id].
    + assert (x <> EIO_LRU_NULL) by (intros ->; by apply Hn2, head_Some_elem_of).
      rewrite (proj2 (Z.eqb_neq _ _)) by done. cbn [negb]. split.
      * destruct s as [h t]. cbn in Hh, Ht. rewrite Hh, Ht. f_equal; [by destruct l1|].
        destruct l2; [done|]. by rewrite !last_app, last_cons_cons.
      * intros j. rewrite put_prev_lookup, put_next_lookup. cbn [lru_next lru_prev]. f_equal;
          repeat case_decide; try done; exfalso; simplify_eq; lia || (match goal with H : _ <> Some _ |- _ => apply H; f_equal; lia end).
    + rewrite Z.eqb_refl. cbn [negb]. assert (l2 = []) as -> by by destruct l2. split.
      * destruct s as [h t]. cbn in Hh. cbn [lru_head]. rewrite Hh, app_nil_r, E1. f_equal. by destruct l1.
      * intros j. rewrite put_next_lookup. f_equal; repeat case_decide; try done; exfalso; simplify_eq; lia || (match goal with H : _ <> Some _ |- _ => apply H; f_equal; lia end).
  - apply last_None in E1 as ->. rewrite Z.eqb_refl. cbn [negb orb]. rewrite Hp, Hx. destruct l2 as [|x l2]; [done|].
    cbn [head default from_option id] in *. apply not_elem_of_cons in Hn2 as [Hxn _].
    rewrite (proj2 (Z.eqb_neq _ _)) by done. cbn [negb]. split.
    + destruct s as [h t]. cbn in Ht |- *. by rewrite Ht.
    + intros j. rewrite put_prev_lookup. f_equal; repeat case_decide; try done; exfalso; simplify_eq; lia || (match goal with H : _ <> Some _ |- _ => apply H; f_equal; lia end).
Qed.

Lemma lru_unlink_seg b s xs i : lru_seg n b s start xs -> i ∈ xs -> (2 <= length xs)%nat ->
  let '(b', s') := lru_unlink b s start (i + start) in
  lru_seg n b' s' start (without i xs) /\ (forall j, j - start ∉ xs -> b' !!! j = b !!! j).
Proof.
  intros Hseg Hi Hlen. destruct (list_elem_of_split _ _ Hi) as (l1 & l2 & ->).
  assert (Hne : l1 ++ l2 <> []).
  { intros E. apply app_eq_nil in E as [-> ->]. cbn in Hlen. lia. }
  pose proof (lru_unlink_lookup b s l1 i l2 Hseg Hne) as H.
  destruct (lru_unlink b s start (i + start)) as [b' s']. destruct H as [-> Hb].
  destruct Hseg as [Hnd Hr Hh Ht Hl]. rewrite without_mid by done. split; [constructor|].
  - apply NoDup_app in Hnd as (? & Hd & [? ?]%NoDup_cons). apply NoDup_app; split_and!; [done| |done].
    intros x Hx Hx2. apply (Hd x Hx), elem_of_cons. by right.
  - intros x [Hx|Hx]%elem_of_app; apply Hr, elem_of_app; [by left|right; apply elem_of_cons; by right].
  - done. - done.
  - eapply linked_remove; [exact Hnd|exact Hl|]. intros j Hj. cbv beta. rewrite !Hb. cbn [lru_next lru_prev].
    replace (j + start - start) with j by lia. done.
  - intros j Hj. rewrite Hb. rewrite !decide_False; [by destruct (b !!! j)| |].
    + intros E%last_Some_elem_of. apply Hj, elem_of_app. by left.
    + intros E%head_Some_elem_of. apply Hj, elem_of_app. right. apply elem_of_cons. by right.
Qed.

Lemma lru_link_tail_seg b s xs i : lru_seg n b s start xs -> i ∉ xs -> 0 <= i < n ->
  let '(b', s') := lru_link_tail b s start (i + start) i in
  lru_seg n b' s' start (xs ++ [i]) /\ (forall j, j - start ∉ xs ++ [i] -> b' !!! j = b !!! j).
Proof.
  intros Hseg Hi Hin. pose proof (seg_null_notin _ _ _ Hseg) as Hnull. destruct Hseg as [Hnd Hr Hh Ht Hl].
  assert (Eu : u16 i = i) by (unfold u16, EIO_LRU_NULL in *; apply Z.mod_small; lia).
  assert (Hnd' : NoDup (xs ++ [i])).
  { apply NoDup_app; split_and!; [done| |apply NoDup_singleton]. intros x Hx ->%list_elem_of_singleton. done. }
  assert (Hr' : forall x, x ∈ xs ++ [i] -> 0 <= x < n) by (intros x [Hx| ->%list_elem_of_singleton]%elem_of_app; auto).
  unfold lru_link_tail. rewrite Eu, Ht. destruct (last xs) as [t|] eqn:El; cbn [default from_option id].
  - apply last_Some_elem_of in El as Htx. assert (t <> EIO_LRU_NULL) by by intros ->.
    rewrite (proj2 (Z.eqb_neq _ _)) by done. assert (Hti : t <> i) by by intros ->. split; [constructor; try done|].
    + cbn. rewrite Hh. by destruct xs.
    + cbn. by rewrite last_snoc.
    + eapply linked_snoc; [done|done|exact Hl| | |]; cbv beta.
      * rewrite put_next_lookup, put_prev_lookup, decide_True by done. by rewrite El.
      * rewrite put_next_lookup, put_prev_lookup, put_next_lookup. cbn [lru_next]. rewrite decide_False by lia. by rewrite decide_True.
      * intros j Hj. assert (j <> i) by by intros ->.
        rewrite put_next_lookup, put_prev_lookup, put_next_lookup. cbn [lru_prev lru_next]. rewrite El.
        rewrite (decide_False (P := i + start = j + start)) by lia. rewrite (decide_False (P := i + start = j + start)) by lia. split; [done|].
        repeat case_decide; try done; exfalso; simplify_eq; try lia; match goal with H : _ <> Some _ |- _ => apply H; f_equal; lia end.
    + intros j Hj. apply not_elem_of_app in Hj as [Hj1 Hj2%not_elem_of_cons]. destruct Hj2 as [Hj2 _].
      rewrite put_next_lookup, put_prev_lookup, put_next_lookup. cbn.
      assert (t + start <> j) by (intros <-; apply Hj1; by replace (t + start - start) with t by lia).
      rewrite !decide_False by lia. by destruct (b !!! j).
  - apply last_None in El as ->. rewrite Z.eqb_refl. split; [constructor; try done|].
    + cbn. rewrite put_prev_lookup, put_next_lookup. cbn. by rewrite !decide_True.
    + intros j Hj. apply not_elem_of_cons in Hj as [Hj _]. rewrite put_prev_lookup, put_next_lookup. cbn.
      rewrite !decide_False by lia. by destruct (b !!! j).
Qed.

(** an element that is in no list is left alone by the removal *)
Lemma lru_unlink_free b s i : b !!! (i + start) = mk_lru_block EIO_LRU_NULL EIO_LRU_NULL ->
  lru_unlink b s start (i + start) = (b, s).
Proof. intros E. unfold lru_unlink. by rewrite E. Qed.
End seg.

(** ** The lists of all sets *)

(** [segs set] is the list of set [set] *)
Definition lru_lists (d : cache_c) (segs : Z -> list Z) : Prop :=
  forall set, 0 <= set < num_sets d ->
    lru_seg (assoc d) (sp_cache_blk d) (lru_sets d !!! set) (set_start d set) (segs set).

(** Invariant of an initialised LRU cache: the list of every set holds each
    block of the set once. *)
Record lru_inv (d : cache_c) : Prop := {
  linv_assoc : 2 <= assoc d <= EIO_LRU_NULL;
  linv_sets : exists m, sp_cache_set d = SpLru m;
  linv_rep : exists segs, lru_lists d segs /\
    forall set, 0 <= set < num_sets d -> segs set ≡ₚ seqZ 0 (assoc d)
}.

Definition move_tail (segs : Z -> list Z) (set i : Z) : Z -> list Z :=
  fun s => if decide (s = set) then without i (segs set) ++ [i] else segs s.

(** what movetail leaves unchanged *)
Definition lru_only (d d' : cache_c) : Prop :=
  exists b m, d' = set_sp_cache_set m (set_sp_cache_blk b d).
#[export] Instance lru_only_refl : Reflexive lru_only.
Proof. intros d. exists (sp_cache_blk d), (sp_cache_set d). by destruct d. Qed.
#[export] Instance lru_only_trans : Transitive lru_only.
Proof. intros d1 d2 d3 (b & m & ->) (b' & m' & ->). exists b', m'. by destruct d1. Qed.
Lemma lru_only_geom d d' : lru_only d d' -> geom d' = geom d.
Proof. by intros (b & m & ->). Qed.

Lemma lru_sets_set m d : lru_sets (set_sp_cache_set (SpLru m) d) = m.
Proof. done. Qed.

Section movetail.
Context (d : cache_c) (Hg : wf_geom d) (Ha : assoc d <= EIO_LRU_NULL).

Lemma movetail_eq set i : 0 <= i < assoc d ->
  eio_reclaim_lru_movetail (i + set_start d set) d =
  let '(b, s) := lru_unlink (sp_cache_blk d) (lru_sets d !!! set) (set_start d set) (i + set_start d set) in
  let '(b, s) := lru_link_tail b s (set_start d set) (i + set_start d set) i in
  set_sp_cache_set (SpLru (<[set := s]> (lru_sets d))) (set_sp_cache_blk b d).
Proof.
  intros Hi. unfold eio_reclaim_lru_movetail, set_start.
  replace ((i + set * assoc d) / assoc d) with set by (rewrite Z.div_add, Z.div_small; lia).
  by replace (i + set * assoc d - set * assoc d) with i by lia.
Qed.

Lemma movetail_rep segs set i :
  lru_lists d segs -> 0 <= set < num_sets d -> 0 <= i < assoc d ->
  (i ∈ segs set /\ (2 <= length (segs set))%nat) \/
  ((i ∉ segs set) /\ sp_cache_blk d !!! (i + set_start d set) = mk_lru_block EIO_LRU_NULL EIO_LRU_NULL) ->
  let d' := eio_reclaim_lru_movetail (i + set_start d set) d in
  lru_lists d' (move_tail segs set i) /\ lru_only d d' /\ (exists m, sp_cache_set d' = SpLru m).
Proof.
  intros Hrep Hset Hi Hcase. cbv zeta. rewrite movetail_eq by done.
  set (start := set_start d set).
  assert (U : let '(b', s') := lru_unlink (sp_cache_blk d) (lru_sets d !!! set) start (i + start) in
    lru_seg (assoc d) b' s' start (without i (segs set)) /\ (forall j, (j - start ∉ segs set) -> b' !!! j = sp_cache_blk d !!! j)).
  { destruct Hcase as [[Hin Hlen]|[Hnin Hnull]].
    - apply lru_unlink_seg; auto.
    - rewrite lru_unlink_free by done. rewrite without_notin by done. auto. }
  destruct (lru_unlink _ _ start (i + start)) as [b1 s1]. destruct U as [U1 U2].
  assert (Hni : i ∉ without i (segs set)) by (rewrite elem_of_without; tauto).
  pose proof (lru_link_tail_seg _ Ha start b1 s1 _ i U1 Hni Hi) as L.
  destruct (lru_link_tail b1 s1 start (i + start) i) as [b2 s2]. destruct L as [L1 L2].
  split_and!; [|by eexists _, _|by eexists].
  intros s Hs. change (num_sets _) with (num_sets d) in Hs. change (assoc _) with (assoc d).
  change (sp_cache_blk _) with b2.
  rewrite lru_sets_set. change (set_start _ s) with (set_start d s). unfold move_tail.
  case_decide as Hss; [subst s; by rewrite lookup_total_insert_eq|].
  rewrite lookup_total_insert_ne by congruence.
  pose proof (Hrep s Hs) as [Hnd Hr Hh Ht Hl]. constructor; try done.
  eapply linked_ext; [|exact Hl]. intros k Hk. cbv beta.
  specialize (Hr k Hk).
  assert (O : forall x, 0 <= x < assoc d -> k + set_start d s - start <> x).
  { intros x Hx E. apply Hss. unfold start, set_start in E.
    assert (k + (s - set) * assoc d = x) as E' by lia. nia. }
  rewrite L2, U2; [done| |].
  - intros Hin. apply (seg_range _ _ _ _ _ (Hrep set Hset)) in Hin. by apply (O _ Hin).
  - intros [Hin|Hin]%elem_of_app; [|apply list_elem_of_singleton in Hin; by apply (O _ Hi)].
    apply elem_of_without in Hin as [_ Hin]. apply (seg_range _ _ _ _ _ (Hrep set Hset)) in Hin. by apply (O _ Hin).
Qed.
End movetail.

Lemma without_snoc_perm i xs : NoDup xs -> i ∈ xs -> without i xs ++ [i] ≡ₚ xs.
Proof.
  intros Hnd Hi. destruct (list_elem_of_split _ _ Hi) as (l1 & l2 & ->). rewrite without_mid by done. solve_Permutation.
Qed.

Lemma lru_movetail_inv d i : wf_geom d -> lru_inv d -> 0 <= i < dmc_size d ->
  let d' := eio_reclaim_lru_movetail i d in lru_only d d' /\ lru_inv d'.
Proof.
  intros Hg [Ha Hm (segs & Hrep & Hperm)] Hi. pose proof (geo_size d Hg).
  set (set := i / assoc d). set (r := i mod assoc d).
  pose proof (Z.div_mod i (assoc d) ltac:(lia)) as Ei. fold set r in Ei.
  assert (Hr : 0 <= r < assoc d) by (apply Z.mod_pos_bound; lia).
  assert (Hset : 0 <= set < num_sets d) by (split; [apply Z.div_pos; lia|apply Z.div_lt_upper_bound; lia]).
  replace i with (r + set_start d set) by (unfold set_start; lia).
  assert (Hin : r ∈ segs set) by (rewrite (Hperm set Hset); apply elem_of_seqZ; lia).
  destruct (movetail_rep d ltac:(lia) segs set r Hrep Hset Hr) as (Hrep' & Honly & Hm').
  { left. split; [done|]. rewrite (Hperm set Hset), length_seqZ. lia. }
  split; [done|]. pose proof (lru_only_geom _ _ Honly) as Hgeo.
  destruct (geom_fields _ _ Hgeo) as (_ & Ea & _ & _ & _ & En & _).
  constructor; [by rewrite Ea|done|]. exists (move_tail segs set r). split; [done|].
  intros s Hs. rewrite Ea. rewrite En in Hs. unfold move_tail. case_decide; [subst s|by apply Hperm].
  rewrite without_snoc_perm; [by apply Hperm|apply (Hrep set Hset)|done].
Qed.

Lemma lru_order_rep d segs set : assoc d <= EIO_LRU_NULL -> lru_lists d segs -> 0 <= set < num_sets d ->
  lru_order d set = map (fun r => r + set_start d set) (segs set).
Proof.
  intros Ha Hrep Hset. unfold lru_order. f_equal. pose proof (Hrep set Hset) as Hs.
  rewrite (seg_head _ _ _ _ _ Hs). eapply seg_follow; [|apply Hs|].
  - by eapply seg_null_notin. - by eapply seg_length.
Qed.

Lemma lru_order_perm d set : lru_inv d -> 0 <= set < num_sets d -> lru_order d set ≡ₚ set_blocks d set.
Proof.
  intros [Ha _ (segs & Hrep & Hperm)] Hset. rewrite (lru_order_rep d segs) by (done || lia).
  rewrite (fmap_Permutation (fun r => r + set_start d set) _ _ (Hperm set Hset)). unfold set_blocks.
  pose proof (fmap_add_seqZ (set_start d set) 0 (assoc d)) as E. rewrite Z.add_0_r in E. rewrite <-E.
  apply (eq_subrelation (R := Permutation)), map_ext; [apply _|]. intros; lia.
Qed.

(** ** The two scans follow the list *)
Lemma lru_search_ok d start xs p fuel :
  EIO_LRU_NULL ∉ xs -> (length xs <= fuel)%nat ->
  linked lru_next lru_prev (fun i => sp_cache_blk d !!! (i + start)) p xs EIO_LRU_NULL ->
  lru_search (S fuel) d start (default EIO_LRU_NULL (head xs))
  = Some (first_valid d (map (fun r => r + start) xs)).
Proof.
  revert p fuel. induction xs as [|x xs IH]; intros p fuel Hnull Hf Hl; [done|].
  apply not_elem_of_cons in Hnull as [Hx Hnull]. destruct Hl as (_ & Hnx & Hl).
  cbn [head default from_option id lru_search map first_valid List.find].
  rewrite (proj2 (Z.eqb_neq _ _)) by done. unfold is_valid at 1.
  destruct (EIO_CACHE_STATE_GET d (x + start) =? VALID); [done|]. rewrite Hnx.
  destruct fuel as [|fuel]; [cbn in Hf; lia|]. eapply IH; [done| |done]. cbn in Hf; lia.
Qed.

Lemma lru_clean_ok start to_clean xs p fuel : forall d nr,
  EIO_LRU_NULL ∉ xs -> (length xs <= fuel)%nat ->
  linked lru_next lru_prev (fun i => sp_cache_blk d !!! (i + start)) p xs EIO_LRU_NULL ->
  lru_clean_loop (S fuel) d start (default EIO_LRU_NULL (head xs)) nr to_clean
  = Some (scan_clean d (map (fun r => r + start) xs) to_clean nr).
Proof.
  revert p fuel. induction xs as [|x xs IH]; intros p fuel d nr Hnull Hf Hl; [done|].
  apply not_elem_of_cons in Hnull as [Hx Hnull]. destruct Hl as (_ & Hnx & Hl).
  remember (S fuel) as f. cbn [head default from_option id map scan_clean]. subst f. cbn [lru_clean_loop].
  rewrite (proj2 (Z.eqb_neq x _)) by done. cbn [negb andb].
  destruct (nr <? to_clean); cbn [negb]; [|done]. cbv zeta. unfold cleanable.
  destruct fuel as [|fuel]; [cbn in Hf; lia|]. rewrite Hnx. cbn in Hf.
  destruct (_ =? DIRTY).
  - eapply IH; [done|lia|].
    destruct (state_on_md_only d (x + start) DISKWRITEINPROG) as (c & c8 & z & ->). exact Hl.
  - eapply IH; [done|lia|done].
Qed.

Lemma lru_inv_ext d d' : geom d' = geom d -> sp_cache_blk d' = sp_cache_blk d -> sp_cache_set d' = sp_cache_set d ->
  lru_inv d -> lru_inv d'.
Proof.
  intros (_ & Ea & _ & _ & _ & En & _)%geom_fields Eb Es [Ha Hm Hr].
  constructor; unfold lru_lists, lru_sets, set_start in *; rewrite ?Ea, ?En, ?Eb, ?Es; done.
Qed.

Lemma lru_order_ext d d' set : geom d' = geom d -> sp_cache_blk d' = sp_cache_blk d -> sp_cache_set d' = sp_cache_set d ->
  lru_order d' set = lru_order d set.
Proof.
  intros (_ & Ea & _ & _ & _ & En & _)%geom_fields Eb Es.
  unfold lru_order, lru_sets, set_start. by rewrite Ea, Eb, Es.
Qed.

(** The victim is the first [VALID] block in list order; it is moved to the
    tail, and nothing else changes. *)
Lemma lru_find_reclaim_spec d set index : wf_geom d -> lru_inv d -> 0 <= set < num_sets d ->
  let victim := first_valid d (lru_order d set) in
  exists d', eio_lru_find_reclaim_dbn (set_start d set) index d = Some (default index victim, d') /\
    lru_only d d' /\ lru_inv d' /\
    (forall s, 0 <= s < num_sets d -> lru_order d' s =
       match victim with
       | Some i => if decide (s = set) then without i (lru_order d set) ++ [i] else lru_order d s
       | None => lru_order d s
       end).
Proof.
  intros Hg Hinv Hset. cbv zeta. pose proof Hinv as [Ha Hm (segs & Hrep & Hperm)].
  rewrite (lru_order_rep d segs) by (done || lia).
  pose proof (Hrep set Hset) as Hs. unfold eio_lru_find_reclaim_dbn.
  replace (set_start d set / assoc d) with set by (unfold set_start; rewrite Z.div_mul; lia).
  rewrite (seg_head _ _ _ _ _ Hs), (lru_search_ok _ _ _ EIO_LRU_NULL);
    [|eapply seg_null_notin; [|done]; lia|by eapply seg_length|apply Hs].
  destruct (first_valid d _) as [v|] eqn:Ev.
  2:{ exists d. split_and!; done. }
  apply first_valid_Some in Ev as [Hv _]. apply list_elem_of_fmap in Hv as (i & -> & Hi).
  pose proof (seg_range _ _ _ _ _ Hs i Hi) as Hir.
  assert (Hlen : length (segs set) = Z.to_nat (assoc d)) by by rewrite (Hperm set Hset), length_seqZ.
  destruct (movetail_rep d ltac:(lia) segs set i Hrep Hset Hir) as (Hrep' & Honly & Hm').
  { left. split; [done|]. lia. }
  pose proof (lru_only_geom _ _ Honly) as Hgeo. destruct (geom_fields _ _ Hgeo) as (_ & Ea & _ & _ & _ & En & _).
  eexists; split; [done|]. split_and!; [done| |].
  - constructor; [by rewrite Ea|done|]. exists (move_tail segs set i). split; [done|].
    intros s Hs'. rewrite Ea. rewrite En in Hs'. unfold move_tail. case_decide; [subst s|by apply Hperm].
    rewrite without_snoc_perm; [by apply Hperm|apply Hs|done].
  - intros s Hs'. rewrite (lru_order_rep _ (move_tail segs set i)) by (rewrite ?En, ?Ea; done || lia).
    rewrite (lru_order_rep d segs) by (done || lia).
    set (d' := eio_reclaim_lru_movetail _ d) in *.
    replace (set_start d' s) with (set_start d s) by (unfold set_start; by rewrite Ea).
    unfold move_tail. case_decide; [subst s|done].
    rewrite map_app. cbn [map]. f_equal. symmetry. apply without_shift.
Qed.

Lemma lru_clean_set_spec d set to_clean : lru_inv d -> 0 <= set < num_sets d ->
  eio_lru_clean_set set to_clean d = Some (scan_clean d (lru_order d set) to_clean 0).
Proof.
  intros [Ha Hm (segs & Hrep & Hperm)] Hset. rewrite (lru_order_rep d segs) by (done || lia).
  pose proof (Hrep set Hset) as Hs. unfold eio_lru_clean_set. fold (set_start d set).
  rewrite (seg_head _ _ _ _ _ Hs). apply (lru_clean_ok _ _ _ EIO_LRU_NULL); [|by eapply seg_length|apply Hs].
  eapply seg_null_notin; [|done]. lia.
Qed.

(** ** Initialisation *)

(** after the first [k] blocks have been pushed *)
Definition pushed (d : cache_c) (k : Z) (set : Z) : list Z :=
  seqZ 0 (Z.max 0 (Z.min (assoc d) (k - set_start d set))).

Lemma seqZ_snoc m k : 0 <= k -> seqZ m (k + 1) = seqZ m k ++ [m + k].
Proof. intros. rewrite seqZ_app by lia. done. Qed.

Lemma pushed_step d k set : 0 < assoc d ->
  pushed d (k + 1) set =
  if decide (set = k / assoc d) then pushed d k set ++ [k - set_start d set] else pushed d k set.
Proof.
  intros Ha. unfold pushed, set_start. pose proof (Z.div_mod k (assoc d)). pose proof (Z.mod_pos_bound k (assoc d)).
  case_decide as E.
  - subst set. set (r := k - k / assoc d * assoc d). assert (0 <= r < assoc d) by nia.
    replace (Z.max 0 _) with (r + 1) by nia. replace (Z.max 0 _) with r by nia. by rewrite seqZ_snoc by lia.
  - f_equal. assert (set < k / assoc d \/ k / assoc d < set) as [?|?] by lia; nia.
Qed.

Lemma pushblk_rep d k : wf_geom d -> assoc d <= EIO_LRU_NULL -> 0 <= k < dmc_size d ->
  lru_lists d (pushed d k) -> (exists m, sp_cache_set d = SpLru m) ->
  let d' := lru_pushblk d k in
  lru_lists d' (pushed d (k + 1)) /\ lru_only d d' /\ (exists m, sp_cache_set d' = SpLru m).
Proof.
  intros Hg Ha Hk Hrep Hm. pose proof (assoc_pos d Hg) as Hpos. cbv zeta.
  set (set := k / assoc d). set (i := k mod assoc d).
  pose proof (Z.div_mod k (assoc d) ltac:(lia)) as Ek. fold set i in Ek.
  assert (Hi : 0 <= i < assoc d) by (apply Z.mod_pos_bound; lia).
  assert (Hset : 0 <= set < num_sets d).
  { pose proof (geo_size d Hg). split; [apply Z.div_pos; lia|]. apply Z.div_lt_upper_bound; lia. }
  assert (Eki : k = i + set_start d set) by (unfold set_start; lia).
  assert (Hni : i ∉ pushed d k set).
  { unfold pushed. rewrite elem_of_seqZ, Eki. lia. }
  unfold lru_pushblk. set (b := put_next _ _ _). set (d1 := set_sp_cache_blk b d).
  assert (Hb : forall j, b !!! j = if decide (k = j) then mk_lru_block EIO_LRU_NULL EIO_LRU_NULL else sp_cache_blk d !!! j).
  { intros j. subst b. rewrite put_next_lookup, put_prev_lookup. cbn. repeat case_decide; try done. by destruct (sp_cache_blk d !!! j). }
  assert (Hrep1 : lru_lists d1 (pushed d k)).
  { intros s Hs. destruct (Hrep s Hs) as [Hnd Hr Hh Ht Hl]. constructor; try done.
    eapply linked_ext; [|exact Hl]. intros j Hj. cbv beta. change (sp_cache_blk d1) with b.
    rewrite Hb. case_decide as E; [|done]. exfalso. change (set_start d1 s) with (set_start d s) in E.
    specialize (Hr j Hj). assert (s = set) as -> by (unfold set_start in *; nia).
    apply Hni. replace i with j by lia. done. }
  destruct (movetail_rep d1 Ha (pushed d k) set i Hrep1 Hset Hi) as (Hrep' & Honly & Hm').
  { right. split; [done|]. change (sp_cache_blk d1) with b. change (set_start d1 set) with (set_start d set).
    rewrite Hb, decide_True by done. done. }
  change (set_start d1 set) with (set_start d set) in *. rewrite <-Eki in *.
  split_and!; [|etransitivity; [|exact Honly]; exists b, (sp_cache_set d); by destruct d|done].
  intros s Hs. specialize (Hrep' s Hs). rewrite (pushed_step d k s Hpos). fold set. unfold move_tail in Hrep'.
  destruct (decide (s = set)) as [->|]; [|done]. rewrite without_notin in Hrep' by done.
  by replace (k - set_start d set) with i by lia.
Qed.

(** [eio_lru_pushblks] after a successful initialisation puts the blocks of
    every set in the list of the set, in increasing order. *)
Lemma lru_pushblks_inv d : wf_geom d -> 2 <= assoc d <= EIO_LRU_NULL -> dmc_size d < 2 ^ 31 ->
  exists d1, eio_lru_cache_sets_init true d = Some (0, d1) /\
    lru_inv (eio_lru_pushblks d1) /\ lru_only d (eio_lru_pushblks d1) /\
    (forall set, 0 <= set < num_sets d -> lru_order (eio_lru_pushblks d1) set = set_blocks d set).
Proof.
  intros Hg Ha Hsz. pose proof (num_sets_pos d Hg) as Hns. pose proof (geo_size d Hg) as Es.
  eexists; split; [done|]. rewrite sets_count_i32 by done. set (m := foldl _ _ _). set (d1 := set_sp_cache_set (SpLru m) d).
  assert (R0 : lru_lists d1 (pushed d1 0)).
  { intros set Hset. change (num_sets d1) with (num_sets d) in Hset.
    assert (pushed d1 0 set = []) as ->.
    { unfold pushed, set_start. change (assoc d1) with (assoc d). replace (Z.max _ _) with 0 by nia. done. }
    change (lru_sets d1) with m.
    assert (L := foldl_insert_lookup (fun _ => mk_lru_set EIO_LRU_NULL EIO_LRU_NULL) (seqZ 0 (num_sets d)) ∅ set).
    rewrite decide_True in L by (apply elem_of_seqZ; lia). rewrite (lookup_total_correct _ _ _ L).
    constructor; try done. constructor. intros i Hi. by apply not_elem_of_nil in Hi. }
  assert (G : forall k, 0 <= k <= dmc_size d ->
    let d' := foldl lru_pushblk d1 (seqZ 0 k) in
    lru_lists d' (pushed d1 k) /\ lru_only d1 d' /\ exists m, sp_cache_set d' = SpLru m).
  { intros k [Hk0 Hk]. revert Hk. pattern k. apply natlike_ind; [|clear k Hk0|done].
    - intros _. cbv zeta. split_and!; [done|done|by exists m].
    - intros k Hk IH Hk'. destruct IH as (Hrep & Honly & Hm); [lia|]. cbv zeta.
      rewrite <-Z.add_1_r, seqZ_snoc, foldl_app by lia. cbn [foldl]. rewrite Z.add_0_l.
      set (dk := foldl lru_pushblk d1 (seqZ 0 k)) in *.
      pose proof (lru_only_geom _ _ Honly) as Hgeo. destruct (geom_fields _ _ Hgeo) as (Esz & Ea & _ & _ & _ & En & _).
      assert (Ep : forall j s, pushed dk j s = pushed d1 j s) by (intros; unfold pushed, set_start; by rewrite Ea).
      destruct (pushblk_rep dk k) as (Hrep' & Honly' & Hm'); [exact (wf_geom_eq d dk Hgeo Hg)|rewrite Ea; change (assoc d1) with (assoc d); lia|rewrite Esz; change (dmc_size d1) with (dmc_size d); lia| |done|].
      + intros s Hs. rewrite Ep. by apply Hrep.
      + split_and!; [|by etransitivity|done]. intros s Hs. rewrite <-Ep. by apply Hrep'. }
  destruct (G (dmc_size d)) as (Hrep & Honly & Hm'); [nia|].
  unfold eio_lru_pushblks. change (dmc_size d1) with (dmc_size d). rewrite i32_small by nia.
  set (d' := foldl lru_pushblk _ _) in *. pose proof (lru_only_geom _ _ Honly) as Hgeo.
  destruct (geom_fields _ _ Hgeo) as (Esz & Ea & _ & _ & _ & En & _).
  change (assoc d1) with (assoc d) in Ea. change (num_sets d1) with (num_sets d) in En.
  assert (Efull : forall set, 0 <= set < num_sets d -> pushed d1 (dmc_size d) set = seqZ 0 (assoc d)).
  { intros set Hset. unfold pushed, set_start. change (assoc d1) with (assoc d). f_equal. nia. }
  split_and!.
  - constructor; [by rewrite Ea|done|]. exists (pushed d1 (dmc_size d)). split; [done|].
    intros set Hset. rewrite En in Hset. rewrite Efull, Ea by done. done.
  - etransitivity; [|exact Honly]. exists (sp_cache_blk d), (SpLru m). by destruct d.
  - intros set Hset. rewrite (lru_order_rep d' (pushed d1 (dmc_size d))) by (rewrite ?Ea, ?En; done || lia).
    rewrite Efull by done. unfold set_blocks. replace (set_start d' set) with (set_start d set) by (unfold set_start; by rewrite Ea).
    pose proof (fmap_add_seqZ (set_start d set) 0 (assoc d)) as E. rewrite Z.add_0_r in E. rewrite <-E.
    apply map_ext. intros; lia.
Qed.
