(* ===== verification/Policy.v ===== *)
(** * Replacement policies: [eio_policy.c]

    The registry of policies, the table of operations each one provides
    ([struct eio_policy]) and the wrappers through which the rest of the
    driver calls them.  [ReplPolicy] is the contract between a policy and the
    driver; [Fifo], [Lru] and [Rand] discharge it, and the driver's theorems
    only use it. *)

From S2P Require Import Prelude Types Mem DList Scan Fifo Rand Lru.

(** ** [struct eio_policy]: the operations of a policy

    [vmalloc_ok] and [fresh] are the outcome of the allocations made by the
    initialisers. *)
Record eio_policy := mk_policy {
  sp_name : Z;
  sp_has_lru : bool;        (* sp_policy.lru != NULL *)
  sp_repl_init : cache_c -> Z;
  sp_repl_sets_init : bool -> M cache_c Z;
  sp_repl_blk_init : option (gmap Z eio_lru_cache_block) -> M cache_c Z;
  sp_find_reclaim_dbn : Z -> Z -> M cache_c Z;
  sp_clean_set : Z -> Z -> M cache_c Z
}.

Definition eio_fifo_instance : eio_policy :=
  mk_policy CACHE_REPL_FIFO false eio_fifo_init eio_fifo_cache_sets_init
    (fun _ => eio_fifo_cache_blk_init) eio_fifo_find_reclaim_dbn eio_fifo_clean_set.
Definition eio_lru_instance : eio_policy :=
  mk_policy CACHE_REPL_LRU true eio_lru_init eio_lru_cache_sets_init
    eio_lru_cache_blk_init eio_lru_find_reclaim_dbn eio_lru_clean_set.
Definition eio_rand_instance : eio_policy :=
  mk_policy CACHE_REPL_RANDOM false eio_rand_init (fun _ => eio_rand_cache_sets_init)
    (fun _ => eio_rand_cache_blk_init) eio_rand_find_reclaim_dbn eio_rand_clean_set.

Definition policy_table (p : policy_id) : eio_policy :=
  match p with
  | PolFifo => eio_fifo_instance
  | PolLru => eio_lru_instance
  | PolRand => eio_rand_instance
  end.

(** ** The registry [eio_policy_list] *)
Record eio_policy_header := mk_header { sph_name : Z; sph_instance : policy_id }.

Definition eio_fifo_ops : eio_policy_header := mk_header CACHE_REPL_FIFO PolFifo.
Definition eio_lru_ops : eio_policy_header := mk_header CACHE_REPL_LRU PolLru.
Definition eio_rand_ops : eio_policy_header := mk_header CACHE_REPL_RANDOM PolRand.

Definition eio_register_policy (new_policy : eio_policy_header) (l : list eio_policy_header)
  : Z * list eio_policy_header :=
  if existsb (fun curr => sph_name curr =? sph_name new_policy) l then (1, l)
  else (0, l ++ [new_policy]).

Fixpoint eio_unregister_policy (p_ops : eio_policy_header) (l : list eio_policy_header)
  : Z * list eio_policy_header :=
  match l with
  | [] => (1, [])
  | curr :: l' =>
    if sph_name curr =? sph_name p_ops then (0, l')
    else let '(r, l'') := eio_unregister_policy p_ops l' in (r, curr :: l'')
  end.

(** [vmalloc_ok]: the allocation made by [sph_instance_init] *)
Definition eio_get_policy (vmalloc_ok : bool) (policy : Z) (l : list eio_policy_header) : option policy_id :=
  match List.find (fun curr => sph_name curr =? policy) l with
  | Some curr => if vmalloc_ok then Some (sph_instance curr) else None
  | None => None
  end.

(** [eio_policy_init] (eio_conf.c) *)
Definition eio_policy_init (vmalloc_ok : bool) (l : list eio_policy_header) : M cache_c Z := fun d =>
  let d := if req_policy d =? 0 then set_req_policy CACHE_REPL_DEFAULT d else d in
  let d := set_policy_ops (eio_get_policy vmalloc_ok (req_policy d) l) d in
  match policy_ops d with
  | None => Some (- EINVAL, d)
  | Some _ => Some (0, d)
  end.

(** [eio_policy_free] (eio_conf.c); freeing memory is setting the pointers to NULL *)
Definition eio_policy_free (d : cache_c) : cache_c :=
  set_sp_cache_set SpNull (set_sp_cache_blk ∅ (set_policy_ops None d)).

(** ** Wrappers *)
Definition eio_repl_sets_init (p_ops : option policy_id) (vmalloc_ok : bool) : M cache_c Z :=
  match p_ops with
  | Some p => sp_repl_sets_init (policy_table p) vmalloc_ok
  | None => ret 0
  end.
Definition eio_repl_blk_init (p_ops : option policy_id) (fresh : option (gmap Z eio_lru_cache_block)) : M cache_c Z :=
  match p_ops with
  | Some p => sp_repl_blk_init (policy_table p) fresh
  | None => ret 0
  end.
(** a NULL [p_ops] is dereferenced *)
Definition eio_find_reclaim_dbn (p_ops : option policy_id) (start_index index : Z) : M cache_c Z :=
  match p_ops with
  | Some p => sp_find_reclaim_dbn (policy_table p) start_index index
  | None => panic
  end.
Definition eio_policy_clean_set (p_ops : option policy_id) (set to_clean : Z) : M cache_c Z :=
  match p_ops with
  | Some p => sp_clean_set (policy_table p) set to_clean
  | None => panic
  end.
Definition eio_policy_lru_pushblks (p_ops : option policy_id) : M cache_c unit :=
  match p_ops with
  | Some p => if sp_name (policy_table p) =? CACHE_REPL_LRU
              then (if sp_has_lru (policy_table p) then modify eio_lru_pushblks else panic) else ret tt
  | None => ret tt
  end.
Definition eio_policy_reclaim_lru_movetail (i : Z) (p_ops : option policy_id) : M cache_c unit :=
  match p_ops with
  | Some p => if sp_name (policy_table p) =? CACHE_REPL_LRU
              then (if sp_has_lru (policy_table p) then modify (eio_reclaim_lru_movetail i) else panic) else ret tt
  | None => ret tt
  end.

(** ** The contract *)

(** only the data of the policy differ *)
Definition pol_only (d d' : cache_c) : Prop :=
  exists r b m, d' = set_random r (set_sp_cache_blk b (set_sp_cache_set m d)).
#[export] Instance pol_only_refl : Reflexive pol_only.
Proof. intros d. exists (random d), (sp_cache_blk d), (sp_cache_set d). by destruct d. Qed.
#[export] Instance pol_only_trans : Transitive pol_only.
Proof. intros d1 d2 d3 (r & b & m & ->) (r' & b' & m' & ->). exists r', b', m'. by destruct d1. Qed.
Lemma pol_only_geom d d' : pol_only d d' -> geom d' = geom d.
Proof. by intros (r & b & m & ->). Qed.

(** the data of the policy and the geometry are the same *)
Definition pol_same (d d' : cache_c) : Prop :=
  geom d' = geom d /\ random d' = random d /\ sp_cache_blk d' = sp_cache_blk d /\ sp_cache_set d' = sp_cache_set d.
#[export] Instance pol_same_refl : Reflexive pol_same. Proof. done. Qed.
#[export] Instance pol_same_trans : Transitive pol_same.
Proof. intros d1 d2 d3 (E1 & E2 & E3 & E4) (F1 & F2 & F3 & F4). unfold pol_same. split_and!; congruence. Qed.
Lemma md_only_pol_same d d' : md_only d d' -> pol_same d d'.
Proof. by intros (c & c8 & z & ->). Qed.

Class ReplPolicy (p : eio_policy) := {
  (** the invariant of the policy's data *)
  pol_inv : cache_c -> Prop;
  (** the orders in which it looks for a victim and for blocks to clean *)
  pol_order : cache_c -> Z -> list Z;
  pol_clean_order : cache_c -> Z -> list Z;
  pol_inv_same : forall d d', pol_same d d' -> pol_inv d -> pol_inv d';
  pol_order_perm : forall d set, wf_geom d -> pol_inv d -> 0 <= set < num_sets d ->
    pol_order d set ≡ₚ set_blocks d set;
  pol_clean_order_perm : forall d set, wf_geom d -> pol_inv d -> 0 <= set < num_sets d ->
    pol_clean_order d set ≡ₚ set_blocks d set;
  pol_find : forall d set index, wf_geom d -> pol_inv d -> 0 <= set < num_sets d ->
    exists d', sp_find_reclaim_dbn p (set_start d set) index d
               = Some (default index (first_valid d (pol_order d set)), d') /\
      pol_only d d' /\ pol_inv d';
  pol_clean : forall d set to_clean, wf_geom d -> pol_inv d -> 0 <= set < num_sets d ->
    let r := scan_clean d (pol_clean_order d set) to_clean 0 in
    exists d', sp_clean_set p set to_clean d = Some (r.1, d') /\ pol_only r.2 d' /\ pol_inv d'
}.

#[export, refine] Instance fifo_policy : ReplPolicy eio_fifo_instance := {|
  pol_inv := fifo_inv; pol_order := fifo_order; pol_clean_order := fifo_clean_order |}.
Proof.
  - intros d d' (E & _ & _ & Es) (m & Hm & H). destruct (geom_fields _ _ E) as (_ & Ea & _ & _ & _ & En & _).
    exists m. rewrite Es, Ea, En. done.
  - intros d set Hg _ _. apply ring_order_perm. by apply assoc_pos.
  - intros d set Hg _ _. apply ring_order_perm. by apply assoc_pos.
  - intros d set index Hg Hi Hs. destruct (fifo_find_reclaim_spec d set index Hg Hi Hs) as (m & E & Hi').
    exists (set_sp_cache_set (SpFifo m) d). split_and!; [done| |done].
    exists (random d), (sp_cache_blk d), (SpFifo m). by destruct d.
  - intros d set n Hg Hi Hs r. destruct (fifo_clean_set_spec d set n Hg Hi Hs) as (m & E & Hi').
    exists (set_sp_cache_set (SpFifo m) r.2). split_and!; [done| |done].
    exists (random r.2), (sp_cache_blk r.2), (SpFifo m). by destruct r.2.
Defined.

#[export, refine] Instance rand_policy : ReplPolicy eio_rand_instance := {|
  pol_inv := fun _ => True; pol_order := rand_order; pol_clean_order := set_blocks |}.
Proof.
  - done.
  - intros d set Hg _ _. apply ring_order_perm. by apply assoc_pos.
  - done.
  - intros d set index Hg _ Hs. destruct (rand_find_reclaim_spec d set index Hg) as (r & E).
    exists (set_random r d). split_and!; [done| |done].
    exists r, (sp_cache_blk d), (sp_cache_set d). by destruct d.
  - intros d set n Hg _ Hs r. exists r.2. split_and!; [|done|done].
    cbn [sp_clean_set eio_rand_instance]. rewrite rand_clean_set_spec by done. fold r. by destruct r.
Defined.

#[export, refine] Instance lru_policy : ReplPolicy eio_lru_instance := {|
  pol_inv := lru_inv; pol_order := lru_order; pol_clean_order := lru_order |}.
Proof.
  - intros d d' (E & _ & Eb & Es). by apply lru_inv_ext.
  - intros d set _ Hi Hs. by apply lru_order_perm.
  - intros d set _ Hi Hs. by apply lru_order_perm.
  - intros d set index Hg Hi Hs.
    destruct (lru_find_reclaim_spec d set index Hg Hi Hs) as (d' & E & (b & m & ->) & Hi' & _).
    eexists. split_and!; [exact E| |exact Hi']. exists (random d), b, m. by destruct d.
  - intros d set n Hg Hi Hs r. exists r.2. split_and!; [|done|].
    + cbn [sp_clean_set eio_lru_instance]. rewrite lru_clean_set_spec by done. fold r. by destruct r.
    + pose proof (scan_clean_md_only d (lru_order d set) n 0) as Hmd. fold r in Hmd.
      destruct (md_only_pol_same _ _ Hmd) as (E1 & _ & E2 & E3). by eapply lru_inv_ext.
Defined.

#[export] Instance policy_correct (p : policy_id) : ReplPolicy (policy_table p) :=
  match p with PolFifo => fifo_policy | PolLru => lru_policy | PolRand => rand_policy end.

(** ** What the driver gets *)
Definition policy_inv (d : cache_c) : Prop :=
  exists p, policy_ops d = Some p /\ pol_inv (p := policy_table p) d.

Lemma policy_inv_same d d' : pol_same d d' -> policy_ops d' = policy_ops d -> policy_inv d -> policy_inv d'.
Proof. intros Hs Ep (p & Hp & Hi). exists p. rewrite Ep. split; [done|]. by apply (pol_inv_same d). Qed.

Lemma policy_inv_md_only d d' : md_only d d' -> policy_inv d -> policy_inv d'.
Proof. intros Hmd. apply policy_inv_same; [by apply md_only_pol_same|]. by destruct Hmd as (c & c8 & z & ->). Qed.

(** A victim is a [VALID] block of the set; [index] comes back unchanged only
    when the set has none.  Only the policy's own data change. *)
Lemma find_reclaim_contract d set index : wf_geom d -> policy_inv d -> 0 <= set < num_sets d ->
  exists i d', eio_find_reclaim_dbn (policy_ops d) (set_start d set) index d = Some (i, d') /\
    pol_only d d' /\ policy_inv d' /\
    ((i ∈ set_blocks d set /\ EIO_CACHE_STATE_GET d i = VALID) \/
     (i = index /\ forall j, j ∈ set_blocks d set -> EIO_CACHE_STATE_GET d j <> VALID)).
Proof.
  intros Hg (p & Hp & Hi) Hs. rewrite Hp.
  destruct (pol_find d set index Hg Hi Hs) as (d' & E & Honly & Hi').
  pose proof (pol_order_perm d set Hg Hi Hs) as Hperm.
  eexists _, d'. split; [exact E|]. split_and!; [done| |].
  - exists p. split; [|done]. by destruct Honly as (r & b & m & ->).
  - destruct (first_valid d _) as [i|] eqn:Ef; cbn.
    + apply first_valid_Some in Ef as [Hin Hv]. rewrite Hperm in Hin. by left.
    + right. split; [done|]. intros j Hj. rewrite <-Hperm in Hj. by eapply first_valid_None.
Qed.

(** Moving a block to the tail of its list (a no-op for the other policies). *)
Lemma movetail_contract d i : wf_geom d -> policy_inv d -> 0 <= i < dmc_size d ->
  exists d', eio_policy_reclaim_lru_movetail i (policy_ops d) d = Some (tt, d') /\ pol_only d d' /\ policy_inv d'.
Proof.
  intros Hg (p & Hp & Hi) Hr. rewrite Hp. destruct p; cbn; [exists d; split_and!; [done|done|by exists PolFifo]| |exists d; split_and!; [done|done|by exists PolRand]].
  destruct (lru_movetail_inv d i Hg Hi Hr) as ((b & m & E) & Hi').
  eexists; split; [done|]. rewrite E in *. split; [exists (random d), b, m; by destruct d|].
  exists PolLru. split; [exact Hp|done].
Qed.

(** Cleaning marks dirty idle blocks of the set, at most [to_clean] of them,
    all of them when there are no more; the result is their number. *)
Lemma clean_set_contract d set to_clean : wf_geom d -> policy_inv d -> 0 <= set < num_sets d -> 0 <= to_clean ->
  exists order nr d' (marked := scan_marked d order (Z.to_nat to_clean)),
    order ≡ₚ set_blocks d set /\
    eio_policy_clean_set (policy_ops d) set to_clean d = Some (nr, d') /\
    nr = Z.of_nat (length marked) /\
    (forall i, EIO_CACHE_STATE_GET d' i =
       if decide (i ∈ marked) then Z.lor (EIO_CACHE_STATE_GET d i) DISKWRITEINPROG
       else EIO_CACHE_STATE_GET d i) /\
    (forall i, md_raw d' i = md_raw d i) /\ index_zero d' = index_zero d /\
    policy_inv d' /\ pol_only (scan_clean d order to_clean 0).2 d'.
Proof.
  intros Hg (p & Hp & Hi) Hs Hn. rewrite Hp.
  destruct (pol_clean d set to_clean Hg Hi Hs) as (d' & E & Honly & Hi').
  pose proof (pol_clean_order_perm d set Hg Hi Hs) as Hperm.
  set (order := pol_clean_order d set) in *.
  assert (Hnd : NoDup order) by (rewrite Hperm; apply NoDup_seqZ).
  pose proof (scan_clean_spec d order to_clean 0 Hnd Hn) as Hsp. cbv zeta in Hsp.
  pose proof (scan_clean_md_only d order to_clean 0) as Hmd.
  destruct (scan_clean d order to_clean 0) as [nr d0] eqn:Esc. rewrite Z.sub_0_r in Hsp. cbn in *.
  destruct Hsp as (-> & Hst & Hraw & Hz).
  eexists order, _, d'. split_and!; [done|exact E|done| | | | |].
  - intros i. destruct Honly as (r & b & m & ->). by rewrite <-Hst.
  - intros i. destruct Honly as (r & b & m & ->). by rewrite <-Hraw.
  - destruct Honly as (r & b & m & ->). done.
  - exists p. split; [|done]. destruct Honly as (r & b & m & ->). destruct Hmd as (c & c8 & z & ->). done.
  - by rewrite Esc.
Qed.

(** ** The registry *)
Lemma existsb_name h l : existsb (fun curr => sph_name curr =? sph_name h) l = true <-> sph_name h ∈ map sph_name l.
Proof.
  rewrite existsb_exists, list_elem_of_fmap. setoid_rewrite Z.eqb_eq. setoid_rewrite <-list_elem_of_In.
  split; intros (x & ? & ?); exists x; auto.
Qed.

Lemma unregister_last h l : sph_name h ∉ map sph_name l -> eio_unregister_policy h (l ++ [h]) = (0, l).
Proof.
  induction l as [|x l IH]; intros Hn; cbn; [by rewrite Z.eqb_refl|].
  apply not_elem_of_cons in Hn as [Hx Hn]. destruct (Z.eqb_spec (sph_name x) (sph_name h)); [congruence|]. by rewrite IH.
Qed.

Lemma get_last h l : sph_name h ∉ map sph_name l -> eio_get_policy true (sph_name h) (l ++ [h]) = Some (sph_instance h).
Proof.
  unfold eio_get_policy. induction l as [|x l IH]; intros Hn; cbn; [by rewrite Z.eqb_refl|].
  apply not_elem_of_cons in Hn as [Hx Hn]. destruct (Z.eqb_spec (sph_name x) (sph_name h)); [congruence|]. by apply IH.
Qed.

Lemma registry_ok h l : NoDup (map sph_name l) ->
  let '(r, l') := eio_register_policy h l in
  NoDup (map sph_name l') /\ (r = 0 <-> sph_name h ∉ map sph_name l) /\
  (r = 0 -> eio_get_policy true (sph_name h) l' = Some (sph_instance h) /\ eio_unregister_policy h l' = (0, l)).
Proof.
  intros Hnd. unfold eio_register_policy. pose proof (existsb_name h l) as He.
  destruct (existsb _ l).
  - split_and!; [done| |done]. split; [done|]. intros Hn. destruct Hn. by apply He.
  - assert (Hn : sph_name h ∉ map sph_name l) by (intros H; by apply He in H). split_and!.
    + rewrite map_app. apply NoDup_app. split_and!; [done| |apply NoDup_singleton].
      intros x Hx ->%list_elem_of_singleton. done.
    + done.
    + intros _. split; [by apply get_last|by apply unregister_last].
Qed.
