(* ===== verification/Thresh.v ===== *)
(** * Dirty thresholds and the clean queue: [eio_main.c]

    When a set, or the whole cache, holds too many dirty blocks, sets are put
    on the queue of the clean thread. *)

From S2P Require Import Prelude Types Mem DList SetLru.

(** ** The conditions (eio.h) *)
Definition AUTOCLEAN_THRESHOLD_CROSSED (d : cache_c) : bool :=
  (autoclean_threshold (sysctl_active d) <? nr_ios d) || (autoclean_threshold (sysctl_active d) =? 0).

Definition DIRTY_CACHE_THRESHOLD_CROSSED (d : cache_c) : bool :=
  (i64 (u64 (dirty_high_threshold (sysctl_active d) * EIO_DIV (dmc_size d) 100))
     <=? i64 (nr_dirty d - clean_pendings d))
  && (dirty_low_threshold (sysctl_active d) <? dirty_high_threshold (sysctl_active d)).

Definition DIRTY_SET_THRESHOLD_CROSSED (d : cache_c) (set : Z) : bool :=
  (u32 (dirty_set_high_threshold (sysctl_active d) * assoc d) / 100 <=? cs_nr_dirty (cache_sets d !!! set))
  && (dirty_set_low_threshold (sysctl_active d) <? dirty_set_high_threshold (sysctl_active d)).

(** ** The clean queue *)
Definition set_cs_flags (set v : Z) (d : cache_c) : cache_c :=
  set_cache_sets (<[set := {| (cache_sets d !!! set) with cs_flags := v |}]> (cache_sets d)) d.

Definition eio_addto_cleanq (set : Z) (whole : bool) (d : cache_c) : cache_c :=
  let flags := cs_flags (cache_sets d !!! set) in
  if tst flags SETFLAG_CLEAN_INPROG then d
  else
    let flags := Z.lor flags SETFLAG_CLEAN_INPROG in
    let flags := if whole then Z.lor flags SETFLAG_CLEAN_WHOLE else flags in
    let d := set_cs_flags set flags d in
    set_clean_pendings (atomic64_inc (clean_pendings d)) (set_cleanq (cleanq d ++ [set]) d).

(** [lru_rem_head(dmc->dirty_set_lru, ..)] and [lru_touch] on the list of [dmc] *)
Definition dirty_lru {A} (m : M (option lru_ls) A) : M cache_c A := fun d =>
  match m (dirty_set_lru d) with
  | Some (a, l) => Some (a, set_dirty_set_lru l d)
  | None => None
  end.

(** the [do .. while] loop that enqueues the oldest dirty sets *)
Fixpoint enqueue_oldest (fuel : nat) (required_cleans enqueued_cleans : Z) : M cache_c unit :=
  match fuel with
  | O => panic
  | S n =>
    r <- dirty_lru lru_rem_head ;;
    let '(_, set_index, _) := r in
    if set_index =? LRU_NULL then ret tt
    else
      nr <- gets (fun d => cs_nr_dirty (cache_sets d !!! set_index)) ;;
      let enqueued_cleans := i64 (enqueued_cleans + nr) in
      modify (eio_addto_cleanq set_index true) ;;
      if enqueued_cleans <=? required_cleans then enqueue_oldest n required_cleans enqueued_cleans
      else ret tt
  end.

(** iterations the loop can make: one for each element of the list, and one
    that finds it empty *)
Definition dirty_lru_fuel (d : cache_c) : nat :=
  S (match dirty_set_lru d with Some l => Z.to_nat (ll_size l) | None => 0 end).

Definition eio_check_dirty_cache_thresholds : M cache_c unit := fun d =>
  if DIRTY_CACHE_THRESHOLD_CROSSED d then
    if negb (clean_pendings d =? 0) || negb (clean_excess_dirty d =? 0) then Some (tt, d)
    else
      let d := set_clean_excess_dirty 1 d in
      let required_cleans :=
        i64 (nr_dirty d - EIO_DIV (u64 (dirty_low_threshold (sysctl_active d) * dmc_size d)) 100) in
      (enqueue_oldest (dirty_lru_fuel d) required_cleans 0 ;;
       modify (set_clean_excess_dirty 0)) d
  else Some (tt, d).

Definition eio_check_dirty_set_thresholds (set : Z) (d : cache_c) : cache_c :=
  if DIRTY_SET_THRESHOLD_CROSSED d set then eio_addto_cleanq set false d else d.

Definition eio_comply_dirty_thresholds (set : Z) : M cache_c unit := fun d =>
  if CACHE_FAILED_IS_SET d then Some (tt, d)
  else if AUTOCLEAN_THRESHOLD_CROSSED d || negb (mode d =? CACHE_MODE_WB) then Some (tt, d)
  else (when (negb (set =? -1)) (modify (eio_check_dirty_set_thresholds set)) ;;
        eio_check_dirty_cache_thresholds) d.

(** [eio_touch_set_lru] with the current time; the delayed work is scheduled
    when [is_clean_aged_sets_sched] goes from 0 to 1 *)
Definition eio_touch_set_lru (jiffies set : Z) : M cache_c unit :=
  dirty_lru (lru_touch set jiffies) ;;
  modify (fun d =>
    if (0 <? time_based_clean_interval (sysctl_active d)) && (is_clean_aged_sets_sched d =? 0)
    then set_is_clean_aged_sets_sched 1 d else d).

(** ** Invariant

    A set is on the clean queue, at most once, exactly when its
    [SETFLAG_CLEAN_INPROG] flag is set and the clean thread has not taken it
    yet; [inflight] are the sets the clean thread has taken off the queue. *)
Record cleanq_inv (inflight : list Z) (d : cache_c) : Prop := {
  cq_nodup : NoDup (cleanq d ++ inflight);
  cq_range : forall s, s ∈ cleanq d ++ inflight -> 0 <= s < num_sets d;
  cq_flag : forall s, 0 <= s < num_sets d ->
    tst (cs_flags (cache_sets d !!! s)) SETFLAG_CLEAN_INPROG = true <-> s ∈ cleanq d ++ inflight;
  cq_pending : clean_pendings d = Z.of_nat (length (cleanq d ++ inflight))
}.

(** the dirty-set LRU represents a list of set numbers *)
Definition dirty_lru_inv (d : cache_c) : Prop :=
  exists l xs, dirty_set_lru d = Some l /\ SetLru.lru_rep l xs /\ ll_max l = num_sets d.

(** only the queue, its flags and the dirty-set LRU differ *)
Definition cleanq_only (d d' : cache_c) : Prop :=
  exists cs q p x l, d' = set_dirty_set_lru l (set_clean_excess_dirty x (set_clean_pendings p
     (set_cleanq q (set_cache_sets cs d)))) /\
    (forall s, cs_nr_dirty (cs !!! s) = cs_nr_dirty (cache_sets d !!! s) /\ cs_mdreq (cs !!! s) = cs_mdreq (cache_sets d !!! s)).
#[export] Instance cleanq_only_refl : Reflexive cleanq_only.
Proof.
  intros d. exists (cache_sets d), (cleanq d), (clean_pendings d), (clean_excess_dirty d), (dirty_set_lru d).
  by destruct d.
Qed.
#[export] Instance cleanq_only_trans : Transitive cleanq_only.
Proof.
  intros d1 d2 d3 (cs & q & p & x & l & -> & H) (cs' & q' & p' & x' & l' & -> & H').
  exists cs', q', p', x', l'. split; [by destruct d1|]. intros s. destruct (H s), (H' s). cbn in *. split; congruence.
Qed.

Lemma clean_inprog_bit f : tst (Z.lor f SETFLAG_CLEAN_INPROG) SETFLAG_CLEAN_INPROG = true.
Proof.
  change SETFLAG_CLEAN_INPROG with (2 ^ 0). rewrite tst_spec by lia. rewrite Z.lor_spec, Z.pow2_bits_true by lia. apply orb_true_r.
Qed.
Lemma clean_whole_bit f : tst (Z.lor f SETFLAG_CLEAN_WHOLE) SETFLAG_CLEAN_INPROG = tst f SETFLAG_CLEAN_INPROG.
Proof.
  change SETFLAG_CLEAN_INPROG with (2 ^ 0). change SETFLAG_CLEAN_WHOLE with (2 ^ 1). rewrite !tst_spec by lia.
  rewrite Z.lor_spec, Z.pow2_bits_false by lia. apply orb_false_r.
Qed.

Lemma addto_cleanq_only set whole d : cleanq_only d (eio_addto_cleanq set whole d).
Proof.
  unfold eio_addto_cleanq. destruct (tst _ _); [done|].
  set (d' := set_clean_pendings _ _).
  exists (cache_sets d'), (cleanq d'), (clean_pendings d'), (clean_excess_dirty d), (dirty_set_lru d). split; [by destruct d|].
  intros s. cbn. rewrite lookup_total_insert. case_decide as E; [by rewrite <-E|done].
Qed.

Lemma addto_cleanq_lru set whole d : dirty_set_lru (eio_addto_cleanq set whole d) = dirty_set_lru d.
Proof. unfold eio_addto_cleanq. by destruct (tst _ _). Qed.
Lemma addto_cleanq_num set whole d : num_sets (eio_addto_cleanq set whole d) = num_sets d.
Proof. unfold eio_addto_cleanq. by destruct (tst _ _). Qed.

(** Enqueueing a set that is already queued, or being cleaned, does nothing;
    otherwise the set goes to the end of the queue and is counted as pending. *)
Lemma addto_cleanq_inv inflight set whole d :
  cleanq_inv inflight d -> 0 <= set < num_sets d -> num_sets d < 2 ^ 62 ->
  cleanq_inv inflight (eio_addto_cleanq set whole d) /\
  (set ∈ cleanq (eio_addto_cleanq set whole d) ++ inflight).
Proof.
  intros [Hnd Hr Hf Hp] Hset Hbig. unfold eio_addto_cleanq.
  destruct (tst _ SETFLAG_CLEAN_INPROG) eqn:Et; [split; [done|by apply Hf]|].
  assert (Hni : set ∉ cleanq d ++ inflight) by (rewrite <-(Hf set Hset), Et; done).
  assert (Hlen : Z.of_nat (length (cleanq d ++ inflight)) <= num_sets d).
  { assert (length (cleanq d ++ inflight) <= length (seqZ 0 (num_sets d)))%nat as Hle.
    { apply submseteq_length, NoDup_submseteq; [done|]. intros i Hi. apply elem_of_seqZ. specialize (Hr i Hi). lia. }
    rewrite length_seqZ in Hle. lia. }
  set (f' := if whole then _ else _).
  assert (Hf' : tst f' SETFLAG_CLEAN_INPROG = true).
  { subst f'. destruct whole; rewrite ?clean_whole_bit; apply clean_inprog_bit. }
  assert (Hmem : forall s, s ∈ (cleanq d ++ [set]) ++ inflight <-> s = set \/ s ∈ cleanq d ++ inflight).
  { intros s. rewrite !elem_of_app, list_elem_of_singleton. tauto. }
  assert (Hperm : (cleanq d ++ [set]) ++ inflight ≡ₚ set :: (cleanq d ++ inflight)) by solve_Permutation.
  split; [constructor; cbn [cleanq set_clean_pendings set_cleanq set_cs_flags set_cache_sets num_sets cache_sets clean_pendings]|].
  - rewrite Hperm. by apply NoDup_cons.
  - intros s [->|Hs]%Hmem; [done|by apply Hr].
  - intros s Hs. rewrite Hmem, lookup_total_insert. case_decide as E; cbn.
    + rewrite Hf'. split; [auto|done].
    + rewrite (Hf s Hs). split; [auto|]. intros [?|?]; [congruence|done].
  - rewrite (Permutation_length Hperm). rewrite Hp. unfold atomic64_inc, i64. cbn [length]. rewrite Z.mod_small by lia. lia.
  - cbn. apply Hmem. by left.
Qed.

Lemma cleanq_only_fields d d' : cleanq_only d d' ->
  geom d' = geom d /\ num_sets d' = num_sets d /\ (forall s, cs_nr_dirty (cache_sets d' !!! s) = cs_nr_dirty (cache_sets d !!! s)).
Proof. intros (cs & q & p & x & l & -> & H). split_and!; [done|done|]. intros s. apply H. Qed.

Lemma set_lru_cleanq_only l d : cleanq_only d (set_dirty_set_lru l d).
Proof. exists (cache_sets d), (cleanq d), (clean_pendings d), (clean_excess_dirty d), l. by destruct d. Qed.
Lemma set_excess_cleanq_only x d : cleanq_only d (set_clean_excess_dirty x d).
Proof. exists (cache_sets d), (cleanq d), (clean_pendings d), x, (dirty_set_lru d). by destruct d. Qed.

Lemma cleanq_inv_ext inflight d d' : cleanq d' = cleanq d -> num_sets d' = num_sets d -> cache_sets d' = cache_sets d ->
  clean_pendings d' = clean_pendings d -> cleanq_inv inflight d -> cleanq_inv inflight d'.
Proof. intros E1 E2 E3 E4 []. constructor; rewrite ?E1, ?E2, ?E3, ?E4; done. Qed.

(** The loop always ends; it takes a prefix of the LRU, that is the sets that
    were dirtied first, and each set it takes is queued for cleaning. *)
Lemma enqueue_oldest_ok inflight req : forall xs fuel d l enq,
  dirty_set_lru d = Some l -> SetLru.lru_rep l xs -> ll_max l = num_sets d -> num_sets d < 2 ^ 62 ->
  cleanq_inv inflight d -> (length xs < fuel)%nat ->
  exists d' taken rest l', enqueue_oldest fuel req enq d = Some (tt, d') /\ cleanq_only d d' /\
    cleanq_inv inflight d' /\ xs = taken ++ rest /\ dirty_set_lru d' = Some l' /\ SetLru.lru_rep l' rest /\
    ll_max l' = num_sets d /\ (forall s, s ∈ taken -> s ∈ cleanq d' ++ inflight) /\
    (forall s, s ∈ cleanq d ++ inflight -> s ∈ cleanq d' ++ inflight).
Proof.
  induction xs as [|s xs IH]; intros fuel d l enq El Hrep Hmax Hbig Hcq Hf;
    (destruct fuel as [|fuel]; [cbn in Hf; lia|]);
    destruct (lru_rem_head_rep l _ Hrep) as (l1 & E & Hrep1 & Hmax1 & _);
    cbn [head tail default from_option id] in *; cbn [enqueue_oldest];
    unfold bind at 1, dirty_lru at 1; rewrite El, E.
  - rewrite Z.eqb_refl. exists (set_dirty_set_lru (Some l1) d), [], [], l1.
    split_and!; try done; [apply set_lru_cleanq_only|by eapply cleanq_inv_ext; [..|exact Hcq]|cbn; congruence|].
    intros s Hs. by apply not_elem_of_nil in Hs.
  - set (d1 := set_dirty_set_lru (Some l1) d).
    pose proof (SetLru.rep_range _ _ Hrep s ltac:(apply elem_of_cons; by left)) as Hs. rewrite Hmax in Hs.
    destruct (Z.eqb_spec s LRU_NULL) as [->|_]; [unfold LRU_NULL in Hs; lia|].
    unfold bind at 1, gets at 1. unfold bind at 1, modify at 1.
    assert (Hcq1 : cleanq_inv inflight d1) by by eapply cleanq_inv_ext; [..|exact Hcq].
    destruct (addto_cleanq_inv inflight s true d1 Hcq1 Hs Hbig) as [Hcq2 Hin2].
    set (d2 := eio_addto_cleanq s true d1) in *.
    assert (E2 : dirty_set_lru d2 = Some l1) by (subst d2; by rewrite addto_cleanq_lru).
    assert (En : num_sets d2 = num_sets d) by (subst d2; by rewrite addto_cleanq_num).
    assert (O2 : cleanq_only d d2) by (etransitivity; [apply set_lru_cleanq_only|apply addto_cleanq_only]).
    assert (Hmono : forall x, x ∈ cleanq d ++ inflight -> x ∈ cleanq d2 ++ inflight).
    { intros x Hx. subst d2. unfold eio_addto_cleanq. destruct (tst _ _); [done|].
      cbn. rewrite !elem_of_app in *. tauto. }
    destruct (_ <=? req).
    + destruct (IH fuel d2 l1 (i64 (enq + cs_nr_dirty (cache_sets d1 !!! s)))) as
        (d' & taken & rest & l' & E' & O' & Hcq' & -> & El' & Hrep' & Hmax' & Ht & Hm');
        [done|done|congruence|lia|done|cbn in Hf; lia|].
      exists d', (s :: taken), rest, l'. rewrite En in Hmax'.
      split_and!; try done; [by etransitivity| |by auto].
      intros x [->|Hx]%elem_of_cons; auto.
    + exists d2, [s], xs, l1. split_and!; try done; [congruence|].
      intros x ->%list_elem_of_singleton. done.
Qed.

(** [eio_comply_dirty_thresholds] never panics; it only queues sets. *)
Lemma comply_ok inflight set d : num_sets d < 2 ^ 62 ->
  cleanq_inv inflight d -> (mode d = CACHE_MODE_WB -> dirty_lru_inv d) -> (set = -1 \/ 0 <= set < num_sets d) ->
  exists d', eio_comply_dirty_thresholds set d = Some (tt, d') /\ cleanq_only d d' /\
    cleanq_inv inflight d' /\ (mode d = CACHE_MODE_WB -> dirty_lru_inv d').
Proof.
  intros Hbig Hcq Hlru Hset. unfold eio_comply_dirty_thresholds.
  destruct (CACHE_FAILED_IS_SET d); [by exists d|].
  destruct (AUTOCLEAN_THRESHOLD_CROSSED d); [by exists d|]. cbn [orb].
  destruct (Z.eqb_spec (mode d) CACHE_MODE_WB) as [Hwb|]; [|by exists d]. cbn [negb].
  specialize (Hlru Hwb). unfold bind at 1.
  set (d1 := if set =? -1 then d else eio_check_dirty_set_thresholds set d).
  assert (E1 : when (negb (set =? -1)) (modify (eio_check_dirty_set_thresholds set)) d = Some (tt, d1)).
  { subst d1. by destruct (set =? -1). }
  rewrite E1. clear E1.
  assert (H1 : cleanq_only d d1 /\ cleanq_inv inflight d1 /\ dirty_set_lru d1 = dirty_set_lru d).
  { subst d1. destruct (Z.eqb_spec set (-1)); [done|]. unfold eio_check_dirty_set_thresholds.
    destruct (DIRTY_SET_THRESHOLD_CROSSED d set); [|done]. split_and!.
    - apply addto_cleanq_only.
    - apply addto_cleanq_inv; [done|lia|done].
    - apply addto_cleanq_lru. }
  destruct H1 as (O1 & Hcq1 & El1). destruct (cleanq_only_fields _ _ O1) as (_ & En1 & _).
  destruct Hlru as (l & xs & El & Hrep & Hmax).
  unfold eio_check_dirty_cache_thresholds.
  destruct (DIRTY_CACHE_THRESHOLD_CROSSED d1).
  2:{ exists d1. split_and!; try done. intros _. exists l, xs. rewrite El1, En1. done. }
  destruct (_ || _).
  { exists d1. split_and!; try done. intros _. exists l, xs. rewrite El1, En1. done. }
  set (d2 := set_clean_excess_dirty 1 d1). set (req := i64 _).
  destruct (enqueue_oldest_ok inflight req xs (dirty_lru_fuel d2) d2 l 0) as
    (d3 & taken & rest & l' & E3 & O3 & Hcq3 & _ & El3 & Hrep3 & Hmax3 & _ & _).
  - by rewrite <-El, <-El1.
  - done.
  - cbn. congruence.
  - cbn. lia.
  - by eapply cleanq_inv_ext; [..|exact Hcq1].
  - unfold dirty_lru_fuel. change (dirty_set_lru d2) with (dirty_set_lru d1). rewrite El1, El, (SetLru.rep_size _ _ Hrep). lia.
  - unfold bind. rewrite E3. eexists; split; [done|].
    destruct (cleanq_only_fields _ _ O3) as (_ & En3 & _). change (num_sets d2) with (num_sets d1) in En3, Hmax3.
    split_and!.
    + etransitivity; [exact O1|]. etransitivity; [apply set_excess_cleanq_only|]. etransitivity; [exact O3|apply set_excess_cleanq_only].
    + by eapply cleanq_inv_ext; [..|exact Hcq3].
    + intros _. exists l', rest. cbn. rewrite El3. split_and!; [done|done|congruence].
Qed.
