(* ===== verification/Lookup.v ===== *)
(** * Lookup and invalidation: [eio_main.c]

    Finding the block that caches a sector, choosing one for a miss, and
    invalidating the blocks an I/O overlaps.  The invariant [blk_inv] states
    what makes lookup by set sound: a block that is not [INVALID] holds a
    block-aligned sector of its own set, and no sector is cached twice. *)

From S2P Require Import Prelude Types Mem DList Scan Lru Policy.

Definition hash_block (d : cache_c) (dbn : Z) : option Z := eio_hash_block d dbn.

Definition find_valid_dbn (dbn start_index : Z) : M cache_c Z :=
  a <- gets assoc ;;
  r <- mfor_until (seqZ start_index a) (fun i =>
         s <- gets (fun d => EIO_CACHE_STATE_GET d i) ;;
         if tst s VALID then
           x <- eval (fun d => EIO_DBN_GET d i) ;;
           if x =? dbn then
             ops <- gets policy_ops ;;
             when (Z.land s BLOCK_IO_INPROG =? 0) (eio_policy_reclaim_lru_movetail i ops) ;;
             ret (Some i)
           else ret None
         else ret None) ;;
  ret (default (-1) r).

Definition find_invalid_dbn (start_index : Z) : M cache_c Z :=
  a <- gets assoc ;;
  r <- mfor_until (seqZ start_index a) (fun i =>
         s <- gets (fun d => EIO_CACHE_STATE_GET d i) ;;
         if s =? INVALID then
           ops <- gets policy_ops ;;
           eio_policy_reclaim_lru_movetail i ops ;;
           ret (Some i)
         else ret None) ;;
  ret (default (-1) r).

Definition find_reclaim_dbn (start_index index : Z) : M cache_c Z :=
  ops <- gets policy_ops ;; eio_find_reclaim_dbn ops start_index index.

(** the return code and [*index] *)
Definition eio_lookup (eb_sector : Z) : M cache_c (Z * Z) :=
  dbn <- gets (fun d => EIO_ROUND_SECTOR d eb_sector) ;;
  set_number <- eval (fun d => hash_block d dbn) ;;
  a <- gets assoc ;;
  let start_index := u32 (a * set_number) in
  index <- find_valid_dbn dbn start_index ;;
  if 0 <=? index then ret (VALID, index)
  else
    invalid <- find_invalid_dbn start_index ;;
    oldest_clean <- (if invalid =? -1 then find_reclaim_dbn start_index (-1) else ret (-1)) ;;
    if negb (invalid =? -1) then ret (INVALID, invalid)
    else if negb (oldest_clean =? -1) then ret (VALID, oldest_clean)
    else ret (-1, start_index + a).

(** ** Invalidation *)

(** [eio_stats.cached_blocks] *)
Definition dec_cached_blocks (d : cache_c) : cache_c :=
  set_stats {| (stats d) with st_cached_blocks := atomic64_dec_if_positive (st_cached_blocks (stats d)) |} d.

(** one iteration of the loop; [Some r] when the function returns [r] *)
Definition inval_step (iosector endsector : Z) (multiblk : bool) (i : Z) : M cache_c (option Z) :=
  s <- gets (fun d => EIO_CACHE_STATE_GET d i) ;;
  if tst s INVALID then ret None
  else
    start_dbn <- eval (fun d => EIO_DBN_GET d i) ;;
    bs <- gets block_size ;;
    let end_dbn := u64 (start_dbn + bs) in
    if negb ((endsector <=? start_dbn) || (end_dbn <=? iosector)) then
      if negb (tst s (Z.lor BLOCK_IO_INPROG (Z.lor DIRTY QUEUED))) then
        modify (fun d => dec_cached_blocks (EIO_CACHE_STATE_SET d i INVALID)) ;;
        ret (if multiblk then None else Some 0)
      else
        when (negb (tst s (Z.lor DIRTY QUEUED))) (modify (fun d => EIO_CACHE_STATE_ON d i QUEUED)) ;;
        ret (if multiblk then None else Some 1)
    else ret None.

(** [start_index] and [end_index] are [int]s *)
Definition eio_inval_block_set_range (set iosector iosize : Z) (multiblk : bool) : M cache_c Z :=
  let endsector := u64 (iosector + eio_to_sector iosize) in
  a <- gets assoc ;;
  let start_index := i32 (a * set) in
  let end_index := i32 (start_index + a) in
  r <- mfor_until (seqZ start_index (end_index - start_index)) (inval_step iosector endsector multiblk) ;;
  ret (default 0 r).

(** the result and [*num_sectors] *)
Definition eio_invalidate_sanity_check (d : cache_c) (iosector num_sectors : Z) : Z * Z :=
  if num_sectors =? 0 then (- EINVAL, num_sectors)
  else
    let disk_size := eio_to_sector (disk_dev_size d) in
    if disk_size <=? iosector then (- EINVAL, num_sectors)
    else if disk_size <? u64 (iosector + num_sectors) then (0, disk_size - iosector)
    else (0, num_sectors).

(** the [while (iosize)] loop; each round but the last reaches the end of a set *)
Fixpoint inval_range_loop (fuel : nat) (totalsshift snum iosize : Z) : M cache_c unit :=
  if iosize =? 0 then ret tt
  else
    match fuel with
    | O => panic
    | S n =>
      bset <- eval (fun d => hash_block d snum) ;;
      let snext := u64 (Z.shiftl (Z.shiftr snum totalsshift + 1) totalsshift) in
      let ioinset := u32 (to_bytes (snext - snum)) in
      let ioinset := if iosize <? ioinset then iosize else ioinset in
      eio_inval_block_set_range bset snum ioinset true ;;
      inval_range_loop n totalsshift snext (u32 (iosize - ioinset))
    end.

(** every round consumes at least one sector's worth of bytes *)
Definition eio_inval_range (iosector iosize : Z) : M cache_c unit :=
  sh <- gets (fun d => block_shift d + consecutive_shift d) ;;
  inval_range_loop (S (Z.to_nat (iosize / 512))) sh iosector iosize.

Definition eio_invalidate_cache : M cache_c Z :=
  disk_dev_size <- gets (fun d => to_bytes (disk_dev_size d)) ;;
  n <- gets (fun d => Z.shiftr (dmc_size d) (consecutive_shift d)) ;;
  mfor (seqZ 0 n) (fun i => eio_inval_block_set_range (i32 i) 0 (u32 disk_dev_size) false ;; ret tt) ;;
  ret 0.

Definition eio_inval_block (iosector : Z) : M cache_c Z :=
  iosector <- gets (fun d => EIO_ROUND_SECTOR d iosector) ;;
  bset <- eval (fun d => hash_block d iosector) ;;
  bs <- gets block_size ;;
  eio_inval_block_set_range bset iosector (u32 (to_bytes bs)) false.

Definition eio_get_iosize (d : cache_c) (snum biosize : Z) : Z :=
  let swithinblock := u32 (Z.land snum (block_size d - 1)) in
  let iosize := if negb (swithinblock =? 0)
                then u32 (to_bytes (block_size d - swithinblock))
                else u32 (to_bytes (block_size d)) in
  if biosize <? iosize then biosize else iosize.

(** ** The invariant of the metadata *)

(** the block caches nothing, or the [VALID] bit is set without [INVALID] *)
Definition state_ok (s : Z) : Prop := s = INVALID \/ Z.land s 3 = VALID.

Record blk_inv (d : cache_c) : Prop := {
  bi_geom : wf_geom d;
  bi_zero : wf_zero d;
  bi_dom : forall i, i ∈ md_dom d <-> 0 <= i < dmc_size d;
  bi_state : forall i, 0 <= i < dmc_size d -> state_ok (EIO_CACHE_STATE_GET d i);
  bi_dbn : forall i, 0 <= i < dmc_size d -> EIO_CACHE_STATE_GET d i <> INVALID ->
    exists dbn, EIO_DBN_GET d i = Some dbn /\ dbn_ok d dbn /\ (block_size d | dbn) /\ dbn_set d dbn = i / assoc d;
  bi_uniq : forall i j, 0 <= i < dmc_size d -> 0 <= j < dmc_size d ->
    EIO_CACHE_STATE_GET d i <> INVALID -> EIO_CACHE_STATE_GET d j <> INVALID ->
    EIO_DBN_GET d i = EIO_DBN_GET d j -> i = j
}.

Lemma state_ok_valid s : 0 <= s -> state_ok s -> tst s VALID = negb (s =? INVALID) /\ tst s INVALID = (s =? INVALID).
Proof.
  intros Hs [->|H]; [done|]. unfold tst.
  assert (E1 : Z.land s VALID = VALID).
  { replace VALID with (Z.land 3 VALID) at 1 by done. rewrite Z.land_assoc, H. done. }
  assert (E0 : Z.land s INVALID = 0).
  { replace INVALID with (Z.land 3 INVALID) at 1 by done. rewrite Z.land_assoc, H. done. }
  rewrite E1, E0. destruct (Z.eqb_spec s INVALID) as [->|]; done.
Qed.

(** in-core metadata agree outside the policy's data *)
Definition same_md (d d' : cache_c) : Prop :=
  geom d' = geom d /\ cache d' = cache d /\ cache_md8 d' = cache_md8 d /\ index_zero d' = index_zero d.
#[export] Instance same_md_refl : Reflexive same_md. Proof. done. Qed.
#[export] Instance same_md_trans : Transitive same_md.
Proof. intros d1 d2 d3 (? & ? & ? & ?) (? & ? & ? & ?). unfold same_md. split_and!; congruence. Qed.
Lemma pol_only_same_md d d' : pol_only d d' -> same_md d d'.
Proof. by intros (r & b & m & ->). Qed.

Section same_md.
Context (d d' : cache_c) (H : same_md d d').
Lemma same_md_md8 : EIO_MD8 d' = EIO_MD8 d.
Proof. destruct H as (E & _). by apply geom_fields in E as (_ & _ & _ & _ & _ & _ & _ & _ & ?). Qed.
Lemma same_md_state i : EIO_CACHE_STATE_GET d' i = EIO_CACHE_STATE_GET d i.
Proof. pose proof same_md_md8 as E. destruct H as (_ & E1 & E2 & _). unfold EIO_CACHE_STATE_GET. by rewrite E, E1, E2. Qed.
Lemma same_md_dbn i : EIO_DBN_GET d' i = EIO_DBN_GET d i.
Proof.
  pose proof same_md_md8 as E. pose proof (same_md_state i) as Es. destruct H as (Eg & E1 & E2 & E3).
  apply geom_fields in Eg as (_ & Ea & Eb & Esh & Ec & En & Enb & _ & _).
  unfold EIO_DBN_GET, eio_expand_dbn, SECTORS_PER_SET_MASK, SECTORS_PER_SET, SECTORS_PER_SET_SHIFT.
  by rewrite E, Es, E1, E2, E3, Ea, Eb, Esh, Ec, En, Enb.
Qed.
Lemma same_md_dom : md_dom d' = md_dom d.
Proof. unfold md_dom. rewrite same_md_md8. destruct H as (_ & -> & -> & _). done. Qed.
Lemma same_md_zero : wf_zero d -> wf_zero d'.
Proof.
  unfold wf_zero, md_raw. rewrite same_md_md8. destruct H as (Eg & -> & -> & ->).
  apply geom_fields in Eg as (_ & -> & _). done.
Qed.
Lemma blk_inv_same : blk_inv d -> blk_inv d'.
Proof.
  intros []. pose proof H as (Eg & _). destruct (geom_fields _ _ Eg) as (Es & Ea & Eb & _).
  constructor.
  - by eapply wf_geom_eq.
  - by apply same_md_zero.
  - intros i. by rewrite same_md_dom, Es.
  - intros i. rewrite Es, same_md_state. auto.
  - intros i. rewrite Es, same_md_state, same_md_dbn, Ea, Eb. intros Hi Hs.
    destruct (bi_dbn0 i Hi Hs) as (dbn & ? & ? & ? & ?). exists dbn. split_and!; [done|by eapply geom_dbn_ok|done|].
    by rewrite (geom_dbn_set _ _ _ Eg).
  - intros i j. rewrite Es, !same_md_state, !same_md_dbn. auto.
Qed.
End same_md.

(** ** Changing one block *)
Lemma blk_inv_update d d' i :
  blk_inv d -> geom d' = geom d -> wf_zero d' -> md_dom d' = md_dom d -> 0 <= i < dmc_size d ->
  (forall j, 0 <= j -> j <> i ->
     EIO_CACHE_STATE_GET d' j = EIO_CACHE_STATE_GET d j /\ EIO_DBN_GET d' j = EIO_DBN_GET d j) ->
  state_ok (EIO_CACHE_STATE_GET d' i) ->
  (EIO_CACHE_STATE_GET d' i <> INVALID ->
   exists dbn, EIO_DBN_GET d' i = Some dbn /\ dbn_ok d dbn /\ (block_size d | dbn) /\ dbn_set d dbn = i / assoc d /\
     (forall j, 0 <= j < dmc_size d -> j <> i -> EIO_CACHE_STATE_GET d j <> INVALID -> EIO_DBN_GET d j <> Some dbn)) ->
  blk_inv d'.
Proof.
  intros [] Hgeo Hz Hdom Hi Hoth Hok Hnew. destruct (geom_fields _ _ Hgeo) as (Es & Ea & Eb & _).
  constructor.
  - by eapply wf_geom_eq.
  - done.
  - intros j. by rewrite Hdom, Es.
  - intros j Hj. rewrite Es in Hj. destruct (decide (j = i)) as [->|Hne]; [done|].
    destruct (Hoth j) as [-> _]; [lia|done|]. auto.
  - intros j Hj Hs. rewrite Es in Hj. rewrite Ea, Eb.
    assert (exists dbn, EIO_DBN_GET d' j = Some dbn /\ dbn_ok d dbn /\ (block_size d | dbn) /\ dbn_set d dbn = j / assoc d)
      as (dbn & ? & ? & ? & ?).
    { destruct (decide (j = i)) as [->|Hne]; [destruct (Hnew Hs) as (dbn & ? & ? & ? & ? & _); eauto|].
      destruct (Hoth j) as [Es' Ed]; [lia|done|]. rewrite Es' in Hs. rewrite Ed. auto. }
    exists dbn. split_and!; [done|by eapply geom_dbn_ok|done|by rewrite (geom_dbn_set _ _ _ Hgeo)].
  - intros j k. rewrite Es. intros Hj Hk Hsj Hsk E.
    destruct (decide (j = i)) as [->|Hji], (decide (k = i)) as [->|Hki]; [done| | |].
    + destruct (Hnew Hsj) as (dbn & E' & _ & _ & _ & Hu). destruct (Hoth k) as [Es' Ed]; [lia|done|].
      rewrite Es' in Hsk. exfalso. apply (Hu k Hk Hki Hsk). congruence.
    + destruct (Hnew Hsk) as (dbn & E' & _ & _ & _ & Hu). destruct (Hoth j) as [Es' Ed]; [lia|done|].
      rewrite Es' in Hsj. exfalso. apply (Hu j Hj Hji Hsj). congruence.
    + destruct (Hoth j) as [Es1 Ed1]; [lia|done|]. destruct (Hoth k) as [Es2 Ed2]; [lia|done|].
      apply bi_uniq0; congruence.
Qed.

Lemma state_set_zero d i s : wf_zero d -> wf_zero (EIO_CACHE_STATE_SET d i s).
Proof.
  unfold wf_zero. rewrite state_set_index_zero, state_set_raw.
  by destruct (geom_fields _ _ (state_set_geom d i s)) as (_ & -> & _).
Qed.

(** states of other blocks, and sectors of all blocks whose [INVALID]ness stays *)
Lemma state_set_dbn d i s j : wf_zero d -> 0 <= j -> 0 <= s < 256 ->
  (j <> i \/ (s <> INVALID /\ EIO_CACHE_STATE_GET d i <> INVALID)) ->
  EIO_DBN_GET (EIO_CACHE_STATE_SET d i s) j = EIO_DBN_GET d j.
Proof.
  intros Hz Hj Hs Hc. apply dbn_get_indep; auto using state_set_geom, state_set_zero, state_set_raw.
  destruct Hc as [Hne|[H1 H2]]; [by rewrite state_get_set_ne|].
  destruct (decide (i = j)) as [<-|]; [rewrite state_get_set_eq by done; tauto|by rewrite state_get_set_ne].
Qed.

Lemma state_ok_range s : state_ok s -> s <> INVALID -> Z.land s 3 = VALID.
Proof. intros [?|?]; done. Qed.

Lemma land3_not_invalid s : Z.land s 3 = VALID -> s <> INVALID.
Proof. by intros H ->. Qed.

Lemma blk_inv_set_state d i s : blk_inv d -> 0 <= i < dmc_size d -> 0 <= s < 256 ->
  (s = INVALID \/ (Z.land s 3 = VALID /\ EIO_CACHE_STATE_GET d i <> INVALID)) ->
  blk_inv (EIO_CACHE_STATE_SET d i s).
Proof.
  intros Hinv Hi Hs Hc. pose proof (bi_zero d Hinv) as Hz.
  apply (blk_inv_update d _ i Hinv).
  - apply state_set_geom.
  - by apply state_set_zero.
  - apply state_set_dom. by apply (bi_dom d Hinv).
  - done.
  - intros j Hj Hne. rewrite state_get_set_ne, state_set_dbn by auto. done.
  - rewrite state_get_set_eq by done. unfold state_ok. tauto.
  - rewrite state_get_set_eq by done. intros Hne. destruct Hc as [?|[Hv Hold]]; [done|].
    destruct (bi_dbn d Hinv i Hi Hold) as (dbn & Hd & ? & ? & ?).
    exists dbn. rewrite state_set_dbn by (auto; lia). split_and!; try done.
    intros j Hj Hji Hsj E. apply Hji. apply (bi_uniq d Hinv); try done. congruence.
Qed.

(** the [lor] and [ldiff] of the state bits above the two lowest *)
Lemma land3_lor s m : Z.land s 3 = VALID -> Z.land m 3 = 0 -> Z.land (Z.lor s m) 3 = VALID.
Proof. intros H1 H2. rewrite Z.land_lor_distr_l, H1, H2. done. Qed.
Lemma land3_clr s m : Z.land s 3 = VALID -> Z.land m 3 = 0 -> Z.land (clr s m) 3 = VALID.
Proof.
  intros H1 H2. unfold clr. apply Z.bits_inj'. intros n Hn.
  assert (T1 : Z.testbit s n && Z.testbit 3 n = Z.testbit VALID n) by by rewrite <-Z.land_spec, H1.
  assert (T2 : Z.testbit m n && Z.testbit 3 n = false) by by rewrite <-Z.land_spec, H2, Z.bits_0.
  rewrite Z.land_spec, Z.ldiff_spec, <-T1. destruct (Z.testbit s n), (Z.testbit m n), (Z.testbit 3 n); try done.
Qed.

Lemma blk_inv_on d i m : blk_inv d -> 0 <= i < dmc_size d -> EIO_CACHE_STATE_GET d i <> INVALID ->
  0 <= m < 256 -> Z.land m 3 = 0 -> blk_inv (EIO_CACHE_STATE_ON d i m).
Proof.
  intros Hinv Hi Hne Hm Hm3. apply blk_inv_set_state; auto.
  - apply lor_byte; [apply state_get_range|done].
  - right. split; [|done]. apply land3_lor; [|done]. apply state_ok_range; [by apply (bi_state d Hinv)|done].
Qed.
Lemma blk_inv_off d i m : blk_inv d -> 0 <= i < dmc_size d -> EIO_CACHE_STATE_GET d i <> INVALID ->
  Z.land m 3 = 0 -> blk_inv (EIO_CACHE_STATE_OFF d i m).
Proof.
  intros Hinv Hi Hne Hm3. apply blk_inv_set_state; auto.
  - apply clr_byte, state_get_range.
  - right. split; [|done]. apply land3_clr; [|done]. apply state_ok_range; [by apply (bi_state d Hinv)|done].
Qed.

(** allocating block [i] to a sector that no block caches *)
Definition uncached (d : cache_c) (dbn : Z) : Prop :=
  forall j, 0 <= j < dmc_size d -> EIO_CACHE_STATE_GET d j <> INVALID -> EIO_DBN_GET d j <> Some dbn.

Lemma blk_inv_alloc d i s dbn : blk_inv d -> 0 <= i < dmc_size d -> 0 <= s < 256 -> Z.land s 3 = VALID ->
  dbn_ok d dbn -> (block_size d | dbn) -> dbn_set d dbn = i / assoc d -> uncached d dbn ->
  exists d', EIO_DBN_SET (EIO_CACHE_STATE_SET d i s) i dbn = Some d' /\ blk_inv d' /\ md_only d d' /\
    EIO_CACHE_STATE_GET d' i = s /\ EIO_DBN_GET d' i = Some dbn /\
    (forall j, 0 <= j -> j <> i -> EIO_CACHE_STATE_GET d' j = EIO_CACHE_STATE_GET d j /\ EIO_DBN_GET d' j = EIO_DBN_GET d j).
Proof.
  intros Hinv Hi Hs H3 Hok Hal Hset Hun. set (d1 := EIO_CACHE_STATE_SET d i s).
  pose proof (bi_zero d Hinv) as Hz. pose proof (state_set_geom d i s) as Hgeo1. fold d1 in Hgeo1.
  destruct (geom_fields _ _ Hgeo1) as (Es1 & Ea1 & Eb1 & _).
  destruct (dbn_set_get d1 i dbn) as (d' & E & Hmd & Hz' & Hget & Hoth & Hst & Hdom).
  - eapply wf_geom_eq; [exact Hgeo1|apply Hinv].
  - by apply state_set_zero.
  - by eapply geom_dbn_ok.
  - lia.
  - by rewrite Ea1, (geom_dbn_set _ _ _ Hgeo1).
  - unfold d1. rewrite state_get_set_eq by done. by apply land3_not_invalid.
  - assert (Hsi : EIO_CACHE_STATE_GET d' i = s) by (rewrite Hst; by apply state_get_set_eq).
    assert (Hfr : forall j, 0 <= j -> j <> i -> EIO_CACHE_STATE_GET d' j = EIO_CACHE_STATE_GET d j /\ EIO_DBN_GET d' j = EIO_DBN_GET d j).
    { intros j Hj Hne. rewrite Hst, Hoth by auto. unfold d1. rewrite state_get_set_ne, state_set_dbn by auto. done. }
    assert (Hgeo' : geom d' = geom d) by (rewrite <-Hgeo1; by apply md_only_geom).
    assert (Hdi : i ∈ md_dom d) by by apply (bi_dom d Hinv).
    exists d'. split_and!; try done.
    + apply (blk_inv_update d d' i Hinv); try done.
      * rewrite Hdom; unfold d1; rewrite state_set_dom; done.
      * rewrite Hsi. by right.
      * intros _. exists dbn. split_and!; try done. intros j Hj _ Hsj. by apply Hun.
    + etransitivity; [|exact Hmd]. apply state_set_md_only.
Qed.

(** ** Lookup *)

Lemma round_sector d s : wf_geom d -> 0 <= s ->
  EIO_ROUND_SECTOR d s = s / block_size d * block_size d.
Proof.
  intros Hg Hs. unfold EIO_ROUND_SECTOR, clr. rewrite (geo_block d Hg). pose proof (geo_bs d Hg).
  replace (2 ^ block_shift d - 1) with (Z.ones (block_shift d)) by (rewrite Z.ones_equiv; lia).
  rewrite Z.ldiff_ones_r, Z.shiftl_mul_pow2, Z.shiftr_div_pow2 by lia. done.
Qed.
Lemma round_sector_le d s : wf_geom d -> 0 <= s ->
  0 <= EIO_ROUND_SECTOR d s <= s /\ s < EIO_ROUND_SECTOR d s + block_size d /\ (block_size d | EIO_ROUND_SECTOR d s).
Proof.
  intros Hg Hs. rewrite round_sector by done. pose proof (block_size_pos d Hg).
  pose proof (Z.div_mod s (block_size d)). pose proof (Z.mod_pos_bound s (block_size d)).
  pose proof (Z.div_pos s (block_size d)). split_and!; try nia. by exists (s / block_size d).
Qed.

(** sectors of one block belong to one set *)
Lemma dbn_set_block d s t : wf_geom d -> 0 <= s -> 0 <= t -> s / block_size d = t / block_size d ->
  dbn_set d s = dbn_set d t.
Proof.
  intros Hg Hs Ht E. unfold dbn_set, EIO_DBN_TO_SET, SECTORS_PER_SET_SHIFT.
  pose proof (geo_bs d Hg). pose proof (geo_cs d Hg). pose proof (pow2_pos (block_shift d)). pose proof (pow2_pos (consecutive_shift d)).
  rewrite !Z.shiftr_div_pow2, (Z.add_comm (consecutive_shift d)), Z.pow_add_r, <-!Z.div_div by lia.
  rewrite (geo_block d Hg) in E. by rewrite E.
Qed.
Lemma dbn_set_round d s : wf_geom d -> 0 <= s -> dbn_set d (EIO_ROUND_SECTOR d s) = dbn_set d s.
Proof.
  intros Hg Hs. destruct (round_sector_le d s Hg Hs) as (? & ? & _). apply dbn_set_block; [done|lia|done|].
  rewrite round_sector by done. pose proof (block_size_pos d Hg). by rewrite Z.div_mul by lia.
Qed.

Lemma set_blocks_range d set i : wf_geom d -> 0 <= set < num_sets d -> i ∈ set_blocks d set -> 0 <= i < dmc_size d.
Proof.
  intros Hg Hs. unfold set_blocks, set_start. rewrite elem_of_seqZ, (geo_size d Hg). pose proof (assoc_pos d Hg). nia.
Qed.

Section lookup.
Context (d : cache_c) (Hinv : blk_inv d) (Hpol : policy_inv d).

Definition hit (dbn i : Z) : bool :=
  tst (EIO_CACHE_STATE_GET d i) VALID && bool_decide (EIO_DBN_GET d i = Some dbn).

Lemma hit_spec dbn i : 0 <= i < dmc_size d ->
  hit dbn i = true <-> EIO_CACHE_STATE_GET d i <> INVALID /\ EIO_DBN_GET d i = Some dbn.
Proof.
  intros Hi. unfold hit. destruct (state_ok_valid (EIO_CACHE_STATE_GET d i)) as [-> _];
    [apply state_get_range|by apply (bi_state d Hinv)|].
  rewrite andb_true_iff, bool_decide_eq_true, negb_true_iff, Z.eqb_neq. done.
Qed.

Lemma find_valid_ok dbn set : 0 <= set < num_sets d ->
  exists r d', find_valid_dbn dbn (set_start d set) d = Some (r, d') /\ pol_only d d' /\ policy_inv d' /\
    ((r ∈ set_blocks d set /\ EIO_CACHE_STATE_GET d r <> INVALID /\ EIO_DBN_GET d r = Some dbn) \/
     (r = -1 /\ forall j, j ∈ set_blocks d set -> EIO_CACHE_STATE_GET d j <> INVALID -> EIO_DBN_GET d j <> Some dbn)).
Proof.
  intros Hset. pose proof (bi_geom d Hinv) as Hg. unfold find_valid_dbn.
  unfold bind at 1, gets at 1. unfold bind at 1. fold (set_blocks d set).
  match goal with |- context [mfor_until _ ?F _] => set (f := F) end.
  assert (Hf : forall x, x ∈ set_blocks d set ->
     (hit dbn x = false -> f x d = Some (None, d)) /\
     (hit dbn x = true -> exists d', f x d = Some (Some x, d') /\ pol_only d d' /\ policy_inv d')).
  { intros x Hx. pose proof (set_blocks_range d set x Hg Hset Hx) as Hr.
    destruct (state_ok_valid (EIO_CACHE_STATE_GET d x)) as [Ev _]; [apply state_get_range|by apply (bi_state d Hinv)|].
    unfold f, hit. rewrite !bind_gets. destruct (tst (EIO_CACHE_STATE_GET d x) VALID) eqn:Et; [|by split].
    symmetry in Ev. apply negb_true_iff, Z.eqb_neq in Ev.
    destruct (bi_dbn d Hinv x Hr Ev) as (y & Ey & _). cbn [andb].
    split; (rewrite (bind_eval (fun d => EIO_DBN_GET d x) _ d y Ey); rewrite Ey; intros E).
    - apply bool_decide_eq_false in E. destruct (Z.eqb_spec y dbn) as [->|]; done.
    - apply bool_decide_eq_true in E. injection E as ->. rewrite Z.eqb_refl, bind_gets.
      destruct (_ =? 0); cbn [when]; [|by exists d].
      destruct (movetail_contract d x Hg Hpol Hr) as (d' & Em & ? & ?). rewrite (bind_run _ _ _ _ _ Em). by exists d'. }
  rewrite (mfor_until_find (hit dbn)).
  2:{ intros x Hx. by apply Hf. }
  2:{ intros x Hx Hh. destruct (proj2 (Hf x Hx) Hh) as (d' & E & _). eauto. }
  destruct (List.find (hit dbn) (set_blocks d set)) as [x|] eqn:Efind.
  - apply list_find_Some in Efind as [Hx Hh]. destruct (proj2 (Hf x Hx) Hh) as (d' & E & Ho & Hp).
    rewrite E. exists x, d'. split_and!; try done. left. split; [done|].
    apply hit_spec; [by eapply set_blocks_range|done].
  - exists (-1), d. split_and!; try done. right. split; [done|]. intros j Hj Hs Hd.
    pose proof (list_find_None _ _ Efind j Hj) as Hn.
    assert (hit dbn j = true) by (apply hit_spec; [by eapply set_blocks_range|done]). congruence.
Qed.

Lemma find_invalid_ok set : 0 <= set < num_sets d ->
  exists r d', find_invalid_dbn (set_start d set) d = Some (r, d') /\ pol_only d d' /\ policy_inv d' /\
    ((r ∈ set_blocks d set /\ EIO_CACHE_STATE_GET d r = INVALID) \/
     (r = -1 /\ d' = d /\ forall j, j ∈ set_blocks d set -> EIO_CACHE_STATE_GET d j <> INVALID)).
Proof.
  intros Hset. pose proof (bi_geom d Hinv) as Hg. unfold find_invalid_dbn.
  unfold bind at 1, gets at 1. unfold bind at 1. fold (set_blocks d set).
  match goal with |- context [mfor_until _ ?F _] => set (f := F) end.
  set (P := fun i => EIO_CACHE_STATE_GET d i =? INVALID).
  assert (Hf : forall x, x ∈ set_blocks d set ->
     (P x = false -> f x d = Some (None, d)) /\
     (P x = true -> exists d', f x d = Some (Some x, d') /\ pol_only d d' /\ policy_inv d')).
  { intros x Hx. pose proof (set_blocks_range d set x Hg Hset Hx) as Hr. unfold f, P. rewrite !bind_gets. split; intros ->; [done|].
    rewrite bind_gets. destruct (movetail_contract d x Hg Hpol Hr) as (d' & Em & ? & ?).
    rewrite (bind_run _ _ _ _ _ Em). by exists d'. }
  rewrite (mfor_until_find P).
  2:{ intros x Hx. by apply Hf. }
  2:{ intros x Hx Hh. destruct (proj2 (Hf x Hx) Hh) as (d' & E & _). eauto. }
  destruct (List.find P (set_blocks d set)) as [x|] eqn:Efind.
  - apply list_find_Some in Efind as [Hx Hh]. destruct (proj2 (Hf x Hx) Hh) as (d' & E & Ho & Hp).
    rewrite E. exists x, d'. split_and!; try done. left. split; [done|]. by apply Z.eqb_eq.
  - exists (-1), d. split_and!; try done. right. split_and!; [done|done|]. intros j Hj Hs.
    pose proof (list_find_None _ _ Efind j Hj) as Hn. unfold P in Hn. rewrite Hs in Hn. done.
Qed.
End lookup.

(** a sector cached nowhere in its set is cached nowhere *)
Lemma uncached_set d dbn : blk_inv d ->
  (forall j, j ∈ set_blocks d (dbn_set d dbn) -> EIO_CACHE_STATE_GET d j <> INVALID -> EIO_DBN_GET d j <> Some dbn) ->
  uncached d dbn.
Proof.
  intros Hinv H j Hj Hs E. destruct (bi_dbn d Hinv j Hj Hs) as (dbn' & E' & _ & _ & Hset).
  rewrite E' in E. injection E as ->. apply (H j); [|done|done].
  apply elem_of_set_blocks; [apply Hinv|done].
Qed.

(** The four outcomes of [eio_lookup] for a sector: a hit, a free block, a
    clean victim, or no room. *)
Inductive lookup_result (d : cache_c) (sector : Z) : Z -> Z -> Prop :=
| LookupHit i : i ∈ set_blocks d (dbn_set d sector) -> EIO_CACHE_STATE_GET d i <> INVALID ->
    EIO_DBN_GET d i = Some (EIO_ROUND_SECTOR d sector) -> lookup_result d sector VALID i
| LookupFree i : uncached d (EIO_ROUND_SECTOR d sector) -> i ∈ set_blocks d (dbn_set d sector) ->
    EIO_CACHE_STATE_GET d i = INVALID -> lookup_result d sector INVALID i
| LookupVictim i : uncached d (EIO_ROUND_SECTOR d sector) -> i ∈ set_blocks d (dbn_set d sector) ->
    (forall j, j ∈ set_blocks d (dbn_set d sector) -> EIO_CACHE_STATE_GET d j <> INVALID) ->
    EIO_CACHE_STATE_GET d i = VALID -> lookup_result d sector VALID i
| LookupNoRoom i : uncached d (EIO_ROUND_SECTOR d sector) ->
    (forall j, j ∈ set_blocks d (dbn_set d sector) ->
       EIO_CACHE_STATE_GET d j <> INVALID /\ EIO_CACHE_STATE_GET d j <> VALID) ->
    lookup_result d sector (-1) i.

Lemma lookup_ok d sector : blk_inv d -> policy_inv d -> dmc_size d < 2 ^ 32 -> 0 <= sector ->
  exists res index d', eio_lookup sector d = Some ((res, index), d') /\ pol_only d d' /\ policy_inv d' /\
    lookup_result d sector res index.
Proof.
  intros Hinv Hpol Hsz Hs. pose proof (bi_geom d Hinv) as Hg.
  destruct (round_sector_le d sector Hg Hs) as (Hr0 & _ & _).
  destruct (dbn_to_set_spec d sector Hg Hs) as (Hset & _).
  unfold eio_lookup. unfold bind at 1, gets at 1. unfold bind at 1, eval at 1, hash_block.
  rewrite eio_hash_block_ok by (done || lia). rewrite dbn_set_round by done.
  set (dbn := EIO_ROUND_SECTOR d sector). set (set := dbn_set d sector) in *.
  unfold bind at 1, gets at 1.
  assert (Est : u32 (assoc d * set) = set_start d set).
  { unfold set_start, u32. pose proof (assoc_pos d Hg). pose proof (geo_size d Hg). rewrite Z.mod_small; nia. }
  rewrite Est. unfold bind at 1.
  destruct (find_valid_ok d Hinv Hpol dbn set Hset) as (r & d1 & E1 & O1 & P1 & H1). rewrite E1.
  destruct H1 as [(Hin & Hst & Hd)|(-> & Hmiss)].
  { pose proof (set_blocks_range d set r Hg Hset Hin). destruct (Z.leb_spec 0 r); [|lia].
    exists VALID, r, d1. split_and!; try done. by apply LookupHit. }
  change (0 <=? -1) with false. cbv iota.
  assert (Hun : uncached d dbn).
  { apply uncached_set; [done|]. unfold dbn at 1. by rewrite dbn_set_round by done. }
  pose proof (pol_only_same_md _ _ O1) as S1. pose proof (blk_inv_same _ _ S1 Hinv) as Hinv1.
  assert (Egeo1 : geom d1 = geom d) by by apply pol_only_geom.
  destruct (geom_fields _ _ Egeo1) as (_ & Ea1 & _ & _ & _ & En1 & _).
  assert (Esb : set_start d set = set_start d1 set) by (unfold set_start; by rewrite Ea1).
  assert (Esbl : set_blocks d1 set = set_blocks d set) by (unfold set_blocks; by rewrite <-Esb, Ea1).
  rewrite Esb. unfold bind at 1.
  destruct (find_invalid_ok d1 Hinv1 P1 set) as (r2 & d2 & E2 & O2 & P2 & H2); [by rewrite En1|]. rewrite E2.
  rewrite Esbl in H2. destruct H2 as [(Hin & Hst)|(-> & -> & Hall)].
  { rewrite (same_md_state _ _ S1) in Hst. pose proof (set_blocks_range d set r2 Hg Hset Hin).
    destruct (Z.eqb_spec r2 (-1)); [lia|]. exists INVALID, r2, d2.
    split_and!; [done|by etransitivity|done|]. by apply LookupFree. }
  change (-1 =? -1) with true. cbv iota. unfold bind at 1, find_reclaim_dbn. unfold bind at 1, gets at 1.
  destruct (find_reclaim_contract d1 set (-1)) as (v & d2 & E3 & O3 & P3 & H3);
    [by eapply wf_geom_eq|done|by rewrite En1|]. rewrite E3, Esbl in *.
  setoid_rewrite (same_md_state _ _ S1) in H3. setoid_rewrite (same_md_state _ _ S1) in Hall.
  cbn [negb]. destruct H3 as [(Hin & Hst)|(-> & Hno)].
  - pose proof (set_blocks_range d set v Hg Hset Hin). destruct (Z.eqb_spec v (-1)); [lia|]. cbn [negb].
    exists VALID, v, d2. split_and!; [done|by etransitivity|done|]. by apply LookupVictim.
  - change (-1 =? -1) with true. cbn [negb]. eexists _, _, d2. split_and!; [done|by etransitivity|done|].
    apply LookupNoRoom; [done|]. intros j Hj. split; [by apply Hall|by apply Hno].
Qed.

(** ** Invalidation of a range *)

(** only the metadata and the statistics differ *)
Definition md_stat_only (d d' : cache_c) : Prop :=
  exists c c8 z st, d' = set_stats st (set_index_zero z (set_cache c (set_cache_md8 c8 d))).
#[export] Instance md_stat_only_refl : Reflexive md_stat_only.
Proof. intros d. exists (cache d), (cache_md8 d), (index_zero d), (stats d). by destruct d. Qed.
#[export] Instance md_stat_only_trans : Transitive md_stat_only.
Proof. intros d1 d2 d3 (c & c8 & z & st & ->) (c' & c8' & z' & st' & ->). exists c', c8', z', st'. by destruct d1. Qed.
Lemma md_only_stat d d' : md_only d d' -> md_stat_only d d'.
Proof. intros (c & c8 & z & ->). exists c, c8, z, (stats d). by destruct d. Qed.
Lemma md_stat_only_stats st d : md_stat_only d (set_stats st d).
Proof. exists (cache d), (cache_md8 d), (index_zero d), st. by destruct d. Qed.
Lemma md_stat_only_geom d d' : md_stat_only d d' -> geom d' = geom d.
Proof. by intros (c & c8 & z & st & ->). Qed.
Lemma md_stat_only_policy d d' : md_stat_only d d' -> policy_inv d -> policy_inv d'.
Proof. intros (c & c8 & z & st & ->). by apply policy_inv_same. Qed.

(** what an invalidation makes of the state of an overlapping block *)
Definition idle (s : Z) : bool := negb (tst s (Z.lor BLOCK_IO_INPROG (Z.lor DIRTY QUEUED))).
Definition inval_state (s : Z) : Z :=
  if idle s then INVALID
  else if negb (tst s (Z.lor DIRTY QUEUED)) then Z.lor s QUEUED else s.

Definition overlaps (d : cache_c) (iosector endsector i : Z) : bool :=
  negb (EIO_CACHE_STATE_GET d i =? INVALID) &&
  match EIO_DBN_GET d i with
  | Some dbn => negb ((endsector <=? dbn) || (dbn + block_size d <=? iosector))
  | None => false
  end.

Definition inval_one (d : cache_c) (i : Z) : cache_c :=
  let s := EIO_CACHE_STATE_GET d i in
  if idle s then dec_cached_blocks (EIO_CACHE_STATE_SET d i INVALID)
  else if negb (tst s (Z.lor DIRTY QUEUED)) then EIO_CACHE_STATE_ON d i QUEUED else d.

Lemma dbn_ok_bound d dbn : dbn_ok d dbn -> 0 <= dbn < 2 ^ 56.
Proof.
  unfold dbn_ok, EIO_MD8_DBN_BITS, EIO_MAX_SECTOR. destruct (EIO_MD8 d); intros [? H]; [lia|].
  split; [lia|]. destruct H as [_ H]. lia.
Qed.

Lemma block_size_bound d : wf_geom d -> 0 < block_size d <= 2 ^ 23.
Proof.
  intros Hg. split; [by apply block_size_pos|]. rewrite (geo_block d Hg).
  pose proof (geo_cs d Hg). pose proof (geo_bs d Hg). pose proof (geo_lsb d Hg). apply Z.pow_le_mono_r; lia.
Qed.

Lemma inval_step_eq d iosector endsector mb i : blk_inv d -> 0 <= i < dmc_size d ->
  inval_step iosector endsector mb i d =
  if overlaps d iosector endsector i
  then Some (if mb then None else Some (if idle (EIO_CACHE_STATE_GET d i) then 0 else 1), inval_one d i)
  else Some (None, d).
Proof.
  intros Hinv Hi. pose proof (bi_geom d Hinv) as Hg. unfold inval_step, overlaps. rewrite bind_gets.
  destruct (state_ok_valid (EIO_CACHE_STATE_GET d i)) as [_ ->]; [apply state_get_range|by apply (bi_state d Hinv)|].
  destruct (Z.eqb_spec (EIO_CACHE_STATE_GET d i) INVALID) as [|Hne]; [done|]. cbn [negb andb].
  destruct (bi_dbn d Hinv i Hi Hne) as (dbn & E & Hok & _). rewrite (bind_eval (fun d => EIO_DBN_GET d i) _ d dbn E), E.
  rewrite bind_gets. pose proof (dbn_ok_bound d dbn Hok). pose proof (block_size_bound d Hg).
  replace (u64 (dbn + block_size d)) with (dbn + block_size d) by (unfold u64; rewrite Z.mod_small; lia).
  destruct (negb _); [|done]. unfold idle, inval_one, idle.
  destruct (negb (tst _ (Z.lor BLOCK_IO_INPROG _))); [by destruct mb|].
  destruct (negb _); cbn [when]; by destruct mb.
Qed.

Lemma inval_state_ok s : 0 <= s < 256 -> state_ok s -> s <> INVALID -> 0 <= inval_state s < 256 /\ state_ok (inval_state s).
Proof.
  intros Hr Hok Hne. unfold inval_state. destruct (idle s); [split; [done|by left]|].
  destruct (negb _); [|done]. split; [by apply lor_byte|]. right. apply land3_lor; [by apply state_ok_range|done].
Qed.

Lemma inval_one_ok d i : blk_inv d -> 0 <= i < dmc_size d -> EIO_CACHE_STATE_GET d i <> INVALID ->
  let d' := inval_one d i in
  blk_inv d' /\ md_stat_only d d' /\
  (forall j, EIO_CACHE_STATE_GET d' j = if decide (j = i) then inval_state (EIO_CACHE_STATE_GET d i) else EIO_CACHE_STATE_GET d j) /\
  (forall j, 0 <= j -> (j = i -> EIO_CACHE_STATE_GET d' i <> INVALID) -> EIO_DBN_GET d' j = EIO_DBN_GET d j).
Proof.
  intros Hinv Hi Hne. pose proof (bi_zero d Hinv) as Hz. cbv zeta. unfold inval_one, inval_state.
  destruct (idle _); [|destruct (negb _)].
  - set (d1 := EIO_CACHE_STATE_SET d i INVALID).
    assert (S1 : same_md d1 (dec_cached_blocks d1)) by done. split_and!.
    + apply (blk_inv_same d1); [done|]. apply blk_inv_set_state; [done|done|done|by left].
    + etransitivity; [apply md_only_stat, state_set_md_only|apply md_stat_only_stats].
    + intros j. rewrite (same_md_state _ _ S1). case_decide as E; [rewrite E; by apply state_get_set_eq|].
      apply state_get_set_ne. congruence.
    + intros j Hj Hc. rewrite (same_md_dbn _ _ S1). apply state_set_dbn; [done|done|done|].
      left. intros ->. apply Hc; [done|]. rewrite (same_md_state _ _ S1). by apply state_get_set_eq.
  - split_and!.
    + by apply blk_inv_on.
    + apply md_only_stat, state_set_md_only.
    + intros j. case_decide as E; [rewrite E; by apply state_get_on_eq|]. apply state_get_set_ne. congruence.
    + intros j Hj _. apply state_set_dbn; [done|done|apply lor_byte; [apply state_get_range|done]|].
      right. split; [|done]. apply land3_not_invalid, land3_lor; [|done]. apply state_ok_range; [by apply (bi_state d Hinv)|done].
  - split_and!; [done|done| |done]. intros j. case_decide as E; [by rewrite E|done].
Qed.

(** the effect on every block of the blocks [xs] visited *)
Record inval_effect (iosector endsector : Z) (xs : list Z) (d d' : cache_c) : Prop := {
  ie_inv : blk_inv d';
  ie_only : md_stat_only d d';
  ie_state : forall j, 0 <= j < dmc_size d -> EIO_CACHE_STATE_GET d' j =
    if decide (j ∈ xs) then (if overlaps d iosector endsector j then inval_state (EIO_CACHE_STATE_GET d j) else EIO_CACHE_STATE_GET d j)
    else EIO_CACHE_STATE_GET d j;
  ie_dbn : forall j, 0 <= j < dmc_size d -> EIO_CACHE_STATE_GET d' j <> INVALID -> EIO_DBN_GET d' j = EIO_DBN_GET d j
}.

Lemma inval_state_keep s : s <> INVALID -> inval_state s <> INVALID -> inval_state s = s \/ inval_state s = Z.lor s QUEUED.
Proof. unfold inval_state. destruct (idle s); [done|]. destruct (negb _); auto. Qed.

Lemma overlaps_frame d d' iosector endsector i :
  block_size d' = block_size d -> EIO_CACHE_STATE_GET d' i = EIO_CACHE_STATE_GET d i ->
  (EIO_CACHE_STATE_GET d i <> INVALID -> EIO_DBN_GET d' i = EIO_DBN_GET d i) ->
  overlaps d' iosector endsector i = overlaps d iosector endsector i.
Proof.
  unfold overlaps. intros -> -> H. destruct (Z.eqb_spec (EIO_CACHE_STATE_GET d i) INVALID); [done|]. by rewrite H.
Qed.

Lemma inval_effect_step iosector endsector xs d d' i :
  blk_inv d -> inval_effect iosector endsector xs d d' -> (i ∉ xs) -> 0 <= i < dmc_size d ->
  inval_effect iosector endsector (xs ++ [i]) d
    (if overlaps d' iosector endsector i then inval_one d' i else d').
Proof.
  intros Hinv [Hi' Ho Hs Hd] Hni Hi. pose proof (md_stat_only_geom _ _ Ho) as Hgeo.
  destruct (geom_fields _ _ Hgeo) as (Esz & _ & Eb & _).
  assert (Esi : EIO_CACHE_STATE_GET d' i = EIO_CACHE_STATE_GET d i) by (rewrite Hs by done; by rewrite decide_False).
  assert (Eov : overlaps d' iosector endsector i = overlaps d iosector endsector i).
  { apply overlaps_frame; [done|done|]. intros Hne. apply Hd; [done|by rewrite Esi]. }
  rewrite Eov. destruct (overlaps d iosector endsector i) eqn:Ov.
  - assert (Hne : EIO_CACHE_STATE_GET d' i <> INVALID).
    { rewrite Esi. unfold overlaps in Ov. apply andb_true_iff in Ov as [Ov _]. apply negb_true_iff, Z.eqb_neq in Ov. done. }
    destruct (inval_one_ok d' i Hi' ltac:(lia) Hne) as (I1 & O1 & S1 & D1). constructor; [done|by etransitivity| |].
    + intros j Hj. rewrite S1. destruct (decide (j = i)) as [->|Hne'].
      * rewrite decide_True by (apply elem_of_app; right; by apply list_elem_of_singleton). rewrite Ov, Esi. done.
      * rewrite Hs by done. assert (E : j ∈ xs ++ [i] <-> j ∈ xs) by (rewrite elem_of_app, list_elem_of_singleton; tauto).
        repeat case_decide; tauto.
    + intros j Hj Hnj. rewrite S1 in Hnj. destruct (decide (j = i)) as [->|Hne'].
      * rewrite D1; [by apply Hd|lia|]. intros _. rewrite S1. by rewrite decide_True.
      * rewrite D1; [by apply Hd|lia|]. done.
  - constructor; [done|done| |done]. intros j Hj. rewrite Hs by done.
    destruct (decide (j = i)) as [->|Hne'].
    + rewrite decide_False by done. rewrite decide_True by (apply elem_of_app; right; by apply list_elem_of_singleton). by rewrite Ov.
    + assert (E : j ∈ xs ++ [i] <-> j ∈ xs) by (rewrite elem_of_app, list_elem_of_singleton; tauto). repeat case_decide; tauto.
Qed.

Lemma set_index_i32 d set : wf_geom d -> 0 <= set < num_sets d -> dmc_size d < 2 ^ 31 ->
  i32 (assoc d * set) = set_start d set /\ i32 (set_start d set + assoc d) = set_start d set + assoc d.
Proof.
  intros Hg Hset Hsz. pose proof (assoc_pos d Hg). pose proof (geo_size d Hg). unfold set_start. split.
  - rewrite i32_small by nia. lia.
  - rewrite i32_small; nia.
Qed.

(** [multiblk = 1]: every overlapping block of the set is treated. *)
Lemma inval_set_range_all d set iosector iosize : blk_inv d -> dmc_size d < 2 ^ 31 -> 0 <= set < num_sets d ->
  0 <= iosector -> 0 <= iosize -> iosector + iosize / 512 < 2 ^ 64 ->
  exists d', eio_inval_block_set_range set iosector iosize true d = Some (0, d') /\
    inval_effect iosector (iosector + iosize / 512) (set_blocks d set) d d'.
Proof.
  intros Hinv Hsz Hset Hio Hsize Hend. pose proof (bi_geom d Hinv) as Hg.
  assert (0 <= iosize / 512) by (apply Z.div_pos; lia).
  unfold eio_inval_block_set_range. rewrite bind_gets. destruct (set_index_i32 d set Hg Hset Hsz) as [-> ->].
  replace (u64 (iosector + eio_to_sector iosize)) with (iosector + iosize / 512).
  2:{ unfold eio_to_sector, SECTOR_SHIFT, u64. rewrite Z.shiftr_div_pow2 by lia. change (2 ^ 9) with 512. rewrite Z.mod_small; lia. }
  replace (seqZ _ _) with (set_blocks d set) by (unfold set_blocks; f_equal; lia).
  set (endsector := iosector + iosize / 512).
  assert (W : wp (mfor_until (set_blocks d set) (inval_step iosector endsector true)) d
           (fun r d' => r = None /\ inval_effect iosector endsector (set_blocks d set) d d')).
  { apply (wp_mfor_until_all (fun xs d' => inval_effect iosector endsector xs d d')).
    - constructor; [done|done| |done]. intros j Hj. rewrite decide_False by apply not_elem_of_nil. done.
    - intros don x rest d' Hl He. assert (Hx : x ∈ set_blocks d set) by (rewrite Hl; apply elem_of_app; right; apply elem_of_cons; by left).
      pose proof (set_blocks_range d set x Hg Hset Hx) as Hxr.
      assert (Hnx : x ∉ don).
      { pose proof (NoDup_seqZ (set_start d set) (assoc d)) as Hnd. fold (set_blocks d set) in Hnd. rewrite Hl in Hnd.
        apply NoDup_app in Hnd as (_ & Hd & _). intros Hxd. apply (Hd x Hxd), elem_of_cons. by left. }
      destruct (geom_fields _ _ (md_stat_only_geom _ _ (ie_only _ _ _ _ _ He))) as (Esz & _).
      pose proof (inval_effect_step _ _ _ _ _ x Hinv He Hnx Hxr) as Hstep.
      unfold wp. rewrite inval_step_eq; [|apply (ie_inv _ _ _ _ _ He)|lia]. destruct (overlaps d' iosector endsector x); done.
    - done. }
  apply wp_inv in W as (r & d' & E & -> & He). rewrite (bind_run _ _ _ _ _ E). by exists d'.
Qed.

(** What invalidating the sectors from [a] to [b] promises: a block that
    overlaps them and is still cached is dirty, or is marked [QUEUED] so that
    it is dropped when its I/O ends; the other blocks are untouched. *)
Record inval_post (a b : Z) (d d' : cache_c) : Prop := {
  ip_inv : blk_inv d';
  ip_only : md_stat_only d d';
  ip_keep : forall j, 0 <= j < dmc_size d -> EIO_CACHE_STATE_GET d' j <> INVALID ->
    EIO_CACHE_STATE_GET d j <> INVALID /\ EIO_DBN_GET d' j = EIO_DBN_GET d j /\
    (EIO_CACHE_STATE_GET d' j = EIO_CACHE_STATE_GET d j \/
     EIO_CACHE_STATE_GET d' j = Z.lor (EIO_CACHE_STATE_GET d j) QUEUED);
  ip_gone : forall j, 0 <= j < dmc_size d -> overlaps d' a b j = true ->
    tst (EIO_CACHE_STATE_GET d' j) (Z.lor DIRTY QUEUED) = true;
  ip_frame : forall j, 0 <= j < dmc_size d -> overlaps d a b j = false ->
    EIO_CACHE_STATE_GET d' j = EIO_CACHE_STATE_GET d j
}.

Lemma tst_lor_queued s : tst (Z.lor s QUEUED) (Z.lor DIRTY QUEUED) = true.
Proof.
  unfold tst. apply negb_true_iff, Z.eqb_neq. intros E.
  assert (T : Z.testbit (Z.land (Z.lor s QUEUED) (Z.lor DIRTY QUEUED)) 7 = true).
  { rewrite Z.land_spec, Z.lor_spec. change (Z.testbit QUEUED 7) with true. by rewrite orb_true_r. }
  rewrite E in T. done.
Qed.

Lemma inval_state_gone s : inval_state s <> INVALID -> tst (inval_state s) (Z.lor DIRTY QUEUED) = true.
Proof.
  unfold inval_state. destruct (idle s); [done|]. destruct (tst s (Z.lor DIRTY QUEUED)) eqn:E; cbn [negb]; [done|].
  intros _. apply tst_lor_queued.
Qed.

Lemma overlaps_spec d a b j : overlaps d a b j = true <->
  EIO_CACHE_STATE_GET d j <> INVALID /\ exists x, EIO_DBN_GET d j = Some x /\ x < b /\ a < x + block_size d.
Proof.
  unfold overlaps. rewrite andb_true_iff, negb_true_iff, Z.eqb_neq. split; intros [H1 H2]; (split; [done|]).
  - destruct (EIO_DBN_GET d j) as [x|]; [|done]. exists x. apply negb_true_iff, orb_false_iff in H2. split_and!; [done|lia|lia].
  - destruct H2 as (x & -> & ? & ?). apply negb_true_iff, orb_false_iff. lia.
Qed.

(** sectors of one set-sized stripe belong to one set *)
Lemma dbn_set_stripe d s t : s / 2 ^ SECTORS_PER_SET_SHIFT d = t / 2 ^ SECTORS_PER_SET_SHIFT d -> wf_geom d ->
  dbn_set d s = dbn_set d t.
Proof.
  intros E Hg. pose proof (geo_bs d Hg). pose proof (geo_cs d Hg). unfold dbn_set, EIO_DBN_TO_SET.
  rewrite !Z.shiftr_div_pow2 by (unfold SECTORS_PER_SET_SHIFT; lia). by rewrite E.
Qed.

Lemma overlap_same_set d a b j : blk_inv d -> 0 <= j < dmc_size d -> 0 <= a < b ->
  (b - 1) / 2 ^ SECTORS_PER_SET_SHIFT d = a / 2 ^ SECTORS_PER_SET_SHIFT d ->
  overlaps d a b j = true -> j ∈ set_blocks d (dbn_set d a).
Proof.
  intros Hinv Hj Hab Hst (Hne & x & Ex & Hxb & Hax)%overlaps_spec. pose proof (bi_geom d Hinv) as Hg.
  destruct (bi_dbn d Hinv j Hj Hne) as (x' & Ex' & [Hx0 _] & [q Hq] & Hset). rewrite Ex' in Ex. injection Ex as ->.
  apply elem_of_set_blocks; [done|]. rewrite <-Hset. pose proof (block_size_pos d Hg) as Hbs.
  set (t := Z.max a x).
  assert (Ht : dbn_set d x = dbn_set d t).
  { apply dbn_set_block; [done|lia|lia|]. rewrite Hq, Z.div_mul by lia.
    apply Z.div_unique_pos with (t - q * block_size d); lia. }
  rewrite Ht. apply dbn_set_stripe; [|done]. set (k := SECTORS_PER_SET_SHIFT d) in *.
  assert (0 < 2 ^ k) by (apply pow2_pos; unfold k, SECTORS_PER_SET_SHIFT; pose proof (geo_bs d Hg); pose proof (geo_cs d Hg); lia).
  assert (a / 2 ^ k <= t / 2 ^ k) by (apply Z.div_le_mono; lia).
  assert (t / 2 ^ k <= (b - 1) / 2 ^ k) by (apply Z.div_le_mono; lia). lia.
Qed.

Lemma inval_effect_post d d' a b : blk_inv d -> 0 <= a < b ->
  (b - 1) / 2 ^ SECTORS_PER_SET_SHIFT d = a / 2 ^ SECTORS_PER_SET_SHIFT d ->
  inval_effect a b (set_blocks d (dbn_set d a)) d d' -> inval_post a b d d'.
Proof.
  intros Hinv Hab Hst [Hi' Ho Hs Hd]. destruct (geom_fields _ _ (md_stat_only_geom _ _ Ho)) as (_ & _ & Eb & _).
  assert (Hne : forall j, 0 <= j < dmc_size d -> EIO_CACHE_STATE_GET d' j <> INVALID -> EIO_CACHE_STATE_GET d j <> INVALID).
  { intros j Hj Hn Hbad. apply Hn. rewrite Hs by done. unfold overlaps. rewrite Hbad. cbn. by case_decide. }
  constructor; [done|done| | |].
  - intros j Hj Hn. split_and!; [by apply Hne|by apply Hd|]. rewrite Hs in Hn |- * by done.
    case_decide; [|by left]. destruct (overlaps d a b j) eqn:Ov; [|by left].
    apply inval_state_keep; [|done]. by apply overlaps_spec in Ov as [? _].
  - intros j Hj (Hn & x & Ex & Hx)%overlaps_spec. rewrite Hd in Ex by done. rewrite Eb in Hx.
    assert (Ov : overlaps d a b j = true) by (apply overlaps_spec; eauto).
    rewrite Hs in Hn |- * by done. rewrite decide_True in Hn |- * by by apply (overlap_same_set d a b). rewrite Ov in *.
    by apply inval_state_gone.
  - intros j Hj Ov. rewrite Hs by done. rewrite Ov. by case_decide.
Qed.

Lemma inval_post_trans a b c d d1 d2 : blk_inv d -> a <= b <= c ->
  inval_post a b d d1 -> inval_post b c d1 d2 -> inval_post a c d d2.
Proof.
  intros Hinv Hab [I1 O1 K1 G1 F1] [I2 O2 K2 G2 F2].
  destruct (geom_fields _ _ (md_stat_only_geom _ _ O1)) as (Es1 & _ & Eb1 & _).
  destruct (geom_fields _ _ (md_stat_only_geom _ _ O2)) as (Es2 & _ & Eb2 & _).
  constructor; [done|by etransitivity| | |].
  - intros j Hj Hn. destruct (K2 j) as (N1 & D2 & C2); [lia|done|].
    destruct (K1 j Hj N1) as (N0 & D1 & C1). split_and!; [done|congruence|].
    destruct C2 as [->| ->], C1 as [->| ->]; auto. right. by rewrite <-Z.lor_assoc.
  - intros j Hj Ov. pose proof Ov as (Hn & x & Ex & Hx1 & Hx2)%overlaps_spec. rewrite Eb2, Eb1 in Hx2.
    destruct (K2 j) as (N1 & D2 & C2); [lia|done|].
    destruct (Z.lt_ge_cases x b) as [Hlt|Hge].
    + assert (G : tst (EIO_CACHE_STATE_GET d1 j) (Z.lor DIRTY QUEUED) = true).
      { apply G1; [done|]. apply overlaps_spec. split; [done|]. exists x. rewrite <-D2, Eb1. split_and!; [done|lia|lia]. }
      destruct C2 as [->| ->]; [done|apply tst_lor_queued].
    + apply G2; [lia|]. apply overlaps_spec. split; [done|]. exists x. rewrite Eb2, Eb1.
      pose proof (block_size_pos d (bi_geom d Hinv)). split_and!; [done|lia|lia].
  - intros j Hj Ov.
    assert (Ov1 : overlaps d a b j = false).
    { apply not_true_iff_false. intros (Hne & x & Ex & H1 & H2)%overlaps_spec. apply not_true_iff_false in Ov. apply Ov.
      apply overlaps_spec. split; [done|]. exists x. split_and!; [done|lia|lia]. }
    rewrite <-(F1 j Hj Ov1). apply F2; [lia|].
    apply not_true_iff_false. intros (Hne & x & Ex & H1 & H2)%overlaps_spec. rewrite Eb1 in H2.
    destruct (K1 j Hj Hne) as (N0 & D1 & _). rewrite D1 in Ex. apply not_true_iff_false in Ov. apply Ov.
    apply overlaps_spec. split; [done|]. exists x. split_and!; [done|lia|lia].
Qed.

Lemma inval_post_empty a d : blk_inv d -> (forall j, overlaps d a a j = false) -> inval_post a a d d.
Proof. intros Hinv H. constructor; try done; [by auto|]. intros j _ Ov. by rewrite H in Ov. Qed.

(** the loop stays inside one stripe per round, and ends *)
Lemma inval_range_loop_ok : forall fuel d snum iosize, blk_inv d -> dmc_size d < 2 ^ 31 ->
  SECTORS_PER_SET_SHIFT d <= 22 -> 0 <= snum -> 0 < iosize < 2 ^ 32 -> (512 | iosize) ->
  snum + iosize / 512 < 2 ^ 63 -> iosize / 512 <= Z.of_nat fuel ->
  exists d', inval_range_loop fuel (block_shift d + consecutive_shift d) snum iosize d = Some (tt, d') /\
    inval_post snum (snum + iosize / 512) d d'.
Proof.
  induction fuel as [|fuel IH]; intros d snum iosize Hinv Hsz Hsh Hs Hio [n Hn] Hend Hf.
  { rewrite Hn, Z.div_mul in Hf by lia. lia. }
  pose proof (bi_geom d Hinv) as Hg. rewrite Hn, Z.div_mul in * by lia.
  assert (Hn0 : 0 < n) by lia. set (k := SECTORS_PER_SET_SHIFT d) in *.
  assert (Hk : 0 <= k) by (unfold k, SECTORS_PER_SET_SHIFT; pose proof (geo_bs d Hg); pose proof (geo_cs d Hg); lia).
  assert (Ek : block_shift d + consecutive_shift d = k) by (unfold k, SECTORS_PER_SET_SHIFT; lia).
  pose proof (pow2_pos k Hk) as Hpk. assert (2 ^ k <= 2 ^ 22) by (apply Z.pow_le_mono_r; lia).
  destruct (dbn_to_set_spec d snum Hg Hs) as (Hset & _).
  cbn [inval_range_loop]. destruct (Z.eqb_spec (n * 512) 0); [lia|].
  unfold hash_block. rewrite (bind_eval (fun d => eio_hash_block d snum) _ d (dbn_set d snum)) by by apply eio_hash_block_ok.
  rewrite Ek. set (base := snum / 2 ^ k). pose proof (Z.div_mod snum (2 ^ k) ltac:(lia)) as Hdm. fold base in Hdm.
  pose proof (Z.mod_pos_bound snum (2 ^ k) ltac:(lia)) as Hmb.
  assert (Enext : u64 (Z.shiftl (Z.shiftr snum k + 1) k) = (base + 1) * 2 ^ k).
  { rewrite Z.shiftr_div_pow2, Z.shiftl_mul_pow2 by lia. unfold u64, base. apply Z.mod_small. split; nia. }
  rewrite Enext. set (snext := (base + 1) * 2 ^ k). assert (Hsn : snum < snext <= snum + 2 ^ k) by (unfold snext; lia).
  assert (Eset : u32 (to_bytes (snext - snum)) = (snext - snum) * 512).
  { unfold to_bytes, SECTOR_SHIFT, u32. rewrite Z.shiftl_mul_pow2 by lia. change (2 ^ 9) with 512. apply Z.mod_small. lia. }
  rewrite Eset. set (m := Z.min n (snext - snum)).
  replace (if n * 512 <? (snext - snum) * 512 then n * 512 else (snext - snum) * 512) with (m * 512)
    by (destruct (Z.ltb_spec (n * 512) ((snext - snum) * 512)); unfold m; lia).
  assert (Hm : 0 < m <= n) by lia.
  destruct (inval_set_range_all d (dbn_set d snum) snum (m * 512)) as (d1 & E1 & Heff);
    [done|done|done|lia|lia|rewrite Z.div_mul; lia|]. rewrite (bind_run _ _ _ _ _ E1).
  rewrite Z.div_mul in Heff by lia.
  assert (P1 : inval_post snum (snum + m) d d1).
  { apply inval_effect_post; [done|lia| |done]. fold k base. symmetry.
    apply Z.div_unique_pos with (snum + m - 1 - 2 ^ k * base); nia. }
  replace (u32 (n * 512 - m * 512)) with ((n - m) * 512) by (unfold u32; rewrite Z.mod_small; lia).
  destruct (geom_fields _ _ (md_stat_only_geom _ _ (ip_only _ _ _ _ P1))) as (Es1 & _ & Eb1 & Esh1 & Ec1 & _).
  destruct (Z.eq_dec n m) as [Enm|Hne].
  - replace (n - m) with 0 by lia. replace (snum + n) with (snum + m) by lia. exists d1. split; [by destruct fuel|done].
  - assert (Em : m = snext - snum) by lia. replace snext with (snum + m) by lia.
    destruct (IH d1 (snum + m) ((n - m) * 512)) as (d2 & E2 & P2).
    + apply P1. + lia. + unfold SECTORS_PER_SET_SHIFT. by rewrite Ec1, Esh1. + lia. + lia. + by exists (n - m).
    + rewrite Z.div_mul; lia. + rewrite Z.div_mul; lia.
    + rewrite Esh1, Ec1, Ek in E2. exists d2. split; [exact E2|].
      rewrite Z.div_mul in P2 by lia. replace (snum + m + (n - m)) with (snum + n) in P2 by lia.
      apply (inval_post_trans snum (snum + m) (snum + n) d d1 d2); [done|lia|done|done].
Qed.

Lemma inval_range_ok d iosector iosize : blk_inv d -> dmc_size d < 2 ^ 31 ->
  SECTORS_PER_SET_SHIFT d <= 22 -> 0 <= iosector -> 0 < iosize < 2 ^ 32 -> (512 | iosize) ->
  iosector + iosize / 512 < 2 ^ 63 ->
  exists d', eio_inval_range iosector iosize d = Some (tt, d') /\
    inval_post iosector (iosector + iosize / 512) d d'.
Proof.
  intros. unfold eio_inval_range. rewrite bind_gets. apply inval_range_loop_ok; try done.
  assert (0 <= iosize / 512) by (apply Z.div_pos; lia). lia.
Qed.

(** [multiblk = 0] on one block-sized aligned range: at most one block of the
    cache overlaps it, so stopping at the first one is enough. *)
Lemma overlap_aligned d dbn i : blk_inv d -> 0 <= i < dmc_size d -> (block_size d | dbn) ->
  overlaps d dbn (dbn + block_size d) i = true <-> EIO_CACHE_STATE_GET d i <> INVALID /\ EIO_DBN_GET d i = Some dbn.
Proof.
  intros Hinv Hi [q Hq]. pose proof (block_size_pos d (bi_geom d Hinv)). rewrite overlaps_spec. split.
  - intros (Hne & x & Ex & H1 & H2). split; [done|].
    destruct (bi_dbn d Hinv i Hi Hne) as (x' & Ex' & _ & [p Hp] & _). rewrite Ex' in Ex. injection Ex as ->.
    rewrite Ex'. f_equal. assert (p = q) by nia. congruence.
  - intros [Hne E]. split; [done|]. exists dbn. split_and!; [done|lia|lia].
Qed.

Lemma inval_block_ok d sector : blk_inv d -> dmc_size d < 2 ^ 31 -> block_size d < 2 ^ 23 -> 0 <= sector < 2 ^ 63 ->
  let dbn := EIO_ROUND_SECTOR d sector in
  exists r d', eio_inval_block sector d = Some (r, d') /\ inval_post dbn (dbn + block_size d) d d' /\
    (r = 1 <-> exists i, 0 <= i < dmc_size d /\ EIO_DBN_GET d i = Some dbn /\
       EIO_CACHE_STATE_GET d i <> INVALID /\ idle (EIO_CACHE_STATE_GET d i) = false).
Proof.
  intros Hinv Hsz Hbs Hs dbn. pose proof (bi_geom d Hinv) as Hg. pose proof (block_size_pos d Hg) as Hb0.
  destruct (round_sector_le d sector Hg ltac:(lia)) as (Hr0 & Hr1 & Hal). fold dbn in Hr0, Hr1, Hal.
  destruct (dbn_to_set_spec d dbn Hg ltac:(lia)) as (Hset & _).
  unfold eio_inval_block. rewrite bind_gets. fold dbn.
  unfold hash_block. rewrite (bind_eval (fun d => eio_hash_block d dbn) _ d (dbn_set d dbn)) by (apply eio_hash_block_ok; [done|lia]).
  rewrite bind_gets. unfold eio_inval_block_set_range. rewrite bind_gets.
  destruct (set_index_i32 d _ Hg Hset Hsz) as [-> ->].
  replace (u64 (dbn + eio_to_sector (u32 (to_bytes (block_size d))))) with (dbn + block_size d).
  2:{ unfold eio_to_sector, to_bytes, SECTOR_SHIFT, u64, u32. rewrite Z.shiftl_mul_pow2, Z.shiftr_div_pow2 by lia.
      rewrite (Z.mod_small (block_size d * 2 ^ 9)) by lia. rewrite Z.div_mul by lia. rewrite Z.mod_small; lia. }
  set (set := dbn_set d dbn) in *. set (e := dbn + block_size d).
  replace (seqZ _ _) with (set_blocks d set) by (unfold set_blocks; f_equal; lia).
  assert (Hstep : forall x, x ∈ set_blocks d set -> inval_step dbn e false x d =
     if overlaps d dbn e x then Some (Some (if idle (EIO_CACHE_STATE_GET d x) then 0 else 1), inval_one d x) else Some (None, d)).
  { intros x Hx. rewrite inval_step_eq by (done || by eapply set_blocks_range). done. }
  rewrite (bind_run _ _ d (match List.find (overlaps d dbn e) (set_blocks d set) with
                           | Some x => Some (if idle (EIO_CACHE_STATE_GET d x) then 0 else 1) | None => None end)
             (match List.find (overlaps d dbn e) (set_blocks d set) with Some x => inval_one d x | None => d end)).
  2:{ rewrite (mfor_until_find (overlaps d dbn e)).
      - destruct (List.find _ _) as [x|] eqn:Ef; [|done]. apply list_find_Some in Ef as [Hx Ov]. by rewrite Hstep, Ov.
      - intros x Hx Ov. by rewrite Hstep, Ov.
      - intros x Hx Ov. rewrite Hstep, Ov by done. eauto. }
  assert (Hin : forall j, 0 <= j < dmc_size d -> overlaps d dbn e j = true -> j ∈ set_blocks d set).
  { intros j Hj [Hne E]%overlap_aligned; [|done..]. destruct (bi_dbn d Hinv j Hj Hne) as (x & Ex & _ & _ & Hsj).
    apply elem_of_set_blocks; [done|]. rewrite E in Ex. injection Ex as <-. done. }
  assert (Hstripe : (e - 1) / 2 ^ SECTORS_PER_SET_SHIFT d = dbn / 2 ^ SECTORS_PER_SET_SHIFT d).
  { unfold SECTORS_PER_SET_SHIFT. pose proof (geo_bs d Hg). pose proof (geo_cs d Hg).
    pose proof (pow2_pos (block_shift d)). pose proof (pow2_pos (consecutive_shift d)).
    rewrite (Z.add_comm (consecutive_shift d)), Z.pow_add_r, <-!Z.div_div, <-(geo_block d Hg) by lia. f_equal.
    destruct Hal as [q Hq]. unfold e. rewrite Hq, Z.div_mul by lia. symmetry. apply Z.div_unique_pos with (block_size d - 1); lia. }
  destruct (List.find _ _) as [x|] eqn:Ef.
  - apply list_find_Some in Ef as [Hx Ov]. pose proof (set_blocks_range d set x Hg Hset Hx) as Hxr.
    pose proof Ov as [Hne Ex]%overlap_aligned; [|done..].
    destruct (inval_one_ok d x Hinv Hxr Hne) as (I1 & O1 & S1 & D1).
    assert (Huniq : forall j, 0 <= j < dmc_size d -> overlaps d dbn e j = true -> j = x).
    { intros j Hj [Hnj Ej]%overlap_aligned; [|done..]. apply (bi_uniq d Hinv); try done. congruence. }
    eexists _, _. split; [done|]. split.
    + apply inval_effect_post; [done|unfold e; lia|done|]. constructor; [done|done| |].
      * intros j Hj. rewrite S1. destruct (decide (j = x)) as [->|Hjx]; [rewrite decide_True by done; by rewrite Ov|].
        destruct (overlaps d dbn e j) eqn:Oj; [by apply Huniq in Oj|]. by case_decide.
      * intros j Hj Hnj. apply D1; [lia|]. by intros ->.
    + cbn. destruct (idle (EIO_CACHE_STATE_GET d x)) eqn:Ei; (split; [intros E|intros (i & Hi & Ei' & Hni & Hid)]); try done.
      * assert (i = x) as -> by (apply Huniq; [done|]; by apply overlap_aligned). congruence.
      * exists x. done.
  - assert (Hno : forall j, 0 <= j < dmc_size d -> overlaps d dbn e j = false).
    { intros j Hj. destruct (overlaps d dbn e j) eqn:Oj; [|done]. pose proof (list_find_None _ _ Ef j (Hin j Hj Oj)). congruence. }
    eexists _, _. split; [done|]. split.
    + constructor; try done; [by auto|]. intros j Hj Oj. by rewrite Hno in Oj.
    + cbn. split; [done|]. intros (i & Hi & Ei & Hni & _). assert (overlaps d dbn e i = true) by by apply overlap_aligned.
      rewrite Hno in *; done.
Qed.

(** ** Splitting a bio: every piece but the last ends at a block boundary *)
Lemma iosize_ok d snum biosize : wf_geom d -> block_size d < 2 ^ 23 -> 0 <= snum -> 0 < biosize -> (512 | biosize) ->
  let n := eio_get_iosize d snum biosize in
  0 < n <= biosize /\ (512 | n) /\
  snum + n / 512 <= EIO_ROUND_SECTOR d snum + block_size d /\
  (n < biosize -> snum + n / 512 = EIO_ROUND_SECTOR d snum + block_size d).
Proof.
  intros Hg Hbs Hs Hb [m Hm]. cbv zeta. unfold eio_get_iosize.
  rewrite round_sector by done. pose proof (block_size_pos d Hg).
  pose proof (Z.div_mod snum (block_size d) ltac:(lia)). pose proof (Z.mod_pos_bound snum (block_size d) ltac:(lia)).
  assert (El : Z.land snum (block_size d - 1) = snum mod block_size d).
  { rewrite (geo_block d Hg). apply land_ones_mod. apply (geo_bs d Hg). }
  rewrite El. replace (u32 (snum mod block_size d)) with (snum mod block_size d) by (unfold u32; rewrite (Z.mod_small (snum mod block_size d)); lia).
  set (w := snum mod block_size d) in *.
  assert (Ez : (if negb (w =? 0) then u32 (to_bytes (block_size d - w)) else u32 (to_bytes (block_size d))) = (block_size d - w) * 512).
  { unfold to_bytes, SECTOR_SHIFT, u32. rewrite !Z.shiftl_mul_pow2 by lia. change (2 ^ 9) with 512.
    destruct (Z.eqb_spec w 0) as [->|]; cbn [negb]; rewrite Z.mod_small; lia. }
  rewrite Ez, Hm. destruct (Z.ltb_spec (m * 512) ((block_size d - w) * 512)); rewrite Z.div_mul by lia.
  - split_and!; [lia|lia|by exists m|lia|lia].
  - split_and!; [lia|lia|by exists (block_size d - w)|lia|lia].
Qed.

(** ** States of a block at rest *)

(** checks a property of all state bytes by computation *)
Lemma byte_forall (P : Z -> bool) : forallb P (seqZ 0 256) = true -> forall s, 0 <= s < 256 -> P s = true.
Proof.
  intros H s Hs. assert (Hin : List.In s (seqZ 0 256)) by (apply list_elem_of_In, elem_of_seqZ; lia).
  rewrite forallb_forall in H. by apply H.
Qed.

(** without an I/O in progress or a queued invalidation, a cached block is
    either clean or dirty *)
Lemma rest_states s : 0 <= s < 256 -> state_ok s -> s <> INVALID -> tst s (Z.lor BLOCK_IO_INPROG QUEUED) = false ->
  s = VALID \/ s = ALREADY_DIRTY.
Proof.
  intros Hs Hok Hne Ht. pose proof (state_ok_range s Hok Hne) as H3.
  assert (H := byte_forall (fun s => negb (Z.land s 3 =? VALID) || tst s (Z.lor BLOCK_IO_INPROG QUEUED)
                                     || (s =? VALID) || (s =? ALREADY_DIRTY)) eq_refl s Hs).
  cbv beta in H. rewrite H3, Ht in H. rewrite Z.eqb_refl in H. cbn [negb orb] in H.
  apply orb_true_iff in H as [H|H]; apply Z.eqb_eq in H; auto.
Qed.

Lemma lookup_result_same d d' s r i : same_md d d' -> lookup_result d s r i -> lookup_result d' s r i.
Proof.
  intros H. pose proof H as (Eg & _). destruct (geom_fields _ _ Eg) as (Es & Ea & Eb & _).
  assert (Er : EIO_ROUND_SECTOR d' s = EIO_ROUND_SECTOR d s) by (unfold EIO_ROUND_SECTOR; by rewrite Eb).
  assert (Esb : set_blocks d' (dbn_set d' s) = set_blocks d (dbn_set d s)).
  { unfold set_blocks, set_start. by rewrite Ea, (geom_dbn_set _ _ _ Eg). }
  assert (Eu : uncached d (EIO_ROUND_SECTOR d s) -> uncached d' (EIO_ROUND_SECTOR d' s)).
  { unfold uncached. rewrite Er, Es. intros Hu j. rewrite (same_md_state _ _ H), (same_md_dbn _ _ H). apply Hu. }
  intros Hr. inversion Hr; subst.
  - apply LookupHit; rewrite ?Esb, ?(same_md_state _ _ H), ?(same_md_dbn _ _ H), ?Er; done.
  - apply LookupFree; rewrite ?Esb, ?(same_md_state _ _ H); auto.
  - apply LookupVictim; rewrite ?Esb, ?(same_md_state _ _ H); auto. intros j. rewrite (same_md_state _ _ H). auto.
  - apply LookupNoRoom; rewrite ?Esb; auto. intros j. rewrite (same_md_state _ _ H). auto.
Qed.

(** a cache whose blocks are all invalid satisfies the metadata invariant *)
Lemma blank_blk_inv d : wf_geom d -> index_zero d = assoc d ->
  (forall i, i ∈ md_dom d <-> 0 <= i < dmc_size d) ->
  (forall i, 0 <= i < dmc_size d -> EIO_CACHE_STATE_GET d i = INVALID) -> blk_inv d.
Proof.
  intros Hg Hz Hd Hs. pose proof (assoc_pos d Hg). constructor; try done.
  - split; rewrite Hz; lia.
  - intros i Hi. left. by apply Hs.
  - intros i Hi Hne. by rewrite Hs in Hne.
  - intros i j Hi _ Hne. by rewrite Hs in Hne.
Qed.
