(* ===== verification/SetSeq.v ===== *)
(** * Locking the sets an I/O spans: [eio_main.c]

    A write-back cache takes the shared lock of every set a bio touches.  The
    sets are first collected as a sorted list of disjoint sequences, then
    locked in increasing order.  The state of these operations is the list of
    outcomes of the coming allocations (an empty list stands for success). *)

From S2P Require Import Prelude Types Mem Scan Lookup.
From Stdlib Require Import Sorting.Sorted.

(** outcomes of allocations *)
Definition kmalloc : M (list bool) bool := fun l =>
  match l with [] => Some (true, []) | b :: l' => Some (b, l') end.

Record set_seq := mk_seq { first_set : Z; last_set : Z }.

(** the sorted walk; the new sequence is inserted where the walk stops *)
Fixpoint insert_seq (l : list set_seq) (first last : Z) : M (list bool) (Z * list set_seq) :=
  match l with
  | [] => ok <- kmalloc ;; ret (if ok then (0, [mk_seq first last]) else (- ENOMEM, []))
  | cur :: l' =>
    if last_set cur <? first then
      r <- insert_seq l' first last ;; ret (r.1, cur :: r.2)
    else if last <? first_set cur then
      ok <- kmalloc ;; ret (if ok then (0, mk_seq first last :: l) else (- ENOMEM, l))
    else
      let cur := if first <? first_set cur then mk_seq first (last_set cur) else cur in
      if last <=? last_set cur then ret (0, cur :: l')
      else r <- insert_seq l' (last_set cur + 1) last ;; ret (r.1, cur :: r.2)
  end.

Definition insert_set_seq (l : list set_seq) (first last : Z) : M (list bool) (Z * list set_seq) :=
  EIO_ASSERT (negb (first =? -1) && negb (last =? -1) && (first <=? last)) ;;
  insert_seq l first last.

(** the [while (round_sector < end_sector)] loop: the current run of
    consecutive sets, and the sequences of the earlier runs *)
Fixpoint span_loop (fuel : nat) (d : cache_c) (round_sector end_sector set_size : Z)
    (first last cur : Z) (span : list set_seq) : M (list bool) (Z * (Z * Z * Z) * list set_seq) :=
  match fuel with
  | O => panic
  | S n =>
    if round_sector <? end_sector then
      cur <- lift (hash_block d round_sector) ;;
      if first =? -1 then span_loop n d (u64 (round_sector + set_size)) end_sector set_size cur cur cur span
      else if cur =? last + 1 then span_loop n d (u64 (round_sector + set_size)) end_sector set_size first cur cur span
      else
        r <- insert_set_seq span first last ;;
        if negb (r.1 =? 0) then ret (r.1, (first, last, cur), r.2)
        else span_loop n d (u64 (round_sector + set_size)) end_sector set_size cur cur cur r.2
    else ret (0, (first, last, cur), span)
  end.

(** the sets of a list of sequences, in the order they are locked *)
Definition seq_sets (l : list set_seq) : list Z :=
  concat (map (fun s => seqZ (first_set s) (last_set s - first_set s + 1)) l).

(** [eio_acquire_set_locks] up to the locking: the return code and
    [bc_setspan].  On error the sequences are freed. *)
Definition eio_acquire_set_span (d : cache_c) (bi_sector bi_size : Z) : M (list bool) (Z * list set_seq) :=
  let round_sector := EIO_ROUND_SET_SECTOR d bi_sector in
  let set_size := u32 (block_size d * assoc d) in
  let end_sector := u64 (bi_sector + eio_to_sector bi_size) in
  r <- span_loop (S (Z.to_nat ((end_sector - round_sector) / set_size + 1))) d round_sector end_sector set_size (-1) (-1) (-1) [] ;;
  let '(error, (first, last, cur), span) := r in
  if negb (error =? 0) then ret (error, [])
  else
    EIO_ASSERT (negb (first =? -1) && (last =? cur)) ;;
    match span with
    | [] => ret (0, [mk_seq first last])
    | _ => r <- insert_set_seq span first last ;;
           ret (if negb (r.1 =? 0) then (r.1, []) else (0, r.2))
    end.

(** ** Sorted disjoint sequences *)
Fixpoint seqs_from (lo : Z) (l : list set_seq) : Prop :=
  match l with
  | [] => True
  | s :: l' => lo <= first_set s <= last_set s /\ seqs_from (last_set s + 1) l'
  end.
Definition covers (l : list set_seq) (i : Z) : Prop := exists s, s ∈ l /\ first_set s <= i <= last_set s.

Lemma seqs_from_weaken lo lo' l : lo <= lo' -> seqs_from lo' l -> seqs_from lo l.
Proof. destruct l; [done|]. cbn. intros ? [? ?]. split; [lia|done]. Qed.

Lemma covers_cons s l i : covers (s :: l) i <-> first_set s <= i <= last_set s \/ covers l i.
Proof.
  unfold covers. setoid_rewrite elem_of_cons. split.
  - intros (t & [->|H] & ?); eauto.
  - intros [?|(t & ? & ?)]; eauto.
Qed.
Lemma covers_nil i : ~ covers [] i.
Proof. intros (s & H & _). by apply not_elem_of_nil in H. Qed.

Lemma kmalloc_run a : exists b a', kmalloc a = Some (b, a') /\ (a = [] -> b = true /\ a' = []).
Proof. destruct a as [|b a]; cbn; [by exists true, []|by exists b, a]. Qed.

(** Inserting keeps the list sorted and disjoint; on success it covers exactly
    the old sets and the new ones, and fails only when an allocation does. *)
Lemma insert_seq_ok : forall l lo first last a, seqs_from lo l -> lo <= first <= last ->
  exists r l' a', insert_seq l first last a = Some ((r, l'), a') /\ seqs_from lo l' /\ (r = 0 \/ r = - ENOMEM) /\
    (r = 0 -> (forall i, covers l' i <-> covers l i \/ first <= i <= last) /\ l' <> []) /\ (a = [] -> r = 0 /\ a' = []).
Proof.
  induction l as [|cur l IH]; intros lo first last a Hl Hfl; cbn [insert_seq].
  - destruct (kmalloc_run a) as (b & a' & E & Ha). rewrite (bind_run _ _ _ _ _ E). destruct b.
    + eexists 0, [mk_seq first last], a'. split; [done|]. split_and!; [cbn; lia|by left| |by intros [_ ?]%Ha].
      intros _. split; [|done]. intros i. rewrite covers_cons. cbn. pose proof (covers_nil i). tauto.
    + exists (- ENOMEM), [], a'. split; [done|]. split_and!; [done|by right|done|]. by intros [? _]%Ha.
  - destruct Hl as [Hc Hl]. destruct (Z.ltb_spec (last_set cur) first) as [H1|H1].
    { destruct (IH (last_set cur + 1) first last a Hl ltac:(lia)) as (r & l' & a' & E & Hs & Hr & Hcov & Ha).
      rewrite (bind_run _ _ _ _ _ E). exists r, (cur :: l'), a'; split; [done|]. split; [by split|]. split; [done|]. split; [|done].
      intros H0. destruct (Hcov H0) as [Hcov' _]. split; [|done]. intros i. rewrite !covers_cons, Hcov'. tauto. }
    destruct (Z.ltb_spec last (first_set cur)) as [H2|H2].
    { destruct (kmalloc_run a) as (b & a' & E & Ha). rewrite (bind_run _ _ _ _ _ E). destruct b.
      + eexists 0, (mk_seq first last :: cur :: l), a'. split; [done|]. split_and!; [|by left| |by intros [_ ?]%Ha].
        * cbn. split; [lia|]. split; [lia|done].
        * intros _. split; [|done]. intros i. rewrite (covers_cons (mk_seq first last)). cbn. tauto.
      + exists (- ENOMEM), (cur :: l), a'. split; [done|]. split_and!; [by split|by right|done|]. by intros [? _]%Ha. }
    set (cur' := if first <? first_set cur then mk_seq first (last_set cur) else cur).
    assert (Ec : first_set cur' = Z.min first (first_set cur) /\ last_set cur' = last_set cur).
    { subst cur'. destruct (Z.ltb_spec first (first_set cur)); cbn; lia. }
    destruct Ec as [Ef El]. rewrite El. destruct (Z.leb_spec last (last_set cur)) as [H3|H3].
    { exists 0, (cur' :: l), a; split; [done|]. split; [cbn; rewrite Ef, El; split; [lia|done]|]. split; [by left|]. split; [|done].
      intros _. split; [|done]. intros i. rewrite !covers_cons, Ef, El.
      assert (first_set cur `min` first <= i <= last_set cur <-> first_set cur <= i <= last_set cur \/ first <= i <= last) by lia.
      rewrite Z.min_comm. tauto. }
    destruct (IH (last_set cur + 1) (last_set cur + 1) last a Hl ltac:(lia)) as (r & l' & a' & E & Hs & Hr & Hcov & Ha).
    rewrite (bind_run _ _ _ _ _ E). exists r, (cur' :: l'), a'; split; [done|]. split; [|split; [done|split; [|done]]].
    + cbn. rewrite Ef, El. split; [lia|done].
    + intros H0. destruct (Hcov H0) as [Hcov' _]. split; [|done]. intros i. rewrite !covers_cons, Hcov', Ef, El.
      assert (first_set cur `min` first <= i <= last_set cur \/ last_set cur + 1 <= i <= last <-> first_set cur <= i <= last_set cur \/ first <= i <= last) by lia.
      rewrite Z.min_comm. tauto.
Qed.

Lemma elem_of_seq_sets l i : i ∈ seq_sets l <-> covers l i.
Proof.
  unfold seq_sets. induction l as [|s l IH]; cbn.
  - split; [by intros ?%not_elem_of_nil|by intros ?%covers_nil].
  - rewrite elem_of_app, IH, elem_of_seqZ, covers_cons. split; intros [?|?]; auto; left; lia.
Qed.

Lemma seqZ_sorted m n : StronglySorted Z.lt (seqZ m n).
Proof.
  destruct (Z.le_gt_cases n 0) as [|Hn]; [rewrite seqZ_nil by lia; constructor|].
  rewrite <-(Z2Nat.id n) by lia. generalize (Z.to_nat n) as k. intros k. revert m.
  induction k as [|k IH]; intros m; [constructor|]. rewrite seqZ_cons by lia. constructor.
  - replace (Z.pred (Z.of_nat (S k))) with (Z.of_nat k) by lia. apply IH.
  - apply Forall_forall. intros x. rewrite elem_of_seqZ. lia.
Qed.

Lemma StronglySorted_app (R : Z -> Z -> Prop) l1 l2 :
  StronglySorted R l1 -> StronglySorted R l2 -> (forall x y, x ∈ l1 -> y ∈ l2 -> R x y) -> StronglySorted R (l1 ++ l2).
Proof.
  induction 1 as [|x l1 Hs IH Hx]; intros H2 H; [done|]. cbn. constructor.
  - apply IH; [done|]. intros a b Ha. apply H. apply elem_of_cons. by right.
  - apply Forall_app. split; [done|]. apply Forall_forall. intros y Hy. apply H; [apply elem_of_cons; by left|done].
Qed.

Lemma seqs_from_bound lo l i : seqs_from lo l -> covers l i -> lo <= i.
Proof.
  revert lo. induction l as [|s l IH]; intros lo; [by intros _ ?%covers_nil|]. intros [H1 H2] [?|Hc]%covers_cons; [lia|].
  specialize (IH _ H2 Hc). lia.
Qed.

(** disjoint sorted sequences are locked in strictly increasing order *)
Lemma seq_sets_sorted lo l : seqs_from lo l -> StronglySorted Z.lt (seq_sets l).
Proof.
  revert lo. induction l as [|s l IH]; intros lo; [constructor|]. intros [H1 H2]. unfold seq_sets. cbn.
  apply StronglySorted_app; [apply seqZ_sorted|by eapply IH|].
  intros x y Hx%elem_of_seqZ Hy. apply elem_of_seq_sets in Hy. pose proof (seqs_from_bound _ _ _ H2 Hy). lia.
Qed.

Lemma insert_set_seq_ok l first last a : seqs_from 0 l -> 0 <= first <= last ->
  exists r l' a', insert_set_seq l first last a = Some ((r, l'), a') /\ seqs_from 0 l' /\ (r = 0 \/ r = - ENOMEM) /\
    (r = 0 -> (forall i, covers l' i <-> covers l i \/ first <= i <= last) /\ l' <> []) /\ (a = [] -> r = 0 /\ a' = []).
Proof.
  intros Hl Hfl. unfold insert_set_seq. rewrite bind_assert; [by apply insert_seq_ok|].
  rewrite !andb_true_iff, !negb_true_iff, !Z.eqb_neq, Z.leb_le. lia.
Qed.

Lemma round_set_sector d s : wf_geom d -> 0 <= s ->
  u32 (block_size d * assoc d) = 2 ^ SECTORS_PER_SET_SHIFT d /\
  EIO_ROUND_SET_SECTOR d s = s / 2 ^ SECTORS_PER_SET_SHIFT d * 2 ^ SECTORS_PER_SET_SHIFT d.
Proof.
  intros Hg Hs. pose proof (sectors_per_set_eq d Hg) as E. unfold SECTORS_PER_SET in E.
  assert (E' : u32 (block_size d * assoc d) = 2 ^ SECTORS_PER_SET_SHIFT d) by by rewrite Z.mul_comm.
  split; [done|]. unfold EIO_ROUND_SET_SECTOR, clr. rewrite E'.
  assert (0 <= SECTORS_PER_SET_SHIFT d) by (unfold SECTORS_PER_SET_SHIFT; pose proof (geo_bs d Hg); pose proof (geo_cs d Hg); lia).
  replace (2 ^ SECTORS_PER_SET_SHIFT d - 1) with (Z.ones (SECTORS_PER_SET_SHIFT d)) by (rewrite Z.ones_equiv; lia).
  rewrite Z.ldiff_ones_r, Z.shiftl_mul_pow2, Z.shiftr_div_pow2 by lia. done.
Qed.

(** the sets visited so far are those of the finished runs and of the current one *)
Definition span_inv (d : cache_c) (V : Z -> Prop) (first last cur : Z) (span : list set_seq) : Prop :=
  (first = -1 /\ last = -1 /\ cur = -1 /\ span = [] /\ forall s, ~ V s) \/
  (0 <= first <= last /\ last < num_sets d /\ cur = last /\ seqs_from 0 span /\
   forall s, V s <-> covers span s \/ first <= s <= last).

Lemma span_inv_ext d V V' first last cur span : (forall s, V s <-> V' s) ->
  span_inv d V first last cur span -> span_inv d V' first last cur span.
Proof.
  intros HV [(H1 & H2 & H3 & H4 & H5)|(H1 & H2 & H3 & H4 & H5)]; [left|right]; split_and!; try (done || lia).
  - intros s Hs. apply (H5 s), HV, Hs.
  - intros s. by rewrite <-(HV s), H5.
Qed.

Lemma span_loop_ok d e : wf_geom d -> e + 2 ^ SECTORS_PER_SET_SHIFT d < 2 ^ 64 ->
  forall fuel r first last cur span a V, 0 <= r -> (2 ^ SECTORS_PER_SET_SHIFT d | r) ->
  span_inv d V first last cur span -> e <= r + (Z.of_nat fuel - 1) * 2 ^ SECTORS_PER_SET_SHIFT d -> (0 < fuel)%nat ->
  exists err f l c span' a', span_loop fuel d r e (2 ^ SECTORS_PER_SET_SHIFT d) first last cur span a
      = Some ((err, (f, l, c), span'), a') /\ (err = 0 \/ err = - ENOMEM) /\ (a = [] -> err = 0 /\ a' = []) /\
    (err = 0 -> span_inv d (fun s => V s \/ exists t, r <= t < e /\ dbn_set d t = s) f l c span').
Proof.
  intros Hg He. set (ss := 2 ^ SECTORS_PER_SET_SHIFT d) in *.
  assert (Hss : 0 < ss). { apply pow2_pos. unfold SECTORS_PER_SET_SHIFT. pose proof (geo_bs d Hg). pose proof (geo_cs d Hg). lia. }
  induction fuel as [|fuel IH]; intros r first last cur span a V Hr [q Hq] Hinv Hf Hpos; [lia|]. cbn [span_loop].
  destruct (Z.ltb_spec r e) as [Hlt|Hge].
  2:{ exists 0, first, last, cur, span, a. split_and!; [done|by left|done|]. intros _.
      eapply span_inv_ext; [|exact Hinv]. intros s. split; [auto|]. intros [?|(t & ? & _)]; [done|lia]. }
  unfold hash_block. rewrite eio_hash_block_ok by done. set (c := dbn_set d r).
  destruct (dbn_to_set_spec d r Hg Hr) as (Hc & _). fold c in Hc.
  rewrite (bind_run (lift (Some c)) _ a c a eq_refl).
  replace (u64 (r + ss)) with (r + ss) by (unfold u64; rewrite Z.mod_small; lia).
  assert (Hnext : forall V1 f1 l1 c1 sp a1, (forall s, V1 s <-> V s \/ s = c) -> span_inv d V1 f1 l1 c1 sp ->
     exists err f l c' span' a', span_loop fuel d (r + ss) e ss f1 l1 c1 sp a1 = Some ((err, (f, l, c'), span'), a') /\
       (err = 0 \/ err = - ENOMEM) /\ (a1 = [] -> err = 0 /\ a' = []) /\
       (err = 0 -> span_inv d (fun s => V s \/ exists t, r <= t < e /\ dbn_set d t = s) f l c' span')).
  { intros V1 f1 l1 c1 sp a1 HV1 Hi1.
    destruct (IH (r + ss) f1 l1 c1 sp a1 V1) as (err & f & l & c' & span' & a' & E & Herr & Ha & Hi');
      [lia|exists (q + 1); lia|done|lia|destruct fuel; [cbn in Hf; lia|lia]|].
    exists err, f, l, c', span', a'. split_and!; try done. intros H0. eapply span_inv_ext; [|by apply Hi'].
    intros s. cbv beta. rewrite HV1. split.
    - intros [[?|Hs]|(t & Ht & Hts)]; [by left|right; exists r; split; [lia|done]|right; exists t; split; [lia|done]].
    - intros [?|(t & Ht & Hts)]; [auto|]. destruct (Z.lt_ge_cases t (r + ss)) as [Hlt'|Hge']; [|right; exists t; split; [lia|done]].
      left. right. subst s. symmetry. apply dbn_set_stripe; [|done]. fold ss. rewrite Hq, Z.div_mul by lia.
      apply Z.div_unique_pos with (t - r); lia. }
  destruct Hinv as [(-> & -> & -> & -> & HV)|(Hfl & Hln & Hcl & Hs & HV)].
  - change (-1 =? -1) with true. cbv iota. apply (Hnext (fun s => s = c)).
    + intros s. split; [auto|]. intros [Hv|?]; [by apply HV in Hv|done].
    + right. split_and!; [lia|lia|lia|done|done|]. intros s. pose proof (covers_nil s). split; [intros ->; right; lia|intros [?|?]; [done|lia]].
  - destruct (Z.eqb_spec first (-1)); [lia|]. destruct (Z.eqb_spec c (last + 1)) as [Ecl|Hne].
    + apply (Hnext (fun s => V s \/ s = c)); [done|]. right. split_and!; [lia|lia|lia|done|done|].
      intros s. rewrite HV. assert (first <= s <= last \/ s = c <-> first <= s <= c) by lia. tauto.
    + destruct (insert_set_seq_ok span first last a Hs Hfl) as (err & l' & a' & E & Hs' & Herr & Hcov & Ha).
      rewrite (bind_run _ _ _ _ _ E). cbn [fst snd]. destruct (Z.eqb_spec err 0) as [->|Hne0]; cbn [negb].
      * destruct (Hnext (fun s => V s \/ s = c) c c c l' a') as (err & f & l & c' & span' & a2 & E2 & Herr2 & Ha2 & Hi2).
        { done. }
        { right. split_and!; [lia|lia|lia|done|done|]. intros s. destruct (Hcov eq_refl) as [Hcov' _]. rewrite Hcov', HV.
          assert (c <= s <= c <-> s = c) by lia. tauto. }
        exists err, f, l, c', span', a2. split_and!; try done. intros Hal. destruct (Ha Hal) as [_ ->]. by apply Ha2.
      * eexists err, first, last, c, l', a'. split; [done|]. split_and!; [done|done|done].
Qed.

Lemma acquire_span_ok d bi_sector bi_size a : wf_geom d -> 0 <= bi_sector -> 512 <= bi_size -> bi_sector + bi_size / 512 < 2 ^ 63 ->
  exists r span a', eio_acquire_set_span d bi_sector bi_size a = Some ((r, span), a') /\
    (r = 0 \/ r = - ENOMEM) /\ (a = [] -> r = 0 /\ a' = []) /\ (r <> 0 -> span = []) /\
    (r = 0 -> StronglySorted Z.lt (seq_sets span) /\
       forall s, s ∈ seq_sets span <-> exists t, bi_sector <= t < bi_sector + bi_size / 512 /\ dbn_set d t = s).
Proof.
  intros Hg Hs Hsz Hend. destruct (round_set_sector d bi_sector Hg Hs) as [Ess Eround].
  unfold eio_acquire_set_span. rewrite Ess, Eround.
  assert (Hsh : 0 <= SECTORS_PER_SET_SHIFT d <= 23).
  { unfold SECTORS_PER_SET_SHIFT. pose proof (geo_bs d Hg). pose proof (geo_cs d Hg). pose proof (geo_lsb d Hg). lia. }
  set (ss := 2 ^ SECTORS_PER_SET_SHIFT d). assert (Hss : 0 < ss <= 2 ^ 23) by (split; [apply pow2_pos; lia|apply Z.pow_le_mono_r; lia]).
  assert (1 <= bi_size / 512) by (apply Z.div_le_lower_bound; lia).
  set (e := bi_sector + bi_size / 512) in *. set (r0 := bi_sector / ss * ss).
  pose proof (Z.div_mod bi_sector ss ltac:(lia)) as Hdm. pose proof (Z.mod_pos_bound bi_sector ss ltac:(lia)) as Hmb.
  assert (Hr0 : r0 <= bi_sector < r0 + ss) by (unfold r0; lia).
  replace (u64 (bi_sector + eio_to_sector bi_size)) with e.
  2:{ unfold eio_to_sector, SECTOR_SHIFT, u64, e. rewrite Z.shiftr_div_pow2 by lia. change (2 ^ 9) with 512. rewrite Z.mod_small; lia. }
  pose proof (Z.div_mod (e - r0) ss ltac:(lia)). pose proof (Z.mod_pos_bound (e - r0) ss ltac:(lia)).
  assert (0 <= (e - r0) / ss) by (apply Z.div_pos; lia).
  destruct (span_loop_ok d e Hg ltac:(lia) (S (Z.to_nat ((e - r0) / ss + 1))) r0 (-1) (-1) (-1) [] a (fun _ => False))
    as (err & f & l & c & span & a1 & E & Herr & Ha & Hi).
  { unfold r0. assert (0 <= bi_sector / ss) by (apply Z.div_pos; lia). nia. }
  { by exists (bi_sector / ss). } { left. split_and!; try done. by intros s ?. } { fold ss. nia. } { lia. }
  fold ss in E. rewrite (bind_run _ _ _ _ _ E). destruct (Z.eqb_spec err 0) as [->|Hne]; cbn [negb].
  2:{ exists err, [], a1. split_and!; try done. }
  destruct (Hi eq_refl) as [(-> & -> & -> & -> & HV)|(Hfl & Hln & -> & Hsq & HV)].
  { exfalso. apply (HV (dbn_set d bi_sector)). right. exists bi_sector. split; [lia|done]. }
  rewrite bind_assert by (rewrite Z.eqb_refl, andb_true_r, negb_true_iff, Z.eqb_neq; lia).
  assert (Hrange : forall s, (False \/ exists t, r0 <= t < e /\ dbn_set d t = s) <-> exists t, bi_sector <= t < e /\ dbn_set d t = s).
  { intros s. split.
    - intros [[]|(t & Ht & Hts)]. destruct (Z.lt_ge_cases t bi_sector); [|exists t; split; [lia|done]].
      exists bi_sector. split; [lia|]. rewrite <-Hts. apply dbn_set_stripe; [|done]. fold ss.
      transitivity (bi_sector / ss); [done|]. apply Z.div_unique_pos with (t - r0); unfold r0 in *; lia.
    - intros (t & Ht & Hts). right. exists t. split; [lia|done]. }
  destruct span as [|s0 span].
  - exists 0, [mk_seq f l], a1. split; [done|]. split; [by left|]. split; [intros Hal; by destruct (Ha Hal)|]. split; [done|]. intros _. split.
    + apply (seq_sets_sorted 0). cbn. split; [lia|done].
    + intros s. rewrite elem_of_seq_sets, covers_cons. cbn. rewrite <-Hrange, HV. pose proof (covers_nil s). tauto.
  - destruct (insert_set_seq_ok (s0 :: span) f l a1 Hsq Hfl) as (r2 & l2 & a2 & E2 & Hs2 & Hr2 & Hcov & Ha2).
    rewrite (bind_run _ _ _ _ _ E2). cbn [fst snd]. destruct (Z.eqb_spec r2 0) as [->|Hne2]; cbn [negb].
    + exists 0, l2, a2. split; [done|]. split; [by left|].
      split; [intros Hal; destruct (Ha Hal) as [_ ->]; by destruct (Ha2 eq_refl)|]. split; [done|]. intros _. split; [by apply (seq_sets_sorted 0)|].
      intros s. destruct (Hcov eq_refl) as [Hcov' _]. rewrite elem_of_seq_sets, Hcov', <-Hrange, HV. done.
    + exists r2, [], a2. split_and!; try done. intros Hal. destruct (Ha Hal) as [_ ->]. by destruct (Ha2 eq_refl) as [? ?].
Qed.
