(* ===== verification/World.v ===== *)
(** * The objects of the I/O path

    Bios, their splits ([eio_bio]), their containers, jobs and metadata-update
    requests ([eio.h]).  Objects live in maps from an identifier that stands
    for their address: an access to an address that is not in the map, a NULL
    pointer or an object already freed, panics.  Chains linked by [eb_next]
    and [next] are kept as lists at the field that anchors them. *)

From S2P Require Import Prelude Types Mem SetSeq.

Definition READ : Z := 0.
Definition WRITE : Z := 1.

(** [eb_iotype] *)
Definition EB_MAIN_IO : Z := 1.
Definition EB_SUBORDINATE_IO : Z := 2.
Definition EB_INVAL : Z := 4.

Inductive eio_io_dir :=
| EIO_IO_INVALID_DIR | CACHED_WRITE | CACHED_READ | UNCACHED_WRITE | UNCACHED_READ
| UNCACHED_READ_AND_READFILL.
#[export] Instance eio_io_dir_eq_dec : EqDecision eio_io_dir. Proof. solve_decision. Defined.

(** [job->action] *)
Inductive job_action := NOACTION | READDISK | READCACHE | READFILL | WRITEDISK | WRITECACHE.
#[export] Instance job_action_eq_dec : EqDecision job_action. Proof. solve_decision. Defined.

Record bio_vec := mk_bvec { bv_page : Z; bv_len : Z; bv_offset : Z }.
#[export] Instance bio_vec_inhabited : Inhabited bio_vec := populate (mk_bvec 0 0 0).

(** the parts of [struct bio] the driver uses *)
Record bio := mk_bio {
  bi_sector : Z; bi_size : Z; bi_idx : Z; bi_io_vec : list bio_vec;
  bi_dir : Z;                (* bio_data_dir *)
  bi_discard : bool;         (* REQ_DISCARD *)
  bi_flags : Z               (* the other bits of bi_rw *)
}.

Record eio_bio := mk_ebio {
  eb_iotype : Z;
  eb_bc : Z;
  eb_cacheset : Z;
  eb_sector : Z;
  eb_size : Z;
  eb_bv : list bio_vec;      (* eb_bv, eb_nbvec elements *)
  eb_dir : Z;
  eb_next : list Z;          (* the chain that starts at eb_next *)
  eb_index : Z;
  eb_holdcount : Z
}.

Record bio_container := mk_bc {
  bc_holdcount : Z;
  bc_bio : Z;
  bc_mdlist : list Z;        (* ebios, ascending sets *)
  bc_mdwait : Z;
  bc_mdreqs : list Z;
  bc_setspan : list set_seq;
  bc_dir : eio_io_dir;
  bc_error : Z;
  bc_iotime : Z              (* jiffies *)
}.

Inductive device := SSD | HDD.
#[export] Instance device_eq_dec : EqDecision device. Proof. solve_decision. Defined.
Record eio_io_region := mk_region { io_bdev : device; io_sector : Z; io_count : Z }.
#[export] Instance region_eq_dec : EqDecision eio_io_region. Proof. solve_decision. Defined.

Record kcached_job := mk_job {
  job_ebio : option Z;
  job_disk : eio_io_region;
  job_cache : option eio_io_region;   (* not initialised in a job without a cache block *)
  job_index : Z;
  job_action_ : job_action;
  job_error : Z
}.

Record mdupdate_request := mk_mdreq {
  md_set : Z;
  mdblk_bvecs : list bio_vec;   (* mdbvec_count elements *)
  md_holdcount : Z;
  pending_mdlist : list Z;
  inprog_mdlist : list Z;
  md_error : Z
}.

Definition set_eb_iotype v (e : eio_bio) := {| e with eb_iotype := v |}.
Definition set_eb_index v (e : eio_bio) := {| e with eb_index := v |}.
Definition set_eb_next v (e : eio_bio) := {| e with eb_next := v |}.
Definition set_eb_holdcount v (e : eio_bio) := {| e with eb_holdcount := v |}.
Definition set_bc_holdcount v (b : bio_container) := {| b with bc_holdcount := v |}.
Definition set_bc_dir v (b : bio_container) := {| b with bc_dir := v |}.
Definition set_bc_mdwait v (b : bio_container) := {| b with bc_mdwait := v |}.
Definition set_bc_mdlist v (b : bio_container) := {| b with bc_mdlist := v |}.
Definition set_bc_mdreqs v (b : bio_container) := {| b with bc_mdreqs := v |}.
Definition set_bc_error v (b : bio_container) := {| b with bc_error := v |}.
Definition set_bc_setspan v (b : bio_container) := {| b with bc_setspan := v |}.
Definition set_job_ebio v (j : kcached_job) := {| j with job_ebio := v |}.
Definition set_job_action v (j : kcached_job) := {| j with job_action_ := v |}.
Definition set_job_error v (j : kcached_job) := {| j with job_error := v |}.
Definition set_md_error v (m : mdupdate_request) := {| m with md_error := v |}.
Definition set_md_holdcount v (m : mdupdate_request) := {| m with md_holdcount := v |}.
Definition set_mdblk_bvecs v (m : mdupdate_request) := {| m with mdblk_bvecs := v |}.
Definition set_md_lists p i (m : mdupdate_request) := {| m with pending_mdlist := p; inprog_mdlist := i |}.

(** ** Statistics *)
Definition upd_stats (f : eio_stats -> eio_stats) (d : cache_c) : cache_c := set_stats (f (stats d)) d.
Definition inc_noroom (s : eio_stats) := {| s with st_noroom := atomic64_inc (st_noroom s) |}.
Definition inc_rd_replace (s : eio_stats) := {| s with st_rd_replace := atomic64_inc (st_rd_replace s) |}.
Definition inc_wr_replace (s : eio_stats) := {| s with st_wr_replace := atomic64_inc (st_wr_replace s) |}.
Definition inc_cached_blocks (s : eio_stats) := {| s with st_cached_blocks := atomic64_inc (st_cached_blocks s) |}.
Definition inc_dirty_write_hits (s : eio_stats) := {| s with st_dirty_write_hits := atomic64_inc (st_dirty_write_hits s) |}.
(** [SECTOR_STATS(dmc->eio_stats.write_hits, size)] *)
Definition add_write_hits (size : Z) (s : eio_stats) :=
  {| s with st_write_hits := atomic64_add (eio_to_sector size) (st_write_hits s) |}.
