(* ===== verification/Dispatch.v ===== *)
(** * Submitting I/O: [eio_ttc.c]

    [eio_do_io] turns a region of a device and a list of buffers into bios and
    waits for them, or arranges a call when all have ended.  How many buffers
    one bio takes is decided by [bio_add_page] of the kernel: a parameter. *)

From S2P Require Import Prelude Types World.

(** a bio under construction: its first sector and the (page, length, offset)
    triples added to it *)
Record out_bio := mk_out_bio { ob_sector : Z; ob_pages : list (Z * Z * Z) }.

(** the inner loop: add buffers while sectors remain and [bio_add_page]
    accepts them; [cap] is the number it accepts.  A read beyond the end of the
    buffer array panics. *)
Fixpoint fill_bio (cap : nat) (bvec : list bio_vec) (remaining : Z)
    : option (list (Z * Z * Z) * list bio_vec * Z) :=
  if remaining =? 0 then Some ([], bvec, remaining)
  else
    match bvec with
    | [] => None
    | v :: bvec' =>
      let len := Z.min (bv_len v) (to_bytes remaining) in
      match cap with
      | O => Some ([], bvec, remaining)
      | S cap' =>
        match fill_bio cap' bvec' (remaining - eio_to_sector len) with
        | Some (ps, rest, rem) => Some ((bv_page v, len, bv_offset v) :: ps, rest, rem)
        | None => None
        end
      end
    end.

(** the outer loop; [caps] gives the capacity of each bio in turn, [start] is
    [where->sector], plus [dev_start_sect] for the disk *)
Fixpoint dispatch_loop (fuel : nat) (caps : list nat) (start count : Z) (bvec : list bio_vec) (remaining : Z)
    : option (list out_bio * list bio_vec) :=
  match fuel with
  | O => None
  | S n =>
    match fill_bio (default (length bvec) (head caps)) bvec remaining with
    | None => None
    | Some (ps, rest, rem) =>
      let b := mk_out_bio (start + (count - remaining)) ps in
      if rem =? 0 then Some ([b], rest)
      else match dispatch_loop n (tail caps) start count rest rem with
           | Some (bs, rest) => Some (b :: bs, rest)
           | None => None
           end
    end
  end.

(** [eio_dispatch_io]: the bios it submits, in order; the final assertion says
    that every buffer was used *)
Definition eio_dispatch_io (caps : list nat) (dev_start_sect : Z) (where_ : eio_io_region) (hddio : bool)
    (bvec : list bio_vec) : option (list out_bio) :=
  match dispatch_loop (S (length bvec)) caps (io_sector where_ + (if hddio then dev_start_sect else 0))
          (io_count where_) bvec (io_count where_) with
  | Some (bs, []) => Some bs
  | _ => None
  end.

(** [eio_dispatch_io_pages]: the same loops over an array of pages *)
Definition page_bvec (page : Z) : bio_vec := mk_bvec page PAGE_SIZE 0.
Definition eio_dispatch_io_pages (caps : list nat) (dev_start_sect : Z) (where_ : eio_io_region) (hddio : bool)
    (pagelist : list Z) : option (list out_bio) :=
  eio_dispatch_io caps dev_start_sect where_ hddio (map page_bvec pagelist).

(** ** The transfer the bios amount to

    A memory location is a sector-sized slot of a page. *)
Notation slot := (Z * Z)%type.
Definition page_slots (p : Z * Z * Z) : list slot :=
  let '(page, len, offset) := p in
  map (fun k => (page, eio_to_sector offset + k)) (seqZ 0 (eio_to_sector len)).
(** consecutive sectors from [ob_sector], each with its memory location *)
Definition bio_transfer (b : out_bio) : list (Z * slot) :=
  let ss := flat_map page_slots (ob_pages b) in zip (seqZ (ob_sector b) (Z.of_nat (length ss))) ss.

(** the specification: sector [k] of the region goes to slot [k] of the
    buffers taken together *)
Definition bvec_slots (bvec : list bio_vec) : list slot :=
  flat_map (fun v => page_slots (bv_page v, bv_len v, bv_offset v)) bvec.
Definition region_transfer (start count : Z) (bvec : list bio_vec) : list (Z * slot) :=
  zip (seqZ start count) (take (Z.to_nat count) (bvec_slots bvec)).

(** buffers made of whole sectors *)
Definition bvec_ok (v : bio_vec) : Prop := 0 < bv_len v /\ (512 | bv_len v).
(** the buffers have room for [n] sectors and none of them is useless *)
Fixpoint bvecs_fit (bvec : list bio_vec) (n : Z) : Prop :=
  match bvec with
  | [] => n = 0
  | v :: bvec' => bvec_ok v /\ 0 < n /\ bvecs_fit bvec' (Z.max 0 (n - eio_to_sector (bv_len v)))
  end.

Lemma page_slots_length p l o : length (page_slots (p, l, o)) = Z.to_nat (eio_to_sector l).
Proof. unfold page_slots. by rewrite length_map, length_seqZ. Qed.

Lemma sectors_pos l : 0 < l -> (512 | l) -> 0 < eio_to_sector l /\ to_bytes (eio_to_sector l) = l.
Proof.
  intros Hl [k ->]. unfold eio_to_sector, to_bytes, SECTOR_SHIFT. rewrite Z.shiftr_div_pow2, Z.shiftl_mul_pow2 by lia.
  change (2 ^ 9) with 512. rewrite Z.div_mul by lia. lia.
Qed.
Lemma to_sector_bytes n : eio_to_sector (to_bytes n) = n.
Proof.
  unfold eio_to_sector, to_bytes, SECTOR_SHIFT. rewrite Z.shiftr_div_pow2, Z.shiftl_mul_pow2 by lia.
  apply Z.div_mul. lia.
Qed.

(** a buffer longer than what remains is used in part *)
Lemma min_len v n : bvec_ok v -> 0 < n ->
  eio_to_sector (Z.min (bv_len v) (to_bytes n)) = Z.min (eio_to_sector (bv_len v)) n /\
  page_slots (bv_page v, Z.min (bv_len v) (to_bytes n), bv_offset v) =
    take (Z.to_nat n) (page_slots (bv_page v, bv_len v, bv_offset v)).
Proof.
  intros [Hp Hd] Hn. destruct (sectors_pos _ Hp Hd) as [H1 H2].
  assert (E : eio_to_sector (Z.min (bv_len v) (to_bytes n)) = Z.min (eio_to_sector (bv_len v)) n).
  { unfold to_bytes, SECTOR_SHIFT in H2. rewrite Z.shiftl_mul_pow2 in H2 by lia. change (2 ^ 9) with 512 in H2.
    assert (to_bytes n = n * 512) as Eb by (unfold to_bytes, SECTOR_SHIFT; by rewrite Z.shiftl_mul_pow2 by lia).
    destruct (Z.le_gt_cases (eio_to_sector (bv_len v)) n).
    - rewrite (Z.min_l (bv_len v)) by lia. by rewrite Z.min_l by lia.
    - rewrite (Z.min_r (bv_len v)) by lia. rewrite to_sector_bytes. by rewrite Z.min_r by lia. }
  split; [done|]. unfold page_slots. rewrite E.
  rewrite firstn_map. f_equal. apply list_eq. intros i.
  destruct (decide (i < Z.to_nat n)%nat) as [Hi|Hi].
  - rewrite lookup_take_lt by done. destruct (decide (Z.of_nat i < eio_to_sector (bv_len v))).
    + rewrite !lookup_seqZ_lt by lia. done.
    + rewrite !lookup_seqZ_ge by lia. done.
  - rewrite lookup_take_ge by lia. by rewrite lookup_seqZ_ge by lia.
Qed.

Lemma bvec_slots_cons v bvec : bvec_slots (v :: bvec) = page_slots (bv_page v, bv_len v, bv_offset v) ++ bvec_slots bvec.
Proof. done. Qed.

Lemma fill_bio_ok : forall cap bvec n, bvecs_fit bvec n ->
  exists ps used rest n', fill_bio cap bvec n = Some (ps, rest, n') /\
    bvec = used ++ rest /\ bvecs_fit rest n' /\ 0 <= n' <= n /\
    take (Z.to_nat n) (bvec_slots bvec) = flat_map page_slots ps ++ take (Z.to_nat n') (bvec_slots rest) /\
    Z.of_nat (length (flat_map page_slots ps)) = n - n' /\ (cap <> O -> bvec <> [] -> used <> []).
Proof.
  intros cap bvec. revert cap. induction bvec as [|v bvec IH]; intros cap n Hfit.
  { cbn in Hfit. subst n. exists [], [], [], 0. split_and!; try done. by destruct cap. }
  destruct Hfit as (Hv & Hn & Hfit'). destruct (min_len v n Hv Hn) as [E1 E2].
  assert (En : (n =? 0) = false) by (apply Z.eqb_neq; lia).
  destruct (sectors_pos _ (proj1 Hv) (proj2 Hv)) as [Hp _].
  destruct cap as [|cap]; cbn [fill_bio]; rewrite En.
  - exists [], [], (v :: bvec), n. split_and!; try done; cbn [flat_map length]; lia.
  - rewrite E1. replace (n - Z.min (eio_to_sector (bv_len v)) n) with (Z.max 0 (n - eio_to_sector (bv_len v))) by lia.
    destruct (IH cap _ Hfit') as (ps & used & rest & n' & -> & -> & Hr & Hn' & Es & Hl & _).
    exists ((bv_page v, Z.min (bv_len v) (to_bytes n), bv_offset v) :: ps), (v :: used), rest, n'.
    split_and!; try done; [lia|lia| |]; cbn [flat_map].
    + rewrite E2, <-app_assoc, <-Es. change ((v :: used) ++ rest) with (v :: (used ++ rest)). rewrite bvec_slots_cons.
      rewrite take_app, page_slots_length. f_equal. f_equal. lia.
    + rewrite length_app, page_slots_length, E1, Nat2Z.inj_add, Hl. lia.
Qed.

Lemma zip_seqZ_app {A} s n m (l k : list A) : Z.of_nat (length l) = n -> 0 <= m ->
  zip (seqZ s (n + m)) (l ++ k) = zip (seqZ s n) l ++ zip (seqZ (s + n) m) k.
Proof.
  intros Hn Hm. rewrite seqZ_app by lia. rewrite zip_with_app; [done|]. rewrite length_seqZ. lia.
Qed.

(** Whatever the capacities, as long as each bio takes a buffer, the bios
    transfer exactly the region, and the loop ends. *)
Lemma dispatch_loop_ok : forall fuel caps start count bvec n,
  Forall (fun c => c <> O) caps -> bvecs_fit bvec n -> bvec <> [] -> (length bvec < fuel)%nat ->
  exists bs, dispatch_loop fuel caps start count bvec n = Some (bs, []) /\
    flat_map bio_transfer bs = region_transfer (start + (count - n)) n bvec.
Proof.
  induction fuel as [|fuel IH]; intros caps start count bvec n Hc Hfit Hne Hf; [lia|]. cbn [dispatch_loop].
  destruct (fill_bio_ok (default (length bvec) (head caps)) bvec n Hfit) as (ps & used & rest & n' & -> & -> & Hr & Hn' & Es & Hl & Hu).
  assert (Hused : used <> []).
  { apply Hu; [|done]. destruct caps as [|c caps]; cbn; [by destruct (used ++ rest)|by apply Forall_cons in Hc as [? _]]. }
  assert (Ebio : bio_transfer (mk_out_bio (start + (count - n)) ps) =
     zip (seqZ (start + (count - n)) (n - n')) (flat_map page_slots ps)).
  { unfold bio_transfer. cbn [ob_pages ob_sector]. by rewrite Hl. }
  unfold region_transfer. rewrite Es. replace (seqZ (start + (count - n)) n) with (seqZ (start + (count - n)) ((n - n') + n')) by (f_equal; lia).
  rewrite zip_seqZ_app by (done || lia). rewrite <-Ebio.
  destruct (Z.eqb_spec n' 0) as [->|En].
  - assert (rest = []) as -> by (destruct rest as [|v rest]; [done|destruct Hr as (_ & ? & _); lia]).
    eexists; split; [done|]. cbn. by rewrite !app_nil_r.
  - destruct rest as [|v rest]; [cbn in Hr; lia|].
    destruct (IH (tail caps) start count (v :: rest) n') as (bs & -> & Et);
      [by destruct caps; [|apply Forall_cons in Hc as [_ ?]]|done|done|rewrite length_app in Hf; destruct used; [done|cbn in *; lia]|].
    eexists; split; [done|]. cbn [flat_map]. rewrite Et. unfold region_transfer. do 3 f_equal. lia.
Qed.

(** Every way of splitting the transfer into bios moves the same sectors. *)
Lemma dispatch_io_ok caps dev_start where_ hddio bvec :
  Forall (fun c => c <> O) caps -> bvecs_fit bvec (io_count where_) -> bvec <> [] ->
  exists bs, eio_dispatch_io caps dev_start where_ hddio bvec = Some bs /\
    flat_map bio_transfer bs =
      region_transfer (io_sector where_ + (if hddio then dev_start else 0)) (io_count where_) bvec.
Proof.
  intros Hc Hfit Hne. unfold eio_dispatch_io.
  destruct (dispatch_loop_ok (S (length bvec)) caps (io_sector where_ + (if hddio then dev_start else 0)) (io_count where_) bvec _ Hc Hfit Hne)
    as (bs & -> & Et); [lia|]. eexists; split; [done|]. rewrite Et. f_equal. lia.
Qed.

(** ** Completion

    [struct eio_context] counts the bios in flight, plus one for the submitter,
    and remembers the last error.  [io_fired] records what happened when the
    count reached zero: the callback, or the waiter, is given the error. *)
Record eio_context := mk_io { io_count_ : Z; io_error : Z; io_fired : list Z; io_freed : bool }.

(** [eio_dec_count] with [io->event == NULL]; touching a freed context panics *)
Definition eio_dec_count (error : Z) (io : eio_context) : option eio_context :=
  if io_freed io then None
  else
    let err := if negb (error =? 0) then error else io_error io in
    let n := io_count_ io - 1 in
    if n =? 0 then Some (mk_io n err (io_fired io ++ [err]) true)
    else Some (mk_io n err (io_fired io) false).

(** One asynchronous I/O: [eio_async_io] sets the count to 1, submits its bios
    one by one (incrementing the count first), then drops its own reference.
    A bio in flight can end at any moment ([eio_endio]). *)
Record io_run := mk_run { ctx : eio_context; unsent : nat; in_flight : nat; dropped : bool }.
Inductive io_action := Submit | End (error : Z) | Drop.

Definition io_init (nbios : nat) : io_run := mk_run (mk_io 1 0 [] false) nbios 0 false.

Definition enabled (a : io_action) (r : io_run) : bool :=
  match a with
  | Submit => negb (dropped r) && negb (Nat.eqb (unsent r) 0)
  | End _ => negb (Nat.eqb (in_flight r) 0)
  | Drop => negb (dropped r) && Nat.eqb (unsent r) 0
  end.

Definition io_act (a : io_action) (r : io_run) : option io_run :=
  match a with
  | Submit =>
    if io_freed (ctx r) then None
    else Some (mk_run (mk_io (io_count_ (ctx r) + 1) (io_error (ctx r)) (io_fired (ctx r)) false)
                 (unsent r - 1) (in_flight r + 1) (dropped r))
  | End err => option_map (fun c => mk_run c (unsent r) (in_flight r - 1) (dropped r)) (eio_dec_count err (ctx r))
  | Drop => option_map (fun c => mk_run c (unsent r) (in_flight r) true) (eio_dec_count 0 (ctx r))
  end.

(** the states an interleaving can reach, with the errors of the bios that ended *)
Inductive io_reach (nbios : nat) : list Z -> io_run -> Prop :=
| ReachInit : io_reach nbios [] (io_init nbios)
| ReachStep errs r a r' : io_reach nbios errs r -> enabled a r = true -> io_act a r = Some r' ->
    io_reach nbios (errs ++ match a with End e => [e] | _ => [] end) r'.

(** the last error, 0 if there was none *)
Definition last_error (errs : list Z) : Z := foldl (fun acc e => if negb (e =? 0) then e else acc) 0 errs.

Record io_live (errs : list Z) (r : io_run) : Prop := {
  lv_freed : io_freed (ctx r) = false;
  lv_fired : io_fired (ctx r) = [];
  lv_count : io_count_ (ctx r) = Z.of_nat (in_flight r) + (if dropped r then 0 else 1);
  lv_pos : 0 < io_count_ (ctx r);
  lv_error : io_error (ctx r) = last_error errs;
  lv_sent : dropped r = true -> unsent r = O
}.
Record io_over (errs : list Z) (r : io_run) : Prop := {
  ov_fired : io_fired (ctx r) = [last_error errs];
  ov_unsent : unsent r = O; ov_flight : in_flight r = O; ov_dropped : dropped r = true
}.

Lemma last_error_snoc errs e : last_error (errs ++ [e]) = if negb (e =? 0) then e else last_error errs.
Proof. unfold last_error. by rewrite foldl_app. Qed.

Lemma io_over_quiet errs r a : io_over errs r -> enabled a r = false.
Proof. intros [_ E1 E2 E3]. destruct a; cbn; rewrite ?E1, ?E2, ?E3; done. Qed.

Lemma dec_count_ok errs c e : io_freed c = false -> io_fired c = [] -> 0 < io_count_ c -> io_error c = last_error errs ->
  exists c', eio_dec_count e c = Some c' /\ io_error c' = last_error (errs ++ [e]) /\ io_count_ c' = io_count_ c - 1 /\
    (if decide (io_count_ c = 1) then io_fired c' = [last_error (errs ++ [e])]
     else io_freed c' = false /\ io_fired c' = [] /\ 0 < io_count_ c').
Proof.
  intros Hfr Hfi Hp He. unfold eio_dec_count. rewrite Hfr, Hfi, He, last_error_snoc.
  case_decide as E; destruct (Z.eqb_spec (io_count_ c - 1) 0); try lia; eexists; split_and!; try done; cbn; lia.
Qed.

Lemma live_step errs r a : io_live errs r -> enabled a r = true ->
  exists r', io_act a r = Some r' /\
    (io_live (errs ++ match a with End e => [e] | _ => [] end) r' \/
     io_over (errs ++ match a with End e => [e] | _ => [] end) r').
Proof.
  intros [Hfr Hfi Hc Hp He Hs] Hen. destruct r as [c u f dr]; cbn [ctx unsent in_flight dropped] in *.
  destruct a as [|e|]; cbn [enabled io_act ctx unsent in_flight dropped] in *.
  - apply andb_true_iff in Hen as [Hd%negb_true_iff Hu%negb_true_iff%Nat.eqb_neq]. subst dr.
    rewrite Hfr. eexists; split; [done|]. left. rewrite app_nil_r.
    constructor; cbn; [done|done|lia|lia|done|done].
  - apply negb_true_iff, Nat.eqb_neq in Hen.
    destruct (dec_count_ok errs c e Hfr Hfi Hp He) as (c' & -> & E' & C' & Hcase). eexists; split; [done|].
    case_decide.
    + right. destruct dr; [|lia]. constructor; cbn; [done|by apply Hs|lia|done].
    + left. destruct Hcase as (? & ? & ?). constructor; cbn; [done|done| |done|done|done]. lia.
  - apply andb_true_iff in Hen as [Hd%negb_true_iff Hu%Nat.eqb_eq]. subst dr u.
    destruct (dec_count_ok errs c 0 Hfr Hfi Hp He) as (c' & -> & E' & C' & Hcase). eexists; split; [done|].
    rewrite app_nil_r. rewrite last_error_snoc in E', Hcase. cbn [Z.eqb negb] in E', Hcase. case_decide.
    + right. constructor; cbn; [done|done|lia|done].
    + left. destruct Hcase as (? & ? & ?). constructor; cbn; [done|done|lia|done|done|done].
Qed.

Lemma io_reach_inv n errs r : io_reach n errs r -> io_live errs r \/ io_over errs r.
Proof.
  induction 1 as [|errs r a r' _ IH Hen Ha]; [left; constructor; cbn; done|].
  destruct IH as [Hl|Ho]; [|by rewrite (io_over_quiet _ _ a Ho) in Hen].
  destruct (live_step errs r a Hl Hen) as (r1 & E & H). congruence.
Qed.

(** In every interleaving no action touches a freed context, and the callback
    is made exactly once, when every bio was submitted and has ended. *)
Lemma async_io_ok n errs r : io_reach n errs r ->
  (forall a, enabled a r = true -> is_Some (io_act a r)) /\
  ((io_fired (ctx r) = [] /\ exists a, enabled a r = true) \/
   (io_fired (ctx r) = [last_error errs] /\ unsent r = O /\ in_flight r = O /\ forall a, enabled a r = false)).
Proof.
  intros H%io_reach_inv. split.
  - intros a Ha. destruct H as [Hl|Ho]; [|by rewrite (io_over_quiet _ _ a Ho) in Ha].
    destruct (live_step errs r a Hl Ha) as (r' & -> & _). by eexists.
  - destruct H as [[Hfr Hfi Hc Hp He Hs]|Ho].
    + left. split; [done|]. destruct (in_flight r) eqn:Ef.
      * destruct (dropped r) eqn:Ed; [lia|]. destruct (unsent r) eqn:Eu.
        -- exists Drop. cbn. by rewrite Ed, Eu.
        -- exists Submit. cbn. by rewrite Ed, Eu.
      * exists (End 0). cbn. by rewrite Ef.
    + right. pose proof Ho as [? ? ? ?]. split_and!; try done. intros a. by apply (io_over_quiet errs).
Qed.
