(* ===== verification/Disk.v ===== *)
(** * The devices: what the SSD and the source volume hold

    A device is a map from sector numbers to contents.  A sector of the SSD
    holds file data or [MD_BLOCKS_PER_SECTOR] metadata entries
    ([struct flash_cacheblock]).  Transfers move sectors between a device and
    the sector-sized slots of memory pages.  Each transfer takes its result
    from an oracle: it can be refused at submission, or end with an error after
    some of its sectors were transferred. *)

From S2P Require Import Prelude Types World Dispatch.

(** [struct flash_cacheblock] *)
Record flash_cacheblock := mk_flash { fc_dbn : Z; fc_state : Z }.
#[export] Instance flash_eq_dec : EqDecision flash_cacheblock. Proof. solve_decision. Defined.

Inductive sector_data := Raw (v : Z) | MdBlocks (l : list flash_cacheblock).
#[export] Instance sector_data_eq_dec : EqDecision sector_data. Proof. solve_decision. Defined.
#[export] Instance sector_data_inhabited : Inhabited sector_data := populate (Raw 0).

Record disks := mk_disks { on_ssd : gmap Z sector_data; on_hdd : gmap Z sector_data }.

Definition dev_get (k : disks) (b : device) : gmap Z sector_data := match b with SSD => on_ssd k | HDD => on_hdd k end.
Definition dev_set (b : device) (m : gmap Z sector_data) (k : disks) : disks :=
  match b with SSD => mk_disks m (on_hdd k) | HDD => mk_disks (on_ssd k) m end.

(** ** Metadata layout (eio.h) *)
Definition FLASH_CACHEBLOCK_SIZE : Z := 16.
Definition MD_BLOCKS_PER_PAGE : Z := PAGE_SIZE / FLASH_CACHEBLOCK_SIZE.
Definition MD_BLOCKS_PER_SECTOR : Z := 512 / FLASH_CACHEBLOCK_SIZE.
Definition INDEX_TO_MD_PAGE (index : Z) : Z := index / MD_BLOCKS_PER_PAGE.
Definition INDEX_TO_MD_PAGE_OFFSET (index : Z) : Z := index mod MD_BLOCKS_PER_PAGE.
Definition INDEX_TO_MD_SECTOR (index : Z) : Z := EIO_DIV index MD_BLOCKS_PER_SECTOR.
Definition INDEX_TO_MD_SECTOR_OFFSET (index : Z) : Z := EIO_REM index MD_BLOCKS_PER_SECTOR.

(** the entry of block [index] on the SSD *)
Definition flash_entry (d : cache_c) (k : disks) (index : Z) : option flash_cacheblock :=
  match on_ssd k !!! (md_start_sect d + INDEX_TO_MD_SECTOR index) with
  | MdBlocks l => l !! Z.to_nat (INDEX_TO_MD_SECTOR_OFFSET index)
  | Raw _ => None
  end.

(** ** Transfers *)
Inductive io_result :=
| IoOk
| IoRefused (error : Z)                    (* submission fails, no transfer *)
| IoFailed (error : Z) (moved : gset Z).   (* ends with an error; the sectors in [moved] were transferred *)

(** the error codes of failures are not zero *)
Definition io_result_ok (r : io_result) : Prop :=
  match r with IoOk => True | IoRefused e | IoFailed e _ => e <> 0 end.

Definition moved_sector (r : io_result) (s : Z) : bool :=
  match r with IoOk => true | IoRefused _ => false | IoFailed _ m => bool_decide (s ∈ m) end.

(** (returned by the submission, passed to the callback) *)
Definition io_errors (r : io_result) : Z * Z :=
  match r with IoOk => (0, 0) | IoRefused e => (e, 0) | IoFailed e _ => (0, e) end.

Notation memory := (gmap slot sector_data).

Definition write_sectors (r : io_result) (ws : list (Z * sector_data)) (m : gmap Z sector_data) : gmap Z sector_data :=
  foldl (fun m w => if moved_sector r w.1 then <[w.1 := w.2]> m else m) m ws.
Definition read_sectors (r : io_result) (dev : gmap Z sector_data) (ts : list (Z * slot)) (mem : memory) : memory :=
  foldl (fun mem t => if moved_sector r t.1 then <[t.2 := dev !!! t.1]> mem else mem) mem ts.

(** [MdBlocks] contents of the sectors of metadata pages filled with [entries];
    [sectors] of them *)
Definition md_sector (entries : list flash_cacheblock) (j : nat) : sector_data :=
  MdBlocks (take (Z.to_nat MD_BLOCKS_PER_SECTOR) (drop (j * Z.to_nat MD_BLOCKS_PER_SECTOR) entries)).

(** ** Lemmas *)
Lemma write_sectors_lookup r ws m s :
  NoDup ws.*1 ->
  write_sectors r ws m !!! s = match list_to_map (M := gmap Z sector_data) ws !! s with
                               | Some v => if moved_sector r s then v else m !!! s | None => m !!! s end.
Proof.
  revert m. induction ws as [|[k v] ws IH]; intros m Hnd; cbn; [by rewrite lookup_empty|].
  apply NoDup_cons in Hnd as [Hk Hnd]. unfold write_sectors in IH. rewrite (IH _ Hnd).
  destruct (decide (s = k)) as [->|Hne].
  - rewrite lookup_insert_eq. rewrite (not_elem_of_list_to_map_1 ws k Hk).
    destruct (moved_sector r k); [by rewrite lookup_total_insert_eq|done].
  - rewrite lookup_insert_ne by done.
    assert (E : (if moved_sector r k then <[k:=v]> m else m) !!! s = m !!! s)
      by (destruct (moved_sector r k); [by rewrite lookup_total_insert_ne|done]).
    by rewrite E.
Qed.

Lemma write_sectors_ne r ws m s : s ∉ ws.*1 -> write_sectors r ws m !!! s = m !!! s.
Proof.
  revert m. induction ws as [|[k v] ws IH]; intros m Hs; cbn; [done|].
  apply not_elem_of_cons in Hs as [Hk Hs]. unfold write_sectors in IH. rewrite (IH _ Hs).
  destruct (moved_sector r k); [by rewrite lookup_total_insert_ne|done].
Qed.

(** each sector written is old or new *)
Lemma write_sectors_cases r ws m s : NoDup ws.*1 ->
  write_sectors r ws m !!! s = m !!! s \/ (exists v, (s, v) ∈ ws /\ write_sectors r ws m !!! s = v).
Proof.
  intros Hnd. rewrite write_sectors_lookup by done.
  destruct (list_to_map ws !! s) as [v|] eqn:E; [|by left]. destruct (moved_sector r s); [|by left].
  right. exists v. split; [|done]. by apply elem_of_list_to_map_2.
Qed.

Lemma write_sectors_done ws m s v : NoDup ws.*1 -> (s, v) ∈ ws -> write_sectors IoOk ws m !!! s = v.
Proof.
  intros Hnd Hin. rewrite write_sectors_lookup by done. by rewrite (elem_of_list_to_map_1 _ _ _ Hnd Hin).
Qed.

Lemma read_sectors_ne r dev ts mem l : l ∉ ts.*2 -> read_sectors r dev ts mem !!! l = mem !!! l.
Proof.
  revert mem. induction ts as [|[s k] ts IH]; intros mem Hl; cbn; [done|].
  apply not_elem_of_cons in Hl as [Hk Hl]. unfold read_sectors in IH. rewrite (IH _ Hl).
  destruct (moved_sector r s); [by rewrite lookup_total_insert_ne|done].
Qed.

Lemma read_sectors_done dev ts mem s l : NoDup ts.*2 -> (s, l) ∈ ts ->
  read_sectors IoOk dev ts mem !!! l = dev !!! s.
Proof.
  revert mem. induction ts as [|[s' k] ts IH]; intros mem Hnd Hin; [by apply not_elem_of_nil in Hin|].
  apply NoDup_cons in Hnd as [Hk Hnd]. change (read_sectors IoOk dev ((s', k) :: ts) mem) with (read_sectors IoOk dev ts (<[k := dev !!! s']> mem)).
  apply elem_of_cons in Hin as [[= -> ->]|Hin].
  - rewrite read_sectors_ne by done. by rewrite lookup_total_insert_eq.
  - by apply IH.
Qed.
