(* ===== verification/Clean.v ===== *)
(** * Cleaning: writing dirty blocks back to the source volume ([eio_main.c])

    [eio_clean_set] runs with the set's [rw_lock] held for writing, so nothing
    else changes the set meanwhile.  The asynchronous transfers it submits are
    awaited before their result is used ([down_write(&sioc.sio_lock)]); the
    model performs each at its submission.  Every write to a device is recorded
    in a trace together with the contents of the devices before it: a crash can
    leave any part of that write done. *)

From S2P Require Import Prelude Types Mem DList SetLru Scan Policy Thresh Lookup World Dispatch Disk.

Record cworld := mk_cworld {
  cw_d : cache_c;
  cw_k : disks;
  cw_mem : memory;                (* memory pages *)
  clean_dbvecs : list bio_vec;    (* dmc->clean_dbvecs, dmc->dbvec_count elements *)
  clean_mdpages : list Z;         (* dmc->clean_mdpages, dmc->mdpage_count pages *)
  cw_results : list io_result;    (* results of the coming transfers, IoOk after the last *)
  cw_trace : list (disks * (device * list (Z * sector_data)))
}.
Definition set_cw_d v (w : cworld) := {| w with cw_d := v |}.
Definition set_cw_k v (w : cworld) := {| w with cw_k := v |}.
Definition set_cw_mem v (w : cworld) := {| w with cw_mem := v |}.
Definition set_cw_results v (w : cworld) := {| w with cw_results := v |}.
Definition set_cw_trace v (w : cworld) := {| w with cw_trace := v |}.

(** an operation of the cache state, on the cache of a world *)
Definition on_cache {A} (m : M cache_c A) : M cworld A := fun w =>
  match m (cw_d w) with Some (a, d) => Some (a, set_cw_d d w) | None => None end.

Definition next_result : M cworld io_result := fun w =>
  match cw_results w with [] => Some (IoOk, w) | r :: l => Some (r, set_cw_results l w) end.

(** ** Synchronous and asynchronous transfers *)
Definition do_transfer (where_ : eio_io_region) (rw : Z) (hddio : bool) (bvecs : list bio_vec) (r : io_result) : M cworld unit :=
  bios <- eval (fun _ => eio_dispatch_io [] 0 where_ hddio bvecs) ;;
  let ts := flat_map bio_transfer bios in
  if rw =? READ then
    modify (fun w => set_cw_mem (read_sectors r (dev_get (cw_k w) (io_bdev where_)) ts (cw_mem w)) w)
  else
    modify (fun w =>
      let ws := map (fun t => (t.1, cw_mem w !!! t.2)) ts in
      set_cw_k (dev_set (io_bdev where_) (write_sectors r ws (dev_get (cw_k w) (io_bdev where_))) (cw_k w))
        (set_cw_trace (cw_trace w ++ [(cw_k w, (io_bdev where_, ws))]) w)).

(** returns what the call returns and, if that is 0, what the callback gets *)
Definition eio_io_async_bvec (where_ : eio_io_region) (rw : Z) (bvecs : list bio_vec) (hddio : bool) : M cworld (Z * Z) :=
  degraded <- gets (fun w => CACHE_DEGRADED_IS_SET (cw_d w)) ;;
  if degraded && negb (bool_decide (io_bdev where_ = HDD)) then ret (- ENODEV, 0)
  else
    r <- next_result ;;
    if negb ((io_errors r).1 =? 0) then ret (io_errors r)
    else do_transfer where_ rw hddio bvecs r ;; ret (io_errors r).

Definition eio_io_sync_pages (where_ : eio_io_region) (rw : Z) (pages : list Z) : M cworld Z :=
  d <- gets cw_d ;;
  if (CACHE_FAILED_IS_SET d || CACHE_DEGRADED_IS_SET d) && negb (CACHE_SSD_ADD_INPROG_IS_SET d) then ret (- ENODEV)
  else
    r <- next_result ;;
    if negb ((io_errors r).1 =? 0) then ret (io_errors r).1
    else do_transfer where_ rw false (map page_bvec pages) r ;; ret (io_errors r).2.

(** [sioc.sio_error] after a submission: the submission's error, else the one
    [eio_sync_io_callback] is called with, else what it was *)
Definition eio_sync_io_callback (error sio_error : Z) : Z := if negb (error =? 0) then error else sio_error.
Definition sio_update (e : Z * Z) (sio_error : Z) : Z :=
  if negb (e.1 =? 0) then e.1 else eio_sync_io_callback e.2 sio_error.

(** ** Choosing the blocks *)
Definition eio_get_setblks_to_clean (set : Z) : M cache_c Z := fun d =>
  let max_clean := i32 (u32 (cs_nr_dirty (cache_sets d !!! set) - u32 (dirty_set_low_threshold (sysctl_active d) * assoc d) / 100)) in
  if max_clean <=? 0 then Some (0, d)
  else
    match policy_ops d with
    | None => Some (scan_clean d (set_blocks d set) max_clean 0)
    | Some _ => eio_policy_clean_set (policy_ops d) set max_clean d
    end.

(** a whole clean marks every block that is dirty and idle *)
Fixpoint mark_whole (blocks : list Z) (ncleans : Z) (d : cache_c) : Z * cache_c :=
  match blocks with
  | [] => (ncleans, d)
  | i :: blocks' =>
    if EIO_CACHE_STATE_GET d i =? ALREADY_DIRTY
    then mark_whole blocks' (ncleans + 1) (EIO_CACHE_STATE_SET d i CLEAN_INPROG)
    else mark_whole blocks' ncleans d
  end.

Definition setup_bio_vecs (bvec : list bio_vec) (block_index block_size_ total : Z) : option (list bio_vec) :=
  if (block_size_ =? 4) || (block_size_ =? 8) then Some (take (Z.to_nat total) (drop (Z.to_nat block_index) bvec))
  else if block_size_ =? 16 then Some (take (Z.to_nat (total * 2)) (drop (Z.to_nat (block_index * 2)) bvec))
  else None.

(** ** Step 4: read the marked blocks, a run of consecutive ones at a time *)
Definition clean_inprog (d : cache_c) (i : Z) : bool := EIO_CACHE_STATE_GET d i =? CLEAN_INPROG.

(** the loop on [j]: the number of marked blocks that follow *)
Fixpoint run_length (d : cache_c) (blocks : list Z) : nat :=
  match blocks with j :: bs => if clean_inprog d j then S (run_length d bs) else O | [] => O end.

Definition SECTOR_STATS (f : Z -> eio_stats -> eio_stats) (size : Z) : M cworld unit :=
  modify (fun w => set_cw_d (upd_stats (f (eio_to_sector size)) (cw_d w)) w).
Definition add_ssd_reads n (s : eio_stats) := {| s with st_ssd_reads := atomic64_add n (st_ssd_reads s) |}.
Definition add_disk_writes n (s : eio_stats) := {| s with st_disk_writes := atomic64_add n (st_disk_writes s) |}.

Definition read_run (start_index i total : Z) : M cworld (Z * Z) :=
  d <- gets cw_d ;;
  bvecs <- eval (fun w => setup_bio_vecs (clean_dbvecs w) (i - start_index) (block_size d) total) ;;
  EIO_ASSERT (negb (Nat.eqb (length bvecs) 0)) ;;
  let where_ := mk_region SSD (Z.shiftl i (block_shift d) + md_sectors d) (u32 (total * block_size d)) in
  SECTOR_STATS add_ssd_reads (to_bytes (io_count where_)) ;;
  eio_io_async_bvec where_ READ bvecs false.

(** the loop on [i]: at a marked block, one read for its run; [i = j] and the
    increment then skip the unmarked block that ended the run *)
Fixpoint read_runs (fuel : nat) (start_index : Z) (blocks : list Z) (sio_error : Z) : M cworld Z :=
  match fuel, blocks with
  | _, [] => ret sio_error
  | O, _ => panic
  | S n, i :: bs =>
    d <- gets cw_d ;;
    if clean_inprog d i then
      let k := run_length d blocks in
      e <- read_run start_index i (Z.of_nat k) ;;
      read_runs n start_index (drop (S k) blocks) (sio_update e sio_error)
    else read_runs n start_index bs sio_error
  end.

(** ** Step 5: write them to the disk, one by one *)
Definition write_block (start_index i : Z) : M cworld (Z * Z) :=
  d <- gets cw_d ;;
  bvecs <- eval (fun w => setup_bio_vecs (clean_dbvecs w) (i - start_index) (block_size d) 1) ;;
  EIO_ASSERT (negb (Nat.eqb (length bvecs) 0)) ;;
  dbn <- eval (fun w => EIO_DBN_GET (cw_d w) i) ;;
  let where_ := mk_region HDD dbn (block_size d) in
  SECTOR_STATS add_disk_writes (to_bytes (io_count where_)) ;;
  eio_io_async_bvec where_ WRITE bvecs true.

Fixpoint write_blocks (start_index : Z) (blocks : list Z) (sio_error : Z) : M cworld Z :=
  match blocks with
  | [] => ret sio_error
  | i :: bs =>
    d <- gets cw_d ;;
    if clean_inprog d i then
      e <- write_block start_index i ;;
      write_blocks start_index bs (sio_update e sio_error)
    else write_blocks start_index bs sio_error
  end.

(** ** Step 6: write the metadata of the set *)
Definition clean_md_state (s : Z) : Z :=
  if s =? CLEAN_INPROG then INVALID else if s =? ALREADY_DIRTY then Z.lor VALID DIRTY else INVALID.

(** the entries, or [None] if the sector number of a block cannot be computed *)
Fixpoint md_entries (d : cache_c) (blocks : list Z) : option (list flash_cacheblock) :=
  match blocks with
  | [] => Some []
  | i :: bs =>
    match EIO_DBN_GET d i, md_entries d bs with
    | Some dbn, Some l => Some (mk_flash dbn (clean_md_state (EIO_CACHE_STATE_GET d i)) :: l)
    | _, _ => None
    end
  end.

(** sector-sized slot [j] of an array of pages *)
Definition page_slot (pages : list Z) (j : nat) : option slot :=
  match pages !! (j / 8)%nat with Some p => Some (p, Z.of_nat (j mod 8)) | None => None end.

(** the pages receive the entries, [MD_BLOCKS_PER_PAGE] in each; an entry
    beyond the last page has no place *)
Fixpoint fill_md_pages (pages : list Z) (entries : list flash_cacheblock) (sectors : list nat) (mem : memory) : option memory :=
  match sectors with
  | [] => Some mem
  | j :: js =>
    match page_slot pages j with
    | Some sl => fill_md_pages pages entries js (<[sl := md_sector entries j]> mem)
    | None => None
    end
  end.

Definition write_md (start_index : Z) (blocks : list Z) : M cworld Z :=
  d <- gets cw_d ;;
  pages <- gets clean_mdpages ;;
  EIO_ASSERT (Nat.leb (length pages) 2) ;;
  entries <- eval (fun w => md_entries (cw_d w) blocks) ;;
  mem <- eval (fun w => fill_md_pages pages entries (seq 0 ((length entries + 31) / 32)) (cw_mem w)) ;;
  modify (set_cw_mem mem) ;;
  let alloc_size := i32 (assoc d * FLASH_CACHEBLOCK_SIZE) in
  eio_io_sync_pages (mk_region SSD (md_start_sect d + INDEX_TO_MD_SECTOR start_index) (eio_to_sector alloc_size)) WRITE pages.

(** ** Step 7: the in-core metadata *)
Definition dec_nr_dirty (set : Z) (d : cache_c) : cache_c :=
  let s := cache_sets d !!! set in
  set_nr_dirty (atomic64_dec (nr_dirty d))
    (set_cache_sets (<[set := {| s with cs_nr_dirty := u32 (cs_nr_dirty s - 1) |}]> (cache_sets d)) d).

Fixpoint clean_finish (set : Z) (blocks : list Z) (error : Z) : M cache_c unit :=
  match blocks with
  | [] => ret tt
  | i :: bs =>
    d <- gets id ;;
    when (clean_inprog d i)
      (if negb (error =? 0) then modify (fun d => EIO_CACHE_STATE_SET d i ALREADY_DIRTY)
       else
         modify (fun d => EIO_CACHE_STATE_SET d i VALID) ;;
         n <- gets (fun d => cs_nr_dirty (cache_sets d !!! set)) ;;
         EIO_ASSERT (0 <? n) ;;
         modify (dec_nr_dirty set)) ;;
    clean_finish set bs error
  end.

(** ** The whole operation *)

(** label [err_out1] *)
Definition clean_out (jiffies set : Z) (force : bool) : M cache_c unit :=
  when (negb force)
    (modify (fun d => set_cs_flags set (clr (cs_flags (cache_sets d !!! set)) (Z.lor SETFLAG_CLEAN_INPROG SETFLAG_CLEAN_WHOLE)) d)) ;;
  n <- gets (fun d => cs_nr_dirty (cache_sets d !!! set)) ;;
  when (negb (n =? 0)) (eio_touch_set_lru jiffies set ;; ret tt).

(** from the marking of the blocks to label [err_out3], under the lock *)
Definition clean_marked (set : Z) : M cworld unit :=
  d <- gets cw_d ;;
  let start_index := set * assoc d in
  let blocks := set_blocks d set in
  e1 <- read_runs (length blocks) start_index blocks 0 ;;
  error <- (if negb (e1 =? 0) then ret e1
            else
              e2 <- write_blocks start_index blocks e1 ;;
              if negb (e2 =? 0) then ret e2 else write_md start_index blocks) ;;
  on_cache (clean_finish set blocks error).

Definition clean_locked (set : Z) (whole : bool) : M cworld unit :=
  d <- gets cw_d ;;
  if cs_nr_dirty (cache_sets d !!! set) =? 0 then ret tt
  else
    ncleans <- on_cache (if whole then fun d => Some (mark_whole (set_blocks d set) 0 d)
                         else eio_get_setblks_to_clean set) ;;
    if ncleans =? 0 then ret tt else clean_marked set.

Definition eio_clean_set (jiffies set : Z) (whole force : bool) : M cworld unit :=
  d <- gets cw_d ;;
  (if CACHE_FAILED_IS_SET d then ret tt
   else if cs_nr_dirty (cache_sets d !!! set) =? 0 then ret tt
   else if negb force && AUTOCLEAN_THRESHOLD_CROSSED d then on_cache (eio_touch_set_lru jiffies set ;; ret tt)
   else clean_locked set whole) ;;
  on_cache (clean_out jiffies set force).
