(* ===== verification/CleanIo.v ===== *)
(** * The transfers of a clean

    The buffers of [clean_dbvecs], taken together, are one slot for every
    sector of a set; a block uses its own slots.  From this: what a clean reads
    into them and writes from them.

    ** Writing back: what a clean writes to the disk

    Between the first write and the last, the disk holds for every sector what
    it held before or what the SSD holds for the block being cleaned. *)

From S2P Require Import Prelude Types Mem DList Scan Policy Lookup World Dispatch Disk Clean.

(** * The transfers of a clean *)
(** ** The buffers *)

(** bio_vecs per block, and sectors per bio_vec ([eio_alloc_wb_bvecs]) *)
Definition vecs_per_block (d : cache_c) : Z := if block_size d =? 16 then 2 else 1.
Definition vec_sectors (d : cache_c) : Z := block_size d / vecs_per_block d.

Record bufs_ok (d : cache_c) (bvs : list bio_vec) : Prop := {
  bf_size : block_size d = 4 \/ block_size d = 8 \/ block_size d = 16;
  bf_len : Z.of_nat (length bvs) = assoc d * vecs_per_block d;
  bf_vec : Forall (fun v => bv_len v = to_bytes (vec_sectors d)) bvs;
  bf_nodup : NoDup (bvec_slots bvs)
}.

Lemma bufs_ok_geom d d' bvs : geom d' = geom d -> bufs_ok d bvs -> bufs_ok d' bvs.
Proof.
  intros (_ & Ea & Eb & _)%geom_fields []. unfold vec_sectors, vecs_per_block in *.
  constructor; unfold vec_sectors, vecs_per_block; rewrite ?Ea, ?Eb; done.
Qed.

Lemma uniform_length (L : nat) l : Forall (fun v => eio_to_sector (bv_len v) = Z.of_nat L) l ->
  length (bvec_slots l) = (length l * L)%nat.
Proof.
  induction 1 as [|v l Hv _ IH]; [done|]. rewrite bvec_slots_cons, length_app, page_slots_length, IH, Hv. cbn. lia.
Qed.
Lemma uniform_drop (L : nat) m l : Forall (fun v => eio_to_sector (bv_len v) = Z.of_nat L) l ->
  bvec_slots (drop m l) = drop (m * L) (bvec_slots l).
Proof.
  revert l. induction m as [|m IH]; intros l Hl; [done|]. destruct Hl as [|v l Hv Hl]; cbn [drop]; [change (bvec_slots []) with (@nil slot); by rewrite drop_nil|].
  rewrite IH by done. rewrite bvec_slots_cons. rewrite drop_app_ge by (rewrite page_slots_length, Hv; cbn; lia).
  rewrite page_slots_length, Hv. f_equal. cbn. lia.
Qed.
Lemma uniform_take (L : nat) k l : Forall (fun v => eio_to_sector (bv_len v) = Z.of_nat L) l ->
  bvec_slots (take k l) = take (k * L) (bvec_slots l).
Proof.
  revert l. induction k as [|k IH]; intros l Hl; [done|]. destruct Hl as [|v l Hv Hl]; cbn [take]; [change (bvec_slots []) with (@nil slot); by rewrite take_nil|].
  rewrite !bvec_slots_cons, IH by done. rewrite take_app_ge by (rewrite page_slots_length, Hv; cbn; lia).
  rewrite page_slots_length, Hv. do 2 f_equal. cbn. lia.
Qed.
Lemma uniform_fit L l n : 0 < L -> Forall (fun v => bv_len v = to_bytes L) l -> n = Z.of_nat (length l) * L ->
  bvecs_fit l n.
Proof.
  intros HL Hl. revert n. induction Hl as [|v l Hv _ IH]; intros n ->; [done|]. cbn [bvecs_fit length].
  rewrite Hv, to_sector_bytes. split_and!.
  - split; rewrite Hv; unfold to_bytes, SECTOR_SHIFT; rewrite Z.shiftl_mul_pow2 by lia; [lia|by exists L].
  - nia.
  - apply IH. nia.
Qed.

Section bufs.
Context (d : cache_c) (bvs : list bio_vec) (Hb : bufs_ok d bvs).
Abbreviation bs := (block_size d).

Lemma vec_cases : (bs = 16 /\ vecs_per_block d = 2 /\ vec_sectors d = 8) \/
  ((bs = 4 \/ bs = 8) /\ vecs_per_block d = 1 /\ vec_sectors d = bs).
Proof.
  unfold vec_sectors, vecs_per_block. destruct (bf_size _ _ Hb) as [->|[->| ->]]; [right|right|left]; split_and!; try done; auto.
Qed.
Lemma vec_sectors_eq : vecs_per_block d * vec_sectors d = bs /\ 0 < vec_sectors d /\ 0 < vecs_per_block d.
Proof. destruct vec_cases as [(-> & -> & ->)|([E|E] & -> & ->)]; lia. Qed.

Lemma bufs_uniform : Forall (fun v => eio_to_sector (bv_len v) = Z.of_nat (Z.to_nat (vec_sectors d))) bvs.
Proof.
  eapply Forall_impl; [apply (bf_vec _ _ Hb)|]. cbn. intros v ->. rewrite to_sector_bytes. pose proof vec_sectors_eq. lia.
Qed.

Lemma bufs_length : Z.of_nat (length (bvec_slots bvs)) = assoc d * bs.
Proof.
  rewrite (uniform_length _ _ bufs_uniform), Nat2Z.inj_mul, (bf_len _ _ Hb).
  pose proof vec_sectors_eq as (E & ? & ?). rewrite Z2Nat.id by lia. lia.
Qed.

(** the buffers of [n] blocks from the [b]-th of the set *)
Lemma setup_ok b n : 0 <= b -> 0 < n -> b + n <= assoc d ->
  exists l, setup_bio_vecs bvs b bs n = Some l /\ l <> [] /\ bvecs_fit l (n * bs) /\
    bvec_slots l = take (Z.to_nat (n * bs)) (drop (Z.to_nat (b * bs)) (bvec_slots bvs)).
Proof.
  intros H0 Hn Hle. pose proof vec_sectors_eq as (Ec & HL & Hc). set (c := vecs_per_block d) in *. set (L := vec_sectors d) in *.
  assert (Es : setup_bio_vecs bvs b bs n = Some (take (Z.to_nat (n * c)) (drop (Z.to_nat (b * c)) bvs))).
  { unfold setup_bio_vecs. subst c. destruct vec_cases as [(-> & -> & _)|([E|E] & -> & _)]; rewrite ?E; cbn; by rewrite ?Z.mul_1_r. }
  rewrite Es. eexists; split; [done|]. set (l := take _ _).
  assert (Hlen : Z.of_nat (length l) = n * c).
  { subst l. rewrite length_take, length_drop. pose proof (bf_len _ _ Hb). fold c in H. nia. }
  split_and!.
  - intros E. rewrite E in Hlen. cbn in Hlen. nia.
  - apply (uniform_fit L); [done| |nia]. apply Forall_take, Forall_drop, (bf_vec _ _ Hb).
  - subst l. rewrite (uniform_take (Z.to_nat L)) by (apply Forall_drop, bufs_uniform).
    rewrite (uniform_drop (Z.to_nat L)) by apply bufs_uniform. f_equal; [|f_equal]; rewrite <-Z2Nat.inj_mul by nia; f_equal; nia.
Qed.

(** the slot of sector [o] of the block *)
Definition buf_slot (b o : Z) : slot := bvec_slots bvs !!! Z.to_nat (b * bs + o).

Lemma buf_slot_lookup b o : 0 <= b < assoc d -> 0 <= o < bs ->
  bvec_slots bvs !! Z.to_nat (b * bs + o) = Some (buf_slot b o).
Proof.
  intros Hb' Ho. unfold buf_slot. apply list_lookup_lookup_total_lt. pose proof bufs_length. nia.
Qed.
Lemma buf_slot_inj b o b' o' : 0 <= b < assoc d -> 0 <= o < bs -> 0 <= b' < assoc d -> 0 <= o' < bs ->
  buf_slot b o = buf_slot b' o' -> b = b' /\ o = o'.
Proof.
  intros H1 H2 H3 H4 E. pose proof (buf_slot_lookup b o H1 H2) as L1. pose proof (buf_slot_lookup b' o' H3 H4) as L2.
  rewrite E in L1. pose proof (NoDup_lookup _ _ _ _ (bf_nodup _ _ Hb) L1 L2) as En.
  assert (Ez : b * bs + o = b' * bs + o') by (apply Z2Nat.inj in En; nia).
  assert (b = b') as -> by (destruct (Z.lt_trichotomy b b') as [?|[?|?]]; [nia|done|nia]). lia.
Qed.

(** the transfer of [n] blocks, sector by sector *)
Lemma region_bufs start b n l : 0 <= b -> 0 < n -> b + n <= assoc d ->
  bvec_slots l = take (Z.to_nat (n * bs)) (drop (Z.to_nat (b * bs)) (bvec_slots bvs)) ->
  region_transfer start (n * bs) l = map (fun k => (start + k, buf_slot b k)) (seqZ 0 (n * bs)).
Proof.
  intros H0 Hn Hle El. pose proof bufs_length as Hlen.
  assert (Hpos : 0 < bs) by (destruct (bf_size _ _ Hb) as [->|[->| ->]]; lia).
  unfold region_transfer. rewrite El, take_take, Nat.min_id. apply list_eq. intros j. rewrite lookup_zip_with.
  change (map ?f ?x) with (f <$> x). rewrite list_lookup_fmap.
  destruct (decide (Z.of_nat j < n * bs)) as [Hj|Hj].
  - rewrite !lookup_seqZ_lt by lia. cbn. rewrite lookup_take_lt, lookup_drop by lia.
    assert (Hin : bvec_slots bvs !! (Z.to_nat (b * bs) + j)%nat = Some (buf_slot b (Z.of_nat j))).
    { unfold buf_slot. replace (Z.to_nat (b * bs) + j)%nat with (Z.to_nat (b * bs + Z.of_nat j)) by nia.
      apply list_lookup_lookup_total_lt. nia. }
    by rewrite Hin.
  - rewrite !lookup_seqZ_ge by lia. done.
Qed.
End bufs.

(** ** Data of a block on the SSD *)
Definition data_sector (d : cache_c) (i : Z) : Z := Z.shiftl i (block_shift d) + md_sectors d.
Definition block_data (d : cache_c) (k : disks) (i o : Z) : sector_data := on_ssd k !!! (data_sector d i + o).

(** ** Reading *)

(** only memory, statistics and the list of results differ *)
Definition reads_only (w w' : cworld) : Prop :=
  exists mem res st, w' = set_cw_mem mem (set_cw_results res (set_cw_d (set_stats st (cw_d w)) w)) /\
    (Forall io_result_ok (cw_results w) -> Forall io_result_ok res).
#[export] Instance reads_only_refl : Reflexive reads_only.
Proof. intros w. exists (cw_mem w), (cw_results w), (stats (cw_d w)). split; [by destruct w as [[]]|done]. Qed.
#[export] Instance reads_only_trans : Transitive reads_only.
Proof.
  intros w1 w2 w3 (m & r & s & -> & H) (m' & r' & s' & -> & H'). exists m', r', s'. split; [by destruct w1|auto].
Qed.

Lemma set_sectors_bound d : wf_geom d -> 0 < assoc d * block_size d <= 2 ^ 23.
Proof.
  intros Hg. pose proof (geo_cs d Hg). pose proof (geo_bs d Hg). pose proof (geo_lsb d Hg).
  rewrite (geo_assoc d Hg), (geo_block d Hg), <-Z.pow_add_r by lia.
  split; [apply pow2_pos; lia|apply Z.pow_le_mono_r; lia].
Qed.

Lemma data_sector_eq d i : wf_geom d -> data_sector d i = i * block_size d + md_sectors d.
Proof. intros Hg. unfold data_sector. rewrite Z.shiftl_mul_pow2 by apply (geo_bs d Hg). by rewrite (geo_block d Hg). Qed.

(** the result of an asynchronous transfer, as [sioc.sio_error] sees it *)
Lemma sio_update_0 e s : sio_update e s = 0 <-> e = (0, 0) /\ s = 0.
Proof.
  destruct e as [e1 e2]. unfold sio_update, eio_sync_io_callback. cbn.
  destruct (Z.eqb_spec e1 0), (Z.eqb_spec e2 0); cbn; split; try (intros [[=] ?]); try lia; intros ->; subst; auto.
Qed.
Lemma io_errors_0 r : io_result_ok r -> io_errors r = (0, 0) <-> r = IoOk.
Proof. destruct r; cbn; intros H; split; try done; intros [=]; lia. Qed.

Lemma next_result_ok w : exists r w', next_result w = Some (r, w') /\ reads_only w w' /\
  cw_mem w' = cw_mem w /\ (Forall io_result_ok (cw_results w) -> io_result_ok r).
Proof.
  unfold next_result. destruct (cw_results w) as [|r l] eqn:E.
  - exists IoOk, w. split_and!; done.
  - exists r, (set_cw_results l w). split_and!; try done.
    + exists (cw_mem w), l, (stats (cw_d w)). split; [by destruct w as [[]]|]. rewrite E. by intros [_ ?]%Forall_cons.
    + by intros [? _]%Forall_cons.
Qed.

Section reading.
Context (d : cache_c) (bvs : list bio_vec) (Hg : wf_geom d) (Hb : bufs_ok d bvs) (start : Z).
Abbreviation bs := (block_size d).

(** the buffer of block [i] holds what the SSD holds for it *)
Definition buffered (w : cworld) (i : Z) : Prop :=
  forall o, 0 <= o < bs -> cw_mem w !!! buf_slot d bvs (i - start) o = block_data d (cw_k w) i o.

(** the buffers of blocks before [start + m] and after [start + n] did not change *)
Definition bufs_keep (m n : Z) (w w' : cworld) : Prop :=
  forall b o, 0 <= b < assoc d -> 0 <= o < bs -> b < m \/ n <= b ->
    cw_mem w' !!! buf_slot d bvs b o = cw_mem w !!! buf_slot d bvs b o.

Definition block_ts (sec b n : Z) : list (Z * slot) := map (fun k => (sec + k, buf_slot d bvs b k)) (seqZ 0 (n * bs)).

Lemma buf_slot_carry b k : buf_slot d bvs b k = buf_slot d bvs (b + k / bs) (k mod bs).
Proof.
  unfold buf_slot. f_equal. f_equal. pose proof (Z.div_mod k bs). pose proof (block_size_pos d Hg). lia.
Qed.

Lemma do_read_ok sec b n l r w : 0 <= b -> 0 < n -> b + n <= assoc d ->
  setup_bio_vecs bvs b bs n = Some l ->
  do_transfer (mk_region SSD sec (n * bs)) READ false l r w =
    Some (tt, set_cw_mem (read_sectors r (on_ssd (cw_k w)) (block_ts sec b n) (cw_mem w)) w).
Proof.
  intros H0 Hn Hle El. destruct (setup_ok d bvs Hb b n H0 Hn Hle) as (l' & E & Hne & Hfit & Es).
  rewrite El in E. injection E as <-.
  destruct (dispatch_io_ok [] 0 (mk_region SSD sec (n * bs)) false l) as (bios & E & Et); [done|done|done|].
  unfold do_transfer. rewrite (bind_eval (fun _ => eio_dispatch_io [] 0 (mk_region SSD sec (n * bs)) false l) _ _ bios E).
  change (READ =? READ) with true. cbv iota. rewrite Et. cbn [io_sector io_count io_bdev dev_get].
  rewrite Z.add_0_r, (region_bufs d bvs Hb sec b n l) by done. done.
Qed.

Lemma block_ts_nodup sec b n : 0 <= b -> b + n <= assoc d -> NoDup (block_ts sec b n).*2.
Proof.
  intros H0 Hle. pose proof (block_size_pos d Hg). unfold block_ts. rewrite <-list_fmap_compose.
  apply NoDup_fmap_2_strong; [|apply NoDup_seqZ]. intros x y Hx%elem_of_seqZ Hy%elem_of_seqZ E. cbn in E.
  rewrite (buf_slot_carry b x), (buf_slot_carry b y) in E.
  pose proof (Z.mod_pos_bound x bs). pose proof (Z.mod_pos_bound y bs).
  pose proof (Z.div_mod x bs). pose proof (Z.div_mod y bs).
  apply (buf_slot_inj d bvs Hb) in E; [|nia..]. nia.
Qed.

Lemma block_ts_elem sec b n s sl : (s, sl) ∈ block_ts sec b n <-> exists k, 0 <= k < n * bs /\ s = sec + k /\ sl = buf_slot d bvs b k.
Proof.
  unfold block_ts. rewrite list_elem_of_fmap. setoid_rewrite elem_of_seqZ. split.
  - intros (k & [= -> ->] & ?). exists k. split_and!; try done; lia.
  - intros (k & ? & -> & ->). exists k. split; [done|lia].
Qed.

Lemma read_mem r sec b n w : 0 <= b -> 0 < n -> b + n <= assoc d ->
  let w' := set_cw_mem (read_sectors r (on_ssd (cw_k w)) (block_ts sec b n) (cw_mem w)) w in
  bufs_keep b (b + n) w w' /\
  (r = IoOk -> forall k, 0 <= k < n * bs -> cw_mem w' !!! buf_slot d bvs b k = on_ssd (cw_k w) !!! (sec + k)).
Proof.
  intros H0 Hn Hle w'. pose proof (block_size_pos d Hg). split.
  - intros b' o Hb' Ho Hc. subst w'. cbn. apply read_sectors_ne. intros ([s sl] & E & Hin)%list_elem_of_fmap.
    apply block_ts_elem in Hin as (k & Hk & _ & ->). cbn in E. rewrite (buf_slot_carry b k) in E.
    pose proof (Z.mod_pos_bound k bs). pose proof (Z.div_mod k bs).
    apply (buf_slot_inj d bvs Hb) in E; [|nia..]. nia.
  - intros -> k Hk. subst w'. cbn. apply read_sectors_done; [by apply block_ts_nodup|].
    apply block_ts_elem. by exists k.
Qed.

(** the cache of the world is [d], statistics apart *)
Definition at_d (w : cworld) : Prop := exists st, cw_d w = set_stats st d.

Lemma reads_only_at w w' : reads_only w w' -> at_d w -> at_d w'.
Proof. intros (m & r & s & -> & _) (st & E). exists s. cbn. by rewrite E. Qed.
Lemma reads_only_results w w' : reads_only w w' -> Forall io_result_ok (cw_results w) -> Forall io_result_ok (cw_results w').
Proof. by intros (m & r & s & -> & H). Qed.
Lemma reads_only_disks w w' : reads_only w w' -> cw_k w' = cw_k w /\ clean_dbvecs w' = clean_dbvecs w.
Proof. by intros (m & r & s & -> & H). Qed.

Lemma buffered_keep m n w w' i : 0 <= i - start < assoc d -> i - start < m \/ n <= i - start ->
  cw_k w' = cw_k w -> bufs_keep m n w w' -> buffered w i -> buffered w' i.
Proof. intros Hr Hc Ek Hk H o Ho. rewrite Hk by done. rewrite H by done. by rewrite Ek. Qed.

Lemma async_read_ok sec b n l w : 0 <= b -> 0 < n -> b + n <= assoc d -> setup_bio_vecs bvs b bs n = Some l ->
  exists e w', eio_io_async_bvec (mk_region SSD sec (n * bs)) READ l false w = Some (e, w') /\ reads_only w w' /\
    bufs_keep b (b + n) w w' /\
    (Forall io_result_ok (cw_results w) -> e = (0, 0) ->
       forall k, 0 <= k < n * bs -> cw_mem w' !!! buf_slot d bvs b k = on_ssd (cw_k w) !!! (sec + k)).
Proof.
  intros H0 Hn Hle El. unfold eio_io_async_bvec. rewrite bind_gets. cbn [io_bdev].
  rewrite bool_decide_false by done. rewrite andb_true_r. destruct (CACHE_DEGRADED_IS_SET (cw_d w)).
  { exists (- ENODEV, 0), w. split_and!; done. }
  destruct (next_result_ok w) as (r & w1 & E1 & R1 & M1 & O1). rewrite (bind_run _ _ _ _ _ E1).
  destruct (reads_only_disks _ _ R1) as [K1 _].
  destruct (Z.eqb_spec (io_errors r).1 0) as [Er|Er]; cbn [negb].
  - rewrite (bind_run _ _ _ _ _ (do_read_ok sec b n l r w1 H0 Hn Hle El)).
    destruct (read_mem r sec b n w1 H0 Hn Hle) as [Hk Hr].
    eexists _, _. split; [done|]. split_and!.
    + etransitivity; [exact R1|]. eexists _, (cw_results w1), (stats (cw_d w1)). split; [by destruct w1 as [[]]|done].
    + intros b' o ? ? ?. rewrite Hk by done. by rewrite M1.
    + intros Hok E%(io_errors_0 r (O1 Hok)) k Hkk. rewrite (Hr E k Hkk). by rewrite K1.
  - exists (io_errors r), w1. split_and!; [done|done|intros ? ? ? ? ?; by rewrite M1|]. intros _ E. by rewrite E in Er.
Qed.

Lemma read_run_ok i n w : at_d w -> clean_dbvecs w = bvs -> start <= i -> 0 < n -> i - start + n <= assoc d ->
  exists e w', read_run start i n w = Some (e, w') /\ reads_only w w' /\
    bufs_keep (i - start) (i - start + n) w w' /\
    (Forall io_result_ok (cw_results w) -> e = (0, 0) -> forall j, i <= j < i + n -> buffered w' j).
Proof.
  intros [st Ed] Ev Hi Hn Hle. unfold read_run. rewrite bind_gets, Ed. cbn [block_size set_stats block_shift md_sectors].
  destruct (setup_ok d bvs Hb (i - start) n ltac:(lia) Hn Hle) as (l & El & Hne & _).
  rewrite (bind_eval (fun w => setup_bio_vecs (clean_dbvecs w) (i - start) bs n) _ w l) by by rewrite Ev.
  rewrite bind_assert by (by destruct l). cbv zeta. unfold SECTOR_STATS. rewrite bind_modify.
  pose proof (set_sectors_bound d Hg). pose proof (block_size_pos d Hg).
  assert (Hu : u32 (n * bs) = n * bs) by (unfold u32; apply Z.mod_small; nia). rewrite Hu.
  set (w0 := set_cw_d _ w).
  destruct (async_read_ok (Z.shiftl i (block_shift d) + md_sectors d) (i - start) n l w0 ltac:(lia) Hn Hle El) as (e & w' & E & R & Hk & Hr).
  exists e, w'. assert (R0 : reads_only w w0).
  { exists (cw_mem w), (cw_results w), (stats (cw_d w0)). subst w0. split; [by destruct w as [[]]|done]. }
  split_and!; [done|by etransitivity|done|].
  intros Hok Ee j Hj o Ho. specialize (Hr Hok Ee ((j - i) * bs + o) ltac:(nia)).
  destruct (reads_only_disks _ _ R) as [K _]. unfold block_data. rewrite K.
  replace (buf_slot d bvs (j - start) o) with (buf_slot d bvs (i - start) ((j - i) * bs + o)).
  - rewrite Hr. f_equal. fold (data_sector d i). rewrite !data_sector_eq by done. ring.
  - unfold buf_slot. do 2 f_equal. ring.
Qed.

Lemma drop_seqZ k m n : 0 <= m -> drop (Z.to_nat m) (seqZ k n) = seqZ (k + m) (n - m).
Proof.
  intros Hm. apply list_eq. intros j. rewrite lookup_drop.
  destruct (decide (Z.of_nat j < n - m)).
  - rewrite !lookup_seqZ_lt by lia. f_equal. lia.
  - by rewrite !lookup_seqZ_ge by lia.
Qed.

Lemma run_length_spec blocks : (run_length d blocks <= length blocks)%nat /\
  (forall j i, (j < run_length d blocks)%nat -> blocks !! j = Some i -> clean_inprog d i = true) /\
  (forall i, blocks !! run_length d blocks = Some i -> clean_inprog d i = false).
Proof.
  induction blocks as [|i blocks (IH1 & IH2 & IH3)]; cbn [run_length].
  { split; [done|]. split; [intros; lia|]. intros i. by rewrite lookup_nil. }
  destruct (clean_inprog d i) eqn:E; cbn [length].
  - split_and!; [lia| |].
    + intros [|j] i' Hj; cbn; [by intros [= <-]|]. apply IH2. lia.
    + intros i'. cbn. apply IH3.
  - split_and!; [lia|intros; lia|]. cbn. by intros i' [= <-].
Qed.

Lemma run_length_stats st blocks : run_length (set_stats st d) blocks = run_length d blocks.
Proof. induction blocks as [|i blocks IH]; cbn [run_length]; [done|]. rewrite IH. done. Qed.

Lemma bufs_keep_mono m n m' n' w w' : m' <= m -> n <= n' -> bufs_keep m n w w' -> bufs_keep m' n' w w'.
Proof. intros H1 H2 H b o Hb' Ho Hc. apply H; [done|done|lia]. Qed.
Lemma bufs_keep_trans m n w1 w2 w3 : bufs_keep m n w1 w2 -> bufs_keep m n w2 w3 -> bufs_keep m n w1 w3.
Proof. intros H1 H2 b o Hb' Ho Hc. by rewrite H2, H1. Qed.

(** Every marked block of the set is read into its buffer, unless an error is
    reported. *)
Lemma read_runs_ok : forall fuel m sio w, 0 <= m <= assoc d -> (Z.to_nat (assoc d - m) <= fuel)%nat ->
  at_d w -> clean_dbvecs w = bvs ->
  exists e w', read_runs fuel start (seqZ (start + m) (assoc d - m)) sio w = Some (e, w') /\ reads_only w w' /\
    bufs_keep m (assoc d) w w' /\
    (Forall io_result_ok (cw_results w) -> e = 0 ->
       sio = 0 /\ forall i, start + m <= i < start + assoc d -> clean_inprog d i = true -> buffered w' i).
Proof.
  induction fuel as [|fuel IH]; intros m sio w Hm Hf [st Ed] Ev.
  { replace (assoc d - m) with 0 by lia. exists sio, w. split_and!; try done. intros _ E. split; [done|]. intros; lia. }
  destruct (Z.eq_dec m (assoc d)) as [->|Hne].
  { replace (assoc d - assoc d) with 0 by lia. exists sio, w. split_and!; try done. intros _ E. split; [done|]. intros; lia. }
  rewrite (seqZ_cons (start + m)) by lia. cbn [read_runs]. rewrite bind_gets, Ed.
  change (clean_inprog (set_stats st d) (start + m)) with (clean_inprog d (start + m)).
  destruct (clean_inprog d (start + m)) eqn:Eci.
  - rewrite run_length_stats. rewrite <-seqZ_cons by lia.
    pose proof (run_length_spec (seqZ (start + m) (assoc d - m))) as (Hl & Hin & Hend).
    set (k := run_length d _) in *. rewrite length_seqZ in Hl.
    assert (Hk : (0 < k)%nat).
    { subst k. rewrite seqZ_cons by lia. cbn [run_length]. rewrite Eci. lia. }
    destruct (read_run_ok (start + m) (Z.of_nat k) w) as (e & w1 & E1 & R1 & K1 & B1); [by exists st|done|lia|lia|lia|].
    rewrite (bind_run _ _ _ _ _ E1). replace (start + m - start) with m in K1 by lia.
    assert (Edrop : drop (S k) (seqZ (start + m) (assoc d - m)) =
      seqZ (start + Z.min (m + Z.of_nat k + 1) (assoc d)) (assoc d - Z.min (m + Z.of_nat k + 1) (assoc d))).
    { rewrite <-(Nat2Z.id (S k)), drop_seqZ by lia. destruct (Z.le_gt_cases (m + Z.of_nat k + 1) (assoc d)).
      - rewrite Z.min_l by lia. f_equal; lia.
      - rewrite Z.min_r, Z.sub_diag by lia. rewrite seqZ_nil by lia. done. }
    rewrite Edrop. set (m' := Z.min _ _) in *.
    destruct (IH m' (sio_update e sio) w1) as (e' & w2 & E2 & R2 & K2 & B2); [lia|lia|by eapply reads_only_at; [|exists st]| |].
    { destruct (reads_only_disks _ _ R1) as [_ ->]. done. }
    exists e', w2. split_and!; [done|by etransitivity| |].
    + eapply bufs_keep_trans; eapply bufs_keep_mono; [..|exact K1|exact (Z.le_refl _)|exact (Z.le_refl _)|]; [lia|lia|].
      eapply bufs_keep_mono; [..|exact K2]; lia.
    + intros Hok Ee. destruct (B2 (reads_only_results _ _ R1 Hok) Ee) as [[E0 ->]%sio_update_0 Hb2]. split; [done|].
      intros i Hi Hci. destruct (Z.lt_ge_cases i (start + m + Z.of_nat k)).
      * destruct (reads_only_disks _ _ R2) as [Kd _].
        apply (buffered_keep m' (assoc d) w1); [lia|left; lia|done|done|]. apply B1; [done|done|lia].
      * apply Hb2; [|done]. split; [|lia].
        assert (i <> start + m + Z.of_nat k); [|lia]. intros ->.
        specialize (Hend (start + m + Z.of_nat k)). rewrite lookup_seqZ_lt in Hend by lia.
        rewrite Hend in Hci; [done|]. f_equal. 
  - rewrite <-Z.add_succ_r, <-Z.sub_succ_r.
    destruct (IH (Z.succ m) sio w) as (e & w1 & E1 & R1 & K1 & B1); [lia|lia|by exists st|done|].
    exists e, w1. split_and!; [done|done|eapply bufs_keep_mono; [..|exact K1]; lia|].
    intros Hok Ee. destruct (B1 Hok Ee) as [-> Hb1]. split; [done|]. intros i Hi Hci.
    assert (i <> start + m) by congruence. apply Hb1; [lia|done].
Qed.
End reading.

(** * Writing back: what a clean writes to the disk *)
(** the devices after a crash during a traced write that reached only the
    sectors in [moved] *)
Definition crash_image (t : disks * (device * list (Z * sector_data))) (moved : gset Z) : disks :=
  let '(k, (b, ws)) := t in dev_set b (write_sectors (IoFailed 1 moved) ws (dev_get k b)) k.

(** every state a crash can leave during the traced writes satisfies [P] *)
Definition trace_safe (P : disks -> Prop) (tr : list (disks * (device * list (Z * sector_data)))) : Prop :=
  forall t moved, t ∈ tr -> P (crash_image t moved).

Lemma trace_safe_nil P : trace_safe P [].
Proof. by intros t m ?%not_elem_of_nil. Qed.
Lemma trace_safe_app P tr tr' : trace_safe P tr -> trace_safe P tr' -> trace_safe P (tr ++ tr').
Proof. intros H H' t m [Hin|Hin]%elem_of_app; auto. Qed.
Lemma trace_safe_mono (P Q : disks -> Prop) tr : (forall k, P k -> Q k) -> trace_safe P tr -> trace_safe Q tr.
Proof. intros H Ht t m Hin. by apply H, Ht. Qed.

(** the step leaves the cache as it is, statistics apart, and adds safe writes *)
Record io_step (P : disks -> Prop) (w w' : cworld) : Prop := {
  is_d : exists st, cw_d w' = set_stats st (cw_d w);
  is_dbvecs : clean_dbvecs w' = clean_dbvecs w;
  is_mdpages : clean_mdpages w' = clean_mdpages w;
  is_results : Forall io_result_ok (cw_results w) -> Forall io_result_ok (cw_results w');
  is_trace : exists tr, cw_trace w' = cw_trace w ++ tr /\ trace_safe P tr
}.
Lemma io_step_refl P w : io_step P w w.
Proof.
  constructor; try done; [exists (stats (cw_d w)); by destruct (cw_d w)|].
  exists []. split; [by rewrite app_nil_r|apply trace_safe_nil].
Qed.
Lemma io_step_trans P w1 w2 w3 : io_step P w1 w2 -> io_step P w2 w3 -> io_step P w1 w3.
Proof.
  intros [[s1 E1] D1 M1 R1 (t1 & T1 & S1)] [[s2 E2] D2 M2 R2 (t2 & T2 & S2)]. constructor.
  - exists s2. by rewrite E2, E1.
  - congruence.
  - congruence.
  - auto.
  - exists (t1 ++ t2). split; [by rewrite T2, T1, app_assoc|by apply trace_safe_app].
Qed.
Lemma io_step_reads P w w' : reads_only w w' -> io_step P w w'.
Proof.
  intros (m & r & s & -> & H). constructor; try done; [by exists s|]. exists []. split; [by cbn; rewrite app_nil_r|apply trace_safe_nil].
Qed.

Section writing.
Context (d : cache_c) (bvs : list bio_vec) (Hinv : blk_inv d) (Hb : bufs_ok d bvs) (set : Z).
Hypothesis Hset : 0 <= set < num_sets d.
Abbreviation bs := (block_size d).
Abbreviation start := (set_start d set).

#[local] Lemma Hg : wf_geom d. Proof. apply Hinv. Qed.

(** a block being cleaned and its sector *)
Definition marked_at (i b : Z) : Prop := i ∈ set_blocks d set /\ clean_inprog d i = true /\ EIO_DBN_GET d i = Some b.

Lemma marked_dbn i : i ∈ set_blocks d set -> clean_inprog d i = true ->
  exists b, marked_at i b /\ 0 <= b /\ (bs | b) /\ dbn_set d b = set.
Proof.
  intros Hi Hc. pose proof (set_blocks_range d set i Hg Hset Hi) as Hr.
  destruct (bi_dbn d Hinv i Hr) as (b & Eb & [Hb0 _] & Hd & Es).
  { unfold clean_inprog in Hc. apply Z.eqb_eq in Hc. rewrite Hc. done. }
  exists b. split_and!; try done. rewrite Es. by apply (elem_of_set_blocks d set i Hg).
Qed.

(** blocks that cache different sectors do not overlap *)
Lemma marked_disjoint i b j c o o' : marked_at i b -> marked_at j c -> 0 <= o < bs -> 0 <= o' < bs ->
  b + o = c + o' -> i = j /\ o = o'.
Proof.
  intros (Hi & Hci & Ei) (Hj & Hcj & Ej) Ho Ho' E.
  assert (NI : forall x, clean_inprog d x = true -> EIO_CACHE_STATE_GET d x <> INVALID).
  { intros x Hx. unfold clean_inprog in Hx. apply Z.eqb_eq in Hx. rewrite Hx. done. }
  pose proof (set_blocks_range d set i Hg Hset Hi) as Hri. pose proof (set_blocks_range d set j Hg Hset Hj) as Hrj.
  destruct (bi_dbn d Hinv i Hri (NI i Hci)) as (b' & Eb & [Hb0 _] & [x ->] & _).
  destruct (bi_dbn d Hinv j Hrj (NI j Hcj)) as (c' & Ec & [Hc0 _] & [y ->] & _).
  rewrite Ei in Eb. rewrite Ej in Ec. injection Eb as ->. injection Ec as ->.
  pose proof (block_size_pos d Hg). assert (x = y) as -> by (destruct (Z.lt_trichotomy x y) as [?|[?|?]]; [nia|done|nia]).
  split; [|lia]. apply (bi_uniq d Hinv); auto. by rewrite Ei, Ej.
Qed.

(** the disk holds for every sector what it held in [k0], or the data of the
    marked block that caches it *)
Definition wb_image (k0 k : disks) : Prop :=
  on_ssd k = on_ssd k0 /\
  forall s, on_hdd k !!! s = on_hdd k0 !!! s \/
    exists i b o, marked_at i b /\ 0 <= o < bs /\ s = b + o /\ on_hdd k !!! s = block_data d k0 i o.
(** block [i] is written back *)
Definition hdd_done (k0 k : disks) (i : Z) : Prop :=
  forall b o, marked_at i b -> 0 <= o < bs -> on_hdd k !!! (b + o) = block_data d k0 i o.

Definition block_writes (k : disks) (i b : Z) : list (Z * sector_data) :=
  map (fun o => (b + o, block_data d k i o)) (seqZ 0 bs).

Lemma block_writes_elem k i b s v : (s, v) ∈ block_writes k i b <-> exists o, 0 <= o < bs /\ s = b + o /\ v = block_data d k i o.
Proof.
  unfold block_writes. rewrite list_elem_of_fmap. setoid_rewrite elem_of_seqZ. split.
  - intros (o & [= -> ->] & ?). exists o. split; [lia|done].
  - intros (o & ? & -> & ->). exists o. split; [done|lia].
Qed.
Lemma block_writes_nodup k i b : NoDup (block_writes k i b).*1.
Proof.
  unfold block_writes. rewrite <-list_fmap_compose. apply NoDup_fmap_2; [|apply NoDup_seqZ].
  intros x y E. cbn in E. lia.
Qed.
Lemma block_data_ssd k k' i o : on_ssd k' = on_ssd k -> block_data d k' i o = block_data d k i o.
Proof. unfold block_data. by intros ->. Qed.

Definition write_hdd (r : io_result) (k : disks) (i b : Z) : disks :=
  dev_set HDD (write_sectors r (block_writes k i b) (on_hdd k)) k.

Lemma wb_image_write k0 k r i b : wb_image k0 k -> marked_at i b -> wb_image k0 (write_hdd r k i b).
Proof.
  intros [Es Hh] Hm. split; [done|]. intros s. cbn [write_hdd dev_set on_hdd].
  destruct (write_sectors_cases r (block_writes k i b) (on_hdd k) s (block_writes_nodup k i b)) as [->|(v & Hin & ->)]; [apply Hh|].
  apply block_writes_elem in Hin as (o & Ho & -> & ->). right. exists i, b, o. split_and!; try done; try lia.
  by apply block_data_ssd.
Qed.

Lemma hdd_done_write k0 k i b : wb_image k0 k -> marked_at i b -> hdd_done k0 (write_hdd IoOk k i b) i.
Proof.
  intros [Es _] Hm b' o Hm' Ho. assert (b' = b) as -> by (destruct Hm as (_ & _ & E), Hm' as (_ & _ & E'); congruence).
  cbn. rewrite (write_sectors_done _ _ (b + o) (block_data d k i o)); [by apply block_data_ssd|apply block_writes_nodup|].
  apply block_writes_elem. by exists o.
Qed.
Lemma hdd_done_other k0 k r i b j : marked_at i b -> i <> j -> hdd_done k0 k j -> hdd_done k0 (write_hdd r k i b) j.
Proof.
  intros Hm Hne Hd c o Hc Ho. cbn. rewrite write_sectors_ne; [by apply Hd|].
  intros ([s v] & E & Hin)%list_elem_of_fmap. apply block_writes_elem in Hin as (o' & Ho' & -> & _). cbn in E.
  apply Hne. destruct (marked_disjoint j c i b o o' Hc Hm Ho Ho' E). done.
Qed.

Lemma write_data w i b l : buffered d bvs start w i -> i ∈ set_blocks d set ->
  bvec_slots l = take (Z.to_nat (1 * bs)) (drop (Z.to_nat ((i - start) * bs)) (bvec_slots bvs)) ->
  map (fun t => (t.1, cw_mem w !!! t.2)) (region_transfer b bs l) = block_writes (cw_k w) i b.
Proof.
  intros Hbuf Hi El. apply elem_of_seqZ in Hi. fold (start) in Hi.
  pose proof (region_bufs d bvs Hb b (i - start) 1 l ltac:(lia) ltac:(lia) ltac:(lia) El) as E.
  rewrite Z.mul_1_l in E. rewrite E. unfold block_writes. rewrite map_map. apply map_ext_in. intros o Ho%list_elem_of_In%elem_of_seqZ.
  cbn. f_equal. apply Hbuf. lia.
Qed.

Lemma write_block_ok w i b : at_d d w -> clean_dbvecs w = bvs -> marked_at i b -> buffered d bvs start w i ->
  exists e w', write_block start i w = Some (e, w') /\ cw_mem w' = cw_mem w /\
    (forall k0, wb_image k0 (cw_k w) -> io_step (wb_image k0) w w') /\
    (e <> (0, 0) /\ cw_k w' = cw_k w \/
     exists r, cw_k w' = write_hdd r (cw_k w) i b /\ (Forall io_result_ok (cw_results w) -> e = (0, 0) -> r = IoOk)).
Proof.
  intros [st Ed] Ev Hm Hbuf. pose proof Hm as (Hi & Hci & Edbn). pose proof Hi as Hi'. apply elem_of_seqZ in Hi'. fold start in Hi'.
  unfold write_block. rewrite bind_gets, Ed. cbn [block_size set_stats].
  destruct (setup_ok d bvs Hb (i - start) 1 ltac:(lia) ltac:(lia) ltac:(lia)) as (l & El & Hne & Hfit & Es).
  rewrite (bind_eval (fun w => setup_bio_vecs (clean_dbvecs w) (i - start) bs 1) _ w l) by by rewrite Ev.
  rewrite bind_assert by (by destruct l).
  rewrite (bind_eval (fun w => EIO_DBN_GET (cw_d w) i) _ w b) by by rewrite Ed.
  cbv zeta. unfold SECTOR_STATS. rewrite bind_modify. set (w0 := set_cw_d _ w).
  assert (R0 : reads_only w w0).
  { exists (cw_mem w), (cw_results w), (stats (cw_d w0)). subst w0. split; [by destruct w as [[]]|done]. }
  unfold eio_io_async_bvec. rewrite bind_gets. cbn [io_bdev]. rewrite bool_decide_true by done. rewrite andb_false_r.
  destruct (next_result_ok w0) as (r & w1 & E1 & R1 & M1 & O1). rewrite (bind_run _ _ _ _ _ E1).
  assert (R01 : reads_only w w1) by by etransitivity.
  destruct (reads_only_disks _ _ R01) as [K1 _].
  destruct (Z.eqb_spec (io_errors r).1 0) as [Er|Er]; cbn [negb].
  2:{ exists (io_errors r), w1. split_and!; [done|by rewrite M1|intros; by apply io_step_reads|].
      left. split; [|done]. intros E. by rewrite E in Er. }
  unfold do_transfer. rewrite Z.mul_1_l in Hfit.
  destruct (dispatch_io_ok [] 0 (mk_region HDD b bs) true l) as (bios & E & Et); [done|done|done|].
  rewrite bind_bind, (bind_eval (fun _ => eio_dispatch_io [] 0 (mk_region HDD b bs) true l) _ _ bios E).
  change (WRITE =? READ) with false. cbv iota zeta. rewrite Et. cbn [io_sector io_count io_bdev]. rewrite Z.add_0_r.
  rewrite bind_modify.
  assert (Ew : map (fun t => (t.1, cw_mem w1 !!! t.2)) (region_transfer b bs l) = block_writes (cw_k w1) i b).
  { apply write_data; [|done|done]. intros o Ho. rewrite M1, K1. by apply Hbuf. }
  rewrite Ew. eexists _, _. split; [done|]. split_and!; [by cbn; rewrite M1| |].
  - intros k0 Hwb. eapply io_step_trans; [by apply io_step_reads|].
    constructor; try done; [exists (stats (cw_d w1)); cbn; by destruct (cw_d w1)|].
    eexists. split; [done|]. intros t moved ->%list_elem_of_singleton. cbn.
    apply (wb_image_write k0 (cw_k w1) (IoFailed 1 moved) i b); [by rewrite K1|done].
  - right. exists r. cbn [cw_k set_cw_k]. split; [by rewrite K1|].
    intros Hok Ee. exact (proj1 (io_errors_0 r (O1 (reads_only_results _ _ R0 Hok))) Ee).
Qed.

Lemma io_step_at P w w' : io_step P w w' -> at_d d w -> at_d d w'.
Proof. intros [[st E] _ _ _ _] [st' E']. exists st. by rewrite E, E'. Qed.

Lemma buffered_same_ssd w w' i : cw_mem w' = cw_mem w -> on_ssd (cw_k w') = on_ssd (cw_k w) ->
  buffered d bvs start w i -> buffered d bvs start w' i.
Proof. intros Em Es H o Ho. rewrite Em, (H o Ho). by symmetry; apply block_data_ssd. Qed.

(** Every marked block is written, unless an error is reported; the disk stays
    a mixture of old contents and contents of the SSD throughout. *)
Lemma write_blocks_ok k0 : forall blocks sio w,
  NoDup blocks -> (forall i, i ∈ blocks -> i ∈ set_blocks d set) -> at_d d w -> clean_dbvecs w = bvs ->
  wb_image k0 (cw_k w) -> (forall i, i ∈ blocks -> clean_inprog d i = true -> buffered d bvs start w i) ->
  exists e w', write_blocks start blocks sio w = Some (e, w') /\ cw_mem w' = cw_mem w /\
    io_step (wb_image k0) w w' /\ wb_image k0 (cw_k w') /\
    (forall j, j ∉ blocks -> hdd_done k0 (cw_k w) j -> hdd_done k0 (cw_k w') j) /\
    (Forall io_result_ok (cw_results w) -> e = 0 ->
       sio = 0 /\ forall i, i ∈ blocks -> clean_inprog d i = true -> hdd_done k0 (cw_k w') i).
Proof.
  induction blocks as [|i blocks IH]; intros sio w Hnd Hin Hd Ev Hwb Hbuf.
  { exists sio, w. split_and!; try done; [apply io_step_refl|]. intros _ E. split; [done|]. by intros i ?%not_elem_of_nil. }
  apply NoDup_cons in Hnd as [Hni Hnd]. cbn [write_blocks]. rewrite bind_gets.
  assert (Hin' : forall j, j ∈ blocks -> j ∈ set_blocks d set) by (intros; apply Hin, elem_of_cons; by right).
  destruct Hd as [st Ed]. rewrite Ed. change (clean_inprog (set_stats st d) i) with (clean_inprog d i).
  destruct (clean_inprog d i) eqn:Eci.
  - destruct (marked_dbn i (Hin i ltac:(apply elem_of_cons; by left)) Eci) as (b & Hm & _).
    destruct (write_block_ok w i b) as (e & w1 & E1 & M1 & S1 & C1);
      [by exists st|done|done|by apply Hbuf; [apply elem_of_cons; left|]|].
    rewrite (bind_run _ _ _ _ _ E1). specialize (S1 k0 Hwb).
    assert (H1 : wb_image k0 (cw_k w1) /\ on_ssd (cw_k w1) = on_ssd (cw_k w) /\
       (forall j, j <> i -> hdd_done k0 (cw_k w) j -> hdd_done k0 (cw_k w1) j)).
    { destruct C1 as [[_ ->]|(r & -> & _)]; [done|]. split_and!; [by apply wb_image_write|done|].
      intros j Hne. by apply hdd_done_other. }
    destruct H1 as (Hwb1 & Essd & Hoth).
    destruct (IH (sio_update e sio) w1) as (e' & w2 & E2 & M2 & S2 & Hwb2 & Hoth2 & Hdone2);
      [done|done|eapply io_step_at; [done|by exists st]|by rewrite (is_dbvecs _ _ _ S1)|done| |].
    { intros j Hj Hcj. apply (buffered_same_ssd w); [done|done|]. apply Hbuf; [apply elem_of_cons; by right|done]. }
    exists e', w2. split_and!; [done|congruence|by eapply io_step_trans|done| |].
    + intros j Hj Hjd. apply not_elem_of_cons in Hj as [? ?]. auto.
    + intros Hok Ee. destruct (Hdone2 (is_results _ _ _ S1 Hok) Ee) as [[E0 ->]%sio_update_0 Hd2]. split; [done|].
      intros j [->|Hj]%elem_of_cons Hcj; [|by apply Hd2].
      apply Hoth2; [done|]. destruct C1 as [[Hne _]|(r & Ek & Hr)]; [done|]. rewrite Ek, (Hr Hok E0).
      by apply hdd_done_write.
  - destruct (IH sio w) as (e & w1 & E1 & M1 & S1 & Hwb1 & Hoth1 & Hdone1);
      [done|done|by exists st|done|done|intros; apply Hbuf; [apply elem_of_cons; by right|done]|].
    exists e, w1. split_and!; try done.
    + intros j Hj Hjd. apply not_elem_of_cons in Hj as [? ?]. auto.
    + intros Hok Ee. destruct (Hdone1 Hok Ee) as [-> Hd1]. split; [done|].
      intros j [->|Hj]%elem_of_cons Hcj; [congruence|by apply Hd1].
Qed.
End writing.
