(* ===== verification/CleanState.v ===== *)
(** * Crash recovery and the metadata write of a clean

    After an unclean shutdown the cache is rebuilt from the metadata on the
    SSD: a block marked dirty there supplies its sectors, the disk all others.
    The metadata of a set is sound when this gives the contents the running
    cache stands for.

    ** The states and counters of a clean

    Marking the blocks to clean, and the final update of their states and of
    the dirty counters. *)

From S2P Require Import Prelude Types Mem DList Scan Policy Lookup World Dispatch Disk Clean CleanIo SetLru Thresh.

(** * Crash recovery and the metadata write of a clean *)
(** ** What the cached volume holds *)

(** block [i], one of the blocks [p], caches sector [s] *)
Definition held_by (p : Z -> bool) (d : cache_c) (s i : Z) : bool :=
  p i && bool_decide (EIO_DBN_GET d i = Some (EIO_ROUND_SECTOR d s)).
(** the contents when the blocks [p] supply their sectors, the disk all others *)
Definition contents (p : Z -> bool) (d : cache_c) (k : disks) (s : Z) : sector_data :=
  match List.find (held_by p d s) (set_blocks d (dbn_set d s)) with
  | Some i => block_data d k i (s - EIO_ROUND_SECTOR d s)
  | None => on_hdd k !!! s
  end.

(** the volume: the dirty blocks supply their sectors *)
Definition is_dirty (d : cache_c) (i : Z) : bool := tst (EIO_CACHE_STATE_GET d i) DIRTY.
Definition dirty_cached (d : cache_c) : Z -> Z -> bool := held_by (is_dirty d) d.
Definition volume (d : cache_c) : disks -> Z -> sector_data := contents (is_dirty d) d.

(** what recovery makes of the devices alone (geometry and layout apart) *)
Definition dirty_entry (d : cache_c) (k : disks) (s i : Z) : bool :=
  match flash_entry d k i with
  | Some f => tst (fc_state f) DIRTY && (fc_dbn f =? EIO_ROUND_SECTOR d s)
  | None => false
  end.
Definition recovered (d : cache_c) (k : disks) (s : Z) : sector_data :=
  match List.find (dirty_entry d k s) (set_blocks d (dbn_set d s)) with
  | Some i => block_data d k i (s - EIO_ROUND_SECTOR d s)
  | None => on_hdd k !!! s
  end.

(** the disk holds the same as the SSD for block [i] *)
Definition synced (d : cache_c) (k : disks) (i : Z) : Prop :=
  forall b o, EIO_DBN_GET d i = Some b -> 0 <= o < block_size d -> on_hdd k !!! (b + o) = block_data d k i o.

(** the entry of block [i] says it is dirty only if it is one of [p], and a
    block of [p] it does not say so of is synced *)
Definition entry_for (p : Z -> bool) (d : cache_c) (k : disks) (i : Z) : Prop :=
  exists f, flash_entry d k i = Some f /\
    (tst (fc_state f) DIRTY = true -> p i = true /\ EIO_DBN_GET d i = Some (fc_dbn f)) /\
    (p i = true -> tst (fc_state f) DIRTY = false -> synced d k i).
Definition sound_for (p : Z -> bool) (d : cache_c) (k : disks) (set : Z) : Prop :=
  forall i, i ∈ set_blocks d set -> entry_for p d k i.
Definition entry_sound (d : cache_c) : disks -> Z -> Prop := entry_for (is_dirty d) d.
Definition flash_sound (d : cache_c) (k : disks) (set : Z) : Prop := forall i, i ∈ set_blocks d set -> entry_sound d k i.

Lemma find_unique {A} (P : A -> bool) l i : i ∈ l -> P i = true -> (forall j, j ∈ l -> P j = true -> j = i) -> List.find P l = Some i.
Proof.
  intros Hi Hp Hu. destruct (List.find P l) as [j|] eqn:E.
  - apply list_find_Some in E as [Hj Hpj]. f_equal. auto.
  - by rewrite (list_find_None _ _ E i Hi) in Hp.
Qed.
Lemma find_none {A} (P : A -> bool) l : (forall j, j ∈ l -> P j = false) -> List.find P l = None.
Proof. intros H. destruct (List.find P l) as [j|] eqn:E; [|done]. apply list_find_Some in E as [Hj Hp]. by rewrite H in Hp. Qed.

Lemma dirty_not_invalid s : tst s DIRTY = true -> s <> INVALID.
Proof. by intros H ->. Qed.

Section volume.
Context (d : cache_c) (Hinv : blk_inv d).
Abbreviation bs := (block_size d).

Lemma set_block_range s i : 0 <= s -> i ∈ set_blocks d (dbn_set d s) -> 0 <= i < dmc_size d.
Proof. intros Hs. apply set_blocks_range; [apply Hinv|]. apply dbn_to_set_spec; [apply Hinv|done]. Qed.

Section committed.
Context (p : Z -> bool) (Hp : forall i, p i = true -> EIO_CACHE_STATE_GET d i <> INVALID).

Lemma held_by_spec s i : held_by p d s i = true <-> p i = true /\ EIO_DBN_GET d i = Some (EIO_ROUND_SECTOR d s).
Proof. unfold held_by. by rewrite andb_true_iff, bool_decide_eq_true. Qed.

Lemma held_by_uniq s i j : 0 <= s -> i ∈ set_blocks d (dbn_set d s) -> j ∈ set_blocks d (dbn_set d s) ->
  held_by p d s i = true -> held_by p d s j = true -> i = j.
Proof.
  intros Hs Hi Hj [D1 E1]%held_by_spec [D2 E2]%held_by_spec.
  apply (bi_uniq d Hinv); eauto using set_block_range. by rewrite E1, E2.
Qed.

(** the contents, by cases *)
Lemma contents_held k s i : 0 <= s -> i ∈ set_blocks d (dbn_set d s) -> held_by p d s i = true ->
  contents p d k s = block_data d k i (s - EIO_ROUND_SECTOR d s).
Proof.
  intros Hs Hi Hd. unfold contents. rewrite (find_unique _ _ i); [done|done|done|].
  intros j Hj Hdj. by apply (held_by_uniq s).
Qed.
Lemma contents_none k s : (forall i, i ∈ set_blocks d (dbn_set d s) -> held_by p d s i = false) ->
  contents p d k s = on_hdd k !!! s.
Proof. intros H. unfold contents. by rewrite find_none. Qed.
Lemma contents_cases s :
  (exists i, i ∈ set_blocks d (dbn_set d s) /\ held_by p d s i = true) \/
  (forall i, i ∈ set_blocks d (dbn_set d s) -> held_by p d s i = false).
Proof.
  destruct (List.find (held_by p d s) (set_blocks d (dbn_set d s))) as [i|] eqn:E.
  - left. exists i. by apply list_find_Some.
  - right. by apply list_find_None.
Qed.

(** recovery from metadata sound for [p] gives the contents of [p] *)
Lemma recovered_contents k s : 0 <= s -> sound_for p d k (dbn_set d s) -> recovered d k s = contents p d k s.
Proof.
  intros Hs Hf. pose proof (bi_geom d Hinv) as Hg. destruct (round_sector_le d s Hg Hs) as (Hr0 & Hr1 & _).
  assert (Hen : forall j, j ∈ set_blocks d (dbn_set d s) -> dirty_entry d k s j = true -> held_by p d s j = true).
  { intros j Hj Hd. destruct (Hf j Hj) as (f & Ef & H1 & _). unfold dirty_entry in Hd. rewrite Ef in Hd.
    apply andb_true_iff in Hd as [Hd Hb%Z.eqb_eq]. destruct (H1 Hd) as [? E]. apply held_by_spec. by rewrite E, Hb. }
  destruct (contents_cases s) as [(i & Hi & Hd)|Hn].
  - rewrite (contents_held k s i Hs Hi Hd). destruct (Hf i Hi) as (f & Ef & H1 & H2).
    pose proof (proj1 (held_by_spec s i) Hd) as [Dd Ed]. unfold recovered.
    destruct (tst (fc_state f) DIRTY) eqn:Et.
    + rewrite (find_unique _ _ i); [done|done| |intros j Hj Hdj; apply (held_by_uniq s); auto].
      unfold dirty_entry. rewrite Ef, Et. destruct (H1 eq_refl) as [_ E]. rewrite Ed in E. injection E as <-. cbn. apply Z.eqb_refl.
    + rewrite find_none.
      * specialize (H2 Dd eq_refl (EIO_ROUND_SECTOR d s) (s - EIO_ROUND_SECTOR d s) Ed ltac:(lia)).
        rewrite <-H2. f_equal. lia.
      * intros j Hj. destruct (dirty_entry d k s j) eqn:Edj; [|done].
        assert (j = i) as -> by (apply (held_by_uniq s); auto). unfold dirty_entry in Edj. by rewrite Ef, Et in Edj.
  - rewrite contents_none by done. unfold recovered. rewrite find_none; [done|].
    intros j Hj. destruct (dirty_entry d k s j) eqn:Edj; [|done]. by rewrite <-(Hn j Hj), Hen.
Qed.
End committed.

(** the volume *)
Lemma is_dirty_valid i : is_dirty d i = true -> EIO_CACHE_STATE_GET d i <> INVALID.
Proof. apply dirty_not_invalid. Qed.
Lemma dirty_cached_spec s i : dirty_cached d s i = true <->
  tst (EIO_CACHE_STATE_GET d i) DIRTY = true /\ EIO_DBN_GET d i = Some (EIO_ROUND_SECTOR d s).
Proof. apply (held_by_spec (is_dirty d)). Qed.
Lemma dirty_cached_uniq s i j : 0 <= s -> i ∈ set_blocks d (dbn_set d s) -> j ∈ set_blocks d (dbn_set d s) ->
  dirty_cached d s i = true -> dirty_cached d s j = true -> i = j.
Proof. apply held_by_uniq, is_dirty_valid. Qed.
Lemma volume_dirty k s i : 0 <= s -> i ∈ set_blocks d (dbn_set d s) -> dirty_cached d s i = true ->
  volume d k s = block_data d k i (s - EIO_ROUND_SECTOR d s).
Proof. apply contents_held, is_dirty_valid. Qed.
Lemma volume_clean k s : (forall i, i ∈ set_blocks d (dbn_set d s) -> dirty_cached d s i = false) ->
  volume d k s = on_hdd k !!! s.
Proof. apply (contents_none (is_dirty d)). Qed.
Lemma volume_cases s : 0 <= s ->
  (exists i, i ∈ set_blocks d (dbn_set d s) /\ dirty_cached d s i = true) \/
  (forall i, i ∈ set_blocks d (dbn_set d s) -> dirty_cached d s i = false).
Proof. intros _. apply (contents_cases (is_dirty d)). Qed.
Lemma recovered_volume k s : 0 <= s -> flash_sound d k (dbn_set d s) -> recovered d k s = volume d k s.
Proof. apply recovered_contents, is_dirty_valid. Qed.

(** if the entries, the data of the set's blocks and the disk sector do not
    change, recovery gives the same *)
Lemma recovered_ext k k' s : 0 <= s ->
  (forall i, i ∈ set_blocks d (dbn_set d s) -> flash_entry d k' i = flash_entry d k i) ->
  (forall i o, i ∈ set_blocks d (dbn_set d s) -> 0 <= o < bs -> block_data d k' i o = block_data d k i o) ->
  on_hdd k' !!! s = on_hdd k !!! s -> recovered d k' s = recovered d k s.
Proof.
  intros Hs Hf Hd Eh. unfold recovered.
  assert (E : forall l, (forall i, i ∈ l -> i ∈ set_blocks d (dbn_set d s)) -> List.find (dirty_entry d k' s) l = List.find (dirty_entry d k s) l).
  { induction l as [|i l IH]; intros Hl; cbn; [done|].
    assert (dirty_entry d k' s i = dirty_entry d k s i) as -> by (unfold dirty_entry; rewrite Hf by (apply Hl, elem_of_cons; by left); done).
    destruct (dirty_entry d k s i); [done|]. apply IH. intros; apply Hl, elem_of_cons; by right. }
  rewrite E by done. destruct (List.find _ _) as [i|] eqn:Ef; [|done].
  apply list_find_Some in Ef as [Hi _]. apply Hd; [done|]. pose proof (round_sector_le d s (bi_geom d Hinv) Hs). lia.
Qed.

(** a sector of a block belongs to the block's set and rounds to its start *)
Lemma sector_of_block b o : 0 <= b -> (bs | b) -> 0 <= o < bs ->
  EIO_ROUND_SECTOR d (b + o) = b /\ dbn_set d (b + o) = dbn_set d b.
Proof.
  intros Hb [x ->] Ho. pose proof (bi_geom d Hinv) as Hg. pose proof (block_size_pos d Hg).
  assert (E : (x * bs + o) / bs = x) by (rewrite Z.div_add_l by lia; rewrite Z.div_small by lia; lia).
  rewrite round_sector, E by (done || lia). split; [done|].
  apply dbn_set_block; [done|lia|lia|]. by rewrite E, Z.div_mul by lia.
Qed.
End volume.

(** ** Layout of the metadata on the SSD *)
Record md_layout (d : cache_c) : Prop := {
  ml_assoc : (MD_BLOCKS_PER_SECTOR | assoc d);
  ml_small : assoc d <= 2 * MD_BLOCKS_PER_PAGE;
  ml_data : md_start_sect d + dmc_size d / MD_BLOCKS_PER_SECTOR <= md_sectors d
}.
(** [clean_mdpages]: as many pages as the entries of a set need *)
Definition pages_ok (d : cache_c) (pages : list Z) : Prop :=
  NoDup pages /\ Z.of_nat (length pages) = (assoc d + MD_BLOCKS_PER_PAGE - 1) / MD_BLOCKS_PER_PAGE.

Lemma seqZ_0_8 : seqZ 0 8 = [0; 1; 2; 3; 4; 5; 6; 7].
Proof. reflexivity. Qed.

Lemma page_bvec_slots pages j : bvec_slots (map page_bvec pages) !! j = page_slot pages j.
Proof.
  revert j. induction pages as [|p pages IH]; intros j; [unfold page_slot; by rewrite lookup_nil|].
  cbn [map]. rewrite bvec_slots_cons. change (page_slots (bv_page (page_bvec p), bv_len (page_bvec p), bv_offset (page_bvec p)))
    with (map (fun k => (p, 0 + k)) (seqZ 0 8)).
  assert (L8 : length (map (fun k => (p, 0 + k)) (seqZ 0 8)) = 8%nat) by done.
  destruct (decide (j < 8)%nat) as [Hj|Hj].
  - rewrite lookup_app_l by (rewrite L8; lia). unfold page_slot. rewrite Nat.div_small, Nat.mod_small by lia. cbn [lookup list_lookup].
    change (map ?f ?x) with (f <$> x). rewrite list_lookup_fmap, lookup_seqZ_lt by lia. done.
  - rewrite lookup_app_r, L8, IH by (rewrite L8; lia). unfold page_slot.
    destruct (Nat.le_exists_sub 8 j) as (m & -> & _); [lia|]. rewrite Nat.add_sub.
    replace (m + 8)%nat with (m + 1 * 8)%nat by lia. rewrite Nat.div_add, Nat.Div0.mod_add by lia.
    rewrite Nat.add_1_r. done.
Qed.

Lemma page_slot_inj pages j j' sl : NoDup pages -> page_slot pages j = Some sl -> page_slot pages j' = Some sl -> j = j'.
Proof.
  unfold page_slot. intros Hnd. destruct (pages !! (j / 8)%nat) as [p|] eqn:E; [|done]. intros [= <-].
  destruct (pages !! (j' / 8)%nat) as [p'|] eqn:E'; [|done]. intros [= -> Em].
  pose proof (NoDup_lookup _ _ _ _ Hnd E E') as Ed.
  apply Nat2Z.inj in Em. rewrite (Nat.div_mod_eq j 8), (Nat.div_mod_eq j' 8). change (j' mod 8 = j mod 8)%nat in Em. congruence.
Qed.

(** the pages after [fill_md_pages] *)
Lemma fill_md_pages_ok pages entries : NoDup pages -> forall js mem, NoDup js ->
  (forall j, j ∈ js -> is_Some (page_slot pages j)) ->
  exists mem', fill_md_pages pages entries js mem = Some mem' /\
    forall j sl, page_slot pages j = Some sl -> mem' !!! sl = if decide (j ∈ js) then md_sector entries j else mem !!! sl.
Proof.
  intros Hnd. induction js as [|j js IH]; intros mem Hj Hs; cbn [fill_md_pages].
  { exists mem. split; [done|]. intros j sl _. by rewrite decide_False by apply not_elem_of_nil. }
  apply NoDup_cons in Hj as [Hnj Hj]. destruct (Hs j) as [sl Esl]; [apply elem_of_cons; by left|]. rewrite Esl.
  destruct (IH (<[sl := md_sector entries j]> mem) Hj) as (mem' & -> & Hm).
  { intros j' Hj'. apply Hs, elem_of_cons. by right. }
  exists mem'. split; [done|]. intros j' sl' E'. rewrite (Hm j' sl' E').
  destruct (decide (j' ∈ js)).
  - by rewrite decide_True by (apply elem_of_cons; by right).
  - destruct (decide (j' = j)) as [->|Hne].
    + rewrite decide_True by (apply elem_of_cons; by left). rewrite Esl in E'. injection E' as <-. by rewrite lookup_total_insert_eq.
    + rewrite decide_False by (intros [?|?]%elem_of_cons; done).
      apply lookup_total_insert_ne. intros ->. by rewrite (page_slot_inj pages j j' sl' Hnd Esl E') in Hne.
Qed.

Lemma md_entries_ok d blocks : (forall i, i ∈ blocks -> is_Some (EIO_DBN_GET d i)) ->
  exists l, md_entries d blocks = Some l /\ length l = length blocks /\
    forall n i, blocks !! n = Some i -> exists b, EIO_DBN_GET d i = Some b /\
      l !! n = Some (mk_flash b (clean_md_state (EIO_CACHE_STATE_GET d i))).
Proof.
  induction blocks as [|i blocks IH]; intros H; cbn [md_entries].
  { exists []. split_and!; [done|done|]. intros n i. by rewrite lookup_nil. }
  destruct (H i) as [b Eb]; [apply elem_of_cons; by left|]. rewrite Eb.
  destruct IH as (l & -> & Hl & Hn); [intros; apply H, elem_of_cons; by right|].
  eexists. split_and!; [done|by cbn; rewrite Hl|]. intros [|n] j; cbn; [intros [= <-]; by exists b|apply Hn].
Qed.

Section md_write.
Context (d : cache_c) (Hg : wf_geom d) (Hlay : md_layout d) (pages : list Z) (Hpages : pages_ok d pages) (set : Z).
Hypothesis Hset : 0 <= set < num_sets d.
Abbreviation start := (set_start d set).

(** sectors of metadata of one set *)
Definition md_set_sectors : Z := assoc d / MD_BLOCKS_PER_SECTOR.

Lemma md_sizes : MD_BLOCKS_PER_SECTOR = 32 /\ MD_BLOCKS_PER_PAGE = 256 /\ assoc d = 32 * md_set_sectors /\ 0 < md_set_sectors <= 16.
Proof.
  destruct Hlay as [[q Hq] Hs _]. unfold md_set_sectors. change MD_BLOCKS_PER_SECTOR with 32 in *. change MD_BLOCKS_PER_PAGE with 256 in *.
  pose proof (assoc_pos d Hg). rewrite Hq, Z.div_mul by lia. split_and!; lia.
Qed.

Lemma md_pages_len : Z.of_nat (length pages) = (md_set_sectors + 7) / 8.
Proof.
  destruct Hpages as [_ E]. destruct md_sizes as (E1 & E2 & Ea & _). rewrite E, E2, Ea.
  replace (32 * md_set_sectors + 256 - 1) with (31 + (md_set_sectors + 7) * 32) by ring.
  change 256 with (32 * 8). rewrite <-Z.div_div by lia. rewrite Z.div_add by lia. done.
Qed.

Lemma md_pages_fit : bvecs_fit (map page_bvec pages) md_set_sectors /\ pages <> [] /\ (length pages <= 2)%nat.
Proof.
  pose proof md_pages_len as Hl. destruct md_sizes as (_ & _ & _ & Hn).
  assert (Hp : forall p, bvec_ok (page_bvec p)) by (intros p; split; [done|by exists 8]).
  pose proof (Z.div_mod (md_set_sectors + 7) 8 ltac:(lia)) as D. pose proof (Z.mod_pos_bound (md_set_sectors + 7) 8 ltac:(lia)).
  rewrite <-Hl in D. clear Hl. revert D. destruct pages as [|p1 [|p2 [|p3 l]]]; cbn [length map bvecs_fit]; intros D; try lia.
  - split_and!; try done; try lia. change (eio_to_sector (bv_len (page_bvec p1))) with 8. lia.
  - change (eio_to_sector (bv_len (page_bvec p1))) with 8. change (eio_to_sector (bv_len (page_bvec p2))) with 8.
    split_and!; try done; try lia.
Qed.

Lemma md_page_slot j : (j < Z.to_nat md_set_sectors)%nat -> is_Some (page_slot pages j).
Proof.
  intros Hj. unfold page_slot. pose proof md_pages_len as Hl.
  destruct (lookup_lt_is_Some_2 pages (j / 8)) as [p ->]; [|done].
  pose proof (Nat.div_mod_eq j 8). pose proof (Z.div_mod (md_set_sectors + 7) 8 ltac:(lia)).
  pose proof (Z.mod_pos_bound (md_set_sectors + 7) 8 ltac:(lia)). lia.
Qed.

(** the sectors written and what they get *)
Definition md_writes (entries : list flash_cacheblock) : list (Z * sector_data) :=
  map (fun j => (md_start_sect d + INDEX_TO_MD_SECTOR start + j, md_sector entries (Z.to_nat j))) (seqZ 0 md_set_sectors).

Lemma md_writes_nodup entries : NoDup (md_writes entries).*1.
Proof.
  unfold md_writes. rewrite <-list_fmap_compose. apply NoDup_fmap_2; [|apply NoDup_seqZ]. intros x y E. cbn in E. lia.
Qed.
Lemma md_writes_elem entries s v : (s, v) ∈ md_writes entries <->
  exists j, 0 <= j < md_set_sectors /\ s = md_start_sect d + INDEX_TO_MD_SECTOR start + j /\ v = md_sector entries (Z.to_nat j).
Proof.
  unfold md_writes. rewrite list_elem_of_fmap. setoid_rewrite elem_of_seqZ. split.
  - intros (o & [= -> ->] & ?). exists o. split; [lia|done].
  - intros (o & ? & -> & ->). exists o. split; [done|lia].
Qed.

Lemma md_index i : i ∈ set_blocks d set ->
  INDEX_TO_MD_SECTOR i = INDEX_TO_MD_SECTOR start + (i - start) / 32 /\ 0 <= (i - start) / 32 < md_set_sectors /\
  INDEX_TO_MD_SECTOR_OFFSET i = (i - start) mod 32.
Proof.
  intros Hi%elem_of_seqZ. fold start in Hi. destruct md_sizes as (E1 & _ & Ea & _).
  unfold INDEX_TO_MD_SECTOR, INDEX_TO_MD_SECTOR_OFFSET, EIO_DIV, EIO_REM. rewrite E1.
  assert (Es : start = 32 * (set * md_set_sectors)) by (unfold set_start; rewrite Ea; ring).
  split_and!.
  - rewrite Es. replace i with ((i - start) + set * md_set_sectors * 32) at 1 by lia. rewrite Z.div_add by lia.
    rewrite (Z.mul_comm 32 (set * md_set_sectors)), Z.div_mul by lia. rewrite Es. rewrite Z.mul_comm. lia.
  - apply Z.div_pos; lia.
  - apply Z.div_lt_upper_bound; lia.
  - rewrite Es. replace (i - 32 * (set * md_set_sectors)) with (i + - (set * md_set_sectors) * 32) by ring.
    by rewrite Z.mod_add by lia.
Qed.

Lemma md_sector_lookup entries n : (n < length entries)%nat ->
  exists l, md_sector entries (n / 32) = MdBlocks l /\ l !! (n mod 32)%nat = entries !! n.
Proof.
  intros Hn. eexists; split; [done|]. change (Z.to_nat MD_BLOCKS_PER_SECTOR) with 32%nat.
  pose proof (Nat.mod_upper_bound n 32 ltac:(lia)). rewrite lookup_take_lt, lookup_drop by done.
  f_equal. rewrite (Nat.div_mod_eq n 32) at 3. lia.
Qed.

(** the devices after the write, with result [r] *)
Definition write_md_disks (r : io_result) (k : disks) (entries : list flash_cacheblock) : disks :=
  dev_set SSD (write_sectors r (md_writes entries) (on_ssd k)) k.

(** the entry of a block of the set is the old one or the new one *)
Lemma flash_entry_written r k entries i : length entries = Z.to_nat (assoc d) -> i ∈ set_blocks d set ->
  flash_entry d (write_md_disks r k entries) i =
    if moved_sector r (md_start_sect d + INDEX_TO_MD_SECTOR i) then entries !! Z.to_nat (i - start) else flash_entry d k i.
Proof.
  intros Hl Hi. destruct (md_index i Hi) as (E1 & Hj & E2). apply elem_of_seqZ in Hi. fold start in Hi.
  unfold flash_entry. cbn [write_md_disks dev_set on_ssd]. rewrite write_sectors_lookup by apply md_writes_nodup.
  set (s := md_start_sect d + INDEX_TO_MD_SECTOR i).
  assert (Hin : (s, md_sector entries (Z.to_nat ((i - start) / 32))) ∈ md_writes entries).
  { apply md_writes_elem. exists ((i - start) / 32). split_and!; [lia|lia|subst s; lia|done]. }
  rewrite (elem_of_list_to_map_1 _ _ _ (md_writes_nodup entries) Hin).
  destruct (moved_sector r s); [|done]. destruct (md_sector_lookup entries (Z.to_nat (i - start))) as (l & E & El); [lia|].
  replace (Z.to_nat ((i - start) / 32)) with (Z.to_nat (i - start) / 32)%nat by (rewrite Z2Nat.inj_div by lia; done).
  rewrite E, E2. rewrite <-El. f_equal. rewrite Z2Nat.inj_mod by lia. done.
Qed.

Lemma flash_entry_other r k entries i : 0 <= i < dmc_size d -> i / assoc d <> set ->
  flash_entry d (write_md_disks r k entries) i = flash_entry d k i.
Proof.
  intros Hi Hne. unfold flash_entry. cbn [write_md_disks dev_set on_ssd]. rewrite write_sectors_ne; [done|].
  intros ([s v] & E & Hin)%list_elem_of_fmap. apply md_writes_elem in Hin as (j & Hj & -> & _). cbn in E.
  destruct md_sizes as (E1 & _ & Ea & _). unfold INDEX_TO_MD_SECTOR, EIO_DIV in E. rewrite E1 in E.
  assert (Es : start = (set * md_set_sectors) * 32) by (unfold set_start; rewrite Ea; ring).
  rewrite Es, Z.div_mul in E by lia. apply Hne.
  assert (Ei : i / 32 = set * md_set_sectors + j) by lia.
  rewrite Ea. rewrite <-Z.div_div by lia. rewrite Ei. rewrite Z.div_add_l by lia. rewrite Z.div_small by lia. lia.
Qed.

(** block data is not metadata *)
Lemma block_data_md r k entries i o : 0 <= i -> 0 <= o ->
  block_data d (write_md_disks r k entries) i o = block_data d k i o.
Proof.
  intros Hi Ho. unfold block_data. cbn [write_md_disks dev_set on_ssd]. apply write_sectors_ne.
  intros ([s v] & E & Hin)%list_elem_of_fmap. apply md_writes_elem in Hin as (j & Hj & -> & _). cbn in E.
  rewrite data_sector_eq in E by done. destruct md_sizes as (E1 & _ & Ea & _). destruct Hlay as [_ _ Hd].
  rewrite (geo_size d Hg), E1, Ea in Hd. unfold INDEX_TO_MD_SECTOR, EIO_DIV in E. rewrite E1 in E.
  assert (Es : start = (set * md_set_sectors) * 32) by (unfold set_start; rewrite Ea; ring).
  rewrite Es, Z.div_mul in E by lia. replace (num_sets d * (32 * md_set_sectors)) with (num_sets d * md_set_sectors * 32) in Hd by ring.
  rewrite Z.div_mul in Hd by lia. pose proof (block_size_pos d Hg). nia.
Qed.

Lemma md_entries_stats st blocks : md_entries (set_stats st d) blocks = md_entries d blocks.
Proof. induction blocks as [|i blocks IH]; cbn [md_entries]; [done|]. rewrite IH. done. Qed.

Lemma md_transfer (mem : memory) entries :
  (forall j sl, page_slot pages j = Some sl -> (j < Z.to_nat md_set_sectors)%nat -> mem !!! sl = md_sector entries j) ->
  map (fun t => (t.1, mem !!! t.2))
    (region_transfer (md_start_sect d + INDEX_TO_MD_SECTOR start) md_set_sectors (map page_bvec pages)) = md_writes entries.
Proof.
  intros Hm. unfold region_transfer, md_writes. apply list_eq. intros j. change (map ?f ?x) with (f <$> x).
  rewrite !list_lookup_fmap, lookup_zip_with. destruct (decide (Z.of_nat j < md_set_sectors)) as [Hj|Hj].
  - rewrite !lookup_seqZ_lt by lia. rewrite lookup_take_lt, page_bvec_slots by lia.
    destruct (md_page_slot j) as [sl Esl]; [lia|]. rewrite Esl. cbn. rewrite (Hm j sl Esl) by lia. do 3 f_equal. lia.
  - rewrite !lookup_seqZ_ge by lia. done.
Qed.

Lemma md_alloc_size : eio_to_sector (i32 (assoc d * FLASH_CACHEBLOCK_SIZE)) = md_set_sectors.
Proof.
  destruct md_sizes as (_ & _ & Ea & Hn). rewrite i32_small by (unfold FLASH_CACHEBLOCK_SIZE; lia).
  unfold eio_to_sector, SECTOR_SHIFT, FLASH_CACHEBLOCK_SIZE. rewrite Z.shiftr_div_pow2, Ea by lia. change (2 ^ 9) with 512.
  replace (32 * md_set_sectors * 16) with (md_set_sectors * 512) by ring. by apply Z.div_mul.
Qed.

Lemma write_md_ok w : at_d d w -> clean_mdpages w = pages ->
  (forall i, i ∈ set_blocks d set -> is_Some (EIO_DBN_GET d i)) ->
  exists e w' entries, write_md start (set_blocks d set) w = Some (e, w') /\
    md_entries d (set_blocks d set) = Some entries /\
    (forall Q : disks -> Prop, (forall moved, Q (write_md_disks (IoFailed 1 moved) (cw_k w) entries)) -> io_step Q w w') /\
    (e <> 0 /\ cw_k w' = cw_k w \/
     exists r, cw_k w' = write_md_disks r (cw_k w) entries /\ (Forall io_result_ok (cw_results w) -> e = 0 -> r = IoOk)).
Proof.
  intros [st Ed] Ep Hdbn. destruct (md_entries_ok d _ Hdbn) as (entries & Een & Hlen & Hent).
  unfold set_blocks in Hlen. rewrite length_seqZ in Hlen. destruct md_sizes as (_ & _ & Ea & Hn). destruct md_pages_fit as (Hfit & Hne & H2).
  unfold write_md. rewrite bind_gets, Ed, bind_gets, Ep, bind_assert by by apply Nat.leb_le.
  rewrite (bind_eval (fun w => md_entries (cw_d w) (set_blocks d set)) _ w entries) by (by rewrite Ed, md_entries_stats).
  assert (Hsec : ((length entries + 31) / 32)%nat = Z.to_nat md_set_sectors).
  { rewrite Hlen, Ea. replace (Z.to_nat (32 * md_set_sectors) + 31)%nat with (31 + Z.to_nat md_set_sectors * 32)%nat by lia.
    by rewrite Nat.div_add by lia. }
  rewrite Hsec.
  destruct (fill_md_pages_ok pages entries (proj1 Hpages) (seq 0 (Z.to_nat md_set_sectors)) (cw_mem w)) as (mem & Efill & Hmem);
    [apply NoDup_seq|intros j Hj%elem_of_seq; apply md_page_slot; lia|].
  rewrite (bind_eval (fun w => fill_md_pages pages entries (seq 0 (Z.to_nat md_set_sectors)) (cw_mem w)) _ w mem Efill), bind_modify.
  cbv zeta. cbn [assoc md_start_sect set_stats]. rewrite md_alloc_size. set (w0 := set_cw_mem mem w).
  assert (R0 : reads_only w w0).
  { exists mem, (cw_results w), (stats (cw_d w)). subst w0. split; [by destruct w as [[]]|done]. }
  unfold eio_io_sync_pages. rewrite bind_gets. destruct (_ && _).
  { exists (- ENODEV), w0, entries. split_and!; [done|done|intros; by apply io_step_reads|by left]. }
  destruct (next_result_ok w0) as (r & w1 & E1 & R1 & M1 & O1). rewrite (bind_run _ _ _ _ _ E1).
  assert (R01 : reads_only w w1) by by etransitivity. destruct (reads_only_disks _ _ R01) as [K1 _].
  destruct (Z.eqb_spec (io_errors r).1 0) as [Er|Er]; cbn [negb].
  2:{ exists (io_errors r).1, w1, entries. split_and!; [done|done|intros; by apply io_step_reads|by left]. }
  unfold do_transfer. set (where_ := mk_region SSD _ _).
  destruct (dispatch_io_ok [] 0 where_ false (map page_bvec pages)) as (bios & E & Et); [done|done|by destruct pages|].
  rewrite bind_bind, (bind_eval (fun _ => eio_dispatch_io [] 0 where_ false (map page_bvec pages)) _ _ bios E).
  change (WRITE =? READ) with false. cbv iota zeta. rewrite Et. cbn [io_sector io_count io_bdev where_]. rewrite Z.add_0_r, bind_modify.
  assert (Ew : map (fun t => (t.1, cw_mem w1 !!! t.2)) (region_transfer (md_start_sect d + INDEX_TO_MD_SECTOR start) md_set_sectors
                 (map page_bvec pages)) = md_writes entries).
  { apply md_transfer. intros j sl Esl Hj. rewrite M1. cbn. rewrite (Hmem j sl Esl).
    by rewrite decide_True by (apply elem_of_seq; lia). }
  rewrite Ew. eexists _, _, entries. split_and!; [done|done| |].
  - intros Q HQ. eapply io_step_trans; [by apply io_step_reads|].
    constructor; try done; [exists (stats (cw_d w1)); cbn; by destruct (cw_d w1)|].
    eexists. split; [done|]. intros t moved ->%list_elem_of_singleton. cbn. rewrite K1. apply HQ.
  - right. exists r. cbn [cw_k set_cw_k]. split; [by rewrite K1|].
    intros Hok Ee. apply (proj1 (io_errors_0 r (O1 (reads_only_results _ _ R0 Hok)))). by destruct (io_errors r); cbn in *; subst.
Qed.
End md_write.

(** * The states and counters of a clean *)
(** ** Changing the states of cached blocks *)
Inductive restated (l : list Z) : cache_c -> cache_c -> Prop :=
| restated_refl d : restated l d d
| restated_step d i s d' : i ∈ l -> EIO_CACHE_STATE_GET d i <> INVALID -> 0 <= s < 256 -> Z.land s 3 = VALID ->
    restated l (EIO_CACHE_STATE_SET d i s) d' -> restated l d d'.

Lemma restated_weaken l l' d d' : (forall i, i ∈ l -> i ∈ l') -> restated l d d' -> restated l' d d'.
Proof. intros H. induction 1 as [d|d i s d' Hi H1 H2 H3 _ IH]; [constructor|]. by apply (restated_step l' d i s); [apply H|..]. Qed.

Lemma restated_ok l d d' : (forall i, i ∈ l -> 0 <= i < dmc_size d) -> blk_inv d -> restated l d d' ->
  blk_inv d' /\ md_only d d' /\ (forall j, 0 <= j -> EIO_DBN_GET d' j = EIO_DBN_GET d j) /\
  (forall j, j ∉ l -> EIO_CACHE_STATE_GET d' j = EIO_CACHE_STATE_GET d j).
Proof.
  intros Hr Hinv H. revert Hr Hinv. induction H as [d|d i s d' Hi Hne Hs Hv _ IH]; intros Hr Hinv; [done|].
  pose proof (state_set_geom d i s) as Eg. destruct (geom_fields _ _ Eg) as (Es & _).
  destruct IH as (I1 & I2 & I3 & I4).
  - intros j Hj. rewrite Es. by apply Hr.
  - apply blk_inv_set_state; auto.
  - split_and!; [done|etransitivity; [apply state_set_md_only|done]| |].
    + intros j Hj. rewrite I3 by done. apply state_set_dbn; [apply Hinv|done|done|].
      right. split; [by apply land3_not_invalid|done].
    + intros j Hj. rewrite I4 by done. apply state_get_set_ne. by intros ->.
Qed.

(** ** Marking *)
Lemma bool_decide_cons_ne (i j : Z) blocks : i <> j -> bool_decide (j ∈ i :: blocks) = bool_decide (j ∈ blocks).
Proof. intros Hne. apply bool_decide_ext. rewrite elem_of_cons. intuition congruence. Qed.

Lemma mark_whole_ok : forall blocks n d, NoDup blocks ->
  let '(n', d') := mark_whole blocks n d in
  restated blocks d d' /\ n <= n' /\
  (forall i, EIO_CACHE_STATE_GET d' i =
     if bool_decide (i ∈ blocks) && (EIO_CACHE_STATE_GET d i =? ALREADY_DIRTY) then CLEAN_INPROG else EIO_CACHE_STATE_GET d i).
Proof.
  induction blocks as [|i blocks IH]; intros n d Hnd; cbn [mark_whole].
  { split_and!; [constructor|lia|]. intros i. by rewrite bool_decide_false by apply not_elem_of_nil. }
  apply NoDup_cons in Hnd as [Hi Hnd]. destruct (EIO_CACHE_STATE_GET d i =? ALREADY_DIRTY) eqn:E.
  - specialize (IH (n + 1) (EIO_CACHE_STATE_SET d i CLEAN_INPROG) Hnd).
    destruct (mark_whole _ _ _) as [n' d']. destruct IH as (H1 & H2 & H3). split_and!; [|lia|].
    + apply (restated_step _ _ i CLEAN_INPROG); [apply elem_of_cons; by left| |done|done|].
      * apply Z.eqb_eq in E. by rewrite E.
      * eapply restated_weaken; [|exact H1]. intros; apply elem_of_cons; by right.
    + intros j. rewrite H3. destruct (decide (i = j)) as [<-|Hne].
      * rewrite state_get_set_eq by done. rewrite bool_decide_false by done.
        rewrite bool_decide_true by (apply elem_of_cons; by left). by rewrite E.
      * rewrite state_get_set_ne by done. rewrite (bool_decide_cons_ne i j blocks) by done. done.
  - specialize (IH n d Hnd). destruct (mark_whole _ _ _) as [n' d']. destruct IH as (H1 & H2 & H3). split_and!; [|lia|].
    + eapply restated_weaken; [|exact H1]. intros; apply elem_of_cons; by right.
    + intros j. rewrite H3. destruct (decide (i = j)) as [<-|Hne].
      * rewrite E, !andb_false_r. done.
      * rewrite (bool_decide_cons_ne i j blocks) by done. done.
Qed.

Lemma mark_whole_none : forall blocks n d, n <= (mark_whole blocks n d).1 /\
  ((mark_whole blocks n d).1 = n -> (mark_whole blocks n d).2 = d).
Proof.
  induction blocks as [|i blocks IH]; intros n d; cbn [mark_whole]; [done|].
  destruct (_ =? _); [|apply IH]. destruct (IH (n + 1) (EIO_CACHE_STATE_SET d i CLEAN_INPROG)). split; lia.
Qed.

Lemma cleanable_valid d i : state_ok (EIO_CACHE_STATE_GET d i) -> cleanable d i = true ->
  EIO_CACHE_STATE_GET d i <> INVALID /\ Z.land (Z.lor (EIO_CACHE_STATE_GET d i) DISKWRITEINPROG) 3 = VALID.
Proof.
  intros Hs Hc%cleanable_dirty. assert (Hne : EIO_CACHE_STATE_GET d i <> INVALID) by (intros E; by rewrite E in Hc).
  split; [done|]. apply land3_lor; [by apply state_ok_range|done].
Qed.

Lemma scan_clean_restated : forall order d to_clean n, (forall i, i ∈ order -> state_ok (EIO_CACHE_STATE_GET d i)) -> NoDup order ->
  restated order d (scan_clean d order to_clean n).2.
Proof.
  induction order as [|i order IH]; intros d to_clean n Hs Hnd; cbn [scan_clean]; [constructor|].
  apply NoDup_cons in Hnd as [Hni Hnd]. assert (Hs' : forall j, j ∈ order -> state_ok (EIO_CACHE_STATE_GET d j)) by (intros; apply Hs, elem_of_cons; by right).
  destruct (negb _); [constructor|]. destruct (cleanable d i) eqn:Ec.
  - destruct (cleanable_valid d i) as [H1 H2]; [apply Hs, elem_of_cons; by left|done|].
    apply (restated_step _ _ i (Z.lor (EIO_CACHE_STATE_GET d i) DISKWRITEINPROG)); [apply elem_of_cons; by left|done|
      apply lor_byte; [apply state_get_range|done]|done|].
    eapply restated_weaken; [|apply (IH (EIO_CACHE_STATE_ON d i DISKWRITEINPROG))]; [intros; apply elem_of_cons; by right| |done].
    intros j Hj. unfold EIO_CACHE_STATE_ON. rewrite state_get_set_ne by (by intros ->). by apply Hs'.
  - eapply restated_weaken; [|by apply IH]. intros; apply elem_of_cons; by right.
Qed.

(** between [d] and [d1] some dirty idle blocks of the set were marked *)
Record marking (set : Z) (d d1 : cache_c) : Prop := {
  mk_only : exists d0, md_only d d0 /\ pol_only d0 d1;
  mk_blk : blk_inv d1;
  mk_pol : policy_inv d1;
  mk_dbn : forall i, 0 <= i -> EIO_DBN_GET d1 i = EIO_DBN_GET d i;
  mk_st : forall i, EIO_CACHE_STATE_GET d1 i = EIO_CACHE_STATE_GET d i \/
    (i ∈ set_blocks d set /\ EIO_CACHE_STATE_GET d i = ALREADY_DIRTY /\ EIO_CACHE_STATE_GET d1 i = CLEAN_INPROG)
}.

(** no I/O is in progress on a dirty block of the set *)
Definition dirty_idle (d : cache_c) (set : Z) : Prop :=
  forall i, i ∈ set_blocks d set -> tst (EIO_CACHE_STATE_GET d i) DIRTY = true -> EIO_CACHE_STATE_GET d i = ALREADY_DIRTY.

Section marking.
Context (d : cache_c) (set : Z) (Hinv : blk_inv d) (Hpol : policy_inv d) (Hset : 0 <= set < num_sets d).

Lemma set_range i : i ∈ set_blocks d set -> 0 <= i < dmc_size d.
Proof. apply set_blocks_range; [apply Hinv|done]. Qed.

Lemma marking_refl : marking set d d.
Proof. constructor; try done; [by exists d|by left]. Qed.

Lemma mark_whole_marking : exists n d1, mark_whole (set_blocks d set) 0 d = (n, d1) /\ marking set d d1 /\ (n = 0 -> d1 = d).
Proof.
  pose proof (mark_whole_ok (set_blocks d set) 0 d (NoDup_seqZ _ _)) as H. pose proof (mark_whole_none (set_blocks d set) 0 d) as Hz.
  destruct (mark_whole _ _ _) as [n d1]. exists n, d1. split_and!; [done| |apply Hz]. destruct H as (H1 & _ & H3). cbn.
  destruct (restated_ok _ d d1 set_range Hinv H1) as (I1 & I2 & I3 & _). constructor; try done.
  - by exists d1.
  - by apply (policy_inv_md_only d).
  - intros i. rewrite H3. destruct (bool_decide_reflect (i ∈ set_blocks d set)); [|by left].
    destruct (Z.eqb_spec (EIO_CACHE_STATE_GET d i) ALREADY_DIRTY); [by right|by left].
Qed.

Lemma setblks_marking : dirty_idle d set ->
  exists n d1, eio_get_setblks_to_clean set d = Some (n, d1) /\ marking set d d1 /\
    (n = 0 -> forall i, EIO_CACHE_STATE_GET d1 i = EIO_CACHE_STATE_GET d i).
Proof.
  intros Hidle. unfold eio_get_setblks_to_clean. cbv zeta. set (m := i32 _).
  destruct (Z.leb_spec m 0); [exists 0, d; split_and!; [done|apply marking_refl|done]|].
  destruct Hpol as (p & Hp & _). rewrite Hp. rewrite <-Hp.
  destruct (clean_set_contract d set m (bi_geom d Hinv) Hpol Hset ltac:(lia)) as (order & nr & d1 & Hperm & E & Hnr & Hst & _ & _ & Hpi & Ho).
  eexists nr, d1. split; [exact E|]. split.
  2:{ intros E0 i. rewrite Hst, decide_False; [done|]. destruct (scan_marked _ _ _); [apply not_elem_of_nil|cbn in Hnr; lia]. }
  assert (Hord : forall i, i ∈ order -> i ∈ set_blocks d set) by (intros i; by rewrite Hperm).
  assert (Hre : restated (set_blocks d set) d (scan_clean d order m 0).2).
  { eapply restated_weaken; [exact Hord|]. apply scan_clean_restated; [|rewrite Hperm; apply NoDup_seqZ].
    intros i Hi. apply (bi_state d Hinv), set_range; auto. }
  destruct (restated_ok _ d _ set_range Hinv Hre) as (I1 & I2 & I3 & _).
  constructor; try done.
  - by eexists.
  - by eapply blk_inv_same; [apply pol_only_same_md|].
  - intros i Hi. rewrite <-I3 by done. by apply same_md_dbn, pol_only_same_md.
  - intros i. rewrite Hst. case_decide as Hm; [|by left]. right. apply scan_marked_order in Hm as [Hi Hc].
    split_and!; [auto| |]; rewrite (Hidle i) by (auto using cleanable_dirty); done.
Qed.
End marking.

(** ** Counting dirty blocks *)
Definition count_dirty (d : cache_c) (l : list Z) : Z := Z.of_nat (length (List.filter (is_dirty d) l)).

Lemma count_dirty_ext d d' l : (forall i, i ∈ l -> is_dirty d' i = is_dirty d i) -> count_dirty d' l = count_dirty d l.
Proof.
  intros H. unfold count_dirty. do 2 f_equal. induction l as [|i l IH]; cbn; [done|].
  rewrite H by (apply elem_of_cons; by left). rewrite IH by (intros; apply H, elem_of_cons; by right). done.
Qed.
Lemma count_dirty_cons d i l : count_dirty d (i :: l) = (if is_dirty d i then 1 else 0) + count_dirty d l.
Proof. unfold count_dirty. cbn [List.filter]. destruct (is_dirty d i); cbn [length]; lia. Qed.
Lemma count_dirty_bound d l : 0 <= count_dirty d l <= Z.of_nat (length l).
Proof. unfold count_dirty. induction l as [|i l IH]; cbn [List.filter length]; [lia|]. destruct (is_dirty d i); cbn [length]; lia. Qed.
(** a dirty block becomes clean *)
Lemma count_dirty_clean d i s l : NoDup l -> i ∈ l -> is_dirty d i = true -> 0 <= s < 256 -> tst s DIRTY = false ->
  count_dirty (EIO_CACHE_STATE_SET d i s) l = count_dirty d l - 1.
Proof.
  intros Hnd Hi Hd Hs Ht. induction l as [|j l IH]; [by apply not_elem_of_nil in Hi|].
  apply NoDup_cons in Hnd as [Hnj Hnd]. rewrite !count_dirty_cons. apply elem_of_cons in Hi as [->|Hi].
  - assert (is_dirty (EIO_CACHE_STATE_SET d j s) j = false) as -> by (unfold is_dirty; by rewrite state_get_set_eq).
    rewrite Hd, (count_dirty_ext d); [lia|]. intros k Hk. unfold is_dirty. by rewrite state_get_set_ne by (by intros ->).
  - assert (is_dirty (EIO_CACHE_STATE_SET d i s) j = is_dirty d j) as -> by (unfold is_dirty; by rewrite state_get_set_ne by (by intros ->)).
    rewrite IH by done. lia.
Qed.

(** ** The end of a clean *)
Definition all_blocks (d : cache_c) : list Z := seqZ 0 (dmc_size d).

(** the counters of the set and of the cache count dirty blocks *)
Record counted (d : cache_c) (set : Z) : Prop := {
  ct_set : cs_nr_dirty (cache_sets d !!! set) = count_dirty d (set_blocks d set);
  ct_all : nr_dirty d = count_dirty d (all_blocks d)
}.

(** metadata, the counters and nothing else *)
Definition clean_only (set : Z) (d d' : cache_c) : Prop :=
  exists c c8 z cs n, d' = set_nr_dirty n (set_cache_sets cs (set_index_zero z (set_cache c (set_cache_md8 c8 d)))) /\
    forall s, (s <> set -> cs !!! s = cache_sets d !!! s) /\
      cs_flags (cs !!! s) = cs_flags (cache_sets d !!! s) /\ cs_mdreq (cs !!! s) = cs_mdreq (cache_sets d !!! s).
Lemma clean_only_refl set d : clean_only set d d.
Proof. exists (cache d), (cache_md8 d), (index_zero d), (cache_sets d), (nr_dirty d). split; [by destruct d|done]. Qed.
Lemma clean_only_trans set d1 d2 d3 : clean_only set d1 d2 -> clean_only set d2 d3 -> clean_only set d1 d3.
Proof.
  intros (c & c8 & z & cs & n & -> & H) (c' & c8' & z' & cs' & n' & -> & H'). exists c', c8', z', cs', n'.
  split; [by destruct d1|]. intros s. destruct (H s) as (H1 & H2 & H3), (H' s) as (H4 & H5 & H6). cbn in *.
  split_and!; [intros Hne; rewrite H4, H1 by done; done|congruence|congruence].
Qed.
Lemma clean_only_md set d d' : md_only d d' -> clean_only set d d'.
Proof. intros (c & c8 & z & ->). exists c, c8, z, (cache_sets d), (nr_dirty d). split; [by destruct d|done]. Qed.

Record finished (set : Z) (blocks : list Z) (error : Z) (d d' : cache_c) : Prop := {
  fn_only : clean_only set d d';
  fn_blk : blk_inv d';
  fn_dbn : forall i, 0 <= i -> EIO_DBN_GET d' i = EIO_DBN_GET d i;
  fn_st : forall i, EIO_CACHE_STATE_GET d' i =
    if bool_decide (i ∈ blocks) && clean_inprog d i then (if error =? 0 then VALID else ALREADY_DIRTY) else EIO_CACHE_STATE_GET d i;
  fn_count : counted d' set
}.

Lemma clean_only_geom set d d' : clean_only set d d' -> geom d' = geom d.
Proof. by intros (c & c8 & z & cs & n & -> & _). Qed.

Section finish.
Context (set error : Z).

Lemma count_set_pos d i : blk_inv d -> i ∈ set_blocks d set -> is_dirty d i = true -> 0 < count_dirty d (set_blocks d set).
Proof.
  intros Hinv Hi Hd. pose proof (count_dirty_clean d i VALID (set_blocks d set) (NoDup_seqZ _ _) Hi Hd ltac:(done) ltac:(done)) as E.
  pose proof (count_dirty_bound (EIO_CACHE_STATE_SET d i VALID) (set_blocks d set)). lia.
Qed.

(** one block: its state and the counters *)
Lemma finish_step d i : blk_inv d -> 0 <= set < num_sets d -> i ∈ set_blocks d set -> counted d set -> dmc_size d < 2 ^ 31 ->
  clean_inprog d i = true ->
  exists d', (if negb (error =? 0) then modify (fun d => EIO_CACHE_STATE_SET d i ALREADY_DIRTY)
       else
         modify (fun d => EIO_CACHE_STATE_SET d i VALID) ;;
         n <- gets (fun d => cs_nr_dirty (cache_sets d !!! set)) ;;
         EIO_ASSERT (0 <? n) ;;
         modify (dec_nr_dirty set)) d = Some (tt, d') /\ finished set [i] error d d'.
Proof.
  intros Hinv Hset Hi [Hcs Hall] Hsz Hci. pose proof (set_blocks_range d set i (bi_geom d Hinv) Hset Hi) as Hr.
  assert (Est : EIO_CACHE_STATE_GET d i = CLEAN_INPROG) by by apply Z.eqb_eq.
  assert (Hd : is_dirty d i = true) by (unfold is_dirty; by rewrite Est).
  assert (Hone : forall s, 0 <= s < 256 -> Z.land s 3 = VALID -> restated [i] d (EIO_CACHE_STATE_SET d i s)).
  { intros s ? ?. apply (restated_step _ _ i s); [by apply list_elem_of_singleton|by rewrite Est|done|done|constructor]. }
  assert (Hst : forall s j, 0 <= s < 256 -> EIO_CACHE_STATE_GET (EIO_CACHE_STATE_SET d i s) j =
     if bool_decide (j ∈ [i]) && clean_inprog d j then s else EIO_CACHE_STATE_GET d j).
  { intros s j Hs. destruct (decide (i = j)) as [<-|Hne].
    - rewrite state_get_set_eq by done. rewrite bool_decide_true by (by apply list_elem_of_singleton). by rewrite Hci.
    - rewrite state_get_set_ne by done. rewrite bool_decide_false by (by intros ?%list_elem_of_singleton). done. }
  assert (Hri : forall j, j ∈ [i] -> 0 <= j < dmc_size d) by by intros j ->%list_elem_of_singleton.
  destruct (Z.eqb_spec error 0) as [E0|E0]; cbn [negb].
  - destruct (restated_ok [i] d _ Hri Hinv (Hone VALID ltac:(done) ltac:(done))) as (I1 & I2 & I3 & _).
    pose proof (count_set_pos d i Hinv Hi Hd) as Hpos. set (d1 := EIO_CACHE_STATE_SET d i VALID) in *.
    pose proof (md_only_geom _ _ I2) as Eg. destruct (geom_fields _ _ Eg) as (Es & Ea & _).
    assert (Ecs : cache_sets d1 = cache_sets d /\ nr_dirty d1 = nr_dirty d) by by destruct I2 as (c & c8 & z & ->).
    destruct Ecs as [Ecs End].
    pose proof (count_dirty_clean d i VALID (set_blocks d set) (NoDup_seqZ _ _) Hi Hd ltac:(done) ltac:(done)) as C1.
    pose proof (count_dirty_clean d i VALID (all_blocks d) (NoDup_seqZ _ _) ltac:(by apply elem_of_seqZ; lia) Hd ltac:(done) ltac:(done)) as C2.
    fold d1 in C1, C2. pose proof (count_dirty_bound d (set_blocks d set)) as B1. pose proof (count_dirty_bound d (all_blocks d)) as B2.
    assert (L1 : length (set_blocks d set) = Z.to_nat (assoc d)) by apply length_seqZ.
    assert (L2 : length (all_blocks d) = Z.to_nat (dmc_size d)) by apply length_seqZ. rewrite L1 in B1. rewrite L2 in B2.
    pose proof (assoc_pos d (bi_geom d Hinv)). pose proof (set_sectors_bound d (bi_geom d Hinv)).
    pose proof (block_size_pos d (bi_geom d Hinv)). assert (assoc d <= 2 ^ 23) by nia.
    rewrite bind_modify, bind_gets. fold d1. rewrite Ecs, bind_assert by (apply Z.ltb_lt; lia).
    eexists; split; [done|]. constructor.
    + eapply clean_only_trans; [by apply clean_only_md|]. unfold dec_nr_dirty.
      exists (cache d1), (cache_md8 d1), (index_zero d1), (<[set := {| (cache_sets d1 !!! set) with cs_nr_dirty := u32 (cs_nr_dirty (cache_sets d1 !!! set) - 1) |}]> (cache_sets d1)), (atomic64_dec (nr_dirty d1)).
      split; [by destruct d1|]. intros s. rewrite lookup_total_insert. case_decide as E; [subst s|]; done.
    + eapply blk_inv_same; [|exact I1]. clear. unfold dec_nr_dirty. generalize d1. by intros [].
    + exact I3.
    + intros j. rewrite E0. etransitivity; [apply (Hst VALID j); done|done].
    + constructor; cbn.
      * rewrite lookup_total_insert_eq. cbn. rewrite Ecs, Hcs. change (set_blocks (dec_nr_dirty set d1) set) with (set_blocks d1 set).
        assert (set_blocks d1 set = set_blocks d set) as -> by (unfold set_blocks, set_start; by rewrite Ea).
        unfold u32. rewrite Z.mod_small by lia. rewrite <-C1. by apply count_dirty_ext.
      * rewrite End, Hall. assert (all_blocks (dec_nr_dirty set d1) = all_blocks d) as -> by (unfold all_blocks; cbn; by rewrite Es).
        unfold atomic64_dec, i64. rewrite Z.mod_small by lia.
        transitivity (count_dirty d1 (all_blocks d)); [lia|by apply count_dirty_ext].
  - destruct (restated_ok [i] d _ Hri Hinv (Hone ALREADY_DIRTY ltac:(done) ltac:(done))) as (I1 & I2 & I3 & _).
    pose proof (md_only_geom _ _ I2) as Eg. destruct (geom_fields _ _ Eg) as (Es & Ea & _).
    eexists; split; [done|]. constructor; try done.
    + by apply clean_only_md.
    + intros j. rewrite (proj2 (Z.eqb_neq _ _) E0). by apply Hst.
    + assert (Edirty : forall j, is_dirty (EIO_CACHE_STATE_SET d i ALREADY_DIRTY) j = is_dirty d j).
      { intros j. unfold is_dirty. rewrite Hst by done. destruct (bool_decide_reflect (j ∈ [i])) as [->%list_elem_of_singleton|]; [|done].
        rewrite Hci, Est. done. }
      assert (Ecs : cache_sets (EIO_CACHE_STATE_SET d i ALREADY_DIRTY) = cache_sets d /\ nr_dirty (EIO_CACHE_STATE_SET d i ALREADY_DIRTY) = nr_dirty d)
        by by destruct I2 as (c & c8 & z & ->).
      destruct Ecs as [Ecs End]. constructor.
      * rewrite Ecs, Hcs. unfold set_blocks, set_start. rewrite Ea. symmetry. by apply count_dirty_ext.
      * rewrite End, Hall. unfold all_blocks. rewrite Es. symmetry. by apply count_dirty_ext.
Qed.

Lemma finished_cons d d1 d' i blocks : i ∉ blocks -> finished set [i] error d d1 -> finished set blocks error d1 d' ->
  finished set (i :: blocks) error d d'.
Proof.
  intros Hi [O1 B1 D1 S1 C1] [O2 B2 D2 S2 C2]. constructor; try done.
  - by eapply clean_only_trans.
  - intros j Hj. by rewrite D2, D1.
  - intros j. rewrite S2. destruct (decide (i = j)) as [<-|Hne].
    + rewrite (bool_decide_false (i ∈ blocks)) by done. rewrite S1.
      rewrite (bool_decide_true (i ∈ [i])) by by apply list_elem_of_singleton.
      rewrite (bool_decide_true (i ∈ i :: blocks)) by (apply elem_of_cons; by left). done.
    + assert (E : EIO_CACHE_STATE_GET d1 j = EIO_CACHE_STATE_GET d j).
      { rewrite S1. by rewrite bool_decide_false by (intros ?%list_elem_of_singleton; congruence). }
      rewrite bool_decide_cons_ne by done. unfold clean_inprog. by rewrite E.
Qed.

Lemma finished_skip d i : blk_inv d -> counted d set -> clean_inprog d i = false -> finished set [i] error d d.
Proof.
  intros Hinv Hc Hci. constructor; try done; [apply clean_only_refl|].
  intros j. destruct (bool_decide_reflect (j ∈ [i])) as [->%list_elem_of_singleton|]; [|done]. by rewrite Hci.
Qed.

Lemma clean_finish_ok : forall blocks d, NoDup blocks -> (forall i, i ∈ blocks -> i ∈ set_blocks d set) -> blk_inv d ->
  0 <= set < num_sets d -> counted d set -> dmc_size d < 2 ^ 31 ->
  exists d', clean_finish set blocks error d = Some (tt, d') /\ finished set blocks error d d'.
Proof.
  induction blocks as [|i blocks IH]; intros d Hnd Hin Hinv Hset Hc Hsz.
  { exists d. split; [done|]. constructor; try done. apply clean_only_refl. }
  apply NoDup_cons in Hnd as [Hi Hnd]. cbn [clean_finish]. rewrite bind_gets. cbn [id].
  assert (H1 : exists d1, when (clean_inprog d i) (if negb (error =? 0) then modify (fun d => EIO_CACHE_STATE_SET d i ALREADY_DIRTY)
       else modify (fun d => EIO_CACHE_STATE_SET d i VALID) ;;
         n <- gets (fun d => cs_nr_dirty (cache_sets d !!! set)) ;;
         EIO_ASSERT (0 <? n) ;; modify (dec_nr_dirty set)) d = Some (tt, d1) /\ finished set [i] error d d1).
  { destruct (clean_inprog d i) eqn:Eci; cbn [when].
    - apply finish_step; auto. apply Hin, elem_of_cons; by left.
    - exists d. split; [done|by apply finished_skip]. }
  destruct H1 as (d1 & E1 & F1). rewrite (bind_run _ _ _ _ _ E1).
  pose proof (clean_only_geom _ _ _ (fn_only _ _ _ _ _ F1)) as Eg. destruct (geom_fields _ _ Eg) as (Es & Ea & _ & _ & _ & En & _).
  destruct (IH d1) as (d' & E' & F'); [done| |apply F1|by rewrite En|apply F1|by rewrite Es|].
  - intros j Hj. unfold set_blocks, set_start. rewrite Ea. apply Hin, elem_of_cons. by right.
  - exists d'. split; [done|]. by apply (finished_cons d d1).
Qed.
End finish.
