(* ===== verification/CleanSet.v ===== *)
(** * A clean keeps the contents of the volume, whatever fails

    The theorem about [eio_clean_set]: with any I/O errors, the contents the
    cache stands for do not change, and neither do the contents recovery would
    find after a crash at any moment.

    ** [eio_clean_set], [eio_clean_all] and the clean thread

    The specification of a clean, and its composition over all the sets. *)

From S2P Require Import Prelude Types Mem DList SetLru Scan Policy Thresh Lookup World Dispatch Disk Clean CleanIo CleanState.

(** * A clean keeps the contents of the volume, whatever fails *)
(** same geometry and same layout of the SSD *)
Definition layout (d : cache_c) := (geom d, md_start_sect d, md_sectors d).

Lemma layout_geom d d' : layout d' = layout d -> geom d' = geom d.
Proof. intros E. exact (f_equal (fun x => x.1.1) E). Qed.
Lemma layout_sectors d d' : layout d' = layout d -> md_sectors d' = md_sectors d.
Proof. intros E. exact (f_equal snd E). Qed.
Lemma block_data_layout d d' k i o : layout d' = layout d -> block_data d' k i o = block_data d k i o.
Proof.
  intros E. destruct (geom_fields _ _ (layout_geom _ _ E)) as (_ & _ & _ & Es & _).
  pose proof (f_equal snd E : md_sectors d' = md_sectors d) as Em. unfold block_data, data_sector. by rewrite Es, Em.
Qed.
Lemma flash_entry_layout d d' k i : layout d' = layout d -> flash_entry d' k i = flash_entry d k i.
Proof.
  intros E. pose proof (f_equal (fun x => x.1.2) E : md_start_sect d' = md_start_sect d) as Em. unfold flash_entry. by rewrite Em.
Qed.
Lemma set_blocks_geom d d' set : geom d' = geom d -> set_blocks d' set = set_blocks d set.
Proof. intros (_ & E & _)%geom_fields. unfold set_blocks, set_start. by rewrite E. Qed.
Lemma round_geom d d' s : geom d' = geom d -> EIO_ROUND_SECTOR d' s = EIO_ROUND_SECTOR d s.
Proof. intros (_ & _ & E & _)%geom_fields. unfold EIO_ROUND_SECTOR. by rewrite E. Qed.

Lemma recovered_layout d d' k s : layout d' = layout d -> recovered d' k s = recovered d k s.
Proof.
  intros E. pose proof (layout_geom _ _ E) as Eg. unfold recovered.
  rewrite (geom_dbn_set _ _ _ Eg), (set_blocks_geom _ _ _ Eg), (round_geom _ _ _ Eg).
  assert (Ef : forall l, List.find (dirty_entry d' k s) l = List.find (dirty_entry d k s) l).
  { induction l as [|i l IH]; cbn; [done|]. rewrite IH. unfold dirty_entry. by rewrite (flash_entry_layout d d'), (round_geom _ _ _ Eg). }
  rewrite Ef. destruct (List.find _ _) as [i|]; [|done]. by apply block_data_layout.
Qed.

(** the contents depend on the committed blocks and their sectors *)
Lemma contents_ext p p' d d' k s : layout d' = layout d ->
  (forall i, i ∈ set_blocks d (dbn_set d s) -> p' i = p i /\ EIO_DBN_GET d' i = EIO_DBN_GET d i) ->
  contents p' d' k s = contents p d k s.
Proof.
  intros E H. pose proof (layout_geom _ _ E) as Eg. unfold contents.
  rewrite (geom_dbn_set _ _ _ Eg), (set_blocks_geom _ _ _ Eg), (round_geom _ _ _ Eg). revert H.
  generalize (set_blocks d (dbn_set d s)). intros l H.
  assert (Ef : List.find (held_by p' d' s) l = List.find (held_by p d s) l).
  { induction l as [|i l IH]; cbn [List.find]; [done|]. rewrite IH by (intros; apply H, elem_of_cons; by right).
    unfold held_by. destruct (H i) as [-> ->]; [apply elem_of_cons; by left|]. by rewrite (round_geom _ _ _ Eg). }
  rewrite Ef. clear Ef. destruct (List.find _ _) as [i|]; [|done]. by apply block_data_layout.
Qed.

Lemma synced_ext d d' k i : layout d' = layout d -> EIO_DBN_GET d' i = EIO_DBN_GET d i -> synced d k i -> synced d' k i.
Proof.
  intros E Ed H b o. destruct (geom_fields _ _ (layout_geom _ _ E)) as (_ & _ & Eb & _). rewrite Ed, Eb.
  intros H1 H2. rewrite (H b o H1 H2). symmetry. by apply block_data_layout.
Qed.

Section marked.
Context (d : cache_c) (Hinv : blk_inv d) (set : Z) (Hset : 0 <= set < num_sets d).
Context (k0 : disks) (Hfs : flash_sound d k0 set).
Abbreviation bs := (block_size d).
Abbreviation start := (set_start d set).

Lemma set_mem i : i ∈ set_blocks d set -> 0 <= i < dmc_size d.
Proof. apply set_blocks_range; [apply Hinv|done]. Qed.

(** a cached block of the set and the sector a marked block writes *)
Lemma marked_overlap i b o j c : i ∈ set_blocks d set -> EIO_CACHE_STATE_GET d i <> INVALID -> EIO_DBN_GET d i = Some b ->
  marked_at d set j c -> 0 <= o < bs -> forall o', 0 <= o' < bs -> b + o = c + o' -> i = j /\ o = o'.
Proof.
  intros Hi Hne Eb Hm Ho o' Ho' E. pose proof (marked_dbn d Hinv set Hset j (proj1 Hm) (proj1 (proj2 Hm))) as (c' & Hm' & Hc0 & Hc & _).
  assert (c' = c) as -> by (destruct Hm as (_ & _ & E1), Hm' as (_ & _ & E2); congruence).
  destruct (bi_dbn d Hinv i (set_mem i Hi) Hne) as (b' & Eb' & [Hb0 _] & Hb & _). rewrite Eb in Eb'. injection Eb' as <-.
  destruct (sector_of_block d Hinv b o Hb0 Hb Ho) as [R1 _]. destruct (sector_of_block d Hinv c o' Hc0 Hc Ho') as [R2 _].
  rewrite E in R1. assert (b = c) as -> by congruence. split; [|lia].
  destruct Hm as (Hj & Hcj & Ec). apply (bi_uniq d Hinv); try by apply set_mem.
  - done. - unfold clean_inprog in Hcj. apply Z.eqb_eq in Hcj. by rewrite Hcj. - by rewrite Eb, Ec.
Qed.

Lemma wb_synced k i : wb_image d set k0 k -> i ∈ set_blocks d set -> EIO_CACHE_STATE_GET d i <> INVALID -> synced d k0 i -> synced d k i.
Proof.
  intros [Es Hh] Hi Hne Hsy b o Eb Ho. rewrite (block_data_ssd d k0 k) by done.
  destruct (Hh (b + o)) as [->|(j & c & o' & Hm & Ho' & E & ->)]; [by apply Hsy|].
  by destruct (marked_overlap i b o j c Hi Hne Eb Hm Ho o' Ho' E) as [-> ->].
Qed.

Lemma wb_flash k : wb_image d set k0 k -> flash_sound d k set.
Proof.
  intros Hwb i Hi. destruct (Hfs i Hi) as (f & Ef & H1 & H2). exists f. split_and!; [|done|].
  - unfold flash_entry in *. by rewrite (proj1 Hwb).
  - intros Hd Hf. apply (wb_synced k i Hwb Hi); [by apply dirty_not_invalid|by apply H2].
Qed.

Lemma wb_hdd k s : wb_image d set k0 k -> 0 <= s ->
  on_hdd k !!! s = on_hdd k0 !!! s \/ exists i, i ∈ set_blocks d (dbn_set d s) /\ dirty_cached d s i = true.
Proof.
  intros [_ Hh] Hs. destruct (Hh s) as [E|(i & b & o & Hm & Ho & -> & _)]; [by left|right]. exists i.
  pose proof (marked_dbn d Hinv set Hset i (proj1 Hm) (proj1 (proj2 Hm))) as (b' & Hm' & Hb0 & Hb & Eset).
  assert (b' = b) as -> by (destruct Hm as (_ & _ & E1), Hm' as (_ & _ & E2); congruence).
  destruct (sector_of_block d Hinv b o Hb0 Hb Ho) as [R1 R2]. rewrite R2, Eset. destruct Hm as (Hi & Hci & Ed).
  split; [done|]. apply dirty_cached_spec. rewrite R1. split; [|done].
  unfold clean_inprog in Hci. apply Z.eqb_eq in Hci. by rewrite Hci.
Qed.

Lemma wb_volume k s : wb_image d set k0 k -> 0 <= s -> volume d k s = volume d k0 s.
Proof.
  intros Hwb Hs. destruct (volume_cases d s Hs) as [(i & Hi & Hd)|Hn].
  - rewrite !(volume_dirty d Hinv _ s i) by done. by apply block_data_ssd, Hwb.
  - rewrite !(volume_clean d) by done. destruct (wb_hdd k s Hwb Hs) as [E|(i & Hi & Hd)]; [done|]. by rewrite Hn in Hd.
Qed.

(** what recovery finds does not change while blocks are written back *)
Lemma wb_safe k s : wb_image d set k0 k -> 0 <= s -> recovered d k s = recovered d k0 s.
Proof.
  intros Hwb Hs. destruct (decide (dbn_set d s = set)) as [E|Hne].
  - rewrite !(recovered_volume d Hinv) by (done || by rewrite E; auto using wb_flash). by apply wb_volume.
  - apply (recovered_ext d Hinv); [done| | |].
    + intros i _. unfold flash_entry. by rewrite (proj1 Hwb).
    + intros i o _ _. by apply block_data_ssd, Hwb.
    + destruct (proj2 Hwb s) as [E|(i & b & o & Hm & Ho & -> & _)]; [done|]. exfalso. apply Hne.
      pose proof (marked_dbn d Hinv set Hset i (proj1 Hm) (proj1 (proj2 Hm))) as (b' & Hm' & Hb0 & Hb & Eset).
      assert (b' = b) as -> by (destruct Hm as (_ & _ & E1), Hm' as (_ & _ & E2); congruence).
      destruct (sector_of_block d Hinv b o Hb0 Hb Ho) as [_ R2]. by rewrite R2.
Qed.

(** ** The metadata write *)
Context (Hlay : md_layout d) (pages : list Z) (Hpages : pages_ok d pages).
Context (Hmst : forall i, i ∈ set_blocks d set -> is_dirty d i = true -> clean_inprog d i = true \/ EIO_CACHE_STATE_GET d i = ALREADY_DIRTY).
Context (k1 : disks) (Hwb : wb_image d set k0 k1).
Context (Hdone : forall i, i ∈ set_blocks d set -> clean_inprog d i = true -> hdd_done d set k0 k1 i).
Context (entries : list flash_cacheblock) (Hent : md_entries d (set_blocks d set) = Some entries).
Hypothesis Hread : forall i, i ∈ set_blocks d set -> is_Some (EIO_DBN_GET d i).

Lemma entries_lookup i : i ∈ set_blocks d set -> exists b, EIO_DBN_GET d i = Some b /\
  entries !! Z.to_nat (i - start) = Some (mk_flash b (clean_md_state (EIO_CACHE_STATE_GET d i))).
Proof.
  intros Hi. destruct (md_entries_ok d _ Hread) as (l & E & _ & Hl). rewrite Hent in E. injection E as <-.
  apply Hl. apply elem_of_seqZ in Hi. fold start in Hi. unfold set_blocks. rewrite lookup_seqZ_lt by lia. f_equal. lia.
Qed.
Lemma entries_length : length entries = Z.to_nat (assoc d).
Proof.
  destruct (md_entries_ok d _ Hread) as (l & E & Hl & _). rewrite Hent in E. injection E as <-. rewrite Hl. apply length_seqZ.
Qed.

Lemma inprog_synced r i : i ∈ set_blocks d set -> clean_inprog d i = true -> synced d (write_md_disks d set r k1 entries) i.
Proof.
  intros Hi Hc b o Eb Ho. rewrite (block_data_md d (bi_geom d Hinv) Hlay set Hset) by (pose proof (set_mem i Hi); lia).
  rewrite (block_data_ssd d k0 k1) by apply Hwb. apply (Hdone i Hi Hc b o); [by split_and!|done].
Qed.

(** whichever metadata sectors were written *)
Lemma md_flash r : flash_sound d (write_md_disks d set r k1 entries) set.
Proof.
  intros i Hi. unfold entry_sound, entry_for. rewrite (flash_entry_written d (bi_geom d Hinv) Hlay set) by (apply entries_length || done).
  destruct (moved_sector _ _).
  - destruct (entries_lookup i Hi) as (b & Eb & ->). eexists; split; [done|]. cbn [fc_state fc_dbn]. unfold clean_md_state.
    fold (is_dirty d i). destruct (Z.eqb_spec (EIO_CACHE_STATE_GET d i) CLEAN_INPROG) as [Es|Hs1].
    { split; [done|]. intros _ _. apply inprog_synced; [done|]. by apply Z.eqb_eq. }
    destruct (Z.eqb_spec (EIO_CACHE_STATE_GET d i) ALREADY_DIRTY) as [Es|Hs2].
    { split; [|done]. intros _. split; [unfold is_dirty; by rewrite Es|done]. }
    split; [done|]. intros Hd _. exfalso. destruct (Hmst i Hi Hd) as [Hc|?]; [|done]. by apply Z.eqb_eq in Hc.
  - destruct (wb_flash k1 Hwb i Hi) as (f & Ef & H1 & H2). exists f. split_and!; [done|done|].
    intros Hd Hf b o Eb Ho. rewrite (block_data_md d (bi_geom d Hinv) Hlay set Hset) by (pose proof (set_mem i Hi); lia).
    by apply H2.
Qed.

Lemma md_volume r s : 0 <= s -> volume d (write_md_disks d set r k1 entries) s = volume d k0 s.
Proof.
  intros Hs. rewrite <-(wb_volume k1 s Hwb Hs). destruct (volume_cases d s Hs) as [(i & Hi & Hd)|Hn].
  - rewrite !(volume_dirty d Hinv _ s i) by done. apply (block_data_md d (bi_geom d Hinv) Hlay set Hset).
    + by apply (set_block_range d Hinv s i Hs) in Hi as [? _].
    + destruct (round_sector_le d s (bi_geom d Hinv) Hs). lia.
  - by rewrite !(volume_clean d).
Qed.

Lemma md_safe r s : 0 <= s -> recovered d (write_md_disks d set r k1 entries) s = recovered d k0 s.
Proof.
  intros Hs. destruct (decide (dbn_set d s = set)) as [E|Hne].
  - rewrite !(recovered_volume d Hinv) by (done || by rewrite E; auto using md_flash). by apply md_volume.
  - rewrite <-(wb_safe k1 s Hwb Hs). apply (recovered_ext d Hinv); [done| | |done].
    + intros i Hi. apply (flash_entry_other d (bi_geom d Hinv) Hlay set); [by apply (set_block_range d Hinv s)|].
      intros E. apply Hne. rewrite <-E. symmetry. by apply (elem_of_set_blocks d _ i (bi_geom d Hinv)).
    + intros i o Hi Ho. apply (block_data_md d (bi_geom d Hinv) Hlay set Hset); [|lia].
      by apply (set_block_range d Hinv s i Hs) in Hi as [? _].
Qed.
End marked.

Lemma clean_only_layout set d d' : clean_only set d d' -> layout d' = layout d.
Proof. by intros (c & c8 & z & cs & n & -> & _). Qed.

(** ** The final update of the states *)
Lemma finish_effect d d' k set error : blk_inv d -> 0 <= set < num_sets d ->
  finished set (set_blocks d set) error d d' -> flash_sound d k set ->
  (error = 0 -> forall i, i ∈ set_blocks d set -> clean_inprog d i = true ->
     synced d k i /\ exists f, flash_entry d k i = Some f /\ tst (fc_state f) DIRTY = false) ->
  flash_sound d' k set /\ (forall s, 0 <= s -> volume d' k s = volume d k s).
Proof.
  intros Hinv Hset [Ho Hinv' Hdbn Hst _] Hfs Hsync. pose proof (clean_only_layout _ _ _ Ho) as El. pose proof (layout_geom _ _ El) as Eg.
  assert (Hr : forall s i, 0 <= s -> i ∈ set_blocks d (dbn_set d s) -> 0 <= i < dmc_size d) by (intros s i; by apply set_block_range).
  assert (Hdirty : forall i, 0 <= i -> is_dirty d' i = is_dirty d i \/
    (is_dirty d' i = false /\ error = 0 /\ i ∈ set_blocks d set /\ clean_inprog d i = true)).
  { intros i Hi. unfold is_dirty. rewrite Hst. destruct (bool_decide_reflect (i ∈ set_blocks d set)); [|by left]. cbn [andb].
    destruct (clean_inprog d i) eqn:Ec; [|by left]. destruct (Z.eqb_spec error 0); [by right|left]. apply Z.eqb_eq in Ec. by rewrite Ec. }
  split.
  - intros i. rewrite (set_blocks_geom _ _ _ Eg). intros Hi. pose proof (set_blocks_range d set i (bi_geom d Hinv) Hset Hi) as Hri.
    destruct (Hfs i Hi) as (f & Ef & H1 & H2). unfold entry_sound, entry_for. rewrite (flash_entry_layout _ _ _ _ El), (Hdbn i) by lia.
    fold (is_dirty d' i). destruct (Hdirty i ltac:(lia)) as [->|(-> & E0 & _ & Hc)].
    + exists f. split_and!; [done|done|]. intros Hd Hf. apply (synced_ext d); [done|by apply Hdbn; lia|by apply H2].
    + destruct (Hsync E0 i Hi Hc) as (_ & f' & Ef' & Hf'). exists f'. rewrite Ef in Ef'. injection Ef' as <-. rewrite Hf'. done.
  - intros s Hs. assert (Edc : forall i, i ∈ set_blocks d (dbn_set d s) -> dirty_cached d' s i = true -> dirty_cached d s i = true).
    { intros i Hi. rewrite !dirty_cached_spec, (round_geom _ _ _ Eg), Hdbn by (apply (Hr s i Hs) in Hi; lia).
      fold (is_dirty d' i) (is_dirty d i). apply (Hr s i Hs) in Hi. destruct (Hdirty i ltac:(lia)) as [->|(-> & _)]; [done|by intros []]. }
    assert (Eb : set_blocks d' (dbn_set d' s) = set_blocks d (dbn_set d s)) by (by rewrite (geom_dbn_set _ _ _ Eg), (set_blocks_geom _ _ _ Eg)).
    destruct (volume_cases d s Hs) as [(i & Hi & Hd)|Hn].
    2:{ rewrite !volume_clean; [done|done|]. rewrite Eb. intros i Hi. destruct (dirty_cached d' s i) eqn:E; [|done]. by rewrite <-(Hn i Hi), Edc. }
    rewrite (volume_dirty d Hinv k s i Hs Hi Hd). pose proof (Hr s i Hs Hi) as Hri.
    pose proof (proj1 (dirty_cached_spec d s i) Hd) as [Dd Ed].
    destruct (Hdirty i ltac:(lia)) as [Hsame|(Hcl & E0 & Hin & Hc)].
    + rewrite (volume_dirty d' Hinv' k s i); [|done|by rewrite Eb|].
      * rewrite (round_geom _ _ _ Eg). by apply block_data_layout.
      * apply dirty_cached_spec. rewrite (round_geom _ _ _ Eg), Hdbn by lia. split; [|done]. fold (is_dirty d' i). by rewrite Hsame.
    + rewrite volume_clean.
      * destruct (Hsync E0 i Hin Hc) as [Hsy _]. destruct (round_sector_le d s (bi_geom d Hinv) Hs) as (? & ? & _).
        rewrite <-(Hsy (EIO_ROUND_SECTOR d s) (s - EIO_ROUND_SECTOR d s) Ed) by lia. f_equal. lia.
      * rewrite Eb. intros j Hj. destruct (dirty_cached d' s j) eqn:E; [|done].
        assert (j = i) as -> by (apply (dirty_cached_uniq d Hinv s); auto).
        apply dirty_cached_spec in E as [E _]. unfold is_dirty in Hcl. congruence.
Qed.

(** ** Under the lock *)
Section locked.
Context (set : Z).

(** everything the clean of a set needs from the whole cache *)
Record clean_globals (w : cworld) : Prop := {
  cg_blk : blk_inv (cw_d w);
  cg_pol : policy_inv (cw_d w);
  cg_bufs : bufs_ok (cw_d w) (clean_dbvecs w);
  cg_lay : md_layout (cw_d w);
  cg_pages : pages_ok (cw_d w) (clean_mdpages w);
  cg_lru : dirty_lru_inv (cw_d w);
  cg_total : nr_dirty (cw_d w) = count_dirty (cw_d w) (all_blocks (cw_d w));
  cg_size : dmc_size (cw_d w) < 2 ^ 31;
  cg_results : Forall io_result_ok (cw_results w)
}.
(** and from the set: no I/O on its dirty blocks, its counter right, the
    metadata on the SSD sound *)
Record set_ready (w : cworld) (s : Z) : Prop := {
  sr_idle : dirty_idle (cw_d w) s;
  sr_read : forall i, i ∈ set_blocks (cw_d w) s -> is_Some (EIO_DBN_GET (cw_d w) i);
  sr_count : cs_nr_dirty (cache_sets (cw_d w) !!! s) = count_dirty (cw_d w) (set_blocks (cw_d w) s);
  sr_flash : flash_sound (cw_d w) (cw_k w) s
}.

(** what the devices went through *)
Definition safe_from (w : cworld) (k : disks) : Prop := forall s, 0 <= s -> recovered (cw_d w) k s = recovered (cw_d w) (cw_k w) s.

Record marked_outcome (w w' : cworld) : Prop := {
  mo_fin : exists error st, finished set (set_blocks (cw_d w) set) error (set_stats st (cw_d w)) (cw_d w');
  mo_dbvecs : clean_dbvecs w' = clean_dbvecs w;
  mo_mdpages : clean_mdpages w' = clean_mdpages w;
  mo_results : Forall io_result_ok (cw_results w');
  mo_trace : exists tr, cw_trace w' = cw_trace w ++ tr /\ trace_safe (safe_from w) tr;
  mo_flash : flash_sound (cw_d w') (cw_k w') set;
  mo_volume : forall s, 0 <= s -> volume (cw_d w') (cw_k w') s = volume (cw_d w) (cw_k w) s;
  mo_safe : safe_from w (cw_k w');
  mo_other : forall i o, 0 <= i < dmc_size (cw_d w) -> i ∉ set_blocks (cw_d w) set -> 0 <= o < block_size (cw_d w) ->
    flash_entry (cw_d w) (cw_k w') i = flash_entry (cw_d w) (cw_k w) i /\
    block_data (cw_d w) (cw_k w') i o = block_data (cw_d w) (cw_k w) i o;
  mo_hdd : forall s, 0 <= s -> dbn_set (cw_d w) s <> set -> on_hdd (cw_k w') !!! s = on_hdd (cw_k w) !!! s
}.

Lemma io_step_weaken (P Q : disks -> Prop) w w' : (forall k, P k -> Q k) -> io_step P w w' -> io_step Q w w'.
Proof. intros H [H1 H2 H3 H4 (tr & E & Ht)]. constructor; try done. exists tr. split; [done|]. by eapply trace_safe_mono. Qed.

Section outcome.
Context (w : cworld) (Hset : 0 <= set < num_sets (cw_d w)).
Abbreviation d := (cw_d w).
Context (Hinv : blk_inv d) (Hcount : counted d set) (Hsz : dmc_size d < 2 ^ 31) (Hres : Forall io_result_ok (cw_results w)).

(** the state the transfers leave the devices in *)
Record io_outcome (error : Z) (w2 : cworld) : Prop := {
  io_steps : io_step (safe_from w) w w2;
  io_flash : flash_sound d (cw_k w2) set;
  io_volume : forall s, 0 <= s -> volume d (cw_k w2) s = volume d (cw_k w) s;
  io_safe : safe_from w (cw_k w2);
  io_other : forall i o, 0 <= i < dmc_size d -> i ∉ set_blocks d set -> 0 <= o < block_size d ->
    flash_entry d (cw_k w2) i = flash_entry d (cw_k w) i /\ block_data d (cw_k w2) i o = block_data d (cw_k w) i o;
  io_hdd : forall s, 0 <= s -> dbn_set d s <> set -> on_hdd (cw_k w2) !!! s = on_hdd (cw_k w) !!! s;
  io_synced : error = 0 -> forall i, i ∈ set_blocks d set -> clean_inprog d i = true ->
     synced d (cw_k w2) i /\ exists f, flash_entry d (cw_k w2) i = Some f /\ tst (fc_state f) DIRTY = false
}.

Lemma finish_outcome error w2 : io_outcome error w2 ->
  exists w', on_cache (clean_finish set (set_blocks d set) error) w2 = Some (tt, w') /\ marked_outcome w w'.
Proof.
  intros [[[st Ed] Ev Ep Hr Ht] Hf Hv Hs Ho Hh Hsy].
  assert (Hinv' : blk_inv (set_stats st d)) by by apply (blk_inv_same d).
  assert (Hcount' : counted (set_stats st d) set) by (destruct Hcount as [C1 C2]; constructor; [exact C1|exact C2]).
  destruct (clean_finish_ok set error (set_blocks d set) (set_stats st d)) as (d' & E & F); try done; [apply NoDup_seqZ|].
  destruct (finish_effect (set_stats st d) d' (cw_k w2) set error Hinv' Hset F Hf Hsy) as [Hf' Hv'].
  exists (set_cw_d d' w2). unfold on_cache. rewrite Ed, E. split; [done|].
  constructor; cbn [cw_d cw_k set_cw_d clean_dbvecs clean_mdpages cw_results cw_trace]; try done; [by exists error, st|by apply Hr|].
  intros s Hs'. rewrite (Hv' s Hs'). by apply Hv.
Qed.

(** as long as blocks are only written back *)
Lemma wb_outcome error w2 : flash_sound d (cw_k w) set -> io_step (wb_image d set (cw_k w)) w w2 -> wb_image d set (cw_k w) (cw_k w2) ->
  error <> 0 -> io_outcome error w2.
Proof.
  intros Hfs Hst Hwb He. constructor; try done.
  - eapply io_step_weaken; [|exact Hst]. intros k Hk s Hs. by apply (wb_safe d Hinv set Hset (cw_k w) Hfs).
  - by apply (wb_flash d Hinv set Hset (cw_k w) Hfs).
  - intros s Hs. by apply (wb_volume d Hinv set Hset (cw_k w)).
  - intros s Hs. by apply (wb_safe d Hinv set Hset (cw_k w) Hfs).
  - intros i o _ _ _. split; [unfold flash_entry; by rewrite (proj1 Hwb)|by apply block_data_ssd, Hwb].
  - intros s Hs Hne. destruct (proj2 Hwb s) as [E|(i & b & o & Hm & Hb & -> & _)]; [done|]. exfalso. apply Hne.
    pose proof (marked_dbn d Hinv set Hset i (proj1 Hm) (proj1 (proj2 Hm))) as (b' & Hm' & Hb0 & Hbd & Eset).
    assert (b' = b) as -> by (destruct Hm as (_ & _ & E1), Hm' as (_ & _ & E2); congruence).
    by destruct (sector_of_block d Hinv b o Hb0 Hbd Hb) as [_ ->].
Qed.

Context (Hb : bufs_ok d (clean_dbvecs w)) (Hlay : md_layout d) (Hpages : pages_ok d (clean_mdpages w)).
Context (Hfs : flash_sound d (cw_k w) set) (Hread : forall i, i ∈ set_blocks d set -> is_Some (EIO_DBN_GET d i)).
Context (Hmst : forall i, i ∈ set_blocks d set -> is_dirty d i = true -> clean_inprog d i = true \/ EIO_CACHE_STATE_GET d i = ALREADY_DIRTY).

Lemma wb_refl k : wb_image d set k k.
Proof. split; [done|]. by left. Qed.

(** the metadata write, after every block was written back *)
Lemma md_outcome w1 : io_step (wb_image d set (cw_k w)) w w1 -> wb_image d set (cw_k w) (cw_k w1) ->
  (forall i, i ∈ set_blocks d set -> clean_inprog d i = true -> hdd_done d set (cw_k w) (cw_k w1) i) ->
  exists e w2, write_md (set_start d set) (set_blocks d set) w1 = Some (e, w2) /\ io_outcome e w2.
Proof.
  intros Hst Hwb Hdone. pose proof Hst as [Hd1 Hv1 Hp1 Hr1 _].
  destruct (write_md_ok d (bi_geom d Hinv) Hlay (clean_mdpages w) Hpages set w1 Hd1 Hp1 Hread) as (e & w2 & entries & E & Een & Hsteps & Hcase).
  exists e, w2. split; [done|].
  pose proof (wb_outcome 1 w1 Hfs Hst Hwb ltac:(done)) as [S1 F1 V1 Sa1 O1 H1 _].
  assert (Hmd : forall r s, 0 <= s -> recovered d (write_md_disks d set r (cw_k w1) entries) s = recovered d (cw_k w) s).
  { intros r s Hs. by apply (md_safe d Hinv set Hset (cw_k w) Hfs Hlay Hmst (cw_k w1) Hwb Hdone entries Een Hread). }
  assert (S2 : io_step (safe_from w) w w2).
  { eapply io_step_trans; [exact S1|]. apply Hsteps. intros moved s Hs. by apply Hmd. }
  destruct Hcase as [[He Ek]|(r & Ek & Hr)].
  { constructor; rewrite ?Ek; try done. }
  constructor; rewrite ?Ek; try done.
  - by apply (md_flash d Hinv set Hset (cw_k w) Hfs Hlay Hmst (cw_k w1) Hwb Hdone entries Een Hread).
  - intros s Hs. by apply (md_volume d Hinv set Hset (cw_k w) Hlay (cw_k w1) Hwb entries).
  - intros s Hs. by apply Hmd.
  - intros i o Hi Hni Ho. destruct (O1 i o Hi Hni Ho) as [<- <-]. split.
    + apply (flash_entry_other d (bi_geom d Hinv) Hlay set); [done|]. intros Es. apply Hni. by apply (elem_of_set_blocks d set i (bi_geom d Hinv)).
    + apply (block_data_md d (bi_geom d Hinv) Hlay set Hset); lia.
  - intros E0 i Hi Hc. split; [by apply (inprog_synced d Hinv set Hset (cw_k w) Hlay (cw_k w1) Hwb Hdone entries)|].
    rewrite (Hr (Hr1 Hres) E0). rewrite (flash_entry_written d (bi_geom d Hinv) Hlay set);
      [|by apply (entries_length d set entries Een Hread)|done].
    cbn [moved_sector]. destruct (entries_lookup d set entries Een Hread i Hi) as (b & _ & ->). eexists; split; [done|].
    unfold clean_md_state. unfold clean_inprog in Hc. by rewrite Hc.
Qed.

(** steps 4 to 7 *)
Lemma clean_marked_ok : exists w', clean_marked set w = Some (tt, w') /\ marked_outcome w w'.
Proof.
  unfold clean_marked. rewrite bind_gets. cbv zeta. change (set * assoc d) with (set_start d set).
  destruct (read_runs_ok d (clean_dbvecs w) (bi_geom d Hinv) Hb (set_start d set) (length (set_blocks d set)) 0 0 w)
    as (e1 & w1 & E1 & R1 & _ & B1).
  { pose proof (assoc_pos d (bi_geom d Hinv)). lia. }
  { unfold set_blocks. rewrite length_seqZ. lia. }
  { exists (stats d). by destruct d. }
  { done. }
  rewrite Z.add_0_r, Z.sub_0_r in E1. fold (set_blocks d set) in E1. rewrite (bind_run _ _ _ _ _ E1).
  destruct (reads_only_disks _ _ R1) as [K1 V1]. assert (S1 : io_step (wb_image d set (cw_k w)) w w1) by by apply io_step_reads.
  assert (Hwb1 : wb_image d set (cw_k w) (cw_k w1)) by (rewrite K1; apply wb_refl).
  destruct (Z.eqb_spec e1 0) as [E0|E0]; cbn [negb].
  2:{ rewrite bind_ret. by apply finish_outcome, wb_outcome. }
  subst e1. destruct (B1 Hres eq_refl) as [_ Hbuf]. clear B1.
  destruct (write_blocks_ok d (clean_dbvecs w) Hinv Hb set Hset (cw_k w) (set_blocks d set) 0 w1)
    as (e2 & w2 & E2 & _ & S2 & Hwb2 & _ & B2); try done; [apply NoDup_seqZ|by apply S1| |].
  { intros i Hi%elem_of_seqZ Hc. apply Hbuf; [|done]. fold (set_start d set) in Hi. lia. }
  rewrite bind_bind, (bind_run _ _ _ _ _ E2).
  assert (S12 : io_step (wb_image d set (cw_k w)) w w2) by by eapply io_step_trans.
  destruct (Z.eqb_spec e2 0) as [E0|E0]; cbn [negb].
  2:{ rewrite bind_ret. by apply finish_outcome, wb_outcome. }
  subst e2. destruct (B2 (is_results _ _ _ S1 Hres) eq_refl) as [_ Hdone].
  destruct (md_outcome w2 S12 Hwb2 Hdone) as (e3 & w3 & E3 & O3). rewrite (bind_run _ _ _ _ _ E3). by apply finish_outcome.
Qed.
End outcome.
End locked.

(** * [eio_clean_set], [eio_clean_all] and the clean thread *)
(** the part of the cache no clean touches *)
Definition clean_rest (d : cache_c) :=
  (layout d, mode d, cache_flags d, policy_ops d).

(** What a clean of [set] does, with any I/O errors: the counters, the policy
    and the metadata of all sets stay right; the contents of the volume do not
    change; recovery finds the same contents after a crash at any moment of it,
    and afterwards. *)
Record clean_effect (w w' : cworld) : Prop := {
  ce_globals : clean_globals w';
  ce_ready : forall s, 0 <= s < num_sets (cw_d w) -> set_ready w s -> set_ready w' s;
  ce_dirty : forall i, is_dirty (cw_d w') i = true -> is_dirty (cw_d w) i = true;
  ce_volume : forall s, 0 <= s -> volume (cw_d w') (cw_k w') s = volume (cw_d w) (cw_k w) s;
  ce_trace : exists tr, cw_trace w' = cw_trace w ++ tr /\ trace_safe (safe_from w) tr;
  ce_safe : safe_from w (cw_k w');
  ce_rest : clean_rest (cw_d w') = clean_rest (cw_d w)
}.

Lemma clean_rest_layout d d' : clean_rest d' = clean_rest d -> layout d' = layout d.
Proof. intros E. exact (f_equal (fun x => x.1.1.1) E). Qed.

Lemma md_layout_ext d d' : layout d' = layout d -> md_layout d -> md_layout d'.
Proof.
  intros E [L1 L2 L3]. destruct (geom_fields _ _ (layout_geom _ _ E)) as (Es & Ea & _).
  pose proof (f_equal (fun x => x.1.2) E : md_start_sect d' = md_start_sect d) as E1.
  pose proof (f_equal snd E : md_sectors d' = md_sectors d) as E2. constructor; rewrite ?Ea, ?Es, ?E1, ?E2; done.
Qed.

Lemma clean_effect_refl w : clean_globals w -> clean_effect w w.
Proof.
  intros Hg. constructor; try done. exists []. split; [by rewrite app_nil_r|apply trace_safe_nil].
Qed.
Lemma clean_effect_trans w1 w2 w3 : clean_effect w1 w2 -> clean_effect w2 w3 -> clean_effect w1 w3.
Proof.
  intros [G1 R1 D1 V1 (t1 & T1 & S1) F1 E1] [G2 R2 D2 V2 (t2 & T2 & S2) F2 E2].
  pose proof (clean_rest_layout _ _ E1) as El. pose proof (layout_geom _ _ El) as Eg.
  assert (Hs : forall k, safe_from w2 k -> safe_from w1 k).
  { intros k Hk s Hs. rewrite <-(recovered_layout _ _ _ _ El), (Hk s Hs), (recovered_layout _ _ _ _ El). by apply F1. }
  constructor; try done.
  - intros s Hr H. apply R2; [by destruct (geom_fields _ _ Eg) as (_ & _ & _ & _ & _ & -> & _)|by apply R1].
  - auto.
  - intros s H. by rewrite V2, V1.
  - exists (t1 ++ t2). split; [by rewrite T2, T1, app_assoc|]. apply trace_safe_app; [done|]. by eapply trace_safe_mono; [exact Hs|].
  - by apply Hs.
  - by rewrite E2.
Qed.

(** ** Changes that concern neither blocks nor devices *)
Record quiet (d d' : cache_c) : Prop := {
  q_md : same_md d d';
  q_pol : pol_same d d';
  q_rest : clean_rest d' = clean_rest d;
  q_nr : nr_dirty d' = nr_dirty d;
  q_sets : forall s, cs_nr_dirty (cache_sets d' !!! s) = cs_nr_dirty (cache_sets d !!! s)
}.
#[export] Instance quiet_refl : Reflexive quiet. Proof. done. Qed.
#[export] Instance quiet_trans : Transitive quiet.
Proof.
  intros d1 d2 d3 [A1 B1 C1 D1 E1] [A2 B2 C2 D2 E2]. constructor; [by etransitivity|by etransitivity|congruence|congruence|].
  intros s. by rewrite E2.
Qed.

(** one field at a time *)
Lemma quiet_lru l d : quiet d (set_dirty_set_lru l d). Proof. done. Qed.
Lemma quiet_sched x d : quiet d (set_is_clean_aged_sets_sched x d). Proof. done. Qed.
Lemma quiet_index i d : quiet d (set_clean_index i d). Proof. done. Qed.
Lemma quiet_sysctl sy d : quiet d (set_sysctl_active sy d). Proof. done. Qed.
Lemma quiet_cleanq q d : quiet d (set_cleanq q d). Proof. done. Qed.
Lemma quiet_pendings p d : quiet d (set_clean_pendings p d). Proof. done. Qed.
#[export] Hint Resolve quiet_lru quiet_sched quiet_index quiet_sysctl quiet_cleanq quiet_pendings : eio.

Lemma cleanq_only_quiet d d' : cleanq_only d d' -> quiet d d'.
Proof.
  intros (cs & q & p & x & l & -> & H). constructor; [by destruct d|by destruct d|by destruct d|by destruct d|].
  intros s. apply H.
Qed.

Definition set_flags_of (d : cache_c) (s : Z) : Z := cs_flags (cache_sets d !!! s).
(** what the code that calls [eio_clean_set] works with *)
Definition ctl (d : cache_c) := (sysctl_active d, clean_index d, cleanq d, clean_pendings d, clean_excess_dirty d).

Lemma quiet_layout d d' : quiet d d' -> layout d' = layout d.
Proof. intros H. by apply clean_rest_layout, H. Qed.
Lemma quiet_volume d d' k s : quiet d d' -> volume d' k s = volume d k s.
Proof.
  intros H. apply contents_ext; [by apply quiet_layout|]. intros i _. unfold is_dirty.
  by rewrite (same_md_state _ _ (q_md _ _ H)), (same_md_dbn _ _ (q_md _ _ H)).
Qed.
Lemma quiet_count d d' l : quiet d d' -> count_dirty d' l = count_dirty d l.
Proof. intros H. apply count_dirty_ext. intros i _. unfold is_dirty. by rewrite (same_md_state _ _ (q_md _ _ H)). Qed.
Lemma quiet_flash d d' k s : quiet d d' -> flash_sound d k s -> flash_sound d' k s.
Proof.
  intros H Hf i. pose proof (quiet_layout _ _ H) as El. rewrite (set_blocks_geom _ _ _ (layout_geom _ _ El)). intros Hi.
  destruct (Hf i Hi) as (f & Ef & H1 & H2). exists f. unfold is_dirty in *.
  rewrite (flash_entry_layout _ _ _ _ El), (same_md_state _ _ (q_md _ _ H)), (same_md_dbn _ _ (q_md _ _ H)).
  split_and!; [done|done|]. intros Hd Hn. apply (synced_ext d); [done|by apply same_md_dbn, H|by apply H2].
Qed.

Lemma quiet_globals w d' : clean_globals w -> quiet (cw_d w) d' -> dirty_lru_inv d' -> clean_globals (set_cw_d d' w).
Proof.
  intros [B P Bu La Pg _ To Sz Re] H Hl. pose proof (quiet_layout _ _ H) as El. pose proof (layout_geom _ _ El) as Eg.
  destruct (geom_fields _ _ Eg) as (Es & Ea & _). pose proof (f_equal snd (q_rest _ _ H) : policy_ops d' = policy_ops (cw_d w)) as Ep.
  constructor; cbn [cw_d set_cw_d clean_dbvecs clean_mdpages cw_results]; try done.
  - apply (blk_inv_same (cw_d w)); [apply H|done].
  - apply (policy_inv_same (cw_d w)); [apply H|done|done].
  - by apply (bufs_ok_geom (cw_d w)).
  - by apply (md_layout_ext (cw_d w)).
  - unfold pages_ok in *. by rewrite Ea.
  - unfold all_blocks. rewrite Es, (quiet_count _ _ _ H), (q_nr _ _ H). done.
  - by rewrite Es.
Qed.

Lemma quiet_effect w d' : clean_globals w -> quiet (cw_d w) d' -> dirty_lru_inv d' -> clean_effect w (set_cw_d d' w).
Proof.
  intros Hg H Hl. pose proof (layout_geom _ _ (quiet_layout _ _ H)) as Eg.
  constructor; [by apply quiet_globals| | | |exists []; split; [by rewrite app_nil_r|apply trace_safe_nil]|done|apply H];
    cbn [cw_d cw_k set_cw_d].
  - intros s Hs [H1 H2 H3 H4]. constructor; cbn [cw_d cw_k set_cw_d]; rewrite ?(set_blocks_geom _ _ _ Eg).
    + intros i. rewrite (set_blocks_geom _ _ _ Eg), (same_md_state _ _ (q_md _ _ H)). apply H1.
    + intros i Hi. rewrite (same_md_dbn _ _ (q_md _ _ H)). by apply H2.
    + by rewrite (q_sets _ _ H), H3, (quiet_count _ _ _ H).
    + by apply (quiet_flash (cw_d w)).
  - intros i. unfold is_dirty. by rewrite (same_md_state _ _ (q_md _ _ H)).
  - intros s Hs. by apply quiet_volume.
Qed.

Lemma touch_quiet jiffies set d : dirty_lru_inv d -> 0 <= set < num_sets d ->
  exists d', eio_touch_set_lru jiffies set d = Some (tt, d') /\ quiet d d' /\ dirty_lru_inv d' /\
    cache_sets d' = cache_sets d /\ ctl d' = ctl d.
Proof.
  intros (l & xs & El & Hrep & Hmax) Hs. destruct (lru_touch_rep l xs set jiffies Hrep ltac:(lia)) as (l' & E & Hr & Hm & _).
  unfold eio_touch_set_lru, bind, dirty_lru. rewrite El, E. eexists; split; [done|].
  destruct (_ && _); (split_and!; [|exists l', (without set xs ++ [set]); split_and!; [done|done|cbn; congruence]|done|done]).
  - etransitivity; [apply quiet_lru|apply quiet_sched].
  - apply quiet_lru.
Qed.

Lemma flags_quiet set v d : quiet d (set_cs_flags set v d).
Proof.
  constructor; try done. intros s. cbn. rewrite lookup_total_insert. case_decide as E; [by rewrite <-E|done].
Qed.

Lemma clean_out_quiet jiffies set force d : dirty_lru_inv d -> 0 <= set < num_sets d ->
  exists d', clean_out jiffies set force d = Some (tt, d') /\ quiet d d' /\ dirty_lru_inv d' /\
    (forall s, cs_flags (cache_sets d' !!! s) = if negb force && (s =? set)
       then clr (cs_flags (cache_sets d !!! s)) (Z.lor SETFLAG_CLEAN_INPROG SETFLAG_CLEAN_WHOLE) else cs_flags (cache_sets d !!! s)) /\
    ctl d' = ctl d.
Proof.
  intros Hl Hs. unfold clean_out.
  set (d1 := if negb force then set_cs_flags set (clr (cs_flags (cache_sets d !!! set)) (Z.lor SETFLAG_CLEAN_INPROG SETFLAG_CLEAN_WHOLE)) d else d).
  assert (E1 : when (negb force) (modify (fun d => set_cs_flags set (clr (cs_flags (cache_sets d !!! set)) (Z.lor SETFLAG_CLEAN_INPROG SETFLAG_CLEAN_WHOLE)) d)) d = Some (tt, d1))
    by (subst d1; by destruct (negb force)).
  assert (Q1 : quiet d d1) by (subst d1; destruct (negb force); [apply flags_quiet|done]).
  assert (L1 : dirty_lru_inv d1) by (subst d1; by destruct (negb force)).
  assert (F1 : forall s, cs_flags (cache_sets d1 !!! s) = if negb force && (s =? set)
       then clr (cs_flags (cache_sets d !!! s)) (Z.lor SETFLAG_CLEAN_INPROG SETFLAG_CLEAN_WHOLE) else cs_flags (cache_sets d !!! s)).
  { intros s. subst d1. destruct (negb force); cbn [andb]; [|done]. cbn. rewrite lookup_total_insert.
    destruct (Z.eqb_spec s set) as [->|Hne]; case_decide; try congruence; done. }
  assert (N1 : num_sets d1 = num_sets d /\ ctl d1 = ctl d) by (subst d1; by destruct (negb force)). destruct N1 as [N1 T1].
  rewrite (bind_run _ _ _ _ _ E1), bind_gets. destruct (negb (_ =? 0)); cbn [when].
  - destruct (touch_quiet jiffies set d1 L1 ltac:(lia)) as (d2 & E2 & Q2 & L2 & C2 & T2).
    rewrite (bind_run _ _ _ _ _ E2). exists d2. split_and!; [done|by etransitivity|done|intros s; by rewrite C2, F1|by rewrite T2].
  - exists d1. done.
Qed.

(** ** The clean under the lock *)
Section locked.
Context (w : cworld) (set : Z) (Hg : clean_globals w) (Hset : 0 <= set < num_sets (cw_d w)) (Hready : set_ready w set).
Abbreviation d := (cw_d w).

Section marked.
Context (d1 : cache_c) (Hmk : marking set d d1).

Lemma mk_rest : clean_rest d1 = clean_rest d /\ cache_sets d1 = cache_sets d /\ nr_dirty d1 = nr_dirty d /\
  dirty_set_lru d1 = dirty_set_lru d.
Proof. by destruct (mk_only _ _ _ Hmk) as (d0 & (c & c8 & z & ->) & (r & b & m & ->)). Qed.
Lemma mk_ctl : ctl d1 = ctl d.
Proof. by destruct (mk_only _ _ _ Hmk) as (d0 & (c & c8 & z & ->) & (r & b & m & ->)). Qed.
Lemma mk_layout : layout d1 = layout d.
Proof. apply clean_rest_layout, mk_rest. Qed.
Lemma mk_geom : geom d1 = geom d.
Proof. apply layout_geom, mk_layout. Qed.
Lemma mk_dirty i : is_dirty d1 i = is_dirty d i.
Proof. unfold is_dirty. destruct (mk_st _ _ _ Hmk i) as [->|(_ & -> & ->)]; done. Qed.

Lemma mk_entry k s : 0 <= s < num_sets d -> flash_sound d k s -> flash_sound d1 k s.
Proof.
  intros Hs Hf i. rewrite (set_blocks_geom _ _ _ mk_geom). intros Hi. destruct (Hf i Hi) as (f & Ef & H1 & H2).
  pose proof (set_blocks_range d s i (bi_geom _ (cg_blk _ Hg)) Hs Hi) as Hr.
  exists f. rewrite (flash_entry_layout _ _ _ _ mk_layout), (mk_dbn _ _ _ Hmk) by lia.
  split; [done|]. fold (is_dirty d1 i). rewrite mk_dirty. split; [done|]. intros Hd Hnd.
  apply (synced_ext d); [apply mk_layout|apply (mk_dbn _ _ _ Hmk); lia|by apply H2].
Qed.

Lemma mk_volume k s : 0 <= s -> volume d1 k s = volume d k s.
Proof.
  intros Hs. apply contents_ext; [apply mk_layout|]. intros i Hi. pose proof (set_block_range d (cg_blk _ Hg) s i Hs Hi).
  rewrite mk_dirty, (mk_dbn _ _ _ Hmk) by lia. done.
Qed.

(** a marked set is ready for the rest of the clean *)
Lemma marked_ready : blk_inv d1 /\ (forall i, i ∈ set_blocks d1 set -> is_Some (EIO_DBN_GET d1 i)) /\
  counted d1 set /\ flash_sound d1 (cw_k w) set /\
  (forall i, i ∈ set_blocks d1 set -> is_dirty d1 i = true -> clean_inprog d1 i = true \/ EIO_CACHE_STATE_GET d1 i = ALREADY_DIRTY).
Proof.
  pose proof Hg as [B _ _ _ _ _ To _ _]. destruct Hready as [R1 R2 R3 R4]. destruct mk_rest as (Er & Ec & En & El).
  destruct (geom_fields _ _ mk_geom) as (Es & _). split_and!; [apply Hmk| | |by apply mk_entry|].
  - intros i. rewrite (set_blocks_geom _ _ _ mk_geom). intros Hi. rewrite (mk_dbn _ _ _ Hmk); [by apply R2|].
    pose proof (set_blocks_range d set i (bi_geom _ B) Hset Hi). lia.
  - constructor; [rewrite Ec, R3, (set_blocks_geom _ _ _ mk_geom)|rewrite En, To; unfold all_blocks; rewrite Es];
      symmetry; apply count_dirty_ext; intros; apply mk_dirty.
  - intros i. rewrite (set_blocks_geom _ _ _ mk_geom), mk_dirty. intros Hi Hd. unfold clean_inprog.
    destruct (mk_st _ _ _ Hmk i) as [->|(_ & _ & ->)]; [right; by apply R1|by left].
Qed.

(** marking alone *)
Lemma marking_effect : (forall i, i ∈ set_blocks d set -> clean_inprog d1 i = false) ->
  clean_effect w (set_cw_d d1 w).
Proof.
  intros Hno. pose proof Hg as [B P Bu La Pg Lr To Sz Re]. destruct mk_rest as (Er & Ec & En & El).
  destruct (geom_fields _ _ mk_geom) as (Es & Ea & _ & _ & _ & Ens & _).
  assert (Est : forall i, EIO_CACHE_STATE_GET d1 i = EIO_CACHE_STATE_GET d i).
  { intros i. destruct (mk_st _ _ _ Hmk i) as [->|(Hi & _ & Ei)]; [done|]. specialize (Hno i Hi). unfold clean_inprog in Hno. by rewrite Ei in Hno. }
  constructor; cbn [cw_d cw_k set_cw_d].
  - constructor; cbn [cw_d set_cw_d clean_dbvecs clean_mdpages cw_results]; try done.
    + apply Hmk. + apply Hmk. + by apply (bufs_ok_geom d), Bu; apply mk_geom.
    + by apply md_layout_ext with d; [apply mk_layout|].
    + unfold pages_ok in *. by rewrite Ea.
    + destruct Lr as (l & xs & H1 & H2 & H3). exists l, xs. rewrite El, Ens. done.
    + rewrite En, To. unfold all_blocks. rewrite Es. symmetry. apply count_dirty_ext. intros; apply mk_dirty.
    + by rewrite Es.
  - intros s Hs [H1 H2 H3 H4]. constructor; cbn [cw_d cw_k set_cw_d].
    + intros i. rewrite (set_blocks_geom _ _ _ mk_geom), Est. apply H1.
    + intros i. rewrite (set_blocks_geom _ _ _ mk_geom). intros Hi. rewrite (mk_dbn _ _ _ Hmk); [by apply H2|].
      pose proof (set_blocks_range d s i (bi_geom _ B) Hs Hi). lia.
    + rewrite Ec, H3, (set_blocks_geom _ _ _ mk_geom). symmetry. apply count_dirty_ext. intros; apply mk_dirty.
    + by apply mk_entry.
  - intros i. by rewrite mk_dirty.
  - intros s Hs. by apply mk_volume.
  - exists []. split; [by rewrite app_nil_r|apply trace_safe_nil].
  - done.
  - done.
Qed.

(** cleaning what was marked *)
Section outcome.
Context (w' : cworld) (Hmo : marked_outcome set (set_cw_d d1 w) w').
Abbreviation d2 := (cw_d w').

Lemma mo_layout : layout d2 = layout d.
Proof.
  destruct Hmo as [(error & st & F) _ _ _ _ _ _ _ _ _]. destruct (fn_only _ _ _ _ _ F) as (c & c8 & z & cs & n & -> & _).
  rewrite <-mk_layout. done.
Qed.
Lemma mo_dbn i : 0 <= i -> EIO_DBN_GET d2 i = EIO_DBN_GET d i.
Proof.
  intros Hi. destruct Hmo as [(error & st & F) _ _ _ _ _ _ _ _ _]. rewrite (fn_dbn _ _ _ _ _ F i Hi). by apply (mk_dbn _ _ _ Hmk).
Qed.
Lemma mo_state : (forall i, i ∉ set_blocks d set -> EIO_CACHE_STATE_GET d2 i = EIO_CACHE_STATE_GET d i) /\
  (forall i, i ∈ set_blocks d set -> EIO_CACHE_STATE_GET d2 i = EIO_CACHE_STATE_GET d i \/
     EIO_CACHE_STATE_GET d2 i = VALID \/ (EIO_CACHE_STATE_GET d2 i = ALREADY_DIRTY /\ is_dirty d i = true)).
Proof.
  destruct Hmo as [(error & st & F) _ _ _ _ _ _ _ _ _]. pose proof (fn_st _ _ _ _ _ F) as Fs. cbn [cw_d set_cw_d] in Fs.
  rewrite (set_blocks_geom _ _ _ mk_geom) in Fs.
  split; intros i Hi; rewrite Fs; [rewrite bool_decide_false by done|rewrite bool_decide_true by done]; cbn [andb]; unfold clean_inprog;
    change (EIO_CACHE_STATE_GET (set_stats st d1) i) with (EIO_CACHE_STATE_GET d1 i); destruct (mk_st _ _ _ Hmk i) as [E|(? & E0 & E)];
    rewrite E; try done.
  - destruct (Z.eqb_spec (EIO_CACHE_STATE_GET d i) CLEAN_INPROG) as [Ei|]; [|by left]. right. destruct (error =? 0); [by left|].
    right. split; [done|]. unfold is_dirty. by rewrite Ei.
  - rewrite Z.eqb_refl. right. destruct (error =? 0); [by left|]. right. split; [done|]. unfold is_dirty. by rewrite E0.
Qed.

(** the other sets stay as they are *)
Lemma mo_other_blocks s i : 0 <= s < num_sets d -> s <> set -> i ∈ set_blocks d s -> i ∉ set_blocks d set /\ 0 <= i < dmc_size d.
Proof.
  pose proof (cg_blk _ Hg) as B. intros Hs Hne Hi. split; [|by apply (set_blocks_range d s i (bi_geom _ B) Hs Hi)].
  intros Hi'. apply Hne. apply (elem_of_set_blocks d _ i (bi_geom _ B)) in Hi, Hi'. congruence.
Qed.

Lemma mo_other_flash s : 0 <= s < num_sets d -> s <> set -> flash_sound d (cw_k w) s -> flash_sound d2 (cw_k w') s.
Proof.
  pose proof (cg_blk _ Hg) as B. intros Hrs Hne H4 i. pose proof mo_layout as Elay. pose proof (layout_geom _ _ Elay) as Eg.
  rewrite (set_blocks_geom _ _ _ Eg). intros Hi. destruct (H4 i Hi) as (f & Ef & F1 & F2).
  destruct (mo_other_blocks s i Hrs Hne Hi) as [Hni Hri]. pose proof (block_size_pos d (bi_geom _ B)).
  destruct (geom_fields _ _ mk_geom) as (Es1 & _ & Eb1 & _). destruct (geom_fields _ _ Eg) as (_ & _ & Ebs & _).
  assert (Ho : forall o, 0 <= o < block_size d -> flash_entry d (cw_k w') i = flash_entry d (cw_k w) i /\
    block_data d (cw_k w') i o = block_data d (cw_k w) i o).
  { intros o Hob. destruct (mo_other _ _ _ Hmo i o) as [H1 H2]; cbn [cw_d set_cw_d]; rewrite ?Es1, ?Eb1, ?(set_blocks_geom _ _ _ mk_geom); try done.
    cbn [cw_d cw_k set_cw_d] in *. by rewrite !(flash_entry_layout _ _ _ _ mk_layout), !(block_data_layout _ _ _ _ _ mk_layout) in *. }
  exists f. unfold is_dirty in *. rewrite (flash_entry_layout _ _ _ _ Elay), mo_dbn by lia. rewrite (proj1 mo_state i Hni).
  split_and!; [by rewrite (proj1 (Ho 0 ltac:(lia)))|done|].
  intros Hd Hnd. specialize (F2 Hd Hnd). intros b o Eb Hob. rewrite mo_dbn in Eb by lia. rewrite Ebs in Hob.
  destruct (bi_dbn d B i Hri (dirty_not_invalid _ Hd)) as (b' & Eb' & [Hb0 _] & Hbd & Hbs). rewrite Eb in Eb'. injection Eb' as <-.
  destruct (sector_of_block d B b o Hb0 Hbd Hob) as [_ R2].
  rewrite (mo_hdd _ _ _ Hmo); cbn [cw_d cw_k set_cw_d];
    [|lia|rewrite (geom_dbn_set _ _ _ mk_geom), R2, Hbs; apply (elem_of_set_blocks d _ i (bi_geom _ B)) in Hi; congruence].
  rewrite (F2 b o Eb Hob), (block_data_layout _ _ _ _ _ Elay). symmetry. by apply Ho.
Qed.

Lemma mo_ready s : 0 <= s < num_sets d -> set_ready w s -> set_ready w' s.
Proof.
  pose proof (cg_blk _ Hg) as B. pose proof mo_layout as Elay. pose proof (layout_geom _ _ Elay) as Eg. destruct mo_state as [S1 S2].
  intros Hrs [H1 H2 H3 H4]. constructor; rewrite ?(set_blocks_geom _ _ _ Eg).
  - intros i. rewrite (set_blocks_geom _ _ _ Eg). intros Hi. destruct (decide (s = set)) as [->|Hne].
    + destruct (S2 i Hi) as [->|[->|[-> _]]]; [by apply H1|done|done].
    + rewrite S1 by by apply (mo_other_blocks s i). by apply H1.
  - intros i Hi. rewrite mo_dbn; [by apply H2|]. pose proof (set_blocks_range d s i (bi_geom _ B) Hrs Hi). lia.
  - destruct Hmo as [(error & st & F) _ _ _ _ _ _ _ _ _]. destruct (decide (s = set)) as [->|Hne].
    + rewrite <-(set_blocks_geom _ _ _ Eg). apply (fn_count _ _ _ _ _ F).
    + destruct (fn_only _ _ _ _ _ F) as (c & c8 & z & cs & n & Ed & Hcs). rewrite Ed at 1. cbn. rewrite (proj1 (Hcs s)) by done. cbn.
      rewrite (proj1 (proj2 mk_rest)), H3. symmetry. apply count_dirty_ext. intros i Hi. unfold is_dirty. by rewrite S1 by by apply (mo_other_blocks s i).
  - destruct (decide (s = set)) as [->|Hne]; [apply Hmo|by apply mo_other_flash].
Qed.

Lemma marked_effect : clean_effect w w'.
Proof.
  pose proof Hg as [B P Bu La Pg Lr To Sz Re]. pose proof mo_layout as Elay. pose proof (layout_geom _ _ Elay) as Eg.
  destruct (geom_fields _ _ Eg) as (Es & Ea & _ & _ & _ & Ens & _). destruct mk_rest as (Er & Ec & En & El).
  destruct Hmo as [(error & st & F) Ev Ep Hr Ht Hf Hv Hs _ _]. cbn [cw_d cw_k set_cw_d clean_dbvecs clean_mdpages cw_results cw_trace] in *.
  destruct F as [Fo Fb _ _ [_ Fc2]]. destruct Fo as (c & c8 & z & cs & n & Ed & _).
  constructor.
  - constructor; try done.
    + eapply policy_inv_same; [| |apply (mk_pol _ _ _ Hmk)]; rewrite Ed; done.
    + rewrite Ev. by apply (bufs_ok_geom d).
    + by apply md_layout_ext with d.
    + rewrite Ep. unfold pages_ok in *. by rewrite Ea.
    + destruct Lr as (l & xs & H1 & H2 & H3). exists l, xs. rewrite Ens. rewrite Ed. cbn. rewrite El. done.
    + by rewrite Es.
  - apply mo_ready.
  - intros i. destruct (decide (i ∈ set_blocks d set)) as [Hi|Hi]; unfold is_dirty at 1; [|by rewrite (proj1 mo_state i Hi)].
    by destruct (proj2 mo_state i Hi) as [->|[->|[_ ?]]].
  - intros s Hs'. rewrite (Hv s Hs'). by apply mk_volume.
  - destruct Ht as (tr & Et & Hts). exists tr. split; [done|]. eapply trace_safe_mono; [|exact Hts].
    intros k Hk s Hs'. specialize (Hk s Hs'). cbn in Hk. by rewrite !(recovered_layout _ _ _ _ mk_layout) in Hk.
  - intros s Hs'. specialize (Hs s Hs'). cbn in Hs. by rewrite !(recovered_layout _ _ _ _ mk_layout) in Hs.
  - rewrite <-Er, Ed. done.
Qed.
End outcome.

Lemma marked_flags w' : marked_outcome set (set_cw_d d1 w) w' -> (forall s, set_flags_of (cw_d w') s = set_flags_of d s) /\ ctl (cw_d w') = ctl d.
Proof.
  intros [(error & st & F) _ _ _ _ _ _ _ _ _]. destruct mk_rest as (_ & Ec & _).
  destruct (fn_only _ _ _ _ _ F) as (c & c8 & z & cs & n & Ed & Hcs). cbn [cw_d set_cw_d] in Ed. rewrite Ed. split; [|apply mk_ctl].
  intros s. unfold set_flags_of. cbn. destruct (Hcs s) as (_ & -> & _). cbn. by rewrite Ec.
Qed.
End marked.

Lemma clean_locked_effect whole : exists w', clean_locked set whole w = Some (tt, w') /\ clean_effect w w' /\
  (forall s, set_flags_of (cw_d w') s = set_flags_of d s) /\ ctl (cw_d w') = ctl d.
Proof.
  pose proof Hg as [B P Bu La Pg Lr To Sz Re]. pose proof Hready as [R1 R2 R3 R4].
  unfold clean_locked. rewrite bind_gets.
  destruct (cs_nr_dirty _ =? 0); [exists w; split_and!; [done|by apply clean_effect_refl|done|done]|].
  assert (H1 : exists n d1, (if whole then fun d => Some (mark_whole (set_blocks d set) 0 d) else eio_get_setblks_to_clean set) d = Some (n, d1) /\
     marking set d d1 /\ (n = 0 -> forall i, EIO_CACHE_STATE_GET d1 i = EIO_CACHE_STATE_GET d i)).
  { destruct whole; [|by apply setblks_marking].
    destruct (mark_whole_marking d set B P Hset) as (n & d1 & E & Hm & H0). exists n, d1. rewrite E. split_and!; [done|done|].
    intros E0. by rewrite H0. }
  destruct H1 as (n & d1 & E1 & Hm & H0).
  assert (E2 : on_cache (if whole then fun d => Some (mark_whole (set_blocks d set) 0 d) else eio_get_setblks_to_clean set) w = Some (n, set_cw_d d1 w))
    by (unfold on_cache; destruct whole; exact (f_equal (fun r => match r with Some (a, d) => Some (a, set_cw_d d w) | None => None end) E1)).
  rewrite (bind_run _ _ _ _ _ E2).
  destruct (Z.eqb_spec n 0) as [E0|E0].
  - exists (set_cw_d d1 w). split_and!; [done| |intros s; unfold set_flags_of; cbn; by rewrite (proj1 (proj2 (mk_rest d1 Hm)))|by apply (mk_ctl d1 Hm)].
    apply (marking_effect d1 Hm). intros i Hi. unfold clean_inprog. rewrite (H0 E0).
    destruct (Z.eqb_spec (EIO_CACHE_STATE_GET d i) CLEAN_INPROG) as [E|]; [|done]. specialize (R1 i Hi). rewrite E in R1. by specialize (R1 eq_refl).
  - destruct (marked_ready d1 Hm) as (Hr1 & Hr2 & Hc & Hf & Hst). destruct (geom_fields _ _ (mk_geom d1 Hm)) as (Es & Ea & _ & _ & _ & Ens & _).
    destruct (clean_marked_ok set (set_cw_d d1 w)) as (w' & E' & M);
      cbn [cw_d cw_k set_cw_d clean_dbvecs clean_mdpages cw_results]; rewrite ?Es, ?Ens; try done.
    + by apply (bufs_ok_geom d); [apply mk_geom|].
    + by apply md_layout_ext with d; [apply mk_layout|].
    + unfold pages_ok in *. by rewrite Ea.
    + exists w'. destruct (marked_flags d1 Hm w' M). split_and!; [done|by apply (marked_effect d1 Hm)|done|done].
Qed.
End locked.

(** ** [eio_clean_set] *)
Definition clean_flags (force : bool) (set s flags : Z) : Z :=
  if negb force && (s =? set) then clr flags (Z.lor SETFLAG_CLEAN_INPROG SETFLAG_CLEAN_WHOLE) else flags.

Lemma on_cache_quiet (m : M cache_c unit) w d' : m (cw_d w) = Some (tt, d') ->
  on_cache m w = Some (tt, set_cw_d d' w).
Proof. unfold on_cache. by intros ->. Qed.

Lemma eio_clean_set_ok jiffies w set whole force : clean_globals w -> 0 <= set < num_sets (cw_d w) -> set_ready w set ->
  exists w', eio_clean_set jiffies set whole force w = Some (tt, w') /\ clean_effect w w' /\
    (forall s, set_flags_of (cw_d w') s = clean_flags force set s (set_flags_of (cw_d w) s)) /\ ctl (cw_d w') = ctl (cw_d w).
Proof.
  intros Hg Hs Hr. unfold eio_clean_set. rewrite bind_gets.
  assert (H1 : exists w1, (if CACHE_FAILED_IS_SET (cw_d w) then ret tt
   else if cs_nr_dirty (cache_sets (cw_d w) !!! set) =? 0 then ret tt
   else if negb force && AUTOCLEAN_THRESHOLD_CROSSED (cw_d w) then on_cache (eio_touch_set_lru jiffies set ;; ret tt)
   else clean_locked set whole) w = Some (tt, w1) /\ clean_effect w w1 /\
   (forall s, set_flags_of (cw_d w1) s = set_flags_of (cw_d w) s) /\ ctl (cw_d w1) = ctl (cw_d w)).
  { assert (Hw : exists w1, ret tt w = Some (tt, w1) /\ clean_effect w w1 /\ (forall s, set_flags_of (cw_d w1) s = set_flags_of (cw_d w) s) /\ ctl (cw_d w1) = ctl (cw_d w))
      by (exists w; split_and!; [done|by apply clean_effect_refl|done|done]).
    destruct (CACHE_FAILED_IS_SET _); [exact Hw|]. destruct (_ =? 0); [exact Hw|]. destruct (_ && _); [|by apply clean_locked_effect].
    destruct (touch_quiet jiffies set (cw_d w) (cg_lru _ Hg) Hs) as (d1 & E1 & Q1 & L1 & C1 & T1).
    exists (set_cw_d d1 w). split_and!; [|by apply quiet_effect|intros s; unfold set_flags_of; cbn; by rewrite C1|done].
    apply on_cache_quiet. by rewrite (bind_run _ _ _ _ _ E1). }
  destruct H1 as (w1 & E1 & Ef1 & Fl1 & Ct1). rewrite (bind_run _ _ _ _ _ E1).
  assert (N1 : num_sets (cw_d w1) = num_sets (cw_d w)).
  { pose proof (layout_geom _ _ (clean_rest_layout _ _ (ce_rest _ _ Ef1))) as Eg. by destruct (geom_fields _ _ Eg) as (_ & _ & _ & _ & _ & -> & _). }
  destruct (clean_out_quiet jiffies set force (cw_d w1) (cg_lru _ (ce_globals _ _ Ef1)) ltac:(lia)) as (d2 & E2 & Q2 & L2 & F2 & T2).
  exists (set_cw_d d2 w1). split_and!; [by apply on_cache_quiet| | |].
  - eapply clean_effect_trans; [exact Ef1|]. apply quiet_effect; [apply Ef1|done|done].
  - intros s. unfold set_flags_of, clean_flags in *. cbn. rewrite F2, Fl1. done.
  - by rewrite <-Ct1.
Qed.
