(* ===== verification/CleanThread.v ===== *)
(** * Cleaning the whole cache and the clean thread ([eio_main.c])

    [eio_clean_all], [eio_clean_for_reboot], [eio_clean_aged_sets] and the body
    of the clean thread's loop.  [jiffies] gives the time at which each set is
    cleaned; [HZ] is the kernel's.

    ** A clean without I/O errors leaves nothing dirty

    As long as no transfer fails, a whole clean of a set writes all its dirty
    blocks back, and [eio_clean_all] those of the whole cache. *)

From S2P Require Import Prelude Types Mem DList SetLru Scan Policy Thresh Lookup World Dispatch Disk Clean CleanIo CleanState CleanSet.

(** * Cleaning the whole cache and the clean thread ([eio_main.c]) *)
(** ** [eio_clean_all] *)
Definition set_do_clean (v : Z) (d : cache_c) : cache_c := set_sysctl_active {| (sysctl_active d) with do_clean := v |} d.

(** the condition of the loop *)
Definition clean_all_cond (d : cache_c) : bool :=
  (clean_index d <? i32 (Z.shiftr (dmc_size d) (consecutive_shift d)))
  && tst (do_clean (sysctl_active d)) EIO_CLEAN_START
  && (0 <? nr_dirty d)
  && (negb (tst (cache_flags d) CACHE_FLAGS_SHUTDOWN_INPROG) && (fast_remove (sysctl_active d) =? 0)).

Fixpoint clean_all_loop (fuel : nat) (jiffies : Z -> Z) : M cworld unit :=
  d <- gets cw_d ;;
  if negb (clean_all_cond d) then ret tt
  else
    match fuel with
    | O => panic
    | S n =>
      if CACHE_FAILED_IS_SET d then ret tt
      else
        eio_clean_set (jiffies (clean_index d)) (clean_index d) true true ;;
        on_cache (modify (fun d => set_clean_index (clean_index d + 1) d)) ;;
        clean_all_loop n jiffies
    end.

Definition eio_clean_all (jiffies : Z -> Z) : M cworld unit :=
  d <- gets cw_d ;;
  EIO_ASSERT (mode d =? CACHE_MODE_WB) ;;
  on_cache (modify (set_clean_index 0)) ;;
  clean_all_loop (Z.to_nat (i32 (Z.shiftr (dmc_size d) (consecutive_shift d)))) jiffies ;;
  on_cache (modify (fun d => set_do_clean (clr (do_clean (sysctl_active d)) EIO_CLEAN_START) d)).

(** ** [eio_clean_for_reboot] *)
Definition eio_clean_for_reboot (jiffies : Z -> Z) : M cworld unit :=
  d <- gets cw_d ;;
  mfor (seqZ 0 (Z.shiftr (dmc_size d) (consecutive_shift d))) (fun i => eio_clean_set (jiffies i) i true true).

(** ** [eio_clean_aged_sets] *)
Fixpoint clean_aged_loop (fuel : nat) (HZ cur_time : Z) : M cache_c unit :=
  d <- gets id ;;
  let '(_, set_index, set_time) := lru_read_head (dirty_set_lru d) in
  if set_index =? LRU_NULL then ret tt
  else if EIO_DIV (u64 (cur_time - set_time)) HZ <? u32 (time_based_clean_interval (sysctl_active d) * 60) then ret tt
  else
    match fuel with
    | O => panic
    | S n =>
      dirty_lru (lru_rem set_index) ;;
      when (0 <? cs_nr_dirty (cache_sets d !!! set_index)) (modify (eio_addto_cleanq set_index true)) ;;
      clean_aged_loop n HZ cur_time
    end.

(** returns whether the work is scheduled again *)
Definition eio_clean_aged_sets (HZ cur_time : Z) : M cache_c bool :=
  d <- gets id ;;
  if CACHE_FAILED_IS_SET d then modify (set_is_clean_aged_sets_sched 0) ;; ret false
  else
    clean_aged_loop (dirty_lru_fuel d) HZ cur_time ;;
    d <- gets id ;;
    ret (negb (time_based_clean_interval (sysctl_active d) =? 0)).

(** ** The clean thread *)

(** the sets of the private list, one by one *)
Fixpoint clean_setlist (jiffies : Z -> Z) (systime : Z) (setlist : list Z) : M cworld unit :=
  match setlist with
  | [] => ret tt
  | index :: setlist' =>
    d <- gets cw_d ;;
    (if fast_remove (sysctl_active d) =? 0
     then eio_clean_set (jiffies index) index (tst (cs_flags (cache_sets d !!! index)) SETFLAG_CLEAN_WHOLE) false
     else
       on_cache (modify (fun d => set_cs_flags index (clr (cs_flags (cache_sets d !!! index)) (Z.lor SETFLAG_CLEAN_INPROG SETFLAG_CLEAN_WHOLE)) d) ;;
                 dirty_lru (lru_touch index systime) ;; ret tt)) ;;
    on_cache (modify (fun d => set_clean_pendings (atomic64_dec (clean_pendings d)) d)) ;;
    clean_setlist jiffies systime setlist'
  end.

(** the loop body up to the wait; [true] if the loop is left *)
Definition clean_thread_start (jiffies : Z -> Z) : M cworld bool :=
  on_cache (eio_comply_dirty_thresholds (-1)) ;;
  d <- gets cw_d ;;
  when (negb (do_clean (sysctl_active d) =? 0))
    (eio_clean_all jiffies ;;
     on_cache (modify (set_is_clean_aged_sets_sched 0) ;;
       modify (fun d => if negb (time_based_clean_interval (sysctl_active d) =? 0) && negb (nr_dirty d =? 0)
                        then set_is_clean_aged_sets_sched 1 d else d))) ;;
  d <- gets cw_d ;;
  ret (negb (fast_remove (sysctl_active d) =? 0)).

(** the condition the thread waits for *)
Definition clean_event (d : cache_c) : bool :=
  negb (bool_decide (cleanq d = [])) || negb (fast_remove (sysctl_active d) =? 0) || negb (do_clean (sysctl_active d) =? 0).

(** and the loop body after the wait *)
Definition clean_thread_work (jiffies : Z -> Z) (systime : Z) : M cworld unit :=
  d <- gets cw_d ;;
  let setlist := cleanq d in
  on_cache (modify (set_cleanq [])) ;;
  clean_setlist jiffies systime setlist.

(** ** What holds of all the sets *)
Definition all_ready (w : cworld) : Prop := forall s, 0 <= s < num_sets (cw_d w) -> set_ready w s.

Lemma effect_num w w' : clean_effect w w' -> num_sets (cw_d w') = num_sets (cw_d w).
Proof.
  intros H. pose proof (layout_geom _ _ (clean_rest_layout _ _ (ce_rest _ _ H))) as Eg.
  by destruct (geom_fields _ _ Eg) as (_ & _ & _ & _ & _ & -> & _).
Qed.
Lemma effect_all_ready w w' : clean_effect w w' -> all_ready w -> all_ready w'.
Proof. intros H Hr s Hs. rewrite (effect_num _ _ H) in Hs. by apply H, Hr. Qed.

Lemma world_sets_small w : clean_globals w -> 0 < num_sets (cw_d w) < 2 ^ 31.
Proof.
  intros [B _ _ _ _ _ _ Sz _]. pose proof (bi_geom _ B) as Hg. destruct Hg as [Hc _ _ Ha _ _ Hn _ Hs].
  pose proof (assoc_pos _ (bi_geom _ B)). pose proof (num_sets_pos _ (bi_geom _ B)). nia.
Qed.

(** a step that changes neither blocks nor devices *)
Lemma quiet_step (f : cache_c -> cache_c) w : clean_globals w -> quiet (cw_d w) (f (cw_d w)) -> dirty_set_lru (f (cw_d w)) = dirty_set_lru (cw_d w) ->
  on_cache (modify f) w = Some (tt, set_cw_d (f (cw_d w)) w) /\ clean_effect w (set_cw_d (f (cw_d w)) w).
Proof.
  intros Hg Hq Hl. split; [done|]. apply quiet_effect; [done|done|].
  destruct (cg_lru _ Hg) as (l & xs & H1 & H2 & H3). exists l, xs. rewrite Hl. split_and!; [done|done|].
  pose proof (layout_geom _ _ (quiet_layout _ _ Hq)) as Eg. by destruct (geom_fields _ _ Eg) as (_ & _ & _ & _ & _ & -> & _).
Qed.

(** ** [eio_clean_all] *)

(** the sets one by one; [clean_pendings] and the queue are not touched *)
Lemma clean_all_loop_ok jiffies : forall fuel w, clean_globals w -> all_ready w -> 0 <= clean_index (cw_d w) ->
  (Z.to_nat (num_sets (cw_d w) - clean_index (cw_d w)) <= fuel)%nat ->
  exists w', clean_all_loop fuel jiffies w = Some (tt, w') /\ clean_effect w w' /\
    (forall s, set_flags_of (cw_d w') s = set_flags_of (cw_d w) s) /\
    sysctl_active (cw_d w') = sysctl_active (cw_d w) /\ cleanq (cw_d w') = cleanq (cw_d w) /\ clean_pendings (cw_d w') = clean_pendings (cw_d w).
Proof.
  induction fuel as [|fuel IH]; intros w Hg Hr Hi Hf; pose proof (world_sets_small w Hg) as Hn; cbn [clean_all_loop]; rewrite bind_gets;
    (destruct (clean_all_cond (cw_d w)) eqn:Ec; cbn [negb]; [|exists w; split_and!; [done|by apply clean_effect_refl|done|done|done|done]]).
  all: assert (Hlt : clean_index (cw_d w) < num_sets (cw_d w)) by
    (unfold clean_all_cond in Ec; rewrite !andb_true_iff in Ec; destruct Ec as (((Ec & _) & _) & _); apply Z.ltb_lt in Ec;
     rewrite (sets_count _ (bi_geom _ (cg_blk _ Hg))), i32_small in Ec by lia; done).
  { lia. }
  destruct (CACHE_FAILED_IS_SET _); [exists w; split_and!; [done|by apply clean_effect_refl|done|done|done|done]|].
  destruct (eio_clean_set_ok (jiffies (clean_index (cw_d w))) w (clean_index (cw_d w)) true true Hg ltac:(lia) (Hr (clean_index (cw_d w)) ltac:(lia)))
    as (w1 & E1 & F1 & L1 & T1).
  rewrite (bind_run _ _ _ _ _ E1).
  destruct (quiet_step (fun d => set_clean_index (clean_index d + 1) d) w1 (ce_globals _ _ F1) ltac:(done) ltac:(done)) as [E2 F2].
  rewrite (bind_run _ _ _ _ _ E2). pose proof (clean_effect_trans _ _ _ F1 F2) as F12. injection T1 as T1 T2 T3 T4 T5.
  destruct (IH (set_cw_d (set_clean_index (clean_index (cw_d w1) + 1) (cw_d w1)) w1)) as (w' & E' & F' & L' & S' & Q' & P').
  - apply F2. - by apply (effect_all_ready w). - cbn. lia.
  - cbn. change (num_sets (cw_d w1)) with (num_sets (cw_d w1)). rewrite (effect_num _ _ F1). lia.
  - exists w'. split_and!; [done|by eapply clean_effect_trans| |by rewrite S'|by rewrite Q'|by rewrite P'].
    intros s. rewrite L'. unfold set_flags_of in *. cbn. by rewrite L1.
Qed.

Lemma eio_clean_all_ok jiffies w : clean_globals w -> all_ready w -> mode (cw_d w) = CACHE_MODE_WB ->
  exists w', eio_clean_all jiffies w = Some (tt, w') /\ clean_effect w w' /\
    (forall s, set_flags_of (cw_d w') s = set_flags_of (cw_d w) s) /\
    sysctl_active (cw_d w') = {| (sysctl_active (cw_d w)) with do_clean := clr (do_clean (sysctl_active (cw_d w))) EIO_CLEAN_START |} /\
    cleanq (cw_d w') = cleanq (cw_d w) /\ clean_pendings (cw_d w') = clean_pendings (cw_d w).
Proof.
  intros Hg Hr Hm. unfold eio_clean_all. rewrite bind_gets, bind_assert by by rewrite Hm.
  destruct (quiet_step (set_clean_index 0) w Hg ltac:(done) ltac:(done)) as [E1 F1]. rewrite (bind_run _ _ _ _ _ E1).
  pose proof (world_sets_small w Hg) as Hn.
  destruct (clean_all_loop_ok jiffies (Z.to_nat (i32 (Z.shiftr (dmc_size (cw_d w)) (consecutive_shift (cw_d w)))))
    (set_cw_d (set_clean_index 0 (cw_d w)) w)) as (w2 & E2 & F2 & L2 & S2 & Q2 & P2).
  - apply F1. - by apply (effect_all_ready w). - done.
  - rewrite (sets_count _ (bi_geom _ (cg_blk _ Hg))), i32_small by lia. cbn. lia.
  - rewrite (bind_run _ _ _ _ _ E2).
    destruct (quiet_step (fun d => set_do_clean (clr (do_clean (sysctl_active d)) EIO_CLEAN_START) d) w2 (ce_globals _ _ F2) ltac:(done) ltac:(done)) as [E3 F3].
    eexists. split_and!; [exact E3|by eapply clean_effect_trans; [|eapply clean_effect_trans]|exact L2| |exact Q2|exact P2].
    cbn. rewrite S2. done.
Qed.

(** ** [eio_clean_for_reboot] *)
Lemma clean_sets_ok jiffies : forall l w, clean_globals w -> all_ready w -> (forall i, i ∈ l -> 0 <= i < num_sets (cw_d w)) ->
  exists w', mfor l (fun i => eio_clean_set (jiffies i) i true true) w = Some (tt, w') /\ clean_effect w w'.
Proof.
  induction l as [|i l IH]; intros w Hg Hr Hl; cbn [mfor]; [exists w; split; [done|by apply clean_effect_refl]|].
  destruct (eio_clean_set_ok (jiffies i) w i true true Hg) as (w1 & E1 & F1 & _).
  { apply Hl, elem_of_cons. by left. } { apply Hr, Hl, elem_of_cons. by left. }
  rewrite (bind_run _ _ _ _ _ E1).
  destruct (IH w1) as (w' & E' & F'); [apply F1|by apply (effect_all_ready w)| |].
  - intros j Hj. rewrite (effect_num _ _ F1). apply Hl, elem_of_cons. by right.
  - exists w'. split; [done|by eapply clean_effect_trans].
Qed.

Lemma eio_clean_for_reboot_ok jiffies w : clean_globals w -> all_ready w ->
  exists w', eio_clean_for_reboot jiffies w = Some (tt, w') /\ clean_effect w w'.
Proof.
  intros Hg Hr. unfold eio_clean_for_reboot. rewrite bind_gets, (sets_count _ (bi_geom _ (cg_blk _ Hg))).
  apply clean_sets_ok; [done|done|]. intros i Hi%elem_of_seqZ. lia.
Qed.

(** ** The clean thread *)
Lemma clean_flags_inprog force set s f :
  tst (clean_flags force set s f) SETFLAG_CLEAN_INPROG = tst f SETFLAG_CLEAN_INPROG && negb (negb force && (s =? set)).
Proof.
  unfold clean_flags. destruct (negb force && _); cbn [negb]; rewrite ?andb_true_r, ?andb_false_r; [|done].
  change SETFLAG_CLEAN_INPROG with (2 ^ 0). rewrite tst_spec by lia. unfold clr.
  rewrite Z.ldiff_spec. change (Z.lor (2 ^ 0) SETFLAG_CLEAN_WHOLE) with 3. change (Z.testbit 3 0) with true. apply andb_false_r.
Qed.

(** a set taken off the queue is done with *)
Lemma cleanq_inv_done i rest d d' : cleanq_inv (i :: rest) d -> num_sets d < 2 ^ 62 -> num_sets d' = num_sets d -> cleanq d' = cleanq d ->
  clean_pendings d' = atomic64_dec (clean_pendings d) ->
  (forall s, set_flags_of d' s = clean_flags false i s (set_flags_of d s)) -> cleanq_inv rest d'.
Proof.
  intros [Hnd Hr Hf Hp] Hbig En Eq Ep Hfl.
  assert (Hperm : cleanq d ++ i :: rest ≡ₚ i :: (cleanq d ++ rest)) by solve_Permutation.
  rewrite Hperm in Hnd. apply NoDup_cons in Hnd as [Hni Hnd].
  assert (Hr' : forall s, s ∈ cleanq d ++ rest -> 0 <= s < num_sets d).
  { intros s Hs. apply Hr. rewrite Hperm. apply elem_of_cons. by right. }
  assert (Hlen : Z.of_nat (length (cleanq d ++ rest)) <= num_sets d).
  { assert (length (cleanq d ++ rest) <= length (seqZ 0 (num_sets d)))%nat as Hle.
    { apply submseteq_length, NoDup_submseteq; [done|]. intros s Hs. apply elem_of_seqZ. specialize (Hr' s Hs). lia. }
    rewrite length_seqZ in Hle. pose proof (Hr i ltac:(rewrite Hperm; apply elem_of_cons; by left)). lia. }
  constructor; rewrite ?Eq, ?En; [done|done| |].
  - intros s Hs. fold (set_flags_of d' s). rewrite Hfl, clean_flags_inprog. unfold set_flags_of. cbn [negb andb].
    specialize (Hf s Hs). rewrite Hperm in Hf. destruct (Z.eqb_spec s i) as [->|Hne]; cbn [negb].
    + rewrite andb_false_r. done.
    + rewrite andb_true_r, Hf, elem_of_cons. tauto.
  - rewrite Ep, Hp. rewrite (Permutation_length Hperm). unfold atomic64_dec, i64. cbn [length]. rewrite Z.mod_small by lia. lia.
Qed.

(** a set given back to the dirty-set LRU instead of being cleaned *)
Lemma setlist_skip systime index w : clean_globals w -> 0 <= index < num_sets (cw_d w) ->
  exists w', on_cache (modify (fun d => set_cs_flags index (clr (cs_flags (cache_sets d !!! index)) (Z.lor SETFLAG_CLEAN_INPROG SETFLAG_CLEAN_WHOLE)) d) ;;
                 dirty_lru (lru_touch index systime) ;; ret tt) w = Some (tt, w') /\ clean_effect w w' /\
    (forall s, set_flags_of (cw_d w') s = clean_flags false index s (set_flags_of (cw_d w) s)) /\ ctl (cw_d w') = ctl (cw_d w).
Proof.
  intros Hg Hi. set (d1 := set_cs_flags index (clr (cs_flags (cache_sets (cw_d w) !!! index)) (Z.lor SETFLAG_CLEAN_INPROG SETFLAG_CLEAN_WHOLE)) (cw_d w)).
  destruct (cg_lru _ Hg) as (l & xs & El & Hrep & Hmax).
  destruct (lru_touch_rep l xs index systime Hrep ltac:(lia)) as (l' & E & Hrep' & Hmax' & _).
  exists (set_cw_d (set_dirty_set_lru (Some l') d1) w). split_and!; [| | |done].
  - apply on_cache_quiet. rewrite bind_modify. fold d1. unfold bind, dirty_lru.
    change (dirty_set_lru d1) with (dirty_set_lru (cw_d w)). rewrite El, E. done.
  - apply quiet_effect; [done|etransitivity; [apply flags_quiet|apply quiet_lru]|].
    exists l', (without index xs ++ [index]). split_and!; [done|done|]. rewrite Hmax', Hmax. done.
  - intros s. unfold set_flags_of, clean_flags. cbn. rewrite lookup_total_insert.
    destruct (Z.eqb_spec s index) as [->|Hne]; case_decide; try congruence; done.
Qed.

Lemma clean_setlist_ok jiffies systime : forall setlist w, clean_globals w -> all_ready w -> cleanq_inv setlist (cw_d w) ->
  exists w', clean_setlist jiffies systime setlist w = Some (tt, w') /\ clean_effect w w' /\ cleanq_inv [] (cw_d w') /\
    cleanq (cw_d w') = cleanq (cw_d w) /\ sysctl_active (cw_d w') = sysctl_active (cw_d w).
Proof.
  induction setlist as [|i setlist IH]; intros w Hg Hr Hq; cbn [clean_setlist]; [exists w; split_and!; [done|by apply clean_effect_refl|done|done|done]|].
  rewrite bind_gets. pose proof (world_sets_small w Hg) as Hn.
  assert (Hi : 0 <= i < num_sets (cw_d w)) by (apply (cq_range _ _ Hq); apply elem_of_app; right; apply elem_of_cons; by left).
  match goal with |- context [bind ?m _ w] => assert (H1 : exists w1, m w = Some (tt, w1) /\ clean_effect w w1 /\
    (forall s, set_flags_of (cw_d w1) s = clean_flags false i s (set_flags_of (cw_d w) s)) /\ ctl (cw_d w1) = ctl (cw_d w)) end.
  { destruct (fast_remove _ =? 0); [|by apply setlist_skip]. apply eio_clean_set_ok; [done|done|by apply Hr]. }
  destruct H1 as (w1 & E1 & F1 & L1 & T1). rewrite (bind_run _ _ _ _ _ E1). injection T1 as T1 T2 T3 T4 T5.
  destruct (quiet_step (fun d => set_clean_pendings (atomic64_dec (clean_pendings d)) d) w1 (ce_globals _ _ F1) ltac:(done) ltac:(done)) as [E2 F2].
  rewrite (bind_run _ _ _ _ _ E2). pose proof (clean_effect_trans _ _ _ F1 F2) as F12.
  destruct (IH (set_cw_d (set_clean_pendings (atomic64_dec (clean_pendings (cw_d w1))) (cw_d w1)) w1)) as (w' & E' & F' & Q' & C' & S').
  - apply F2. - by apply (effect_all_ready w).
  - apply (cleanq_inv_done i setlist (cw_d w)); [done|lia|by apply (effect_num w)|done| |exact L1]. cbn. by rewrite T4.
  - exists w'. split_and!; [done|by eapply clean_effect_trans|done|by rewrite C'|by rewrite S'].
Qed.

(** the work of the thread after its wait *)
Lemma clean_thread_work_ok jiffies systime w : clean_globals w -> all_ready w -> cleanq_inv [] (cw_d w) ->
  exists w', clean_thread_work jiffies systime w = Some (tt, w') /\ clean_effect w w' /\
    cleanq_inv [] (cw_d w') /\ cleanq (cw_d w') = [] /\ clean_pendings (cw_d w') = 0.
Proof.
  intros Hg Hr [Hnd Hrg Hf Hp]. rewrite app_nil_r in *. unfold clean_thread_work. rewrite bind_gets. cbv zeta.
  destruct (quiet_step (set_cleanq []) w Hg ltac:(done) ltac:(done)) as [E1 F1]. rewrite (bind_run _ _ _ _ _ E1).
  destruct (clean_setlist_ok jiffies systime (cleanq (cw_d w)) (set_cw_d (set_cleanq [] (cw_d w)) w)) as (w' & E' & F' & Q' & C' & _).
  - apply F1. - by apply (effect_all_ready w).
  - by constructor.
  - exists w'. split_and!; [done|by eapply clean_effect_trans|done|by rewrite C'|].
    rewrite (cq_pending _ _ Q'), C'. done.
Qed.

(** ** [eio_clean_aged_sets] *)

(** the set was last touched at least [time_based_clean_interval] minutes ago *)
Definition aged (HZ cur_time : Z) (d : cache_c) (set_time : Z) : bool :=
  negb (EIO_DIV (u64 (cur_time - set_time)) HZ <? u32 (time_based_clean_interval (sysctl_active d) * 60)).

Lemma lru_read_head_rep l xs : lru_rep l xs ->
  lru_read_head (Some l) = (0, default LRU_NULL (head xs), match head xs with Some i => key_of l i | None => 0 end).
Proof.
  intros Hrep. unfold lru_read_head. pose proof (rep_head_null l xs Hrep) as Hn. pose proof (rep_head _ _ Hrep) as Hh.
  destruct xs as [|i xs]; cbn in Hh |- *.
  - rewrite Hh. done.
  - destruct (Z.eqb_spec (ll_head l) LRU_NULL) as [E|_]; [by apply Hn in E|]. by rewrite Hh.
Qed.

(** The sets that aged are taken off the LRU, oldest first; those with dirty
    blocks are queued for a whole clean. *)
Lemma clean_aged_loop_ok HZ cur inflight : forall xs fuel d l,
  dirty_set_lru d = Some l -> lru_rep l xs -> ll_max l = num_sets d -> num_sets d < 2 ^ 62 -> cleanq_inv inflight d -> (length xs <= fuel)%nat ->
  exists d' taken rest l', clean_aged_loop fuel HZ cur d = Some (tt, d') /\ cleanq_only d d' /\ sysctl_active d' = sysctl_active d /\
    cleanq_inv inflight d' /\ xs = taken ++ rest /\ dirty_set_lru d' = Some l' /\ lru_rep l' rest /\ ll_max l' = num_sets d /\
    (forall s, s ∈ taken -> aged HZ cur d (key_of l s) = true /\ (0 < cs_nr_dirty (cache_sets d !!! s) -> s ∈ cleanq d' ++ inflight)) /\
    (forall s, head rest = Some s -> aged HZ cur d (key_of l s) = false) /\
    (forall s, s ∈ cleanq d ++ inflight -> s ∈ cleanq d' ++ inflight).
Proof.
  induction xs as [|s xs IH]; intros fuel d l El Hrep Hmax Hbig Hcq Hf; pose proof (lru_read_head_rep l _ Hrep) as Eh;
    (destruct fuel as [|fuel]; cbn [clean_aged_loop]; rewrite bind_gets; cbn [id]; rewrite El, Eh; cbn [head default from_option id]).
  1,2: rewrite Z.eqb_refl; exists d, [], [], l; split_and!; try done; by intros s ?%not_elem_of_nil.
  { cbn in Hf. lia. }
  pose proof (rep_range _ _ Hrep s ltac:(apply elem_of_cons; by left)) as Hs. rewrite Hmax in Hs.
  destruct (Z.eqb_spec s LRU_NULL) as [->|_]; [unfold LRU_NULL in Hs; lia|].
  destruct (_ <? _) eqn:Eage.
  { exists d, [], (s :: xs), l. split_and!; try done; [by intros x ?%not_elem_of_nil|].
    intros x [= <-]. unfold aged. by rewrite Eage. }
  destruct (lru_rem_in l (s :: xs) Hrep s) as (l1 & E1 & Hrep1 & Hmax1 & Hkey1); [apply elem_of_cons; by left|].
  rewrite (without_mid [] s xs (rep_nodup _ _ Hrep) : without s (s :: xs) = xs) in Hrep1.
  set (d1 := set_dirty_set_lru (Some l1) d).
  assert (Er : dirty_lru (lru_rem s) d = Some (0, d1)) by (unfold dirty_lru; by rewrite El, E1).
  rewrite (bind_run _ _ _ _ _ Er).
  set (d2 := if 0 <? cs_nr_dirty (cache_sets d !!! s) then eio_addto_cleanq s true d1 else d1).
  assert (E2 : when (0 <? cs_nr_dirty (cache_sets d !!! s)) (modify (eio_addto_cleanq s true)) d1 = Some (tt, d2))
    by (subst d2; by destruct (0 <? _)).
  rewrite (bind_run _ _ _ _ _ E2).
  assert (Hcq1 : cleanq_inv inflight d1) by by eapply cleanq_inv_ext; [..|exact Hcq].
  destruct (addto_cleanq_inv inflight s true d1 Hcq1 Hs Hbig) as [Hcq2 Hin2].
  assert (H2 : cleanq_inv inflight d2 /\ dirty_set_lru d2 = Some l1 /\ num_sets d2 = num_sets d /\ sysctl_active d2 = sysctl_active d /\
    cleanq_only d d2 /\ (forall x, x ∈ cleanq d ++ inflight -> x ∈ cleanq d2 ++ inflight) /\
    (0 < cs_nr_dirty (cache_sets d !!! s) -> s ∈ cleanq d2 ++ inflight)).
  { subst d2. destruct (Z.ltb_spec 0 (cs_nr_dirty (cache_sets d !!! s))).
    - rewrite addto_cleanq_lru, addto_cleanq_num. split_and!; try done.
      + unfold eio_addto_cleanq. by destruct (tst _ _).
      + etransitivity; [apply set_lru_cleanq_only|apply addto_cleanq_only].
      + intros x Hx. unfold eio_addto_cleanq. destruct (tst _ _); [done|]. cbn. rewrite !elem_of_app in *. tauto.
    - split_and!; try done; [apply set_lru_cleanq_only|lia]. }
  destruct H2 as (Hcq2' & El2 & En2 & Es2 & O2 & Hm2 & Hin).
  destruct (IH fuel d2 l1 El2 Hrep1 ltac:(congruence) ltac:(lia) Hcq2' ltac:(cbn in Hf; lia))
    as (d' & taken & rest & l' & E' & O' & S' & Hcq' & -> & El' & Hrep' & Hmax' & Ht & Hh & Hm').
  assert (Hag : forall x, aged HZ cur d2 (key_of l1 x) = aged HZ cur d (key_of l x)) by (intros x; unfold aged; by rewrite Es2, Hkey1).
  destruct (cleanq_only_fields _ _ O2) as (_ & _ & Hnr).
  exists d', (s :: taken), rest, l'. split_and!; try done; [by etransitivity|congruence|congruence| | |by auto].
  - intros x [->|Hx]%elem_of_cons; [unfold aged; rewrite Eage; by auto|]. destruct (Ht x Hx) as [H1 H3]. rewrite Hag in H1. rewrite Hnr in H3. done.
  - intros x Hx. rewrite <-Hag. by apply Hh.
Qed.

(** * A clean without I/O errors leaves nothing dirty *)
(** no transfer fails, and the SSD is there *)
Definition healthy (w : cworld) : Prop :=
  cw_results w = [] /\ CACHE_FAILED_IS_SET (cw_d w) = false /\ CACHE_DEGRADED_IS_SET (cw_d w) = false.

(** and stays so while blocks keep their states *)
Definition steady (w w' : cworld) : Prop :=
  healthy w' /\ assoc (cw_d w') = assoc (cw_d w) /\ forall i, EIO_CACHE_STATE_GET (cw_d w') i = EIO_CACHE_STATE_GET (cw_d w) i.
Lemma steady_trans w1 w2 w3 : steady w1 w2 -> steady w2 w3 -> steady w1 w3.
Proof. intros (_ & E1 & H1) (H & E2 & H2). split_and!; [done|congruence|]. intros i. by rewrite H2. Qed.

Lemma bind_inv {S A B} (m : M S A) (k : A -> M S B) s b s2 : bind m k s = Some (b, s2) ->
  exists a s1, m s = Some (a, s1) /\ k a s1 = Some (b, s2).
Proof. unfold bind. destruct (m s) as [[a s1]|]; [|done]. eauto. Qed.
Lemma assert_inv {S A} c (k : unit -> M S A) s r : bind (EIO_ASSERT c) k s = Some r -> k tt s = Some r.
Proof. unfold bind, EIO_ASSERT. by destruct c. Qed.
Lemma eval_inv {S A B} (f : S -> option A) (k : A -> M S B) s r : bind (eval f) k s = Some r -> exists a, k a s = Some r.
Proof. unfold bind, eval. destruct (f s); [eauto|done]. Qed.

Lemma do_transfer_healthy where_ rw hddio bvecs r w w' : do_transfer where_ rw hddio bvecs r w = Some (tt, w') -> healthy w -> steady w w'.
Proof.
  unfold do_transfer. intros (bios & H)%eval_inv Hh. cbv zeta in H. destruct (rw =? READ); injection H as <-; done.
Qed.

Lemma async_healthy where_ rw bvecs hddio w e w' : eio_io_async_bvec where_ rw bvecs hddio w = Some (e, w') -> healthy w -> e = (0, 0) /\ steady w w'.
Proof.
  unfold eio_io_async_bvec. rewrite bind_gets. intros H Hh. pose proof Hh as (H1 & H2 & H3). rewrite H3 in H. cbn [andb] in H.
  apply bind_inv in H as (r & w1 & E1 & H). unfold next_result in E1. rewrite H1 in E1. injection E1 as <- <-.
  cbn [io_errors fst Z.eqb negb] in H. apply bind_inv in H as ([] & w2 & E2 & H). injection H as <- <-.
  split; [done|]. by apply do_transfer_healthy in E2.
Qed.
Lemma sync_healthy where_ rw pages w e w' : eio_io_sync_pages where_ rw pages w = Some (e, w') -> healthy w -> e = 0 /\ steady w w'.
Proof.
  unfold eio_io_sync_pages. rewrite bind_gets. intros H Hh. pose proof Hh as (H1 & H2 & H3). rewrite H2, H3 in H. cbn [andb orb] in H.
  apply bind_inv in H as (r & w1 & E1 & H). unfold next_result in E1. rewrite H1 in E1. injection E1 as <- <-.
  cbn [io_errors fst Z.eqb negb] in H. apply bind_inv in H as ([] & w2 & E2 & H). injection H as <- <-.
  split; [done|]. by apply do_transfer_healthy in E2.
Qed.

Lemma read_run_healthy start i n w e w' : read_run start i n w = Some (e, w') -> healthy w -> e = (0, 0) /\ steady w w'.
Proof.
  unfold read_run. rewrite bind_gets. intros (b & H%assert_inv)%eval_inv Hh. cbv zeta in H. unfold SECTOR_STATS in H. rewrite bind_modify in H.
  apply async_healthy in H as (-> & H); [|done]. done.
Qed.
Lemma read_runs_healthy start : forall fuel blocks sio w e w', read_runs fuel start blocks sio w = Some (e, w') -> healthy w -> sio = 0 ->
  e = 0 /\ steady w w'.
Proof.
  induction fuel as [|fuel IH]; intros [|i blocks] sio w e w' H Hh ->; cbn [read_runs] in H; try (injection H as <- <-; done); [done|].
  rewrite bind_gets in H. destruct (clean_inprog (cw_d w) i).
  - cbv zeta in H. apply bind_inv in H as (e1 & w1 & [-> Hh1]%read_run_healthy & H); [|done].
    apply IH in H as [-> H]; [|apply Hh1|done]. split; [done|by eapply steady_trans].
  - by apply IH in H.
Qed.
Lemma write_block_healthy start i w e w' : write_block start i w = Some (e, w') -> healthy w -> e = (0, 0) /\ steady w w'.
Proof.
  unfold write_block. rewrite bind_gets. intros (b & H%assert_inv)%eval_inv Hh. apply eval_inv in H as (dbn & H). cbv zeta in H.
  unfold SECTOR_STATS in H. rewrite bind_modify in H. by apply async_healthy in H.
Qed.
Lemma write_blocks_healthy start : forall blocks sio w e w', write_blocks start blocks sio w = Some (e, w') -> healthy w -> sio = 0 ->
  e = 0 /\ steady w w'.
Proof.
  induction blocks as [|i blocks IH]; intros sio w e w' H Hh ->; cbn [write_blocks] in H; [injection H as <- <-; done|].
  rewrite bind_gets in H. destruct (clean_inprog (cw_d w) i).
  - apply bind_inv in H as (e1 & w1 & [-> Hh1]%write_block_healthy & H); [|done].
    apply IH in H as [-> H]; [|apply Hh1|done]. split; [done|by eapply steady_trans].
  - by apply IH in H.
Qed.
Lemma write_md_healthy start blocks w e w' : write_md start blocks w = Some (e, w') -> healthy w -> e = 0 /\ steady w w'.
Proof.
  unfold write_md. rewrite !bind_gets. intros H%assert_inv Hh. apply eval_inv in H as (entries & H). apply eval_inv in H as (mem & H).
  rewrite bind_modify in H. cbv zeta in H. by apply sync_healthy in H.
Qed.

(** ** The states after the clean *)
Lemma clean_finish_states set : forall blocks d d', clean_finish set blocks 0 d = Some (tt, d') ->
  forall i, EIO_CACHE_STATE_GET d' i = if bool_decide (i ∈ blocks) && clean_inprog d i then VALID else EIO_CACHE_STATE_GET d i.
Proof.
  induction blocks as [|j blocks IH]; intros d d' H i; cbn [clean_finish] in H.
  { injection H as <-. by rewrite bool_decide_false by apply not_elem_of_nil. }
  rewrite bind_gets in H. cbn [id] in H. apply bind_inv in H as ([] & d1 & H1 & H). rewrite (IH _ _ H).
  assert (E : forall k, EIO_CACHE_STATE_GET d1 k = if (k =? j) && clean_inprog d j then VALID else EIO_CACHE_STATE_GET d k).
  { intros k. destruct (clean_inprog d j); cbn [when negb Z.eqb] in H1.
    - rewrite bind_modify, bind_gets in H1. apply assert_inv in H1. injection H1 as <-.
      change (EIO_CACHE_STATE_GET (dec_nr_dirty set ?x) k) with (EIO_CACHE_STATE_GET x k). rewrite andb_true_r.
      destruct (Z.eqb_spec k j) as [->|]; [by apply state_get_set_eq|by apply state_get_set_ne].
    - injection H1 as <-. by rewrite andb_false_r. }
  unfold clean_inprog at 1. rewrite E. destruct (Z.eqb_spec i j) as [->|Hne]; cbn [andb].
  - rewrite (bool_decide_true (j ∈ j :: blocks)) by (apply elem_of_cons; by left). cbn [andb].
    destruct (clean_inprog d j) eqn:Ej; [by rewrite andb_false_r|]. unfold clean_inprog in Ej. by rewrite Ej, andb_false_r.
  - rewrite bool_decide_cons_ne by done. done.
Qed.

Lemma clean_marked_states set w w' : clean_marked set w = Some (tt, w') -> healthy w ->
  cw_results w' = [] /\ forall i, EIO_CACHE_STATE_GET (cw_d w') i =
    if bool_decide (i ∈ set_blocks (cw_d w) set) && clean_inprog (cw_d w) i then VALID else EIO_CACHE_STATE_GET (cw_d w) i.
Proof.
  unfold clean_marked. rewrite bind_gets. cbv zeta. intros H Hh.
  apply bind_inv in H as (e1 & w1 & [-> S1]%read_runs_healthy & H); [|done|done]. cbn [Z.eqb negb] in H.
  apply bind_inv in H as (e2 & w2 & H2 & H). apply bind_inv in H2 as (e3 & w3 & [-> S3]%write_blocks_healthy & H2); [|apply S1|done].
  cbn [Z.eqb negb] in H2. apply write_md_healthy in H2 as [-> S2]; [|apply S3].
  pose proof (steady_trans _ _ _ S1 (steady_trans _ _ _ S3 S2)) as ((R & F & D) & _ & Hst).
  unfold on_cache in H. destruct (clean_finish _ _ _ _) as [[[] d']|] eqn:E; [|done]. injection H as <-.
  pose proof (clean_finish_states _ _ _ _ E) as Hf. split; [done|].
  intros i. cbn [cw_d set_cw_d]. rewrite Hf. unfold clean_inprog. by rewrite Hst.
Qed.

(** under the lock, with [whole] *)
Lemma clean_locked_none_dirty set w w' : clean_locked set true w = Some (tt, w') -> healthy w -> set_ready w set -> 
  cw_results w' = [] /\ forall i, i ∈ set_blocks (cw_d w) set -> is_dirty (cw_d w') i = false.
Proof.
  unfold clean_locked. rewrite bind_gets. intros H Hh [Hidle _ Hcount _]. pose proof Hh as (Hr & _).
  destruct (Z.eqb_spec (cs_nr_dirty (cache_sets (cw_d w) !!! set)) 0) as [E0|_].
  { injection H as <-. split; [done|]. intros i Hi. rewrite Hcount in E0. destruct (is_dirty (cw_d w) i) eqn:Ed; [|done].
    exfalso. unfold count_dirty in E0. assert (Hin : i ∈ List.filter (is_dirty (cw_d w)) (set_blocks (cw_d w) set)).
    { apply list_elem_of_In, filter_In. split; [by apply list_elem_of_In|done]. }
    destruct (List.filter _ _); [by apply not_elem_of_nil in Hin|cbn in E0; lia]. }
  apply bind_inv in H as (n & w1 & H1 & H). unfold on_cache in H1. cbv beta in H1.
  pose proof (mark_whole_ok (set_blocks (cw_d w) set) 0 (cw_d w) (NoDup_seqZ _ _)) as Hm.
  pose proof (mark_whole_none (set_blocks (cw_d w) set) 0 (cw_d w)) as [_ Hn].
  destruct (mark_whole _ _ _) as [n1 d1]. destruct Hm as (Hre & _ & Hst). injection H1 as <- <-. cbn [fst snd] in Hn.
  assert (Hd : forall i, i ∈ set_blocks (cw_d w) set -> is_dirty (cw_d w) i = false \/ EIO_CACHE_STATE_GET (cw_d w) i = ALREADY_DIRTY).
  { intros i Hi. destruct (is_dirty (cw_d w) i) eqn:E; [right; by apply Hidle|by left]. }
  destruct (Z.eqb_spec n1 0) as [E0|_].
  { injection H as <-. split; [done|]. cbn [cw_d set_cw_d]. intros i Hi. destruct (Hd i Hi) as [Hnd|Had]; [by rewrite (Hn E0)|].
    specialize (Hst i). rewrite (Hn E0), bool_decide_true, Had in Hst by done. discriminate. }
  apply clean_marked_states in H as [R1 Hst1]; [|split; [done|]].
  2:{ cbn [cw_d set_cw_d]. assert (Hmd : md_only (cw_d w) d1).
      { clear -Hre. induction Hre as [d|d i s d' _ _ _ _ _ IH]; [done|]. etransitivity; [apply state_set_md_only|done]. }
      destruct Hmd as (c & c8 & z & ->). apply Hh. }
  split; [done|]. intros i Hi. unfold is_dirty. rewrite Hst1. cbn [cw_d set_cw_d]. unfold clean_inprog. rewrite !Hst.
  assert (Ha : assoc d1 = assoc (cw_d w)).
  { clear -Hre. induction Hre as [d|d i s d' _ _ _ _ _ IH]; [done|]. rewrite IH. by destruct (geom_fields _ _ (state_set_geom d i s)) as (_ & ? & _). }
  assert (Hb : set_blocks d1 set = set_blocks (cw_d w) set) by (unfold set_blocks, set_start; by rewrite Ha).
  rewrite Hb, !(bool_decide_true (i ∈ _)) by done. cbn [andb]. destruct (Hd i Hi) as [Hnd|Had].
  - unfold is_dirty in Hnd. destruct (Z.eqb_spec (EIO_CACHE_STATE_GET (cw_d w) i) ALREADY_DIRTY) as [E|_]; [by rewrite E in Hnd|].
    destruct (Z.eqb_spec (EIO_CACHE_STATE_GET (cw_d w) i) CLEAN_INPROG) as [E|_]; [by rewrite E in Hnd|done].
  - by rewrite Had.
Qed.

(** ** A whole set *)
Lemma healthy_rest w w' : clean_rest (cw_d w') = clean_rest (cw_d w) -> cw_results w' = [] -> healthy w -> healthy w'.
Proof.
  intros E R (_ & H2 & H3). pose proof (f_equal (fun x => x.1.2) E : cache_flags (cw_d w') = cache_flags (cw_d w)) as Ef.
  unfold healthy, CACHE_FAILED_IS_SET, CACHE_DEGRADED_IS_SET in *. by rewrite Ef.
Qed.

Definition none_dirty (d : cache_c) (set : Z) : Prop := forall i, i ∈ set_blocks d set -> is_dirty d i = false.

Lemma count_dirty_none d l : count_dirty d l = 0 <-> forall i, i ∈ l -> is_dirty d i = false.
Proof.
  unfold count_dirty. split.
  - intros E i Hi. destruct (is_dirty d i) eqn:Ed; [|done]. assert (Hin : i ∈ List.filter (is_dirty d) l).
    { apply list_elem_of_In, filter_In. split; [by apply list_elem_of_In|done]. }
    destruct (List.filter _ _); [by apply not_elem_of_nil in Hin|cbn in E; lia].
  - intros H. induction l as [|i l IH]; cbn [List.filter]; [done|].
    rewrite H by (apply elem_of_cons; by left). apply IH. intros j Hj. apply H, elem_of_cons. by right.
Qed.

Lemma eio_clean_set_none_dirty jiffies set w : clean_globals w -> healthy w -> 0 <= set < num_sets (cw_d w) -> set_ready w set ->
  exists w', eio_clean_set jiffies set true true w = Some (tt, w') /\ healthy w' /\ none_dirty (cw_d w') set.
Proof.
  intros Hg Hh Hs Hr. destruct (eio_clean_set_ok jiffies w set true true Hg Hs Hr) as (w' & E & F & _).
  exists w'. split; [done|]. pose proof (clean_rest_layout _ _ (ce_rest _ _ F)) as El.
  assert (Hb : set_blocks (cw_d w') set = set_blocks (cw_d w) set) by apply set_blocks_geom, layout_geom, El.
  unfold none_dirty. rewrite Hb. unfold eio_clean_set in E. rewrite bind_gets in E.
  apply bind_inv in E as ([] & w1 & E1 & E2). pose proof Hh as (H1 & H2 & H3). rewrite H2 in E1. cbn [negb andb] in E1.
  assert (Hout : forall w1, clean_globals w1 -> num_sets (cw_d w1) = num_sets (cw_d w) -> cw_results w1 = [] ->
    on_cache (clean_out jiffies set true) w1 = Some (tt, w') -> (forall i, i ∈ set_blocks (cw_d w) set -> is_dirty (cw_d w1) i = false) ->
    healthy w' /\ forall i, i ∈ set_blocks (cw_d w) set -> is_dirty (cw_d w') i = false).
  { intros w2 G2 N2 R2 E3 D2. destruct (clean_out_quiet jiffies set true (cw_d w2) (cg_lru _ G2) ltac:(lia)) as (d3 & E4 & Q & _).
    unfold on_cache in E3. rewrite E4 in E3. injection E3 as <-. split.
    - apply (healthy_rest w); [apply F|done|done].
    - intros i Hi. specialize (D2 i Hi). unfold is_dirty in *. cbn [cw_d set_cw_d]. by rewrite (same_md_state _ _ (q_md _ _ Q)). }
  destruct (Z.eqb_spec (cs_nr_dirty (cache_sets (cw_d w) !!! set)) 0) as [E0|_].
  - injection E1 as <-. apply (Hout w); [done|done|done|done|]. apply count_dirty_none. by rewrite <-(sr_count _ _ Hr).
  - destruct (clean_locked_effect w set Hg Hs Hr true) as (w2 & E3 & F2 & _). rewrite E1 in E3. injection E3 as <-.
    apply clean_locked_none_dirty in E1 as [R1 D1]; [|done|done].
    apply (Hout w1); [apply F2|by apply effect_num|done|done|done].
Qed.

(** ** The whole cache *)
Definition clean_wanted (w : cworld) : Prop :=
  tst (do_clean (sysctl_active (cw_d w))) EIO_CLEAN_START = true /\ fast_remove (sysctl_active (cw_d w)) = 0 /\
  tst (cache_flags (cw_d w)) CACHE_FLAGS_SHUTDOWN_INPROG = false.

Lemma all_none_dirty w : clean_globals w -> (forall s, 0 <= s < num_sets (cw_d w) -> none_dirty (cw_d w) s) -> nr_dirty (cw_d w) = 0.
Proof.
  intros Hg H. rewrite (cg_total _ Hg). apply count_dirty_none. intros i Hi%elem_of_seqZ.
  pose proof (bi_geom _ (cg_blk _ Hg)) as Hw. pose proof (assoc_pos _ Hw). pose proof (geo_size _ Hw).
  apply (H (i / assoc (cw_d w))); [|by apply elem_of_set_blocks].
  split; [apply Z.div_pos; lia|]. apply Z.div_lt_upper_bound; lia.
Qed.

Lemma none_dirty_effect w w' s : clean_effect w w' -> none_dirty (cw_d w) s -> none_dirty (cw_d w') s.
Proof.
  intros F H i. rewrite (set_blocks_geom _ _ _ (layout_geom _ _ (clean_rest_layout _ _ (ce_rest _ _ F)))). intros Hi.
  destruct (is_dirty (cw_d w') i) eqn:E; [|done]. apply (ce_dirty _ _ F) in E. by rewrite H in E.
Qed.

Lemma clean_wanted_effect w w' : clean_effect w w' -> sysctl_active (cw_d w') = sysctl_active (cw_d w) -> clean_wanted w -> clean_wanted w'.
Proof.
  intros F E (H1 & H2 & H3). unfold clean_wanted. rewrite E.
  by rewrite (f_equal (fun x => x.1.2) (ce_rest _ _ F) : cache_flags (cw_d w') = cache_flags (cw_d w)).
Qed.

Lemma clean_all_loop_none_dirty jiffies : forall fuel w w', clean_all_loop fuel jiffies w = Some (tt, w') ->
  clean_globals w -> all_ready w -> healthy w -> clean_wanted w -> 0 <= clean_index (cw_d w) -> 0 <= nr_dirty (cw_d w) ->
  (forall s, 0 <= s < clean_index (cw_d w) -> s < num_sets (cw_d w) -> none_dirty (cw_d w) s) -> nr_dirty (cw_d w') = 0.
Proof.
  induction fuel as [|fuel IH]; intros w w' E Hg Hr Hh Hw Hi Hn0 Hdone; pose proof (world_sets_small w Hg) as Hn; cbn [clean_all_loop] in E; rewrite bind_gets in E.
  all: assert (Hc : clean_all_cond (cw_d w) = (clean_index (cw_d w) <? num_sets (cw_d w)) && (0 <? nr_dirty (cw_d w)))
    by (destruct Hw as (W1 & W2 & W3); unfold clean_all_cond; rewrite (sets_count _ (bi_geom _ (cg_blk _ Hg))), i32_small, W1, W2, W3 by lia;
        cbn [negb Z.eqb andb]; by rewrite !andb_true_r); rewrite Hc in E.
  all: destruct (Z.ltb_spec (clean_index (cw_d w)) (num_sets (cw_d w))) as [Hlt|Hge]; cbn [andb negb] in E;
    [|injection E as <-; apply all_none_dirty; [done|intros s Hs; apply Hdone; lia]].
  all: destruct (Z.ltb_spec 0 (nr_dirty (cw_d w))) as [Hd|Hd]; cbn [negb] in E; [|injection E as <-; lia].
  { done. }
  pose proof Hh as Hh0. destruct Hh as (H1 & H2 & H3). rewrite H2 in E.
  destruct (eio_clean_set_none_dirty (jiffies (clean_index (cw_d w))) (clean_index (cw_d w)) w Hg) as (w1 & E1 & Hh1 & Hd1); [done|lia|apply Hr; lia|].
  destruct (eio_clean_set_ok (jiffies (clean_index (cw_d w))) w (clean_index (cw_d w)) true true Hg ltac:(lia) (Hr (clean_index (cw_d w)) ltac:(lia)))
    as (w1' & E1' & F1 & _ & T1). rewrite E1 in E1'. injection E1' as <-. injection T1 as T1 T2 _ _ _.
  rewrite (bind_run _ _ _ _ _ E1) in E.
  destruct (quiet_step (fun d => set_clean_index (clean_index d + 1) d) w1 (ce_globals _ _ F1) ltac:(done) ltac:(done)) as [E2 F2].
  rewrite (bind_run _ _ _ _ _ E2) in E. apply IH in E; cbn [cw_d set_cw_d] in *; try done.
  - apply F2.
  - by apply (effect_all_ready w); [eapply clean_effect_trans|].
  - apply (clean_wanted_effect w); [by eapply clean_effect_trans|done|done].
  - cbn. lia.
  - cbn. rewrite (cg_total _ (ce_globals _ _ F1)). unfold count_dirty. lia.
  - intros s Hs Hsn. change (num_sets (set_clean_index (clean_index (cw_d w1) + 1) (cw_d w1))) with (num_sets (cw_d w1)) in Hsn.
    rewrite (effect_num _ _ F1) in Hsn. cbn in Hs. change (none_dirty (cw_d w1) s).
    destruct (decide (s = clean_index (cw_d w))) as [->|Hne]; [done|].
    apply (none_dirty_effect w); [done|apply Hdone; lia].
Qed.

Lemma eio_clean_all_none_dirty jiffies w : clean_globals w -> all_ready w -> mode (cw_d w) = CACHE_MODE_WB -> healthy w -> clean_wanted w ->
  exists w', eio_clean_all jiffies w = Some (tt, w') /\ nr_dirty (cw_d w') = 0.
Proof.
  intros Hg Hr Hm Hh Hw. destruct (eio_clean_all_ok jiffies w Hg Hr Hm) as (w' & E & _). exists w'. split; [done|].
  unfold eio_clean_all in E. rewrite bind_gets in E. apply assert_inv in E.
  destruct (quiet_step (set_clean_index 0) w Hg ltac:(done) ltac:(done)) as [E1 F1]. rewrite (bind_run _ _ _ _ _ E1) in E.
  apply bind_inv in E as ([] & w2 & E2 & E). injection E as <-. change (nr_dirty (cw_d w2) = 0).
  eapply clean_all_loop_none_dirty; [exact E2|apply F1|by apply (effect_all_ready w)|done|done|done| |cbn; lia].
  cbn. rewrite (cg_total _ Hg). unfold count_dirty. lia.
Qed.
