(* ===== verification/WbAlloc.v ===== *)
(** * Buffers of a write-back cache: [eio_ttc.c], [eio_conf.c]

    The pages a clean reads data into and builds metadata in.  The allocator is
    the kernel's: [pg_next] lists what the coming calls of [alloc_page] return,
    [pg_live] is the set of pages allocated and not freed. *)

From S2P Require Import Prelude Types Mem DList SetLru Thresh Lookup World Dispatch Disk Clean CleanIo CleanState.

Record kmem := mk_kmem { pg_live : gset Z; pg_next : list (option Z) }.

Definition alloc_page : M kmem (option Z) := fun k =>
  match pg_next k with
  | Some p :: l => Some (Some p, mk_kmem ({[p]} ∪ pg_live k) l)
  | None :: l => Some (None, mk_kmem (pg_live k) l)
  | [] => Some (None, k)
  end.
(** freeing a page that is not allocated is a bug *)
Definition put_page (p : Z) : M kmem unit := fun k =>
  if decide (p ∈ pg_live k) then Some (tt, mk_kmem (pg_live k ∖ {[p]}) (pg_next k)) else None.

Definition BLKSIZE_2K : Z := 4.
Definition BLKSIZE_4K : Z := 8.
Definition BLKSIZE_8K : Z := 16.
Definition NULL : Z := 0.

Definition IO_PAGE_COUNT (x : Z) : Z := u64 (x + (PAGE_SIZE - 1)) / PAGE_SIZE.
Definition IO_BVEC_COUNT (x blksize : Z) : Z :=
  let count := IO_PAGE_COUNT x in if blksize =? BLKSIZE_2K then count * 2 else count.

(** ** Freeing *)
Definition clear_page (i : nat) (bvec : list bio_vec) : list bio_vec :=
  alter (fun v => mk_bvec NULL (bv_len v) (bv_offset v)) i bvec.

Definition free_wb_bvec (blksize : Z) (i : nat) (bvec : list bio_vec) : M kmem (list bio_vec) :=
  let page := bv_page (bvec !!! i) in
  if blksize =? BLKSIZE_2K then
    if Nat.even i && negb (page =? NULL) then put_page page ;; ret (clear_page i bvec)
    else ret (if Nat.odd i then clear_page i bvec else bvec)
  else if (blksize =? BLKSIZE_4K) || (blksize =? BLKSIZE_8K) then
    if negb (page =? NULL) then put_page page ;; ret (clear_page i bvec) else ret bvec
  else ret bvec.

Fixpoint free_wb_loop (n i : nat) (blksize : Z) (bvec : list bio_vec) : M kmem (list bio_vec) :=
  match n with
  | O => ret bvec
  | S n => bvec <- free_wb_bvec blksize i bvec ;; free_wb_loop n (S i) blksize bvec
  end.
Definition eio_free_wb_bvecs (bvec : list bio_vec) (allocated : nat) (blksize : Z) : M kmem (list bio_vec) :=
  free_wb_loop allocated 0 blksize bvec.

(** from the last page to the first *)
Definition eio_free_wb_pages (pages : list Z) (allocated : nat) : M kmem (list Z) :=
  if Nat.eqb allocated 0 then ret pages
  else mfor (rev (take allocated pages)) put_page ;; ret (<[0%nat := NULL]> pages).

(** ** Allocating *)

(** the loop: the index it stopped at, and the array *)
Fixpoint alloc_wb_loop (n i : nat) (page : Z) (blksize : Z) (bvec : list bio_vec) : M kmem (nat * list bio_vec) :=
  match n with
  | O => ret (i, bvec)
  | S n =>
    if blksize =? BLKSIZE_2K then
      if Nat.even i then
        p <- alloc_page ;;
        match p with
        | None => ret (i, bvec)
        | Some p => alloc_wb_loop n (S i) p blksize (<[i := mk_bvec p (to_bytes blksize) 0]> bvec)
        end
      else
        EIO_ASSERT (negb (page =? NULL)) ;;
        alloc_wb_loop n (S i) NULL blksize (<[i := mk_bvec page (to_bytes blksize) (PAGE_SIZE - to_bytes blksize)]> bvec)
    else if (blksize =? BLKSIZE_4K) || (blksize =? BLKSIZE_8K) then
      p <- alloc_page ;;
      match p with
      | None => ret (i, bvec)
      | Some p => alloc_wb_loop n (S i) NULL blksize (<[i := mk_bvec p PAGE_SIZE 0]> bvec)
      end
    else alloc_wb_loop n (S i) page blksize bvec
  end.

Definition eio_alloc_wb_bvecs (bvec : list bio_vec) (max : nat) (blksize : Z) : M kmem (Z * list bio_vec) :=
  r <- alloc_wb_loop max 0 NULL blksize bvec ;;
  let '(i, bvec) := r in
  if Nat.eqb i max then ret (0, bvec)
  else
    bvec <- (if Nat.ltb 0 i then eio_free_wb_bvecs bvec i blksize else ret bvec) ;;
    ret (- ENOMEM, bvec).

Fixpoint alloc_pages_loop (n i : nat) (pages : list Z) : M kmem (nat * list Z) :=
  match n with
  | O => ret (i, pages)
  | S n =>
    p <- alloc_page ;;
    match p with None => ret (i, pages) | Some p => alloc_pages_loop n (S i) (<[i := p]> pages) end
  end.
Definition eio_alloc_wb_pages (pages : list Z) (max : nat) : M kmem (Z * list Z) :=
  r <- alloc_pages_loop max 0 pages ;;
  let '(i, pages) := r in
  if Nat.eqb i max then ret (0, pages)
  else
    pages <- (if Nat.ltb 0 i then eio_free_wb_pages pages i else ret pages) ;;
    ret (- ENOMEM, pages).

(** ** [eio_allocate_wb_resources] *)
Record wb_res := mk_wb_res {
  wr_d : cache_c;
  wr_dbvecs : option (list bio_vec);   (* dmc->clean_dbvecs *)
  dbvec_count : Z;
  wr_mdpages : option (list Z);        (* dmc->clean_mdpages *)
  mdpage_count : Z;
  mdupdate_q : bool;                   (* dmc->mdupdate_q is not NULL *)
  clean_thread : bool;                 (* the clean thread was started *)
  wr_mem : kmem
}.
Definition set_wr_d v (r : wb_res) := {| r with wr_d := v |}.
Definition set_wr_dbvecs v (r : wb_res) := {| r with wr_dbvecs := v |}.
Definition set_dbvec_count v (r : wb_res) := {| r with dbvec_count := v |}.
Definition set_wr_mdpages v (r : wb_res) := {| r with wr_mdpages := v |}.
Definition set_mdpage_count v (r : wb_res) := {| r with mdpage_count := v |}.
Definition set_mdupdate_q v (r : wb_res) := {| r with mdupdate_q := v |}.
Definition set_clean_thread v (r : wb_res) := {| r with clean_thread := v |}.
Definition set_wr_mem v (r : wb_res) := {| r with wr_mem := v |}.
Definition on_mem {A} (m : M kmem A) : M wb_res A := fun r =>
  match m (wr_mem r) with Some (a, k) => Some (a, set_wr_mem k r) | None => None end.

(** what the other calls of the kernel do: whether [kmalloc], [vmalloc] and
    [create_singlethread_workqueue] succeed, the result of starting the clean
    thread, and the contents of memory that is not initialised *)
Record wb_oracle := mk_wb_oracle {
  kmalloc_dbvecs : bool; kmalloc_mdpages : bool; vmalloc_lru : bool; start_clean_thread : Z; make_workqueue : bool;
  junk_bvec : nat -> bio_vec; junk_page : nat -> Z
}.

Definition wb_free_bvecs : M wb_res unit :=
  r <- gets id ;;
  match wr_dbvecs r with
  | Some b =>
    b <- on_mem (eio_free_wb_bvecs b (Z.to_nat (dbvec_count r)) (block_size (wr_d r))) ;;
    modify (set_wr_dbvecs (Some b))
  | None => panic
  end.
Definition wb_free_pages : M wb_res unit :=
  r <- gets id ;;
  match wr_mdpages r with
  | Some p => p <- on_mem (eio_free_wb_pages p (Z.to_nat (mdpage_count r))) ;; modify (set_wr_mdpages (Some p))
  | None => panic
  end.

(** label [errout] *)
Definition wb_errout (error : Z) : M wb_res Z :=
  r <- gets id ;;
  match wr_mdpages r with Some _ => modify (set_wr_mdpages None) ;; modify (set_mdpage_count 0) | None => ret tt end ;;
  match wr_dbvecs r with Some _ => modify (set_wr_dbvecs None) ;; modify (set_dbvec_count 0) | None => ret tt end ;;
  ret error.

(** the dirty-set LRU, the clean thread and the metadata-update queue *)
Definition wb_start (o : wb_oracle) : M wb_res Z :=
  modify (fun r => set_wr_d (set_dirty_set_lru None (set_is_clean_aged_sets_sched 0 (wr_d r))) r) ;;
  l <- eval (fun r => lru_init (vmalloc_lru o) (Z.shiftr (dmc_size (wr_d r)) (consecutive_shift (wr_d r)))) ;;
  let '(error, lru) := l in
  modify (fun r => set_wr_d (set_dirty_set_lru lru (wr_d r)) r) ;;
  error <- (if error =? 0 then
              modify (fun r => set_wr_d (set_cleanq [] (wr_d r)) r) ;;
              modify (set_clean_thread (start_clean_thread o =? 0)) ;;
              ret (start_clean_thread o)
            else ret error) ;;
  q <- gets mdupdate_q ;;
  EIO_ASSERT (negb q) ;;
  modify (set_mdupdate_q (make_workqueue o)) ;;
  ret (if make_workqueue o then error else - ENOMEM).

(** the last error check *)
Definition wb_end (error : Z) : M wb_res Z :=
  if error <? 0 then
    modify (fun r => set_wr_d (set_dirty_set_lru None (wr_d r)) r) ;;
    wb_free_pages ;;
    wb_free_bvecs ;;
    wb_errout error
  else ret error.

(** the metadata pages, and what follows *)
Definition wb_md (o : wb_oracle) : M wb_res Z :=
  r <- gets id ;;
  let nr_pages := IO_PAGE_COUNT (u32 (assoc (wr_d r) * FLASH_CACHEBLOCK_SIZE)) in
  if negb (kmalloc_mdpages o) then wb_free_bvecs ;; wb_errout (- ENOMEM)
  else
    modify (set_wr_mdpages (Some (map (junk_page o) (seq 0 (Z.to_nat nr_pages))))) ;;
    p <- on_mem (eio_alloc_wb_pages (map (junk_page o) (seq 0 (Z.to_nat nr_pages))) (Z.to_nat nr_pages)) ;;
    modify (set_wr_mdpages (Some p.2)) ;;
    if negb (p.1 =? 0) then wb_free_bvecs ;; wb_errout p.1
    else
      modify (set_mdpage_count nr_pages) ;;
      error <- wb_start o ;;
      wb_end error.

Definition eio_allocate_wb_resources (o : wb_oracle) : M wb_res Z :=
  r <- gets id ;;
  EIO_ASSERT (bool_decide (wr_dbvecs r = None) && bool_decide (wr_mdpages r = None) && (dbvec_count r =? 0) && (mdpage_count r =? 0)) ;;
  let d := wr_d r in
  let iosize := u32 (Z.shiftl (u32 (block_size d * assoc d)) SECTOR_SHIFT) in
  let nr_bvecs := IO_BVEC_COUNT iosize (block_size d) in
  if negb (kmalloc_dbvecs o) then wb_errout (- ENOMEM)
  else
    modify (set_wr_dbvecs (Some (map (junk_bvec o) (seq 0 (Z.to_nat nr_bvecs))))) ;;
    b <- on_mem (eio_alloc_wb_bvecs (map (junk_bvec o) (seq 0 (Z.to_nat nr_bvecs))) (Z.to_nat nr_bvecs) (block_size d)) ;;
    modify (set_wr_dbvecs (Some b.2)) ;;
    if negb (b.1 =? 0) then wb_errout b.1
    else
      modify (set_dbvec_count nr_bvecs) ;;
      wb_md o.

(** ** Pages allocated since [k0] *)
Record grown (k0 : kmem) (ps : list Z) (k : kmem) : Prop := {
  gr_live : pg_live k = list_to_set ps ∪ pg_live k0;
  gr_nodup : NoDup ps;
  gr_new : forall p, p ∈ ps -> (p ∉ pg_live k0) /\ p <> NULL;
  gr_next : NoDup (ps ++ omap id (pg_next k)) /\ forall p, p ∈ omap id (pg_next k) -> (p ∉ pg_live k0) /\ p <> NULL
}.
(** [alloc_page] returns pages that are not in use *)
Definition kmem_ok (k : kmem) : Prop := grown k [] k.

Lemma grown_perm k0 ps ps' k : ps ≡ₚ ps' -> grown k0 ps k -> grown k0 ps' k.
Proof.
  intros Hp [H1 H2 H3 [H4 H5]]. constructor.
  - rewrite H1. f_equal. apply set_eq. intros x. rewrite !elem_of_list_to_set. by rewrite Hp.
  - by rewrite <-Hp.
  - intros p. rewrite <-Hp. apply H3.
  - split; [by rewrite <-Hp|done].
Qed.

Lemma grown_alloc k0 ps k : grown k0 ps k -> exists r k', alloc_page k = Some (r, k') /\
  match r with Some p => grown k0 (ps ++ [p]) k' | None => grown k0 ps k' end.
Proof.
  intros [H1 H2 H3 [H4 H5]]. unfold alloc_page. destruct (pg_next k) as [|[p|] l] eqn:E.
  - exists None, k. split; [done|]. constructor; rewrite ?E; done.
  - eexists _, _. split; [done|]. cbn in H4, H5.
    assert (Hperm : ps ++ p :: omap id l ≡ₚ (ps ++ [p]) ++ omap id l) by (by rewrite <-app_assoc).
    rewrite Hperm in H4. pose proof H4 as [H6 _]%NoDup_app. constructor; cbn; [|done| |split; [done|]].
    + rewrite H1, list_to_set_app_L. cbn. set_solver+.
    + intros q [Hq| ->%list_elem_of_singleton]%elem_of_app; [by apply H3|]. apply H5, elem_of_cons. by left.
    + intros q Hq. apply H5, elem_of_cons. by right.
  - eexists _, _. split; [done|]. constructor; done.
Qed.

Lemma grown_put k0 p ps k : grown k0 (p :: ps) k -> exists k', put_page p k = Some (tt, k') /\ grown k0 ps k'.
Proof.
  intros [H1 H2 H3 [H4 H5]]. unfold put_page. rewrite decide_True by (rewrite H1; set_solver+).
  eexists; split; [done|]. apply NoDup_cons in H2 as [Hp H2]. cbn in H4. apply NoDup_cons in H4 as [Hp' H4].
  destruct (H3 p) as [Hp0 _]; [apply elem_of_cons; by left|].
  constructor; cbn; [|done| |done].
  - rewrite H1. cbn. apply set_eq. intros x. rewrite !elem_of_difference, !elem_of_union, elem_of_list_to_set, elem_of_singleton.
    destruct (decide (x = p)) as [->|]; tauto.
  - intros q Hq. apply H3, elem_of_cons. by right.
Qed.

Lemma put_all k0 ps : forall l k, grown k0 (ps ++ l) k -> exists k', mfor ps put_page k = Some (tt, k') /\ grown k0 l k'.
Proof.
  induction ps as [|p ps IH]; intros l k H; cbn [mfor]; [by exists k|].
  destruct (grown_put k0 p (ps ++ l) k H) as (k1 & E1 & G1). rewrite (bind_run _ _ _ _ _ E1). by apply IH.
Qed.

Lemma grown_nil k0 k : grown k0 [] k -> pg_live k = pg_live k0.
Proof. intros H. rewrite (gr_live _ _ _ H). cbn. set_solver+. Qed.

(** ** The data buffers *)
Definition page_vecs (blksize p : Z) : list bio_vec :=
  if blksize =? BLKSIZE_2K then [mk_bvec p (to_bytes blksize) 0; mk_bvec p (to_bytes blksize) (PAGE_SIZE - to_bytes blksize)]
  else [mk_bvec p PAGE_SIZE 0].
Definition wb_vecs (blksize : Z) (ps : list Z) : list bio_vec := flat_map (page_vecs blksize) ps.
Definition blk_ok (blksize : Z) : Prop := blksize = BLKSIZE_2K \/ blksize = BLKSIZE_4K \/ blksize = BLKSIZE_8K.
Definition vecs_page (blksize : Z) : nat := if blksize =? BLKSIZE_2K then 2 else 1.

Lemma wb_vecs_app blksize ps ps' : wb_vecs blksize (ps ++ ps') = wb_vecs blksize ps ++ wb_vecs blksize ps'.
Proof. apply flat_map_app. Qed.
Lemma wb_vecs_length blksize ps : length (wb_vecs blksize ps) = (vecs_page blksize * length ps)%nat.
Proof.
  induction ps as [|p ps IH]; [by rewrite Nat.mul_0_r|]. cbn [wb_vecs flat_map]. fold (wb_vecs blksize ps).
  rewrite length_app, IH. unfold page_vecs, vecs_page. destruct (_ =? _); cbn [length]; lia.
Qed.

Lemma insert_prefix {A} (l : list A) (v : A) pre : take (length pre) l = pre -> (length pre < length l)%nat ->
  take (S (length pre)) (<[length pre := v]> l) = pre ++ [v].
Proof.
  intros H Hl. rewrite <-(take_drop (length pre) l) at 1. rewrite H. rewrite insert_app_r_alt by lia. rewrite Nat.sub_diag.
  destruct (drop (length pre) l) as [|x r] eqn:E.
  { apply (f_equal length) in E. rewrite length_drop in E. cbn in E. lia. }
  cbn. rewrite take_app_ge by lia. f_equal. by replace (S (length pre) - length pre)%nat with 1%nat by lia.
Qed.

(** the loop allocates whole pages' worth of vectors *)
Lemma alloc_loop_2k k0 : forall n bvec ps k, grown k0 ps k ->
  take (2 * length ps) bvec = wb_vecs BLKSIZE_2K ps -> (2 * length ps + 2 * n <= length bvec)%nat ->
  exists bvec' ps' k', alloc_wb_loop (2 * n) (2 * length ps) NULL BLKSIZE_2K bvec k = Some ((2 * length (ps ++ ps'), bvec')%nat, k') /\
    grown k0 (ps ++ ps') k' /\ take (2 * length (ps ++ ps')) bvec' = wb_vecs BLKSIZE_2K (ps ++ ps') /\
    length bvec' = length bvec /\ (length ps' <= n)%nat.
Proof.
  induction n as [|n IH]; intros bvec ps k Hg Ht Hl.
  { exists bvec, [], k. rewrite app_nil_r. split_and!; try done; cbn; lia. }
  replace (2 * S n)%nat with (S (S (2 * n))) by lia. cbn [alloc_wb_loop]. rewrite Z.eqb_refl.
  assert (Heven : Nat.even (2 * length ps) = true) by by rewrite Nat.even_mul.
  assert (Hodd : Nat.even (S (2 * length ps)) = false) by (rewrite Nat.even_succ, Nat.odd_mul; done).
  rewrite Heven. destruct (grown_alloc k0 ps k Hg) as ([p|] & k1 & E1 & G1); rewrite (bind_run _ _ _ _ _ E1).
  2:{ exists bvec, [], k1. rewrite app_nil_r. split_and!; try done; cbn; lia. }
  rewrite Hodd.
  rewrite bind_assert.
  2:{ apply negb_true_iff, Z.eqb_neq. apply (gr_new _ _ _ G1). apply elem_of_app. right. by apply list_elem_of_singleton. }
  set (b1 := <[_ := _]> bvec). set (b2 := <[_ := _]> b1).
  assert (Lp : length (wb_vecs BLKSIZE_2K ps) = (2 * length ps)%nat) by apply wb_vecs_length.
  assert (T1 : take (S (2 * length ps)) b1 = wb_vecs BLKSIZE_2K ps ++ [mk_bvec p (to_bytes BLKSIZE_2K) 0]).
  { subst b1. rewrite <-Lp. apply insert_prefix; [by rewrite Lp|lia]. }
  assert (T2 : take (2 * length (ps ++ [p])) b2 = wb_vecs BLKSIZE_2K (ps ++ [p])).
  { rewrite wb_vecs_app. cbn [wb_vecs flat_map page_vecs]. change (BLKSIZE_2K =? BLKSIZE_2K) with true. cbn [app].
    rewrite length_app. cbn [length]. replace (2 * (length ps + 1))%nat with (S (S (2 * length ps))) by lia.
    pose proof (insert_prefix b1 (mk_bvec p (to_bytes BLKSIZE_2K) (PAGE_SIZE - to_bytes BLKSIZE_2K))
      (wb_vecs BLKSIZE_2K ps ++ [mk_bvec p (to_bytes BLKSIZE_2K) 0])) as H.
    rewrite length_app, Lp in H. cbn [length] in H. replace (2 * length ps + 1)%nat with (S (2 * length ps)) in H by lia.
    subst b2. rewrite H; [by rewrite <-app_assoc|done|]. subst b1. rewrite length_insert. lia. }
  assert (L2 : length b2 = length bvec) by (subst b2 b1; by rewrite !length_insert).
  destruct (IH b2 (ps ++ [p]) k1 G1 T2) as (bvec' & ps' & k' & E & G & T & L & Hn); [rewrite L2, length_app; cbn; lia|].
  exists bvec', (p :: ps'), k'. replace (ps ++ p :: ps') with ((ps ++ [p]) ++ ps') by (by rewrite <-app_assoc).
  split_and!; [|done|done|by rewrite L, L2|cbn; lia]. rewrite <-E. f_equal. rewrite length_app. cbn [length]. lia.
Qed.

Lemma alloc_loop_4k k0 blksize : blksize = BLKSIZE_4K \/ blksize = BLKSIZE_8K -> forall n page bvec ps k, grown k0 ps k ->
  take (length ps) bvec = wb_vecs blksize ps -> (length ps + n <= length bvec)%nat ->
  exists bvec' ps' k', alloc_wb_loop n (length ps) page blksize bvec k = Some ((length (ps ++ ps'), bvec'), k') /\
    grown k0 (ps ++ ps') k' /\ take (length (ps ++ ps')) bvec' = wb_vecs blksize (ps ++ ps') /\
    length bvec' = length bvec /\ (length ps' <= n)%nat.
Proof.
  intros Hb. assert (Hb' : (blksize =? BLKSIZE_2K) = false /\ (blksize =? BLKSIZE_4K) || (blksize =? BLKSIZE_8K) = true) by by destruct Hb as [->| ->].
  destruct Hb' as [Hb1 Hb2]. assert (Lp : forall ps, length (wb_vecs blksize ps) = length ps).
  { intros ps. rewrite wb_vecs_length. unfold vecs_page. rewrite Hb1. lia. }
  induction n as [|n IH]; intros page bvec ps k Hg Ht Hl; cbn [alloc_wb_loop].
  { exists bvec, [], k. rewrite app_nil_r. split_and!; try done; cbn; lia. }
  rewrite Hb1, Hb2. destruct (grown_alloc k0 ps k Hg) as ([p|] & k1 & E1 & G1); rewrite (bind_run _ _ _ _ _ E1).
  2:{ exists bvec, [], k1. rewrite app_nil_r. split_and!; try done; cbn; lia. }
  set (b1 := <[_ := _]> bvec).
  assert (T1 : take (length (ps ++ [p])) b1 = wb_vecs blksize (ps ++ [p])).
  { rewrite wb_vecs_app. assert (wb_vecs blksize [p] = [mk_bvec p PAGE_SIZE 0]) as -> by (unfold wb_vecs, page_vecs; cbn; by rewrite Hb1).
    rewrite length_app. cbn [length]. replace (length ps + 1)%nat with (S (length (wb_vecs blksize ps))) by (rewrite Lp; lia).
    subst b1. rewrite <-(Lp ps) at 1. apply insert_prefix; [by rewrite Lp|rewrite Lp; lia]. }
  assert (L1 : length b1 = length bvec) by (subst b1; by rewrite length_insert).
  destruct (IH NULL b1 (ps ++ [p]) k1 G1 T1) as (bvec' & ps' & k' & E & G & T & L & Hn); [rewrite L1, length_app; cbn; lia|].
  exists bvec', (p :: ps'), k'. replace (ps ++ p :: ps') with ((ps ++ [p]) ++ ps') by (by rewrite <-app_assoc).
  split_and!; [|done|done|by rewrite L, L1|cbn; lia]. rewrite <-E. f_equal. rewrite length_app. cbn [length]. lia.
Qed.

(** freeing them *)
Lemma clear_page_app pre v r : clear_page (length pre) (pre ++ v :: r) = pre ++ mk_bvec NULL (bv_len v) (bv_offset v) :: r.
Proof. unfold clear_page. rewrite <-(Nat.add_0_r (length pre)). by rewrite alter_app_r. Qed.
Lemma lookup_page_app (pre r : list bio_vec) v : (pre ++ v :: r) !!! length pre = v.
Proof. rewrite lookup_total_app_r by done. by rewrite Nat.sub_diag. Qed.

Lemma free_loop_ok k0 blksize l : blk_ok blksize -> forall ps pre rest k, grown k0 (ps ++ l) k ->
  (blksize = BLKSIZE_2K -> Nat.even (length pre) = true) ->
  exists b' k', free_wb_loop (vecs_page blksize * length ps) (length pre) blksize (pre ++ wb_vecs blksize ps ++ rest) k = Some (b', k') /\
    grown k0 l k'.
Proof.
  intros Hb. induction ps as [|p ps IH]; intros pre rest k Hg He.
  { rewrite Nat.mul_0_r. cbn. eauto. }
  destruct (grown_put k0 p (ps ++ l) k Hg) as (k1 & E1 & G1).
  assert (Hp : (p =? NULL) = false) by (apply Z.eqb_neq, (gr_new _ _ _ Hg), elem_of_cons; by left).
  cbn [wb_vecs flat_map length]. fold (wb_vecs blksize ps). unfold page_vecs at 1, vecs_page at 1.
  destruct (Z.eqb_spec blksize BLKSIZE_2K) as [->|Hne].
  - specialize (He eq_refl). replace (2 * S (length ps))%nat with (S (S (2 * length ps))) by lia. cbn [free_wb_loop app].
    unfold free_wb_bvec at 1. change (BLKSIZE_2K =? BLKSIZE_2K) with true. rewrite lookup_page_app, He. cbn [bv_page]. rewrite Hp. cbn [negb andb].
    rewrite bind_bind, (bind_run _ _ _ _ _ E1), bind_ret, clear_page_app. cbn [bv_len bv_offset].
    set (v1 := mk_bvec NULL _ _). set (v2 := mk_bvec p _ _).
    assert (Eapp : pre ++ v1 :: v2 :: wb_vecs BLKSIZE_2K ps ++ rest = (pre ++ [v1]) ++ v2 :: (wb_vecs BLKSIZE_2K ps ++ rest)) by (by rewrite <-app_assoc).
    rewrite Eapp. assert (El : S (length pre) = length (pre ++ [v1])) by (rewrite length_app; cbn; lia). rewrite El.
    unfold free_wb_bvec at 1. change (BLKSIZE_2K =? BLKSIZE_2K) with true.
    assert (Ho : Nat.even (length (pre ++ [v1])) = false /\ Nat.odd (length (pre ++ [v1])) = true).
    { rewrite <-El, Nat.even_succ, Nat.odd_succ. rewrite <-Nat.negb_even, He. done. }
    destruct Ho as [Ho1 Ho2]. rewrite Ho1, Ho2. cbn [andb]. rewrite bind_ret, clear_page_app. set (v3 := mk_bvec _ _ _).
    replace ((pre ++ [v1]) ++ v3 :: wb_vecs BLKSIZE_2K ps ++ rest) with ((pre ++ [v1; v3]) ++ wb_vecs BLKSIZE_2K ps ++ rest) by (by rewrite <-!app_assoc).
    replace (S (length (pre ++ [v1]))) with (length (pre ++ [v1; v3])) by (rewrite !length_app; cbn; lia).
    apply (IH (pre ++ [v1; v3]) rest k1 G1). intros _. rewrite length_app, Nat.even_add, He. done.
  - assert (Hb2 : (blksize =? BLKSIZE_4K) || (blksize =? BLKSIZE_8K) = true) by by destruct Hb as [?|[->| ->]].
    replace (1 * S (length ps))%nat with (S (1 * length ps)) by lia. cbn [free_wb_loop app]. unfold free_wb_bvec at 1.
    rewrite (proj2 (Z.eqb_neq _ _) Hne), Hb2, lookup_page_app. cbn [bv_page]. rewrite Hp. cbn [negb].
    rewrite bind_bind, (bind_run _ _ _ _ _ E1), bind_ret, clear_page_app. set (v1 := mk_bvec NULL _ _).
    replace (pre ++ v1 :: wb_vecs blksize ps ++ rest) with ((pre ++ [v1]) ++ wb_vecs blksize ps ++ rest) by (by rewrite <-app_assoc).
    replace (S (length pre)) with (length (pre ++ [v1])) by (rewrite length_app; cbn; lia).
    destruct (IH (pre ++ [v1]) rest k1 G1) as (b' & k' & E & G); [done|]. exists b', k'. split; [|done]. rewrite <-E. unfold vecs_page.
    by rewrite (proj2 (Z.eqb_neq _ _) Hne).
Qed.

Lemma grown_ok k0 l k : grown k0 l k -> kmem_ok k.
Proof.
  intros [H1 H2 H3 [H4 H5]]. apply NoDup_app in H4 as (_ & H6 & H7). constructor; [|constructor|by intros p ?%not_elem_of_nil|].
  - set_solver+.
  - split; [done|]. intros p Hp. destruct (H5 p Hp) as [Hp0 Hn]. split; [|done]. rewrite H1. intros [Hl|?]%elem_of_union; [|done].
    apply elem_of_list_to_set in Hl. by apply (H6 p).
Qed.
Lemma grown_trans k0 l k ps k' : grown k0 l k -> grown k ps k' -> grown k0 (l ++ ps) k'.
Proof.
  intros [A1 A2 A3 _] [B1 B2 B3 [B4 B5]].
  assert (Hd : forall p, p ∈ l -> p ∈ pg_live k) by (intros p Hp; rewrite A1; apply elem_of_union_l, elem_of_list_to_set, Hp).
  assert (Hd0 : forall p, p ∈ pg_live k0 -> p ∈ pg_live k) by (intros p Hp; rewrite A1; by apply elem_of_union_r).
  assert (Hnd : NoDup (l ++ ps)).
  { apply NoDup_app. split_and!; [done| |done]. intros p Hp Hp'. by apply (proj1 (B3 p Hp')), Hd. }
  constructor; [|done| |].
  - rewrite B1, A1, list_to_set_app_L. set_solver+.
  - intros p [Hp|Hp]%elem_of_app; [by apply A3|]. destruct (B3 p Hp) as [? ?]. split; [|done]. auto.
  - split.
    + rewrite <-app_assoc. apply NoDup_app. split_and!; [done| |done]. intros p Hp [Hp'|Hp']%elem_of_app;
        [by apply (proj1 (B3 p Hp')), Hd|by apply (proj1 (B5 p Hp')), Hd].
    + intros p Hp. destruct (B5 p Hp) as [? ?]. split; [|done]. auto.
Qed.

Lemma eio_free_wb_bvecs_ok k0 l ps k blksize : blk_ok blksize -> grown k0 (ps ++ l) k -> forall rest,
  exists b' k', eio_free_wb_bvecs (wb_vecs blksize ps ++ rest) (vecs_page blksize * length ps) blksize k = Some (b', k') /\ grown k0 l k'.
Proof. intros Hb Hg rest. by apply (free_loop_ok k0 blksize l Hb ps [] rest k). Qed.

(** The data buffers: all of them, or none *)
Lemma eio_alloc_wb_bvecs_ok bvec max blksize k : blk_ok blksize -> (length bvec = vecs_page blksize * max)%nat -> kmem_ok k ->
  exists r b k', eio_alloc_wb_bvecs bvec (vecs_page blksize * max) blksize k = Some ((r, b), k') /\
    (r = 0 /\ (exists ps, b = wb_vecs blksize ps /\ length ps = max /\ grown k ps k') \/
     r = - ENOMEM /\ grown k [] k').
Proof.
  intros Hb Hl Hg. unfold eio_alloc_wb_bvecs.
  assert (H : exists b ps k1, alloc_wb_loop (vecs_page blksize * max) 0 NULL blksize bvec k = Some ((vecs_page blksize * length ps, b)%nat, k1) /\
    grown k ps k1 /\ take (vecs_page blksize * length ps) b = wb_vecs blksize ps /\ length b = length bvec /\ (length ps <= max)%nat).
  { unfold vecs_page in *. destruct (Z.eqb_spec blksize BLKSIZE_2K) as [->|Hne].
    - destruct (alloc_loop_2k k max bvec [] k Hg) as (b & ps & k1 & ?); [done|cbn; lia|]. by exists b, ps, k1.
    - destruct (alloc_loop_4k k blksize ltac:(by destruct Hb as [?|[?|?]]; auto) max NULL bvec [] k Hg) as (b & ps & k1 & E & ?); [done|cbn; lia|].
      exists b, ps, k1. rewrite !Nat.mul_1_l. done. }
  destruct H as (b & ps & k1 & E1 & G1 & T1 & L1 & N1). rewrite (bind_run _ _ _ _ _ E1). cbn [fst snd].
  destruct (Nat.eqb_spec (vecs_page blksize * length ps) (vecs_page blksize * max)) as [Hm|Hm].
  - exists 0, b, k1. split; [done|]. left. split; [done|]. exists ps.
    rewrite take_ge in T1 by lia. split_and!; [done|unfold vecs_page in Hm; destruct (_ =? _); lia|done].
  - assert (H2 : exists b2 k2, (if Nat.ltb 0 (vecs_page blksize * length ps) then eio_free_wb_bvecs b (vecs_page blksize * length ps) blksize else ret b) k1 = Some (b2, k2) /\ grown k [] k2).
    { rewrite <-(take_drop (vecs_page blksize * length ps) b), T1. destruct (Nat.ltb_spec 0 (vecs_page blksize * length ps)) as [Hp|Hp].
      - apply (eio_free_wb_bvecs_ok k []); [done|by rewrite app_nil_r].
      - destruct ps; [|unfold vecs_page in Hp; cbn in Hp; destruct (_ =? _); lia]. eexists _, k1. done. }
    destruct H2 as (b2 & k2 & E2 & G2). rewrite (bind_run _ _ _ _ _ E2). exists (- ENOMEM), b2, k2. split; [done|]. by right.
Qed.

(** the metadata pages *)
Lemma alloc_pages_loop_ok k0 : forall n pages ps k, grown k0 ps k -> take (length ps) pages = ps -> (length ps + n <= length pages)%nat ->
  exists pages' ps' k', alloc_pages_loop n (length ps) pages k = Some ((length (ps ++ ps'), pages'), k') /\
    grown k0 (ps ++ ps') k' /\ take (length (ps ++ ps')) pages' = ps ++ ps' /\ length pages' = length pages /\ (length ps' <= n)%nat.
Proof.
  induction n as [|n IH]; intros pages ps k Hg Ht Hl; cbn [alloc_pages_loop].
  { exists pages, [], k. rewrite app_nil_r. split_and!; try done; cbn; lia. }
  destruct (grown_alloc k0 ps k Hg) as ([p|] & k1 & E1 & G1); rewrite (bind_run _ _ _ _ _ E1).
  2:{ exists pages, [], k1. rewrite app_nil_r. split_and!; try done; cbn; lia. }
  assert (T1 : take (length (ps ++ [p])) (<[length ps := p]> pages) = ps ++ [p]).
  { rewrite length_app, Nat.add_1_r. apply insert_prefix; [done|lia]. }
  destruct (IH (<[length ps := p]> pages) (ps ++ [p]) k1 G1 T1) as (pages' & ps' & k' & E & G & T & L & Hn); [rewrite length_insert, length_app; cbn; lia|].
  exists pages', (p :: ps'), k'. replace (ps ++ p :: ps') with ((ps ++ [p]) ++ ps') by (by rewrite <-app_assoc).
  split_and!; [|done|done|by rewrite L, length_insert|cbn; lia]. rewrite <-E. f_equal. rewrite length_app. cbn [length]. lia.
Qed.

Lemma eio_free_wb_pages_ok k0 l ps k : grown k0 (ps ++ l) k -> forall rest,
  exists pages' k', eio_free_wb_pages (ps ++ rest) (length ps) k = Some (pages', k') /\ grown k0 l k'.
Proof.
  intros Hg rest. unfold eio_free_wb_pages. destruct (Nat.eqb_spec (length ps) 0) as [Hz|Hz].
  { destruct ps; [|done]. eexists _, k. done. }
  rewrite take_app_length. destruct (put_all k0 (rev ps) l k) as (k' & E & G).
  { eapply grown_perm; [|exact Hg]. by rewrite <-Permutation_rev. }
  rewrite (bind_run _ _ _ _ _ E). eexists _, k'. done.
Qed.

Lemma eio_alloc_wb_pages_ok pages k : kmem_ok k ->
  exists r ps k', eio_alloc_wb_pages pages (length pages) k = Some ((r, ps), k') /\
    (r = 0 /\ length ps = length pages /\ grown k ps k' \/ r = - ENOMEM /\ grown k [] k').
Proof.
  intros Hg. unfold eio_alloc_wb_pages.
  destruct (alloc_pages_loop_ok k (length pages) pages [] k Hg) as (pages' & ps & k1 & E1 & G1 & T1 & L1 & N1); [done|cbn; lia|].
  cbn [length app] in *. rewrite (bind_run _ _ _ _ _ E1). destruct (Nat.eqb_spec (length ps) (length pages)) as [Hm|Hm].
  - exists 0, pages', k1. split; [done|]. left. rewrite take_ge in T1 by lia. by subst.
  - assert (H2 : exists p2 k2, (if Nat.ltb 0 (length ps) then eio_free_wb_pages pages' (length ps) else ret pages') k1 = Some (p2, k2) /\ grown k [] k2).
    { rewrite <-(take_drop (length ps) pages'), T1. destruct (Nat.ltb_spec 0 (length ps)) as [Hp|Hp].
      - apply (eio_free_wb_pages_ok k []). by rewrite app_nil_r.
      - destruct ps; [|cbn in Hp; lia]. eexists _, k1. done. }
    destruct H2 as (p2 & k2 & E2 & G2). rewrite (bind_run _ _ _ _ _ E2). exists (- ENOMEM), p2, k2. split; [done|]. by right.
Qed.

(** ** What the clean relies on *)
Lemma page_vecs_slots blksize p : blk_ok blksize -> bvec_slots (page_vecs blksize p) = map (fun j => (p, j)) (seqZ 0 8).
Proof. intros [->|[->| ->]]; reflexivity. Qed.

Lemma wb_vecs_slots blksize ps : blk_ok blksize -> bvec_slots (wb_vecs blksize ps) = flat_map (fun p => map (fun j => (p, j)) (seqZ 0 8)) ps.
Proof.
  intros Hb. induction ps as [|p ps IH]; [done|]. cbn [wb_vecs flat_map]. fold (wb_vecs blksize ps).
  unfold bvec_slots at 1. rewrite flat_map_app. fold (bvec_slots (page_vecs blksize p)) (bvec_slots (wb_vecs blksize ps)).
  by rewrite page_vecs_slots, IH.
Qed.

Lemma slots_nodup ps : NoDup ps -> NoDup (flat_map (fun p => map (fun j : Z => (p : Z, j)) (seqZ 0 8)) ps).
Proof.
  induction ps as [|p ps IH]; intros Hnd; [constructor|]. apply NoDup_cons in Hnd as [Hp Hnd]. cbn [flat_map]. apply NoDup_app. split_and!.
  - change (map ?f ?x) with (f <$> x). apply NoDup_fmap; [by intros j1 j2 [= ->]|apply NoDup_seqZ].
  - intros [q j] Hq Hq'. change (map ?f ?x) with (f <$> x) in Hq. apply list_elem_of_fmap in Hq as (j' & [= -> ->] & _).
    apply list_elem_of_In, in_flat_map in Hq' as (q' & Hq1 & Hq2). apply in_map_iff in Hq2 as (j2 & [= -> _] & _). by apply Hp, list_elem_of_In.
  - by apply IH.
Qed.

Lemma wb_vecs_bufs d ps : blk_ok (block_size d) -> NoDup ps ->
  Z.of_nat (vecs_page (block_size d) * length ps) = assoc d * vecs_per_block d -> bufs_ok d (wb_vecs (block_size d) ps).
Proof.
  intros Hb Hnd Hl. constructor.
  - exact Hb.
  - by rewrite wb_vecs_length.
  - unfold vec_sectors, vecs_per_block. apply Forall_flat_map, Forall_forall. intros p _. unfold page_vecs.
    destruct Hb as [E|[E|E]]; rewrite E; repeat constructor.
  - rewrite wb_vecs_slots by done. by apply slots_nodup.
Qed.

(** ** [eio_allocate_wb_resources] *)
Lemma bind_on_mem {A B} (m : M kmem A) (f : A -> M wb_res B) r a k : m (wr_mem r) = Some (a, k) ->
  bind (on_mem m) f r = f a (set_wr_mem k r).
Proof. intros E. unfold bind, on_mem. by rewrite E. Qed.

(** nothing allocated yet *)
Definition wb_blank (r : wb_res) : Prop :=
  wr_dbvecs r = None /\ wr_mdpages r = None /\ dbvec_count r = 0 /\ mdpage_count r = 0.

Section resources.
Context (o : wb_oracle) (k0 : kmem).

Lemma wb_errout_ok error r : grown k0 [] (wr_mem r) -> (wr_dbvecs r = None -> dbvec_count r = 0) -> (wr_mdpages r = None -> mdpage_count r = 0) ->
  exists r', wb_errout error r = Some (error, r') /\ wb_blank r' /\ pg_live (wr_mem r') = pg_live k0.
Proof.
  intros Hg H1 H2. unfold wb_errout. rewrite bind_gets. cbn [id]. apply grown_nil in Hg.
  destruct (wr_mdpages r) eqn:E1, (wr_dbvecs r) eqn:E2; (eexists; split; [reflexivity|]);
    unfold wb_blank; cbn; rewrite ?E1, ?E2; split_and!; auto.
Qed.

(** the data buffers hold [ps] *)
Definition holds_bvecs (r : wb_res) (ps : list Z) : Prop :=
  blk_ok (block_size (wr_d r)) /\ wr_dbvecs r = Some (wb_vecs (block_size (wr_d r)) ps) /\
  dbvec_count r = Z.of_nat (vecs_page (block_size (wr_d r)) * length ps).

Lemma wb_free_bvecs_ok r ps l : holds_bvecs r ps -> grown k0 (ps ++ l) (wr_mem r) ->
  exists b k', wb_free_bvecs r = Some (tt, set_wr_dbvecs (Some b) (set_wr_mem k' r)) /\ grown k0 l k'.
Proof.
  intros (Hb & E & Ec) Hg. unfold wb_free_bvecs. rewrite bind_gets. cbn [id]. rewrite E, Ec, Nat2Z.id.
  destruct (eio_free_wb_bvecs_ok k0 l ps (wr_mem r) (block_size (wr_d r)) Hb Hg []) as (b & k' & E' & G). rewrite app_nil_r in E'.
  rewrite (bind_on_mem _ _ _ _ _ E'). exists b, k'. split; [reflexivity|exact G].
Qed.
Lemma wb_free_pages_ok r ps l : wr_mdpages r = Some ps -> mdpage_count r = Z.of_nat (length ps) -> grown k0 (ps ++ l) (wr_mem r) ->
  exists b k', wb_free_pages r = Some (tt, set_wr_mdpages (Some b) (set_wr_mem k' r)) /\ grown k0 l k'.
Proof.
  intros E Ec Hg. unfold wb_free_pages. rewrite bind_gets. cbn [id]. rewrite E, Ec, Nat2Z.id.
  destruct (eio_free_wb_pages_ok k0 l ps (wr_mem r) Hg []) as (b & k' & E' & G). rewrite app_nil_r in E'.
  rewrite (bind_on_mem _ _ _ _ _ E'). exists b, k'. split; [reflexivity|exact G].
Qed.

Lemma wb_start_ok r : wf_geom (wr_d r) -> mdupdate_q r = false ->
  exists error l, wb_start o r = Some (error, set_mdupdate_q (make_workqueue o) (set_clean_thread (if vmalloc_lru o then start_clean_thread o =? 0 else clean_thread r)
     (set_wr_d (set_dirty_set_lru l (set_cleanq (if vmalloc_lru o then [] else cleanq (wr_d r)) (set_is_clean_aged_sets_sched 0 (wr_d r)))) r))) /\
    error = (if make_workqueue o then if vmalloc_lru o then start_clean_thread o else - ENOMEM else - ENOMEM) /\
    (vmalloc_lru o = true -> exists l', l = Some l' /\ lru_rep l' [] /\ ll_max l' = num_sets (wr_d r)).
Proof.
  intros Hg Hq. unfold wb_start. rewrite bind_modify. pose proof (num_sets_pos _ Hg) as Hn. pose proof (geo_sets _ Hg) as Hs. pose proof (geo_bits _ Hg) as Hb.
  assert (Hn63 : num_sets (wr_d r) < 2 ^ 63).
  { assert (2 ^ num_sets_bits (wr_d r) <= 2 ^ 31) by (apply Z.pow_le_mono_r; lia). lia. }
  set (r1 := set_wr_d _ r). assert (En : Z.shiftr (dmc_size (wr_d r1)) (consecutive_shift (wr_d r1)) = num_sets (wr_d r)) by apply (sets_count _ Hg).
  destruct (vmalloc_lru o) eqn:Ev.
  - destruct (lru_init_rep (num_sets (wr_d r)) ltac:(lia)) as (l & El & Hl & Hm).
    rewrite (bind_eval _ _ r1 (0, Some l)) by (by rewrite En). rewrite bind_modify. change (0 =? 0) with true. cbn beta iota.
    rewrite !bind_bind, bind_modify. rewrite bind_bind, bind_modify, bind_ret, bind_gets. cbn [mdupdate_q]. rewrite bind_assert by (cbn; by rewrite Hq).
    rewrite bind_modify. eexists _, (Some l). split_and!; [reflexivity|done|]. intros _. by exists l.
  - rewrite (bind_eval _ _ r1 (- ENOMEM, None)).
    2:{ rewrite En. unfold lru_init. destruct (Z.ltb_spec 0 (num_sets (wr_d r))); [done|lia]. }
    rewrite bind_modify. change (- ENOMEM =? 0) with false. cbn beta iota. rewrite bind_ret, bind_gets. cbn [mdupdate_q]. rewrite bind_assert by (cbn; by rewrite Hq).
    rewrite bind_modify. eexists _, None. split_and!; [|done|done]. by destruct r as [[]].
Qed.

(** sizes of the two arrays *)
Lemma wb_sizes d : wf_geom d -> md_layout d -> blk_ok (block_size d) ->
  exists nb np : nat, IO_BVEC_COUNT (u32 (Z.shiftl (u32 (block_size d * assoc d)) SECTOR_SHIFT)) (block_size d) = Z.of_nat (vecs_page (block_size d) * nb) /\
    Z.of_nat (vecs_page (block_size d) * nb) = assoc d * vecs_per_block d /\
    IO_PAGE_COUNT (u32 (assoc d * FLASH_CACHEBLOCK_SIZE)) = Z.of_nat np /\
    Z.of_nat np = (assoc d + MD_BLOCKS_PER_PAGE - 1) / MD_BLOCKS_PER_PAGE.
Proof.
  intros Hg [[q Hq] Hs _] Hb. pose proof (assoc_pos d Hg) as Ha. change MD_BLOCKS_PER_SECTOR with 32 in Hq. change MD_BLOCKS_PER_PAGE with 256 in *.
  assert (Hbs : 4 <= block_size d <= 16) by (destruct Hb as [->|[->| ->]]; unfold BLKSIZE_2K, BLKSIZE_4K, BLKSIZE_8K; lia).
  assert (Eio : u32 (Z.shiftl (u32 (block_size d * assoc d)) SECTOR_SHIFT) = block_size d * assoc d * 512).
  { unfold u32, SECTOR_SHIFT. rewrite (Z.mod_small (block_size d * assoc d)) by nia. rewrite Z.shiftl_mul_pow2 by lia. rewrite Z.mod_small by nia. lia. }
  rewrite Eio. clear Eio.
  assert (Epg : IO_PAGE_COUNT (block_size d * assoc d * 512) = block_size d * q * 4).
  { unfold IO_PAGE_COUNT, u64. change PAGE_SIZE with 4096. rewrite Z.mod_small by nia. rewrite Hq.
    replace (block_size d * (q * 32) * 512 + (4096 - 1)) with (4095 + block_size d * q * 4 * 4096) by ring. by rewrite Z.div_add by lia. }
  assert (Emd : IO_PAGE_COUNT (u32 (assoc d * FLASH_CACHEBLOCK_SIZE)) = (assoc d + 256 - 1) / 256).
  { unfold IO_PAGE_COUNT, u64, u32. change FLASH_CACHEBLOCK_SIZE with 16. change PAGE_SIZE with 4096. rewrite !Z.mod_small by (rewrite ?Z.mod_small by lia; lia).
    rewrite Hq. replace (q * 32 * 16 + (4096 - 1)) with (q * 512 + 4095) by ring. replace (q * 32 + 256 - 1) with (q * 32 + 255) by ring.
    apply Z.div_unique with ((q * 512 + 4095) mod 4096 / 16); [|].
    - left. pose proof (Z.mod_pos_bound (q * 512 + 4095) 4096 ltac:(lia)). split; [apply Z.div_pos; lia|apply Z.div_lt_upper_bound; lia].
    - pose proof (Z.div_mod (q * 512 + 4095) 4096 ltac:(lia)) as E1. set (x := (q * 512 + 4095) / 4096) in *. set (y := (q * 512 + 4095) mod 4096) in *.
      pose proof (Z.mod_pos_bound (q * 512 + 4095) 4096 ltac:(lia)). fold y in H.
      assert (E2 : y = 16 * (q * 32 + 255 - 256 * x) + 15) by lia. rewrite E2.
      replace (16 * (q * 32 + 255 - 256 * x) + 15) with (15 + (q * 32 + 255 - 256 * x) * 16) by ring. rewrite Z.div_add by lia.
      change (15 / 16) with 0. lia. }
  exists (Z.to_nat (block_size d * q * 4)), (Z.to_nat ((assoc d + 256 - 1) / 256)). rewrite Emd.
  unfold IO_BVEC_COUNT. cbv zeta. rewrite Epg. unfold vecs_page, vecs_per_block. split_and!; try (rewrite Z2Nat.id; [done|apply Z.div_pos; lia]).
  - destruct (_ =? _); lia.
  - rewrite Hq. destruct Hb as [->|[->| ->]]; unfold BLKSIZE_2K, BLKSIZE_4K, BLKSIZE_8K; cbn [Z.eqb Pos.eqb]; lia.
Qed.

(** all the resources are there, or none *)
Definition wb_outcome (error : Z) (r' : wb_res) : Prop :=
  error <= 0 /\
  (error = 0 -> exists bvs pages, wr_dbvecs r' = Some bvs /\ bufs_ok (wr_d r') bvs /\ wr_mdpages r' = Some pages /\ pages_ok (wr_d r') pages /\
     dirty_lru_inv (wr_d r') /\ mdupdate_q r' = true /\ clean_thread r' = true) /\
  (error < 0 -> wb_blank r' /\ pg_live (wr_mem r') = pg_live k0).

Lemma errout_outcome error r : error < 0 -> grown k0 [] (wr_mem r) -> (wr_dbvecs r = None -> dbvec_count r = 0) -> (wr_mdpages r = None -> mdpage_count r = 0) ->
  exists r', wb_errout error r = Some (error, r') /\ wb_outcome error r'.
Proof.
  intros He Hg H1 H2. destruct (wb_errout_ok error r Hg H1 H2) as (r' & E & Hb & Hl). exists r'. split; [done|].
  split_and!; [lia|lia|done].
Qed.

Lemma wb_end_ok error r ps pp : holds_bvecs r ps -> NoDup ps -> NoDup pp -> wr_mdpages r = Some pp -> mdpage_count r = Z.of_nat (length pp) ->
  Z.of_nat (vecs_page (block_size (wr_d r)) * length ps) = assoc (wr_d r) * vecs_per_block (wr_d r) ->
  Z.of_nat (length pp) = (assoc (wr_d r) + MD_BLOCKS_PER_PAGE - 1) / MD_BLOCKS_PER_PAGE ->
  grown k0 (ps ++ pp) (wr_mem r) -> error <= 0 -> (error = 0 -> dirty_lru_inv (wr_d r) /\ mdupdate_q r = true /\ clean_thread r = true) ->
  exists r', wb_end error r = Some (error, r') /\ wb_outcome error r'.
Proof.
  intros Hh Hnd Hnd' Ep Ec El1 El2 Hg He Hok. unfold wb_end. destruct (Z.ltb_spec error 0) as [Hlt|Hge].
  - rewrite bind_modify. set (r1 := set_wr_d _ r).
    destruct (wb_free_pages_ok r1 pp ps) as (b1 & k1 & E1 & G1); [done|done|by eapply grown_perm; [apply Permutation_app_comm|]|].
    rewrite (bind_run _ _ _ _ _ E1).
    destruct (wb_free_bvecs_ok (set_wr_mdpages (Some b1) (set_wr_mem k1 r1)) ps []) as (b2 & k2 & E2 & G2); [exact Hh|by rewrite app_nil_r|].
    rewrite (bind_run _ _ _ _ _ E2). by apply errout_outcome.
  - assert (error = 0) as -> by lia. exists r. split; [done|]. destruct (Hok eq_refl) as (H1 & H2 & H3). split_and!; [lia| |lia].
    intros _. destruct Hh as (Hb & Ev & _). exists (wb_vecs (block_size (wr_d r)) ps), pp. split_and!; try done. by apply wb_vecs_bufs.
Qed.

Lemma wb_md_ok r ps : wf_geom (wr_d r) -> md_layout (wr_d r) -> holds_bvecs r ps -> grown k0 ps (wr_mem r) ->
  Z.of_nat (vecs_page (block_size (wr_d r)) * length ps) = assoc (wr_d r) * vecs_per_block (wr_d r) ->
  wr_mdpages r = None -> mdpage_count r = 0 -> mdupdate_q r = false -> start_clean_thread o <= 0 ->
  exists error r', wb_md o r = Some (error, r') /\ wb_outcome error r'.
Proof.
  intros Hg Hlay Hh Hgr El Ep Ec Hq Hst. pose proof Hh as (Hb & Ev & _). destruct (wb_sizes (wr_d r) Hg Hlay Hb) as (_ & np & _ & _ & E3 & E4).
  unfold wb_md. rewrite bind_gets. cbn [id]. cbv zeta. rewrite E3, !Nat2Z.id. destruct (kmalloc_mdpages o); cbn [negb].
  2:{ destruct (wb_free_bvecs_ok r ps []) as (b & k1 & E1 & G1); [done|by rewrite app_nil_r|]. rewrite (bind_run _ _ _ _ _ E1).
      destruct (errout_outcome (- ENOMEM) (set_wr_dbvecs (Some b) (set_wr_mem k1 r))) as (r' & E & O); try done. eauto. }
  rewrite bind_modify. set (r1 := set_wr_mdpages _ r). set (pages := map _ _).
  destruct (eio_alloc_wb_pages_ok pages (wr_mem r1)) as (e & pp & k1 & E1 & Hcase); [by eapply grown_ok|].
  assert (Lp : length pages = np) by (subst pages; by rewrite length_map, length_seq). rewrite Lp in *.
  rewrite (bind_on_mem _ _ _ _ _ E1). cbn [fst snd]. rewrite bind_modify. set (r2 := set_wr_mdpages _ (set_wr_mem k1 r1)).
  destruct Hcase as [(-> & Lpp & G1)|(-> & G1)].
  2:{ change (negb (- ENOMEM =? 0)) with true. cbn beta iota.
      pose proof (grown_trans k0 ps _ [] k1 Hgr G1) as G2.
      destruct (wb_free_bvecs_ok r2 ps []) as (b & k2 & E2 & G3); [exact Hh|exact G2|]. rewrite (bind_run _ _ _ _ _ E2).
      destruct (errout_outcome (- ENOMEM) (set_wr_dbvecs (Some b) (set_wr_mem k2 r2))) as (r' & E & O); try done. eauto. }
  change (negb (0 =? 0)) with false. cbn beta iota. rewrite bind_modify. set (r3 := set_mdpage_count _ r2).
  destruct (wb_start_ok r3 Hg Hq) as (error & l & E4' & Herr & Hl). rewrite (bind_run _ _ _ _ _ E4').
  pose proof (grown_trans k0 ps _ pp k1 Hgr G1) as G2.
  destruct (wb_end_ok error (set_mdupdate_q (make_workqueue o) (set_clean_thread (if vmalloc_lru o then start_clean_thread o =? 0 else clean_thread r3)
     (set_wr_d (set_dirty_set_lru l (set_cleanq (if vmalloc_lru o then [] else cleanq (wr_d r3)) (set_is_clean_aged_sets_sched 0 (wr_d r3)))) r3))) ps pp)
    as (r' & E & O).
  - exact Hh.
  - by pose proof (gr_nodup _ _ _ G2) as [? _]%NoDup_app.
  - apply (gr_nodup _ _ _ G1).
  - done.
  - cbn. by rewrite Lpp.
  - exact El.
  - rewrite Lpp. exact E4.
  - exact G2.
  - rewrite Herr. unfold ENOMEM. destruct (make_workqueue o), (vmalloc_lru o); lia.
  - intros E0. rewrite E0 in Herr. destruct (make_workqueue o), (vmalloc_lru o); try (unfold ENOMEM in Herr; lia).
    destruct (Hl eq_refl) as (l' & -> & Hrep & Hmax). cbn. rewrite <-Herr. split_and!; [|done|done]. by exists l', [].
  - eauto.
Qed.

Lemma eio_allocate_wb_resources_ok r : wf_geom (wr_d r) -> md_layout (wr_d r) -> blk_ok (block_size (wr_d r)) -> kmem_ok k0 -> wr_mem r = k0 ->
  wb_blank r -> mdupdate_q r = false -> start_clean_thread o <= 0 ->
  exists error r', eio_allocate_wb_resources o r = Some (error, r') /\ wb_outcome error r'.
Proof.
  intros Hg Hlay Hb Hk Em (B1 & B2 & B3 & B4) Hq Hst. destruct (wb_sizes (wr_d r) Hg Hlay Hb) as (nb & _ & E1 & E2 & _).
  unfold eio_allocate_wb_resources. rewrite bind_gets. cbn [id]. rewrite bind_assert by (rewrite B1, B2, B3, B4; done). cbv zeta. rewrite E1, !Nat2Z.id.
  destruct (kmalloc_dbvecs o); cbn [negb].
  2:{ destruct (errout_outcome (- ENOMEM) r) as (r' & E & O); [done|by rewrite Em|done|done|eauto]. }
  rewrite bind_modify. set (r1 := set_wr_dbvecs _ r). set (bv := map _ _).
  destruct (eio_alloc_wb_bvecs_ok bv nb (block_size (wr_d r)) (wr_mem r1)) as (e & b & k1 & E & Hcase);
    [done|by subst bv; rewrite length_map, length_seq|cbn; by rewrite Em|].
  rewrite (bind_on_mem _ _ _ _ _ E). cbn [fst snd]. rewrite bind_modify. set (r2 := set_wr_dbvecs _ (set_wr_mem k1 r1)).
  change (wr_mem r1) with (wr_mem r) in Hcase. rewrite Em in Hcase.
  destruct Hcase as [(-> & ps & -> & Lps & G)|(-> & G)].
  2:{ change (negb (- ENOMEM =? 0)) with true. cbn beta iota.
      destruct (errout_outcome (- ENOMEM) r2) as (r' & E' & O); [done|exact G|done|done|eauto]. }
  change (negb (0 =? 0)) with false. cbn beta iota. rewrite bind_modify.
  apply (wb_md_ok (set_dbvec_count (Z.of_nat (vecs_page (block_size (wr_d r)) * nb)) r2) ps); try done.
  - split_and!; [done|done|]. cbn. by rewrite Lps.
  - cbn. by rewrite Lps.
Qed.
End resources.
