(* ===== verification/IoWorld.v ===== *)
(** * The state of the I/O path, and the ends of I/Os

    [io_world] adds to the cache, its devices and the memory pages the objects
    of the I/Os in progress: bios and their containers and splits, jobs and
    metadata-update requests, each in a map from its address; an access through
    an address that is not in its map, a freed object, panics.  It also keeps
    the work queues and the transfers that were submitted and whose callback has
    not run: a transfer moves its data when it is submitted and its callback
    runs at any later moment. *)

From S2P Require Import Prelude Types Mem Scan Thresh Lookup SetSeq World Dispatch Disk Clean WbAlloc.

(** what the code takes from the kernel *)
Class Kernel := {
  jiffies_to_msecs : Z -> Z;
  stale_sector : Z;           (* what memory that was never written holds, read as a sector number *)
  stale_bvec : nat -> bio_vec (* and read as an array of [bio_vec] *)
}.

Inductive md_work := DoMdupdate (mdreq : Z) | PostMdupdate (mdreq : Z).
#[export] Instance md_work_eq_dec : EqDecision md_work. Proof. solve_decision. Defined.

(** the function a transfer calls at its end, with its context *)
Inductive callback := MdupdateCallback (mdreq : Z) | IoCallback (job : Z) | DiskIoCallback (job : Z)
| EmptyBarrierCallback (bio : option Z).

(** work handed to the kernel's work queue: [dmc->readfill_wq], [_kcached_wq] *)
Inductive deferred_work := ReadfillWork | KcachedWork.
#[export] Instance deferred_work_eq_dec : EqDecision deferred_work. Proof. solve_decision. Defined.

Record io_world := mk_iow {
  io_cw : cworld;
  io_kmem : kmem;
  io_kmalloc : list bool;                (* outcomes of the coming allocations *)
  bios : gmap Z bio;
  bcs : gmap Z bio_container;
  ebios : gmap Z eio_bio;
  jobs : gmap Z kcached_job;
  mdreqs : gmap Z mdupdate_request;
  md_queue : list md_work;               (* dmc->mdupdate_q *)
  callback_q : list Z;                   (* jobs for eio_post_io_callback *)
  disk_read_jobs : list Z;               (* _disk_read_jobs *)
  scheduled : list deferred_work;
  completions : list (callback * Z);     (* callbacks to come, with their error *)
  readers : gmap Z Z;                    (* shared holds of the sets' rw_locks *)
  bio_ended : list (Z * Z)               (* calls of bio_endio: the bio and its error *)
}.
Definition io_d (w : io_world) : cache_c := cw_d (io_cw w).

Definition set_io_cw v (w : io_world) := {| w with io_cw := v |}.
Definition set_io_kmem v (w : io_world) := {| w with io_kmem := v |}.
Definition set_io_kmalloc v (w : io_world) := {| w with io_kmalloc := v |}.
Definition set_bios v (w : io_world) := {| w with bios := v |}.
Definition set_bcs v (w : io_world) := {| w with bcs := v |}.
Definition set_ebios v (w : io_world) := {| w with ebios := v |}.
Definition set_jobs v (w : io_world) := {| w with jobs := v |}.
Definition set_mdreqs v (w : io_world) := {| w with mdreqs := v |}.
Definition set_md_queue v (w : io_world) := {| w with md_queue := v |}.
Definition set_callback_q v (w : io_world) := {| w with callback_q := v |}.
Definition set_disk_read_jobs v (w : io_world) := {| w with disk_read_jobs := v |}.
Definition set_scheduled v (w : io_world) := {| w with scheduled := v |}.
Definition set_completions v (w : io_world) := {| w with completions := v |}.
Definition set_readers v (w : io_world) := {| w with readers := v |}.
Definition set_bio_ended v (w : io_world) := {| w with bio_ended := v |}.

(** ** Operations of the parts *)
Definition on_cw {A} (m : M cworld A) : M io_world A := fun w =>
  match m (io_cw w) with Some (a, c) => Some (a, set_io_cw c w) | None => None end.
Definition on_dmc {A} (m : M cache_c A) : M io_world A := on_cw (on_cache m).
Definition on_kmem {A} (m : M kmem A) : M io_world A := fun w =>
  match m (io_kmem w) with Some (a, k) => Some (a, set_io_kmem k w) | None => None end.
Definition on_kmalloc {A} (m : M (list bool) A) : M io_world A := fun w =>
  match m (io_kmalloc w) with Some (a, l) => Some (a, set_io_kmalloc l w) | None => None end.
Definition upd_dmc (f : cache_c -> cache_c) : M io_world unit := on_dmc (modify f).
Definition inc_stat (f : eio_stats -> eio_stats) : M io_world unit := upd_dmc (upd_stats f).
Definition upd_errors (f : eio_errors -> eio_errors) (d : cache_c) : cache_c := set_errors (f (errors d)) d.

Definition the_bio (b : Z) : M io_world bio := eval (fun w => bios w !! b).
Definition the_bc (b : Z) : M io_world bio_container := eval (fun w => bcs w !! b).
Definition the_ebio (e : Z) : M io_world eio_bio := eval (fun w => ebios w !! e).
Definition the_job (j : Z) : M io_world kcached_job := eval (fun w => jobs w !! j).
Definition the_mdreq (m : Z) : M io_world mdupdate_request := eval (fun w => mdreqs w !! m).

Definition upd_bio (b : Z) (f : bio -> bio) : M io_world unit :=
  x <- the_bio b ;; modify (fun w => set_bios (<[b := f x]> (bios w)) w).
Definition upd_bc (b : Z) (f : bio_container -> bio_container) : M io_world unit :=
  x <- the_bc b ;; modify (fun w => set_bcs (<[b := f x]> (bcs w)) w).
Definition upd_ebio (e : Z) (f : eio_bio -> eio_bio) : M io_world unit :=
  x <- the_ebio e ;; modify (fun w => set_ebios (<[e := f x]> (ebios w)) w).
Definition upd_job (j : Z) (f : kcached_job -> kcached_job) : M io_world unit :=
  x <- the_job j ;; modify (fun w => set_jobs (<[j := f x]> (jobs w)) w).
Definition upd_mdreq (m : Z) (f : mdupdate_request -> mdupdate_request) : M io_world unit :=
  x <- the_mdreq m ;; modify (fun w => set_mdreqs (<[m := f x]> (mdreqs w)) w).

(** [kfree] *)
Definition free_bc (b : Z) : M io_world unit := the_bc b ;; modify (fun w => set_bcs (delete b (bcs w)) w).
Definition free_ebio (e : Z) : M io_world unit := the_ebio e ;; modify (fun w => set_ebios (delete e (ebios w)) w).
Definition free_mdreq (m : Z) : M io_world unit := the_mdreq m ;; modify (fun w => set_mdreqs (delete m (mdreqs w)) w).
Definition eio_free_cache_job (j : Z) : M io_world unit := the_job j ;; modify (fun w => set_jobs (delete j (jobs w)) w).

(** [atomic_t] *)
Definition atomic_inc (x : Z) : Z := i32 (x + 1).
Definition atomic_dec (x : Z) : Z := i32 (x - 1).

(** [schedule_work]: nothing if the work is already queued *)
Definition schedule_work (x : deferred_work) : M io_world unit :=
  modify (fun w => if decide (x ∈ scheduled w) then w else set_scheduled (scheduled w ++ [x]) w).

(** ** Transfers *)
Definition async_bvec (where_ : eio_io_region) (rw : Z) (bvecs : list bio_vec) (hddio : bool) (c : callback) : M io_world Z :=
  e <- on_cw (eio_io_async_bvec where_ rw bvecs hddio) ;;
  if negb (e.1 =? 0) then ret e.1
  else modify (fun w => set_completions (completions w ++ [(c, e.2)]) w) ;; ret 0.

(** ** Jobs: [eio_new_job] (eio_subr.c); [None] when the allocation fails *)

(** the region of the cache block [index], or of the part [eb] of it *)
Definition job_cache_region (d : cache_c) (eb : option eio_bio) (index : Z) : eio_io_region :=
  match eb with
  | Some eb => mk_region SSD (u64 (Z.shiftl index (block_shift d) + md_sectors d + (eb_sector eb - EIO_ROUND_SECTOR d (eb_sector eb))))
                 (eio_to_sector (eb_size eb))
  | None => mk_region SSD (u64 (Z.shiftl index (block_shift d) + md_sectors d)) (block_size d)
  end.

Definition eio_new_job (bio : option Z) (index : Z) : M io_world (option Z) :=
  EIO_ASSERT (bool_decide (bio <> None) || negb (index =? -1)) ;;
  ok <- on_kmalloc kmalloc ;;
  if negb ok then
    upd_dmc (upd_errors (fun e => {| e with memory_alloc_errors := i32 (memory_alloc_errors e + 1) |})) ;; ret None
  else
    eb <- (match bio with Some e => eb <- the_ebio e ;; ret (Some eb) | None => ret None end) ;;
    d <- gets io_d ;;
    when (negb (index =? -1)) (match eb with Some eb => EIO_ASSERT (eio_to_sector (eb_size eb) <=? block_size d) | None => ret tt end) ;;
    disk <- (match eb with
             | Some eb => ret (mk_region HDD (eb_sector eb) (eio_to_sector (eb_size eb)))
             | None => dbn <- lift (EIO_DBN_GET d index) ;; ret (mk_region HDD dbn (block_size d))
             end) ;;
    j <- gets (fun w => fresh (dom (jobs w))) ;;
    modify (fun w => set_jobs (<[j := mk_job bio disk (if negb (index =? -1) then Some (job_cache_region d eb index) else None)
                                        index NOACTION 0]> (jobs w)) w) ;;
    ret (Some j).

(** [job->job_io_regions.cache.sector], whatever it holds *)
Definition job_cache_sector {K : Kernel} (j : kcached_job) : Z :=
  match job_cache j with Some r => io_sector r | None => stale_sector end.

(** ** Ends *)
Section kernel.
Context {K : Kernel}.

(** [up_read]; releasing a lock that is not held is a bug *)
Definition up_read (set : Z) : M io_world unit :=
  n <- gets (fun w => default 0 (readers w !! set)) ;;
  EIO_ASSERT (0 <? n) ;;
  modify (fun w => set_readers (<[set := n - 1]> (readers w)) w).
Definition down_read (set : Z) : M io_world unit :=
  modify (fun w => set_readers (<[set := default 0 (readers w !! set) + 1]> (readers w)) w).

Definition free_mdreq_pages (m : Z) : M io_world unit :=
  r <- the_mdreq m ;;
  on_kmem (eio_free_wb_bvecs (mdblk_bvecs r) (length (mdblk_bvecs r)) SECTORS_PER_PAGE) ;;
  free_mdreq m.

Definition eio_release_io_resources (bc : Z) : M io_world unit :=
  b <- the_bc bc ;;
  mfor (seq_sets (bc_setspan b)) up_read ;;
  mfor (bc_mdreqs b) free_mdreq_pages ;;
  upd_bc bc (set_bc_mdreqs []).

Definition bio_endio (b error : Z) : M io_world unit :=
  the_bio b ;; modify (fun w => set_bio_ended (bio_ended w ++ [(b, error)]) w).

Definition add_iotime (dir elapsed : Z) (s : eio_stats) : eio_stats :=
  if dir =? READ then {| s with st_rdtime_ms := atomic64_add elapsed (st_rdtime_ms s) |}
  else {| s with st_wrtime_ms := atomic64_add elapsed (st_wrtime_ms s) |}.

(** [jiffies] is the time of the call *)
Definition bc_put (jiffies bc : Z) : M io_world unit :=
  b <- the_bc bc ;;
  upd_bc bc (set_bc_holdcount (atomic_dec (bc_holdcount b))) ;;
  when (atomic_dec (bc_holdcount b) =? 0)
    (m <- gets (fun w => mode (io_d w)) ;;
     when (m =? CACHE_MODE_WB) (eio_release_io_resources bc) ;;
     upd_bio (bc_bio b) (fun x => {| x with bi_size := 0 |}) ;;
     bio <- the_bio (bc_bio b) ;;
     inc_stat (add_iotime (bi_dir bio) (i64 (jiffies_to_msecs (u64 (jiffies - bc_iotime b))))) ;;
     bio_endio (bc_bio b) (bc_error b) ;;
     upd_dmc (fun d => set_nr_ios (atomic64_dec (nr_ios d)) d) ;;
     free_bc bc).

Definition bc_addfb (bc : Z) (eb : eio_bio) : M io_world eio_bio :=
  upd_bc bc (fun b => set_bc_holdcount (atomic_inc (bc_holdcount b)) b) ;;
  ret {| eb with eb_bc := bc |}.

Definition eb_endio (jiffies ebio error : Z) : M io_world unit :=
  eb <- the_ebio ebio ;;
  when ((eb_iotype eb =? EB_MAIN_IO) && negb (error =? 0)) (upd_bc (eb_bc eb) (set_bc_error error)) ;;
  bc_put jiffies (eb_bc eb) ;;
  free_ebio ebio.
End kernel.
