(* ===== verification/MdUpdate.v ===== *)
(** * Metadata updates: marking blocks dirty on the SSD ([eio_main.c])

    A cached write that dirties blocks first writes their data to the SSD, then
    the metadata that says so, and only then completes.  [eio_md_write] collects
    the splits ([eio_bio]) of a bio; with the last one [eio_enq_mdupdate] hands
    them to the update requests of their sets; [eio_do_mdupdate] writes the
    metadata of a set, [eio_post_mdupdate] ends the splits it covered. *)

From S2P Require Import Prelude Types Mem Scan Thresh Lookup SetSeq World Dispatch Disk Clean WbAlloc IoWorld.

(** ** [eio_md_write]: insertion in ascending order of sets *)

(** the walk past the splits of the same and smaller sets; [cs] gives the set of a split *)
Fixpoint md_insert (cs : Z -> option Z) (set ebio : Z) (mdlist : list Z) : option (list Z) :=
  match mdlist with
  | [] => Some [ebio]
  | nebio :: l =>
    match cs nebio with
    | Some s => if set <? s then Some (ebio :: mdlist)
                else match md_insert cs set ebio l with Some l' => Some (nebio :: l') | None => None end
    | None => None
    end
  end.
Definition cacheset_of (w : io_world) (e : Z) : option Z := option_map eb_cacheset (ebios w !! e).

(** ** [eio_enq_mdupdate] *)
Definition set_cs_mdreq (set : Z) (v : option Z) (d : cache_c) : cache_c :=
  let s := cache_sets d !!! set in
  set_cache_sets (<[set := {| s with cs_mdreq := v |}]> (cache_sets d)) d.

(** one split: it joins the set's request, or starts one taken from the
    container; returns the request and whether it must be scheduled *)
Definition enq_ebio (bc ebio set : Z) (do_schedule : bool) : M io_world (Z * bool) :=
  cur <- gets (fun w => cs_mdreq (cache_sets (io_d w) !!! set)) ;;
  match cur with
  | None =>
    b <- the_bc bc ;;
    match bc_mdreqs b with
    | [] => panic
    | m :: ms =>
      upd_bc bc (set_bc_mdreqs ms) ;;
      upd_mdreq m (fun r => {| (set_md_lists [ebio] (inprog_mdlist r) r) with md_set := set |}) ;;
      upd_dmc (set_cs_mdreq set (Some m)) ;;
      ret (m, true)
    end
  | Some m =>
    upd_mdreq m (fun r => set_md_lists (ebio :: pending_mdlist r) (inprog_mdlist r) r) ;;
    ret (m, do_schedule)
  end.

Fixpoint enq_loop (bc : Z) (mdlist : list Z) (do_schedule : bool) : M io_world unit :=
  match mdlist with
  | [] => ret tt
  | ebio :: mdlist' =>
    eb <- the_ebio ebio ;;
    let set_index := eb_cacheset eb in
    upd_bc bc (set_bc_mdlist mdlist') ;;
    r <- enq_ebio bc ebio set_index do_schedule ;;
    last <- match mdlist' with
            | [] => ret true
            | e :: _ => eb' <- the_ebio e ;; ret (negb (eb_cacheset eb' =? set_index))
            end ;;
    if (last : bool) then
      when r.2 (modify (fun w => set_md_queue (md_queue w ++ [DoMdupdate r.1]) w)) ;;
      enq_loop bc mdlist' false
    else enq_loop bc mdlist' r.2
  end.
Definition eio_enq_mdupdate (bc : Z) : M io_world unit :=
  b <- the_bc bc ;; enq_loop bc (bc_mdlist b) false.

Definition eio_md_write (job : Z) : M io_world unit :=
  j <- the_job job ;;
  ebio <- lift (job_ebio j) ;;
  eb <- the_ebio ebio ;;
  b <- the_bc (eb_bc eb) ;;
  EIO_ASSERT (0 <? bc_mdwait b) ;;
  l <- eval (fun w => md_insert (cacheset_of w) (eb_cacheset eb) ebio (bc_mdlist b)) ;;
  upd_bc (eb_bc eb) (fun b => set_bc_mdwait (bc_mdwait b - 1) (set_bc_mdlist l b)) ;;
  eio_free_cache_job job ;;
  when (bc_mdwait b - 1 =? 0) (eio_enq_mdupdate (eb_bc eb)).

(** ** [eio_do_mdupdate] *)

(** what a block is said to be before the pending splits are looked at *)
Definition mdu_state (cstate : Z) : Z := if cstate =? ALREADY_DIRTY then Z.lor VALID DIRTY else INVALID.
Fixpoint mdu_entries (d : cache_c) (blocks : list Z) : option (list flash_cacheblock) :=
  match blocks with
  | [] => Some []
  | i :: bs =>
    match EIO_DBN_GET d i, mdu_entries d bs with
    | Some dbn, Some l => Some (mk_flash dbn (mdu_state (EIO_CACHE_STATE_GET d i)) :: l)
    | _, _ => None
    end
  end.

(** the pending splits: entries of the set, sectors to write ([sector_bits]) *)
Fixpoint mdu_mark (d : cache_c) (index_of : Z -> option Z) (start_index : Z) (pending : list Z)
    (entries : list flash_cacheblock) (sector_bits : list Z) : option (list flash_cacheblock * list Z) :=
  match pending with
  | [] => Some (entries, sector_bits)
  | e :: pending' =>
    match index_of e with
    | None => None
    | Some index =>
      if negb (EIO_CACHE_STATE_GET d index =? DIRTY_INPROG) then None
      else
        let blk_index := index - start_index in
        let pindex := INDEX_TO_MD_PAGE blk_index in
        let off := INDEX_TO_MD_PAGE_OFFSET blk_index in
        match sector_bits !! Z.to_nat pindex, entries !! Z.to_nat (pindex * MD_BLOCKS_PER_PAGE + off) with
        | Some bits, Some f =>
          mdu_mark d index_of start_index pending'
            (<[Z.to_nat (pindex * MD_BLOCKS_PER_PAGE + off) := mk_flash (fc_dbn f) (Z.lor VALID DIRTY)]> entries)
            (<[Z.to_nat pindex := u8 (Z.lor bits (Z.shiftl 1 (INDEX_TO_MD_SECTOR off)))]> sector_bits)
        | _, _ => None
        end
    end
  end.
Definition index_of (w : io_world) (e : Z) : option Z := option_map eb_index (ebios w !! e).

(** the [while (startbit == -1)] and [while (endbit == -1)] loops *)
Definition first_bit (bits : Z) (js : list Z) : option Z := List.find (fun j => tst bits (Z.shiftl 1 j)) js.

Definition inc_md_ssd_writes (s : eio_stats) := {| s with st_md_ssd_writes := atomic64_inc (st_md_ssd_writes s) |}.
(** [SECTOR_STATS(dmc->eio_stats.ssd_writes, size)] *)
Definition add_ssd_writes (size : Z) (s : eio_stats) :=
  {| s with st_ssd_writes := atomic64_add (eio_to_sector size) (st_ssd_writes s) |}.

(** one page of metadata *)
Definition mdu_write (m start_index end_index : Z) (i : nat) (bits : Z) : M io_world unit :=
  if bits =? 0 then ret tt
  else
    startbit <- lift (first_bit bits (seqZ 0 8)) ;;
    endbit <- lift (first_bit bits (rev (seqZ 0 8))) ;;
    EIO_ASSERT (startbit <=? endbit) ;;
    d <- gets io_d ;;
    EIO_ASSERT (negb (assoc d =? 128) || (endbit <=? 3)) ;;
    let region := mk_region SSD (md_start_sect d + INDEX_TO_MD_SECTOR start_index + Z.of_nat i * SECTORS_PER_PAGE + startbit)
                    (endbit - startbit + 1) in
    upd_mdreq m (fun r => set_mdblk_bvecs
      (alter (fun v => mk_bvec (bv_page v) (to_bytes (io_count region)) (to_bytes startbit)) i (mdblk_bvecs r)) r) ;;
    EIO_ASSERT (io_sector region <=? md_start_sect d + INDEX_TO_MD_SECTOR end_index) ;;
    inc_stat inc_md_ssd_writes ;;
    inc_stat (add_ssd_writes (to_bytes (io_count region))) ;;
    upd_mdreq m (fun r => set_md_holdcount (atomic_inc (md_holdcount r)) r) ;;
    r <- the_mdreq m ;;
    bvec <- lift (mdblk_bvecs r !! i) ;;
    error <- async_bvec region WRITE [bvec] false (MdupdateCallback m) ;;
    upd_mdreq m (fun r => if negb (error =? 0) && (md_error r =? 0) then set_md_error error r else r).

Fixpoint mdu_writes (m start_index end_index : Z) (i : nat) (sector_bits : list Z) : M io_world unit :=
  match sector_bits with
  | [] => ret tt
  | bits :: l => mdu_write m start_index end_index i bits ;; mdu_writes m start_index end_index (S i) l
  end.

(** [atomic_dec_and_test(&mdreq->holdcount)], and the work that follows the last *)
Definition mdreq_put (m : Z) : M io_world unit :=
  r <- the_mdreq m ;;
  upd_mdreq m (set_md_holdcount (atomic_dec (md_holdcount r))) ;;
  when (atomic_dec (md_holdcount r) =? 0) (modify (fun w => set_md_queue (md_queue w ++ [PostMdupdate m]) w)).

Definition eio_do_mdupdate (m : Z) : M io_world unit :=
  upd_mdreq m (set_md_error 0) ;;
  r <- the_mdreq m ;;
  d <- gets io_d ;;
  let count := length (mdblk_bvecs r) in
  EIO_ASSERT (Nat.leb 1 count && Nat.leb count 2) ;;
  EIO_ASSERT ((assoc d =? 512) || Nat.eqb count 1) ;;
  let start_index := md_set r * assoc d in
  let end_index := start_index + assoc d in
  entries <- eval (fun w => mdu_entries (io_d w) (seqZ start_index (assoc d))) ;;
  marked <- eval (fun w => mdu_mark (io_d w) (index_of w) start_index (pending_mdlist r) entries [0; 0]) ;;
  mem <- eval (fun w => fill_md_pages (map bv_page (mdblk_bvecs r)) marked.1
                          (seq 0 ((length entries + 31) / 32)) (cw_mem (io_cw w))) ;;
  modify (fun w => set_io_cw (set_cw_mem mem (io_cw w)) w) ;;
  upd_mdreq m (fun r => set_md_holdcount 1 (set_md_lists [] (pending_mdlist r) r)) ;;
  mdu_writes m start_index end_index 0 (take count marked.2) ;;
  mdreq_put m.

Definition eio_mdupdate_callback (error m : Z) : M io_world unit :=
  upd_mdreq m (fun r => if negb (error =? 0) && (md_error r =? 0) then set_md_error error r else r) ;;
  mdreq_put m.

(** ** [eio_post_mdupdate] *)
Definition inc_nr_dirty (set : Z) (d : cache_c) : cache_c :=
  let s := cache_sets d !!! set in
  set_nr_dirty (atomic64_inc (nr_dirty d))
    (set_cache_sets (<[set := {| s with cs_nr_dirty := u32 (cs_nr_dirty s + 1) |}]> (cache_sets d)) d).
Definition inc_md_write_dirty (s : eio_stats) := {| s with st_md_write_dirty := atomic64_inc (st_md_write_dirty s) |}.

(** one split of the update: its block becomes dirty or, on an error, invalid *)
Definition post_block (set error index : Z) : M cache_c unit :=
  d <- gets id ;;
  EIO_ASSERT (EIO_CACHE_STATE_GET d index =? DIRTY_INPROG) ;;
  if negb (error =? 0) then modify (fun d => dec_cached_blocks (EIO_CACHE_STATE_SET d index INVALID))
  else
    modify (fun d => EIO_CACHE_STATE_SET d index ALREADY_DIRTY) ;;
    modify (fun d => upd_stats inc_md_write_dirty (inc_nr_dirty set d)).

Section kernel.
Context {K : Kernel}.

Definition eio_post_mdupdate (jiffies m : Z) : M io_world unit :=
  r <- the_mdreq m ;;
  let set := md_set r in
  let error := md_error r in
  mfor (inprog_mdlist r) (fun e => eb <- the_ebio e ;; on_dmc (post_block set error (eb_index eb))) ;;
  let more_pending := negb (bool_decide (pending_mdlist r = [])) in
  when (negb more_pending) (upd_dmc (set_cs_mdreq set None)) ;;
  upd_mdreq m (fun r => set_md_lists (pending_mdlist r) [] r) ;;
  mfor (inprog_mdlist r) (fun e => eb_endio jiffies e error) ;;
  when (error =? 0) (on_dmc (eio_touch_set_lru jiffies set ;; ret tt) ;; on_dmc (eio_comply_dirty_thresholds set)) ;;
  if more_pending then modify (fun w => set_md_queue (md_queue w ++ [DoMdupdate m]) w)
  else free_mdreq_pages m.
End kernel.
