(* ===== verification/MdWrite.v ===== *)
(** * The metadata of a set is updated atomically, block by block

    Whatever part of the metadata write of an update reaches the SSD, recovery
    finds each block of the update either not yet dirty or dirty with its new
    data; when the whole write reaches it, all of them are.

    ** The transfers of a metadata update

    [eio_do_mdupdate] writes, of each metadata page of the set, the sectors
    from the first to the last one that an update changed. *)

From S2P Require Import Prelude Types Mem DList Scan Policy Thresh Lookup World Dispatch Disk Clean CleanIo CleanState CleanSet WbAlloc IoWorld MdUpdate.

(** * The metadata of a set is updated atomically, block by block *)
(** the same contents, sector by sector *)
Definition disks_eq (k k' : disks) : Prop :=
  (forall s, on_ssd k !!! s = on_ssd k' !!! s) /\ (forall s, on_hdd k !!! s = on_hdd k' !!! s).
#[export] Instance disks_eq_refl : Reflexive disks_eq. Proof. done. Qed.
#[export] Instance disks_eq_trans : Transitive disks_eq.
Proof. intros k1 k2 k3 [A1 B1] [A2 B2]. split; intros s; by rewrite ?A1, ?B1. Qed.
#[export] Instance disks_eq_sym : Symmetric disks_eq.
Proof. intros k1 k2 [A B]. split; intros s; by rewrite ?A, ?B. Qed.

Section disks_eq.
Context (d : cache_c).
#[export] Instance flash_entry_proper : Proper (disks_eq ==> eq ==> eq) (flash_entry d).
Proof. intros k k' [A _] i ? <-. unfold flash_entry. by rewrite A. Qed.
#[export] Instance block_data_proper : Proper (disks_eq ==> eq ==> eq ==> eq) (block_data d).
Proof. intros k k' [A _] i ? <- o ? <-. unfold block_data. by rewrite A. Qed.
#[export] Instance contents_proper p : Proper (disks_eq ==> eq ==> eq) (contents p d).
Proof.
  intros k k' H s ? <-. unfold contents. destruct (List.find _ _); [by rewrite H|apply H].
Qed.
#[export] Instance recovered_proper : Proper (disks_eq ==> eq ==> eq) (recovered d).
Proof.
  intros k k' H s ? <-. unfold recovered.
  assert (E : forall l, List.find (dirty_entry d k s) l = List.find (dirty_entry d k' s) l).
  { induction l as [|i l IH]; cbn [List.find]; [done|]. rewrite IH. unfold dirty_entry. by rewrite H. }
  rewrite E. clear E. destruct (List.find _ _); [by rewrite H|apply H].
Qed.
#[export] Instance synced_proper : Proper (disks_eq ==> eq ==> iff) (synced d).
Proof.
  intros k k' H i ? <-. split; intros Hs b o Eb Ho; specialize (Hs b o Eb Ho).
  - by rewrite <-(block_data_proper k k' H i i eq_refl o o eq_refl), <-(proj2 H).
  - by rewrite (block_data_proper k k' H i i eq_refl o o eq_refl), (proj2 H).
Qed.
#[export] Instance sound_for_proper p : Proper (disks_eq ==> eq ==> iff) (sound_for p d).
Proof.
  intros k k' H set ? <-. unfold sound_for, entry_for. split; intros Hs i Hi; destruct (Hs i Hi) as (f & Ef & H1 & H2);
    exists f; split_and!; try done; [by rewrite <-H|intros; rewrite <-H; auto|by rewrite H|intros; rewrite H; auto].
Qed.
End disks_eq.

(** ** The committed blocks *)

(** dirty on the SSD and in memory *)
Definition committed (d : cache_c) (i : Z) : bool := EIO_CACHE_STATE_GET d i =? ALREADY_DIRTY.
Definition committed_with (d : cache_c) (q : list Z) (i : Z) : bool := committed d i || bool_decide (i ∈ q).

Section commit.
Context (d : cache_c) (Hinv : blk_inv d) (Hlay : md_layout d) (set : Z) (Hset : 0 <= set < num_sets d).
Context (pend : list Z) (Hpend : forall i, i ∈ pend -> i ∈ set_blocks d set /\ EIO_CACHE_STATE_GET d i = DIRTY_INPROG).
Context (entries : list flash_cacheblock) (Hlen : length entries = Z.to_nat (assoc d)).
Abbreviation start := (set_start d set).
Context (Hent : forall i, i ∈ set_blocks d set -> exists b, EIO_DBN_GET d i = Some b /\
  entries !! Z.to_nat (i - start) = Some (mk_flash b (if committed_with d pend i then Z.lor VALID DIRTY else INVALID))).
Context (k0 : disks) (Hsound : forall s, 0 <= s < num_sets d -> sound_for (committed d) d k0 s).

#[local] Lemma Hgeo : wf_geom d. Proof. apply Hinv. Qed.

(** the sector of the SSD that holds the entry of block [i] *)
Definition entry_sector (i : Z) : Z := md_start_sect d + INDEX_TO_MD_SECTOR i.
(** the blocks of the update whose entry was written *)
Definition written (mv : gset Z) : list Z := List.filter (fun i => bool_decide (entry_sector i ∈ mv)) pend.

Lemma elem_written mv i : i ∈ written mv <-> i ∈ pend /\ entry_sector i ∈ mv.
Proof. unfold written. rewrite list_elem_of_In, filter_In, <-list_elem_of_In, bool_decide_eq_true. done. Qed.

Lemma committed_valid q i : (forall i, i ∈ q -> i ∈ pend) -> committed_with d q i = true -> EIO_CACHE_STATE_GET d i <> INVALID.
Proof.
  unfold committed_with, committed. intros Hq [E%Z.eqb_eq|Hi%bool_decide_eq_true]%orb_true_iff; [by rewrite E|].
  destruct (Hpend i (Hq i Hi)) as [_ E]. by rewrite E.
Qed.

Definition md_image (mv : gset Z) : disks := write_md_disks d set (IoFailed 1 mv) k0 entries.

Lemma image_data mv i o : 0 <= i -> 0 <= o -> block_data d (md_image mv) i o = block_data d k0 i o.
Proof. apply (block_data_md d Hgeo Hlay set Hset). Qed.
Lemma image_hdd mv : on_hdd (md_image mv) = on_hdd k0. Proof. done. Qed.

Lemma image_synced mv i : 0 <= i -> synced d k0 i -> synced d (md_image mv) i.
Proof. intros Hi Hs b o Eb Ho. rewrite image_hdd, image_data by lia. by apply Hs. Qed.

Lemma image_sound mv s : 0 <= s < num_sets d -> sound_for (committed_with d (written mv)) d (md_image mv) s.
Proof.
  intros Hs i Hi. pose proof (set_blocks_range d s i Hgeo Hs Hi) as Hri. destruct (Hsound s Hs i Hi) as (f & Ef & H1 & H2).
  assert (Hold : (entry_sector i ∉ mv \/ s <> set) -> flash_entry d (md_image mv) i = flash_entry d k0 i -> entry_for (committed_with d (written mv)) d (md_image mv) i).
  { intros Hn E. exists f. rewrite E. split_and!; [done|intros Hd; destruct (H1 Hd) as [Hc Eb]; unfold committed_with; rewrite Hc; done|].
    intros Hc Hd. apply image_synced; [lia|]. apply H2; [|done]. apply orb_true_iff in Hc as [?|Hc%bool_decide_eq_true]; [done|].
    apply elem_written in Hc as [Hp Hm]. destruct Hn as [?|Hn]; [done|]. exfalso. apply Hn.
    destruct (Hpend i Hp) as [Hi' _]. apply (elem_of_set_blocks d _ _ Hgeo) in Hi, Hi'. congruence. }
  destruct (decide (s = set)) as [->|Hne].
  2:{ apply Hold; [by right|]. apply (flash_entry_other d Hgeo Hlay set); [done|].
      intros E. apply Hne. rewrite <-E. symmetry. by apply (elem_of_set_blocks d _ _ Hgeo). }
  pose proof (flash_entry_written d Hgeo Hlay set (IoFailed 1 mv) k0 entries i Hlen Hi) as E. fold (md_image mv) in E.
  cbn [moved_sector] in E. fold (entry_sector i) in E. destruct (bool_decide_reflect (entry_sector i ∈ mv)) as [Hm|Hm]; [|by apply Hold; [left|]].
  destruct (Hent i Hi) as (b & Eb & En). rewrite En in E. eexists. split_and!; [exact E| |]; cbn [fc_state fc_dbn].
  - unfold committed_with. destruct (committed d i); cbn [orb]; [done|].
    rewrite (bool_decide_ext (i ∈ written mv) (i ∈ pend)) by (rewrite elem_written; tauto). destruct (bool_decide _); done.
  - unfold committed_with. destruct (committed d i); cbn [orb]; [done|].
    rewrite (bool_decide_ext (i ∈ written mv) (i ∈ pend)) by (rewrite elem_written; tauto). destruct (bool_decide _); done.
Qed.

Lemma image_contents mv p s : 0 <= s -> contents p d (md_image mv) s = contents p d k0 s.
Proof.
  intros Hs. unfold contents. destruct (List.find _ _) as [i|] eqn:E; [|done].
  apply list_find_Some in E as [Hi _]. pose proof (set_block_range d Hinv s i Hs Hi).
  apply image_data; [lia|]. destruct (round_sector_le d s Hgeo Hs). lia.
Qed.

(** a crash that leaves the sectors [mv] written *)
Lemma image_recovered mv s : 0 <= s ->
  recovered d (md_image mv) s = contents (committed_with d (written mv)) d k0 s.
Proof.
  intros Hs. rewrite <-(image_contents mv) by done. apply (recovered_contents d Hinv); [|done|].
  - intros i. apply committed_valid. intros j. rewrite elem_written. tauto.
  - apply image_sound. apply dbn_to_set_spec; [apply Hgeo|done].
Qed.
End commit.

(** * The transfers of a metadata update *)
(** ** The monad of the I/O path *)
Lemma upd_mdreq_run m f w r : mdreqs w !! m = Some r ->
  upd_mdreq m f w = Some (tt, set_mdreqs (<[m := f r]> (mdreqs w)) w).
Proof. intros E. unfold upd_mdreq, the_mdreq. by rewrite (bind_eval (fun w => mdreqs w !! m) _ w r E). Qed.
Lemma the_mdreq_run m w r : mdreqs w !! m = Some r -> the_mdreq m w = Some (r, w).
Proof. intros E. unfold the_mdreq, eval. by rewrite E. Qed.
(** [w] with other statistics *)
Definition with_stats (st : eio_stats) (w : io_world) : io_world := set_io_cw (set_cw_d (set_stats st (io_d w)) (io_cw w)) w.
Lemma inc_stat_run f w : inc_stat f w = Some (tt, with_stats (f (stats (io_d w))) w).
Proof. done. Qed.
Lemma inc_stat2_run {A} f g (k : unit -> M io_world A) w : exists st, bind (inc_stat f) (fun _ => bind (inc_stat g) k) w = k tt (with_stats st w).
Proof. exists (g (f (stats (io_d w)))). destruct w as [[]]. reflexivity. Qed.
Lemma lift_run {S A} (a : A) (s : S) : lift (Some a) s = Some (a, s).
Proof. done. Qed.

(** ** One write to the SSD *)
Definition mem_writes (mem : memory) (ts : list (Z * slot)) : list (Z * sector_data) := map (fun t => (t.1, mem !!! t.2)) ts.

Record ssd_write_outcome (ws : list (Z * sector_data)) (w w' : cworld) (e : Z * Z) : Prop := {
  sw_d : cw_d w' = cw_d w;
  sw_mem : cw_mem w' = cw_mem w;
  sw_bufs : clean_dbvecs w' = clean_dbvecs w /\ clean_mdpages w' = clean_mdpages w;
  sw_results : Forall io_result_ok (cw_results w) -> Forall io_result_ok (cw_results w');
  sw_k : (e.1 <> 0 /\ cw_k w' = cw_k w /\ cw_trace w' = cw_trace w) \/
    (e.1 = 0 /\ cw_trace w' = cw_trace w ++ [(cw_k w, (SSD, ws))] /\
     exists r, cw_k w' = dev_set SSD (write_sectors r ws (on_ssd (cw_k w))) (cw_k w) /\
       (Forall io_result_ok (cw_results w) -> e.2 = 0 -> r = IoOk))
}.

Lemma ssd_write_ok sec n bvecs w : bvecs_fit bvecs n -> bvecs <> [] ->
  exists e w', eio_io_async_bvec (mk_region SSD sec n) WRITE bvecs false w = Some (e, w') /\
    ssd_write_outcome (mem_writes (cw_mem w) (region_transfer sec n bvecs)) w w' e.
Proof.
  intros Hfit Hne. unfold eio_io_async_bvec. rewrite bind_gets. destruct (_ && _).
  { exists (- ENODEV, 0), w. split; [done|]. constructor; try done. left. done. }
  assert (H : exists r w1, next_result w = Some (r, w1) /\ cw_d w1 = cw_d w /\ cw_mem w1 = cw_mem w /\
    clean_dbvecs w1 = clean_dbvecs w /\ clean_mdpages w1 = clean_mdpages w /\ cw_k w1 = cw_k w /\ cw_trace w1 = cw_trace w /\
    (Forall io_result_ok (cw_results w) -> io_result_ok r /\ Forall io_result_ok (cw_results w1))).
  { unfold next_result. destruct (cw_results w) as [|r l] eqn:E.
    - exists IoOk, w. rewrite E. done.
    - exists r, (set_cw_results l w). split_and!; try done. by intros [? ?]%Forall_cons. }
  destruct H as (r & w1 & E1 & D1 & M1 & V1 & P1 & K1 & T1 & O1). rewrite (bind_run _ _ _ _ _ E1).
  destruct (Z.eqb_spec (io_errors r).1 0) as [Er|Er]; cbn [negb].
  2:{ exists (io_errors r), w1. split; [done|]. constructor; try done; [|by left]. intros H. by apply O1. }
  unfold do_transfer. destruct (dispatch_io_ok [] 0 (mk_region SSD sec n) false bvecs) as (bios & E & Et); [done|done|done|].
  rewrite bind_bind, (bind_eval (fun _ => eio_dispatch_io [] 0 (mk_region SSD sec n) false bvecs) _ _ bios E).
  change (WRITE =? READ) with false. cbv iota zeta. rewrite Et. cbn [io_sector io_count io_bdev]. rewrite Z.add_0_r, bind_modify.
  eexists _, _. split; [done|]. rewrite M1. constructor; cbn; rewrite ?K1, ?T1; try done.
  - intros H. by apply O1.
  - right. split_and!; [done|done|]. exists r. split; [done|]. intros H H2. apply (io_errors_0 r); [by apply O1|].
    destruct (io_errors r). cbn in *. congruence.
Qed.

Lemma outcome_set_d ws d' w w' e : ssd_write_outcome ws (set_cw_d d' w) w' e -> ssd_write_outcome ws w (set_cw_d (cw_d w) w') e.
Proof. intros [S1 S2 S3 S4 S5]. by constructor. Qed.

(** ** Writes of consecutive sectors *)
Lemma write_range_lookup r a n (f : Z -> sector_data) m s :
  write_sectors r (map (fun j => (a + j, f j)) (seqZ 0 n)) m !!! s =
    if (a <=? s) && (s <? a + n) && moved_sector r s then f (s - a) else m !!! s.
Proof.
  assert (Hnd : NoDup (map (fun j => (a + j, f j)) (seqZ 0 n)).*1).
  { rewrite <-list_fmap_compose. apply NoDup_fmap_2; [|apply NoDup_seqZ]. intros x y E. cbn in E. lia. }
  destruct (Z.leb_spec a s), (Z.ltb_spec s (a + n)); cbn [andb].
  2-4: apply write_sectors_ne; intros ([x v] & E & Hin)%list_elem_of_fmap; apply list_elem_of_fmap in Hin as (j & [= -> ->] & Hj%elem_of_seqZ); cbn in E; lia.
  rewrite write_sectors_lookup by done.
  rewrite (elem_of_list_to_map_1 _ s (f (s - a)) Hnd).
  - done.
  - apply list_elem_of_fmap. exists (s - a). split; [f_equal; lia|]. apply elem_of_seqZ. lia.
Qed.

Section image.
Context (d : cache_c) (set : Z) (entries : list flash_cacheblock) (k0 : disks).
Abbreviation base := (md_start_sect d + INDEX_TO_MD_SECTOR (set_start d set)).
Abbreviation n := (md_set_sectors d).
Abbreviation image := (md_image d set entries k0).

Lemma image_lookup mv s : on_ssd (image mv) !!! s =
  if (base <=? s) && (s <? base + n) && bool_decide (s ∈ mv) then md_sector entries (Z.to_nat (s - base)) else on_ssd k0 !!! s.
Proof. apply (write_range_lookup (IoFailed 1 mv) base n (fun j => md_sector entries (Z.to_nat j))). Qed.

(** writing a part of the sectors on top of an image gives an image *)
Definition part_writes (a c : Z) : list (Z * sector_data) :=
  map (fun j => (base + a + j, md_sector entries (Z.to_nat (a + j)))) (seqZ 0 c).
Definition moved_part (r : io_result) (a c : Z) : gset Z :=
  list_to_set (List.filter (moved_sector r) (map (fun j => base + a + j) (seqZ 0 c))).

Lemma elem_moved_part r a c s : s ∈ moved_part r a c <-> base + a <= s < base + a + c /\ moved_sector r s = true.
Proof.
  unfold moved_part. rewrite elem_of_list_to_set, list_elem_of_In, filter_In, <-list_elem_of_In, list_elem_of_fmap.
  setoid_rewrite elem_of_seqZ. split; intros [H ?]; (split; [|done]).
  - destruct H as (j & -> & ?). lia.
  - exists (s - base - a). lia.
Qed.

Lemma part_image r a c k mv : 0 <= a -> a + c <= n -> disks_eq k (image mv) ->
  disks_eq (dev_set SSD (write_sectors r (part_writes a c) (on_ssd k)) k) (image (mv ∪ moved_part r a c)).
Proof.
  intros Ha Hc [Hs Hh]. split; [|done]. intros s. cbn [dev_set on_ssd]. unfold part_writes.
  rewrite (write_range_lookup r (base + a) c (fun j => md_sector entries (Z.to_nat (a + j)))), image_lookup, Hs, image_lookup.
  rewrite (bool_decide_ext (s ∈ mv ∪ moved_part r a c) (s ∈ mv \/ (base + a <= s < base + a + c /\ moved_sector r s = true)))
    by (rewrite elem_of_union, elem_moved_part; done).
  destruct (Z.leb_spec (base + a) s), (Z.ltb_spec s (base + a + c)); cbn [andb].
  - destruct (moved_sector r s) eqn:Em.
    + rewrite (bool_decide_true (_ \/ _)) by (right; split; [lia|done]).
      destruct (Z.leb_spec base s), (Z.ltb_spec s (base + n)); cbn [andb]; try lia. do 2 f_equal. lia.
    + rewrite (bool_decide_ext (_ \/ _) (s ∈ mv)) by (split; [intros [?|[_ [=]]]; done|by left]). done.
  - rewrite (bool_decide_ext (_ \/ _) (s ∈ mv)) by (split; [intros [?|[? _]]; [done|lia]|by left]). done.
  - rewrite (bool_decide_ext (_ \/ _) (s ∈ mv)) by (split; [intros [?|[? _]]; [done|lia]|by left]). done.
  - rewrite (bool_decide_ext (_ \/ _) (s ∈ mv)) by (split; [intros [?|[? _]]; [done|lia]|by left]). done.
Qed.
End image.

(** ** The span of the sectors to write *)
Lemma span_check : forallb (fun bits =>
  match first_bit bits (seqZ 0 8), first_bit bits (rev (seqZ 0 8)) with
  | Some a, Some b => (0 <=? a) && (a <=? b) && (b <=? 7) && Z.testbit bits a && Z.testbit bits b &&
      forallb (fun j => negb (Z.testbit bits j) || ((a <=? j) && (j <=? b))) (seqZ 0 8)
  | _, _ => false
  end) (seqZ 1 255) = true.
Proof. by vm_compute. Qed.

Lemma span_ok bits : 0 < bits < 256 -> exists a b, first_bit bits (seqZ 0 8) = Some a /\ first_bit bits (rev (seqZ 0 8)) = Some b /\
  0 <= a <= b /\ b <= 7 /\ Z.testbit bits b = true /\ forall j, 0 <= j < 8 -> Z.testbit bits j = true -> a <= j <= b.
Proof.
  intros Hb. pose proof span_check as H. rewrite forallb_forall in H. specialize (H bits).
  rewrite <-list_elem_of_In, elem_of_seqZ in H. specialize (H ltac:(lia)).
  destruct (first_bit bits (seqZ 0 8)) as [a|]; [|done]. destruct (first_bit bits (rev (seqZ 0 8))) as [b|]; [|done].
  rewrite !andb_true_iff, forallb_forall in H. destruct H as (((((H1 & H2) & H3) & H4) & H5) & H6).
  apply Z.leb_le in H1, H2, H3. exists a, b. split_and!; try done. intros j Hj Hbit.
  specialize (H6 j). rewrite <-list_elem_of_In, elem_of_seqZ, Hbit in H6. specialize (H6 ltac:(lia)). cbn [negb orb] in H6.
  apply andb_true_iff in H6 as [?%Z.leb_le ?%Z.leb_le]. lia.
Qed.

(** ** The writes of an update *)
Section update.
Context (d : cache_c) (Hinv : blk_inv d) (Hlay : md_layout d) (set : Z) (Hset : 0 <= set < num_sets d).
Context (entries : list flash_cacheblock) (k0 : disks) (m : Z).
Context (w0 : io_world) (r0 : mdupdate_request) (Hd0 : exists st, io_d w0 = set_stats st d).
Context (Hpages : pages_ok d (map bv_page (mdblk_bvecs r0))).
(** the pages hold the entries *)
Context (Hmem : forall j sl, page_slot (map bv_page (mdblk_bvecs r0)) j = Some sl -> (j < Z.to_nat (md_set_sectors d))%nat ->
  cw_mem (io_cw w0) !!! sl = md_sector entries j).
Abbreviation image := (md_image d set entries k0).
Abbreviation base := (md_start_sect d + INDEX_TO_MD_SECTOR (set_start d set)).
Abbreviation n := (md_set_sectors d).

(** the update after [nw] writes that were to cover the sectors [done] *)
Record mdu_running (w : io_world) (r : mdupdate_request) (mv : gset Z) (cb : list (callback * Z)) (done : list Z) (nw : Z) : Prop := {
  mr_frame : w = set_completions (completions w0 ++ cb) (set_mdreqs (<[m := r]> (mdreqs w0)) (set_io_cw (io_cw w) w0));
  mr_d : exists st, io_d w = set_stats st d;
  mr_mem : cw_mem (io_cw w) = cw_mem (io_cw w0);
  mr_bufs : clean_dbvecs (io_cw w) = clean_dbvecs (io_cw w0) /\ clean_mdpages (io_cw w) = clean_mdpages (io_cw w0);
  mr_results : Forall io_result_ok (cw_results (io_cw w0)) -> Forall io_result_ok (cw_results (io_cw w));
  mr_trace : exists tr, cw_trace (io_cw w) = cw_trace (io_cw w0) ++ tr /\ trace_safe (fun k => exists mv, disks_eq k (image mv)) tr;
  mr_k : disks_eq (cw_k (io_cw w)) (image mv);
  mr_req : md_set r = md_set r0 /\ pending_mdlist r = pending_mdlist r0 /\ inprog_mdlist r = inprog_mdlist r0 /\
    map bv_page (mdblk_bvecs r) = map bv_page (mdblk_bvecs r0);
  mr_cb : Forall (fun c => c.1 = MdupdateCallback m) cb;
  mr_hold : md_holdcount r = md_holdcount r0 + nw;
  mr_count : Z.of_nat (length cb) <= nw /\ (md_error r = 0 -> Z.of_nat (length cb) = nw);
  mr_done : Forall io_result_ok (cw_results (io_cw w0)) -> md_error r = 0 -> Forall (fun c => c.2 = 0) cb ->
    forall j, j ∈ done -> base + j ∈ mv
}.

Definition bits_sectors (i : nat) (bits : Z) : list Z :=
  map (fun j => 8 * Z.of_nat i + j) (List.filter (Z.testbit bits) (seqZ 0 8)).

Lemma elem_bits_sectors i bits x : x ∈ bits_sectors i bits <-> exists j, x = 8 * Z.of_nat i + j /\ 0 <= j < 8 /\ Z.testbit bits j = true.
Proof.
  unfold bits_sectors. rewrite list_elem_of_fmap. split; intros (j & -> & Hj); exists j; (split; [done|]).
  - apply list_elem_of_In, filter_In in Hj as [Hj%list_elem_of_In%elem_of_seqZ ?]. split; [lia|done].
  - apply list_elem_of_In, filter_In. rewrite <-list_elem_of_In, elem_of_seqZ. split; [lia|apply Hj].
Qed.

(** the data of a write *)
Lemma part_transfer v i a c mem : map bv_page (mdblk_bvecs r0) !! i = Some (bv_page v) ->
  0 <= a -> a + c <= 8 -> 8 * Z.of_nat i + a + c <= n -> mem = cw_mem (io_cw w0) ->
  bv_len v = to_bytes c -> bv_offset v = to_bytes a ->
  mem_writes mem (region_transfer (base + (8 * Z.of_nat i + a)) c [v]) = part_writes d set entries (8 * Z.of_nat i + a) c.
Proof.
  intros Ev Ha Hc Hn -> El Eo. unfold region_transfer, part_writes, mem_writes. cbn [bvec_slots flat_map]. rewrite app_nil_r.
  unfold page_slots. rewrite El, Eo, !to_sector_bytes. apply list_eq. intros x. change (map ?f ?y) with (f <$> y).
  rewrite !list_lookup_fmap, lookup_zip_with. destruct (decide (Z.of_nat x < c)) as [Hx|Hx].
  2:{ rewrite !lookup_seqZ_ge by lia. done. }
  rewrite !lookup_seqZ_lt, lookup_take_lt, list_lookup_fmap, lookup_seqZ_lt by lia. cbn. do 2 f_equal.
  replace (Z.to_nat (8 * Z.of_nat i + a + (0 + Z.of_nat x))) with (8 * i + Z.to_nat (a + Z.of_nat x))%nat by lia.
  apply Hmem; [|lia]. unfold page_slot.
  assert (E1 : ((8 * i + Z.to_nat (a + Z.of_nat x)) / 8)%nat = i) by (symmetry; apply (Nat.div_unique _ 8 i (Z.to_nat (a + Z.of_nat x))); lia).
  assert (E2 : ((8 * i + Z.to_nat (a + Z.of_nat x)) mod 8)%nat = Z.to_nat (a + Z.of_nat x)) by (symmetry; apply (Nat.mod_unique _ 8 i (Z.to_nat (a + Z.of_nat x))); lia).
  rewrite E1, E2, Ev. do 2 f_equal. lia.
Qed.

Lemma small_bounds : n <= 16 /\ 0 < n /\ assoc d = 32 * n /\
  INDEX_TO_MD_SECTOR (set_start d set + assoc d) = INDEX_TO_MD_SECTOR (set_start d set) + n.
Proof.
  destruct (md_sizes d (bi_geom d Hinv) Hlay) as (E1 & _ & Ea & Hn). split_and!; [lia|lia|done|].
  unfold INDEX_TO_MD_SECTOR, EIO_DIV, set_start. rewrite E1, Ea.
  replace (set * (32 * n)) with (set * n * 32) by ring. replace (set * n * 32 + 32 * n) with ((set * n + n) * 32) by ring.
  by rewrite !Z.div_mul by lia.
Qed.
(** the request's error remembers the first *)
Definition md_note_error (error : Z) (r : mdupdate_request) : mdupdate_request :=
  if negb (error =? 0) && (md_error r =? 0) then set_md_error error r else r.
Lemma md_note_error_0 error r : md_error (md_note_error error r) = 0 <-> error = 0 /\ md_error r = 0.
Proof.
  unfold md_note_error. destruct (Z.eqb_spec error 0), (Z.eqb_spec (md_error r) 0); cbn; split; try tauto; intros; subst; try done; lia.
Qed.

(** one transfer, and the accounting of it *)
Lemma mdu_running_write w r mv cb done nw i a c sectors w' e r' :
  mdu_running w r mv cb done nw -> 0 <= a -> 8 * Z.of_nat i + a + c <= n ->
  (forall x, x ∈ sectors -> 8 * Z.of_nat i + a <= x < 8 * Z.of_nat i + a + c) ->
  (exists st, cw_d (io_cw w') = set_stats st d) ->
  ssd_write_outcome (part_writes d set entries (8 * Z.of_nat i + a) c)
    (io_cw w) (set_cw_d (io_d w) (io_cw w')) e ->
  w' = set_completions (completions w0 ++ cb ++ (if e.1 =? 0 then [(MdupdateCallback m, e.2)] else []))
         (set_mdreqs (<[m := r']> (mdreqs w0)) (set_io_cw (io_cw w') w0)) ->
  md_set r' = md_set r -> pending_mdlist r' = pending_mdlist r -> inprog_mdlist r' = inprog_mdlist r ->
  map bv_page (mdblk_bvecs r') = map bv_page (mdblk_bvecs r) -> md_holdcount r' = md_holdcount r + 1 ->
  (md_error r' = 0 <-> e.1 = 0 /\ md_error r = 0) ->
  exists mv', mdu_running w' r' mv' (cb ++ (if e.1 =? 0 then [(MdupdateCallback m, e.2)] else [])) (done ++ sectors) (nw + 1).
Proof.
  intros [F D Me Bu Re (tr & Et & Ts) Kq (Q1 & Q2 & Q3 & Q4) Cb Ho [C1 C2] Dn] Ha Hn Hsec Hd' [S1 S2 S3 S4 S5] Ew R1 R2 R3 R4 R5 R6.
  cbn [io_cw set_io_cw cw_d set_cw_d cw_mem clean_dbvecs clean_mdpages cw_results cw_k cw_trace] in S1, S2, S3, S4, S5.
  assert (Hmvs : exists mv', disks_eq (cw_k (io_cw w')) (image mv') /\
    (exists tr', cw_trace (io_cw w') = cw_trace (io_cw w) ++ tr' /\ trace_safe (fun k => exists mv, disks_eq k (image mv)) tr') /\
    (forall x, x ∈ mv -> x ∈ mv') /\
    (e.1 = 0 -> e.2 = 0 -> Forall io_result_ok (cw_results (io_cw w)) -> forall x, x ∈ sectors -> base + x ∈ mv')).
  { destruct S5 as [(He & Ek & Etr)|(He & Etr & r1 & Ek & Hr1)].
    - exists mv. rewrite Ek. split_and!; [done|exists []; rewrite app_nil_r; split; [done|apply trace_safe_nil]|done|intros; lia].
    - exists (mv ∪ moved_part d set r1 (8 * Z.of_nat i + a) c). split_and!.
      + rewrite Ek. apply part_image; [lia|lia|done].
      + eexists; split; [exact Etr|]. intros t moved ->%list_elem_of_singleton. cbn [crash_image].
        eexists. apply part_image; [lia|lia|exact Kq].
      + intros x Hx. apply elem_of_union. by left.
      + intros _ He2 Hok x Hx. apply elem_of_union. right. apply elem_moved_part. specialize (Hsec x Hx).
        rewrite (Hr1 Hok He2). split; [lia|done]. }
  destruct Hmvs as (mv' & Hk & (tr' & Et' & Ts') & Hm1 & Hm2). exists mv'.
  constructor; [exact Ew|exact Hd'|congruence|split; [etransitivity; [apply S3|apply Bu]|etransitivity; [apply S3|apply Bu]]|auto| |exact Hk| | | | |].
  - exists (tr ++ tr'). split; [by rewrite Et', Et, app_assoc|by apply trace_safe_app].
  - rewrite R1, R2, R3, R4. done.
  - apply Forall_app; split; [done|]. destruct (e.1 =? 0); repeat constructor.
  - lia.
  - rewrite length_app. destruct (Z.eqb_spec e.1 0) as [E0|E0]; cbn [length]; lia.
  - intros Hok [E0 Er]%R6 [Hc1 Hc2]%Forall_app j [Hj|Hj]%elem_of_app.
    + apply Hm1. by apply Dn.
    + rewrite E0 in Hc2. cbn in Hc2. apply Forall_inv in Hc2. apply Hm2; [done|exact Hc2|by apply Re|done].
Qed.
Lemma running_lookup w r mv cb done nw : mdu_running w r mv cb done nw -> mdreqs w !! m = Some r.
Proof. intros [F _ _ _ _ _ _ _ _ _ _ _]. rewrite F. apply lookup_insert_eq. Qed.

Lemma async_bvec_run where_ rw bvecs hddio c w e cw' : eio_io_async_bvec where_ rw bvecs hddio (io_cw w) = Some (e, cw') ->
  async_bvec where_ rw bvecs hddio c w =
    Some (e.1, set_completions (completions w ++ (if e.1 =? 0 then [(c, e.2)] else [])) (set_io_cw cw' w)).
Proof.
  intros E. unfold async_bvec, bind at 1, on_cw. rewrite E. destruct (Z.eqb_spec e.1 0) as [E0|E0]; cbn [negb].
  - rewrite bind_modify. rewrite E0. done.
  - rewrite app_nil_r. by destruct w.
Qed.

Lemma md_frame_step (w w2 : io_world) cb r r2 r' c0 c2 c' x :
  w = set_completions (completions w0 ++ cb) (set_mdreqs (<[m := r]> (mdreqs w0)) (set_io_cw c0 w0)) ->
  w2 = set_mdreqs (<[m := r2]> (mdreqs w)) (set_io_cw c2 w) ->
  let w3 := set_completions (completions w2 ++ x) (set_io_cw c' w2) in
  set_mdreqs (<[m := r']> (mdreqs w3)) w3 =
    set_completions (completions w0 ++ cb ++ x) (set_mdreqs (<[m := r']> (mdreqs w0)) (set_io_cw c' w0)).
Proof. intros -> ->. destruct w0. cbn. by rewrite !insert_insert_eq, app_assoc. Qed.

Lemma mdu_write_ok w r mv cb done nw i bits : mdu_running w r mv cb done nw -> 0 <= bits < 256 -> (i < length (mdblk_bvecs r0))%nat ->
  0 <= md_holdcount r < 100 -> (forall j, 0 <= j < 8 -> Z.testbit bits j = true -> 8 * Z.of_nat i + j < n) ->
  exists w' r' mv' cb', mdu_write m (set_start d set) (set_start d set + assoc d) i bits w = Some (tt, w') /\
    mdu_running w' r' mv' (cb ++ cb') (done ++ bits_sectors i bits) (nw + if bits =? 0 then 0 else 1).
Proof.
  intros HR Hb Hi Hh Hn. unfold mdu_write. destruct (Z.eqb_spec bits 0) as [->|Hne].
  { exists w, r, mv, []. split; [done|]. rewrite app_nil_r, Z.add_0_r. unfold bits_sectors. cbn [List.filter seqZ].
    assert (E : List.filter (Z.testbit 0) (seqZ 0 8) = []) by done. rewrite E. cbn [map]. rewrite app_nil_r. exact HR. }
  destruct (span_ok bits ltac:(lia)) as (a & b & Ea & Eb & Hab & Hb7 & Hbb & Hspan). rewrite Ea, Eb.
  rewrite (bind_run _ _ _ _ _ (lift_run _ _)), (bind_run _ _ _ _ _ (lift_run _ _)), bind_assert by (apply Z.leb_le; lia).
  pose proof (running_lookup _ _ _ _ _ _ HR) as Er. pose proof HR as [F (st & Ed) _ _ _ _ _ (Q1 & Q2 & Q3 & Q4) _ _ _ _].
  rewrite bind_gets, Ed. cbn [assoc md_start_sect set_stats]. destruct small_bounds as (N1 & N2 & Nas & Nend).
  specialize (Hn b ltac:(lia) Hbb).
  rewrite bind_assert.
  2:{ destruct (Z.eqb_spec (assoc d) 128); cbn [negb orb]; [|done]. apply Z.leb_le. lia. }
  cbv zeta. cbn [io_sector io_count]. rewrite (bind_run _ _ _ _ _ (upd_mdreq_run _ _ _ _ Er)).
  set (r1 := set_mdblk_bvecs _ r). rewrite bind_assert by (apply Z.leb_le; rewrite Nend; change SECTORS_PER_PAGE with 8; lia).
  match goal with |- context [bind (inc_stat ?f) (fun _ => bind (inc_stat ?g) ?k) ?W] => destruct (inc_stat2_run f g k W) as [st1 ->] end.
  set (w1 := with_stats st1 _). assert (Er1 : mdreqs w1 !! m = Some r1) by apply lookup_insert_eq.
  rewrite (bind_run _ _ _ _ _ (upd_mdreq_run _ _ _ _ Er1)). set (r2 := set_md_holdcount _ r1). set (w2 := set_mdreqs _ w1).
  assert (Er2 : mdreqs w2 !! m = Some r2) by apply lookup_insert_eq.
  assert (Ecw : io_cw w2 = set_cw_d (set_stats st1 d) (io_cw w)) 
    by (transitivity (set_cw_d (set_stats st1 (io_d w)) (io_cw w)); [done|by rewrite Ed]).
  assert (F2 : w2 = set_mdreqs (<[m := r2]> (mdreqs w)) (set_io_cw (io_cw w2) w)).
  { subst w2 w1. unfold with_stats, set_mdreqs, set_io_cw. cbn. f_equal. by rewrite insert_insert_eq. }
  clearbody w2. clear Er1 w1.
  rewrite (bind_run _ _ _ _ _ (the_mdreq_run _ _ _ Er2)).
  assert (Hlen : length (mdblk_bvecs r) = length (mdblk_bvecs r0)) by (rewrite <-(length_map bv_page (mdblk_bvecs r)), Q4; apply length_map).
  destruct (lookup_lt_is_Some_2 (mdblk_bvecs r) i ltac:(lia)) as [v Ev].
  set (v' := mk_bvec (bv_page v) (to_bytes (b - a + 1)) (to_bytes a)).
  assert (Ev2 : mdblk_bvecs r2 !! i = Some v') by (subst r2 r1; cbn [mdblk_bvecs set_md_holdcount set_mdblk_bvecs]; rewrite list_lookup_alter_eq, Ev; done).
  rewrite Ev2, (bind_run _ _ _ _ _ (lift_run _ _)).
  set (sec := md_start_sect d + _ + _ + a).
  assert (Esec : sec = base + (8 * Z.of_nat i + a)) by (subst sec; change SECTORS_PER_PAGE with 8; lia).
  destruct (ssd_write_ok sec (b - a + 1) [v'] (io_cw w2)) as (e & c' & Ew & Ow).
  { cbn [bvecs_fit]. split_and!; [split; cbn; [|exists (b - a + 1)]; unfold to_bytes, SECTOR_SHIFT; rewrite Z.shiftl_mul_pow2 by lia; lia|lia|].
    cbn [bv_len v']. rewrite to_sector_bytes. lia. } { done. }
  rewrite (bind_run _ _ _ _ _ (async_bvec_run _ _ _ _ (MdupdateCallback m) _ _ _ Ew)).
  set (w3 := set_completions _ _). assert (Er3 : mdreqs w3 !! m = Some r2) by exact Er2.
  rewrite (upd_mdreq_run _ _ _ _ Er3). fold (md_note_error e.1 r2).
  rewrite Esec in Ow. rewrite (part_transfer v' i a (b - a + 1) (cw_mem (io_cw w2))) in Ow; [| |lia|lia|lia| |done|done].
  2:{ rewrite <-Q4, list_lookup_fmap, Ev. done. }
  2:{ rewrite Ecw. apply HR. }
  assert (Ed' : exists st', cw_d c' = set_stats st' d).
  { rewrite (sw_d _ _ _ _ Ow), Ecw. by eexists. }
  rewrite Ecw in Ow. apply outcome_set_d in Ow.
  set (w4 := set_mdreqs _ w3). assert (Hcw : io_cw w4 = c') by done.
  destruct (mdu_running_write w r mv cb done nw i a (b - a + 1) (bits_sectors i bits) w4 e (md_note_error e.1 r2) HR)
    as (mv' & HR'); try lia.
  - intros x (j & -> & Hj & Hbit)%elem_bits_sectors. specialize (Hspan j Hj Hbit). lia.
  - by rewrite Hcw.
  - by rewrite Hcw.
  - exact (md_frame_step w w2 cb r r2 _ _ _ c' _ F F2).
  - unfold md_note_error. destruct (_ && _); done.
  - unfold md_note_error. destruct (_ && _); done.
  - unfold md_note_error. destruct (_ && _); done.
  - assert (Eb2 : map bv_page (mdblk_bvecs r2) = map bv_page (mdblk_bvecs r)).
    { subst r2 r1. cbn [mdblk_bvecs set_md_holdcount set_mdblk_bvecs]. apply list_eq. intros x. change (map ?f ?y) with (f <$> y).
      rewrite !list_lookup_fmap. destruct (decide (x = i)) as [->|Hx]; [by rewrite list_lookup_alter_eq, Ev|by rewrite list_lookup_alter_ne by done]. }
    unfold md_note_error. destruct (_ && _); done.
  - assert (Eh : md_holdcount r2 = md_holdcount r + 1) by (subst r2 r1; cbn; unfold atomic_inc; apply i32_small; lia).
    unfold md_note_error. destruct (_ && _); done.
  - rewrite md_note_error_0. done.
  - eexists w4, _, mv', _. split; [done|exact HR'].
Qed.
(** all pages, from page [i] on *)
Fixpoint all_sectors (i : nat) (sector_bits : list Z) : list Z :=
  match sector_bits with [] => [] | bits :: l => bits_sectors i bits ++ all_sectors (S i) l end.
Fixpoint nr_writes (sector_bits : list Z) : Z :=
  match sector_bits with [] => 0 | bits :: l => (if bits =? 0 then 0 else 1) + nr_writes l end.
Lemma nr_writes_bound l : 0 <= nr_writes l <= Z.of_nat (length l).
Proof. induction l as [|b l IH]; cbn; [lia|]. destruct (b =? 0); lia. Qed.

Lemma mdu_writes_ok : forall l i w r mv cb done nw, mdu_running w r mv cb done nw -> Forall (fun bits => 0 <= bits < 256) l ->
  (i + length l <= length (mdblk_bvecs r0))%nat -> 0 <= md_holdcount r -> md_holdcount r + Z.of_nat (length l) < 100 ->
  (forall x, x ∈ all_sectors i l -> x < n) ->
  exists w' r' mv' cb', mdu_writes m (set_start d set) (set_start d set + assoc d) i l w = Some (tt, w') /\
    mdu_running w' r' mv' (cb ++ cb') (done ++ all_sectors i l) (nw + nr_writes l).
Proof.
  induction l as [|bits l IH]; intros i w r mv cb done nw HR Hb Hi Hh Hh' Hn; cbn [mdu_writes all_sectors nr_writes].
  { exists w, r, mv, []. rewrite !app_nil_r, Z.add_0_r. done. }
  apply Forall_cons in Hb as [Hb1 Hb]. cbn [length] in Hi, Hh'.
  destruct (mdu_write_ok w r mv cb done nw i bits HR Hb1 ltac:(lia) ltac:(lia)) as (w1 & r1 & mv1 & cb1 & E1 & HR1).
  { intros j Hj Hbit. apply Hn. cbn [all_sectors]. apply elem_of_app. left. apply elem_bits_sectors. by exists j. }
  rewrite (bind_run _ _ _ _ _ E1). pose proof (mr_hold _ _ _ _ _ _ HR) as H1. pose proof (mr_hold _ _ _ _ _ _ HR1) as H2.
  destruct (IH (S i) w1 r1 mv1 (cb ++ cb1) _ _ HR1 Hb ltac:(lia)) as (w' & r' & mv' & cb' & E' & HR').
  - destruct (bits =? 0); lia.
  - destruct (bits =? 0); lia.
  - intros x Hx. apply Hn. cbn [all_sectors]. apply elem_of_app. by right.
  - exists w', r', mv', (cb1 ++ cb'). split; [exact E'|]. rewrite !app_assoc, Z.add_assoc. exact HR'.
Qed.
End update.
