(* ===== verification/MdDo.v ===== *)
(** * [eio_do_mdupdate]

    The metadata a set update prepares, and what its writes leave on the SSD. *)

From S2P Require Import Prelude Types Mem DList Scan Policy Thresh Lookup World Dispatch Disk Clean CleanIo CleanState CleanSet WbAlloc IoWorld MdUpdate MdWrite.

(** ** The entries *)
Lemma mdu_state_clean s : mdu_state s = clean_md_state s.
Proof.
  unfold mdu_state, clean_md_state. destruct (Z.eqb_spec s CLEAN_INPROG) as [->|]; [done|]. done.
Qed.
Lemma mdu_entries_clean d l : mdu_entries d l = md_entries d l.
Proof. induction l as [|i l IH]; cbn; [done|]. by rewrite IH, mdu_state_clean. Qed.

Lemma mark_bits p b j x : 0 <= b < 256 -> 0 <= j < 8 ->
  0 <= u8 (Z.lor b (Z.shiftl 1 j)) < 256 /\
  (x ∈ bits_sectors p (u8 (Z.lor b (Z.shiftl 1 j))) <-> x ∈ bits_sectors p b \/ x = 8 * Z.of_nat p + j).
Proof.
  intros Hb Hj. split; [unfold u8; apply Z.mod_pos_bound; lia|]. rewrite !elem_bits_sectors.
  assert (Ht : forall k, 0 <= k < 8 -> Z.testbit (u8 (Z.lor b (Z.shiftl 1 j))) k = Z.testbit b k || (k =? j)).
  { intros k Hk. unfold u8. rewrite Z.mod_pow2_bits_low, Z.lor_spec, Z.shiftl_spec by lia. f_equal.
    destruct (Z.eqb_spec k j) as [->|Hne]; [by rewrite Z.sub_diag|].
    destruct (Z.ltb_spec (k - j) 0); [by apply Z.testbit_neg_r|]. apply Z.bits_above_log2; [lia|]. change (Z.log2 1) with 0. lia. }
  split.
  - intros (k & -> & Hk & Hbit). rewrite Ht in Hbit by done. apply orb_true_iff in Hbit as [?|E%Z.eqb_eq]; [left; by exists k|right; lia].
  - intros [(k & -> & Hk & Hbit)| ->]; [exists k|exists j]; (split_and!; [done|lia|lia|]); rewrite Ht by lia.
    + by rewrite Hbit.
    + by rewrite Z.eqb_refl, orb_true_r.
Qed.

(** the sector of the set's metadata that holds the entry of block [i] *)
Definition rel_sector (start i : Z) : Z := (i - start) / 32.

Lemma md_index_pages x : 0 <= x < 512 ->
  INDEX_TO_MD_PAGE x * MD_BLOCKS_PER_PAGE + INDEX_TO_MD_PAGE_OFFSET x = x /\
  0 <= INDEX_TO_MD_PAGE x < 2 /\ 0 <= INDEX_TO_MD_SECTOR (INDEX_TO_MD_PAGE_OFFSET x) < 8 /\
  8 * INDEX_TO_MD_PAGE x + INDEX_TO_MD_SECTOR (INDEX_TO_MD_PAGE_OFFSET x) = x / 32.
Proof.
  intros Hx. unfold INDEX_TO_MD_PAGE, INDEX_TO_MD_PAGE_OFFSET, INDEX_TO_MD_SECTOR, EIO_DIV.
  change MD_BLOCKS_PER_PAGE with 256. change MD_BLOCKS_PER_SECTOR with 32.
  pose proof (Z.div_mod x 256 ltac:(lia)). pose proof (Z.mod_pos_bound x 256 ltac:(lia)). split_and!.
  - lia. - apply Z.div_pos; lia. - apply Z.div_lt_upper_bound; lia. - apply Z.div_pos; lia. - apply Z.div_lt_upper_bound; lia.
  - replace (x / 32) with ((x mod 256 + 8 * (x / 256) * 32) / 32) by (f_equal; lia). rewrite Z.div_add by lia. lia.
Qed.

Section mark.
Context (d : cache_c) (ix : Z -> option Z) (start : Z).

Lemma mdu_mark_ok : forall pend idx entries b0 b1,
  length pend = length idx -> (forall k e, pend !! k = Some e -> ix e = idx !! k) ->
  (forall i, i ∈ idx -> EIO_CACHE_STATE_GET d i = DIRTY_INPROG /\ 0 <= i - start < Z.of_nat (length entries)) ->
  Z.of_nat (length entries) <= 512 -> 0 <= b0 < 256 -> 0 <= b1 < 256 ->
  exists entries' c0 c1, mdu_mark d ix start pend entries [b0; b1] = Some (entries', [c0; c1]) /\
    length entries' = length entries /\ 0 <= c0 < 256 /\ 0 <= c1 < 256 /\
    (forall x f, 0 <= x -> entries !! Z.to_nat x = Some f ->
      entries' !! Z.to_nat x = Some (if bool_decide (x + start ∈ idx) then mk_flash (fc_dbn f) (Z.lor VALID DIRTY) else f)) /\
    (forall x, x ∈ all_sectors 0 [c0; c1] <-> x ∈ all_sectors 0 [b0; b1] \/ exists i, i ∈ idx /\ x = rel_sector start i).
Proof.
  induction pend as [|e pend IH]; intros idx entries b0 b1 Hl Hix Hidx H512 H0 H1; destruct idx as [|i idx]; try discriminate; cbn [mdu_mark].
  { exists entries, b0, b1. split_and!; try done; try lia.
    intros x. split; [by left|]. intros [?|(i & ?%not_elem_of_nil & _)]; done. }
  rewrite (Hix 0%nat e eq_refl). cbn [lookup list_lookup]. destruct (Hidx i) as [Hst Hr]; [apply elem_of_cons; by left|].
  rewrite Hst, Z.eqb_refl. cbn [negb]. destruct (md_index_pages (i - start) ltac:(lia)) as (P1 & P2 & P3 & P4).
  set (p := INDEX_TO_MD_PAGE (i - start)) in *. set (j := INDEX_TO_MD_SECTOR (INDEX_TO_MD_PAGE_OFFSET (i - start))) in *.
  rewrite P1. destruct (lookup_lt_is_Some_2 entries (Z.to_nat (i - start)) ltac:(lia)) as [f Ef]. rewrite Ef.
  assert (Hstep : exists c0 c1, <[Z.to_nat p := u8 (Z.lor (if p =? 0 then b0 else b1) (Z.shiftl 1 j))]> [b0; b1] = [c0; c1] /\
    [b0; b1] !! Z.to_nat p = Some (if p =? 0 then b0 else b1) /\ 0 <= c0 < 256 /\ 0 <= c1 < 256 /\
    (forall x, x ∈ all_sectors 0 [c0; c1] <-> x ∈ all_sectors 0 [b0; b1] \/ x = rel_sector start i)).
  { unfold rel_sector. rewrite <-P4. cbn [all_sectors]. setoid_rewrite app_nil_r. setoid_rewrite elem_of_app.
    assert (p = 0 \/ p = 1) as [->| ->] by lia; cbn [Z.eqb].
    - destruct (mark_bits 0 b0 j 0 H0 P3) as [M1 _]. eexists _, _. split_and!; [done|done|apply M1|apply M1|lia|lia|].
      intros x. rewrite (proj2 (mark_bits 0 b0 j x H0 P3)). clear. intuition lia.
    - destruct (mark_bits 1 b1 j 0 H1 P3) as [M1 _]. eexists _, _. split_and!; [done|done|lia|lia|apply M1|apply M1|].
      intros x. rewrite (proj2 (mark_bits 1 b1 j x H1 P3)). clear. intuition lia. }
  destruct Hstep as (c0 & c1 & S1 & S2 & C0 & C1 & Hsec). rewrite S2. cbv zeta. rewrite S1.
  destruct (IH idx (<[Z.to_nat (i - start) := mk_flash (fc_dbn f) (Z.lor VALID DIRTY)]> entries) c0 c1) as (entries' & e0 & e1 & E & Hl' & E0 & E1 & He & Hs).
  - by injection Hl. - intros k e' Hk. exact (Hix (S k) e' Hk).
  - intros i' Hi'. rewrite length_insert. apply Hidx, elem_of_cons. by right.
  - by rewrite length_insert. - done. - done.
  - exists entries', e0, e1. split; [done|]. rewrite length_insert in Hl'. split_and!; try done; try lia.
    + intros x g Hx Eg. destruct (decide (x = i - start)) as [->|Hne].
      * rewrite Ef in Eg. injection Eg as <-. rewrite (He (i - start) (mk_flash (fc_dbn f) (Z.lor VALID DIRTY)) Hx)
          by (apply list_lookup_insert_eq; lia). replace (i - start + start) with i by lia.
        rewrite (bool_decide_true (i ∈ i :: idx)) by (apply elem_of_cons; by left). by destruct (bool_decide _).
      * rewrite (He x g Hx) by (rewrite list_lookup_insert_ne by lia; done).
        rewrite (bool_decide_ext (x + start ∈ i :: idx) (x + start ∈ idx)); [done|]. rewrite elem_of_cons. split; [intros [?|?]; [lia|done]|by right].
    + intros x. rewrite Hs, Hsec. setoid_rewrite elem_of_cons. clear. firstorder congruence.
Qed.
End mark.

(** ** The update *)

(** what an update needs: its request with the pending splits of its set, all
    of whose blocks are being dirtied, and metadata on the SSD that is sound for
    the committed blocks *)
Record mdu_ready (w : io_world) (m : Z) (r : mdupdate_request) (idx : list Z) : Prop := {
  mq_req : mdreqs w !! m = Some r;
  mq_blk : blk_inv (io_d w);
  mq_lay : md_layout (io_d w);
  mq_set : 0 <= md_set r < num_sets (io_d w);
  mq_pages : pages_ok (io_d w) (map bv_page (mdblk_bvecs r));
  mq_read : forall i, i ∈ set_blocks (io_d w) (md_set r) -> is_Some (EIO_DBN_GET (io_d w) i);
  mq_pend : length (pending_mdlist r) = length idx /\ forall k e, pending_mdlist r !! k = Some e -> index_of w e = idx !! k;
  mq_state : forall i, i ∈ idx -> i ∈ set_blocks (io_d w) (md_set r) /\ EIO_CACHE_STATE_GET (io_d w) i = DIRTY_INPROG;
  mq_sound : forall s, 0 <= s < num_sets (io_d w) -> sound_for (committed (io_d w)) (io_d w) (cw_k (io_cw w)) s;
  mq_results : Forall io_result_ok (cw_results (io_cw w))
}.

(** recovery from [k] finds the blocks [q] of the update dirty with their new
    data, and the others as before *)
Definition recovers_with (d : cache_c) (k0 : disks) (q : list Z) (k : disks) : Prop :=
  forall s, 0 <= s -> recovered d k s = contents (committed_with d q) d k0 s.

Record mdu_outcome (w : io_world) (m : Z) (r : mdupdate_request) (idx : list Z) (w' : io_world)
    (r' : mdupdate_request) (cb : list (callback * Z)) (q : list Z) : Prop := {
  mo_frame : w' = set_md_queue (md_queue w ++ if md_holdcount r' =? 0 then [PostMdupdate m] else [])
                   (set_completions (completions w ++ cb) (set_mdreqs (<[m := r']> (mdreqs w)) (set_io_cw (io_cw w') w)));
  mo_stats : exists st, io_d w' = set_stats st (io_d w);
  mo_req : md_set r' = md_set r /\ pending_mdlist r' = [] /\ inprog_mdlist r' = pending_mdlist r /\
    map bv_page (mdblk_bvecs r') = map bv_page (mdblk_bvecs r);
  mo_bufs : clean_dbvecs (io_cw w') = clean_dbvecs (io_cw w) /\ clean_mdpages (io_cw w') = clean_mdpages (io_cw w);
  mo_results : Forall io_result_ok (cw_results (io_cw w'));
  (* what recovery would find, during the writes and after them *)
  mo_trace : exists tr, cw_trace (io_cw w') = cw_trace (io_cw w) ++ tr /\
    trace_safe (fun k => exists q, (forall i, i ∈ q -> i ∈ idx) /\ recovers_with (io_d w) (cw_k (io_cw w)) q k) tr;
  mo_sub : forall i, i ∈ q -> i ∈ idx;
  mo_recovers : recovers_with (io_d w) (cw_k (io_cw w)) q (cw_k (io_cw w'));
  mo_sound : forall s, 0 <= s < num_sets (io_d w) -> sound_for (committed_with (io_d w) q) (io_d w) (cw_k (io_cw w')) s;
  mo_contents : forall p s, 0 <= s -> contents p (io_d w) (cw_k (io_cw w')) s = contents p (io_d w) (cw_k (io_cw w)) s;
  mo_success : md_error r' = 0 -> Forall (fun c => c.2 = 0) cb -> forall i, i ∈ idx -> i ∈ q;
  (* the callbacks to come *)
  mo_callbacks : Forall (fun c => c.1 = MdupdateCallback m) cb;
  mo_holds : Z.of_nat (length cb) <= md_holdcount r' <= 2 /\ (md_error r' = 0 -> md_holdcount r' = Z.of_nat (length cb))
}.

Lemma mdreq_put_run m w r : mdreqs w !! m = Some r ->
  mdreq_put m w = Some (tt, set_md_queue (md_queue w ++ if atomic_dec (md_holdcount r) =? 0 then [PostMdupdate m] else [])
                              (set_mdreqs (<[m := set_md_holdcount (atomic_dec (md_holdcount r)) r]> (mdreqs w)) w)).
Proof.
  intros E. unfold mdreq_put. rewrite (bind_run _ _ _ _ _ (the_mdreq_run _ _ _ E)), (bind_run _ _ _ _ _ (upd_mdreq_run _ _ _ _ E)).
  destruct (_ =? 0); cbn [when]; [done|]. rewrite app_nil_r. by destruct w.
Qed.

Lemma do_frame (w w2 : io_world) c1 r0 r1 r2 cb m q :
  w2 = set_completions (completions (set_mdreqs (<[m := r0]> (mdreqs w)) (set_io_cw c1 w)) ++ cb)
         (set_mdreqs (<[m := r1]> (mdreqs (set_mdreqs (<[m := r0]> (mdreqs w)) (set_io_cw c1 w))))
           (set_io_cw (io_cw w2) (set_mdreqs (<[m := r0]> (mdreqs w)) (set_io_cw c1 w)))) ->
  set_md_queue (md_queue w2 ++ q) (set_mdreqs (<[m := r2]> (mdreqs w2)) w2) =
  set_md_queue (md_queue w ++ q) (set_completions (completions w ++ cb) (set_mdreqs (<[m := r2]> (mdreqs w)) (set_io_cw (io_cw w2) w))).
Proof.
  generalize (io_cw w2). intros c2 ->.
  replace (<[m := r2]> (mdreqs w)) with (<[m := r2]> (<[m := r1]> (<[m := r0]> (mdreqs w)))) by by rewrite !insert_insert_eq.
  reflexivity.
Qed.

Section do_update.
Context (w : io_world) (m : Z) (r : mdupdate_request) (idx : list Z) (Hq : mdu_ready w m r idx).
Abbreviation d := (io_d w).
Abbreviation set := (md_set r).
Abbreviation n := (md_set_sectors d).

#[local] Lemma do_geom : wf_geom d. Proof. apply Hq. Qed.

(** one page, or two for 512 blocks *)
Lemma do_pages : let count := length (mdblk_bvecs r) in
  (1 <= count <= 2)%nat /\ (assoc d = 512 \/ count = 1%nat) /\ n <= 8 * Z.of_nat count /\ (count = 1%nat -> n <= 8).
Proof.
  destruct Hq as [_ B L _ P _ _ _ _ _]. destruct (md_sizes d (bi_geom _ B) L) as (E1 & E2 & Ea & Hn).
  pose proof (md_pages_len d (bi_geom _ B) L _ P) as Hl. rewrite length_map in Hl. cbv zeta. rewrite <-Nat2Z.inj_iff.
  pose proof (Z.div_mod (n + 7) 8 ltac:(lia)). pose proof (Z.mod_pos_bound (n + 7) 8 ltac:(lia)).
  assert (assoc d = 512 \/ n <= 8); [|lia]. destruct (Z.le_gt_cases n 8); [by right|left].
  pose proof (geo_assoc _ (bi_geom _ B)) as Eg. pose proof (geo_cs _ (bi_geom _ B)) as Hc. rewrite Eg.
  assert (8 < consecutive_shift d < 10) as Hr.
  { split; apply (Z.pow_lt_mono_r_iff 2); rewrite ?Eg in *; try lia; change (2 ^ 8) with 256; change (2 ^ 10) with 1024; lia. }
  by replace (consecutive_shift d) with 9 by lia.
Qed.

Lemma do_mark : exists entries c0 c1 l,
  mdu_entries d (set_blocks d set) = Some l /\ length l = Z.to_nat (assoc d) /\
  mdu_mark d (index_of w) (set_start d set) (pending_mdlist r) l [0; 0] = Some (entries, [c0; c1]) /\
  length entries = Z.to_nat (assoc d) /\ 0 <= c0 < 256 /\ 0 <= c1 < 256 /\
  (forall i, i ∈ set_blocks d set -> exists b, EIO_DBN_GET d i = Some b /\
     entries !! Z.to_nat (i - set_start d set) = Some (mk_flash b (if committed_with d idx i then Z.lor VALID DIRTY else INVALID))) /\
  (forall x, x ∈ all_sectors 0 [c0; c1] <-> exists i, i ∈ idx /\ x = rel_sector (set_start d set) i).
Proof.
  pose proof Hq as [_ B L Hs _ Hr [Hp1 Hp2] Hst _ _]. pose proof (bi_geom _ B) as Hg. pose proof (assoc_pos _ Hg) as Hap.
  destruct (md_entries_ok d (set_blocks d set) Hr) as (l & El & Hl & Hn). unfold set_blocks in Hl. rewrite length_seqZ in Hl.
  destruct (md_sizes d Hg L) as (_ & _ & Ea & Hsz).
  destruct (mdu_mark_ok d (index_of w) (set_start d set) (pending_mdlist r) idx l 0 0 Hp1 Hp2) as (entries & c0 & c1 & E & Hl' & H0 & H1 & He & Hsec); try lia.
  { intros i Hi. destruct (Hst i Hi) as [Hin Hd]. split; [done|]. apply elem_of_seqZ in Hin. fold (set_start d set) in Hin. lia. }
  exists entries, c0, c1, l. rewrite mdu_entries_clean. split_and!; try done; try lia.
  - intros i Hi. pose proof Hi as Hi'. apply elem_of_seqZ in Hi'. fold (set_start d set) in Hi'.
    destruct (Hn (Z.to_nat (i - set_start d set)) i) as (b & Eb & Ee).
    { unfold set_blocks. rewrite lookup_seqZ_lt by lia. f_equal. lia. }
    exists b. split; [done|]. rewrite (He (i - set_start d set) _ ltac:(lia) Ee). replace (i - set_start d set + set_start d set) with i by lia.
    unfold committed_with, committed. cbn [fc_dbn]. rewrite <-mdu_state_clean. unfold mdu_state.
    destruct (bool_decide (i ∈ idx)); [by rewrite orb_true_r|]. rewrite orb_false_r. by destruct (_ =? ALREADY_DIRTY).
  - intros x. rewrite Hsec. split; [|by right]. intros [Hx|?]; [|done]. cbn in Hx. by apply not_elem_of_nil in Hx.
Qed.
Lemma image_empty entries : disks_eq (cw_k (io_cw w)) (md_image d set entries (cw_k (io_cw w)) ∅).
Proof. split; [|done]. intros s. rewrite image_lookup, bool_decide_false by apply not_elem_of_empty. by rewrite andb_false_r. Qed.

(** the state in which the writes start *)
Definition mdu_start (mem : memory) : io_world :=
  set_mdreqs (<[m := set_md_holdcount 1 (set_md_lists [] (pending_mdlist r) (set_md_error 0 r))]> (mdreqs w))
    (set_io_cw (set_cw_mem mem (io_cw w)) w).

Lemma do_prepare entries c0 c1 l : mdu_entries d (set_blocks d set) = Some l -> length l = Z.to_nat (assoc d) ->
  mdu_mark d (index_of w) (set_start d set) (pending_mdlist r) l [0; 0] = Some (entries, [c0; c1]) -> length entries = Z.to_nat (assoc d) ->
  exists mem, eio_do_mdupdate m w =
      bind (mdu_writes m (set_start d set) (set_start d set + assoc d) 0 (take (length (mdblk_bvecs r)) [c0; c1])) (fun _ => mdreq_put m) (mdu_start mem) /\
    forall j sl, page_slot (map bv_page (mdblk_bvecs r)) j = Some sl -> (j < Z.to_nat n)%nat -> mem !!! sl = md_sector entries j.
Proof.
  intros El Hl Em He. pose proof Hq as [Er B L Hs P Hr Hp Hst Hso Hres]. destruct do_pages as (Hc1 & Hc2 & _).
  destruct (md_sizes d (bi_geom _ B) L) as (_ & _ & Ea & Hsz).
  unfold eio_do_mdupdate. rewrite (bind_run _ _ _ _ _ (upd_mdreq_run _ _ _ _ Er)).
  set (w1 := set_mdreqs _ w). set (r1 := set_md_error 0 r).
  assert (Er1 : mdreqs w1 !! m = Some r1) by apply lookup_insert_eq. rewrite (bind_run _ _ _ _ _ (the_mdreq_run _ _ _ Er1)).
  rewrite bind_gets. cbv zeta. change (io_d w1) with d. change (mdblk_bvecs r1) with (mdblk_bvecs r). change (md_set r1) with set.
  change (pending_mdlist r1) with (pending_mdlist r). fold (set_start d set). fold (set_blocks d set).
  rewrite bind_assert by (rewrite andb_true_iff, !Nat.leb_le; lia).
  rewrite bind_assert by (rewrite orb_true_iff, Z.eqb_eq, Nat.eqb_eq; done).
  rewrite (bind_eval (fun w => mdu_entries (io_d w) (set_blocks d set)) _ w1 l El).
  rewrite (bind_eval (fun w => mdu_mark (io_d w) (index_of w) (set_start d set) (pending_mdlist r) l [0; 0]) _ w1 _ Em). cbn [fst snd].
  assert (Hsec : ((length l + 31) / 32)%nat = Z.to_nat n).
  { rewrite Hl, Ea. replace (Z.to_nat (32 * n) + 31)%nat with (31 + Z.to_nat n * 32)%nat by lia. by rewrite Nat.div_add by lia. }
  rewrite Hsec.
  destruct (fill_md_pages_ok (map bv_page (mdblk_bvecs r)) entries (proj1 P) (seq 0 (Z.to_nat n)) (cw_mem (io_cw w))) as (mem & Efill & Hmem);
    [apply NoDup_seq|intros j Hj%elem_of_seq; apply (md_page_slot d (bi_geom _ B) L _ P); lia|].
  rewrite (bind_eval (fun w => fill_md_pages (map bv_page (mdblk_bvecs r)) entries (seq 0 (Z.to_nat n)) (cw_mem (io_cw w))) _ w1 mem Efill), bind_modify.
  exists mem. split.
  - set (w2 := set_io_cw _ w1). assert (Er2 : mdreqs w2 !! m = Some r1) by apply lookup_insert_eq.
    rewrite (bind_run _ _ _ _ _ (upd_mdreq_run _ _ _ _ Er2)). f_equal. subst w2 w1. unfold mdu_start, set_mdreqs, set_io_cw. cbn. f_equal.
    by rewrite insert_insert_eq.
  - intros j sl Esl Hj. rewrite (Hmem j sl Esl). by rewrite decide_True by (apply elem_of_seq; lia).
Qed.

Lemma eio_do_mdupdate_ok : exists w' r' cb q, eio_do_mdupdate m w = Some (tt, w') /\ mdu_outcome w m r idx w' r' cb q.
Proof.
  pose proof Hq as [Er B L Hs P Hr Hp Hst Hso Hres]. destruct do_pages as (Hc1 & Hc2 & Hc3 & Hc4).
  destruct do_mark as (entries & c0 & c1 & l & El & Hl & Em & He & B0 & B1 & Hent & Hsec).
  destruct (do_prepare entries c0 c1 l El Hl Em He) as (mem & E & Hmem). set (ws := mdu_start mem) in *.
  set (rs := set_md_holdcount 1 (set_md_lists [] (pending_mdlist r) (set_md_error 0 r))).
  assert (Ers : mdreqs ws !! m = Some rs) by apply lookup_insert_eq.
  assert (Hrel : forall i, i ∈ idx -> 0 <= rel_sector (set_start d set) i < n /\ entry_sector d i = md_start_sect d + INDEX_TO_MD_SECTOR (set_start d set) + rel_sector (set_start d set) i).
  { intros i Hi. destruct (md_index d (bi_geom _ B) L set i (proj1 (Hst i Hi))) as (M1 & M2 & _). unfold rel_sector, entry_sector. lia. }
  assert (Hrun : mdu_running d set entries (cw_k (io_cw w)) m ws rs ws rs ∅ [] [] 0).
  { constructor; try done.
    - cbn [completions ws mdu_start set_mdreqs set_io_cw]. rewrite app_nil_r. unfold ws, mdu_start, set_mdreqs, set_io_cw, set_completions. cbn.
      f_equal. by rewrite insert_insert_eq.
    - exists (stats d). unfold ws, io_d. cbn. by destruct (cw_d (io_cw w)).
    - exists []. split; [by rewrite app_nil_r|apply trace_safe_nil].
    - apply image_empty.
    - by intros _ _ _ j ?%not_elem_of_nil. }
  assert (Htake : forall i, i ∈ idx -> rel_sector (set_start d set) i ∈ all_sectors 0 (take (length (mdblk_bvecs r)) [c0; c1])).
  { intros i Hi. assert (Hin : rel_sector (set_start d set) i ∈ all_sectors 0 [c0; c1]) by (apply Hsec; by exists i).
    assert (length (mdblk_bvecs r) = 1%nat \/ length (mdblk_bvecs r) = 2%nat) as [E1|E2] by lia; [|by rewrite E2].
    rewrite E1. cbn [take all_sectors] in Hin |- *. rewrite app_nil_r in Hin |- *. apply elem_of_app in Hin as [?|(j & Ej & Hj & _)%elem_bits_sectors]; [done|].
    destruct (Hrel i Hi) as [? _]. specialize (Hc4 E1). lia. }
  assert (Hsub : forall x, x ∈ all_sectors 0 (take (length (mdblk_bvecs r)) [c0; c1]) -> x ∈ all_sectors 0 [c0; c1]).
  { intros x. assert (length (mdblk_bvecs r) = 1%nat \/ length (mdblk_bvecs r) = 2%nat) as [E1|E2] by lia; [rewrite E1|by rewrite E2].
    cbn [take all_sectors]. rewrite !elem_of_app. tauto. }
  assert (Hd0 : exists st, io_d ws = set_stats st d) by apply Hrun.
  destruct (mdu_writes_ok d B L set Hs entries (cw_k (io_cw w)) m ws rs Hd0 Hmem (take (length (mdblk_bvecs r)) [c0; c1]) 0 ws rs ∅ [] [] 0 Hrun)
    as (w2 & r2 & mv & cb & E2 & HR).
  - destruct (length (mdblk_bvecs r)) as [|[|[|?]]]; repeat constructor; lia.
  - rewrite length_take. cbn [mdblk_bvecs rs set_md_holdcount set_md_lists set_md_error]. lia.
  - done.
  - rewrite length_take. cbn. lia.
  - intros x (i & Hi & ->)%Hsub%Hsec. destruct (Hrel i Hi). lia.
  - rewrite E, (bind_run _ _ _ _ _ E2).
    pose proof (running_lookup _ _ _ _ _ _ _ _ _ _ _ _ _ HR) as Er2. rewrite (mdreq_put_run _ _ _ Er2).
    pose proof (nr_writes_bound (take (length (mdblk_bvecs r)) [c0; c1])) as Hnw. rewrite length_take in Hnw. cbn [length] in Hnw.
    destruct HR as [F Hd Hme Hbu Hre (tr & Et & Hts) Hk (R1 & R2 & R3 & R4) Hcb Hho [Hco1 Hco2] Hdn].
    change (md_holdcount rs) with 1 in Hho. cbn [app] in F, Hcb, Hco1, Hco2, Hdn. rewrite Z.add_0_l in Hho, Hco1, Hco2.
    assert (Eh : atomic_dec (md_holdcount r2) = md_holdcount r2 - 1) by (unfold atomic_dec; apply i32_small; lia).
    rewrite Eh. eexists _, (set_md_holdcount (md_holdcount r2 - 1) r2), cb, (written d idx mv). split; [reflexivity|].
    assert (Hpend : forall i, i ∈ idx -> i ∈ set_blocks d set /\ EIO_CACHE_STATE_GET d i = DIRTY_INPROG) by exact Hst.
    assert (Hq' : forall mv k, disks_eq k (md_image d set entries (cw_k (io_cw w)) mv) ->
       (forall i, i ∈ written d idx mv -> i ∈ idx) /\ recovers_with d (cw_k (io_cw w)) (written d idx mv) k).
    { intros mv' k Hk'. split; [intros i; rewrite elem_written; tauto|]. intros s Hs'. rewrite Hk'.
      by apply (image_recovered d B L set Hs idx Hpend entries He Hent _ Hso). }
    constructor; cbn [set_md_holdcount md_holdcount md_set pending_mdlist inprog_mdlist mdblk_bvecs md_error].
    + exact (do_frame w w2 _ _ _ _ cb m _ F).
    + exact Hd.
    + rewrite R1, R2, R3, R4. done.
    + exact Hbu.
    + by apply Hre.
    + exists tr. split; [exact Et|]. eapply trace_safe_mono; [|exact Hts]. intros k [mv' Hk']. exists (written d idx mv'). by apply Hq'.
    + apply (Hq' mv _ Hk).
    + apply (Hq' mv _ Hk).
    + intros s Hs'. change (sound_for (committed_with d (written d idx mv)) d (cw_k (io_cw w2)) s). rewrite Hk.
      by apply (image_sound d B L set Hs idx Hpend entries He Hent _ Hso).
    + intros p s Hs'. change (contents p d (cw_k (io_cw w2)) s = contents p d (cw_k (io_cw w)) s). rewrite Hk.
      by apply (image_contents d B L set Hs).
    + intros Ee Hcb0 i Hi. apply elem_written. split; [done|]. rewrite (proj2 (Hrel i Hi)).
      apply Hdn; [exact Hres|exact Ee|exact Hcb0|by apply Htake].
    + exact Hcb.
    + split; [lia|]. intros Ee. specialize (Hco2 Ee). lia.
Qed.
End do_update.
