(* ===== verification/Refs.v ===== *)
(** * References between the objects of the I/O path

    Every split of a bio holds its container, which frees itself, and ends the
    bio, with its last hold.  The container of a write-back bio holds the locks
    of the sets of its span and owns the update requests it did not hand out. *)

From S2P Require Import Prelude Types Mem Scan Thresh Lookup SetSeq World Dispatch Disk Clean WbAlloc IoWorld.

(** ** Sums over a map *)
Definition msum {A} (f : A -> Z) (m : gmap Z A) : Z := map_fold (fun _ x acc => f x + acc) 0 m.

Section msum.
Context {A : Type} (f : A -> Z).
Implicit Types m : gmap Z A.

Lemma msum_empty : msum f ∅ = 0.
Proof. apply map_fold_empty. Qed.
Lemma msum_insert m k x : m !! k = None -> msum f (<[k := x]> m) = f x + msum f m.
Proof. intros H. unfold msum. rewrite map_fold_insert_L; [done|intros; lia|done]. Qed.
Lemma msum_delete m k x : m !! k = Some x -> msum f (delete k m) = msum f m - f x.
Proof.
  intros H. rewrite <-(insert_delete_id m k x H) at 2. rewrite msum_insert by apply lookup_delete_eq. lia.
Qed.
Lemma msum_update m k x y : m !! k = Some x -> msum f (<[k := y]> m) = msum f m - f x + f y.
Proof.
  intros H. rewrite <-insert_delete_eq, msum_insert, (msum_delete _ _ x H) by apply lookup_delete_eq. lia.
Qed.
Lemma msum_same m k x y : m !! k = Some x -> f y = f x -> msum f (<[k := y]> m) = msum f m.
Proof. intros H E. rewrite (msum_update _ _ x) by done. lia. Qed.
Lemma msum_nonneg m : (forall k x, m !! k = Some x -> 0 <= f x) -> 0 <= msum f m.
Proof.
  induction m as [|k x m Hk IH] using map_ind; intros Hf; [by rewrite msum_empty|]. rewrite msum_insert by done.
  specialize (Hf k x) as Hx. rewrite lookup_insert_eq in Hx. specialize (Hx eq_refl).
  assert (0 <= msum f m); [|lia]. apply IH. intros j y Hj. apply (Hf j). rewrite lookup_insert_ne; [done|by intros ->; rewrite Hk in Hj].
Qed.
Lemma msum_ge m k x : (forall k x, m !! k = Some x -> 0 <= f x) -> m !! k = Some x -> f x <= msum f m.
Proof.
  intros Hf H. assert (0 <= msum f (delete k m)) as Hd.
  { apply msum_nonneg. intros j y [_ Hj]%lookup_delete_Some. by apply (Hf j). }
  rewrite (msum_delete _ _ x H) in Hd. lia.
Qed.
Lemma msum_zero m k x : (forall k x, m !! k = Some x -> 0 <= f x) -> msum f m = 0 -> m !! k = Some x -> f x = 0.
Proof. intros Hf H0 H. pose proof (msum_ge m k x Hf H). specialize (Hf k x H). lia. Qed.
End msum.

(** ** The invariant *)

(** times [s] occurs in [l] *)
Definition occ (s : Z) (l : list Z) : Z := Z.of_nat (length (List.filter (Z.eqb s) l)).
Definition holds_bc (b : Z) (eb : eio_bio) : Z := if eb_bc eb =? b then 1 else 0.
Definition set_locks (s : Z) (c : bio_container) : Z := occ s (seq_sets (bc_setspan c)).
Definition req_pages (r : mdupdate_request) : list Z := map bv_page (mdblk_bvecs r).
Definition all_pages (w : io_world) : list Z := flat_map req_pages (map_to_list (mdreqs w)).*2.

(** what does not depend on the hold counts; [k0] is the memory less the pages
    of the update requests *)
Record objs_ok (k0 : kmem) (w : io_world) : Prop := {
  ob_bio : forall b c, bcs w !! b = Some c -> is_Some (bios w !! bc_bio c);
  ob_owner : forall b b' c c', bcs w !! b = Some c -> bcs w !! b' = Some c' -> bc_bio c = bc_bio c' -> b = b';
  ob_locks : mode (io_d w) = CACHE_MODE_WB -> forall s, default 0 (readers w !! s) = msum (set_locks s) (bcs w);
  ob_reqs : forall b c m, bcs w !! b = Some c -> m ∈ bc_mdreqs c -> is_Some (mdreqs w !! m);
  ob_nodup : forall b c, bcs w !! b = Some c -> NoDup (bc_mdreqs c);
  ob_apart : forall b b' c c' m, bcs w !! b = Some c -> bcs w !! b' = Some c' -> m ∈ bc_mdreqs c -> m ∈ bc_mdreqs c' -> b = b';
  ob_pages : grown k0 (all_pages w) (io_kmem w)
}.

(** [held b] are the holds on container [b] of code that is running *)
Record refs_ok (k0 : kmem) (held : Z -> Z) (w : io_world) : Prop := {
  rf_objs : objs_ok k0 w;
  rf_ebio : forall e eb, ebios w !! e = Some eb -> is_Some (bcs w !! eb_bc eb);
  rf_held : forall b, 0 <= held b /\ (0 < held b -> is_Some (bcs w !! b));
  rf_count : forall b c, bcs w !! b = Some c ->
    bc_holdcount c = held b + msum (holds_bc b) (ebios w) /\ 0 < bc_holdcount c < 2 ^ 31
}.

Lemma holds_bc_nonneg b eb : 0 <= holds_bc b eb.
Proof. unfold holds_bc. destruct (_ =? _); lia. Qed.
Lemma occ_cons s x l : occ s (x :: l) = (if s =? x then 1 else 0) + occ s l.
Proof. unfold occ. cbn [List.filter]. destruct (s =? x); cbn [length]; lia. Qed.
Lemma occ_nonneg s l : 0 <= occ s l.
Proof. unfold occ. lia. Qed.

(** ** Locks *)
Lemma up_reads_ok : forall l w, (forall s, occ s l <= default 0 (readers w !! s)) ->
  exists rs, mfor l up_read w = Some (tt, set_readers rs w) /\
    forall s, default 0 (rs !! s) = default 0 (readers w !! s) - occ s l.
Proof.
  induction l as [|x l IH]; intros w H; cbn [mfor].
  { exists (readers w). split; [by destruct w|]. intros s. unfold occ. cbn. lia. }
  assert (Hx : 0 < default 0 (readers w !! x)).
  { specialize (H x). rewrite occ_cons, Z.eqb_refl in H. pose proof (occ_nonneg x l). lia. }
  set (w1 := set_readers (<[x := default 0 (readers w !! x) - 1]> (readers w)) w).
  assert (E1 : up_read x w = Some (tt, w1)).
  { unfold up_read. rewrite bind_gets, bind_assert by (by apply Z.ltb_lt). done. }
  rewrite (bind_run _ _ _ _ _ E1).
  assert (Hr : forall s, default 0 (readers w1 !! s) = default 0 (readers w !! s) - (if s =? x then 1 else 0)).
  { intros s. subst w1. cbn [set_readers readers]. destruct (Z.eqb_spec s x) as [->|Hne]; [by rewrite lookup_insert_eq|].
    rewrite lookup_insert_ne by done. lia. }
  destruct (IH w1) as (rs & E & Hrs).
  { intros s. rewrite Hr. specialize (H s). rewrite occ_cons in H. lia. }
  exists rs. split; [exact E|]. intros s. rewrite Hrs, Hr, occ_cons. lia.
Qed.

(** ** Update requests *)
Lemma free_4k_ok k0 l : forall ps (bvs pre : list bio_vec) k, map bv_page bvs = ps -> grown k0 (ps ++ l) k ->
  exists b' k', free_wb_loop (length bvs) (length pre) SECTORS_PER_PAGE (pre ++ bvs) k = Some (b', k') /\ grown k0 l k'.
Proof.
  induction ps as [|p ps IH]; intros bvs pre k Hp Hg; destruct bvs as [|v bvs]; try discriminate; [by exists (pre ++ []), k|].
  injection Hp as Hp Hps. cbn [length free_wb_loop]. unfold free_wb_bvec at 1. change (SECTORS_PER_PAGE =? BLKSIZE_2K) with false.
  change ((SECTORS_PER_PAGE =? BLKSIZE_4K) || (SECTORS_PER_PAGE =? BLKSIZE_8K)) with true. rewrite lookup_page_app, Hp.
  assert (p <> NULL) as Hn by (apply (gr_new _ _ _ Hg), elem_of_cons; by left). rewrite (proj2 (Z.eqb_neq _ _) Hn). cbn [negb].
  destruct (grown_put k0 p (ps ++ l) k Hg) as (k1 & E1 & G1). rewrite bind_bind, (bind_run _ _ _ _ _ E1), bind_ret, clear_page_app.
  set (v1 := mk_bvec NULL _ _). destruct (IH bvs (pre ++ [v1]) k1 Hps G1) as (b' & k' & E & G). exists b', k'.
  rewrite <-app_assoc in E. rewrite length_app, Nat.add_1_r in E. done.
Qed.

Lemma all_pages_delete w m r : mdreqs w !! m = Some r ->
  all_pages w ≡ₚ req_pages r ++ flat_map req_pages (map_to_list (delete m (mdreqs w))).*2.
Proof.
  intros E. unfold all_pages. rewrite <-(insert_delete_id (mdreqs w) m r E) at 1.
  rewrite map_to_list_insert by apply lookup_delete_eq. done.
Qed.

Lemma free_mdreq_ok k0 w m r : grown k0 (all_pages w) (io_kmem w) -> mdreqs w !! m = Some r ->
  exists k, free_mdreq_pages m w = Some (tt, set_mdreqs (delete m (mdreqs w)) (set_io_kmem k w)) /\
    grown k0 (flat_map req_pages (map_to_list (delete m (mdreqs w))).*2) k.
Proof.
  intros Hg E. apply (grown_perm k0 _ _ _ (all_pages_delete _ _ _ E)) in Hg.
  destruct (free_4k_ok k0 _ (req_pages r) (mdblk_bvecs r) [] (io_kmem w) eq_refl Hg) as (b' & k & E1 & G).
  exists k. split; [|done]. unfold free_mdreq_pages.
  assert (E0 : the_mdreq m w = Some (r, w)) by (unfold the_mdreq, eval; by rewrite E).
  rewrite (bind_run _ _ _ _ _ E0).
  assert (E2 : on_kmem (eio_free_wb_bvecs (mdblk_bvecs r) (length (mdblk_bvecs r)) SECTORS_PER_PAGE) w = Some (b', set_io_kmem k w)).
  { unfold on_kmem, eio_free_wb_bvecs. cbn [length app] in E1. by rewrite E1. }
  rewrite (bind_run _ _ _ _ _ E2). unfold free_mdreq, the_mdreq, bind, eval. cbn. by rewrite E.
Qed.

Lemma free_mdreqs_ok k0 : forall l w, NoDup l -> (forall m, m ∈ l -> is_Some (mdreqs w !! m)) -> grown k0 (all_pages w) (io_kmem w) ->
  exists ms k, mfor l free_mdreq_pages w = Some (tt, set_mdreqs ms (set_io_kmem k w)) /\ (forall m, ms !! m = if decide (m ∈ l) then None else mdreqs w !! m) /\ grown k0 (flat_map req_pages (map_to_list ms).*2) k.
Proof.
  induction l as [|m l IH]; intros w Hnd Hl Hg; cbn [mfor].
  { exists (mdreqs w), (io_kmem w). split; [by destruct w|]. split; [|done]. intros m. by rewrite decide_False by apply not_elem_of_nil. }
  apply NoDup_cons in Hnd as [Hm Hnd]. destruct (Hl m) as [r Er]; [apply elem_of_cons; by left|].
  destruct (free_mdreq_ok k0 w m r Hg Er) as (k1 & E1 & G1). rewrite (bind_run _ _ _ _ _ E1). clear E1.
  destruct (IH (set_mdreqs (delete m (mdreqs w)) (set_io_kmem k1 w)) Hnd) as (ms & k & E & Hms & G).
  - intros m' Hm'. cbn. rewrite lookup_delete_ne by by intros ->. apply Hl, elem_of_cons. by right.
  - exact G1.
  - exists ms, k. split; [exact E|]. split; [|exact G]. intros m'. rewrite Hms. cbn. destruct (decide (m = m')) as [<-|Hne].
    + rewrite (decide_False (P := m ∈ l)) by done. rewrite decide_True by (apply elem_of_cons; by left). apply lookup_delete_eq.
    + rewrite lookup_delete_ne by done. destruct (decide (m' ∈ l)) as [Hi|Hi].
      * by rewrite decide_True by (apply elem_of_cons; by right).
      * by rewrite decide_False by (intros [?|?]%elem_of_cons; congruence).
Qed.

Section kernel.
Context {K : Kernel} (k0 : kmem).

Lemma the_bc_run b c w : bcs w !! b = Some c -> the_bc b w = Some (c, w).
Proof. unfold the_bc, eval. by intros ->. Qed.
Lemma upd_bc_run b c f w : bcs w !! b = Some c -> upd_bc b f w = Some (tt, set_bcs (<[b := f c]> (bcs w)) w).
Proof. intros E. unfold upd_bc. by rewrite (bind_run _ _ _ _ _ (the_bc_run _ _ _ E)). Qed.
Lemma the_bio_run b x w : bios w !! b = Some x -> the_bio b w = Some (x, w).
Proof. unfold the_bio, eval. by intros ->. Qed.
Lemma upd_bio_run b x f w : bios w !! b = Some x -> upd_bio b f w = Some (tt, set_bios (<[b := f x]> (bios w)) w).
Proof. intros E. unfold upd_bio. by rewrite (bind_run _ _ _ _ _ (the_bio_run _ _ _ E)). Qed.
Lemma the_ebio_run e eb w : ebios w !! e = Some eb -> the_ebio e w = Some (eb, w).
Proof. unfold the_ebio, eval. by intros ->. Qed.

Lemma upd_dmc_run f w : upd_dmc f w = Some (tt, set_io_cw (set_cw_d (f (io_d w)) (io_cw w)) w).
Proof. done. Qed.

Lemma release_ok w b c : objs_ok k0 w -> bcs w !! b = Some c -> mode (io_d w) = CACHE_MODE_WB ->
  exists ms k rs, eio_release_io_resources b w =
      Some (tt, set_bcs (<[b := set_bc_mdreqs [] c]> (bcs w)) (set_mdreqs ms (set_io_kmem k (set_readers rs w)))) /\
    (forall m, ms !! m = if decide (m ∈ bc_mdreqs c) then None else mdreqs w !! m) /\
    grown k0 (flat_map req_pages (map_to_list ms).*2) k /\
    forall s, default 0 (rs !! s) = default 0 (readers w !! s) - set_locks s c.
Proof.
  intros [_ _ Hl Hr Hn _ Hp] Eb Hm. specialize (Hl Hm). unfold eio_release_io_resources. rewrite (bind_run _ _ _ _ _ (the_bc_run _ _ _ Eb)).
  destruct (up_reads_ok (seq_sets (bc_setspan c)) w) as (rs & E1 & Hrs).
  { intros s. rewrite Hl. apply (msum_ge (set_locks s) _ b c); [|done]. intros; apply occ_nonneg. }
  rewrite (bind_run _ _ _ _ _ E1). clear E1.
  destruct (free_mdreqs_ok k0 (bc_mdreqs c) (set_readers rs w) (Hn b c Eb) (fun m => Hr b c m Eb) Hp) as (ms & k & E2 & Hms & G).
  rewrite (bind_run _ _ _ _ _ E2). clear E2. exists ms, k, rs. split; [|done].
  exact (upd_bc_run b c _ (set_mdreqs ms (set_io_kmem k (set_readers rs w))) Eb).
Qed.

(** the state after the last hold of a container is dropped *)
Record put_last (b : Z) (c : bio_container) (w w' : io_world) : Prop := {
  pl_frame : exists cw bs ms k rs, w' = set_bcs (delete b (bcs w)) (set_bio_ended (bio_ended w ++ [(bc_bio c, bc_error c)])
     (set_io_cw cw (set_bios bs (set_mdreqs ms (set_io_kmem k (set_readers rs w))))));
  pl_d : exists st n, io_cw w' = set_cw_d (set_nr_ios n (set_stats st (io_d w))) (io_cw w);
  pl_bios : dom (bios w') = dom (bios w);
  pl_reqs : forall m, mdreqs w' !! m = if bool_decide (mode (io_d w) = CACHE_MODE_WB /\ m ∈ bc_mdreqs c) then None else mdreqs w !! m;
  pl_objs : objs_ok k0 w'
}.

Lemma objs_drop w b c ms k rs cw bs en : objs_ok k0 w -> bcs w !! b = Some c ->
  mode (cw_d cw) = mode (io_d w) -> dom bs = dom (bios w) ->
  (forall m, ms !! m = if bool_decide (mode (io_d w) = CACHE_MODE_WB /\ m ∈ bc_mdreqs c) then None else mdreqs w !! m) ->
  grown k0 (flat_map req_pages (map_to_list ms).*2) k ->
  (mode (io_d w) = CACHE_MODE_WB -> forall s, default 0 (rs !! s) = default 0 (readers w !! s) - set_locks s c) ->
  objs_ok k0 (set_bcs (delete b (bcs w)) (set_bio_ended en (set_io_cw cw (set_bios bs (set_mdreqs ms (set_io_kmem k (set_readers rs w))))))).
Proof.
  intros [H1 H2 H3 H4 H5 H6 H7] Eb Hm Hd Hms Hg Hrs.
  assert (Hin : forall b' c', delete b (bcs w) !! b' = Some c' -> b' <> b /\ bcs w !! b' = Some c').
  { intros b' c' [? ?]%lookup_delete_Some. done. }
  constructor; cbn [bcs bios readers mdreqs io_kmem set_bcs set_bio_ended set_io_cw set_bios set_mdreqs set_io_kmem set_readers].
  - intros b' c' [_ E]%Hin. apply elem_of_dom. rewrite Hd. apply elem_of_dom. by apply (H1 b').
  - intros b1 b2 c1 c2 [_ E1]%Hin [_ E2]%Hin. by apply H2.
  - intros Hwb s. change (mode (cw_d cw) = CACHE_MODE_WB) in Hwb. rewrite Hm in Hwb. rewrite Hrs, H3, (msum_delete _ _ _ c) by done. done.
  - intros b' c' m [Hne E]%Hin Hi. rewrite Hms, bool_decide_false; [by apply (H4 b' c')|]. intros [_ Hi']. by apply Hne, (H6 b' b c' c m).
  - intros b' c' [_ E]%Hin. by apply (H5 b').
  - intros b1 b2 c1 c2 m [_ E1]%Hin [_ E2]%Hin. by apply H6.
  - exact Hg.
Qed.

Lemma bc_put_ok jiffies w b c : objs_ok k0 w -> bcs w !! b = Some c -> 0 < bc_holdcount c < 2 ^ 31 ->
  exists w', bc_put jiffies b w = Some (tt, w') /\
    if bc_holdcount c =? 1 then put_last b c w w' else w' = set_bcs (<[b := set_bc_holdcount (bc_holdcount c - 1) c]> (bcs w)) w.
Proof.
  intros Ho Eb Hh. unfold bc_put. rewrite (bind_run _ _ _ _ _ (the_bc_run _ _ _ Eb)), (bind_run _ _ _ _ _ (upd_bc_run _ _ _ _ Eb)).
  assert (Eh : atomic_dec (bc_holdcount c) = bc_holdcount c - 1) by (unfold atomic_dec; apply i32_small; lia).
  rewrite Eh. assert (Ez : (bc_holdcount c - 1 =? 0) = (bc_holdcount c =? 1)) by lia. rewrite Ez.
  destruct (Z.eqb_spec (bc_holdcount c) 1) as [E1|_]; cbn [when]; [|by eexists].
  set (c1 := set_bc_holdcount _ c). set (w1 := set_bcs (<[b := c1]> (bcs w)) w). rewrite bind_gets.
  assert (O1 : objs_ok k0 w1).
  { subst w1 c1. destruct Ho as [H1 H2 H3 H4 H5 H6 H7].
    assert (Hin : forall b' c', <[b := set_bc_holdcount (bc_holdcount c - 1) c]> (bcs w) !! b' = Some c' ->
      exists c0, bcs w !! b' = Some c0 /\ bc_bio c' = bc_bio c0 /\ bc_mdreqs c' = bc_mdreqs c0).
    { intros b' c' [[<- <-]|[_ E]]%lookup_insert_Some; eauto. }
    constructor; cbn [bcs set_bcs bios readers mdreqs io_kmem].
    - intros b' c' (c0 & E & -> & _)%Hin. by apply (H1 b').
    - intros b1 b2 c1 c2 (c3 & E3 & -> & _)%Hin (c4 & E4 & -> & _)%Hin. by apply H2.
    - intros Hm s. rewrite H3 by done. by rewrite (msum_same _ _ _ c).
    - intros b' c' m (c0 & E & _ & ->)%Hin. by apply (H4 b').
    - intros b' c' (c0 & E & _ & ->)%Hin. by apply (H5 b').
    - intros b1 b2 c1 c2 m (c3 & E3 & _ & ->)%Hin (c4 & E4 & _ & ->)%Hin. by apply H6.
    - exact H7. }
  assert (Eb1 : bcs w1 !! b = Some c1) by apply lookup_insert_eq.
  assert (Hrel : exists ms k rs w2, (when (mode (io_d w1) =? CACHE_MODE_WB) (eio_release_io_resources b)) w1 = Some (tt, w2) /\
     (exists c2, w2 = set_bcs (<[b := c2]> (bcs w)) (set_mdreqs ms (set_io_kmem k (set_readers rs w)))) /\
     (forall m, ms !! m = if bool_decide (mode (io_d w) = CACHE_MODE_WB /\ m ∈ bc_mdreqs c) then None else mdreqs w !! m) /\
     grown k0 (flat_map req_pages (map_to_list ms).*2) k /\
     (mode (io_d w) = CACHE_MODE_WB -> forall s, default 0 (rs !! s) = default 0 (readers w !! s) - set_locks s c)).
  { change (io_d w1) with (io_d w). destruct (Z.eqb_spec (mode (io_d w)) CACHE_MODE_WB) as [Hm|Hm]; cbn [when].
    - destruct (release_ok w1 b c1 O1 Eb1 Hm) as (ms & k & rs & E & Hms & G & Hrs). exists ms, k, rs. eexists. split; [exact E|]. split_and!.
      + exists (set_bc_mdreqs [] c1). subst w1. unfold set_bcs. cbn. by rewrite insert_insert_eq.
      + intros m. rewrite Hms. change (bc_mdreqs c1) with (bc_mdreqs c). destruct (decide (m ∈ bc_mdreqs c)); [by rewrite bool_decide_true|by rewrite bool_decide_false by tauto].
      + done.
      + intros _ s. apply Hrs.
    - exists (mdreqs w), (io_kmem w), (readers w), w1. split_and!; [done|exists c1; by destruct w| |apply Ho|done].
      intros m. by rewrite bool_decide_false by tauto. }
  destruct Hrel as (ms & k & rs & w2 & E2 & (c2 & ->) & Hms & Hg & Hrs). rewrite (bind_run _ _ _ _ _ E2). clear E2.
  destruct (ob_bio _ _ Ho b c Eb) as [x Ex].
  set (w2 := set_bcs _ (set_mdreqs _ _)). rewrite (bind_run _ _ _ _ _ (upd_bio_run (bc_bio c) x _ w2 Ex)).
  set (y := {| (x) with bi_size := 0 |}). set (w3 := set_bios _ w2).
  assert (Ex3 : bios w3 !! bc_bio c = Some y) by apply lookup_insert_eq.
  rewrite (bind_run _ _ _ _ _ (the_bio_run _ _ _ Ex3)). set (st := add_iotime _ _).
  rewrite (bind_run _ _ _ _ _ (upd_dmc_run (upd_stats st) w3)). set (w4 := set_io_cw _ w3).
  assert (E4 : bio_endio (bc_bio c) (bc_error c) w4 = Some (tt, set_bio_ended (bio_ended w4 ++ [(bc_bio c, bc_error c)]) w4)).
  { unfold bio_endio. by rewrite (bind_run _ _ _ _ _ (the_bio_run _ y w4 Ex3)). }
  rewrite (bind_run _ _ _ _ _ E4), (bind_run _ _ _ _ _ (upd_dmc_run _ _)). clear E4.
  set (w5 := set_io_cw _ (set_bio_ended _ w4)). assert (Eb5 : bcs w5 !! b = Some c2) by apply lookup_insert_eq.
  assert (E5 : free_bc b w5 = Some (tt, set_bcs (delete b (bcs w5)) w5)).
  { unfold free_bc. by rewrite (bind_run _ _ _ _ _ (the_bc_run _ _ _ Eb5)). }
  eexists. split; [exact E5|].
  set (bs := <[bc_bio c := y]> (bios w)).
  set (cw := set_cw_d (set_nr_ios (atomic64_dec (nr_ios (io_d w))) (set_stats (st (stats (io_d w))) (io_d w))) (io_cw w)).
  assert (Ew : set_bcs (delete b (bcs w5)) w5 = set_bcs (delete b (bcs w)) (set_bio_ended (bio_ended w ++ [(bc_bio c, bc_error c)])
     (set_io_cw cw (set_bios bs (set_mdreqs ms (set_io_kmem k (set_readers rs w))))))).
  { replace (delete b (bcs w)) with (delete b (<[b := c2]> (bcs w))) by apply delete_insert_eq. reflexivity. }
  rewrite Ew. constructor.
  - by exists cw, bs, ms, k, rs.
  - eexists _, _. reflexivity.
  - cbn. apply dom_insert_lookup_L. by exists x.
  - exact Hms.
  - by apply (objs_drop w b c); [| | |apply dom_insert_lookup_L; exists x| | |].
Qed.

(** ** The end of a split *)
Definition main_error (eb : eio_bio) (error : Z) (c : bio_container) : bio_container :=
  if (eb_iotype eb =? EB_MAIN_IO) && negb (error =? 0) then set_bc_error error c else c.
(** what remains of the cache state: statistics and the count of bios in progress change *)
Definition stats_ios (d d' : cache_c) : Prop := exists st n, d' = set_nr_ios n (set_stats st d).

(** the split [e] is freed; its container drops a hold or, if this was the last,
    goes and ends the bio *)
Record endio_done (e : Z) (eb : eio_bio) (error : Z) (w w' : io_world) : Prop := {
  ed_frame : exists cw bs ms k rs bc en, w' = set_ebios (delete e (ebios w)) (set_bcs bc (set_bio_ended en
     (set_io_cw cw (set_bios bs (set_mdreqs ms (set_io_kmem k (set_readers rs w)))))));
  ed_cw : exists d', io_cw w' = set_cw_d d' (io_cw w) /\ stats_ios (io_d w) d';
  ed_bios : dom (bios w') = dom (bios w);
  ed_reqs : forall m, (forall b c, bcs w !! b = Some c -> m ∉ bc_mdreqs c) -> mdreqs w' !! m = mdreqs w !! m;
  ed_bcs : exists c, bcs w !! eb_bc eb = Some c /\
    if bc_holdcount c =? 1
    then bcs w' = delete (eb_bc eb) (bcs w) /\ bio_ended w' = bio_ended w ++ [(bc_bio c, bc_error (main_error eb error c))]
    else bcs w' = <[eb_bc eb := set_bc_holdcount (bc_holdcount c - 1) (main_error eb error c)]> (bcs w) /\ bio_ended w' = bio_ended w
}.

Lemma stats_ios_refl d : stats_ios d d.
Proof. exists (stats d), (nr_ios d). by destruct d. Qed.
Lemma stats_ios_trans d1 d2 d3 : stats_ios d1 d2 -> stats_ios d2 d3 -> stats_ios d1 d3.
Proof. intros (st & n & ->) (st' & n' & ->). exists st', n'. by destruct d1. Qed.

(** replacing a container by one that refers to the same objects *)
Lemma objs_update w b c c' : objs_ok k0 w -> bcs w !! b = Some c ->
  bc_bio c' = bc_bio c -> bc_mdreqs c' = bc_mdreqs c -> bc_setspan c' = bc_setspan c ->
  objs_ok k0 (set_bcs (<[b := c']> (bcs w)) w).
Proof.
  intros [H1 H2 H3 H4 H5 H6 H7] Eb Ebio Emd Esp.
  assert (Hin : forall b1 c1, <[b := c']> (bcs w) !! b1 = Some c1 ->
    exists c0, bcs w !! b1 = Some c0 /\ bc_bio c1 = bc_bio c0 /\ bc_mdreqs c1 = bc_mdreqs c0).
  { intros b1 c1 [[<- <-]|[_ E]]%lookup_insert_Some; eauto. }
  constructor; cbn [bcs set_bcs bios readers mdreqs io_kmem].
  - intros b1 c1 (c0 & E & -> & _)%Hin. by apply (H1 b1).
  - intros b1 b2 c1 c2 (c3 & E3 & -> & _)%Hin (c4 & E4 & -> & _)%Hin. by apply H2.
  - intros Hm s. rewrite H3 by done. rewrite (msum_same _ _ _ c); [done|done|]. unfold set_locks. by rewrite Esp.
  - intros b1 c1 m (c0 & E & _ & ->)%Hin. by apply (H4 b1).
  - intros b1 c1 (c0 & E & _ & ->)%Hin. by apply (H5 b1).
  - intros b1 b2 c1 c2 m (c3 & E3 & _ & ->)%Hin (c4 & E4 & _ & ->)%Hin. by apply H6.
  - exact H7.
Qed.

Lemma refs_drop held w w' e eb c c' : refs_ok k0 held w -> ebios w !! e = Some eb -> bcs w !! eb_bc eb = Some c ->
  objs_ok k0 w' -> ebios w' = delete e (ebios w) -> bc_holdcount c' = bc_holdcount c - 1 ->
  bcs w' = (if bc_holdcount c =? 1 then delete (eb_bc eb) (bcs w) else <[eb_bc eb := c']> (bcs w)) -> refs_ok k0 held w'.
Proof.
  intros [_ Hb Hh Hc] Ee Ec Ho Ees Hc' Ebc. set (b := eb_bc eb) in *. destruct (Hc _ _ Ec) as [Hn Hr].
  assert (Hsum : forall b', msum (holds_bc b') (ebios w') = msum (holds_bc b') (ebios w) - if b =? b' then 1 else 0).
  { intros b'. by rewrite Ees, (msum_delete _ _ _ eb). }
  assert (Heb : forall e' eb', ebios w' !! e' = Some eb' -> ebios w !! e' = Some eb') by (rewrite Ees; by intros e' eb' [_ ?]%lookup_delete_Some).
  pose proof (msum_ge (holds_bc b) (ebios w) e eb (fun _ x _ => holds_bc_nonneg b x) Ee) as Hge.
  unfold holds_bc at 1 in Hge. fold b in Hge. rewrite Z.eqb_refl in Hge. destruct (Hh b) as [Hh0 _].
  assert (Hlive : forall b', is_Some (bcs w !! b') -> b' <> b \/ bc_holdcount c <> 1 -> is_Some (bcs w' !! b')).
  { intros b' Hb' Hn1. rewrite Ebc. destruct (Z.eqb_spec (bc_holdcount c) 1).
    - rewrite lookup_delete_ne; [done|]. intros <-. by destruct Hn1.
    - destruct (decide (b = b')) as [<-|]; [rewrite lookup_insert_eq; by eexists|by rewrite lookup_insert_ne]. }
  constructor; [done| | |].
  - intros e' eb' E'. apply Hlive; [apply (Hb e' eb'), Heb, E'|]. destruct (Z.eq_dec (bc_holdcount c) 1) as [H1|]; [left|by right].
    intros Hbe. assert (msum (holds_bc b) (ebios w') = 0) as Hz by (rewrite Hsum, Z.eqb_refl; lia).
    pose proof (msum_zero (holds_bc b) _ e' eb' (fun _ x _ => holds_bc_nonneg b x) Hz E') as H0.
    unfold holds_bc in H0. rewrite Hbe, Z.eqb_refl in H0. done.
  - intros b'. destruct (Hh b') as [? Hb']. split; [done|]. intros Hp. apply Hlive; [by apply Hb'|].
    destruct (Z.eq_dec (bc_holdcount c) 1); [left; intros ->; lia|by right].
  - intros b' c2 E'. rewrite Hsum. rewrite Ebc in E'. destruct (Z.eqb_spec (bc_holdcount c) 1) as [H1|H1].
    + apply lookup_delete_Some in E' as [Hne E']. rewrite (proj2 (Z.eqb_neq b b')) by done. destruct (Hc _ _ E'). lia.
    + apply lookup_insert_Some in E' as [[<- <-]|[Hne E']]; [rewrite Z.eqb_refl; lia|].
      rewrite (proj2 (Z.eqb_neq b b')) by done. destruct (Hc _ _ E'). lia.
Qed.

Lemma free_ebio_run e eb w : ebios w !! e = Some eb -> free_ebio e w = Some (tt, set_ebios (delete e (ebios w)) w).
Proof. intros E. unfold free_ebio. by rewrite (bind_run _ _ _ _ _ (the_ebio_run _ _ _ E)). Qed.

Lemma objs_ebios es w : objs_ok k0 w -> objs_ok k0 (set_ebios es w).
Proof. intros [O2 O3 O4 O5 O6 O7 O8]. by constructor. Qed.

Lemma eb_endio_ok jiffies held w e eb error : refs_ok k0 held w -> ebios w !! e = Some eb ->
  exists w', eb_endio jiffies e error w = Some (tt, w') /\ refs_ok k0 held w' /\ endio_done e eb error w w'.
Proof.
  intros Hrefs Ee. pose proof Hrefs as [Ho Hb _ Hc]. destruct (Hb e eb Ee) as [c Ec]. destruct (Hc _ _ Ec) as [_ Hr].
  set (b := eb_bc eb) in *. set (c1 := main_error eb error c). set (w1 := set_bcs (<[b := c1]> (bcs w)) w).
  assert (Hc1 : bc_bio c1 = bc_bio c /\ bc_mdreqs c1 = bc_mdreqs c /\ bc_setspan c1 = bc_setspan c /\ bc_holdcount c1 = bc_holdcount c).
  { subst c1. unfold main_error. by destruct (_ && _). }
  destruct Hc1 as (C1 & C2 & C3 & C4).
  assert (E1 : (when ((eb_iotype eb =? EB_MAIN_IO) && negb (error =? 0)) (upd_bc b (set_bc_error error))) w = Some (tt, w1)).
  { subst w1 c1. unfold main_error. destruct (_ && _); cbn [when]; [by rewrite (upd_bc_run _ _ _ _ Ec)|].
    rewrite insert_id by done. by destruct w. }
  unfold eb_endio. rewrite (bind_run _ _ _ _ _ (the_ebio_run _ _ _ Ee)). fold b. rewrite (bind_run _ _ _ _ _ E1). clear E1.
  assert (O1 : objs_ok k0 w1) by (by apply (objs_update w b c c1)).
  assert (Eb1 : bcs w1 !! b = Some c1) by apply lookup_insert_eq.
  destruct (bc_put_ok jiffies w1 b c1 O1 Eb1) as (w2 & E2 & H2); [by rewrite C4|]. rewrite (bind_run _ _ _ _ _ E2). clear E2. rewrite C4 in H2.
  assert (Ee2 : ebios w2 = ebios w).
  { destruct (_ =? 1); [destruct H2 as [(? & ? & ? & ? & ? & ->) _ _ _ _]|rewrite H2]; done. }
  rewrite (free_ebio_run e eb w2) by by rewrite Ee2. eexists. split; [done|].
  set (c2 := set_bc_holdcount (bc_holdcount c - 1) c1) in *.
  assert (Ebc : bcs w2 = if bc_holdcount c =? 1 then delete b (bcs w) else <[b := c2]> (bcs w)).
  { destruct (_ =? 1); [destruct H2 as [(? & ? & ? & ? & ? & ->) _ _ _ _]; apply delete_insert_eq|rewrite H2; apply insert_insert_eq]. }
  assert (Hob : objs_ok k0 w2).
  { destruct (_ =? 1); [apply H2|]. rewrite H2. apply (objs_update w1 b c1); done. }
  split; [apply (refs_drop held w _ e eb c c2); [done|done|done|by apply objs_ebios|cbn; by rewrite Ee2|done|exact Ebc]|].
  revert H2 Ebc. rewrite Ee2. destruct (Z.eqb_spec (bc_holdcount c) 1) as [H1|H1]; intros H2 Ebc.
  - destruct H2 as [(cw & bs & ms & k & rs & Hf) (st & n & Hd) Hbs Hms _]. constructor.
    + eexists cw, bs, ms, k, rs, _, _. rewrite Hf. reflexivity.
    + eexists. split; [exact Hd|]. by exists st, n.
    + exact Hbs.
    + intros m Hm. etransitivity; [apply Hms|]. rewrite bool_decide_false; [done|]. rewrite C2. intros [_ Hi]. by apply (Hm b c Ec).
    + exists c. split; [done|]. rewrite (proj2 (Z.eqb_eq _ _) H1). split; [exact Ebc|].
      change (bio_ended w2 = bio_ended w ++ [(bc_bio c, bc_error c1)]). rewrite <-C1, Hf. reflexivity.
  - subst w2. constructor; try done.
    + exists (io_cw w), (bios w), (mdreqs w), (io_kmem w), (readers w), (<[b := c2]> (bcs w1)), (bio_ended w). reflexivity.
    + exists (io_d w). split; [change (io_cw w = set_cw_d (cw_d (io_cw w)) (io_cw w)); by destruct (io_cw w)|apply stats_ios_refl].
    + exists c. split; [done|]. rewrite (proj2 (Z.eqb_neq _ _) H1). split; [exact Ebc|done].
Qed.

(** ** The ends of several splits *)
Record endios_done (l : list Z) (error : Z) (w w' : io_world) : Prop := {
  es_frame : exists es cw bs ms k rs bc en, w' = set_ebios es (set_bcs bc (set_bio_ended en
     (set_io_cw cw (set_bios bs (set_mdreqs ms (set_io_kmem k (set_readers rs w)))))));
  es_cw : exists d', io_cw w' = set_cw_d d' (io_cw w) /\ stats_ios (io_d w) d';
  es_ebios : forall e, ebios w' !! e = if decide (e ∈ l) then None else ebios w !! e;
  es_reqs : forall m, (forall b c, bcs w !! b = Some c -> m ∉ bc_mdreqs c) -> mdreqs w' !! m = mdreqs w !! m;
  es_bcs : forall b c', bcs w' !! b = Some c' -> exists c, bcs w !! b = Some c /\ bc_bio c' = bc_bio c /\ bc_mdreqs c' = bc_mdreqs c;
  es_ended : exists en, bio_ended w' = bio_ended w ++ en /\ NoDup en.*1 /\
    (forall x, x ∈ en.*1 <-> exists b c, bcs w !! b = Some c /\ bc_bio c = x /\ bcs w' !! b = None) /\
    (forall x err, (x, err) ∈ en -> exists b c, bcs w !! b = Some c /\ bc_bio c = x /\ err = if error =? 0 then bc_error c else error)
}.

Lemma main_error_bio eb error c : bc_bio (main_error eb error c) = bc_bio c /\ bc_mdreqs (main_error eb error c) = bc_mdreqs c.
Proof. unfold main_error. by destruct (_ && _). Qed.
Lemma main_error_err eb error c : (error <> 0 -> eb_iotype eb = EB_MAIN_IO) ->
  bc_error (main_error eb error c) = if error =? 0 then bc_error c else error.
Proof.
  intros H. unfold main_error. destruct (Z.eqb_spec error 0) as [->|Hne]; [by rewrite andb_false_r|]. by rewrite H.
Qed.

Lemma frame_step w w1 w' : (exists cw bs ms k rs bc en, w1 = set_ebios en (set_bcs bc (set_bio_ended (bio_ended w1) (set_io_cw cw (set_bios bs (set_mdreqs ms (set_io_kmem k (set_readers rs w)))))))) ->
  (exists es cw bs ms k rs bc en, w' = set_ebios es (set_bcs bc (set_bio_ended en (set_io_cw cw (set_bios bs (set_mdreqs ms (set_io_kmem k (set_readers rs w1)))))))) ->
  exists es cw bs ms k rs bc en, w' = set_ebios es (set_bcs bc (set_bio_ended en (set_io_cw cw (set_bios bs (set_mdreqs ms (set_io_kmem k (set_readers rs w))))))).
Proof.
  generalize (bio_ended w1). intros bn (cw & bs & ms & k & rs & bc & en & ->) (es' & cw' & bs' & ms' & k' & rs' & bc' & en' & ->).
  exists es', cw', bs', ms', k', rs', bc', en'. destruct w. reflexivity.
Qed.

Lemma endios_ok jiffies held error : forall l w, refs_ok k0 held w -> NoDup l ->
  (forall e, e ∈ l -> exists eb, ebios w !! e = Some eb /\ (error <> 0 -> eb_iotype eb = EB_MAIN_IO)) ->
  exists w', mfor l (fun e => eb_endio jiffies e error) w = Some (tt, w') /\ refs_ok k0 held w' /\ endios_done l error w w'.
Proof.
  induction l as [|e l IH]; intros w Hrefs Hnd Hl; cbn [mfor].
  { exists w. split_and!; [done|done|]. constructor.
    - exists (ebios w), (io_cw w), (bios w), (mdreqs w), (io_kmem w), (readers w), (bcs w), (bio_ended w). by destruct w.
    - exists (io_d w). split; [by destruct w as [[]]|apply stats_ios_refl].
    - intros e. by rewrite decide_False by apply not_elem_of_nil.
    - done. - eauto.
    - exists []. rewrite app_nil_r. split_and!; [done|constructor| |by intros ? ? ?%not_elem_of_nil].
      intros x. split; [by intros ?%not_elem_of_nil|]. intros (b & c & E & _ & E'). congruence. }
  apply NoDup_cons in Hnd as [Hnl Hnd]. destruct (Hl e) as (eb & Ee & Hmain); [apply elem_of_cons; by left|].
  destruct (eb_endio_ok jiffies held w e eb error Hrefs Ee) as (w1 & E1 & R1 & [F1 (d1 & D1 & S1) _ M1 (c & Ec & B1)]).
  rewrite (bind_run _ _ _ _ _ E1). clear E1.
  assert (Ees : ebios w1 = delete e (ebios w)) by by destruct F1 as (? & ? & ? & ? & ? & ? & ? & ->).
  destruct (IH w1 R1 Hnd) as (w' & E2 & R2 & [F2 (d2 & D2 & S2) G2 M2 B2 (en & N1 & N2 & N3 & N4)]).
  { intros e' He'. rewrite Ees, lookup_delete_ne by by intros ->. apply Hl, elem_of_cons. by right. }
  exists w'. split; [done|]. split; [done|]. destruct (main_error_bio eb error c) as [C1 C2].
  set (c1 := main_error eb error c) in *.
  assert (Hsub : forall b c', bcs w1 !! b = Some c' -> exists c, bcs w !! b = Some c /\ bc_bio c' = bc_bio c /\ bc_mdreqs c' = bc_mdreqs c /\
    (if error =? 0 then bc_error c' else error) = if error =? 0 then bc_error c else error).
  { intros b c' E'. destruct (_ =? 1); destruct B1 as [Eb _]; rewrite Eb in E'.
    - apply lookup_delete_Some in E' as [_ E']. eauto.
    - apply lookup_insert_Some in E' as [[<- <-]|[_ E']]; [|by eauto]. exists c. split_and!; [done|by cbn|by cbn|].
      cbn. unfold c1. rewrite main_error_err by done. by destruct (error =? 0). }
  constructor.
  - apply (frame_step w w1 w'); [|exact F2]. destruct F1 as (cw & bs & ms & k & rs & bc & en' & ->). exists cw, bs, ms, k, rs, bc, (delete e (ebios w)). by destruct w.
  - exists d2. rewrite D2, D1. split; [by destruct (io_cw w)|]. eapply stats_ios_trans; [exact S1|]. unfold io_d in S2 at 1. by rewrite D1 in S2.
  - intros e'. rewrite G2, Ees. destruct (decide (e = e')) as [<-|Hne].
    + rewrite lookup_delete_eq, (decide_True (P := e ∈ e :: l)) by (apply elem_of_cons; by left). by destruct (decide _).
    + rewrite lookup_delete_ne by done. destruct (decide (e' ∈ l)) as [Hi|Hi].
      * by rewrite decide_True by (apply elem_of_cons; by right).
      * by rewrite decide_False by (intros [?|?]%elem_of_cons; congruence).
  - intros m Hm. rewrite M2, M1; [done|done|]. intros b c' E'. destruct (Hsub b c' E') as (c3 & E3 & _ & -> & _). by apply (Hm b).
  - intros b c' E'. destruct (B2 b c' E') as (c3 & E3 & -> & ->). destruct (Hsub b c3 E3) as (c4 & E4 & -> & -> & _). eauto.
  - destruct (Z.eqb_spec (bc_holdcount c) 1) as [H1|H1]; destruct B1 as [Eb En].
    + assert (Hout : bc_bio c ∉ en.*1).
      { intros (b & c' & E' & Eq & _)%N3. rewrite Eb in E'. apply lookup_delete_Some in E' as [Hne E'].
        apply Hne. symmetry. exact (ob_owner _ _ (rf_objs _ _ _ Hrefs) _ _ _ _ E' Ec Eq). }
      exists ((bc_bio c, bc_error c1) :: en). rewrite N1, En, <-app_assoc. split_and!; [done| | |].
      * by apply NoDup_cons.
      * intros x. rewrite fmap_cons, elem_of_cons, N3. cbn [fst]. split.
        -- intros [->|(b & c' & E' & Eq & E0)].
           ++ exists (eb_bc eb), c. split_and!; [done|done|]. destruct (bcs w' !! eb_bc eb) as [c'|] eqn:E'; [|done].
              destruct (B2 _ _ E') as (c3 & E3 & _). rewrite Eb, lookup_delete_eq in E3. done.
           ++ destruct (Hsub b c' E') as (c3 & E3 & Eq3 & _). exists b, c3. split_and!; [done|congruence|done].
        -- intros (b & c' & E' & Eq & E0). destruct (decide (eb_bc eb = b)) as [<-|Hne]; [left; congruence|].
           right. exists b, c'. split_and!; [rewrite Eb, lookup_delete_ne by done; done|done|done].
      * intros x err [[= -> ->]|Hin]%elem_of_cons.
        -- exists (eb_bc eb), c. split_and!; [done|done|]. by apply main_error_err.
        -- destruct (N4 x err Hin) as (b & c' & E' & Eq & ->). destruct (Hsub b c' E') as (c3 & E3 & Eq3 & _ & ->). exists b, c3. split_and!; congruence.
    + exists en. rewrite N1, En. split_and!; [done|done| |].
      * intros x. rewrite N3. split.
        -- intros (b & c' & E' & Eq & E0). destruct (Hsub b c' E') as (c3 & E3 & Eq3 & _). exists b, c3. split_and!; [done|congruence|done].
        -- intros (b & c' & E' & Eq & E0). destruct (decide (eb_bc eb = b)) as [<-|Hne].
           ++ eexists _, _. rewrite Eb, lookup_insert_eq. split_and!; [done|cbn; congruence|done].
           ++ exists b, c'. rewrite Eb, lookup_insert_ne by done. done.
      * intros x err Hin. destruct (N4 x err Hin) as (b & c' & E' & Eq & ->). destruct (Hsub b c' E') as (c3 & E3 & Eq3 & _ & ->).
        exists b, c3. split_and!; congruence.
Qed.

(** a container goes exactly when nothing holds it *)
Lemma refs_gone held w b : refs_ok k0 held w ->
  (bcs w !! b = None <-> held b = 0 /\ forall e eb, ebios w !! e = Some eb -> eb_bc eb <> b).
Proof.
  intros [_ Hb Hh Hc]. split.
  - intros E. destruct (Hh b) as [H0 H1]. split; [|by intros e eb E' <-; destruct (Hb _ _ E') as [? ?]; congruence].
    destruct (Z.eq_dec (held b) 0); [done|]. destruct H1 as [? ?]; [lia|congruence].
  - intros [H0 Hn]. destruct (bcs w !! b) as [c|] eqn:E; [|done]. destruct (Hc _ _ E) as [Hs Hp].
    assert (msum (holds_bc b) (ebios w) = 0); [|lia].
    assert (Hz : forall e eb, ebios w !! e = Some eb -> holds_bc b eb = 0).
    { intros e eb E'. unfold holds_bc. by rewrite (proj2 (Z.eqb_neq _ _) (Hn e eb E')). }
    clear - Hz. revert Hz. induction (ebios w) as [|k x m Hk IH] using map_ind; intros Hz; [apply msum_empty|].
    rewrite msum_insert, (Hz k x (lookup_insert_eq _ _ _)) by done. rewrite IH; [done|].
    intros e eb E'. apply (Hz e). rewrite lookup_insert_ne; [done|]. intros ->. by rewrite Hk in E'.
Qed.

(** ** Steps that keep the references *)
Lemma refs_cw held w cw : refs_ok k0 held w -> mode (cw_d cw) = mode (io_d w) -> refs_ok k0 held (set_io_cw cw w).
Proof.
  intros [[H1 H2 H3 H4 H5 H6 H7] Hb Hh Hc] Hm. constructor; [|done|done|done]. constructor; try done.
  intros Hwb. apply H3. by rewrite <-Hm.
Qed.
Lemma refs_queue held w q : refs_ok k0 held w -> refs_ok k0 held (set_md_queue q w).
Proof. intros [[H1 H2 H3 H4 H5 H6 H7] Hb Hh Hc]. constructor; [|done|done|done]. by constructor. Qed.
Lemma refs_mdreq held w m r r' : refs_ok k0 held w -> mdreqs w !! m = Some r -> req_pages r' = req_pages r ->
  refs_ok k0 held (set_mdreqs (<[m := r']> (mdreqs w)) w).
Proof.
  intros [[H1 H2 H3 H4 H5 H6 H7] Hb Hh Hc] E Hp. constructor; [|done|done|done]. constructor; try done.
  - intros b c m' Eb Hi. cbn. destruct (decide (m = m')) as [<-|Hne]; [rewrite lookup_insert_eq; by eexists|rewrite lookup_insert_ne by done; by apply (H4 b c)].
  - eapply grown_perm; [|exact H7]. rewrite (all_pages_delete _ _ _ E), <-Hp.
    rewrite (all_pages_delete _ m r') by apply lookup_insert_eq. cbn. by rewrite delete_insert_eq.
Qed.
Lemma refs_free held w m r : refs_ok k0 held w -> mdreqs w !! m = Some r -> (forall b c, bcs w !! b = Some c -> m ∉ bc_mdreqs c) ->
  exists k, free_mdreq_pages m w = Some (tt, set_mdreqs (delete m (mdreqs w)) (set_io_kmem k w)) /\
    refs_ok k0 held (set_mdreqs (delete m (mdreqs w)) (set_io_kmem k w)).
Proof.
  intros [[H1 H2 H3 H4 H5 H6 H7] Hb Hh Hc] E Hm. destruct (free_mdreq_ok k0 w m r H7 E) as (k & E1 & G). exists k. split; [done|].
  constructor; [|done|done|done]. constructor; try done.
  intros b c m' Eb Hi. cbn. rewrite lookup_delete_ne; [by apply (H4 b c)|]. intros <-. by apply (Hm b c).
Qed.
End kernel.
