(* ===== verification/MdFlow.v ===== *)
(** * The end of a metadata update

    The callbacks of the writes of an update run in any order; the last one
    queues [eio_post_mdupdate], which settles the states of the blocks and ends
    the splits of the update.

    ** Handing the splits of a bio to the update requests of their sets

    [eio_md_write] collects the splits whose data is on the SSD; the last one
    of the bio gives each of them, exactly once, to the request of its set,
    starting and scheduling a request where the set has none.

    ** A metadata update from its start to its end

    [eio_do_mdupdate], the callbacks of its writes in whatever order, then
    [eio_post_mdupdate]. *)

From Stdlib Require Import Sorting.Sorted.
From S2P Require Import Prelude Types Mem DList SetLru Scan Policy Thresh Lookup SetSeq World Dispatch Disk Clean CleanIo CleanState CleanSet WbAlloc IoWorld MdUpdate MdWrite MdDo Refs.

(** * The end of a metadata update *)
(** ** Callbacks *)

(** the error an update ends with: the first *)
Definition first_error (e0 : Z) (es : list Z) : Z := foldl (fun a e => if a =? 0 then e else a) e0 es.

Lemma first_error_zero e0 es : first_error e0 es = 0 <-> e0 = 0 /\ Forall (eq 0) es.
Proof.
  revert e0. induction es as [|e es IH]; intros e0; cbn [first_error foldl]; [by split; [intros ->|intros [-> _]]|].
  fold (first_error (if e0 =? 0 then e else e0) es). rewrite IH, Forall_cons. destruct (Z.eqb_spec e0 0) as [->|Hne].
  - split; [intros [-> ?]|intros (_ & <- & ?)]; done.
  - split; [intros [? _]|intros [? _]]; done.
Qed.

Lemma callback_run m e w r : mdreqs w !! m = Some r ->
  eio_mdupdate_callback e m w = Some (tt, set_md_queue (md_queue w ++ if atomic_dec (md_holdcount r) =? 0 then [PostMdupdate m] else [])
    (set_mdreqs (<[m := set_md_holdcount (atomic_dec (md_holdcount r)) (set_md_error (if md_error r =? 0 then e else md_error r) r)]> (mdreqs w)) w)).
Proof.
  intros E. unfold eio_mdupdate_callback. rewrite (bind_run _ _ _ _ _ (upd_mdreq_run _ _ _ _ E)).
  set (r1 := if negb (e =? 0) && (md_error r =? 0) then set_md_error e r else r). assert (E1 : r1 = set_md_error (if md_error r =? 0 then e else md_error r) r).
  { subst r1. destruct (Z.eqb_spec e 0) as [->|]; destruct (Z.eqb_spec (md_error r) 0) as [E0|E0]; cbn [negb andb]; clear -E0; destruct r; cbn in *; by rewrite ?E0. }
  rewrite E1. set (w1 := set_mdreqs _ w). assert (Er1 : mdreqs w1 !! m = Some (set_md_error (if md_error r =? 0 then e else md_error r) r)) by apply lookup_insert_eq.
  rewrite (mdreq_put_run _ _ _ Er1). cbn [md_holdcount set_md_error]. do 2 f_equal. subst w1. unfold set_mdreqs. cbn. by rewrite insert_insert_eq.
Qed.

(** all of them: the last queues the end of the update *)
Lemma callbacks_run m : forall es w r, mdreqs w !! m = Some r -> Z.of_nat (length es) <= md_holdcount r < 2 ^ 31 ->
  mfor es (fun e => eio_mdupdate_callback e m) w =
    Some (tt, set_md_queue (md_queue w ++ if negb (Nat.eqb (length es) 0) && (md_holdcount r =? Z.of_nat (length es)) then [PostMdupdate m] else [])
      (set_mdreqs (<[m := set_md_holdcount (md_holdcount r - Z.of_nat (length es)) (set_md_error (first_error (md_error r) es) r)]> (mdreqs w)) w)).
Proof.
  induction es as [|e es IH]; intros w r E Hh; cbn [mfor].
  - cbn [length first_error foldl Nat.eqb negb andb]. rewrite app_nil_r, Z.sub_0_r.
    replace (set_md_holdcount (md_holdcount r) (set_md_error (md_error r) r)) with r by by destruct r.
    rewrite insert_id by done. by destruct w.
  - cbn [length] in Hh |- *. rewrite (bind_run _ _ _ _ _ (callback_run _ _ _ _ E)).
    assert (Eh : atomic_dec (md_holdcount r) = md_holdcount r - 1) by (unfold atomic_dec; apply i32_small; lia). rewrite Eh.
    set (e1 := if md_error r =? 0 then e else md_error r). set (r1 := set_md_holdcount _ _). set (w1 := set_md_queue _ _).
    assert (Er1 : mdreqs w1 !! m = Some r1) by apply lookup_insert_eq.
    rewrite (IH w1 r1 Er1) by (cbn; lia). subst w1 r1. cbn [md_holdcount md_error set_md_holdcount set_md_error first_error foldl].
    fold e1. fold (first_error e1 es). do 2 f_equal. unfold set_md_queue, set_mdreqs. cbn. f_equal.
    + rewrite insert_insert_eq. replace (md_holdcount r - Z.of_nat (S (length es))) with (md_holdcount r - 1 - Z.of_nat (length es)) by lia. by destruct r.
    + rewrite <-app_assoc. f_equal. destruct es as [|e' es]; cbn [length Nat.eqb negb andb].
      { rewrite app_nil_r. assert ((md_holdcount r - 1 =? 0) = (md_holdcount r =? 1)) as -> by lia. reflexivity. }
      replace (md_holdcount r - 1 =? 0) with false by (symmetry; apply Z.eqb_neq; cbn [length] in Hh; lia). cbn [app].
      assert ((md_holdcount r - 1 =? Z.of_nat (S (length es))) = (md_holdcount r =? Z.of_nat (S (S (length es))))) as -> by (apply eq_true_iff_eq; rewrite !Z.eqb_eq; lia). done.
Qed.

(** ** The counters *)

(** the dirty blocks the counters count: not those still being dirtied *)
Definition counted_block (d : cache_c) (i : Z) : bool := is_dirty d i && negb (EIO_CACHE_STATE_GET d i =? DIRTY_INPROG).
Definition count_blocks (d : cache_c) (l : list Z) : Z := Z.of_nat (length (List.filter (counted_block d) l)).
Record nr_counted (d : cache_c) (set : Z) : Prop := {
  nc_set : cs_nr_dirty (cache_sets d !!! set) = count_blocks d (set_blocks d set);
  nc_all : nr_dirty d = count_blocks d (all_blocks d)
}.

Lemma filter_add (p p' : Z -> bool) l i : NoDup l -> i ∈ l -> p i = false -> p' i = true ->
  (forall j, j <> i -> p' j = p j) -> length (List.filter p' l) = S (length (List.filter p l)).
Proof.
  intros Hnd Hi Hp Hp' Ho. induction l as [|j l IH]; [by apply not_elem_of_nil in Hi|]. cbn [List.filter].
  apply NoDup_cons in Hnd as [Hj Hnd]. apply elem_of_cons in Hi as [->|Hi].
  - rewrite Hp, Hp'. cbn [length]. f_equal. f_equal. apply filter_ext_in. intros k Hk%list_elem_of_In. apply Ho. by intros ->.
  - rewrite (Ho j) by by intros ->. destruct (p j); cbn [length]; by rewrite IH.
Qed.

Lemma count_blocks_bound d l : 0 <= count_blocks d l <= Z.of_nat (length l).
Proof.
  unfold count_blocks. split; [lia|]. apply Nat2Z.inj_le. induction l as [|i l IH]; cbn [List.filter length]; [done|].
  destruct (counted_block d i); cbn [length]; lia.
Qed.
Lemma count_blocks_ext d d' l : (forall i, i ∈ l -> EIO_CACHE_STATE_GET d' i = EIO_CACHE_STATE_GET d i) -> count_blocks d' l = count_blocks d l.
Proof.
  intros H. unfold count_blocks. do 2 f_equal. apply filter_ext_in. intros i Hi%list_elem_of_In.
  unfold counted_block, is_dirty. by rewrite H.
Qed.
(** a block that was being dirtied gets another state *)
Lemma count_blocks_set d i s l : NoDup l -> i ∈ l -> EIO_CACHE_STATE_GET d i = DIRTY_INPROG -> 0 <= s < 256 -> s <> DIRTY_INPROG ->
  count_blocks (EIO_CACHE_STATE_SET d i s) l = count_blocks d l + if tst s DIRTY then 1 else 0.
Proof.
  intros Hnd Hi Hst Hs Hne.
  assert (Hp : counted_block d i = false) by (unfold counted_block; by rewrite Hst, Z.eqb_refl, andb_false_r).
  assert (Hp' : counted_block (EIO_CACHE_STATE_SET d i s) i = tst s DIRTY).
  { unfold counted_block, is_dirty. rewrite state_get_set_eq by done. by rewrite (proj2 (Z.eqb_neq _ _) Hne), andb_true_r. }
  assert (Ho : forall j, j <> i -> counted_block (EIO_CACHE_STATE_SET d i s) j = counted_block d j).
  { intros j Hj. unfold counted_block, is_dirty. by rewrite state_get_set_ne by by intros ->. }
  unfold count_blocks. destruct (tst s DIRTY).
  - rewrite (filter_add (counted_block d) _ l i) by done. lia.
  - rewrite Z.add_0_r. do 2 f_equal. apply filter_ext_in. intros j _. destruct (decide (j = i)) as [->|]; [congruence|by apply Ho].
Qed.

(** ** The blocks *)
Definition settled (error : Z) : Z := if error =? 0 then ALREADY_DIRTY else INVALID.

Record posted (set error : Z) (idx : list Z) (d d' : cache_c) : Prop := {
  po_frame : exists c c8 z cs n st, d' = set_stats st (set_nr_dirty n (set_cache_sets cs (set_index_zero z (set_cache c (set_cache_md8 c8 d)))));
  po_sets : forall s, cs_flags (cache_sets d' !!! s) = cs_flags (cache_sets d !!! s) /\ cs_mdreq (cache_sets d' !!! s) = cs_mdreq (cache_sets d !!! s);
  po_blk : blk_inv d';
  po_dbn : forall i, 0 <= i -> error = 0 \/ i ∉ idx -> EIO_DBN_GET d' i = EIO_DBN_GET d i;
  po_state : forall i, EIO_CACHE_STATE_GET d' i = if bool_decide (i ∈ idx) then settled error else EIO_CACHE_STATE_GET d i;
  po_count : nr_counted d' set
}.

Lemma posted_geom set error idx d d' : posted set error idx d d' -> layout d' = layout d /\ mode d' = mode d.
Proof. intros [(c & c8 & z & cs & n & st & ->) _ _ _ _ _]. done. Qed.

(** the statistics and the counters, after the state of the block *)
Lemma post_block_run set error i d : EIO_CACHE_STATE_GET d i = DIRTY_INPROG ->
  exists st, post_block set error i d = Some (tt, set_stats st
    (if error =? 0 then inc_nr_dirty set (EIO_CACHE_STATE_SET d i (settled error)) else EIO_CACHE_STATE_SET d i (settled error))).
Proof.
  intros Hst. unfold post_block. rewrite bind_gets, bind_assert by by apply Z.eqb_eq. unfold settled.
  destruct (Z.eqb_spec error 0); cbn [negb]; [rewrite bind_modify|]; eexists; reflexivity.
Qed.

Lemma counted_sizes d set : blk_inv d -> dmc_size d < 2 ^ 31 ->
  0 <= count_blocks d (set_blocks d set) <= 2 ^ 23 /\ 0 <= count_blocks d (all_blocks d) < 2 ^ 31.
Proof.
  intros Hinv Hsz. pose proof (count_blocks_bound d (set_blocks d set)) as B1. pose proof (count_blocks_bound d (all_blocks d)) as B2.
  assert (L1 : length (set_blocks d set) = Z.to_nat (assoc d)) by apply length_seqZ.
  assert (L2 : length (all_blocks d) = Z.to_nat (dmc_size d)) by apply length_seqZ. rewrite L1 in B1. rewrite L2 in B2.
  pose proof (assoc_pos d (bi_geom d Hinv)). pose proof (set_sectors_bound d (bi_geom d Hinv)).
  pose proof (block_size_pos d (bi_geom d Hinv)). assert (assoc d <= 2 ^ 23) by nia. lia.
Qed.

Lemma post_block_ok set error d i : blk_inv d -> 0 <= set < num_sets d -> dmc_size d < 2 ^ 31 -> nr_counted d set ->
  i ∈ set_blocks d set -> EIO_CACHE_STATE_GET d i = DIRTY_INPROG ->
  exists d', post_block set error i d = Some (tt, d') /\ posted set error [i] d d'.
Proof.
  intros Hinv Hset Hsz [Nc Na] Hi Hst. pose proof (set_blocks_range d set i (bi_geom d Hinv) Hset Hi) as Hr.
  destruct (post_block_run set error i d Hst) as [st E]. eexists. split; [exact E|]. clear E.
  assert (Hs : 0 <= settled error < 256 /\ (settled error = INVALID \/ Z.land (settled error) 3 = VALID) /\ settled error <> DIRTY_INPROG /\
    tst (settled error) DIRTY = (error =? 0)) by (unfold settled; destruct (error =? 0); (split; [done|]); (split; [(by left) || (by right)|done])).
  destruct Hs as (Hs1 & Hs2 & Hs3 & Hs4).
  assert (I1 : blk_inv (EIO_CACHE_STATE_SET d i (settled error))).
  { apply blk_inv_set_state; [done|done|done|]. destruct Hs2; [by left|right; split; [done|by rewrite Hst]]. }
  pose proof (count_blocks_set d i _ (set_blocks d set) (NoDup_seqZ _ _) Hi Hst Hs1 Hs3) as C1.
  pose proof (count_blocks_set d i _ (all_blocks d) (NoDup_seqZ _ _) ltac:(apply elem_of_seqZ; lia) Hst Hs1 Hs3) as C2. rewrite Hs4 in C1, C2.
  assert (Hdbn : forall j, 0 <= j -> error = 0 \/ j ∉ [i] -> EIO_DBN_GET (EIO_CACHE_STATE_SET d i (settled error)) j = EIO_DBN_GET d j).
  { intros j Hj [->|Hne]; (apply state_set_dbn; [apply Hinv|done|done|]); [right; by rewrite Hst|left].
    intros ->. by apply Hne, list_elem_of_singleton. }
  assert (Hstate : forall j, EIO_CACHE_STATE_GET (EIO_CACHE_STATE_SET d i (settled error)) j =
    if bool_decide (j ∈ [i]) then settled error else EIO_CACHE_STATE_GET d j).
  { intros j. destruct (decide (i = j)) as [<-|Hne].
    - rewrite bool_decide_true by (by apply list_elem_of_singleton). by rewrite state_get_set_eq.
    - rewrite bool_decide_false by (by intros ?%list_elem_of_singleton). by rewrite state_get_set_ne. }
  destruct (counted_sizes d set Hinv Hsz) as [B1 B2]. destruct (state_set_md_only d i (settled error)) as (c & c8 & z & Ed).
  set (d1 := EIO_CACHE_STATE_SET d i (settled error)) in *.
  assert (Eb : set_blocks d1 set = set_blocks d set /\ all_blocks d1 = all_blocks d /\ cache_sets d1 = cache_sets d /\ nr_dirty d1 = nr_dirty d) by by rewrite Ed.
  destruct Eb as (Eb1 & Eb2 & Eb3 & Eb4).
  destruct (error =? 0).
  - assert (S1 : same_md d1 (set_stats st (inc_nr_dirty set d1))) by done.
    constructor.
    + eexists c, c8, z, _, _, st. unfold inc_nr_dirty. rewrite Ed. reflexivity.
    + intros s. cbn. rewrite lookup_total_insert, Eb3. by case_decide as Es; [subst s|].
    + by apply (blk_inv_same d1).
    + intros j Hj Hc. rewrite (same_md_dbn _ _ S1). by apply Hdbn.
    + intros j. rewrite (same_md_state _ _ S1). apply Hstate.
    + constructor; cbn [set_stats inc_nr_dirty set_nr_dirty set_cache_sets cache_sets nr_dirty].
      * rewrite lookup_total_insert_eq. cbn [cs_nr_dirty]. rewrite Eb3, Nc. change (set_blocks _ set) with (set_blocks d1 set) at 2.
        rewrite Eb1. unfold u32. rewrite Z.mod_small by lia. rewrite <-C1. by apply count_blocks_ext.
      * rewrite Eb4, Na. change (all_blocks _) with (all_blocks d1) at 2. rewrite Eb2. unfold atomic64_inc, i64. rewrite Z.mod_small by lia.
        rewrite <-C2 in *. transitivity (count_blocks d1 (all_blocks d)); [lia|]. by apply count_blocks_ext.
  - assert (S1 : same_md d1 (set_stats st d1)) by done. constructor.
    + eexists c, c8, z, (cache_sets d), (nr_dirty d), st. rewrite Ed. by destruct d.
    + intros s. cbn. by rewrite Eb3.
    + by apply (blk_inv_same d1).
    + intros j Hj Hc. rewrite (same_md_dbn _ _ S1). by apply Hdbn.
    + intros j. rewrite (same_md_state _ _ S1). apply Hstate.
    + constructor; cbn [set_stats cache_sets nr_dirty].
      * rewrite Eb3, Nc. change (set_blocks _ set) with (set_blocks d1 set) at 2. rewrite Eb1. rewrite Z.add_0_r in C1. rewrite <-C1. by apply count_blocks_ext.
      * rewrite Eb4, Na. change (all_blocks _) with (all_blocks d1) at 2. rewrite Eb2. rewrite Z.add_0_r in C2. rewrite <-C2. by apply count_blocks_ext.
Qed.

Lemma posted_nil set error d : blk_inv d -> nr_counted d set -> posted set error [] d d.
Proof.
  intros Hinv Hc. constructor; try done.
  exists (cache d), (cache_md8 d), (index_zero d), (cache_sets d), (nr_dirty d), (stats d). by destruct d.
Qed.
Lemma posted_cons set error i idx d d1 d' : i ∉ idx -> posted set error [i] d d1 -> posted set error idx d1 d' -> posted set error (i :: idx) d d'.
Proof.
  intros Hi [(c & c8 & z & cs & n & st & ->) S1 I1 D1 T1 C1] [(c' & c8' & z' & cs' & n' & st' & ->) S2 I2 D2 T2 C2]. constructor.
  - exists c', c8', z', cs', n', st'. by destruct d.
  - intros s. destruct (S1 s), (S2 s). split; congruence.
  - done.
  - intros j Hj Hc. rewrite D2, D1; [done|done| |done|]; (destruct Hc as [?|Hc]; [by left|right]).
    + intros ->%list_elem_of_singleton. apply Hc, elem_of_cons. by left.
    + intros ?. apply Hc, elem_of_cons. by right.
  - intros j. rewrite T2, T1. destruct (decide (j = i)) as [->|Hne].
    + rewrite (bool_decide_false (i ∈ idx)), (bool_decide_true (i ∈ [i])), (bool_decide_true (i ∈ i :: idx)); [done|apply elem_of_cons; by left|by apply list_elem_of_singleton|done].
    + rewrite (bool_decide_false (j ∈ [i])) by by intros ?%list_elem_of_singleton.
      rewrite (bool_decide_ext (j ∈ i :: idx) (j ∈ idx)); [done|]. rewrite elem_of_cons. split; [intros [?|?]; done|by right].
  - done.
Qed.

Lemma post_blocks_ok set error : forall es idx w, blk_inv (io_d w) -> 0 <= set < num_sets (io_d w) -> dmc_size (io_d w) < 2 ^ 31 ->
  nr_counted (io_d w) set -> length es = length idx -> (forall k e, es !! k = Some e -> index_of w e = idx !! k) -> NoDup idx ->
  (forall i, i ∈ idx -> i ∈ set_blocks (io_d w) set /\ EIO_CACHE_STATE_GET (io_d w) i = DIRTY_INPROG) ->
  exists d', mfor es (fun e => eb <- the_ebio e ;; on_dmc (post_block set error (eb_index eb))) w = Some (tt, set_io_cw (set_cw_d d' (io_cw w)) w) /\
    posted set error idx (io_d w) d'.
Proof.
  induction es as [|e es IH]; intros idx w Hinv Hset Hsz Hc Hl Hix Hnd Hst; destruct idx as [|i idx]; try discriminate; cbn [mfor].
  { exists (io_d w). split; [by destruct w as [[]]|by apply posted_nil]. }
  pose proof (Hix 0%nat e eq_refl) as Hi. cbn [lookup list_lookup] in Hi. unfold index_of in Hi.
  destruct (ebios w !! e) as [eb|] eqn:Ee; [|done]. injection Hi as Hi.
  apply NoDup_cons in Hnd as [Hni Hnd]. destruct (Hst i) as [Hib Hs]; [apply elem_of_cons; by left|].
  rewrite bind_bind, (bind_run _ _ _ _ _ (the_ebio_run _ _ _ Ee)), Hi.
  destruct (post_block_ok set error (io_d w) i Hinv Hset Hsz Hc Hib Hs) as (d1 & E1 & P1).
  assert (E2 : on_dmc (post_block set error i) w = Some (tt, set_io_cw (set_cw_d d1 (io_cw w)) w)).
  { unfold on_dmc, on_cw, on_cache. unfold io_d in E1. by rewrite E1. }
  rewrite (bind_run _ _ _ _ _ E2). set (w1 := set_io_cw _ w).
  pose proof (layout_geom _ _ (proj1 (posted_geom _ _ _ _ _ P1))) as Eg. destruct (geom_fields _ _ Eg) as (Es & _ & _ & _ & _ & En & _).
  destruct (IH idx w1) as (d' & E3 & P3).
  - apply P1. - change (io_d w1) with d1. by rewrite En. - change (io_d w1) with d1. by rewrite Es. - apply P1. - by injection Hl.
  - intros k e' Hk. exact (Hix (S k) e' Hk).
  - done.
  - change (io_d w1) with d1. intros j Hj. rewrite (set_blocks_geom _ _ _ Eg), (po_state _ _ _ _ _ P1), bool_decide_false.
    + apply Hst, elem_of_cons. by right.
    + by intros ->%list_elem_of_singleton.
  - exists d'. split; [rewrite E3; subst w1; by destruct w as [[]]|]. by apply (posted_cons set error i idx _ d1).
Qed.

(** ** What the metadata says of the blocks *)
Lemma sound_for_ext p p' d d' k s : layout d' = layout d ->
  (forall i, i ∈ set_blocks d s -> p' i = p i /\ EIO_DBN_GET d' i = EIO_DBN_GET d i) -> sound_for p d k s -> sound_for p' d' k s.
Proof.
  intros El H Hs i Hi. rewrite (set_blocks_geom _ _ _ (layout_geom _ _ El)) in Hi. destruct (H i Hi) as [Ep Ed].
  destruct (Hs i Hi) as (f & Ef & H1 & H2). exists f. rewrite (flash_entry_layout _ _ _ _ El), Ep, Ed.
  split_and!; [done|done|]. intros Hp Hn. apply (synced_ext d); [done|done|by apply H2].
Qed.

(** after an update that succeeded, the metadata is sound for the committed blocks *)
Lemma posted_sound set idx d d' k s : wf_geom d -> 0 <= s < num_sets d -> posted set 0 idx d d' ->
  (forall i, i ∈ idx -> EIO_CACHE_STATE_GET d i = DIRTY_INPROG) ->
  sound_for (committed_with d idx) d k s -> sound_for (committed d') d' k s.
Proof.
  intros Hg Hs P Hst. apply sound_for_ext; [by apply (posted_geom _ _ _ _ _ P)|].
  intros i Hi. pose proof (set_blocks_range d s i Hg Hs Hi). split; [|apply P; [lia|by left]].
  unfold committed, committed_with, committed. rewrite (po_state _ _ _ _ _ P).
  destruct (bool_decide_reflect (i ∈ idx)) as [Hx|Hx]; [by rewrite orb_true_r|]. by rewrite orb_false_r.
Qed.
Lemma posted_contents set idx d d' k s : wf_geom d -> 0 <= s -> posted set 0 idx d d' ->
  contents (committed d') d' k s = contents (committed_with d idx) d k s.
Proof.
  intros Hg Hs P. apply contents_ext; [by apply (posted_geom _ _ _ _ _ P)|].
  intros i Hi. destruct (dbn_to_set_spec d s Hg Hs) as [Hset _]. pose proof (set_blocks_range d _ i Hg Hset Hi). split; [|apply P; [lia|by left]].
  unfold committed, committed_with, committed. rewrite (po_state _ _ _ _ _ P).
  destruct (bool_decide_reflect (i ∈ idx)) as [Hx|Hx]; [by rewrite orb_true_r|]. by rewrite orb_false_r.
Qed.

(** ** [eio_post_mdupdate] *)
Section kernel.
Context {K : Kernel} (k0 : kmem) (held : Z -> Z).

(** an update whose writes have ended: it owns its request, whose splits are
    those of the blocks [idx], being dirtied *)
Record post_ready (inflight : list Z) (w : io_world) (m : Z) (r : mdupdate_request) (idx : list Z) : Prop := {
  pr_req : mdreqs w !! m = Some r;
  pr_blk : blk_inv (io_d w);
  pr_set : 0 <= md_set r < num_sets (io_d w);
  pr_size : dmc_size (io_d w) < 2 ^ 31 /\ num_sets (io_d w) < 2 ^ 62;
  pr_wb : mode (io_d w) = CACHE_MODE_WB;
  pr_count : nr_counted (io_d w) (md_set r);
  pr_index : length (inprog_mdlist r) = length idx /\ forall k e, inprog_mdlist r !! k = Some e -> index_of w e = idx !! k;
  pr_nodup : NoDup (inprog_mdlist r) /\ NoDup idx;
  pr_state : forall i, i ∈ idx -> i ∈ set_blocks (io_d w) (md_set r) /\ EIO_CACHE_STATE_GET (io_d w) i = DIRTY_INPROG;
  pr_main : forall e eb, e ∈ inprog_mdlist r -> ebios w !! e = Some eb -> eb_iotype eb = EB_MAIN_IO;
  pr_refs : refs_ok k0 held w;
  pr_out : forall b c, bcs w !! b = Some c -> m ∉ bc_mdreqs c;
  pr_cleanq : cleanq_inv inflight (io_d w);
  pr_lru : dirty_lru_inv (io_d w)
}.

Record post_outcome (inflight : list Z) (w : io_world) (m : Z) (r : mdupdate_request) (idx : list Z) (w' : io_world) : Prop := {
  pt_blocks : exists d, posted (md_set r) (md_error r) idx (io_d w) d /\ quiet d (io_d w');
  pt_devices : cw_k (io_cw w') = cw_k (io_cw w) /\ cw_trace (io_cw w') = cw_trace (io_cw w);
  pt_ended : exists en, bio_ended w' = bio_ended w ++ en /\ NoDup en.*1 /\
    (forall x, x ∈ en.*1 <-> exists b c, bcs w !! b = Some c /\ bc_bio c = x /\ bcs w' !! b = None) /\
    (forall x err, (x, err) ∈ en -> exists b c, bcs w !! b = Some c /\ bc_bio c = x /\ err = if md_error r =? 0 then bc_error c else md_error r);
  pt_ebios : forall e, ebios w' !! e = if decide (e ∈ inprog_mdlist r) then None else ebios w !! e;
  pt_more : if bool_decide (pending_mdlist r = [])
    then md_queue w' = md_queue w /\ mdreqs w' !! m = None /\ cs_mdreq (cache_sets (io_d w') !!! md_set r) = None
    else md_queue w' = md_queue w ++ [DoMdupdate m] /\ mdreqs w' !! m = Some (set_md_lists (pending_mdlist r) [] r) /\
         cs_mdreq (cache_sets (io_d w') !!! md_set r) = cs_mdreq (cache_sets (io_d w) !!! md_set r);
  pt_refs : refs_ok k0 held w';
  pt_cleanq : cleanq_inv inflight (io_d w');
  pt_lru : dirty_lru_inv (io_d w')
}.

Lemma set_cs_mdreq_quiet set v d : quiet d (set_cs_mdreq set v d).
Proof. constructor; try done. intros s. cbn. rewrite lookup_total_insert. by case_decide as E; [subst s|]. Qed.
Lemma set_cs_mdreq_cleanq inflight set v d : cleanq_inv inflight d -> cleanq_inv inflight (set_cs_mdreq set v d).
Proof.
  intros [H1 H2 H3 H4]. constructor; try done. intros s Hs. cbn. rewrite lookup_total_insert.
  case_decide as E; [subst s; cbn|]; by apply H3.
Qed.
Lemma stats_ios_quiet d d' : stats_ios d d' -> quiet d d'.
Proof. by intros (st & n & ->). Qed.

(** the set's LRU and the thresholds, after an update that succeeded *)
Lemma post_touch inflight jiffies set d : cleanq_inv inflight d -> dirty_lru_inv d -> 0 <= set < num_sets d -> num_sets d < 2 ^ 62 ->
  exists d1 d2, (eio_touch_set_lru jiffies set ;; ret tt) d = Some (tt, d1) /\ eio_comply_dirty_thresholds set d1 = Some (tt, d2) /\
    quiet d d2 /\ cleanq_inv inflight d2 /\ (mode d = CACHE_MODE_WB -> dirty_lru_inv d2) /\
    (forall s, cs_mdreq (cache_sets d2 !!! s) = cs_mdreq (cache_sets d !!! s)).
Proof.
  intros Hcq Hl Hs Hn. destruct (touch_quiet jiffies set d Hl Hs) as (d1 & E1 & Q1 & L1 & Ecs & Ec).
  pose proof (layout_geom _ _ (quiet_layout _ _ Q1)) as Eg. destruct (geom_fields _ _ Eg) as (_ & _ & _ & _ & _ & En & _).
  assert (C1 : cleanq_inv inflight d1).
  { pose proof (f_equal (fun x => x.1.1.2) Ec) as Eq. pose proof (f_equal (fun x => x.1.2) Ec) as Ep. cbn in Eq, Ep.
    destruct Hcq as [H1 H2 H3 H4]. constructor; rewrite ?Eq, ?Ep, ?Ecs, ?En; done. }
  destruct (comply_ok inflight set d1) as (d2 & E2 & O2 & C2 & L2); [by rewrite En|done|done|right; by rewrite En|].
  exists d1, d2. split_and!; [by rewrite (bind_run _ _ _ _ _ E1)|done|by etransitivity; [|apply cleanq_only_quiet]|done| |].
  - intros Hm. apply L2. pose proof (f_equal (fun x => x.1.1.2) (q_rest _ _ Q1)) as Em. cbn in Em. by rewrite Em.
  - intros s. destruct O2 as (cs & q & p & x & l & -> & H). cbn. destruct (H s) as [_ ->]. by rewrite Ecs.
Qed.

Lemma posted_queues inflight set error idx d d' : posted set error idx d d' -> cleanq_inv inflight d -> dirty_lru_inv d ->
  cleanq_inv inflight d' /\ dirty_lru_inv d' /\ num_sets d' = num_sets d.
Proof.
  intros [(c & c8 & z & cs & n & st & ->) S _ _ _ _] [H1 H2 H3 H4] Hl. split_and!; [|done|done].
  constructor; try done. intros s Hs. destruct (S s) as [-> _]. by apply H3.
Qed.
Lemma stats_ios_queues inflight d d' : stats_ios d d' -> cleanq_inv inflight d -> dirty_lru_inv d -> cleanq_inv inflight d' /\ dirty_lru_inv d'.
Proof. intros (st & n & ->) [H1 H2 H3 H4] Hl. by split. Qed.

Definition with_d (d : cache_c) (w : io_world) : io_world := set_io_cw (set_cw_d d (io_cw w)) w.
Lemma with_d_twice d d' w : with_d d' (with_d d w) = with_d d' w.
Proof. by destruct w as [[]]. Qed.
Lemma with_d_same w : with_d (io_d w) w = w.
Proof. by destruct w as [[]]. Qed.
Lemma on_dmc_run {A} (f : M cache_c A) w a d : f (io_d w) = Some (a, d) -> on_dmc f w = Some (a, with_d d w).
Proof. unfold on_dmc, on_cw, on_cache, io_d. by intros ->. Qed.

(** the blocks are settled and, if nothing is pending, the set has no request any more *)
Lemma post_settle inflight w m r idx : post_ready inflight w m r idx -> exists d1 d2 cs,
  (mfor (inprog_mdlist r) (fun e => eb <- the_ebio e ;; on_dmc (post_block (md_set r) (md_error r) (eb_index eb)))) w = Some (tt, with_d d1 w) /\
  (when (negb (negb (bool_decide (pending_mdlist r = [])))) (upd_dmc (set_cs_mdreq (md_set r) None))) (with_d d1 w) = Some (tt, with_d d2 w) /\
  posted (md_set r) (md_error r) idx (io_d w) d1 /\ quiet d1 d2 /\ cleanq_inv inflight d2 /\ dirty_lru_inv d2 /\
  cs_mdreq (cache_sets d2 !!! md_set r) = cs /\
  cs = if bool_decide (pending_mdlist r = []) then None else cs_mdreq (cache_sets (io_d w) !!! md_set r).
Proof.
  intros [Er B Hs [Hsz _] _ Hc [I1 I2] [_ N2] Hst _ _ _ Hcq Hl].
  destruct (post_blocks_ok (md_set r) (md_error r) (inprog_mdlist r) idx w B Hs Hsz Hc I1 I2 N2 Hst) as (d1 & E1 & P1).
  destruct (posted_queues inflight _ _ _ _ _ P1 Hcq Hl) as (C1 & L1 & _).
  destruct (bool_decide_reflect (pending_mdlist r = [])) as [Ep|Ep]; cbn [negb when].
  - exists d1, (set_cs_mdreq (md_set r) None d1), None.
    split; [exact E1|]. split; [by destruct w as [[]]|]. split; [exact P1|]. split; [apply set_cs_mdreq_quiet|].
    split; [by apply set_cs_mdreq_cleanq|]. split; [exact L1|]. split; [|done]. cbn. by rewrite lookup_total_insert_eq.
  - exists d1, d1, (cs_mdreq (cache_sets (io_d w) !!! md_set r)). split_and!; try done. apply P1.
Qed.

Lemma eio_post_mdupdate_ok inflight jiffies w m r idx : post_ready inflight w m r idx ->
  exists w', eio_post_mdupdate jiffies m w = Some (tt, w') /\ post_outcome inflight w m r idx w'.
Proof.
  intros Hq. destruct (post_settle inflight w m r idx Hq) as (d1 & d2 & cs & E1 & E2 & P1 & Q2 & C2 & L2 & Ecs & Hcs).
  destruct Hq as [Er B Hs [Hsz Hn] Hwb Hc [I1 I2] [N1 N2] Hst Hmain Hrefs Hout Hcq Hl].
  unfold eio_post_mdupdate. rewrite (bind_run _ _ _ _ _ (the_mdreq_run _ _ _ Er)). cbv zeta.
  rewrite (bind_run _ _ _ _ _ E1), (bind_run _ _ _ _ _ E2). clear E1 E2.
  rewrite (bind_run _ _ _ _ _ (upd_mdreq_run m _ (with_d d2 w) r Er)). set (r3 := set_md_lists (pending_mdlist r) [] r).
  set (w3 := set_mdreqs _ (with_d d2 w)).
  assert (Hm2 : mode d2 = CACHE_MODE_WB /\ num_sets d2 = num_sets (io_d w)).
  { pose proof (f_equal (fun x => x.1.1.2) (q_rest _ _ Q2)) as Em. cbn in Em. destruct (posted_geom _ _ _ _ _ P1) as [El Emd].
    destruct (geom_fields _ _ (layout_geom _ _ El)) as (_ & _ & _ & _ & _ & En & _).
    destruct (geom_fields _ _ (layout_geom _ _ (quiet_layout _ _ Q2))) as (_ & _ & _ & _ & _ & En2 & _). split; congruence. }
  destruct Hm2 as [Hm2 Hn2].
  assert (R3 : refs_ok k0 held w3).
  { apply (refs_mdreq k0 held (with_d d2 w) m r r3); [|done|done]. apply refs_cw; [done|]. cbn. congruence. }
  destruct (endios_ok k0 jiffies held (md_error r) (inprog_mdlist r) w3 R3 N1) as (w4 & E4 & R4 & [F4 (d4 & D4 & S4) G4 M4 B4 En4]).
  { intros e He. apply list_elem_of_lookup_1 in He as [k Hk]. pose proof (I2 k e Hk) as Hi. unfold index_of in Hi.
    change (ebios w3) with (ebios w). destruct (ebios w !! e) as [eb|] eqn:Ee.
    - exists eb. split; [done|]. intros _. apply (Hmain e); [by apply (list_elem_of_lookup_2 _ k)|done].
    - cbn in Hi. symmetry in Hi. apply lookup_ge_None in Hi. apply lookup_lt_Some in Hk. lia. }
  rewrite (bind_run _ _ _ _ _ E4). clear E4. change (io_d w3) with d2 in S4. assert (Ed4 : io_d w4 = d4) by (unfold io_d; by rewrite D4).
  destruct (stats_ios_queues inflight _ _ S4 C2 L2) as [C4 L4]. pose proof (stats_ios_quiet _ _ S4) as Q4.
  assert (Ecs4 : cs_mdreq (cache_sets d4 !!! md_set r) = cs) by (destruct S4 as (? & ? & ->); exact Ecs).
  assert (H5 : exists d5, (when (md_error r =? 0) (on_dmc (eio_touch_set_lru jiffies (md_set r) ;; ret tt) ;; on_dmc (eio_comply_dirty_thresholds (md_set r)))) w4 = Some (tt, with_d d5 w4) /\
     quiet d4 d5 /\ cleanq_inv inflight d5 /\ dirty_lru_inv d5 /\ cs_mdreq (cache_sets d5 !!! md_set r) = cs).
  { destruct (md_error r =? 0); cbn [when]; [|exists d4; rewrite <-Ed4; by rewrite with_d_same, Ed4].
    assert (Hn4 : num_sets d4 = num_sets (io_d w) /\ mode d4 = CACHE_MODE_WB) by (destruct S4 as (? & ? & ->); by split).
    destruct Hn4 as [Hn4 Hm4].
    destruct (post_touch inflight jiffies (md_set r) d4 C4 L4) as (d5 & d6 & E5 & E6 & Q6 & C6 & L6 & K6); [by rewrite Hn4|by rewrite Hn4|].
    exists d6. rewrite (bind_run _ _ _ _ _ (on_dmc_run _ w4 tt d5 (eq_trans (f_equal _ Ed4) E5))).
    rewrite (on_dmc_run _ (with_d d5 w4) tt d6 E6), with_d_twice. split_and!; [done|done|done|by apply L6|by rewrite K6]. }
  destruct H5 as (d5 & E5 & Q5 & C5 & L5 & Ecs5). rewrite (bind_run _ _ _ _ _ E5). clear E5.
  assert (Q15 : quiet d1 d5) by (etransitivity; [exact Q2|]; etransitivity; [exact Q4|exact Q5]).
  assert (R5 : refs_ok k0 held (with_d d5 w4)).
  { apply refs_cw; [done|]. cbn. rewrite Ed4. exact (f_equal (fun x => x.1.1.2) (q_rest _ _ Q5)). }
  assert (Er4 : mdreqs w4 !! m = Some r3) by (rewrite M4 by exact Hout; apply lookup_insert_eq).
  assert (Hout4 : forall b c, bcs w4 !! b = Some c -> m ∉ bc_mdreqs c).
  { intros b c E. destruct (B4 b c E) as (c0 & E0 & _ & ->). by apply (Hout b). }
  assert (Hk : cw_k (io_cw w4) = cw_k (io_cw w) /\ cw_trace (io_cw w4) = cw_trace (io_cw w)) by (by rewrite D4).
  assert (Hq4 : md_queue w4 = md_queue w) by by destruct F4 as (? & ? & ? & ? & ? & ? & ? & ? & ->).
  destruct (bool_decide_reflect (pending_mdlist r = [])) as [Ep|Ep]; cbn [negb].
  - destruct (refs_free k0 held (with_d d5 w4) m r3 R5 Er4 Hout4) as (k & Ek & Rk). eexists. split; [exact Ek|].
    constructor; try done; [by exists d1|].
    rewrite bool_decide_true by done. split_and!; [exact Hq4|apply lookup_delete_eq|by rewrite <-Hcs].
  - eexists. split; [reflexivity|]. constructor; try done; [by exists d1| |by apply refs_queue].
    rewrite bool_decide_false by done. split_and!; [cbn; by rewrite Hq4|exact Er4|by rewrite <-Hcs].
Qed.
End kernel.

(** * Handing the splits of a bio to the update requests of their sets *)
(** ** The sorted insertion *)

(** the list keeps every element and stays in ascending order of sets *)
Definition by_set (cs : Z -> option Z) (a b : Z) : Prop :=
  exists x y, cs a = Some x /\ cs b = Some y /\ x <= y.

Lemma md_insert_ok cs set ebio : cs ebio = Some set -> forall l, (forall e, e ∈ l -> is_Some (cs e)) -> Sorted (by_set cs) l ->
  exists l', md_insert cs set ebio l = Some l' /\ l' ≡ₚ ebio :: l /\ Sorted (by_set cs) l'.
Proof.
  intros Hs. induction l as [|n l IH]; intros Hl Hsort; cbn [md_insert].
  { exists [ebio]. split_and!; [done|done|]. repeat constructor. }
  destruct (Hl n) as [s Es]; [apply elem_of_cons; by left|]. rewrite Es. apply Sorted_inv in Hsort as [Hsort Hhd].
  destruct (Z.ltb_spec set s) as [H|H].
  - exists (ebio :: n :: l). split_and!; [done|done|]. constructor; [by constructor|]. constructor. exists set, s. split_and!; [done|done|lia].
  - destruct IH as (l' & E & Hp & Hs'); [intros e He; apply Hl, elem_of_cons; by right|done|]. rewrite E.
    exists (n :: l'). split_and!; [done|by rewrite Hp; constructor|]. constructor; [done|].
    destruct l' as [|x l']; [constructor|]. constructor.
    assert (Hx : x ∈ ebio :: l) by (rewrite <-Hp; apply elem_of_cons; by left).
    destruct l as [|y l0]; cbn [md_insert] in E.
    + injection E as <- <-. exists s, set. done.
    + destruct (cs y) as [sy|] eqn:Ey; [|done]. apply HdRel_inv in Hhd.
      destruct (set <? sy); [injection E as <- <-; by exists s, set|].
      destruct (md_insert cs set ebio l0); [|done]. by injection E as <- <-.
Qed.

(** ** The requests of the sets *)
Definition cs_req (w : io_world) (s : Z) : option Z := cs_mdreq (cache_sets (io_d w) !!! s).
Definition pending_of (w : io_world) (s : Z) : list Z :=
  match cs_req w s with Some m => match mdreqs w !! m with Some r => pending_mdlist r | None => [] end | None => [] end.
(** the splits of [l] whose set is [s], the last first *)
Definition of_set (w : io_world) (s : Z) (l : list Z) : list Z :=
  rev (List.filter (fun e => bool_decide (cacheset_of w e = Some s)) l).

(** a set points to a request of its own; the container's requests are not in use *)
Record reqs_ok (bc : Z) (c : bio_container) (w : io_world) : Prop := {
  rq_bc : bcs w !! bc = Some c;
  rq_set : forall s m, cs_req w s = Some m -> exists r, mdreqs w !! m = Some r /\ md_set r = s;
  rq_free : NoDup (bc_mdreqs c) /\ forall m, m ∈ bc_mdreqs c -> is_Some (mdreqs w !! m) /\ forall s, cs_req w s <> Some m
}.

Record enq_done (bc : Z) (c : bio_container) (l : list Z) (carry : list Z) (w w' : io_world) : Prop := {
  eq_frame : exists q cs ms bc', w' = set_md_queue q (set_bcs bc' (set_mdreqs ms (with_d (set_cache_sets cs (io_d w)) w)));
  eq_quiet : quiet (io_d w) (io_d w');
  eq_new : exists new rest, bc_mdreqs c = new ++ rest /\ bcs w' = <[bc := set_bc_mdlist [] (set_bc_mdreqs rest c)]> (bcs w) /\
    md_queue w' = md_queue w ++ map DoMdupdate (carry ++ new) /\
    (forall s m, cs_req w' s = Some m -> cs_req w s = Some m \/ cs_req w s = None /\ m ∈ new /\ exists e, e ∈ l /\ cacheset_of w e = Some s);
  eq_old : forall s m, cs_req w s = Some m -> cs_req w' s = Some m;
  eq_all : forall e s, e ∈ l -> cacheset_of w e = Some s -> is_Some (cs_req w' s);
  eq_pending : forall s, pending_of w' s = of_set w s l ++ pending_of w s;
  eq_reqs : forall s m, cs_req w' s = Some m -> exists r, mdreqs w' !! m = Some r /\ md_set r = s
}.

Lemma of_set_cons w s e l : of_set w s (e :: l) = of_set w s l ++ if bool_decide (cacheset_of w e = Some s) then [e] else [].
Proof. unfold of_set. cbn [List.filter]. destruct (bool_decide _); cbn [rev]; [done|by rewrite app_nil_r]. Qed.

Section enq.
Context (bc : Z).

(** the split joins the request of its set, [m] *)
Record joined (c : bio_container) (e s m : Z) (c1 : bio_container) (w w1 : io_world) : Prop := {
  jn_frame : exists cs ms bc', w1 = set_bcs bc' (set_mdreqs ms (with_d (set_cache_sets cs (io_d w)) w));
  jn_quiet : quiet (io_d w) (io_d w1);
  jn_bcs : bcs w1 = <[bc := c1]> (bcs w);
  jn_reqs : reqs_ok bc c1 w1;
  jn_cs : forall s', cs_req w1 s' = if decide (s' = s) then Some m else cs_req w s';
  jn_pending : forall s', pending_of w1 s' = (if decide (s' = s) then [e] else []) ++ pending_of w s'
}.

Lemma cs_req_set w s v s' cs : cs_mdreq (cache_sets (set_cs_mdreq s v (io_d w)) !!! s') = cs ->
  cs = if decide (s' = s) then v else cs_req w s'.
Proof. intros <-. cbn. rewrite lookup_total_insert. by repeat case_decide; [subst|..]. Qed.

Lemma enq_old c w e s flag m : reqs_ok bc c w -> cs_req w s = Some m ->
  exists w1, enq_ebio bc e s flag w = Some ((m, flag), w1) /\ joined c e s m c w w1.
Proof.
  intros [Hb Hs [Hn Hf]] Em. destruct (Hs s m Em) as (r & Er & Ers). unfold enq_ebio. rewrite bind_gets. fold (cs_req w s). rewrite Em.
  rewrite (bind_run _ _ _ _ _ (upd_mdreq_run _ _ _ _ Er)). eexists. split; [reflexivity|]. set (r1 := set_md_lists _ _ r).
  assert (Ecs : forall s', cs_req (set_mdreqs (<[m := r1]> (mdreqs w)) w) s' = cs_req w s') by done.
  constructor.
  - exists (cache_sets (io_d w)), (<[m := r1]> (mdreqs w)), (bcs w). by destruct w as [[[]]].
  - done.
  - cbn. by rewrite insert_id.
  - constructor; [done| |split; [done|]].
    + intros s' m' E'. rewrite Ecs in E'. destruct (Hs s' m' E') as (r' & Er' & Ers'). cbn.
      destruct (decide (m = m')) as [<-|Hne]; [exists r1; rewrite lookup_insert_eq; split; [done|]; cbn; congruence|].
      exists r'. by rewrite lookup_insert_ne.
    + intros m' Hm'. destruct (Hf m' Hm') as [[r' Er'] Hno]. split; [|done]. cbn.
      destruct (decide (m = m')) as [<-|Hne]; [by rewrite lookup_insert_eq; eexists|rewrite lookup_insert_ne by done; by eexists].
  - intros s'. rewrite Ecs. by case_decide as E; [subst s'|].
  - intros s'. unfold pending_of. rewrite Ecs. case_decide as E.
    + subst s'. rewrite Em, Er. cbn. by rewrite lookup_insert_eq.
    + destruct (cs_req w s') as [m'|] eqn:Em'; [|done]. cbn. rewrite lookup_insert_ne; [done|].
      intros <-. destruct (Hs s' m Em') as (r' & Er' & Ers'). congruence.
Qed.

Lemma enq_fresh c w e s flag m ms : reqs_ok bc c w -> cs_req w s = None -> bc_mdreqs c = m :: ms ->
  exists w1, enq_ebio bc e s flag w = Some ((m, true), w1) /\ joined c e s m (set_bc_mdreqs ms c) w w1.
Proof.
  intros [Hb Hs [Hn Hf]] Em Ec. rewrite Ec in Hn, Hf. apply NoDup_cons in Hn as [Hm Hn].
  destruct (Hf m) as [[r Er] Hno]; [apply elem_of_cons; by left|]. unfold enq_ebio. rewrite bind_gets. fold (cs_req w s). rewrite Em.
  rewrite (bind_run _ _ _ _ _ (the_bc_run _ _ _ Hb)), Ec, (bind_run _ _ _ _ _ (upd_bc_run _ _ _ _ Hb)).
  set (c1 := set_bc_mdreqs ms c). set (w1 := set_bcs _ w). rewrite (bind_run _ _ _ _ _ (upd_mdreq_run m _ w1 r Er)).
  set (r1 := mk_mdreq s (mdblk_bvecs r) (md_holdcount r) [e] (inprog_mdlist r) (md_error r)).
  rewrite (bind_run _ _ _ _ _ (upd_dmc_run _ _)). eexists. split; [reflexivity|].
  set (w2 := set_io_cw _ _). assert (Ems : mdreqs w2 = <[m := r1]> (mdreqs w)) by done.
  assert (Ecs : forall s', cs_req w2 s' = if decide (s' = s) then Some m else cs_req w s').
  { intros s'. by apply (cs_req_set w s (Some m) s'). }
  assert (Hother : forall s' m', cs_req w s' = Some m' -> m' <> m) by (intros s' m' E' ->; by apply (Hno s')).
  constructor.
  - eexists _, (<[m := r1]> (mdreqs w)), (<[bc := c1]> (bcs w)). reflexivity.
  - apply set_cs_mdreq_quiet.
  - done.
  - constructor; [apply lookup_insert_eq| |split; [done|]].
    + intros s' m'. rewrite Ecs, Ems. case_decide as E; [intros [= <-]; exists r1; subst s'; by rewrite lookup_insert_eq|].
      intros E'. rewrite lookup_insert_ne by (symmetry; by apply (Hother s')). by apply Hs.
    + intros m' Hm'. destruct (Hf m') as [[r' Er'] Hno']; [apply elem_of_cons; by right|]. assert (m <> m') by by intros ->. rewrite Ems. split.
      * rewrite lookup_insert_ne by done. by eexists.
      * intros s'. rewrite Ecs. case_decide; [congruence|apply Hno'].
  - exact Ecs.
  - intros s'. unfold pending_of. rewrite Ecs, Ems. case_decide as E.
    + subst s'. by rewrite lookup_insert_eq, Em.
    + destruct (cs_req w s') as [m'|] eqn:Em'; [|done]. by rewrite lookup_insert_ne by (symmetry; by apply (Hother s')).
Qed.

Lemma joined_ebios c e s m c1 w w1 : joined c e s m c1 w w1 -> ebios w1 = ebios w /\ md_queue w1 = md_queue w.
Proof. by intros [(cs & ms & bc' & ->) _ _ _ _ _]. Qed.
Lemma of_set_ext w w' s l : ebios w' = ebios w -> of_set w' s l = of_set w s l.
Proof. intros E. unfold of_set, cacheset_of. by rewrite E. Qed.
Lemma reqs_mdlist c w l : reqs_ok bc c w -> reqs_ok bc (set_bc_mdlist l c) (set_bcs (<[bc := set_bc_mdlist l c]> (bcs w)) w).
Proof. intros [Hb Hs Hf]. constructor; [apply lookup_insert_eq|exact Hs|exact Hf]. Qed.

(** requests enough: one for each set of [l] that has none *)
Definition enough (w : io_world) (c : bio_container) (l : list Z) : Prop :=
  forall D, NoDup D -> (forall s, s ∈ D -> cs_req w s = None /\ exists e, e ∈ l /\ cacheset_of w e = Some s) -> (length D <= length (bc_mdreqs c))%nat.

(** the first split of the list joins, the others follow *)
Lemma enq_compose c e s l m c1 carry carry' new0 w w0 w1 w' : cacheset_of w e = Some s ->
  w0 = set_bcs (<[bc := set_bc_mdlist l c]> (bcs w)) w -> joined (set_bc_mdlist l c) e s m c1 w0 w1 ->
  enq_done bc c1 l carry' w1 w' -> carry' = carry ++ new0 -> bc_mdreqs c = new0 ++ bc_mdreqs c1 ->
  c1 = set_bc_mdreqs (bc_mdreqs c1) (set_bc_mdlist l c) -> (new0 = [] /\ cs_req w s = Some m \/ new0 = [m] /\ cs_req w s = None) ->
  enq_done bc c (e :: l) carry w w'.
Proof.
  intros He -> [F Q Hb Hr Hcs Hp] [F' Q' (new & rest & N1 & N2 & N3 & N4) O' A' P' R'] Ecar Hnew Ec1 Hcase.
  assert (Ees : ebios w1 = ebios w) by by destruct F as (? & ? & ? & ->).
  assert (Eq1 : md_queue w1 = md_queue w) by by destruct F as (? & ? & ? & ->).
  assert (Ecs : forall e', cacheset_of w1 e' = cacheset_of w e') by (intros; unfold cacheset_of; by rewrite Ees).
  constructor.
  - destruct F as (cs & ms & bc' & Ew1). destruct F' as (q & cs' & ms' & bc'' & ->). exists q, cs', ms', bc''. rewrite Ew1. by destruct w as [[[]]].
  - by etransitivity.
  - exists (new0 ++ new), rest. split_and!.
    + by rewrite Hnew, N1, app_assoc.
    + rewrite N2, Hb. cbn [bcs set_bcs]. rewrite !insert_insert_eq. f_equal. rewrite Ec1. by destruct c.
    + by rewrite N3, Eq1, Ecar, app_assoc.
    + intros s' m' E'. destruct (N4 s' m' E') as [E1|(E1 & Hin & e' & He' & Es')].
      * rewrite Hcs in E1. case_decide as Es; [subst s'|by left]. injection E1 as <-. destruct Hcase as [[-> ?]|[-> ?]]; [by left|].
        right. split_and!; [done|apply elem_of_cons; by left|]. exists e. split; [apply elem_of_cons; by left|done].
      * right. rewrite Hcs in E1. case_decide as Es; [done|]. split_and!; [done|apply elem_of_app; by right|].
        exists e'. split; [apply elem_of_cons; by right|by rewrite <-Ecs].
  - intros s' m' E'. apply O'. rewrite Hcs. case_decide as Es; [|done]. subst s'. change (cs_req w s = Some m') in E'.
    destruct Hcase as [[_ ?]|[_ ?]]; congruence.
  - intros e' s' [->|He']%elem_of_cons E'.
    + assert (s' = s) as -> by congruence. exists m. apply O'. rewrite Hcs. by rewrite decide_True.
    + apply (A' e'); [done|by rewrite Ecs].
  - intros s'. rewrite P', Hp, (of_set_ext w w1) by done. rewrite of_set_cons, <-app_assoc. f_equal. change (pending_of _ s') with (pending_of w s') at 1.
    f_equal. rewrite He. case_decide as Es; [subst s'; by rewrite bool_decide_true|by rewrite bool_decide_false by congruence].
  - exact R'.
Qed.

(** scheduling the request of a run that ends *)
Lemma enq_done_carry c l m w w' : enq_done bc c l [] (set_md_queue (md_queue w ++ [DoMdupdate m]) w) w' -> enq_done bc c l [m] w w'.
Proof.
  intros [F Q (new & rest & N1 & N2 & N3 & N4) O A P R]. constructor; [|exact Q| |exact O|exact A|exact P|exact R].
  - destruct F as (q & cs & ms & bc' & ->). exists q, cs, ms, bc'. reflexivity.
  - exists new, rest. split; [exact N1|]. split; [exact N2|]. split; [|exact N4]. rewrite N3. cbn. by rewrite <-app_assoc.
Qed.

(** whether a schedule is due: for the request of the first split *)
Definition due (w : io_world) (l : list Z) (flag : bool) (carry : list Z) : Prop :=
  if flag then exists e l' s m, l = e :: l' /\ cacheset_of w e = Some s /\ cs_req w s = Some m /\ carry = [m] else carry = [].

Lemma enq_first c c0 w w0 e l s flag carry : reqs_ok bc c0 w0 -> c0 = set_bc_mdlist l c -> w0 = set_bcs (<[bc := c0]> (bcs w)) w ->
  cacheset_of w e = Some s -> enough w c (e :: l) -> due w (e :: l) flag carry ->
  exists m fl c1 w1 new0, enq_ebio bc e s flag w0 = Some ((m, fl), w1) /\ joined c0 e s m c1 w0 w1 /\
    (if (fl : bool) then [m] else []) = carry ++ new0 /\ bc_mdreqs c = new0 ++ bc_mdreqs c1 /\ c1 = set_bc_mdreqs (bc_mdreqs c1) c0 /\
    (new0 = [] /\ cs_req w s = Some m \/ new0 = [m] /\ cs_req w s = None).
Proof.
  intros Hr0 Ec0 Ew0 Ecse Hen Hflag. unfold due in Hflag.
  destruct (cs_req w s) as [m|] eqn:Em.
  - destruct (enq_old c0 w0 e s flag m Hr0 ltac:(by rewrite Ew0))  as (w1 & E1 & J1). exists m, flag, c0, w1, []. split_and!; [done|done| |by rewrite Ec0|by subst c0; destruct c|by left].
    rewrite app_nil_r. destruct flag; [|done]. destruct Hflag as (e' & l' & s' & m' & [= <- <-] & Es' & Em' & ->). rewrite Ecse in Es'. congruence.
  - destruct flag; [destruct Hflag as (e' & l' & s' & m' & [= <- <-] & Es' & Em' & ->); congruence|]. subst carry.
    destruct (bc_mdreqs c) as [|m ms] eqn:Ec.
    { specialize (Hen [s]). rewrite Ec in Hen. cbn in Hen. assert (1 <= 0)%nat; [|lia]. apply Hen; [apply NoDup_singleton|].
      intros s' ->%list_elem_of_singleton. split; [done|]. exists e. split; [apply elem_of_cons; by left|done]. }
    destruct (enq_fresh c0 w0 e s false m ms Hr0 ltac:(by rewrite Ew0) ltac:(by rewrite Ec0)) as (w1 & E1 & J1). exists m, true, (set_bc_mdreqs ms c0), w1, [m].
    split_and!; [done|done|done|done|by subst c0; destruct c|by right].
Qed.

Lemma enough_tail c c0 c1 e s m l new0 w w0 w1 : joined c0 e s m c1 w0 w1 -> w0 = set_bcs (<[bc := c0]> (bcs w)) w ->
  cacheset_of w e = Some s -> enough w c (e :: l) -> bc_mdreqs c = new0 ++ bc_mdreqs c1 ->
  (new0 = [] /\ cs_req w s = Some m \/ new0 = [m] /\ cs_req w s = None) -> enough w1 c1 l.
Proof.
  intros J1 Ew0 Ecse Hen Hnew Hcase. destruct (joined_ebios _ _ _ _ _ _ _ J1) as [Ees _].
  assert (Ecs1 : forall e', cacheset_of w1 e' = cacheset_of w e') by (intros; unfold cacheset_of; by rewrite Ees, Ew0).
  assert (Ecs0 : forall s', cs_req w0 s' = cs_req w s') by by rewrite Ew0.
  intros D HD HDs. assert (Hsub : forall s', s' ∈ D -> s' <> s /\ cs_req w s' = None /\ exists e', e' ∈ e :: l /\ cacheset_of w e' = Some s').
  { intros s' Hs'. destruct (HDs s' Hs') as (H1 & e' & H2 & H3). rewrite (jn_cs _ _ _ _ _ _ _ J1) in H1. case_decide as Ed; [done|]. rewrite Ecs0 in H1.
    split_and!; [done|done|]. exists e'. rewrite <-Ecs1. split; [apply elem_of_cons; by right|done]. }
  unfold enough in Hen. destruct Hcase as [[-> Em]|[-> Em]]; rewrite Hnew in Hen.
  - apply (Hen D HD). intros s' Hs'. by apply (Hsub s').
  - specialize (Hen (s :: D)). cbn [length app] in Hen. apply le_S_n, Hen.
    + apply NoDup_cons. split; [|done]. intros Hs. by destruct (Hsub s Hs).
    + intros s' [->|Hs']%elem_of_cons; [|by apply (Hsub s')]. split; [done|]. exists e. split; [apply elem_of_cons; by left|done].
Qed.

Lemma enq_loop_ok : forall l flag carry c w, reqs_ok bc c w -> bc_mdlist c = l -> (forall e, e ∈ l -> is_Some (cacheset_of w e)) -> enough w c l ->
  due w l flag carry -> exists w', enq_loop bc l flag w = Some (tt, w') /\ enq_done bc c l carry w w'.
Proof.
  induction l as [|e l IH]; intros flag carry c w Hr Hl Hex Hen Hflag; cbn [enq_loop].
  { unfold due in Hflag. destruct flag; [by destruct Hflag as (? & ? & ? & ? & ? & _)|]. subst carry. exists w. split; [done|]. pose proof Hr as [Hb Hs Hf]. constructor; try done.
    - exists (md_queue w), (cache_sets (io_d w)), (mdreqs w), (bcs w). by destruct w as [[[]]].
    - exists [], (bc_mdreqs c). rewrite app_nil_r. split_and!; [done| |done|by left].
      rewrite insert_id; [done|]. rewrite Hb. f_equal. clear -Hl. destruct c; cbn in Hl; by subst.
    - by intros ? ? ?%not_elem_of_nil. }
  destruct (Hex e) as [s Es]; [apply elem_of_cons; by left|]. unfold cacheset_of in Es. destruct (ebios w !! e) as [eb|] eqn:Ee; [|done].
  injection Es as Es. assert (Ecse : cacheset_of w e = Some s) by (unfold cacheset_of; rewrite Ee; cbn; by rewrite Es).
  rewrite (bind_run _ _ _ _ _ (the_ebio_run _ _ _ Ee)). cbv zeta. rewrite Es.
  pose proof (rq_bc _ _ _ Hr) as Hb. rewrite (bind_run _ _ _ _ _ (upd_bc_run _ _ _ _ Hb)).
  set (c0 := set_bc_mdlist l c). set (w0 := set_bcs _ w). pose proof (reqs_mdlist c w l Hr) as Hr0. fold c0 w0 in Hr0.
  destruct (enq_first c c0 w w0 e l s flag carry Hr0 eq_refl eq_refl Ecse Hen Hflag) as (m & fl & c1 & w1 & new0 & E1 & J1 & Hcar & Hnew & Ec1 & Hcase).
  rewrite (bind_run _ _ _ _ _ E1). cbn [fst snd].
  pose proof (jn_reqs _ _ _ _ _ _ _ J1) as Hr1. destruct (joined_ebios _ _ _ _ _ _ _ J1) as [Ees Eq1].
  assert (Ecs1 : forall e', cacheset_of w1 e' = cacheset_of w e') by (intros; unfold cacheset_of; by rewrite Ees).
  assert (Hl1 : bc_mdlist c1 = l) by by rewrite Ec1.
  assert (Hex1 : forall e', e' ∈ l -> is_Some (cacheset_of w1 e')) by (intros e' He'; rewrite Ecs1; apply Hex, elem_of_cons; by right).
  pose proof (enough_tail c c0 c1 e s m l new0 w w0 w1 J1 eq_refl Ecse Hen Hnew Hcase) as Hen1.
  assert (Hrest : exists w', (last <- match l with [] => ret true | e' :: _ => eb' <- the_ebio e' ;; ret (negb (eb_cacheset eb' =? s)) end ;;
      if (last : bool) then when fl (modify (fun w => set_md_queue (md_queue w ++ [DoMdupdate m]) w)) ;; enq_loop bc l false else enq_loop bc l fl) w1 = Some (tt, w') /\
      enq_done bc c1 l (if fl then [m] else []) w1 w').
  { assert (Hend : exists w', (when fl (modify (fun w => set_md_queue (md_queue w ++ [DoMdupdate m]) w)) ;; enq_loop bc l false) w1 = Some (tt, w') /\
       enq_done bc c1 l (if fl then [m] else []) w1 w').
    { destruct fl; cbn [when].
      - rewrite bind_modify. destruct (IH false [] c1 (set_md_queue (md_queue w1 ++ [DoMdupdate m]) w1)) as (w' & E & D);
          [destruct Hr1; by constructor|done|exact Hex1|exact Hen1|done|]. exists w'. split; [done|]. by apply enq_done_carry.
      - rewrite bind_ret. by apply (IH false []). }
    destruct l as [|e' l'] eqn:El; [by rewrite bind_ret|]. destruct (Hex1 e') as [s' Es']; [apply elem_of_cons; by left|].
    pose proof Es' as Es''. unfold cacheset_of in Es'. destruct (ebios w1 !! e') as [eb'|] eqn:Ee'; [|done]. injection Es' as Es'.
    rewrite bind_bind, (bind_run _ _ _ _ _ (the_ebio_run _ _ _ Ee')), bind_ret, Es'. destruct (Z.eqb_spec s' s) as [->|Hne]; cbn [negb]; [|exact Hend].
    apply IH; [done|done|exact Hex1|exact Hen1|]. destruct fl; [|done]. exists e', l', s, m. split_and!; [done|done| |done].
    rewrite (jn_cs _ _ _ _ _ _ _ J1). by rewrite decide_True. }
  destruct Hrest as (w' & E2 & D2). exists w'. split; [exact E2|].
  by apply (enq_compose c e s l m c1 carry (if fl then [m] else []) new0 w w0 w1).
Qed.
End enq.

(** ** [eio_md_write] *)

(** the write of the data of split [e] has ended *)
Record write_ended (w : io_world) (j e : Z) (eb : eio_bio) (c : bio_container) : Prop := {
  we_job : exists job, jobs w !! j = Some job /\ job_ebio job = Some e;
  we_ebio : ebios w !! e = Some eb;
  we_wait : 0 < bc_mdwait c;
  we_list : (forall x, x ∈ bc_mdlist c -> is_Some (cacheset_of w x)) /\ Sorted (by_set (cacheset_of w)) (bc_mdlist c);
  we_reqs : reqs_ok (eb_bc eb) c w;
  we_enough : bc_mdwait c = 1 -> enough w c (e :: bc_mdlist c)
}.

Lemma enough_perm w c l l' : l ≡ₚ l' -> enough w c l -> enough w c l'.
Proof.
  intros Hp H D HD HDs. apply H; [done|]. intros s Hs. destruct (HDs s Hs) as (H1 & e & H2 & H3). split; [done|]. exists e. by rewrite Hp.
Qed.

Lemma eio_md_write_ok w j e eb c : write_ended w j e eb c ->
  exists l w' (c1 := set_bc_mdwait (bc_mdwait c - 1) (set_bc_mdlist l c))
    (w1 := set_jobs (delete j (jobs w)) (set_bcs (<[eb_bc eb := c1]> (bcs w)) w)),
    eio_md_write j w = Some (tt, w') /\ l ≡ₚ e :: bc_mdlist c /\ Sorted (by_set (cacheset_of w)) l /\
    if bc_mdwait c =? 1 then enq_done (eb_bc eb) c1 l [] w1 w' else w' = w1.
Proof.
  intros [(job & Ej & Eje) Ee Hw [Hl Hs] Hr Hen]. pose proof (rq_bc _ _ _ Hr) as Eb.
  assert (Ecs : cacheset_of w e = Some (eb_cacheset eb)) by (unfold cacheset_of; by rewrite Ee).
  destruct (md_insert_ok (cacheset_of w) (eb_cacheset eb) e Ecs (bc_mdlist c) Hl Hs) as (l & El & Hp & Hsort). exists l.
  set (c1 := set_bc_mdwait (bc_mdwait c - 1) (set_bc_mdlist l c)).
  set (w1 := set_jobs (delete j (jobs w)) (set_bcs (<[eb_bc eb := c1]> (bcs w)) w)).
  unfold eio_md_write. assert (E0 : the_job j w = Some (job, w)) by (unfold the_job, eval; by rewrite Ej).
  rewrite (bind_run _ _ _ _ _ E0), Eje, (bind_run _ _ _ _ _ (lift_run _ _)), (bind_run _ _ _ _ _ (the_ebio_run _ _ _ Ee)).
  rewrite (bind_run _ _ _ _ _ (the_bc_run _ _ _ Eb)), bind_assert by by apply Z.ltb_lt.
  rewrite (bind_eval (fun w => md_insert (cacheset_of w) (eb_cacheset eb) e (bc_mdlist c)) _ w l El).
  rewrite (bind_run _ _ _ _ _ (upd_bc_run _ _ _ _ Eb)).
  assert (E1 : eio_free_cache_job j (set_bcs (<[eb_bc eb := c1]> (bcs w)) w) = Some (tt, w1)).
  { unfold eio_free_cache_job, the_job, bind, eval. cbn. by rewrite Ej. }
  rewrite (bind_run _ _ _ _ _ E1). assert (Ez : (bc_mdwait c - 1 =? 0) = (bc_mdwait c =? 1)) by lia. rewrite Ez.
  destruct (Z.eqb_spec (bc_mdwait c) 1) as [H1|_]; cbn [when]; [|by exists w1].
  assert (Er1 : reqs_ok (eb_bc eb) c1 w1).
  { destruct Hr as [_ Hs' Hf]. constructor; [apply lookup_insert_eq|exact Hs'|exact Hf]. }
  unfold eio_enq_mdupdate. rewrite (bind_run _ _ _ _ _ (the_bc_run _ _ _ (rq_bc _ _ _ Er1))).
  change (bc_mdlist c1) with l. destruct (enq_loop_ok (eb_bc eb) l false [] c1 w1 Er1) as (w' & E & D); [done| | |done|by exists w'].
  - intros x Hx. change (is_Some (cacheset_of w x)). rewrite Hp in Hx. apply elem_of_cons in Hx as [->|Hx]; [by rewrite Ecs|by apply Hl].
  - intros D HD HDs. refine (enough_perm w c _ l _ (Hen H1) D HD HDs). by rewrite Hp.
Qed.

(** * A metadata update from its start to its end *)
Section kernel.
Context {K : Kernel} (k0 : kmem) (held : Z -> Z).

(** what the end of the update needs, when the update starts *)
Record mdu_env (inflight : list Z) (w : io_world) (m : Z) (r : mdupdate_request) (idx : list Z) : Prop := {
  me_size : dmc_size (io_d w) < 2 ^ 31 /\ num_sets (io_d w) < 2 ^ 62;
  me_wb : mode (io_d w) = CACHE_MODE_WB;
  me_count : nr_counted (io_d w) (md_set r);
  me_nodup : NoDup (pending_mdlist r) /\ NoDup idx;
  me_main : forall e eb, e ∈ pending_mdlist r -> ebios w !! e = Some eb -> eb_iotype eb = EB_MAIN_IO;
  me_refs : refs_ok k0 held w;
  me_out : forall b c, bcs w !! b = Some c -> m ∉ bc_mdreqs c;
  me_cleanq : cleanq_inv inflight (io_d w);
  me_lru : dirty_lru_inv (io_d w)
}.

Lemma nr_counted_stats st d set : nr_counted d set -> nr_counted (set_stats st d) set.
Proof. intros [H1 H2]. constructor; [etransitivity; [exact H1|]|etransitivity; [exact H2|]]; symmetry; by apply count_blocks_ext. Qed.

(** before [eio_post_mdupdate] *)
Lemma flow_ready inflight w m r idx w1 r1 r2 cb q w2 :
  mdu_ready w m r idx -> mdu_env inflight w m r idx -> mdu_outcome w m r idx w1 r1 cb q ->
  r2 = set_md_holdcount 0 (set_md_error (md_error r2) r1) ->
  w2 = set_md_queue (md_queue w2) (set_mdreqs (<[m := r2]> (mdreqs w1)) w1) -> post_ready k0 held inflight w2 m r2 idx.
Proof.
  intros [Er B L Hs P Hr [I1 I2] Hst _ _] [[S1 S2] Wb Ct [N1 N2] Hm Hrf Hout Hcq Hl] [F (st & Ed) (R1 & R2 & R3 & R4) _ _ _ _ _ _ _ _ _ _] E2.
  generalize (md_queue w2). intros qq Ew2.
  assert (Ed2 : io_d w2 = set_stats st (io_d w)) by by rewrite Ew2.
  assert (Eb2 : bcs w2 = bcs w /\ ebios w2 = ebios w) by (rewrite Ew2; cbn; by rewrite F). destruct Eb2 as [Eb2 Ee2].
  assert (Er2 : mdreqs w2 !! m = Some r2) by (rewrite Ew2; apply lookup_insert_eq).
  assert (Ei : md_set r2 = md_set r /\ inprog_mdlist r2 = pending_mdlist r /\ req_pages r2 = req_pages r) by (rewrite E2; done).
  destruct Ei as (Ei1 & Ei2 & Ei3).
  constructor; rewrite ?Ed2, ?Ei1, ?Ei2; try done.
  - by apply (blk_inv_same (io_d w)).
  - by apply nr_counted_stats.
  - split; [done|]. intros k e Hk. unfold index_of. rewrite Ee2. by apply I2.
  - intros e eb. rewrite Ee2. apply Hm.
  - assert (Hw : refs_ok k0 held (set_mdreqs (<[m := r2]> (mdreqs w)) (set_io_cw (io_cw w1) w))).
    { apply (refs_mdreq k0 held (set_io_cw (io_cw w1) w) m r r2); [|done|done]. apply refs_cw; [done|].
      change (cw_d (io_cw w1)) with (io_d w1). by rewrite Ed. }
    assert (Ems : mdreqs w2 = <[m := r2]> (mdreqs w)) by (rewrite Ew2; cbn; rewrite F; apply insert_insert_eq).
    assert (Ek : io_kmem w2 = io_kmem w /\ bios w2 = bios w /\ readers w2 = readers w) by (rewrite Ew2; cbn; by rewrite F).
    destruct Ek as (Ek & Ebi & Erd). destruct Hw as [[H1 H2 H3 H4 H5 H6 H7] H8 H9 H10]. cbn in H1, H2, H4, H5, H6, H8, H9, H10.
    constructor; [constructor|..]; rewrite ?Eb2, ?Ee2, ?Ebi, ?Erd, ?Ems, ?Ek; try done.
    + rewrite Ed2. intros _. apply H3. change (mode (io_d w1) = CACHE_MODE_WB). by rewrite Ed.
    + unfold all_pages. by rewrite Ems.
  - by rewrite Eb2.
  - destruct Hcq. by constructor.
Qed.

(** The update: when none of its writes was refused, the end of the update is
    queued once, after the last callback, and ends the splits; if none failed,
    recovery then finds the new data of the blocks. *)
Lemma flow_ok inflight jiffies w m r idx : mdu_ready w m r idx -> mdu_env inflight w m r idx ->
  exists w1 r1 cb q, eio_do_mdupdate m w = Some (tt, w1) /\ mdu_outcome w m r idx w1 r1 cb q /\
    (md_error r1 = 0 -> forall es, es ≡ₚ cb.*2 -> exists w2 r2 w3,
       mfor es (fun e => eio_mdupdate_callback e m) w1 = Some (tt, w2) /\ md_queue w2 = md_queue w ++ [PostMdupdate m] /\
       md_error r2 = first_error 0 es /\ pending_mdlist r2 = [] /\ inprog_mdlist r2 = pending_mdlist r /\ md_set r2 = md_set r /\
       io_cw w2 = io_cw w1 /\ bcs w2 = bcs w /\ bio_ended w2 = bio_ended w /\
       eio_post_mdupdate jiffies m w2 = Some (tt, w3) /\ post_outcome k0 held inflight w2 m r2 idx w3).
Proof.
  intros Hq Henv. destruct (eio_do_mdupdate_ok w m r idx Hq) as (w1 & r1 & cb & q & E1 & O1).
  exists w1, r1, cb, q. split; [done|]. split; [done|]. intros Ee1 es Hes.
  pose proof O1 as [F _ (_ & R2 & R3 & _) _ _ _ _ _ _ _ _ _ [[Hh1 Hh2] Hh3]]. specialize (Hh3 Ee1).
  assert (Hlen : length es = length cb) by (rewrite (Permutation_length Hes); apply length_fmap).
  assert (Er1 : mdreqs w1 !! m = Some r1) by (rewrite F; apply lookup_insert_eq).
  pose proof (callbacks_run m es w1 r1 Er1 ltac:(lia)) as E2. rewrite Hlen, <-Hh3, Z.sub_diag, Ee1, Z.eqb_refl, andb_true_r in E2.
  set (r2 := set_md_holdcount 0 _) in E2. set (w2 := set_md_queue _ _) in E2.
  assert (Hrd : post_ready k0 held inflight w2 m r2 idx) by by apply (flow_ready inflight w m r idx w1 r1 r2 cb q w2).
  destruct (eio_post_mdupdate_ok k0 held inflight jiffies w2 m r2 idx Hrd) as (w3 & E3 & O3).
  assert (Hf : md_queue w1 = md_queue w ++ (if md_holdcount r1 =? 0 then [PostMdupdate m] else []) /\ bcs w1 = bcs w /\ bio_ended w1 = bio_ended w).
  { by rewrite F. }
  destruct Hf as (F1 & F2 & F3). exists w2, r2, w3. split; [exact E2|]. split.
  { cbn [w2 set_md_queue md_queue]. rewrite F1, <-app_assoc. f_equal. rewrite Hh3. destruct cb as [|c cb]; [done|].
    rewrite (proj2 (Z.eqb_neq _ _)) by (cbn; lia). done. }
  split; [done|]. split; [exact R2|]. split; [exact R3|]. split; [apply O1|]. split; [done|]. split; [exact F2|]. split; [exact F3|]. done.
Qed.
End kernel.
