(* ===== verification/Peek.v ===== *)
(** * Deciding how to serve a block: [eio_read_peek] and [eio_write_peek]

    Each takes the [eio_bio] of one block and its container, consults the
    cache, reserves the block where it can, and says whether the block can be
    served by the SSD.  They run on the cache state and return their result
    with the updated [eio_bio] and container. *)

From S2P Require Import Prelude Types Mem DList Scan Lru Policy Thresh Lookup SetSeq World.

(** result, ebio, container *)
Definition peeked : Type := Z * eio_bio * bio_container.

(** what [eio_read_peek] does under the set lock once [eio_lookup] returned
    [res] and [index] *)
Definition read_peek_locked (e : eio_bio) (bc : bio_container) (res index : Z) : M cache_c peeked :=
  if res <? 0 then modify (upd_stats inc_noroom) ;; ret (0, e, bc)
  else
    cstate <- gets (fun d => EIO_CACHE_STATE_GET d index) ;;
    if tst cstate (Z.lor BLOCK_IO_INPROG QUEUED) then ret (0, e, bc)
    else if res =? VALID then
      EIO_ASSERT (tst cstate VALID) ;;
      dbn <- eval (fun d => EIO_DBN_GET d index) ;;
      rsect <- gets (fun d => EIO_ROUND_SECTOR d (eb_sector e)) ;;
      if dbn =? rsect then
        if cstate =? ALREADY_DIRTY then
          ret (1, set_eb_index index (set_eb_iotype EB_MAIN_IO e), set_bc_dir UNCACHED_READ_AND_READFILL bc)
        else
          modify (fun d => EIO_CACHE_STATE_ON d index CACHEREADINPROG) ;;
          ret (1, set_eb_index index e, bc)
      else
        rdonly <- gets cache_rdonly ;;
        if negb (rdonly =? 0) then ret (0, e, bc)
        else
          EIO_ASSERT (negb (tst cstate DIRTY)) ;;
          bs <- gets block_size ;;
          if eio_to_sector (eb_size e) =? bs then
            modify (upd_stats inc_rd_replace) ;;
            modify (fun d => EIO_CACHE_STATE_SET d index (Z.lor VALID DISKREADINPROG)) ;;
            d' <- eval (fun d => EIO_DBN_SET d index (eb_sector e)) ;;
            modify (fun _ => d') ;;
            ret (0, set_eb_index index e, set_bc_dir UNCACHED_READ_AND_READFILL bc)
          else ret (0, e, bc)
    else
      EIO_ASSERT (res =? INVALID) ;;
      rdonly <- gets cache_rdonly ;;
      if negb (rdonly =? 0) then ret (0, e, bc)
      else
        bs <- gets block_size ;;
        if eio_to_sector (eb_size e) =? bs then
          EIO_ASSERT (tst cstate INVALID) ;;
          modify (fun d => EIO_CACHE_STATE_SET d index (Z.lor VALID DISKREADINPROG)) ;;
          modify (upd_stats inc_cached_blocks) ;;
          d' <- eval (fun d => EIO_DBN_SET d index (eb_sector e)) ;;
          modify (fun _ => d') ;;
          ret (0, set_eb_index index e, set_bc_dir UNCACHED_READ_AND_READFILL bc)
        else ret (0, e, bc).

Definition eio_read_peek (e : eio_bio) (bc : bio_container) : M cache_c peeked :=
  ri <- eio_lookup (eb_sector e) ;;
  let '(res, index) := ri in
  r <- read_peek_locked (set_eb_index (-1) e) bc res index ;;
  when (res <? 0) (eio_comply_dirty_thresholds (eb_cacheset e)) ;;
  ret r.

(** the write counterpart; [cstate] is read by the code after the label [out],
    where it is uninitialised if [res < 0] (and then not used, [retval] being 0) *)
Definition write_peek_locked (e : eio_bio) (bc : bio_container) (res index : Z) : M cache_c peeked :=
  let inval e := set_eb_iotype (Z.lor (eb_iotype e) EB_INVAL) e in
  if res <? 0 then modify (upd_stats inc_noroom) ;; ret (0, inval e, bc)
  else
    cstate <- gets (fun d => EIO_CACHE_STATE_GET d index) ;;
    r <- (if tst cstate (Z.lor BLOCK_IO_INPROG QUEUED) then ret (0, inval e, bc)
          else
            bs <- gets block_size ;;
            rsect <- gets (fun d => EIO_ROUND_SECTOR d (eb_sector e)) ;;
            hit <- (if res =? VALID then dbn <- eval (fun d => EIO_DBN_GET d index) ;; ret (dbn =? rsect) else ret false) ;;
            if (hit : bool) then
              modify (upd_stats (add_write_hits (eb_size e))) ;;
              (if negb (cstate =? ALREADY_DIRTY)
               then modify (fun d => EIO_CACHE_STATE_ON d index CACHEWRITEINPROG)
               else modify (upd_stats inc_dirty_write_hits)) ;;
              ret (if (cstate =? ALREADY_DIRTY) || (eio_to_sector (eb_size e) =? bs) then 1 else 0,
                   set_eb_index index e, bc)
            else
              s <- gets (fun d => EIO_CACHE_STATE_GET d index) ;;
              EIO_ASSERT (negb (tst s DIRTY)) ;;
              if eio_to_sector (eb_size e) =? bs then
                modify (upd_stats (if res =? VALID then inc_wr_replace else inc_cached_blocks)) ;;
                modify (fun d => EIO_CACHE_STATE_SET d index (Z.lor VALID CACHEWRITEINPROG)) ;;
                d' <- eval (fun d => EIO_DBN_SET d index (eb_sector e)) ;;
                modify (fun _ => d') ;;
                ret (1, set_eb_index index e, bc)
              else ret (0, inval e, bc)) ;;
    md <- gets mode ;;
    let '(retval, e', bc') := r in
    ret (retval, e',
         if (retval =? 1) && (md =? CACHE_MODE_WB) && negb (cstate =? ALREADY_DIRTY)
         then set_bc_mdwait (bc_mdwait bc' + 1) bc' else bc').

Definition eio_write_peek (e : eio_bio) (bc : bio_container) : M cache_c peeked :=
  ri <- eio_lookup (eb_sector e) ;;
  let '(res, index) := ri in
  r <- write_peek_locked (set_eb_index (-1) e) bc res index ;;
  when (res <? 0) (eio_comply_dirty_thresholds (eb_cacheset e)) ;;
  ret r.

(** ** Specification *)

(** an [eio_bio] lies inside one cache block, in a representable sector *)
Record ebio_ok (d : cache_c) (e : eio_bio) : Prop := {
  eo_sector : 0 <= eb_sector e;
  eo_fits : eb_sector e + eio_to_sector (eb_size e) <= EIO_ROUND_SECTOR d (eb_sector e) + block_size d;
  eo_dbn : dbn_ok d (EIO_ROUND_SECTOR d (eb_sector e));
  eo_set : eb_cacheset e = dbn_set d (eb_sector e)
}.

(** other blocks keep their state and sector *)
Definition others_same (d d' : cache_c) (i : Z) : Prop :=
  forall j, 0 <= j -> j <> i ->
    EIO_CACHE_STATE_GET d' j = EIO_CACHE_STATE_GET d j /\ EIO_DBN_GET d' j = EIO_DBN_GET d j.

Lemma others_same_md d d' i : same_md d d' -> others_same d d' i.
Proof. intros H j _ _. by rewrite (same_md_state _ _ H), (same_md_dbn _ _ H). Qed.

(** block [i] of [d'] caches the block of [e], in state [s] *)
Definition holds (d' : cache_c) (e : eio_bio) (i s : Z) : Prop :=
  0 <= i < dmc_size d' /\ i / assoc d' = dbn_set d' (eb_sector e) /\ EIO_CACHE_STATE_GET d' i = s /\
  EIO_DBN_GET d' i = Some (EIO_ROUND_SECTOR d' (eb_sector e)).

Inductive read_outcome (d d' : cache_c) (e : eio_bio) (bc : bio_container) : peeked -> Prop :=
(** not cached, and no block reserved *)
| ReadMiss : same_md d d' -> read_outcome d d' e bc (0, set_eb_index (-1) e, bc)
(** cached and dirty: no in-progress mark, but the failure of its read fails the I/O *)
| ReadDirty i : same_md d d' -> holds d' e i ALREADY_DIRTY ->
    read_outcome d d' e bc (1, set_eb_index i (set_eb_iotype EB_MAIN_IO (set_eb_index (-1) e)),
                            set_bc_dir UNCACHED_READ_AND_READFILL bc)
(** cached and clean *)
| ReadHit i : EIO_CACHE_STATE_GET d i = VALID -> holds d' e i (Z.lor VALID CACHEREADINPROG) ->
    others_same d d' i -> read_outcome d d' e bc (1, set_eb_index i (set_eb_index (-1) e), bc)
(** a free or clean block is reserved, to be filled from the disk *)
| ReadFill i : uncached d (eb_sector e) -> (EIO_CACHE_STATE_GET d i = INVALID \/ EIO_CACHE_STATE_GET d i = VALID) ->
    holds d' e i (Z.lor VALID DISKREADINPROG) -> others_same d d' i ->
    read_outcome d d' e bc (0, set_eb_index i (set_eb_index (-1) e), set_bc_dir UNCACHED_READ_AND_READFILL bc).

Section full.
Context (d : cache_c) (Hinv : blk_inv d) (e : eio_bio) (He : ebio_ok d e).

(** an [eio_bio] of a whole block starts at the block *)
Lemma full_aligned : eio_to_sector (eb_size e) = block_size d ->
  EIO_ROUND_SECTOR d (eb_sector e) = eb_sector e /\ (block_size d | eb_sector e).
Proof.
  intros E. destruct He as [H0 H1 _ _]. rewrite E in H1.
  destruct (round_sector_le d _ (bi_geom d Hinv) H0) as (? & ? & Hd).
  assert (Er : EIO_ROUND_SECTOR d (eb_sector e) = eb_sector e) by lia. by rewrite Er in *.
Qed.

(** reserving block [i] for [e] *)
Lemma reserve_ok f i s : eio_to_sector (eb_size e) = block_size d ->
  uncached d (EIO_ROUND_SECTOR d (eb_sector e)) -> i ∈ set_blocks d (dbn_set d (eb_sector e)) ->
  0 <= s < 256 -> Z.land s 3 = VALID ->
  exists d', EIO_DBN_SET (upd_stats f (EIO_CACHE_STATE_SET d i s)) i (eb_sector e) = Some d' /\
    blk_inv d' /\ md_stat_only d d' /\ holds d' e i s /\ others_same d d' i.
Proof.
  intros Hfull Hun Hi Hs H3. pose proof (bi_geom d Hinv) as Hg. destruct (full_aligned Hfull) as [Er Hal].
  destruct (dbn_to_set_spec d (eb_sector e) Hg (eo_sector d e He)) as (Hset & _).
  pose proof (set_blocks_range d _ i Hg Hset Hi) as Hir. apply elem_of_set_blocks in Hi as Hia; [|done].
  pose proof (eo_dbn d e He) as Hok. rewrite Er in *.
  set (d1 := upd_stats f d). assert (S1 : same_md d d1) by done. assert (Hinv1 : blk_inv d1) by by eapply blk_inv_same.
  assert (Ec : upd_stats f (EIO_CACHE_STATE_SET d i s) = EIO_CACHE_STATE_SET d1 i s).
  { unfold EIO_CACHE_STATE_SET. change (EIO_MD8 d1) with (EIO_MD8 d). by destruct (EIO_MD8 d). }
  rewrite Ec. destruct (blk_inv_alloc d1 i s (eb_sector e) Hinv1) as (d' & E & I' & O' & St' & D' & F'); try done.
  exists d'. split_and!; [done|done| | |].
  - etransitivity; [apply (md_stat_only_stats (f (stats d)))|by apply md_only_stat].
  - pose proof (md_only_geom _ _ O') as Hgeo. destruct (geom_fields _ _ Hgeo) as (Es & Ea & Eb & _).
    split_and!; [|rewrite Es; apply Hir| |done|].
    + apply Hir. + rewrite Ea, (geom_dbn_set _ _ _ Hgeo). done.
    + rewrite D'. f_equal. unfold EIO_ROUND_SECTOR in *. rewrite Eb. done.
  - exact F'.
Qed.
End full.

Lemma set_state_holds d e i s : blk_inv d -> EIO_CACHE_STATE_GET d i <> INVALID -> s <> INVALID -> 0 <= s < 256 ->
  holds d e i (EIO_CACHE_STATE_GET d i) ->
  holds (EIO_CACHE_STATE_SET d i s) e i s /\ others_same d (EIO_CACHE_STATE_SET d i s) i.
Proof.
  intros Hinv Hne Hs Hr (Hi & Ha & _ & Hd). pose proof (state_set_geom d i s) as Hgeo.
  destruct (geom_fields _ _ Hgeo) as (Es & Ea & Eb & _). split.
  - split_and!; [|rewrite Es; apply Hi| | |].
    + apply Hi. + rewrite Ea, (geom_dbn_set _ _ _ Hgeo). done. + by apply state_get_set_eq.
    + rewrite state_set_dbn; [|apply Hinv|lia|done|by right]. rewrite Hd. unfold EIO_ROUND_SECTOR. by rewrite Eb.
  - intros j Hj Hji. rewrite state_get_set_ne by auto. rewrite state_set_dbn; [done|apply Hinv|done|done|by left].
Qed.

(** [read_peek_locked] never panics, keeps the invariant, and has one of the
    outcomes of [read_outcome]. *)
Lemma read_locked_ok d e bc res index : blk_inv d -> ebio_ok d e -> lookup_result d (eb_sector e) res index ->
  exists r d', read_peek_locked (set_eb_index (-1) e) bc res index d = Some (r, d') /\
    blk_inv d' /\ md_stat_only d d' /\ read_outcome d d' e bc r.
Proof.
  intros Hinv He Hlk. pose proof (bi_geom d Hinv) as Hg.
  destruct (dbn_to_set_spec d (eb_sector e) Hg (eo_sector d e He)) as (Hset & _).
  assert (Hmiss : forall st, exists r d', Some ((0, set_eb_index (-1) e, bc), set_stats st d) = Some (r, d') /\
     blk_inv d' /\ md_stat_only d d' /\ read_outcome d d' e bc r).
  { intros st. eexists _, _. split; [done|]. split_and!; [by apply (blk_inv_same d)|apply md_stat_only_stats|by apply ReadMiss]. }
  pose proof (Hmiss (stats d)) as Hmiss0. replace (set_stats (stats d) d) with d in Hmiss0 by by destruct d.
  unfold read_peek_locked. set (e1 := set_eb_index (-1) e).
  change (eb_size e1) with (eb_size e). change (eb_sector e1) with (eb_sector e).
  inversion Hlk as [i Hi Hne Hd|i Hun Hi Hst|i Hun Hi Hall Hst|i Hun Hall]; subst res index.
  - (* hit *)
    change (VALID <? 0) with false. cbv iota. rewrite bind_gets.
    destruct (tst _ (Z.lor BLOCK_IO_INPROG QUEUED)) eqn:Et; [done|]. change (VALID =? VALID) with true. cbv iota.
    pose proof (set_blocks_range d _ i Hg Hset Hi) as Hir. apply elem_of_set_blocks in Hi as Hia; [|done].
    pose proof (rest_states _ (state_get_range d i) (bi_state d Hinv i Hir) Hne Et) as Hrest.
    rewrite bind_assert by (destruct Hrest as [->| ->]; done).
    rewrite (bind_eval (fun d => EIO_DBN_GET d i) _ d _ Hd), bind_gets, Z.eqb_refl.
    destruct Hrest as [Hv|Hv]; rewrite Hv.
    + change (VALID =? ALREADY_DIRTY) with false. cbv iota. rewrite bind_modify.
      unfold EIO_CACHE_STATE_ON. rewrite Hv.
      destruct (set_state_holds d e i (Z.lor VALID CACHEREADINPROG) Hinv Hne) as [Hh Ho]; [done|done|exact (conj Hir (conj Hia (conj eq_refl Hd)))|].
      eexists _, _; split; [done|]. split_and!; [|apply md_only_stat, state_set_md_only|by apply ReadHit].
      apply blk_inv_set_state; [done|done|done|]. by right.
    + change (ALREADY_DIRTY =? ALREADY_DIRTY) with true. cbv iota. eexists _, d; split; [done|].
      split_and!; [done|done|]. apply ReadDirty; [done|]. exact (conj Hir (conj Hia (conj Hv Hd))).
  - (* free block *)
    change (INVALID <? 0) with false. cbv iota. rewrite bind_gets, Hst.
    change (tst INVALID (Z.lor BLOCK_IO_INPROG QUEUED)) with false. change (INVALID =? VALID) with false.
    cbv iota. rewrite bind_assert by done. rewrite bind_gets. destruct (negb _); [done|].
    rewrite bind_gets. destruct (Z.eqb_spec (eio_to_sector (eb_size e)) (block_size d)) as [Hf|]; [|done].
    rewrite bind_assert by done. rewrite !bind_modify.
    destruct (reserve_ok d Hinv e He inc_cached_blocks i (Z.lor VALID DISKREADINPROG) Hf Hun Hi) as (d' & E & I' & O' & Hh & Ho); [done|done|].
    rewrite (bind_eval (fun d => EIO_DBN_SET d i (eb_sector e)) _ _ d' E), bind_modify.
    eexists _, d'; split; [done|]. split_and!; [done|done|]. apply ReadFill; [|by left|done|done].
    destruct (full_aligned d Hinv e He Hf) as [Er _]. by rewrite Er in Hun.
  - (* victim *)
    change (VALID <? 0) with false. cbv iota. rewrite bind_gets, Hst.
    change (tst VALID (Z.lor BLOCK_IO_INPROG QUEUED)) with false. change (VALID =? VALID) with true.
    cbv iota. rewrite bind_assert by done.
    pose proof (set_blocks_range d _ i Hg Hset Hi) as Hir.
    assert (Hne : EIO_CACHE_STATE_GET d i <> INVALID) by by rewrite Hst.
    destruct (bi_dbn d Hinv i Hir Hne) as (dbn & Ed & _).
    rewrite (bind_eval (fun d => EIO_DBN_GET d i) _ d _ Ed), bind_gets.
    destruct (Z.eqb_spec dbn (EIO_ROUND_SECTOR d (eb_sector e))) as [->|_]; [by destruct (Hun i Hir Hne)|].
    rewrite bind_gets. destruct (negb (cache_rdonly d =? 0)); [done|]. rewrite bind_assert by done. rewrite bind_gets.
    destruct (Z.eqb_spec (eio_to_sector (eb_size e)) (block_size d)) as [Hf|]; [|done].
    rewrite !bind_modify.
    assert (Ec : EIO_CACHE_STATE_SET (upd_stats inc_rd_replace d) i (Z.lor VALID DISKREADINPROG)
                 = upd_stats inc_rd_replace (EIO_CACHE_STATE_SET d i (Z.lor VALID DISKREADINPROG))).
    { unfold EIO_CACHE_STATE_SET. change (EIO_MD8 (upd_stats inc_rd_replace d)) with (EIO_MD8 d). by destruct (EIO_MD8 d). }
    rewrite Ec.
    destruct (reserve_ok d Hinv e He inc_rd_replace i (Z.lor VALID DISKREADINPROG) Hf Hun Hi) as (d' & E & I' & O' & Hh & Ho); [done|done|].
    rewrite (bind_eval (fun d => EIO_DBN_SET d i (eb_sector e)) _ _ d' E), bind_modify.
    eexists _, d'; split; [done|]. split_and!; [done|done|]. apply ReadFill; [|by right|done|done].
    destruct (full_aligned d Hinv e He Hf) as [Er _]. by rewrite Er in Hun.
  - (* no room *)
    change (-1 <? 0) with true. cbv iota. rewrite bind_modify. apply (Hmiss (inc_noroom (stats d))).
Qed.

(** the container after a successful reservation: one more metadata update
    to wait for, in write-back mode *)
Definition waited (d : cache_c) (bc : bio_container) : bio_container :=
  if mode d =? CACHE_MODE_WB then set_bc_mdwait (bc_mdwait bc + 1) bc else bc.

Inductive write_outcome (d d' : cache_c) (e : eio_bio) (bc : bio_container) : peeked -> Prop :=
(** no block: the range has to be invalidated when the disk write ends *)
| WriteNone : same_md d d' ->
    write_outcome d d' e bc (0, set_eb_iotype (Z.lor (eb_iotype e) EB_INVAL) (set_eb_index (-1) e), bc)
(** the block is already dirty *)
| WriteDirty i : same_md d d' -> holds d' e i ALREADY_DIRTY ->
    write_outcome d d' e bc (1, set_eb_index i (set_eb_index (-1) e), bc)
(** the block is cached and clean; a partial write may not make it dirty *)
| WriteHit i : EIO_CACHE_STATE_GET d i = VALID -> holds d' e i (Z.lor VALID CACHEWRITEINPROG) -> others_same d d' i ->
    write_outcome d d' e bc
      (if eio_to_sector (eb_size e) =? block_size d then 1 else 0, set_eb_index i (set_eb_index (-1) e),
       if eio_to_sector (eb_size e) =? block_size d then waited d bc else bc)
(** a free or clean block is allocated for a whole-block write *)
| WriteAlloc i : uncached d (eb_sector e) -> (EIO_CACHE_STATE_GET d i = INVALID \/ EIO_CACHE_STATE_GET d i = VALID) ->
    holds d' e i (Z.lor VALID CACHEWRITEINPROG) -> others_same d d' i ->
    write_outcome d d' e bc (1, set_eb_index i (set_eb_index (-1) e), waited d bc).

Lemma waited_eq d bc b : (if (1 =? 1) && (mode d =? CACHE_MODE_WB) && negb b then set_bc_mdwait (bc_mdwait bc + 1) bc else bc)
  = if b then bc else waited d bc.
Proof. unfold waited. change (1 =? 1) with true. cbn [andb]. by destruct b, (mode d =? CACHE_MODE_WB). Qed.

Lemma write_reserve d e bc i r : blk_inv d -> ebio_ok d e -> (r = VALID \/ r = INVALID) ->
  eio_to_sector (eb_size e) = block_size d -> uncached d (EIO_ROUND_SECTOR d (eb_sector e)) ->
  i ∈ set_blocks d (dbn_set d (eb_sector e)) -> (EIO_CACHE_STATE_GET d i = INVALID \/ EIO_CACHE_STATE_GET d i = VALID) ->
  exists d', EIO_DBN_SET (EIO_CACHE_STATE_SET (upd_stats (if r =? VALID then inc_wr_replace else inc_cached_blocks) d) i
      (Z.lor VALID CACHEWRITEINPROG)) i (eb_sector e) = Some d' /\ blk_inv d' /\ md_stat_only d d' /\
    write_outcome d d' e bc (1, set_eb_index i (set_eb_index (-1) e), waited d bc).
Proof.
  intros Hinv He Hr Hf Hun Hi Hst. set (f := if r =? VALID then _ else _).
  assert (Ec : EIO_CACHE_STATE_SET (upd_stats f d) i (Z.lor VALID CACHEWRITEINPROG)
               = upd_stats f (EIO_CACHE_STATE_SET d i (Z.lor VALID CACHEWRITEINPROG))).
  { unfold EIO_CACHE_STATE_SET. change (EIO_MD8 (upd_stats f d)) with (EIO_MD8 d). by destruct (EIO_MD8 d). }
  rewrite Ec. destruct (reserve_ok d Hinv e He f i (Z.lor VALID CACHEWRITEINPROG) Hf Hun Hi) as (d' & E & I' & O' & Hh & Ho); [done|done|].
  exists d'. split_and!; try done. apply WriteAlloc; try done.
  destruct (full_aligned d Hinv e He Hf) as [Er _]. by rewrite Er in Hun.
Qed.

Lemma write_locked_ok d e bc res index : blk_inv d -> ebio_ok d e -> lookup_result d (eb_sector e) res index ->
  exists r d', write_peek_locked (set_eb_index (-1) e) bc res index d = Some (r, d') /\
    blk_inv d' /\ md_stat_only d d' /\ write_outcome d d' e bc r.
Proof.
  intros Hinv He Hlk. pose proof (bi_geom d Hinv) as Hg.
  destruct (dbn_to_set_spec d (eb_sector e) Hg (eo_sector d e He)) as (Hset & _).
  assert (Hmiss : forall st, exists r d',
     Some ((0, set_eb_iotype (Z.lor (eb_iotype e) EB_INVAL) (set_eb_index (-1) e), bc), set_stats st d) = Some (r, d') /\
     blk_inv d' /\ md_stat_only d d' /\ write_outcome d d' e bc r).
  { intros st. eexists _, _. split; [done|]. split_and!; [by apply (blk_inv_same d)|apply md_stat_only_stats|by apply WriteNone]. }
  pose proof (Hmiss (stats d)) as Hmiss0. replace (set_stats (stats d) d) with d in Hmiss0 by by destruct d.
  unfold write_peek_locked. set (e1 := set_eb_index (-1) e).
  change (eb_size e1) with (eb_size e). change (eb_sector e1) with (eb_sector e). change (eb_iotype e1) with (eb_iotype e).
  (* the part common to the allocation of a free block and of a victim *)
  assert (Hmd : forall d', md_stat_only d d' -> mode d' = mode d) by (by intros d' (c & c8 & z & st & ->)).
  inversion Hlk as [i Hi Hne Hd|i Hun Hi Hst|i Hun Hi Hall Hst|i Hun Hall]; subst res index.
  - (* hit *)
    change (VALID <? 0) with false. cbv iota. rewrite bind_gets.
    destruct (tst _ (Z.lor BLOCK_IO_INPROG QUEUED)) eqn:Et; [done|]. change (VALID =? VALID) with true.
    pose proof (set_blocks_range d _ i Hg Hset Hi) as Hir. apply elem_of_set_blocks in Hi as Hia; [|done].
    pose proof (rest_states _ (state_get_range d i) (bi_state d Hinv i Hir) Hne Et) as Hrest.
    rewrite !bind_bind, bind_gets, bind_bind, bind_gets, bind_bind.
    rewrite bind_bind, (bind_eval (fun d => EIO_DBN_GET d i) _ d _ Hd), bind_ret, Z.eqb_refl.
    rewrite bind_bind, bind_modify. set (d1 := upd_stats _ d). assert (S1 : same_md d d1) by done.
    destruct Hrest as [Hv|Hv]; rewrite Hv.
    + change (VALID =? ALREADY_DIRTY) with false. cbn [negb orb]. cbv iota. rewrite bind_bind, bind_modify, bind_ret, bind_gets.
      unfold EIO_CACHE_STATE_ON. rewrite (same_md_state _ _ S1), Hv.
      assert (Hinv1 : blk_inv d1) by by eapply blk_inv_same.
      destruct (set_state_holds d1 e i (Z.lor VALID CACHEWRITEINPROG) Hinv1) as [Hh Ho];
        [done|done|done|exact (conj Hir (conj Hia (conj eq_refl Hd)))|].
      eexists _, _; split; [done|]. split_and!.
      * apply blk_inv_set_state; [done|exact Hir|done|]. by right.
      * etransitivity; [apply (md_stat_only_stats (stats d1))|apply md_only_stat, state_set_md_only].
      * assert (Em : mode (EIO_CACHE_STATE_SET d1 i (Z.lor VALID CACHEWRITEINPROG)) = mode d).
        { unfold EIO_CACHE_STATE_SET. by destruct (EIO_MD8 d1). }
        rewrite Em, andb_true_r. pose proof (WriteHit d _ e bc i Hv Hh) as W.
        destruct (eio_to_sector (eb_size e) =? block_size d); apply W; (intros j Hj Hji; destruct (Ho j Hj Hji); done).
    + change (ALREADY_DIRTY =? ALREADY_DIRTY) with true. cbn [negb orb]. cbv iota. rewrite bind_bind, bind_modify, bind_ret, bind_gets.
      eexists _, _; split; [done|]. rewrite andb_false_r. split_and!.
      * by apply (blk_inv_same d).
      * etransitivity; [apply (md_stat_only_stats (stats d1))|apply md_stat_only_stats].
      * apply WriteDirty; [done|]. exact (conj Hir (conj Hia (conj Hv Hd))).
  - (* free block *)
    change (INVALID <? 0) with false. cbv iota. rewrite bind_gets, Hst.
    change (tst INVALID (Z.lor BLOCK_IO_INPROG QUEUED)) with false. change (INVALID =? VALID) with false. cbv iota.
    rewrite bind_bind, bind_gets, bind_bind, bind_gets, bind_bind, bind_ret, bind_bind, bind_gets, Hst, bind_bind, bind_assert by done.
    destruct (Z.eqb_spec (eio_to_sector (eb_size e)) (block_size d)) as [Hf|]; [|rewrite bind_ret, bind_gets; exact Hmiss0].
    destruct (write_reserve d e bc i INVALID Hinv He ltac:(by right) Hf Hun Hi ltac:(by left)) as (d' & E & I' & O' & W).
    rewrite bind_bind, bind_modify, bind_bind, bind_modify, bind_bind, (bind_eval (fun d => EIO_DBN_SET d i (eb_sector e)) _ _ d' E), bind_bind, bind_modify, bind_ret, bind_gets.
    change (INVALID =? ALREADY_DIRTY) with false. rewrite waited_eq.
    exists (1, set_eb_index i e1, waited d bc), d'. unfold waited at 1. rewrite (Hmd d' O'). split_and!; done.
  - (* victim *)
    change (VALID <? 0) with false. cbv iota. rewrite bind_gets, Hst.
    change (tst VALID (Z.lor BLOCK_IO_INPROG QUEUED)) with false. change (VALID =? VALID) with true. cbv iota.
    pose proof (set_blocks_range d _ i Hg Hset Hi) as Hir.
    assert (Hne : EIO_CACHE_STATE_GET d i <> INVALID) by by rewrite Hst.
    destruct (bi_dbn d Hinv i Hir Hne) as (dbn & Ed & _).
    rewrite bind_bind, bind_gets, bind_bind, bind_gets, bind_bind, bind_bind, (bind_eval (fun d => EIO_DBN_GET d i) _ d _ Ed), bind_ret.
    destruct (Z.eqb_spec dbn (EIO_ROUND_SECTOR d (eb_sector e))) as [->|_]; [by destruct (Hun i Hir Hne)|].
    rewrite bind_bind, bind_gets, Hst, bind_bind, bind_assert by done.
    destruct (Z.eqb_spec (eio_to_sector (eb_size e)) (block_size d)) as [Hf|]; [|rewrite bind_ret, bind_gets; exact Hmiss0].
    destruct (write_reserve d e bc i VALID Hinv He ltac:(by left) Hf Hun Hi ltac:(by right)) as (d' & E & I' & O' & W).
    rewrite bind_bind, bind_modify, bind_bind, bind_modify, bind_bind, (bind_eval (fun d => EIO_DBN_SET d i (eb_sector e)) _ _ d' E), bind_bind, bind_modify, bind_ret, bind_gets.
    change (VALID =? ALREADY_DIRTY) with false. rewrite waited_eq.
    exists (1, set_eb_index i e1, waited d bc), d'. unfold waited at 1. rewrite (Hmd d' O'). split_and!; done.
  - (* no room *)
    change (-1 <? 0) with true. cbv iota. rewrite bind_modify. apply (Hmiss (inc_noroom (stats d))).
Qed.

(** ** The invariant of the cache, and the two operations as a whole *)
Record cache_inv (inflight : list Z) (d : cache_c) : Prop := {
  ci_blk : blk_inv d;
  ci_pol : policy_inv d;
  ci_size : dmc_size d < 2 ^ 31;
  ci_cleanq : cleanq_inv inflight d;
  ci_lru : mode d = CACHE_MODE_WB -> dirty_lru_inv d
}.

Lemma cleanq_only_same_md d d' : cleanq_only d d' -> same_md d d'.
Proof. by intros (cs & q & p & x & l & -> & _). Qed.
Lemma cleanq_only_policy d d' : cleanq_only d d' -> policy_inv d -> policy_inv d'.
Proof. intros (cs & q & p & x & l & -> & _). by apply policy_inv_same. Qed.

(** fields outside the metadata, the statistics and the policy's data *)
Definition rest_same (d d' : cache_c) : Prop :=
  geom d' = geom d /\ mode d' = mode d /\ cleanq d' = cleanq d /\ cache_sets d' = cache_sets d /\
  clean_pendings d' = clean_pendings d /\ dirty_set_lru d' = dirty_set_lru d.
Lemma pol_only_rest d d' : pol_only d d' -> rest_same d d'.
Proof. by intros (r & b & m & ->). Qed.
Lemma md_stat_only_rest d d' : md_stat_only d d' -> rest_same d d'.
Proof. by intros (c & c8 & z & st & ->). Qed.
#[export] Instance rest_same_trans : Transitive rest_same.
Proof. intros d1 d2 d3 (? & ? & ? & ? & ? & ?) (? & ? & ? & ? & ? & ?). unfold rest_same. split_and!; congruence. Qed.

Lemma cache_inv_rest inflight d d' : rest_same d d' -> blk_inv d' -> policy_inv d' -> cache_inv inflight d -> cache_inv inflight d'.
Proof.
  intros (Eg & Em & Eq & Ec & Ep & El) Hb Hp [_ _ Hs Hq Hl].
  destruct (geom_fields _ _ Eg) as (Es & _ & _ & _ & _ & En & _). constructor; try done.
  - by rewrite Es.
  - by eapply cleanq_inv_ext.
  - rewrite Em. intros Hm. destruct (Hl Hm) as (l & xs & ? & ? & ?). exists l, xs. rewrite El, En. done.
Qed.

Lemma num_sets_small d : wf_geom d -> num_sets d < 2 ^ 62.
Proof.
  intros Hg. pose proof (geo_sets d Hg). pose proof (geo_bits d Hg).
  pose proof (Z.pow_le_mono_r 2 (num_sets_bits d) 31). lia.
Qed.

Lemma holds_same d d' e i s : same_md d d' -> holds d e i s -> holds d' e i s.
Proof.
  intros H (Hi & Ha & Hs & Hd). pose proof H as (Eg & _). destruct (geom_fields _ _ Eg) as (Es & Ea & Eb & _).
  unfold holds. rewrite Es, Ea, (geom_dbn_set _ _ _ Eg), (same_md_state _ _ H), (same_md_dbn _ _ H).
  unfold EIO_ROUND_SECTOR in *. by rewrite Eb.
Qed.
Lemma uncached_same d d' s : same_md d d' -> uncached d' s -> uncached d s.
Proof.
  intros H Hu j. pose proof H as (Eg & _). destruct (geom_fields _ _ Eg) as (Es & _).
  specialize (Hu j). by rewrite Es, (same_md_state _ _ H), (same_md_dbn _ _ H) in Hu.
Qed.
Lemma others_same_ends d d1 d2 d3 i : same_md d d1 -> same_md d2 d3 -> others_same d1 d2 i -> others_same d d3 i.
Proof.
  intros H H' Ho j Hj Hne. destruct (Ho j Hj Hne) as [E1 E2].
  by rewrite (same_md_state _ _ H'), (same_md_dbn _ _ H'), E1, E2, (same_md_state _ _ H), (same_md_dbn _ _ H).
Qed.

Lemma read_outcome_ends d d1 d2 d3 e bc r : same_md d d1 -> same_md d2 d3 -> read_outcome d1 d2 e bc r -> read_outcome d d3 e bc r.
Proof.
  intros H H' [Hs|i Hs Hh|i Hv Hh Ho|i Hu Hv Hh Ho].
  - apply ReadMiss. etransitivity; [exact H|]. by etransitivity.
  - apply (ReadDirty _ _ _ _ i); [|by eapply holds_same]. etransitivity; [exact H|]. by etransitivity.
  - apply (ReadHit _ _ _ _ i); [by rewrite <-(same_md_state _ _ H)|by eapply holds_same|by eapply others_same_ends].
  - apply (ReadFill _ _ _ _ i); [by eapply uncached_same|by rewrite <-(same_md_state _ _ H)|by eapply holds_same|by eapply others_same_ends].
Qed.

Lemma write_outcome_ends d d1 d2 d3 e bc r : same_md d d1 -> mode d1 = mode d -> same_md d2 d3 ->
  write_outcome d1 d2 e bc r -> write_outcome d d3 e bc r.
Proof.
  intros H Em H' Hw. assert (Ew : waited d1 bc = waited d bc) by (unfold waited; by rewrite Em).
  pose proof H as (Eg & _). destruct (geom_fields _ _ Eg) as (_ & _ & Eb & _).
  destruct Hw as [Hs|i Hs Hh|i Hv Hh Ho|i Hu Hv Hh Ho].
  - apply WriteNone. etransitivity; [exact H|]. by etransitivity.
  - apply (WriteDirty _ _ _ _ i); [|by eapply holds_same]. etransitivity; [exact H|]. by etransitivity.
  - rewrite Eb, Ew. apply (WriteHit _ _ _ _ i); [by rewrite <-(same_md_state _ _ H)|by eapply holds_same|by eapply others_same_ends].
  - rewrite Ew. apply (WriteAlloc _ _ _ _ i); [by eapply uncached_same|by rewrite <-(same_md_state _ _ H)|by eapply holds_same|by eapply others_same_ends].
Qed.

Lemma ebio_ok_geom d d' e : geom d' = geom d -> ebio_ok d e -> ebio_ok d' e.
Proof.
  intros Eg []. destruct (geom_fields _ _ Eg) as (_ & _ & Eb & _).
  assert (Er : EIO_ROUND_SECTOR d' (eb_sector e) = EIO_ROUND_SECTOR d (eb_sector e)) by (unfold EIO_ROUND_SECTOR; by rewrite Eb).
  constructor; [done|by rewrite Er, Eb|rewrite Er; by eapply geom_dbn_ok|by rewrite (geom_dbn_set _ _ _ Eg)].
Qed.

(** the parts common to both operations: lookup before, thresholds after *)
Lemma peek_ok (outcome : cache_c -> cache_c -> eio_bio -> bio_container -> peeked -> Prop)
    (locked : eio_bio -> bio_container -> Z -> Z -> M cache_c peeked) inflight d e bc :
  (forall d res index, blk_inv d -> ebio_ok d e -> lookup_result d (eb_sector e) res index ->
     exists r d', locked (set_eb_index (-1) e) bc res index d = Some (r, d') /\
       blk_inv d' /\ md_stat_only d d' /\ outcome d d' e bc r) ->
  (forall d1 d2 d3 r, same_md d d1 -> mode d1 = mode d -> same_md d2 d3 -> outcome d1 d2 e bc r -> outcome d d3 e bc r) ->
  cache_inv inflight d -> ebio_ok d e ->
  exists r d', (ri <- eio_lookup (eb_sector e) ;;
                let '(res, index) := ri in
                r <- locked (set_eb_index (-1) e) bc res index ;;
                when (res <? 0) (eio_comply_dirty_thresholds (eb_cacheset e)) ;;
                ret r) d = Some (r, d') /\
    cache_inv inflight d' /\ outcome d d' e bc r.
Proof.
  intros Hlocked Hends Hci He. pose proof Hci as [Hb Hp Hsz Hq Hl]. pose proof (bi_geom d Hb) as Hg.
  destruct (lookup_ok d (eb_sector e) Hb Hp ltac:(lia) (eo_sector d e He)) as (res & index & d1 & E1 & O1 & P1 & L1).
  rewrite (bind_run _ _ _ _ _ E1). pose proof (pol_only_same_md _ _ O1) as S1. pose proof (pol_only_geom _ _ O1) as G1.
  assert (Hci1 : cache_inv inflight d1).
  { apply (cache_inv_rest inflight d); [by apply pol_only_rest|by eapply blk_inv_same|done|done]. }
  destruct (Hlocked d1 res index) as (r & d2 & E2 & I2 & O2 & W2);
    [apply Hci1|by eapply ebio_ok_geom|by eapply lookup_result_same|].
  rewrite (bind_run _ _ _ _ _ E2).
  assert (Hci2 : cache_inv inflight d2).
  { apply (cache_inv_rest inflight d1); [by apply md_stat_only_rest|done|by eapply md_stat_only_policy|done]. }
  destruct (res <? 0); cbn [when].
  - destruct (comply_ok inflight (eb_cacheset e) d2) as (d3 & E3 & O3 & Q3 & L3).
    + apply num_sets_small, Hci2. + apply Hci2. + apply Hci2.
    + right. rewrite (eo_set d e He). pose proof (md_stat_only_geom _ _ O2) as G2.
      destruct (geom_fields _ _ G1) as (_ & _ & _ & _ & _ & En1 & _). destruct (geom_fields _ _ G2) as (_ & _ & _ & _ & _ & En2 & _).
      rewrite En2, En1. by apply dbn_to_set_spec, He.
    + rewrite (bind_run _ _ _ _ _ E3). exists r, d3. split; [done|]. pose proof (cleanq_only_same_md _ _ O3) as S3. split.
      * pose proof Hci2 as [Hb2 Hp2 Hs2 _ _]. constructor; [by eapply blk_inv_same|by eapply cleanq_only_policy| |done|].
        -- destruct S3 as (G3 & _). by destruct (geom_fields _ _ G3) as (-> & _).
        -- assert (mode d3 = mode d2) as -> by (by destruct O3 as (cs & q & p & x & l & -> & _)). done.
      * apply (Hends d1 d2 d3); [done|by destruct O1 as (? & ? & ? & ->)|done|done].
  - rewrite bind_ret. exists r, d2. split_and!; [done|done|]. apply (Hends d1 d2 d2); [done|by destruct O1 as (? & ? & ? & ->)|done|done].
Qed.

Lemma read_peek_ok inflight d e bc : cache_inv inflight d -> ebio_ok d e ->
  exists r d', eio_read_peek e bc d = Some (r, d') /\ cache_inv inflight d' /\ read_outcome d d' e bc r.
Proof.
  apply (peek_ok read_outcome read_peek_locked).
  - intros. by apply read_locked_ok.
  - intros d1 d2 d3 r H _. by apply read_outcome_ends.
Qed.

Lemma write_peek_ok inflight d e bc : cache_inv inflight d -> ebio_ok d e ->
  exists r d', eio_write_peek e bc d = Some (r, d') /\ cache_inv inflight d' /\ write_outcome d d' e bc r.
Proof.
  apply (peek_ok write_outcome write_peek_locked).
  - intros. by apply write_locked_ok.
  - intros d1 d2 d3 r. apply write_outcome_ends.
Qed.
