(* ===== verification/IoPath.v ===== *)
(** * The I/O path: mapping a bio, and the ends of its transfers ([eio_main.c])

    [eio_map] splits a bio into [eio_bio]s, one for each cache block, and serves
    it from the SSD, or from the disk with the SSD kept up to date.  The
    transfers it submits end in the callbacks; [eio_post_io_callback] then
    decides what becomes of the block and ends the splits. *)

From S2P Require Import Prelude Types Mem Scan Thresh Lookup SetSeq World Peek Dispatch Disk Clean WbAlloc IoWorld MdUpdate.

(** ** Statistics *)
Definition add_read_hits (size : Z) (s : eio_stats) := {| s with st_read_hits := atomic64_add (eio_to_sector size) (st_read_hits s) |}.
Definition count_ssd_reads (size : Z) (s : eio_stats) := {| s with st_ssd_reads := atomic64_add (eio_to_sector size) (st_ssd_reads s) |}.
Definition add_ssd_readfills (size : Z) (s : eio_stats) := {| s with st_ssd_readfills := atomic64_add (eio_to_sector size) (st_ssd_readfills s) |}.
Definition add_disk_reads (size : Z) (s : eio_stats) := {| s with st_disk_reads := atomic64_add (eio_to_sector size) (st_disk_reads s) |}.
Definition count_disk_writes (size : Z) (s : eio_stats) := {| s with st_disk_writes := atomic64_add (eio_to_sector size) (st_disk_writes s) |}.
Definition add_reads (size : Z) (s : eio_stats) := {| s with st_reads := atomic64_add (eio_to_sector size) (st_reads s) |}.
Definition add_writes (size : Z) (s : eio_stats) := {| s with st_writes := atomic64_add (eio_to_sector size) (st_writes s) |}.
Definition inc_readcache (s : eio_stats) := {| s with st_readcache := atomic64_inc (st_readcache s) |}.
Definition inc_readfill (s : eio_stats) := {| s with st_readfill := atomic64_inc (st_readfill s) |}.
Definition inc_writecache (s : eio_stats) := {| s with st_writecache := atomic64_inc (st_writecache s) |}.
Definition inc_readdisk (s : eio_stats) := {| s with st_readdisk := atomic64_inc (st_readdisk s) |}.
Definition inc_writedisk (s : eio_stats) := {| s with st_writedisk := atomic64_inc (st_writedisk s) |}.
Definition inc_readcount (s : eio_stats) := {| s with st_readcount := atomic64_inc (st_readcount s) |}.
Definition inc_writecount (s : eio_stats) := {| s with st_writecount := atomic64_inc (st_writecount s) |}.
Definition inc_uncached_reads (s : eio_stats) := {| s with st_uncached_reads := atomic64_inc (st_uncached_reads s) |}.
Definition inc_uncached_writes (s : eio_stats) := {| s with st_uncached_writes := atomic64_inc (st_uncached_writes s) |}.
Definition inc_uncached_map_size (s : eio_stats) := {| s with st_uncached_map_size := atomic64_inc (st_uncached_map_size s) |}.
Definition inc_uncached_map_uncacheable (s : eio_stats) := {| s with st_uncached_map_uncacheable := atomic64_inc (st_uncached_map_uncacheable s) |}.
Definition inc_readfill_unplugs (s : eio_stats) := {| s with st_ssd_readfill_unplugs := atomic64_inc (st_ssd_readfill_unplugs s) |}.
Definition inc_disk_read_errors (e : eio_errors) := {| e with disk_read_errors := i32 (disk_read_errors e + 1) |}.
Definition inc_disk_write_errors (e : eio_errors) := {| e with disk_write_errors := i32 (disk_write_errors e + 1) |}.
Definition inc_ssd_read_errors (e : eio_errors) := {| e with ssd_read_errors := i32 (ssd_read_errors e + 1) |}.
Definition inc_ssd_write_errors (e : eio_errors) := {| e with ssd_write_errors := i32 (ssd_write_errors e + 1) |}.
Definition inc_nr_jobs (d : cache_c) : cache_c := set_nr_jobs (atomic_inc (nr_jobs d)) d.
(** the block [index] is given up *)
Definition inval_one_block (index : Z) (d : cache_c) : cache_c := dec_cached_blocks (EIO_CACHE_STATE_SET d index INVALID).

Section kernel.
Context {K : Kernel}.

(** ** [eio_flag_abios]: the splits anchored on a disk I/O that has ended *)

(** what a block becomes, dirty blocks apart *)
Definition abio_block (eb : eio_bio) (invalidated invalidate cwip_on : bool) : M cache_c unit :=
  let index := eb_index eb in
  if negb (index =? -1) then
    if invalidate then
      modify (if cwip_on then fun d => EIO_CACHE_STATE_ON d index QUEUED else inval_one_block index)
    else if cwip_on then modify (fun d => EIO_CACHE_STATE_OFF d index DISKWRITEINPROG)
    else
      modify (fun d => if tst (EIO_CACHE_STATE_GET d index) QUEUED then inval_one_block index d else EIO_CACHE_STATE_SET d index VALID)
  else
    EIO_ASSERT (invalidated || invalidate) ;;
    when invalidate (eio_inval_block (eb_sector eb) ;; ret tt).

Definition flag_abio (jiffies : Z) (invalidated : bool) (abio : Z) : M io_world unit :=
  eb <- the_ebio abio ;;
  EIO_ASSERT (negb (tst (eb_iotype eb) EB_INVAL) || (eb_index eb =? -1)) ;;
  let invalidate := negb invalidated && tst (eb_iotype eb) EB_INVAL in
  cstate <- gets (fun w => EIO_CACHE_STATE_GET (io_d w) (eb_index eb)) ;;
  let dirty_on := negb (eb_index eb =? -1) && tst cstate DIRTY in
  let cwip_on := negb (eb_index eb =? -1) && tst cstate CACHEWRITEINPROG in
  callendio <-
    (if dirty_on then
       upd_ebio abio (set_eb_holdcount (atomic_dec (eb_holdcount eb))) ;;
       when (atomic_dec (eb_holdcount eb) =? 0) (EIO_ASSERT (negb (cstate =? DIRTY_INPROG))) ;;
       ret (atomic_dec (eb_holdcount eb) =? 0)
     else on_dmc (abio_block eb invalidated invalidate cwip_on) ;; ret false) ;;
  when (negb cwip_on && (negb dirty_on || callendio)) (eb_endio jiffies abio 0).

Definition eio_flag_abios (jiffies : Z) (abios : list Z) (invalidated : bool) : M io_world unit :=
  mfor abios (flag_abio jiffies invalidated).

(** ** The ends of transfers *)
Definition job_ebio_of (job : Z) : M io_world (kcached_job * Z) :=
  j <- the_job job ;; e <- lift (job_ebio j) ;; ret (j, e).

Definition eio_disk_io_callback (jiffies error job : Z) : M io_world unit :=
  je <- job_ebio_of job ;;
  eb <- the_ebio je.2 ;;
  when (negb (error =? 0)) (upd_dmc (upd_errors inc_disk_read_errors)) ;;
  upd_dmc (inval_one_block (eb_index eb)) ;;
  eb_endio jiffies je.2 error ;;
  eio_free_cache_job job.

(** insertion in the readfill queue: before the first job whose SSD sector is
    not smaller; a job that reads the disk has none, and its [cache] region was
    never written *)
Fixpoint readfill_insert (sector_of : Z -> option Z) (job sector : Z) (q : list Z) : option (list Z) :=
  match q with
  | [] => Some [job]
  | j :: q' =>
    match sector_of j with
    | Some s => if s <? sector then match readfill_insert sector_of job sector q' with Some l => Some (j :: l) | None => None end
                else Some (job :: q)
    | None => None
    end
  end.
Definition eio_enqueue_readfill (job : Z) : M io_world unit :=
  j <- the_job job ;;
  q <- eval (fun w => readfill_insert (fun j => option_map job_cache_sector (jobs w !! j)) job (job_cache_sector j) (readfill_queue (io_d w))) ;;
  upd_dmc (set_readfill_queue q) ;;
  inprog <- gets (fun w => readfill_in_prog (io_d w)) ;;
  when (inprog =? 0) (schedule_work ReadfillWork).

(** a split reserved for an uncached read that fills nothing *)
Definition unread_block (index : Z) : M cache_c unit :=
  d <- gets id ;;
  if tst (EIO_CACHE_STATE_GET d index) QUEUED then modify (inval_one_block index)
  else
    EIO_ASSERT (tst (EIO_CACHE_STATE_GET d index) CACHEREADINPROG) ;;
    modify (fun d => EIO_CACHE_STATE_OFF d index BLOCK_IO_INPROG).

Definition eio_uncached_read_done (jiffies job : Z) : M io_world unit :=
  je <- job_ebio_of job ;;
  eb <- the_ebio je.2 ;;
  b <- the_bc (eb_bc eb) ;;
  if decide (bc_dir b = UNCACHED_READ) then
    mfor (eb_next eb) (fun iebio =>
      ieb <- the_ebio iebio ;;
      when (negb (eb_index ieb =? -1)) (on_dmc (unread_block (eb_index ieb))) ;;
      eb_endio jiffies iebio 0) ;;
    eb_endio jiffies je.2 0 ;;
    eio_free_cache_job job
  else
    EIO_ASSERT (bool_decide (bc_dir b = UNCACHED_READ_AND_READFILL)) ;;
    upd_job job (set_job_action READFILL) ;;
    eio_enqueue_readfill job.

(** the callback defers to [eio_post_io_callback] *)
Definition eio_io_callback (error job : Z) : M io_world unit :=
  upd_job job (set_job_error error) ;;
  modify (fun w => set_callback_q (callback_q w ++ [job]) w).

Definition eio_push_ssdread_failures (job : Z) : M io_world unit :=
  modify (fun w => set_disk_read_jobs (disk_read_jobs w ++ [job]) w).

(** what a block becomes after a transfer to or from the SSD *)
Definition post_cache_state (error index cstate : Z) : M cache_c unit :=
  if tst cstate DISKWRITEINPROG then
    EIO_ASSERT (negb (tst cstate DIRTY)) ;;
    when (negb (error =? 0)) (modify (fun d => EIO_CACHE_STATE_ON d index QUEUED)) ;;
    modify (fun d => EIO_CACHE_STATE_OFF d index CACHEWRITEINPROG)
  else if negb (error =? 0) || tst cstate QUEUED then
    when (negb (cstate =? ALREADY_DIRTY)) (modify (inval_one_block index))
  else when (tst cstate VALID)
    (modify (fun d => EIO_CACHE_STATE_OFF d index BLOCK_IO_INPROG) ;;
     when (Z.land cstate NO_SSD_IO_INPROG =? NO_SSD_IO_INPROG) (modify (fun d => EIO_CACHE_STATE_OFF d index VALID))).

(** the part after the [switch] *)
Definition post_io_end (jiffies job ebio index error : Z) (action : job_action) (callendio : bool) : M io_world unit :=
  cstate <- gets (fun w => EIO_CACHE_STATE_GET (io_d w) index) ;;
  EIO_ASSERT (negb (tst cstate INVALID)) ;;
  callendio <-
    (if bool_decide (action = WRITECACHE) && negb (tst cstate DISKWRITEINPROG) then
       EIO_ASSERT (negb (cstate =? DIRTY_INPROG) || negb (error =? 0)) ;;
       if tst cstate DIRTY then
         eb <- the_ebio ebio ;;
         upd_ebio ebio (set_eb_holdcount (atomic_dec (eb_holdcount eb))) ;;
         ret (atomic_dec (eb_holdcount eb) =? 0)
       else ret true
     else ret callendio) ;;
  on_dmc (post_cache_state error index cstate) ;;
  when callendio (eb_endio jiffies ebio error) ;;
  eio_free_cache_job job.

Definition eio_post_io_callback (jiffies job : Z) : M io_world unit :=
  je <- job_ebio_of job ;;
  let j := je.1 in let ebio := je.2 in
  let index := job_index j in let error := job_error j in
  EIO_ASSERT (negb (index =? -1) || bool_decide (job_action_ j = WRITEDISK) || bool_decide (job_action_ j = READDISK)) ;;
  eb <- the_ebio ebio ;;
  match job_action_ j with
  | WRITEDISK =>
    inc_stat inc_writedisk ;;
    when (negb (error =? 0)) (upd_dmc (upd_errors inc_disk_write_errors)) ;;
    when (negb (error =? 0) || tst (eb_iotype eb) EB_INVAL) (on_dmc (eio_inval_range (eb_sector eb) (eb_size eb))) ;;
    eio_flag_abios jiffies (eb_next eb) (negb (error =? 0) || tst (eb_iotype eb) EB_INVAL) ;;
    eb_endio jiffies ebio error ;;
    eio_free_cache_job job
  | READDISK =>
    degraded <- gets (fun w => CACHE_DEGRADED_IS_SET (io_d w)) ;;
    if negb (error =? 0) || tst (eb_iotype eb) EB_INVAL || degraded then
      when (negb (error =? 0)) (upd_dmc (upd_errors inc_disk_read_errors)) ;;
      on_dmc (eio_inval_range (eb_sector eb) (eb_size eb)) ;;
      eio_flag_abios jiffies (eb_next eb) true ;;
      eb_endio jiffies ebio error ;;
      eio_free_cache_job job
    else if negb (bool_decide (eb_next eb = [])) then eio_uncached_read_done jiffies job
    else eb_endio jiffies ebio error ;; eio_free_cache_job job
  | READCACHE =>
    dbn <- eval (fun w => EIO_DBN_GET (io_d w) index) ;;
    rsect <- gets (fun w => EIO_ROUND_SECTOR (io_d w) (eb_sector eb)) ;;
    EIO_ASSERT (dbn =? rsect) ;;
    cstate <- gets (fun w => EIO_CACHE_STATE_GET (io_d w) index) ;;
    EIO_ASSERT (negb (cstate =? DIRTY_INPROG)) ;;
    when (negb (error =? 0)) (upd_dmc (upd_errors inc_ssd_read_errors)) ;;
    if negb (error =? 0) && negb (cstate =? ALREADY_DIRTY) then
      upd_dmc (fun d => EIO_CACHE_STATE_ON (EIO_CACHE_STATE_OFF d (eb_index eb) CACHEREADINPROG) (eb_index eb) DISKREADINPROG) ;;
      eio_push_ssdread_failures job ;;
      schedule_work KcachedWork
    else post_io_end jiffies job ebio index error READCACHE true
  | READFILL =>
    dbn <- eval (fun w => EIO_DBN_GET (io_d w) index) ;;
    EIO_ASSERT (dbn =? eb_sector eb) ;;
    when (negb (error =? 0)) (upd_dmc (upd_errors inc_ssd_write_errors)) ;;
    post_io_end jiffies job ebio index error READFILL true
  | WRITECACHE =>
    cstate <- gets (fun w => EIO_CACHE_STATE_GET (io_d w) index) ;;
    dbn <- eval (fun w => EIO_DBN_GET (io_d w) index) ;;
    rsect <- gets (fun w => EIO_ROUND_SECTOR (io_d w) (eb_sector eb)) ;;
    EIO_ASSERT (dbn =? rsect) ;;
    EIO_ASSERT (tst cstate (Z.lor CACHEWRITEINPROG DIRTY)) ;;
    if (error =? 0) && (cstate =? DIRTY_INPROG) then eio_md_write job
    else
      when (negb (error =? 0))
        (md <- gets (fun w => mode (io_d w)) ;;
         when (md =? CACHE_MODE_WT) (upd_dmc (upd_errors inc_disk_write_errors)) ;;
         upd_dmc (upd_errors inc_ssd_write_errors)) ;;
      post_io_end jiffies job ebio index error WRITECACHE false
  | NOACTION => ret tt
  end.

(** ** Reads of the SSD that failed are repeated on the disk *)
Definition eio_ssderror_diskread (jiffies job : Z) : M io_world unit :=
  upd_job job (set_job_error 0) ;;
  je <- job_ebio_of job ;;
  eb <- the_ebio je.2 ;;
  let index := eb_index eb in
  EIO_ASSERT (negb (index =? -1)) ;;
  cstate <- gets (fun w => EIO_CACHE_STATE_GET (io_d w) index) ;;
  EIO_ASSERT (tst cstate DISKREADINPROG) ;;
  EIO_ASSERT (eb_dir eb =? READ) ;;
  inc_stat inc_readdisk ;;
  inc_stat (add_disk_reads (eb_size eb)) ;;
  upd_job job (set_job_action READDISK) ;;
  error <- async_bvec (job_disk je.1) (eb_dir eb) (eb_bv eb) true (DiskIoCallback job) ;;
  when (negb (error =? 0))
    (upd_dmc (inval_one_block index) ;;
     eb_endio jiffies je.2 error ;;
     eio_free_cache_job job).

(** [eio_process_jobs] on [_disk_read_jobs]: [fuel] jobs at most *)
Fixpoint eio_process_jobs (fuel : nat) (jiffies : Z) : M io_world unit :=
  q <- gets disk_read_jobs ;;
  match q with
  | [] => ret tt
  | job :: q' =>
    match fuel with
    | O => panic
    | S n => modify (set_disk_read_jobs q') ;; eio_ssderror_diskread jiffies job ;; eio_process_jobs n jiffies
    end
  end.
(** [eio_do_work], after the list of removed devices ([do_work_removals]) *)
Definition eio_do_work (jiffies : Z) : M io_world unit := fun w => eio_process_jobs (length (disk_read_jobs w)) jiffies w.
End kernel.
