(* ===== verification/IoMap.v ===== *)
(** * Submitting the transfers of a bio ([eio_main.c])

    [eio_new_ebio] makes a split of a bio; [eio_cached_read],
    [eio_cached_write] and [eio_uncached_write] submit the SSD's part of a
    split, [eio_disk_io] the disk's part of the whole bio, and
    [eio_do_readfill] fills the SSD after a read of the disk.  The pointers of
    the code are the addresses of the objects; the bits of [bi_rw] that say how
    to do a transfer, its direction apart, are left to the block layer.

    ** Mapping a bio: [eio_map] and what it calls ([eio_main.c], [eio_ttc.c])

    [eio_map] rejects, passes on or splits a bio; [eio_read] and [eio_write]
    reserve the blocks of the splits and decide whether the SSD alone serves it.

    ** The I/O path at work

    The kernel calls the I/O path with the arrival of a bio, the end of a
    transfer, or a piece of work it took from a queue.  These events come in
    any order; [_eio_callback] work and the other deferred work run in any
    order too, metadata updates in the order of their queue, which has a single
    thread. *)

From S2P Require Import Prelude Types Mem Scan Thresh Lookup SetSeq World Dispatch Disk Clean WbAlloc IoWorld MdUpdate IoPath Peek CleanThread.

(** * Submitting the transfers of a bio ([eio_main.c]) *)
(** ** [eio_new_ebio] *)

(** the elements a split needs when it starts [residual] bytes into an element *)
Fixpoint count_bvecs (l : list bio_vec) (residual iosize ios : Z) : option nat :=
  if ios <=? 0 then Some O
  else match l with
       | [] => None
       | v :: l' =>
         let len := if ios =? iosize then i32 (bv_len v - residual) else i32 (bv_len v) in
         option_map S (count_bvecs l' residual iosize (ios - Z.min len ios))
       end.

(** the copied elements, [bi_idx] and the residual after them, the bytes left *)
Fixpoint copy_bvecs (l : list bio_vec) (idx residual ios : Z) : option (list bio_vec * Z * Z * Z) :=
  if ios <=? 0 then Some ([], idx, residual, ios)
  else match l with
       | [] => None
       | v :: l' =>
         let len := u32 (bv_len v - residual) in
         let off := u32 (bv_offset v + residual) in
         if u32 ios <? len then Some ([mk_bvec (bv_page v) ios off], idx, residual + ios, 0)
         else match copy_bvecs l' (idx + 1) 0 (ios - len) with
              | Some (vs, idx', r, ios') => Some (mk_bvec (bv_page v) len off :: vs, idx', r, ios')
              | None => None
              end
       end.

(** a split that starts with an element uses the bio's own, whole *)
Fixpoint share_bvecs (l : list bio_vec) (idx residual ios : Z) : option (list bio_vec * Z * Z * Z) :=
  if ios <=? 0 then Some ([], idx, residual, ios)
  else match l with
       | [] => None
       | v :: l' =>
         if u32 ios <? bv_len v then Some ([v], idx, ios, 0)
         else match share_bvecs l' (idx + 1) residual (ios - bv_len v) with
              | Some (vs, idx', r, ios') => Some (v :: vs, idx', r, ios')
              | None => None
              end
       end.

Definition ebio_bvecs (b : bio) (residual iosize : Z) : option (list bio_vec * Z * Z * Z) :=
  let l := drop (Z.to_nat (bi_idx b)) (bi_io_vec b) in
  if negb (residual =? 0) then
    match count_bvecs l residual iosize iosize, copy_bvecs l (bi_idx b) residual iosize with
    | Some n, Some r => if Nat.eqb (length r.1.1.1) n then Some r else None
    | _, _ => None
    end
  else share_bvecs l (bi_idx b) 0 iosize.

(** the split, and the residual for the next one; [None] when the allocation fails *)
Definition eio_new_ebio (bio residual snum iosize bc iotype : Z) : M io_world (option Z * Z) :=
  b <- the_bio bio ;;
  ok <- on_kmalloc kmalloc ;;
  if negb ok then ret (None, residual)
  else
    r <- lift (ebio_bvecs b residual iosize) ;;
    let '(bvecs, idx, residual', ios) := r in
    upd_bio bio (fun b => {| b with bi_idx := idx |}) ;;
    EIO_ASSERT (ios =? 0) ;;
    EIO_ASSERT (negb (Nat.eqb (length bvecs) 0)) ;;
    set <- eval (fun w => hash_block (io_d w) snum) ;;
    e <- gets (fun w => fresh (dom (ebios w))) ;;
    eb <- bc_addfb bc (mk_ebio iotype bc set snum iosize bvecs (bi_dir b) [] (-1) 1) ;;
    modify (fun w => set_ebios (<[e := eb]> (ebios w)) w) ;;
    ret (Some e, residual').

(** ** Jobs *)
Definition free_job (job : option Z) : M io_world unit :=
  match job with Some j => eio_free_cache_job j | None => ret tt end.
(** [start] on the job, or the error of its allocation *)
Definition with_job (job : option Z) (start : Z -> M io_world Z) : M io_world Z :=
  match job with Some j => start j | None => ret (- ENOMEM) end.
(** the transfer of the job's part of the SSD *)
Definition cache_io (job rw : Z) (bvecs : list bio_vec) : M io_world Z :=
  j <- the_job job ;; where_ <- lift (job_cache j) ;; async_bvec where_ rw bvecs false (IoCallback job).

Section kernel.
Context {K : Kernel}.

(** ** [eio_disk_io] *)
Definition disk_io_errout (jiffies : Z) (b : bio) (anchored : list Z) (ebio : option Z) (error : Z) : M io_world unit :=
  on_dmc (eio_inval_range (bi_sector b) (bi_size b)) ;;
  eio_flag_abios jiffies anchored (negb (error =? 0)) ;;
  match ebio with Some e => eb_endio jiffies e error | None => ret tt end.

Definition eio_disk_io (jiffies bio : Z) (anchored : list Z) (bc : Z) (force_inval : bool) : M io_world unit :=
  upd_bio bio (fun b => {| b with bi_idx := 0 |}) ;;
  b <- the_bio bio ;;
  r <- eio_new_ebio bio 0 (bi_sector b) (bi_size b) bc EB_MAIN_IO ;;
  match r.1 with
  | None => upd_bc bc (set_bc_error (- ENOMEM)) ;; disk_io_errout jiffies b anchored None (- ENOMEM)
  | Some ebio =>
    when force_inval (upd_ebio ebio (fun e => set_eb_iotype (Z.lor (eb_iotype e) EB_INVAL) e)) ;;
    upd_ebio ebio (set_eb_next anchored) ;;
    job <- eio_new_job (Some ebio) (-1) ;;
    match job with
    | None => disk_io_errout jiffies b anchored (Some ebio) (- ENOMEM)
    | Some j =>
      upd_dmc inc_nr_jobs ;;
      eb <- the_ebio ebio ;;
      (if eb_dir eb =? READ then
         upd_job j (set_job_action READDISK) ;; inc_stat (add_disk_reads (bi_size b)) ;; inc_stat inc_readdisk
       else
         upd_job j (set_job_action WRITEDISK) ;; inc_stat (count_disk_writes (bi_size b)) ;; inc_stat inc_writedisk) ;;
      jb <- the_job j ;;
      error <- async_bvec (job_disk jb) (eb_dir eb) (eb_bv eb) true (IoCallback j) ;;
      if negb (error =? 0) then eio_free_cache_job j ;; disk_io_errout jiffies b anchored (Some ebio) error
      else ret tt
    end
  end.

(** ** The SSD's part *)
Definition eio_cached_read (jiffies ebio : Z) : M io_world unit :=
  eb <- the_ebio ebio ;;
  let index := eb_index eb in
  job <- eio_new_job (Some ebio) index ;;
  err <- with_job job (fun j =>
    upd_job j (set_job_action READCACHE) ;;
    upd_dmc inc_nr_jobs ;;
    inc_stat (add_read_hits (eb_size eb)) ;; inc_stat (count_ssd_reads (eb_size eb)) ;; inc_stat inc_readcache ;;
    cache_io j READ (eb_bv eb)) ;;
  when (negb (err =? 0))
    (upd_dmc (fun d => if EIO_CACHE_STATE_GET d index =? ALREADY_DIRTY then d else inval_one_block index d) ;;
     eb_endio jiffies ebio err ;;
     free_job job).

(** a write that only the SSD serves *)
Definition eio_cached_write (jiffies ebio : Z) : M io_world Z :=
  eb <- the_ebio ebio ;;
  let index := eb_index eb in
  md <- gets (fun w => mode (io_d w)) ;;
  EIO_ASSERT (md =? CACHE_MODE_WB) ;;
  cstate <- gets (fun w => EIO_CACHE_STATE_GET (io_d w) index) ;;
  when (negb (tst cstate DIRTY))
    (EIO_ASSERT (tst cstate CACHEWRITEINPROG) ;;
     upd_dmc (fun d => EIO_CACHE_STATE_SET d index DIRTY_INPROG)) ;;
  job <- eio_new_job (Some ebio) index ;;
  err <- with_job job (fun j =>
    upd_job j (set_job_action WRITECACHE) ;;
    inc_stat (add_ssd_writes (eb_size eb)) ;; inc_stat inc_writecache ;;
    cache_io j WRITE (eb_bv eb)) ;;
  when (negb (err =? 0))
    (cstate <- gets (fun w => EIO_CACHE_STATE_GET (io_d w) index) ;;
     (if cstate =? DIRTY_INPROG then upd_dmc (inval_one_block index)
      else EIO_ASSERT (cstate =? ALREADY_DIRTY)) ;;
     eb_endio jiffies ebio err ;;
     free_job job) ;;
  ret err.

(** the SSD's part of a write that goes to both *)
Definition eio_uncached_write (ebio : Z) : M io_world Z :=
  eb <- the_ebio ebio ;;
  let index := eb_index eb in
  if index =? -1 then upd_ebio ebio (fun e => set_eb_iotype (Z.lor (eb_iotype e) EB_INVAL) e) ;; ret 0
  else
    cstate <- gets (fun w => EIO_CACHE_STATE_GET (io_d w) index) ;;
    EIO_ASSERT (tst cstate (Z.lor DIRTY CACHEWRITEINPROG)) ;;
    (if cstate =? ALREADY_DIRTY then
       upd_ebio ebio (fun e => set_eb_holdcount (atomic_inc (eb_holdcount e)) (set_eb_iotype EB_MAIN_IO e))
     else upd_dmc (fun d => EIO_CACHE_STATE_ON d index DISKWRITEINPROG)) ;;
    job <- eio_new_job (Some ebio) index ;;
    err <- with_job job (fun j =>
      upd_job j (set_job_action WRITECACHE) ;;
      inc_stat (add_ssd_writes (eb_size eb)) ;; inc_stat inc_writecache ;;
      cache_io j WRITE (eb_bv eb)) ;;
    when (negb (err =? 0))
      (cstate <- gets (fun w => EIO_CACHE_STATE_GET (io_d w) index) ;;
       (if cstate =? ALREADY_DIRTY then upd_bc (eb_bc eb) (set_bc_error err)
        else
          upd_dmc (inval_one_block index) ;;
          upd_ebio ebio (fun e => set_eb_index (-1) (set_eb_iotype (Z.lor (eb_iotype e) EB_INVAL) e))) ;;
       free_job job) ;;
    ret err.

(** ** [eio_do_readfill] *)
Definition readfill_write (jiffies ebio : Z) (eb : eio_bio) : M io_world unit :=
  let index := eb_index eb in
  upd_dmc (fun d => EIO_CACHE_STATE_SET d index (Z.lor VALID CACHEWRITEINPROG)) ;;
  dbn <- eval (fun w => EIO_DBN_GET (io_d w) index) ;;
  EIO_ASSERT (dbn =? eb_sector eb) ;;
  job <- eio_new_job (Some ebio) index ;;
  err <- with_job job (fun j =>
    upd_job j (set_job_action READFILL) ;;
    upd_dmc inc_nr_jobs ;;
    inc_stat (add_ssd_readfills (eb_size eb)) ;; inc_stat (add_ssd_writes (eb_size eb)) ;;
    inc_stat inc_readfill ;; inc_stat inc_writecache ;;
    cache_io j WRITE (eb_bv eb)) ;;
  when (negb (err =? 0))
    (upd_dmc (inval_one_block index) ;;
     eb_endio jiffies ebio err ;;
     free_job job).

(** a dirty block is read over the data the disk gave *)
Definition readfill_dirty (jiffies ebio : Z) (eb : eio_bio) : M io_world unit :=
  job <- eio_new_job (Some ebio) (eb_index eb) ;;
  err <- with_job job (fun j =>
    upd_job j (set_job_action READCACHE) ;;
    inc_stat (count_ssd_reads (eb_size eb)) ;; inc_stat inc_readcache ;;
    cache_io j READ (eb_bv eb)) ;;
  when (negb (err =? 0)) (eb_endio jiffies ebio err ;; free_job job).

Definition readfill_one (jiffies ebio : Z) : M io_world unit :=
  eb <- the_ebio ebio ;;
  let index := eb_index eb in
  if index =? -1 then eb_endio jiffies ebio 0
  else
    cstate <- gets (fun w => EIO_CACHE_STATE_GET (io_d w) index) ;;
    if tst cstate QUEUED then upd_dmc (inval_one_block index) ;; eb_endio jiffies ebio 0
    else if Z.land cstate (Z.lor VALID DISKREADINPROG) =? Z.lor VALID DISKREADINPROG then readfill_write jiffies ebio eb
    else if cstate =? ALREADY_DIRTY then readfill_dirty jiffies ebio eb
    else if Z.land cstate (Z.lor VALID CACHEREADINPROG) =? Z.lor VALID CACHEREADINPROG then
      upd_dmc (fun d => EIO_CACHE_STATE_OFF d index BLOCK_IO_INPROG) ;;
      eb_endio jiffies ebio 0
    else panic.

Definition readfill_job (jiffies job : Z) : M io_world unit :=
  je <- job_ebio_of job ;;
  EIO_ASSERT (bool_decide (job_action_ je.1 = READFILL)) ;;
  eb <- the_ebio je.2 ;;
  EIO_ASSERT (negb (bool_decide (eb_next eb = []))) ;;
  mfor (eb_next eb) (readfill_one jiffies) ;;
  eb_endio jiffies je.2 0 ;;
  eio_free_cache_job job.

(** the outer [while]; nothing is queued while this runs, so two tests of its
    condition are enough *)
Fixpoint readfill_loop (fuel : nat) (jiffies : Z) : M io_world unit :=
  q <- gets (fun w => readfill_queue (io_d w)) ;;
  match q, fuel with
  | [], _ => ret tt
  | _, O => panic
  | _, S n => upd_dmc (set_readfill_queue []) ;; mfor q (readfill_job jiffies) ;; readfill_loop n jiffies
  end.
Definition eio_do_readfill (jiffies : Z) : M io_world unit :=
  inprog <- gets (fun w => readfill_in_prog (io_d w)) ;;
  when (inprog =? 0)
    (upd_dmc (set_readfill_in_prog 1) ;;
     readfill_loop 1 jiffies ;;
     upd_dmc (set_readfill_in_prog 0)) ;;
  inc_stat inc_readfill_unplugs.
End kernel.

(** * Mapping a bio: [eio_map] and what it calls ([eio_main.c], [eio_ttc.c]) *)
Definition DM_MAPIO_SUBMITTED : Z := 0.
Definition SIZE_HIST : Z := 128 + 1.

(** ** Locks and metadata requests of a write-back bio *)
Definition eio_acquire_set_locks (bc : Z) : M io_world Z :=
  b <- the_bc bc ;;
  bio <- the_bio (bc_bio b) ;;
  d <- gets io_d ;;
  r <- on_kmalloc (eio_acquire_set_span d (bi_sector bio) (bi_size bio)) ;;
  if negb (r.1 =? 0) then ret r.1
  else
    upd_bc bc (set_bc_setspan r.2) ;;
    mfor (seq_sets r.2) down_read ;;
    ret 0.

Section kernel.
Context {K : Kernel}.

(** one request; a request whose buffers cannot be allocated is not freed *)
Definition alloc_mdreq : M io_world (option Z) :=
  ok <- on_kmalloc kmalloc ;;
  if negb ok then ret None
  else
    m <- gets (fun w => fresh (dom (mdreqs w))) ;;
    modify (fun w => set_mdreqs (<[m := mk_mdreq 0 [] 0 [] [] 0]> (mdreqs w)) w) ;;
    d <- gets io_d ;;
    let nr_bvecs := Z.to_nat (IO_BVEC_COUNT (u32 (assoc d * FLASH_CACHEBLOCK_SIZE)) SECTORS_PER_PAGE) in
    ok <- on_kmalloc kmalloc ;;
    if negb ok then ret None
    else
      r <- on_kmem (eio_alloc_wb_bvecs (map stale_bvec (seq 0 nr_bvecs)) nr_bvecs SECTORS_PER_PAGE) ;;
      if negb (r.1 =? 0) then ret None
      else upd_mdreq m (set_mdblk_bvecs r.2) ;; ret (Some m).

Fixpoint alloc_mdreqs_loop (bc : Z) (sets : list Z) : M io_world Z :=
  match sets with
  | [] => ret 0
  | _ :: sets' =>
    m <- alloc_mdreq ;;
    match m with
    | None =>
      b <- the_bc bc ;;
      mfor (bc_mdreqs b) free_mdreq_pages ;;
      upd_bc bc (set_bc_mdreqs []) ;;
      ret (- ENOMEM)
    | Some m => upd_bc bc (fun b => set_bc_mdreqs (m :: bc_mdreqs b) b) ;; alloc_mdreqs_loop bc sets'
    end
  end.
Definition eio_alloc_mdreqs (bc : Z) : M io_world Z :=
  upd_bc bc (set_bc_mdreqs []) ;;
  b <- the_bc bc ;;
  alloc_mdreqs_loop bc (seq_sets (bc_setspan b)).

(** ** [eio_read] and [eio_write] *)

(** a peek at a split, on its objects *)
Definition peek_ebio (peek : eio_bio -> bio_container -> M cache_c peeked) (ebio : Z) : M io_world Z :=
  eb <- the_ebio ebio ;;
  b <- the_bc (eb_bc eb) ;;
  r <- on_dmc (peek eb b) ;;
  upd_ebio ebio (fun _ => r.1.2) ;;
  upd_bc (eb_bc eb) (fun _ => r.2) ;;
  ret r.1.1.

(** the loop over the splits: [uc] is set when one of them needs the disk *)
Fixpoint peek_ebios (peek : eio_bio -> bio_container -> M cache_c peeked) (ebios : list Z) (uc : bool) : M io_world bool :=
  match ebios with
  | [] => ret uc
  | e :: es => r <- peek_ebio peek e ;; peek_ebios peek es (uc || (r =? 0))
  end.

Definition eio_read (jiffies bc : Z) (ebegin : list Z) : M io_world unit :=
  upd_bc bc (set_bc_dir UNCACHED_READ) ;;
  ucread <- peek_ebios eio_read_peek ebegin false ;;
  if (ucread : bool) then
    inc_stat inc_uncached_reads ;;
    b <- the_bc bc ;;
    eio_disk_io jiffies (bc_bio b) ebegin bc false
  else
    upd_bc bc (set_bc_dir CACHED_READ) ;;
    mfor ebegin (fun e => upd_ebio e (set_eb_iotype EB_MAIN_IO) ;; eio_cached_read jiffies e).

Definition write_ebio (jiffies error ebio : Z) : M io_world unit :=
  upd_ebio ebio (set_eb_iotype EB_MAIN_IO) ;;
  if error =? 0 then eio_cached_write jiffies ebio ;; ret tt
  else
    eb <- the_ebio ebio ;;
    upd_dmc (fun d => if EIO_CACHE_STATE_GET d (eb_index eb) =? ALREADY_DIRTY then d else inval_one_block (eb_index eb) d) ;;
    eb_endio jiffies ebio error.

Definition eio_write (jiffies bc : Z) (ebegin : list Z) : M io_world unit :=
  d <- gets io_d ;;
  ucwrite <- peek_ebios eio_write_peek ebegin (negb (mode d =? CACHE_MODE_WB) || tst (do_clean (sysctl_active d)) EIO_CLEAN_KEEP) ;;
  if (ucwrite : bool) then
    inc_stat inc_uncached_writes ;;
    upd_bc bc (fun b => set_bc_dir UNCACHED_WRITE (set_bc_mdwait 0 b)) ;;
    mfor ebegin (fun e => eio_uncached_write e ;; ret tt) ;;
    b <- the_bc bc ;;
    eio_disk_io jiffies (bc_bio b) ebegin bc false
  else
    upd_bc bc (set_bc_dir CACHED_WRITE) ;;
    b <- the_bc bc ;;
    error <- (if negb (bc_mdwait b =? 0) then eio_alloc_mdreqs bc else ret 0) ;;
    mfor ebegin (write_ebio jiffies error).

(** ** Empty bios *)

(** a flush is sent and will end with an error code *)
Definition eio_issue_empty_barrier_flush (orig_bio : option Z) : M io_world unit :=
  ok <- on_kmalloc kmalloc ;;
  if negb ok then
    match orig_bio with Some b => bio_endio b (- ENOMEM) | None => ret tt end ;; panic
  else
    r <- on_cw next_result ;;
    modify (fun w => set_completions (completions w ++
      [(EmptyBarrierCallback orig_bio, if negb ((io_errors r).1 =? 0) then (io_errors r).1 else (io_errors r).2)]) w).
Definition eio_bio_end_empty_barrier (orig_bio : option Z) (err : Z) : M io_world unit :=
  match orig_bio with Some b => bio_endio b err | None => ret tt end.

Definition eio_process_zero_size_bio (bio : Z) : M io_world unit :=
  b <- the_bio bio ;;
  EIO_ASSERT (bi_size b =? 0) ;;
  EIO_ASSERT (negb (bi_dir b =? 0) || bi_discard b || negb (bi_flags b =? 0)) ;;
  eio_issue_empty_barrier_flush None ;;
  eio_issue_empty_barrier_flush (Some bio).

(** ** [eio_map] *)
Definition count_size (sectors : Z) (d : cache_c) : cache_c :=
  if sectors <? SIZE_HIST then set_size_hist (<[sectors := atomic64_inc (default 0 (size_hist d !! sectors))]> (size_hist d)) d else d.

(** the splits of the bio, in order, and whether an allocation failed *)
Fixpoint map_split (fuel : nat) (bio bc snum biosize residual : Z) : M io_world (list Z * bool) :=
  if biosize =? 0 then ret ([], false)
  else match fuel with
       | O => panic
       | S n =>
         iosize <- gets (fun w => eio_get_iosize (io_d w) snum biosize) ;;
         r <- eio_new_ebio bio residual snum iosize bc EB_SUBORDINATE_IO ;;
         match r.1 with
         | None => upd_bc bc (set_bc_error (- ENOMEM)) ;; ret ([], true)
         | Some e =>
           l <- map_split n bio bc (u64 (snum + eio_to_sector iosize)) (biosize - iosize) r.2 ;;
           ret (e :: l.1, l.2)
         end
       end.

Definition inc_nr_ios (d : cache_c) : cache_c := set_nr_ios (atomic64_inc (nr_ios d)) d.

(** the container and, in write-back mode, the locks; [None] when the bio was ended *)
Definition map_start (jiffies bio : Z) : M io_world (option Z) :=
  ok <- on_kmalloc kmalloc ;;
  if negb ok then bio_endio bio (- ENOMEM) ;; ret None
  else
    bc <- gets (fun w => fresh (dom (bcs w))) ;;
    modify (fun w => set_bcs (<[bc := mk_bc 1 bio [] 0 [] [] EIO_IO_INVALID_DIR 0 jiffies]> (bcs w)) w) ;;
    md <- gets (fun w => mode (io_d w)) ;;
    ret_ <- (if md =? CACHE_MODE_WB then eio_acquire_set_locks bc else ret 0) ;;
    if negb (ret_ =? 0) then bio_endio bio ret_ ;; free_bc bc ;; ret None
    else upd_dmc inc_nr_ios ;; ret (Some bc).

(** the splits are made, then served *)
Definition map_serve (jiffies : Z) (bio_ bc : Z) (b : bio) (force_uncached : bool) : M io_world unit :=
  r <- (if force_uncached then on_dmc (eio_inval_range (bi_sector b) (bi_size b)) ;; ret ([], false)
        else map_split (S (Z.to_nat (eio_to_sector (bi_size b)))) bio_ bc (bi_sector b) (bi_size b) 0) ;;
  let '(ebegin, failed) := r in
  if (failed : bool) then
    mfor ebegin (fun e => c <- the_bc bc ;; eb_endio jiffies e (bc_error c)) ;;
    c <- the_bc bc ;;
    EIO_ASSERT (bc_holdcount c =? 1)
  else if force_uncached then
    md <- gets (fun w => mode (io_d w)) ;;
    EIO_ASSERT (negb (md =? CACHE_MODE_WB)) ;;
    inc_stat (if bi_dir b =? READ then inc_uncached_reads else inc_uncached_writes) ;;
    eio_disk_io jiffies bio_ ebegin bc true
  else if bi_dir b =? READ then eio_read jiffies bc ebegin
  else eio_write jiffies bc ebegin.

Definition map_served (jiffies bio_ : Z) (b : bio) (force_uncached : bool) : M io_world unit :=
  r <- map_start jiffies bio_ ;;
  match r with
  | None => ret tt
  | Some bc => map_serve jiffies bio_ bc b force_uncached ;; bc_put jiffies bc
  end.

(** what is decided before the container is made *)
Definition map_checked (jiffies bio_ : Z) (b : bio) : M io_world unit :=
  upd_dmc (count_size (eio_to_sector (bi_size b))) ;;
  (if bi_dir b =? READ then inc_stat (add_reads (bi_size b)) ;; inc_stat inc_readcount
   else inc_stat (add_writes (bi_size b)) ;; inc_stat inc_writecount) ;;
  d <- gets io_d ;;
  if CACHE_FAILED_IS_SET d then bio_endio bio_ (- ENODEV)
  else
    force_uncached <-
      (if CACHE_DEGRADED_IS_SET d then EIO_ASSERT (negb (mode d =? CACHE_MODE_WB)) ;; ret true
       else if (bi_dir b =? WRITE) && (mode d =? CACHE_MODE_RO) then
         inc_stat (if negb (eio_to_sector (bi_size b) =? block_size d) then inc_uncached_map_size else inc_uncached_map_uncacheable) ;;
         ret true
       else ret false) ;;
    if bi_size b =? 0 then eio_process_zero_size_bio bio_
    else map_served jiffies bio_ b force_uncached.

Definition eio_map (jiffies bio : Z) : M io_world Z :=
  b <- the_bio bio ;;
  EIO_ASSERT (bi_idx b =? 0) ;;
  (if bi_discard b then bio_endio bio 0
   else
     rdonly <- gets (fun w => cache_rdonly (io_d w)) ;;
     if negb (rdonly =? 0) && negb (bi_dir b =? READ) then bio_endio bio (- EPERM)
     else map_checked jiffies bio b) ;;
  ret DM_MAPIO_SUBMITTED.
End kernel.

(** * The I/O path at work *)
Inductive io_event :=
| BioArrives (bio : Z)
| TransferEnds (n : nat)      (* the [n]-th transfer submitted and not ended *)
| CallbackWork (n : nat)      (* the [n]-th job of [callback_q] *)
| MdWork                      (* the first entry of [mdupdate_q] *)
| DeferredWork (n : nat).

Section kernel.
Context {K : Kernel}.

Definition run_callback (jiffies : Z) (c : callback * Z) : M io_world unit :=
  match c.1 with
  | MdupdateCallback m => eio_mdupdate_callback c.2 m
  | IoCallback job => eio_io_callback c.2 job
  | DiskIoCallback job => eio_disk_io_callback jiffies c.2 job
  | EmptyBarrierCallback b => eio_bio_end_empty_barrier b c.2
  end.
Definition run_md_work (jiffies : Z) (x : md_work) : M io_world unit :=
  match x with DoMdupdate m => eio_do_mdupdate m | PostMdupdate m => eio_post_mdupdate jiffies m end.
Definition run_deferred (jiffies : Z) (x : deferred_work) : M io_world unit :=
  match x with ReadfillWork => eio_do_readfill jiffies | KcachedWork => eio_do_work jiffies end.

(** the event and what is left of its queue; [None] if there is no such event *)
Definition io_event_run (jiffies : Z) (ev : io_event) (w : io_world) : option (M io_world unit * io_world) :=
  match ev with
  | BioArrives b => Some (eio_map jiffies b ;; ret tt, w)
  | TransferEnds n => option_map (fun c => (run_callback jiffies c, set_completions (delete n (completions w)) w)) (completions w !! n)
  | CallbackWork n => option_map (fun j => (eio_post_io_callback jiffies j, set_callback_q (delete n (callback_q w)) w)) (callback_q w !! n)
  | MdWork => match md_queue w with x :: q => Some (run_md_work jiffies x, set_md_queue q w) | [] => None end
  | DeferredWork n => option_map (fun x => (run_deferred jiffies x, set_scheduled (delete n (scheduled w)) w)) (scheduled w !! n)
  end.

Inductive io_step (jiffies : Z) (ev : io_event) : io_world -> io_world -> Prop :=
| IoStep w m w1 w' : io_event_run jiffies ev w = Some (m, w1) -> m w1 = Some (tt, w') -> io_step jiffies ev w w'.

(** nothing is left to do *)
Definition io_quiet (w : io_world) : bool :=
  match completions w, callback_q w, md_queue w, scheduled w with [], [], [], [] => true | _, _, _, _ => false end.

(** a sequence of events *)
Fixpoint io_events (jiffies : Z) (evs : list io_event) (w : io_world) : option io_world :=
  match evs with
  | [] => Some w
  | ev :: evs' =>
    match io_event_run jiffies ev w with
    | Some (m, w1) => match m w1 with Some (_, w') => io_events jiffies evs' w' | None => None end
    | None => None
    end
  end.
End kernel.
