(* ===== verification/Split.v ===== *)
(** * The splits of a bio cover it

    A split takes the next bytes of the bio; it starts [r] bytes into the
    element the bio has arrived at.  Copied or shared, its elements are the
    memory of these bytes.

    ** The two ends of a write that goes to the disk and to the SSD

    In a write that the SSD alone cannot serve, the disk's transfer of the
    whole bio and the SSD's transfer of each split end in any order.  The one
    that ends last settles the block and ends the split. *)

From Stdlib Require Import Sorting.Sorted.
From S2P Require Import Prelude Types Mem Scan Thresh Lookup SetSeq World Dispatch Disk Clean WbAlloc IoWorld MdUpdate IoPath IoMap Refs MdFlow.

(** * The splits of a bio cover it *)
(** ** Positions in an array of elements *)

(** elements of whole sectors, within 31 bits *)
Definition vec_ok (v : bio_vec) : Prop := bvec_ok v /\ 0 <= bv_offset v /\ bv_offset v + bv_len v < 2 ^ 31.
Definition vslots (v : bio_vec) : list slot := page_slots (bv_page v, bv_len v, bv_offset v).

(** [r] bytes into the first element of [l] *)
Definition at_pos (l : list bio_vec) (r : Z) : Prop :=
  Forall vec_ok l /\ 0 <= r /\ (512 | r) /\ match l with [] => r = 0 | v :: _ => r < bv_len v end.
Definition rest_slots (l : list bio_vec) (r : Z) : list slot := drop (Z.to_nat (r / 512)) (bvec_slots l).

Lemma sector_div n : eio_to_sector n = n / 512.
Proof. unfold eio_to_sector, SECTOR_SHIFT. by rewrite Z.shiftr_div_pow2 by lia. Qed.

Lemma vslots_length v : length (vslots v) = Z.to_nat (bv_len v / 512).
Proof. unfold vslots. by rewrite page_slots_length, sector_div. Qed.

Lemma page_slots_part p len off a b : 0 <= a -> 0 <= b -> a + b <= len / 512 ->
  page_slots (p, 512 * a, off + 512 * b) = take (Z.to_nat a) (drop (Z.to_nat b) (page_slots (p, len, off))).
Proof.
  intros Ha Hb Hl. unfold page_slots. rewrite !sector_div. rewrite <-fmap_drop, <-fmap_take. change (@map ?A ?B) with (@fmap list _ A B).
  replace (512 * a / 512) with a by (rewrite Z.mul_comm, Z.div_mul; lia).
  replace ((off + 512 * b) / 512) with (off / 512 + b) by (rewrite Z.mul_comm, Z.div_add; lia).
  apply list_eq. intros i. rewrite !list_lookup_fmap. destruct (decide (i < Z.to_nat a)%nat) as [Hi|Hi].
  - rewrite lookup_take_lt, lookup_drop by done. rewrite !lookup_seqZ_lt by lia. cbn. do 2 f_equal. lia.
  - rewrite lookup_take_ge by lia. by rewrite lookup_seqZ_ge by lia.
Qed.

Lemma pos_cons v l r : at_pos (v :: l) r -> rest_slots (v :: l) r = drop (Z.to_nat (r / 512)) (vslots v) ++ bvec_slots l.
Proof.
  intros (_ & H1 & [m ->] & H2). unfold rest_slots. rewrite bvec_slots_cons. fold (vslots v). apply drop_app_le.
  rewrite vslots_length, Z.div_mul by lia. apply Z2Nat.inj_le; [lia|apply Z.div_pos; lia|]. apply Z.div_le_lower_bound; lia.
Qed.

Lemma pos_next v l : Forall vec_ok (v :: l) -> at_pos l 0.
Proof.
  intros [_ H]%Forall_cons. split_and!; [done|done|by exists 0|]. destruct l as [|v' l]; [done|].
  apply Forall_cons in H as [[[? _] _] _]. done.
Qed.
Lemma rest_nil r : rest_slots [] r = [].
Proof. apply drop_nil. Qed.
Lemma rest_zero l : rest_slots l 0 = bvec_slots l.
Proof. done. Qed.

(** the bytes of an element behind [r], and the sectors they are *)
Lemma pos_head v l r : at_pos (v :: l) r -> exists m a, bv_len v = 512 * m /\ r = 512 * a /\ 0 <= a < m /\ 512 * m < 2 ^ 31 /\
  vec_ok v /\ Forall vec_ok l /\ length (drop (Z.to_nat (r / 512)) (vslots v)) = Z.to_nat (m - a).
Proof.
  intros (Hf & H1 & [a Ha] & H2). apply Forall_cons in Hf as [Hv Hf]. pose proof Hv as [[Hp [m Hm]] [Ho Hb]].
  exists m, a. rewrite length_drop, vslots_length, Ha, Hm, !Z.div_mul by lia. split_and!; try done; lia.
Qed.

Lemma fit_cons v vs k : vec_ok v -> 0 < k -> bvecs_fit vs (Z.max 0 (k - bv_len v / 512)) -> bvecs_fit (v :: vs) k.
Proof. intros [Hv _] Hk H. split_and!; [done|done|]. by rewrite sector_div. Qed.

(** what a walk of [512 * k] bytes from [(l, r)] yields: the elements [vs], [n]
    elements passed and the next residual *)
Record walked (l : list bio_vec) (r k : Z) (vs : list bio_vec) (n : nat) (r' : Z) : Prop := {
  wk_n : (n <= length l)%nat;
  wk_some : 0 < k -> vs <> [];
  wk_fit : bvecs_fit vs k;
  wk_slots : take (Z.to_nat k) (bvec_slots vs) = take (Z.to_nat k) (rest_slots l r);
  wk_pos : at_pos (drop n l) r';
  wk_rest : rest_slots (drop n l) r' = drop (Z.to_nat k) (rest_slots l r)
}.

Lemma walked_none l r : at_pos l r -> walked l r 0 [] 0 r.
Proof. intros H. constructor; try done; lia. Qed.

(** the walk ends inside the first element, which is used by [v'] *)
Lemma walked_inside v l r k v' m a : at_pos (v :: l) r -> bv_len v = 512 * m -> r = 512 * a -> 0 < k < m - a ->
  vec_ok v' -> k <= bv_len v' / 512 -> take (Z.to_nat k) (vslots v') = take (Z.to_nat k) (drop (Z.to_nat a) (vslots v)) ->
  walked (v :: l) r k [v'] 0 (r + 512 * k).
Proof.
  intros Hp Em Ea Hk Hv' Hl' Et. destruct (pos_head v l r Hp) as (m' & a' & Em' & Ea' & Ha & _ & _ & _ & Hlen).
  assert (m' = m) as -> by lia. assert (a' = a) as -> by lia. pose proof Hp as (Hf & _ & _ & _). constructor; cbn [drop].
  - lia.
  - done.
  - apply fit_cons; [done|lia|]. cbn. lia.
  - rewrite (pos_cons v l r Hp). unfold bvec_slots at 1. cbn [flat_map]. rewrite app_nil_r. fold (vslots v').
    rewrite take_app_le by (rewrite Hlen; lia). rewrite Et, Ea. do 2 f_equal. rewrite Z.mul_comm, Z.div_mul by lia. done.
  - split_and!; [done|lia|exists (a + k); lia|lia].
  - unfold rest_slots. rewrite drop_drop. f_equal. rewrite Ea. replace (512 * a + 512 * k) with ((a + k) * 512) by lia.
    rewrite (Z.mul_comm 512 a), !Z.div_mul by lia. lia.
Qed.

(** the walk passes the first element, which is used by [v'] *)
Lemma walked_through v l r k v' m a vs n r' : at_pos (v :: l) r -> bv_len v = 512 * m -> r = 512 * a -> m - a <= k ->
  vec_ok v' -> bv_len v' = 512 * (m - a) -> vslots v' = drop (Z.to_nat a) (vslots v) ->
  walked l 0 (k - (m - a)) vs n r' -> walked (v :: l) r k (v' :: vs) (S n) r'.
Proof.
  intros Hp Em Ea Hk Hv' Hl' Et [W1 W2 W3 W4 W5 W6]. destruct (pos_head v l r Hp) as (m' & a' & Em' & Ea' & Ha & _ & _ & _ & Hlen).
  assert (m' = m) as -> by lia. assert (a' = a) as -> by lia.
  assert (Er : r / 512 = a) by (rewrite Ea, Z.mul_comm, Z.div_mul; lia). rewrite Er in Hlen. constructor; cbn [drop].
  - cbn [length]. lia.
  - done.
  - apply fit_cons; [done|lia|]. rewrite Hl'. replace (512 * (m - a) / 512) with (m - a) by (rewrite Z.mul_comm, Z.div_mul; lia).
    by rewrite Z.max_r by lia.
  - rewrite (pos_cons v l r Hp), Er, bvec_slots_cons. fold (vslots v'). rewrite Et, !take_app, Hlen. f_equal.
    replace (Z.to_nat k - Z.to_nat (m - a))%nat with (Z.to_nat (k - (m - a))) by lia. exact W4.
  - done.
  - rewrite W6, (pos_cons v l r Hp), Er, drop_app, Hlen. rewrite (drop_ge (drop _ (vslots v))) by (rewrite Hlen; lia). cbn [app].
    rewrite rest_zero. f_equal. lia.
Qed.

Lemma rest_length_cons v l r m a : at_pos (v :: l) r -> bv_len v = 512 * m -> r = 512 * a ->
  Z.of_nat (length (rest_slots (v :: l) r)) = (m - a) + Z.of_nat (length (rest_slots l 0)).
Proof.
  intros Hp Em Ea. destruct (pos_head v l r Hp) as (m' & a' & Em' & Ea' & Ha & _ & _ & _ & Hlen).
  rewrite (pos_cons v l r Hp), length_app, Hlen, rest_zero. lia.
Qed.

(** ** Copying *)
Lemma copy_bvecs_ok : forall l idx r k, at_pos l r -> 0 <= k <= Z.of_nat (length (rest_slots l r)) -> 512 * k < 2 ^ 31 ->
  exists vs n r', copy_bvecs l idx r (512 * k) = Some (vs, idx + Z.of_nat n, r', 0) /\ walked l r k vs n r' /\
    forall iosize rc, (iosize = 512 * k /\ rc = r) \/ (512 * k < iosize /\ r = 0) -> count_bvecs l rc iosize (512 * k) = Some (length vs).
Proof.
  induction l as [|v l IH]; intros idx r k Hp Hk Hb.
  { assert (k = 0) as -> by (rewrite rest_nil in Hk; cbn in Hk; lia).
    exists [], O, r. split_and!; [cbn; do 4 f_equal; lia|by apply walked_none|by intros]. }
  destruct (Z.eqb_spec k 0) as [->|Hk0].
  { exists [], O, r. split_and!; [cbn; do 4 f_equal; lia|by apply walked_none|by intros]. }
  destruct (pos_head v l r Hp) as (m & a & Em & Ea & Ha & Hm & Hv & Hf & _). pose proof Hv as [_ [Ho1 Ho2]].
  assert (Elen : u32 (bv_len v - r) = 512 * (m - a)) by (unfold u32; rewrite Z.mod_small by lia; lia).
  assert (Eoff : u32 (bv_offset v + r) = bv_offset v + 512 * a) by (unfold u32; rewrite Z.mod_small by lia; lia).
  assert (Eios : u32 (512 * k) = 512 * k) by (unfold u32; apply Z.mod_small; lia).
  assert (Evs : vslots v = page_slots (bv_page v, 512 * m, bv_offset v)) by (unfold vslots; by rewrite Em).
  assert (Hdiv : forall x, 512 * x / 512 = x) by (intros x; rewrite Z.mul_comm; apply Z.div_mul; lia).
  assert (Hcl : forall iosize rc, (iosize = 512 * k /\ rc = r) \/ (512 * k < iosize /\ r = 0) ->
     (if 512 * k =? iosize then i32 (bv_len v - rc) else i32 (bv_len v)) = 512 * (m - a)).
  { intros iosize rc [[-> ->]|[Hi Hr]]; unfold i32; [rewrite Z.eqb_refl|destruct (Z.eqb_spec (512 * k) iosize); [lia|]];
      rewrite Z.mod_small by lia; lia. }
  cbn [copy_bvecs count_bvecs]. destruct (Z.leb_spec (512 * k) 0); [lia|]. rewrite Elen, Eoff, Eios.
  destruct (Z.ltb_spec (512 * k) (512 * (m - a))) as [Hin|Hout].
  - exists [mk_bvec (bv_page v) (512 * k) (bv_offset v + 512 * a)], O, (r + 512 * k). split_and!; [do 4 f_equal; lia| |].
    + apply (walked_inside v l r k _ m a); try done; [lia| | |].
      * split; [split; [cbn; lia|by exists k; cbn; lia]|cbn; lia].
      * cbn. rewrite Hdiv. lia.
      * unfold vslots at 1. cbn [bv_page bv_len bv_offset]. rewrite (page_slots_part _ (512 * m) _ k a) by (rewrite ?Hdiv; lia).
        rewrite <-Evs, take_take, Nat.min_id. done.
    + intros iosize rc Hc. rewrite (Hcl iosize rc Hc). rewrite Z.min_r by lia. replace (512 * k - 512 * k) with 0 by lia. destruct l; reflexivity.
  - pose proof (rest_length_cons v l r m a Hp Em Ea) as Hlen.
    destruct (IH (idx + 1) 0 (k - (m - a))) as (vs & n & r' & E & W & Hcnt); [exact (pos_next v l (proj1 Hp))|lia|lia|].
    replace (512 * k - 512 * (m - a)) with (512 * (k - (m - a))) by lia. rewrite E.
    exists (mk_bvec (bv_page v) (512 * (m - a)) (bv_offset v + 512 * a) :: vs), (S n), r'. split_and!; [do 4 f_equal; lia| |].
    + apply (walked_through v l r k _ m a vs n r'); try done; [lia| |].
      * split; [split; [cbn; lia|by exists (m - a); cbn; lia]|cbn; lia].
      * unfold vslots at 1. cbn [bv_page bv_len bv_offset]. rewrite (page_slots_part _ (512 * m) _ (m - a) a) by (rewrite ?Hdiv; lia).
        rewrite <-Evs. apply take_ge. rewrite length_drop, vslots_length, Em, Hdiv. lia.
    + intros iosize rc Hc. rewrite (Hcl iosize rc Hc). rewrite Z.min_l by lia.
      replace (512 * k - 512 * (m - a)) with (512 * (k - (m - a))) by lia. rewrite (Hcnt iosize rc); [done|]. right. lia.
Qed.

(** ** Sharing *)
Lemma share_bvecs_ok : forall l idx k, at_pos l 0 -> 0 <= k <= Z.of_nat (length (rest_slots l 0)) -> 512 * k < 2 ^ 31 ->
  exists vs n r', share_bvecs l idx 0 (512 * k) = Some (vs, idx + Z.of_nat n, r', 0) /\ walked l 0 k vs n r'.
Proof.
  induction l as [|v l IH]; intros idx k Hp Hk Hb.
  { assert (k = 0) as -> by (rewrite rest_nil in Hk; cbn in Hk; lia). exists [], O, 0. split; [cbn; do 4 f_equal; lia|by apply walked_none]. }
  destruct (Z.eqb_spec k 0) as [->|Hk0].
  { exists [], O, 0. split; [cbn; do 4 f_equal; lia|by apply walked_none]. }
  destruct (pos_head v l 0 Hp) as (m & a & Em & Ea & Ha & Hm & Hv & Hf & _). assert (a = 0) as -> by lia.
  assert (Eios : u32 (512 * k) = 512 * k) by (unfold u32; apply Z.mod_small; lia).
  cbn [share_bvecs]. destruct (Z.leb_spec (512 * k) 0); [lia|]. rewrite Eios, Em.
  destruct (Z.ltb_spec (512 * k) (512 * m)) as [Hin|Hout].
  - exists [v], O, (512 * k). split; [do 4 f_equal; lia|]. apply (walked_inside v l 0 k v m 0); try done; [lia|].
    rewrite Em, Z.mul_comm, Z.div_mul; lia.
  - pose proof (rest_length_cons v l 0 m 0 Hp Em Ea) as Hlen.
    destruct (IH (idx + 1) (k - m)) as (vs & n & r' & E & W); [exact (pos_next v l (proj1 Hp))|lia|lia|].
    replace (512 * k - 512 * m) with (512 * (k - m)) by lia. rewrite E.
    exists (v :: vs), (S n), r'. split; [do 4 f_equal; lia|]. apply (walked_through v l 0 k v m 0 vs n r'); try done; [lia|lia|].
    by replace (k - (m - 0)) with (k - m) by lia.
Qed.

(** ** [eio_new_ebio] *)
Lemma ebio_bvecs_ok b r k : at_pos (drop (Z.to_nat (bi_idx b)) (bi_io_vec b)) r -> 0 < k -> 512 * k < 2 ^ 31 ->
  k <= Z.of_nat (length (rest_slots (drop (Z.to_nat (bi_idx b)) (bi_io_vec b)) r)) ->
  exists vs n r', ebio_bvecs b r (512 * k) = Some (vs, bi_idx b + Z.of_nat n, r', 0) /\
    walked (drop (Z.to_nat (bi_idx b)) (bi_io_vec b)) r k vs n r'.
Proof.
  intros Hp Hk Hb Hl. unfold ebio_bvecs. destruct (Z.eqb_spec r 0) as [->|Hr]; cbn [negb].
  - apply share_bvecs_ok; [done|lia|done].
  - destruct (copy_bvecs_ok _ (bi_idx b) r k Hp) as (vs & n & r' & E & W & Hc); [lia|done|].
    rewrite (Hc (512 * k) r), E by by left. cbn. rewrite Nat.eqb_refl. eauto.
Qed.

Definition new_split (b : bio) (bc set snum k iotype : Z) (vs : list bio_vec) : eio_bio :=
  mk_ebio iotype bc set snum (512 * k) vs (bi_dir b) [] (-1) 1.
Definition set_bi_idx (i : Z) (b : bio) : bio := {| b with bi_idx := i |}.

Lemma on_kmalloc_run w : exists ok km, on_kmalloc kmalloc w = Some (ok, set_io_kmalloc km w) /\ (io_kmalloc w = [] -> ok = true /\ km = []).
Proof.
  destruct (kmalloc_run (io_kmalloc w)) as (ok & km & E & H). exists ok, km. split; [|done]. unfold on_kmalloc. by rewrite E.
Qed.

Lemma new_ebio_ok w bio_ b bc c r k snum iotype : bios w !! bio_ = Some b -> bcs w !! bc = Some c -> wf_geom (io_d w) -> 0 <= snum -> 0 <= bi_idx b ->
  at_pos (drop (Z.to_nat (bi_idx b)) (bi_io_vec b)) r -> 0 < k -> 512 * k < 2 ^ 31 ->
  k <= Z.of_nat (length (rest_slots (drop (Z.to_nat (bi_idx b)) (bi_io_vec b)) r)) ->
  exists ok km, (io_kmalloc w = [] -> ok = true /\ km = []) /\
    if (ok : bool) then exists e vs n r', ebios w !! e = None /\ walked (drop (Z.to_nat (bi_idx b)) (bi_io_vec b)) r k vs n r' /\
      eio_new_ebio bio_ r snum (512 * k) bc iotype w = Some ((Some e, r'),
        set_ebios (<[e := new_split b bc (dbn_set (io_d w) snum) snum k iotype vs]> (ebios w))
          (set_bcs (<[bc := set_bc_holdcount (atomic_inc (bc_holdcount c)) c]> (bcs w))
            (set_bios (<[bio_ := set_bi_idx (bi_idx b + Z.of_nat n) b]> (bios w)) (set_io_kmalloc km w))))
    else eio_new_ebio bio_ r snum (512 * k) bc iotype w = Some ((None, r), set_io_kmalloc km w).
Proof.
  intros Eb Ec Hg Hs Hi Hp Hk Hb Hl. destruct (on_kmalloc_run w) as (ok & km & Ek & Hkm). exists ok, km. split; [done|].
  unfold eio_new_ebio. rewrite (bind_run _ _ _ _ _ (the_bio_run _ _ _ Eb)), (bind_run _ _ _ _ _ Ek).
  destruct ok; cbn [negb]; [|done].
  destruct (ebio_bvecs_ok b r k Hp Hk Hb Hl) as (vs & n & r' & Ev & W).
  exists (fresh (dom (ebios w))), vs, n, r'. split; [apply not_elem_of_dom, is_fresh|]. split; [done|].
  rewrite Ev. set (w1 := set_io_kmalloc km w). rewrite (bind_run (lift (Some (vs, bi_idx b + Z.of_nat n, r', 0))) _ w1 _ w1 eq_refl). cbv iota beta.
  rewrite (bind_run _ _ _ _ _ (upd_bio_run bio_ b (set_bi_idx (bi_idx b + Z.of_nat n)) w1 Eb)).
  set (w2 := set_bios _ w1). rewrite bind_assert by done.
  rewrite bind_assert by (destruct vs; [by destruct (wk_some _ _ _ _ _ _ W)|done]).
  rewrite (bind_eval (fun w => hash_block (io_d w) snum) _ w2 (dbn_set (io_d w) snum)) by (by apply eio_hash_block_ok).
  rewrite bind_gets. unfold bc_addfb. rewrite bind_bind.
  rewrite (bind_run _ _ _ _ _ (upd_bc_run bc c (fun b => set_bc_holdcount (atomic_inc (bc_holdcount b)) b) w2 Ec)).
  rewrite bind_ret, bind_modify. reflexivity.
Qed.

(** ** [map_split] *)
Definition split_sectors (eb : eio_bio) : Z := eb_size eb / 512.
(** the sectors of a split, each with its memory *)
Definition split_transfer (eb : eio_bio) : list (Z * slot) := region_transfer (eb_sector eb) (split_sectors eb) (eb_bv eb).
Definition split_block (d : cache_c) (eb : eio_bio) : Z := EIO_ROUND_SECTOR d (eb_sector eb).

(** a fresh split of [b], inside one block *)
Record split_of (d : cache_c) (bc : Z) (b : bio) (eb : eio_bio) : Prop := {
  sp_new : exists n vs, eb = new_split b bc (dbn_set d (eb_sector eb)) (eb_sector eb) n EB_SUBORDINATE_IO vs /\ 0 < n /\ vs <> [] /\ bvecs_fit vs n;
  sp_pos : 0 <= eb_sector eb;
  sp_block : eb_sector eb + split_sectors eb <= split_block d eb + block_size d
}.

Record split_done (w : io_world) (bio_ bc : Z) (b : bio) (c : bio_container) (l : list Z) (failed : bool) (w' : io_world) : Prop := {
  sd_frame : exists es bs bs' km, w' = set_ebios es (set_bcs bs (set_bios bs' (set_io_kmalloc km w)));
  sd_bio : exists i, 0 <= i /\ bios w' = <[bio_ := set_bi_idx i b]> (bios w);
  sd_bc : bcs w' = <[bc := set_bc_holdcount (bc_holdcount c + Z.of_nat (length l)) (if failed then set_bc_error (- ENOMEM) c else c)]> (bcs w);
  sd_nodup : NoDup l;
  sd_fresh : forall e, e ∈ l -> ebios w !! e = None;
  sd_others : forall e, e ∉ l -> ebios w' !! e = ebios w !! e;
  sd_alloc : io_kmalloc w = [] -> failed = false /\ io_kmalloc w' = []
}.

Lemma transfer_app s n m (ss : list slot) : 0 <= n -> 0 <= m -> n + m <= Z.of_nat (length ss) ->
  zip (seqZ s n) (take (Z.to_nat n) ss) ++ zip (seqZ (s + n) m) (take (Z.to_nat m) (drop (Z.to_nat n) ss)) =
  zip (seqZ s (n + m)) (take (Z.to_nat (n + m)) ss).
Proof.
  intros Hn Hm Hl. rewrite Z2Nat.inj_add by done. rewrite <-zip_seqZ_app by (rewrite ?length_take; lia).
  by rewrite take_take_drop.
Qed.

Lemma round_next d s t : wf_geom d -> 0 <= s -> EIO_ROUND_SECTOR d s + block_size d <= t -> EIO_ROUND_SECTOR d s < EIO_ROUND_SECTOR d t.
Proof.
  intros Hg Hs Ht. pose proof (block_size_pos d Hg) as Hb. rewrite (round_sector d s) in * by done.
  assert (0 <= s / block_size d) by (apply Z.div_pos; lia).
  set (q := s / block_size d) in *. rewrite round_sector by (done || nia). assert (q + 1 <= t / block_size d); [|nia]. apply Z.div_le_lower_bound; lia.
Qed.

Lemma no_more_holds (c : bio_container) : set_bc_holdcount (bc_holdcount c + Z.of_nat (length (@nil Z))) c = c.
Proof. destruct c. unfold set_bc_holdcount. cbn. by rewrite Z.add_0_r. Qed.

Lemma split_done_nil w bio_ bc b c : bios w !! bio_ = Some b -> bcs w !! bc = Some c -> 0 <= bi_idx b -> split_done w bio_ bc b c [] false w.
Proof.
  intros Eb Ec Hi. constructor; try done.
  - exists (ebios w), (bcs w), (bios w), (io_kmalloc w). by destruct w.
  - exists (bi_idx b). split; [done|]. rewrite insert_id; [done|]. by destruct b.
  - rewrite no_more_holds, insert_id; done.
  - constructor.
  - by intros e ?%not_elem_of_nil.
Qed.

Lemma split_done_fail w bio_ bc b c km : bios w !! bio_ = Some b -> bcs w !! bc = Some c -> 0 <= bi_idx b -> io_kmalloc w <> [] ->
  split_done w bio_ bc b c [] true (set_bcs (<[bc := set_bc_error (- ENOMEM) c]> (bcs w)) (set_io_kmalloc km w)).
Proof.
  intros Eb Ec Hi Hk. constructor; try done.
  - exists (ebios w), (<[bc := set_bc_error (- ENOMEM) c]> (bcs w)), (bios w), km. by destruct w.
  - exists (bi_idx b). split; [done|]. symmetry. apply insert_id. change (bios w !! bio_ = Some (set_bi_idx (bi_idx b) b)). rewrite Eb. by destruct b.
  - cbn [bcs set_bcs]. f_equal. symmetry. apply (no_more_holds (set_bc_error (- ENOMEM) c)).
  - constructor.
  - by intros e ?%not_elem_of_nil.
Qed.

Lemma split_done_cons w bio_ bc b c e eb i km l failed w' : ebios w !! e = None -> 0 <= bc_holdcount c -> bc_holdcount c + 1 < 2 ^ 31 ->
  split_done (set_ebios (<[e := eb]> (ebios w)) (set_bcs (<[bc := set_bc_holdcount (atomic_inc (bc_holdcount c)) c]> (bcs w))
               (set_bios (<[bio_ := set_bi_idx i b]> (bios w)) (set_io_kmalloc km w))))
    bio_ bc (set_bi_idx i b) (set_bc_holdcount (atomic_inc (bc_holdcount c)) c) l failed w' ->
  (io_kmalloc w = [] -> km = []) ->
  split_done w bio_ bc b c (e :: l) failed w'.
Proof.
  intros He Hc0 Hc1 [S1 S2 S3 S4 S5 S6 S7] Hkm.
  assert (Hel : e ∉ l) by (intros Hl; specialize (S5 e Hl); cbn [ebios set_ebios] in S5; by rewrite lookup_insert_eq in S5).
  constructor.
  - destruct S1 as (es & bs & bs' & km' & ->). by exists es, bs, bs', km'.
  - destruct S2 as (i' & Hi' & ->). exists i'. split; [done|]. cbn [bios set_bios set_ebios set_bcs]. by rewrite insert_insert_eq.
  - rewrite S3. cbn [bcs set_bcs set_ebios]. rewrite insert_insert_eq. f_equal. cbn [bc_holdcount set_bc_holdcount length].
    replace (atomic_inc (bc_holdcount c)) with (bc_holdcount c + 1) by (unfold atomic_inc, i32; rewrite Z.mod_small by lia; lia).
    replace (bc_holdcount c + 1 + Z.of_nat (length l)) with (bc_holdcount c + Z.of_nat (S (length l))) by lia. by destruct failed.
  - by constructor.
  - intros x [->|Hx]%elem_of_cons; [done|]. specialize (S5 x Hx). cbn [ebios set_ebios] in S5. apply lookup_insert_None in S5. tauto.
  - intros x [Hx1 Hx2]%not_elem_of_cons. rewrite (S6 x Hx2). cbn [ebios set_ebios]. by rewrite lookup_insert_ne.
  - intros Ha. apply S7. by apply Hkm.
Qed.

(** the splits made from the sector [snum] on, [k] sectors at most *)
Record splits_of (d : cache_c) (bc : Z) (b : bio) (snum k : Z) (ss : list slot) (failed : bool) (ebs : list eio_bio) : Prop := {
  so_each : Forall (split_of d bc b) ebs;
  so_above : Forall (fun eb => snum <= eb_sector eb) ebs;
  so_blocks : StronglySorted (fun x y => split_block d x < split_block d y) ebs;
  so_cover : exists t, 0 <= t <= k /\ (failed = false -> t = k) /\ flat_map split_transfer ebs = zip (seqZ snum t) (take (Z.to_nat t) ss)
}.

Lemma splits_none d bc b snum k ss failed : 0 <= k -> (failed = false -> k = 0) -> splits_of d bc b snum k ss failed [].
Proof. intros Hk Hf. constructor; [constructor..|]. exists 0. split; [lia|]. split; [|done]. intros H. by rewrite Hf. Qed.

Lemma new_split_transfer b bc set snum n t vs (ss : list slot) : take (Z.to_nat n) (bvec_slots vs) = take (Z.to_nat n) ss ->
  split_transfer (new_split b bc set snum n t vs) = zip (seqZ snum n) (take (Z.to_nat n) ss).
Proof.
  intros E. unfold split_transfer, region_transfer, split_sectors. cbn [eb_sector eb_size eb_bv new_split].
  replace (512 * n / 512) with n by (rewrite Z.mul_comm, Z.div_mul; lia). by rewrite E.
Qed.

Lemma splits_cons d bc b i snum k n vs ss failed ebs : wf_geom d -> 0 <= snum -> 0 < n <= k -> k <= Z.of_nat (length ss) ->
  vs <> [] -> bvecs_fit vs n -> take (Z.to_nat n) (bvec_slots vs) = take (Z.to_nat n) ss ->
  snum + n <= EIO_ROUND_SECTOR d snum + block_size d -> (n < k -> snum + n = EIO_ROUND_SECTOR d snum + block_size d) ->
  splits_of d bc (set_bi_idx i b) (snum + n) (k - n) (drop (Z.to_nat n) ss) failed ebs ->
  splits_of d bc b snum k ss failed (new_split b bc (dbn_set d snum) snum n EB_SUBORDINATE_IO vs :: ebs).
Proof.
  intros Hg Hs Hn Hk Hv Hfit Eslots Hin Hend [S1 S2 S3 (t & Ht & Htf & Et)].
  assert (Hdiv : 512 * n / 512 = n) by (rewrite Z.mul_comm, Z.div_mul; lia). constructor.
  - constructor; [|eapply Forall_impl; [exact S1|]].
    + constructor; [exists n, vs; split_and!; done || lia|done|]. unfold split_sectors, split_block. cbn. by rewrite Hdiv.
    + intros eb [(n' & vs' & E & H) ? ?]. constructor; [|done|done]. by exists n', vs'.
  - constructor; [cbn; lia|]. eapply Forall_impl; [exact S2|]. intros eb He. cbn in He |- *. lia.
  - constructor; [done|]. rewrite list.Forall_forall in *. intros eb He. specialize (S2 eb He).
    assert (n < k) as Hlt.
    { destruct (Z.eqb_spec n k) as [->|]; [|lia]. destruct (S1 eb He) as [(n' & vs' & Eb & Hn' & Hv' & Hf') _ _].
      assert (t = 0) as -> by lia. apply list_elem_of_split in He as (l1 & l2 & ->). rewrite flat_map_app in Et. cbn [flat_map] in Et.
      apply (f_equal (@length _)) in Et. rewrite !length_app, length_zip_with, length_take in Et.
      assert (length (split_transfer eb) = O) as E0 by lia. rewrite Eb in E0.
      rewrite (new_split_transfer _ _ _ _ _ _ _ (bvec_slots vs')) in E0 by done. rewrite length_zip_with, length_seqZ, length_take in E0.
      destruct vs' as [|v' vs']; [done|]. destruct Hf' as ([Hp Hd] & _ & _). cbn [bvec_slots flat_map] in E0.
      rewrite length_app, page_slots_length in E0. destruct (sectors_pos _ Hp Hd) as [? _]. lia. }
    unfold split_block. cbn [eb_sector new_split]. apply round_next; [done|done|]. rewrite <-Hend by lia. lia.
  - exists (n + t). split; [lia|]. split; [intros E; rewrite (Htf E); lia|]. cbn [flat_map].
    rewrite (new_split_transfer _ _ _ _ _ _ _ ss Eslots), Et. apply transfer_app; lia.
Qed.

Lemma map_split_ok : forall fuel w bio_ bc b c snum k r, bios w !! bio_ = Some b -> bcs w !! bc = Some c -> wf_geom (io_d w) -> block_size (io_d w) < 2 ^ 23 ->
  0 <= snum -> snum + k < 2 ^ 63 -> 0 <= bi_idx b -> at_pos (drop (Z.to_nat (bi_idx b)) (bi_io_vec b)) r ->
  0 <= k <= Z.of_nat (length (rest_slots (drop (Z.to_nat (bi_idx b)) (bi_io_vec b)) r)) -> 512 * k < 2 ^ 31 ->
  0 <= bc_holdcount c -> bc_holdcount c + k < 2 ^ 31 -> k <= Z.of_nat fuel ->
  exists l failed w' ebs, map_split fuel bio_ bc snum (512 * k) r w = Some ((l, failed), w') /\ split_done w bio_ bc b c l failed w' /\
    Forall2 (fun e eb => ebios w' !! e = Some eb) l ebs /\
    splits_of (io_d w) bc b snum k (rest_slots (drop (Z.to_nat (bi_idx b)) (bi_io_vec b)) r) failed ebs.
Proof.
  induction fuel as [|fuel IH]; intros w bio_ bc b c snum k r Eb Ec Hg Hbs Hs Hend Hi Hp Hk Hb Hc0 Hc Hf.
  { assert (k = 0) as -> by lia. exists [], false, w, []. split_and!; [done|by apply split_done_nil|constructor|]. by apply splits_none. }
  cbn [map_split]. destruct (Z.eqb_spec (512 * k) 0) as [E0|Hk0].
  { assert (k = 0) as -> by lia. exists [], false, w, []. split_and!; [done|by apply split_done_nil|constructor|]. by apply splits_none. }
  rewrite bind_gets. destruct (iosize_ok (io_d w) snum (512 * k) Hg Hbs Hs) as (Hn1 & [n En] & Hn3 & Hn4); [lia|by exists k; lia|].
  set (ios := eio_get_iosize (io_d w) snum (512 * k)) in *. assert (Hdiv : ios / 512 = n) by (rewrite En, Z.div_mul; lia). rewrite Hdiv in *.
  replace ios with (512 * n) in * by lia. clearbody ios. clear En Hdiv.
  set (rs := rest_slots _ r) in *.
  destruct (new_ebio_ok w bio_ b bc c r n snum EB_SUBORDINATE_IO Eb Ec Hg Hs Hi Hp) as (ok & km & Hkm & Hok); [lia|lia|fold rs; lia|].
  destruct ok.
  2:{ rewrite (bind_run _ _ _ _ _ Hok). cbn [fst]. set (w1 := set_io_kmalloc km w).
      rewrite (bind_run _ _ _ _ _ (upd_bc_run bc c (set_bc_error (- ENOMEM)) w1 Ec)).
      exists [], true, (set_bcs (<[bc := set_bc_error (- ENOMEM) c]> (bcs w)) w1), []. split_and!; [done| |constructor|by apply splits_none; [lia|]].
      apply split_done_fail; [done..|]. intros Ha. by destruct (Hkm Ha) as [? _]. }
  destruct Hok as (e & vs & m & r' & He & W & E). rewrite (bind_run _ _ _ _ _ E). cbn [fst snd].
  set (w1 := set_ebios _ _). set (b1 := set_bi_idx (bi_idx b + Z.of_nat m) b). set (c1 := set_bc_holdcount (atomic_inc (bc_holdcount c)) c).
  assert (Ehold : bc_holdcount c1 = bc_holdcount c + 1) by (cbn; unfold atomic_inc, i32; rewrite Z.mod_small by lia; lia).
  assert (Epos : drop (Z.to_nat (bi_idx b1)) (bi_io_vec b1) = drop m (drop (Z.to_nat (bi_idx b)) (bi_io_vec b))).
  { rewrite drop_drop. cbn [bi_idx bi_io_vec b1 set_bi_idx]. f_equal. lia. }
  assert (Esn : u64 (snum + eio_to_sector (512 * n)) = snum + n).
  { rewrite sector_div. replace (512 * n / 512) with n by (rewrite Z.mul_comm, Z.div_mul; lia). unfold u64. apply Z.mod_small. lia. }
  rewrite Esn. replace (512 * k - 512 * n) with (512 * (k - n)) by lia.
  assert (Elen : Z.of_nat (length (rest_slots (drop m (drop (Z.to_nat (bi_idx b)) (bi_io_vec b))) r')) = Z.of_nat (length rs) - n).
  { rewrite (wk_rest _ _ _ _ _ _ W), length_drop. fold rs. lia. }
  destruct (IH w1 bio_ bc b1 c1 (snum + n) (k - n) r') as (l & failed & w' & ebs & E2 & D2 & F2 & S2).
  { apply lookup_insert_eq. } { apply lookup_insert_eq. } { done. } { done. } { lia. } { lia. } { cbn. lia. }
  { rewrite Epos. apply (wk_pos _ _ _ _ _ _ W). } { rewrite Epos, Elen. lia. } { lia. } { lia. } { lia. } { lia. }
  rewrite Epos, (wk_rest _ _ _ _ _ _ W) in S2. fold rs in S2. rewrite (bind_run _ _ _ _ _ E2). cbn [fst snd].
  exists (e :: l), failed, w', (new_split b bc (dbn_set (io_d w) snum) snum n EB_SUBORDINATE_IO vs :: ebs).
  split; [done|]. split; [|split; [constructor; [|done]|]].
  - eapply (split_done_cons w bio_ bc b c e); [done|lia|lia|exact D2|]. intros Ha. by destruct (Hkm Ha).
  - rewrite (sd_others _ _ _ _ _ _ _ _ D2).
    + apply lookup_insert_eq.
    + intros Hel. pose proof (sd_fresh _ _ _ _ _ _ _ _ D2 e Hel) as Hn. cbn [w1 ebios set_ebios] in Hn. by rewrite lookup_insert_eq in Hn.
  - apply (splits_cons (io_d w) bc b (bi_idx b + Z.of_nat m)); try done; [lia|lia|apply (wk_some _ _ _ _ _ _ W); lia|apply (wk_fit _ _ _ _ _ _ W)|
      apply (wk_slots _ _ _ _ _ _ W)|]. intros H. apply Hn4. lia.
Qed.

(** * The two ends of a write that goes to the disk and to the SSD *)
(** ** Programs that do not look at the jobs *)
Definition jobs_free {A} (m : M io_world A) : Prop :=
  forall js w, m (set_jobs js w) = option_map (fun r => (r.1, set_jobs js r.2)) (m w).

Section jobs_free.
Context {A B : Type}.
Lemma jf_ret (a : A) : jobs_free (ret a).
Proof. done. Qed.
Lemma jf_bind (m : M io_world A) (k : A -> M io_world B) : jobs_free m -> (forall a, jobs_free (k a)) -> jobs_free (bind m k).
Proof. intros Hm Hk js w. unfold bind. rewrite Hm. destruct (m w) as [[a w']|]; [apply Hk|done]. Qed.
Lemma jf_gets (f : io_world -> A) : (forall js w, f (set_jobs js w) = f w) -> jobs_free (gets f).
Proof. intros H js w. unfold gets. by rewrite H. Qed.
Lemma jf_eval (f : io_world -> option A) : (forall js w, f (set_jobs js w) = f w) -> jobs_free (eval f).
Proof. intros H js w. unfold eval. rewrite H. by destruct (f w). Qed.
Lemma jf_modify (f : io_world -> io_world) : (forall js w, f (set_jobs js w) = set_jobs js (f w)) -> jobs_free (modify f).
Proof. intros H js w. unfold modify. by rewrite H. Qed.
Lemma jf_assert b : jobs_free (EIO_ASSERT b).
Proof. by destruct b. Qed.
Lemma jf_when b (m : M io_world unit) : jobs_free m -> jobs_free (when b m).
Proof. by destruct b. Qed.
Lemma jf_on_cw (m : M cworld A) : jobs_free (on_cw m).
Proof. intros js w. unfold on_cw. cbn. by destruct (m (io_cw w)) as [[a c]|]. Qed.
Lemma jf_on_kmem (m : M kmem A) : jobs_free (on_kmem m).
Proof. intros js w. unfold on_kmem. cbn. by destruct (m (io_kmem w)) as [[a c]|]. Qed.
End jobs_free.

Lemma jf_mfor {A} (f : A -> M io_world unit) l : (forall x, jobs_free (f x)) -> jobs_free (mfor l f).
Proof. intros H. induction l as [|x l IH]; cbn [mfor]; [apply jf_ret|]. apply jf_bind; [apply H|by intros _]. Qed.

Create HintDb jobs_free discriminated.
#[export] Hint Resolve jf_ret jf_bind jf_gets jf_eval jf_modify jf_assert jf_when jf_on_cw jf_on_kmem jf_mfor : jobs_free.
#[export] Hint Extern 1 (_ = _) => reflexivity : jobs_free.

Lemma jf_upd_bc b f : jobs_free (upd_bc b f).
Proof. unfold upd_bc, the_bc. auto with jobs_free. Qed.
Lemma jf_upd_bio b f : jobs_free (upd_bio b f).
Proof. unfold upd_bio, the_bio. auto with jobs_free. Qed.
#[export] Hint Resolve jf_upd_bc jf_upd_bio : jobs_free.
Lemma jf_free_mdreq_pages m : jobs_free (free_mdreq_pages m).
Proof. unfold free_mdreq_pages, free_mdreq, the_mdreq. auto 8 with jobs_free. Qed.
Lemma jf_up_read s : jobs_free (up_read s).
Proof. unfold up_read. auto 8 with jobs_free. Qed.
#[export] Hint Resolve jf_free_mdreq_pages jf_up_read : jobs_free.
Lemma jf_release bc : jobs_free (eio_release_io_resources bc).
Proof. unfold eio_release_io_resources, the_bc. auto 8 with jobs_free. Qed.
#[export] Hint Resolve jf_release : jobs_free.

Section kernel.
Context {K : Kernel}.
Lemma jf_bc_put jiffies bc : jobs_free (bc_put jiffies bc).
Proof.
  unfold bc_put, bio_endio, free_bc, inc_stat, upd_dmc, on_dmc, the_bc, the_bio. auto 20 with jobs_free.
Qed.
#[local] Hint Resolve jf_bc_put : jobs_free.
Lemma jf_eb_endio jiffies e error : jobs_free (eb_endio jiffies e error).
Proof. unfold eb_endio, free_ebio, the_ebio. auto 12 with jobs_free. Qed.
End kernel.

(** ** Updates of one block's state *)
Lemma state_set_twice d i a b : EIO_CACHE_STATE_SET (EIO_CACHE_STATE_SET d i a) i b = EIO_CACHE_STATE_SET d i b.
Proof.
  unfold EIO_CACHE_STATE_SET at 1. rewrite state_set_md8. pose proof (state_set_raw d i a i) as H. unfold md_raw in H. rewrite state_set_md8 in H.
  destruct (EIO_MD8 d) eqn:E; rewrite H; unfold EIO_CACHE_STATE_SET; rewrite E; destruct d; cbn; by rewrite insert_insert_eq.
Qed.
Lemma state_set_errors d i s e : EIO_CACHE_STATE_SET (set_errors e d) i s = set_errors e (EIO_CACHE_STATE_SET d i s).
Proof. unfold EIO_CACHE_STATE_SET. change (EIO_MD8 (set_errors e d)) with (EIO_MD8 d). by destruct (EIO_MD8 d). Qed.
Lemma state_get_errors d e : EIO_CACHE_STATE_GET (set_errors e d) = EIO_CACHE_STATE_GET d.
Proof. done. Qed.
Lemma errors_of_state d i s : errors (EIO_CACHE_STATE_SET d i s) = errors d.
Proof. unfold EIO_CACHE_STATE_SET. by destruct (EIO_MD8 d). Qed.
Lemma mode_of_state d i s : mode (EIO_CACHE_STATE_SET d i s) = mode d.
Proof. unfold EIO_CACHE_STATE_SET. by destruct (EIO_MD8 d). Qed.

Section ends.
Context {K : Kernel} (k0 : kmem) (held : Z -> Z) (jiffies : Z).

(** what the block is while both transfers are on their way; [q] when an
    invalidation waits for them *)
Definition queued (q : bool) (s : Z) : Z := if q then Z.lor s QUEUED else s.
Definition writing (q : bool) : Z := queued q (Z.lor (Z.lor VALID DISKWRITEINPROG) CACHEWRITEINPROG).
Definition write_errs (err : Z) (d : cache_c) : cache_c :=
  if err =? 0 then d
  else upd_errors inc_ssd_write_errors (if mode d =? CACHE_MODE_WT then upd_errors inc_disk_write_errors d else d).
(** the block once both have ended *)
Definition settle_write (bad : bool) (i : Z) (d : cache_c) : cache_c :=
  if bad then inval_one_block i d else EIO_CACHE_STATE_SET d i VALID.

(** the split [e], whose write to the SSD is the job [j] *)
Record split_writing (w : io_world) (e : Z) (eb : eio_bio) (j : Z) (jb : kcached_job) (q : bool) : Prop := {
  sw_refs : refs_ok k0 held w;
  sw_eb : ebios w !! e = Some eb;
  sw_type : eb_iotype eb = EB_SUBORDINATE_IO;
  sw_index : 0 <= eb_index eb;
  sw_jb : jobs w !! j = Some jb;
  sw_job : job_ebio jb = Some e /\ job_index jb = eb_index eb /\ job_action_ jb = WRITECACHE;
  sw_zero : wf_zero (io_d w);
  sw_state : EIO_CACHE_STATE_GET (io_d w) (eb_index eb) = writing q;
  sw_dbn : EIO_DBN_GET (io_d w) (eb_index eb) = Some (EIO_ROUND_SECTOR (io_d w) (eb_sector eb))
}.

Lemma write_errs_form err d : exists er, write_errs err d = set_errors er d.
Proof.
  unfold write_errs, upd_errors. destruct (err =? 0); [exists (errors d); by destruct d|].
  destruct (mode d =? _); eexists; reflexivity.
Qed.

Lemma errs_run err w : when (negb (err =? 0))
    (md <- gets (fun w => mode (io_d w)) ;;
     when (md =? CACHE_MODE_WT) (upd_dmc (upd_errors inc_disk_write_errors)) ;;
     upd_dmc (upd_errors inc_ssd_write_errors)) w = Some (tt, with_d (write_errs err (io_d w)) w).
Proof.
  unfold write_errs. destruct (Z.eqb_spec err 0); cbn [negb when]; [by rewrite with_d_same|].
  rewrite bind_gets. by destruct (mode (io_d w) =? CACHE_MODE_WT).
Qed.

(** what [eio_flag_abios] does with a split whose SSD transfer has ended *)
Lemma flag_last inv e eb w q : ebios w !! e = Some eb -> eb_iotype eb = EB_SUBORDINATE_IO -> 0 <= eb_index eb ->
  EIO_CACHE_STATE_GET (io_d w) (eb_index eb) = queued q (Z.lor VALID DISKWRITEINPROG) ->
  flag_abio jiffies inv e w = eb_endio jiffies e 0 (with_d (settle_write q (eb_index eb) (io_d w)) w).
Proof.
  intros Ee Et Hi Es. unfold flag_abio. rewrite (bind_run _ _ _ _ _ (the_ebio_run _ _ _ Ee)), Et, bind_assert by done.
  rewrite bind_gets, Es. assert ((eb_index eb =? -1) = false) as -> by (apply Z.eqb_neq; lia).
  assert (Ef : (negb false && tst (queued q (Z.lor VALID DISKWRITEINPROG)) DIRTY) = false /\
          (negb false && tst (queued q (Z.lor VALID DISKWRITEINPROG)) CACHEWRITEINPROG) = false) by by destruct q.
  destruct Ef as [-> ->]. replace (negb inv && tst EB_SUBORDINATE_IO EB_INVAL) with false by by destruct inv.
  rewrite bind_bind.
  rewrite (bind_run _ _ _ tt (with_d (settle_write q (eb_index eb) (io_d w)) w)); [done|].
  apply on_dmc_run. unfold abio_block. assert ((eb_index eb =? -1) = false) as -> by (apply Z.eqb_neq; lia). cbn [negb].
  unfold modify. rewrite Es. unfold settle_write. by destruct q.
Qed.

(** and with one whose SSD transfer has not *)
Lemma flag_first inv e eb w q : ebios w !! e = Some eb -> eb_iotype eb = EB_SUBORDINATE_IO -> 0 <= eb_index eb ->
  EIO_CACHE_STATE_GET (io_d w) (eb_index eb) = writing q ->
  flag_abio jiffies inv e w = Some (tt, with_d (EIO_CACHE_STATE_SET (io_d w) (eb_index eb) (queued q (Z.lor VALID CACHEWRITEINPROG))) w).
Proof.
  intros Ee Et Hi Es. unfold flag_abio. rewrite (bind_run _ _ _ _ _ (the_ebio_run _ _ _ Ee)), Et, bind_assert by done.
  rewrite bind_gets, Es. assert ((eb_index eb =? -1) = false) as -> by (apply Z.eqb_neq; lia).
  assert (Ef : (negb false && tst (writing q) DIRTY) = false /\ (negb false && tst (writing q) CACHEWRITEINPROG) = true) by by destruct q.
  destruct Ef as [-> ->]. replace (negb inv && tst EB_SUBORDINATE_IO EB_INVAL) with false by by destruct inv.
  rewrite bind_bind.
  rewrite (bind_run _ _ _ tt (with_d (EIO_CACHE_STATE_SET (io_d w) (eb_index eb) (queued q (Z.lor VALID CACHEWRITEINPROG))) w)); [done|].
  apply on_dmc_run. unfold abio_block. assert ((eb_index eb =? -1) = false) as -> by (apply Z.eqb_neq; lia). cbn [negb].
  unfold modify, EIO_CACHE_STATE_OFF. rewrite Es. by destruct q.
Qed.

(** the callback work of a write to the SSD, up to the block's state *)
Lemma post_write e eb j jb w s : jobs w !! j = Some jb -> job_ebio jb = Some e -> job_index jb = eb_index eb -> job_action_ jb = WRITECACHE ->
  0 <= eb_index eb -> ebios w !! e = Some eb -> EIO_CACHE_STATE_GET (io_d w) (eb_index eb) = s -> tst s (Z.lor CACHEWRITEINPROG DIRTY) = true -> s <> DIRTY_INPROG ->
  EIO_DBN_GET (io_d w) (eb_index eb) = Some (EIO_ROUND_SECTOR (io_d w) (eb_sector eb)) ->
  eio_post_io_callback jiffies j w =
    post_io_end jiffies j e (eb_index eb) (job_error jb) WRITECACHE false (with_d (write_errs (job_error jb) (io_d w)) w).
Proof.
  intros Ej Eje Eji Eja Hi Ee Es Hs Hn Ed. unfold eio_post_io_callback.
  assert (E0 : job_ebio_of j w = Some ((jb, e), w)) by (unfold job_ebio_of, the_job, eval, bind; rewrite Ej; unfold lift; rewrite Eje; done).
  rewrite (bind_run _ _ _ _ _ E0). cbn [fst snd]. rewrite Eji, Eja.
  rewrite bind_assert by (apply orb_true_iff; left; apply orb_true_iff; left; apply negb_true_iff, Z.eqb_neq; lia).
  rewrite (bind_run _ _ _ _ _ (the_ebio_run _ _ _ Ee)), bind_gets, Es.
  rewrite (bind_eval (fun w => EIO_DBN_GET (io_d w) (eb_index eb)) _ w _ Ed), bind_gets, bind_assert by apply Z.eqb_refl.
  rewrite bind_assert by done. rewrite (proj2 (Z.eqb_neq s DIRTY_INPROG)) by done. rewrite andb_false_r.
  by rewrite (bind_run _ _ _ _ _ (errs_run (job_error jb) w)).
Qed.

(** the SSD's transfer ends first: the disk's is left to settle the block *)
Lemma post_first e j i err w q jb : jobs w !! j = Some jb -> EIO_CACHE_STATE_GET (io_d w) i = writing q ->
  post_io_end jiffies j e i err WRITECACHE false w =
    Some (tt, set_jobs (delete j (jobs w))
      (with_d (EIO_CACHE_STATE_SET (io_d w) i (queued (q || negb (err =? 0)) (Z.lor VALID DISKWRITEINPROG))) w)).
Proof.
  intros Ej Es. unfold post_io_end. rewrite bind_gets, Es, bind_assert by by destruct q.
  assert (E1 : tst (writing q) DISKWRITEINPROG = true) by by destruct q. rewrite E1. cbn [negb andb bool_decide]. rewrite andb_false_r, bind_ret.
  set (d1 := EIO_CACHE_STATE_SET _ _ _).
  assert (E2 : post_cache_state err i (writing q) (io_d w) = Some (tt, d1)).
  { unfold post_cache_state. rewrite E1, bind_assert by by destruct q. unfold bind, when, modify, EIO_CACHE_STATE_ON, EIO_CACHE_STATE_OFF. subst d1.
    destruct (negb (err =? 0)); cbn [ret orb].
    - rewrite state_get_set_eq, state_set_twice, Es by (rewrite Es; by destruct q). by destruct q.
    - unfold ret. rewrite Es. by destruct q. }
  rewrite (bind_run _ _ _ _ _ (on_dmc_run _ w tt d1 E2)). cbn [when]. rewrite bind_ret.
  unfold eio_free_cache_job, the_job. by rewrite (bind_eval (fun w => jobs w !! j) _ (with_d d1 w) jb).
Qed.

(** it ends last *)
Lemma post_last e j i err w q : EIO_CACHE_STATE_GET (io_d w) i = queued q (Z.lor VALID CACHEWRITEINPROG) ->
  post_io_end jiffies j e i err WRITECACHE false w =
    (eb_endio jiffies e err ;; eio_free_cache_job j) (with_d (settle_write (q || negb (err =? 0)) i (io_d w)) w).
Proof.
  intros Es. unfold post_io_end. rewrite bind_gets, Es, bind_assert by by destruct q.
  assert (E1 : tst (queued q (Z.lor VALID CACHEWRITEINPROG)) DISKWRITEINPROG = false) by by destruct q. rewrite E1, bool_decide_true by done. cbn [negb andb].
  rewrite bind_bind, bind_assert by by destruct q.
  assert (E2 : tst (queued q (Z.lor VALID CACHEWRITEINPROG)) DIRTY = false) by by destruct q. rewrite E2, bind_ret.
  set (d1 := settle_write _ _ _).
  assert (E3 : post_cache_state err i (queued q (Z.lor VALID CACHEWRITEINPROG)) (io_d w) = Some (tt, d1)).
  { unfold post_cache_state. rewrite E1. subst d1. unfold settle_write, bind, when, modify, EIO_CACHE_STATE_OFF.
    destruct q, (Z.eqb_spec err 0); first [reflexivity|
      transitivity (Some (tt, EIO_CACHE_STATE_OFF (io_d w) i BLOCK_IO_INPROG)); [reflexivity|unfold EIO_CACHE_STATE_OFF; by rewrite Es]]. }
  rewrite (bind_run _ _ _ _ _ (on_dmc_run _ w tt d1 E3)). done.
Qed.

(** ** Either order *)
Lemma settle_set bad i d s : settle_write bad i (EIO_CACHE_STATE_SET d i s) = settle_write bad i d.
Proof. unfold settle_write, inval_one_block. by destruct bad; rewrite state_set_twice. Qed.
Lemma write_errs_set err d i s : write_errs err (EIO_CACHE_STATE_SET d i s) = EIO_CACHE_STATE_SET (write_errs err d) i s.
Proof.
  unfold write_errs, upd_errors. rewrite mode_of_state. destruct (err =? 0); [done|].
  destruct (mode d =? CACHE_MODE_WT); by rewrite ?state_set_errors, ?errors_of_state.
Qed.
Lemma write_errs_get err d j : EIO_CACHE_STATE_GET (write_errs err d) j = EIO_CACHE_STATE_GET d j.
Proof. destruct (write_errs_form err d) as [er ->]. done. Qed.
Lemma write_errs_mode err d : mode (write_errs err d) = mode d.
Proof. destruct (write_errs_form err d) as [er ->]. done. Qed.
Lemma settle_mode bad i d : mode (settle_write bad i d) = mode d.
Proof. unfold settle_write. destruct bad; apply mode_of_state. Qed.

Lemma refs_jobs js w : refs_ok k0 held w -> refs_ok k0 held (set_jobs js w).
Proof. intros [[H1 H2 H3 H4 H5 H6 H7] Hb Hh Hc]. constructor; [|done|done|done]. by constructor. Qed.

Lemma refs_ebio w e eb eb' : refs_ok k0 held w -> ebios w !! e = Some eb -> eb_bc eb' = eb_bc eb ->
  refs_ok k0 held (set_ebios (<[e := eb']> (ebios w)) w).
Proof.
  intros [[H1 H2 H3 H4 H5 H6 H7] Hb Hh Hc] Ee Ebc. constructor; [by constructor|..]; cbn [bcs ebios set_ebios].
  - intros e1 eb1 [[<- <-]|[_ E]]%lookup_insert_Some; [rewrite Ebc; by apply (Hb e)|by apply (Hb e1)].
  - exact Hh.
  - intros b c Ec. rewrite (msum_same _ _ _ eb); [by apply Hc|done|]. unfold holds_bc. by rewrite Ebc.
Qed.

Lemma endio_subordinate e eb w err : ebios w !! e = Some eb -> eb_iotype eb = EB_SUBORDINATE_IO ->
  eb_endio jiffies e err w = eb_endio jiffies e 0 w.
Proof. intros Ee Et. unfold eb_endio. by rewrite !(bind_run _ _ _ _ _ (the_ebio_run _ _ _ Ee)), Et. Qed.

Lemma geom_state_round d i s t : EIO_ROUND_SECTOR (EIO_CACHE_STATE_SET d i s) t = EIO_ROUND_SECTOR d t.
Proof. unfold EIO_ROUND_SECTOR. by destruct (geom_fields _ _ (state_set_geom d i s)) as (_ & _ & -> & _). Qed.

(** the world in which the split is ended *)
Definition both_ended (w : io_world) (i j err : Z) (q : bool) : io_world :=
  set_jobs (delete j (jobs w)) (with_d (settle_write (q || negb (err =? 0)) i (write_errs err (io_d w))) w).

Lemma disk_last w e eb j jb q inv : split_writing w e eb j jb q ->
  (eio_post_io_callback jiffies j ;; flag_abio jiffies inv e) w = eb_endio jiffies e 0 (both_ended w (eb_index eb) j (job_error jb) q).
Proof.
  intros [Hr Ee Et Hi Ej (J1 & J2 & J3) Hz Es Ed]. set (i := eb_index eb) in *. set (err := job_error jb).
  assert (E1 : tst (writing q) (Z.lor CACHEWRITEINPROG DIRTY) = true /\ writing q <> DIRTY_INPROG) by by destruct q.
  unfold bind at 1. rewrite (post_write e eb j jb w (writing q) Ej J1 J2 J3 Hi Ee Es (proj1 E1) (proj2 E1) Ed). fold i err.
  set (w2 := with_d (write_errs err (io_d w)) w).
  rewrite (post_first e j i err w2 q jb Ej) by (subst w2; cbn; by rewrite write_errs_get).
  set (w3 := set_jobs _ _).
  rewrite (flag_last inv e eb w3 (q || negb (err =? 0))); [|done|done|done|].
  - do 2 f_equal. subst w3 w2. change (io_d (set_jobs _ _)) with (EIO_CACHE_STATE_SET (write_errs err (io_d w)) i (queued (q || negb (err =? 0)) (Z.lor VALID DISKWRITEINPROG))).
    by rewrite settle_set.
  - change (io_d w3) with (EIO_CACHE_STATE_SET (write_errs err (io_d w)) i (queued (q || negb (err =? 0)) (Z.lor VALID DISKWRITEINPROG))).
    apply state_get_set_eq. by destruct (q || _).
Qed.

Lemma ssd_last w e eb j jb q inv : split_writing w e eb j jb q ->
  (flag_abio jiffies inv e ;; eio_post_io_callback jiffies j) w =
    (eb_endio jiffies e 0 ;; eio_free_cache_job j) (with_d (settle_write (q || negb (job_error jb =? 0)) (eb_index eb) (write_errs (job_error jb) (io_d w))) w).
Proof.
  intros [Hr Ee Et Hi Ej (J1 & J2 & J3) Hz Es Ed]. set (i := eb_index eb) in *. set (err := job_error jb).
  unfold bind at 1. rewrite (flag_first inv e eb w q Ee Et Hi Es). fold i.
  set (w2 := with_d _ w). set (s := queued q (Z.lor VALID CACHEWRITEINPROG)).
  assert (Hs : 0 <= s < 256 /\ tst s (Z.lor CACHEWRITEINPROG DIRTY) = true /\ s <> DIRTY_INPROG /\ s <> INVALID) by by destruct q.
  destruct Hs as (Hs1 & Hs2 & Hs3 & Hs4).
  assert (Es2 : EIO_CACHE_STATE_GET (io_d w2) i = s) by by apply state_get_set_eq.
  assert (Ed2 : EIO_DBN_GET (io_d w2) i = Some (EIO_ROUND_SECTOR (io_d w2) (eb_sector eb))).
  { change (io_d w2) with (EIO_CACHE_STATE_SET (io_d w) i s). rewrite geom_state_round, state_set_dbn; [done|done|done|done|].
    right. split; [done|]. rewrite Es. by destruct q. }
  rewrite (post_write e eb j jb w2 s Ej J1 J2 J3 Hi Ee Es2 Hs2 Hs3 Ed2). fold i err.
  rewrite (post_last e j i err _ q) by (cbn; by rewrite write_errs_get).
  change (with_d (write_errs err (io_d w2)) w2) with (with_d (write_errs err (EIO_CACHE_STATE_SET (io_d w) i s)) w). rewrite write_errs_set.
  cbn [io_d with_d set_io_cw io_cw set_cw_d cw_d]. rewrite settle_set.
  unfold bind. by rewrite (endio_subordinate e eb) by done.
Qed.

Lemma ends_commute w e eb j jb q inv : split_writing w e eb j jb q ->
  exists w', (eio_post_io_callback jiffies j ;; flag_abio jiffies inv e) w = Some (tt, w') /\
    (flag_abio jiffies inv e ;; eio_post_io_callback jiffies j) w = Some (tt, w') /\
    refs_ok k0 held w' /\ endio_done e eb 0 (both_ended w (eb_index eb) j (job_error jb) q) w'.
Proof.
  intros H. rewrite (disk_last w e eb j jb q inv H), (ssd_last w e eb j jb q inv H). destruct H as [Hr Ee Et Hi Ej _ _ _ _].
  unfold both_ended. set (w5 := with_d _ w).
  assert (R5 : refs_ok k0 held w5) by (apply refs_cw; [done|]; cbn; by rewrite settle_mode, write_errs_mode).
  destruct (eb_endio_ok k0 jiffies held (set_jobs (delete j (jobs w)) w5) e eb 0 (refs_jobs _ _ R5) Ee) as (w' & E & R & D).
  exists w'. split; [exact E|]. split; [|done].
  rewrite (jf_eb_endio jiffies e 0) in E. destruct (eb_endio jiffies e 0 w5) as [[[] w6]|] eqn:E6; [|done]. cbn in E. injection E as <-.
  rewrite (bind_run _ _ _ _ _ E6).
  assert (Ej6 : jobs w6 = jobs w).
  { destruct (eb_endio_ok k0 jiffies held w5 e eb 0 R5 Ee) as (w7 & E7 & _ & [F _ _ _ _]). rewrite E6 in E7. injection E7 as <-.
    by destruct F as (? & ? & ? & ? & ? & ? & ? & ->). }
  unfold eio_free_cache_job, the_job. rewrite (bind_eval (fun w => jobs w !! j) _ w6 jb) by by rewrite Ej6.
  unfold modify. by rewrite Ej6.
Qed.
End ends.
