(* ===== verification/Mapping.v ===== *)
(** * A bio is rejected, or split and served

    [eio_map] keeps the references of the objects of the I/O path, whatever
    allocation fails, and gives [eio_read] or [eio_write] the splits of the
    whole bio. *)

From S2P Require Import Prelude Types Mem Scan Thresh Lookup SetSeq World Dispatch Disk Clean WbAlloc IoWorld MdUpdate IoPath IoMap Refs MdFlow Split.
From Stdlib Require Import Sorting.Sorted.

(** ** Containers come and go *)

(** one more hold on [b] by running code *)
Definition hold (b : Z) (held : Z -> Z) (x : Z) : Z := if x =? b then 1 else held x.

Lemma msum_none {A} (f : A -> Z) (m : gmap Z A) : (forall k x, m !! k = Some x -> f x = 0) -> msum f m = 0.
Proof.
  induction m as [|k x m Hk IH] using map_ind; intros Hf; [apply msum_empty|].
  rewrite msum_insert, (Hf k x (lookup_insert_eq _ _ _)) by done. rewrite IH; [done|].
  intros k' x' E. apply (Hf k'). rewrite lookup_insert_ne; [done|]. intros ->. by rewrite Hk in E.
Qed.

Lemma Forall2_impl_elem {A B} (P Q : A -> B -> Prop) l k : Forall2 P l k -> (forall x y, x ∈ l -> P x y -> Q x y) -> Forall2 Q l k.
Proof.
  induction 1 as [|x y l k H HF IH]; intros Hi; constructor; [apply Hi; [apply elem_of_cons; by left|done]|].
  apply IH. intros x' y' Hx'. apply Hi, elem_of_cons. by right.
Qed.

Lemma msum_extend {A} (f : A -> Z) (l : list Z) (xs : list A) (m m' : gmap Z A) : NoDup l -> (forall e, e ∈ l -> m !! e = None) ->
  (forall e, e ∉ l -> m' !! e = m !! e) -> Forall2 (fun e x => m' !! e = Some x) l xs -> msum f m' = msum f m + foldr (fun x s => f x + s) 0 xs.
Proof.
  intros Hnd Hn Hs HF. revert m' Hs Hnd Hn HF. revert xs. induction l as [|e l IH]; intros xs m' Hs Hnd Hn HF.
  { apply Forall2_nil_inv_l in HF as ->. cbn. assert (m' = m) as -> by (apply map_eq; intros e; by apply Hs, not_elem_of_nil). lia. }
  apply Forall2_cons_inv_l in HF as (x & xs' & Ex & HF & ->). apply NoDup_cons in Hnd as [Hel Hnd].
  assert (E : msum f (delete e m') = msum f m + foldr (fun x s => f x + s) 0 xs').
  { apply IH; [|done|by intros e' He'; apply Hn, elem_of_cons; right|].
    - intros e' He'. destruct (decide (e = e')) as [<-|Hne].
      + rewrite lookup_delete_eq. symmetry. apply Hn, elem_of_cons. by left.
      + rewrite lookup_delete_ne by done. apply Hs. rewrite not_elem_of_cons. by split.
    - eapply Forall2_impl_elem; [exact HF|]. intros e' x' He' E'. cbn in *. rewrite lookup_delete_ne; [done|]. by intros ->. }
  rewrite (msum_delete f m' e x Ex) in E. cbn [foldr]. lia.
Qed.

Section refs.
Context (k0 : kmem).

(** a new container, with the locks of its span *)
Lemma refs_new_bc held w bc c rs : refs_ok k0 held w -> bcs w !! bc = None -> is_Some (bios w !! bc_bio c) ->
  (forall b' c', bcs w !! b' = Some c' -> bc_bio c' <> bc_bio c) -> bc_mdreqs c = [] -> bc_holdcount c = 1 ->
  (mode (io_d w) = CACHE_MODE_WB -> forall s, default 0 (rs !! s) = default 0 (readers w !! s) + set_locks s c) ->
  refs_ok k0 (hold bc held) (set_readers rs (set_bcs (<[bc := c]> (bcs w)) w)).
Proof.
  intros [[H1 H2 H3 H4 H5 H6 H7] Hb Hh Hc] Eb Hbio Hown Hmd H1c Hrs.
  assert (Hin : forall b' c', <[bc := c]> (bcs w) !! b' = Some c' -> (b' = bc /\ c' = c) \/ (b' <> bc /\ bcs w !! b' = Some c')).
  { intros b' c' [[-> ->]|[? ?]]%lookup_insert_Some; [by left|by right]. }
  assert (Hlive : forall b', is_Some (bcs w !! b') -> is_Some (<[bc := c]> (bcs w) !! b')).
  { intros b' [c' Hb']. destruct (decide (b' = bc)) as [->|]; [rewrite lookup_insert_eq|rewrite lookup_insert_ne by done]; by eexists. }
  constructor; [constructor|..]; cbn [bcs set_bcs set_readers bios readers mdreqs io_kmem ebios].
  - intros b' c' [[-> ->]|[_ E]]%Hin; [done|by apply (H1 b')].
  - intros b1 b2 c1 c2 [[-> ->]|[_ E1]]%Hin [[-> ->]|[_ E2]]%Hin; [done| | |by apply H2].
    + intros E. by destruct (Hown _ _ E2).
    + intros E. by destruct (Hown _ _ E1).
  - intros Hm s. rewrite (Hrs Hm), H3, msum_insert by done. lia.
  - intros b' c' m [[-> ->]|[_ E]]%Hin; [by rewrite Hmd; intros ?%not_elem_of_nil|by apply (H4 b')].
  - intros b' c' [[-> ->]|[_ E]]%Hin; [rewrite Hmd; constructor|by apply (H5 b')].
  - intros b1 b2 c1 c2 m [[-> ->]|[_ E1]]%Hin [[-> ->]|[_ E2]]%Hin; try done; rewrite ?Hmd; [by intros ?%not_elem_of_nil|by intros _ ?%not_elem_of_nil|by apply H6].
  - exact H7.
  - intros e eb E. apply Hlive, (Hb e eb E).
  - intros b'. unfold hold. destruct (Z.eqb_spec b' bc) as [->|Hne].
    + split; [lia|]. intros _. rewrite lookup_insert_eq. by eexists.
    + destruct (Hh b') as [? Hl]. split; [done|]. intros Hp. by apply Hlive, Hl.
  - intros b' c' [[-> ->]|[Hne E]]%Hin; unfold hold.
    + rewrite Z.eqb_refl, msum_none; [lia|]. intros e eb E. unfold holds_bc. rewrite (proj2 (Z.eqb_neq _ _)); [done|].
      intros <-. destruct (Hb e eb E) as [? ?]. congruence.
    + rewrite (proj2 (Z.eqb_neq b' bc)) by done. by apply Hc.
Qed.

(** the splits of a container *)
Lemma refs_split held w bio_ bc b c l failed w' ebs : refs_ok k0 held w -> bios w !! bio_ = Some b -> bcs w !! bc = Some c ->
  split_done w bio_ bc b c l failed w' -> Forall2 (fun e eb => ebios w' !! e = Some eb) l ebs -> Forall (fun eb => eb_bc eb = bc) ebs ->
  bc_holdcount c + Z.of_nat (length l) < 2 ^ 31 -> refs_ok k0 held w'.
Proof.
  intros [Ho Hb Hh Hc] Ebio Ec [S1 (ix & _ & S2) S3 S4 S5 S6 _] HF Hbc Hlt.
  set (c' := set_bc_holdcount _ _) in S3. assert (Hcb : bc_bio c' = bc_bio c /\ bc_mdreqs c' = bc_mdreqs c /\ bc_setspan c' = bc_setspan c) by by destruct failed.
  destruct Hcb as (C1 & C2 & C3).
  assert (Hsum : forall b', msum (holds_bc b') (ebios w') = msum (holds_bc b') (ebios w) + if b' =? bc then Z.of_nat (length l) else 0).
  { intros b'. rewrite (msum_extend _ l ebs _ _ S4 S5 S6 HF). f_equal. rewrite (Forall2_length _ _ _ HF). clear - Hbc.
    induction Hbc as [|eb ebs E _ IH]; [by destruct (b' =? bc)|]. cbn [foldr length]. rewrite IH. unfold holds_bc. rewrite E.
    destruct (Z.eqb_spec bc b') as [->|]; [rewrite Z.eqb_refl; lia|]. destruct (Z.eqb_spec b' bc); [congruence|lia]. }
  assert (O' : objs_ok k0 w').
  { pose proof (objs_update k0 w bc c c' Ho Ec C1 C2 C3) as [H1 H2 H3 H4 H5 H6 H7]. clear Ho. cbn [bcs set_bcs bios readers mdreqs io_kmem] in *.
    destruct S1 as (es & bs & bs' & km & E). assert (Ebs : bs = <[bc := c']> (bcs w)) by by rewrite <-S3, E.
    assert (Ebs' : bs' = <[bio_ := set_bi_idx ix b]> (bios w)) by by rewrite <-S2, E.
    rewrite E, Ebs. constructor; try done. cbn [bios set_bios set_bcs set_ebios bcs]. intros b1 c1 E1. rewrite Ebs'.
    destruct (decide (bc_bio c1 = bio_)) as [->|]; [rewrite lookup_insert_eq; by eexists|rewrite lookup_insert_ne by done; by apply (H1 b1)]. }
  constructor; [done| | |].
  - intros e eb E. rewrite S3. destruct (decide (e ∈ l)) as [Hi|Hi].
    + apply list_elem_of_lookup in Hi as [n Hn]. destruct (Forall2_lookup_l _ _ _ _ _ HF Hn) as (eb' & Hn' & E').
      rewrite Forall_lookup in Hbc. rewrite E in E'. injection E' as <-. rewrite (Hbc _ _ Hn'), lookup_insert_eq. by eexists.
    + rewrite S6 in E by done. destruct (Hb e eb E) as [c1 E1]. destruct (decide (eb_bc eb = bc)) as [->|]; [rewrite lookup_insert_eq|rewrite lookup_insert_ne by done]; by eexists.
  - intros b'. destruct (Hh b') as [? Hl]. split; [done|]. intros Hp. rewrite S3.
    destruct (decide (b' = bc)) as [->|]; [rewrite lookup_insert_eq; by eexists|rewrite lookup_insert_ne by done; by apply Hl].
  - intros b' c1. rewrite S3, Hsum. intros [[<- <-]|[Hne E]]%lookup_insert_Some.
    + rewrite Z.eqb_refl. destruct (Hc bc c Ec) as [Hn Hr]. cbn [bc_holdcount set_bc_holdcount c']. lia.
    + rewrite (proj2 (Z.eqb_neq b' bc)) by done. destruct (Hc b' c1 E). lia.
Qed.

Lemma refs_unheld held w b : refs_ok k0 held w -> bcs w !! b = None -> held b = 0.
Proof. intros H E. by apply (refs_gone k0 held w b H) in E as [? _]. Qed.

(** a hold of running code is dropped *)
Lemma bc_put_refs {K : Kernel} held jiffies w bc c : refs_ok k0 (hold bc held) w -> held bc = 0 -> bcs w !! bc = Some c ->
  exists w', bc_put jiffies bc w = Some (tt, w') /\ refs_ok k0 held w' /\
    if bc_holdcount c =? 1 then put_last k0 bc c w w' else w' = set_bcs (<[bc := set_bc_holdcount (bc_holdcount c - 1) c]> (bcs w)) w.
Proof.
  intros [Ho Hb Hh Hc] H0 Ec. destruct (Hc bc c Ec) as [Hn Hr].
  destruct (bc_put_ok k0 jiffies w bc c Ho Ec Hr) as (w' & E & D). exists w'. split; [done|]. split; [|done].
  unfold hold in Hn. rewrite Z.eqb_refl in Hn.
  assert (Hother : forall b' c', bcs w !! b' = Some c' -> b' <> bc -> bc_holdcount c' = held b' + msum (holds_bc b') (ebios w) /\ 0 < bc_holdcount c' < 2 ^ 31).
  { intros b' c' E' Hne. specialize (Hc b' c' E'). unfold hold in Hc. by rewrite (proj2 (Z.eqb_neq b' bc)) in Hc. }
  assert (Hheld : forall b', 0 < held b' -> b' <> bc /\ is_Some (bcs w !! b')).
  { intros b' Hp. assert (b' <> bc) as Hne by (intros ->; lia). split; [done|]. destruct (Hh b') as [_ Hl]. apply Hl.
    unfold hold. by rewrite (proj2 (Z.eqb_neq b' bc)). }
  assert (Hpos : forall b', 0 <= held b').
  { intros b'. destruct (Z.eq_dec b' bc) as [->|Hne]; [lia|]. destruct (Hh b') as [Hp _]. unfold hold in Hp. by rewrite (proj2 (Z.eqb_neq b' bc)) in Hp. }
  destruct (Z.eqb_spec (bc_holdcount c) 1) as [H1|H1].
  - destruct D as [(cw & bs & ms & k & rs & ->) _ _ _ O]. constructor; [done|..]; cbn [bcs set_bcs ebios].
    + intros e eb E'. change (ebios w !! e = Some eb) in E'. rewrite lookup_delete_ne; [by apply (Hb e)|]. intros Hbc.
      pose proof (msum_zero (holds_bc bc) (ebios w) e eb (fun _ x _ => holds_bc_nonneg bc x) ltac:(lia) E') as Hz.
      unfold holds_bc in Hz. by rewrite <-Hbc, Z.eqb_refl in Hz.
    + intros b'. split; [done|]. intros [Hne Hl]%Hheld. by rewrite lookup_delete_ne.
    + intros b' c' [Hne E']%lookup_delete_Some. apply Hother; [done|congruence].
  - subst w'. constructor; [by apply (objs_update k0 w bc c)|..]; cbn [bcs set_bcs ebios].
    + intros e eb E'. destruct (Hb e eb E') as [c' Ec']. destruct (decide (bc = eb_bc eb)) as [<-|];
        [rewrite lookup_insert_eq|rewrite lookup_insert_ne by done]; by eexists.
    + intros b'. split; [done|]. intros [Hne Hl]%Hheld. by rewrite lookup_insert_ne.
    + intros b' c' [[<- <-]|[Hne E']]%lookup_insert_Some; [|by apply Hother].
      cbn [bc_holdcount set_bc_holdcount]. rewrite H0. lia.
Qed.

(** ** [map_start] *)
Lemma down_reads_ok : forall l w, exists rs, mfor l down_read w = Some (tt, set_readers rs w) /\
  forall s, default 0 (rs !! s) = default 0 (readers w !! s) + occ s l.
Proof.
  induction l as [|x l IH]; intros w; cbn [mfor].
  { exists (readers w). split; [by destruct w|]. intros s. unfold occ. cbn. lia. }
  set (w1 := set_readers (<[x := default 0 (readers w !! x) + 1]> (readers w)) w).
  rewrite (bind_run (down_read x) _ w tt w1) by done. destruct (IH w1) as (rs & E & Hrs). exists rs. split; [done|].
  intros s. rewrite Hrs, occ_cons. subst w1. cbn [readers set_readers]. destruct (Z.eqb_spec s x) as [->|Hne].
  - rewrite lookup_insert_eq. cbn. lia.
  - rewrite lookup_insert_ne by done. lia.
Qed.

(** the container of a bio that is being mapped *)
Definition mapped_bc (bio_ jiffies : Z) (span : list set_seq) : bio_container := mk_bc 1 bio_ [] 0 [] span EIO_IO_INVALID_DIR 0 jiffies.

Record map_started (held : Z -> Z) (w : io_world) (bio_ : Z) (b : bio) (jiffies bc : Z) (w1 : io_world) : Prop := {
  ms_frame : exists span km rs, w1 = with_d (inc_nr_ios (io_d w)) (set_readers rs (set_bcs (<[bc := mapped_bc bio_ jiffies span]> (bcs w)) (set_io_kmalloc km w))) /\
    (io_kmalloc w = [] -> km = []) /\
    (mode (io_d w) = CACHE_MODE_WB -> forall s, s ∈ seq_sets span <-> exists t, bi_sector b <= t < bi_sector b + bi_size b / 512 /\ dbn_set (io_d w) t = s);
  ms_fresh : bcs w !! bc = None;
  ms_refs : refs_ok k0 (hold bc held) w1
}.

Lemma locks_ok w bc c bio_ b : bcs w !! bc = Some c -> bc_bio c = bio_ -> bios w !! bio_ = Some b -> wf_geom (io_d w) ->
  0 <= bi_sector b -> 512 <= bi_size b -> bi_sector b + bi_size b / 512 < 2 ^ 63 ->
  exists r km, (io_kmalloc w = [] -> r = 0 /\ km = []) /\
    if r =? 0 then exists span rs, eio_acquire_set_locks bc w = Some (0, set_readers rs (set_bcs (<[bc := set_bc_setspan span c]> (bcs w)) (set_io_kmalloc km w))) /\
      (forall s, default 0 (rs !! s) = default 0 (readers w !! s) + occ s (seq_sets span)) /\
      (forall s, s ∈ seq_sets span <-> exists t, bi_sector b <= t < bi_sector b + bi_size b / 512 /\ dbn_set (io_d w) t = s)
    else r = - ENOMEM /\ eio_acquire_set_locks bc w = Some (r, set_io_kmalloc km w).
Proof.
  intros Ec Eb Ebio Hg Hs Hsz Hend.
  destruct (acquire_span_ok (io_d w) (bi_sector b) (bi_size b) (io_kmalloc w) Hg Hs Hsz Hend) as (r & span & km & E & Hr & Ha & Hf & Hok).
  assert (E0 : on_kmalloc (eio_acquire_set_span (io_d w) (bi_sector b) (bi_size b)) w = Some ((r, span), set_io_kmalloc km w)) by (unfold on_kmalloc; by rewrite E).
  unfold eio_acquire_set_locks. rewrite (bind_run _ _ _ _ _ (the_bc_run _ _ _ Ec)), Eb, (bind_run _ _ _ _ _ (the_bio_run _ _ _ Ebio)), bind_gets, (bind_run _ _ _ _ _ E0).
  cbn [fst snd]. exists r, km. split; [exact Ha|].
  destruct (Z.eqb_spec r 0) as [->|Hne]; cbn [negb]; [|by destruct Hr].
  set (w1 := set_io_kmalloc km w). rewrite (bind_run _ _ _ _ _ (upd_bc_run bc c (set_bc_setspan span) w1 Ec)).
  set (w2 := set_bcs _ w1). destruct (down_reads_ok (seq_sets span) w2) as (rs & Ed & Hrs). rewrite (bind_run _ _ _ _ _ Ed).
  exists span, rs. split_and!; [done|exact Hrs|by apply Hok].
Qed.
End refs.

(** a bio the splits of which can be made: whole sectors of memory, none missing *)
Record bio_ok (b : bio) : Prop := {
  bk_idx : bi_idx b = 0;
  bk_vecs : Forall vec_ok (bi_io_vec b);
  bk_sector : 0 <= bi_sector b;
  bk_size : exists k, bi_size b = 512 * k /\ 0 < k /\ 512 * k < 2 ^ 31 /\ bi_sector b + k < 2 ^ 63 /\
    Z.of_nat (length (bvec_slots (bi_io_vec b))) = k
}.

Section map.
Context {K : Kernel} (k0 : kmem) (held : Z -> Z) (jiffies : Z).

Lemma bio_endio_run bio_ b err w : bios w !! bio_ = Some b -> bio_endio bio_ err w = Some (tt, set_bio_ended (bio_ended w ++ [(bio_, err)]) w).
Proof. intros E. unfold bio_endio. by rewrite (bind_run _ _ _ _ _ (the_bio_run _ _ _ E)). Qed.

Lemma map_start_ok w bio_ b : refs_ok k0 held w -> bios w !! bio_ = Some b -> (forall b' c', bcs w !! b' = Some c' -> bc_bio c' <> bio_) ->
  wf_geom (io_d w) -> bio_ok b ->
  (exists km, map_start jiffies bio_ w = Some (None, set_bio_ended (bio_ended w ++ [(bio_, - ENOMEM)]) (set_io_kmalloc km w)) /\ io_kmalloc w <> []) \/
  (exists bc w1, map_start jiffies bio_ w = Some (Some bc, w1) /\ map_started k0 held w bio_ b jiffies bc w1).
Proof.
  intros Hr Eb Hown Hg [_ _ Hs (k & Ek & Hk & Hk2 & Hend & _)]. unfold map_start. destruct (on_kmalloc_run w) as (ok & km & Em & Hkm).
  rewrite (bind_run _ _ _ _ _ Em). destruct ok; cbn [negb].
  2:{ left. exists km. rewrite (bind_run _ _ _ _ _ (bio_endio_run bio_ b _ (set_io_kmalloc km w) Eb)). split; [done|]. intros H. by destruct (Hkm H). }
  set (w0 := set_io_kmalloc km w). rewrite bind_gets, bind_modify, bind_gets.
  set (bc := fresh (dom (bcs w0))). assert (Hbc : bcs w !! bc = None) by (apply not_elem_of_dom, (is_fresh (dom (bcs w0)))).
  set (w1 := set_bcs (<[bc := mapped_bc bio_ jiffies []]> (bcs w0)) w0).
  change (set_bcs (<[bc := mk_bc 1 bio_ [] 0 [] [] EIO_IO_INVALID_DIR 0 jiffies]> (bcs w0)) w0) with w1.
  change (mode (io_d w1)) with (mode (io_d w)).
  assert (Hsz : bi_size b / 512 = k) by (rewrite Ek, Z.mul_comm, Z.div_mul; lia).
  assert (Hlocks : exists r km', (io_kmalloc w = [] -> r = 0 /\ km' = []) /\
    if r =? 0 then exists span rs, (if mode (io_d w) =? CACHE_MODE_WB then eio_acquire_set_locks bc else ret 0) w1 =
        Some (0, set_readers rs (set_bcs (<[bc := mapped_bc bio_ jiffies span]> (bcs w)) (set_io_kmalloc km' w))) /\
      (mode (io_d w) = CACHE_MODE_WB -> forall s, default 0 (rs !! s) = default 0 (readers w !! s) + occ s (seq_sets span)) /\
      (mode (io_d w) = CACHE_MODE_WB -> forall s, s ∈ seq_sets span <-> exists t, bi_sector b <= t < bi_sector b + bi_size b / 512 /\ dbn_set (io_d w) t = s)
    else r = - ENOMEM /\ (if mode (io_d w) =? CACHE_MODE_WB then eio_acquire_set_locks bc else ret 0) w1 =
        Some (r, set_bcs (<[bc := mapped_bc bio_ jiffies []]> (bcs w)) (set_io_kmalloc km' w))).
  { destruct (Z.eqb_spec (mode (io_d w)) CACHE_MODE_WB) as [Hm|Hm].
    - destruct (locks_ok w1 bc (mapped_bc bio_ jiffies []) bio_ b) as (r & km' & Ha & Hc); [apply lookup_insert_eq|done|exact Eb|exact Hg|done|lia|lia|].
      exists r, km'. split; [intros H; destruct (Hkm H) as [_ ->]; by apply Ha|]. destruct (r =? 0); [|done].
      destruct Hc as (span & rs & E & Hrs & Hin). exists span, rs. split; [|done]. rewrite E. subst w1 w0.
      cbn [bcs set_bcs set_io_kmalloc]. by rewrite insert_insert_eq.
    - exists 0, km. split; [intros H; by destruct (Hkm H)|]. exists [], (readers w). by split_and!. }
  clear Em. destruct Hlocks as (r & km' & Ha & Hc). destruct (Z.eqb_spec r 0) as [->|Hne].
  - destruct Hc as (span & rs & E & Hrs & Hin). rewrite (bind_run _ _ _ _ _ E). cbn [negb Z.eqb]. rewrite (bind_run _ _ _ _ _ (upd_dmc_run _ _)).
    right. eexists bc, _. split; [reflexivity|]. constructor; [|done|].
    + exists span, km', rs. split; [reflexivity|]. split; [intros H; by apply Ha|done].
    + apply refs_cw; [|done]. apply (refs_new_bc k0 held (set_io_kmalloc km' w)); [|done|by eexists|exact Hown|done|done|exact Hrs].
      destruct Hr as [[H1 H2 H3 H4 H5 H6 H7] Hb Hh Hcnt]. constructor; [|done|done|done]. by constructor.
  - destruct Hc as [-> E]. rewrite (bind_run _ _ _ _ _ E). change (negb (- ENOMEM =? 0)) with true. cbv iota. left. exists km'. set (w2 := set_bcs _ _).
    rewrite (bind_run _ _ _ _ _ (bio_endio_run bio_ b _ w2 Eb)). unfold free_bc. split; [|intros H; by destruct (Ha H)].
    rewrite bind_bind, (bind_run _ _ _ _ _ (the_bc_run bc (mapped_bc bio_ jiffies []) (set_bio_ended (bio_ended w2 ++ [(bio_, - ENOMEM)]) w2) (lookup_insert_eq _ _ _))), bind_modify.
    unfold ret. do 2 f_equal. subst w2. cbn [bcs set_bcs set_bio_ended bio_ended set_io_kmalloc]. rewrite delete_insert_id by done. by destruct w.
Qed.

(** ** Giving up the splits *)
Lemma endio_not_last w e eb err c : objs_ok k0 w -> ebios w !! e = Some eb -> eb_iotype eb = EB_SUBORDINATE_IO -> bcs w !! eb_bc eb = Some c ->
  1 < bc_holdcount c < 2 ^ 31 ->
  eb_endio jiffies e err w = Some (tt, set_ebios (delete e (ebios w)) (set_bcs (<[eb_bc eb := set_bc_holdcount (bc_holdcount c - 1) c]> (bcs w)) w)).
Proof.
  intros Ho Ee Et Ec Hh. unfold eb_endio. rewrite (bind_run _ _ _ _ _ (the_ebio_run _ _ _ Ee)), Et. cbn [when andb]. change (EB_SUBORDINATE_IO =? EB_MAIN_IO) with false. cbn [andb when].
  rewrite bind_ret. destruct (bc_put_ok k0 jiffies w (eb_bc eb) c Ho Ec ltac:(lia)) as (w' & E & D). rewrite (bind_run _ _ _ _ _ E).
  destruct (Z.eqb_spec (bc_holdcount c) 1); [lia|]. subst w'. by rewrite (free_ebio_run e eb (set_bcs (<[eb_bc eb := set_bc_holdcount (bc_holdcount c - 1) c]> (bcs w)) w) Ee).
Qed.

Lemma unsplit_ok : forall l w bc c, objs_ok k0 w -> bcs w !! bc = Some c -> NoDup l ->
  (forall e, e ∈ l -> exists eb, ebios w !! e = Some eb /\ eb_iotype eb = EB_SUBORDINATE_IO /\ eb_bc eb = bc) ->
  0 < bc_holdcount c - Z.of_nat (length l) -> bc_holdcount c < 2 ^ 31 ->
  exists es, mfor l (fun e => c <- the_bc bc ;; eb_endio jiffies e (bc_error c)) w =
    Some (tt, set_ebios es (set_bcs (<[bc := set_bc_holdcount (bc_holdcount c - Z.of_nat (length l)) c]> (bcs w)) w)) /\
    forall e, es !! e = if decide (e ∈ l) then None else ebios w !! e.
Proof.
  induction l as [|e l IH]; intros w bc c Ho Ec Hnd Hl Hh Hlt; cbn [mfor].
  { exists (ebios w). split; [|intros e; by rewrite decide_False by apply not_elem_of_nil].
    unfold ret. do 2 f_equal. rewrite insert_id; [by destruct w|]. rewrite Ec. f_equal. destruct c. cbn. unfold set_bc_holdcount. cbn. f_equal. lia. }
  apply NoDup_cons in Hnd as [Hel Hnd]. destruct (Hl e) as (eb & Ee & Et & Eb); [apply elem_of_cons; by left|].
  rewrite bind_bind, (bind_run _ _ _ _ _ (the_bc_run _ _ _ Ec)). cbn [length] in Hh.
  rewrite <-Eb in Ec. rewrite (bind_run _ _ _ _ _ (endio_not_last w e eb (bc_error c) c Ho Ee Et Ec ltac:(lia))). rewrite Eb in *.
  set (c1 := set_bc_holdcount (bc_holdcount c - 1) c). set (w1 := set_ebios _ _).
  destruct (IH w1 bc c1) as (es & E & Hes); [|apply lookup_insert_eq|done| |cbn; lia|cbn; lia|].
  - destruct (objs_update k0 w bc c c1 Ho Ec) as [H1 H2 H3 H4 H5 H6 H7]; [done..|]. by constructor.
  - intros e' He'. destruct (Hl e') as (eb' & Ee' & ?); [apply elem_of_cons; by right|]. exists eb'. split; [|done].
    cbn. rewrite lookup_delete_ne; [done|]. by intros ->.
  - exists es. split.
    + rewrite E. subst w1 c1. cbn [bcs set_bcs set_ebios bc_holdcount set_bc_holdcount length]. do 2 f_equal. unfold set_bcs, set_ebios. cbn. rewrite insert_insert_eq.
      do 2 f_equal. unfold set_bc_holdcount. destruct c. cbn. f_equal. lia.
    + intros e'. rewrite Hes. cbn [ebios set_ebios w1]. destruct (decide (e' ∈ l)) as [Hi|Hi].
      * by rewrite decide_True by (apply elem_of_cons; by right).
      * destruct (decide (e = e')) as [<-|Hne].
        -- by rewrite lookup_delete_eq, decide_True by (apply elem_of_cons; by left).
        -- rewrite lookup_delete_ne by done. rewrite decide_False; [done|]. rewrite not_elem_of_cons. split; [by intros ->|done].
Qed.

(** ** [eio_map] *)

(** the cache takes the bio *)
Record cacheable (d : cache_c) (b : bio) : Prop := {
  ca_discard : bi_discard b = false;
  ca_rdonly : cache_rdonly d = 0 \/ bi_dir b = READ;
  ca_failed : CACHE_FAILED_IS_SET d = false;
  ca_degraded : CACHE_DEGRADED_IS_SET d = false;
  ca_ro : ~ (bi_dir b = WRITE /\ mode d = CACHE_MODE_RO)
}.

(** only counters of the cache changed *)
Definition counters (d d' : cache_c) : Prop := exists st sh n, d' = set_nr_ios n (set_size_hist sh (set_stats st d)).

Lemma counters_trans d1 d2 d3 : counters d1 d2 -> counters d2 d3 -> counters d1 d3.
Proof. intros (st & sh & n & ->) (st' & sh' & n' & ->). exists st', sh', n'. by destruct d1. Qed.

(** the bio was ended for lack of memory *)
Record map_given_up (w : io_world) (bio_ : Z) (w' : io_world) : Prop := {
  mg_ended : bio_ended w' = bio_ended w ++ [(bio_, - ENOMEM)];
  mg_alloc : io_kmalloc w <> [];
  mg_objs : ebios w' = ebios w /\ bcs w' = bcs w /\ mdreqs w' = mdreqs w /\ jobs w' = jobs w;
  mg_todo : completions w' = completions w /\ callback_q w' = callback_q w /\ md_queue w' = md_queue w /\ scheduled w' = scheduled w;
  mg_d : exists d', io_cw w' = set_cw_d d' (io_cw w) /\ counters (io_d w) d';
  mg_refs : refs_ok k0 held w'
}.

(** the bio has its container [bc] and its splits [l] *)
Record map_divided (w : io_world) (bio_ : Z) (b : bio) (bc : Z) (l : list Z) (w1 : io_world) : Prop := {
  mv_ended : bio_ended w1 = bio_ended w;
  mv_fresh : bcs w !! bc = None;
  mv_bc : exists c, bcs w1 = <[bc := c]> (bcs w) /\ bc_bio c = bio_ /\ bc_holdcount c = 1 + Z.of_nat (length l) /\ bc_error c = 0 /\ bc_mdwait c = 0 /\
    (mode (io_d w) = CACHE_MODE_WB -> forall s, s ∈ seq_sets (bc_setspan c) <->
      exists t, bi_sector b <= t < bi_sector b + bi_size b / 512 /\ dbn_set (io_d w1) t = s);
  mv_others : mdreqs w1 = mdreqs w /\ jobs w1 = jobs w /\ completions w1 = completions w /\ md_queue w1 = md_queue w;
  mv_d : exists d', io_cw w1 = set_cw_d d' (io_cw w) /\ counters (io_d w) d';
  mv_refs : refs_ok k0 (hold bc held) w1;
  mv_splits : exists ebs, NoDup l /\ Forall2 (fun e eb => ebios w1 !! e = Some eb) l ebs /\
    (forall e, e ∈ l -> ebios w !! e = None) /\ (forall e, e ∉ l -> ebios w1 !! e = ebios w !! e) /\
    splits_of (io_d w1) bc b (bi_sector b) (bi_size b / 512) (bvec_slots (bi_io_vec b)) false ebs
}.

Definition map_rest (b : bio) (bc : Z) (l : list Z) : M io_world unit :=
  (if bi_dir b =? READ then eio_read jiffies bc l else eio_write jiffies bc l) ;; bc_put jiffies bc.

(** an abandoned bio: the splits made are given back, and the container *)
Lemma map_abandon w bio_ b bc w1 l w2 c ebs : refs_ok k0 held w -> bcs w !! bc = None -> refs_ok k0 (hold bc held) w1 -> bios w1 !! bio_ = Some b ->
  bcs w1 = <[bc := c]> (bcs w) -> bc_holdcount c = 1 -> bc_bio c = bio_ -> bc_mdreqs c = [] -> 1 + Z.of_nat (length l) < 2 ^ 31 ->
  split_done w1 bio_ bc b c l true w2 -> Forall2 (fun e eb => ebios w2 !! e = Some eb) l ebs -> Forall (split_of (io_d w1) bc b) ebs ->
  exists w', (mfor l (fun e => c <- the_bc bc ;; eb_endio jiffies e (bc_error c)) ;; c <- the_bc bc ;; EIO_ASSERT (bc_holdcount c =? 1) ;; bc_put jiffies bc) w2 = Some (tt, w') /\
    refs_ok k0 held w' /\ bio_ended w' = bio_ended w1 ++ [(bio_, - ENOMEM)] /\ ebios w' = ebios w1 /\ bcs w' = bcs w /\ mdreqs w' = mdreqs w1 /\
    jobs w' = jobs w1 /\ completions w' = completions w1 /\ callback_q w' = callback_q w1 /\ md_queue w' = md_queue w1 /\ scheduled w' = scheduled w1 /\
    exists st n, io_cw w' = set_cw_d (set_nr_ios n (set_stats st (io_d w1))) (io_cw w1).
Proof.
  intros Hr Hbc R1 Eb Ebc Hc1 Hcb Hcm Hlt D HF Hsp. assert (H0 : held bc = 0) by by apply (refs_unheld k0 held w).
  assert (Ec1 : bcs w1 !! bc = Some c) by (rewrite Ebc; apply lookup_insert_eq).
  assert (Hbcs : Forall (fun eb => eb_bc eb = bc) ebs).
  { eapply Forall_impl; [exact Hsp|]. intros eb [(n & vs & -> & _) _ _]. done. }
  assert (Hmany : forall e, e ∈ l -> exists eb, ebios w2 !! e = Some eb /\ eb_iotype eb = EB_SUBORDINATE_IO /\ eb_bc eb = bc).
  { intros e He. apply list_elem_of_lookup in He as [n Hn]. destruct (Forall2_lookup_l _ _ _ _ _ HF Hn) as (eb & Hn' & E).
    exists eb. split; [done|]. rewrite Forall_lookup in Hsp. destruct (Hsp _ _ Hn') as [(m & vs & -> & _) _ _]. done. }
  pose proof (refs_split k0 _ w1 bio_ bc b c l true w2 ebs R1 Eb Ec1 D HF Hbcs ltac:(lia)) as R2.
  destruct D as [(es1 & bs1 & bs1' & km & Ew2) (ix & Hix & S2) S3 S4 S5 S6 S7].
  set (ce := set_bc_error (- ENOMEM) c) in *. set (cl := set_bc_holdcount (bc_holdcount c + Z.of_nat (length l)) ce) in *.
  assert (Ecl : bcs w2 !! bc = Some cl) by (rewrite S3; apply lookup_insert_eq).
  destruct (unsplit_ok l w2 bc cl (rf_objs _ _ _ R2) Ecl S4 Hmany) as (es & Ees & Hes); [cbn; lia|cbn; lia|].
  assert (Ehold : bc_holdcount cl - Z.of_nat (length l) = 1) by (cbn; lia). rewrite Ehold in Ees.
  set (c3 := set_bc_holdcount 1 cl) in *. set (w3 := set_ebios es _) in *.
  assert (Eeb : es = ebios w1).
  { apply map_eq. intros e. rewrite Hes. destruct (decide (e ∈ l)) as [Hi|Hi]; [by rewrite S5|by apply S6]. }
  assert (Eb3 : bcs w3 = <[bc := c3]> (bcs w)) by (subst w3; cbn; by rewrite S3, insert_insert_eq, Ebc, insert_insert_eq).
  assert (Ec3 : bcs w3 !! bc = Some c3) by (rewrite Eb3; apply lookup_insert_eq).
  assert (R3 : refs_ok k0 (hold bc held) w3).
  { apply (refs_split k0 _ w1 bio_ bc b c [] true w3 [] R1 Eb Ec1); [|constructor|constructor|cbn; lia]. constructor; [| | |constructor|by intros e ?%not_elem_of_nil| |].
    - exists es, (bcs w3), bs1', km. subst w3. rewrite Ew2. reflexivity.
    - exists ix. split; [done|]. exact S2.
    - rewrite Eb3, Ebc, insert_insert_eq. f_equal. subst c3 cl ce. unfold set_bc_holdcount. cbn. by rewrite Hc1.
    - intros e _. change (ebios w3) with es. by rewrite Eeb.
    - intros Ha. by destruct (S7 Ha). }
  rewrite (bind_run _ _ _ _ _ Ees). fold c3 w3. rewrite (bind_run _ _ _ _ _ (the_bc_run _ _ _ Ec3)), bind_assert by done.
  destruct (bc_put_refs k0 held jiffies w3 bc c3 R3 H0 Ec3) as (w' & E & R' & P). change (bc_holdcount c3 =? 1) with true in P. cbv iota in P.
  exists w'. split; [done|]. split; [done|]. destruct P as [(cw & bs & ms & k & rs & Ew') (st & n & P2) _ P4 _].
  assert (Efr : bio_ended w3 = bio_ended w1 /\ jobs w3 = jobs w1 /\ completions w3 = completions w1 /\ callback_q w3 = callback_q w1 /\
    md_queue w3 = md_queue w1 /\ scheduled w3 = scheduled w1 /\ mdreqs w3 = mdreqs w1 /\ io_cw w3 = io_cw w1).
  { subst w3. rewrite Ew2. done. }
  destruct Efr as (F1 & F2 & F3 & F4 & F5 & F6 & F7 & F8). subst cl. change (bc_bio c3) with (bc_bio c) in Ew'. change (bc_error c3) with (- ENOMEM) in Ew'.
  rewrite Hcb in Ew'. split_and!.
  - rewrite Ew'. cbn [bio_ended set_bcs set_bio_ended]. by rewrite F1.
  - rewrite Ew'. change (es = ebios w1). done.
  - rewrite Ew'. cbn [bcs set_bcs]. rewrite Eb3. by apply delete_insert_id.
  - apply map_eq. intros m. rewrite P4, bool_decide_false, F7; [done|]. change (bc_mdreqs c3) with (bc_mdreqs c). rewrite Hcm. by intros [_ ?%not_elem_of_nil].
  - rewrite Ew'. exact F2. - rewrite Ew'. exact F3. - rewrite Ew'. exact F4. - rewrite Ew'. exact F5. - rewrite Ew'. exact F6.
  - exists st, n. rewrite P2. unfold io_d. by rewrite F8.
Qed.

(** the counters [eio_map] raises first *)
Definition count_bio (b : bio) (d : cache_c) : cache_c :=
  (if bi_dir b =? READ then fun d => upd_stats inc_readcount (upd_stats (add_reads (bi_size b)) d)
   else fun d => upd_stats inc_writecount (upd_stats (add_writes (bi_size b)) d)) (count_size (eio_to_sector (bi_size b)) d).
Lemma count_bio_form b d : exists st sh, count_bio b d = set_size_hist sh (set_stats st d).
Proof.
  exists (stats (count_bio b d)), (size_hist (count_bio b d)). unfold count_bio, count_size. destruct (_ <? _), (bi_dir b =? READ), d; reflexivity.
Qed.

Lemma count_bio_run w b :
  (if bi_dir b =? READ then inc_stat (add_reads (bi_size b)) ;; inc_stat inc_readcount else inc_stat (add_writes (bi_size b)) ;; inc_stat inc_writecount)
    (set_io_cw (set_cw_d (count_size (eio_to_sector (bi_size b)) (io_d w)) (io_cw w)) w) = Some (tt, with_d (count_bio b (io_d w)) w).
Proof. unfold count_bio. by destruct (bi_dir b =? READ). Qed.

Lemma map_checked_run w bio_ b : cacheable (io_d w) b -> bi_size b <> 0 -> map_checked jiffies bio_ b w = map_served jiffies bio_ b false (with_d (count_bio b (io_d w)) w).
Proof.
  intros [C1 C2 C3 C4 C5] Hs. unfold map_checked. rewrite (bind_run _ _ _ _ _ (upd_dmc_run _ w)).
  rewrite (bind_run _ _ _ _ _ (count_bio_run w b)), bind_gets. destruct (count_bio_form b (io_d w)) as (st & sh & Ed). rewrite Ed.
  change (CACHE_FAILED_IS_SET (io_d (with_d _ w))) with (CACHE_FAILED_IS_SET (io_d w)). rewrite C3.
  change (CACHE_DEGRADED_IS_SET (io_d (with_d _ w))) with (CACHE_DEGRADED_IS_SET (io_d w)). rewrite C4.
  change (mode (io_d (with_d _ w))) with (mode (io_d w)).
  assert (((bi_dir b =? WRITE) && (mode (io_d w) =? CACHE_MODE_RO)) = false) as ->.
  { apply andb_false_iff. destruct (Z.eqb_spec (bi_dir b) WRITE) as [Hw|]; [|by left]. right. apply Z.eqb_neq. intros Hm. by apply C5. }
  rewrite bind_ret. by rewrite (proj2 (Z.eqb_neq (bi_size b) 0)).
Qed.

Lemma eio_map_run w bio_ b : bios w !! bio_ = Some b -> bi_idx b = 0 -> cacheable (io_d w) b -> bi_size b <> 0 ->
  eio_map jiffies bio_ w = (map_served jiffies bio_ b false ;; ret DM_MAPIO_SUBMITTED) (with_d (count_bio b (io_d w)) w).
Proof.
  intros Eb Ei Hca Hs. pose proof Hca as [C1 C2 _ _ _]. unfold eio_map. rewrite (bind_run _ _ _ _ _ (the_bio_run _ _ _ Eb)), bind_assert by (by rewrite Ei).
  rewrite C1. unfold bind at 1. rewrite bind_gets.
  assert ((negb (cache_rdonly (io_d w) =? 0) && negb (bi_dir b =? READ)) = false) as ->.
  { apply andb_false_iff. destruct C2 as [->| ->]; [left|right]; done. }
  by rewrite map_checked_run.
Qed.

Lemma map_split_count d bc b snum k ss failed ebs (w2 : io_world) l : Forall2 (fun e eb => ebios w2 !! e = Some eb) l ebs ->
  splits_of d bc b snum k ss failed ebs -> Z.of_nat (length l) <= k.
Proof.
  intros HF [S1 _ _ (t & Ht & _ & Et)]. rewrite (Forall2_length _ _ _ HF).
  assert (Hone : forall eb, split_of d bc b eb -> (1 <= length (split_transfer eb))%nat).
  { intros eb [(n & vs & -> & Hn & Hv & Hf) _ _]. rewrite (new_split_transfer _ _ _ _ _ _ _ (bvec_slots vs)) by done.
    rewrite length_zip_with, length_seqZ, length_take. destruct vs as [|v vs]; [done|]. destruct Hf as ([Hp Hd] & _ & _).
    cbn [bvec_slots flat_map]. rewrite length_app, page_slots_length. destruct (sectors_pos _ Hp Hd) as [? _]. lia. }
  assert (Hlen : (length ebs <= length (flat_map split_transfer ebs))%nat).
  { clear - S1 Hone. induction S1 as [|eb ebs H _ IH]; [done|]. cbn [flat_map length]. rewrite length_app. specialize (Hone eb H). lia. }
  rewrite Et, length_zip_with, length_seqZ in Hlen. lia.
Qed.

Lemma eio_map_ok w bio_ b : refs_ok k0 held w -> bios w !! bio_ = Some b -> (forall b' c', bcs w !! b' = Some c' -> bc_bio c' <> bio_) ->
  bio_ok b -> wf_geom (io_d w) -> block_size (io_d w) < 2 ^ 23 -> cacheable (io_d w) b ->
  (exists w', eio_map jiffies bio_ w = Some (DM_MAPIO_SUBMITTED, w') /\ map_given_up w bio_ w') \/
  (exists bc l w1, eio_map jiffies bio_ w = (map_rest b bc l ;; ret DM_MAPIO_SUBMITTED) w1 /\ map_divided w bio_ b bc l w1).
Proof.
  intros Hr Eb Hown Hok Hg Hbs Hca. pose proof Hok as [Hidx Hvecs Hsec (k & Ek & Hk & Hk2 & Hend & Hlen)].
  rewrite (eio_map_run w bio_ b Eb Hidx Hca) by lia. destruct (count_bio_form b (io_d w)) as (st & sh & Ed). rewrite Ed.
  set (d1 := set_size_hist sh (set_stats st (io_d w))). set (ws := with_d d1 w).
  assert (Rs : refs_ok k0 held ws) by by apply refs_cw.
  assert (Hg1 : wf_geom d1) by by apply (wf_geom_eq (io_d w)).
  unfold map_served. destruct (map_start_ok ws bio_ b Rs Eb Hown Hg1 Hok) as [(km & E & Ha)|(bc & w1 & E & Hst)].
  { left. rewrite bind_bind, (bind_run _ _ _ _ _ E), bind_ret. eexists. split; [reflexivity|]. constructor; try done.
    - exists d1. split; [done|]. exists st, sh, (nr_ios (io_d w)). subst d1. by destruct (io_d w).
    - destruct Rs as [[H1 H2 H3 H4 H5 H6 H7] Hb Hh Hc]. constructor; [|done|done|done]. by constructor. }
  destruct Hst as [(span & km & rs & Ew1 & Hkm & Hspan) Hbc R1].
  set (c := mapped_bc bio_ jiffies span) in *. set (d2 := inc_nr_ios d1) in *.
  assert (Ew1' : io_d w1 = d2 /\ bios w1 = bios w /\ bcs w1 = <[bc := c]> (bcs w) /\ ebios w1 = ebios w /\ io_kmalloc w1 = km /\
     io_cw w1 = set_cw_d d2 (io_cw w) /\ bio_ended w1 = bio_ended w /\ mdreqs w1 = mdreqs w /\ jobs w1 = jobs w /\ completions w1 = completions w /\
     callback_q w1 = callback_q w /\ md_queue w1 = md_queue w /\ scheduled w1 = scheduled w) by by rewrite Ew1.
  clear Ew1. destruct Ew1' as (W1 & W2 & W3 & W4 & W5 & W6 & W7 & W8 & W9 & W10 & W11 & W12 & W13).
  assert (Hcnt : counters (io_d w) d2) by (exists st, sh, (nr_ios d2); subst d2 d1; by destruct (io_d w)).
  assert (Hsz : bi_size b / 512 = k) by (rewrite Ek, Z.mul_comm, Z.div_mul; lia).
  assert (Erest : rest_slots (drop (Z.to_nat (bi_idx b)) (bi_io_vec b)) 0 = bvec_slots (bi_io_vec b)) by by rewrite Hidx.
  assert (Eb1 : bios w1 !! bio_ = Some b) by by rewrite W2.
  assert (Ec1 : bcs w1 !! bc = Some c) by (rewrite W3; apply lookup_insert_eq).
  assert (Hpos : at_pos (drop (Z.to_nat (bi_idx b)) (bi_io_vec b)) 0).
  { rewrite Hidx. cbn [drop]. destruct (bi_io_vec b) as [|v l]; [split_and!; [constructor|done|by exists 0|done]|].
    split_and!; [done|done|by exists 0|]. apply Forall_cons in Hvecs as [[[? _] _] _]. done. }
  destruct (map_split_ok (S (Z.to_nat (eio_to_sector (bi_size b)))) w1 bio_ bc b c (bi_sector b) k 0 Eb1 Ec1)
    as (l & failed & w2 & ebs & E2 & D & HF & HS); rewrite ?W1, ?Erest; [by apply (wf_geom_eq d1)|exact Hbs|done|done|lia|done|lia|done|cbn; lia|cbn; lia|rewrite sector_div; lia|].
  rewrite Erest, W1 in HS. rewrite <-Ek in E2.
  assert (Hcount : 1 + Z.of_nat (length l) < 2 ^ 31).
  { assert (Z.of_nat (length l) <= k) as Hle; [|lia]. apply (map_split_count d2 bc b (bi_sector b) k (bvec_slots (bi_io_vec b)) failed ebs w2 l HF HS). }
  assert (Hbcs : Forall (fun eb => eb_bc eb = bc) ebs).
  { eapply Forall_impl; [apply HS|]. intros eb [(n & vs & -> & _) _ _]. done. }
  assert (Eserve : (map_serve jiffies bio_ bc b false ;; bc_put jiffies bc) w1 =
     (if failed then (mfor l (fun e => c <- the_bc bc ;; eb_endio jiffies e (bc_error c)) ;; c <- the_bc bc ;; EIO_ASSERT (bc_holdcount c =? 1) ;; bc_put jiffies bc) w2
      else map_rest b bc l w2)).
  { unfold map_serve. rewrite bind_bind, (bind_run _ _ _ _ _ E2). destruct failed; [|unfold map_rest; by destruct (bi_dir b =? READ)].
    rewrite bind_bind. unfold bind. destruct (mfor l _ w2) as [[[] w3]|]; [|done]. by destruct (the_bc bc w3) as [[c3 w4]|]. }
  rewrite bind_bind, (bind_run _ _ _ _ _ E). cbv iota beta. destruct failed.
  - left. destruct (map_abandon w bio_ b bc w1 l w2 c ebs Hr Hbc R1 Eb1 W3) as (w' & E' & R' & X1 & X2 & X3 & X4 & X5 & X6 & X7 & X8 & X9 & (st' & n' & X10)); try done.
    { rewrite W1. apply HS. }
    exists w'. split; [by unfold bind at 1; rewrite Eserve, E'|]. constructor; [by rewrite X1, W7| |by rewrite X2, X3, X4, X5, W4, W8, W9|by rewrite X6, X7, X8, X9, W10, W11, W12, W13| |done].
    + intros Ha. destruct (sd_alloc _ _ _ _ _ _ _ _ D) as [? _]; [|done]. rewrite W5. apply Hkm. exact Ha.
    + exists (set_nr_ios n' (set_stats st' d2)). rewrite X10, W1, W6. split; [by destruct (io_cw w)|]. eapply counters_trans; [exact Hcnt|].
      exists st', (size_hist d2), n'. by destruct d2.
  - right. exists bc, l, w2. split; [unfold bind at 1; rewrite Eserve; reflexivity|].
    pose proof (refs_split k0 _ w1 bio_ bc b c l false w2 ebs R1 Eb1 Ec1 D HF Hbcs ltac:(cbn; lia)) as R2.
    destruct D as [(es1 & bs1 & bs1' & km2 & Ew2) _ S3 S4 S5 S6 _].
    assert (F : bio_ended w2 = bio_ended w1 /\ mdreqs w2 = mdreqs w1 /\ jobs w2 = jobs w1 /\ completions w2 = completions w1 /\ md_queue w2 = md_queue w1 /\ io_cw w2 = io_cw w1)
      by by rewrite Ew2.
    destruct F as (F1 & F2 & F3 & F4 & F5 & F6). assert (F7 : io_d w2 = d2) by (unfold io_d; by rewrite F6, W6).
    constructor.
    + by rewrite F1.
    + done.
    + eexists. split; [rewrite S3, W3; by rewrite insert_insert_eq|]. split_and!; [done|cbn; lia|done|done|].
      rewrite F7. exact Hspan.
    + by rewrite F2, F3, F4, F5, W8, W9, W10, W12.
    + exists d2. by rewrite F6, W6.
    + done.
    + exists ebs. split_and!; [done|done| | |by rewrite F7, Hsz].
      * intros e He. rewrite <-W4. by apply S5.
      * intros e He. rewrite <-W4. by apply S6.
Qed.

(** ** Bios that are refused at once *)
Inductive map_reject (d : cache_c) (b : bio) : Z -> Prop :=
| RejDiscard : bi_discard b = true -> map_reject d b 0
| RejRdonly : bi_discard b = false -> cache_rdonly d <> 0 -> bi_dir b <> READ -> map_reject d b (- EPERM)
| RejFailed : bi_discard b = false -> cache_rdonly d = 0 \/ bi_dir b = READ -> CACHE_FAILED_IS_SET d = true -> map_reject d b (- ENODEV).

Lemma map_reject_ok w bio_ b err : bios w !! bio_ = Some b -> bi_idx b = 0 -> map_reject (io_d w) b err ->
  exists d', eio_map jiffies bio_ w = Some (DM_MAPIO_SUBMITTED, set_bio_ended (bio_ended w ++ [(bio_, err)]) (with_d d' w)) /\ counters (io_d w) d'.
Proof.
  intros Eb Ei Hrej. unfold eio_map. rewrite (bind_run _ _ _ _ _ (the_bio_run _ _ _ Eb)), bind_assert by (by rewrite Ei).
  assert (Hend : forall d', bio_endio bio_ err (with_d d' w) = Some (tt, set_bio_ended (bio_ended w ++ [(bio_, err)]) (with_d d' w))) by (intros d'; exact (bio_endio_run bio_ b err (with_d d' w) Eb)).
  assert (Hsame : bio_endio bio_ err w = Some (tt, set_bio_ended (bio_ended w ++ [(bio_, err)]) (with_d (io_d w) w))) by (rewrite with_d_same; exact (bio_endio_run bio_ b err w Eb)).
  assert (Hc0 : counters (io_d w) (io_d w)) by (exists (stats (io_d w)), (size_hist (io_d w)), (nr_ios (io_d w)); by destruct (io_d w)).
  destruct Hrej as [Hd|Hd Hro Hdir|Hd Hro Hf]; rewrite Hd.
  - exists (io_d w). by rewrite (bind_run _ _ _ _ _ Hsame).
  - exists (io_d w). unfold bind at 1. rewrite bind_gets, (proj2 (Z.eqb_neq (cache_rdonly (io_d w)) 0)), (proj2 (Z.eqb_neq (bi_dir b) READ)) by done.
    cbn [negb andb]. by rewrite Hsame.
  - unfold bind at 1. rewrite bind_gets.
    assert ((negb (cache_rdonly (io_d w) =? 0) && negb (bi_dir b =? READ)) = false) as ->.
    { apply andb_false_iff. destruct Hro as [->| ->]; [left|right]; done. }
    destruct (count_bio_form b (io_d w)) as (st & sh & Ed). exists (count_bio b (io_d w)). split.
    + unfold map_checked. rewrite (bind_run _ _ _ _ _ (upd_dmc_run _ w)).
      rewrite (bind_run _ _ _ _ _ (count_bio_run w b)), bind_gets.
      assert (CACHE_FAILED_IS_SET (io_d (with_d (count_bio b (io_d w)) w)) = true) as -> by by rewrite Ed.
      by rewrite Hend.
    + rewrite Ed. exists st, sh, (nr_ios (io_d w)). by destruct (io_d w).
Qed.
End map.
