(* ===== verification/Hits.v ===== *)
(** * Serving a split from the SSD

    What [eio_cached_read] and [eio_cached_write] make of a split whose block
    was reserved: the transfer they submit, the memory or the devices after it,
    and what becomes of the split when nothing is submitted.

    ** The end of a read from the SSD, and its repetition on the disk

    [eio_post_io_callback] ends the split of a read that succeeded, or of a
    dirty block, which nothing else can supply; any other read that failed goes
    to [eio_ssderror_diskread], which repeats it on the disk.

    ** A write that only the SSD serves

    [eio_cached_write] sends a split's data to its block.  A clean block is
    marked [DIRTY_INPROG] in memory; what a crash leaves does not change until
    its metadata is written.  A dirty block is overwritten in place. *)

From S2P Require Import Prelude Types Mem Scan Thresh Lookup SetSeq World Dispatch Disk Clean CleanIo CleanState CleanSet WbAlloc IoWorld MdUpdate IoPath IoMap Refs MdFlow Split.

(** * Serving a split from the SSD *)
(** ** Transfers *)
Definition next_res (w : cworld) : io_result := match cw_results w with [] => IoOk | r :: _ => r end.
Definition drop_res (w : cworld) : cworld := set_cw_results (tail (cw_results w)) w.
(** the world after a transfer of [ts] that ended as [r] *)
Definition transferred (dev : device) (rw : Z) (r : io_result) (ts : list (Z * slot)) (w : cworld) : cworld :=
  if rw =? READ then set_cw_mem (read_sectors r (dev_get (cw_k w) dev) ts (cw_mem w)) w
  else
    let ws := map (fun t => (t.1, cw_mem w !!! t.2)) ts in
    set_cw_k (dev_set dev (write_sectors r ws (dev_get (cw_k w) dev)) (cw_k w)) (set_cw_trace (cw_trace w ++ [(cw_k w, (dev, ws))]) w).

Lemma next_result_run w : next_result w = Some (next_res w, drop_res w).
Proof. unfold next_result, next_res, drop_res. destruct w as [d k mem vs ps [|r l] tr]; reflexivity. Qed.

Lemma io_async_run dev sec n rw bv hddio w : CACHE_DEGRADED_IS_SET (cw_d w) = false -> bvecs_fit bv n -> bv <> [] ->
  eio_io_async_bvec (mk_region dev sec n) rw bv hddio w =
    Some (io_errors (next_res w),
      if (io_errors (next_res w)).1 =? 0 then transferred dev rw (next_res w) (region_transfer sec n bv) (drop_res w) else drop_res w).
Proof.
  intros Hd Hfit Hne. unfold eio_io_async_bvec. rewrite bind_gets, Hd. cbn [andb]. rewrite (bind_run _ _ _ _ _ (next_result_run w)).
  destruct (_ =? 0); cbn [negb]; [|done].
  destruct (dispatch_io_ok [] 0 (mk_region dev sec n) hddio bv) as (bs & E & Et); [done|done|done|].
  unfold do_transfer. rewrite bind_bind, (bind_eval (fun _ => eio_dispatch_io [] 0 (mk_region dev sec n) hddio bv) _ _ bs E).
  cbn [io_sector io_count] in Et. assert (E0 : sec + (if hddio then 0 else 0) = sec) by (destruct hddio; lia). rewrite E0 in Et. rewrite Et. cbv zeta.
  unfold transferred. by destruct (rw =? READ).
Qed.

Lemma async_bvec_moves dev sec n rw bv hddio c w : CACHE_DEGRADED_IS_SET (io_d w) = false -> bvecs_fit bv n -> bv <> [] ->
  async_bvec (mk_region dev sec n) rw bv hddio c w =
    (let r := next_res (io_cw w) in
     if (io_errors r).1 =? 0
     then Some (0, set_completions (completions w ++ [(c, (io_errors r).2)]) (set_io_cw (transferred dev rw r (region_transfer sec n bv) (drop_res (io_cw w))) w))
     else Some ((io_errors r).1, set_io_cw (drop_res (io_cw w)) w)).
Proof.
  intros Hd Hfit Hne. unfold async_bvec, on_cw, bind at 1. rewrite (io_async_run dev sec n rw bv hddio (io_cw w) Hd Hfit Hne). cbv zeta.
  by destruct (_ =? 0).
Qed.

(** ** The job of a split *)
Definition ssd_job (d : cache_c) (e : Z) (eb : eio_bio) (i : Z) : kcached_job :=
  mk_job (Some e) (mk_region HDD (eb_sector eb) (eio_to_sector (eb_size eb))) (Some (job_cache_region d (Some eb) i)) i NOACTION 0.
Definition count_alloc_error (d : cache_c) : cache_c :=
  upd_errors (fun e => {| e with memory_alloc_errors := i32 (memory_alloc_errors e + 1) |}) d.

Lemma new_job_run w e eb i : ebios w !! e = Some eb -> 0 <= i -> eio_to_sector (eb_size eb) <= block_size (io_d w) ->
  exists ok km, (io_kmalloc w = [] -> ok = true /\ km = []) /\ eio_new_job (Some e) i w =
    if (ok : bool) then Some (Some (fresh (dom (jobs w))), set_jobs (<[fresh (dom (jobs w)) := ssd_job (io_d w) e eb i]> (jobs w)) (set_io_kmalloc km w))
    else Some (None, with_d (count_alloc_error (io_d w)) (set_io_kmalloc km w)).
Proof.
  intros Ee Hi Hs. destruct (on_kmalloc_run w) as (ok & km & Ek & Hkm). exists ok, km. split; [done|].
  unfold eio_new_job. rewrite bind_assert by done. rewrite (bind_run _ _ _ _ _ Ek). destruct ok; cbn [negb]; [|done].
  set (w1 := set_io_kmalloc km w). rewrite bind_bind, (bind_run _ _ _ _ _ (the_ebio_run e eb w1 Ee)), bind_ret, bind_gets.
  assert ((i =? -1) = false) as -> by (apply Z.eqb_neq; lia). cbn [negb when]. rewrite bind_assert by by apply Z.leb_le. done.
Qed.

(** ** A split on its block *)
Record on_block (d : cache_c) (eb : eio_bio) : Prop := {
  on_inv : blk_inv d;
  on_range : 0 <= eb_index eb < dmc_size d;
  on_valid : EIO_CACHE_STATE_GET d (eb_index eb) <> INVALID;
  on_dbn : EIO_DBN_GET d (eb_index eb) = Some (split_block d eb);
  on_sector : 0 <= eb_sector eb;
  on_size : exists n, eb_size eb = 512 * n /\ 0 < n;
  on_part : eb_sector eb + split_sectors eb <= split_block d eb + block_size d;
  on_vecs : bvecs_fit (eb_bv eb) (split_sectors eb) /\ eb_bv eb <> [];
  on_ssd_end : 0 <= md_sectors d /\ md_sectors d + dmc_size d * block_size d < 2 ^ 63
}.
Definition split_slots (eb : eio_bio) : list slot := take (Z.to_nat (split_sectors eb)) (bvec_slots (eb_bv eb)).
(** the split's place in its block *)
Definition split_offset (d : cache_c) (eb : eio_bio) : Z := eb_sector eb - split_block d eb.
Definition split_ssd (d : cache_c) (eb : eio_bio) : Z := data_sector d (eb_index eb) + split_offset d eb.

Lemma fit_slots : forall bv n, bvecs_fit bv n -> n <= Z.of_nat (length (bvec_slots bv)).
Proof.
  induction bv as [|v bv IH]; intros n Hf; [cbn in *; lia|]. destruct Hf as ([Hp Hd] & Hn & Hf). specialize (IH _ Hf).
  rewrite bvec_slots_cons, length_app, page_slots_length. destruct (sectors_pos _ Hp Hd). lia.
Qed.

Section on_block.
Context (d : cache_c) (eb : eio_bio) (H : on_block d eb).
Abbreviation n := (split_sectors eb).
Lemma on_count : eio_to_sector (eb_size eb) = n /\ 0 < n.
Proof. destruct (on_size _ _ H) as (m & E & Hm). rewrite sector_div. split; [done|]. unfold split_sectors. rewrite E, Z.mul_comm, Z.div_mul; lia. Qed.
Lemma on_offset : 0 <= split_offset d eb /\ split_offset d eb + n <= block_size d.
Proof.
  pose proof (bi_geom d (on_inv _ _ H)) as Hg. pose proof (round_sector_le d (eb_sector eb) Hg (on_sector _ _ H)). pose proof (on_part _ _ H).
  unfold split_offset, split_block in *. lia.
Qed.
Lemma on_fits : eio_to_sector (eb_size eb) <= block_size d.
Proof. destruct on_count as [-> _]. pose proof on_offset. lia. Qed.
Lemma on_region : job_cache_region d (Some eb) (eb_index eb) = mk_region SSD (split_ssd d eb) n.
Proof.
  unfold job_cache_region. destruct on_count as [-> Hn]. f_equal. unfold split_ssd, split_offset, split_block, data_sector.
  pose proof (bi_geom d (on_inv _ _ H)) as Hg. pose proof (block_size_pos d Hg). pose proof on_offset as Ho. unfold split_offset, split_block in Ho.
  destruct (on_range _ _ H), (on_ssd_end _ _ H). pose proof (geo_bs d Hg). rewrite Z.shiftl_mul_pow2 by lia. rewrite <-(geo_block d Hg).
  unfold u64. rewrite Z.mod_small; [lia|]. nia.
Qed.
Lemma on_slots_length : Z.of_nat (length (split_slots eb)) = n.
Proof. unfold split_slots. rewrite length_take. destruct (on_vecs _ _ H) as [Hf _]. apply fit_slots in Hf. pose proof on_count. lia. Qed.
Lemma on_set : eb_index eb ∈ set_blocks d (dbn_set d (eb_sector eb)).
Proof.
  pose proof (on_inv _ _ H) as Hi. pose proof (bi_geom d Hi) as Hg.
  destruct (bi_dbn d Hi _ (on_range _ _ H) (on_valid _ _ H)) as (dbn & E & _ & _ & Hs). rewrite (on_dbn _ _ H) in E. injection E as <-.
  unfold split_block in Hs. rewrite dbn_set_round in Hs by (done || exact (on_sector _ _ H)). rewrite Hs.
  by apply elem_of_set_blocks.
Qed.
(** the split's memory, sector by sector *)
Lemma on_transfer_elem t sl : (t, sl) ∈ region_transfer (split_ssd d eb) n (eb_bv eb) <->
  exists k, 0 <= k < n /\ t = split_ssd d eb + k /\ split_slots eb !! Z.to_nat k = Some sl.
Proof.
  unfold region_transfer. fold (split_slots eb). rewrite elem_of_lookup_zip_with. split.
  - intros (j & x & y & E & Hx & Hy). injection E as -> ->. apply lookup_seqZ in Hx as [-> Hj]. exists (Z.of_nat j). split; [lia|].
    split; [lia|]. by rewrite Nat2Z.id.
  - intros (k & Hk & -> & Hs). exists (Z.to_nat k), (split_ssd d eb + k), sl. split; [done|]. split; [|done]. apply lookup_seqZ. lia.
Qed.
Lemma on_transfer_slots : (region_transfer (split_ssd d eb) n (eb_bv eb)).*2 = split_slots eb.
Proof. unfold region_transfer. fold (split_slots eb). apply snd_zip. rewrite length_seqZ. pose proof on_slots_length. lia. Qed.
Lemma on_transfer_sectors : (region_transfer (split_ssd d eb) n (eb_bv eb)).*1 = seqZ (split_ssd d eb) n.
Proof. unfold region_transfer. fold (split_slots eb). apply fst_zip. rewrite length_seqZ. pose proof on_slots_length. lia. Qed.
End on_block.

(** the block's place in the volume *)
Lemma on_sector_block d eb o : on_block d eb -> 0 <= o < split_sectors eb ->
  eb_sector eb + o = split_block d eb + (split_offset d eb + o) /\ EIO_ROUND_SECTOR d (eb_sector eb + o) = split_block d eb /\
  eb_index eb ∈ set_blocks d (dbn_set d (eb_sector eb + o)) /\ 0 <= eb_sector eb + o /\ 0 <= split_offset d eb + o < block_size d.
Proof.
  intros H Ho. pose proof (on_inv _ _ H) as Hi. pose proof (bi_geom d Hi) as Hg. pose proof (on_offset d eb H) as Hoff.
  destruct (bi_dbn d Hi _ (on_range _ _ H) (on_valid _ _ H)) as (dbn & E & [Hdbn _] & Hdiv & _). rewrite (on_dbn _ _ H) in E. injection E as <-.
  assert (Es : eb_sector eb + o = split_block d eb + (split_offset d eb + o)) by (unfold split_offset; lia).
  destruct (sector_of_block d Hi (split_block d eb) (split_offset d eb + o) Hdbn Hdiv) as [Er Eset]; [lia|]. pose proof (on_sector _ _ H).
  rewrite Es. split_and!; [done|done| |lia|lia|lia].
  rewrite Eset. pose proof (on_set d eb H) as Hin. unfold split_block. by rewrite dbn_set_round.
Qed.
Lemma on_ssd_data d k eb o : on_ssd k !!! (split_ssd d eb + o) = block_data d k (eb_index eb) (split_offset d eb + o).
Proof. unfold block_data, split_ssd. f_equal. lia. Qed.

(** the volume has the data of a dirty block, and the disk's of any other *)
Lemma on_volume d k eb o : on_block d eb -> 0 <= o < split_sectors eb ->
  volume d k (eb_sector eb + o) =
    if is_dirty d (eb_index eb) then block_data d k (eb_index eb) (split_offset d eb + o) else on_hdd k !!! (eb_sector eb + o).
Proof.
  intros H Ho. pose proof (on_inv _ _ H) as Hi. destruct (on_sector_block d eb o H Ho) as (Es & Er & Hset & Hs0 & _).
  assert (Ed : EIO_DBN_GET d (eb_index eb) = Some (EIO_ROUND_SECTOR d (eb_sector eb + o))) by (by rewrite Er, (on_dbn _ _ H)).
  destruct (is_dirty d (eb_index eb)) eqn:Hd.
  - rewrite (volume_dirty d Hi k _ (eb_index eb) Hs0 Hset) by by apply dirty_cached_spec. f_equal. rewrite Er. lia.
  - apply volume_clean. intros j Hj. destruct (dirty_cached d (eb_sector eb + o) j) eqn:Ej; [|done].
    apply dirty_cached_spec in Ej as [Dj Ej]. exfalso.
    assert (eb_index eb = j) as <-.
    { apply (bi_uniq d Hi); [exact (on_range _ _ H)|by apply (set_block_range d Hi (eb_sector eb + o))|exact (on_valid _ _ H)|by apply dirty_not_invalid|by rewrite Ed, Ej]. }
    unfold is_dirty in Hd. by rewrite Hd in Dj.
Qed.
(** a block that is dirty, or the same on the disk, has the volume's data *)
Lemma on_volume_ssd d eb k o : on_block d eb -> 0 <= o < split_sectors eb -> is_dirty d (eb_index eb) = true \/ synced d k (eb_index eb) ->
  on_ssd k !!! (split_ssd d eb + o) = volume d k (eb_sector eb + o).
Proof.
  intros H Ho Hs. destruct (on_sector_block d eb o H Ho) as (Es & _ & _ & _ & Hoff). rewrite on_volume, on_ssd_data by done.
  destruct (is_dirty d (eb_index eb)); [done|]. destruct Hs as [?|Hs]; [done|]. rewrite Es. symmetry. by apply Hs; [exact (on_dbn _ _ H)|].
Qed.

(** ** Submitting the job *)
(** only counters of the cache state differ *)
Definition job_counters (d d' : cache_c) : Prop := exists st er n, d' = set_nr_jobs n (set_errors er (set_stats st d)).
Lemma jc_refl d : job_counters d d.
Proof. exists (stats d), (errors d), (nr_jobs d). by destruct d. Qed.
Lemma jc_trans d1 d2 d3 : job_counters d1 d2 -> job_counters d2 d3 -> job_counters d1 d3.
Proof. intros (s1 & e1 & n1 & ->) (s2 & e2 & n2 & ->). exists s2, e2, n2. by destruct d1. Qed.
Lemma jc_stats f d : job_counters d (upd_stats f d).
Proof. exists (f (stats d)), (errors d), (nr_jobs d). by destruct d. Qed.
Lemma jc_jobs d : job_counters d (inc_nr_jobs d).
Proof. exists (stats d), (errors d), (atomic_inc (nr_jobs d)). by destruct d. Qed.
Lemma jc_alloc d : job_counters d (count_alloc_error d).
Proof. exists (stats d), (errors (count_alloc_error d)), (nr_jobs d). by destruct d. Qed.
Lemma jc_fields d d' : job_counters d d' -> layout d' = layout d /\ mode d' = mode d /\ CACHE_DEGRADED_IS_SET d' = CACHE_DEGRADED_IS_SET d /\
  EIO_CACHE_STATE_GET d' = EIO_CACHE_STATE_GET d /\ EIO_DBN_GET d' = EIO_DBN_GET d.
Proof. intros (st & er & n & ->). split_and!; reflexivity. Qed.

Lemma the_job_run j jb w : jobs w !! j = Some jb -> the_job j w = Some (jb, w).
Proof. intros E. unfold the_job, eval. by rewrite E. Qed.
Lemma upd_job_run j jb f w : jobs w !! j = Some jb -> upd_job j f w = Some (tt, set_jobs (<[j := f jb]> (jobs w)) w).
Proof. intros E. unfold upd_job. by rewrite (bind_run _ _ _ _ _ (the_job_run j jb w E)). Qed.
Lemma inc_stat_d f w : inc_stat f w = Some (tt, with_d (upd_stats f (io_d w)) w).
Proof. apply upd_dmc_run. Qed.

(** the transfer of a job's part of the SSD ends, or will end, as [r] *)
Definition job_started (rw : Z) (j : Z) (eb : eio_bio) (d0 : cache_c) (w : io_world) : io_world :=
  let r := next_res (io_cw w) in
  set_completions (completions w ++ [(IoCallback j, (io_errors r).2)])
    (set_io_cw (transferred SSD rw r (region_transfer (split_ssd d0 eb) (split_sectors eb) (eb_bv eb)) (drop_res (io_cw w))) w).

Lemma cache_io_ok w j jb rw d0 eb : jobs w !! j = Some jb -> on_block d0 eb -> CACHE_DEGRADED_IS_SET (io_d w) = false ->
  job_cache jb = Some (job_cache_region d0 (Some eb) (eb_index eb)) -> 
  cache_io j rw (eb_bv eb) w =
    if (io_errors (next_res (io_cw w))).1 =? 0 then Some (0, job_started rw j eb d0 w)
    else Some ((io_errors (next_res (io_cw w))).1, set_io_cw (drop_res (io_cw w)) w).
Proof.
  intros Ej H Hd Ec. unfold cache_io. rewrite (bind_run _ _ _ _ _ (the_job_run j jb w Ej)), Ec.
  rewrite (bind_run (lift (Some _)) _ w _ w eq_refl), (on_region d0 eb H). destruct (on_vecs _ _ H) as [Hf Hv].
  exact (async_bvec_moves SSD _ _ rw (eb_bv eb) false (IoCallback j) w Hd Hf Hv).
Qed.

(** ** What becomes of a split *)

(** its SSD job is submitted; [d'] is the state of the cache *)
Definition hit_world (rw : Z) (action : job_action) (w : io_world) (e : Z) (eb : eio_bio) (km : list bool) (d' : cache_c) : io_world :=
  let j := fresh (dom (jobs w)) in
  job_started rw j eb (io_d w)
    (set_jobs (<[j := set_job_action action (ssd_job (io_d w) e eb (eb_index eb))]> (jobs w)) (with_d d' (set_io_kmalloc km w))).
(** it is not, and the split is ended; [f] is done to the cache *)
Definition hit_refused (f : cache_c -> cache_c) (w w1 : io_world) : Prop := exists km d1 rs,
  job_counters (io_d w) d1 /\ w1 = set_io_cw (set_cw_d (f d1) (set_cw_results rs (io_cw w))) (set_io_kmalloc km w).

Section hits.
Context {K : Kernel} (k0 : kmem) (held : Z -> Z) (jiffies : Z).

Lemma end_job_ok w e eb err : refs_ok k0 held w -> ebios w !! e = Some eb ->
  exists w', (eb_endio jiffies e err ;; free_job None) w = Some (tt, w') /\ refs_ok k0 held w' /\ endio_done e eb err w w' /\
    forall j jb, jobs w !! j = None -> (eb_endio jiffies e err ;; free_job (Some j)) (set_jobs (<[j := jb]> (jobs w)) w) = Some (tt, w').
Proof.
  intros R Ee. destruct (eb_endio_ok k0 jiffies held w e eb err R Ee) as (w' & E & R' & D).
  exists w'. split; [by rewrite (bind_run _ _ _ _ _ E)|]. split; [done|]. split; [done|]. intros j jb Hj.
  assert (Ej : (eb_endio jiffies e err) (set_jobs (<[j := jb]> (jobs w)) w) = Some (tt, set_jobs (<[j := jb]> (jobs w)) w')) by (by rewrite (jf_eb_endio jiffies e err), E).
  rewrite (bind_run _ _ _ _ _ Ej). cbn [free_job]. unfold eio_free_cache_job.
  rewrite (bind_run _ _ _ _ _ (the_job_run j jb (set_jobs (<[j := jb]> (jobs w)) w') (lookup_insert_eq _ _ _))).
  unfold modify. cbn [jobs set_jobs]. rewrite delete_insert_id by done.
  assert (jobs w' = jobs w) as <- by (destruct D as [(? & ? & ? & ? & ? & ? & ? & ->) _ _ _ _]; done). by destruct w'.
Qed.

(** the refused split, whose block [f] has treated *)
Lemma refused_ok f w e eb err job jb w2 : refs_ok k0 held w -> ebios w !! e = Some eb -> (forall d, mode (f d) = mode d) ->
  hit_refused f w w2 -> exists w', refs_ok k0 held w' /\ endio_done e eb err w2 w' /\
    (eb_endio jiffies e err ;; free_job None) w2 = Some (tt, w') /\
    (jobs w !! job = None -> (eb_endio jiffies e err ;; free_job (Some job)) (set_jobs (<[job := jb]> (jobs w)) w2) = Some (tt, w')).
Proof.
  intros R Ee Hm (km & d1 & rs & Hc & ->). destruct (jc_fields _ _ Hc) as (_ & Ed & _).
  assert (R1 : refs_ok k0 held (set_io_cw (set_cw_d (f d1) (set_cw_results rs (io_cw w))) (set_io_kmalloc km w))).
  { assert (R1 : refs_ok k0 held (set_io_kmalloc km w)) by (destruct R as [[H1 H2 H3 H4 H5 H6 H7] Hb Hh Hcc]; constructor; [by constructor|done|done|done]).
    apply (refs_cw k0 held _ _ R1). cbn. by rewrite Hm, Ed. }
  destruct (end_job_ok _ e eb err R1 Ee) as (w' & E & R' & D & EJ). exists w'. split_and!; [done|done|done|]. intros Hj. exact (EJ job jb Hj).
Qed.

Definition read_refused (index : Z) (d : cache_c) : cache_c :=
  if EIO_CACHE_STATE_GET d index =? ALREADY_DIRTY then d else inval_one_block index d.

Lemma eio_cached_read_ok w e eb : refs_ok k0 held w -> ebios w !! e = Some eb -> on_block (io_d w) eb -> CACHE_DEGRADED_IS_SET (io_d w) = false ->
  (exists km d', job_counters (io_d w) d' /\ (io_errors (next_res (io_cw w))).1 = 0 /\
     eio_cached_read jiffies e w = Some (tt, hit_world READ READCACHE w e eb km d')) \/
  (exists err w1 w', err <> 0 /\ eio_cached_read jiffies e w = Some (tt, w') /\ refs_ok k0 held w' /\
     hit_refused (read_refused (eb_index eb)) w w1 /\ endio_done e eb err w1 w').
Proof.
  intros R Ee H Hd. assert (Hmode : forall d, mode (read_refused (eb_index eb) d) = mode d).
  { intros d. unfold read_refused, inval_one_block. destruct (_ =? _); [done|]. apply mode_of_state. }
  destruct (on_range _ _ H) as [Hi _].
  destruct (new_job_run w e eb (eb_index eb) Ee Hi (on_fits _ _ H)) as (ok & km & _ & Ej). set (j := fresh (dom (jobs w))) in *.
  assert (Hj : jobs w !! j = None) by apply not_elem_of_dom, is_fresh.
  unfold eio_cached_read. rewrite (bind_run _ _ _ _ _ (the_ebio_run _ _ _ Ee)). cbv zeta. destruct ok.
  - rewrite (bind_run _ _ _ _ _ Ej). cbn [with_job]. set (jb := ssd_job (io_d w) e eb (eb_index eb)). set (jb' := set_job_action READCACHE jb).
    set (w1 := set_jobs _ _). set (d' := upd_stats inc_readcache (upd_stats (count_ssd_reads (eb_size eb)) (upd_stats (add_read_hits (eb_size eb)) (inc_nr_jobs (io_d w))))).
    set (w2 := set_jobs (<[j := jb']> (jobs w)) (with_d d' (set_io_kmalloc km w))).
    assert (Hc : job_counters (io_d w) d') by (repeat (eapply jc_trans; [|apply jc_stats]); apply jc_jobs).
    assert (E2 : forall (k : M io_world Z), (upd_job j (set_job_action READCACHE) ;; upd_dmc inc_nr_jobs ;; inc_stat (add_read_hits (eb_size eb)) ;;
      inc_stat (count_ssd_reads (eb_size eb)) ;; inc_stat inc_readcache ;; k) w1 = k w2).
    { intros k. rewrite (bind_run _ _ _ _ _ (upd_job_run j jb _ w1 (lookup_insert_eq _ _ _))).
      rewrite (bind_run _ _ _ _ _ (upd_dmc_run _ _)), !(bind_run _ _ _ _ _ (inc_stat_d _ _)). f_equal.
      subst w1 w2. cbn [jobs set_jobs]. rewrite insert_insert_eq. reflexivity. }
    destruct (jc_fields _ _ Hc) as (_ & _ & Edeg & _).
    pose proof (cache_io_ok w2 j jb' READ (io_d w) eb (lookup_insert_eq _ _ _) H (eq_trans Edeg Hd) eq_refl) as E3.
    change (next_res (io_cw w2)) with (next_res (io_cw w)) in E3. 
    destruct (Z.eqb_spec (io_errors (next_res (io_cw w))).1 0) as [E0|E0].
    + left. exists km, d'. split; [done|]. split; [done|].
      rewrite (bind_run _ _ w1 0 (job_started READ j eb (io_d w) w2)) by (rewrite E2; exact E3). done.
    + right. set (err := (io_errors (next_res (io_cw w))).1) in *.
      destruct (refused_ok (read_refused (eb_index eb)) w e eb err j jb' (set_io_cw (set_cw_d (read_refused (eb_index eb) d') (drop_res (io_cw w))) (set_io_kmalloc km w)) R Ee Hmode)
        as (w' & R' & D & _ & EJ); [by exists km, d', (tail (cw_results (io_cw w)))|].
      exists err. eexists. exists w'. split_and!; [done| |done| |exact D]; [|by exists km, d', (tail (cw_results (io_cw w)))].
      rewrite (bind_run _ _ w1 err (set_io_cw (drop_res (io_cw w2)) w2)) by (rewrite E2; exact E3).
      rewrite (proj2 (Z.eqb_neq err 0) E0). cbn [negb when]. rewrite (bind_run _ _ _ _ _ (upd_dmc_run _ _)). exact (EJ Hj).
  - right. rewrite (bind_run _ _ _ _ _ Ej). cbn [with_job]. rewrite bind_ret. change (negb (- ENOMEM =? 0)) with true. cbn [when].
    set (d' := count_alloc_error (io_d w)).
    destruct (refused_ok (read_refused (eb_index eb)) w e eb (- ENOMEM) j (ssd_job (io_d w) e eb (eb_index eb)) (set_io_cw (set_cw_d (read_refused (eb_index eb) d') (set_cw_results (cw_results (io_cw w)) (io_cw w))) (set_io_kmalloc km w)) R Ee Hmode)
        as (w' & R' & D & EN & _); [exists km, d', (cw_results (io_cw w)); split; [apply jc_alloc|done]|].
    exists (- ENOMEM). eexists. exists w'. split; [done|]. split; [|split; [exact R'|]; split; [|exact D]; exists km, d', (cw_results (io_cw w)); split; [apply jc_alloc|done]].
    rewrite (bind_run _ _ _ _ _ (upd_dmc_run _ _)). exact EN.
Qed.

(** a read that was submitted *)
Record read_started (w : io_world) (e : Z) (eb : eio_bio) (w' : io_world) : Prop := {
  rs_job : exists j err, jobs w !! j = None /\ jobs w' = <[j := set_job_action READCACHE (ssd_job (io_d w) e eb (eb_index eb))]> (jobs w) /\
    completions w' = completions w ++ [(IoCallback j, err)] /\
    (err = 0 -> is_dirty (io_d w) (eb_index eb) = true \/ synced (io_d w) (cw_k (io_cw w)) (eb_index eb) ->
     forall o sl, split_slots eb !! o = Some sl -> cw_mem (io_cw w') !!! sl = volume (io_d w) (cw_k (io_cw w)) (eb_sector eb + Z.of_nat o));
  rs_mem : forall sl, sl ∉ split_slots eb -> cw_mem (io_cw w') !!! sl = cw_mem (io_cw w) !!! sl;
  rs_disks : cw_k (io_cw w') = cw_k (io_cw w) /\ cw_trace (io_cw w') = cw_trace (io_cw w);
  rs_cache : job_counters (io_d w) (io_d w');
  rs_frame : exists km, w' = set_completions (completions w') (set_io_cw (io_cw w') (set_jobs (jobs w') (set_io_kmalloc km w)))
}.

Lemma hit_read_started w e eb km d' : on_block (io_d w) eb -> NoDup (split_slots eb) -> io_result_ok (next_res (io_cw w)) ->
  (io_errors (next_res (io_cw w))).1 = 0 -> job_counters (io_d w) d' -> read_started w e eb (hit_world READ READCACHE w e eb km d').
Proof.
  intros H Hnd Hr E0 Hc. set (r := next_res (io_cw w)) in *.
  assert (Er : (io_errors r).2 = 0 -> r = IoOk) by (destruct r; cbn in *; congruence).
  pose proof (on_transfer_slots (io_d w) eb H) as Hts. constructor.
  - exists (fresh (dom (jobs w))), (io_errors r).2. split; [apply not_elem_of_dom, is_fresh|]. split; [done|]. split; [done|].
    intros Ee%Er Hs o sl Ho. change (cw_mem (io_cw (hit_world READ READCACHE w e eb km d'))) with
      (read_sectors r (on_ssd (cw_k (io_cw w))) (region_transfer (split_ssd (io_d w) eb) (split_sectors eb) (eb_bv eb)) (cw_mem (io_cw w))).
    pose proof (lookup_lt_Some _ _ _ Ho) as Hlt. pose proof (on_slots_length (io_d w) eb H).
    rewrite Ee, (read_sectors_done _ _ _ (split_ssd (io_d w) eb + Z.of_nat o)).
    + apply on_volume_ssd; [done|lia|done].
    + by rewrite Hts.
    + apply on_transfer_elem. exists (Z.of_nat o). split; [lia|]. by rewrite Nat2Z.id.
  - intros sl Hsl. change (cw_mem (io_cw (hit_world READ READCACHE w e eb km d'))) with
      (read_sectors r (on_ssd (cw_k (io_cw w))) (region_transfer (split_ssd (io_d w) eb) (split_sectors eb) (eb_bv eb)) (cw_mem (io_cw w))).
    apply read_sectors_ne. by rewrite Hts.
  - done.
  - exact Hc.
  - by exists km.
Qed.
End hits.

(** * The end of a read from the SSD, and its repetition on the disk *)
(** a clean block whose sectors are read from the SSD, and from the disk after
    that failed; [q] when an invalidation waits *)
Definition reading (q : bool) : Z := queued q (Z.lor VALID CACHEREADINPROG).
Definition rereading (q : bool) : Z := queued q (Z.lor VALID DISKREADINPROG).
Definition read_errs (err : Z) (d : cache_c) : cache_c := if err =? 0 then d else upd_errors inc_ssd_read_errors d.
(** the block once the read has ended *)
Definition settle_read (s : Z) (err i : Z) (d : cache_c) : cache_c :=
  if tst s QUEUED then inval_one_block i d
  else if err =? 0 then EIO_CACHE_STATE_OFF d i BLOCK_IO_INPROG else d.

Section reads.
Context {K : Kernel} (k0 : kmem) (held : Z -> Z) (jiffies : Z).

(** the split [e], whose read of the SSD is the job [j] *)
Record split_reading (w : io_world) (e : Z) (eb : eio_bio) (j : Z) (jb : kcached_job) (s : Z) : Prop := {
  sr_refs : refs_ok k0 held w;
  sr_eb : ebios w !! e = Some eb;
  sr_index : 0 <= eb_index eb;
  sr_jb : jobs w !! j = Some jb;
  sr_job : job_ebio jb = Some e /\ job_index jb = eb_index eb /\ job_action_ jb = READCACHE;
  sr_state : EIO_CACHE_STATE_GET (io_d w) (eb_index eb) = s /\ (s = ALREADY_DIRTY \/ exists q, s = reading q);
  sr_dbn : EIO_DBN_GET (io_d w) (eb_index eb) = Some (EIO_ROUND_SECTOR (io_d w) (eb_sector eb))
}.

Lemma read_errs_form err d : exists er, read_errs err d = set_errors er d.
Proof. unfold read_errs. destruct (err =? 0); [exists (errors d); by destruct d|eexists; reflexivity]. Qed.
Lemma read_errs_run err w : (when (negb (err =? 0)) (upd_dmc (upd_errors inc_ssd_read_errors))) w = Some (tt, with_d (read_errs err (io_d w)) w).
Proof. unfold read_errs. destruct (err =? 0); cbn [negb when]; [by rewrite with_d_same|apply upd_dmc_run]. Qed.

(** up to the end of the read *)
Lemma post_read w e eb j jb s : split_reading w e eb j jb s ->
  eio_post_io_callback jiffies j w =
    (if negb (job_error jb =? 0) && negb (s =? ALREADY_DIRTY) then
       upd_dmc (fun d => EIO_CACHE_STATE_ON (EIO_CACHE_STATE_OFF d (eb_index eb) CACHEREADINPROG) (eb_index eb) DISKREADINPROG) ;;
       eio_push_ssdread_failures j ;;
       schedule_work KcachedWork
     else post_io_end jiffies j e (eb_index eb) (job_error jb) READCACHE true) (with_d (read_errs (job_error jb) (io_d w)) w).
Proof.
  intros [_ Ee Hi Ej (J1 & J2 & J3) [Es Hs] Ed]. unfold eio_post_io_callback.
  assert (E0 : job_ebio_of j w = Some ((jb, e), w)) by (unfold job_ebio_of, the_job, eval, bind; rewrite Ej; unfold lift; rewrite J1; done).
  rewrite (bind_run _ _ _ _ _ E0). cbn [fst snd]. rewrite J2, J3.
  rewrite bind_assert by (apply orb_true_iff; left; apply orb_true_iff; left; apply negb_true_iff, Z.eqb_neq; lia).
  rewrite (bind_run _ _ _ _ _ (the_ebio_run _ _ _ Ee)).
  rewrite (bind_eval (fun w => EIO_DBN_GET (io_d w) (eb_index eb)) _ w _ Ed), bind_gets, bind_assert by apply Z.eqb_refl.
  rewrite bind_gets, Es, bind_assert by by destruct Hs as [->|[[|] ->]].
  by rewrite (bind_run _ _ _ _ _ (read_errs_run (job_error jb) w)).
Qed.

(** the read is over *)
Lemma post_read_end w e j i err s : EIO_CACHE_STATE_GET (io_d w) i = s -> s = ALREADY_DIRTY \/ (exists q, s = reading q) /\ err = 0 ->
  post_io_end jiffies j e i err READCACHE true w = (eb_endio jiffies e err ;; eio_free_cache_job j) (with_d (settle_read s err i (io_d w)) w).
Proof.
  intros Es Hs. unfold post_io_end. rewrite bind_gets, Es, bind_assert by by destruct Hs as [->|[[[|] ->] _]].
  cbn [bool_decide andb]. rewrite bool_decide_false by done. cbn [andb]. rewrite bind_ret.
  set (d1 := settle_read s err i (io_d w)).
  assert (E : post_cache_state err i s (io_d w) = Some (tt, d1)).
  { unfold post_cache_state. subst d1. unfold settle_read. destruct Hs as [->|[[q ->] ->]].
    - change (tst ALREADY_DIRTY DISKWRITEINPROG) with false. change (tst ALREADY_DIRTY QUEUED) with false. rewrite orb_false_r.
      by destruct (err =? 0).
    - by destruct q. }
  by rewrite (bind_run _ _ _ _ _ (on_dmc_run _ w tt d1 E)).
Qed.

(** the read goes to the queue of the reads repeated on the disk *)
Record read_deferred (w : io_world) (eb : eio_bio) (j err : Z) (q : bool) (w' : io_world) : Prop := {
  rd_world : exists ss, w' = set_scheduled ss (set_disk_read_jobs (disk_read_jobs w ++ [j])
    (with_d (EIO_CACHE_STATE_SET (read_errs err (io_d w)) (eb_index eb) (rereading q)) w)) /\ KcachedWork ∈ ss
}.
Lemma deferred_run (i j : Z) w q : EIO_CACHE_STATE_GET (io_d w) i = reading q ->
  exists ss, (upd_dmc (fun d => EIO_CACHE_STATE_ON (EIO_CACHE_STATE_OFF d i CACHEREADINPROG) i DISKREADINPROG) ;;
    eio_push_ssdread_failures j ;; schedule_work KcachedWork) w =
  Some (tt, set_scheduled ss (set_disk_read_jobs (disk_read_jobs w ++ [j]) (with_d (EIO_CACHE_STATE_SET (io_d w) i (rereading q)) w))) /\ KcachedWork ∈ ss.
Proof.
  intros Es. assert (Ed : EIO_CACHE_STATE_ON (EIO_CACHE_STATE_OFF (io_d w) i CACHEREADINPROG) i DISKREADINPROG = EIO_CACHE_STATE_SET (io_d w) i (rereading q)).
  { unfold EIO_CACHE_STATE_ON, EIO_CACHE_STATE_OFF. rewrite state_get_set_eq, state_set_twice, Es by (rewrite Es; by destruct q). by destruct q. }
  rewrite (bind_run _ _ _ _ _ (upd_dmc_run _ _)). unfold eio_push_ssdread_failures, schedule_work, bind, modify. cbn [disk_read_jobs scheduled].
  rewrite Ed. set (w1 := set_io_cw _ w). change (disk_read_jobs w1) with (disk_read_jobs w). change (scheduled w1) with (scheduled w).
  cbn [scheduled set_disk_read_jobs]. change (scheduled w1) with (scheduled w). destruct (decide _) as [Hin|Hin].
  - exists (scheduled w). by split.
  - exists (scheduled w ++ [KcachedWork]). split; [done|]. apply elem_of_app. right. by apply list_elem_of_singleton.
Qed.

Lemma settle_read_mode s err i d : mode (settle_read s err i d) = mode d.
Proof. unfold settle_read, inval_one_block. destruct (tst s QUEUED); [apply mode_of_state|]. destruct (err =? 0); [apply mode_of_state|done]. Qed.
Lemma refs_later held' w ss l : refs_ok k0 held' w -> refs_ok k0 held' (set_scheduled ss (set_disk_read_jobs l w)).
Proof. intros [[H1 H2 H3 H4 H5 H6 H7] Hb Hh Hc]. constructor; [|done|done|done]. by constructor. Qed.

Lemma read_ends_ok w e eb j jb s : split_reading w e eb j jb s -> let err := job_error jb in let i := eb_index eb in
  exists w', eio_post_io_callback jiffies j w = Some (tt, w') /\ refs_ok k0 held w' /\
    if decide (err = 0 \/ s = ALREADY_DIRTY)
    then endio_done e eb err (set_jobs (delete j (jobs w)) (with_d (settle_read s err i (read_errs err (io_d w))) w)) w'
    else exists q, s = reading q /\ read_deferred w eb j err q w'.
Proof.
  intros H err i. rewrite (post_read w e eb j jb s H). fold err i. destruct H as [R Ee Hi Ej _ [Es Hs] _]. fold i in Es.
  set (w1 := with_d (read_errs err (io_d w)) w).
  assert (Hm : mode (read_errs err (io_d w)) = mode (io_d w)) by by destruct (read_errs_form err (io_d w)) as [er ->].
  assert (Es1 : EIO_CACHE_STATE_GET (io_d w1) i = s) by (subst w1; cbn; by destruct (read_errs_form err (io_d w)) as [er ->]).
  destruct (decide (err = 0 \/ s = ALREADY_DIRTY)) as [Hd|Hd].
  - assert ((negb (err =? 0) && negb (s =? ALREADY_DIRTY)) = false) as ->
      by (destruct Hd as [->| ->]; [done|]; by rewrite (Z.eqb_refl ALREADY_DIRTY), andb_false_r).
    rewrite (post_read_end w1 e j i err s Es1) by (destruct Hd as [?|?]; [|by left]; destruct Hs as [?|?]; [by left|by right]).
    set (d2 := settle_read s err i (io_d w1)). set (w2 := set_jobs (delete j (jobs w)) (with_d d2 w)).
    assert (R2 : refs_ok k0 held w2).
    { apply refs_jobs, (refs_cw k0 held w (set_cw_d d2 (io_cw w)) R). cbn. subst d2. by rewrite settle_read_mode. }
    destruct (end_job_ok k0 held jiffies w2 e eb err R2 Ee) as (w' & _ & R' & D & EJ). exists w'.
    specialize (EJ j jb (lookup_delete_eq _ _)). cbn [free_job] in EJ.
    assert (Ew : set_jobs (<[j := jb]> (jobs w2)) w2 = with_d d2 w1) by (subst w2 w1; cbn [jobs set_jobs]; rewrite insert_delete_eq, insert_id by done; by destruct w).
    rewrite Ew in EJ. by split.
  - assert (err <> 0 /\ s <> ALREADY_DIRTY) as [He Hne] by tauto.
    rewrite (proj2 (Z.eqb_neq err 0) He), (proj2 (Z.eqb_neq s ALREADY_DIRTY) Hne). cbn [negb andb].
    destruct Hs as [?|[q ->]]; [done|]. destruct (deferred_run i j w1 q Es1) as (ss & E & Hss). eexists. split; [exact E|].
    split; [|exists q; split; [done|]; constructor; by exists ss].
    apply refs_later. apply (refs_cw k0 held w (set_cw_d (EIO_CACHE_STATE_SET (io_d w1) i (rereading q)) (io_cw w)) R). cbn. by rewrite mode_of_state.
Qed.

(** ** The repetition on the disk *)
Definition reread_job (jb : kcached_job) : kcached_job := set_job_action READDISK (set_job_error 0 jb).
(** the read of the disk that was submitted: the split's memory gets the
    volume's data when it succeeds *)
Record reread_started (w : io_world) (eb : eio_bio) (j : Z) (jb : kcached_job) (w' : io_world) : Prop := {
  rr_job : jobs w' = <[j := reread_job jb]> (jobs w);
  rr_end : exists err, completions w' = completions w ++ [(DiskIoCallback j, err)] /\
    (err = 0 -> forall o sl, split_slots eb !! o = Some sl -> cw_mem (io_cw w') !!! sl = volume (io_d w) (cw_k (io_cw w)) (eb_sector eb + Z.of_nat o));
  rr_mem : forall sl, sl ∉ split_slots eb -> cw_mem (io_cw w') !!! sl = cw_mem (io_cw w) !!! sl;
  rr_disks : cw_k (io_cw w') = cw_k (io_cw w) /\ cw_trace (io_cw w') = cw_trace (io_cw w);
  rr_cache : job_counters (io_d w) (io_d w');
  rr_frame : w' = set_completions (completions w') (set_io_cw (io_cw w') (set_jobs (jobs w') w))
}.

(** a transfer that reads the split's sectors from the disk *)
Lemma disk_slots d eb : on_block d eb -> (region_transfer (eb_sector eb) (split_sectors eb) (eb_bv eb)).*2 = split_slots eb /\
  forall o sl, split_slots eb !! o = Some sl -> (eb_sector eb + Z.of_nat o, sl) ∈ region_transfer (eb_sector eb) (split_sectors eb) (eb_bv eb).
Proof.
  intros H. pose proof (on_slots_length d eb H) as Hl. unfold region_transfer. fold (split_slots eb). split.
  - apply snd_zip. rewrite length_seqZ. lia.
  - intros o sl Ho. pose proof (lookup_lt_Some _ _ _ Ho). apply elem_of_lookup_zip_with. exists o, (eb_sector eb + Z.of_nat o), sl.
    split_and!; [done| |done]. apply lookup_seqZ. lia.
Qed.

Lemma diskread_ok w e eb j jb q : refs_ok k0 held w -> ebios w !! e = Some eb -> on_block (io_d w) eb -> NoDup (split_slots eb) ->
  CACHE_DEGRADED_IS_SET (io_d w) = false -> io_result_ok (next_res (io_cw w)) -> eb_dir eb = READ ->
  jobs w !! j = Some jb -> job_ebio jb = Some e -> job_disk jb = mk_region HDD (eb_sector eb) (eio_to_sector (eb_size eb)) ->
  EIO_CACHE_STATE_GET (io_d w) (eb_index eb) = rereading q ->
  (exists w', eio_ssderror_diskread jiffies j w = Some (tt, w') /\ reread_started w eb j jb w') \/
  (exists err w1 w', err <> 0 /\ eio_ssderror_diskread jiffies j w = Some (tt, w') /\ refs_ok k0 held w' /\
    hit_refused (inval_one_block (eb_index eb)) (set_jobs (delete j (jobs w)) w) w1 /\ endio_done e eb err w1 w').
Proof.
  intros R Ee H Hnd Hdeg Hr Hdir Ej J1 J2 Es. unfold eio_ssderror_diskread. set (i := eb_index eb) in *. set (r := next_res (io_cw w)) in *.
  rewrite (bind_run _ _ _ _ _ (upd_job_run j jb (set_job_error 0) w Ej)). set (w1 := set_jobs _ w).
  assert (E0 : job_ebio_of j w1 = Some ((set_job_error 0 jb, e), w1))
    by (unfold job_ebio_of, the_job, eval, bind; subst w1; cbn [jobs set_jobs]; rewrite lookup_insert_eq; unfold lift; cbn; rewrite J1; done).
  rewrite (bind_run _ _ _ _ _ E0). cbn [fst snd]. rewrite (bind_run _ _ _ _ _ (the_ebio_run e eb w1 Ee)). cbv zeta. fold i.
  destruct (on_range _ _ H) as [Hi _]. rewrite bind_assert by (apply negb_true_iff, Z.eqb_neq; lia).
  rewrite bind_gets. change (io_d w1) with (io_d w). rewrite Es, bind_assert by by destruct q. rewrite bind_assert by by rewrite Hdir.
  rewrite !(bind_run _ _ _ _ _ (inc_stat_d _ _)).
  set (d' := upd_stats (add_disk_reads (eb_size eb)) (upd_stats inc_readdisk (io_d w))).
  assert (Hc : job_counters (io_d w) d') by (eapply jc_trans; apply jc_stats). destruct (jc_fields _ _ Hc) as (_ & Em & Edeg & _).
  set (w2 := set_jobs (<[j := reread_job jb]> (jobs w)) (with_d d' w)).
  assert (E2 : forall (k : M io_world unit), (upd_job j (set_job_action READDISK) ;; k) (with_d (upd_stats (add_disk_reads (eb_size eb))
     (io_d (with_d (upd_stats inc_readdisk (io_d w1)) w1))) (with_d (upd_stats inc_readdisk (io_d w1)) w1)) = k w2).
  { intros k. rewrite (bind_run _ _ _ _ _ (upd_job_run j (set_job_error 0 jb) _ _ (lookup_insert_eq _ _ _))). f_equal.
    subst w1 w2. cbn [jobs set_jobs with_d set_io_cw]. rewrite insert_insert_eq. reflexivity. }
  rewrite E2. cbn [job_disk set_job_error]. rewrite J2. destruct (on_count _ _ H) as [Hcnt _]. rewrite Hcnt, Hdir. destruct (on_vecs _ _ H) as [Hf Hv].
  pose proof (async_bvec_moves HDD (eb_sector eb) (split_sectors eb) READ (eb_bv eb) true (DiskIoCallback j) w2 (eq_trans Edeg Hdeg) Hf Hv) as E3.
  cbv zeta in E3. change (next_res (io_cw w2)) with r in E3. destruct (Z.eqb_spec (io_errors r).1 0) as [Er|Er].
  - left. rewrite (bind_run _ _ _ _ _ E3). eexists. split; [reflexivity|]. destruct (disk_slots _ _ H) as [Hts Htr]. constructor.
    + done.
    + exists (io_errors r).2. split; [done|]. intros Ez o sl Ho. assert (r = IoOk) as Eok by (destruct r; cbn in *; congruence).
      match goal with |- ?m !!! _ = _ => change m with (read_sectors r (on_hdd (cw_k (io_cw w))) (region_transfer (eb_sector eb) (split_sectors eb) (eb_bv eb)) (cw_mem (io_cw w))) end.
      rewrite Eok, (read_sectors_done _ _ _ (eb_sector eb + Z.of_nat o)); [|by rewrite Hts|by apply Htr].
      pose proof (lookup_lt_Some _ _ _ Ho). pose proof (on_slots_length _ _ H).
      rewrite (on_volume _ _ eb (Z.of_nat o) H) by lia. assert (is_dirty (io_d w) (eb_index eb) = false) as -> by (unfold is_dirty; fold i; rewrite Es; by destruct q). done.
    + intros sl Hsl. match goal with |- ?m !!! _ = _ => change m with (read_sectors r (on_hdd (cw_k (io_cw w))) (region_transfer (eb_sector eb) (split_sectors eb) (eb_bv eb)) (cw_mem (io_cw w))) end.
      apply read_sectors_ne. by rewrite Hts.
    + done.
    + exact Hc.
    + done.
  - right. rewrite (bind_run _ _ _ _ _ E3), (proj2 (Z.eqb_neq _ _) Er). cbn [negb when]. rewrite (bind_run _ _ _ _ _ (upd_dmc_run _ _)).
    set (wd := set_jobs (delete j (jobs w)) w).
    destruct (refused_ok k0 held jiffies (inval_one_block i) wd e eb (io_errors r).1 j (reread_job jb)
      (set_io_cw (set_cw_d (inval_one_block i d') (set_cw_results (tail (cw_results (io_cw w))) (io_cw w))) (set_io_kmalloc (io_kmalloc w) wd)))
      as (w' & R' & D & _ & EJ); [by apply refs_jobs|done|by intros d; apply mode_of_state|by exists (io_kmalloc w), d', (tail (cw_results (io_cw w)))|].
    specialize (EJ (lookup_delete_eq _ _)). exists (io_errors r).1. eexists. exists w'. split; [done|]. split; [|split; [done|split; [|exact D]; by exists (io_kmalloc w), d', (tail (cw_results (io_cw w)))]].
    rewrite <-EJ. cbn [free_job]. f_equal. subst wd. cbn [jobs set_jobs set_io_cw set_io_kmalloc]. rewrite insert_delete_eq. by destruct w.
Qed.
End reads.

(** * A write that only the SSD serves *)
(** recovery reads the entries, and the blocks they mark dirty *)
Lemma recovered_dirty_ext d (Hinv : blk_inv d) k k' s : 0 <= s ->
  (forall i, i ∈ set_blocks d (dbn_set d s) -> flash_entry d k' i = flash_entry d k i) ->
  (forall i o, i ∈ set_blocks d (dbn_set d s) -> dirty_entry d k s i = true -> 0 <= o < block_size d -> block_data d k' i o = block_data d k i o) ->
  on_hdd k' !!! s = on_hdd k !!! s -> recovered d k' s = recovered d k s.
Proof.
  intros Hs Hf Hd Eh. unfold recovered.
  assert (E : forall l, (forall i, i ∈ l -> i ∈ set_blocks d (dbn_set d s)) -> List.find (dirty_entry d k' s) l = List.find (dirty_entry d k s) l).
  { induction l as [|i l IH]; intros Hl; cbn; [done|].
    assert (dirty_entry d k' s i = dirty_entry d k s i) as -> by (unfold dirty_entry; rewrite Hf by (apply Hl, elem_of_cons; by left); done).
    destruct (dirty_entry d k s i); [done|]. apply IH. intros; apply Hl, elem_of_cons; by right. }
  rewrite E by done. destruct (List.find _ _) as [i|] eqn:Ef; [|done].
  apply list_find_Some in Ef as [Hi Hp]. apply Hd; [done|done|]. pose proof (round_sector_le d s (bi_geom d Hinv) Hs). lia.
Qed.

(** ** Writing a part of a block *)
Section block.
Context (d : cache_c) (eb : eio_bio) (H : on_block d eb) (k : disks) (mem : memory) (r : io_result).
Definition split_writes : list (Z * sector_data) :=
  map (fun t => (t.1, mem !!! t.2)) (region_transfer (split_ssd d eb) (split_sectors eb) (eb_bv eb)).
Definition split_written : disks := dev_set SSD (write_sectors r split_writes (on_ssd k)) k.

Lemma split_writes_fst : split_writes.*1 = seqZ (split_ssd d eb) (split_sectors eb).
Proof using H. unfold split_writes. rewrite <-list_fmap_compose. exact (on_transfer_sectors d eb H). Qed.
Lemma split_other s : (s < split_ssd d eb \/ split_ssd d eb + split_sectors eb <= s) -> on_ssd split_written !!! s = on_ssd k !!! s.
Proof using H. intros Hs. cbn. apply write_sectors_ne. rewrite split_writes_fst. intros ?%elem_of_seqZ. lia. Qed.
Lemma split_new o sl : r = IoOk -> split_slots eb !! o = Some sl -> on_ssd split_written !!! (split_ssd d eb + Z.of_nat o) = mem !!! sl.
Proof using H.
  intros Er Ho. cbn. rewrite Er. apply write_sectors_done; [rewrite split_writes_fst; apply NoDup_seqZ|].
  apply list_elem_of_fmap. exists (split_ssd d eb + Z.of_nat o, sl). split; [done|]. apply on_transfer_elem.
  pose proof (lookup_lt_Some _ _ _ Ho). pose proof (on_slots_length d eb H). exists (Z.of_nat o). split; [lia|]. by rewrite Nat2Z.id.
Qed.

(** other blocks and the metadata stay *)
Lemma split_data_other i o : 0 <= i < dmc_size d -> i <> eb_index eb -> 0 <= o < block_size d ->
  block_data d split_written i o = block_data d k i o.
Proof using H.
  intros Hi Hne Ho. unfold block_data. apply split_other. pose proof (on_offset d eb H). pose proof (bi_geom d (on_inv _ _ H)) as Hg.
  unfold split_ssd. rewrite !data_sector_eq by done. nia.
Qed.
Lemma split_entries i : 0 <= i < dmc_size d -> md_layout d -> flash_entry d split_written i = flash_entry d k i.
Proof using H.
  intros Hi [Ha _ Hd]. unfold flash_entry. rewrite split_other; [done|]. left.
  pose proof (on_offset d eb H). pose proof (bi_geom d (on_inv _ _ H)) as Hg. destruct (on_range _ _ H). pose proof (block_size_pos d Hg).
  unfold split_ssd. rewrite data_sector_eq by done. unfold INDEX_TO_MD_SECTOR, EIO_DIV.
  change MD_BLOCKS_PER_SECTOR with 32 in *.
  assert (i / 32 < dmc_size d / 32).
  { destruct Ha as [x Ea]. rewrite (geo_size d Hg), Ea, Z.mul_assoc, Z.div_mul by lia. apply Z.div_lt_upper_bound; [lia|]. rewrite (geo_size d Hg), Ea in Hi. lia. }
  nia.
Qed.

(** while no entry marks the block dirty, recovery gives what it gave *)
Lemma split_recovered s : md_layout d -> 0 <= s -> flash_sound d k (dbn_set d s) -> is_dirty d (eb_index eb) = false ->
  recovered d split_written s = recovered d k s.
Proof using H.
  intros Hl Hs Hf Hd. pose proof (on_inv _ _ H) as Hi. apply recovered_dirty_ext; [done|done| | |done].
  - intros i Hin. apply split_entries; [|done]. by apply (set_block_range d Hi s).
  - intros i o Hin Hde Ho. apply split_data_other; [by apply (set_block_range d Hi s)| |done]. intros ->.
    destruct (Hf _ Hin) as (f & Ef & Hf' & _). unfold dirty_entry in Hde. rewrite Ef in Hde. apply andb_true_iff in Hde as [Ht _].
    destruct (Hf' Ht) as [E _]. by rewrite E in Hd.
Qed.
End block.

(** ** [eio_cached_write] *)
Definition marked_dirty (i : Z) (d : cache_c) : cache_c := if is_dirty d i then d else EIO_CACHE_STATE_SET d i DIRTY_INPROG.
(** the block after a transfer that was refused *)
Definition write_refused (i : Z) (d : cache_c) : cache_c := if EIO_CACHE_STATE_GET d i =? DIRTY_INPROG then inval_one_block i d else d.

Section writes.
Context {K : Kernel} (k0 : kmem) (held : Z -> Z) (jiffies : Z).

Record write_started (w : io_world) (e : Z) (eb : eio_bio) (w' : io_world) : Prop := {
  wr_job : exists j err, jobs w !! j = None /\ jobs w' = <[j := set_job_action WRITECACHE (ssd_job (marked_dirty (eb_index eb) (io_d w)) e eb (eb_index eb))]> (jobs w) /\
    completions w' = completions w ++ [(IoCallback j, err)] /\
    (err = 0 -> forall o sl, split_slots eb !! o = Some sl ->
       volume (marked_dirty (eb_index eb) (io_d w)) (cw_k (io_cw w')) (eb_sector eb + Z.of_nat o) = cw_mem (io_cw w) !!! sl);
  wr_crash : is_dirty (io_d w) (eb_index eb) = false -> md_layout (io_d w) ->
    forall s, 0 <= s -> flash_sound (io_d w) (cw_k (io_cw w)) (dbn_set (io_d w) s) ->
      recovered (io_d w) (cw_k (io_cw w')) s = recovered (io_d w) (cw_k (io_cw w)) s /\
      exists tr, cw_trace (io_cw w') = cw_trace (io_cw w) ++ tr /\
        trace_safe (fun k => recovered (io_d w) k s = recovered (io_d w) (cw_k (io_cw w)) s) tr;
  wr_disk : on_hdd (cw_k (io_cw w')) = on_hdd (cw_k (io_cw w)) /\ cw_mem (io_cw w') = cw_mem (io_cw w);
  wr_cache : job_counters (marked_dirty (eb_index eb) (io_d w)) (io_d w');
  wr_frame : exists km, w' = set_completions (completions w') (set_io_cw (io_cw w') (set_jobs (jobs w') (set_io_kmalloc km w)))
}.

(** the split is on its block when this is marked *)
Lemma on_marked d eb : on_block d eb -> on_block (marked_dirty (eb_index eb) d) eb /\ layout (marked_dirty (eb_index eb) d) = layout d /\
  is_dirty (marked_dirty (eb_index eb) d) (eb_index eb) = true.
Proof.
  intros H. unfold marked_dirty. destruct (is_dirty d (eb_index eb)) eqn:Hd; [done|]. pose proof (on_inv _ _ H) as Hi.
  pose proof (on_valid _ _ H) as Hv. set (i := eb_index eb) in *. set (d' := EIO_CACHE_STATE_SET d i DIRTY_INPROG).
  pose proof (state_set_geom d i DIRTY_INPROG) as Eg. fold d' in Eg. destruct (geom_fields _ _ Eg) as (E1 & E2 & E3 & E4 & _).
  assert (El : layout d' = layout d) by (subst d'; unfold EIO_CACHE_STATE_SET; by destruct (EIO_MD8 d)).
  assert (Es : EIO_CACHE_STATE_GET d' i = DIRTY_INPROG) by by apply state_get_set_eq.
  assert (Hr : forall t, EIO_ROUND_SECTOR d' t = EIO_ROUND_SECTOR d t) by (intros t; apply geom_state_round).
  assert (Em : md_sectors d' = md_sectors d) by by apply layout_sectors.
  split; [|split; [done|by unfold is_dirty; rewrite Es]]. destruct H as [_ H2 _ H4 H5 H6 H7 H8 H9].
  constructor; fold i.
  - subst d'. apply blk_inv_set_state; [done|exact H2|done|by right].
  - by rewrite E1.
  - by rewrite Es.
  - unfold split_block. rewrite Hr. unfold d'. rewrite state_set_dbn; [exact H4|apply Hi|lia|done|by right].
  - done. - done.
  - unfold split_block. by rewrite Hr, E3.
  - done.
  - by rewrite Em, E1, E3.
Qed.

Lemma mark_run i w : is_dirty (io_d w) i = true \/ EIO_CACHE_STATE_GET (io_d w) i = Z.lor VALID CACHEWRITEINPROG ->
  (when (negb (tst (EIO_CACHE_STATE_GET (io_d w) i) DIRTY))
     (EIO_ASSERT (tst (EIO_CACHE_STATE_GET (io_d w) i) CACHEWRITEINPROG) ;; upd_dmc (fun d => EIO_CACHE_STATE_SET d i DIRTY_INPROG))) w =
  Some (tt, with_d (marked_dirty i (io_d w)) w).
Proof.
  intros Hs. unfold marked_dirty, is_dirty. destruct (tst _ DIRTY) eqn:Hd; cbn [negb when]; [by rewrite with_d_same|].
  destruct Hs as [?|Hs]; [by unfold is_dirty in *; congruence|]. rewrite bind_assert by by rewrite Hs. apply upd_dmc_run.
Qed.

(** the end of a write that was not submitted *)
Definition write_unsubmitted (jiffies ebio : Z) (index : Z) (job : option Z) (err : Z) : M io_world Z :=
  cstate <- gets (fun w => EIO_CACHE_STATE_GET (io_d w) index) ;;
  (if cstate =? DIRTY_INPROG then upd_dmc (inval_one_block index) else EIO_ASSERT (cstate =? ALREADY_DIRTY)) ;;
  eb_endio jiffies ebio err ;;
  free_job job ;; ret err.
Lemma unsubmitted_run i e job err w : EIO_CACHE_STATE_GET (io_d w) i = DIRTY_INPROG \/ EIO_CACHE_STATE_GET (io_d w) i = ALREADY_DIRTY ->
  write_unsubmitted jiffies e i job err w = (eb_endio jiffies e err ;; free_job job ;; ret err) (with_d (write_refused i (io_d w)) w).
Proof.
  intros Hs. unfold write_unsubmitted, write_refused. rewrite bind_gets. destruct Hs as [-> | ->].
  - rewrite Z.eqb_refl. by rewrite (bind_run _ _ _ _ _ (upd_dmc_run _ _)).
  - change (ALREADY_DIRTY =? DIRTY_INPROG) with false. cbv iota. rewrite bind_assert by done. by rewrite with_d_same.
Qed.
Lemma then_ret {A} (m : M io_world unit) (k : M io_world unit) (a : A) w w' : (m ;; k) w = Some (tt, w') -> (m ;; k ;; ret a) w = Some (a, w').
Proof. unfold bind. destruct (m w) as [[[] w1]|]; [|done]. by intros ->. Qed.

Lemma unsubmitted_assoc e i job err w :
  ((cstate <- gets (fun w => EIO_CACHE_STATE_GET (io_d w) i) ;;
    (if cstate =? DIRTY_INPROG then upd_dmc (inval_one_block i) else EIO_ASSERT (cstate =? ALREADY_DIRTY)) ;;
    eb_endio jiffies e err ;; free_job job) ;; ret err) w = write_unsubmitted jiffies e i job err w.
Proof.
  unfold write_unsubmitted. rewrite bind_bind, !bind_gets. unfold bind. destruct (_ w) as [[? w1]|]; [|done]. by destruct (eb_endio jiffies e err w1) as [[? w2]|].
Qed.

Lemma eio_cached_write_ok w e eb : refs_ok k0 held w -> ebios w !! e = Some eb -> on_block (io_d w) eb -> CACHE_DEGRADED_IS_SET (io_d w) = false ->
  mode (io_d w) = CACHE_MODE_WB ->
  EIO_CACHE_STATE_GET (io_d w) (eb_index eb) = ALREADY_DIRTY \/ EIO_CACHE_STATE_GET (io_d w) (eb_index eb) = Z.lor VALID CACHEWRITEINPROG ->
  let w1 := with_d (marked_dirty (eb_index eb) (io_d w)) w in
  (exists km d', job_counters (io_d w1) d' /\ (io_errors (next_res (io_cw w))).1 = 0 /\
     eio_cached_write jiffies e w = Some (0, hit_world WRITE WRITECACHE w1 e eb km d')) \/
  (exists err w2 w', err <> 0 /\ eio_cached_write jiffies e w = Some (err, w') /\ refs_ok k0 held w' /\
     hit_refused (write_refused (eb_index eb)) w1 w2 /\ endio_done e eb err w2 w').
Proof.
  intros R Ee H Hdeg Hwb Hs w1. set (i := eb_index eb) in *. destruct (on_marked _ _ H) as (H1 & El & Hd1). fold i in H1, El, Hd1. set (d1 := marked_dirty i (io_d w)) in *.
  assert (Hmode : forall d, mode (write_refused i d) = mode d) by (intros d; unfold write_refused; destruct (_ =? _); [apply mode_of_state|done]).
  assert (Em : mode d1 = mode (io_d w) /\ CACHE_DEGRADED_IS_SET d1 = CACHE_DEGRADED_IS_SET (io_d w)).
  { unfold d1, marked_dirty. destruct (is_dirty (io_d w) i); [by split|]. unfold EIO_CACHE_STATE_SET, CACHE_DEGRADED_IS_SET. by destruct (EIO_MD8 (io_d w)). }
  assert (Es1 : EIO_CACHE_STATE_GET d1 i = DIRTY_INPROG \/ EIO_CACHE_STATE_GET d1 i = ALREADY_DIRTY).
  { subst d1. unfold marked_dirty, is_dirty. destruct Hs as [Hs|Hs]; rewrite Hs; [by right|left; by apply state_get_set_eq]. }
  assert (R1 : refs_ok k0 held w1) by (apply (refs_cw k0 held w); [done|apply Em]).
  destruct (on_range _ _ H1) as [Hi _].
  destruct (new_job_run w1 e eb i Ee Hi (on_fits _ _ H1)) as (ok & km & _ & Ej). set (j := fresh (dom (jobs w1))) in *.
  assert (Hj : jobs w1 !! j = None) by apply not_elem_of_dom, is_fresh.
  unfold eio_cached_write. rewrite (bind_run _ _ _ _ _ (the_ebio_run _ _ _ Ee)). cbv zeta. fold i.
  rewrite bind_gets, Hwb, bind_assert, bind_gets by done.
  rewrite (bind_run _ _ w tt w1) by (apply mark_run; unfold is_dirty; destruct Hs as [Hs|Hs]; [left; by rewrite Hs|by right]).
  destruct ok; rewrite (bind_run _ _ _ _ _ Ej); cbn [with_job].
  - set (jb := ssd_job (io_d w1) e eb i). set (jb' := set_job_action WRITECACHE jb). set (w2 := set_jobs _ _).
    set (d' := upd_stats inc_writecache (upd_stats (add_ssd_writes (eb_size eb)) d1)).
    set (w3 := set_jobs (<[j := jb']> (jobs w1)) (with_d d' (set_io_kmalloc km w1))).
    assert (Hc : job_counters d1 d') by (eapply jc_trans; apply jc_stats).
    assert (E2 : forall (k : M io_world Z), (upd_job j (set_job_action WRITECACHE) ;; inc_stat (add_ssd_writes (eb_size eb)) ;; inc_stat inc_writecache ;; k) w2 = k w3).
    { intros k. rewrite (bind_run _ _ _ _ _ (upd_job_run j jb _ w2 (lookup_insert_eq _ _ _))), !(bind_run _ _ _ _ _ (inc_stat_d _ _)). f_equal.
      subst w2 w3. cbn [jobs set_jobs]. rewrite insert_insert_eq. reflexivity. }
    destruct (jc_fields _ _ Hc) as (_ & _ & Edeg & Est & _).
    pose proof (cache_io_ok w3 j jb' WRITE d1 eb (lookup_insert_eq _ _ _) H1 (eq_trans Edeg (eq_trans (proj2 Em) Hdeg)) eq_refl) as E3.
    change (next_res (io_cw w3)) with (next_res (io_cw w)) in E3. destruct (Z.eqb_spec (io_errors (next_res (io_cw w))).1 0) as [E0|E0].
    + left. exists km, d'. split; [done|]. split; [done|].
      by rewrite (bind_run _ _ w2 0 (job_started WRITE j eb d1 w3)) by (rewrite E2; exact E3).
    + right. set (err := (io_errors (next_res (io_cw w))).1) in *.
      destruct (refused_ok k0 held jiffies (write_refused i) w1 e eb err j jb' (set_io_cw (set_cw_d (write_refused i d') (drop_res (io_cw w))) (set_io_kmalloc km w1)) R1 Ee Hmode)
        as (w' & R' & D & _ & EJ); [by exists km, d', (tail (cw_results (io_cw w)))|].
      exists err. eexists. exists w'. split; [done|]. split; [|split; [exact R'|split; [by exists km, d', (tail (cw_results (io_cw w)))|exact D]]].
      rewrite (bind_run _ _ w2 err (set_io_cw (drop_res (io_cw w3)) w3)) by (rewrite E2; exact E3).
      rewrite (proj2 (Z.eqb_neq err 0) E0). cbn [negb when].
      transitivity (write_unsubmitted jiffies e i (Some j) err (set_io_cw (drop_res (io_cw w3)) w3)).
      { apply unsubmitted_assoc. }
      rewrite unsubmitted_run; [|by change (EIO_CACHE_STATE_GET d' i = DIRTY_INPROG \/ EIO_CACHE_STATE_GET d' i = ALREADY_DIRTY); rewrite Est].
      apply then_ret. exact (EJ Hj).
  - right. rewrite bind_ret. change (negb (- ENOMEM =? 0)) with true. cbn [when]. set (d' := count_alloc_error (io_d w1)).
    destruct (refused_ok k0 held jiffies (write_refused i) w1 e eb (- ENOMEM) j (ssd_job (io_d w) e eb i) (set_io_cw (set_cw_d (write_refused i d') (set_cw_results (cw_results (io_cw w)) (io_cw w))) (set_io_kmalloc km w1)) R1 Ee Hmode)
        as (w' & R' & D & EN & _); [exists km, d', (cw_results (io_cw w)); split; [apply jc_alloc|done]|].
    exists (- ENOMEM). eexists. exists w'. split; [done|]. split; [|split; [exact R'|split; [|exact D]; exists km, d', (cw_results (io_cw w)); split; [apply jc_alloc|done]]].
    transitivity (write_unsubmitted jiffies e i None (- ENOMEM) (with_d d' (set_io_kmalloc km w1))).
    { apply unsubmitted_assoc. }
    rewrite unsubmitted_run; [apply then_ret; exact EN|].
    exact Es1.
Qed.

Lemma hit_write_started w e eb km d' : on_block (io_d w) eb -> io_result_ok (next_res (io_cw w)) ->
  (io_errors (next_res (io_cw w))).1 = 0 -> job_counters (marked_dirty (eb_index eb) (io_d w)) d' ->
  write_started w e eb (hit_world WRITE WRITECACHE (with_d (marked_dirty (eb_index eb) (io_d w)) w) e eb km d').
Proof.
  intros H Hr E0 Hc. destruct (on_marked _ _ H) as (H1 & El & Hd1). set (d1 := marked_dirty (eb_index eb) (io_d w)) in *. set (r := next_res (io_cw w)) in *.
  set (k := cw_k (io_cw w)). set (mem := cw_mem (io_cw w)). set (w' := hit_world _ _ _ _ _ _ _).
  assert (Ek : cw_k (io_cw w') = split_written d1 eb k mem r) by done.
  assert (Et : cw_trace (io_cw w') = cw_trace (io_cw w) ++ [(k, (SSD, split_writes d1 eb mem))]) by done.
  assert (Essd : split_ssd d1 eb = split_ssd (io_d w) eb).
  { unfold split_ssd, split_offset, split_block, data_sector. destruct (geom_fields _ _ (layout_geom _ _ El)) as (_ & _ & _ & -> & _).
    rewrite (layout_sectors _ _ El). unfold d1, marked_dirty. destruct (is_dirty (io_d w) (eb_index eb)); [reflexivity|by rewrite geom_state_round]. }
  assert (Ew : split_writes d1 eb mem = split_writes (io_d w) eb mem) by (unfold split_writes; by rewrite Essd).
  assert (Ek0 : forall r, split_written d1 eb k mem r = split_written (io_d w) eb k mem r) by (intros r0; unfold split_written; by rewrite Ew).
  constructor.
  - exists (fresh (dom (jobs w))), (io_errors r).2. split; [apply not_elem_of_dom, is_fresh|]. split; [done|]. split; [done|].
    intros Ee o sl Ho. assert (r = IoOk) as Eok by (destruct r; cbn in *; congruence).
    pose proof (lookup_lt_Some _ _ _ Ho). pose proof (on_slots_length _ _ H). rewrite (on_volume d1 _ eb (Z.of_nat o) H1), Hd1, Ek by lia.
    rewrite <-on_ssd_data. by apply (split_new d1 eb H1).
  - intros Hd Hl s Hs Hf. split; [rewrite Ek, Ek0; by apply split_recovered|]. eexists. split; [exact Et|].
    intros t moved ->%list_elem_of_singleton. unfold crash_image. cbn [fst snd]. rewrite Ew.
    exact (split_recovered (io_d w) eb H k mem (IoFailed 1 moved) s Hl Hs Hf Hd).
  - done.
  - exact Hc.
  - by exists km.
Qed.
End writes.
