(* ===== verification/Superblock.v ===== *)
(** * Structures on the SSD as bytes

    A sector is 512 bytes and a page eight sectors.  The contents of a sector
    are a number, the little-endian value of its bytes, or metadata entries of
    16 bytes each; either can be read as the other.  A structure is written
    into a buffer field by field.

    ** The superblock: [eio_sb_store] (eio_conf.c)

    The world of the cache's administration: the cache with its devices and
    memory, the page allocator, the outcomes of the other allocations, and what
    of [struct cache_c] only the administration uses.  The superblock is a page
    of which the first 616 bytes are [struct superblock_fields], little-endian
    and laid out as the compiler lays out the structure. *)

From S2P Require Import Prelude Types World Dispatch Disk Mem Scan Rand Policy Clean WbAlloc.

(** * Structures on the SSD as bytes *)
(** ** Little-endian integers *)
Fixpoint le_bytes (n : nat) (v : Z) : list Z :=
  match n with O => [] | S n => v mod 256 :: le_bytes n (v / 256) end.
Fixpoint le_val (bs : list Z) : Z :=
  match bs with [] => 0 | b :: bs => b + 256 * le_val bs end.

Definition is_byte (b : Z) : Prop := 0 <= b < 256.

Lemma length_le_bytes n v : length (le_bytes n v) = n.
Proof. revert v. induction n as [|n IH]; intros v; cbn; [done|by rewrite IH]. Qed.
Lemma le_bytes_range n v : Forall is_byte (le_bytes n v).
Proof. revert v. induction n as [|n IH]; intros v; constructor; [apply Z.mod_pos_bound; lia|done]. Qed.
Lemma le_val_bytes n v : le_val (le_bytes n v) = v mod 256 ^ Z.of_nat n.
Proof.
  revert v. induction n as [|n IH]; intros v; cbn [le_bytes le_val]; [by rewrite Z.mod_1_r|].
  rewrite IH, Nat2Z.inj_succ, Z.pow_succ_r by lia. rewrite Z.rem_mul_r by lia. done.
Qed.
Lemma le_val_range bs : Forall is_byte bs -> 0 <= le_val bs < 256 ^ Z.of_nat (length bs).
Proof.
  induction 1 as [|b bs [H1 H2] _ IH]; cbn [le_val length]; [done|]. rewrite Nat2Z.inj_succ, Z.pow_succ_r by lia. nia.
Qed.
Lemma le_bytes_val bs : Forall is_byte bs -> le_bytes (length bs) (le_val bs) = bs.
Proof.
  induction 1 as [|b bs [H1 H2] _ IH]; cbn [le_val length le_bytes]; [done|].
  assert (E : b + 256 * le_val bs = le_val bs * 256 + b) by lia.
  rewrite E at 2. rewrite Z.div_add_l, Z.div_small, Z.add_0_r, IH by lia.
  rewrite (Z.mul_comm 256), Z.mod_add, Z.mod_small by lia. done.
Qed.

(** ** Sectors *)
Definition SECTOR_BYTES : nat := 512.
Definition entry_bytes (f : flash_cacheblock) : list Z := le_bytes 8 (fc_dbn f) ++ le_bytes 8 (fc_state f).
Definition sector_bytes (s : sector_data) : list Z :=
  match s with
  | Raw v => le_bytes SECTOR_BYTES v
  | MdBlocks l => take SECTOR_BYTES (flat_map entry_bytes l ++ replicate SECTOR_BYTES 0)
  end.
(** the entry at a position of a sector *)
Definition entry_of_bytes (bs : list Z) : flash_cacheblock := mk_flash (le_val (take 8 bs)) (le_val (take 8 (drop 8 bs))).
Definition sector_entry (s : sector_data) (o : nat) : flash_cacheblock := entry_of_bytes (drop (16 * o) (sector_bytes s)).

(** the fields of an entry are 64 bits wide *)
Definition flash_ok (f : flash_cacheblock) : Prop := 0 <= fc_dbn f < 2 ^ 64 /\ 0 <= fc_state f < 2 ^ 64.

Lemma length_entry_bytes f : length (entry_bytes f) = 16%nat.
Proof. done. Qed.
Lemma entries_drop l o : drop (16 * o) (flat_map entry_bytes l) = flat_map entry_bytes (drop o l).
Proof.
  revert o. induction l as [|f l IH]; intros o; [rewrite drop_nil; apply drop_nil|]. destruct o as [|o]; [done|].
  replace (16 * S o)%nat with (length (entry_bytes f) + 16 * o)%nat by (rewrite length_entry_bytes; lia).
  cbn [flat_map]. rewrite <-drop_drop, drop_app_length. exact (IH o).
Qed.
Lemma entry_round_trip f bs : flash_ok f -> entry_of_bytes (entry_bytes f ++ bs) = f.
Proof.
  intros [H1 H2]. unfold entry_of_bytes, entry_bytes. rewrite <-app_assoc.
  rewrite (take_app_length' (le_bytes 8 (fc_dbn f))), (drop_app_length' (le_bytes 8 (fc_dbn f))), take_app_length' by by rewrite length_le_bytes.
  rewrite !le_val_bytes. destruct f as [x y]. cbn in *. by rewrite !Z.mod_small by done.
Qed.
(** an entry that is written is read back *)
Lemma sector_entry_md l o f : (length l <= 32)%nat -> l !! o = Some f -> flash_ok f -> sector_entry (MdBlocks l) o = f.
Proof.
  intros Hl Ho Hf. pose proof (lookup_lt_Some _ _ _ Ho). unfold sector_entry. cbn [sector_bytes].
  assert (El : length (flat_map entry_bytes l) = (16 * length l)%nat).
  { clear. induction l as [|f l IH]; [done|]. cbn [flat_map]. rewrite length_app, length_entry_bytes, IH. cbn [length]. lia. }
  rewrite take_app. unfold SECTOR_BYTES. rewrite (take_ge (flat_map _ l)) by lia.
  rewrite drop_app_le, entries_drop by lia. rewrite (drop_S l f o Ho). cbn [flat_map]. rewrite <-app_assoc. by apply entry_round_trip.
Qed.

(** ** Pages in memory *)
Definition page_bytes (mem : memory) (p : Z) : list Z := flat_map (fun j => sector_bytes (mem !!! (p, j))) (seqZ 0 8).
Definition set_page_sector (p : Z) (bs : list Z) (mem : memory) (j : Z) : memory :=
  <[(p, j) := Raw (le_val (take SECTOR_BYTES (drop (SECTOR_BYTES * Z.to_nat j) bs)))]> mem.
Definition set_page_bytes (p : Z) (bs : list Z) (mem : memory) : memory := foldl (set_page_sector p bs) mem (seqZ 0 8).
Definition clear_page_mem (p : Z) (mem : memory) : memory := foldl (fun m j => <[(p, j) := Raw 0]> m) mem (seqZ 0 8).

(** ** Fields of a structure *)
Definition write_bytes (off : nat) (bs buf : list Z) : list Z := take off buf ++ bs ++ drop (off + length bs) buf.
Definition read_bytes (off n : nat) (buf : list Z) : list Z := take n (drop off buf).
Definition write_fields (fs : list (nat * list Z)) (buf : list Z) : list Z := foldl (fun b f => write_bytes f.1 f.2 b) buf fs.
(** [strncpy]: at most [n] bytes of the string, then zeros *)
Definition strncpy (n : nat) (s : list Z) : list Z := take n (s ++ replicate n 0).

Lemma length_strncpy n s : length (strncpy n s) = n.
Proof. unfold strncpy. rewrite length_take, length_app, length_replicate. lia. Qed.
Lemma length_write_bytes off bs buf : (off + length bs <= length buf)%nat -> length (write_bytes off bs buf) = length buf.
Proof. intros H. unfold write_bytes. rewrite !length_app, length_take, length_drop. lia. Qed.
Lemma read_write_bytes off bs buf : (off <= length buf)%nat -> read_bytes off (length bs) (write_bytes off bs buf) = bs.
Proof.
  intros H. unfold read_bytes, write_bytes. rewrite drop_app_length' by (rewrite length_take; lia). by rewrite take_app_length.
Qed.
Lemma read_write_other o n off bs buf : (off + length bs <= length buf)%nat -> (o + n <= off \/ off + length bs <= o)%nat ->
  read_bytes o n (write_bytes off bs buf) = read_bytes o n buf.
Proof.
  intros H Hd. apply list_eq. intros i. unfold read_bytes, write_bytes.
  destruct (decide (i < n)%nat); [|by rewrite !lookup_take_ge by lia].
  rewrite !lookup_take_lt, !lookup_drop by done. destruct Hd.
  - rewrite lookup_app_l by (rewrite length_take; lia). by rewrite lookup_take_lt by lia.
  - rewrite lookup_app_r by (rewrite length_take; lia). rewrite lookup_app_r by (rewrite length_take; lia).
    rewrite lookup_drop, length_take. f_equal. lia.
Qed.

(** a field that no later one overlaps *)
Definition apart (o n : nat) (f : nat * list Z) : Prop := (o + n <= f.1 \/ f.1 + length f.2 <= o)%nat.
Definition inside (len : nat) (f : nat * list Z) : Prop := (f.1 + length f.2 <= len)%nat.

Lemma length_write_fields fs buf : Forall (inside (length buf)) fs -> length (write_fields fs buf) = length buf.
Proof.
  revert buf. induction fs as [|[off bs] fs IH]; intros buf H; [done|]. apply Forall_cons in H as [H1 H2]. change (length (write_fields fs (write_bytes off bs buf)) = length buf).
  assert (E := length_write_bytes off bs buf H1). rewrite IH by by rewrite E. done.
Qed.
Lemma read_fields_other o n fs buf : Forall (inside (length buf)) fs -> Forall (apart o n) fs -> read_bytes o n (write_fields fs buf) = read_bytes o n buf.
Proof.
  revert buf. induction fs as [|[off bs] fs IH]; intros buf H Ha; [done|]. apply Forall_cons in H as [H1 H2]. apply Forall_cons in Ha as [Ha1 Ha2].
  change (read_bytes o n (write_fields fs (write_bytes off bs buf)) = read_bytes o n buf).
  assert (E := length_write_bytes off bs buf H1). rewrite IH by (done || by rewrite E). by apply read_write_other.
Qed.
Lemma read_field fs1 off bs fs2 buf : Forall (inside (length buf)) (fs1 ++ (off, bs) :: fs2) -> Forall (apart off (length bs)) fs2 ->
  read_bytes off (length bs) (write_fields (fs1 ++ (off, bs) :: fs2) buf) = bs.
Proof.
  intros H Ha. apply Forall_app in H as [H1 H2]. apply Forall_cons in H2 as [H2 H3].
  pose proof (length_write_fields fs1 buf H1) as E1. unfold inside in H2; cbn in H2.
  unfold write_fields. rewrite foldl_app. cbn [foldl fst snd]. fold (write_fields fs1 buf). fold (write_fields fs2 (write_bytes off bs (write_fields fs1 buf))).
  assert (E2 : length (write_bytes off bs (write_fields fs1 buf)) = length buf) by (rewrite length_write_bytes; lia).
  rewrite read_fields_other by (done || by rewrite E2). apply read_write_bytes. lia.
Qed.
Lemma Forall_write_fields fs buf : Forall is_byte buf -> Forall (fun f => Forall is_byte f.2) fs -> Forall is_byte (write_fields fs buf).
Proof.
  revert buf. induction fs as [|[off bs] fs IH]; intros buf Hb Hf; [done|]. apply Forall_cons in Hf as [Hf1 Hf2].
  apply (IH (write_bytes off bs buf)); [|done]. unfold write_bytes. apply Forall_app. split; [by apply Forall_take|].
  apply Forall_app. split; [done|by apply Forall_drop].
Qed.

(** * The superblock: [eio_sb_store] (eio_conf.c) *)
Record conf_world := mk_conf {
  cf_cw : cworld;
  cf_kmem : kmem;
  cf_kmalloc : list bool;              (* kmalloc, and vmalloc of sp_instance_init *)
  cf_vmalloc : list (option (gmap Z Z)); (* vmalloc of the metadata: what the memory holds *)
  cf_blk : option (gmap Z eio_lru_cache_block); (* vmalloc of the policy's blocks *)
  cf_policies : list eio_policy_header; (* eio_policy_list *)
  cf_free_bytes : Z;                   (* si.freeram << PAGE_SHIFT *)
  eio_force_warm_boot : bool;
  cf_cache_size : Z;                   (* dmc->cache_size *)
  cf_sleeps : list (cache_c -> cache_c); (* what other threads do during the coming calls of msleep *)
  disk_devname : list Z; cache_devname : list Z; ssd_uuid : list Z; cache_name : list Z
}.
Definition cf_d (w : conf_world) : cache_c := cw_d (cf_cw w).
Definition set_cf_cw v (w : conf_world) := {| w with cf_cw := v |}.
Definition set_cf_kmem v (w : conf_world) := {| w with cf_kmem := v |}.
Definition set_cf_kmalloc v (w : conf_world) := {| w with cf_kmalloc := v |}.
Definition set_cf_vmalloc v (w : conf_world) := {| w with cf_vmalloc := v |}.
Definition set_cf_sleeps v (w : conf_world) := {| w with cf_sleeps := v |}.
Definition set_cf_cache_size v (w : conf_world) := {| w with cf_cache_size := v |}.
Definition set_cache_devname v (w : conf_world) := {| w with cache_devname := v |}.

Definition conf_cw {A} (m : M cworld A) : M conf_world A := fun w =>
  match m (cf_cw w) with Some (a, c) => Some (a, set_cf_cw c w) | None => None end.
Definition conf_dmc {A} (m : M cache_c A) : M conf_world A := conf_cw (on_cache m).
Definition conf_kmem {A} (m : M kmem A) : M conf_world A := fun w =>
  match m (cf_kmem w) with Some (a, k) => Some (a, set_cf_kmem k w) | None => None end.
Definition conf_upd (f : cache_c -> cache_c) : M conf_world unit := conf_dmc (modify f).
Definition conf_mem (f : memory -> memory) : M conf_world unit := conf_cw (modify (fun w => set_cw_mem (f (cw_mem w)) w)).
(** the next allocation of the kernel; it succeeds when no outcome is given *)
Definition conf_kmalloc : M conf_world bool := fun w =>
  match cf_kmalloc w with [] => Some (true, w) | b :: l => Some (b, set_cf_kmalloc l w) end.
Definition conf_vmalloc : M conf_world (option (gmap Z Z)) := fun w =>
  match cf_vmalloc w with [] => Some (Some ∅, w) | m :: l => Some (m, set_cf_vmalloc l w) end.

Definition conf_msleep : M conf_world unit := fun w =>
  match cf_sleeps w with [] => Some (tt, w) | f :: l => conf_upd f (set_cf_sleeps l w) end.

(** ** Pages: [eio_alloc_pages] (eio_ttc.c) *)
Definition MD_MAX_NR_PAGES : Z := 16.

Fixpoint alloc_zero_pages (n : nat) : M conf_world (list Z) :=
  match n with
  | O => ret []
  | S n =>
    p <- conf_kmem alloc_page ;;
    match p with
    | None => ret []
    | Some p => conf_mem (clear_page_mem p) ;; ps <- alloc_zero_pages n ;; ret (p :: ps)
    end
  end.
(** fewer pages than asked for are a bug *)
Definition eio_alloc_pages (max_pages : Z) : M conf_world (option (list Z)) :=
  let nr_pages := Z.min max_pages MD_MAX_NR_PAGES in
  ok <- conf_kmalloc ;;
  if negb ok then ret None
  else
    pages <- alloc_zero_pages (Z.to_nat nr_pages) ;;
    if Nat.eqb (length pages) 0 then ret None
    else EIO_ASSERT (Z.of_nat (length pages) =? nr_pages) ;; ret (Some pages).
Definition put_pages (pages : list Z) : M conf_world unit := mfor pages (fun p => conf_kmem (put_page p)).

Definition eio_mem_available (size : Z) : M conf_world bool :=
  w <- gets id ;;
  let pct := mem_limit_pct (sysctl_active (cf_d w)) in
  if (pct <=? 0) || (100 <=? pct) then ret true else ret (size <? cf_free_bytes w * pct / 100).

(** [eio_io_sync_vm] (eio_subr.c), on full pages *)
Definition eio_io_sync_vm (where_ : eio_io_region) (rw : Z) (pages : list Z) : M conf_world Z :=
  d <- gets cf_d ;;
  if (CACHE_FAILED_IS_SET d || CACHE_DEGRADED_IS_SET d) && negb (CACHE_SSD_ADD_INPROG_IS_SET d) then ret (- ENODEV)
  else
    conf_cw (r <- next_result ;;
      if negb ((io_errors r).1 =? 0) then ret (io_errors r).1
      else do_transfer where_ rw false (map page_bvec pages) r ;; ret (io_errors r).2).

(** ** The layout of the superblock (eio.h) *)
Definition DEV_PATHLEN : nat := 128.

Definition EIO_UNUSED_SECTORS : Z := 128.
Definition EIO_SUPERBLOCK_SECTORS : Z := 8.
Definition EIO_REDZONE_SECTORS : Z := 16.
Definition EIO_START : Z := 0.
Definition EIO_ALIGN1_SECTORS (index : Z) : Z := if negb (index mod 16 =? 0) then 24 - index mod 16 else 8.
Definition EIO_ALIGN2_SECTORS (index : Z) : Z := if negb (index mod 16 =? 0) then 16 - index mod 16 else 0.
Definition EIO_SUPERBLOCK_START : Z := EIO_START + EIO_UNUSED_SECTORS.
Definition EIO_METADATA_START (hd_start_sect : Z) : Z :=
  EIO_SUPERBLOCK_START + EIO_SUPERBLOCK_SECTORS + EIO_ALIGN1_SECTORS hd_start_sect.
Definition EIO_EXTRA_SECTORS (start_sect md_sects : Z) : Z :=
  EIO_METADATA_START start_sect + EIO_REDZONE_SECTORS + EIO_ALIGN2_SECTORS md_sects.

(** [struct superblock_fields] without the names *)
Record superblock := mk_superblock {
  sb_size : Z; sb_block_size : Z; sb_assoc : Z; sb_cache_sb_state : Z; sb_cache_devsize : Z; sb_disk_devsize : Z;
  sb_cache_version : Z; sb_mode : Z; sb_repl_policy : Z; sb_cache_flags : Z; sb_magic : Z; sb_cold_boot : Z;
  sb_cache_md_start_sect : Z; sb_cache_data_start_sect : Z;
  sb_dirty_high_threshold : Z; sb_dirty_low_threshold : Z; sb_dirty_set_high_threshold : Z; sb_dirty_set_low_threshold : Z;
  sb_time_based_clean_interval : Z; sb_autoclean_threshold : Z
}.
(** a field of [n] bytes at [off] *)
Definition sb_field (off n : nat) (buf : list Z) : Z := le_val (read_bytes off n buf).
Definition sb_read (buf : list Z) : superblock := {|
  sb_size := sb_field 0 8 buf; sb_block_size := sb_field 8 4 buf; sb_assoc := sb_field 12 4 buf;
  sb_cache_sb_state := sb_field 16 4 buf; sb_cache_devsize := sb_field 152 8 buf; sb_disk_devsize := sb_field 288 8 buf;
  sb_cache_version := sb_field 296 4 buf; sb_mode := sb_field 428 4 buf; sb_repl_policy := sb_field 432 4 buf;
  sb_cache_flags := sb_field 436 4 buf; sb_magic := sb_field 440 4 buf; sb_cold_boot := sb_field 444 4 buf;
  sb_cache_md_start_sect := sb_field 576 8 buf; sb_cache_data_start_sect := sb_field 584 8 buf;
  sb_dirty_high_threshold := sb_field 592 4 buf; sb_dirty_low_threshold := sb_field 596 4 buf;
  sb_dirty_set_high_threshold := sb_field 600 4 buf; sb_dirty_set_low_threshold := sb_field 604 4 buf;
  sb_time_based_clean_interval := sb_field 608 4 buf; sb_autoclean_threshold := sb_field 612 4 buf |}.

(** ** [eio_sb_store] *)
Definition le32 (off : nat) (v : Z) : nat * list Z := (off, le_bytes 4 v).
Definition le64 (off : nat) (v : Z) : nat * list Z := (off, le_bytes 8 v).

(** the cold-boot flags, with the one that overrides them *)
Definition sb_boot_flags (w : conf_world) : Z :=
  let c := u32 (cold_boot (cf_d w)) in
  if negb (c =? 0) && eio_force_warm_boot w then Z.lor c BOOT_FLAG_FORCE_WARM else c.

(** the fields in the order of their assignments; the size is cut to 32 bits *)
Definition sb_fields (w : conf_world) : list (nat * list Z) :=
  let d := cf_d w in let s := sysctl_active d in
  [ le32 16 (sb_state d); le32 8 (block_size d); le64 0 (u32 (dmc_size d)); le32 12 (assoc d);
    le64 576 (md_start_sect d); le64 584 (md_sectors d);
    (160%nat, strncpy DEV_PATHLEN (disk_devname w)); (20%nat, strncpy DEV_PATHLEN (cache_devname w));
    (448%nat, strncpy (DEV_PATHLEN - 1) (ssd_uuid w));
    le64 152 (eio_to_sector (cache_dev_size d)); le64 288 (eio_to_sector (disk_dev_size d));
    le32 296 (sb_version d); (300%nat, strncpy DEV_PATHLEN (cache_name w)); (427%nat, [0]); le32 428 (mode d);
    le32 432 (req_policy d); le32 436 (clr (cache_flags d) CACHE_FLAGS_INCORE_ONLY);
    le32 440 (if negb (sb_version d =? 0) then EIO_MAGIC else EIO_BAD_MAGIC);
    le32 444 (sb_boot_flags w);
    le32 592 (dirty_high_threshold s); le32 596 (dirty_low_threshold s);
    le32 600 (dirty_set_high_threshold s); le32 604 (dirty_set_low_threshold s);
    le32 608 (time_based_clean_interval s); le32 612 (autoclean_threshold s) ].

Definition sb_region : eio_io_region := mk_region SSD EIO_SUPERBLOCK_START (eio_to_sector EIO_SUPERBLOCK_SIZE).

Definition eio_sb_store : M conf_world Z :=
  d <- gets cf_d ;;
  if (CACHE_FAILED_IS_SET d || CACHE_DEGRADED_IS_SET d) && negb (CACHE_SSD_ADD_INPROG_IS_SET d) then ret (- ENODEV)
  else
    let nr_pages := EIO_SUPERBLOCK_SIZE / PAGE_SIZE in
    EIO_ASSERT (negb (nr_pages =? 0)) ;;
    sb_pages <- eio_alloc_pages nr_pages ;;
    match sb_pages with
    | None => ret (- ENOMEM)
    | Some pages =>
      EIO_ASSERT (Z.of_nat (length pages) =? nr_pages) ;;
      let p := pages !!! 0%nat in
      w <- gets id ;;
      conf_mem (fun mem => set_page_bytes p (write_fields (sb_fields w) (page_bytes mem p)) mem) ;;
      error <- eio_io_sync_vm sb_region WRITE pages ;;
      put_pages pages ;;
      ret error
    end.
