(* ===== verification/MdStore.v ===== *)
(** * Writing the metadata: [eio_md_store] and [eio_md_create] (eio_conf.c)

    Both fill the allocated pages with the entries of consecutive blocks, write
    them when all are full, and write the rest at the end, the last page padded
    with zeros.  The model keeps the entries that are in the pages and not
    written yet, [mb_slots]; [mb_page_index] and the position in the page are
    determined by their number. *)

From S2P Require Import Prelude Types Mem Scan Rand Policy World Dispatch Disk Clean WbAlloc Superblock.

Definition METADATA_IO_BLOCKSIZE : Z := 256 * 1024.
Definition METADATA_IO_BLOCKSIZE_SECT : Z := METADATA_IO_BLOCKSIZE / 512.

Record md_buffer := mk_mdbuf {
  mb_slots : list flash_cacheblock;   (* slots_written of them *)
  mb_sector : Z;                      (* where.sector *)
  mb_sectors_written : Z;
  mb_num_valid : Z; mb_num_dirty : Z;
  mb_write_errors : Z
}.

(** the entry of a block *)
Definition md_slot (d : cache_c) (i : Z) : option flash_cacheblock :=
  match EIO_DBN_GET d i with
  | Some dbn => Some (mk_flash dbn (Z.land (EIO_CACHE_STATE_GET d i) (Z.lor INVALID (Z.lor VALID DIRTY))))
  | None => None
  end.

(** the entries as they are in the pages: [sectors] sectors of them *)
Definition fill_slots (pages : list Z) (slots : list flash_cacheblock) (sectors : nat) : M conf_world unit :=
  mem <- eval (fun w => fill_md_pages pages slots (seq 0 sectors) (cw_mem (cf_cw w))) ;;
  conf_mem (fun _ => mem).
Definition pad_page (slots : list flash_cacheblock) : list flash_cacheblock :=
  let r := (length slots mod Z.to_nat MD_BLOCKS_PER_PAGE)%nat in
  if Nat.eqb r 0 then slots else slots ++ replicate (Z.to_nat MD_BLOCKS_PER_PAGE - r) (mk_flash 0 0).

(** all pages are full: the error, and the buffer emptied *)
Definition md_flush (pages : list Z) (b : md_buffer) : M conf_world (Z * md_buffer) :=
  let count := Z.of_nat (length (mb_slots b)) / MD_BLOCKS_PER_SECTOR in
  fill_slots pages (mb_slots b) (Z.to_nat count) ;;
  error <- eio_io_sync_vm (mk_region SSD (mb_sector b) count) WRITE pages ;;
  ret (error, {| b with mb_slots := []; mb_sector := mb_sector b + count; mb_sectors_written := mb_sectors_written b + count |}).

(** the remaining pages *)
Definition md_flush_last (pages : list Z) (b : md_buffer) : M conf_world (Z * md_buffer) :=
  let n := Z.of_nat (length (mb_slots b)) in
  let count := if negb (n mod MD_BLOCKS_PER_SECTOR =? 0) then n / MD_BLOCKS_PER_SECTOR + 1 else n / MD_BLOCKS_PER_SECTOR in
  let slots := pad_page (mb_slots b) in
  let page_index := (length slots / Z.to_nat MD_BLOCKS_PER_PAGE)%nat in
  fill_slots pages slots (page_index * 8) ;;
  error <- eio_io_sync_vm (mk_region SSD (mb_sector b) count) WRITE (take page_index pages) ;;
  ret (error, {| b with mb_sectors_written := mb_sectors_written b + count |}).

Definition sectors_expected (d : cache_c) : Z :=
  EIO_DIV (dmc_size d) MD_BLOCKS_PER_SECTOR + (if negb (EIO_REM (dmc_size d) MD_BLOCKS_PER_SECTOR =? 0) then 1 else 0).

(** the blocks of the cache, from [i] *)
Definition md_put (slot : flash_cacheblock) (b : md_buffer) : md_buffer := {| b with mb_slots := mb_slots b ++ [slot] |}.
Definition pages_full (pages : list Z) (b : md_buffer) : bool :=
  Z.of_nat (length (mb_slots b)) =? MD_BLOCKS_PER_PAGE * Z.of_nat (length pages).
Definition count_error (error : Z) (b : md_buffer) : md_buffer :=
  if negb (error =? 0) then {| b with mb_write_errors := mb_write_errors b + 1 |} else b.
Definition count_state (s : Z) (b : md_buffer) : md_buffer :=
  {| b with mb_num_valid := mb_num_valid b + (if tst s VALID then 1 else 0); mb_num_dirty := mb_num_dirty b + (if tst s DIRTY then 1 else 0) |}.

(** ** [eio_md_store] *)
Fixpoint md_store_loop (pages blocks : list Z) (b : md_buffer) : M conf_world md_buffer :=
  match blocks with
  | [] => ret b
  | i :: blocks' =>
    s <- gets (fun w => EIO_CACHE_STATE_GET (cf_d w) i) ;;
    slot <- eval (fun w => md_slot (cf_d w) i) ;;
    let b := md_put slot (count_state s b) in
    b <- (if pages_full pages b then r <- md_flush pages b ;; ret (count_error r.1 r.2) else ret b) ;;
    md_store_loop pages blocks' b
  end.

Definition md_store_pages (pages : list Z) : M conf_world md_buffer :=
  d <- gets cf_d ;;
  b <- md_store_loop pages (seqZ 0 (dmc_size d)) (mk_mdbuf [] (md_start_sect d) 0 0 0 0) ;;
  b <- (if negb (Nat.eqb (length (mb_slots b)) 0) then r <- md_flush_last pages b ;; ret (count_error r.1 r.2) else ret b) ;;
  EIO_ASSERT (sectors_expected d =? mb_sectors_written b) ;;
  ret b.

(** label [sb_store]; only messages are printed after it *)
Definition md_store_sb : M conf_world Z := eio_sb_store ;; ret 0.

Definition eio_md_store : M conf_world Z :=
  d <- gets cf_d ;;
  if CACHE_FAILED_IS_SET d || CACHE_DEGRADED_IS_SET d then ret (- ENODEV)
  else if CACHE_FAST_REMOVE_IS_SET d then
    if sb_version d =? 0 then md_store_sb else ret 0
  else
    avail <- eio_mem_available METADATA_IO_BLOCKSIZE_SECT ;;
    if negb avail then ret (- ENOMEM)
    else
      pages <- eio_alloc_pages (bio_nr_pages d) ;;
      match pages with
      | None => ret (- ENOMEM)
      | Some pages =>
        ok <- conf_kmalloc ;;
        if negb ok then put_pages pages ;; ret (- ENOMEM)
        else
          b <- md_store_pages pages ;;
          put_pages pages ;;
          conf_upd (set_sb_state (if mb_write_errors b =? 0
                                  then if mb_num_dirty b =? 0 then CACHE_MD_STATE_CLEAN else CACHE_MD_STATE_FASTCLEAN
                                  else CACHE_MD_STATE_UNSTABLE)) ;;
          md_store_sb
      end.
