(* ===== verification/MdCreate.v ===== *)
(** * Making a cache: [eio_md_create] (eio_conf.c)

    The layout of the SSD is computed from its size, the metadata of the cache
    is allocated, a cold cache is emptied and its metadata written, and then the
    superblock. *)

From S2P Require Import Prelude Types Mem Scan Rand Policy World Dispatch Disk Clean WbAlloc Superblock MdStore.

Definition set_layout size start sects (d : cache_c) : cache_c := {| d with dmc_size := size; md_start_sect := start; md_sectors := sects |}.

(** [dmc->size] is in sectors before, in blocks after *)
Definition create_layout (d : cache_c) : cache_c :=
  let start := EIO_METADATA_START (cache_dev_start_sect d) in
  let sects := INDEX_TO_MD_SECTOR (EIO_DIV (dmc_size d) (block_size d)) in
  let sects := u64 (sects + EIO_EXTRA_SECTORS (cache_dev_start_sect d) sects) in
  let size := EIO_DIV (u64 (dmc_size d - sects)) (block_size d) in
  let size := u64 (EIO_DIV size (assoc d) * assoc d) in
  let sects := INDEX_TO_MD_SECTOR size in
  set_layout size start (u64 (sects + EIO_EXTRA_SECTORS (cache_dev_start_sect d) sects)) d.

Definition no_device (d : cache_c) : bool :=
  (CACHE_FAILED_IS_SET d || CACHE_DEGRADED_IS_SET d) && negb (CACHE_SSD_ADD_INPROG_IS_SET d).

Definition vfree_cache (d : cache_c) : cache_c := if EIO_MD8 d then set_cache_md8 ∅ d else set_cache ∅ d.
Definition set_words (m : gmap Z Z) (d : cache_c) : cache_c := if EIO_MD8 d then set_cache_md8 m d else set_cache m d.
Definition SIZEOF_CACHEBLOCK (d : cache_c) : Z := if EIO_MD8 d then 8 else 4.

(** one pass over the blocks; it stops at a block with I/O in progress *)
Fixpoint cold_pass (blocks : list Z) : M conf_world bool :=
  match blocks with
  | [] => ret true
  | i :: blocks' =>
    d <- gets cf_d ;;
    if CACHE_SSD_ADD_INPROG_IS_SET d && tst (EIO_CACHE_STATE_GET d i) BLOCK_IO_INPROG then conf_msleep ;; ret false
    else conf_upd (fun d => eio_invalidate_md d i) ;; cold_pass blocks'
  end.
(** [retry] from 0; eleven passes at most *)
Fixpoint cold_passes (retries : nat) (blocks : list Z) : M conf_world bool :=
  done <- cold_pass blocks ;;
  if done then ret true
  else match retries with O => ret false | S n => cold_passes n blocks end.

Fixpoint md_create_loop (pages blocks : list Z) (b : md_buffer) : M conf_world (Z * md_buffer) :=
  match blocks with
  | [] => ret (0, b)
  | i :: blocks' =>
    slot <- eval (fun w => md_slot (cf_d w) i) ;;
    let b := md_put slot b in
    if pages_full pages b then
      r <- md_flush pages b ;;
      if negb (r.1 =? 0) then ret r else md_create_loop pages blocks' r.2
    else md_create_loop pages blocks' b
  end.

(** the blocks' entries are written; the result is that of [eio_md_create] *)
Definition md_create_pages (pages : list Z) : M conf_world Z :=
  d <- gets cf_d ;;
  let fail := when (negb (CACHE_SSD_ADD_INPROG_IS_SET d)) (conf_upd vfree_cache) ;; ret (- EIO) in
  r <- md_create_loop pages (seqZ 0 (dmc_size d)) (mk_mdbuf [] (md_start_sect d) 0 0 0 0) ;;
  if negb (r.1 =? 0) then fail
  else
    r <- (if negb (Nat.eqb (length (mb_slots r.2)) 0) then md_flush_last pages r.2 else ret r) ;;
    if negb (r.1 =? 0) then fail
    else if negb (sectors_expected d =? mb_sectors_written r.2) then ret (- EIO)
    else ret 0.

(** the superblock; label [free_md] follows *)
Definition md_create_sb : M conf_world Z :=
  d <- gets cf_d ;;
  if no_device d then conf_upd vfree_cache ;; ret (- ENODEV)
  else
    conf_upd (fun d => {| d with sb_state := CACHE_MD_STATE_DIRTY; sb_version := EIO_SB_VERSION |}) ;;
    error <- eio_sb_store ;;
    if negb (error =? 0) then when (negb (CACHE_SSD_ADD_INPROG_IS_SET d)) (conf_upd vfree_cache) ;; ret (- EIO)
    else ret 0.

Definition md_create_cold : M conf_world Z :=
  d <- gets cf_d ;;
  done <- cold_passes 10 (seqZ 0 (dmc_size d)) ;;
  if negb done then ret (- EBUSY)
  else
    pages <- eio_alloc_pages (bio_nr_pages d) ;;
    match pages with
    | None => ret (- ENOMEM)
    | Some pages =>
      ok <- conf_kmalloc ;;
      if negb ok then put_pages pages ;; ret (- ENOMEM)
      else
        r <- md_create_pages pages ;;
        r <- (if negb (r =? 0) then ret r else md_create_sb) ;;
        put_pages pages ;; ret r
    end.

(** the memory of the metadata and of the policy *)
Definition md_create_alloc : M conf_world Z :=
  d <- gets cf_d ;;
  let add := CACHE_SSD_ADD_INPROG_IS_SET d in
  let order := u64 (dmc_size d * SIZEOF_CACHEBLOCK d) in
  avail <- eio_mem_available order ;;
  if negb avail && negb add then ret (- ENOMEM)
  else
    ok <- (if negb add then
             m <- conf_vmalloc ;;
             match m with Some m => conf_upd (set_words m) ;; ret true | None => ret false end
           else ret true) ;;
    if negb ok then ret (- ENOMEM)
    else
      blk <- gets cf_blk ;;
      e <- conf_dmc (fun d => eio_repl_blk_init (policy_ops d) blk d) ;;
      if negb (e =? 0) then ret (- ENOMEM) else ret 0.

Definition md_create_body (header : Z) (force cold : bool) : M conf_world Z :=
  d <- gets cf_d ;;
  if no_device d then ret (- ENODEV)
  else
    error <- eio_io_sync_vm sb_region READ [header] ;;
    if negb (error =? 0) then ret (- EINVAL)
    else
      state <- gets (fun w => sb_cache_sb_state (sb_read (page_bytes (cw_mem (cf_cw w)) header))) ;;
      if negb force && ((state =? CACHE_MD_STATE_DIRTY) || (state =? CACHE_MD_STATE_CLEAN) || (state =? CACHE_MD_STATE_FASTCLEAN))
      then ret (- EINVAL)
      else
        conf_upd create_layout ;;
        error <- conf_dmc eio_mem_init ;;
        if error =? -1 then ret (- EINVAL)
        else
          d <- gets cf_d ;;
          if no_device d then ret (- ENODEV)
          else if eio_to_sector (cache_dev_size d) <? u64 (md_sectors d + dmc_size d * block_size d) then ret (- EINVAL)
          else
            error <- md_create_alloc ;;
            if negb (error =? 0) then ret error
            else if cold then md_create_cold else md_create_sb.

Definition eio_md_create (force cold : bool) : M conf_world Z :=
  header_page <- eio_alloc_pages 1 ;;
  match header_page with
  | None => ret (- ENOMEM)
  | Some hp => r <- md_create_body (hp !!! 0%nat) force cold ;; put_pages hp ;; ret r
  end.
