(* ===== verification/MdLoad.v ===== *)
(** * Reading the metadata: [eio_md_load] (eio_conf.c)

    The superblock decides whether the cache is taken, and whether all blocks
    are loaded or, after an unclean shutdown or for a cold start, only those
    marked dirty. *)

From S2P Require Import Prelude Types Mem Scan Rand Policy World Dispatch Disk Clean WbAlloc Superblock MdStore MdCreate.

(** 0-based index of the lowest bit that is set, -1 for 0 *)
Definition ffs_1 (x : Z) : Z := if x =? 0 then -1 else Z.log2 (Z.land x (- x)).

(** what the checks of the superblock decide *)
Inductive sb_verdict := SbFail (ret : Z) | SbRecreate | SbUse.

Definition sb_check (h : superblock) : sb_verdict :=
  let version_ok := sb_cache_version h =? EIO_SB_VERSION in
  if negb version_ok && (sb_cache_version h =? 0) then SbFail 1
  else if negb version_ok && (EIO_SB_VERSION <? sb_cache_version h) then SbFail 1
  else if negb version_ok && (sb_mode h =? CACHE_MODE_WB) then SbFail 1
  else if negb version_ok && ((sb_mode h =? CACHE_MODE_RO) || (sb_mode h =? CACHE_MODE_WT)) then SbRecreate
  else if (EIO_SB_MAGIC_VERSION <=? sb_cache_version h) && negb (sb_magic h =? EIO_MAGIC) then SbFail 1
  else SbUse.
Definition sb_state_ok (h : superblock) : bool :=
  (sb_cache_sb_state h =? CACHE_MD_STATE_DIRTY) || (sb_cache_sb_state h =? CACHE_MD_STATE_CLEAN) || (sb_cache_sb_state h =? CACHE_MD_STATE_FASTCLEAN).

(** [clean_shutdown] *)
Definition sb_clean_shutdown (d : cache_c) (h : superblock) : bool :=
  let force_warm_boot := tst (sb_cold_boot h) BOOT_FLAG_FORCE_WARM in
  if negb (cold_boot d =? 0) && negb force_warm_boot then false
  else if sb_cache_sb_state h =? CACHE_MD_STATE_DIRTY then false
  else (sb_cache_sb_state h =? CACHE_MD_STATE_CLEAN) || (sb_cache_sb_state h =? CACHE_MD_STATE_FASTCLEAN).

(** the configuration taken from the superblock where none is given *)
Definition sb_config (h : superblock) (d : cache_c) : cache_c :=
  {| d with
     mode := if mode d =? 0 then sb_mode h else mode d;
     req_policy := if req_policy d =? 0 then sb_repl_policy h else req_policy d;
     cache_flags := if cache_flags d =? 0 then sb_cache_flags h else cache_flags d |}.
Definition sb_sysctl (h : superblock) (s : eio_sysctl) : eio_sysctl :=
  {| s with
     dirty_high_threshold := sb_dirty_high_threshold h; dirty_low_threshold := sb_dirty_low_threshold h;
     dirty_set_high_threshold := sb_dirty_set_high_threshold h; dirty_set_low_threshold := sb_dirty_set_low_threshold h;
     time_based_clean_interval := sb_time_based_clean_interval h; autoclean_threshold := i32 (sb_autoclean_threshold h) |}.
(** and the geometry *)
Definition sb_geometry (h : superblock) (d : cache_c) : cache_c :=
  {| d with
     block_size := u32 (sb_block_size h); block_shift := u32 (ffs_1 (u32 (sb_block_size h)));
     dmc_size := u32 (sb_size h); assoc := sb_assoc h; consecutive_shift := u32 (ffs_1 (sb_assoc h));
     md_start_sect := sb_cache_md_start_sect h; md_sectors := sb_cache_data_start_sect h;
     sysctl_active := sb_sysctl h (sysctl_active d) |}.

(** ** The entries *)

(** entry [j] of the metadata in the pages *)
Definition page_entry (mem : memory) (pages : list Z) (j : Z) : option flash_cacheblock :=
  match pages !! Z.to_nat (j / MD_BLOCKS_PER_PAGE) with
  | Some p => Some (sector_entry (mem !!! (p, (j mod MD_BLOCKS_PER_PAGE) / MD_BLOCKS_PER_SECTOR)) (Z.to_nat (j mod MD_BLOCKS_PER_SECTOR)))
  | None => None
  end.

(** block [i] is loaded from its entry; true if it is dirty *)
Definition load_slot (clean_shutdown : bool) (f : flash_cacheblock) (i : Z) : M cache_c bool :=
  if clean_shutdown || tst (fc_state f) DIRTY then
    modify (fun d => EIO_CACHE_STATE_SET d i (clr (u8 (fc_state f)) QUEUED)) ;;
    s <- gets (fun d => EIO_CACHE_STATE_GET d i) ;;
    EIO_ASSERT (negb (Z.land s (Z.lor VALID INVALID) =? Z.lor VALID INVALID)) ;;
    d <- eval (fun d => EIO_DBN_SET d i (fc_dbn f)) ;;
    modify (fun _ => d) ;;
    ret (tst (fc_state f) DIRTY)
  else modify (fun d => eio_invalidate_md d i) ;; ret false.

(** blocks [i], ..., from the entries [j], ... of the pages; the number of dirty ones *)
Fixpoint load_slots (clean_shutdown : bool) (pages : list Z) (i : Z) (js : list Z) : M conf_world Z :=
  match js with
  | [] => ret 0
  | j :: js' =>
    f <- eval (fun w => page_entry (cw_mem (cf_cw w)) pages j) ;;
    dirty <- conf_dmc (load_slot clean_shutdown f i) ;;
    n <- load_slots clean_shutdown pages (i + 1) js' ;;
    ret ((if dirty then 1 else 0) + n)
  end.

(** the sectors read and the dirty blocks, or the error of a read *)
Fixpoint load_loop (fuel : nat) (clean_shutdown : bool) (pages : list Z) (i size sector : Z) : M conf_world (option (Z * Z)) :=
  if size <=? 0 then ret (Some (0, 0))
  else
    match fuel with
    | O => panic
    | S fuel =>
      let slots_read := Z.min size (MD_BLOCKS_PER_PAGE * Z.of_nat (length pages)) in
      let count := if negb (slots_read mod MD_BLOCKS_PER_SECTOR =? 0) then 1 + slots_read / MD_BLOCKS_PER_SECTOR else slots_read / MD_BLOCKS_PER_SECTOR in
      let page_count := if negb (slots_read mod MD_BLOCKS_PER_PAGE =? 0) then 1 + slots_read / MD_BLOCKS_PER_PAGE else slots_read / MD_BLOCKS_PER_PAGE in
      error <- eio_io_sync_vm (mk_region SSD sector count) READ (take (Z.to_nat page_count) pages) ;;
      if negb (error =? 0) then ret None
      else
        n <- load_slots clean_shutdown pages i (seqZ 0 slots_read) ;;
        r <- load_loop fuel clean_shutdown pages (i + slots_read) (size - slots_read) (sector + count) ;;
        ret (option_map (fun r => (count + r.1, n + r.2)) r)
    end.

(** the blocks, the last checks and the superblock; label [free_md] follows *)
Definition md_load_pages (clean_shutdown : bool) (pages : list Z) : M conf_world Z :=
  d <- gets cf_d ;;
  let fail e := conf_upd vfree_cache ;; ret e in
  r <- load_loop (Z.to_nat (dmc_size d)) clean_shutdown pages 0 (dmc_size d) (md_start_sect d) ;;
  match r with
  | None => fail (- EIO)
  | Some (sectors_read, dirty_loaded) =>
    if negb (dirty_loaded =? 0) && negb (mode d =? CACHE_MODE_WB) then fail (- EINVAL)
    else if negb (sectors_expected d =? sectors_read) then fail (- EIO)
    else
      conf_upd (set_sb_state CACHE_MD_STATE_DIRTY) ;;
      error <- eio_sb_store ;;
      if negb (error =? 0) then fail 1 else ret 0
  end.

(** the memory; the second component tells whether label [free_header] is
    reached with the page of the superblock still to be freed *)
Definition md_load_alloc (clean_shutdown : bool) : M conf_world (Z * bool) :=
  m <- conf_vmalloc ;;
  match m with
  | None => ret (1, false)
  | Some m =>
    conf_upd (set_words m) ;;
    blk <- gets cf_blk ;;
    e <- conf_dmc (fun d => eio_repl_blk_init (policy_ops d) blk d) ;;
    if negb (e =? 0) then conf_upd vfree_cache ;; ret (- EINVAL, true)
    else
      d <- gets cf_d ;;
      pages <- eio_alloc_pages (bio_nr_pages d) ;;
      match pages with
      | None => conf_upd vfree_cache ;; ret (- ENOMEM, true)
      | Some pages =>
        ok <- conf_kmalloc ;;
        if negb ok then put_pages pages ;; ret (- ENOMEM, true)
        else r <- md_load_pages clean_shutdown pages ;; put_pages pages ;; ret (r, true)
      end
  end.

(** with the superblock [h] that was read *)
Definition md_load_sb (h : superblock) : M conf_world (Z * bool) :=
  match sb_check h with
  | SbFail e => ret (e, true)
  | SbRecreate => conf_upd (fun d => {| d with persistence := CACHE_FORCECREATE |}) ;; ret (0, true)
  | SbUse =>
    conf_upd (fun d => {| d with sb_version := EIO_SB_VERSION |}) ;;
    if negb (sb_state_ok h) then ret (- EINVAL, true)
    else
      clean_shutdown <- gets (fun w => sb_clean_shutdown (cf_d w) h) ;;
      conf_upd (sb_config h) ;;
      ok <- conf_kmalloc ;;
      pols <- gets cf_policies ;;
      error <- conf_dmc (eio_policy_init ok pols) ;;
      if negb (error =? 0) then ret (0, true)
      else
        conf_upd (sb_geometry h) ;;
        modify (set_cf_cache_size (sb_cache_devsize h)) ;;
        i <- conf_dmc eio_mem_init ;;
        if i =? -1 then ret (- EINVAL, true) else md_load_alloc clean_shutdown
  end.

Definition md_load_body (header : Z) : M conf_world (Z * bool) :=
  d <- gets cf_d ;;
  if CACHE_FAILED_IS_SET d || CACHE_DEGRADED_IS_SET d then ret (- ENODEV, true)
  else
    error <- eio_io_sync_vm sb_region READ [header] ;;
    if negb (error =? 0) then ret (- EINVAL, true)
    else
      h <- gets (fun w => sb_read (page_bytes (cw_mem (cf_cw w)) header)) ;;
      md_load_sb h.

(** [vfree(header)] of a page that was not allocated by [vmalloc] is not
    modelled; the page of the superblock is not freed on that path *)
Definition eio_md_load : M conf_world Z :=
  header_page <- eio_alloc_pages 1 ;;
  match header_page with
  | None => ret (- ENOMEM)
  | Some hp =>
    r <- md_load_body (hp !!! 0%nat) ;;
    when r.2 (put_pages hp) ;;
    ret r.1
  end.
