(* ===== verification/PageIo.v ===== *)
(** * Pages of the administration: allocation, transfers, the superblock

    ** The superblock is stored and read back

    [sb_of] is what [eio_sb_store] means to store; the fields of the structure
    do not overlap, so reading the sectors of the superblock gives it back. *)

From S2P Require Import Prelude Types Mem Scan Rand Policy World Dispatch Disk Clean CleanIo CleanState WbAlloc IoWorld Hits Superblock MdStore MdCreate.

(** * Pages of the administration: allocation, transfers, the superblock *)
(** ** Allocation *)

(** the allocator will return the pages [l], all free and different *)
Record fresh_pages (l : list Z) (w : conf_world) : Prop := {
  fp_next : exists rest, pg_next (cf_kmem w) = map Some l ++ rest;
  fp_nodup : NoDup l;
  fp_free : forall p, p ∈ l -> p ∉ pg_live (cf_kmem w)
}.
(** only memory, devices, results, the cache and the allocator differ *)
Definition conf_same (w w' : conf_world) : Prop := exists cw km, w' = set_cf_kmem km (set_cf_cw cw w).
#[export] Instance conf_same_refl : Reflexive conf_same.
Proof. intros w. exists (cf_cw w), (cf_kmem w). by destruct w. Qed.
#[export] Instance conf_same_trans : Transitive conf_same.
Proof. intros w1 w2 w3 (c & k & ->) (c' & k' & ->). exists c', k'. by destruct w1. Qed.
Lemma conf_same_cw cw w : conf_same w (set_cf_cw cw w).
Proof. exists cw, (cf_kmem w). by destruct w. Qed.

Lemma clear_page_other p mem sl : sl.1 <> p -> clear_page_mem p mem !!! sl = mem !!! sl.
Proof.
  intros Hne. unfold clear_page_mem. generalize (seqZ 0 8). intros js. revert mem. induction js as [|j js IH]; intros mem; [done|]. cbn [foldl].
  rewrite IH. apply lookup_total_insert_ne. by intros <-.
Qed.
Lemma clear_page_zero p mem j : 0 <= j < 8 -> clear_page_mem p mem !!! (p, j) = Raw 0.
Proof.
  intros Hj. unfold clear_page_mem. assert (Hin : j ∈ seqZ 0 8) by (apply elem_of_seqZ; lia). revert Hin. generalize (seqZ 0 8). clear Hj. intros js. revert mem.
  induction js as [|j' js IH]; intros mem; [by intros ?%not_elem_of_nil|]. cbn [foldl]. destruct (decide (j ∈ js)) as [Hi|Hi]; [intros _; by apply IH|].
  intros [->|?]%elem_of_cons; [|done]. clear IH. assert (G : forall js (mem : memory), j' ∉ js -> foldl (fun m j => <[(p, j) := Raw 0]> m) mem js !!! (p, j') = mem !!! (p, j')).
  { clear. induction js as [|k js IH]; intros mem Hn; [done|]. apply not_elem_of_cons in Hn as [H1 H2]. cbn [foldl]. rewrite IH by done.
    apply lookup_total_insert_ne. congruence. }
  rewrite G by done. apply lookup_total_insert_eq.
Qed.

(** pages that were allocated: zero, and no longer free *)
Record pages_taken (ps l : list Z) (w w' : conf_world) : Prop := {
  pt_same : conf_same w w';
  pt_cw : exists mem, cf_cw w' = set_cw_mem mem (cf_cw w) /\
    (forall p j, p ∈ ps -> 0 <= j < 8 -> mem !!! (p, j) = Raw 0) /\ (forall sl, sl.1 ∉ ps -> mem !!! sl = cw_mem (cf_cw w) !!! sl);
  pt_live : pg_live (cf_kmem w') = list_to_set ps ∪ pg_live (cf_kmem w);
  pt_fresh : fresh_pages l w'
}.

Lemma alloc_zero_pages_ok : forall ps l w, fresh_pages (ps ++ l) w ->
  exists w', alloc_zero_pages (length ps) w = Some (ps, w') /\ pages_taken ps l w w'.
Proof.
  induction ps as [|p ps IH]; intros l w Hf; cbn [length alloc_zero_pages app] in *.
  { exists w. split; [done|]. constructor; [done| |set_solver|done].
    exists (cw_mem (cf_cw w)). split; [by destruct (cf_cw w)|]. split; [by intros p j ?%not_elem_of_nil|done]. }
  destruct Hf as [(rest & En) Hnd Hfree]. apply NoDup_cons in Hnd as [Hp Hnd]. cbn [map app] in En.
  set (k1 := mk_kmem ({[p]} ∪ pg_live (cf_kmem w)) (map Some (ps ++ l) ++ rest)).
  assert (E1 : conf_kmem alloc_page w = Some (Some p, set_cf_kmem k1 w)) by (unfold conf_kmem, alloc_page; by rewrite En).
  rewrite (bind_run _ _ _ _ _ E1). set (w1 := set_cf_kmem k1 w).
  set (w2 := set_cf_cw (set_cw_mem (clear_page_mem p (cw_mem (cf_cw w))) (cf_cw w)) w1).
  assert (E2 : conf_mem (clear_page_mem p) w1 = Some (tt, w2)) by done. rewrite (bind_run _ _ _ _ _ E2).
  destruct (IH l w2) as (w' & E & [T1 (mem & T2 & T3 & T4) T5 T6]).
  { constructor; [by exists rest|done|]. intros q Hq. cbn. apply not_elem_of_union. split.
    - intros ->%elem_of_singleton. by apply Hp.
    - apply Hfree, elem_of_cons. by right. }
  rewrite (bind_run _ _ _ _ _ E). exists w'. split; [done|]. constructor.
  - destruct T1 as (c & k & ->). exists c, k. by destruct w.
  - exists mem. split; [rewrite T2; by destruct (cf_cw w)|]. split.
    + intros q j [->|Hq]%elem_of_cons Hj; [|by apply T3]. destruct (decide (p ∈ ps)) as [Hin|Hin]; [by apply T3|].
      rewrite (T4 (p, j)) by done. by apply clear_page_zero.
    + intros sl [H1 H2]%not_elem_of_cons. rewrite T4 by done. by apply clear_page_other.
  - rewrite T5. cbn. set_solver.
  - done.
Qed.

Lemma put_pages_ok : forall ps w, NoDup ps -> (forall p, p ∈ ps -> p ∈ pg_live (cf_kmem w)) ->
  put_pages ps w = Some (tt, set_cf_kmem (mk_kmem (pg_live (cf_kmem w) ∖ list_to_set ps) (pg_next (cf_kmem w))) w).
Proof.
  induction ps as [|p ps IH]; intros w Hnd Hl; unfold put_pages; cbn [mfor].
  { assert (mk_kmem (pg_live (cf_kmem w) ∖ list_to_set []) (pg_next (cf_kmem w)) = cf_kmem w) as ->.
    { destruct (cf_kmem w) as [lv nx]. cbn. f_equal. set_solver. }
    by destruct w. }
  apply NoDup_cons in Hnd as [Hp Hnd].
  assert (E : conf_kmem (put_page p) w = Some (tt, set_cf_kmem (mk_kmem (pg_live (cf_kmem w) ∖ {[p]}) (pg_next (cf_kmem w))) w)).
  { unfold conf_kmem, put_page. rewrite decide_True by (apply Hl, elem_of_cons; by left). done. }
  rewrite (bind_run _ _ _ _ _ E). set (w1 := set_cf_kmem _ w). specialize (IH w1 Hnd). unfold put_pages in IH. rewrite IH.
  - subst w1. cbn [cf_kmem set_cf_kmem pg_live pg_next].
    assert (Es : pg_live (cf_kmem w) ∖ {[p]} ∖ list_to_set ps = pg_live (cf_kmem w) ∖ list_to_set (p :: ps)) by (clear; set_solver). by rewrite Es.
  - intros q Hq. cbn. apply elem_of_difference. split; [apply Hl, elem_of_cons; by right|]. intros ->%elem_of_singleton. by apply Hp.
Qed.

(** the pages of an operation come back *)
Lemma put_taken ps l w w' w2 : fresh_pages (ps ++ l) w -> pages_taken ps l w w' -> cf_kmem w2 = cf_kmem w' ->
  exists rest, put_pages ps w2 = Some (tt, set_cf_kmem (mk_kmem (pg_live (cf_kmem w)) rest) w2) /\ rest = pg_next (cf_kmem w').
Proof.
  intros [_ Hnd Hf] [_ _ T _] E. apply NoDup_app in Hnd as (Hnd & _). exists (pg_next (cf_kmem w')). split; [|done].
  rewrite put_pages_ok; [|done|intros p Hp; rewrite E, T; set_solver].
  rewrite E, T. assert (D : forall p, p ∈ ps -> p ∉ pg_live (cf_kmem w)) by (intros p Hp; apply Hf, elem_of_app; by left).
  assert (Es : (list_to_set ps ∪ pg_live (cf_kmem w)) ∖ list_to_set ps = pg_live (cf_kmem w)) by (clear - D; set_solver). by rewrite Es.
Qed.

Lemma eio_alloc_pages_ok ps l w n : fresh_pages (ps ++ l) w -> cf_kmalloc w = [] -> Z.of_nat (length ps) = Z.min n MD_MAX_NR_PAGES -> ps <> [] ->
  exists w', eio_alloc_pages n w = Some (Some ps, w') /\ pages_taken ps l w w'.
Proof.
  intros Hf Hk Hn Hne. unfold eio_alloc_pages. assert (E : conf_kmalloc w = Some (true, w)) by (unfold conf_kmalloc; by rewrite Hk).
  rewrite (bind_run _ _ _ _ _ E). cbn [negb]. rewrite <-Hn, Nat2Z.id. destruct (alloc_zero_pages_ok ps l w Hf) as (w' & Ea & T).
  rewrite (bind_run _ _ _ _ _ Ea). exists w'. split; [|done]. destruct ps as [|p ps]; [done|]. cbn [Nat.eqb length]. rewrite bind_assert by apply Z.eqb_refl. done.
Qed.

(** ** Synchronous transfers of pages *)
Lemma pages_fit : forall pages n, 0 < n -> 8 * (Z.of_nat (length pages) - 1) < n <= 8 * Z.of_nat (length pages) -> bvecs_fit (map page_bvec pages) n.
Proof.
  induction pages as [|p pages IH]; intros n Hn Hl; cbn [length map bvecs_fit] in *; [lia|]. split; [split; [done|by exists 8]|]. split; [done|].
  change (eio_to_sector (bv_len (page_bvec p))) with 8. destruct pages as [|p' pages]; [cbn [length map bvecs_fit] in *; lia|].
  cbn [length] in *. rewrite Z.max_r by lia. apply IH; lia.
Qed.

(** what such a transfer does to memory and devices *)
Definition vm_transfer (s n rw : Z) (pages : list Z) (r : io_result) (w : cworld) : cworld :=
  transferred SSD rw r (region_transfer s n (map page_bvec pages)) w.
Definition io_error (r : io_result) : Z := if negb ((io_errors r).1 =? 0) then (io_errors r).1 else (io_errors r).2.
Lemma io_error_ok r : io_result_ok r -> io_error r = 0 <-> r = IoOk.
Proof.
  unfold io_error. destruct r as [|e|e m]; cbn; intros H; [done| |by split].
  destruct (Z.eqb_spec e 0); cbn; [done|by split].
Qed.

Lemma sync_vm_run s n rw pages w : no_device (cf_d w) = false -> 0 < n -> 8 * (Z.of_nat (length pages) - 1) < n <= 8 * Z.of_nat (length pages) ->
  eio_io_sync_vm (mk_region SSD s n) rw pages w =
    Some (io_error (next_res (cf_cw w)), set_cf_cw (if (io_errors (next_res (cf_cw w))).1 =? 0 then vm_transfer s n rw pages (next_res (cf_cw w)) (drop_res (cf_cw w)) else drop_res (cf_cw w)) w).
Proof.
  intros Hd Hn Hl. unfold eio_io_sync_vm. rewrite bind_gets. unfold no_device in Hd. rewrite Hd. unfold conf_cw, io_error.
  rewrite (bind_run _ _ _ _ _ (next_result_run (cf_cw w))). destruct (Z.eqb_spec (io_errors (next_res (cf_cw w))).1 0) as [E|E]; cbn [negb]; [|done].
  assert (Hne : map page_bvec pages <> []) by (destruct pages; [cbn in Hl; lia|done]).
  pose proof (pages_fit pages n Hn Hl) as Hfit.
  destruct (dispatch_io_ok [] 0 (mk_region SSD s n) false (map page_bvec pages)) as (bs & Eb & Et); [by constructor|done..|].
  unfold do_transfer. rewrite bind_bind, (bind_eval (fun _ => eio_dispatch_io [] 0 (mk_region SSD s n) false (map page_bvec pages)) _ _ bs Eb).
  cbn [io_sector io_count] in Et. rewrite Z.add_0_r in Et. rewrite Et. cbv zeta. unfold vm_transfer, transferred. by destruct (rw =? READ).
Qed.

(** sector [j] of the transfer goes through slot [j] of the pages *)
Lemma vm_elem s n pages t sl : n <= 8 * Z.of_nat (length pages) -> (t, sl) ∈ region_transfer s n (map page_bvec pages) <->
  exists j, 0 <= j < n /\ t = s + j /\ page_slot pages (Z.to_nat j) = Some sl.
Proof.
  intros Hl. unfold region_transfer. rewrite elem_of_lookup_zip_with. split.
  - intros (i & x & y & E & Hx & Hy). injection E as -> ->. apply lookup_seqZ in Hx as [-> Hi]. exists (Z.of_nat i). split; [lia|]. split; [done|].
    rewrite Nat2Z.id. rewrite <-page_bvec_slots. by apply lookup_take_Some in Hy as [Hy _].
  - intros (j & Hj & -> & Hs). exists (Z.to_nat j), (s + j), sl. split; [done|]. split; [apply lookup_seqZ; lia|].
    rewrite lookup_take_lt by lia. by rewrite page_bvec_slots.
Qed.
Lemma page_slot_is pages j : 0 <= j < 8 * Z.of_nat (length pages) -> exists p, p ∈ pages /\ page_slot pages (Z.to_nat j) = Some (p, j mod 8).
Proof.
  intros Hj. unfold page_slot. destruct (lookup_lt_is_Some_2 pages (Z.to_nat j / 8)%nat) as [p Ep].
  - apply Nat.Div0.div_lt_upper_bound; lia.
  - exists p. split; [by apply list_elem_of_lookup_2 in Ep|]. rewrite Ep. f_equal. f_equal. rewrite Nat2Z.inj_mod, Z2Nat.id by lia. done.
Qed.
Lemma vm_nodup s n pages : NoDup pages -> n <= 8 * Z.of_nat (length pages) ->
  NoDup (region_transfer s n (map page_bvec pages)).*2 /\ NoDup (region_transfer s n (map page_bvec pages)).*1.
Proof.
  intros Hnd Hl. assert (Hlen : length (bvec_slots (map page_bvec pages)) = (8 * length pages)%nat).
  { clear. induction pages as [|p ps IH]; [done|]. cbn [map]. rewrite bvec_slots_cons, length_app, IH. cbn [length]. change (length (page_slots _)) with 8%nat. lia. }
  unfold region_transfer. split.
  - rewrite snd_zip by (rewrite length_seqZ, length_take; lia). apply NoDup_alt. intros i j sl Hi Hj.
    apply lookup_take_Some in Hi as [Hi _], Hj as [Hj _]. rewrite page_bvec_slots in Hi, Hj. by apply (page_slot_inj pages i j sl Hnd).
  - rewrite fst_zip; [apply NoDup_seqZ|]. rewrite length_seqZ, length_take, Hlen. lia.
Qed.
Lemma vm_range s n pages t : t ∈ (region_transfer s n (map page_bvec pages)).*1 -> s <= t < s + n.
Proof.
  intros ([t' sl] & -> & Hin)%list_elem_of_fmap. unfold region_transfer in Hin. apply elem_of_lookup_zip_with in Hin as (i & x & y & E & Hx & _).
  injection E as -> ->. apply lookup_seqZ in Hx as [-> Hi]. cbn. lia.
Qed.

(** a read fills the pages *)
Record vm_read (s n : Z) (pages : list Z) (w : conf_world) (e : Z) (w' : conf_world) : Prop := {
  vr_run : e = io_error (next_res (cf_cw w));
  vr_world : exists mem, w' = set_cf_cw (set_cw_mem mem (drop_res (cf_cw w))) w /\
    (e = 0 -> next_res (cf_cw w) = IoOk -> forall j sl, 0 <= j < n -> page_slot pages (Z.to_nat j) = Some sl -> mem !!! sl = on_ssd (cw_k (cf_cw w)) !!! (s + j)) /\
    (forall sl, sl.1 ∉ pages -> mem !!! sl = cw_mem (cf_cw w) !!! sl)
}.
Lemma sync_read_ok s n pages w : no_device (cf_d w) = false -> 0 < n -> 8 * (Z.of_nat (length pages) - 1) < n <= 8 * Z.of_nat (length pages) -> NoDup pages ->
  exists e w', eio_io_sync_vm (mk_region SSD s n) READ pages w = Some (e, w') /\ vm_read s n pages w e w'.
Proof.
  intros Hd Hn Hl Hnd. do 2 eexists. split; [by apply sync_vm_run|]. constructor; [done|]. set (r := next_res (cf_cw w)).
  destruct (vm_nodup s n pages Hnd) as [Hn2 _]; [lia|].
  destruct (Z.eqb_spec (io_errors r).1 0) as [E|E].
  - exists (read_sectors r (on_ssd (cw_k (cf_cw w))) (region_transfer s n (map page_bvec pages)) (cw_mem (cf_cw w))). split; [done|]. split.
    + intros _ -> j sl Hj Hs. apply read_sectors_done; [done|]. apply vm_elem; [lia|]. by exists j.
    + intros sl Hsl. apply read_sectors_ne. intros ([t sl'] & -> & Hin)%list_elem_of_fmap. apply vm_elem in Hin as (j & Hj & -> & Hs); [|lia].
      destruct (page_slot_is pages j) as (p & Hp & Hs'); [lia|]. rewrite Hs in Hs'. injection Hs' as ->. by apply Hsl.
  - exists (cw_mem (cf_cw w)). split; [by destruct w as [[] ]|]. split; [|done]. intros _ Er. by rewrite Er in E.
Qed.

(** a write puts them on the SSD *)
Record vm_write (s n : Z) (pages : list Z) (w : conf_world) (e : Z) (w' : conf_world) : Prop := {
  vw_run : e = io_error (next_res (cf_cw w));
  vw_world : exists ssd tr, w' = set_cf_cw (set_cw_trace tr (set_cw_k (dev_set SSD ssd (cw_k (cf_cw w))) (drop_res (cf_cw w)))) w /\
    (next_res (cf_cw w) = IoOk -> forall j sl, 0 <= j < n -> page_slot pages (Z.to_nat j) = Some sl -> ssd !!! (s + j) = cw_mem (cf_cw w) !!! sl) /\
    (forall t, t < s \/ s + n <= t -> ssd !!! t = on_ssd (cw_k (cf_cw w)) !!! t)
}.
Lemma sync_write_ok s n pages w : no_device (cf_d w) = false -> 0 < n -> 8 * (Z.of_nat (length pages) - 1) < n <= 8 * Z.of_nat (length pages) -> NoDup pages ->
  exists e w', eio_io_sync_vm (mk_region SSD s n) WRITE pages w = Some (e, w') /\ vm_write s n pages w e w'.
Proof.
  intros Hd Hn Hl Hnd. do 2 eexists. split; [by apply sync_vm_run|]. constructor; [done|]. set (r := next_res (cf_cw w)).
  destruct (vm_nodup s n pages Hnd) as [_ Hn1]; [lia|]. set (ts := region_transfer s n (map page_bvec pages)) in *.
  set (ws := map (fun t => (t.1, cw_mem (cf_cw w) !!! t.2)) ts).
  assert (Efst : ws.*1 = ts.*1) by (subst ws; by rewrite <-list_fmap_compose).
  destruct (Z.eqb_spec (io_errors r).1 0) as [E|E].
  - exists (write_sectors r ws (on_ssd (cw_k (cf_cw w)))), (cw_trace (cf_cw w) ++ [(cw_k (cf_cw w), (SSD, ws))]). split; [done|]. split.
    + intros -> j sl Hj Hs. apply write_sectors_done; [by rewrite Efst|]. apply list_elem_of_fmap. exists (s + j, sl). split; [done|]. apply vm_elem; [lia|]. by exists j.
    + intros t Ht. apply write_sectors_ne. rewrite Efst. intros ?%vm_range. lia.
  - exists (on_ssd (cw_k (cf_cw w))), (cw_trace (cf_cw w)). split; [by destruct w as [[? []] ]|]. split; [|done]. intros Er. by rewrite Er in E.
Qed.

(** * The superblock is stored and read back *)
(** ** The fields as positions and lengths *)
Definition fields_shape (fs : list (nat * list Z)) : list (nat * nat) := map (fun f => (f.1, length f.2)) fs.
Definition shape_inside (len : nat) (sh : list (nat * nat)) : bool := forallb (fun f => (f.1 + f.2 <=? len)%nat) sh.
Definition shape_apart (o n : nat) (sh : list (nat * nat)) : bool := forallb (fun f => (o + n <=? f.1)%nat || (f.1 + f.2 <=? o)%nat) sh.

Lemma shape_inside_ok len fs : shape_inside len (fields_shape fs) = true -> Forall (inside len) fs.
Proof.
  unfold shape_inside, fields_shape. rewrite forallb_forall. intros H. apply list.Forall_forall. intros f Hf. unfold inside.
  apply Nat.leb_le. apply (H (f.1, length f.2)). apply in_map_iff. exists f. split; [done|by apply list_elem_of_In].
Qed.
Lemma shape_apart_ok o n fs : shape_apart o n (fields_shape fs) = true -> Forall (apart o n) fs.
Proof.
  unfold shape_apart, fields_shape. rewrite forallb_forall. intros H. apply list.Forall_forall. intros f Hf. unfold apart.
  assert (E := H (f.1, length f.2)). cbn in E. rewrite orb_true_iff, !Nat.leb_le in E. apply E. apply in_map_iff. exists f. split; [done|by apply list_elem_of_In].
Qed.
(** the [k]-th field is read back if no later one overlaps it *)
Lemma read_field_at k fs off bs buf sh : fields_shape fs = sh -> shape_inside (length buf) sh = true -> fs !! k = Some (off, bs) ->
  shape_apart off (length bs) (drop (S k) sh) = true -> read_bytes off (length bs) (write_fields fs buf) = bs.
Proof.
  intros <- Hi Hk Ha. rewrite <-(take_drop_middle fs k (off, bs)) by done. apply read_field.
  - rewrite take_drop_middle by done. by apply shape_inside_ok.
  - apply shape_apart_ok. unfold fields_shape in *. by rewrite <-skipn_map.
Qed.

Definition sb_shape : list (nat * nat) :=
  [(16,4);(8,4);(0,8);(12,4);(576,8);(584,8);(160,128);(20,128);(448,127);(152,8);(288,8);(296,4);(300,128);(427,1);(428,4);(432,4);(436,4);(440,4);
   (444,4);(592,4);(596,4);(600,4);(604,4);(608,4);(612,4)]%nat.
Lemma sb_fields_shape w : fields_shape (sb_fields w) = sb_shape.
Proof. unfold fields_shape, sb_fields, sb_shape, le32, le64. cbn [map fst snd]. by rewrite !length_strncpy, !length_le_bytes. Qed.

(** ** What the superblock says of a cache *)
Definition sb_of (w : conf_world) : superblock :=
  let d := cf_d w in let s := sysctl_active d in {|
  sb_size := u32 (dmc_size d); sb_block_size := u32 (block_size d); sb_assoc := u32 (assoc d);
  sb_cache_sb_state := u32 (sb_state d); sb_cache_devsize := u64 (eio_to_sector (cache_dev_size d)); sb_disk_devsize := u64 (eio_to_sector (disk_dev_size d));
  sb_cache_version := u32 (sb_version d); sb_mode := u32 (mode d); sb_repl_policy := u32 (req_policy d);
  sb_cache_flags := u32 (clr (cache_flags d) CACHE_FLAGS_INCORE_ONLY);
  sb_magic := if negb (sb_version d =? 0) then EIO_MAGIC else EIO_BAD_MAGIC; sb_cold_boot := u32 (sb_boot_flags w);
  sb_cache_md_start_sect := u64 (md_start_sect d); sb_cache_data_start_sect := u64 (md_sectors d);
  sb_dirty_high_threshold := u32 (dirty_high_threshold s); sb_dirty_low_threshold := u32 (dirty_low_threshold s);
  sb_dirty_set_high_threshold := u32 (dirty_set_high_threshold s); sb_dirty_set_low_threshold := u32 (dirty_set_low_threshold s);
  sb_time_based_clean_interval := u32 (time_based_clean_interval s); sb_autoclean_threshold := u32 (autoclean_threshold s) |}.

Lemma sb_field_back k fs off n v buf : fields_shape fs = sb_shape -> length buf = 4096%nat -> fs !! k = Some (off, le_bytes n v) ->
  shape_apart off n (drop (S k) sb_shape) = true -> sb_field off n (write_fields fs buf) = v mod 256 ^ Z.of_nat n.
Proof.
  intros Hs Hb Hk Ha. unfold sb_field. assert (E : read_bytes off n (write_fields fs buf) = le_bytes n v).
  { rewrite <-(length_le_bytes n v) at 1. apply (read_field_at k fs off _ buf sb_shape); [done|by rewrite Hb|done|by rewrite length_le_bytes]. }
  rewrite E. apply le_val_bytes.
Qed.

#[local] Ltac field k := erewrite (sb_field_back k) by (done || reflexivity); try reflexivity.
Lemma sb_round_trip w buf : length buf = 4096%nat -> sb_read (write_fields (sb_fields w) buf) = sb_of w.
Proof.
  intros Hb. pose proof (sb_fields_shape w) as Hs. unfold sb_read, sb_of. cbv zeta.
  f_equal; [field 2%nat|field 1%nat|field 3%nat|field 0%nat|field 9%nat|field 10%nat|field 11%nat|field 14%nat|field 15%nat|field 16%nat|
    |field 18%nat|field 4%nat|field 5%nat|field 19%nat|field 20%nat|field 21%nat|field 22%nat|field 23%nat|field 24%nat].
  { unfold u32. pose proof (Z.mod_pos_bound (dmc_size (cf_d w)) (2 ^ 32)). apply Z.mod_small. lia. }
  field 17%nat. by destruct (sb_version (cf_d w) =? 0).
Qed.

(** ** The bytes of a page *)
Definition chunk (bs : list Z) (j : Z) : list Z := take SECTOR_BYTES (drop (SECTOR_BYTES * Z.to_nat j) bs).

Lemma chunks_all n (bs : list Z) k : flat_map (fun j => take n (drop (n * Z.to_nat j) bs)) (seqZ 0 (Z.of_nat k)) = take (n * k) bs.
Proof.
  induction k as [|k IH]; [by rewrite Nat.mul_0_r|]. rewrite seqZ_S, flat_map_app, IH. cbn [flat_map]. rewrite app_nil_r, Z.add_0_l, Nat2Z.id.
  rewrite take_drop_commute. replace (n * k + n)%nat with (n * S k)%nat by lia. rewrite <-(take_drop (n * k) (take (n * S k) bs)) at 2. f_equal.
  rewrite take_take. f_equal. lia.
Qed.
Lemma sector_bytes_chunk bs j : Forall is_byte bs -> length bs = 4096%nat -> 0 <= j < 8 -> sector_bytes (Raw (le_val (chunk bs j))) = chunk bs j.
Proof.
  intros Hb Hl Hj. unfold sector_bytes. assert (E : length (chunk bs j) = SECTOR_BYTES) by (unfold chunk, SECTOR_BYTES; rewrite length_take, length_drop, Hl; lia).
  rewrite <-E. apply le_bytes_val. unfold chunk. by apply Forall_take, Forall_drop.
Qed.

Lemma set_page_other p bs mem sl : sl.1 <> p -> set_page_bytes p bs mem !!! sl = mem !!! sl.
Proof.
  intros Hne. unfold set_page_bytes. generalize (seqZ 0 8). intros js. revert mem. induction js as [|j js IH]; intros mem; [done|]. cbn [foldl].
  rewrite IH. apply lookup_total_insert_ne. by intros <-.
Qed.
Lemma set_page_sector_at p bs mem j : 0 <= j < 8 -> set_page_bytes p bs mem !!! (p, j) = Raw (le_val (chunk bs j)).
Proof.
  intros Hj. unfold set_page_bytes. change (seqZ 0 8) with [0;1;2;3;4;5;6;7]. cbn [foldl].
  assert (Ej : j = 0 \/ j = 1 \/ j = 2 \/ j = 3 \/ j = 4 \/ j = 5 \/ j = 6 \/ j = 7) by lia.
  destruct Ej as [->|[->|[->|[->|[->|[->|[->| ->]]]]]]]; unfold set_page_sector;
    repeat (rewrite lookup_total_insert_eq; done) || (repeat rewrite lookup_total_insert_ne by done; by rewrite lookup_total_insert_eq).
Qed.
(** sectors that hold a page hold its bytes *)
Lemma bytes_of_sectors (sec : Z -> sector_data) bs : Forall is_byte bs -> length bs = 4096%nat ->
  (forall j, 0 <= j < 8 -> sec j = Raw (le_val (chunk bs j))) -> flat_map (fun j => sector_bytes (sec j)) (seqZ 0 8) = bs.
Proof.
  intros Hb Hl Hs. transitivity (flat_map (chunk bs) (seqZ 0 8)).
  - assert (G : forall js, (forall j, j ∈ js -> 0 <= j < 8) -> flat_map (fun j => sector_bytes (sec j)) js = flat_map (chunk bs) js).
    { induction js as [|j js IH]; intros Hjs; [done|]. cbn [flat_map]. rewrite IH by (intros k Hk; apply Hjs, elem_of_cons; by right).
      rewrite Hs by (apply Hjs, elem_of_cons; by left). rewrite sector_bytes_chunk; [done..|]. apply Hjs, elem_of_cons. by left. }
    apply G. intros j ?%elem_of_seqZ. lia.
  - change (seqZ 0 8) with (seqZ 0 (Z.of_nat 8)). unfold chunk. rewrite chunks_all. apply take_ge. unfold SECTOR_BYTES. lia.
Qed.
Lemma zero_page_bytes mem p : (forall j, 0 <= j < 8 -> mem !!! (p, j) = Raw 0) -> page_bytes mem p = replicate 4096 0.
Proof.
  intros H. apply (bytes_of_sectors (fun j => mem !!! (p, j)) (replicate 4096 0)); [apply Forall_replicate; by unfold is_byte|by rewrite length_replicate|].
  intros j Hj. rewrite H by done. f_equal. unfold chunk. rewrite drop_replicate, take_replicate.
  assert (G : forall n, le_val (replicate n 0) = 0) by (induction n as [|n IH]; [done|cbn [replicate le_val]; by rewrite IH]). by rewrite G.
Qed.

(** ** [eio_sb_store] *)
Definition sb_sectors (ssd : gmap Z sector_data) : list Z := flat_map (fun j => sector_bytes (ssd !!! (EIO_SUPERBLOCK_START + j))) (seqZ 0 8).

Record sb_stored (l : list Z) (w : conf_world) (e : Z) (w' : conf_world) : Prop := {
  ss_run : e = io_error (next_res (cf_cw w));
  ss_world : exists mem ssd tr nx, w' = set_cf_kmem (mk_kmem (pg_live (cf_kmem w)) nx)
      (set_cf_cw (set_cw_trace tr (set_cw_k (dev_set SSD ssd (cw_k (cf_cw w))) (set_cw_mem mem (drop_res (cf_cw w))))) w) /\
    (next_res (cf_cw w) = IoOk -> sb_read (sb_sectors ssd) = sb_of w) /\
    (forall t, t < EIO_SUPERBLOCK_START \/ EIO_SUPERBLOCK_START + 8 <= t -> ssd !!! t = on_ssd (cw_k (cf_cw w)) !!! t) /\
    (forall sl, sl.1 ∈ pg_live (cf_kmem w) -> mem !!! sl = cw_mem (cf_cw w) !!! sl);
  ss_next : fresh_pages l w'
}.

Lemma sb_fields_bytes w : Forall is_byte (disk_devname w) -> Forall is_byte (cache_devname w) -> Forall is_byte (ssd_uuid w) -> Forall is_byte (cache_name w) ->
  Forall (fun f => Forall is_byte f.2) (sb_fields w).
Proof.
  intros H1 H2 H3 H4. assert (Hz : Forall is_byte [0]) by by repeat constructor. assert (S : forall n s, Forall is_byte s -> Forall is_byte (strncpy n s)).
  { intros n s Hs. unfold strncpy. apply Forall_take, Forall_app. split; [done|by apply Forall_replicate]. }
  unfold sb_fields, le32, le64. repeat (apply Forall_cons; split; [cbn [snd]; solve [apply le_bytes_range|by apply S|done]|]). constructor.
Qed.

Record names_ok (w : conf_world) : Prop := {
  no_disk : Forall is_byte (disk_devname w); no_cache : Forall is_byte (cache_devname w);
  no_uuid : Forall is_byte (ssd_uuid w); no_name : Forall is_byte (cache_name w)
}.

Lemma one_page_slot p j : 0 <= j < 8 -> page_slot [p] (Z.to_nat j) = Some (p, j).
Proof.
  intros Hj. destruct (page_slot_is [p] j) as (q & ->%list_elem_of_singleton & ->); [cbn; lia|]. by rewrite Z.mod_small.
Qed.

Lemma eio_sb_store_ok p l w : no_device (cf_d w) = false -> names_ok w -> fresh_pages (p :: l) w -> cf_kmalloc w = [] ->
  exists e w', eio_sb_store w = Some (e, w') /\ sb_stored l w e w'.
Proof.
  intros Hd [Hn1 Hn2 Hn3 Hn4] Hf Hk. unfold eio_sb_store. rewrite bind_gets. assert (Hd' := Hd). unfold no_device in Hd'. rewrite Hd'. cbv zeta.
  change (EIO_SUPERBLOCK_SIZE / PAGE_SIZE) with 1. rewrite bind_assert by done.
  destruct (eio_alloc_pages_ok [p] l w 1 Hf Hk eq_refl) as (w1 & E1 & T); [done|]. rewrite (bind_run _ _ _ _ _ E1). rewrite bind_assert by done. rewrite bind_gets.
  change ([p] !!! 0%nat) with p. cbv beta. assert (T' := T). destruct T' as [(cw1 & km & Ew) (mem1 & Ec & Hz & Hother) Hlive Hfresh].
  assert (Ew1 : w1 = set_cf_kmem km (set_cf_cw (set_cw_mem mem1 (cf_cw w)) w)) by (rewrite <-Ec, Ew; done). clear Ec Ew cw1.
  set (bs := write_fields (sb_fields (id w1)) (page_bytes (cw_mem (cf_cw (id w1))) p)).
  assert (Ebs : bs = write_fields (sb_fields w) (replicate 4096 0)).
  { subst bs w1. unfold id. change (cw_mem (cf_cw _)) with mem1. rewrite zero_page_bytes; [done|]. intros j Hj. apply Hz; [by apply list_elem_of_singleton|done]. }
  set (bs' := write_fields (sb_fields w) (replicate 4096 0)) in Ebs.
  assert (Hlen : length bs' = 4096%nat).
  { subst bs'. rewrite length_write_fields; [by rewrite length_replicate|]. rewrite length_replicate. apply shape_inside_ok. by rewrite sb_fields_shape. }
  assert (Hbyte : Forall is_byte bs') by (apply Forall_write_fields; [by apply Forall_replicate|by apply sb_fields_bytes]).
  assert (Hrt : sb_read bs' = sb_of w) by (apply sb_round_trip; by rewrite length_replicate).
  set (mem2 := set_page_bytes p bs' mem1). set (w2 := set_cf_cw (set_cw_mem mem2 (cf_cw w1)) w1).
  assert (E2 : conf_mem (fun mem => set_page_bytes p (write_fields (sb_fields (id w1)) (page_bytes mem p)) mem) w1 = Some (tt, w2)).
  { unfold w2, mem2. rewrite <-Ebs. subst bs. subst w1. done. }
  rewrite (bind_run _ _ _ _ _ E2). clear E2 Ebs bs. clearbody bs'.
  assert (Hd2 : no_device (cf_d w2) = false) by (subst w2 w1; exact Hd).
  destruct (sync_write_ok EIO_SUPERBLOCK_START 8 [p] w2 Hd2) as (e & w3 & E3 & [Hr (ssd & tr & Ew3 & Hw & Hkeep)]); [done|by cbn|by apply NoDup_singleton|].
  change (mk_region SSD EIO_SUPERBLOCK_START 8) with sb_region in E3. rewrite (bind_run _ _ _ _ _ E3).
  destruct (put_taken [p] l w w1 w3 Hf T) as (rest & E4 & Er); [by subst w3 w2|]. rewrite (bind_run _ _ _ _ _ E4).
  exists e. eexists. split; [done|]. constructor.
  - rewrite Hr. subst w2 w1. done.
  - exists mem2, ssd, tr, rest. split; [subst w3 w2 w1; by destruct w as [[]]|]. split; [|split].
    + intros Hok. rewrite <-Hrt. f_equal.
      apply bytes_of_sectors; [exact Hbyte|exact Hlen|]. intros j Hj. rewrite (Hw ltac:(subst w2 w1; exact Hok) j (p, j) Hj (one_page_slot p j Hj)).
      change (mem2 !!! (p, j) = Raw (le_val (chunk bs' j))). by apply set_page_sector_at.
    + intros t Ht. rewrite (Hkeep t Ht). by subst w2 w1.
    + intros sl Hsl. destruct Hf as [_ _ Hf]. assert (Hne : sl.1 <> p) by (intros <-; by apply (Hf sl.1); [apply elem_of_cons; left|]).
      unfold mem2. rewrite set_page_other by done. apply Hother. by intros ?%list_elem_of_singleton.
  - destruct Hf as [_ _ Hf]. destruct Hfresh as [H1 H2 H3]. constructor; cbn; [by rewrite Er|done|].
    intros q Hq Hin. apply (H3 q Hq). rewrite Hlive. set_solver.
Qed.
