(* ===== verification/LoadLoop.v ===== *)
(** * What loading makes of the blocks

    [load_slot] and [load_slots] on the cache alone: each block gets the state
    and the sector of its entry, or becomes invalid.

    ** Reading the metadata from the SSD

    The loop of [eio_md_load] over groups of pages loads block [i] from entry
    [i] of the metadata: it is [load_all] on the cache. *)

From S2P Require Import Prelude Types Mem Scan Lookup World Dispatch Disk Clean CleanState CleanSet WbAlloc Superblock MdStore MdCreate MdLoad Hits PageIo.

(** * What loading makes of the blocks *)
(** an entry that can be loaded into the cache [d] *)
Record entry_ok (d : cache_c) (f : flash_cacheblock) : Prop := {
  eo_state : 0 <= fc_state f < 256;
  eo_excl : Z.land (fc_state f) (Z.lor VALID INVALID) <> Z.lor VALID INVALID;
  eo_dbn : dbn_ok d (fc_dbn f)
}.
Definition taken_entry (clean : bool) (f : flash_cacheblock) : bool := clean || tst (fc_state f) DIRTY.
Definition loaded_state (clean : bool) (f : flash_cacheblock) : Z := if taken_entry clean f then clr (fc_state f) QUEUED else INVALID.

(** block [i] of [d'] is as its entry says *)
Record block_loaded (clean : bool) (f : flash_cacheblock) (i : Z) (d d' : cache_c) : Prop := {
  bl_state : EIO_CACHE_STATE_GET d' i = loaded_state clean f;
  bl_raw : taken_entry clean f = true -> md_raw d' i = stored_dbn d (fc_dbn f);
  bl_raw0 : taken_entry clean f = false -> md_raw d' i = 0
}.

(** only the words of the blocks [ids] differ *)
Record words_of (ids : list Z) (d d' : cache_c) : Prop := {
  wo_md : md_only d d';
  wo_state : forall j, j ∉ ids -> EIO_CACHE_STATE_GET d' j = EIO_CACHE_STATE_GET d j;
  wo_raw : forall j, j ∉ ids -> md_raw d' j = md_raw d j;
  wo_dom : (forall j, j ∈ ids -> j ∈ md_dom d) -> md_dom d' = md_dom d
}.
Lemma words_of_nil d : words_of [] d d.
Proof. by constructor. Qed.
Lemma words_of_cons i ids d d1 d' : words_of [i] d d1 -> words_of ids d1 d' -> words_of (i :: ids) d d'.
Proof.
  intros [A1 A2 A3 A4] [B1 B2 B3 B4]. constructor; [by etransitivity| | |].
  - intros j [Hi His]%not_elem_of_cons. rewrite B2, A2; [done|by intros ->%list_elem_of_singleton|done].
  - intros j [Hi His]%not_elem_of_cons. rewrite B3, A3; [done|by intros ->%list_elem_of_singleton|done].
  - intros H. assert (E : md_dom d1 = md_dom d) by (apply A4; intros j ->%list_elem_of_singleton; apply H, elem_of_cons; by left).
    rewrite B4, E; [done|]. intros j Hj. rewrite E. apply H, elem_of_cons. by right.
Qed.

Lemma invalidate_md8 d i : EIO_MD8 (eio_invalidate_md d i) = EIO_MD8 d.
Proof. unfold eio_invalidate_md. destruct (EIO_MD8 d) eqn:E; exact E. Qed.
Lemma invalidate_words d i : EIO_CACHE_STATE_GET (eio_invalidate_md d i) i = INVALID /\ md_raw (eio_invalidate_md d i) i = 0 /\
  words_of [i] d (eio_invalidate_md d i).
Proof.
  split; [|split; [|constructor]].
  - unfold EIO_CACHE_STATE_GET. rewrite invalidate_md8. unfold eio_invalidate_md. by destruct (EIO_MD8 d) eqn:E; simpl; rewrite lookup_total_insert_eq.
  - unfold md_raw. rewrite invalidate_md8. unfold eio_invalidate_md. by destruct (EIO_MD8 d) eqn:E; simpl; rewrite lookup_total_insert_eq.
  - unfold eio_invalidate_md. destruct (EIO_MD8 d); [apply md_only_set_cache_md8|apply md_only_set_cache].
  - intros j Hj. assert (i <> j) by (intros ->; by apply Hj, list_elem_of_singleton).
    unfold EIO_CACHE_STATE_GET. rewrite invalidate_md8. unfold eio_invalidate_md. by destruct (EIO_MD8 d) eqn:E; simpl; rewrite lookup_total_insert_ne.
  - intros j Hj. assert (i <> j) by (intros ->; by apply Hj, list_elem_of_singleton).
    unfold md_raw. rewrite invalidate_md8. unfold eio_invalidate_md. by destruct (EIO_MD8 d) eqn:E; simpl; rewrite lookup_total_insert_ne.
  - intros H. specialize (H i ltac:(by apply list_elem_of_singleton)). unfold md_dom in *. rewrite invalidate_md8. unfold eio_invalidate_md.
    destruct (EIO_MD8 d) eqn:E; simpl; rewrite dom_insert_L; clear -H; set_solver.
Qed.

Lemma clr_queued_excl s : Z.land s (Z.lor VALID INVALID) <> Z.lor VALID INVALID -> Z.land (clr s QUEUED) (Z.lor VALID INVALID) = Z.land s (Z.lor VALID INVALID).
Proof.
  intros _. unfold clr. apply Z.bits_inj'. intros n Hn. rewrite !Z.land_spec, Z.ldiff_spec.
  destruct (Z.testbit (Z.lor VALID INVALID) n) eqn:E; [|by rewrite !andb_false_r].
  assert (Hq : Z.testbit QUEUED n = false); [|by rewrite Hq, andb_true_r].
  change (Z.lor VALID INVALID) with 3 in E. destruct (decide (n = 0 \/ n = 1)) as [[->| ->]|]; [done..|].
  exfalso. assert (Z.testbit 3 n = false); [|congruence]. apply Z.bits_above_log2; [lia|]. change (Z.log2 3) with 1. lia.
Qed.

(** ** One block *)
Lemma load_slot_ok clean f i d : wf_geom d -> (taken_entry clean f = true -> entry_ok d f) ->
  exists d', load_slot clean f i d = Some (tst (fc_state f) DIRTY, d') /\ words_of [i] d d' /\ block_loaded clean f i d d'.
Proof.
  intros Hg Hok. unfold load_slot. fold (taken_entry clean f). destruct (taken_entry clean f) eqn:Et.
  - destruct (Hok eq_refl) as [Hs He Hd]. rewrite bind_modify, bind_gets. set (s := clr (u8 (fc_state f)) QUEUED).
    assert (Es : s = clr (fc_state f) QUEUED) by (subst s; by rewrite u8_small).
    assert (Hr : 0 <= s < 256) by (rewrite Es; by apply clr_byte).
    set (d1 := EIO_CACHE_STATE_SET d i s). assert (E1 : EIO_CACHE_STATE_GET d1 i = s) by by apply state_get_set_eq.
    rewrite E1, bind_assert.
    2:{ rewrite Es, clr_queued_excl by done. apply negb_true_iff. by apply Z.eqb_neq. }
    assert (Hg1 : geom d1 = geom d) by apply state_set_geom.
    destruct (dbn_set_exact d1 i (fc_dbn f)) as (d2 & E2 & M2 & _ & R2 & S2 & D2); [by apply (wf_geom_eq d)|by apply (geom_dbn_ok d)|].
    rewrite (bind_eval (fun d => EIO_DBN_SET d i (fc_dbn f)) _ _ d2 E2), bind_modify. exists d2. split; [done|]. split.
    + constructor.
      * etransitivity; [apply state_set_md_only|done].
      * intros j Hj. rewrite S2. apply state_get_set_ne. intros ->. by apply Hj, list_elem_of_singleton.
      * intros j Hj. rewrite R2, decide_False by (intros ->; by apply Hj, list_elem_of_singleton). apply state_set_raw.
      * intros H. specialize (H i ltac:(by apply list_elem_of_singleton)). assert (E : md_dom d1 = md_dom d) by by apply state_set_dom.
        rewrite D2, E; [done|by rewrite E].
    + constructor; [|intros _|congruence].
      * rewrite S2, E1, Es. unfold loaded_state. by rewrite Et.
      * rewrite R2, decide_True by done. unfold stored_dbn, shrunk, dbn_wrapped, EIO_DBN_TO_SET, SECTORS_PER_SET_SHIFT.
        destruct (geom_fields _ _ Hg1) as (_ & _ & _ & Eb & Ec & En & Enb & Em & E8). by rewrite Eb, Ec, En, Enb, Em, E8.
  - rewrite bind_modify. destruct (invalidate_words d i) as (A & B & C). exists (eio_invalidate_md d i). split.
    + unfold taken_entry in Et. apply orb_false_iff in Et as [_ ->]. done.
    + split; [done|]. constructor; [|congruence|done]. unfold loaded_state. by rewrite Et.
Qed.

(** ** All blocks *)
Fixpoint load_all (clean : bool) (F : Z -> flash_cacheblock) (ids : list Z) : M cache_c Z :=
  match ids with
  | [] => ret 0
  | i :: ids' =>
    dirty <- load_slot clean (F i) i ;;
    n <- load_all clean F ids' ;;
    ret ((if dirty : bool then 1 else 0) + n)
  end.
Definition dirty_entries (F : Z -> flash_cacheblock) (ids : list Z) : Z := Z.of_nat (length (List.filter (fun i => tst (fc_state (F i)) DIRTY) ids)).

Lemma load_all_ok clean F : forall ids d, wf_geom d -> NoDup ids -> (forall i, i ∈ ids -> taken_entry clean (F i) = true -> entry_ok d (F i)) ->
  exists d', load_all clean F ids d = Some (dirty_entries F ids, d') /\ words_of ids d d' /\ forall i, i ∈ ids -> block_loaded clean (F i) i d d'.
Proof.
  induction ids as [|i ids IH]; intros d Hg Hnd He; cbn [load_all].
  { exists d. split; [done|]. split; [apply words_of_nil|]. by intros i ?%not_elem_of_nil. }
  apply NoDup_cons in Hnd as [Hi Hnd].
  destruct (load_slot_ok clean (F i) i d Hg) as (d1 & E1 & W1 & B1); [apply He, elem_of_cons; by left|].
  rewrite (bind_run _ _ _ _ _ E1). assert (Hg1 : geom d1 = geom d) by apply md_only_geom, W1.
  destruct (IH d1) as (d2 & E2 & W2 & B2); [by apply (wf_geom_eq d)|done| |].
  { intros j Hj Ht. destruct (He j) as [H1 H2 H3]; [apply elem_of_cons; by right|done|]. constructor; [done..|by apply (geom_dbn_ok d)]. }
  rewrite (bind_run _ _ _ _ _ E2). exists d2. split.
  { unfold ret, dirty_entries. cbn [List.filter]. f_equal. f_equal. destruct (tst (fc_state (F i)) DIRTY); cbn [length]; lia. }
  split; [by apply (words_of_cons i ids d d1 d2)|]. intros j [->|Hj]%elem_of_cons.
  - destruct B1 as [X Y Z]. constructor; intros; rewrite ?(wo_state _ _ _ W2), ?(wo_raw _ _ _ W2) by done; auto.
  - destruct (B2 j Hj) as [X Y Z]. constructor; [done| |done]. intros Ht. rewrite (Y Ht).
    destruct (geom_fields _ _ Hg1) as (_ & _ & _ & Eb & Ec & En & Enb & Em & E8).
    unfold stored_dbn, shrunk, dbn_wrapped, EIO_DBN_TO_SET, SECTORS_PER_SET_SHIFT. by rewrite Eb, Ec, En, Enb, Em, E8.
Qed.

(** * Reading the metadata from the SSD *)
(** the world with other memory and another cache *)
Definition with_md (mem : memory) (d : cache_c) (w : conf_world) : conf_world := set_cf_cw (set_cw_mem mem (set_cw_d d (cf_cw w))) w.
Lemma with_md_same w : with_md (cw_mem (cf_cw w)) (cf_d w) w = w.
Proof. by destruct w as [[]]. Qed.

Lemma conf_dmc_run {A} (m : M cache_c A) w a d' : m (cf_d w) = Some (a, d') -> conf_dmc m w = Some (a, with_md (cw_mem (cf_cw w)) d' w).
Proof. intros E. unfold conf_dmc, conf_cw, on_cache. fold (cf_d w). rewrite E. by destruct w as [[]]. Qed.
Lemma no_device_md d d' : md_only d d' -> no_device d' = no_device d.
Proof. by intros (c & c8 & z & ->). Qed.

Lemma load_all_app clean F ids1 ids2 d : load_all clean F (ids1 ++ ids2) d =
  bind (load_all clean F ids1) (fun n1 => n2 <- load_all clean F ids2 ;; ret (n1 + n2)) d.
Proof.
  revert d. induction ids1 as [|i ids IH]; intros d; cbn [load_all app].
  { unfold bind, ret. by destruct (load_all clean F ids2 d) as [[n e]|]. }
  rewrite bind_bind. unfold bind at 1 3. destruct (load_slot clean (F i) i d) as [[b d1]|]; [|done].
  rewrite bind_bind. unfold bind at 1. rewrite IH. unfold bind, ret. destruct (load_all clean F ids d1) as [[n1 d2]|]; [|done].
  destruct (load_all clean F ids2 d2) as [[n2 d3]|]; [|done]. by rewrite Z.add_assoc.
Qed.

Lemma take_sub {A} n (l : list A) x : x ∈ take n l -> x ∈ l.
Proof. intros H. rewrite <-(take_drop n l). apply elem_of_app. by left. Qed.
Lemma take_nodup {A} n (l : list A) : NoDup l -> NoDup (take n l).
Proof. intros H. rewrite <-(take_drop n l) in H. by apply NoDup_app in H as [H _]. Qed.

(** ** The entries of the pages *)
Lemma load_slots_ok clean F pages base : forall n j0 w c d',
  (forall j, j0 <= j < j0 + Z.of_nat n -> page_entry (cw_mem (cf_cw w)) pages j = Some (F (base + j))) ->
  load_all clean F (seqZ (base + j0) (Z.of_nat n)) (cf_d w) = Some (c, d') ->
  load_slots clean pages (base + j0) (seqZ j0 (Z.of_nat n)) w = Some (c, with_md (cw_mem (cf_cw w)) d' w).
Proof.
  induction n as [|n IH]; intros j0 w c d' Hp.
  { cbn. intros [= <- <-]. by rewrite with_md_same. }
  rewrite !(seqZ_cons _ (Z.of_nat (S n))) by lia. replace (Z.pred (Z.of_nat (S n))) with (Z.of_nat n) by lia. cbn [load_all load_slots].
  rewrite (bind_eval (fun w => page_entry (cw_mem (cf_cw w)) pages j0) _ w (F (base + j0))) by (apply Hp; lia).
  unfold bind at 1. destruct (load_slot clean (F (base + j0)) (base + j0) (cf_d w)) as [[b d1]|] eqn:E1; [|done]. intros E.
  rewrite (bind_run _ _ _ _ _ (conf_dmc_run _ w b d1 E1)). set (w1 := with_md _ d1 w) in *.
  unfold bind in E. destruct (load_all clean F (seqZ (Z.succ (base + j0)) (Z.of_nat n)) d1) as [[c1 d2]|] eqn:E2; [|done].
  unfold ret in E. injection E as <- <-.
  replace (Z.succ (base + j0)) with (base + Z.succ j0) in E2 by lia.
  assert (E3 := IH (Z.succ j0) w1 c1 d2). replace (base + j0 + 1) with (base + Z.succ j0) by lia.
  rewrite (bind_run _ _ _ _ _ (E3 ltac:(intros j Hj; apply Hp; lia) E2)). done.
Qed.

(** ** The loop *)
(** the metadata of [size] blocks on the SSD, from sector [start] *)
Definition md_on_ssd (ssd : gmap Z sector_data) (start size : Z) (F : Z -> flash_cacheblock) : Prop :=
  forall i, 0 <= i < size -> sector_entry (ssd !!! (start + i / 32)) (Z.to_nat (i mod 32)) = F i.

Section load_loop.
Context (ssd : gmap Z sector_data) (start size : Z) (F : Z -> flash_cacheblock) (Hmd : md_on_ssd ssd start size F).
Context (pages : list Z) (Hnd : NoDup pages) (Hne : pages <> []).

Lemma page_entry_read mem i n c : 0 <= i -> (256 | i) -> 0 < n -> i + n <= size -> c = (n + 31) / 32 ->
  (forall j sl, 0 <= j < c -> page_slot pages (Z.to_nat j) = Some sl -> mem !!! sl = ssd !!! (start + i / 32 + j)) -> n <= 256 * Z.of_nat (length pages) ->
  forall j, 0 <= j < n -> page_entry mem pages j = Some (F (i + j)).
Proof.
  intros Hi [x ->] Hn Hs -> Hm Hl j Hj. unfold page_entry. change MD_BLOCKS_PER_PAGE with 256. change MD_BLOCKS_PER_SECTOR with 32.
  assert (Hj32 : 0 <= j / 32 < (n + 31) / 32) by (Z.to_euclidean_division_equations; lia).
  destruct (lookup_lt_is_Some_2 pages (Z.to_nat (j / 256))) as [p Ep]; [Z.to_euclidean_division_equations; lia|]. rewrite Ep.
  assert (Es : page_slot pages (Z.to_nat (j / 32)) = Some (p, j mod 256 / 32)).
  { unfold page_slot.
    assert (Ed : (Z.to_nat (j / 32) / 8)%nat = Z.to_nat (j / 256)).
    { apply Nat2Z.inj. rewrite Nat2Z.inj_div, !Z2Nat.id by (Z.to_euclidean_division_equations; lia). Z.to_euclidean_division_equations; lia. }
    rewrite Ed, Ep. f_equal. f_equal. rewrite Nat2Z.inj_mod, !Z2Nat.id by lia. Z.to_euclidean_division_equations; lia. }
  rewrite (Hm _ _ Hj32 Es). f_equal. rewrite <-(Hmd (x * 256 + j)) by lia.
  replace ((x * 256 + j) / 32) with (x * 256 / 32 + j / 32) by (Z.to_euclidean_division_equations; lia).
  replace ((x * 256 + j) mod 32) with (j mod 32) by (Z.to_euclidean_division_equations; lia). by rewrite Z.add_assoc.
Qed.

(** the numbers of one step *)
Definition load_n (i : Z) : Z := Z.min (size - i) (256 * Z.of_nat (length pages)).
Lemma load_sizes i : 0 <= i < size -> let n := load_n i in
  (if negb (n mod 32 =? 0) then 1 + n / 32 else n / 32) = (n + 31) / 32 /\
  (if negb (n mod 256 =? 0) then 1 + n / 256 else n / 256) = (n + 255) / 256 /\
  0 < (n + 31) / 32 /\ 0 <= (n + 255) / 256 <= Z.of_nat (length pages) /\
  8 * ((n + 255) / 256 - 1) < (n + 31) / 32 <= 8 * ((n + 255) / 256) /\ 0 < n.
Proof.
  intros Hi n. assert (Hp : 0 < Z.of_nat (length pages)) by (destruct pages; [done|cbn; lia]).
  assert (Hn : 0 < n <= 256 * Z.of_nat (length pages)) by (unfold n, load_n; lia). clearbody n.
  destruct (Z.eqb_spec (n mod 32) 0), (Z.eqb_spec (n mod 256) 0); cbn [negb]; split_and!; Z.to_euclidean_division_equations; lia.
Qed.

Lemma load_loop_ok clean : forall fuel i w c d', 0 <= i <= size -> (256 | i) -> (Z.to_nat (size - i) <= fuel)%nat ->
  cw_results (cf_cw w) = [] -> no_device (cf_d w) = false -> on_ssd (cw_k (cf_cw w)) = ssd -> wf_geom (cf_d w) ->
  (forall j, 0 <= j < size -> taken_entry clean (F j) = true -> entry_ok (cf_d w) (F j)) ->
  load_all clean F (seqZ i (size - i)) (cf_d w) = Some (c, d') ->
  exists mem, load_loop fuel clean pages i (size - i) (start + i / 32) w = Some (Some ((size - i + 31) / 32, c), with_md mem d' w) /\
    forall sl, sl.1 ∉ pages -> mem !!! sl = cw_mem (cf_cw w) !!! sl.
Proof.
  induction fuel as [|fuel IH]; intros i w c d' Hi Hi256 Hfuel Hres Hdev Hssd Hg He Hall.
  { assert (Es : size - i = 0) by lia. rewrite Es in *. cbn in Hall |- *. injection Hall as <- <-. exists (cw_mem (cf_cw w)). split; [|done]. by rewrite with_md_same. }
  cbn [load_loop]. destruct (Z.leb_spec (size - i) 0) as [Hle|Hlt].
  { assert (Es : size - i = 0) by lia. rewrite Es in *. cbn in Hall |- *. injection Hall as <- <-. exists (cw_mem (cf_cw w)). split; [|done]. by rewrite with_md_same. }
  cbv zeta. change MD_BLOCKS_PER_PAGE with 256. change MD_BLOCKS_PER_SECTOR with 32. fold (load_n i).
  destruct (load_sizes i ltac:(lia)) as (-> & -> & Hc & Hpc & Hcp & Hn). set (n := load_n i) in *. set (cnt := (n + 31) / 32) in *. set (pc := (n + 255) / 256) in *.
  assert (Hlen : length (take (Z.to_nat pc) pages) = Z.to_nat pc) by (rewrite length_take; lia).
  destruct (sync_read_ok (start + i / 32) cnt (take (Z.to_nat pc) pages) w Hdev Hc) as (e & w1 & E1 & [Hr (mem & Ew1 & Hrd & Hoth)]);
    [rewrite Hlen; lia|by apply take_nodup|].
  assert (Er : next_res (cf_cw w) = IoOk) by (unfold next_res; by rewrite Hres). rewrite Er in Hr. assert (e = 0) as -> by done. clear Hr.
  rewrite (bind_run _ _ _ _ _ E1). cbn [Z.eqb negb].
  assert (Ew : w1 = with_md mem (cf_d w) w).
  { rewrite Ew1. unfold drop_res, with_md. rewrite Hres. destruct w as [[]]; cbn in *. by subst. }
  assert (Hent : forall j, 0 <= j < n -> page_entry mem pages j = Some (F (i + j))).
  { apply (page_entry_read mem i n cnt); [lia|done|done|unfold n, load_n; lia|done| |unfold n, load_n; lia].
    intros j sl Hj Hs. rewrite <-Hssd. apply (Hrd eq_refl Er j sl Hj). unfold page_slot in *. rewrite lookup_take_lt; [done|].
    apply Nat2Z.inj_lt. rewrite Nat2Z.inj_div, !Z2Nat.id by lia. apply Z.div_lt_upper_bound; lia. }
  assert (Eseq : seqZ i (size - i) = seqZ i n ++ seqZ (i + n) (size - (i + n))).
  { rewrite <-seqZ_app by (unfold n, load_n; lia). f_equal. lia. }
  rewrite Eseq, load_all_app in Hall.
  destruct (load_all_ok clean F (seqZ i n) (cf_d w) Hg) as (d1 & L1 & W1 & _); [apply NoDup_seqZ|intros j Hj%elem_of_seqZ; apply He; unfold n, load_n in *; lia|].
  rewrite (bind_run _ _ _ _ _ L1) in Hall. unfold bind in Hall. destruct (load_all clean F (seqZ (i + n) (size - (i + n))) d1) as [[c2 d2]|] eqn:L2; [|done].
  unfold ret in Hall. injection Hall as <- <-.
  assert (Es : load_slots clean pages i (seqZ 0 n) w1 = Some (dirty_entries F (seqZ i n), with_md mem d1 w1)).
  { rewrite Ew. assert (En : n = Z.of_nat (Z.to_nat n)) by lia. rewrite <-(Z.add_0_r i) at 1. rewrite En at 1.
    apply (load_slots_ok clean F pages i (Z.to_nat n) 0 (with_md mem (cf_d w) w)); [intros j Hj; apply Hent; lia|]. rewrite Z.add_0_r, <-En. exact L1. }
  rewrite (bind_run _ _ _ _ _ Es). set (w2 := with_md mem d1 w1).
  assert (Ew2 : w2 = with_md mem d1 w) by (unfold w2; by rewrite Ew).
  assert (Hgeo : geom d1 = geom (cf_d w)) by apply md_only_geom, W1.
  destruct (decide (i + n = size)) as [Elast|Emore].
  - assert (E0 : size - (i + n) = 0) by lia. rewrite E0 in L2. cbn in L2. injection L2 as <- <-. replace (size - i - n) with 0 by lia.
    assert (El : load_loop fuel clean pages (i + n) 0 (start + i / 32 + cnt) w2 = Some (Some (0, 0), w2)) by (by destruct fuel).
    rewrite (bind_run _ _ _ _ _ El). exists mem. split; [|intros sl Hsl; rewrite Hoth; [done|]; by intros ?%take_sub].
    rewrite Ew2. cbn [option_map fst snd]. rewrite Z.add_0_r. replace (size - i) with n by lia. done.
  - assert (Efull : n = 256 * Z.of_nat (length pages)) by (unfold n, load_n in *; lia).
    assert (Ecnt : cnt = 8 * Z.of_nat (length pages)) by (unfold cnt; rewrite Efull; clear; Z.to_euclidean_division_equations; lia).
    destruct (IH (i + n) w2 c2 d2) as (mem2 & E2 & Hm2).
    { unfold n, load_n in *; lia. } { destruct Hi256 as [x ->]. rewrite Efull. exists (x + Z.of_nat (length pages)). lia. } { lia. }
    { by rewrite Ew2. } { rewrite Ew2. rewrite <-Hdev. apply no_device_md, W1. } { by rewrite Ew2. } { rewrite Ew2. by apply (wf_geom_eq (cf_d w)). }
    { intros j Hj Ht. rewrite Ew2. destruct (He j Hj Ht) as [X Y Z]. constructor; [done..|by apply (geom_dbn_ok (cf_d w))]. }
    { by rewrite Ew2. }
    replace (size - i - n) with (size - (i + n)) by lia.
    replace (start + i / 32 + cnt) with (start + (i + n) / 32).
    2:{ rewrite Ecnt, Efull. destruct Hi256 as [x ->]. clear. Z.to_euclidean_division_equations; lia. }
    rewrite (bind_run _ _ _ _ _ E2). exists mem2. split.
    + cbn [option_map fst snd]. rewrite Ew2. unfold ret. f_equal. f_equal. f_equal. f_equal. rewrite Ecnt, Efull. clear. Z.to_euclidean_division_equations; lia.
    + intros sl Hsl. rewrite Hm2 by done. rewrite Ew2. apply Hoth. by intros ?%take_sub.
Qed.
End load_loop.
