(* ===== verification/Recovery.v ===== *)
(** * [eio_md_load] restores the cache

    When every allocation and transfer succeeds and the superblock and the
    entries are acceptable, loading gives a cache of the geometry the superblock
    says, whose blocks are as their entries say.

    ** The loaded cache and what it holds

    [cache_built] is the cache after [eio_cache_create] has finished with the
    blocks.  Its blocks satisfy the invariant of the in-core metadata, and after
    an unclean shutdown it stands for the contents recovered from the devices. *)

From S2P Require Import Prelude Types Mem Scan Fifo Rand Lru Policy Lookup World Dispatch Disk Clean CleanState CleanSet WbAlloc Hits Superblock MdStore MdCreate MdLoad PageIo LoadLoop CleanIo.

(** * [eio_md_load] restores the cache *)
(** pages go back to the allocator *)
Lemma put_back ps l live w2 : NoDup ps -> (forall p, p ∈ ps -> p ∉ live) -> pg_live (cf_kmem w2) = list_to_set ps ∪ live -> fresh_pages l w2 ->
  exists w3, put_pages ps w2 = Some (tt, w3) /\ w3 = set_cf_kmem (mk_kmem live (pg_next (cf_kmem w2))) w2 /\ fresh_pages l w3.
Proof.
  intros Hnd Hfree Hl [F1 F2 F3]. rewrite put_pages_ok; [|done|intros p Hp; rewrite Hl; clear -Hp; set_solver]. eexists. split; [done|].
  assert (Es : pg_live (cf_kmem w2) ∖ list_to_set ps = live) by (rewrite Hl; clear -Hfree; set_solver). rewrite Es. split; [done|].
  constructor; [done|done|]. intros p Hp Hin. apply (F3 p Hp). rewrite Hl. cbn in Hin. clear -Hin. set_solver.
Qed.

(** an operation of the administration ended: the cache, the SSD, the pages *)
Record admin_end (w : conf_world) (live : gset Z) (l : list Z) (d' : cache_c) (ssd' : gmap Z sector_data) (w' : conf_world) : Prop := {
  ae_d : cf_d w' = d';
  ae_ssd : on_ssd (cw_k (cf_cw w')) = ssd';
  ae_hdd : on_hdd (cw_k (cf_cw w')) = on_hdd (cw_k (cf_cw w));
  ae_live : pg_live (cf_kmem w') = live;
  ae_fresh : fresh_pages l w'
}.

(** only the superblock differs, and it is [h] *)
Definition sb_updated (ssd : gmap Z sector_data) (h : superblock) (ssd' : gmap Z sector_data) : Prop :=
  sb_read (sb_sectors ssd') = h /\ forall t, t < EIO_SUPERBLOCK_START \/ EIO_SUPERBLOCK_START + 8 <= t -> ssd' !!! t = ssd !!! t.

Lemma sectors_expected_eq d : 0 <= dmc_size d -> sectors_expected d = (dmc_size d - 0 + 31) / 32.
Proof.
  intros Hs. unfold sectors_expected, EIO_DIV, EIO_REM. change MD_BLOCKS_PER_SECTOR with 32.
  destruct (Z.eqb_spec (dmc_size d mod 32) 0); cbn [negb]; Z.to_euclidean_division_equations; lia.
Qed.

(** ** The blocks and the superblock *)
Definition as_dirty (d : cache_c) : cache_c := set_sb_state CACHE_MD_STATE_DIRTY d.
Definition conf_with (d : cache_c) (w : conf_world) : conf_world := with_md (cw_mem (cf_cw w)) d w.
Lemma sb_of_ext w w' : cf_d w = cf_d w' -> eio_force_warm_boot w = eio_force_warm_boot w' -> sb_of w = sb_of w'.
Proof. intros E1 E2. unfold sb_of, sb_boot_flags. by rewrite E1, E2. Qed.

Lemma md_load_pages_ok clean pages sp l F w : no_device (cf_d w) = false -> cw_results (cf_cw w) = [] -> wf_geom (cf_d w) ->
  md_on_ssd (on_ssd (cw_k (cf_cw w))) (md_start_sect (cf_d w)) (dmc_size (cf_d w)) F ->
  (forall i, 0 <= i < dmc_size (cf_d w) -> taken_entry clean (F i) = true -> entry_ok (cf_d w) (F i)) ->
  mode (cf_d w) = CACHE_MODE_WB \/ dirty_entries F (seqZ 0 (dmc_size (cf_d w))) = 0 ->
  NoDup pages -> pages <> [] -> names_ok w -> fresh_pages (sp :: l) w -> cf_kmalloc w = [] ->
  exists d1 ssd' w', load_all clean F (seqZ 0 (dmc_size (cf_d w))) (cf_d w) = Some (dirty_entries F (seqZ 0 (dmc_size (cf_d w))), d1) /\
    md_load_pages clean pages w = Some (0, w') /\ admin_end w (pg_live (cf_kmem w)) l (as_dirty d1) ssd' w' /\
    sb_updated (on_ssd (cw_k (cf_cw w))) (sb_of (conf_with (as_dirty d1) w)) ssd'.
Proof.
  intros Hd Hres Hg Hmd He Hmode Hnd Hne Hnames Hf Hk. set (d := cf_d w) in *.
  assert (Hsz : 0 <= dmc_size d) by (rewrite (geo_size d Hg); pose proof (assoc_pos d Hg); pose proof (num_sets_pos d Hg); nia).
  destruct (load_all_ok clean F (seqZ 0 (dmc_size d)) d Hg) as (d1 & L1 & W1 & _); [apply NoDup_seqZ|intros i Hi%elem_of_seqZ; apply He; lia|].
  unfold md_load_pages. rewrite bind_gets. fold d.
  assert (L1' := L1). rewrite <-(Z.sub_0_r (dmc_size d)) in L1' at 1.
  destruct (load_loop_ok (on_ssd (cw_k (cf_cw w))) (md_start_sect d) (dmc_size d) F Hmd pages Hnd Hne clean (Z.to_nat (dmc_size d)) 0 w _ d1
    ltac:(lia) ltac:(by exists 0) ltac:(lia) Hres Hd eq_refl Hg He L1') as (mem & E1 & _).
  rewrite Z.sub_0_r, Z.div_0_l, Z.add_0_r in E1 by lia. rewrite (bind_run _ _ _ _ _ E1). cbv beta iota.
  assert (Em : negb (dirty_entries F (seqZ 0 (dmc_size d)) =? 0) && negb (mode d =? CACHE_MODE_WB) = false) by (destruct Hmode as [->| ->]; [by rewrite andb_false_r|done]).
  rewrite Em. rewrite (sectors_expected_eq d Hsz), Z.sub_0_r, Z.eqb_refl. cbn [negb].
  assert (E2 : conf_upd (set_sb_state CACHE_MD_STATE_DIRTY) (with_md mem d1 w) = Some (tt, with_md mem (as_dirty d1) w)) by exact (conf_dmc_run (modify (set_sb_state CACHE_MD_STATE_DIRTY)) (with_md mem d1 w) tt (as_dirty d1) eq_refl).
  rewrite (bind_run _ _ _ _ _ E2). set (w2 := with_md mem (as_dirty d1) w).
  assert (Hd2 : no_device (cf_d w2) = false) by (rewrite <-Hd; apply (no_device_md d d1), W1).
  destruct (eio_sb_store_ok sp l w2 Hd2) as (e & w3 & E3 & [Hr (mem3 & ssd & tr & nx & Ew3 & Hsb & Hkeep & _) Hnext]).
  { by destruct Hnames. } { destruct Hf as [F1 F2 F3]. by constructor. } { done. }
  assert (Er : next_res (cf_cw w2) = IoOk) by (unfold next_res; cbn; by rewrite Hres). rewrite Er in Hr. assert (e = 0) as -> by done.
  rewrite (bind_run _ _ _ _ _ E3). cbn [Z.eqb negb]. exists d1, ssd, w3. split; [done|]. split; [done|]. split.
  - constructor; [by rewrite Ew3|by rewrite Ew3|by rewrite Ew3|by rewrite Ew3|done].
  - split; [|done]. rewrite (Hsb Er). by apply sb_of_ext.
Qed.

(** ** The memory *)
Lemma repl_blk_init_ok p blk d : exists d', eio_repl_blk_init p (Some blk) d = Some (0, d') /\ pol_only d d'.
Proof.
  destruct p as [[]|]; (eexists; split; [reflexivity|]); try reflexivity. by exists (random d), blk, (sp_cache_set d).
Qed.
Lemma set_words_geom m d : geom (set_words m d) = geom d.
Proof. unfold set_words. by destruct (EIO_MD8 d). Qed.

(** the cache with [m] as the memory of its words *)
Definition words_alloc (m : gmap Z Z) (d d' : cache_c) : Prop := pol_only (set_words m d) d'.
Lemma words_alloc_geom m d d' : words_alloc m d d' -> geom d' = geom d.
Proof. intros (r & b & s & ->). apply set_words_geom. Qed.
Lemma words_alloc_fields m d d' : words_alloc m d d' -> md_start_sect d' = md_start_sect d /\ mode d' = mode d /\ no_device d' = no_device d /\
  bio_nr_pages d' = bio_nr_pages d /\ md_sectors d' = md_sectors d /\ md_dom d' = dom m.
Proof.
  intros (r & b & s & ->). unfold set_words. destruct (EIO_MD8 d) eqn:E; split_and!; try done; unfold md_dom.
  - assert (E' : EIO_MD8 (set_random r (set_sp_cache_blk b (set_sp_cache_set s (set_cache_md8 m d)))) = true) by exact E. by rewrite E'.
  - assert (E' : EIO_MD8 (set_random r (set_sp_cache_blk b (set_sp_cache_set s (set_cache m d)))) = false) by exact E. by rewrite E'.
Qed.
Lemma entry_ok_geom d d' f : geom d' = geom d -> entry_ok d f -> entry_ok d' f.
Proof. intros E [H1 H2 H3]. constructor; [done..|by apply (geom_dbn_ok d)]. Qed.
Lemma names_ok_ext w w' : disk_devname w' = disk_devname w -> cache_devname w' = cache_devname w -> ssd_uuid w' = ssd_uuid w -> cache_name w' = cache_name w ->
  names_ok w -> names_ok w'.
Proof. intros E1 E2 E3 E4 [H1 H2 H3 H4]. constructor; congruence. Qed.

(** what loading needs of the devices and of the machine *)
Record load_env (clean : bool) (w : conf_world) (d : cache_c) (F : Z -> flash_cacheblock) : Prop := {
  le_dev : no_device d = false;
  le_res : cw_results (cf_cw w) = [];
  le_geom : wf_geom d;
  le_md : md_on_ssd (on_ssd (cw_k (cf_cw w))) (md_start_sect d) (dmc_size d) F;
  le_entries : forall i, 0 <= i < dmc_size d -> taken_entry clean (F i) = true -> entry_ok d (F i);
  le_mode : mode d = CACHE_MODE_WB \/ dirty_entries F (seqZ 0 (dmc_size d)) = 0;
  le_names : names_ok w;
  le_kmalloc : cf_kmalloc w = []
}.

Lemma md_load_alloc_ok clean pages sp l F m vs blk w : load_env clean w (cf_d w) F ->
  cf_vmalloc w = Some m :: vs -> cf_blk w = Some blk -> fresh_pages (pages ++ sp :: l) w -> pages <> [] ->
  Z.of_nat (length pages) = Z.min (bio_nr_pages (cf_d w)) MD_MAX_NR_PAGES ->
  exists d2 d3 ssd' w', words_alloc m (cf_d w) d2 /\ load_all clean F (seqZ 0 (dmc_size (cf_d w))) d2 = Some (dirty_entries F (seqZ 0 (dmc_size (cf_d w))), d3) /\
    md_load_alloc clean w = Some ((0, true), w') /\ admin_end w (pg_live (cf_kmem w)) l (as_dirty d3) ssd' w' /\
    sb_updated (on_ssd (cw_k (cf_cw w))) (sb_of (conf_with (as_dirty d3) w)) ssd'.
Proof.
  intros [E1 E2 E3 E4 E5 E6 E7 E8] Hv Hb Hf Hne Hlen. unfold md_load_alloc. set (d := cf_d w) in *.
  assert (R1 : conf_vmalloc w = Some (Some m, set_cf_vmalloc vs w)) by (unfold conf_vmalloc; by rewrite Hv). rewrite (bind_run _ _ _ _ _ R1).
  set (w1 := set_cf_vmalloc vs w).
  assert (R2 : conf_upd (set_words m) w1 = Some (tt, conf_with (set_words m d) w1)) by exact (conf_dmc_run (modify (set_words m)) w1 tt (set_words m d) eq_refl).
  rewrite (bind_run _ _ _ _ _ R2). set (w2 := conf_with _ w1). rewrite bind_gets. change (cf_blk w2) with (cf_blk w). rewrite Hb.
  destruct (repl_blk_init_ok (policy_ops (cf_d w2)) blk (cf_d w2)) as (d2 & R3 & P3). change (cf_d w2) with (set_words m d) in P3, R3 at 2.
  assert (A : words_alloc m d d2) by exact P3. destruct (words_alloc_fields _ _ _ A) as (F1 & F2 & F3 & F4 & _ & _). pose proof (words_alloc_geom _ _ _ A) as Hgeo.
  assert (R4 : conf_dmc (fun d => eio_repl_blk_init (policy_ops d) (Some blk) d) w2 = Some (0, conf_with d2 w2)) by (apply conf_dmc_run; exact R3).
  rewrite (bind_run _ _ _ _ _ R4). cbn [Z.eqb negb]. set (w3 := conf_with d2 w2). rewrite bind_gets. change (cf_d w3) with d2.
  assert (Ew3 : w3 = set_cf_vmalloc vs (conf_with d2 w)) by done. clearbody w3. clear R1 R2 R3 R4 w2 w1.
  assert (Hf3 : fresh_pages (pages ++ sp :: l) w3) by (rewrite Ew3; destruct Hf; by constructor).
  destruct (eio_alloc_pages_ok pages (sp :: l) w3 (bio_nr_pages d2) Hf3) as (w4 & R5 & T); [by rewrite Ew3|by rewrite F4|done|].
  rewrite (bind_run _ _ _ _ _ R5). destruct T as [(cw4 & km & Ew4) (mem4 & Ec4 & _ & Hoth) Hlive Hfr].
  assert (Ew4' : w4 = set_cf_kmem km (set_cf_vmalloc vs (with_md mem4 d2 w))).
  { rewrite Ew4 in Ec4. cbn in Ec4. rewrite Ew4, Ec4, Ew3. done. }
  assert (R6 : conf_kmalloc w4 = Some (true, w4)) by (unfold conf_kmalloc; rewrite Ew4'; cbn; by rewrite E8).
  rewrite (bind_run _ _ _ _ _ R6). cbn [negb].
  assert (Hd4 : cf_d w4 = d2) by by rewrite Ew4'.
  assert (Hpn : NoDup pages) by (destruct Hf as [_ Hn _]; by apply NoDup_app in Hn as [? _]).
  destruct (md_load_pages_ok clean pages sp l F w4) as (d3 & ssd' & w5 & L & R7 & [X1 X2 X3 X4 X5] & [Y1 Y2]); rewrite ?Hd4.
  { by rewrite F3. } { by rewrite Ew4'. } { by apply (wf_geom_eq d). }
  { rewrite F1. destruct (geom_fields _ _ Hgeo) as (-> & _). rewrite Ew4'. exact E4. }
  { destruct (geom_fields _ _ Hgeo) as (-> & _). intros i Hi Ht. by apply (entry_ok_geom d), E5. }
  { destruct (geom_fields _ _ Hgeo) as (-> & _). by rewrite F2. }
  { done. } { done. } { apply (names_ok_ext w); by rewrite ?Ew4'. } { done. } { by rewrite Ew4'. }
  rewrite (bind_run _ _ _ _ _ R7).
  destruct (put_back pages l (pg_live (cf_kmem w)) w5 Hpn) as (w6 & R8 & Ew6 & Hf6).
  { destruct Hf as [_ _ Hfree]. intros p Hp. apply Hfree, elem_of_app. by left. } { rewrite X4, Hlive, Ew3. done. } { done. }
  rewrite (bind_run _ _ _ _ _ R8). destruct (geom_fields _ _ Hgeo) as (Esz & _). rewrite Hd4, Esz in L.
  exists d2, d3, ssd', w6. split; [done|]. split; [done|]. split; [done|]. split.
  - constructor; [by rewrite Ew6|by rewrite Ew6|rewrite Ew6; etransitivity; [exact X3|by rewrite Ew4']|by rewrite Ew6|done].
  - split; [|by rewrite Ew4' in Y2]. rewrite Y1. apply sb_of_ext; by rewrite ?Ew4'.
Qed.

(** ** The superblock *)

(** the cache as the superblock [h] configures it *)
Definition load_config (h : superblock) (pols : list eio_policy_header) (d : cache_c) : option cache_c :=
  match eio_policy_init true pols (sb_config h {| d with sb_version := EIO_SB_VERSION |}) with
  | Some (e, dp) =>
    if negb (e =? 0) then None
    else match eio_mem_init (sb_geometry h dp) with Some (i, d0) => if i =? -1 then None else Some d0 | None => None end
  | None => None
  end.
(** the superblock is accepted *)
Definition sb_accepted (h : superblock) : Prop := sb_check h = SbUse /\ sb_state_ok h = true.

(** loading succeeds: the cache [d0] of the superblock, its blocks loaded *)
Record loaded (w : conf_world) (d0 : cache_c) (clean : bool) (F : Z -> flash_cacheblock) (m : gmap Z Z) (l : list Z) (w' : conf_world) (d3 : cache_c) : Prop := {
  ld_load : exists d2, words_alloc m d0 d2 /\ load_all clean F (seqZ 0 (dmc_size d0)) d2 = Some (dirty_entries F (seqZ 0 (dmc_size d0)), d3);
  ld_end : exists ssd', admin_end w (pg_live (cf_kmem w)) l (as_dirty d3) ssd' w' /\
    sb_updated (on_ssd (cw_k (cf_cw w))) (sb_of (conf_with (as_dirty d3) w)) ssd'
}.

Lemma conf_dmc_run' {A} (m : M cache_c A) w a d' : m (cf_d w) = Some (a, d') -> conf_dmc m w = Some (a, conf_with d' w).
Proof. apply conf_dmc_run. Qed.

Lemma md_load_sb_ok pages sp l F m vs blk h d0 w : sb_accepted h -> load_config h (cf_policies w) (cf_d w) = Some d0 -> load_env (sb_clean_shutdown (cf_d w) h) w d0 F ->
  cf_vmalloc w = Some m :: vs -> cf_blk w = Some blk -> fresh_pages (pages ++ sp :: l) w -> pages <> [] ->
  Z.of_nat (length pages) = Z.min (bio_nr_pages d0) MD_MAX_NR_PAGES ->
  exists w' d3, md_load_sb h w = Some ((0, true), w') /\ loaded w d0 (sb_clean_shutdown (cf_d w) h) F m l w' d3.
Proof.
  intros [Hc Hs] Hcfg He Hv Hb Hf Hne Hlen. unfold md_load_sb. rewrite Hc. set (d := cf_d w) in *. unfold load_config in Hcfg. set (dv := {| d with sb_version := EIO_SB_VERSION |}) in *.
  assert (R1 : conf_upd (fun d => {| d with sb_version := EIO_SB_VERSION |}) w = Some (tt, conf_with dv w)) by exact (conf_dmc_run' (modify _) w tt dv eq_refl).
  rewrite (bind_run _ _ _ _ _ R1), Hs. cbn [negb]. rewrite bind_gets. change (sb_clean_shutdown (cf_d (conf_with dv w)) h) with (sb_clean_shutdown d h).
  set (clean := sb_clean_shutdown d h). set (w1 := conf_with dv w).
  assert (R2 : conf_upd (sb_config h) w1 = Some (tt, conf_with (sb_config h dv) w1)) by exact (conf_dmc_run' (modify _) w1 tt (sb_config h dv) eq_refl).
  rewrite (bind_run _ _ _ _ _ R2). set (w2 := conf_with _ w1).
  assert (Hk : cf_kmalloc w = []) by apply He. assert (R3 : conf_kmalloc w2 = Some (true, w2)) by (unfold conf_kmalloc; change (cf_kmalloc w2) with (cf_kmalloc w); by rewrite Hk).
  rewrite (bind_run _ _ _ _ _ R3), bind_gets. change (cf_policies w2) with (cf_policies w).
  destruct (eio_policy_init true (cf_policies w) (sb_config h dv)) as [[e dp]|] eqn:Ep; [|done]. destruct (Z.eqb_spec e 0) as [->|]; [|done]. cbn [negb] in Hcfg.
  rewrite (bind_run _ _ _ _ _ (conf_dmc_run' (eio_policy_init true (cf_policies w)) w2 0 dp Ep)). cbn [Z.eqb negb]. set (w3 := conf_with dp w2).
  assert (R4 : conf_upd (sb_geometry h) w3 = Some (tt, conf_with (sb_geometry h dp) w3)) by exact (conf_dmc_run' (modify _) w3 tt (sb_geometry h dp) eq_refl).
  rewrite (bind_run _ _ _ _ _ R4), bind_modify. set (w4 := set_cf_cache_size _ _).
  destruct (eio_mem_init (sb_geometry h dp)) as [[i d0']|] eqn:Ei; [|done]. destruct (Z.eqb_spec i (-1)) as [|Hi]; [done|]. injection Hcfg as ->.
  rewrite (bind_run _ _ _ _ _ (conf_dmc_run' eio_mem_init w4 i d0 Ei)). rewrite (proj2 (Z.eqb_neq i (-1)) Hi). set (w5 := conf_with d0 w4).
  assert (Ew5 : w5 = set_cf_cache_size (sb_cache_devsize h) (conf_with d0 w)) by done. clearbody w5. clear R1 R2 R3 R4 w4 w3 w2 w1.
  destruct (md_load_alloc_ok clean pages sp l F m vs blk w5) as (d2 & d3 & ssd' & w6 & A & L & R & [X1 X2 X3 X4 X5] & [Y1 Y2]).
  { subst w5. destruct He as [E1 E2 E3 E4 E5 E6 [N1 N2 N3 N4] E8]. by constructor. }
  { by subst w5. } { by subst w5. } { subst w5. destruct Hf. by constructor. } { done. } { by subst w5. }
  exists w6, d3. split; [done|]. subst w5. constructor.
  - by exists d2.
  - exists ssd'. split; [by constructor|]. split; [|done]. rewrite Y1. by apply sb_of_ext.
Qed.

Lemma header_bytes mem (ssd : gmap Z sector_data) hp : (forall j, 0 <= j < 8 -> mem !!! (hp, j) = ssd !!! (EIO_SUPERBLOCK_START + j)) ->
  page_bytes mem hp = sb_sectors ssd.
Proof.
  intros H. unfold page_bytes, sb_sectors. assert (G : forall js, (forall j, j ∈ js -> 0 <= j < 8) -> 
    flat_map (fun j => sector_bytes (mem !!! (hp, j))) js = flat_map (fun j => sector_bytes (ssd !!! (EIO_SUPERBLOCK_START + j))) js).
  { induction js as [|j js IH]; intros Hj; [done|]. cbn [flat_map]. rewrite H by (apply Hj, elem_of_cons; by left). f_equal. apply IH. intros; apply Hj, elem_of_cons. by right. }
  apply G. intros j ?%elem_of_seqZ. lia.
Qed.

(** ** [eio_md_load] *)
Record load_world (w : conf_world) (d0 : cache_c) (F : Z -> flash_cacheblock) (hp : Z) (pages : list Z) (sp : Z) (l : list Z) (m : gmap Z Z) : Prop := {
  lw_d : CACHE_FAILED_IS_SET (cf_d w) = false /\ CACHE_DEGRADED_IS_SET (cf_d w) = false;
  lw_sb : sb_accepted (sb_read (sb_sectors (on_ssd (cw_k (cf_cw w)))));
  lw_config : load_config (sb_read (sb_sectors (on_ssd (cw_k (cf_cw w))))) (cf_policies w) (cf_d w) = Some d0;
  lw_env : load_env (sb_clean_shutdown (cf_d w) (sb_read (sb_sectors (on_ssd (cw_k (cf_cw w)))))) w d0 F;
  lw_vmalloc : exists vs, cf_vmalloc w = Some m :: vs;
  lw_blk : exists blk, cf_blk w = Some blk;
  lw_fresh : fresh_pages (hp :: pages ++ sp :: l) w;
  lw_pages : pages <> [] /\ Z.of_nat (length pages) = Z.min (bio_nr_pages d0) MD_MAX_NR_PAGES
}.

(** the superblock is read into a page of its own, which is freed at the end *)
Lemma md_load_reads w hp l : CACHE_FAILED_IS_SET (cf_d w) = false /\ CACHE_DEGRADED_IS_SET (cf_d w) = false ->
  cf_kmalloc w = [] -> cw_results (cf_cw w) = [] -> fresh_pages (hp :: l) w ->
  exists w2 km mem, w2 = set_cf_kmem km (with_md mem (cf_d w) w) /\ pg_live km = {[hp]} ∪ pg_live (cf_kmem w) /\ fresh_pages l w2 /\
    forall r w3 l', md_load_sb (sb_read (sb_sectors (on_ssd (cw_k (cf_cw w))))) w2 = Some ((r, true), w3) -> pg_live (cf_kmem w3) = pg_live km -> fresh_pages l' w3 ->
      exists w4, eio_md_load w = Some (r, w4) /\ w4 = set_cf_kmem (mk_kmem (pg_live (cf_kmem w)) (pg_next (cf_kmem w3))) w3 /\ fresh_pages l' w4.
Proof.
  intros [Hd1 Hd2] Hk Hres Hf. set (h := sb_read (sb_sectors (on_ssd (cw_k (cf_cw w))))).
  destruct (eio_alloc_pages_ok [hp] l w 1 Hf Hk eq_refl) as (w1 & R1 & T); [done|].
  destruct T as [(cw1 & km & Ew1) (mem1 & Ec1 & _ & _) Hlive Hfr].
  assert (Ew1' : w1 = set_cf_kmem km (with_md mem1 (cf_d w) w)).
  { rewrite Ew1 in Ec1. cbn in Ec1. rewrite Ew1, Ec1. by destruct w as [[]]. }
  clear Ew1 Ec1 cw1. assert (Ed1 : cf_d w1 = cf_d w) by by rewrite Ew1'.
  assert (Hdev : no_device (cf_d w1) = false) by (unfold no_device; by rewrite Ed1, Hd1, Hd2).
  destruct (sync_read_ok EIO_SUPERBLOCK_START 8 [hp] w1 Hdev) as (e & w2 & R2 & [Hr (mem2 & Ew2 & Hrd & _)]); [done|by cbn|by apply NoDup_singleton|].
  assert (Er : next_res (cf_cw w1) = IoOk) by (unfold next_res; rewrite Ew1'; cbn; by rewrite Hres). rewrite Er in Hr. assert (e = 0) as -> by done. clear Hr.
  change (mk_region SSD EIO_SUPERBLOCK_START 8) with sb_region in R2.
  assert (Ew2' : w2 = set_cf_kmem km (with_md mem2 (cf_d w) w)).
  { rewrite Ew2. unfold drop_res. rewrite Ew1'. cbn. rewrite Hres. destruct w as [[]]. cbn in *. by subst. }
  assert (Eh : sb_read (page_bytes (cw_mem (cf_cw w2)) hp) = h).
  { unfold h. f_equal. rewrite Ew2'. apply header_bytes. intros j Hj. cbn [cf_cw set_cf_kmem with_md set_cf_cw cw_mem set_cw_mem].
    rewrite (Hrd eq_refl Er j (hp, j) Hj (one_page_slot hp j Hj)). by rewrite Ew1'. }
  assert (El : pg_live km = {[hp]} ∪ pg_live (cf_kmem w)).
  { rewrite Ew1' in Hlive. change (pg_live km = list_to_set [hp] ∪ pg_live (cf_kmem w)) in Hlive. rewrite Hlive. clear. set_solver. }
  exists w2, km, mem2. split; [done|]. split; [done|]. split.
  { destruct Hfr as [G1 G2 G3]. rewrite Ew1' in G1, G3. rewrite Ew2'. by constructor. }
  intros r w3 l' R3 Hl3 Hf3. unfold eio_md_load. rewrite (bind_run _ _ _ _ _ R1). change ([hp] !!! 0%nat) with hp.
  unfold md_load_body. rewrite bind_bind, bind_gets, Ed1, Hd1, Hd2. cbn [orb].
  rewrite bind_bind, (bind_run _ _ _ _ _ R2). cbn [Z.eqb negb]. rewrite bind_bind, bind_gets, Eh, (bind_run _ _ _ _ _ R3). cbn [fst snd when].
  destruct (put_back [hp] l' (pg_live (cf_kmem w)) w3) as (w4 & R4 & Ew4 & Hf4); [by apply NoDup_singleton| | |done|].
  { destruct Hf as [_ _ Hfree]. intros p ->%list_elem_of_singleton. apply Hfree, elem_of_cons. by left. }
  { rewrite Hl3, El. clear. set_solver. }
  rewrite (bind_run _ _ _ _ _ R4). by exists w4.
Qed.

Lemma eio_md_load_ok w d0 F hp pages sp l m : load_world w d0 F hp pages sp l m ->
  exists w' d3, eio_md_load w = Some (0, w') /\ loaded w d0 (sb_clean_shutdown (cf_d w) (sb_read (sb_sectors (on_ssd (cw_k (cf_cw w)))))) F m l w' d3.
Proof.
  intros [Hd Hsb Hcfg He [vs Hv] [blk Hb] Hf [Hne Hlen]]. set (h := sb_read (sb_sectors (on_ssd (cw_k (cf_cw w))))) in *.
  destruct (md_load_reads w hp (pages ++ sp :: l) Hd ltac:(apply He) ltac:(apply He) Hf) as (w2 & km & mem & Ew2 & El & Hf2 & Hrun). fold h in Hrun.
  destruct (md_load_sb_ok pages sp l F m vs blk h d0 w2) as (w3 & d3 & R3 & [(d2 & A & L) (ssd' & [X1 X2 X3 X4 X5] & [Y1 Y2])]).
  { done. } { by rewrite Ew2. } { rewrite Ew2. destruct He as [E1 E2 E3 E4 E5 E6 [N1 N2 N3 N4] E8]. by constructor. } { by rewrite Ew2. } { by rewrite Ew2. }
  { done. } { done. } { done. }
  destruct (Hrun 0 w3 l R3) as (w4 & R4 & Ew4 & Hf4); [by rewrite X4, Ew2|done|].
  assert (Ed2 : cf_d w2 = cf_d w) by by rewrite Ew2.
  exists w4, d3. split; [done|]. rewrite Ed2 in *. constructor; [by exists d2|]. exists ssd'. split.
  - constructor; [by rewrite Ew4|by rewrite Ew4|rewrite Ew4; etransitivity; [exact X3|by rewrite Ew2]|by rewrite Ew4|done].
  - split; [|by rewrite Ew2 in Y2]. rewrite Y1. apply sb_of_ext; by rewrite ?Ew2.
Qed.

(** ** A policy that cannot be set up *)
Lemma policy_init_fails pols d e dp : eio_policy_init true pols d = Some (e, dp) -> e <> 0 -> exists r, dp = set_policy_ops None (set_req_policy r d).
Proof.
  unfold eio_policy_init. intros E He. assert (G : exists r, (if req_policy d =? 0 then set_req_policy CACHE_REPL_DEFAULT d else d) = set_req_policy r d).
  { destruct (req_policy d =? 0); [by eexists|]. exists (req_policy d). by destruct d. }
  destruct G as [r Er]. rewrite Er in E. exists r. destruct (eio_get_policy _ _ _) as [p|]; [by injection E as <- _|by injection E as _ <-].
Qed.

Lemma md_load_policy_fails w hp l e dp : let h := sb_read (sb_sectors (on_ssd (cw_k (cf_cw w)))) in
  CACHE_FAILED_IS_SET (cf_d w) = false /\ CACHE_DEGRADED_IS_SET (cf_d w) = false -> cf_kmalloc w = [] -> cw_results (cf_cw w) = [] -> fresh_pages (hp :: l) w ->
  sb_accepted h -> eio_policy_init true (cf_policies w) (sb_config h {| (cf_d w) with sb_version := EIO_SB_VERSION |}) = Some (e, dp) -> e <> 0 ->
  exists w' mem nx, eio_md_load w = Some (0, w') /\ w' = set_cf_kmem (mk_kmem (pg_live (cf_kmem w)) nx) (with_md mem dp w) /\ fresh_pages l w'.
Proof.
  intros h Hd Hk Hres Hf [Hc Hs] Hp He. destruct (md_load_reads w hp l Hd Hk Hres Hf) as (w2 & km & mem & Ew2 & El & Hf2 & Hrun). fold h in Hrun.
  assert (R : md_load_sb h w2 = Some ((0, true), conf_with dp w2)).
  { unfold md_load_sb. rewrite Hc. rewrite (bind_run _ _ _ _ _ (conf_dmc_run' (modify (fun d => {| d with sb_version := EIO_SB_VERSION |})) w2 tt _ eq_refl)), Hs. cbn [negb].
    rewrite bind_gets, (bind_run _ _ _ _ _ (conf_dmc_run' (modify (sb_config h)) _ tt _ eq_refl)).
    set (dv := {| (cf_d w2) with sb_version := EIO_SB_VERSION |}). change (cf_d (conf_with dv w2)) with dv. set (w3 := conf_with (sb_config h dv) (conf_with dv w2)).
    assert (R3 : conf_kmalloc w3 = Some (true, w3)) by (unfold conf_kmalloc, w3, dv; rewrite Ew2; cbn; by rewrite Hk). rewrite (bind_run _ _ _ _ _ R3), bind_gets.
    assert (Ep : eio_policy_init true (cf_policies w3) (cf_d w3) = Some (e, dp)) by (unfold w3, dv; rewrite Ew2; exact Hp).
    rewrite (bind_run _ _ _ _ _ (conf_dmc_run' _ w3 e dp Ep)). by rewrite (proj2 (Z.eqb_neq e 0) He). }
  destruct (Hrun 0 _ l R) as (w4 & R4 & Ew4 & Hf4); [by rewrite Ew2|by destruct Hf2; constructor|].
  exists w4, mem, (pg_next km). split; [done|]. split; [|done]. by rewrite Ew4, Ew2.
Qed.

(** * The loaded cache and what it holds *)
(** [dmc->index_zero = dmc->assoc]: no block caches sector 0 yet known *)
Definition cache_built (d : cache_c) : cache_c := set_index_zero (assoc d) d.

(** the sector of a block from its word *)
Lemma raw_dbn_get d i dbn : wf_geom d -> assoc d <= index_zero d -> dbn_ok d dbn -> i / assoc d = dbn_set d dbn ->
  md_raw d i = stored_dbn d dbn -> EIO_CACHE_STATE_GET d i <> INVALID -> EIO_DBN_GET d i = Some dbn.
Proof.
  intros Hg Hz [Hd Hok] Hi Hraw Hst. unfold EIO_DBN_GET. unfold md_raw, stored_dbn in Hraw. destruct (EIO_MD8 d) eqn:H8; [by rewrite Hraw|].
  destruct Hok. apply expand_shrunk; try done; lia.
Qed.

(** the entries that are loaded belong to a cache *)
Record entries_sound (d : cache_c) (clean : bool) (F : Z -> flash_cacheblock) : Prop := {
  es_ok : forall i, 0 <= i < dmc_size d -> taken_entry clean (F i) = true -> entry_ok d (F i);
  es_state : forall i, 0 <= i < dmc_size d -> taken_entry clean (F i) = true -> state_ok (clr (fc_state (F i)) QUEUED);
  es_set : forall i, 0 <= i < dmc_size d -> loaded_state clean (F i) <> INVALID -> (block_size d | fc_dbn (F i)) /\ dbn_set d (fc_dbn (F i)) = i / assoc d;
  es_uniq : forall i j, 0 <= i < dmc_size d -> 0 <= j < dmc_size d -> loaded_state clean (F i) <> INVALID -> loaded_state clean (F j) <> INVALID ->
    fc_dbn (F i) = fc_dbn (F j) -> i = j
}.

Lemma taken_valid clean f : loaded_state clean f <> INVALID -> taken_entry clean f = true.
Proof. unfold loaded_state. by destruct (taken_entry clean f). Qed.

Section loaded.
Context (d0 : cache_c) (clean : bool) (F : Z -> flash_cacheblock) (Hg : wf_geom d0) (He : entries_sound d0 clean F).
Context (m : gmap Z Z) (Hdom : forall i, i ∈ dom m <-> 0 <= i < dmc_size d0).
Context (d2 d3 : cache_c) (n : Z) (Hw : words_alloc m d0 d2) (Hl : load_all clean F (seqZ 0 (dmc_size d0)) d2 = Some (n, d3)).
Abbreviation d' := (cache_built (as_dirty d3)).

Lemma load_facts : words_of (seqZ 0 (dmc_size d0)) d2 d3 /\ forall i, 0 <= i < dmc_size d0 -> block_loaded clean (F i) i d2 d3.
Proof.
  pose proof (words_alloc_geom _ _ _ Hw) as Hgeo.
  destruct (load_all_ok clean F (seqZ 0 (dmc_size d0)) d2) as (d3' & E & W & B); [by apply (wf_geom_eq d0)|apply NoDup_seqZ| |].
  { intros i Hi%elem_of_seqZ Ht. apply (entry_ok_geom d0); [done|]. apply He; [lia|done]. }
  rewrite Hl in E. injection E as _ <-. split; [done|]. intros i Hi. apply B, elem_of_seqZ. lia.
Qed.
Lemma built_geom : geom d' = geom d0.
Proof. destruct load_facts as [W _]. change (geom d') with (geom d3). rewrite (md_only_geom _ _ (wo_md _ _ _ W)). by apply (words_alloc_geom m). Qed.
Lemma built_state i : 0 <= i < dmc_size d0 -> EIO_CACHE_STATE_GET d' i = loaded_state clean (F i).
Proof. intros Hi. destruct load_facts as [_ B]. exact (bl_state _ _ _ _ _ (B i Hi)). Qed.
Lemma built_wf : wf_geom d'.
Proof. apply (wf_geom_eq d0); [apply built_geom|done]. Qed.
Lemma built_dbn i : 0 <= i < dmc_size d0 -> loaded_state clean (F i) <> INVALID -> EIO_DBN_GET d' i = Some (fc_dbn (F i)).
Proof.
  intros Hi Hne. destruct load_facts as [_ B]. destruct (geom_fields _ _ built_geom) as (_ & Ea & _).
  apply raw_dbn_get; [apply built_wf|done| | | |by rewrite built_state].
  - apply (geom_dbn_ok d0); [apply built_geom|]. apply (es_ok _ _ _ He); [done|by apply taken_valid].
  - rewrite Ea, (geom_dbn_set _ _ _ built_geom). symmetry. by apply (es_set _ _ _ He).
  - change (md_raw d' i) with (md_raw d3 i). rewrite (bl_raw _ _ _ _ _ (B i Hi)).
    + assert (Eg : geom d2 = geom d') by by rewrite built_geom, (words_alloc_geom m d0).
      destruct (geom_fields _ _ Eg) as (_ & _ & _ & Eb & Ec & En & Enb & Em & E8).
      unfold stored_dbn, shrunk, dbn_wrapped, EIO_DBN_TO_SET, SECTORS_PER_SET_SHIFT. by rewrite Eb, Ec, En, Enb, Em, E8.
    + by apply taken_valid.
Qed.

(** the invariant of the in-core metadata *)
Lemma built_inv : blk_inv d'.
Proof.
  destruct (geom_fields _ _ built_geom) as (Es & Ea & Eb & _). constructor.
  - apply built_wf.
  - assert (Ea' : assoc d3 = assoc d0) by exact Ea. pose proof (assoc_pos _ Hg). split; cbn; rewrite ?Ea'; lia.
  - intros i. rewrite Es. destruct load_facts as [W _]. change (md_dom d') with (md_dom d3).
    destruct (words_alloc_fields _ _ _ Hw) as (_ & _ & _ & _ & _ & Ed). rewrite (wo_dom _ _ _ W), Ed; [apply Hdom|].
    intros j Hj%elem_of_seqZ. rewrite Ed. apply Hdom. lia.
  - intros i. rewrite Es. intros Hi. rewrite built_state by done. unfold loaded_state. destruct (taken_entry clean (F i)) eqn:Et; [by apply He|by left].
  - intros i. rewrite Es. intros Hi. rewrite built_state by done. intros Hne. exists (fc_dbn (F i)). rewrite Ea, Eb, (geom_dbn_set _ _ _ built_geom).
    destruct (es_set _ _ _ He i Hi Hne). split; [by apply built_dbn|]. split; [|done]. apply (geom_dbn_ok d0); [apply built_geom|]. apply He; [done|by apply taken_valid].
  - intros i j. rewrite Es. intros Hi Hj. rewrite !built_state by done. intros Hni Hnj. rewrite !built_dbn by done. intros [= E]. by apply (es_uniq _ _ _ He).
Qed.

(** a block is dirty when its entry says so *)
Lemma built_dirty i : 0 <= i < dmc_size d0 -> is_dirty d' i = tst (fc_state (F i)) DIRTY.
Proof.
  intros Hi. unfold is_dirty. rewrite built_state by done. unfold loaded_state. destruct (taken_entry clean (F i)) eqn:Et.
  - unfold tst, clr. by rewrite Z.ldiff_land, <-Z.land_assoc.
  - unfold taken_entry in Et. apply orb_false_iff in Et as [_ ->]. done.
Qed.
End loaded.

(** ** What the loaded cache stands for *)
Lemma find_ext_in {A} (P Q : A -> bool) l : (forall x, x ∈ l -> P x = Q x) -> List.find P l = List.find Q l.
Proof.
  induction l as [|x l IH]; intros H; [done|]. cbn. rewrite (H x) by (apply elem_of_cons; by left). destruct (Q x); [done|].
  apply IH. intros y Hy. apply H, elem_of_cons. by right.
Qed.

(** the data of the cache are behind the superblock, its metadata too *)
Definition data_behind (d : cache_c) : Prop := EIO_SUPERBLOCK_START + 8 <= md_sectors d.
Lemma block_data_kept d k k' i o : wf_geom d -> data_behind d -> 0 <= i -> 0 <= o ->
  (forall t, t < EIO_SUPERBLOCK_START \/ EIO_SUPERBLOCK_START + 8 <= t -> on_ssd k' !!! t = on_ssd k !!! t) -> block_data d k' i o = block_data d k i o.
Proof.
  intros Hg Hd Hi Ho Hk. unfold block_data. apply Hk. right. unfold data_sector, data_behind in *.
  pose proof (proj2 (Z.shiftl_nonneg i (block_shift d)) Hi). lia.
Qed.

Section volume.
Context (d0 : cache_c) (clean : bool) (F : Z -> flash_cacheblock) (Hg : wf_geom d0) (He : entries_sound d0 clean F).
Context (m : gmap Z Z) (d2 d3 : cache_c) (n : Z) (Hw : words_alloc m d0 d2) (Hl : load_all clean F (seqZ 0 (dmc_size d0)) d2 = Some (n, d3)).
Context (k k' : disks) (Hf : forall i, 0 <= i < dmc_size d0 -> flash_entry d0 k i = Some (F i)).
Context (Hb : data_behind d0) (Hh : on_hdd k' = on_hdd k).
Context (Hk : forall t, t < EIO_SUPERBLOCK_START \/ EIO_SUPERBLOCK_START + 8 <= t -> on_ssd k' !!! t = on_ssd k !!! t).
Abbreviation d' := (cache_built (as_dirty d3)).

Lemma built_layout : layout d' = layout d0.
Proof.
  destruct (load_facts d0 clean F Hg He m d2 d3 n Hw Hl) as [[W _ _ _] _]. destruct (words_alloc_fields _ _ _ Hw) as (E1 & _ & _ & _ & E2 & _).
  unfold layout. rewrite (built_geom d0 clean F Hg He m d2 d3 n Hw Hl).
  assert (W' : md_start_sect d3 = md_start_sect d2 /\ md_sectors d3 = md_sectors d2) by (by destruct W as (c & c8 & z & ->)). destruct W' as [W1 W2].
  change (md_start_sect d') with (md_start_sect d3). change (md_sectors d') with (md_sectors d3). by rewrite W1, W2, E1, E2.
Qed.

(** the volume of the loaded cache is what the devices held for recovery *)
Lemma built_volume s : 0 <= s -> volume d' k' s = recovered d0 k s.
Proof.
  intros Hs. pose proof built_layout as El. pose proof (layout_geom _ _ El) as Eg. unfold volume, contents, recovered.
  rewrite (geom_dbn_set _ _ _ Eg), (set_blocks_geom _ _ _ Eg), (round_geom _ _ _ Eg).
  assert (Hr : forall i, i ∈ set_blocks d0 (dbn_set d0 s) -> 0 <= i < dmc_size d0).
  { intros i Hi. apply (set_blocks_range d0 (dbn_set d0 s)); [done| |done]. by apply dbn_to_set_spec. }
  rewrite (find_ext_in _ (dirty_entry d0 k s)).
  - destruct (List.find _ _) as [i|] eqn:E; [|by rewrite Hh]. apply list_find_Some in E as [Hi _]. rewrite (block_data_layout _ _ _ _ _ El).
    apply block_data_kept; [done|done|by apply Hr| |done]. pose proof (round_sector_le d0 s Hg Hs). lia.
  - intros i Hi. specialize (Hr i Hi). unfold held_by, dirty_entry. rewrite (Hf i Hr), (round_geom _ _ _ Eg).
    rewrite (built_dirty d0 clean F Hg He m d2 d3 n Hw Hl i Hr). destruct (tst (fc_state (F i)) DIRTY) eqn:Et; [|done]. cbn [andb].
    rewrite (built_dbn d0 clean F Hg He m d2 d3 n Hw Hl i Hr).
    + destruct (Z.eqb_spec (fc_dbn (F i)) (EIO_ROUND_SECTOR d0 s)) as [->|Hne]; [by apply bool_decide_eq_true|apply bool_decide_eq_false; congruence].
    + unfold loaded_state, taken_entry. rewrite Et, orb_true_r. intros E. assert (E2 : tst (clr (fc_state (F i)) QUEUED) DIRTY = tst (fc_state (F i)) DIRTY).
      { unfold tst, clr. by rewrite Z.ldiff_land, <-Z.land_assoc. }
      rewrite E, Et in E2. done.
Qed.
End volume.

(** ** The entries on the SSD *)
Lemma flash_entries_md d k (F : Z -> flash_cacheblock) : (forall s l, on_ssd k !!! s = MdBlocks l -> (length l <= 32)%nat) ->
  (forall i, 0 <= i < dmc_size d -> flash_entry d k i = Some (F i) /\ flash_ok (F i)) ->
  md_on_ssd (on_ssd k) (md_start_sect d) (dmc_size d) F.
Proof.
  intros Hlen H i Hi. destruct (H i Hi) as [E Hok]. unfold flash_entry, INDEX_TO_MD_SECTOR, INDEX_TO_MD_SECTOR_OFFSET, EIO_DIV, EIO_REM in E.
  change MD_BLOCKS_PER_SECTOR with 32 in E. destruct (on_ssd k !!! (md_start_sect d + i / 32)) as [v|l] eqn:El; [done|].
  apply sector_entry_md; [by apply (Hlen _ _ El)|done|done].
Qed.
