(* ===== verification/Saved.v ===== *)
(** * Writing the entries of all blocks

    Both [eio_md_store] and [eio_md_create] put the entries of the blocks into
    pages and write the pages when they are full.  When no write fails, the
    entry of each block is on the SSD.

    ** [eio_md_store] saves the cache

    The superblock says that the metadata on the SSD are those of the cache only
    when every write of them succeeded. *)

From S2P Require Import Prelude Types Mem Scan World Dispatch Disk Clean CleanState CleanSet WbAlloc Hits Superblock MdStore MdCreate MdLoad PageIo LoadLoop Lookup CleanIo Recovery.

(** * Writing the entries of all blocks *)
(** only memory, the SSD, the trace and the results differ *)
Record io_only (w w' : conf_world) : Prop := {
  oo_world : exists mem ssd tr rs,
    w' = set_cf_cw (set_cw_results rs (set_cw_trace tr (set_cw_k (dev_set SSD ssd (cw_k (cf_cw w))) (set_cw_mem mem (cf_cw w))))) w;
  oo_results : Forall io_result_ok (cw_results (cf_cw w)) -> Forall io_result_ok (cw_results (cf_cw w'));
  oo_nil : cw_results (cf_cw w) = [] -> cw_results (cf_cw w') = []
}.
#[export] Instance io_only_refl : Reflexive io_only.
Proof.
  intros w. constructor; [|done|done]. exists (cw_mem (cf_cw w)), (on_ssd (cw_k (cf_cw w))), (cw_trace (cf_cw w)), (cw_results (cf_cw w)). by destruct w as [[? []]].
Qed.
#[export] Instance io_only_trans : Transitive io_only.
Proof.
  intros w1 w2 w3 [(m & s & t & r & ->) H1 N1] [(m' & s' & t' & r' & ->) H2 N2]. constructor; [|auto|auto]. exists m', s', t', r'. by destruct w1 as [[? []]].
Qed.
Lemma io_only_d w w' : io_only w w' -> cf_d w' = cf_d w.
Proof. by intros [(m & s & t & r & ->) _ _]. Qed.

Lemma next_res_ok w : Forall io_result_ok (cw_results w) -> io_result_ok (next_res w).
Proof. unfold next_res. destruct (cw_results w); [done|]. by intros [? _]%Forall_cons. Qed.
Lemma drop_results_ok rs : Forall io_result_ok rs -> Forall io_result_ok (tail rs).
Proof. destruct rs; [done|]. by intros [_ ?]%Forall_cons. Qed.

Lemma bind_assoc {S A B C} (m : M S A) (k : A -> M S B) (h : B -> M S C) s r : bind m (fun a => bind (k a) h) s = r -> bind (bind m k) h s = r.
Proof. by rewrite bind_bind. Qed.

Section flush.
Context (pages : list Z) (Hnd : NoDup pages).

(** [secs] sectors of entries go into the pages and [count] of them to the SSD *)
Lemma flush_core slots secs s count pi w : no_device (cf_d w) = false -> Forall io_result_ok (cw_results (cf_cw w)) ->
  0 < count <= Z.of_nat secs -> (secs <= 8 * length pages)%nat -> (pi <= length pages)%nat -> 8 * (Z.of_nat pi - 1) < count <= 8 * Z.of_nat pi ->
  exists e w', bind (fill_slots pages slots secs) (fun _ => eio_io_sync_vm (mk_region SSD s count) WRITE (take pi pages)) w = Some (e, w') /\ io_only w w' /\ (cw_results (cf_cw w) = [] -> e = 0) /\
    (e = 0 -> forall j, 0 <= j < count -> on_ssd (cw_k (cf_cw w')) !!! (s + j) = md_sector slots (Z.to_nat j)) /\
    (forall t, t < s \/ s + count <= t -> on_ssd (cw_k (cf_cw w')) !!! t = on_ssd (cw_k (cf_cw w)) !!! t).
Proof.
  intros Hd Hres Hc Hs Hpi Hcp.
  destruct (fill_md_pages_ok pages slots Hnd (seq 0 secs) (cw_mem (cf_cw w))) as (mem & Efill & Hmem); [apply NoDup_seq| |].
  { intros j Hj%elem_of_seq. destruct (page_slot_is pages (Z.of_nat j)) as (p & _ & E); [lia|]. rewrite Nat2Z.id in E. by eexists. }
  set (w1 := set_cf_cw (set_cw_mem mem (cf_cw w)) w).
  assert (E1 : fill_slots pages slots secs w = Some (tt, w1)).
  { unfold fill_slots. by rewrite (bind_eval (fun w => fill_md_pages pages slots (seq 0 secs) (cw_mem (cf_cw w))) _ w mem Efill). }
  rewrite (bind_run _ _ _ _ _ E1).
  assert (Hlen : length (take pi pages) = pi) by (rewrite length_take; lia).
  destruct (sync_write_ok s count (take pi pages) w1 Hd) as (e & w2 & E2 & [Hr (ssd & tr & Ew2 & Hw & Hkeep)]); [lia|rewrite Hlen; lia|by apply take_nodup|].
  exists e, w2. split; [done|]. split; [|split; [intros En; rewrite Hr; unfold next_res; cbn; by rewrite En|split]].
  - constructor; [|intros _; rewrite Ew2; by apply drop_results_ok|intros En; rewrite Ew2; cbn; by rewrite En]. exists mem, ssd, tr, (tail (cw_results (cf_cw w))). rewrite Ew2. by destruct w as [[]].
  - intros -> j Hj. assert (Hok : next_res (cf_cw w1) = IoOk) by (apply io_error_ok; [by apply next_res_ok|done]).
    destruct (page_slot_is pages j) as (p & _ & Ep); [lia|].
    assert (Ep' : page_slot (take pi pages) (Z.to_nat j) = Some (p, j mod 8)).
    { unfold page_slot in *. rewrite lookup_take_lt; [done|]. apply Nat2Z.inj_lt. rewrite Nat2Z.inj_div, Z2Nat.id by lia. apply Z.div_lt_upper_bound; lia. }
    rewrite Ew2. change (ssd !!! (s + j) = md_sector slots (Z.to_nat j)). rewrite (Hw Hok j _ Hj Ep'). change (cw_mem (cf_cw w1)) with mem.
    rewrite (Hmem _ _ Ep), decide_True; [done|]. apply elem_of_seq. lia.
  - intros t Ht. rewrite Ew2. exact (Hkeep t Ht).
Qed.
End flush.

(** ** The loop *)
Section store.
Context (start size : Z) (F : Z -> flash_cacheblock) (pages : list Z) (Hnd : NoDup pages) (Hne : pages <> []).
Abbreviation cap := (256 * Z.of_nat (length pages)).

(** the entries of the blocks below [n] are on the SSD *)
Definition md_written (ssd : gmap Z sector_data) (n : Z) : Prop := forall i, 0 <= i < n ->
  exists l, ssd !!! (start + i / 32) = MdBlocks l /\ l !! Z.to_nat (i mod 32) = Some (F i) /\ (length l <= 32)%nat.

Lemma md_written_extend ssd ssd' i0 n count slots : 0 <= i0 -> (32 | i0) -> 0 <= n <= 32 * count -> md_written ssd i0 ->
  (forall k, 0 <= k < n -> slots !! Z.to_nat k = Some (F (i0 + k))) ->
  (forall j, 0 <= j < count -> ssd' !!! (start + i0 / 32 + j) = md_sector slots (Z.to_nat j)) ->
  (forall t, t < start + i0 / 32 \/ start + i0 / 32 + count <= t -> ssd' !!! t = ssd !!! t) -> md_written ssd' (i0 + n).
Proof.
  intros H0 [x ->] Hn Hw Hs Hnew Hold i Hi. rewrite Z.div_mul in * by lia. destruct (Z.lt_ge_cases i (x * 32)) as [Hlt|Hge].
  - destruct (Hw i ltac:(lia)) as (l & E & H). exists l. rewrite Hold; [done|]. left. Z.to_euclidean_division_equations; lia.
  - assert (Ei : i / 32 = x + (i - x * 32) / 32) by (Z.to_euclidean_division_equations; lia).
    assert (Em : i mod 32 = (i - x * 32) mod 32) by (Z.to_euclidean_division_equations; lia).
    assert (Hj : 0 <= (i - x * 32) / 32 < count) by (Z.to_euclidean_division_equations; lia).
    rewrite Ei, Em, Z.add_assoc, Hnew by done. unfold md_sector. eexists. split; [done|]. split; [|rewrite length_take; change (Z.to_nat MD_BLOCKS_PER_SECTOR) with 32%nat; lia].
    change (Z.to_nat MD_BLOCKS_PER_SECTOR) with 32%nat. rewrite lookup_take_lt by (apply Nat2Z.inj_lt; rewrite Z2Nat.id by (Z.to_euclidean_division_equations; lia); Z.to_euclidean_division_equations; lia).
    rewrite lookup_drop. assert (Ek : (Z.to_nat ((i - x * 32) / 32) * 32 + Z.to_nat ((i - x * 32) mod 32))%nat = Z.to_nat (i - x * 32)).
    { apply Nat2Z.inj. rewrite Nat2Z.inj_add, Nat2Z.inj_mul, !Z2Nat.id by (Z.to_euclidean_division_equations; lia). Z.to_euclidean_division_equations; lia. }
    rewrite Ek, Hs by lia. f_equal. f_equal. lia.
Qed.

(** the entries of blocks [i0], ..., [i] - 1 are in the pages *)
Record buffered (w0 w : conf_world) (i : Z) (b : md_buffer) : Prop := {
  bu_io : io_only w0 w;
  bu_errors : 0 <= mb_write_errors b;
  bu_none : cw_results (cf_cw w0) = [] -> mb_write_errors b = 0;
  bu_slots : exists i0, 0 <= i0 <= i /\ i - i0 < cap /\ (256 | i0) /\ mb_slots b = map F (seqZ i0 (i - i0)) /\ mb_sector b = start + i0 / 32 /\
    mb_sectors_written b = i0 / 32 /\ (mb_write_errors b = 0 -> md_written (on_ssd (cw_k (cf_cw w))) i0);
  bu_dirty : mb_num_dirty b = dirty_entries F (seqZ 0 i);
  bu_keep : forall t, t < start \/ start + (size + 31) / 32 <= t -> on_ssd (cw_k (cf_cw w)) !!! t = on_ssd (cw_k (cf_cw w0)) !!! t
}.

Lemma cap_pos : 0 < cap.
Proof. destruct pages; [done|cbn; lia]. Qed.
Lemma map_slots i0 n k : 0 <= k < n -> map F (seqZ i0 n) !! Z.to_nat k = Some (F (i0 + k)).
Proof. intros Hk. rewrite list_lookup_fmap. rewrite (proj2 (lookup_seqZ i0 n (Z.to_nat k) (i0 + k))) by lia. done. Qed.

(** the pages are written when they are full *)
Lemma md_flush_ok w0 w b i0 : io_only w0 w -> no_device (cf_d w0) = false -> Forall io_result_ok (cw_results (cf_cw w0)) -> 0 <= i0 -> (256 | i0) -> i0 + cap <= size ->
  mb_slots b = map F (seqZ i0 cap) -> mb_sector b = start + i0 / 32 -> mb_sectors_written b = i0 / 32 ->
  (forall t, t < start \/ start + (size + 31) / 32 <= t -> on_ssd (cw_k (cf_cw w)) !!! t = on_ssd (cw_k (cf_cw w0)) !!! t) ->
  exists e w', md_flush pages b w = Some ((e, {| b with mb_slots := []; mb_sector := start + (i0 + cap) / 32; mb_sectors_written := (i0 + cap) / 32 |}), w') /\ io_only w0 w' /\ (cw_results (cf_cw w0) = [] -> e = 0) /\
    (e = 0 -> md_written (on_ssd (cw_k (cf_cw w))) i0 -> md_written (on_ssd (cw_k (cf_cw w'))) (i0 + cap)) /\
    (forall t, t < start \/ start + (size + 31) / 32 <= t -> on_ssd (cw_k (cf_cw w')) !!! t = on_ssd (cw_k (cf_cw w0)) !!! t).
Proof.
  intros Hio Hd Hres H0 Hdiv Hsz Hslots Hsec Hwr Hkeep. pose proof cap_pos as Hcap.
  assert (Hlen : Z.of_nat (length (mb_slots b)) = cap) by (rewrite Hslots, length_map, length_seqZ; lia).
  unfold md_flush. rewrite Hlen. change MD_BLOCKS_PER_SECTOR with 32.
  assert (Ec : cap / 32 = 8 * Z.of_nat (length pages)) by (Z.to_euclidean_division_equations; lia). rewrite Ec.
  destruct (flush_core pages Hnd (mb_slots b) (8 * length pages) (mb_sector b) (8 * Z.of_nat (length pages)) (length pages) w) as (e & w' & E & Hio' & Hnone & Hnew & Hold).
  { by rewrite (io_only_d _ _ Hio). } { by apply Hio. } { lia. } { done. } { done. } { lia. }
  rewrite firstn_all in E. replace (Z.to_nat (8 * Z.of_nat (length pages))) with (8 * length pages)%nat by lia.
  assert (Es : (i0 + cap) / 32 = i0 / 32 + 8 * Z.of_nat (length pages)) by (destruct Hdiv as [x ->]; Z.to_euclidean_division_equations; lia).
  exists e, w'. split; [|split; [by etransitivity|split; [intros En; by apply Hnone, Hio|split]]].
  - cbv zeta. unfold bind in E |- *. destruct (fill_slots pages (mb_slots b) (8 * length pages) w) as [[[] w1]|]; [|done]. rewrite E. unfold ret. by rewrite Hsec, Hwr, Es, Z.add_assoc.
  - intros He Hw. apply (md_written_extend (on_ssd (cw_k (cf_cw w))) _ i0 cap (8 * Z.of_nat (length pages)) (mb_slots b)); try done; try lia.
    + destruct Hdiv as [x ->]. exists (x * 8). lia.
    + rewrite Hslots. intros k Hk. by apply map_slots.
    + rewrite <-Hsec. by apply Hnew.
    + rewrite <-Hsec. exact Hold.
  - intros t Ht. rewrite <-Hkeep by done. apply Hold. rewrite Hsec. destruct Hdiv as [x ->]. Z.to_euclidean_division_equations; lia.
Qed.

(** one block *)
Lemma store_put w0 w i b : buffered w0 w i b -> no_device (cf_d w0) = false -> Forall io_result_ok (cw_results (cf_cw w0)) -> 0 <= i < size ->
  let b1 := md_put (F i) (count_state (fc_state (F i)) b) in
  exists b' w', (if pages_full pages b1 then r <- md_flush pages b1 ;; ret (count_error r.1 r.2) else ret b1) w = Some (b', w') /\ buffered w0 w' (i + 1) b'.
Proof.
  intros [Hio He Hnone0 (i0 & Hi0 & Hlen & Hdiv & Hslots & Hsec & Hwr & Hw) Hdirty Hkeep] Hd Hres Hi b1. pose proof cap_pos as Hcap.
  assert (Hs1 : mb_slots b1 = map F (seqZ i0 (i + 1 - i0))).
  { subst b1. cbn. rewrite Hslots. replace (i + 1 - i0) with (Z.of_nat (S (Z.to_nat (i - i0)))) by lia. rewrite seqZ_S, map_app, Z2Nat.id by lia. cbn. do 3 f_equal. lia. }
  assert (Hd1 : mb_num_dirty b1 = dirty_entries F (seqZ 0 (i + 1))).
  { subst b1. cbn. rewrite Hdirty. unfold dirty_entries. replace (i + 1) with (Z.of_nat (S (Z.to_nat i))) by lia. rewrite seqZ_S, List.filter_app, length_app, Z2Nat.id, Z.add_0_l by lia. cbn [List.filter].
    destruct (tst (fc_state (F i)) DIRTY); cbn [length]; lia. }
  assert (Hfull : pages_full pages b1 = (i + 1 - i0 =? cap)).
  { unfold pages_full. change MD_BLOCKS_PER_PAGE with 256. rewrite Hs1, length_map, length_seqZ, Z2Nat.id by lia. done. }
  rewrite Hfull. destruct (Z.eqb_spec (i + 1 - i0) cap) as [Ef|Ef].
  - destruct (md_flush_ok w0 w b1 i0 Hio Hd Hres) as (e & w' & E & Hio' & Hnone & Hw' & Hkeep'); try done; try lia.
    { by rewrite Hs1, Ef. }
    rewrite (bind_run _ _ _ _ _ E). cbn [fst snd]. eexists _, w'. split; [done|]. set (b2 := {| b1 with mb_slots := []; mb_sector := _; mb_sectors_written := _ |}).
    assert (Hb2 : mb_slots (count_error e b2) = [] /\ mb_sector (count_error e b2) = start + (i0 + cap) / 32 /\ mb_sectors_written (count_error e b2) = (i0 + cap) / 32 /\
      mb_num_dirty (count_error e b2) = mb_num_dirty b1 /\ 0 <= mb_write_errors (count_error e b2) /\ (mb_write_errors (count_error e b2) = 0 -> e = 0 /\ mb_write_errors b = 0) /\ (e = 0 -> mb_write_errors b = 0 -> mb_write_errors (count_error e b2) = 0)).
    { unfold count_error. destruct (Z.eqb_spec e 0) as [->|]; cbn; split_and!; try done; lia. }
    destruct Hb2 as (A1 & A2 & A3 & A4 & A5 & A6 & A7). constructor; [done|done|auto| |by rewrite A4|done].
    exists (i + 1). replace (i0 + cap) with (i + 1) in * by lia. rewrite A1, A2, A3, Z.sub_diag. split_and!; try done; try lia.
    + destruct Hdiv as [x ->]. exists (x + Z.of_nat (length pages)). lia.
    + intros [-> H0]%A6. by apply Hw', Hw.
  - exists b1, w. split; [done|]. constructor; [done|done|done| |done|done]. exists i0. split_and!; try done; try lia.
Qed.

Lemma store_loop_ok w0 : no_device (cf_d w0) = false -> Forall io_result_ok (cw_results (cf_cw w0)) -> (forall i, 0 <= i < size -> md_slot (cf_d w0) i = Some (F i)) ->
  (forall i, 0 <= i < size -> tst (EIO_CACHE_STATE_GET (cf_d w0) i) VALID = tst (fc_state (F i)) VALID /\ tst (EIO_CACHE_STATE_GET (cf_d w0) i) DIRTY = tst (fc_state (F i)) DIRTY) ->
  forall n i w b, 0 <= i -> i + Z.of_nat n = size -> buffered w0 w i b ->
  exists b' w', md_store_loop pages (seqZ i (Z.of_nat n)) b w = Some (b', w') /\ buffered w0 w' size b'.
Proof.
  intros Hd Hres Hslot Hst. induction n as [|n IH]; intros i w b Hi Hn Hb.
  { exists b, w. split; [done|]. by replace size with i by lia. }
  rewrite seqZ_cons by lia. replace (Z.pred (Z.of_nat (S n))) with (Z.of_nat n) by lia. cbn [md_store_loop].
  rewrite bind_gets. assert (Ed : cf_d w = cf_d w0) by apply io_only_d, Hb.
  rewrite (bind_eval (fun w => md_slot (cf_d w) i) _ w (F i)) by (rewrite Ed; apply Hslot; lia). cbv zeta.
  assert (Ec : count_state (EIO_CACHE_STATE_GET (cf_d w) i) b = count_state (fc_state (F i)) b).
  { unfold count_state. rewrite Ed. destruct (Hst i ltac:(lia)) as [-> ->]. done. }
  rewrite Ec. destruct (store_put w0 w i b Hb Hd Hres ltac:(lia)) as (b1 & w1 & E1 & Hb1). rewrite (bind_run _ _ _ _ _ E1).
  replace (Z.succ i) with (i + 1) by lia. apply (IH (i + 1)); [lia|lia|done].
Qed.

(** the pages that are not full are written at the end *)
Lemma md_flush_last_ok w0 w b : buffered w0 w size b -> mb_slots b <> [] -> no_device (cf_d w0) = false -> Forall io_result_ok (cw_results (cf_cw w0)) ->
  exists e b' w', md_flush_last pages b w = Some ((e, b'), w') /\ io_only w0 w' /\ mb_write_errors b' = mb_write_errors b /\ mb_num_dirty b' = mb_num_dirty b /\
    mb_sectors_written b' = (size + 31) / 32 /\ (cw_results (cf_cw w0) = [] -> e = 0) /\
    (e = 0 -> mb_write_errors b = 0 -> md_written (on_ssd (cw_k (cf_cw w'))) size) /\
    (forall t, t < start \/ start + (size + 31) / 32 <= t -> on_ssd (cw_k (cf_cw w')) !!! t = on_ssd (cw_k (cf_cw w0)) !!! t).
Proof.
  intros [Hio He Hnone0 (i0 & Hi0 & Hlen & Hdiv & Hslots & Hsec & Hwr & Hw) Hdirty Hkeep] Hne' Hd Hres. pose proof cap_pos as Hcap. set (n := size - i0) in *.
  assert (Hl : Z.of_nat (length (mb_slots b)) = n) by (rewrite Hslots, length_map, length_seqZ; lia).
  assert (Hn : 0 < n). { destruct (mb_slots b) as [|x l]; [done|]. cbn in Hl. lia. }
  unfold md_flush_last. rewrite Hl. change MD_BLOCKS_PER_SECTOR with 32. change (Z.to_nat MD_BLOCKS_PER_PAGE) with 256%nat.
  assert (Ec : (if negb (n mod 32 =? 0) then n / 32 + 1 else n / 32) = (n + 31) / 32).
  { destruct (Z.eqb_spec (n mod 32) 0); cbn [negb]; Z.to_euclidean_division_equations; lia. }
  rewrite Ec. set (slots := pad_page (mb_slots b)). set (pi := (length slots / 256)%nat).
  assert (Hpad : Z.of_nat (length slots) = (n + 255) / 256 * 256 /\ forall k, 0 <= k < n -> slots !! Z.to_nat k = Some (F (i0 + k))).
  { assert (Hin : forall k, 0 <= k < n -> mb_slots b !! Z.to_nat k = Some (F (i0 + k))) by (intros k Hk; rewrite Hslots; by apply map_slots).
    assert (Hr : Z.of_nat (length (mb_slots b) mod 256) = n mod 256) by by rewrite Nat2Z.inj_mod, Hl.
    unfold slots, pad_page. change (Z.to_nat MD_BLOCKS_PER_PAGE) with 256%nat. destruct (Nat.eqb_spec (length (mb_slots b) mod 256) 0) as [E0|E0].
    - split; [|done]. rewrite Hl. Z.to_euclidean_division_equations; lia.
    - split; [rewrite length_app, length_replicate; Z.to_euclidean_division_equations; lia|]. intros k Hk. rewrite lookup_app_l; [by apply Hin|]. lia. }
  destruct Hpad as [Hps Hpk]. assert (Hpi : Z.of_nat pi = (n + 255) / 256).
  { unfold pi. rewrite Nat2Z.inj_div, Hps. apply Z.div_mul. lia. }
  assert (Hpl : (pi <= length pages)%nat) by (apply Nat2Z.inj_le; rewrite Hpi; Z.to_euclidean_division_equations; lia).
  destruct (flush_core pages Hnd slots (pi * 8) (mb_sector b) ((n + 31) / 32) pi w) as (e & w' & E & Hio' & Hnone & Hnew & Hold).
  { by rewrite (io_only_d _ _ Hio). } { by apply Hio. } { Z.to_euclidean_division_equations; lia. } { lia. } { done. } { rewrite Hpi. Z.to_euclidean_division_equations; lia. }
  exists e, {| b with mb_sectors_written := mb_sectors_written b + (n + 31) / 32 |}, w'. split; [|split; [by etransitivity|]].
  { cbv zeta. unfold bind in E |- *. fold pi. destruct (fill_slots pages slots (pi * 8) w) as [[[] w1]|]; [|done]. by rewrite E. }
  assert (Hdiv32 : (32 | i0)) by (destruct Hdiv as [x ->]; exists (x * 8); lia).
  split_and!; [done|done| |intros En; by apply Hnone, Hio| |].
  - cbn. rewrite Hwr. unfold n. destruct Hdiv32 as [x ->]. Z.to_euclidean_division_equations; lia.
  - intros He0 H0. replace size with (i0 + n) by lia. apply (md_written_extend (on_ssd (cw_k (cf_cw w))) _ i0 n ((n + 31) / 32) slots); try done; try lia.
    + Z.to_euclidean_division_equations; lia.
    + by apply Hw.
    + rewrite <-Hsec. by apply Hnew.
    + rewrite <-Hsec. exact Hold.
  - intros t Ht. rewrite <-Hkeep by done. apply Hold. rewrite Hsec. unfold n in *. destruct Hdiv32 as [x ->]. Z.to_euclidean_division_equations; lia.
Qed.
End store.

(** * [eio_md_store] saves the cache *)
(** the entry of block [i] *)
Definition entry_now (d : cache_c) (i : Z) : flash_cacheblock := default (mk_flash 0 0) (md_slot d i).
Definition readable (d : cache_c) : Prop := forall i, 0 <= i < dmc_size d -> is_Some (EIO_DBN_GET d i).

Lemma entry_slot d i : is_Some (EIO_DBN_GET d i) -> md_slot d i = Some (entry_now d i).
Proof. intros [b E]. unfold entry_now, md_slot. by rewrite E. Qed.
Lemma entry_state d i : is_Some (EIO_DBN_GET d i) -> fc_state (entry_now d i) = Z.land (EIO_CACHE_STATE_GET d i) (Z.lor INVALID (Z.lor VALID DIRTY)).
Proof. intros [b E]. unfold entry_now, md_slot. by rewrite E. Qed.
Lemma entry_bits d i : is_Some (EIO_DBN_GET d i) ->
  tst (EIO_CACHE_STATE_GET d i) VALID = tst (fc_state (entry_now d i)) VALID /\ tst (EIO_CACHE_STATE_GET d i) DIRTY = tst (fc_state (entry_now d i)) DIRTY.
Proof. intros H. rewrite (entry_state d i H). unfold tst. by rewrite <-!Z.land_assoc. Qed.

(** the pages are written; [w] to [w'] *)
Record pages_stored (w : conf_world) (b : md_buffer) (w' : conf_world) : Prop := {
  ps_io : io_only w w';
  ps_errors : 0 <= mb_write_errors b;
  ps_none : cw_results (cf_cw w) = [] -> mb_write_errors b = 0;
  ps_dirty : mb_num_dirty b = dirty_entries (entry_now (cf_d w)) (seqZ 0 (dmc_size (cf_d w)));
  ps_written : mb_write_errors b = 0 -> md_written (md_start_sect (cf_d w)) (entry_now (cf_d w)) (on_ssd (cw_k (cf_cw w'))) (dmc_size (cf_d w));
  ps_keep : forall t, t < md_start_sect (cf_d w) \/ md_start_sect (cf_d w) + (dmc_size (cf_d w) + 31) / 32 <= t ->
    on_ssd (cw_k (cf_cw w')) !!! t = on_ssd (cw_k (cf_cw w)) !!! t
}.

Lemma md_store_pages_ok pages w : NoDup pages -> pages <> [] -> no_device (cf_d w) = false -> Forall io_result_ok (cw_results (cf_cw w)) -> 0 <= dmc_size (cf_d w) -> readable (cf_d w) ->
  exists b w', md_store_pages pages w = Some (b, w') /\ pages_stored w b w'.
Proof.
  intros Hnd Hne Hd Hres Hsz Hread. unfold md_store_pages. rewrite bind_gets. set (d := cf_d w) in *. set (F := entry_now d).
  assert (Hcap := cap_pos pages Hnd Hne).
  destruct (store_loop_ok (md_start_sect d) (dmc_size d) F pages Hnd Hne w Hd Hres) with (n := Z.to_nat (dmc_size d)) (i := 0) (w := w) (b := mk_mdbuf [] (md_start_sect d) 0 0 0 0)
    as (b1 & w1 & E1 & Hb1).
  { intros i Hi. apply entry_slot. by apply Hread. } { intros i Hi. apply entry_bits. by apply Hread. } { done. } { lia. }
  { constructor; [done|done|done| |done|done]. exists 0. rewrite Z.sub_diag, Z.div_0_l, Z.add_0_r by lia. split_and!; try done; try lia; [by exists 0|]. intros _ i Hi. lia. }
  rewrite Z2Nat.id in E1 by done. rewrite (bind_run _ _ _ _ _ E1).
  destruct (Nat.eqb_spec (length (mb_slots b1)) 0) as [El|El]; cbn [negb].
  - rewrite bind_ret. destruct Hb1 as [Hio He Hn0 (i0 & Hi0 & Hlen & Hdiv & Hslots & Hsec & Hwr & Hw) Hdirty Hkeep].
    assert (i0 = dmc_size d) as ->. { rewrite Hslots, length_map, length_seqZ in El. lia. }
    rewrite bind_assert. 2:{ apply Z.eqb_eq. rewrite (sectors_expected_eq d Hsz), Hwr, Z.sub_0_r. destruct Hdiv as [x ->]. Z.to_euclidean_division_equations; lia. }
    exists b1, w1. split; [done|]. by constructor.
  - destruct (md_flush_last_ok (md_start_sect d) (dmc_size d) F pages Hnd Hne w w1 b1 Hb1) as (e & b2 & w2 & E2 & Hio & A1 & A2 & A3 & Hnone & Hw & Hkeep); [by intros Es; rewrite Es in El|done|done|].
    rewrite bind_bind, (bind_run _ _ _ _ _ E2), bind_ret. cbn [fst snd].
    assert (A3' : mb_sectors_written (count_error e b2) = (dmc_size d + 31) / 32) by (unfold count_error; by destruct (e =? 0)).
    rewrite bind_assert by (apply Z.eqb_eq; by rewrite (sectors_expected_eq d Hsz), A3', Z.sub_0_r).
    exists (count_error e b2), w2. split; [done|]. destruct Hb1 as [_ He Hn0 _ Hdirty _]. constructor; [done| |intros En; unfold count_error; rewrite (Hnone En); cbn; rewrite A1; by apply Hn0| | |done].
    + unfold count_error. destruct (e =? 0); cbn; lia.
    + unfold count_error. destruct (e =? 0); cbn; by rewrite A2.
    + unfold count_error. destruct (Z.eqb_spec e 0); cbn; [rewrite A1; by apply Hw|lia].
Qed.

(** ** [eio_md_store] *)
Record store_world (w : conf_world) (pages : list Z) (sp : Z) (l : list Z) : Prop := {
  sw_d : CACHE_FAILED_IS_SET (cf_d w) = false /\ CACHE_DEGRADED_IS_SET (cf_d w) = false /\ CACHE_FAST_REMOVE_IS_SET (cf_d w) = false;
  sw_mem : eio_mem_available METADATA_IO_BLOCKSIZE_SECT w = Some (true, w);
  sw_res : Forall io_result_ok (cw_results (cf_cw w));
  sw_size : 0 <= dmc_size (cf_d w);
  sw_read : readable (cf_d w);
  sw_names : names_ok w;
  sw_kmalloc : cf_kmalloc w = [];
  sw_fresh : fresh_pages (pages ++ sp :: l) w;
  sw_pages : pages <> [] /\ Z.of_nat (length pages) = Z.min (bio_nr_pages (cf_d w)) MD_MAX_NR_PAGES;
  sw_layout : EIO_SUPERBLOCK_START + 8 <= md_start_sect (cf_d w)
}.

(** the state in the superblock tells what is on the SSD *)
Definition saved_state (d : cache_c) (ssd : gmap Z sector_data) (st : Z) : Prop :=
  (st = CACHE_MD_STATE_CLEAN /\ dirty_entries (entry_now d) (seqZ 0 (dmc_size d)) = 0 /\ md_written (md_start_sect d) (entry_now d) ssd (dmc_size d)) \/
  (st = CACHE_MD_STATE_FASTCLEAN /\ 0 < dirty_entries (entry_now d) (seqZ 0 (dmc_size d)) /\ md_written (md_start_sect d) (entry_now d) ssd (dmc_size d)) \/
  st = CACHE_MD_STATE_UNSTABLE.

Lemma md_written_keep start F n ssd ssd' : EIO_SUPERBLOCK_START + 8 <= start -> (forall t, t < EIO_SUPERBLOCK_START \/ EIO_SUPERBLOCK_START + 8 <= t -> ssd' !!! t = ssd !!! t) ->
  md_written start F ssd n -> md_written start F ssd' n.
Proof.
  intros Hs Hk Hw i Hi. destruct (Hw i Hi) as (l & E & H). exists l. rewrite Hk; [done|]. right. pose proof (Z.div_pos i 32). lia.
Qed.

Lemma dirty_entries_nonneg F ids : 0 <= dirty_entries F ids.
Proof. unfold dirty_entries. lia. Qed.

Lemma eio_md_store_ok w pages sp l : store_world w pages sp l ->
  exists st ssd' w' r, eio_md_store w = Some (0, w') /\ admin_end w (pg_live (cf_kmem w)) l (set_sb_state st (cf_d w)) ssd' w' /\
    saved_state (cf_d w) ssd' st /\
    (r = IoOk -> sb_read (sb_sectors ssd') = sb_of (conf_with (set_sb_state st (cf_d w)) w)) /\
    (forall t, (t < EIO_SUPERBLOCK_START \/ EIO_SUPERBLOCK_START + 8 <= t) -> (t < md_start_sect (cf_d w) \/ md_start_sect (cf_d w) + (dmc_size (cf_d w) + 31) / 32 <= t) ->
       ssd' !!! t = on_ssd (cw_k (cf_cw w)) !!! t) /\
    (cw_results (cf_cw w) = [] -> r = IoOk /\ st <> CACHE_MD_STATE_UNSTABLE) /\
    cf_kmalloc w' = [] /\ cache_name w' = cache_name w.
Proof.
  intros [(Hd1 & Hd2 & Hd3) Hmem Hres Hsz Hread Hnames Hk Hf [Hne Hlen] Hlay]. unfold eio_md_store. rewrite bind_gets, Hd1, Hd2, Hd3. cbn [orb].
  rewrite (bind_run _ _ _ _ _ Hmem). cbn [negb]. set (d := cf_d w) in *.
  destruct (eio_alloc_pages_ok pages (sp :: l) w (bio_nr_pages d) Hf Hk Hlen Hne) as (w1 & R1 & T). rewrite (bind_run _ _ _ _ _ R1).
  destruct T as [(cw1 & km & Ew1) (mem1 & Ec1 & _ & _) Hlive Hfr].
  assert (Ew1' : w1 = set_cf_kmem km (with_md mem1 d w)).
  { rewrite Ew1 in Ec1. cbn in Ec1. rewrite Ew1, Ec1. by destruct w as [[]]. }
  clear Ew1 Ec1 cw1 R1. assert (R2 : conf_kmalloc w1 = Some (true, w1)) by (unfold conf_kmalloc; rewrite Ew1'; cbn; by rewrite Hk).
  rewrite (bind_run _ _ _ _ _ R2). cbn [negb].
  assert (Hpn : NoDup pages) by (destruct Hf as [_ Hn _]; by apply NoDup_app in Hn as [? _]).
  assert (Ed1 : cf_d w1 = d) by by rewrite Ew1'.
  assert (Hdev : no_device d = false) by (unfold no_device; by rewrite Hd1, Hd2).
  destruct (md_store_pages_ok pages w1 Hpn Hne) as (b & w2 & R3 & [Hio He Hn0 Hdirty Hwr Hkeep]); rewrite ?Ed1; [done|by rewrite Ew1'|done|done|].
  rewrite (bind_run _ _ _ _ _ R3). rewrite Ed1 in *. destruct Hio as [(mem2 & ssd2 & tr2 & rs2 & Ew2) Hrs Hnil].
  destruct (put_back pages (sp :: l) (pg_live (cf_kmem w)) w2 Hpn) as (w3 & R4 & Ew3 & Hf3).
  { destruct Hf as [_ _ Hfree]. intros p Hp. apply Hfree, elem_of_app. by left. } { rewrite Ew2. cbn. rewrite Ew1' in Hlive. rewrite Ew1'. exact Hlive. }
  { rewrite Ew2. destruct Hfr. by constructor. }
  rewrite (bind_run _ _ _ _ _ R4). set (st := if mb_write_errors b =? 0 then _ else _).
  set (w4 := conf_with (set_sb_state st d) w3).
  assert (R5 : conf_upd (set_sb_state st) w3 = Some (tt, w4)).
  { assert (Ed3 : cf_d w3 = d) by by rewrite Ew3, Ew2, Ew1'. unfold w4. rewrite <-Ed3. exact (conf_dmc_run' (modify _) w3 tt _ eq_refl). }
  rewrite (bind_run _ _ _ _ _ R5). unfold md_store_sb.
  destruct (eio_sb_store_ok sp l w4) as (e & w5 & R6 & [Hr (mem5 & ssd & tr & nx & Ew5 & Hsb & Hskeep & _) Hnext]).
  { done. } { apply (names_ok_ext w); [..|done]; unfold w4; by rewrite Ew3, Ew2, Ew1'. } { unfold w4. destruct Hf3; by constructor. } { unfold w4. by rewrite Ew3, Ew2, Ew1'. }
  rewrite (bind_run _ _ _ _ _ R6). exists st, ssd, w5, (next_res (cf_cw w4)). split; [done|].
  assert (Essd4 : on_ssd (cw_k (cf_cw w4)) = on_ssd (cw_k (cf_cw w2))) by (unfold w4; by rewrite Ew3).
  rewrite Essd4 in Hskeep. split; [|split; [|split; [|split; [|split]]]].
  - rewrite Ew5. constructor; [by unfold w4; rewrite Ew3, Ew2, Ew1'|done|unfold w4; by rewrite Ew3, Ew2, Ew1'|unfold w4; by rewrite Ew3|by rewrite <-Ew5].
  - unfold saved_state, st. pose proof (dirty_entries_nonneg (entry_now d) (seqZ 0 (dmc_size d))) as Hdn. destruct (Z.eqb_spec (mb_write_errors b) 0) as [E0|E0]; [|by right; right].
    assert (Hw' := md_written_keep _ _ _ _ _ Hlay Hskeep (Hwr E0)).
    destruct (Z.eqb_spec (mb_num_dirty b) 0) as [E1|E1]; [left|right; left]; split_and!; try done; lia.
  - intros Er. rewrite (Hsb Er). apply sb_of_ext; [done|]. unfold w4. by rewrite Ew3, Ew2, Ew1'.
  - intros t H1 H2. rewrite (Hskeep t H1), (Hkeep t H2). by rewrite Ew1'.
  - intros En. assert (Hn2 : cw_results (cf_cw w2) = []) by (apply Hnil; by rewrite Ew1'). split.
    + unfold next_res. change (cw_results (cf_cw w4)) with (cw_results (cf_cw w3)). rewrite Ew3. change (cw_results (cf_cw (set_cf_kmem _ w2))) with (cw_results (cf_cw w2)). by rewrite Hn2.
    + unfold st. rewrite Hn0 by by rewrite Ew1'. rewrite Z.eqb_refl. by destruct (mb_num_dirty b =? 0).
  - rewrite Ew5. unfold w4. by rewrite Ew3, Ew2, Ew1'.
Qed.
