(* ===== verification/Restart.v ===== *)
(** * Starting a cache from its SSD

    The superblock a cache stores configures, after a restart, a cache of the
    same layout.

    ** The layout of a new cache

    [create_layout] divides the SSD into unused sectors, the superblock, the
    metadata and the data. *)

From S2P Require Import Prelude Types Mem Scan Policy Lookup World Dispatch Disk Clean CleanIo CleanState CleanSet WbAlloc Hits Superblock MdStore MdCreate MdLoad PageIo LoadLoop Recovery Saved.

(** * Starting a cache from its SSD *)
(** the superblock has room for the fields of the cache *)
Record sb_fits (d : cache_c) : Prop := {
  sf_geom : wf_geom d;
  sf_size : dmc_size d < 2 ^ 32;
  sf_start : 0 <= md_start_sect d < 2 ^ 64;
  sf_sectors : 0 <= md_sectors d < 2 ^ 64;
  sf_version : sb_version d = EIO_SB_VERSION;
  sf_md4 : EIO_MD8 d = false -> 2 ^ 15 <= num_sets d /\ eio_to_sector (disk_dev_size d) <= md4_limit d
}.

Lemma sb_state_wf v d : wf_geom d -> wf_geom (set_sb_state v d).
Proof. by apply wf_geom_eq. Qed.
Lemma sb_state_inv v d : blk_inv d -> blk_inv (set_sb_state v d).
Proof. by apply blk_inv_same. Qed.
Lemma sb_state_fits v d : sb_fits d -> sb_fits (set_sb_state v d).
Proof. intros [H1 H2 H3 H4 H5 H6]. constructor; [by apply sb_state_wf|exact H2|exact H3|exact H4|exact H5|exact H6]. Qed.

Lemma ffs_pow2 k : 0 <= k -> ffs_1 (2 ^ k) = k.
Proof.
  intros Hk. unfold ffs_1. pose proof (pow2_pos k Hk). destruct (Z.eqb_spec (2 ^ k) 0); [lia|].
  assert (E : Z.land (2 ^ k) (- 2 ^ k) = 2 ^ k).
  { assert (En : - 2 ^ k = Z.lnot (Z.ones k)) by (rewrite Z.ones_equiv; unfold Z.lnot; lia). rewrite En, <-Z.ldiff_land, Z.ldiff_ones_r by lia.
    rewrite Z.shiftr_div_pow2, Z.div_same, Z.shiftl_mul_pow2 by lia. lia. }
  rewrite E. by apply Z.log2_pow2.
Qed.

Lemma policy_init_form pols d e dp : eio_policy_init true pols d = Some (e, dp) -> exists r p, dp = set_policy_ops p (set_req_policy r d).
Proof.
  unfold eio_policy_init. intros E. destruct (req_policy d =? 0).
  - exists CACHE_REPL_DEFAULT. destruct (policy_ops _); injection E as _ <-; by eexists.
  - exists (req_policy d). assert (Ed : set_req_policy (req_policy d) d = d) by by destruct d. rewrite Ed. destruct (policy_ops _); injection E as _ <-; by eexists.
Qed.

Lemma tst_u32_clr x k : 0 <= k < 32 -> tst (u32 (clr x CACHE_FLAGS_INCORE_ONLY)) (2 ^ k) = tst x (2 ^ k) && negb (tst CACHE_FLAGS_INCORE_ONLY (2 ^ k)).
Proof. intros Hk. rewrite !tst_spec by lia. unfold u32, clr. by rewrite Z.mod_pow2_bits_low, Z.ldiff_spec by lia. Qed.
Lemma tst_lor_md8 x k : 0 <= k -> k <> 5 -> tst (Z.lor x CACHE_FLAGS_MD8) (2 ^ k) = tst x (2 ^ k).
Proof. intros Hk Hne. rewrite !tst_spec by lia. rewrite Z.lor_spec. unfold CACHE_FLAGS_MD8. rewrite Z.pow2_bits_false by lia. by rewrite orb_false_r. Qed.

(** the flags of a cache loaded from a superblock *)
Definition sb_flags (d : cache_c) : Z := u32 (clr (cache_flags d) CACHE_FLAGS_INCORE_ONLY).
Lemma sb_flags_clear d f : f = sb_flags d \/ f = Z.lor (sb_flags d) CACHE_FLAGS_MD8 ->
  tst f CACHE_FLAGS_FAILED = false /\ tst f CACHE_FLAGS_DEGRADED = false.
Proof.
  intros Hf. assert (H : tst (sb_flags d) CACHE_FLAGS_FAILED = false /\ tst (sb_flags d) CACHE_FLAGS_DEGRADED = false).
  { unfold sb_flags, CACHE_FLAGS_FAILED, CACHE_FLAGS_DEGRADED. rewrite !tst_u32_clr by lia. split; apply andb_false_r. }
  destruct Hf as [->| ->]; [done|]. unfold CACHE_FLAGS_FAILED, CACHE_FLAGS_DEGRADED in *. by rewrite !tst_lor_md8 by lia.
Qed.
Lemma sb_flags_md8 d : tst (sb_flags d) CACHE_FLAGS_MD8 = EIO_MD8 d.
Proof. unfold sb_flags, CACHE_FLAGS_MD8. rewrite tst_u32_clr by lia. apply andb_true_r. Qed.

Lemma wf_bits d : wf_geom d -> Z.log2 (num_sets d) + 1 = num_sets_bits d.
Proof.
  intros Hg. destruct (geo_bits d Hg), (geo_sets d Hg). assert (E : Z.log2 (num_sets d) = num_sets_bits d - 1); [|lia].
  apply Z.log2_unique; [lia|]. split; [done|]. replace (Z.succ (num_sets_bits d - 1)) with (num_sets_bits d) by lia. done.
Qed.

Section config.
Context (wx : conf_world) (pols : list eio_policy_header) (dn dp : cache_c).
Abbreviation d := (cf_d wx).
Abbreviation h := (sb_of wx).
Context (Hf : sb_fits d) (Hn : cache_flags dn = 0) (Hdisk : disk_dev_size dn = disk_dev_size d).
Context (Hp : eio_policy_init true pols (sb_config h {| dn with sb_version := EIO_SB_VERSION |}) = Some (0, dp)).

Lemma sb_accepted_of : sb_state d = CACHE_MD_STATE_DIRTY \/ sb_state d = CACHE_MD_STATE_CLEAN \/ sb_state d = CACHE_MD_STATE_FASTCLEAN -> sb_accepted h.
Proof.
  intros Hst. pose proof (sf_version _ Hf) as Hv. split.
  - unfold sb_check, sb_of. cbn [sb_cache_version sb_magic]. rewrite Hv. done.
  - unfold sb_state_ok, sb_of. cbn [sb_cache_sb_state]. destruct Hst as [->|[->| ->]]; done.
Qed.

Lemma geometry_fields : let g := sb_geometry h dp in
  dmc_size g = dmc_size d /\ assoc g = assoc d /\ block_size g = block_size d /\ block_shift g = block_shift d /\ consecutive_shift g = consecutive_shift d /\
  md_start_sect g = md_start_sect d /\ md_sectors g = md_sectors d /\ cache_flags g = sb_flags d /\ disk_dev_size g = disk_dev_size d /\
  bio_nr_pages g = bio_nr_pages dn /\ mode g = (if mode dn =? 0 then u32 (mode d) else mode dn).
Proof.
  destruct (policy_init_form _ _ _ _ Hp) as (r & p & ->). destruct Hf as [Hg H1 H2 H3 _ _]. pose proof (assoc_pos _ Hg) as Ha. pose proof (block_size_pos _ Hg) as Hb. pose proof (num_sets_pos _ Hg) as Hs.
  pose proof (geo_cs _ Hg) as G1. pose proof (geo_bs _ Hg) as G2. pose proof (geo_lsb _ Hg) as G3.
  assert (Bp : forall k, 0 <= k <= 23 -> 0 < 2 ^ k < 2 ^ 32) by (intros k Hk; split; [apply pow2_pos; lia|apply Z.pow_lt_mono_r; lia]).
  pose proof (Bp (consecutive_shift d) ltac:(lia)) as Ba. pose proof (Bp (block_shift d) ltac:(lia)) as Bb.
  assert (Hsz : 0 <= dmc_size d) by (rewrite (geo_size _ Hg); nia).
  cbv zeta. unfold sb_geometry, sb_config, sb_of.
  cbn [dmc_size assoc block_size block_shift consecutive_shift md_start_sect md_sectors cache_flags disk_dev_size bio_nr_pages mode set_policy_ops set_req_policy
       sb_size sb_assoc sb_block_size sb_cache_md_start_sect sb_cache_data_start_sect sb_cache_flags sb_mode].
  rewrite Hn. cbn [Z.eqb]. rewrite (geo_assoc _ Hg), (geo_block _ Hg).
  assert (U : forall x, 0 <= x < 2 ^ 32 -> u32 x = x) by (intros x Hx; by apply Z.mod_small). assert (U8 : forall x, 0 <= x < 2 ^ 64 -> u64 x = x) by (intros x Hx; by apply Z.mod_small).
  rewrite !(U (2 ^ consecutive_shift d)), !(U (2 ^ block_shift d)), !ffs_pow2, !(U (dmc_size d)), !(U (block_shift d)), !(U (consecutive_shift d)), !U8 by (done || lia).
  split_and!; done.
Qed.

Lemma config_ok : exists d0, load_config h pols dn = Some d0 /\ layout d0 = layout d /\ no_device d0 = false /\ bio_nr_pages d0 = bio_nr_pages dn /\
  mode d0 = (if mode dn =? 0 then u32 (mode d) else mode dn).
Proof.
  unfold load_config. rewrite Hp. cbn [Z.eqb negb]. set (g := sb_geometry h dp).
  pose proof geometry_fields as G. cbv zeta in G. fold g in G. destruct G as (E1 & E2 & E3 & E4 & E5 & E6 & E7 & E8 & E9 & E10 & E11).
  assert (Hg := sf_geom _ Hf). pose proof (assoc_pos _ Hg) as Ha. pose proof (num_sets_pos _ Hg) as Hs.
  assert (Ens : dmc_size g / assoc g = num_sets d) by (rewrite E1, E2, (geo_size _ Hg); apply Z.div_mul; lia).
  assert (Hpre : mem_geom_pre g).
  { constructor; rewrite ?Ens, ?E1, ?E2, ?E3, ?E4, ?E5; try apply Hg. pose proof (geo_sets _ Hg). destruct (geo_bits _ Hg). split; [lia|].
    eapply Z.lt_le_trans; [apply (proj2 (geo_sets _ Hg))|]. apply Z.pow_le_mono_r; lia. }
  destruct (eio_mem_init_form g Hpre) as (r & f & -> & Hwf & Hc). exists (mem_inited f g).
  assert (Hflag : f = sb_flags d \/ f = Z.lor (sb_flags d) CACHE_FLAGS_MD8) by (rewrite <-E8; destruct Hc as [(_ & -> & _)|(_ & -> & _)]; auto).
  assert (Hbits : num_sets_bits (mem_inited f g) = num_sets_bits d) by (change (num_sets_bits (mem_inited f g)) with (Z.log2 (dmc_size g / assoc g) + 1); rewrite Ens; by apply wf_bits).
  assert (H8 : EIO_MD8 (mem_inited f g) = EIO_MD8 d).
  { change (EIO_MD8 (mem_inited f g)) with (tst f CACHE_FLAGS_MD8). destruct Hc as [(_ & -> & Hwhy)|(_ & -> & _)].
    - rewrite lor_md8. destruct (EIO_MD8 d) eqn:E; [done|]. exfalso. destruct (sf_md4 _ Hf E) as [L1 L2]. unfold md4_limit in *. rewrite Hbits, E9 in Hwhy.
      change (num_sets (mem_inited _ g)) with (dmc_size g / assoc g) in Hwhy. rewrite Ens in Hwhy. lia.
    - by rewrite E8, sb_flags_md8. }
  split; [by destruct Hc as [(-> & _)|(-> & _)]|]. split; [|split; [|split; [|exact E11]]].
  - unfold layout, geom. rewrite H8, Hbits. cbn [dmc_size assoc block_size block_shift consecutive_shift num_sets num_sets_mask md_start_sect md_sectors mem_inited set_cache_flags set_num_sets].
    rewrite Ens, E1, E2, E3, E4, E5, E6, E7, (wf_bits _ Hg), <-(geo_mask _ Hg). done.
  - unfold no_device, CACHE_FAILED_IS_SET, CACHE_DEGRADED_IS_SET. change (cache_flags (mem_inited f g)) with f. by destruct (sb_flags_clear _ _ Hflag) as [-> ->].
  - exact E10.
Qed.
End config.

(** ** A restart *)

Lemma entries_sound_geom d d' clean F : geom d' = geom d -> entries_sound d clean F -> entries_sound d' clean F.
Proof.
  intros E [H1 H2 H3 H4]. destruct (geom_fields _ _ E) as (Es & Ea & Eb & _). constructor; rewrite ?Es, ?Ea, ?Eb; intros.
  - by apply (entry_ok_geom d), H1.
  - by apply H2.
  - rewrite (geom_dbn_set _ _ _ E). by apply H3.
  - by apply H4.
Qed.

(** after the restart the configuration is left to the superblock, that of the
    cache of [wx], and memory is available *)
Record restart_env (wx wr : conf_world) (hp : Z) (pages : list Z) (sp : Z) (l : list Z) : Prop := {
  rw_mode : mode (cf_d wx) = CACHE_MODE_WB;
  rw_new : cache_flags (cf_d wr) = 0 /\ mode (cf_d wr) = 0 /\ disk_dev_size (cf_d wr) = disk_dev_size (cf_d wx);
  rw_policy : exists dp, eio_policy_init true (cf_policies wr) (sb_config (sb_of wx) {| (cf_d wr) with sb_version := EIO_SB_VERSION |}) = Some (0, dp);
  rw_res : cw_results (cf_cw wr) = [];
  rw_names : names_ok wr;
  rw_kmalloc : cf_kmalloc wr = [];
  rw_vmalloc : exists m vs, cf_vmalloc wr = Some m :: vs /\ forall i, i ∈ dom m <-> 0 <= i < dmc_size (cf_d wx);
  rw_blk : exists blk, cf_blk wr = Some blk;
  rw_fresh : fresh_pages (hp :: pages ++ sp :: l) wr;
  rw_pages : pages <> [] /\ Z.of_nat (length pages) = Z.min (bio_nr_pages (cf_d wr)) MD_MAX_NR_PAGES
}.

Lemma layout_fields d d' : layout d' = layout d -> geom d' = geom d /\ md_start_sect d' = md_start_sect d /\ md_sectors d' = md_sectors d.
Proof. intros E. split; [by apply layout_geom|]. split; [exact (f_equal (fun x => x.1.2) E)|exact (f_equal snd E)]. Qed.

(** the cache after the restart; [d] is the one before it *)
Record restarted (d : cache_c) (clean : bool) (F : Z -> flash_cacheblock) (wr w' : conf_world) : Prop := {
  rs_layout : layout (cache_built (cf_d w')) = layout d;
  rs_inv : blk_inv (cache_built (cf_d w'));
  rs_state : forall i, 0 <= i < dmc_size d -> EIO_CACHE_STATE_GET (cache_built (cf_d w')) i = loaded_state clean (F i);
  rs_dbn : forall i, 0 <= i < dmc_size d -> loaded_state clean (F i) <> INVALID -> EIO_DBN_GET (cache_built (cf_d w')) i = Some (fc_dbn (F i));
  rs_volume : (forall i, 0 <= i < dmc_size d -> flash_entry d (cw_k (cf_cw wr)) i = Some (F i)) -> data_behind d ->
    forall s, 0 <= s -> volume (cache_built (cf_d w')) (cw_k (cf_cw w')) s = recovered d (cw_k (cf_cw wr)) s;
  rs_pages : pg_live (cf_kmem w') = pg_live (cf_kmem wr)
}.

Lemma restart_ok wx wr hp pages sp l F : restart_env wx wr hp pages sp l -> sb_fits (cf_d wx) ->
  sb_read (sb_sectors (on_ssd (cw_k (cf_cw wr)))) = sb_of wx ->
  (sb_state (cf_d wx) = CACHE_MD_STATE_DIRTY \/ sb_state (cf_d wx) = CACHE_MD_STATE_CLEAN \/ sb_state (cf_d wx) = CACHE_MD_STATE_FASTCLEAN) ->
  let clean := sb_clean_shutdown (cf_d wr) (sb_of wx) in
  md_on_ssd (on_ssd (cw_k (cf_cw wr))) (md_start_sect (cf_d wx)) (dmc_size (cf_d wx)) F -> entries_sound (cf_d wx) clean F ->
  exists w', eio_md_load wr = Some (0, w') /\ restarted (cf_d wx) clean F wr w'.
Proof.
  intros [Hm (Hn & Hm0 & Hdisk) [dp Hp] Hres Hnames Hk (m & vs & Hv & Hdom) Hblk Hf Hpg] Hfit Hsb Hst clean Hmd He. set (d := cf_d wx) in *.
  destruct (config_ok wx (cf_policies wr) (cf_d wr) dp Hfit Hn Hdisk Hp) as (d0 & Ec & El & Hd0 & Hb0 & Hm1). fold d in El.
  destruct (layout_fields _ _ El) as (Eg & Es & Ed). destruct (geom_fields _ _ Eg) as (Esz & _).
  assert (Hg0 : wf_geom d0) by (apply (wf_geom_eq d); [done|apply Hfit]). assert (He0 : entries_sound d0 clean F) by by apply (entries_sound_geom d).
  destruct (eio_md_load_ok wr d0 F hp pages sp l m) as (w' & d3 & E & [(d2 & Hw & Hl) (ssd' & [X1 X2 X3 X4 X5] & [Y1 Y2])]).
  { constructor.
    - unfold CACHE_FAILED_IS_SET, CACHE_DEGRADED_IS_SET. by rewrite Hn.
    - rewrite Hsb. by apply sb_accepted_of.
    - by rewrite Hsb.
    - rewrite Hsb. fold clean. constructor; [done|done|done|by rewrite Es, Esz|apply He0| |done|done]. left. rewrite Hm1, Hm0. cbn [Z.eqb]. fold d. by rewrite Hm.
    - by exists vs.
    - done.
    - done.
    - rewrite Hb0. done. }
  exists w'. split; [done|]. rewrite Hsb in Hl. fold clean in Hl.
  assert (Hdom0 : forall i, i ∈ dom m <-> 0 <= i < dmc_size d0) by by rewrite Esz.
  assert (El' : layout (cache_built (as_dirty d3)) = layout d0) by by apply (built_layout d0 clean F Hg0 He0 m d2 d3 _ Hw Hl).
  constructor; rewrite ?X1.
  - by rewrite El'.
  - by apply (built_inv d0 clean F Hg0 He0 m Hdom0 d2 d3 _ Hw Hl).
  - intros i Hi. apply (built_state d0 clean F Hg0 He0 m d2 d3 _ Hw Hl). by rewrite Esz.
  - intros i Hi. apply (built_dbn d0 clean F Hg0 He0 m d2 d3 _ Hw Hl). by rewrite Esz.
  - intros Hflash Hb s Hs. rewrite <-(recovered_layout d d0) by done.
    apply (built_volume d0 clean F Hg0 He0 m d2 d3 _ Hw Hl (cw_k (cf_cw wr)) (cw_k (cf_cw w'))); try done.
    + intros i Hi. rewrite (flash_entry_layout d d0) by done. apply Hflash. by rewrite <-Esz.
    + unfold data_behind. by rewrite Ed.
    + intros t Ht. rewrite X2. by apply Y2.
  - done.
Qed.

(** ** After a crash *)

(** what the SSD holds of the metadata of a running cache *)
Record md_image_ok (d : cache_c) (k : disks) : Prop := {
  mo_sound : forall set, 0 <= set < num_sets d -> flash_sound d k set;
  mo_entries : forall i f, 0 <= i < dmc_size d -> flash_entry d k i = Some f -> flash_ok f /\ (tst (fc_state f) DIRTY = true -> fc_state f = ALREADY_DIRTY);
  mo_sectors : forall s l, on_ssd k !!! s = MdBlocks l -> (length l <= 32)%nat
}.
Definition entry_on (d : cache_c) (k : disks) (i : Z) : flash_cacheblock := default (mk_flash 0 0) (flash_entry d k i).

Lemma block_set d i : wf_geom d -> 0 <= i < dmc_size d -> 0 <= i / assoc d < num_sets d /\ i ∈ set_blocks d (i / assoc d).
Proof.
  intros Hg Hi. pose proof (assoc_pos d Hg). rewrite (geo_size d Hg) in Hi. split; [|by apply elem_of_set_blocks].
  split; [apply Z.div_pos; lia|]. apply Z.div_lt_upper_bound; [done|nia].
Qed.

Section crash.
Context (d : cache_c) (k : disks) (Hinv : blk_inv d) (Hok : md_image_ok d k).

Lemma entry_on_spec i : 0 <= i < dmc_size d -> flash_entry d k i = Some (entry_on d k i) /\
  (tst (fc_state (entry_on d k i)) DIRTY = true -> is_dirty d i = true /\ EIO_DBN_GET d i = Some (fc_dbn (entry_on d k i))).
Proof.
  intros Hi. destruct (block_set d i (bi_geom d Hinv) Hi) as [Hs Hb]. destruct (mo_sound d k Hok _ Hs i Hb) as (f & E & H & _).
  unfold entry_on. by rewrite E.
Qed.

Lemma crash_entries : entries_sound d false (entry_on d k).
Proof.
  assert (T : forall i, 0 <= i < dmc_size d -> taken_entry false (entry_on d k i) = true ->
    fc_state (entry_on d k i) = ALREADY_DIRTY /\ EIO_CACHE_STATE_GET d i <> INVALID /\ EIO_DBN_GET d i = Some (fc_dbn (entry_on d k i))).
  { intros i Hi Ht. destruct (entry_on_spec i Hi) as [E H]. unfold taken_entry in Ht. cbn in Ht. destruct (H Ht) as [H1 H2].
    split; [by apply (mo_entries d k Hok i)|]. split; [by apply is_dirty_valid|done]. }
  assert (V : forall i, 0 <= i < dmc_size d -> loaded_state false (entry_on d k i) <> INVALID -> EIO_CACHE_STATE_GET d i <> INVALID /\ EIO_DBN_GET d i = Some (fc_dbn (entry_on d k i))).
  { intros i Hi Hv. by apply (T i Hi), taken_valid. }
  assert (B : forall i, 0 <= i < dmc_size d -> EIO_CACHE_STATE_GET d i <> INVALID -> EIO_DBN_GET d i = Some (fc_dbn (entry_on d k i)) ->
    dbn_ok d (fc_dbn (entry_on d k i)) /\ (block_size d | fc_dbn (entry_on d k i)) /\ dbn_set d (fc_dbn (entry_on d k i)) = i / assoc d).
  { intros i Hi Hv E. destruct (bi_dbn d Hinv i Hi Hv) as (b & Eb & H). rewrite E in Eb. by injection Eb as <-. }
  constructor.
  - intros i Hi Ht. destruct (T i Hi Ht) as (Es & Hv & Eb). destruct (B i Hi Hv Eb) as [H _]. by constructor; rewrite ?Es.
  - intros i Hi Ht. destruct (T i Hi Ht) as (-> & _). by right.
  - intros i Hi Hl. destruct (V i Hi Hl) as [Hv Eb]. by apply B.
  - intros i j Hi Hj Hli Hlj E. destruct (V i Hi Hli) as [H1 E1], (V j Hj Hlj) as [H2 E2]. apply (bi_uniq d Hinv); try done. by rewrite E1, E2, E.
Qed.

Lemma crash_md : md_on_ssd (on_ssd k) (md_start_sect d) (dmc_size d) (entry_on d k).
Proof.
  apply flash_entries_md; [apply Hok|]. intros i Hi. destruct (entry_on_spec i Hi) as [E _]. split; [done|]. by apply (mo_entries d k Hok i).
Qed.

(** recovery from the whole SSD gives the volume *)
Lemma crash_volume s : 0 <= s -> recovered d k s = volume d k s.
Proof. intros Hs. apply recovered_volume; [done..|]. apply (mo_sound d k Hok). by apply dbn_to_set_spec; [apply Hinv|]. Qed.
End crash.

(** ** After a shutdown *)
Definition saved_bits : Z := Z.lor INVALID (Z.lor VALID DIRTY).
(** the metadata end before the data *)
Definition md_before_data (d : cache_c) : Prop := md_start_sect d + (dmc_size d + 31) / 32 <= md_sectors d.
Definition readable_ok (d : cache_c) : Prop := forall i, 0 <= i < dmc_size d -> exists b, EIO_DBN_GET d i = Some b /\ dbn_ok d b.

Lemma readable_ok_weak d : readable_ok d -> readable d.
Proof. intros H i Hi. destruct (H i Hi) as (b & E & _). by exists b. Qed.
Lemma dbn_ok_small d b : wf_geom d -> dbn_ok d b -> 0 <= b < 2 ^ 64.
Proof.
  intros Hg [H0 H]. split; [done|]. destruct (EIO_MD8 d); [unfold EIO_MD8_DBN_BITS in H; lia|]. unfold EIO_MAX_SECTOR in H. lia.
Qed.
Lemma saved_range s : 0 <= Z.land s saved_bits < 256.
Proof.
  assert (E : Z.land s saved_bits = Z.land s saved_bits mod 256); [|rewrite E; apply Z.mod_pos_bound; lia].
  change 256 with (2 ^ 8). rewrite <-land_ones_mod by lia. by rewrite <-Z.land_assoc.
Qed.
Lemma saved_clear s : clr (Z.land s saved_bits) QUEUED = Z.land s saved_bits.
Proof. unfold clr. by rewrite Z.ldiff_land, <-Z.land_assoc. Qed.
Lemma saved_state_ok s : state_ok s -> state_ok (Z.land s saved_bits) /\ (Z.land s saved_bits <> INVALID -> s <> INVALID) /\
  Z.land (Z.land s saved_bits) (Z.lor VALID INVALID) <> Z.lor VALID INVALID.
Proof.
  intros H. split; [|split].
  - destruct H as [->|H]; [by left|right]. by rewrite <-Z.land_assoc.
  - by intros Hs ->.
  - rewrite <-Z.land_assoc. change (Z.land saved_bits (Z.lor VALID INVALID)) with 3. by destruct H as [->| ->].
Qed.

Section shutdown.
Context (d : cache_c) (Hinv : blk_inv d) (Hread : readable_ok d) (k : disks).
Context (Hwr : md_written (md_start_sect d) (entry_now d) (on_ssd k) (dmc_size d)).

Lemma entry_now_eq i : 0 <= i < dmc_size d -> exists b, EIO_DBN_GET d i = Some b /\ dbn_ok d b /\
  entry_now d i = mk_flash b (Z.land (EIO_CACHE_STATE_GET d i) saved_bits).
Proof. intros Hi. destruct (Hread i Hi) as (b & E & H). exists b. split; [done|]. split; [done|]. unfold entry_now, md_slot. by rewrite E. Qed.

Lemma saved_loaded i : 0 <= i < dmc_size d -> loaded_state true (entry_now d i) = Z.land (EIO_CACHE_STATE_GET d i) saved_bits.
Proof. intros Hi. destruct (entry_now_eq i Hi) as (b & _ & _ & ->). unfold loaded_state. cbn [taken_entry orb fc_state]. apply saved_clear. Qed.

Lemma saved_entries : entries_sound d true (entry_now d).
Proof.
  constructor.
  - intros i Hi _. destruct (entry_now_eq i Hi) as (b & _ & Hb & ->). destruct (saved_state_ok _ (bi_state d Hinv i Hi)) as (_ & _ & H3). constructor; [apply saved_range|exact H3|done].
  - intros i Hi _. destruct (entry_now_eq i Hi) as (b & _ & _ & ->). cbn [fc_state]. rewrite saved_clear. by apply saved_state_ok, (bi_state d Hinv).
  - intros i Hi. rewrite saved_loaded by done. intros Hv. destruct (saved_state_ok _ (bi_state d Hinv i Hi)) as (_ & H2 & _).
    destruct (bi_dbn d Hinv i Hi (H2 Hv)) as (b & E & _ & H). destruct (entry_now_eq i Hi) as (b' & E' & _ & ->). rewrite E in E'. injection E' as <-. exact H.
  - intros i j Hi Hj. rewrite !saved_loaded by done. intros Hvi Hvj E.
    destruct (saved_state_ok _ (bi_state d Hinv i Hi)) as (_ & H1 & _), (saved_state_ok _ (bi_state d Hinv j Hj)) as (_ & H2 & _).
    apply (bi_uniq d Hinv); auto. destruct (entry_now_eq i Hi) as (b & Eb & _ & Ei), (entry_now_eq j Hj) as (b' & Eb' & _ & Ej).
    rewrite Ei, Ej in E. cbn in E. by rewrite Eb, Eb', E.
Qed.

Lemma saved_flash i : 0 <= i < dmc_size d -> flash_entry d k i = Some (entry_now d i).
Proof.
  intros Hi. destruct (Hwr i Hi) as (l & E & Hl & _). unfold flash_entry, INDEX_TO_MD_SECTOR, INDEX_TO_MD_SECTOR_OFFSET, EIO_DIV, EIO_REM.
  change MD_BLOCKS_PER_SECTOR with 32. by rewrite E.
Qed.
Lemma saved_md : md_on_ssd (on_ssd k) (md_start_sect d) (dmc_size d) (entry_now d).
Proof.
  intros i Hi. destruct (Hwr i Hi) as (l & E & Hl & Hlen). rewrite E. apply sector_entry_md; [done|done|].
  destruct (entry_now_eq i Hi) as (b & _ & Hb & ->). split; cbn; [by apply (dbn_ok_small d), Hb; apply Hinv|].
  pose proof (saved_range (EIO_CACHE_STATE_GET d i)). lia.
Qed.
Lemma saved_volume s : 0 <= s -> recovered d k s = volume d k s.
Proof.
  intros Hs. apply recovered_volume; [done..|]. intros i Hi. assert (Hr : 0 <= i < dmc_size d) by (apply (set_block_range d Hinv s); done).
  destruct (entry_now_eq i Hr) as (b & Eb & _ & Ee). exists (entry_now d i). split; [by apply saved_flash|]. rewrite Ee. cbn [fc_state fc_dbn].
  assert (Et : tst (Z.land (EIO_CACHE_STATE_GET d i) saved_bits) DIRTY = is_dirty d i) by (unfold is_dirty, tst; by rewrite <-Z.land_assoc).
  rewrite Et. split; [done|]. intros H1 H2. congruence.
Qed.
End shutdown.

(** writing the metadata does not touch the data *)
Lemma volume_kept d k k' s : blk_inv d -> md_before_data d -> data_behind d -> on_hdd k' = on_hdd k -> 0 <= s ->
  (forall t, (t < EIO_SUPERBLOCK_START \/ EIO_SUPERBLOCK_START + 8 <= t) -> (t < md_start_sect d \/ md_start_sect d + (dmc_size d + 31) / 32 <= t) -> on_ssd k' !!! t = on_ssd k !!! t) ->
  volume d k' s = volume d k s.
Proof.
  intros Hinv Hm Hb Hh Hs Hk. unfold volume, contents. destruct (List.find _ _) as [i|] eqn:E; [|by rewrite Hh].
  apply list_find_Some in E as [Hi _]. assert (Hr : 0 <= i < dmc_size d) by (apply (set_block_range d Hinv s); done).
  pose proof (round_sector_le d s (bi_geom d Hinv) Hs). unfold block_data, data_sector, data_behind, md_before_data in *.
  pose proof (proj2 (Z.shiftl_nonneg i (block_shift d)) (proj1 Hr)). apply Hk; right; lia.
Qed.

(** * The layout of a new cache *)
(** the size of the device in sectors, and it has room for the metadata *)
Record create_pre (d : cache_c) : Prop := {
  cp_size : 0 <= dmc_size d < 2 ^ 62;
  cp_block : 0 < block_size d;
  cp_assoc : 0 < assoc d;
  cp_start : 0 <= cache_dev_start_sect d;
  cp_room : let sects := INDEX_TO_MD_SECTOR (EIO_DIV (dmc_size d) (block_size d)) in sects + EIO_EXTRA_SECTORS (cache_dev_start_sect d) sects <= dmc_size d
}.

Lemma align1_ok x : 0 <= x -> 8 <= EIO_ALIGN1_SECTORS x <= 23 /\ (16 | x + EIO_METADATA_START x).
Proof.
  intros Hx. unfold EIO_METADATA_START, EIO_ALIGN1_SECTORS, EIO_SUPERBLOCK_START, EIO_START, EIO_UNUSED_SECTORS, EIO_SUPERBLOCK_SECTORS.
  pose proof (Z.mod_pos_bound x 16 ltac:(lia)). destruct (Z.eqb_spec (x mod 16) 0) as [E|E]; cbn [negb]; (split; [lia|]).
  - exists (x / 16 + 9). Z.to_euclidean_division_equations; lia.
  - exists (x / 16 + 10). Z.to_euclidean_division_equations; lia.
Qed.
(** the metadata with their padding: [n] rounded up *)
Lemma align2_ok n : 0 <= n -> n + EIO_ALIGN2_SECTORS n = (n + 15) / 16 * 16.
Proof.
  intros Hn. unfold EIO_ALIGN2_SECTORS. destruct (Z.eqb_spec (n mod 16) 0); cbn [negb]; Z.to_euclidean_division_equations; lia.
Qed.
Lemma extra_eq x n : 0 <= n -> n + EIO_EXTRA_SECTORS x n = EIO_METADATA_START x + 16 + (n + 15) / 16 * 16.
Proof. intros Hn. unfold EIO_EXTRA_SECTORS, EIO_REDZONE_SECTORS. rewrite <-(align2_ok n Hn). lia. Qed.

Lemma create_layout_ok d : create_pre d -> let d' := create_layout d in
  EIO_SUPERBLOCK_START + EIO_SUPERBLOCK_SECTORS <= md_start_sect d' /\ md_before_data d' /\ data_behind d' /\
  md_sectors d' + dmc_size d' * block_size d' <= dmc_size d /\ (assoc d | dmc_size d') /\
  (16 | cache_dev_start_sect d' + md_start_sect d') /\ (16 | cache_dev_start_sect d' + md_sectors d').
Proof.
  intros [[Hs1 Hs2] Hb Ha Hst Hroom]. cbv zeta in Hroom. set (S := dmc_size d) in *. set (bs := block_size d) in *. set (x := cache_dev_start_sect d) in *.
  set (n0 := INDEX_TO_MD_SECTOR (EIO_DIV S bs)) in *. destruct (align1_ok x Hst) as [Hal Hdiv16].
  assert (Hst1 : EIO_METADATA_START x = 136 + EIO_ALIGN1_SECTORS x) by done.
  assert (Hq0 : 0 <= S / bs) by (apply Z.div_pos; lia).
  assert (En0 : n0 = S / bs / 32) by done. assert (Hn0 : 0 <= n0) by (rewrite En0; apply Z.div_pos; lia).
  rewrite (extra_eq x n0 Hn0) in Hroom. set (m0 := EIO_METADATA_START x + 16 + (n0 + 15) / 16 * 16) in *.
  assert (Hm0 : 0 <= m0) by (unfold m0; pose proof (Z.div_pos (n0 + 15) 16); lia).
  assert (Emd0 : u64 (n0 + EIO_EXTRA_SECTORS x n0) = m0) by (rewrite (extra_eq x n0 Hn0); apply Z.mod_small; fold m0; lia).
  set (size := EIO_DIV (EIO_DIV (u64 (S - m0)) bs) (assoc d) * assoc d).
  assert (Eu : u64 (S - m0) = S - m0) by (apply Z.mod_small; lia).
  assert (Hq1 : 0 <= (S - m0) / bs <= S / bs) by (split; [apply Z.div_pos; lia|apply Z.div_le_mono; lia]).
  assert (Hsz : 0 <= size <= (S - m0) / bs).
  { unfold size, EIO_DIV. rewrite Eu. pose proof (Z.mul_div_le ((S - m0) / bs) (assoc d) Ha). pose proof (Z.div_pos ((S - m0) / bs) (assoc d)). nia. }
  assert (Hlast : size * bs <= S - m0) by (pose proof (Z.mul_div_le (S - m0) bs Hb); nia).
  assert (Hszle : size <= S) by nia.
  assert (Esz : u64 size = size) by (apply Z.mod_small; lia).
  set (n1 := INDEX_TO_MD_SECTOR size). assert (En1 : n1 = size / 32) by done.
  assert (Hn1 : 0 <= n1 <= n0) by (rewrite En1, En0; split; [apply Z.div_pos; lia|apply Z.div_le_mono; lia]).
  set (m1 := EIO_METADATA_START x + 16 + (n1 + 15) / 16 * 16).
  assert (Hm1 : 0 <= m1 <= m0) by (unfold m0, m1; pose proof (Z.div_le_mono (n1 + 15) (n0 + 15) 16); pose proof (Z.div_pos (n1 + 15) 16); lia).
  assert (Emd1 : u64 (n1 + EIO_EXTRA_SECTORS x n1) = m1) by (rewrite (extra_eq x n1) by lia; apply Z.mod_small; fold m1; lia).
  assert (El : create_layout d = set_layout size (EIO_METADATA_START x) m1 d).
  { unfold create_layout. fold S bs x. fold n0. rewrite Emd0. fold size. rewrite Esz. fold n1. by rewrite Emd1. }
  cbv zeta. rewrite El. unfold md_before_data, data_behind. cbn [md_start_sect md_sectors dmc_size block_size cache_dev_start_sect set_layout]. fold bs x.
  split_and!.
  - rewrite Hst1. change (EIO_SUPERBLOCK_START + EIO_SUPERBLOCK_SECTORS) with 136. lia.
  - unfold m1. rewrite En1. clear. Z.to_euclidean_division_equations; lia.
  - unfold m1. rewrite Hst1. change EIO_SUPERBLOCK_START with 128. pose proof (Z.div_pos (n1 + 15) 16). lia.
  - lia.
  - unfold size. by exists (EIO_DIV (EIO_DIV (u64 (S - m0)) bs) (assoc d)).
  - done.
  - unfold m1. destruct Hdiv16 as [y Hy]. exists (y + 1 + (n1 + 15) / 16). lia.
Qed.
