(* ===== verification/Suspend.v ===== *)
(** * Devices that disappear and come back ([eio_subr.c], [eio_conf.c])

    A cache whose SSD or source volume was removed is suspended: a write-back
    cache is FAILED, another one DEGRADED without its SSD and FAILED without its
    source.  [eio_resume_caching] attaches an SSD again; [eio_ctr_ssd_add] makes
    the cache anew on it, keeping the blocks of a write-back cache and emptying
    any other. *)

From S2P Require Import Prelude Types Mem Scan Fifo Rand Lru Policy World Dispatch Disk Clean WbAlloc Superblock MdStore MdCreate.

(** ** [eio_suspend_caching] *)
Definition set_flag (f : Z) (d : cache_c) : cache_c := set_cache_flags (Z.lor (cache_flags d) f) d.
Definition clear_flag (f : Z) (d : cache_c) : cache_c := set_cache_flags (clr (cache_flags d) f) d.
Definition set_no_source_dev (v : Z) (d : cache_c) : cache_c := {| d with errors := {| (errors d) with no_source_dev := v |} |}.
Definition set_no_cache_dev (v : Z) (d : cache_c) : cache_c := {| d with errors := {| (errors d) with no_cache_dev := v |} |}.
Definition no_cached_blocks (d : cache_c) : cache_c := {| d with stats := {| (stats d) with st_cached_blocks := 0 |} |}.

Definition eio_suspend_caching (note : dev_notifier) : M cache_c unit :=
  d <- gets id ;;
  if negb (mode d =? CACHE_MODE_WB) && CACHE_FAILED_IS_SET d then ret tt
  else match note with
  | NOTIFY_SRC_REMOVED =>
    when (CACHE_DEGRADED_IS_SET d) (modify (clear_flag CACHE_FLAGS_DEGRADED)) ;;
    modify (set_flag CACHE_FLAGS_FAILED) ;;
    modify (set_no_source_dev 1) ;;
    modify no_cached_blocks
  | NOTIFY_SSD_REMOVED =>
    if mode d =? CACHE_MODE_WB then
      EIO_ASSERT (negb (CACHE_DEGRADED_IS_SET d)) ;;
      modify (set_flag CACHE_FLAGS_FAILED) ;;
      modify (set_no_cache_dev 1)
    else if CACHE_DEGRADED_IS_SET d || CACHE_SSD_ADD_INPROG_IS_SET d then ret tt
    else
      modify (set_flag CACHE_FLAGS_DEGRADED) ;;
      modify no_cached_blocks ;;
      modify (set_no_cache_dev 1)
  | _ => ret tt
  end.

(** ** [eio_ctr_ssd_add] *)

(** a block device, as [eio_ttc_get_device] finds it under a path *)
Record ssd_dev := mk_ssd {
  sd_size : Z;             (* bd_inode->i_size *)
  sd_start_sect : Z;       (* bd_part->start_sect, 0 without a partition *)
  sd_max_hw_sectors : Z;   (* queue_max_hw_sectors *)
  sd_nr_vecs : Z;          (* bio_get_nr_vecs *)
  sd_sectors : gmap Z sector_data
}.
Definition eio_get_device_size (sd : ssd_dev) : Z := sd_size sd.
Definition eio_get_device_start_sect (sd : ssd_dev) : Z := sd_start_sect sd.

(** [dmc->cache_dev] is the new device *)
Definition attach_ssd (sd : ssd_dev) : M conf_world unit :=
  conf_upd (fun d => {| d with cache_dev_size := sd_size sd |}) ;;
  conf_cw (modify (fun w => set_cw_k (dev_set SSD (sd_sectors sd) (cw_k w)) w)).

(** without the name of the disk, which only the notifier uses *)
Definition eio_init_ssddev_props (sd : ssd_dev) (d : cache_c) : cache_c :=
  {| d with bio_nr_pages := Z.min (u32 (to_bytes (sd_max_hw_sectors sd) / PAGE_SIZE)) (u32 (sd_nr_vecs sd)) |}.

Definition set_dmc_size (v : Z) (d : cache_c) : cache_c := {| d with dmc_size := v |}.
Definition set_persistence (v : Z) (d : cache_c) : cache_c := {| d with persistence := v |}.

Definition no_stats : eio_stats :=
  mk_stats 0 0 0 0 0 0 0 0 0 0 0 0 0 0 0 0 0 0 0 0 0 0 0 0 0 0 0 0 0 0 0 0.

(** the policy is set up again *)
Definition ctr_policy : M conf_world Z :=
  conf_upd eio_policy_free ;;
  ok <- conf_kmalloc ;;
  pols <- gets cf_policies ;;
  conf_dmc (eio_policy_init ok pols).
(** its data, after the blocks were made *)
Definition ctr_sets : M conf_world Z :=
  ok <- conf_kmalloc ;;
  r <- conf_dmc (fun d => eio_repl_sets_init (policy_ops d) ok d) ;;
  if r <? 0 then ret r
  else
    conf_dmc (fun d => eio_policy_lru_pushblks (policy_ops d) d) ;;
    d <- gets cf_d ;;
    when (negb (mode d =? CACHE_MODE_WB)) (conf_upd (set_stats no_stats)) ;;
    ret 0.

(** after the device was attached; a result that is not 0 leads to [out] *)
Definition ctr_ssd_add_body (dev : list Z) (sd : ssd_dev) : M conf_world Z :=
  w <- gets id ;;
  if negb (cf_cache_size w =? eio_to_sector (eio_get_device_size sd)) then ret (- EINVAL)
  else if negb (cache_dev_start_sect (cf_d w) =? eio_get_device_start_sect sd) then ret (- EINVAL)
  else
    modify (set_cache_devname dev) ;;
    conf_upd (eio_init_ssddev_props sd) ;;
    conf_upd (set_dmc_size (cf_cache_size w)) ;;
    conf_upd (set_persistence CACHE_FORCECREATE) ;;
    r <- ctr_policy ;;
    if negb (r =? 0) then ret r
    else
      r <- eio_md_create true (negb (mode (cf_d w) =? CACHE_MODE_WB)) ;;
      if negb (r =? 0) then ret r else ctr_sets.

(** [sd]: what [eio_ttc_get_device] opens *)
Definition eio_ctr_ssd_add (dev : list Z) (sd : option ssd_dev) : M conf_world Z :=
  d <- gets cf_d ;;
  EIO_ASSERT (no_source_dev (errors d) =? 0) ;;
  match sd with
  | None => ret (- EINVAL)
  | Some sd =>
    attach_ssd sd ;;
    r <- ctr_ssd_add_body dev sd ;;
    when (negb (r =? 0)) (conf_upd (set_persistence (persistence d))) ;;
    ret r
  end.

(** ** [eio_resume_caching] *)

(** under the cache's lock: may an SSD be added? *)
Definition resume_start : M cache_c bool :=
  d <- gets id ;;
  if CACHE_STALE_IS_SET d then ret false
  else if (if mode d =? CACHE_MODE_WB
           then negb (CACHE_FAILED_IS_SET d) || CACHE_SRC_IS_ABSENT d || CACHE_SSD_ADD_INPROG_IS_SET d
           else CACHE_FAILED_IS_SET d || negb (CACHE_DEGRADED_IS_SET d) || CACHE_SSD_ADD_INPROG_IS_SET d)
  then ret false
  else modify (set_flag CACHE_FLAGS_SSD_ADD_INPROG) ;; ret true.
(** under the lock again, with the result of [eio_ctr_ssd_add] *)
Definition resume_finish (r : Z) : M cache_c unit :=
  if negb (r =? 0) then modify (clear_flag CACHE_FLAGS_SSD_ADD_INPROG)
  else
    modify (set_no_cache_dev 0) ;;
    d <- gets id ;;
    modify (clear_flag (if negb (mode d =? CACHE_MODE_WB) then CACHE_FLAGS_DEGRADED else CACHE_FLAGS_FAILED)) ;;
    modify (clear_flag CACHE_FLAGS_SSD_ADD_INPROG).

(** [dev] is [None] for NULL *)
Definition eio_resume_caching (dev : option (list Z)) (sd : option ssd_dev) : M conf_world unit :=
  match dev with
  | None => ret tt
  | Some dev =>
    if (DEV_PATHLEN <=? length dev)%nat then ret tt
    else
      go <- conf_dmc resume_start ;;
      if negb go then ret tt
      else r <- eio_ctr_ssd_add dev sd ;; conf_dmc (resume_finish r)
  end.

(** [found]: is there a cache of the name *)
Definition eio_handle_ssd_message (found : bool) (note : dev_notifier) (dev : option (list Z)) (sd : option ssd_dev) : M conf_world Z :=
  if negb found then ret (- EINVAL)
  else
    (match note with
     | NOTIFY_SSD_ADD =>
       d <- gets cf_d ;;
       if CACHE_FAILED_IS_SET d || CACHE_DEGRADED_IS_SET d then eio_resume_caching dev sd else ret tt
     | NOTIFY_SSD_REMOVED => conf_dmc (eio_suspend_caching note)
     | _ => ret tt
     end) ;;
    ret 0.

(** ** The kernel reports the removal of a SCSI device

    The notifier puts the caches of the device on a list, which the "events"
    thread works off. *)

(** two strings agree in their first [n] characters; a string ends at NUL *)
Fixpoint strn_eq (n : nat) (a b : list Z) : bool :=
  match n with
  | O => true
  | S n => if negb (hd 0 a =? hd 0 b) then false else if hd 0 a =? 0 then true else strn_eq n (tail a) (tail b)
  end.

Record removal := mk_removal { rm_dmc : Z; rm_note : dev_notifier }.   (* struct ssd_rm_list *)
Record cache_names := mk_names { cn_dmc : Z; cache_srcdisk_name : list Z; cache_gendisk_name : list Z }.
Record rm_world := mk_rm {
  rm_caches : gmap Z cache_c;       (* by address *)
  ssd_rm_list : list removal;
  ssd_rm_list_not_empty : bool;
  rm_kmalloc : list bool;           (* outcomes of the coming allocations *)
  kcached_wq : bool                 (* _kcached_wq is scheduled *)
}.
Definition set_rm_caches v (w : rm_world) : rm_world := {| w with rm_caches := v |}.
Definition set_rm_list l b (w : rm_world) : rm_world := {| w with ssd_rm_list := l; ssd_rm_list_not_empty := b |}.
Definition set_rm_kmalloc v (w : rm_world) : rm_world := {| w with rm_kmalloc := v |}.
Definition set_kcached_wq v (w : rm_world) : rm_world := {| w with kcached_wq := v |}.
Definition rm_alloc : M rm_world bool := fun w =>
  match rm_kmalloc w with [] => Some (true, w) | b :: l => Some (b, set_rm_kmalloc l w) end.

(** what a cache is told about the device [name] *)
Definition removal_note (name : list Z) (c : cache_names) : dev_notifier :=
  let same n := negb (hd 0 n =? 0) && strn_eq (length name) name n in
  if same (cache_srcdisk_name c) then NOTIFY_SRC_REMOVED
  else if same (cache_gendisk_name c) then NOTIFY_SSD_REMOVED
  else NOTIFY_INITIALIZER.

Fixpoint notify_caches (name : list Z) (caches : list cache_names) : M rm_world bool :=
  match caches with
  | [] => ret true
  | c :: caches' =>
    match removal_note name c with
    | NOTIFY_INITIALIZER => notify_caches name caches'
    | note =>
      ok <- rm_alloc ;;
      if negb ok then ret false
      else
        l <- gets ssd_rm_list ;;
        modify (set_rm_list (l ++ [mk_removal (cn_dmc c) note]) true) ;;
        notify_caches name caches'
    end
  end.

(** the notification of the removal of a SCSI device with a name *)
Definition eio_notify_ssd_rm (name : list Z) (caches : list cache_names) : M rm_world Z :=
  ok <- notify_caches name caches ;;
  if negb ok then ret (- ENOMEM)
  else
    b <- gets ssd_rm_list_not_empty ;;
    when b (modify (set_kcached_wq true)) ;;
    ret 0.

Definition on_rm_cache (dmc : Z) (m : M cache_c unit) : M rm_world unit := fun w =>
  match rm_caches w !! dmc with
  | Some d => match m d with Some (_, d') => Some (tt, set_rm_caches (<[dmc := d']> (rm_caches w)) w) | None => None end
  | None => None
  end.
(** the list is worked off from its head *)
Fixpoint process_removals (l : list removal) : M rm_world unit :=
  match l with
  | [] => modify (set_rm_list [] false)
  | x :: l' => on_rm_cache (rm_dmc x) (eio_suspend_caching (rm_note x)) ;; process_removals l'
  end.
Definition eio_process_ssd_rm_list : M rm_world unit :=
  l <- gets ssd_rm_list ;;
  match l with [] => ret tt | _ => process_removals l end.
(** the first part of [eio_do_work] *)
Definition do_work_removals : M rm_world unit :=
  modify (set_kcached_wq false) ;;
  b <- gets ssd_rm_list_not_empty ;;
  when b eio_process_ssd_rm_list.
