(* ===== verification/Gone.v ===== *)
(** * What making a cache leaves alone

    [keeps P R m]: whatever is allocated and whatever transfers fail, [m] relates
    the cache before and after by [R], if other threads only do [P].  The steps of [eio_ctr_ssd_add] keep what
    decides whether a cache is active, and most of them the words of the
    blocks.

    ** Which devices of a cache are gone

    Abstractly a cache knows which of its two devices are gone.  Its flags and
    error counters say so, and the removal and the return of a device change
    what it knows as they should. *)

From S2P Require Import Prelude Types Mem Scan Fifo Rand Lru Policy World Dispatch Disk Clean CleanThread WbAlloc Superblock MdStore MdCreate Suspend.

(** * What making a cache leaves alone *)
Section keeps.
Context (P : (cache_c -> cache_c) -> Prop) (R : cache_c -> cache_c -> Prop) `{!PreOrder R}.

(** the other threads, during [msleep], only do [P] *)
Definition sleeps_keep (w : conf_world) : Prop := Forall P (cf_sleeps w).
Definition keeps {A} (m : M conf_world A) : Prop :=
  forall w a w', m w = Some (a, w') -> sleeps_keep w -> R (cf_d w) (cf_d w') /\ sleeps_keep w'.

Lemma k_ret {A} (a : A) : keeps (ret a).
Proof. intros w b w' [= <- <-] Hs. by split. Qed.
Lemma k_panic {A} : keeps (panic (A := A)).
Proof. by intros w a w'. Qed.
Lemma k_bind {A B} (m : M conf_world A) (k : A -> M conf_world B) : keeps m -> (forall a, keeps (k a)) -> keeps (bind m k).
Proof. intros Hm Hk w b w' (a & w1 & E1 & E2)%bind_inv Hs. destruct (Hm _ _ _ E1 Hs) as [H1 Hs1]. destruct (Hk _ _ _ _ E2 Hs1) as [H2 Hs2]. split; [by etransitivity|done]. Qed.
Lemma k_gets {A} (f : conf_world -> A) : keeps (gets f).
Proof. intros w a w' [= <- <-] Hs. by split. Qed.
Lemma k_eval {A} (f : conf_world -> option A) : keeps (eval f).
Proof. intros w a w' E Hs. unfold eval in E. destruct (f w); [|done]. injection E as <- <-. by split. Qed.
Lemma k_assert b : keeps (EIO_ASSERT b).
Proof. destruct b; [apply k_ret|apply k_panic]. Qed.
Lemma k_when b (m : M conf_world unit) : keeps m -> keeps (when b m).
Proof. destruct b; [done|]. intros _. apply k_ret. Qed.
Lemma k_cw {A} (m : M cworld A) : (forall c a c', m c = Some (a, c') -> R (cw_d c) (cw_d c')) -> keeps (conf_cw m).
Proof. intros H w a w' E Hs. unfold conf_cw in E. destruct (m (cf_cw w)) as [[x c]|] eqn:Em; [|done]. injection E as <- <-. split; [exact (H _ _ _ Em)|exact Hs]. Qed.
Lemma k_dmc {A} (m : M cache_c A) : (forall d a d', m d = Some (a, d') -> R d d') -> keeps (conf_dmc m).
Proof. intros H. apply k_cw. intros c a c' E. unfold on_cache in E. destruct (m (cw_d c)) as [[x d]|] eqn:Em; [|done]. injection E as <- <-. exact (H _ _ _ Em). Qed.
Lemma k_upd f : (forall d, R d (f d)) -> keeps (conf_upd f).
Proof. intros H. apply k_dmc. intros d a d' [= <- <-]. apply H. Qed.
Lemma k_mem f : keeps (conf_mem f).
Proof. apply k_cw. intros c a c' [= <- <-]. by cbn. Qed.
Lemma k_kmem {A} (m : M kmem A) : keeps (conf_kmem m).
Proof. intros w a w' E Hs. unfold conf_kmem in E. destruct (m (cf_kmem w)) as [[x k]|]; [|done]. injection E as <- <-. by split. Qed.
Lemma k_kmalloc : keeps conf_kmalloc.
Proof. intros w a w' E Hs. unfold conf_kmalloc in E. destruct (cf_kmalloc w); injection E as <- <-; by split. Qed.
Lemma k_vmalloc : keeps conf_vmalloc.
Proof. intros w a w' E Hs. unfold conf_vmalloc in E. destruct (cf_vmalloc w); injection E as <- <-; by split. Qed.
Lemma k_msleep : (forall f d, P f -> R d (f d)) -> keeps conf_msleep.
Proof.
  intros HP w a w' E Hs. unfold conf_msleep in E. unfold sleeps_keep in *. destruct (cf_sleeps w) as [|f l] eqn:El; [injection E as <- <-; rewrite El; by split|].
  apply Forall_cons in Hs as [Hf Hs]. injection E as <- <-. split; [by apply HP|exact Hs].
Qed.
Lemma k_mfor {A} (f : A -> M conf_world unit) l : (forall x, keeps (f x)) -> keeps (mfor l f).
Proof. intros H. induction l as [|x l IH]; cbn [mfor]; [apply k_ret|]. by apply k_bind. Qed.

Lemma transfer_keeps where_ rw hddio bvecs r c a c' : do_transfer where_ rw hddio bvecs r c = Some (a, c') -> cw_d c' = cw_d c.
Proof. unfold do_transfer. intros (bios & H)%eval_inv. cbv zeta in H. destruct (rw =? READ); injection H as _ <-; done. Qed.
Lemma k_sync_vm where_ rw pages : keeps (eio_io_sync_vm where_ rw pages).
Proof.
  apply k_bind; [apply k_gets|]. intros d. destruct (_ && _); [apply k_ret|]. apply k_cw. intros c a c' (r & c1 & E1 & E2)%bind_inv.
  assert (H1 : cw_d c1 = cw_d c) by (unfold next_result in E1; destruct (cw_results c); injection E1 as <- <-; done).
  destruct (negb _); [injection E2 as _ <-; by rewrite H1|]. apply bind_inv in E2 as (u & c2 & E2 & E3). injection E3 as _ <-. by rewrite (transfer_keeps _ _ _ _ _ _ _ _ E2), H1.
Qed.
Lemma k_zero_pages n : keeps (alloc_zero_pages n).
Proof.
  induction n as [|n IH]; cbn [alloc_zero_pages]; [apply k_ret|]. apply k_bind; [apply k_kmem|]. intros [p|]; [|apply k_ret].
  apply k_bind; [apply k_mem|]. intros _. apply k_bind; [done|]. intros ps. apply k_ret.
Qed.
Lemma k_alloc_pages n : keeps (eio_alloc_pages n).
Proof.
  apply k_bind; [apply k_kmalloc|]. intros ok. destruct (negb ok); [apply k_ret|]. apply k_bind; [apply k_zero_pages|]. intros ps.
  destruct (Nat.eqb _ _); [apply k_ret|]. apply k_bind; [apply k_assert|]. intros _. apply k_ret.
Qed.
Lemma k_put_pages ps : keeps (put_pages ps).
Proof. apply k_mfor. intros p. apply k_kmem. Qed.
Lemma k_available n : keeps (eio_mem_available n).
Proof. apply k_bind; [apply k_gets|]. intros w. cbv zeta. destruct (_ || _); apply k_ret. Qed.
End keeps.

Create HintDb keeps discriminated.
#[export] Hint Resolve k_ret k_panic k_bind k_gets k_eval k_assert k_when k_cw k_dmc k_upd k_mem k_kmem k_kmalloc k_vmalloc k_msleep k_mfor
  k_sync_vm k_alloc_pages k_put_pages k_available : keeps.
(** one step of a program, its branches included *)
Ltac keep_step :=
  match goal with
  | |- PreOrder _ => apply _
  | |- keeps _ _ (bind _ _) => apply (k_bind _ _); [|intros]
  | |- keeps _ _ (if ?b then _ else _) => destruct b
  | |- keeps _ _ (match ?x with Some _ => _ | None => _ end) => destruct x
  | |- keeps _ _ (when _ _) => apply (k_when _ _)
  | |- keeps _ _ _ => solve [eauto 2 with keeps typeclass_instances]
  end.
Ltac keep_steps := cbv zeta; repeat keep_step.

Section programs.
Context (P : (cache_c -> cache_c) -> Prop) (R : cache_c -> cache_c -> Prop) `{!PreOrder R}.

Lemma k_sb_store : keeps P R eio_sb_store.
Proof. unfold eio_sb_store. keep_steps. Qed.
Lemma k_fill_slots pages slots n : keeps P R (fill_slots pages slots n).
Proof. unfold fill_slots. keep_steps. Qed.
Lemma k_flush pages b : keeps P R (md_flush pages b).
Proof. unfold md_flush. keep_steps; apply k_fill_slots. Qed.
Lemma k_flush_last pages b : keeps P R (md_flush_last pages b).
Proof. unfold md_flush_last. keep_steps; apply k_fill_slots. Qed.
Lemma k_create_loop pages : forall blocks b, keeps P R (md_create_loop pages blocks b).
Proof.
  induction blocks as [|i blocks IH]; intros b; cbn [md_create_loop]; [apply k_ret, _|]. keep_steps; try apply IH. apply k_flush.
Qed.
End programs.

(** ** What decides whether a cache is active *)
Definition dev_status (d : cache_c) : Z * eio_errors * bool * bool * bool * bool :=
  (mode d, errors d, CACHE_FAILED_IS_SET d, CACHE_DEGRADED_IS_SET d, CACHE_SSD_ADD_INPROG_IS_SET d, CACHE_STALE_IS_SET d).
Definition status_kept (d d' : cache_c) : Prop := dev_status d' = dev_status d.
#[export] Instance status_kept_pre : PreOrder status_kept.
Proof. split; [done|]. intros d1 d2 d3 H1 H2. unfold status_kept in *. congruence. Qed.

Lemma md8_status d : dev_status (set_cache_flags (Z.lor (cache_flags d) CACHE_FLAGS_MD8) d) = dev_status d.
Proof.
  unfold dev_status, CACHE_FAILED_IS_SET, CACHE_DEGRADED_IS_SET, CACHE_SSD_ADD_INPROG_IS_SET, CACHE_STALE_IS_SET. cbn [mode errors cache_flags set_cache_flags].
  unfold CACHE_FLAGS_FAILED, CACHE_FLAGS_DEGRADED, CACHE_FLAGS_SSD_ADD_INPROG, CACHE_FLAGS_STALE, CACHE_FLAGS_MD8. rewrite !tst_spec by lia.
  by rewrite !Z.lor_spec, !Z.pow2_bits_false, !orb_false_r by lia.
Qed.
Lemma mem_init_status d r d' : eio_mem_init d = Some (r, d') -> status_kept d d'.
Proof.
  unfold eio_mem_init. destruct (_ <? _); [by intros [= _ <-]|]. destruct (num_bits_loop _ _ _) as [bits|]; [|done]. destruct (bits =? 0); [done|]. cbv zeta.
  destruct (bits <? 16); [|destruct (_ <? _)]; intros [= _ <-]; try done; exact (md8_status d).
Qed.
Lemma set_words_status m d : status_kept d (set_words m d).
Proof. unfold set_words. by destruct (EIO_MD8 d). Qed.
Lemma invalidate_status i d : status_kept d (eio_invalidate_md d i).
Proof. unfold eio_invalidate_md. by destruct (EIO_MD8 d). Qed.
Lemma pol_only_status d d' : pol_only d d' -> status_kept d d'.
Proof. by intros (r & b & m & ->). Qed.
Lemma pol_only_set b m d : pol_only d (set_sp_cache_set m (set_sp_cache_blk b d)).
Proof. exists (random d), b, m. by destruct d. Qed.
Lemma pol_only_blk b d : pol_only d (set_sp_cache_blk b d).
Proof. exists (random d), b, (sp_cache_set d). by destruct d. Qed.
Lemma pol_only_sets m d : pol_only d (set_sp_cache_set m d).
Proof. exists (random d), (sp_cache_blk d), m. by destruct d. Qed.
Lemma blk_init_pol p blk d r d' : eio_repl_blk_init p blk d = Some (r, d') -> pol_only d d'.
Proof. destruct p as [[]|], blk as [b|]; intros [= _ <-]; first [reflexivity|apply pol_only_blk]. Qed.
Lemma sets_init_pol p ok d r d' : eio_repl_sets_init p ok d = Some (r, d') -> pol_only d d'.
Proof. destruct p as [[]|], ok; intros [= _ <-]; first [reflexivity|apply pol_only_sets]. Qed.
Lemma movetail_pol i d : pol_only d (eio_reclaim_lru_movetail i d).
Proof. unfold eio_reclaim_lru_movetail. destruct (lru_unlink _ _ _ _) as [b s]. destruct (lru_link_tail _ _ _ _ _) as [b' s']. apply pol_only_set. Qed.
Lemma pushblks_pol p d r d' : eio_policy_lru_pushblks p d = Some (r, d') -> pol_only d d'.
Proof.
  assert (G : forall ids d, pol_only d (foldl lru_pushblk d ids)).
  { induction ids as [|i ids IH]; intros x; [done|]. cbn [foldl]. etransitivity; [|apply IH]. unfold lru_pushblk. etransitivity; [|apply movetail_pol].
    apply pol_only_blk. }
  destruct p as [[]|]; intros [= _ <-]; first [reflexivity|apply G].
Qed.
Lemma policy_init_status ok pols d r d' : eio_policy_init ok pols d = Some (r, d') -> status_kept d d'.
Proof. unfold eio_policy_init. destruct (req_policy d =? 0), (policy_ops _); by intros [= _ <-]. Qed.
#[export] Hint Resolve mem_init_status set_words_status invalidate_status policy_init_status : keeps.
#[export] Hint Resolve k_sb_store k_flush k_flush_last k_create_loop : keeps.

Section status.
Context (P : (cache_c -> cache_c) -> Prop) (HP : forall f d, P f -> status_kept d (f d)).

#[local] Hint Resolve HP : keeps.

Lemma k_cold_pass : forall blocks, keeps P status_kept (cold_pass blocks).
Proof. induction blocks as [|i blocks IH]; cbn [cold_pass]; keep_steps. Qed.
Lemma k_cold_passes : forall n blocks, keeps P status_kept (cold_passes n blocks).
Proof. induction n as [|n IH]; intros blocks; cbn [cold_passes]; keep_steps; apply k_cold_pass. Qed.
Lemma k_vfree : keeps P status_kept (conf_upd vfree_cache).
Proof. apply k_upd. intros d. unfold vfree_cache. by destruct (EIO_MD8 d). Qed.
#[local] Hint Resolve k_cold_passes k_vfree : keeps.
Lemma k_create_pages pages : keeps P status_kept (md_create_pages pages).
Proof. unfold md_create_pages. keep_steps. Qed.
Lemma k_create_sb : keeps P status_kept md_create_sb.
Proof. unfold md_create_sb. keep_steps. by apply k_upd. Qed.
#[local] Hint Resolve k_create_pages k_create_sb : keeps.
Lemma k_create_cold : keeps P status_kept md_create_cold.
Proof. unfold md_create_cold. keep_steps. Qed.
Lemma k_create_alloc : keeps P status_kept md_create_alloc.
Proof.
  unfold md_create_alloc. keep_steps; try (apply k_upd; intros d; apply set_words_status).
  apply k_dmc. intros d x d' E%blk_init_pol. by apply pol_only_status.
Qed.
#[local] Hint Resolve k_create_cold k_create_alloc : keeps.
Lemma k_md_create force cold : keeps P status_kept (eio_md_create force cold).
Proof.
  unfold eio_md_create, md_create_body. keep_steps; [by apply k_upd|]. apply k_dmc. apply mem_init_status.
Qed.
Lemma k_ctr_policy : keeps P status_kept ctr_policy.
Proof. unfold ctr_policy. keep_steps; [by apply k_upd|]. apply k_dmc. apply policy_init_status. Qed.
Lemma k_ctr_sets : keeps P status_kept ctr_sets.
Proof.
  unfold ctr_sets. keep_steps; [apply k_dmc..|by apply k_upd].
  - intros d x d' E%sets_init_pol. by apply pol_only_status.
  - intros d x d' E%pushblks_pol. by apply pol_only_status.
Qed.
#[local] Hint Resolve k_md_create k_ctr_policy k_ctr_sets : keeps.
Lemma k_attach sd : keeps P status_kept (attach_ssd sd).
Proof. unfold attach_ssd. keep_steps; [by apply k_upd|]. apply k_cw. by intros c u c' [= _ <-]. Qed.
Lemma k_devname dev : keeps P status_kept (modify (set_cache_devname dev)).
Proof. intros w u w' [= _ <-] Hs. by split. Qed.
#[local] Hint Resolve k_attach k_devname : keeps.

(** attaching an SSD does not make the cache active by itself *)
Lemma k_ssd_add dev sd : keeps P status_kept (eio_ctr_ssd_add dev sd).
Proof. unfold eio_ctr_ssd_add, ctr_ssd_add_body. keep_steps; by apply k_upd. Qed.
End status.

(** * Which devices of a cache are gone *)
(** ** Flags *)
Lemma tst_lor_pow x j k : 0 <= j -> 0 <= k -> tst (Z.lor x (2 ^ j)) (2 ^ k) = (j =? k) || tst x (2 ^ k).
Proof.
  intros Hj Hk. rewrite !tst_spec, Z.lor_spec, Z.pow2_bits_eqb, orb_comm by lia. done.
Qed.
Lemma tst_clr_pow x j k : 0 <= j -> 0 <= k -> tst (clr x (2 ^ j)) (2 ^ k) = negb (j =? k) && tst x (2 ^ k).
Proof.
  intros Hj Hk. unfold clr. rewrite !tst_spec, Z.ldiff_spec, Z.pow2_bits_eqb, andb_comm by lia. done.
Qed.

(** ** The abstract state *)
Record gone := mk_gone { ssd_gone : bool; src_gone : bool }.
Definition write_back (d : cache_c) : bool := mode d =? CACHE_MODE_WB.

Record gone_flags (s : gone) (wb : bool) (e : eio_errors) (f : Z) : Prop := {
  gf_src : no_source_dev e = Z.b2z (src_gone s);
  gf_ssd : no_cache_dev e = Z.b2z (ssd_gone s);
  gf_failed : tst f CACHE_FLAGS_FAILED = src_gone s || (wb && ssd_gone s);
  gf_degraded : tst f CACHE_FLAGS_DEGRADED = negb wb && ssd_gone s && negb (src_gone s);
  gf_inprog : tst f CACHE_FLAGS_SSD_ADD_INPROG = false
}.
(** the flags and error counters of [d] say that the devices [s] are gone *)
Definition gone_is (wb : bool) (s : gone) (d : cache_c) : Prop := write_back d = wb /\ gone_flags s wb (errors d) (cache_flags d).

Inductive dev_event :=
| SourceRemoved
| SsdRemoved
| SsdAdded (dev : option (list Z)) (sd : option ssd_dev).

(** a failed cache without a write-back takes no notice of its SSD; an SSD is
    only added to a cache that misses nothing else *)
Inductive gone_step (wb : bool) : dev_event -> gone -> gone -> Prop :=
| GoneSource s : gone_step wb SourceRemoved s (mk_gone (ssd_gone s) true)
| GoneSsd s : gone_step wb SsdRemoved s (mk_gone (ssd_gone s || wb || negb (src_gone s)) (src_gone s))
| GoneAdded dev sd s : ssd_gone s = true -> src_gone s = false -> sd <> None -> gone_step wb (SsdAdded dev sd) s (mk_gone false false)
| GoneNotAdded dev sd s : gone_step wb (SsdAdded dev sd) s s.

Definition dev_event_run (ev : dev_event) : M conf_world unit :=
  match ev with
  | SourceRemoved => conf_dmc (eio_suspend_caching NOTIFY_SRC_REMOVED)
  | SsdRemoved => eio_handle_ssd_message true NOTIFY_SSD_REMOVED None None ;; ret tt
  | SsdAdded dev sd => eio_handle_ssd_message true NOTIFY_SSD_ADD dev sd ;; ret tt
  end.

(** other threads do not touch what makes a cache active *)
Definition keeps_status (f : cache_c -> cache_c) : Prop := forall d, status_kept d (f d).

(** ** Suspending *)
(** only flags, error counters and statistics differ *)
Definition suspended (d d' : cache_c) : Prop := exists f e s, d' = set_stats s (set_errors e (set_cache_flags f d)).
Lemma suspended_intro d d' : d' = set_stats (stats d') (set_errors (errors d') (set_cache_flags (cache_flags d') d)) -> suspended d d'.
Proof. intros H. by exists (cache_flags d'), (errors d'), (stats d'). Qed.
#[export] Instance suspended_refl : Reflexive suspended.
Proof. intros d. exists (cache_flags d), (errors d), (stats d). by destruct d. Qed.

Ltac flags := unfold CACHE_FLAGS_FAILED, CACHE_FLAGS_DEGRADED, CACHE_FLAGS_SSD_ADD_INPROG in *; rewrite ?tst_lor_pow, ?tst_clr_pow, ?tst_lor_pow, ?tst_clr_pow by lia.

Ltac gone_flags_of H1 H2 H3 H4 H5 := constructor; cbn; flags; rewrite ?H1, ?H2, ?H3, ?H4, ?H5; done.

Lemma suspend_src_ok wb s d : gone_is wb s d ->
  exists d', eio_suspend_caching NOTIFY_SRC_REMOVED d = Some (tt, d') /\ suspended d d' /\ gone_is wb (mk_gone (ssd_gone s) true) d'.
Proof.
  intros [Ew [H1 H2 H3 H4 H5]]. unfold eio_suspend_caching, CACHE_FAILED_IS_SET, CACHE_DEGRADED_IS_SET. rewrite bind_gets. cbn [id]. fold (write_back d). rewrite Ew, H3, H4.
  destruct wb, s as [[] []]; cbn in *.
  all: eexists; split; [reflexivity|]; split; [first [reflexivity|by apply suspended_intro]|].
  all: split; [done|gone_flags_of H1 H2 H3 H4 H5].
Qed.

Lemma suspend_ssd_ok wb s d : gone_is wb s d ->
  exists d', eio_suspend_caching NOTIFY_SSD_REMOVED d = Some (tt, d') /\ suspended d d' /\
    gone_is wb (mk_gone (ssd_gone s || wb || negb (src_gone s)) (src_gone s)) d'.
Proof.
  intros [Ew [H1 H2 H3 H4 H5]]. unfold eio_suspend_caching, CACHE_FAILED_IS_SET, CACHE_DEGRADED_IS_SET, CACHE_SSD_ADD_INPROG_IS_SET. rewrite bind_gets. cbn [id]. fold (write_back d).
  rewrite Ew, H3, H4, H5. destruct wb, s as [[] []]; cbn in *.
  all: eexists; split; [reflexivity|]; split; [first [reflexivity|by apply suspended_intro]|].
  all: split; [done|gone_flags_of H1 H2 H3 H4 H5].
Qed.

(** ** Adding an SSD *)
Lemma resume_start_ok wb s d go d' : gone_is wb s d -> resume_start d = Some (go, d') ->
  (go = false /\ d' = d) \/ (go = true /\ ssd_gone s = true /\ src_gone s = false /\ d' = set_flag CACHE_FLAGS_SSD_ADD_INPROG d).
Proof.
  intros [Ew [H1 H2 H3 H4 H5]]. unfold resume_start, CACHE_FAILED_IS_SET, CACHE_DEGRADED_IS_SET, CACHE_SSD_ADD_INPROG_IS_SET, CACHE_SRC_IS_ABSENT. rewrite bind_gets. cbn [id].
  fold (write_back d). rewrite Ew, H1, H3, H4, H5. destruct (CACHE_STALE_IS_SET d); [intros [= <- <-]; by left|].
  destruct wb, s as [[] []]; cbn; intros [= <- <-]; auto.
Qed.
Lemma resume_finish_ok wb s d r : write_back d = wb -> ssd_gone s = true -> src_gone s = false ->
  gone_flags s wb (errors d) (clr (cache_flags d) CACHE_FLAGS_SSD_ADD_INPROG) ->
  exists d', resume_finish r d = Some (tt, d') /\ gone_is wb (if r =? 0 then mk_gone false false else s) d'.
Proof.
  intros Ew E1 E2 [H1 H2 H3 H4 H5]. unfold resume_finish. destruct s as [a b]. cbn in E1, E2. subst a b. revert H3 H4. flags. cbn. intros H3 H4.
  destruct (Z.eqb_spec r 0) as [->|Hr]; cbn [negb].
  - rewrite bind_modify, bind_gets. cbn [id]. change (mode (set_no_cache_dev 0 d) =? CACHE_MODE_WB) with (write_back d). rewrite Ew.
    destruct wb; cbn in *; eexists; (split; [reflexivity|]); split; try done; gone_flags_of H1 H2 H3 H4 H5.
  - eexists. split; [reflexivity|]. split; [done|]. destruct wb; gone_flags_of H1 H2 H3 H4 H5.
Qed.

(** the state between the two halves of [eio_resume_caching] *)
Lemma adding_flags wb s d d' : gone_is wb s d -> status_kept (set_flag CACHE_FLAGS_SSD_ADD_INPROG d) d' ->
  write_back d' = wb /\ gone_flags s wb (errors d') (clr (cache_flags d') CACHE_FLAGS_SSD_ADD_INPROG).
Proof.
  intros [Ew [H1 H2 H3 H4 H5]] Hk. injection Hk as K1 K2 K3 K4 K5 _. split; [unfold write_back in *; by rewrite K1|].
  change (tst (cache_flags d') CACHE_FLAGS_FAILED = tst (Z.lor (cache_flags d) CACHE_FLAGS_SSD_ADD_INPROG) CACHE_FLAGS_FAILED) in K3.
  change (tst (cache_flags d') CACHE_FLAGS_DEGRADED = tst (Z.lor (cache_flags d) CACHE_FLAGS_SSD_ADD_INPROG) CACHE_FLAGS_DEGRADED) in K4.
  revert K3 K4. flags. cbn. intros K3 K4. constructor; rewrite ?K2; [exact H1|exact H2|flags..]; cbn; [by rewrite K3|by rewrite K4|done].
Qed.

Lemma conf_dmc_inv {A} (m : M cache_c A) w a w' : conf_dmc m w = Some (a, w') -> exists d', m (cf_d w) = Some (a, d') /\ cf_d w' = d' /\ cf_sleeps w' = cf_sleeps w.
Proof. unfold conf_dmc, conf_cw, on_cache. change (cw_d (cf_cw w)) with (cf_d w). destruct (m (cf_d w)) as [[x d']|]; [|done]. intros [= <- <-]. by exists d'. Qed.

(** the halves of [eio_resume_caching] and what runs between them *)
Lemma resume_inv dev sd w w' : eio_resume_caching dev sd w = Some (tt, w') ->
  (cf_d w' = cf_d w /\ cf_sleeps w' = cf_sleeps w) \/ exists dv d1 r w2, resume_start (cf_d w) = Some (true, d1) /\
    eio_ctr_ssd_add dv sd (set_cf_cw (set_cw_d d1 (cf_cw w)) w) = Some (r, w2) /\ resume_finish r (cf_d w2) = Some (tt, cf_d w') /\ cf_sleeps w' = cf_sleeps w2.
Proof.
  intros E. unfold eio_resume_caching in E. destruct dev as [dev|]; [|injection E as <-; by left]. destruct (_ <=? _)%nat; [injection E as <-; by left|].
  apply bind_inv in E as (go & w1 & E1 & E). unfold conf_dmc, conf_cw, on_cache in E1. change (cw_d (cf_cw w)) with (cf_d w) in E1.
  destruct (resume_start (cf_d w)) as [[x d1]|] eqn:Er; [|done]. injection E1 as -> <-. destruct go; cbn [negb] in E.
  - right. apply bind_inv in E as (r & w2 & E2 & E). apply conf_dmc_inv in E as (d2 & E & <- & Es). by exists dev, d1, r, w2.
  - left. injection E as <-. split; [|done]. change (d1 = cf_d w). revert Er. unfold resume_start. rewrite bind_gets. cbn [id].
    destruct (CACHE_STALE_IS_SET _); [by intros [= <-]|]. match goal with |- context [if ?b then ret false else _] => destruct b end; [by intros [= <-]|]. by rewrite bind_modify.
Qed.
Lemma resume_ok wb s w dev sd w' : gone_is wb s (cf_d w) -> sleeps_keep keeps_status w -> eio_resume_caching dev sd w = Some (tt, w') ->
  sleeps_keep keeps_status w' /\
  (gone_is wb s (cf_d w') \/ (ssd_gone s = true /\ src_gone s = false /\ sd <> None /\ gone_is wb (mk_gone false false) (cf_d w'))).
Proof.
  intros Hs Hsl [[E Es]|(dv & d1 & r & w2 & Er & E2 & E & Es)]%resume_inv; unfold sleeps_keep; rewrite Es; [split; [exact Hsl|left; by rewrite E]|].
  destruct (resume_start_ok wb s _ _ _ Hs Er) as [[? _]|(_ & Hg1 & Hg2 & ->)]; [done|].
  destruct (k_ssd_add keeps_status (fun f d (H : keeps_status f) => H d) _ _ _ _ _ E2 Hsl) as [Hk Hsl2]. cbn in Hk. split; [exact Hsl2|].
  destruct (adding_flags wb s _ _ Hs Hk) as [Ew Hf].
  destruct (resume_finish_ok wb s (cf_d w2) r Ew Hg1 Hg2 Hf) as (d' & Ef & Hd'). rewrite E in Ef. injection Ef as ->.
  destruct (Z.eqb_spec r 0) as [->|Hr]; [right|by left]. split_and!; try done.
  intros ->. unfold eio_ctr_ssd_add in E2. apply bind_inv in E2 as (d & w3 & [= <- <-] & E2). by apply assert_inv in E2.
Qed.

(** ** Events *)
Lemma dev_event_step wb s ev w w' : gone_is wb s (cf_d w) -> sleeps_keep keeps_status w -> dev_event_run ev w = Some (tt, w') ->
  sleeps_keep keeps_status w' /\ exists s', gone_step wb ev s s' /\ gone_is wb s' (cf_d w').
Proof.
  intros Hs Hsl E. unfold sleeps_keep. destruct ev as [| |dev sd]; cbn [dev_event_run] in E.
  - apply conf_dmc_inv in E as (d' & E & -> & ->). split; [exact Hsl|]. destruct (suspend_src_ok wb s (cf_d w) Hs) as (d1 & E1 & _ & H). rewrite E in E1. injection E1 as ->.
    eexists. split; [constructor|exact H].
  - apply bind_inv in E as (r & w1 & E & [= <-]). apply bind_inv in E as (u & w2 & E & [= _ <-]). destruct u. apply conf_dmc_inv in E as (d' & E & -> & ->). split; [exact Hsl|].
    destruct (suspend_ssd_ok wb s (cf_d w) Hs) as (d1 & E1 & _ & H). rewrite E in E1. injection E1 as ->. eexists. split; [constructor|exact H].
  - apply bind_inv in E as (r & w1 & E & [= <-]). apply bind_inv in E as (u & w2 & E & [= _ <-]). destruct u. apply bind_inv in E as (d & w3 & [= <- <-] & E).
    destruct (_ || _); [|injection E as <-; split; [exact Hsl|]; exists s; split; [apply GoneNotAdded|done]].
    destruct (resume_ok wb s w dev sd w2 Hs Hsl E) as [Hsl2 [H|(H1 & H2 & H3 & H)]]; (split; [exact Hsl2|]); [exists s; split; [apply GoneNotAdded|done]|].
    eexists. split; [by apply GoneAdded|done].
Qed.

(** sequences of events *)
Fixpoint dev_events_run (evs : list dev_event) (w : conf_world) : option conf_world :=
  match evs with
  | [] => Some w
  | ev :: evs' => match dev_event_run ev w with Some (_, w1) => dev_events_run evs' w1 | None => None end
  end.
Inductive gone_steps (wb : bool) : list dev_event -> gone -> gone -> Prop :=
| GoneNil s : gone_steps wb [] s s
| GoneCons ev evs s1 s2 s3 : gone_step wb ev s1 s2 -> gone_steps wb evs s2 s3 -> gone_steps wb (ev :: evs) s1 s3.
Lemma dev_events_sim wb : forall evs s w w', gone_is wb s (cf_d w) -> sleeps_keep keeps_status w -> dev_events_run evs w = Some w' ->
  exists s', gone_steps wb evs s s' /\ gone_is wb s' (cf_d w').
Proof.
  induction evs as [|ev evs IH]; intros s w w' Hs Hsl E; cbn [dev_events_run] in E; [injection E as <-; exists s; by split; [constructor|]|].
  destruct (dev_event_run ev w) as [[[] w1]|] eqn:E1; [|done]. destruct (dev_event_step wb s ev w w1 Hs Hsl E1) as (Hsl1 & s1 & H1 & Hs1).
  destruct (IH s1 w1 w' Hs1 Hsl1 E) as (s2 & H2 & Hs2). exists s2. split; [by econstructor|done].
Qed.

(** a cache is active while it has its devices *)
Lemma gone_active wb s d : gone_is wb s d -> no_device d = ssd_gone s || src_gone s.
Proof.
  intros [Ew [H1 H2 H3 H4 H5]]. unfold no_device, CACHE_FAILED_IS_SET, CACHE_DEGRADED_IS_SET, CACHE_SSD_ADD_INPROG_IS_SET. rewrite H3, H4, H5.
  by destruct wb, s as [[] []].
Qed.

(** removals never fail, and touch no block *)
Lemma conf_dmc_set {A} (m : M cache_c A) w a d' : m (cf_d w) = Some (a, d') -> conf_dmc m w = Some (a, set_cf_cw (set_cw_d d' (cf_cw w)) w).
Proof. intros E. unfold conf_dmc, conf_cw, on_cache. change (cw_d (cf_cw w)) with (cf_d w). by rewrite E. Qed.
Lemma removal_runs wb s ev w : gone_is wb s (cf_d w) -> ev = SourceRemoved \/ ev = SsdRemoved ->
  exists w', dev_event_run ev w = Some (tt, w') /\ suspended (cf_d w) (cf_d w') /\ cw_k (cf_cw w') = cw_k (cf_cw w).
Proof.
  intros Hs [->| ->].
  - destruct (suspend_src_ok wb s (cf_d w) Hs) as (d' & E & Hd & _). exists (set_cf_cw (set_cw_d d' (cf_cw w)) w). split; [|split; [exact Hd|done]].
    by apply conf_dmc_set.
  - destruct (suspend_ssd_ok wb s (cf_d w) Hs) as (d' & E & Hd & _). exists (set_cf_cw (set_cw_d d' (cf_cw w)) w). split; [|split; [exact Hd|done]].
    cbn [dev_event_run]. unfold eio_handle_ssd_message. cbn [negb]. rewrite bind_bind. by rewrite (bind_run _ _ _ _ _ (conf_dmc_set _ w _ _ E)).
Qed.
