(* ===== verification/Resume.v ===== *)
(** * A write-back cache gets its SSD back

    [eio_ctr_ssd_add] makes a write-back cache anew without touching its blocks:
    the volume is what it was before the SSD was removed. *)

From S2P Require Import Prelude Types Mem Scan Fifo Rand Lru Policy Lookup World Dispatch Disk Clean CleanIo CleanState CleanSet WbAlloc Hits Superblock MdStore MdCreate MdLoad PageIo LoadLoop Recovery Saved Restart Suspend Gone.

(** what a write-back cache knows of its blocks *)
Definition block_state (d : cache_c) : gmap Z Z * gmap Z Z * Z * gmap Z cache_set * Z * option lru_ls * Z :=
  (cache d, cache_md8 d, index_zero d, cache_sets d, nr_dirty d, dirty_set_lru d, mode d).

(** ** [eio_md_create] of a cache that keeps its blocks *)
Record warm_env (w : conf_world) (hp sp : Z) (l : list Z) : Prop := {
  we_add : CACHE_SSD_ADD_INPROG_IS_SET (cf_d w) = true;
  we_res : Forall io_result_ok (cw_results (cf_cw w));
  we_names : names_ok w;
  we_kmalloc : cf_kmalloc w = [];
  we_fresh : fresh_pages (hp :: sp :: l) w;
  we_blk : exists blk, cf_blk w = Some blk;
  we_geom : mem_geom_pre (create_layout (cf_d w));
  we_room : 0 <= md_sectors (create_layout (cf_d w)) + dmc_size (create_layout (cf_d w)) * block_size (cf_d w) <= eio_to_sector (cache_dev_size (cf_d w))
}.
(** the cache afterwards *)
Definition warm_cache (d d' : cache_c) : Prop := exists r f d1, eio_mem_init (create_layout d) = Some (r, mem_inited f (create_layout d)) /\
  pol_only (mem_inited f (create_layout d)) d1 /\ d' = {| d1 with sb_state := CACHE_MD_STATE_DIRTY; sb_version := EIO_SB_VERSION |}.

Lemma inprog_present d : CACHE_SSD_ADD_INPROG_IS_SET d = true -> no_device d = false.
Proof. intros H. unfold no_device. rewrite H. apply andb_false_r. Qed.
Lemma inprog_kept d d' : status_kept d d' -> CACHE_SSD_ADD_INPROG_IS_SET d' = CACHE_SSD_ADD_INPROG_IS_SET d.
Proof. by intros [= _ _ _ _ H _]. Qed.
Lemma layout_status d : status_kept d (create_layout d).
Proof. done. Qed.

(** the superblock *)
Lemma md_create_sb_ok w sp l : CACHE_SSD_ADD_INPROG_IS_SET (cf_d w) = true -> Forall io_result_ok (cw_results (cf_cw w)) -> names_ok w -> cf_kmalloc w = [] -> fresh_pages (sp :: l) w ->
  let d' := {| (cf_d w) with sb_state := CACHE_MD_STATE_DIRTY; sb_version := EIO_SB_VERSION |} in
  exists r ssd' w', md_create_sb w = Some (r, w') /\ admin_end w (pg_live (cf_kmem w)) l d' ssd' w' /\ conf_same w w' /\
    (r = 0 -> sb_read (sb_sectors ssd') = sb_of (conf_with d' w)) /\ (cw_results (cf_cw w) = [] -> r = 0) /\
    (forall t, t < EIO_SUPERBLOCK_START \/ EIO_SUPERBLOCK_START + 8 <= t -> ssd' !!! t = on_ssd (cw_k (cf_cw w)) !!! t).
Proof.
  intros Hadd Hres Hnames Hk Hf d'. unfold md_create_sb. rewrite bind_gets. rewrite (inprog_present _ Hadd), Hadd. cbn [negb].
  assert (R1 : conf_upd (fun d => {| d with sb_state := CACHE_MD_STATE_DIRTY; sb_version := EIO_SB_VERSION |}) w = Some (tt, conf_with d' w)) by exact (conf_dmc_run' (modify _) w tt d' eq_refl).
  rewrite (bind_run _ _ _ _ _ R1). set (w1 := conf_with d' w).
  destruct (eio_sb_store_ok sp l w1) as (e & w2 & E & [Hr (mem & ssd & tr & nx & Ew2 & Hsb & Hkeep & _) Hnext]).
  { exact (inprog_present d' Hadd). } { by apply (names_ok_ext w). } { destruct Hf; by constructor. } { done. }
  rewrite (bind_run _ _ _ _ _ E). assert (He : e = 0 <-> next_res (cf_cw w1) = IoOk) by (rewrite Hr; apply io_error_ok, next_res_ok, Hres).
  assert (Hin : (if negb (e =? 0) then when false (conf_upd vfree_cache) ;; ret (- EIO) else ret 0) w2 = Some (if e =? 0 then 0 else - EIO, w2)) by (by destruct (e =? 0)).
  exists (if e =? 0 then 0 else - EIO), ssd, w2. split; [exact Hin|]. split; [|split; [|split; [|split]]].
  - constructor; [by rewrite Ew2|by rewrite Ew2|by rewrite Ew2|by rewrite Ew2|done].
  - rewrite Ew2. by eexists _, _.
  - destruct (Z.eqb_spec e 0) as [->|]; [|done]. intros _. rewrite (Hsb (proj1 He eq_refl)). by apply sb_of_ext.
  - intros En. assert (e = 0) as -> by (apply He; unfold next_res; cbn; by rewrite En). done.
  - exact Hkeep.
Qed.

Lemma mem_available_runs n w : exists b, eio_mem_available n w = Some (b, w).
Proof. unfold eio_mem_available. rewrite bind_gets. cbv zeta. destruct (_ || _); by eexists. Qed.

(** the memory of the blocks is not allocated again *)
Lemma md_create_alloc_add w blk : CACHE_SSD_ADD_INPROG_IS_SET (cf_d w) = true -> cf_blk w = Some blk ->
  exists d', md_create_alloc w = Some (0, conf_with d' w) /\ pol_only (cf_d w) d'.
Proof.
  intros Hadd Hb. unfold md_create_alloc. rewrite bind_gets, Hadd. cbn [negb]. cbv zeta.
  destruct (mem_available_runs (u64 (dmc_size (cf_d w) * SIZEOF_CACHEBLOCK (cf_d w))) w) as (b & Ea). rewrite (bind_run _ _ _ _ _ Ea), andb_false_r, bind_ret. cbn [negb].
  rewrite bind_gets, Hb. destruct (repl_blk_init_ok (policy_ops (cf_d w)) blk (cf_d w)) as (d' & E & Hp).
  rewrite (bind_run _ _ _ _ _ (conf_dmc_run' (fun d => eio_repl_blk_init (policy_ops d) (Some blk) d) w 0 d' E)). cbn [Z.eqb negb]. by exists d'.
Qed.

(** the geometry is computed again *)
Lemma md_create_layout_ok w blk (rest : M conf_world Z) : CACHE_SSD_ADD_INPROG_IS_SET (cf_d w) = true -> cf_blk w = Some blk -> mem_geom_pre (create_layout (cf_d w)) ->
  0 <= md_sectors (create_layout (cf_d w)) + dmc_size (create_layout (cf_d w)) * block_size (cf_d w) <= eio_to_sector (cache_dev_size (cf_d w)) ->
  exists f r d1, eio_mem_init (create_layout (cf_d w)) = Some (r, mem_inited f (create_layout (cf_d w))) /\ pol_only (mem_inited f (create_layout (cf_d w))) d1 /\
    (conf_upd create_layout ;;
     error <- conf_dmc eio_mem_init ;;
     if error =? -1 then ret (- EINVAL)
     else
       d <- gets cf_d ;;
       if no_device d then ret (- ENODEV)
       else if eio_to_sector (cache_dev_size d) <? u64 (md_sectors d + dmc_size d * block_size d) then ret (- EINVAL)
       else
         error <- md_create_alloc ;;
         if negb (error =? 0) then ret error
         else rest) w = rest (conf_with d1 w).
Proof.
  intros Hadd Hb Hpre Hroom. set (dl := create_layout (cf_d w)) in *. destruct (eio_mem_init_form dl Hpre) as (r & f & Ei & _ & Hc). exists f, r.
  rewrite (bind_run _ _ _ _ _ (conf_dmc_run' (modify create_layout) w tt dl eq_refl)). set (w1 := conf_with dl w).
  rewrite (bind_run _ _ _ _ _ (conf_dmc_run' eio_mem_init w1 r _ Ei)). set (w2 := conf_with (mem_inited f dl) w1).
  assert (Er : r =? -1 = false) by (destruct Hc as [(-> & _)|(-> & _)]; done). rewrite Er, bind_gets.
  assert (Hadd2 : CACHE_SSD_ADD_INPROG_IS_SET (cf_d w2) = true).
  { change (cf_d w2) with (mem_inited f dl). by rewrite (inprog_kept dl) by exact (mem_init_status _ _ _ Ei). }
  rewrite (inprog_present _ Hadd2). change (cf_d w2) with (mem_inited f dl) at 1 2 3 4.
  assert (Hr : eio_to_sector (cache_dev_size (mem_inited f dl)) <? u64 (md_sectors (mem_inited f dl) + dmc_size (mem_inited f dl) * block_size (mem_inited f dl)) = false).
  { apply Z.ltb_ge. change (u64 (md_sectors dl + dmc_size dl * block_size (cf_d w)) <= eio_to_sector (cache_dev_size (cf_d w))).
    etransitivity; [apply Z.mod_le; [apply Hroom|lia]|apply Hroom]. }
  rewrite Hr. destruct (md_create_alloc_add w2 blk Hadd2 Hb) as (d1 & Ea & Hp). exists d1. split; [done|]. split; [exact Hp|].
  rewrite (bind_run _ _ _ _ _ Ea). done.
Qed.

(** how making the cache ended *)
Record warm_end (w : conf_world) (r : Z) (w' : conf_world) : Prop := {
  wn_same : conf_same w w';
  wn_hdd : on_hdd (cw_k (cf_cw w')) = on_hdd (cw_k (cf_cw w));
  wn_ssd : forall t, t < EIO_SUPERBLOCK_START \/ EIO_SUPERBLOCK_START + 8 <= t -> on_ssd (cw_k (cf_cw w')) !!! t = on_ssd (cw_k (cf_cw w)) !!! t;
  wn_live : pg_live (cf_kmem w') = pg_live (cf_kmem w);
  wn_done : cw_results (cf_cw w) = [] -> r = 0;
  wn_blocks : block_state (cf_d w') = block_state (cf_d w);
  wn_status : status_kept (cf_d w) (cf_d w');
  wn_ok : r = 0 -> warm_cache (cf_d w) (cf_d w') /\ sb_read (sb_sectors (on_ssd (cw_k (cf_cw w')))) = sb_of (conf_with (cf_d w') w)
}.

Lemma warm_blocks d d' : warm_cache d d' -> block_state d' = block_state d.
Proof. by intros (r & f & d1 & _ & (x & b & m & ->) & ->). Qed.

Lemma warm_status d d' : warm_cache d d' -> status_kept d d'.
Proof.
  intros (r & f & d1 & Ei & Hp & ->). transitivity d1; [|done]. transitivity (mem_inited f (create_layout d)); [|by apply pol_only_status].
  transitivity (create_layout d); [apply layout_status|exact (mem_init_status _ _ _ Ei)].
Qed.

Lemma md_create_warm_ok w hp sp l : warm_env w hp sp l -> exists r w', eio_md_create true false w = Some (r, w') /\ warm_end w r w'.
Proof.
  intros [Hadd Hres Hnames Hk Hf [blk Hb] Hpre Hroom]. unfold eio_md_create.
  destruct (eio_alloc_pages_ok [hp] (sp :: l) w 1 Hf Hk eq_refl) as (w1 & E1 & T); [done|]. rewrite (bind_run _ _ _ _ _ E1). change ([hp] !!! 0%nat) with hp.
  destruct T as [(cw1 & km & Ew1) (mem1 & Ec & _ & _) Hlive Hfr].
  assert (Ew1' : w1 = set_cf_kmem km (set_cf_cw (set_cw_mem mem1 (cf_cw w)) w)) by (rewrite Ew1 in Ec; cbn in Ec; by rewrite Ew1, Ec). clear Ew1 Ec cw1 E1.
  assert (Hd1 : cf_d w1 = cf_d w) by by rewrite Ew1'. unfold md_create_body.
  destruct (sync_read_ok EIO_SUPERBLOCK_START 8 [hp] w1) as (e & w2 & E2 & [He (mem2 & Ew2 & _)]); [rewrite Hd1; by apply inprog_present|done|by cbn|by apply NoDup_singleton|].
  change (mk_region SSD EIO_SUPERBLOCK_START 8) with sb_region in E2. rewrite !bind_bind, bind_gets, Hd1, (inprog_present _ Hadd), bind_bind, (bind_run _ _ _ _ _ E2).
  assert (Hd2 : cf_d w2 = cf_d w) by by rewrite Ew2. assert (Hfree : forall p, p ∈ [hp] -> p ∉ pg_live (cf_kmem w)).
  { destruct Hf as [_ _ F3]. intros p Hp. apply F3. apply list_elem_of_singleton in Hp as ->. apply elem_of_cons. by left. }
  assert (Hf2 : fresh_pages (sp :: l) w2) by (rewrite Ew2; destruct Hfr; by constructor).
  assert (Hl2 : pg_live (cf_kmem w2) = list_to_set [hp] ∪ pg_live (cf_kmem w)) by (rewrite Ew2; exact Hlive).
  assert (Hres2 : Forall io_result_ok (cw_results (cf_cw w2))) by (rewrite Ew2, Ew1'; apply drop_results_ok, Hres).
  assert (Hsame2 : conf_same w w2) by (rewrite Ew2, Ew1'; by eexists _, _).
  assert (Hk2 : cw_k (cf_cw w2) = cw_k (cf_cw w)) by by rewrite Ew2, Ew1'.
  destruct (Z.eqb_spec e 0) as [He0|He0]; cbn [negb].
  - rewrite bind_bind, bind_gets. cbn [negb andb].
    destruct (md_create_layout_ok w2 blk md_create_sb) as (f & r0 & d1 & Ei & Hp & Erun); rewrite ?Hd2; [done|by rewrite Ew2, Ew1'|done|done|].
    unfold bind at 1. rewrite Erun. clear Erun.
    destruct (md_create_sb_ok (conf_with d1 w2) sp l) as (r & ssd' & w3 & E3 & [X1 X2 X3 X4 X5] & Hsame3 & Hsb & Hnone & Hkeep).
    { change (cf_d (conf_with d1 w2)) with d1. rewrite Hd2 in *. rewrite (inprog_kept _ _ (pol_only_status _ _ Hp)). by rewrite (inprog_kept _ _ (mem_init_status _ _ _ Ei)). }
    { exact Hres2. } { apply (names_ok_ext w); [..|done]; by rewrite Ew2, Ew1'. } { rewrite Ew2, Ew1'. exact Hk. } { destruct Hf2; by constructor. }
    rewrite E3. destruct (put_back [hp] l (pg_live (cf_kmem w)) w3) as (w4 & E4 & Ew4 & _); [by apply NoDup_singleton|exact Hfree|rewrite X4; exact Hl2|exact X5|].
    rewrite (bind_run _ _ _ _ _ E4). exists r, w4. split; [done|]. rewrite Hd2 in *.
    assert (Hw : warm_cache (cf_d w) (cf_d w4)) by (rewrite Ew4; exists r0, f, d1; split; [exact Ei|split; [exact Hp|exact X1]]).
    constructor.
    + rewrite Ew4. etransitivity; [exact Hsame2|]. etransitivity; [|etransitivity; [exact Hsame3|]]; [apply conf_same_cw|]. by eexists (cf_cw w3), _; destruct w3.
    + rewrite Ew4. cbn. rewrite X3. by rewrite <-Hk2.
    + intros t Ht. rewrite Ew4. cbn. rewrite X2, (Hkeep t Ht). by rewrite <-Hk2.
    + by rewrite Ew4.
    + intros En. apply Hnone. cbn. rewrite Ew2, Ew1'. cbn. by rewrite En.
    + by apply warm_blocks.
    + by apply warm_status.
    + intros Hr. split; [done|]. rewrite Ew4. cbn. rewrite X2, (Hsb Hr). apply sb_of_ext; [cbn; exact (eq_sym X1)|]. by rewrite Ew2, Ew1'.
  - rewrite bind_ret. destruct (put_back [hp] (sp :: l) (pg_live (cf_kmem w)) w2) as (w4 & E4 & Ew4 & _); [by apply NoDup_singleton|exact Hfree|exact Hl2|exact Hf2|].
    rewrite (bind_run _ _ _ _ _ E4). exists (- EINVAL), w4. split; [done|]. constructor.
    + rewrite Ew4. etransitivity; [exact Hsame2|]. by eexists (cf_cw w2), _; destruct w2.
    + rewrite Ew4. cbn. by rewrite Hk2.
    + intros t _. rewrite Ew4. cbn. by rewrite Hk2.
    + by rewrite Ew4.
    + intros En. exfalso. apply He0. rewrite He, Ew1'. unfold next_res. cbn. by rewrite En.
    + rewrite Ew4. cbn. by rewrite <-Hd2.
    + rewrite Ew4. change (status_kept (cf_d w) (cf_d w2)). by rewrite Hd2.
    + done.
Qed.

(** ** The geometry is the one of before *)
Lemma create_layout_same d d' : dmc_size d' = dmc_size d -> block_size d' = block_size d -> assoc d' = assoc d -> cache_dev_start_sect d' = cache_dev_start_sect d ->
  create_layout d' = set_layout (dmc_size (create_layout d)) (md_start_sect (create_layout d)) (md_sectors (create_layout d)) d'.
Proof. intros E1 E2 E3 E4. unfold create_layout. cbv zeta. rewrite E1, E2, E3, E4. done. Qed.

(** what [eio_mem_init] reads, and the width of the words *)
Definition geom_inputs (d : cache_c) := (dmc_size d, assoc d, block_size d, block_shift d, consecutive_shift d, disk_dev_size d, EIO_MD8 d).
Lemma mem_geom_again d d' : sb_fits d -> geom_inputs d' = geom_inputs d -> mem_geom_pre d' /\
  (forall r f, eio_mem_init d' = Some (r, mem_inited f d') -> geom (mem_inited f d') = geom d).
Proof.
  intros Hf E. injection E as E1 E2 E3 E4 E5 E6 E7. assert (Hg := sf_geom _ Hf). pose proof (assoc_pos _ Hg) as Ha. pose proof (num_sets_pos _ Hg) as Hs.
  assert (Ens : dmc_size d' / assoc d' = num_sets d) by (rewrite E1, E2, (geo_size _ Hg); apply Z.div_mul; lia).
  assert (Hpre : mem_geom_pre d').
  { constructor; rewrite ?Ens, ?E1, ?E2, ?E3, ?E4, ?E5; try apply Hg. pose proof (geo_sets _ Hg). destruct (geo_bits _ Hg). split; [lia|].
    eapply Z.lt_le_trans; [apply (proj2 (geo_sets _ Hg))|]. apply Z.pow_le_mono_r; lia. }
  split; [done|]. intros r f Ei. destruct (eio_mem_init_form d' Hpre) as (r1 & f1 & Ei1 & Hwf & Hc). rewrite Ei in Ei1. injection Ei1 as -> Ef.
  assert (Hbits : forall f, num_sets_bits (mem_inited f d') = num_sets_bits d) by (intros g; change (Z.log2 (dmc_size d' / assoc d') + 1 = num_sets_bits d); rewrite Ens; by apply wf_bits).
  assert (H8 : EIO_MD8 (mem_inited f d') = EIO_MD8 d).
  { rewrite <-Ef in Hc. change (EIO_MD8 (mem_inited f d')) with (tst f CACHE_FLAGS_MD8). destruct Hc as [(_ & -> & Hwhy)|(_ & -> & _)].
    - rewrite lor_md8. destruct (EIO_MD8 d) eqn:E; [done|]. exfalso. destruct (sf_md4 _ Hf E) as [L1 L2]. unfold md4_limit in *. rewrite Hbits, E6 in Hwhy.
      change (num_sets (mem_inited _ d')) with (dmc_size d' / assoc d') in Hwhy. rewrite Ens in Hwhy. lia.
    - exact E7. }
  unfold geom. rewrite H8, Hbits. cbn [dmc_size assoc block_size block_shift consecutive_shift num_sets num_sets_mask mem_inited set_cache_flags set_num_sets].
  rewrite Ens, E1, E2, E3, E4, E5, (wf_bits _ Hg), <-(geo_mask _ Hg). done.
Qed.

(** ** [eio_resume_caching] *)

(** the SSD that comes back is of the size and at the place of the old one *)
Record same_ssd (w : conf_world) (sd : ssd_dev) : Prop := {
  be_fits : sb_fits (cf_d w);
  be_size : cf_cache_size w = eio_to_sector (sd_size sd);
  be_start : cache_dev_start_sect (cf_d w) = sd_start_sect sd;
  be_layout : create_layout (set_dmc_size (cf_cache_size w) (cf_d w)) = cf_d w;
  be_room : md_sectors (cf_d w) + dmc_size (cf_d w) * block_size (cf_d w) <= cf_cache_size w
}.
(** and everything can be allocated *)
Record back_env (w : conf_world) (dev : list Z) (sd : ssd_dev) (hp sp : Z) (l : list Z) : Prop := {
  be_gone : gone_is true (mk_gone true false) (cf_d w);
  be_stale : CACHE_STALE_IS_SET (cf_d w) = false;
  be_same : same_ssd w sd;
  be_dev : (length dev < DEV_PATHLEN)%nat /\ Forall is_byte dev;
  be_policy : exists dp, eio_policy_init true (cf_policies w) (cf_d w) = Some (0, dp);
  be_names : names_ok w;
  be_kmalloc : cf_kmalloc w = [];
  be_fresh : fresh_pages (hp :: sp :: l) w;
  be_blk : exists blk, cf_blk w = Some blk;
  be_res : Forall io_result_ok (cw_results (cf_cw w))
}.

Lemma policy_init_again ok l d d' dp : req_policy d' = req_policy d -> eio_policy_init ok l d = Some (0, dp) ->
  exists p r, eio_policy_init ok l d' = Some (0, set_policy_ops p (set_req_policy r d')).
Proof.
  intros Er. unfold eio_policy_init. rewrite Er. destruct (req_policy d =? 0) eqn:E0.
  - cbn [req_policy set_req_policy policy_ops set_policy_ops]. destruct (eio_get_policy _ _ _) as [p|]; [|done]. intros _. exists (Some p), CACHE_REPL_DEFAULT. done.
  - cbn [policy_ops set_policy_ops]. rewrite Er. destruct (eio_get_policy _ _ _) as [p|]; [|done]. intros _. exists (Some p), (req_policy d').
    assert (Ed : set_req_policy (req_policy d') d' = d') by by destruct d'. by rewrite Ed.
Qed.
Lemma sets_init_ok p d : exists d', eio_repl_sets_init p true d = Some (0, d') /\ pol_only d d'.
Proof. destruct p as [[]|]; (eexists; split; [reflexivity|]); first [reflexivity|apply pol_only_sets]. Qed.
Lemma pushblks_ok p d : exists d', eio_policy_lru_pushblks p d = Some (tt, d') /\ pol_only d d'.
Proof.
  assert (H : exists d', eio_policy_lru_pushblks p d = Some (tt, d')) by (destruct p as [[]|]; by eexists). destruct H as [d' H]. exists d'. split; [done|]. by apply (pushblks_pol p d tt).
Qed.

(** the policy's data are built on the blocks that were kept *)
Lemma ctr_sets_ok w : mode (cf_d w) = CACHE_MODE_WB -> cf_kmalloc w = [] -> exists d', ctr_sets w = Some (0, conf_with d' w) /\ pol_only (cf_d w) d'.
Proof.
  intros Hm Hk. unfold ctr_sets. assert (E : conf_kmalloc w = Some (true, w)) by (unfold conf_kmalloc; by rewrite Hk). rewrite (bind_run _ _ _ _ _ E).
  destruct (sets_init_ok (policy_ops (cf_d w)) (cf_d w)) as (d1 & E1 & P1).
  rewrite (bind_run _ _ _ _ _ (conf_dmc_run' (fun d => eio_repl_sets_init (policy_ops d) true d) w 0 d1 E1)). cbn [Z.ltb Z.compare]. set (w1 := conf_with d1 w).
  destruct (pushblks_ok (policy_ops d1) d1) as (d2 & E2 & P2).
  rewrite (bind_run _ _ _ _ _ (conf_dmc_run' (fun d => eio_policy_lru_pushblks (policy_ops d) d) w1 tt d2 E2)). rewrite bind_gets. change (cf_d (conf_with d2 w1)) with d2.
  assert (P : pol_only (cf_d w) d2) by by etransitivity. assert (Em : mode d2 = CACHE_MODE_WB) by (destruct P as (r & b & m & ->); exact Hm). rewrite Em.
  exists d2. by split.
Qed.

(** the cache when [eio_md_create] is called, and the world *)
Definition attached (sd : ssd_dev) (size r : Z) (p : option policy_id) (d : cache_c) : cache_c :=
  set_policy_ops p (set_req_policy r (eio_policy_free (set_persistence CACHE_FORCECREATE (set_dmc_size size (eio_init_ssddev_props sd {| d with cache_dev_size := sd_size sd |}))))).
Definition attach_world (dev : list Z) (sd : ssd_dev) (d' : cache_c) (w : conf_world) : conf_world :=
  set_cache_devname dev (set_cf_cw (set_cw_k (dev_set SSD (sd_sectors sd) (cw_k (cf_cw w))) (set_cw_d d' (cf_cw w))) w).

Lemma ctr_policy_ok w dp : cf_kmalloc w = [] -> eio_policy_init true (cf_policies w) (cf_d w) = Some (0, dp) ->
  exists p r, ctr_policy w = Some (0, conf_with (set_policy_ops p (set_req_policy r (eio_policy_free (cf_d w)))) w).
Proof.
  intros Hk Hp. unfold ctr_policy. destruct (policy_init_again true (cf_policies w) (cf_d w) (eio_policy_free (cf_d w)) dp eq_refl Hp) as (p & r & E). exists p, r.
  rewrite (bind_run _ _ _ _ _ (conf_dmc_run' (modify eio_policy_free) w tt _ eq_refl)). set (w1 := conf_with _ w).
  assert (Ek : conf_kmalloc w1 = Some (true, w1)) by (unfold conf_kmalloc; change (cf_kmalloc w1) with (cf_kmalloc w); by rewrite Hk).
  rewrite (bind_run _ _ _ _ _ Ek), bind_gets. exact (conf_dmc_run' (eio_policy_init true (cf_policies w)) w1 0 _ E).
Qed.

Lemma attach_world_form dev sd d2 x4 x5 x6 x w :
  conf_with x (conf_with x6 (conf_with x5 (conf_with x4 (set_cache_devname dev (set_cf_cw (set_cw_k (dev_set SSD (sd_sectors sd) (cw_k (cf_cw w))) (set_cw_d d2 (cf_cw w))) w))))) =
  attach_world dev sd x w.
Proof. reflexivity. Qed.

Lemma ctr_ssd_add_form w dev sd dp : no_source_dev (errors (cf_d w)) = 0 -> cf_kmalloc w = [] -> cf_cache_size w = eio_to_sector (sd_size sd) ->
  cache_dev_start_sect (cf_d w) = sd_start_sect sd -> eio_policy_init true (cf_policies w) (cf_d w) = Some (0, dp) ->
  exists r p, eio_ctr_ssd_add dev (Some sd) w =
    (r <- (r <- eio_md_create true (negb (mode (cf_d w) =? CACHE_MODE_WB)) ;; if negb (r =? 0) then ret r else ctr_sets) ;;
     when (negb (r =? 0)) (conf_upd (set_persistence (persistence (cf_d w)))) ;;
     ret r) (attach_world dev sd (attached sd (cf_cache_size w) r p (cf_d w)) w).
Proof.
  intros Hsrc Hk Hsize Hstart Hp. set (d := cf_d w) in *. unfold eio_ctr_ssd_add. rewrite bind_gets. fold d. rewrite bind_assert by (by apply Z.eqb_eq).
  set (d2 := {| d with cache_dev_size := sd_size sd |}). set (w2 := set_cf_cw (set_cw_k (dev_set SSD (sd_sectors sd) (cw_k (cf_cw w))) (set_cw_d d2 (cf_cw w))) w).
  assert (R2 : attach_ssd sd w = Some (tt, w2)).
  { unfold attach_ssd. by rewrite (bind_run _ _ _ _ _ (conf_dmc_run' (modify (fun d => {| d with cache_dev_size := sd_size sd |})) w tt d2 eq_refl)). }
  rewrite (bind_run _ _ _ _ _ R2). unfold ctr_ssd_add_body. rewrite !bind_bind, bind_gets. cbn [id]. change (cf_cache_size w2) with (cf_cache_size w). change (cf_d w2) with d2.
  unfold eio_get_device_size, eio_get_device_start_sect. change (cache_dev_start_sect d2) with (cache_dev_start_sect d). rewrite Hstart, Z.eqb_refl, Hsize, Z.eqb_refl. cbn [negb]. rewrite <-Hsize.
  rewrite bind_bind, bind_modify, bind_bind. set (w3 := set_cache_devname dev w2).
  rewrite (bind_run _ _ _ _ _ (conf_dmc_run' (modify (eio_init_ssddev_props sd)) w3 tt _ eq_refl)). set (w4 := conf_with _ w3). rewrite bind_bind.
  rewrite (bind_run _ _ _ _ _ (conf_dmc_run' (modify (set_dmc_size (cf_cache_size w))) w4 tt _ eq_refl)). set (w5 := conf_with _ w4). rewrite bind_bind.
  rewrite (bind_run _ _ _ _ _ (conf_dmc_run' (modify (set_persistence CACHE_FORCECREATE)) w5 tt _ eq_refl)). set (w6 := conf_with _ w5). rewrite bind_bind.
  destruct (policy_init_again true (cf_policies w) d (cf_d w6) dp eq_refl Hp) as (p6 & r6 & E6).
  destruct (ctr_policy_ok w6 _ Hk E6) as (p & r & E). exists r, p. rewrite (bind_run _ _ _ _ _ E). cbn [Z.eqb negb]. change (mode d2) with (mode d).
  change (cf_d w6) with (set_persistence CACHE_FORCECREATE (set_dmc_size (cf_cache_size w) (eio_init_ssddev_props sd d2))).
  unfold w6, w5, w4, w3, w2. by rewrite attach_world_form.
Qed.

(** how the resumption of a write-back cache ended *)
Record back_end (w : conf_world) (dev : list Z) (sd : ssd_dev) (w' : conf_world) : Prop := {
  bk_hdd : on_hdd (cw_k (cf_cw w')) = on_hdd (cw_k (cf_cw w));
  bk_ssd : forall t, t < EIO_SUPERBLOCK_START \/ EIO_SUPERBLOCK_START + 8 <= t -> on_ssd (cw_k (cf_cw w')) !!! t = sd_sectors sd !!! t;
  bk_live : pg_live (cf_kmem w') = pg_live (cf_kmem w);
  bk_blocks : block_state (cf_d w') = block_state (cf_d w);
  bk_state : (gone_is true (mk_gone true false) (cf_d w') /\ cw_results (cf_cw w) <> []) \/
    (gone_is true (mk_gone false false) (cf_d w') /\ layout (cf_d w') = layout (cf_d w) /\ sb_state (cf_d w') = CACHE_MD_STATE_DIRTY)
}.

Lemma finish_keeps r d d' : resume_finish r d = Some (tt, d') ->
  block_state d' = block_state d /\ layout d' = layout d /\ sb_state d' = sb_state d.
Proof.
  unfold resume_finish. destruct (negb (r =? 0)).
  - intros [= <-]. split; [done|]. split; [|done]. unfold layout, geom, EIO_MD8, CACHE_MD8_IS_SET, CACHE_FLAGS_MD8. cbn. unfold CACHE_FLAGS_SSD_ADD_INPROG. by rewrite tst_clr_pow by lia.
  - rewrite bind_modify, bind_gets. cbn [id]. intros [= <-]. destruct (negb _); (split; [done|]; split; [|done]);
      unfold layout, geom, EIO_MD8, CACHE_MD8_IS_SET, CACHE_FLAGS_MD8; cbn; unfold CACHE_FLAGS_SSD_ADD_INPROG, CACHE_FLAGS_DEGRADED, CACHE_FLAGS_FAILED; by rewrite !tst_clr_pow by lia.
Qed.

Lemma resume_start_go d : gone_is true (mk_gone true false) d -> CACHE_STALE_IS_SET d = false -> resume_start d = Some (true, set_flag CACHE_FLAGS_SSD_ADD_INPROG d).
Proof.
  intros [Ew [H1 H2 H3 H4 H5]] Hst. unfold resume_start, CACHE_FAILED_IS_SET, CACHE_SSD_ADD_INPROG_IS_SET, CACHE_SRC_IS_ABSENT. rewrite bind_gets. cbn [id].
  fold (write_back d). rewrite Hst, Ew, H1, H3, H5. done.
Qed.

Lemma attached_inputs a b c sd size r p d : geom_inputs (set_layout a b c (attached sd size r p d)) =
  (a, (geom_inputs d).1.1.1.1.1.2, (geom_inputs d).1.1.1.1.2, (geom_inputs d).1.1.1.2, (geom_inputs d).1.1.2, (geom_inputs d).1.2, (geom_inputs d).2).
Proof. reflexivity. Qed.
Lemma attached_status sd size r p d : status_kept d (attached sd size r p d).
Proof. reflexivity. Qed.
Lemma attached_blocks sd size r p d : block_state (attached sd size r p d) = block_state d.
Proof. reflexivity. Qed.
Lemma inprog_inputs d : geom_inputs (set_flag CACHE_FLAGS_SSD_ADD_INPROG d) = geom_inputs d.
Proof.
  unfold geom_inputs, EIO_MD8, CACHE_MD8_IS_SET, set_flag. cbn [cache_flags set_cache_flags dmc_size assoc block_size block_shift consecutive_shift disk_dev_size].
  unfold CACHE_FLAGS_MD8, CACHE_FLAGS_SSD_ADD_INPROG. by rewrite tst_lor_pow by lia.
Qed.

Lemma inprog_geom d : geom (set_flag CACHE_FLAGS_SSD_ADD_INPROG d) = geom d.
Proof. unfold geom. by rewrite (f_equal snd (inprog_inputs d) : EIO_MD8 _ = EIO_MD8 d). Qed.

Lemma inprog_layout d : layout (set_flag CACHE_FLAGS_SSD_ADD_INPROG d) = layout d.
Proof. unfold layout. by rewrite inprog_geom. Qed.

(** the cache that [eio_md_create] lays out again *)
Section again.
Context (w : conf_world) (sd : ssd_dev) (H : same_ssd w sd) (r : Z) (p : option policy_id).
Abbreviation d := (cf_d w).
Abbreviation dA := (attached sd (cf_cache_size w) r p (set_flag CACHE_FLAGS_SSD_ADD_INPROG d)).

Lemma attached_layout : create_layout dA = set_layout (dmc_size d) (md_start_sect d) (md_sectors d) dA.
Proof. rewrite (create_layout_same (set_dmc_size (cf_cache_size w) d) dA eq_refl eq_refl eq_refl eq_refl). by rewrite (be_layout _ _ H). Qed.
Lemma attached_geom : mem_geom_pre (create_layout dA) /\
  forall r' f, eio_mem_init (create_layout dA) = Some (r', mem_inited f (create_layout dA)) -> geom (mem_inited f (create_layout dA)) = geom d.
Proof.
  apply mem_geom_again; [apply H|]. rewrite attached_layout, attached_inputs. by rewrite inprog_inputs.
Qed.
Lemma attached_inprog : CACHE_SSD_ADD_INPROG_IS_SET dA = true.
Proof. change (tst (Z.lor (cache_flags d) CACHE_FLAGS_SSD_ADD_INPROG) CACHE_FLAGS_SSD_ADD_INPROG = true). unfold CACHE_FLAGS_SSD_ADD_INPROG. by rewrite tst_lor_pow by lia. Qed.

Lemma attached_room : 0 <= md_sectors (create_layout dA) + dmc_size (create_layout dA) * block_size dA <= eio_to_sector (cache_dev_size dA).
Proof.
  rewrite attached_layout. change (0 <= md_sectors d + dmc_size d * block_size d <= eio_to_sector (sd_size sd)). rewrite <-(be_size _ _ H).
  destruct (be_fits _ _ H) as [Hg _ _ Hs _ _]. pose proof (be_room _ _ H). pose proof (block_size_pos _ Hg). pose proof (assoc_pos _ Hg). pose proof (num_sets_pos _ Hg).
  rewrite (geo_size _ Hg) in *. nia.
Qed.
End again.

Lemma attached_env w dev sd hp sp l r p (H : back_env w dev sd hp sp l) :
  warm_env (attach_world dev sd (attached sd (cf_cache_size w) r p (set_flag CACHE_FLAGS_SSD_ADD_INPROG (cf_d w))) (conf_with (set_flag CACHE_FLAGS_SSD_ADD_INPROG (cf_d w)) w)) hp sp l.
Proof.
  pose proof (be_same _ _ _ _ _ _ H) as Hsame. destruct (attached_geom w sd Hsame r p) as [Hpre _]. constructor.
  - apply attached_inprog.
  - exact (be_res _ _ _ _ _ _ H).
  - destruct (be_names _ _ _ _ _ _ H), (be_dev _ _ _ _ _ _ H). by constructor.
  - exact (be_kmalloc _ _ _ _ _ _ H).
  - destruct (be_fresh _ _ _ _ _ _ H). by constructor.
  - exact (be_blk _ _ _ _ _ _ H).
  - exact Hpre.
  - exact (attached_room w sd Hsame r p).
Qed.

(** attaching, whatever transfer fails *)
Record ssd_added (w : conf_world) (sd : ssd_dev) (r : Z) (w' : conf_world) : Prop := {
  sa_hdd : on_hdd (cw_k (cf_cw w')) = on_hdd (cw_k (cf_cw w));
  sa_ssd : forall t, t < EIO_SUPERBLOCK_START \/ EIO_SUPERBLOCK_START + 8 <= t -> on_ssd (cw_k (cf_cw w')) !!! t = sd_sectors sd !!! t;
  sa_live : pg_live (cf_kmem w') = pg_live (cf_kmem w);
  sa_blocks : block_state (cf_d w') = block_state (cf_d w);
  sa_status : status_kept (cf_d w) (cf_d w');
  sa_done : cw_results (cf_cw w) = [] -> r = 0;
  sa_ok : r = 0 -> layout (cf_d w') = layout (cf_d w) /\ sb_state (cf_d w') = CACHE_MD_STATE_DIRTY
}.

Lemma ssd_add_made w dev sd hp sp l dA pers : warm_env (attach_world dev sd dA w) hp sp l ->
  status_kept (cf_d w) dA -> block_state dA = block_state (cf_d w) -> mode (cf_d w) = CACHE_MODE_WB -> cf_kmalloc w = [] ->
  (forall r f, eio_mem_init (create_layout dA) = Some (r, mem_inited f (create_layout dA)) -> geom (mem_inited f (create_layout dA)) = geom (cf_d w)) ->
  md_start_sect (create_layout dA) = md_start_sect (cf_d w) -> md_sectors (create_layout dA) = md_sectors (cf_d w) ->
  exists r w', (r <- (r <- eio_md_create true false ;; if negb (r =? 0) then ret r else ctr_sets) ;;
    when (negb (r =? 0)) (conf_upd (set_persistence pers)) ;; ret r) (attach_world dev sd dA w) = Some (r, w') /\ ssd_added w sd r w'.
Proof.
  intros Hwarm KA BA Hm Hk Hgeo L1 L2. set (wA := attach_world dev sd dA w) in *.
  destruct (md_create_warm_ok wA hp sp l Hwarm) as (r & wB & EB & [N1 N2 N3 N4 N5 N6 N7 N8]). change (cf_d wA) with dA in *.
  rewrite bind_bind, (bind_run _ _ _ _ _ EB). destruct (Z.eqb_spec r 0) as [->|Hr]; cbn [negb].
  - destruct (N8 eq_refl) as [(r2 & f & dB & Ei & Hpol & EdB) _].
    assert (EmB : mode (cf_d wB) = CACHE_MODE_WB) by (rewrite <-Hm; exact (eq_trans (f_equal snd N6) (f_equal snd BA))).
    destruct (ctr_sets_ok wB EmB) as (dC & EC & PC).
    { destruct N1 as (c & k & ->). exact Hk. }
    rewrite (bind_run _ _ _ _ _ EC). exists 0, (conf_with dC wB). split; [done|]. constructor; change (cf_d (conf_with dC wB)) with dC; [exact N2|exact N3|exact N4| | |done|].
    + transitivity (block_state (cf_d wB)); [by destruct PC as (x & b & m & ->)|]. exact (eq_trans N6 BA).
    + etransitivity; [exact KA|]. etransitivity; [exact N7|by apply pol_only_status].
    + intros _. destruct PC as (x & b & m & ->). rewrite EdB. split; [|done]. destruct Hpol as (x' & b' & m' & ->).
      unfold layout. f_equal; [f_equal; [exact (Hgeo _ _ Ei)|exact L1]|exact L2].
  - rewrite bind_ret, (proj2 (Z.eqb_neq r 0) Hr). cbn [negb when]. rewrite (bind_run _ _ _ _ _ (conf_dmc_run' (modify (set_persistence pers)) wB tt _ eq_refl)).
    exists r, (conf_with (set_persistence pers (cf_d wB)) wB). split; [done|]. constructor; [exact N2|exact N3|exact N4| | | |done].
    + exact (eq_trans N6 BA).
    + etransitivity; [exact KA|exact N7].
    + exact N5.
Qed.

Lemma ssd_add_back w dev sd hp sp l : back_env w dev sd hp sp l ->
  exists r w', eio_ctr_ssd_add dev (Some sd) (conf_with (set_flag CACHE_FLAGS_SSD_ADD_INPROG (cf_d w)) w) = Some (r, w') /\
    ssd_added (conf_with (set_flag CACHE_FLAGS_SSD_ADD_INPROG (cf_d w)) w) sd r w'.
Proof.
  intros H. pose proof (be_same _ _ _ _ _ _ H) as Hsame. set (d1 := set_flag CACHE_FLAGS_SSD_ADD_INPROG (cf_d w)). set (w1 := conf_with d1 w). destruct (be_gone _ _ _ _ _ _ H) as [Ew Hg]. apply Z.eqb_eq in Ew.
  destruct (be_policy _ _ _ _ _ _ H) as (dp & Hp). destruct (policy_init_again true (cf_policies w) (cf_d w) d1 dp eq_refl Hp) as (p1 & r1 & Ep).
  destruct (ctr_ssd_add_form w1 dev sd _ (gf_src _ _ _ _ Hg) (be_kmalloc _ _ _ _ _ _ H) (be_size _ _ Hsame) (be_start _ _ Hsame) Ep) as (rq & p & ->).
  change (mode (cf_d w1)) with (mode (cf_d w)). rewrite Ew. change (negb (CACHE_MODE_WB =? CACHE_MODE_WB)) with false.
  destruct (attached_geom w sd Hsame rq p) as [_ Hgeo].
  assert (Egeo : geom d1 = geom (cf_d w)) by exact (inprog_geom (cf_d w)).
  apply (ssd_add_made w1 dev sd hp sp l).
  - exact (attached_env w dev sd hp sp l rq p H).
  - apply attached_status.
  - apply attached_blocks.
  - exact Ew.
  - exact (be_kmalloc _ _ _ _ _ _ H).
  - intros r f E. change (geom (cf_d w1)) with (geom d1). rewrite Egeo. exact (Hgeo r f E).
  - exact (f_equal md_start_sect (attached_layout w sd Hsame rq p)).
  - exact (f_equal md_sectors (attached_layout w sd Hsame rq p)).
Qed.

Lemma resume_back w dev sd hp sp l : back_env w dev sd hp sp l -> exists w', eio_resume_caching (Some dev) (Some sd) w = Some (tt, w') /\ back_end w dev sd w'.
Proof.
  intros H. unfold eio_resume_caching. assert (El : (DEV_PATHLEN <=? length dev)%nat = false) by (apply Nat.leb_gt, (be_dev _ _ _ _ _ _ H)). rewrite El.
  rewrite (bind_run _ _ _ _ _ (conf_dmc_run' resume_start w true _ (resume_start_go _ (be_gone _ _ _ _ _ _ H) (be_stale _ _ _ _ _ _ H)))). cbn [negb].
  destruct (ssd_add_back w dev sd hp sp l H) as (r & w2 & E & [A1 A2 A3 A4 A5 A6 A7]). rewrite (bind_run _ _ _ _ _ E).
  destruct (adding_flags true (mk_gone true false) (cf_d w) (cf_d w2) (be_gone _ _ _ _ _ _ H) A5) as [Ew Hg].
  destruct (resume_finish_ok true (mk_gone true false) (cf_d w2) r Ew eq_refl eq_refl Hg) as (d' & Ef & Hd'). destruct (finish_keeps _ _ _ Ef) as (B1 & B2 & B3).
  exists (conf_with d' w2). split; [exact (conf_dmc_run' (resume_finish r) w2 tt d' Ef)|]. constructor; [exact A1|exact A2|exact A3|exact (eq_trans B1 A4)|].
  change (cf_d (conf_with d' w2)) with d'. destruct (Z.eqb_spec r 0) as [Er|Er].
  - right. destruct (A7 Er) as [C1 C2]. split; [done|]. split; [|congruence]. rewrite B2, C1. exact (inprog_layout (cf_d w)).
  - left. split; [done|]. intros En. by apply Er, A6.
Qed.


(** the same blocks in the same layout: the same volume *)
Lemma volume_same d d' k s : layout d' = layout d -> block_state d' = block_state d -> volume d' k s = volume d k s.
Proof.
  intros Hl Hb. assert (Hm : same_md d d').
  { split; [by apply layout_geom|]. split; [exact (f_equal (fun x => x.1.1.1.1.1.1) Hb)|]. split; [exact (f_equal (fun x => x.1.1.1.1.1.2) Hb)|exact (f_equal (fun x => x.1.1.1.1.2) Hb)]. }
  apply contents_ext; [done|]. intros i _. unfold is_dirty. by rewrite (same_md_state _ _ Hm), (same_md_dbn _ _ Hm).
Qed.
Lemma back_volume w path sd w' s : blk_inv (cf_d w) -> data_behind (cf_d w) -> md_before_data (cf_d w) -> back_end w path sd w' -> layout (cf_d w') = layout (cf_d w) -> 0 <= s ->
  volume (cf_d w') (cw_k (cf_cw w')) s = volume (cf_d w) (dev_set SSD (sd_sectors sd) (cw_k (cf_cw w))) s.
Proof.
  intros Hinv Hb Hm [H1 H2 _ H4 _] Hl Hs. rewrite (volume_same (cf_d w)) by done. apply volume_kept; try done. intros t Ht _. by apply H2.
Qed.
