(* ===== verification/Cold.v ===== *)
(** * A cache that is not write-back gets an SSD

    The blocks of such a cache are forgotten: whatever was on the SSD, and
    whatever happened while it was away, nothing stale is served from it.

    ** Nothing fails: the cache is active again

    When every allocation and transfer succeeds and no block has I/O in
    progress, [eio_resume_caching] makes a cache that is not write-back active. *)

From S2P Require Import Prelude Types Mem Scan Fifo Rand Lru Policy Lookup World Dispatch Disk Clean CleanThread CleanIo CleanState CleanSet WbAlloc Hits Superblock MdStore MdCreate MdLoad PageIo LoadLoop Recovery Saved Restart Suspend Gone Resume.

(** * A cache that is not write-back gets an SSD *)
(** what other threads may do while the cache waits for I/O to end *)
Definition calm (f : cache_c -> cache_c) : Prop := forall d, status_kept d (f d) /\ layout (f d) = layout d.

(** the words of the blocks and the layout are the same *)
Definition words_kept (d d' : cache_c) : Prop := cache d' = cache d /\ cache_md8 d' = cache_md8 d /\ layout d' = layout d.
#[export] Instance words_kept_pre : PreOrder words_kept.
Proof. split; [done|]. intros d1 d2 d3 (A1 & A2 & A3) (B1 & B2 & B3). unfold words_kept. split_and!; congruence. Qed.

(** block [i] caches nothing *)
Definition invalid_all (blocks : list Z) (d : cache_c) : Prop := forall i, i ∈ blocks -> EIO_CACHE_STATE_GET d i = INVALID.
Definition no_blocks (d : cache_c) : Prop := invalid_all (seqZ 0 (dmc_size d)) d.
Lemma layout_md8 d d' : layout d' = layout d -> EIO_MD8 d' = EIO_MD8 d.
Proof. intros E. exact (f_equal snd (layout_geom _ _ E)). Qed.
Lemma layout_size d d' : layout d' = layout d -> dmc_size d' = dmc_size d.
Proof. intros E. by destruct (geom_fields _ _ (layout_geom _ _ E)). Qed.
Lemma invalid_all_kept blocks d d' : words_kept d d' -> invalid_all blocks d -> invalid_all blocks d'.
Proof. intros (E1 & E2 & E3) H i Hi. unfold EIO_CACHE_STATE_GET. rewrite (layout_md8 _ _ E3), E1, E2. by apply H. Qed.

(** ** Emptying the cache *)
Lemma invalidate_state d i j : EIO_CACHE_STATE_GET (eio_invalidate_md d i) j = if decide (j = i) then INVALID else EIO_CACHE_STATE_GET d j.
Proof.
  unfold EIO_CACHE_STATE_GET, eio_invalidate_md. destruct (EIO_MD8 d) eqn:E.
  - assert (E' : EIO_MD8 (set_cache_md8 (<[i := EIO_MD8_INVALID]> (cache_md8 d)) d) = true) by exact E. rewrite E'. cbn [cache_md8 set_cache_md8].
    destruct (decide (j = i)) as [->|Hne]; [by rewrite lookup_total_insert_eq|by rewrite lookup_total_insert_ne].
  - assert (E' : EIO_MD8 (set_cache (<[i := EIO_MD4_INVALID]> (cache d)) d) = false) by exact E. rewrite E'. cbn [cache set_cache].
    destruct (decide (j = i)) as [->|Hne]; [by rewrite lookup_total_insert_eq|by rewrite lookup_total_insert_ne].
Qed.
Lemma invalidate_layout d i : layout (eio_invalidate_md d i) = layout d.
Proof. unfold eio_invalidate_md. by destruct (EIO_MD8 d). Qed.

Lemma cold_pass_ok : forall blocks w w' ok, cold_pass blocks w = Some (ok, w') -> Forall calm (cf_sleeps w) ->
  layout (cf_d w') = layout (cf_d w) /\ Forall calm (cf_sleeps w') /\
  (ok = true -> invalid_all blocks (cf_d w') /\ forall j, EIO_CACHE_STATE_GET (cf_d w) j = INVALID -> EIO_CACHE_STATE_GET (cf_d w') j = INVALID).
Proof.
  induction blocks as [|i blocks IH]; intros w w' ok E Hs; cbn [cold_pass] in E.
  { injection E as <- <-. split; [done|]. split; [done|]. intros _. split; [by intros i ?%not_elem_of_nil|done]. }
  apply bind_inv in E as (d & w1 & [= <- <-] & E). destruct (_ && _).
  - apply bind_inv in E as (u & w1 & E1 & [= <- <-]). unfold conf_msleep in E1. destruct (cf_sleeps w) as [|f l] eqn:El; [injection E1 as _ <-; by rewrite El|].
    apply Forall_cons in Hs as [Hf Hl]. injection E1 as _ <-. split; [exact (proj2 (Hf (cf_d w)))|]. split; [exact Hl|done].
  - apply bind_inv in E as (u & w1 & E1 & E). assert (Ed : cf_d w1 = eio_invalidate_md (cf_d w) i) by (by injection E1 as _ <-).
    assert (Hs1 : Forall calm (cf_sleeps w1)) by (by injection E1 as _ <-). destruct (IH _ _ _ E Hs1) as (L & S & T). rewrite Ed in L, T. clear E1 Ed.
    split; [by rewrite L, invalidate_layout|]. split; [done|]. intros ->. destruct (T eq_refl) as [T1 T2]. split.
    + intros j [->|Hj]%elem_of_cons; [|by apply T1]. apply T2. by rewrite invalidate_state, decide_True.
    + intros j Hj. apply T2. rewrite invalidate_state. by case_decide.
Qed.
Lemma cold_passes_ok : forall n blocks w w' ok, cold_passes n blocks w = Some (ok, w') -> Forall calm (cf_sleeps w) ->
  layout (cf_d w') = layout (cf_d w) /\ Forall calm (cf_sleeps w') /\ (ok = true -> invalid_all blocks (cf_d w')).
Proof.
  induction n as [|n IH]; intros blocks w w' ok E Hs; cbn [cold_passes] in E; apply bind_inv in E as (ok1 & w1 & E1 & E);
    destruct (cold_pass_ok _ _ _ _ E1 Hs) as (L & S & T); (destruct ok1; [injection E as <- <-; split; [done|]; split; [done|]; intros _; by apply T|]).
  - by injection E as <- <-.
  - destruct (IH _ _ _ _ E S) as (L' & S' & T'). split; [congruence|]. by split.
Qed.

(** ** [eio_md_create] of a cold cache *)
Definition ends_kept (w w' : conf_world) : Prop := words_kept (cf_d w) (cf_d w').
Lemma kept_of {A} (m : M conf_world A) w a w' : keeps (fun _ => True) words_kept m -> m w = Some (a, w') -> words_kept (cf_d w) (cf_d w').
Proof. intros Hk E. apply (Hk _ _ _ E). by apply Forall_true. Qed.

Lemma create_pages_kept pages w w' : md_create_pages pages w = Some (0, w') -> words_kept (cf_d w) (cf_d w').
Proof.
  unfold md_create_pages. intros (d & w1 & [= <- <-] & E)%bind_inv. cbv zeta in E.
  apply bind_inv in E as (r & w1 & E1 & E). assert (K1 := kept_of _ _ _ _ (k_create_loop _ words_kept pages _ _) E1).
  destruct (negb (r.1 =? 0)); [by apply bind_inv in E as (u & w2 & _ & [=])|].
  apply bind_inv in E as (r2 & w2 & E2 & E). assert (K2 : words_kept (cf_d w1) (cf_d w2)).
  { destruct (negb (Nat.eqb _ _)); [exact (kept_of _ _ _ _ (k_flush_last _ words_kept pages _) E2)|by injection E2 as _ <-]. }
  destruct (negb (r2.1 =? 0)); [by apply bind_inv in E as (u & w3 & _ & [=])|]. destruct (negb (_ =? _)); [done|]. injection E as <-. by etransitivity.
Qed.
Lemma create_sb_kept w w' : md_create_sb w = Some (0, w') -> words_kept (cf_d w) (cf_d w').
Proof.
  unfold md_create_sb. intros (d & w1 & [= <- <-] & E)%bind_inv. destruct (no_device _); [by apply bind_inv in E as (u & w2 & _ & [=])|].
  apply bind_inv in E as (u & w1 & [= _ <-] & E). apply bind_inv in E as (e & w2 & E2 & E). assert (K := kept_of _ _ _ _ (k_sb_store _ words_kept) E2).
  destruct (negb (e =? 0)); [by apply bind_inv in E as (u' & w3 & _ & [=])|]. injection E as <-. exact K.
Qed.

Lemma create_cold_empties w w' : md_create_cold w = Some (0, w') -> Forall calm (cf_sleeps w) ->
  layout (cf_d w') = layout (cf_d w) /\ no_blocks (cf_d w').
Proof.
  unfold md_create_cold. intros (d & w1 & [= <- <-] & E)%bind_inv Hs. apply bind_inv in E as (ok & w1 & E1 & E).
  destruct (cold_passes_ok _ _ _ _ _ E1 Hs) as (L & _ & T). destruct ok; cbn [negb] in E; [|done]. specialize (T eq_refl).
  apply bind_inv in E as (pages & w2 & E2 & E). assert (K2 := kept_of _ _ _ _ (k_alloc_pages _ words_kept _) E2).
  destruct pages as [pages|]; [|done]. apply bind_inv in E as (ok & w3 & E3 & E). assert (K3 := kept_of _ _ _ _ (k_kmalloc _ words_kept) E3).
  destruct ok; cbn [negb] in E; [|by apply bind_inv in E as (u & w4 & _ & [=])].
  apply bind_inv in E as (r & w4 & E4 & E). apply bind_inv in E as (r' & w5 & E5 & E). apply bind_inv in E as (u & w6 & E6 & [= -> <-]).
  assert (K6 := kept_of _ _ _ _ (k_put_pages _ words_kept _) E6).
  assert (K : words_kept (cf_d w3) (cf_d w5)).
  { destruct (Z.eqb_spec r 0) as [->|Hr]; cbn [negb] in E5; [|injection E5 as -> <-; done]. etransitivity; [by apply (create_pages_kept pages)|by apply create_sb_kept]. }
  assert (K' : words_kept (cf_d w1) (cf_d w6)) by (do 2 (etransitivity; [eassumption|]); by etransitivity).
  split; [rewrite <-L; apply K'|]. unfold no_blocks. rewrite (layout_size _ _ (proj2 (proj2 K'))), (layout_size _ _ L). by apply (invalid_all_kept _ (cf_d w1)).
Qed.

(** other threads, seen by what decides whether a cache is active *)
Lemma calm_status f d : calm f -> status_kept d (f d).
Proof. intros H. apply H. Qed.
Abbreviation calm_keeps := (keeps calm status_kept).
Lemma calm_of {A} (m : M conf_world A) w a w' : calm_keeps m -> m w = Some (a, w') -> Forall calm (cf_sleeps w) -> Forall calm (cf_sleeps w').
Proof. intros Hk E Hs. by apply (Hk _ _ _ E Hs). Qed.

Lemma md_create_empties w w' : eio_md_create true true w = Some (0, w') -> Forall calm (cf_sleeps w) -> no_blocks (cf_d w').
Proof.
  unfold eio_md_create. intros (hp & w1 & E1 & E)%bind_inv Hs. assert (S1 := calm_of _ _ _ _ (k_alloc_pages _ _ _) E1 Hs).
  destruct hp as [hp|]; [|done]. apply bind_inv in E as (r & w2 & E2 & E). apply bind_inv in E as (u & w3 & E3 & [= -> <-]).
  assert (K3 := kept_of _ _ _ _ (k_put_pages _ words_kept _) E3).
  assert (G : no_blocks (cf_d w2)); [|unfold no_blocks; rewrite (layout_size _ _ (proj2 (proj2 K3))); by apply (invalid_all_kept _ (cf_d w2))].
  clear E3 K3. unfold md_create_body in E2. apply bind_inv in E2 as (d & w1' & [= <- <-] & E). destruct (no_device _); [done|].
  apply bind_inv in E as (e & wa & Ea & E). assert (Sa := calm_of _ _ _ _ (k_sync_vm _ _ _ _ _) Ea S1). destruct (negb (e =? 0)); [done|].
  apply bind_inv in E as (st & wb & [= <- <-] & E). cbn [negb andb] in E.
  apply bind_inv in E as (u' & wb & Eb & E). assert (Sb := calm_of _ _ _ _ (k_upd calm status_kept create_layout (fun d => layout_status d)) Eb Sa).
  apply bind_inv in E as (e' & wc & Ec & E). assert (Sc := calm_of _ _ _ _ (k_dmc calm status_kept _ mem_init_status) Ec Sb).
  destruct (e' =? -1); [done|]. apply bind_inv in E as (d & wd & [= <- <-] & E). destruct (no_device _); [done|]. destruct (_ <? _); [done|].
  apply bind_inv in E as (e2 & wd & Ed & E). assert (Sd := calm_of _ _ _ _ (k_create_alloc calm) Ed Sc).
  destruct (negb (e2 =? 0)) eqn:En; [injection E as -> <-; by rewrite Z.eqb_refl in En|]. by apply (create_cold_empties wd).
Qed.

Lemma ctr_sets_kept w w' : ctr_sets w = Some (0, w') -> words_kept (cf_d w) (cf_d w') /\ (mode (cf_d w) <> CACHE_MODE_WB -> stats (cf_d w') = no_stats).
Proof.
  unfold ctr_sets. intros (ok & w1 & E1 & E)%bind_inv. assert (Ed : cf_d w1 = cf_d w).
  { unfold conf_kmalloc in E1. destruct (cf_kmalloc w); by injection E1 as _ <-. }
  apply bind_inv in E as (r & w2 & E2 & E). apply conf_dmc_inv in E2 as (d2 & E2%sets_init_pol & Ed2 & _). rewrite Ed in E2.
  destruct (Z.ltb_spec r 0); [injection E as -> <-; lia|].
  apply bind_inv in E as (u & w3 & E3 & E). apply conf_dmc_inv in E3 as (d3 & E3%pushblks_pol & Ed3 & _). rewrite Ed2 in E3.
  assert (P : pol_only (cf_d w) d3) by by etransitivity. apply bind_inv in E as (d & w4 & [= <- <-] & E). apply bind_inv in E as (u' & w5 & E5 & [= <-]).
  rewrite Ed3 in E5. assert (Em : mode d3 = mode (cf_d w)) by by destruct P as (x & b & m & ->). rewrite Em in E5.
  assert (W : words_kept (cf_d w) d3) by by destruct P as (x & b & m & ->).
  destruct (Z.eqb_spec (mode (cf_d w)) CACHE_MODE_WB) as [Hm|Hm]; cbn [negb when] in E5.
  - injection E5 as _ <-. rewrite Ed3. by split.
  - apply conf_dmc_inv in E5 as (d5 & [= _ <-] & -> & _). rewrite Ed3. split; [exact W|done].
Qed.

(** ** The end of the resumption *)
Lemma no_blocks_kept d d' : words_kept d d' -> no_blocks d -> no_blocks d'.
Proof. intros H. unfold no_blocks. rewrite (layout_size _ _ (proj2 (proj2 H))). by apply invalid_all_kept. Qed.

Lemma ssd_add_empties dv sd w w' : eio_ctr_ssd_add dv sd w = Some (0, w') -> mode (cf_d w) <> CACHE_MODE_WB -> Forall calm (cf_sleeps w) ->
  no_blocks (cf_d w') /\ stats (cf_d w') = no_stats.
Proof.
  unfold eio_ctr_ssd_add. intros (d & w1 & [= <- <-] & E)%bind_inv Hm Hs. apply assert_inv in E. destruct sd as [sd|]; [|done].
  apply bind_inv in E as (u & w2 & E2 & E). apply bind_inv in E as (r & w3 & E3 & E). apply bind_inv in E as (u' & w4 & E4 & [= -> <-]). injection E4 as _ <-.
  destruct (k_attach calm sd _ _ _ E2 Hs) as [K2 S2].
  unfold ctr_ssd_add_body in E3. apply bind_inv in E3 as (w2' & w2'' & [= <- <-] & E). destruct (negb _); [done|]. destruct (negb _); [done|].
  apply bind_inv in E as (a1 & wa & Ea & E). destruct (k_devname calm dv _ _ _ Ea S2) as [Ka Sa].
  apply bind_inv in E as (a2 & wb & Eb & E). destruct (k_upd calm status_kept (eio_init_ssddev_props sd) (fun d => eq_refl) _ _ _ Eb Sa) as [Kb Sb].
  apply bind_inv in E as (a3 & wc & Ec & E). destruct (k_upd calm status_kept (set_dmc_size _) (fun d => eq_refl) _ _ _ Ec Sb) as [Kc Sc].
  apply bind_inv in E as (a4 & wd & Ed & E). destruct (k_upd calm status_kept (set_persistence _) (fun d => eq_refl) _ _ _ Ed Sc) as [Kd Sd].
  apply bind_inv in E as (rp & we & Ee & E). destruct (k_ctr_policy calm _ _ _ Ee Sd) as [Ke Se].
  destruct (Z.eqb_spec rp 0) as [->|Hr]; cbn [negb] in E; [|by injection E as -> _].
  apply bind_inv in E as (rm & wf & Ef & E). destruct (k_md_create calm calm_status _ _ _ _ _ Ef Se) as [Kf _].
  assert (Em2 : mode (cf_d w2) <> CACHE_MODE_WB) by (injection K2 as K2 _; by rewrite K2).
  assert (Emf : mode (cf_d wf) <> CACHE_MODE_WB).
  { assert (K : status_kept (cf_d w2) (cf_d wf)) by (do 5 (etransitivity; [eassumption|]); exact Kf). injection K as K _. by rewrite K. }
  rewrite (proj2 (Z.eqb_neq _ _) Em2) in Ef. cbn [negb] in Ef.
  destruct (Z.eqb_spec rm 0) as [->|Hr]; cbn [negb] in E; [|by injection E as -> _].
  assert (Hb := md_create_empties _ _ Ef Se). destruct (ctr_sets_kept _ _ E) as [W St]. split; [by apply (no_blocks_kept (cf_d wf))|by apply St].
Qed.

(** the cache is either still suspended or empty *)
Lemma resume_empties w dev sd w' : gone_is false (mk_gone true false) (cf_d w) -> Forall calm (cf_sleeps w) -> eio_resume_caching dev sd w = Some (tt, w') ->
  gone_is false (mk_gone true false) (cf_d w') \/ (gone_is false (mk_gone false false) (cf_d w') /\ no_blocks (cf_d w') /\ stats (cf_d w') = no_stats).
Proof.
  intros Hs Hsl [[E _]|(dv & d1 & r & w2 & Er & E2 & E & _)]%resume_inv; [left; by rewrite E|].
  destruct (resume_start_ok _ _ _ _ _ Hs Er) as [[? _]|(_ & _ & _ & ->)]; [done|].
  destruct (k_ssd_add calm calm_status _ _ _ _ _ E2 Hsl) as [Hk _]. destruct (adding_flags _ _ _ _ Hs Hk) as [Ew Hf].
  destruct (resume_finish_ok false (mk_gone true false) (cf_d w2) r Ew eq_refl eq_refl Hf) as (d' & Ef & Hd'). rewrite E in Ef. injection Ef as Ed.
  rewrite Ed. destruct (Z.eqb_spec r 0) as [->|Hr]; [right|by left]. split; [done|]. rewrite <-Ed.
  destruct (ssd_add_empties _ _ _ _ E2) as [Hb Hst]; [|exact Hsl|].
  - destruct Hs as [Hw _]. unfold write_back in Hw. by apply Z.eqb_neq in Hw.
  - destruct (finish_keeps _ _ _ E) as (B1 & B2 & _). split.
    + apply (no_blocks_kept (cf_d w2)); [|done]. split_and!; [exact (f_equal (fun x => x.1.1.1.1.1.1) B1)|exact (f_equal (fun x => x.1.1.1.1.1.2) B1)|done].
    + rewrite <-Hst. revert E. unfold resume_finish. rewrite Z.eqb_refl. cbn [negb]. rewrite bind_modify, bind_gets. by intros [= <-].
Qed.

(** * Nothing fails: the cache is active again *)
(** ** Invalidating the blocks *)
Definition invalidated (blocks : list Z) (d : cache_c) : cache_c := foldl eio_invalidate_md d blocks.
Lemma cold_pass_run : forall blocks w, CACHE_SSD_ADD_INPROG_IS_SET (cf_d w) = true ->
  (forall i, i ∈ blocks -> tst (EIO_CACHE_STATE_GET (cf_d w) i) BLOCK_IO_INPROG = false) -> cold_pass blocks w = Some (true, conf_with (invalidated blocks (cf_d w)) w).
Proof.
  induction blocks as [|i blocks IH]; intros w Hadd Hb; cbn [cold_pass invalidated foldl].
  { unfold conf_with. by rewrite with_md_same. }
  rewrite bind_gets, Hb by (apply elem_of_cons; by left). rewrite andb_false_r.
  rewrite (bind_run _ _ _ _ _ (conf_dmc_run' (modify (fun d => eio_invalidate_md d i)) w tt _ eq_refl)). set (w1 := conf_with (eio_invalidate_md (cf_d w) i) w).
  rewrite (IH w1).
  - done.
  - by rewrite (inprog_kept (cf_d w)) by apply invalidate_status.
  - intros j Hj. change (cf_d w1) with (eio_invalidate_md (cf_d w) i). rewrite invalidate_state. case_decide; [done|]. apply Hb, elem_of_cons. by right.
Qed.
Lemma invalidated_kept : forall blocks d, layout (invalidated blocks d) = layout d /\ status_kept d (invalidated blocks d) /\ bio_nr_pages (invalidated blocks d) = bio_nr_pages d /\
  index_zero (invalidated blocks d) = index_zero d.
Proof.
  induction blocks as [|i blocks IH]; intros d; [done|]. change (invalidated (i :: blocks) d) with (invalidated blocks (eio_invalidate_md d i)). destruct (IH (eio_invalidate_md d i)) as (A1 & A2 & A3 & A4). split_and!.
  - rewrite A1. apply invalidate_layout.
  - etransitivity; [apply invalidate_status|exact A2].
  - rewrite A3. unfold eio_invalidate_md. by destruct (EIO_MD8 d).
  - rewrite A4. unfold eio_invalidate_md. by destruct (EIO_MD8 d).
Qed.
(** an invalidated block is sector 0, INVALID *)
Lemma invalidated_word : forall blocks d i, i ∈ blocks ->
  (if EIO_MD8 d then cache_md8 (invalidated blocks d) !!! i = EIO_MD8_INVALID else cache (invalidated blocks d) !!! i = EIO_MD4_INVALID).
Proof.
  intros blocks d i Hi. induction blocks as [|j blocks IH] using rev_ind; [by apply not_elem_of_nil in Hi|]. unfold invalidated. rewrite foldl_app. cbn [foldl].
  fold (invalidated blocks d). destruct (invalidated_kept blocks d) as (A1 & _). pose proof (layout_md8 _ _ A1) as E8. unfold eio_invalidate_md. rewrite E8.
  destruct (EIO_MD8 d); cbn [cache cache_md8 set_cache set_cache_md8].
  - destruct (decide (j = i)) as [->|Hne]; [apply lookup_total_insert_eq|]. rewrite lookup_total_insert_ne by done. apply IH. apply elem_of_app in Hi as [?| ->%list_elem_of_singleton]; [done|done].
  - destruct (decide (j = i)) as [->|Hne]; [apply lookup_total_insert_eq|]. rewrite lookup_total_insert_ne by done. apply IH. apply elem_of_app in Hi as [?| ->%list_elem_of_singleton]; [done|done].
Qed.
Lemma invalidated_slot blocks d i : i ∈ blocks -> md_slot (invalidated blocks d) i = Some (mk_flash 0 INVALID).
Proof.
  intros Hi. pose proof (invalidated_word blocks d i Hi) as Hw. destruct (invalidated_kept blocks d) as (A1 & _). pose proof (layout_md8 _ _ A1) as E8.
  unfold md_slot, EIO_DBN_GET, eio_expand_dbn, EIO_CACHE_STATE_GET. rewrite E8. destruct (EIO_MD8 d).
  - by rewrite Hw.
  - rewrite Hw. by destruct (_ && _).
Qed.

(** ** Writing their entries *)
Lemma count_invalid b : count_state INVALID b = b.
Proof. unfold count_state. change (tst INVALID VALID) with false. change (tst INVALID DIRTY) with false. cbv iota. rewrite !Z.add_0_r. by destruct b. Qed.
Lemma flush_errors pages b w r w' : md_flush pages b w = Some (r, w') -> mb_write_errors r.2 = mb_write_errors b.
Proof. unfold md_flush. intros (u & w1 & _ & E)%bind_inv. apply bind_inv in E as (e & w2 & _ & E). by injection E as <- _. Qed.

Section loop.
Context (start size : Z) (F : Z -> flash_cacheblock) (pages : list Z) (Hnd : NoDup pages) (Hne : pages <> []).
Lemma create_loop_ok w0 : no_device (cf_d w0) = false -> cw_results (cf_cw w0) = [] -> (forall i, 0 <= i < size -> md_slot (cf_d w0) i = Some (F i) /\ fc_state (F i) = INVALID) ->
  forall n i w b, 0 <= i -> i + Z.of_nat n = size -> buffered start size F pages w0 w i b ->
  exists b' w', md_create_loop pages (seqZ i (Z.of_nat n)) b w = Some ((0, b'), w') /\ buffered start size F pages w0 w' size b'.
Proof.
  intros Hd Hres HF. assert (Hrok : Forall io_result_ok (cw_results (cf_cw w0))) by by rewrite Hres.
  induction n as [|n IH]; intros i w b Hi Hn Hb.
  { exists b, w. split; [done|]. assert (i = size) as -> by lia. done. }
  rewrite seqZ_cons by lia. replace (Z.pred (Z.of_nat (S n))) with (Z.of_nat n) by lia. cbn [md_create_loop].
  destruct (HF i ltac:(lia)) as [Hslot Hst]. assert (Ed : cf_d w = cf_d w0) by apply io_only_d, Hb.
  rewrite (bind_eval (fun w => md_slot (cf_d w) i) _ w (F i)) by (by rewrite Ed). cbv zeta.
  destruct (store_put start size F pages Hnd Hne w0 w i b Hb Hd Hrok ltac:(lia)) as (b1 & w1 & E1 & Hb1). rewrite Hst, count_invalid in E1.
  replace (Z.succ i) with (i + 1) by lia. destruct (pages_full pages (md_put (F i) b)).
  - apply bind_inv in E1 as ([e b2] & w2 & Er & E1). injection E1 as <- <-. rewrite (bind_run _ _ _ _ _ Er). cbn [fst snd] in *.
    pose proof (flush_errors _ _ _ _ _ Er) as Hw. cbn [fst snd] in Hw. change (mb_write_errors (md_put (F i) b)) with (mb_write_errors b) in Hw.
    pose proof (bu_none _ _ _ _ _ _ _ _ Hb Hres) as H0. pose proof (bu_none _ _ _ _ _ _ _ _ Hb1 Hres) as H1. unfold count_error in H1, Hb1.
    destruct (Z.eqb_spec e 0) as [->|He]; cbn [negb] in *; [|cbn in H1; lia]. apply (IH (i + 1)); [lia|lia|done].
  - injection E1 as <- <-. apply (IH (i + 1)); [lia|lia|done].
Qed.
End loop.

Lemma create_pages_ok F pages w0 : NoDup pages -> pages <> [] -> 0 <= dmc_size (cf_d w0) -> no_device (cf_d w0) = false -> cw_results (cf_cw w0) = [] ->
  (forall i, 0 <= i < dmc_size (cf_d w0) -> md_slot (cf_d w0) i = Some (F i) /\ fc_state (F i) = INVALID) ->
  exists w', md_create_pages pages w0 = Some (0, w') /\ io_only w0 w' /\ md_written (md_start_sect (cf_d w0)) F (on_ssd (cw_k (cf_cw w'))) (dmc_size (cf_d w0)).
Proof.
  intros Hnd Hne Hsz Hd Hres HF. unfold md_create_pages. rewrite bind_gets. cbv zeta. assert (Hrok : Forall io_result_ok (cw_results (cf_cw w0))) by by rewrite Hres.
  assert (Hcap := cap_pos pages Hnd Hne). set (d := cf_d w0) in *.
  destruct (create_loop_ok (md_start_sect d) (dmc_size d) F pages Hnd Hne w0 Hd Hres HF (Z.to_nat (dmc_size d)) 0 w0 (mk_mdbuf [] (md_start_sect d) 0 0 0 0)) as (b1 & w1 & E1 & Hb1); [done|lia| |].
  { constructor; [done|done|done| |done|done]. exists 0. rewrite Z.sub_diag, Z.div_0_l, Z.add_0_r by lia. split_and!; try done; try lia; [by exists 0|]. intros _ i Hi. lia. }
  rewrite Z2Nat.id in E1 by done. rewrite (bind_run _ _ _ _ _ E1). cbn [fst snd Z.eqb negb].
  destruct (Nat.eqb_spec (length (mb_slots b1)) 0) as [El|El]; cbn [negb].
  - rewrite bind_ret. cbn [fst snd Z.eqb negb]. destruct Hb1 as [Hio He Hn0 (i0 & Hi0 & Hlen & Hdiv & Hslots & Hsec & Hwr & Hw) Hdirty Hkeep].
    assert (i0 = dmc_size d) as ->. { rewrite Hslots, length_map, length_seqZ in El. lia. }
    assert (Ee : sectors_expected d =? mb_sectors_written b1 = true).
    { apply Z.eqb_eq. rewrite (sectors_expected_eq d Hsz), Hwr, Z.sub_0_r. destruct Hdiv as [x ->]. Z.to_euclidean_division_equations; lia. }
    rewrite Ee. exists w1. split; [done|]. split; [done|]. by apply Hw, Hn0.
  - destruct (md_flush_last_ok (md_start_sect d) (dmc_size d) F pages Hnd Hne w0 w1 b1 Hb1) as (e & b2 & w2 & E2 & Hio & A1 & A2 & A3 & Hnone & Hw & _); [by intros Es; rewrite Es in El|done|done|].
    rewrite (Hnone Hres) in E2. rewrite (bind_run _ _ _ _ _ E2). cbn [fst snd Z.eqb negb].
    assert (Ee : sectors_expected d =? mb_sectors_written b2 = true) by (apply Z.eqb_eq; by rewrite (sectors_expected_eq d Hsz), A3, Z.sub_0_r).
    rewrite Ee. exists w2. split; [done|]. split; [done|]. apply Hw; [by apply Hnone|by apply (bu_none _ _ _ _ _ _ _ _ Hb1)].
Qed.

(** ** [eio_md_create] *)
Definition idle (blocks : list Z) (d : cache_c) : Prop := forall i, i ∈ blocks -> tst (EIO_CACHE_STATE_GET d i) BLOCK_IO_INPROG = false.

Lemma create_cold_run w pages sp l : CACHE_SSD_ADD_INPROG_IS_SET (cf_d w) = true -> idle (seqZ 0 (dmc_size (cf_d w))) (cf_d w) -> 0 <= dmc_size (cf_d w) ->
  cw_results (cf_cw w) = [] -> cf_kmalloc w = [] -> names_ok w -> fresh_pages (pages ++ sp :: l) w -> pages <> [] ->
  Z.of_nat (length pages) = Z.min (bio_nr_pages (cf_d w)) MD_MAX_NR_PAGES ->
  exists w', md_create_cold w = Some (0, w') /\ conf_same w w' /\ pg_live (cf_kmem w') = pg_live (cf_kmem w) /\ fresh_pages l w'.
Proof.
  intros Hadd Hidle Hsz Hres Hk Hnames Hf Hne Hlen. unfold md_create_cold. rewrite bind_gets. set (d := cf_d w) in *. set (d1 := invalidated (seqZ 0 (dmc_size d)) d).
  assert (Hrok : Forall io_result_ok (cw_results (cf_cw w))) by by rewrite Hres.
  destruct (invalidated_kept (seqZ 0 (dmc_size d)) d) as (A1 & A2 & A3 & _). fold d1 in A1, A2, A3. pose proof (inprog_kept _ _ A2) as Hadd1. rewrite Hadd in Hadd1.
  pose proof (layout_size _ _ A1) as Es. assert (HF : forall i, 0 <= i < dmc_size d -> md_slot d1 i = Some (mk_flash 0 INVALID)) by (intros i Hi; apply invalidated_slot, elem_of_seqZ; lia).
  assert (E1 : cold_passes 10 (seqZ 0 (dmc_size d)) w = Some (true, conf_with d1 w)) by (cbn [cold_passes]; by rewrite (bind_run _ _ _ _ _ (cold_pass_run _ w Hadd Hidle))).
  clearbody d1. rewrite (bind_run _ _ _ _ _ E1). cbn [negb]. set (w1 := conf_with d1 w).
  assert (Hf1 : fresh_pages (pages ++ sp :: l) w1) by (destruct Hf; by constructor).
  destruct (eio_alloc_pages_ok pages (sp :: l) w1 (bio_nr_pages d) Hf1 Hk Hlen Hne) as (w2 & E2 & [(cw2 & km & Ew2) (mem2 & Ec2 & _) Hlive Hfr]). rewrite (bind_run _ _ _ _ _ E2).
  assert (Ew2' : w2 = set_cf_kmem km (with_md mem2 d1 w)) by (rewrite Ew2 in Ec2; cbn in Ec2; rewrite Ew2, Ec2; done). clear Ew2 Ec2 cw2.
  assert (Ek : conf_kmalloc w2 = Some (true, w2)) by (unfold conf_kmalloc; rewrite Ew2'; cbn; by rewrite Hk). rewrite (bind_run _ _ _ _ _ Ek). cbn [negb].
  assert (Hpn : NoDup pages) by (destruct Hf as [_ Hn _]; by apply NoDup_app in Hn as [? _]). assert (Hd2 : cf_d w2 = d1) by by rewrite Ew2'.
  destruct (create_pages_ok (fun _ => mk_flash 0 INVALID) pages w2 Hpn Hne) as (w3 & E3 & Hio & _); rewrite ?Hd2, ?Es; [done|by apply inprog_present|by rewrite Ew2'|by intros i Hi; split; [by apply HF|]|].
  rewrite (bind_run _ _ _ _ _ E3). cbn [Z.eqb negb]. pose proof (io_only_d _ _ Hio) as Hd3. rewrite Hd2 in Hd3. destruct Hio as [(mem3 & ssd3 & tr3 & rs3 & Ew3) Hr3 Hn3].
  destruct (md_create_sb_ok w3 sp l) as (r & ssd' & w4 & E4 & [_ _ _ X4 X5] & Hsame & _ & Hnone & _).
  { by rewrite Hd3. } { apply Hr3. by rewrite Ew2'. } { apply (names_ok_ext w); [..|done]; by rewrite Ew3, Ew2'. } { by rewrite Ew3, Ew2'. } { rewrite Ew3. destruct Hfr; by constructor. }
  rewrite Hnone in E4 by (apply Hn3; by rewrite Ew2'). rewrite (bind_run _ _ _ _ _ E4).
  destruct (put_back pages l (pg_live (cf_kmem w)) w4 Hpn) as (w5 & E5 & Ew5 & Hf5).
  { destruct Hf as [_ _ Hfree]. intros p Hp. apply Hfree, elem_of_app. by left. } { rewrite X4, Ew3. exact Hlive. } { done. }
  rewrite (bind_run _ _ _ _ _ E5). exists w5. split; [done|]. split; [|split; [by rewrite Ew5|done]].
  transitivity w2; [rewrite Ew2'; by eexists _, _|]. transitivity w3; [rewrite Ew3; apply conf_same_cw|]. transitivity w4; [done|]. rewrite Ew5. by eexists (cf_cw w4), _; destruct w4.
Qed.

(** what making a cold cache needs *)
Record cold_env (w : conf_world) (hp : Z) (pages : list Z) (sp : Z) (l : list Z) : Prop := {
  ce_add : CACHE_SSD_ADD_INPROG_IS_SET (cf_d w) = true;
  ce_idle : idle (seqZ 0 (dmc_size (create_layout (cf_d w)))) (cf_d w);
  ce_md8 : forall r f, eio_mem_init (create_layout (cf_d w)) = Some (r, mem_inited f (create_layout (cf_d w))) -> tst f CACHE_FLAGS_MD8 = EIO_MD8 (cf_d w);
  ce_res : cw_results (cf_cw w) = [];
  ce_names : names_ok w;
  ce_kmalloc : cf_kmalloc w = [];
  ce_fresh : fresh_pages (hp :: pages ++ sp :: l) w;
  ce_pages : pages <> [] /\ Z.of_nat (length pages) = Z.min (bio_nr_pages (cf_d w)) MD_MAX_NR_PAGES;
  ce_blk : exists blk, cf_blk w = Some blk;
  ce_geom : mem_geom_pre (create_layout (cf_d w));
  ce_room : 0 <= md_sectors (create_layout (cf_d w)) + dmc_size (create_layout (cf_d w)) * block_size (cf_d w) <= eio_to_sector (cache_dev_size (cf_d w))
}.

Lemma laid_out_state d f d1 i : pol_only (mem_inited f (create_layout d)) d1 -> tst f CACHE_FLAGS_MD8 = EIO_MD8 d ->
  EIO_CACHE_STATE_GET d1 i = EIO_CACHE_STATE_GET d i /\ dmc_size d1 = dmc_size (create_layout d) /\ bio_nr_pages d1 = bio_nr_pages d.
Proof. intros (r & b & m & ->) E8. split; [|done]. unfold EIO_CACHE_STATE_GET, EIO_MD8, CACHE_MD8_IS_SET in *. cbn. by rewrite E8. Qed.

Lemma md_create_cold_run w hp pages sp l : cold_env w hp pages sp l -> exists w', eio_md_create true true w = Some (0, w') /\ conf_same w w'.
Proof.
  intros [Hadd Hidle H8 Hres Hnames Hk Hf [Hne Hlen] [blk Hb] Hpre Hroom]. unfold eio_md_create. set (d := cf_d w) in *.
  destruct (eio_alloc_pages_ok [hp] (pages ++ sp :: l) w 1 Hf Hk eq_refl) as (w1 & E1 & T); [done|]. rewrite (bind_run _ _ _ _ _ E1). change ([hp] !!! 0%nat) with hp.
  destruct T as [(cw1 & km & Ew1) (mem1 & Ec & _ & _) Hlive Hfr].
  assert (Ew1' : w1 = set_cf_kmem km (set_cf_cw (set_cw_mem mem1 (cf_cw w)) w)) by (rewrite Ew1 in Ec; cbn in Ec; by rewrite Ew1, Ec). clear Ew1 Ec cw1 E1.
  assert (Hd1 : cf_d w1 = d) by by rewrite Ew1'. unfold md_create_body.
  destruct (sync_read_ok EIO_SUPERBLOCK_START 8 [hp] w1) as (e & w2 & E2 & [He (mem2 & Ew2 & _)]); [rewrite Hd1; by apply inprog_present|done|by cbn|by apply NoDup_singleton|].
  change (mk_region SSD EIO_SUPERBLOCK_START 8) with sb_region in E2. rewrite !bind_bind, bind_gets, Hd1, (inprog_present _ Hadd), bind_bind, (bind_run _ _ _ _ _ E2).
  assert (e = 0) as -> by (rewrite He, Ew1'; unfold next_res; cbn; by rewrite Hres).
  assert (Hd2 : cf_d w2 = d) by by rewrite Ew2. assert (Hfree : forall p, p ∈ [hp] -> p ∉ pg_live (cf_kmem w)).
  { destruct Hf as [_ _ F3]. intros p Hp. apply F3. apply list_elem_of_singleton in Hp as ->. apply elem_of_cons. by left. }
  cbn [Z.eqb negb]. rewrite bind_bind, bind_gets. cbn [negb andb].
  destruct (md_create_layout_ok w2 blk md_create_cold) as (f & r0 & d1 & Ei & Hp & Erun); rewrite ?Hd2; [done|by rewrite Ew2, Ew1'|done|done|].
  unfold bind at 1. rewrite Erun. clear Erun. rewrite Hd2 in *. specialize (H8 r0 f Ei).
  assert (Hd1s := laid_out_state d f d1). destruct (Hd1s 0 Hp H8) as (_ & Es & En).
  assert (Hsz : 0 <= dmc_size (create_layout d)) by (rewrite (mi_size _ Hpre), (mi_assoc _ Hpre); pose proof (mi_sets _ Hpre); pose proof (pow2_pos (consecutive_shift (create_layout d)) (mi_cs _ Hpre)); rewrite (mi_assoc _ Hpre) in *; nia).
  destruct (create_cold_run (conf_with d1 w2) pages sp l) as (w3 & E3 & Hsame3 & Hl3 & Hf3).
  - change (cf_d (conf_with d1 w2)) with d1. rewrite (inprog_kept _ _ (pol_only_status _ _ Hp)). by rewrite (inprog_kept _ _ (mem_init_status _ _ _ Ei)).
  - change (cf_d (conf_with d1 w2)) with d1. rewrite Es. intros i Hi. destruct (Hd1s i Hp H8) as [-> _]. by apply Hidle.
  - change (cf_d (conf_with d1 w2)) with d1. by rewrite Es.
  - rewrite Ew2, Ew1'. cbn. by rewrite Hres.
  - by rewrite Ew2, Ew1'.
  - apply (names_ok_ext w); [..|done]; by rewrite Ew2, Ew1'.
  - rewrite Ew2. destruct Hfr; by constructor.
  - done.
  - change (cf_d (conf_with d1 w2)) with d1. by rewrite En.
  - rewrite E3. destruct (put_back [hp] l (pg_live (cf_kmem w)) w3) as (w4 & E4 & Ew4 & _); [by apply NoDup_singleton|exact Hfree|rewrite Hl3, Ew2; exact Hlive|exact Hf3|].
    rewrite (bind_run _ _ _ _ _ E4). exists w4. split; [done|].
    transitivity w2; [rewrite Ew2, Ew1'; by eexists _, _|]. transitivity (conf_with d1 w2); [apply conf_same_cw|]. transitivity w3; [done|]. rewrite Ew4. by eexists (cf_cw w3), _; destruct w3.
Qed.

(** ** [eio_resume_caching] *)
Record cold_back (w : conf_world) (dev : list Z) (sd : ssd_dev) (hp : Z) (pages : list Z) (sp : Z) (l : list Z) : Prop := {
  cb_gone : gone_is false (mk_gone true false) (cf_d w);
  cb_stale : CACHE_STALE_IS_SET (cf_d w) = false;
  cb_same : same_ssd w sd;
  cb_idle : idle (seqZ 0 (dmc_size (cf_d w))) (cf_d w);
  cb_dev : (length dev < DEV_PATHLEN)%nat /\ Forall is_byte dev;
  cb_policy : exists dp, eio_policy_init true (cf_policies w) (cf_d w) = Some (0, dp);
  cb_names : names_ok w;
  cb_kmalloc : cf_kmalloc w = [];
  cb_fresh : fresh_pages (hp :: pages ++ sp :: l) w;
  cb_pages : pages <> [] /\ Z.of_nat (length pages) = Z.min (bio_nr_pages (eio_init_ssddev_props sd (cf_d w))) MD_MAX_NR_PAGES;
  cb_blk : exists blk, cf_blk w = Some blk;
  cb_res : cw_results (cf_cw w) = []
}.

Lemma resume_start_cold d : gone_is false (mk_gone true false) d -> CACHE_STALE_IS_SET d = false -> resume_start d = Some (true, set_flag CACHE_FLAGS_SSD_ADD_INPROG d).
Proof.
  intros [Ew [H1 H2 H3 H4 H5]] Hst. unfold resume_start, CACHE_FAILED_IS_SET, CACHE_DEGRADED_IS_SET, CACHE_SSD_ADD_INPROG_IS_SET. rewrite bind_gets. cbn [id].
  fold (write_back d). by rewrite Hst, Ew, H3, H4, H5.
Qed.

Lemma attached_cold w dev sd hp pages sp l r p (H : cold_back w dev sd hp pages sp l) :
  cold_env (attach_world dev sd (attached sd (cf_cache_size w) r p (set_flag CACHE_FLAGS_SSD_ADD_INPROG (cf_d w))) (conf_with (set_flag CACHE_FLAGS_SSD_ADD_INPROG (cf_d w)) w)) hp pages sp l.
Proof.
  destruct H as [_ _ Hsame Hidle [_ Hdev] _ [] Hk [F1 F2 F3] Hpages Hblk Hres]. destruct (attached_geom w sd Hsame r p) as [Hpre Hgeo]. pose proof (attached_layout w sd Hsame r p) as Hla.
  set (dA := attached sd (cf_cache_size w) r p (set_flag CACHE_FLAGS_SSD_ADD_INPROG (cf_d w))) in *.
  assert (H8 : EIO_MD8 dA = EIO_MD8 (cf_d w)) by exact (f_equal snd (inprog_geom (cf_d w))).
  constructor; try done.
  - apply attached_inprog.
  - change (cf_d (attach_world _ _ _ _)) with dA. rewrite Hla. change (idle (seqZ 0 (dmc_size (cf_d w))) dA). intros i Hi. rewrite <-(Hidle i Hi).
    unfold EIO_CACHE_STATE_GET. by rewrite H8.
  - intros r' f E. change (tst f CACHE_FLAGS_MD8 = EIO_MD8 dA). rewrite H8. exact (f_equal snd (Hgeo r' f E)).
  - exact (attached_room w sd Hsame r p).
Qed.

Lemma ctr_sets_cold w : cf_kmalloc w = [] -> exists d', ctr_sets w = Some (0, conf_with d' w) /\ status_kept (cf_d w) d'.
Proof.
  intros Hk. unfold ctr_sets. assert (E : conf_kmalloc w = Some (true, w)) by (unfold conf_kmalloc; by rewrite Hk). rewrite (bind_run _ _ _ _ _ E).
  destruct (sets_init_ok (policy_ops (cf_d w)) (cf_d w)) as (d1 & E1 & P1).
  rewrite (bind_run _ _ _ _ _ (conf_dmc_run' (fun d => eio_repl_sets_init (policy_ops d) true d) w 0 d1 E1)). cbn [Z.ltb Z.compare]. set (w1 := conf_with d1 w).
  destruct (pushblks_ok (policy_ops d1) d1) as (d2 & E2 & P2).
  rewrite (bind_run _ _ _ _ _ (conf_dmc_run' (fun d => eio_policy_lru_pushblks (policy_ops d) d) w1 tt d2 E2)). rewrite bind_gets. change (cf_d (conf_with d2 w1)) with d2.
  assert (P : status_kept (cf_d w) d2) by (apply pol_only_status; by etransitivity). destruct (negb _); cbn [when].
  - rewrite (bind_run _ _ _ _ _ (conf_dmc_run' (modify (set_stats no_stats)) (conf_with d2 w1) tt _ eq_refl)). by exists (set_stats no_stats d2).
  - by exists d2.
Qed.
Lemma resume_cold_run w dev sd hp pages sp l : cold_back w dev sd hp pages sp l -> Forall calm (cf_sleeps w) ->
  exists w', eio_resume_caching (Some dev) (Some sd) w = Some (tt, w') /\ gone_is false (mk_gone false false) (cf_d w') /\ no_blocks (cf_d w') /\ stats (cf_d w') = no_stats.
Proof.
  intros H Hsl. pose proof (cb_gone _ _ _ _ _ _ _ H) as Hg. assert (Hg' := Hg). destruct Hg' as [Ew Hgf].
  assert (G : exists w', eio_resume_caching (Some dev) (Some sd) w = Some (tt, w') /\ CACHE_DEGRADED_IS_SET (cf_d w') = false).
  2:{ destruct G as (w' & E & Hd). exists w'. split; [done|]. destruct (resume_empties w (Some dev) (Some sd) w' Hg Hsl E) as [[_ Hbad]|?]; [|done].
      pose proof (gf_degraded _ _ _ _ Hbad) as Hb. unfold CACHE_DEGRADED_IS_SET in Hd. by rewrite Hd in Hb. }
  set (d1 := set_flag CACHE_FLAGS_SSD_ADD_INPROG (cf_d w)). set (w1 := conf_with d1 w).
  unfold eio_resume_caching. assert (El : (DEV_PATHLEN <=? length dev)%nat = false) by (apply Nat.leb_gt, (cb_dev _ _ _ _ _ _ _ H)). rewrite El.
  rewrite (bind_run _ _ _ _ _ (conf_dmc_run' resume_start w true _ (resume_start_cold _ Hg (cb_stale _ _ _ _ _ _ _ H)))). cbn [negb]. fold d1. fold w1.
  pose proof (cb_same _ _ _ _ _ _ _ H) as Hsame. destruct (cb_policy _ _ _ _ _ _ _ H) as (dp & Hp). destruct (policy_init_again true (cf_policies w) (cf_d w) d1 dp eq_refl Hp) as (p1 & r1 & Ep).
  destruct (ctr_ssd_add_form w1 dev sd _ (gf_src _ _ _ _ Hgf) (cb_kmalloc _ _ _ _ _ _ _ H) (be_size _ _ Hsame) (be_start _ _ Hsame) Ep) as (rq & p & E1).
  destruct (md_create_cold_run _ hp pages sp l (attached_cold w dev sd hp pages sp l rq p H)) as (w2 & E2 & Hw2).
  change (mode (cf_d w1) =? CACHE_MODE_WB) with (write_back (cf_d w)) in E1. rewrite Ew in E1. cbn [negb] in E1. rewrite bind_bind, (bind_run _ _ _ _ _ E2) in E1. cbn [Z.eqb negb] in E1.
  destruct (k_md_create calm calm_status true true _ _ _ E2 Hsl) as [Hk2 _].
  assert (Hst : status_kept d1 (cf_d w2)) by (etransitivity; [apply (attached_status sd (cf_cache_size w) rq p d1)|exact Hk2]).
  destruct (ctr_sets_cold w2) as (d3 & E3 & Hst3).
  { destruct Hw2 as (c & k & ->). exact (cb_kmalloc _ _ _ _ _ _ _ H). }
  rewrite (bind_run _ _ _ _ _ E3) in E1. rewrite (bind_run _ _ _ _ _ E1).
  destruct (adding_flags false (mk_gone true false) (cf_d w) d3 Hg) as [Ew3 Hf3]; [by etransitivity|].
  destruct (resume_finish_ok false (mk_gone true false) d3 0 Ew3 eq_refl eq_refl Hf3) as (d' & Ef & Hd').
  exists (conf_with d' (conf_with d3 w2)). split; [exact (conf_dmc_run' (resume_finish 0) (conf_with d3 w2) tt d' Ef)|]. exact (gf_degraded _ _ _ _ (proj2 Hd')).
Qed.
