(* ===== verification/Notify.v ===== *)
(** * The removal of a SCSI device reaches its caches

    The notifier lists the caches of the device; the "events" thread suspends
    each of them, in order. *)

From S2P Require Import Prelude Types Mem Scan Policy World Dispatch Disk Clean CleanThread WbAlloc Superblock MdStore MdCreate Suspend Gone.

#[export] Instance dev_notifier_eq_dec : EqDecision dev_notifier. Proof. solve_decision. Defined.

(** what the notifier puts on the list *)
Fixpoint removals (name : list Z) (caches : list cache_names) : list removal :=
  match caches with
  | [] => []
  | c :: caches' =>
    match removal_note name c with
    | NOTIFY_INITIALIZER => removals name caches'
    | note => mk_removal (cn_dmc c) note :: removals name caches'
    end
  end.

Lemma notify_caches_ok name : forall caches w, rm_kmalloc w = [] -> exists w', notify_caches name caches w = Some (true, w') /\
  ssd_rm_list w' = ssd_rm_list w ++ removals name caches /\ rm_caches w' = rm_caches w /\ rm_kmalloc w' = [] /\
  ssd_rm_list_not_empty w' = ssd_rm_list_not_empty w || negb (Nat.eqb (length (removals name caches)) 0) /\ kcached_wq w' = kcached_wq w.
Proof.
  induction caches as [|c caches IH]; intros w Hk; cbn [notify_caches removals].
  { exists w. by rewrite app_nil_r, orb_false_r. }
  assert (Step : forall note, exists w',
    (ok <- rm_alloc ;; if negb ok then ret false else l <- gets ssd_rm_list ;; modify (set_rm_list (l ++ [mk_removal (cn_dmc c) note]) true) ;; notify_caches name caches) w = Some (true, w') /\
    ssd_rm_list w' = ssd_rm_list w ++ mk_removal (cn_dmc c) note :: removals name caches /\ rm_caches w' = rm_caches w /\ rm_kmalloc w' = [] /\ ssd_rm_list_not_empty w' = true /\ kcached_wq w' = kcached_wq w).
  { intros note. assert (E : rm_alloc w = Some (true, w)) by (unfold rm_alloc; by rewrite Hk). rewrite (bind_run _ _ _ _ _ E). cbn [negb]. rewrite bind_gets, bind_modify.
    destruct (IH (set_rm_list (ssd_rm_list w ++ [mk_removal (cn_dmc c) note]) true w) Hk) as (w' & E' & A1 & A2 & A3 & A4 & A5). exists w'. split; [done|].
    split; [|done]. rewrite A1. cbn [ssd_rm_list set_rm_list]. by rewrite <-app_assoc. }
  destruct (removal_note name c); [by apply IH|..]; cbn [length Nat.eqb negb]; rewrite orb_true_r; apply Step.
Qed.

(** [eio_suspend_caching] never fails on a cache whose flags are in order *)
Lemma suspend_runs wb s note d : gone_is wb s d -> exists d', eio_suspend_caching note d = Some (tt, d') /\ suspended d d' /\
  exists s', gone_is wb s' d' /\ (note = NOTIFY_SRC_REMOVED -> src_gone s' = true) /\ (note = NOTIFY_SSD_REMOVED -> ssd_gone s' || src_gone s' = true).
Proof.
  intros H. assert (Other : note <> NOTIFY_SRC_REMOVED -> note <> NOTIFY_SSD_REMOVED -> eio_suspend_caching note d = Some (tt, d)).
  { intros H1 H2. unfold eio_suspend_caching. rewrite bind_gets. cbn [id]. destruct (_ && _); [done|]. by destruct note. }
  destruct note; try (rewrite Other by done; exists d; split; [done|]; split; [done|]; exists s; done).
  - destruct (suspend_ssd_ok wb s d H) as (d' & E & Hd & Hg). exists d'. split; [done|]. split; [done|]. eexists. split; [exact Hg|]. split; [done|]. intros _. cbn.
    by destruct (ssd_gone s), wb, (src_gone s).
  - destruct (suspend_src_ok wb s d H) as (d' & E & Hd & Hg). exists d'. split; [done|]. split; [done|]. eexists. by split; [exact Hg|].
Qed.

Definition in_order (d : cache_c) : Prop := exists wb s, gone_is wb s d.
Lemma process_ok : forall l w, NoDup (map rm_dmc l) -> (forall x, x ∈ l -> exists d, rm_caches w !! rm_dmc x = Some d /\ in_order d) ->
  exists w', process_removals l w = Some (tt, w') /\ ssd_rm_list w' = [] /\ ssd_rm_list_not_empty w' = false /\
    (forall dmc, dmc ∉ map rm_dmc l -> rm_caches w' !! dmc = rm_caches w !! dmc) /\
    (forall x, x ∈ l -> exists d d', rm_caches w !! rm_dmc x = Some d /\ eio_suspend_caching (rm_note x) d = Some (tt, d') /\ rm_caches w' !! rm_dmc x = Some d').
Proof.
  induction l as [|x l IH]; intros w Hnd Hl; cbn [process_removals].
  { eexists. split; [reflexivity|]. split_and!; try done. by intros x ?%not_elem_of_nil. }
  cbn [map] in Hnd. apply NoDup_cons in Hnd as [Hx Hnd]. destruct (Hl x) as (d & Ed & wb & s & Hg); [apply elem_of_cons; by left|].
  destruct (suspend_runs wb s (rm_note x) d Hg) as (d' & Es & _). set (w1 := set_rm_caches (<[rm_dmc x := d']> (rm_caches w)) w).
  assert (E1 : on_rm_cache (rm_dmc x) (eio_suspend_caching (rm_note x)) w = Some (tt, w1)) by (unfold on_rm_cache; by rewrite Ed, Es).
  rewrite (bind_run _ _ _ _ _ E1). assert (Hne : forall y, y ∈ l -> rm_dmc y <> rm_dmc x).
  { intros y Hy E. apply Hx. rewrite <-E. apply list_elem_of_fmap. by exists y. }
  destruct (IH w1 Hnd) as (w' & E & A1 & A2 & A3 & A4).
  { intros y Hy. destruct (Hl y) as (dy & Ey & Hy'); [apply elem_of_cons; by right|]. exists dy. split; [|done]. cbn. by rewrite lookup_insert_ne by (intros Exy; by apply (Hne y)). }
  exists w'. split; [done|]. split; [done|]. split; [done|]. split.
  - intros dmc Hd. cbn [map] in Hd. apply not_elem_of_cons in Hd as [Hd1 Hd2]. rewrite A3 by done. cbn. by rewrite lookup_insert_ne.
  - intros y [->|Hy]%elem_of_cons.
    + exists d, d'. split; [done|]. split; [done|]. rewrite A3 by done. cbn. by rewrite lookup_insert_eq.
    + destruct (A4 y Hy) as (dy & dy' & B1 & B2 & B3). exists dy, dy'. split; [|done]. cbn in B1. by rewrite lookup_insert_ne in B1 by (intros Exy; by apply (Hne y)).
Qed.

Lemma removals_elem name caches x : x ∈ removals name caches -> exists c, c ∈ caches /\ rm_dmc x = cn_dmc c /\ rm_note x = removal_note name c /\ rm_note x <> NOTIFY_INITIALIZER.
Proof.
  induction caches as [|c caches IH]; cbn [removals]; [by intros ?%not_elem_of_nil|]. intros Hx.
  assert (G : x ∈ removals name caches \/ (x = mk_removal (cn_dmc c) (removal_note name c) /\ removal_note name c <> NOTIFY_INITIALIZER)).
  { destruct (removal_note name c); [by left|..]; apply elem_of_cons in Hx as [->|?]; auto. }
  destruct G as [H|[-> H]].
  - destruct (IH H) as (c' & H1 & H2). exists c'. split; [apply elem_of_cons; by right|done].
  - exists c. split; [apply elem_of_cons; by left|done].
Qed.
Lemma elem_removals name caches c : c ∈ caches -> removal_note name c <> NOTIFY_INITIALIZER -> mk_removal (cn_dmc c) (removal_note name c) ∈ removals name caches.
Proof.
  intros Hc Hn. induction caches as [|c' caches IH]; [by apply not_elem_of_nil in Hc|]. apply elem_of_cons in Hc as [<-|Hc]; cbn [removals].
  - destruct (removal_note name c); [done|..]; apply elem_of_cons; by left.
  - destruct (removal_note name c'); [by apply IH|..]; apply elem_of_cons; right; by apply IH.
Qed.
Lemma map_nodup_inj {A B} (f : A -> B) l x y : NoDup (map f l) -> x ∈ l -> y ∈ l -> f x = f y -> x = y.
Proof.
  induction l as [|z l IH]; [by intros _ ?%not_elem_of_nil|]. cbn [map]. intros [Hz Hnd]%NoDup_cons Hx Hy E.
  apply elem_of_cons in Hx as [->|Hx], Hy as [->|Hy]; [done|..|by apply IH]; exfalso; apply Hz.
  - rewrite E. by apply list_elem_of_fmap_2.
  - rewrite <-E. by apply list_elem_of_fmap_2.
Qed.
Lemma removals_nodup name caches : NoDup (map cn_dmc caches) -> NoDup (map rm_dmc (removals name caches)).
Proof.
  induction caches as [|c caches IH]; cbn [map removals]; [intros _; apply NoDup_nil_2|]. intros [Hc Hnd]%NoDup_cons.
  assert (G : forall note, NoDup (map rm_dmc (mk_removal (cn_dmc c) note :: removals name caches))).
  { intros note. cbn [map rm_dmc]. apply NoDup_cons. split; [|by apply IH]. intros (x & E & Hx)%list_elem_of_fmap. destruct (removals_elem _ _ _ Hx) as (c' & Hc' & E' & _).
    apply Hc. rewrite E, E'. apply list_elem_of_fmap. by exists c'. }
  destruct (removal_note name c); [by apply IH|..]; apply G.
Qed.

(** ** Names *)

(** a name and the longer ones that begin with it are not told apart *)
Lemma strn_eq_prefix : forall name rest, strn_eq (length name) name (name ++ rest) = true.
Proof. induction name as [|x name IH]; intros rest; [done|]. cbn [length strn_eq hd tail app]. rewrite Z.eqb_refl. cbn [negb]. destruct (x =? 0); [done|apply IH]. Qed.
Lemma note_prefix name rest c : hd 0 name <> 0 -> cache_srcdisk_name c = name ++ rest \/ cache_gendisk_name c = name ++ rest -> removal_note name c <> NOTIFY_INITIALIZER.
Proof.
  intros Hn H. assert (Hh : hd 0 (name ++ rest) = hd 0 name) by by destruct name.
  unfold removal_note. destruct H as [-> | ->]; rewrite Hh, (proj2 (Z.eqb_neq _ _) Hn), strn_eq_prefix; cbn [negb andb]; [done|by destruct (_ && _)].
Qed.
(** a name that differs within its length is not matched *)
Lemma strn_eq_exact : forall name n, Forall (fun x => x <> 0) name -> strn_eq (length name) name n = true -> exists rest, n = name ++ rest.
Proof.
  induction name as [|x name IH]; intros n Hx H; [by exists n|]. apply Forall_cons in Hx as [Hx Hxs]. cbn [length strn_eq hd tail] in H.
  destruct (Z.eqb_spec x (hd 0 n)) as [E|E]; cbn [negb] in H; [|done]. rewrite (proj2 (Z.eqb_neq _ _) Hx) in H.
  destruct n as [|y n]; [by cbn in E|]. cbn in E, H. subst y. destruct (IH n Hxs H) as (rest & ->). by exists rest.
Qed.

(** ** The notification and the work that follows *)
Definition told (name : list Z) (c : cache_names) (d d' : cache_c) : Prop :=
  match removal_note name c with
  | NOTIFY_INITIALIZER => d' = d
  | note => eio_suspend_caching note d = Some (tt, d') /\ suspended d d' /\ no_device d' = true
  end.

Lemma removal_handled name caches w : NoDup (map cn_dmc caches) -> rm_kmalloc w = [] -> ssd_rm_list w = [] -> ssd_rm_list_not_empty w = false ->
  (forall c, c ∈ caches -> exists d, rm_caches w !! cn_dmc c = Some d /\ in_order d) ->
  exists w1 w2, eio_notify_ssd_rm name caches w = Some (0, w1) /\ do_work_removals w1 = Some (tt, w2) /\ ssd_rm_list w2 = [] /\
    (kcached_wq w = false -> kcached_wq w1 = negb (Nat.eqb (length (removals name caches)) 0)) /\
    forall c, c ∈ caches -> exists d d', rm_caches w !! cn_dmc c = Some d /\ rm_caches w2 !! cn_dmc c = Some d' /\ told name c d d'.
Proof.
  intros Hnd Hk Hl Hf Hc. destruct (notify_caches_ok name caches w Hk) as (w1 & E1 & A1 & A2 & A3 & A4 & A5). rewrite Hl in A1. rewrite Hf in A4. cbn [app orb] in A1, A4.
  set (b := negb (Nat.eqb (length (removals name caches)) 0)) in *. set (w2 := if b then set_kcached_wq true w1 else w1).
  assert (E2 : eio_notify_ssd_rm name caches w = Some (0, w2)).
  { unfold eio_notify_ssd_rm. rewrite (bind_run _ _ _ _ _ E1). cbn [negb]. rewrite bind_gets, A4. unfold w2. by destruct b. }
  set (w3 := set_kcached_wq false w2). assert (Hc3 : rm_caches w3 = rm_caches w) by (unfold w3, w2; by destruct b).
  assert (Hl3 : ssd_rm_list w3 = removals name caches) by (unfold w3, w2; by destruct b).
  destruct (process_ok (removals name caches) w3) as (w4 & E4 & B1 & B2 & B3 & B4).
  { by apply removals_nodup. } { intros x Hx. destruct (removals_elem _ _ _ Hx) as (c & H1 & H2 & _). rewrite H2, Hc3. by apply Hc. }
  assert (E3 : exists w5, do_work_removals w2 = Some (tt, w5) /\ ssd_rm_list w5 = [] /\ rm_caches w5 = rm_caches w4).
  { unfold do_work_removals. rewrite bind_modify. fold w3. rewrite bind_gets. assert (Eb : ssd_rm_list_not_empty w3 = b) by (unfold w3, w2; destruct b; exact A4). rewrite Eb.
    destruct b eqn:E; cbn [when].
    - exists w4. split; [|done]. unfold eio_process_ssd_rm_list. rewrite bind_gets, Hl3. subst b. by destruct (removals name caches).
    - exists w3. split; [done|]. destruct (removals name caches) as [|x l]; [|done]. split; [done|]. cbn [process_removals] in E4. by injection E4 as <-. }
  destruct E3 as (w5 & E3 & C1 & C2). exists w2, w5. split; [done|]. split; [done|]. split; [done|]. split; [intros Hw; unfold w2; destruct b; [done|by rewrite A5]|].
  intros c Hin. destruct (Hc c Hin) as (d & Ed & wb & s & Hg). exists d. rewrite C2. unfold told. destruct (decide (removal_note name c = NOTIFY_INITIALIZER)) as [En|En].
  - exists d. split; [done|]. rewrite En. split; [|done]. rewrite B3, Hc3; [done|]. intros (x & Ex & Hx)%list_elem_of_fmap. destruct (removals_elem _ _ _ Hx) as (c' & H1 & H2 & H3 & H4).
    assert (c' = c) as -> by (apply (map_nodup_inj cn_dmc caches); [done|done|done|congruence]). congruence.
  - destruct (B4 _ (elem_removals name caches c Hin En)) as (d0 & d' & D1 & D2 & D3). cbn [rm_dmc rm_note] in *. rewrite Hc3, Ed in D1. injection D1 as <-.
    exists d'. split; [done|]. split; [done|]. destruct (suspend_runs wb s (removal_note name c) d Hg) as (d1 & F1 & F2 & s' & F3 & F4 & F5). rewrite F1 in D2. injection D2 as <-.
    assert (Hdev : no_device d1 = true).
    { rewrite (gone_active _ _ _ F3). unfold removal_note in *. destruct (negb _ && _); [rewrite F4 by done; apply orb_true_r|]. destruct (negb _ && _); [by apply F5|done]. }
    destruct (removal_note name c); [done|..]; done.
Qed.
