(* ===== verification/Concrete.v ===== *)
(** * A small cache

    A cache of 4 sets of 4 blocks of 4 KiB, initialised by the operations of
    the driver, on which the theorems of the other files are instantiated. *)

From S2P Require Import Prelude Types Mem DList SetLru Scan Fifo Rand Lru Policy Thresh Lookup SetSeq World Peek.

Definition ex_stats : eio_stats :=
  mk_stats 0 0 0 0 0 0 0 0 0 0 0 0 0 0 0 0 0 0 0 0 0 0 0 0 0 0 0 0 0 0 0 0.
Definition ex_errors : eio_errors := mk_errors 0 0 0 0 0 0 0.
Definition ex_sysctl : eio_sysctl := mk_sysctl 0 0 30 10 100 30 15 128 75 0 0 0.

(** before [eio_mem_init]; the source volume has [2^21] sectors *)
Definition ex_raw : cache_c := {|
  dmc_size := 16; assoc := 4; block_size := 8; block_shift := 3; consecutive_shift := 2;
  num_sets := 0; num_sets_bits := 0; num_sets_mask := 0;
  md_start_sect := 144; md_sectors := 160; disk_dev_size := 2 ^ 30; cache_dev_size := 2 ^ 20; cache_dev_start_sect := 0;
  bio_nr_pages := 4; mode := CACHE_MODE_WB; cache_rdonly := 0; cache_flags := 0; persistence := CACHE_CREATE; cold_boot := 0;
  sb_state := CACHE_MD_STATE_CLEAN; sb_version := EIO_SB_VERSION; req_policy := CACHE_REPL_LRU; policy_ops := None;
  sysctl_active := ex_sysctl; cache := ∅; cache_md8 := ∅; index_zero := 4; random := 0; sp_cache_blk := ∅; sp_cache_set := SpNull;
  cache_sets := foldl (fun m i => <[i := mk_cache_set 0 0 None]> m) ∅ (seqZ 0 4);
  nr_dirty := 0; nr_ios := 0; cleanq := []; clean_pendings := 0; clean_excess_dirty := 0; clean_index := 0;
  dirty_set_lru := None; is_clean_aged_sets_sched := 0; nr_jobs := 0; readfill_queue := []; readfill_in_prog := 0;
  size_hist := ∅; stats := ex_stats; errors := ex_errors |}.

(** the same with [2^15] sets, which uses the compressed metadata *)
Definition ex_raw4 : cache_c := {| ex_raw with dmc_size := 2 ^ 17 |}.

(** runs an operation whose result is not needed *)
Definition run {A} (m : M cache_c A) (d : cache_c) : cache_c :=
  match m d with Some (_, d') => d' | None => d end.

Definition ex_geom : cache_c := run eio_mem_init ex_raw.
Definition ex_geom4 : cache_c := run eio_mem_init ex_raw4.
(** all blocks invalid *)
Definition ex_md : cache_c := foldl eio_invalidate_md ex_geom (seqZ 0 16).
Definition ex_fifo : cache_c := set_policy_ops (Some PolFifo) (run (eio_fifo_cache_sets_init true) ex_md).
Definition ex_lru : cache_c := set_policy_ops (Some PolLru) (eio_lru_pushblks (run (eio_lru_cache_sets_init true) ex_md)).
Definition ex_rand : cache_c := set_policy_ops (Some PolRand) ex_md.
(** a write-back cache with its list of dirty sets *)
Definition ex_cache : cache_c :=
  set_dirty_set_lru (match lru_init true 4 with Some (_, l) => l | None => None end) ex_lru.

Lemma ex_raw_pre : mem_init_pre ex_raw.
Proof. split; [constructor|]; vm_compute; intuition discriminate. Qed.
Lemma ex_raw4_pre : mem_init_pre ex_raw4.
Proof. split; [constructor|]; vm_compute; intuition discriminate. Qed.

Lemma ex_geom_wf : wf_geom ex_geom.
Proof. constructor; vm_compute; intuition discriminate. Qed.
Lemma ex_geom4_wf : wf_geom ex_geom4.
Proof. constructor; vm_compute; intuition discriminate. Qed.

Lemma elem_of_16 i : 0 <= i < 16 -> i ∈ seqZ 0 16.
Proof. rewrite elem_of_seqZ. lia. Qed.

Lemma ex_md_dom i : i ∈ md_dom ex_md <-> 0 <= i < 16.
Proof.
  replace (md_dom ex_md) with (list_to_set (seqZ 0 16) : gset Z).
  - rewrite elem_of_list_to_set, elem_of_seqZ. done.
  - apply set_eq. intros x. vm_compute md_dom. set_solver by lia.
Qed.

Lemma ex_md_state i : 0 <= i < 16 -> EIO_CACHE_STATE_GET ex_md i = INVALID.
Proof.
  intros Hi. assert (H : forallb (fun i => EIO_CACHE_STATE_GET ex_md i =? INVALID) (seqZ 0 16) = true) by by vm_compute.
  rewrite forallb_forall in H. apply Z.eqb_eq, H, list_elem_of_In, elem_of_16, Hi.
Qed.

Lemma ex_md_geom : geom ex_md = geom ex_geom.
Proof. by vm_compute. Qed.

Lemma ex_md_inv : blk_inv ex_md.
Proof.
  apply blank_blk_inv.
  - exact (wf_geom_eq _ _ ex_md_geom ex_geom_wf).
  - by vm_compute.
  - exact ex_md_dom.
  - exact ex_md_state.
Qed.

Lemma ex_fifo_inv : policy_inv ex_fifo.
Proof.
  destruct (fifo_sets_init_inv ex_md (bi_geom _ ex_md_inv)) as (d' & E & (m & Hm & H) & Hg).
  exists PolFifo. split; [done|].
  unfold ex_fifo, run. rewrite E. exists m. split; [exact Hm|]. exact H.
Qed.

Lemma ex_lru_only : lru_only ex_md (eio_lru_pushblks (run (eio_lru_cache_sets_init true) ex_md)) /\
  lru_inv (eio_lru_pushblks (run (eio_lru_cache_sets_init true) ex_md)).
Proof.
  destruct (lru_pushblks_inv ex_md (bi_geom _ ex_md_inv)) as (d1 & E & Hi & Ho & _); [by vm_compute|by vm_compute|].
  unfold run. rewrite E. done.
Qed.

Lemma ex_lru_inv : policy_inv ex_lru.
Proof.
  destruct ex_lru_only as [_ Hi]. unfold ex_lru. revert Hi. generalize (eio_lru_pushblks (run (eio_lru_cache_sets_init true) ex_md)).
  intros d Hi. exists PolLru. split; [done|]. by apply (lru_inv_ext d).
Qed.

(** only the policy's data and the list of dirty sets were added to [ex_md] *)
Lemma ex_cache_eq : exists b m l, ex_cache =
  set_dirty_set_lru l (set_policy_ops (Some PolLru) (set_sp_cache_set m (set_sp_cache_blk b ex_md))) /\
  l = match lru_init true 4 with Some (_, l) => l | None => None end.
Proof.
  destruct ex_lru_only as [(b & m & E) _]. exists b, m. eexists. split; [|done].
  unfold ex_cache, ex_lru. by rewrite E.
Qed.

Lemma ex_cache_same : same_md ex_md ex_cache.
Proof. destruct ex_cache_eq as (b & m & l & -> & _). generalize ex_md. done. Qed.

Lemma ex_cache_policy : policy_inv ex_cache.
Proof. unfold ex_cache. generalize ex_lru ex_lru_inv. intros d. by apply policy_inv_same. Qed.

Lemma ex_md_cleanq : cleanq_inv [] ex_md.
Proof.
  assert (Eq : cleanq ex_md = []) by by vm_compute. constructor; rewrite Eq; cbn [app].
  - constructor.
  - intros s Hs. destruct (not_elem_of_nil s Hs).
  - intros s Hs. assert (H : forallb (fun s => negb (tst (cs_flags (cache_sets ex_md !!! s)) SETFLAG_CLEAN_INPROG)) (seqZ 0 4) = true) by by vm_compute.
    rewrite forallb_forall in H. specialize (H s). rewrite <-list_elem_of_In, elem_of_seqZ, negb_true_iff in H.
    replace (num_sets ex_md) with 4 in Hs by by vm_compute. rewrite H by lia. split; [discriminate|]. intros Hs'. destruct (not_elem_of_nil s Hs').
  - by vm_compute.
Qed.

Lemma ex_cache_inv : cache_inv [] ex_cache.
Proof.
  pose proof (blk_inv_same _ _ ex_cache_same ex_md_inv) as Hb. pose proof ex_cache_policy as Hp.
  pose proof ex_md_cleanq as Hq. assert (Hs : dmc_size ex_md < 2 ^ 31) by by vm_compute.
  assert (Hn : num_sets ex_md = 4) by by vm_compute.
  destruct (lru_init_rep 4) as (l & El & Hr & Hm); [lia|].
  destruct ex_cache_eq as (b & m & l' & E & El'). rewrite El in El'. rewrite E in *. clear E. subst l'.
  revert Hb Hp Hq Hs Hn. generalize ex_md. intros d Hb Hp Hq Hs Hn. constructor; try done.
  - by eapply cleanq_inv_ext; [..|exact Hq].
  - intros _. exists l, []. split_and!; [done|done|]. rewrite Hm. by rewrite <-Hn.
Qed.
