(* ===== verification/CleanConcrete.v ===== *)
(** * A small write-back cache to clean

    Two sets of 32 blocks of 4 KiB, one block dirty, with its devices and the
    buffers of the clean. *)

From S2P Require Import Prelude Types Mem DList SetLru Scan Rand Policy Thresh Lookup World Dispatch Disk Clean CleanIo CleanState CleanSet CleanThread WbAlloc Concrete.

(** ** Deciding the invariant of a given cache *)
Definition dbn_okb (d : cache_c) (b : Z) : bool :=
  (0 <=? b) && if EIO_MD8 d then b <? 2 ^ EIO_MD8_DBN_BITS else (b <? md4_limit d) && (b <? EIO_MAX_SECTOR).
Definition blk_okb (d : cache_c) (i : Z) : bool :=
  let s := EIO_CACHE_STATE_GET d i in
  (s =? INVALID) ||
  ((Z.land s 3 =? VALID) &&
   match EIO_DBN_GET d i with
   | Some b => dbn_okb d b && (b mod block_size d =? 0) && (dbn_set d b =? i / assoc d) &&
       forallb (fun j => (EIO_CACHE_STATE_GET d j =? INVALID) || negb (bool_decide (EIO_DBN_GET d j = Some b)) || (i =? j)) (all_blocks d)
   | None => false
   end).

Lemma dbn_okb_ok d b : dbn_okb d b = true -> dbn_ok d b.
Proof.
  unfold dbn_okb, dbn_ok. intros [H1%Z.leb_le H2]%andb_true_iff. split; [done|].
  destruct (EIO_MD8 d); [by apply Z.ltb_lt|]. apply andb_true_iff in H2 as [H2%Z.ltb_lt H3%Z.ltb_lt]. done.
Qed.

Lemma blk_okb_inv d : wf_geom d -> wf_zero d -> (forall i, i ∈ md_dom d <-> 0 <= i < dmc_size d) ->
  forallb (blk_okb d) (all_blocks d) = true -> blk_inv d.
Proof.
  intros Hg Hz Hd Hb. rewrite forallb_forall in Hb.
  assert (Hin : forall i, 0 <= i < dmc_size d -> In i (all_blocks d)) by (intros i Hi; apply list_elem_of_In, elem_of_seqZ; lia).
  assert (Hblk : forall i, 0 <= i < dmc_size d -> EIO_CACHE_STATE_GET d i = INVALID \/
    (Z.land (EIO_CACHE_STATE_GET d i) 3 = VALID /\ exists b, EIO_DBN_GET d i = Some b /\ dbn_ok d b /\ (block_size d | b) /\ dbn_set d b = i / assoc d /\
      forall j, 0 <= j < dmc_size d -> EIO_CACHE_STATE_GET d j <> INVALID -> EIO_DBN_GET d j = Some b -> i = j)).
  { intros i Hi. specialize (Hb i (Hin i Hi)). unfold blk_okb in Hb. apply orb_true_iff in Hb as [Hb%Z.eqb_eq|Hb]; [by left|right].
    apply andb_true_iff in Hb as [H1%Z.eqb_eq Hb]. split; [done|]. destruct (EIO_DBN_GET d i) as [b|]; [|done]. exists b.
    rewrite !andb_true_iff in Hb. destruct Hb as (((H2%dbn_okb_ok & H3%Z.eqb_eq) & H4%Z.eqb_eq) & H5). split_and!; try done.
    - apply Z.mod_divide; [|done]. pose proof (block_size_pos d Hg). lia.
    - intros j Hj Hs Ej. rewrite forallb_forall in H5. specialize (H5 j (Hin j Hj)). rewrite !orb_true_iff in H5.
      destruct H5 as [[H5%Z.eqb_eq|H5]|H5%Z.eqb_eq]; [done| |done]. by rewrite Ej, bool_decide_true in H5. }
  constructor; try done.
  - intros i Hi. destruct (Hblk i Hi) as [H|[H _]]; [by left|by right].
  - intros i Hi Hne. destruct (Hblk i Hi) as [H|(_ & b & H1 & H2 & H3 & H4 & _)]; [done|eauto].
  - intros i j Hi Hj Hsi Hsj E. destruct (Hblk i Hi) as [H|(_ & b & H1 & _ & _ & _ & H5)]; [done|].
    apply H5; [done|done|]. by rewrite <-E.
Qed.

(** ** The cache *)
Definition cl_raw : cache_c := {| ex_raw with dmc_size := 64; assoc := 32; consecutive_shift := 5; index_zero := 32;
  policy_ops := Some PolRand; nr_dirty := 1;
  cache_sets := <[0 := mk_cache_set 1 0 None]> (<[1 := mk_cache_set 0 0 None]> ∅) |}.
Definition cl_geom : cache_c := run eio_mem_init cl_raw.
(** block 3 caches sectors 16 to 23, and is dirty *)
Definition cl_md : cache_c :=
  EIO_CACHE_STATE_SET (run (fun d => match EIO_DBN_SET d 3 16 with Some d => Some (tt, d) | None => None end)
    (foldl eio_invalidate_md cl_geom (seqZ 0 64))) 3 ALREADY_DIRTY.
Definition cl_cache : cache_c :=
  set_dirty_set_lru (match lru_init true 2 with Some (_, l) => l | None => None end) cl_md.

Lemma cl_raw_pre : mem_init_pre cl_raw.
Proof. split; [constructor|]; vm_compute; intuition discriminate. Qed.
Lemma cl_md_wf : wf_geom cl_md.
Proof. constructor; vm_compute; intuition discriminate. Qed.
Lemma cl_md_size : dmc_size cl_md = 64 /\ num_sets cl_md = 2 /\ EIO_CACHE_STATE_GET cl_md 3 = ALREADY_DIRTY /\ EIO_DBN_GET cl_md 3 = Some 16.
Proof. split_and!; by vm_compute. Qed.

Lemma cl_md_dom i : i ∈ md_dom cl_md <-> 0 <= i < dmc_size cl_md.
Proof.
  replace (md_dom cl_md) with (list_to_set (seqZ 0 64) : gset Z).
  - rewrite elem_of_list_to_set, elem_of_seqZ. done.
  - assert (E : bool_decide (md_dom cl_md = list_to_set (seqZ 0 64)) = true) by by vm_compute.
    symmetry. by apply bool_decide_eq_true in E.
Qed.

Lemma cl_md_inv : blk_inv cl_md.
Proof. apply blk_okb_inv; [exact cl_md_wf|split; by vm_compute|exact cl_md_dom|by vm_compute]. Qed.

Lemma cl_cache_eq : exists l, lru_init true 2 = Some (0, Some l) /\ cl_cache = set_dirty_set_lru (Some l) cl_md /\ lru_rep l [] /\ ll_max l = 2.
Proof.
  destruct (lru_init_rep 2) as (l & E & H1 & H2); [lia|]. exists l. split_and!; [done| |done|done]. unfold cl_cache. by rewrite E.
Qed.

(** ** Its devices and buffers *)
Definition cl_entries : list flash_cacheblock :=
  map (fun i => if i =? 3 then mk_flash 16 (Z.lor VALID DIRTY) else mk_flash 0 INVALID) (seqZ 0 32).
Definition cl_disks : disks :=
  mk_disks (<[144 := md_sector cl_entries 0]> (<[145 := MdBlocks (replicate 32 (mk_flash 0 INVALID))]>
              (foldl (fun m o => <[160 + 3 * 8 + o := Raw (1000 + o)]> m) ∅ (seqZ 0 8))))
           (foldl (fun m s => <[s := Raw s]> m) ∅ (seqZ 0 64)).
Definition cl_vecs : list bio_vec := wb_vecs BLKSIZE_4K (seqZ 1 32).
Definition cl_pages : list Z := [100].
(** the second transfer fails, after two sectors *)
Definition cl_results : list io_result := [IoOk; IoFailed 5 {[16; 17]}].
Definition cl_world : cworld := mk_cworld cl_cache cl_disks ∅ cl_vecs cl_pages cl_results [].

Definition flash_okb (d : cache_c) (k : disks) (i : Z) : bool :=
  match flash_entry d k i with
  | Some f => if tst (fc_state f) DIRTY then tst (EIO_CACHE_STATE_GET d i) DIRTY && bool_decide (EIO_DBN_GET d i = Some (fc_dbn f))
              else negb (tst (EIO_CACHE_STATE_GET d i) DIRTY)
  | None => false
  end.
Lemma flash_okb_sound d k set : forallb (flash_okb d k) (set_blocks d set) = true -> flash_sound d k set.
Proof.
  intros H i Hi%list_elem_of_In. rewrite forallb_forall in H. specialize (H i Hi). unfold flash_okb in H.
  destruct (flash_entry d k i) as [f|] eqn:E; [|done]. exists f. unfold is_dirty. split; [done|].
  destruct (tst (fc_state f) DIRTY).
  - apply andb_true_iff in H as [H1 H2%bool_decide_eq_true]. done.
  - apply negb_true_iff in H. rewrite H. done.
Qed.

Lemma cl_set s : 0 <= s < 2 -> s = 0 \/ s = 1.
Proof. lia. Qed.

Lemma cl_globals : clean_globals cl_world.
Proof.
  destruct cl_cache_eq as (l & _ & E & Hl & Hm). unfold cl_world. rewrite E. clear E. constructor; cbn [cw_d clean_dbvecs clean_mdpages cw_results].
  - apply (blk_inv_same cl_md); [done|exact cl_md_inv].
  - exists PolRand. split; [by vm_compute|done].
  - apply (bufs_ok_geom cl_md); [done|]. apply (wb_vecs_bufs cl_md); [right; by left|apply NoDup_seqZ|by vm_compute].
  - constructor; [exists 1|..]; by vm_compute.
  - split; [repeat constructor; by intros ?%not_elem_of_nil|by vm_compute].
  - exists l, []. done.
  - by vm_compute.
  - by vm_compute.
  - repeat constructor. discriminate.
Qed.

Definition ready_okb (d : cache_c) (k : disks) (s : Z) : bool :=
  forallb (fun i => (negb (tst (EIO_CACHE_STATE_GET d i) DIRTY) || (EIO_CACHE_STATE_GET d i =? ALREADY_DIRTY)) &&
    match EIO_DBN_GET d i with Some _ => true | None => false end && flash_okb d k i) (set_blocks d s) &&
  (cs_nr_dirty (cache_sets d !!! s) =? count_dirty d (set_blocks d s)).
Lemma ready_okb_ok w s : ready_okb (cw_d w) (cw_k w) s = true -> set_ready w s.
Proof.
  intros [H1 H2%Z.eqb_eq]%andb_true_iff. rewrite forallb_forall in H1.
  assert (H : forall i, i ∈ set_blocks (cw_d w) s -> (negb (tst (EIO_CACHE_STATE_GET (cw_d w) i) DIRTY) || (EIO_CACHE_STATE_GET (cw_d w) i =? ALREADY_DIRTY)) = true /\
    is_Some (EIO_DBN_GET (cw_d w) i) /\ flash_okb (cw_d w) (cw_k w) i = true).
  { intros i Hi%list_elem_of_In. specialize (H1 i Hi). rewrite !andb_true_iff in H1. destruct H1 as ((A & B) & C). split_and!; [done| |done].
    destruct (EIO_DBN_GET (cw_d w) i); [by eexists|done]. }
  constructor; [|intros i Hi; by apply H|done|].
  - intros i Hi Hd. destruct (H i Hi) as (A & _). apply orb_true_iff in A as [A%negb_true_iff|A%Z.eqb_eq]; [congruence|done].
  - apply flash_okb_sound, forallb_forall. intros i Hi%list_elem_of_In. by apply H.
Qed.

Lemma cl_ready : all_ready cl_world.
Proof.
  destruct cl_cache_eq as (l & _ & E & _). unfold cl_world. rewrite E. clear E. intros s Hs. apply ready_okb_ok.
  change (0 <= s < num_sets cl_md) in Hs. destruct cl_md_size as (_ & E & _). rewrite E in Hs.
  destruct (cl_set s Hs) as [->| ->]; by vm_compute.
Qed.

(** nothing is queued for cleaning *)
Lemma cl_md_cleanq : cleanq_inv [] cl_md.
Proof.
  assert (Eq : cleanq cl_md = []) by by vm_compute. destruct cl_md_size as (_ & En & _).
  assert (Ef : forall s, 0 <= s < 2 -> tst (cs_flags (cache_sets cl_md !!! s)) SETFLAG_CLEAN_INPROG = false)
    by (intros s Hs; destruct (cl_set s Hs) as [->| ->]; by vm_compute).
  assert (Ep : clean_pendings cl_md = 0) by by vm_compute.
  revert Eq En Ef Ep. generalize cl_md. intros d Eq En Ef Ep.
  constructor; rewrite ?Eq, ?En, ?Ep; cbn [app]; [constructor|by intros s ?%not_elem_of_nil| |done].
  intros s Hs. rewrite Ef by done. split; [done|by intros ?%not_elem_of_nil].
Qed.

(** the same cache with devices that work *)
Definition no_failures (w : cworld) : cworld := mk_cworld (cw_d w) (cw_k w) (cw_mem w) (clean_dbvecs w) (clean_mdpages w) [] (cw_trace w).
Lemma no_failures_ok w : clean_globals w -> all_ready w -> clean_globals (no_failures w) /\ all_ready (no_failures w).
Proof.
  intros [A1 A2 A3 A4 A5 A6 A7 A8 A9] Hr. split; [by constructor|]. intros s Hs. destruct (Hr s Hs). by constructor.
Qed.
Lemma cl_mode : mode (cw_d cl_world) = CACHE_MODE_WB.
Proof. destruct cl_cache_eq as (l & _ & E & _). unfold cl_world. cbn [cw_d]. rewrite E. by vm_compute. Qed.
