(* ===== verification/IoConcrete.v ===== *)
(** * A metadata update on the small write-back cache

    Block 5 is being dirtied by the bio at address 1, whose data is on the SSD;
    the request of set 0, at address 1, covers it.

    ** The I/O path on the small write-back cache

    Two sets of 32 blocks of 4 KB; block 3 is dirty and holds the sectors
    16..23 of the volume.  A bio, at address 1, writes the pages 300 and 301. *)

From S2P Require Import Prelude Types Mem DList SetLru Scan Rand Policy Thresh Lookup SetSeq World Dispatch Disk Clean CleanIo CleanState CleanSet CleanThread WbAlloc IoWorld MdUpdate MdWrite MdDo Refs MdFlow Concrete CleanConcrete IoPath IoMap Split Mapping Hits.

(** * A metadata update on the small write-back cache *)
#[export] Instance md_kernel : Kernel := { jiffies_to_msecs := fun j => j; stale_sector := 0; stale_bvec := fun _ => mk_bvec 7 7 7 }.

Definition md_cache : cache_c :=
  set_cs_mdreq 0 (Some 1)
    (EIO_CACHE_STATE_SET (run (fun d => match EIO_DBN_SET d 5 32 with Some d => Some (tt, d) | None => None end)
       (EIO_CACHE_STATE_SET cl_md 5 VALID)) 5 DIRTY_INPROG).
Definition md_lru_cache : cache_c :=
  set_dirty_set_lru (match lru_init true 2 with Some (_, l) => l | None => None end) md_cache.

Lemma md_cache_wf : wf_geom md_cache.
Proof. constructor; vm_compute; intuition discriminate. Qed.
Lemma md_cache_dom i : i ∈ md_dom md_cache <-> 0 <= i < dmc_size md_cache.
Proof.
  replace (md_dom md_cache) with (list_to_set (seqZ 0 64) : gset Z).
  - rewrite elem_of_list_to_set, elem_of_seqZ. done.
  - assert (E : bool_decide (md_dom md_cache = list_to_set (seqZ 0 64)) = true) by by vm_compute.
    symmetry. by apply bool_decide_eq_true in E.
Qed.
Lemma md_cache_inv : blk_inv md_cache.
Proof. apply blk_okb_inv; [exact md_cache_wf|split; by vm_compute|exact md_cache_dom|by vm_compute]. Qed.

(** ** The objects *)
Definition md_bio : bio := mk_bio 32 4096 1 [mk_bvec 300 4096 0] WRITE false 0.
Definition md_ebio : eio_bio := mk_ebio EB_MAIN_IO 1 0 32 4096 [mk_bvec 300 4096 0] WRITE [] 5 1.
Definition md_bc : bio_container := mk_bc 1 1 [] 0 [] [mk_seq 0 0] CACHED_WRITE 0 7.
Definition md_req : mdupdate_request := mk_mdreq 0 [mk_bvec 200 4096 0] 0 [1] [] 0.
Definition md_kmem0 : kmem := mk_kmem {[500]} [].

(** the data of block 5 on the SSD *)
Definition md_disks : disks :=
  mk_disks (foldl (fun m o => <[160 + 5 * 8 + o := Raw (2000 + o)]> m) (on_ssd cl_disks) (seqZ 0 8)) (on_hdd cl_disks).

Definition md_world (d : cache_c) (r : mdupdate_request) (results : list io_result) : io_world := {|
  io_cw := mk_cworld d md_disks ∅ [] [] results [];
  io_kmem := mk_kmem {[200; 500]} []; io_kmalloc := [];
  bios := {[1 := md_bio]}; bcs := {[1 := md_bc]}; ebios := {[1 := md_ebio]}; jobs := ∅; mdreqs := {[1 := r]};
  md_queue := []; callback_q := []; disk_read_jobs := []; scheduled := []; completions := []; readers := {[0 := 1]}; bio_ended := [] |}.
Definition md_start (results : list io_result) : io_world := md_world md_lru_cache md_req results.

Definition md_okb (d : cache_c) (k : disks) (i : Z) : bool :=
  match flash_entry d k i with
  | Some f => if tst (fc_state f) DIRTY then committed d i && bool_decide (EIO_DBN_GET d i = Some (fc_dbn f)) else negb (committed d i)
  | None => false
  end.
Lemma md_okb_sound d k set : forallb (md_okb d k) (set_blocks d set) = true -> sound_for (committed d) d k set.
Proof.
  intros H i Hi%list_elem_of_In. rewrite forallb_forall in H. specialize (H i Hi). unfold md_okb in H.
  destruct (flash_entry d k i) as [f|] eqn:E; [|done]. exists f. split; [done|].
  destruct (tst (fc_state f) DIRTY).
  - apply andb_true_iff in H as [H1 H2%bool_decide_eq_true]. done.
  - apply negb_true_iff in H. rewrite H. done.
Qed.

(** the facts about the cache that are decided by evaluation *)
Lemma md_cache_facts :
  dmc_size md_cache = 64 /\ num_sets md_cache = 2 /\ mode md_cache = CACHE_MODE_WB /\ cleanq md_cache = [] /\ clean_pendings md_cache = 0 /\
  set_blocks md_cache 0 = seqZ 0 32 /\ EIO_CACHE_STATE_GET md_cache 5 = DIRTY_INPROG.
Proof. split_and!; by vm_compute. Qed.

Lemma md_sound s : 0 <= s < 2 -> sound_for (committed md_cache) md_cache md_disks s.
Proof. intros Hs. apply md_okb_sound. destruct (cl_set s Hs) as [->| ->]; by vm_compute. Qed.

Lemma md_counted : nr_counted md_cache 0.
Proof. constructor; by vm_compute. Qed.

Lemma md_cleanq : cleanq_inv [] md_cache.
Proof.
  assert (Ef : forall s, 0 <= s < 2 -> tst (cs_flags (cache_sets md_cache !!! s)) SETFLAG_CLEAN_INPROG = false)
    by (intros s Hs; destruct (cl_set s Hs) as [->| ->]; by vm_compute).
  destruct md_cache_facts as (_ & En & _ & Eq & Ep & _). revert Ef En Eq Ep. generalize md_cache. intros d Ef En Eq Ep.
  constructor; rewrite ?Eq, ?En, ?Ep; cbn [app]; [constructor|by intros s ?%not_elem_of_nil| |done].
  intros s Hs. rewrite Ef by done. split; [done|by intros ?%not_elem_of_nil].
Qed.

Lemma md_readable i : i ∈ set_blocks md_cache 0 -> is_Some (EIO_DBN_GET md_cache i).
Proof.
  destruct md_cache_facts as (_ & _ & _ & _ & _ & E & _). rewrite E. intros Hi%list_elem_of_In.
  assert (H : forallb (fun i => match EIO_DBN_GET md_cache i with Some _ => true | None => false end) (seqZ 0 32) = true) by by vm_compute.
  rewrite forallb_forall in H. specialize (H i Hi). by destruct (EIO_DBN_GET md_cache i); [eexists|].
Qed.

(** ** The hypotheses of an update, for any cache with these facts *)
Lemma lookup_one {A} (k : Z) (x y : A) j : ({[k := x]} : gmap Z A) !! j = Some y -> j = k /\ y = x.
Proof. intros [<- <-]%lookup_singleton_Some. done. Qed.

Lemma md_grown : grown md_kmem0 [200] (mk_kmem {[200; 500]} []).
Proof.
  constructor; cbn.
  - set_solver.
  - repeat constructor. by intros ?%not_elem_of_nil.
  - intros p ->%list_elem_of_singleton. split; [set_solver|done].
  - split; [repeat constructor; by intros ?%not_elem_of_nil|by intros p ?%not_elem_of_nil].
Qed.

Lemma md_refs d r results : req_pages r = [200] -> refs_ok md_kmem0 (fun _ => 0) (md_world d r results).
Proof.
  intros Hr.
  assert (Hb : forall b c, bcs (md_world d r results) !! b = Some c -> b = 1 /\ c = md_bc) by (intros b c; apply lookup_one).
  constructor; [constructor|..]; cbn [bios readers mdreqs io_kmem ebios md_world].
  - intros b c [-> ->]%Hb. by eexists.
  - intros b b' c c' [-> ->]%Hb [-> ->]%Hb. done.
  - intros _ s. change (bcs (md_world d r results)) with (<[1 := md_bc]> (∅ : gmap Z bio_container)).
    rewrite msum_insert, msum_empty by apply lookup_empty. change (set_locks s md_bc) with (occ s [0]). rewrite occ_cons. cbn [occ List.filter length Z.of_nat].
    destruct (Z.eqb_spec s 0) as [->|]; [done|]. rewrite lookup_singleton_ne by done. done.
  - intros b c m [-> ->]%Hb ?%not_elem_of_nil. done.
  - intros b c [-> ->]%Hb. constructor.
  - intros b b' c c' m [-> ->]%Hb [-> ->]%Hb. done.
  - change (all_pages (md_world d r results)) with (req_pages r ++ []). rewrite Hr. exact md_grown.
  - intros e eb [-> ->]%lookup_one. by eexists.
  - intros b. split; [done|]. lia.
  - intros b c [-> ->]%Hb. change ({[1 := md_ebio]} : gmap Z eio_bio) with (<[1 := md_ebio]> (∅ : gmap Z eio_bio)).
    rewrite msum_insert, msum_empty by apply lookup_empty. cbn. lia.
Qed.

(** the same update after its writes *)
Definition md_req_ended : mdupdate_request := mk_mdreq 0 [mk_bvec 200 512 0] 0 [] [1] 0.
Definition md_ended : io_world := md_world md_lru_cache md_req_ended [].

Lemma md_lru_facts : exists l, md_lru_cache = set_dirty_set_lru (Some l) md_cache /\ lru_rep l [] /\ ll_max l = 2.
Proof.
  destruct (lru_init_rep 2) as (l & El & Hl & Hm); [lia|]. exists l. unfold md_lru_cache. by rewrite El.
Qed.

Lemma md_ended_ok : post_ready md_kmem0 (fun _ => 0) [] md_ended 1 md_req_ended [5].
Proof.
  destruct md_lru_facts as (l & El & Hl & Hm). destruct md_cache_facts as (F1 & F2 & F3 & _ & _ & F6 & F7).
  pose proof md_cache_inv as B. pose proof md_counted as Ct. pose proof md_cleanq as Cq.
  unfold md_ended. rewrite El. clear El. revert F1 F2 F3 F6 F7 B Ct Cq. generalize md_cache. intros d F1 F2 F3 F6 F7 B Ct Cq.
  set (dl := set_dirty_set_lru (Some l) d). assert (S1 : same_md d dl) by done.
  constructor; try done; cbn [io_d io_cw cw_d md_world].
  - by apply (blk_inv_same d).
  - change (0 <= 0 < num_sets d). lia.
  - change (dmc_size dl) with (dmc_size d). change (num_sets dl) with (num_sets d). lia.
  - destruct Ct as [C1 C2]. constructor; [etransitivity; [exact C1|]|etransitivity; [exact C2|]]; symmetry; by apply count_blocks_ext.
  - split; [done|]. intros [|k] e; [intros [= <-]; reflexivity|done].
  - split; repeat constructor; by intros ?%not_elem_of_nil.
  - intros i ->%list_elem_of_singleton. split; [|exact F7]. change (5 ∈ set_blocks d 0). rewrite F6. apply elem_of_seqZ. lia.
  - intros e eb ->%list_elem_of_singleton [_ ->]%lookup_one. done.
  - by apply md_refs.
  - intros b c [-> ->]%lookup_one. by intros ?%not_elem_of_nil.
  - by eapply cleanq_inv_ext; [..|exact Cq].
  - exists l, []. split_and!; [done|done|]. change (num_sets dl) with (num_sets d). congruence.
Qed.

(** the write of the data, job 7, that ended before the update *)
Definition md_bc_wait : bio_container := mk_bc 1 1 [] 1 [1] [mk_seq 0 0] CACHED_WRITE 0 7.
Definition md_written : io_world :=
  let w := md_world (set_cs_mdreq 0 None md_cache) (mk_mdreq 0 [mk_bvec 200 4096 0] 0 [] [] 0) [] in
  set_bcs {[1 := md_bc_wait]} (set_jobs {[7 := mk_job (Some 1) (mk_region HDD 32 8) None 5 WRITECACHE 0]} w).

Lemma md_written_ok : write_ended md_written 7 1 md_ebio md_bc_wait.
Proof.
  assert (Hno : forall s, cs_req md_written s = None).
  { intros s. unfold cs_req. change (io_d md_written) with (set_cs_mdreq 0 None md_cache).
    replace (cache_sets (set_cs_mdreq 0 None md_cache)) with (<[0 := mk_cache_set 1 0 None]> (<[1 := mk_cache_set 0 0 None]> (∅ : gmap Z cache_set))) by by vm_compute.
    rewrite lookup_total_insert. case_decide; [done|]. rewrite lookup_total_insert. case_decide; [done|]. by rewrite lookup_total_empty. }
  constructor.
  - eexists. split; [reflexivity|done].
  - reflexivity.
  - done.
  - split; [by intros x ?%not_elem_of_nil|constructor].
  - constructor; [reflexivity|intros s m; by rewrite Hno|]. split; [repeat constructor; by intros ?%not_elem_of_nil|].
    intros m ->%list_elem_of_singleton. split; [by eexists|]. intros s. by rewrite Hno.
  - intros _ D HD HDs. assert (H : D ⊆+ [0]); [|apply submseteq_length in H; exact H].
    apply NoDup_submseteq; [done|]. intros s Hs. destruct (HDs s Hs) as (_ & e & ->%list_elem_of_singleton & [= <-]). by apply list_elem_of_singleton.
Qed.

Lemma md_start_ok results : Forall io_result_ok results ->
  mdu_ready (md_start results) 1 md_req [5] /\ mdu_env md_kmem0 (fun _ => 0) [] (md_start results) 1 md_req [5].
Proof.
  intros Hres. destruct (lru_init_rep 2) as (l & El & Hl & Hm); [lia|].
  destruct md_cache_facts as (F1 & F2 & F3 & _ & _ & F6 & F7).
  pose proof md_cache_inv as B. pose proof md_sound as So. pose proof md_counted as Ct. pose proof md_cleanq as Cq. pose proof md_readable as Rd.
  assert (La : md_layout md_cache) by (constructor; [exists 1|..]; by vm_compute).
  assert (Pg : pages_ok md_cache [200]) by (split; [repeat constructor; by intros ?%not_elem_of_nil|by vm_compute]).
  unfold md_start, md_lru_cache. rewrite El. clear El. revert F1 F2 F3 F6 F7 B So Ct Cq Rd La Pg. generalize md_cache.
  intros d F1 F2 F3 F6 F7 B So Ct Cq Rd La Pg. set (dl := set_dirty_set_lru (Some l) d). assert (S1 : same_md d dl) by done. split.
  - constructor; try done; cbn [io_d io_cw cw_d cw_k cw_results md_world].
    + by apply (blk_inv_same d).
    + by destruct La.
    + change (0 <= 0 < num_sets d). lia.
    + split; [done|]. intros [|k] e; [intros [= <-]; reflexivity|done].
    + intros i ->%list_elem_of_singleton. split; [|exact F7]. change (5 ∈ set_blocks d 0). rewrite F6. apply elem_of_seqZ. lia.
    + intros s Hs. apply So. change (num_sets dl) with (num_sets d) in Hs. lia.
  - constructor; try done; cbn [io_d io_cw cw_d md_world].
    + change (dmc_size dl) with (dmc_size d). change (num_sets dl) with (num_sets d). lia.
    + destruct Ct as [C1 C2]. constructor; [etransitivity; [exact C1|]|etransitivity; [exact C2|]]; symmetry; by apply count_blocks_ext.
    + split; repeat constructor; by intros ?%not_elem_of_nil.
    + intros e eb ->%list_elem_of_singleton [_ ->]%lookup_one. done.
    + by apply md_refs.
    + intros b c [-> ->]%lookup_one. by intros ?%not_elem_of_nil.
    + by eapply cleanq_inv_ext; [..|exact Cq].
    + exists l, []. split_and!; [done|done|]. change (num_sets dl) with (num_sets d). congruence.
Qed.

(** * The I/O path on the small write-back cache *)
Definition io_bio (sector size : Z) : bio := mk_bio sector size 0 (take (Z.to_nat (size / 4096)) [mk_bvec 300 4096 0; mk_bvec 301 4096 0]) WRITE false 0.
(** what the bio writes *)
Definition io_mem : memory := foldl (fun m i => <[(300, i) := Raw (5000 + i)]> (<[(301, i) := Raw (6000 + i)]> m)) ∅ (seqZ 0 8).
Definition io_kmem0 : kmem := mk_kmem {[500]} [Some 200; Some 201].

Definition io_world_of (d : cache_c) (b : bio) (results : list io_result) (kmallocs : list bool) : io_world := {|
  io_cw := mk_cworld d cl_disks io_mem [] [] results [];
  io_kmem := io_kmem0; io_kmalloc := kmallocs;
  bios := {[1 := b]}; bcs := ∅; ebios := ∅; jobs := ∅; mdreqs := ∅;
  md_queue := []; callback_q := []; disk_read_jobs := []; scheduled := []; completions := []; readers := ∅; bio_ended := [] |}.

(** the cache when it may not dirty blocks any more *)
Definition keep_cache : cache_c := set_do_clean EIO_CLEAN_KEEP cl_cache.

Lemma io_kmem0_grown : grown io_kmem0 [] io_kmem0.
Proof.
  constructor; cbn.
  - set_solver.
  - constructor.
  - by intros p ?%not_elem_of_nil.
  - split; [|by intros p Hp; vm_compute in Hp; set_solver]. repeat constructor; set_solver.
Qed.

Lemma io_refs d b results kmallocs : refs_ok io_kmem0 (fun _ => 0) (io_world_of d b results kmallocs).
Proof.
  assert (Hb : forall k c, bcs (io_world_of d b results kmallocs) !! k = Some c -> False) by (intros k c E; exact (lookup_empty_Some (M := gmap Z) k c E)).
  constructor; [constructor|..].
  - by intros k c ?%Hb. - by intros k k' c c' ?%Hb.
  - intros _ s. cbn. by rewrite lookup_empty.
  - by intros k c m ?%Hb. - by intros k c ?%Hb. - by intros k k' c c' m ?%Hb.
  - exact io_kmem0_grown.
  - intros e eb E. destruct (lookup_empty_Some (M := gmap Z) e eb E).
  - intros k. split; [done|lia].
  - by intros k c ?%Hb.
Qed.

Lemma io_bio_ok : bio_ok (io_bio 32 8192).
Proof.
  constructor; [done| |done|].
  - repeat constructor; try done; by exists 8.
  - exists 16. by vm_compute.
Qed.

Lemma cl_cache_wf : wf_geom cl_cache.
Proof. destruct cl_cache_eq as (l & _ & -> & _). by apply (wf_geom_eq cl_md); [|exact cl_md_wf]. Qed.
Lemma cl_cacheable : cacheable cl_cache (io_bio 32 8192).
Proof. constructor; [done|by left; vm_compute|by vm_compute|by vm_compute|]. intros [_ H]. by vm_compute in H. Qed.

(** ** A split of a write to both devices: block 5, job 7, whose SSD transfer failed *)
Definition wr_ebio : eio_bio := mk_ebio EB_SUBORDINATE_IO 1 0 32 4096 [mk_bvec 300 4096 0] WRITE [] 5 1.
Definition wr_job : kcached_job := mk_job (Some 1) (mk_region HDD 32 8) None 5 WRITECACHE 5.
Definition wr_cache : cache_c := EIO_CACHE_STATE_SET md_cache 5 (writing false).
Definition wr_world : io_world :=
  set_jobs {[7 := wr_job]} (set_ebios (<[1 := wr_ebio]> {[1 := md_ebio]}) (md_world wr_cache md_req [])).

Lemma wr_cache_facts : EIO_CACHE_STATE_GET wr_cache 5 = writing false /\ EIO_DBN_GET wr_cache 5 = Some (EIO_ROUND_SECTOR wr_cache 32) /\ wf_zero wr_cache.
Proof.
  split; [by vm_compute|]. split; [by vm_compute|]. unfold wr_cache. apply state_set_zero, (bi_zero _ md_cache_inv).
Qed.

Lemma wr_world_ok : split_writing md_kmem0 (fun _ => 0) wr_world 1 wr_ebio 7 wr_job false.
Proof.
  destruct wr_cache_facts as (F1 & F2 & F3). unfold wr_world. revert F1 F2 F3. generalize wr_cache. intros d F1 F2 F3.
  constructor; [|reflexivity|reflexivity|cbn; lia|reflexivity|by split_and!|exact F3|exact F1|exact F2].
  apply refs_jobs. exact (refs_ebio md_kmem0 _ (md_world d md_req []) 1 md_ebio wr_ebio (md_refs d md_req [] eq_refl) eq_refl eq_refl).
Qed.

(** ** A split of four sectors of block 5, whose state is [s] *)
Definition hit_ebio (dir : Z) : eio_bio := mk_ebio EB_SUBORDINATE_IO 1 0 34 2048 [mk_bvec 300 2048 1024] dir [] 5 1.
Definition hit_cache (s : Z) : cache_c := EIO_CACHE_STATE_SET md_cache 5 s.
Definition hit_start (dir s : Z) (results : list io_result) (js : gmap Z kcached_job) : io_world :=
  set_jobs js (set_ebios (<[1 := hit_ebio dir]> {[1 := md_ebio]}) (md_world (hit_cache s) md_req results)).

Lemma hit_cache_facts s : 0 <= s < 256 -> Z.land s 3 = VALID -> blk_inv (hit_cache s) /\ EIO_CACHE_STATE_GET (hit_cache s) 5 = s /\
  layout (hit_cache s) = layout md_cache /\ EIO_DBN_GET (hit_cache s) 5 = Some 32 /\ mode (hit_cache s) = CACHE_MODE_WB /\
  CACHE_DEGRADED_IS_SET (hit_cache s) = false.
Proof.
  intros Hs Hv. destruct md_cache_facts as (F1 & _ & F3 & _ & _ & _ & F7). pose proof (land3_not_invalid s Hv).
  assert (E7 : EIO_CACHE_STATE_GET md_cache 5 <> INVALID) by by rewrite F7.
  clear F7. assert (Ed : EIO_DBN_GET md_cache 5 = Some 32) by by vm_compute. assert (Eg : CACHE_DEGRADED_IS_SET md_cache = false) by by vm_compute.
  pose proof md_cache_inv as B. unfold hit_cache. revert F1 F3 E7 Ed Eg B. generalize md_cache. intros d F1 F3 E7 Ed Eg B.
  split_and!.
  - apply blk_inv_set_state; [exact B|lia|exact Hs|by right].
  - by apply state_get_set_eq.
  - unfold EIO_CACHE_STATE_SET. by destruct (EIO_MD8 d).
  - rewrite state_set_dbn; [done|apply B|lia|done|by right].
  - by rewrite mode_of_state.
  - unfold EIO_CACHE_STATE_SET, CACHE_DEGRADED_IS_SET in *. by destruct (EIO_MD8 d).
Qed.

Lemma hit_refs dir s results js : refs_ok md_kmem0 (fun _ => 0) (hit_start dir s results js).
Proof.
  unfold hit_start. generalize (hit_cache s). intros d. apply refs_jobs.
  exact (refs_ebio md_kmem0 _ (md_world d md_req results) 1 md_ebio (hit_ebio dir) (md_refs d md_req results eq_refl) eq_refl eq_refl).
Qed.

Lemma hit_on_block dir s : 0 <= s < 256 -> Z.land s 3 = VALID -> on_block (hit_cache s) (hit_ebio dir) /\ NoDup (split_slots (hit_ebio dir)).
Proof.
  intros Hs Hv. destruct (hit_cache_facts s Hs Hv) as (B & Es & El & Ed & _). destruct (geom_fields _ _ (layout_geom _ _ El)) as (E1 & _ & E3 & _).
  pose proof (layout_sectors _ _ El) as Em.
  assert (F : dmc_size md_cache = 64 /\ block_size md_cache = 8 /\ md_sectors md_cache = 160) by (split_and!; by vm_compute). destruct F as (F1 & F2 & F3).
  assert (Er : EIO_ROUND_SECTOR (hit_cache s) 34 = 32).
  { pose proof (round_sector (hit_cache s) 34 (bi_geom _ B)) as R. rewrite R by lia. rewrite E3, F2. done. }
  rewrite F1 in E1. rewrite F2 in E3. rewrite F3 in Em. clear F1 F2 F3 El. revert B Es Ed E1 E3 Em Er. generalize (hit_cache s). intros d B Es Ed E1 E3 Em Er.
  split; [constructor|].
  - done.
  - cbn. lia.
  - cbn. rewrite Es. by apply land3_not_invalid.
  - change (EIO_DBN_GET d 5 = Some (EIO_ROUND_SECTOR d 34)). by rewrite Er.
  - done.
  - by exists 4.
  - change (split_sectors (hit_ebio dir)) with 4. change (34 + 4 <= EIO_ROUND_SECTOR d 34 + block_size d). rewrite Er, E3. lia.
  - split; [|done]. split_and!; [split; [done|by exists 4]|done|done].
  - rewrite Em, E1, E3. lia.
  - change (split_slots (hit_ebio dir)) with [(300, 2); (300, 3); (300, 4); (300, 5)]. repeat constructor; rewrite ?elem_of_cons, ?elem_of_nil; intuition congruence.
Qed.
