(* ===== verification/Sysctl.v ===== *)
(** * Tunables: the sysctl handlers ([eio_procfs.c])

    Every cache has its tunables twice: the values a user wrote
    ([sysctl_pending]) and the ones in force ([sysctl_active]).  The kernel
    reads and writes a file of [/proc/sys/dev/enhanceio/<cache>] by calling the
    handler of its table entry, whose [data] points at a pending value.

    ** What a cache shows under [/proc] ([eio_procfs.c])

    The entries [eio_procfs_ctr] makes and [eio_procfs_dtr] removes, and the
    lines a user reads from them: a label and a value. *)

From Stdlib Require Import String Ascii.
From S2P Require Import Prelude Types Mem Scan Policy World Dispatch Disk Clean CleanThread Lookup Thresh WbAlloc Superblock MdStore MdCreate Suspend.

(** * Tunables: the sysctl handlers ([eio_procfs.c]) *)
#[local] Open Scope Z_scope.
#[local] Open Scope list_scope.

(** ** The values an entry can point at, with the type of the field *)
Inductive sysctl_var :=
| VDoClean | VInterval | VDirtyHigh | VDirtyLow | VDirtySetHigh | VDirtySetLow
| VAutoclean | VZerostats | VMemLimit | VControl | VInvalidate.
#[export] Instance sysctl_var_eq_dec : EqDecision sysctl_var.
Proof. solve_decision. Defined.

Definition var_get (v : sysctl_var) (s : eio_sysctl) : Z :=
  match v with
  | VDoClean => do_clean s | VInterval => time_based_clean_interval s
  | VDirtyHigh => dirty_high_threshold s | VDirtyLow => dirty_low_threshold s
  | VDirtySetHigh => dirty_set_high_threshold s | VDirtySetLow => dirty_set_low_threshold s
  | VAutoclean => autoclean_threshold s | VZerostats => zerostats s
  | VMemLimit => mem_limit_pct s | VControl => control s | VInvalidate => invalidate s
  end.
Definition var_set (v : sysctl_var) (x : Z) (s : eio_sysctl) : eio_sysctl :=
  match v with
  | VDoClean => {| s with do_clean := x |} | VInterval => {| s with time_based_clean_interval := x |}
  | VDirtyHigh => {| s with dirty_high_threshold := x |} | VDirtyLow => {| s with dirty_low_threshold := x |}
  | VDirtySetHigh => {| s with dirty_set_high_threshold := x |} | VDirtySetLow => {| s with dirty_set_low_threshold := x |}
  | VAutoclean => {| s with autoclean_threshold := x |} | VZerostats => {| s with zerostats := x |}
  | VMemLimit => {| s with mem_limit_pct := x |} | VControl => {| s with control := x |}
  | VInvalidate => {| s with invalidate := x |}
  end.
(** [uint32_t], [int32_t] or [u_int64_t] *)
Definition var_type (v : sysctl_var) : Z -> Z :=
  match v with
  | VInterval | VDirtyHigh | VDirtyLow | VDirtySetHigh | VDirtySetLow => u32
  | VInvalidate => u64
  | _ => i32
  end.

(** ** The tables *)
Inductive proc_handler_fn :=
| eio_zerostats_fn | eio_mem_limit_pct_fn | eio_control_fn | eio_clean_fn | eio_time_based_clean_interval_fn
| eio_autoclean_threshold_fn | eio_dirty_high_threshold_fn | eio_dirty_low_threshold_fn
| eio_dirty_set_high_threshold_fn | eio_dirty_set_low_threshold_fn | eio_invalidate_fn.

Record ctl_table := mk_ctl {
  procname : string;
  proc_handler : proc_handler_fn;
  ct_data : option sysctl_var;        (* data, NULL in a template *)
  ct_extra1 : bool                    (* extra1: the cache, or NULL *)
}.
Definition ctl_entry (name : string) (h : proc_handler_fn) : ctl_table := mk_ctl name h None false.

Definition sysctl_template_common : list ctl_table :=
  [ ctl_entry "zero_stats" eio_zerostats_fn; ctl_entry "mem_limit_pct" eio_mem_limit_pct_fn; ctl_entry "control" eio_control_fn ].
Definition sysctl_template_writeback : list ctl_table :=
  [ ctl_entry "do_clean" eio_clean_fn; ctl_entry "time_based_clean_interval" eio_time_based_clean_interval_fn;
    ctl_entry "autoclean_threshold" eio_autoclean_threshold_fn; ctl_entry "dirty_high_threshold" eio_dirty_high_threshold_fn;
    ctl_entry "dirty_low_threshold" eio_dirty_low_threshold_fn; ctl_entry "dirty_set_high_threshold" eio_dirty_set_high_threshold_fn;
    ctl_entry "dirty_set_low_threshold" eio_dirty_set_low_threshold_fn ].
Definition sysctl_template_invalidate : list ctl_table := [ ctl_entry "invalidate" eio_invalidate_fn ].

Definition eio_find_sysctl_data (name : string) : option sysctl_var :=
  if String.eqb name "do_clean" then Some VDoClean
  else if String.eqb name "time_based_clean_interval" then Some VInterval
  else if String.eqb name "dirty_high_threshold" then Some VDirtyHigh
  else if String.eqb name "dirty_low_threshold" then Some VDirtyLow
  else if String.eqb name "dirty_set_high_threshold" then Some VDirtySetHigh
  else if String.eqb name "dirty_set_low_threshold" then Some VDirtySetLow
  else if String.eqb name "autoclean_threshold" then Some VAutoclean
  else if String.eqb name "zero_stats" then Some VZerostats
  else if String.eqb name "mem_limit_pct" then Some VMemLimit
  else if String.eqb name "control" then Some VControl
  else if String.eqb name "invalidate" then Some VInvalidate
  else None.

(** a registered directory *)
Record sysctl_dir := mk_dir { sd_vars : list ctl_table; sd_devname : option (list Z) }.

(** ** The world of the files of [/proc] *)
Record sys_world := mk_sys {
  sy_conf : conf_world;
  sysctl_pending : eio_sysctl;
  sysctl_handle_common : option sysctl_dir;
  sysctl_handle_writeback : option sysctl_dir;
  sysctl_handle_invalidate : option sysctl_dir;
  sy_registrations : list bool;        (* outcomes of register_sysctl_table and proc_mkdir *)
  sy_proc_entries : list (list Z);     (* the entries under /proc *)
  clean_aged_sets_delay : option Z;    (* clean_aged_sets_work is scheduled, after so many jiffies *)
  iv_have_sector : Z; iv_sector : Z; iv_num_sectors : Z; (* the static variables of eio_invalidate_sysctl *)
  sy_printed : option Z                (* what the last read of a file gave the user *)
}.
Definition sy_d (w : sys_world) : cache_c := cf_d (sy_conf w).
Definition set_sy_conf v (w : sys_world) := {| w with sy_conf := v |}.
Definition set_pending v (w : sys_world) := {| w with sysctl_pending := v |}.
Definition set_handle_common v (w : sys_world) := {| w with sysctl_handle_common := v |}.
Definition set_handle_writeback v (w : sys_world) := {| w with sysctl_handle_writeback := v |}.
Definition set_handle_invalidate v (w : sys_world) := {| w with sysctl_handle_invalidate := v |}.
Definition set_registrations v (w : sys_world) := {| w with sy_registrations := v |}.
Definition set_proc_entries v (w : sys_world) := {| w with sy_proc_entries := v |}.
Definition set_aged_delay v (w : sys_world) := {| w with clean_aged_sets_delay := v |}.
Definition set_printed v (w : sys_world) := {| w with sy_printed := v |}.
Definition set_iv have sector num (w : sys_world) := {| w with iv_have_sector := have; iv_sector := sector; iv_num_sectors := num |}.

Definition sy_run {A} (m : M conf_world A) : M sys_world A := fun w =>
  match m (sy_conf w) with Some (a, c) => Some (a, set_sy_conf c w) | None => None end.
Definition sy_dmc {A} (m : M cache_c A) : M sys_world A := sy_run (conf_dmc m).
Definition sy_upd (f : cache_c -> cache_c) : M sys_world unit := sy_run (conf_upd f).
Definition sy_register : M sys_world bool := fun w =>
  match sy_registrations w with [] => Some (true, w) | b :: l => Some (b, set_registrations l w) end.

(** [dmc->sysctl_active.v = x] *)
Definition set_active (v : sysctl_var) (x : Z) (d : cache_c) : cache_c := set_sysctl_active (var_set v x (sysctl_active d)) d.
Definition active_of (v : sysctl_var) (w : sys_world) : Z := var_get v (sysctl_active (sy_d w)).
Definition pending_of (v : sysctl_var) (w : sys_world) : Z := var_get v (sysctl_pending w).

Definition TIME_BASED_CLEAN_INTERVAL_MAX : Z := 720.
Definition AUTOCLEAN_THRESH_MAX : Z := 1024.
Definition CACHE_CONTROL_FLAG_MAX : Z := 7.
Definition CACHE_VERBOSE_OFF : Z := 0.
Definition CACHE_VERBOSE_ON : Z := 1.
Definition CACHE_WRITEBACK_ON : Z := 2.
Definition CACHE_WRITEBACK_OFF : Z := 3.
Definition CACHE_INVALIDATE_ON : Z := 4.
Definition CACHE_INVALIDATE_OFF : Z := 5.
Definition CACHE_FAST_REMOVE_ON : Z := 6.
Definition CACHE_FAST_REMOVE_OFF : Z := 7.

(** ** The kernel's conversions

    [proc_dointvec] and [proc_doulongvec_minmax] are the kernel's: from what
    the user wrote and the value the entry holds they make the value it holds
    afterwards; a buffer that is no number leaves it as it was.  [HZ] is the
    kernel's tick rate. *)
Section handlers.
Context (proc_dointvec proc_doulongvec_minmax : list Z -> Z -> Z) (HZ : Z).

(** on a read the value is printed *)
Definition do_intvec (conv : list Z -> Z -> Z) (table : ctl_table) (write : bool) (buffer : list Z) : M sys_world unit :=
  match ct_data table with
  | None => ret tt
  | Some v =>
    if write then modify (fun w => set_pending (var_set v (var_type v (conv buffer (pending_of v w))) (sysctl_pending w)) w)
    else modify (fun w => set_printed (Some (pending_of v w)) w)
  end.
(** a handler first posts the value in force, then converts *)
Definition fetch_tunable (v : sysctl_var) (table : ctl_table) (write : bool) (buffer : list Z) : M sys_world unit :=
  when (negb write) (modify (fun w => set_pending (var_set v (active_of v w) (sysctl_pending w)) w)) ;;
  do_intvec proc_dointvec table write buffer.

Definition activate (v : sysctl_var) : M sys_world unit :=
  w <- gets id ;;
  sy_upd (set_active v (pending_of v w)).

(** *** Tunables that are not stored *)
Definition zero_stats (d : cache_c) : cache_c :=
  set_stats {| no_stats with st_cached_blocks := st_cached_blocks (stats d) |} d.

Definition eio_zerostats_sysctl (table : ctl_table) (write : bool) (buffer : list Z) : M sys_world Z :=
  fetch_tunable VZerostats table write buffer ;;
  w <- gets id ;;
  if negb write then ret 0
  else if negb (pending_of VZerostats w =? 0) && negb (pending_of VZerostats w =? 1) then ret (- EINVAL)
  else if pending_of VZerostats w =? active_of VZerostats w then ret 0
  else
    activate VZerostats ;;
    w <- gets id ;;
    when (negb (active_of VZerostats w =? 0)) (sy_upd zero_stats) ;;
    ret 0.

Definition eio_mem_limit_pct_sysctl (table : ctl_table) (write : bool) (buffer : list Z) : M sys_world Z :=
  fetch_tunable VMemLimit table write buffer ;;
  w <- gets id ;;
  if negb write then ret 0
  else if (pending_of VMemLimit w <? 0) || (100 <? pending_of VMemLimit w) then ret (- EINVAL)
  else if pending_of VMemLimit w =? active_of VMemLimit w then ret 0
  else activate VMemLimit ;; ret 0.

(** the clean thread, which waits for [clean_event], is woken *)
Definition eio_clean_sysctl (table : ctl_table) (write : bool) (buffer : list Z) : M sys_world Z :=
  fetch_tunable VDoClean table write buffer ;;
  w <- gets id ;;
  if negb write then ret 0
  else if negb (mode (sy_d w) =? CACHE_MODE_WB) then ret (- EINVAL)
  else if negb (clr (pending_of VDoClean w) (Z.lor EIO_CLEAN_START EIO_CLEAN_KEEP) =? 0) then ret (- EINVAL)
  else if pending_of VDoClean w =? active_of VDoClean w then ret 0
  else if tst (cache_flags (sy_d w)) CACHE_FLAGS_MOD_INPROG then ret (- EBUSY)
  else
    activate VDoClean ;;
    w <- gets id ;;
    when (negb (active_of VDoClean w =? 0))
      (sy_upd (set_clean_index 0) ;;
       sy_upd (fun d => set_do_clean (Z.lor (do_clean (sysctl_active d)) EIO_CLEAN_START) d)) ;;
    ret 0.

(** *** Tunables that are stored in the superblock

    [invalid pending active]: the value is refused; [apply old]: what follows
    a change that was stored. *)
Definition stored_sysctl (v : sysctl_var) (invalid : eio_sysctl -> eio_sysctl -> bool) (apply : Z -> M sys_world unit)
  (table : ctl_table) (write : bool) (buffer : list Z) : M sys_world Z :=
  fetch_tunable v table write buffer ;;
  w <- gets id ;;
  if negb write then ret 0
  else if negb (mode (sy_d w) =? CACHE_MODE_WB) then ret (- EINVAL)
  else if invalid (sysctl_pending w) (sysctl_active (sy_d w)) then ret (- EINVAL)
  else if pending_of v w =? active_of v w then ret 0
  else
    let old_value := active_of v w in
    activate v ;;
    error <- sy_run eio_sb_store ;;
    if negb (error =? 0) then sy_upd (set_active v old_value) ;; ret error
    else apply old_value ;; ret 0.

Definition comply_all_sets : M sys_world unit :=
  w <- gets id ;;
  mfor (seqZ 0 (Z.shiftr (dmc_size (sy_d w)) (consecutive_shift (sy_d w)))) (fun i => sy_dmc (eio_comply_dirty_thresholds i)).
(** cleaning may be required when the value was reduced *)
Definition when_reduced (v : sysctl_var) (m : M sys_world unit) (old_value : Z) : M sys_world unit :=
  w <- gets id ;;
  when (active_of v w <? old_value) m.

Definition eio_dirty_high_threshold_sysctl : ctl_table -> bool -> list Z -> M sys_world Z :=
  stored_sysctl VDirtyHigh
    (fun p a => (100 <? dirty_high_threshold p) || (dirty_high_threshold p <? dirty_low_threshold a))
    (when_reduced VDirtyHigh (sy_dmc (eio_comply_dirty_thresholds (-1)))).
Definition eio_dirty_low_threshold_sysctl : ctl_table -> bool -> list Z -> M sys_world Z :=
  stored_sysctl VDirtyLow
    (fun p a => (100 <? dirty_low_threshold p) || (dirty_high_threshold a <? dirty_low_threshold p))
    (when_reduced VDirtyLow (sy_dmc (eio_comply_dirty_thresholds (-1)))).
Definition eio_dirty_set_high_threshold_sysctl : ctl_table -> bool -> list Z -> M sys_world Z :=
  stored_sysctl VDirtySetHigh
    (fun p a => (100 <? dirty_set_high_threshold p) || (dirty_set_high_threshold p <? dirty_set_low_threshold a))
    (when_reduced VDirtySetHigh comply_all_sets).
Definition eio_dirty_set_low_threshold_sysctl : ctl_table -> bool -> list Z -> M sys_world Z :=
  stored_sysctl VDirtySetLow
    (fun p a => (100 <? dirty_set_low_threshold p) || (dirty_set_high_threshold a <? dirty_set_low_threshold p))
    (when_reduced VDirtySetLow comply_all_sets).
Definition eio_autoclean_threshold_sysctl : ctl_table -> bool -> list Z -> M sys_world Z :=
  stored_sysctl VAutoclean
    (fun p a => (autoclean_threshold p <? 0) || (AUTOCLEAN_THRESH_MAX <? autoclean_threshold p))
    (fun _ => sy_dmc (eio_comply_dirty_thresholds (-1))).

(** the work is cancelled and scheduled with the new interval; the delay is a
    product of unsigned integers *)
Definition reschedule_aged : M sys_world unit :=
  modify (set_aged_delay None) ;;
  sy_upd (set_is_clean_aged_sets_sched 0) ;;
  w <- gets id ;;
  when (negb (active_of VInterval w =? 0) && negb (nr_dirty (sy_d w) =? 0))
    (modify (set_aged_delay (Some (u32 (active_of VInterval w * 60 * HZ)))) ;;
     sy_upd (set_is_clean_aged_sets_sched 1)).
Definition eio_time_based_clean_interval_sysctl : ctl_table -> bool -> list Z -> M sys_world Z :=
  stored_sysctl VInterval
    (fun p a => TIME_BASED_CLEAN_INTERVAL_MAX <? time_based_clean_interval p)
    (fun _ => reschedule_aged).

(** *** Registration *)

(** [kzalloc] of the name; NULL without a name or memory *)
Definition eio_cons_sysctl_devname : M sys_world (option (list Z)) :=
  w <- gets id ;;
  let name := cache_name (sy_conf w) in
  if bool_decide (name = []) then ret None
  else
    ok <- sy_run conf_kmalloc ;;
    ret (if ok then Some name else None).

(** the template is copied and its entries point at the values of the cache *)
Definition sysctl_vars (template : list ctl_table) : list ctl_table :=
  map (fun t => {| t with ct_data := eio_find_sysctl_data (procname t); ct_extra1 := true |}) template.
Definition eio_sysctl_register (template : list ctl_table) (set_handle : option sysctl_dir -> sys_world -> sys_world) : M sys_world unit :=
  ok <- sy_run conf_kmalloc ;;
  if negb ok then ret tt
  else
    devname <- eio_cons_sysctl_devname ;;
    registered <- sy_register ;;
    when registered (modify (set_handle (Some (mk_dir (sysctl_vars template) devname)))).

Definition eio_sysctl_register_common : M sys_world unit := eio_sysctl_register sysctl_template_common set_handle_common.
Definition eio_sysctl_register_writeback : M sys_world unit := eio_sysctl_register sysctl_template_writeback set_handle_writeback.
Definition eio_sysctl_register_invalidate : M sys_world unit := eio_sysctl_register sysctl_template_invalidate set_handle_invalidate.
Definition eio_sysctl_unregister_common : M sys_world unit := modify (set_handle_common None).
Definition eio_sysctl_unregister_writeback : M sys_world unit := modify (set_handle_writeback None).
Definition eio_sysctl_unregister_invalidate : M sys_world unit := modify (set_handle_invalidate None).

(** *** [control] *)
Definition control_case (c : Z) : M sys_world Z :=
  w <- gets id ;;
  if c =? CACHE_VERBOSE_OFF then sy_upd (clear_flag CACHE_FLAGS_VERBOSE) ;; ret 0
  else if c =? CACHE_VERBOSE_ON then sy_upd (set_flag CACHE_FLAGS_VERBOSE) ;; ret 0
  else if c =? CACHE_WRITEBACK_ON then
    (match sysctl_handle_writeback w with None => eio_sysctl_register_writeback | Some _ => ret tt end) ;; ret 0
  else if c =? CACHE_WRITEBACK_OFF then
    (match sysctl_handle_writeback w with Some _ => eio_sysctl_unregister_writeback | None => ret tt end) ;; ret 0
  else if c =? CACHE_INVALIDATE_ON then
    (match sysctl_handle_invalidate w with
     | None => eio_sysctl_register_invalidate ;; sy_upd (set_flag CACHE_FLAGS_INVALIDATE)
     | Some _ => ret tt end) ;; ret 0
  else if c =? CACHE_INVALIDATE_OFF then
    (match sysctl_handle_invalidate w with
     | Some _ => eio_sysctl_unregister_invalidate ;; sy_upd (clear_flag CACHE_FLAGS_INVALIDATE)
     | None => ret tt end) ;; ret 0
  else if c =? CACHE_FAST_REMOVE_ON then
    if negb (mode (sy_d w) =? CACHE_MODE_WB) then sy_upd (set_flag CACHE_FLAGS_FAST_REMOVE) ;; ret 0 else ret (-1)
  else if c =? CACHE_FAST_REMOVE_OFF then
    if negb (mode (sy_d w) =? CACHE_MODE_WB) then sy_upd (clear_flag CACHE_FLAGS_FAST_REMOVE) ;; ret 0 else ret (-1)
  else ret (-1).

Definition eio_control_sysctl (table : ctl_table) (write : bool) (buffer : list Z) : M sys_world Z :=
  fetch_tunable VControl table write buffer ;;
  w <- gets id ;;
  if negb write then ret 0
  else if (CACHE_CONTROL_FLAG_MAX <? pending_of VControl w) || (pending_of VControl w <? 0) then ret (- EINVAL)
  else if pending_of VControl w =? active_of VControl w then ret 0
  else
    activate VControl ;;
    w <- gets id ;;
    control_case (active_of VControl w).

(** *** [invalidate]: a sector, and with the next write a number of sectors *)
Definition eio_invalidate_sysctl (table : ctl_table) (write : bool) (buffer : list Z) : M sys_world Z :=
  if negb (ct_extra1 table) then ret (- EBUSY)
  else
    do_intvec proc_doulongvec_minmax table write buffer ;;
    if negb write then ret 0
    else
      activate VInvalidate ;;
      w <- gets id ;;
      let value := active_of VInvalidate w in
      if negb (iv_have_sector w =? 0) then
        let '(rv, num_sectors) := eio_invalidate_sanity_check (sy_d w) (iv_sector w) value in
        when (rv =? 0) (sy_dmc (eio_inval_range (iv_sector w) (u32 (to_bytes num_sectors)))) ;;
        modify (set_iv 0 (iv_sector w) num_sectors) ;;
        ret 0
      else modify (set_iv 1 value 0) ;; ret 0.

(** *** The kernel calls the handler of an entry *)
Definition call_handler (table : ctl_table) (write : bool) (buffer : list Z) : M sys_world Z :=
  match proc_handler table with
  | eio_zerostats_fn => eio_zerostats_sysctl table write buffer
  | eio_mem_limit_pct_fn => eio_mem_limit_pct_sysctl table write buffer
  | eio_control_fn => eio_control_sysctl table write buffer
  | eio_clean_fn => eio_clean_sysctl table write buffer
  | eio_time_based_clean_interval_fn => eio_time_based_clean_interval_sysctl table write buffer
  | eio_autoclean_threshold_fn => eio_autoclean_threshold_sysctl table write buffer
  | eio_dirty_high_threshold_fn => eio_dirty_high_threshold_sysctl table write buffer
  | eio_dirty_low_threshold_fn => eio_dirty_low_threshold_sysctl table write buffer
  | eio_dirty_set_high_threshold_fn => eio_dirty_set_high_threshold_sysctl table write buffer
  | eio_dirty_set_low_threshold_fn => eio_dirty_set_low_threshold_sysctl table write buffer
  | eio_invalidate_fn => eio_invalidate_sysctl table write buffer
  end.
(** the entries a user can open *)
Definition dir_vars (h : option sysctl_dir) : list ctl_table := match h with Some dir => sd_vars dir | None => [] end.
Definition entries (w : sys_world) : list ctl_table :=
  dir_vars (sysctl_handle_common w) ++ dir_vars (sysctl_handle_writeback w) ++ dir_vars (sysctl_handle_invalidate w).
End handlers.

(** * What a cache shows under [/proc] ([eio_procfs.c]) *)
#[local] Open Scope Z_scope.
#[local] Open Scope list_scope.

Definition bytes_of (s : string) : list Z := map (fun a => Z.of_N (N_of_ascii a)) (list_ascii_of_string s).
Definition PROC_SYS_DIR_NAME : list Z := bytes_of "enhanceio".
Definition PROC_STATS : list Z := bytes_of "stats".
Definition PROC_ERRORS : list Z := bytes_of "errors".
Definition PROC_IOSZ_HIST : list Z := bytes_of "io_hist".
Definition PROC_CONFIG : list Z := bytes_of "config".
Definition slash : list Z := bytes_of "/".

(** ** The entries *)

(** NULL without a name or memory *)
Definition eio_cons_procfs_cachename (path_component : list Z) : M sys_world (option (list Z)) :=
  w <- gets id ;;
  let name := cache_name (sy_conf w) in
  if bool_decide (name = []) then ret None
  else
    ok <- sy_run conf_kmalloc ;;
    ret (if negb ok then None
         else Some (PROC_SYS_DIR_NAME ++ slash ++ name ++ (if bool_decide (path_component = []) then [] else slash ++ path_component))).

(** [proc_mkdir], [proc_create_data] and [remove_proc_entry] of the kernel read
    the name; a NULL name is dereferenced.  Making an entry can fail. *)
Definition proc_make (name : option (list Z)) : M sys_world bool :=
  match name with
  | None => panic
  | Some s => ok <- sy_register ;; when ok (modify (fun w => set_proc_entries (s :: sy_proc_entries w) w)) ;; ret ok
  end.
Definition remove_proc_entry (name : option (list Z)) : M sys_world unit :=
  match name with
  | None => panic
  | Some s => modify (fun w => set_proc_entries (filter (fun x => x <> s) (sy_proc_entries w)) w)
  end.
Definition proc_file (path_component : list Z) : M sys_world unit :=
  s <- eio_cons_procfs_cachename path_component ;; proc_make s ;; ret tt.
Definition proc_unfile (path_component : list Z) : M sys_world unit :=
  s <- eio_cons_procfs_cachename path_component ;; remove_proc_entry s.

Definition CACHE_INVALIDATE_IS_SET (d : cache_c) : bool := tst (cache_flags d) CACHE_FLAGS_INVALIDATE.

(** if the directory cannot be made its freed name is printed, which is not
    modelled, and nothing is registered *)
Definition eio_procfs_ctr : M sys_world unit :=
  s <- eio_cons_procfs_cachename [] ;;
  entry <- proc_make s ;;
  if negb entry then ret tt
  else
    mfor [PROC_STATS; PROC_ERRORS; PROC_IOSZ_HIST; PROC_CONFIG] proc_file ;;
    eio_sysctl_register_common ;;
    w <- gets id ;;
    when (mode (sy_d w) =? CACHE_MODE_WB) eio_sysctl_register_writeback ;;
    when (CACHE_INVALIDATE_IS_SET (sy_d w)) eio_sysctl_register_invalidate.

Definition eio_procfs_dtr : M sys_world unit :=
  mfor [PROC_STATS; PROC_ERRORS; PROC_IOSZ_HIST; PROC_CONFIG; []] proc_unfile ;;
  eio_sysctl_unregister_invalidate ;;
  eio_sysctl_unregister_writeback ;;
  eio_sysctl_unregister_common.

(** ** The lines *)
Inductive shown := ShowZ (v : Z) | ShowBytes (s : list Z) | ShowText (s : string).

Definition hit_pct (hits total : Z) : Z := if 0 <? total then EIO_CALCULATE_PERCENTAGE hits total else 0.
(** a negative count of cached blocks is set to 0 *)
Definition fix_cached_blocks (d : cache_c) : cache_c :=
  if st_cached_blocks (stats d) <? 0 then no_cached_blocks d else d.
Definition stats_lines (d : cache_c) : list (string * Z) :=
  let st := stats d in
  [ ("reads", st_reads st); ("writes", st_writes st);
    ("read_hits", st_read_hits st); ("read_hit_pct", u32 (hit_pct (st_read_hits st) (st_reads st)));
    ("write_hits", st_write_hits st); ("write_hit_pct", u32 (hit_pct (st_write_hits st) (st_writes st)));
    ("dirty_write_hits", st_dirty_write_hits st); ("dirty_write_hit_pct", u32 (hit_pct (st_dirty_write_hits st) (st_writes st)));
    ("cached_blocks", st_cached_blocks st); ("rd_replace", st_rd_replace st); ("wr_replace", st_wr_replace st);
    ("noroom", st_noroom st); ("cleanings", st_cleanings st); ("md_write_dirty", st_md_write_dirty st);
    ("md_write_clean", st_md_write_clean st); ("md_ssd_writes", st_md_ssd_writes st);
    ("do_clean", do_clean (sysctl_active d)); ("nr_blocks", dmc_size d); ("nr_dirty", nr_dirty d);
    ("nr_sets", u32 (num_sets d)); ("clean_index", i32 (clean_index d));
    ("uncached_reads", st_uncached_reads st); ("uncached_writes", st_uncached_writes st);
    ("uncached_map_size", st_uncached_map_size st); ("uncached_map_uncacheable", st_uncached_map_uncacheable st);
    ("disk_reads", st_disk_reads st); ("disk_writes", st_disk_writes st); ("ssd_reads", st_ssd_reads st); ("ssd_writes", st_ssd_writes st);
    ("ssd_readfills", st_ssd_readfills st); ("ssd_readfill_unplugs", st_ssd_readfill_unplugs st);
    ("readdisk", st_readdisk st); ("writedisk", st_readdisk st); ("readcache", st_readcache st); ("readfill", st_readfill st);
    ("writecache", st_writecache st); ("readcount", st_readcount st); ("writecount", st_writecount st);
    ("kb_reads", Z.quot (st_reads st) 2); ("kb_writes", Z.quot (st_writes st) 2);
    ("rdtime_ms", st_rdtime_ms st); ("wrtime_ms", st_wrtime_ms st) ]%string.
Definition eio_stats_show : M cache_c (list (string * Z)) :=
  modify fix_cached_blocks ;;
  gets stats_lines.

Definition eio_errors_show (d : cache_c) : list (string * Z) :=
  let e := errors d in
  [ ("disk_read_errors", disk_read_errors e); ("disk_write_errors", disk_write_errors e);
    ("ssd_read_errors", ssd_read_errors e); ("ssd_write_errors", ssd_write_errors e);
    ("memory_alloc_errors", memory_alloc_errors e); ("no_cache_dev", no_cache_dev e); ("no_source_dev", no_source_dev e) ]%string.

(** transfers of [i] sectors, sizes in bytes; [SIZE_HIST] is 129 *)
Definition eio_iosize_hist_show (d : cache_c) : list (Z * Z) :=
  flat_map (fun i => let n := default 0 (size_hist d !! i) in if n =? 0 then [] else [(i * 512, n)]) (seqZ 1 128).

Definition eio_config_show (w : conf_world) : list (string * shown) :=
  let d := cf_d w in
  [ ("src_name", ShowBytes (disk_devname w)); ("ssd_name", ShowBytes (cache_devname w));
    ("src_size", ShowZ (eio_to_sector (disk_dev_size d))); ("ssd_size", ShowZ (dmc_size d));
    ("set_size", ShowZ (assoc d)); ("block_size", ShowZ (u32 (Z.shiftl (block_size d) SECTOR_SHIFT)));
    ("mode", ShowZ (mode d)); ("eviction", ShowZ (req_policy d)); ("num_sets", ShowZ (num_sets d)); ("num_blocks", ShowZ (dmc_size d));
    ("metadata", ShowText (if CACHE_MD8_IS_SET d then "large" else "small"));
    ("state", ShowText (if CACHE_DEGRADED_IS_SET d then "degraded" else if CACHE_FAILED_IS_SET d then "failed" else "normal"));
    ("flags", ShowZ (cache_flags d)) ]%string.
