(* ===== verification/Edit.v ===== *)
(** * Changing the mode or the policy of a cache ([eio_ttc.c], [eio_conf.c])

    [eio_cache_edit] stops the clean thread, has every dirty block cleaned when
    the cache leaves write-back mode, blocks application I/O with the lock of the
    device's list, switches policy and mode, stores the superblock and registers
    the files under [/proc] again. *)

From S2P Require Import Prelude Types Mem DList SetLru Scan Policy World Dispatch Disk Clean CleanThread Lookup Thresh WbAlloc Superblock MdStore MdCreate Suspend Sysctl.

Definition EFAULT : Z := 14.

(** ** The world of a cache's administration *)
Record cache_ctl := mk_ctl {
  ct_sys : sys_world;
  ct_dbvecs : option (list bio_vec); ct_dbvec_count : Z;   (* clean_dbvecs *)
  ct_mdpages : option (list Z); ct_mdpage_count : Z;       (* clean_mdpages *)
  ct_mdupdate_q : bool;
  ct_clean_thread : bool;          (* clean_thread is not NULL: it runs *)
  ct_wb : list wb_oracle;          (* what the kernel does in the coming calls of eio_allocate_wb_resources *)
  ct_threads : list bool;          (* outcomes of eio_create_thread *)
  ct_ttc_lock : bool               (* eio_ttc_lock[index] is held for writing *)
}.
Definition ct_conf (c : cache_ctl) : conf_world := sy_conf (ct_sys c).
Definition ct_d (c : cache_ctl) : cache_c := sy_d (ct_sys c).
Definition set_ct_sys v (c : cache_ctl) := {| c with ct_sys := v |}.
Definition set_ct_mdupdate_q v (c : cache_ctl) := {| c with ct_mdupdate_q := v |}.
Definition set_ct_thread v (c : cache_ctl) := {| c with ct_clean_thread := v |}.
Definition set_ct_threads v (c : cache_ctl) := {| c with ct_threads := v |}.
Definition set_ct_wb v (c : cache_ctl) := {| c with ct_wb := v |}.
Definition set_ct_lock v (c : cache_ctl) := {| c with ct_ttc_lock := v |}.

Definition ct_run {A} (m : M sys_world A) : M cache_ctl A := fun c =>
  match m (ct_sys c) with Some (a, s) => Some (a, set_ct_sys s c) | None => None end.
Definition ct_conf_run {A} (m : M conf_world A) : M cache_ctl A := ct_run (sy_run m).
Definition ct_cw {A} (m : M cworld A) : M cache_ctl A := ct_conf_run (conf_cw m).
Definition ct_upd (f : cache_c -> cache_c) : M cache_ctl unit := ct_run (sy_upd f).
Definition ct_tune (f : eio_sysctl -> eio_sysctl) : M cache_ctl unit := ct_upd (fun d => set_sysctl_active (f (sysctl_active d)) d).

(** a lock that is held is never obtained *)
Definition down_write : M cache_ctl unit := fun c => if ct_ttc_lock c then None else Some (tt, set_ct_lock true c).
Definition up_write : M cache_ctl unit := modify (set_ct_lock false).

(** [while (nr_ios != 0) schedule_timeout]: other threads end their I/O
    meanwhile; if none does the loop does not end *)
Fixpoint drain_ios (n : nat) : M cache_ctl unit :=
  d <- gets ct_d ;;
  if nr_ios d =? 0 then ret tt
  else match n with O => panic | S n => ct_conf_run conf_msleep ;; drain_ios n end.
Definition wait_ios : M cache_ctl unit :=
  c <- gets id ;;
  drain_ios (length (cf_sleeps (ct_conf c))).

(** ** The buffers of a write-back cache *)
Definition wb_success : wb_oracle := mk_wb_oracle true true true 0 true (fun _ => mk_bvec 0 0 0) (fun _ => 0).
Definition wb_of (c : cache_ctl) : wb_res :=
  mk_wb_res (ct_d c) (ct_dbvecs c) (ct_dbvec_count c) (ct_mdpages c) (ct_mdpage_count c) (ct_mdupdate_q c) (ct_clean_thread c) (cf_kmem (ct_conf c)).
Definition wb_back (r : wb_res) (c : cache_ctl) : cache_ctl :=
  let w := ct_conf c in
  let cw := {| (cf_cw w) with cw_d := wr_d r; clean_dbvecs := default [] (wr_dbvecs r); clean_mdpages := default [] (wr_mdpages r) |} in
  {| c with ct_sys := set_sy_conf (set_cf_kmem (wr_mem r) (set_cf_cw cw w)) (ct_sys c);
            ct_dbvecs := wr_dbvecs r; ct_dbvec_count := dbvec_count r; ct_mdpages := wr_mdpages r; ct_mdpage_count := mdpage_count r;
            ct_mdupdate_q := mdupdate_q r; ct_clean_thread := clean_thread r |}.
Definition ct_wb_run {A} (m : M wb_res A) : M cache_ctl A := fun c =>
  match m (wb_of c) with Some (a, r) => Some (a, wb_back r c) | None => None end.
Definition ct_allocate_wb : M cache_ctl Z :=
  c <- gets id ;;
  modify (set_ct_wb (tail (ct_wb c))) ;;
  ct_wb_run (eio_allocate_wb_resources (default wb_success (head (ct_wb c)))).

Definition eio_free_wb_resources : M cache_ctl unit :=
  modify (set_ct_mdupdate_q false) ;;
  ct_wb_run (
    modify (fun r => set_wr_d (set_dirty_set_lru None (wr_d r)) r) ;;
    r <- gets id ;;
    match wr_mdpages r with Some _ => wb_free_pages ;; modify (set_wr_mdpages None) | None => ret tt end ;;
    match wr_dbvecs r with Some _ => wb_free_bvecs ;; modify (set_wr_dbvecs None) | None => ret tt end ;;
    modify (set_dbvec_count 0) ;; modify (set_mdpage_count 0)).

(** ** The clean thread

    [jiffies] and [systime] are the times of the cleans. *)
Section threads.
Context (jiffies : Z -> Z) (systime HZ : Z).

Definition set_fast_remove (v : Z) (s : eio_sysctl) : eio_sysctl := {| s with fast_remove := v |}.
Definition set_interval (v : Z) (s : eio_sysctl) : eio_sysctl := {| s with time_based_clean_interval := v |}.
Definition map_do_clean (f : Z -> Z) (s : eio_sysctl) : eio_sysctl := {| s with do_clean := f (do_clean s) |}.

(** the thread, which waits for its event, works off what it was given and ends *)
Definition eio_stop_async_tasks : M cache_ctl unit :=
  c <- gets id ;;
  when (ct_clean_thread c)
    (ct_tune (set_fast_remove 1) ;;
     ct_cw (clean_thread_work jiffies systime) ;;
     modify (set_ct_thread false)) ;;
  d <- gets ct_d ;;
  ct_tune (set_fast_remove (if CACHE_FAST_REMOVE_IS_SET d then 1 else 0)) ;;
  when (mode d =? CACHE_MODE_WB)
    (ct_tune (set_interval 0) ;;
     ct_run (modify (set_aged_delay None))).

Definition eio_start_clean_thread : M cache_ctl Z :=
  c <- gets id ;;
  EIO_ASSERT (negb (ct_clean_thread c)) ;;
  EIO_ASSERT (mode (ct_d c) =? CACHE_MODE_WB) ;;
  EIO_ASSERT (negb (tst (do_clean (sysctl_active (ct_d c))) EIO_CLEAN_START)) ;;
  let ok := default true (head (ct_threads c)) in
  modify (set_ct_threads (tail (ct_threads c))) ;;
  modify (set_ct_thread ok) ;;
  ret (if ok then 0 else - EFAULT).

(** ** [eio_finish_nrdirty] *)
Definition FINISH_NRDIRTY_RETRY_COUNT : Z := 2.

(** the [do .. while] loop; [None] when it still runs after [fuel] rounds *)
Fixpoint finish_loop (fuel : nat) : M cache_ctl (option Z) :=
  match fuel with
  | O => ret None
  | S n =>
    d <- gets ct_d ;;
    if CACHE_FAILED_IS_SET d then ret (Some (- ENODEV))
    else
      when (fast_remove (sysctl_active d) =? 0) (ct_cw (eio_clean_all jiffies)) ;;
      d <- gets ct_d ;;
      if (fast_remove (sysctl_active d) =? 0) && (0 <? nr_dirty d) && negb (tst (cache_flags d) CACHE_FLAGS_SHUTDOWN_INPROG)
      then finish_loop n else ret (Some 0)
  end.

(** [retry_count] is never decremented *)
Definition eio_finish_nrdirty (fuel : nat) : M cache_ctl (option Z) :=
  let retry_count := FINISH_NRDIRTY_RETRY_COUNT in
  down_write ;;
  wait_ios ;;
  d <- gets ct_d ;;
  EIO_ASSERT (negb (tst (do_clean (sysctl_active d)) EIO_CLEAN_START)) ;;
  ct_tune (map_do_clean (fun x => Z.lor x (Z.lor EIO_CLEAN_KEEP EIO_CLEAN_START))) ;;
  up_write ;;
  r <- finish_loop fuel ;;
  match r with
  | None => ret None
  | Some e =>
    ct_tune (map_do_clean (fun x => clr x EIO_CLEAN_START)) ;;
    d <- gets ct_d ;;
    ret (Some (if (tst (cache_flags d) CACHE_FLAGS_SHUTDOWN_INPROG || (retry_count =? 0)) && (0 <? nr_dirty d) then - EINVAL else e))
  end.

(** ** The switches *)
Definition set_mode (v : Z) (d : cache_c) : cache_c := {| d with mode := v |}.

Definition eio_mode_switch (md : Z) : M cache_ctl Z :=
  d <- gets ct_d ;;
  EIO_ASSERT (negb (mode d =? md)) ;;
  if md =? CACHE_MODE_WB then
    ct_upd (set_mode md) ;;
    error <- ct_allocate_wb ;;
    when (negb (error =? 0)) (ct_upd (set_mode (mode d))) ;;
    ret error
  else if mode d =? CACHE_MODE_WB then
    eio_free_wb_resources ;;
    ct_upd (set_mode md) ;; ret 0
  else
    EIO_ASSERT (((mode d =? CACHE_MODE_RO) && (md =? CACHE_MODE_WT)) || ((mode d =? CACHE_MODE_WT) && (md =? CACHE_MODE_RO))) ;;
    ct_upd (set_mode md) ;; ret 0.

(** label [out]: a new instance is another pointer than the old one *)
Definition policy_switch_out (old : option policy_id) (error : Z) : M conf_world Z :=
  d <- gets cf_d ;;
  let same := match policy_ops d, old with None, None => true | _, _ => false end in
  when (negb same) (conf_upd eio_policy_free) ;;
  conf_upd (set_policy_ops old) ;;
  ret error.

(** [eio_policy_init] takes the policy from [req_policy], which is assigned at
    the end only *)
Definition eio_policy_switch (policy : Z) : M conf_world Z :=
  d <- gets cf_d ;;
  EIO_ASSERT (negb (req_policy d =? policy)) ;;
  let old := policy_ops d in
  ok <- conf_kmalloc ;;
  pols <- gets cf_policies ;;
  error <- conf_dmc (eio_policy_init ok pols) ;;
  if negb (error =? 0) then policy_switch_out old error
  else
    blk <- gets cf_blk ;;
    error <- conf_dmc (fun d => eio_repl_blk_init (policy_ops d) blk d) ;;
    if negb (error =? 0) then policy_switch_out old (- ENOMEM)
    else
      ok <- conf_kmalloc ;;
      error <- conf_dmc (fun d => eio_repl_sets_init (policy_ops d) ok d) ;;
      if negb (error =? 0) then policy_switch_out old (- ENOMEM)
      else
        conf_dmc (fun d => eio_policy_lru_pushblks (policy_ops d) d) ;;
        conf_upd (set_req_policy policy) ;;
        ret 0.

(** ** [eio_cache_edit] *)

(** with application I/O blocked; when the superblock cannot be stored the lock
    is not released *)
Definition edit_locked (old_time_thresh md policy : Z) : M cache_ctl Z :=
  down_write ;;
  wait_ios ;;
  d <- gets ct_d ;;
  EIO_ASSERT (nr_ios d =? 0) ;;
  error <- (if negb (policy =? 0) && negb (policy =? req_policy d) then ct_conf_run (eio_policy_switch policy) else ret 0) ;;
  if negb (error =? 0) then up_write ;; ret error
  else
    error <- (if negb (md =? 0) && negb (md =? mode d) then eio_mode_switch md else ret 0) ;;
    if negb (error =? 0) then up_write ;; ret error
    else
      ct_tune (set_interval old_time_thresh) ;;
      error <- ct_conf_run eio_sb_store ;;
      if negb (error =? 0) then ret error
      else
        ct_run eio_procfs_dtr ;;
        ct_run eio_procfs_ctr ;;
        up_write ;;
        ret 0.

(** label [out] *)
Definition edit_out (old_time_thresh : Z) (restart_async_task : bool) (error : Z) : M cache_ctl Z :=
  ct_tune (set_interval old_time_thresh) ;;
  ct_tune (map_do_clean (fun x => clr x (Z.lor EIO_CLEAN_START EIO_CLEAN_KEEP))) ;;
  d <- gets ct_d ;;
  error <- (if (mode d =? CACHE_MODE_WB) && restart_async_task then
              c <- gets id ;;
              EIO_ASSERT (negb (ct_clean_thread c)) ;;
              r <- eio_start_clean_thread ;;
              d <- gets ct_d ;;
              when (negb (time_based_clean_interval (sysctl_active d) =? 0) && negb (nr_dirty d =? 0))
                (ct_run (modify (set_aged_delay (Some (u32 (time_based_clean_interval (sysctl_active d) * 60 * HZ))))) ;;
                 ct_upd (set_is_clean_aged_sets_sched 1)) ;;
              ret (if negb (r =? 0) then r else error)
            else ret error) ;;
  ct_upd (clear_flag CACHE_FLAGS_MOD_INPROG) ;;
  ret error.

(** what happens between the marks *)
Definition edit_body (fuel : nat) (old_time_thresh md policy : Z) : M cache_ctl (option Z) :=
  d <- gets ct_d ;;
  if (mode d =? CACHE_MODE_WB) && negb (md =? CACHE_MODE_WB) then
    if CACHE_FAILED_IS_SET d then ret (Some (- EINVAL))
    else
      r <- eio_finish_nrdirty fuel ;;
      match r with
      | None => ret None
      | Some e =>
        if negb (e =? 0) then ret (Some e)
        else
          d <- gets ct_d ;;
          EIO_ASSERT (tst (do_clean (sysctl_active d)) EIO_CLEAN_KEEP && negb (tst (do_clean (sysctl_active d)) EIO_CLEAN_START)) ;;
          EIO_ASSERT (negb (fast_remove (sysctl_active d) =? 0) || (nr_dirty d =? 0)) ;;
          e <- edit_locked old_time_thresh md policy ;; ret (Some e)
      end
  else e <- edit_locked old_time_thresh md policy ;; ret (Some e).

(** [found]: the cache exists; [None] when [eio_finish_nrdirty] still runs after
    [fuel] rounds *)
Definition eio_cache_edit (fuel : nat) (found : bool) (md policy : Z) : M cache_ctl (option Z) :=
  EIO_ASSERT (negb (md =? 0) || negb (policy =? 0)) ;;
  d <- gets ct_d ;;
  if negb found then ret (Some (- EINVAL))
  else if (mode d =? md) && (req_policy d =? policy) then ret (Some 0)
  else if CACHE_FAILED_IS_SET d || CACHE_DEGRADED_IS_SET d then ret (Some (- EINVAL))
  else if tst (cache_flags d) CACHE_FLAGS_SHUTDOWN_INPROG then ret (Some (- EINVAL))
  else if tst (cache_flags d) CACHE_FLAGS_MOD_INPROG then ret (Some (- EINVAL))
  else
    ct_upd (set_flag CACHE_FLAGS_MOD_INPROG) ;;
    let old_time_thresh := time_based_clean_interval (sysctl_active d) in
    let wb := mode d =? CACHE_MODE_WB in
    if wb && CACHE_FAILED_IS_SET d then e <- edit_out old_time_thresh false (- EINVAL) ;; ret (Some e)
    else
      when wb eio_stop_async_tasks ;;
      r <- edit_body fuel old_time_thresh md policy ;;
      match r with
      | None => ret None
      | Some e => e <- edit_out old_time_thresh wb e ;; ret (Some e)
      end.
End threads.
