(* ===== verification/Ttc.v ===== *)
(** * Registration of caches and interception of requests ([eio_ttc.c])

    The caches are kept in a table of lists, hashed by the disk of their source
    volume.  [eio_ttc_activate] adds a cache and puts the driver's request
    function into the disk's queue, [eio_ttc_deactivate] undoes both;
    [eio_make_request_fn] finds the cache a bio belongs to.  A bio that is partly
    in a cached partition is cut into sectors, each of which is sent through
    [eio_make_request_fn] again. *)

From S2P Require Import Prelude Types World Superblock Suspend.

Definition EOPNOTSUPP : Z := 95.
Definition EEXIST : Z := 17.
Definition EIO_HASHTBL_SIZE : Z := 1024.

(** [dev_t]: the kernel's macros *)
Definition MAJOR (dev : Z) : Z := Z.shiftr dev 20.
Definition MINOR (dev : Z) : Z := Z.land dev (2 ^ 20 - 1).
Definition EIO_HASH_BDEV (dev : Z) : Z := u32 (MAJOR dev * EIO_MAGIC + MINOR dev) mod EIO_HASHTBL_SIZE.

(** ** State *)

(** a block device, identified by its number; [bd_contains] is the number of its
    disk, whose request queue it uses *)
Record block_device := mk_bdev { bd_dev : Z; bd_contains : Z; bd_start_sect : Z; bd_nr_sects : Z }.
#[export] Instance block_device_eq_dec : EqDecision block_device. Proof. solve_decision. Defined.

(** [make_request_fn *]: the driver's, or another *)
Inductive make_request := MfnEio | MfnOther (f : Z).
#[export] Instance make_request_eq_dec : EqDecision make_request. Proof. solve_decision. Defined.
#[export] Instance make_request_inhabited : Inhabited make_request := populate (MfnOther 0).
Definition is_eio (f : make_request) : bool := match f with MfnEio => true | MfnOther _ => false end.

(** [dev_info] *)
Definition EIO_DEV_PARTITION : Z := 1.
Definition EIO_DEV_WHOLE_DISK : Z := 2.

(** the fields of [struct cache_c] the registration uses *)
Record ttc_cache := mk_ttc {
  tc_dmc : Z;                      (* address of the cache *)
  tc_name : list Z;                (* cache_name *)
  tc_bdev : block_device;          (* disk_dev->bdev *)
  dev_start_sect : Z; dev_end_sect : Z;
  dev_info : Z;
  origmfn : make_request
}.
#[export] Instance ttc_cache_eq_dec : EqDecision ttc_cache. Proof. solve_decision. Defined.

(** an allocated bio, and the container its end counts in *)
Record tbio := mk_tbio { tb_bio : bio; tb_bdev : Z; tb_bc : option Z }.

(** the container of the sectors of a bio *)
Record split_bc := mk_split { sp_holdcount : Z; sp_bio : tbio; sp_error : Z }.

(** what is done with a bio *)
Inductive routed :=
| ToCache (dmc : Z) (b : tbio)         (* eio_map *)
| ToMfn (f : make_request) (b : tbio)  (* f(q, bio) *)
| Ended (b : tbio) (error : Z).        (* bio_endio *)

Record ttc_world := mk_ttcw {
  eio_ttc_list : gmap Z (list ttc_cache);
  queue_mfn : gmap Z make_request;       (* rq->make_request_fn of each disk *)
  tt_flushed : list (Z * make_request);  (* barriers sent to a device *)
  tt_kmalloc : list bool;                (* outcomes of the coming allocations *)
  split_bcs : gmap Z split_bc;
  tt_bios : Z;                           (* bios allocated and not put *)
  tt_routed : list routed
}.
Definition set_ttc_list v (w : ttc_world) := {| w with eio_ttc_list := v |}.
Definition set_queue_mfn v (w : ttc_world) := {| w with queue_mfn := v |}.
Definition set_tt_flushed v (w : ttc_world) := {| w with tt_flushed := v |}.
Definition set_tt_kmalloc v (w : ttc_world) := {| w with tt_kmalloc := v |}.
Definition set_split_bcs v (w : ttc_world) := {| w with split_bcs := v |}.
Definition set_tt_bios v (w : ttc_world) := {| w with tt_bios := v |}.
Definition set_tt_routed v (w : ttc_world) := {| w with tt_routed := v |}.

Definition tt_alloc : M ttc_world bool := fun w => Some (default true (head (tt_kmalloc w)), set_tt_kmalloc (tail (tt_kmalloc w)) w).
Definition route (r : routed) : M ttc_world unit := modify (fun w => set_tt_routed (tt_routed w ++ [r]) w).
Definition bucket (w : ttc_world) (index : Z) : list ttc_cache := eio_ttc_list w !!! index.

(** ** Lookups *)
Definition eio_ttc_init : ttc_world -> ttc_world := set_ttc_list (list_to_map (map (fun i => (i, [])) (seqZ 0 EIO_HASHTBL_SIZE))).

Definition eio_cache_lookup (name : list Z) (w : ttc_world) : option ttc_cache :=
  List.find (fun c => bool_decide (tc_name c = name)) (concat (map (bucket w) (seqZ 0 EIO_HASHTBL_SIZE))).

Definition eio_get_cache_count (w : ttc_world) : Z :=
  foldl (fun cnt i => foldl (fun cnt _ => u64 (cnt + 1)) cnt (bucket w i)) 0 (seqZ 0 EIO_HASHTBL_SIZE).

(** the conflict [eio_do_preliminary_checks] and [eio_ttc_activate] look for *)
Definition wholedisk (b : block_device) : bool := bd_dev b =? bd_contains b.
Definition conflict (b : block_device) (c : ttc_cache) : bool :=
  wholedisk b || (dev_info c =? EIO_DEV_WHOLE_DISK) || (bd_dev (tc_bdev c) =? bd_dev b).
Definition same_disk (b : block_device) (c : ttc_cache) : bool := bd_contains (tc_bdev c) =? bd_contains b.

Definition eio_do_preliminary_checks (name : list Z) (bdev ssd_bdev : block_device) (w : ttc_world) : Z :=
  if bd_contains bdev =? bd_contains ssd_bdev then - EINVAL
  else if bool_decide (eio_cache_lookup name w <> None) then - EEXIST
  else if existsb (fun c => same_disk bdev c && conflict bdev c) (bucket w (EIO_HASH_BDEV (bd_contains bdev))) then - EINVAL
  else 0.

(** ** [eio_ttc_activate] *)

(** the loop over the list: leaves at the first cache of the same disk *)
Fixpoint activate_scan (b : block_device) (l : list ttc_cache) : M ttc_world (Z * option make_request) :=
  match l with
  | [] => ret (0, None)
  | c :: l =>
    if negb (same_disk b c) then activate_scan b l
    else if conflict b c then ret (- EINVAL, None)
    else EIO_ASSERT (dev_info c =? EIO_DEV_PARTITION) ;; ret (0, Some (origmfn c))
  end.

(** [bdev] is NULL when it is [None] *)
Definition eio_ttc_activate (dmc : Z) (name : list Z) (bdev : option block_device) : M ttc_world Z :=
  match bdev with
  | None => ret (- ENODEV)
  | Some b =>
    let index := EIO_HASH_BDEV (bd_contains b) in
    w <- gets id ;;
    r <- activate_scan b (bucket w index) ;;
    let '(error, orig) := r in
    if negb (error =? 0) then ret error
    else
      w <- gets id ;;
      (match orig with
       | Some _ => EIO_ASSERT (negb (wholedisk b))
       | None => modify (set_queue_mfn (<[bd_contains b := MfnEio]> (queue_mfn w)))
       end) ;;
      let c := mk_ttc dmc name b (bd_start_sect b) (u64 (bd_start_sect b + bd_nr_sects b - 1))
                 (match orig with Some _ => EIO_DEV_PARTITION | None => if wholedisk b then EIO_DEV_WHOLE_DISK else EIO_DEV_PARTITION end)
                 (default (queue_mfn w !!! bd_contains b) orig) in
      modify (fun w => set_ttc_list (<[index := bucket w index ++ [c]]> (eio_ttc_list w)) w) ;;
      modify (fun w => set_tt_flushed (tt_flushed w ++ [(bd_dev b, origmfn c)]) w) ;;
      ret 0
  end.

(** ** [eio_ttc_deactivate], from the label [deactivate] on *)

(** is another partition of the disk cached? *)
Fixpoint partition_scan (c : ttc_cache) (l : list ttc_cache) : M ttc_world bool :=
  match l with
  | [] => ret false
  | c1 :: l =>
    if (tc_dmc c1 =? tc_dmc c) || negb (same_disk (tc_bdev c) c1) then partition_scan c l
    else EIO_ASSERT (dev_info c1 =? EIO_DEV_PARTITION) ;; ret true
  end.

Definition ttc_unregister (c : ttc_cache) : M ttc_world unit :=
  let disk := bd_contains (tc_bdev c) in
  let index := EIO_HASH_BDEV disk in
  w <- gets id ;;
  found_partitions <- (if negb (dev_info c =? EIO_DEV_WHOLE_DISK) then partition_scan c (bucket w index) else ret false) ;;
  when ((dev_info c =? EIO_DEV_WHOLE_DISK) || negb found_partitions)
    (modify (fun w => set_queue_mfn (<[disk := origmfn c]> (queue_mfn w)) w)) ;;
  modify (fun w => set_ttc_list (<[index := List.filter (fun c1 => negb (tc_dmc c1 =? tc_dmc c)) (bucket w index)]> (eio_ttc_list w)) w).

(** ** [eio_make_request_fn] *)

(** the last sector of a bio *)
Definition bio_last (b : bio) : Z := u64 (bi_sector b + eio_to_sector (bi_size b) - 1).
Definition bio_within (b : bio) (c : ttc_cache) : bool :=
  (dev_start_sect c <=? bi_sector b) && (bio_last b <=? dev_end_sect c).
Definition bio_overlaps (b : bio) (c : ttc_cache) : bool :=
  ((dev_start_sect c <=? bi_sector b) && (bi_sector b <=? dev_end_sect c))
  || ((dev_start_sect c <=? bio_last b) && (bio_last b <=? dev_end_sect c)).

(** [dmc], [origmfn] and [overlap] at the end of the loop over the list *)
Record mfn_found := mk_found { found_dmc : option ttc_cache; found_origmfn : option make_request; found_overlap : bool }.

Fixpoint mfn_lookup (disk : Z) (b : bio) (orig : option make_request) (l : list ttc_cache) : mfn_found :=
  match l with
  | [] => mk_found None orig false
  | c :: l =>
    if negb (bd_contains (tc_bdev c) =? disk) then mfn_lookup disk b orig l
    else if dev_info c =? EIO_DEV_WHOLE_DISK then mk_found (Some c) orig false
    else
      let orig := match orig with Some f => Some f | None => Some (origmfn c) end in
      if bio_within b c then mk_found (Some c) orig false
      else if bio_overlaps b c then mk_found None orig true
      else mfn_lookup disk b orig l
  end.

Definition set_bi_sector (v : Z) (b : bio) : bio := {| b with bi_sector := v |}.
Definition set_tb_bio (v : bio) (b : tbio) : tbio := {| b with tb_bio := v |}.

(** a bio for a cached volume: its sectors are counted from the volume's start.
    [eio_map] always returns [DM_MAPIO_SUBMITTED], 0, so the sector is not
    restored. *)
Definition mfn_serve (c : ttc_cache) (b : tbio) : M ttc_world unit :=
  if negb (bi_sector (tb_bio b) =? 0) then
    EIO_ASSERT (dev_start_sect c <=? bi_sector (tb_bio b)) ;;
    route (ToCache (tc_dmc c) (set_tb_bio (set_bi_sector (bi_sector (tb_bio b) - dev_start_sect c) (tb_bio b)) b))
  else route (ToCache (tc_dmc c) b).

(** one sector of a bio; the position in its vectors is [bvec_idx], [bvec_consumed] *)
Definition eio_split_new_bio (b : tbio) (bc : Z) (bvec_idx bvec_consumed snum : Z) : M ttc_world (option tbio * (Z * Z)) :=
  let iosize := 512 in
  ok <- tt_alloc ;;
  if negb ok then ret (None, (bvec_idx, bvec_consumed))
  else
    modify (fun w => set_tt_bios (tt_bios w + 1) w) ;;
    let vecs := bi_io_vec (tb_bio b) in
    v <- lift (vecs !! Z.to_nat bvec_idx) ;;
    EIO_ASSERT (iosize <=? bv_len v) ;;
    pos <-
      (if bv_len v <=? bvec_consumed then
         EIO_ASSERT (bv_len v =? bvec_consumed) ;;
         EIO_ASSERT (bvec_idx + 1 <? Z.of_nat (length vecs)) ;;
         ret (bvec_idx + 1, 0)
       else ret (bvec_idx, bvec_consumed)) ;;
    let '(bvec_idx, bvec_consumed) := pos in
    v <- lift (vecs !! Z.to_nat bvec_idx) ;;
    ret (Some (mk_tbio (mk_bio snum iosize 0 [mk_bvec (bv_page v) iosize (bv_offset v + bvec_consumed)]
                          (bi_dir (tb_bio b)) (bi_discard (tb_bio b)) (bi_flags (tb_bio b)))
                  (tb_bdev b) (Some bc)), (bvec_idx, bvec_consumed + iosize)).

(** the loop that allocates the sectors; it stops at the first failure *)
Fixpoint split_bios (n : nat) (b : tbio) (bc bvec_idx bvec_consumed snum : Z) : M ttc_world (list tbio) :=
  match n with
  | O => ret []
  | S n =>
    r <- eio_split_new_bio b bc bvec_idx bvec_consumed snum ;;
    let '(cb, (bvec_idx, bvec_consumed)) := r in
    match cb with
    | None => ret []
    | Some cb => l <- split_bios n b bc bvec_idx bvec_consumed (snum + 1) ;; ret (cb :: l)
    end
  end.

(** [mfn] is [eio_make_request_fn] *)
Definition eio_overlap_split_bio (mfn : tbio -> M ttc_world unit) (b : tbio) : M ttc_world unit :=
  let nbios := eio_to_sector (bi_size (tb_bio b)) in
  ok <- tt_alloc ;;
  if negb ok then route (Ended b (- ENOMEM))
  else
    ok <- tt_alloc ;;
    if negb ok then route (Ended b (- ENOMEM))
    else
      bc <- gets (fun w => fresh (dom (split_bcs w))) ;;
      modify (fun w => set_split_bcs (<[bc := mk_split nbios b 0]> (split_bcs w)) w) ;;
      l <- split_bios (Z.to_nat nbios) b bc (bi_idx (tb_bio b)) 0 (bi_sector (tb_bio b)) ;;
      if Z.of_nat (length l) <? nbios then
        modify (fun w => set_tt_bios (tt_bios w - Z.of_nat (length l)) w) ;;
        route (Ended b (- ENOMEM)) ;;
        modify (fun w => set_split_bcs (delete bc (split_bcs w)) w)
      else mfor l mfn.

(** [fuel] bounds the depth of the calls; [env]: what the other threads do to
    the table and the queues before each new lookup, [re_lookup] *)
Fixpoint eio_make_request_fn (fuel : nat) (env : list (ttc_world -> ttc_world)) (b : tbio) : M ttc_world unit :=
  match fuel with
  | O => panic
  | S n =>
    w <- gets id ;;
    let f := mfn_lookup (tb_bdev b) (tb_bio b) None (bucket w (EIO_HASH_BDEV (tb_bdev b))) in
    if found_overlap f then
      if bi_discard (tb_bio b) then route (Ended b (- EOPNOTSUPP))
      else eio_overlap_split_bio (eio_make_request_fn n env) b
    else
      match found_dmc f with
      | Some c => mfn_serve c b
      | None =>
        let orig := default (queue_mfn w !!! tb_bdev b) (found_origmfn f) in
        if is_eio orig then
          match env with
          | [] => panic
          | step :: env => modify step ;; eio_make_request_fn n env b
          end
        else route (ToMfn orig b)
      end
  end.

(** ** [eio_split_endio] *)
Definition eio_split_endio (b : tbio) (error : Z) : M ttc_world unit :=
  bc <- lift (tb_bc b) ;;
  s <- eval (fun w => split_bcs w !! bc) ;;
  let err := if negb (error =? 0) then error else sp_error s in
  modify (fun w => set_tt_bios (tt_bios w - 1) w) ;;
  let count := i32 (sp_holdcount s - 1) in
  modify (fun w => set_split_bcs (<[bc := mk_split count (sp_bio s) err]> (split_bcs w)) w) ;;
  when (count =? 0)
    (route (Ended (sp_bio s) err) ;;
     modify (fun w => set_split_bcs (delete bc (split_bcs w)) w)).
