(* ===== verification/TtcReg.v ===== *)
(** * The table of caches

    What holds of the table and of the request queues of the disks whenever the
    caches are activated after [eio_do_preliminary_checks], and that
    [eio_ttc_deactivate] undoes [eio_ttc_activate]. *)

From S2P Require Import Prelude Types World Superblock Suspend Ttc.

(** ** The invariant *)
Record cache_ok (c : ttc_cache) : Prop := {
  co_start : dev_start_sect c = bd_start_sect (tc_bdev c);
  co_end : dev_end_sect c = u64 (bd_start_sect (tc_bdev c) + bd_nr_sects (tc_bdev c) - 1);
  co_info : dev_info c = if wholedisk (tc_bdev c) then EIO_DEV_WHOLE_DISK else EIO_DEV_PARTITION;
  co_mfn : origmfn c <> MfnEio
}.

Definition on_disk (disk : Z) (c : ttc_cache) : Prop := bd_contains (tc_bdev c) = disk.

(** two caches of a disk are on different partitions and keep the same function *)
Record ttc_apart (c1 c2 : ttc_cache) : Prop := {
  ap_parts : wholedisk (tc_bdev c1) = false /\ wholedisk (tc_bdev c2) = false;
  ap_dev : bd_dev (tc_bdev c1) <> bd_dev (tc_bdev c2);
  ap_mfn : origmfn c1 = origmfn c2
}.

Record ttc_ok (w : ttc_world) : Prop := {
  to_place : forall i c, c ∈ bucket w i -> i = EIO_HASH_BDEV (bd_contains (tc_bdev c));
  to_cache : forall i c, c ∈ bucket w i -> cache_ok c;
  to_ids : forall i, NoDup (map tc_dmc (bucket w i));
  to_apart : forall i c1 c2, c1 ∈ bucket w i -> c2 ∈ bucket w i -> c1 <> c2 ->
    bd_contains (tc_bdev c1) = bd_contains (tc_bdev c2) -> ttc_apart c1 c2;
  to_queue : forall disk, queue_mfn w !!! disk = MfnEio <-> exists c, c ∈ bucket w (EIO_HASH_BDEV disk) /\ on_disk disk c
}.

Lemma wholedisk_info c : cache_ok c -> (dev_info c =? EIO_DEV_WHOLE_DISK) = wholedisk (tc_bdev c) /\ (dev_info c =? EIO_DEV_PARTITION) = negb (wholedisk (tc_bdev c)).
Proof. intros H. rewrite (co_info _ H). by destruct (wholedisk (tc_bdev c)). Qed.

Lemma bucket_insert w i l j : bucket (set_ttc_list (<[i := l]> (eio_ttc_list w)) w) j = if decide (i = j) then l else bucket w j.
Proof. unfold bucket. cbn. case_decide; [subst; by rewrite lookup_total_insert_eq|by rewrite lookup_total_insert_ne]. Qed.

Lemma apart_sym c1 c2 : ttc_apart c1 c2 -> ttc_apart c2 c1.
Proof. intros [[? ?] ? ?]. split; [done|congruence|congruence]. Qed.

(** ** Activation *)
Definition no_conflict (b : block_device) (w : ttc_world) : Prop :=
  forall c, c ∈ bucket w (EIO_HASH_BDEV (bd_contains b)) -> on_disk (bd_contains b) c -> conflict b c = false.

Lemma conflict_false b c : conflict b c = false ->
  wholedisk b = false /\ (dev_info c =? EIO_DEV_WHOLE_DISK) = false /\ bd_dev (tc_bdev c) <> bd_dev b.
Proof. unfold conflict. intros [[? ?]%orb_false_iff ?%Z.eqb_neq]%orb_false_iff. done. Qed.

Lemma same_disk_iff b c : same_disk b c = true <-> on_disk (bd_contains b) c.
Proof. apply Z.eqb_eq. Qed.

Lemma prelim_no_conflict name b ssd w : eio_do_preliminary_checks name b ssd w = 0 -> no_conflict b w.
Proof.
  unfold eio_do_preliminary_checks. case_match; [done|]. case_match; [done|]. case_match eqn:E; [done|]. intros _ c Hc Hd.
  destruct (conflict b c) eqn:Ec; [|done]. exfalso.
  assert (existsb (fun c => same_disk b c && conflict b c) (bucket w (EIO_HASH_BDEV (bd_contains b))) = true); [|congruence].
  apply existsb_exists. exists c. split; [by apply list_elem_of_In|]. rewrite Ec. by rewrite (proj2 (same_disk_iff b c) Hd).
Qed.

(** the function of the disk the first cache of it keeps *)
Definition kept_mfn (disk : Z) (l : list ttc_cache) : option make_request :=
  match List.find (fun c => bd_contains (tc_bdev c) =? disk) l with Some c => Some (origmfn c) | None => None end.

Lemma activate_scan_run b w l : (forall c, c ∈ l -> on_disk (bd_contains b) c -> conflict b c = false /\ cache_ok c) ->
  activate_scan b l w = Some ((0, kept_mfn (bd_contains b) l), w).
Proof.
  unfold kept_mfn. induction l as [|c l IH]; intros H; [done|]. cbn [activate_scan List.find].
  change (bd_contains (tc_bdev c) =? bd_contains b) with (same_disk b c). destruct (same_disk b c) eqn:E; cbn [negb].
  - apply same_disk_iff in E. destruct (H c) as [Hc Hk]; [apply elem_of_cons; by left|done|]. rewrite Hc.
    apply conflict_false in Hc as (_ & Hw & _). destruct (wholedisk_info c Hk) as [E1 E2]. rewrite E1 in Hw. rewrite E2, Hw. done.
  - apply IH. intros c' Hc'. apply H. apply elem_of_cons. by right.
Qed.

Definition activated (dmc : Z) (name : list Z) (b : block_device) (w : ttc_world) : ttc_cache :=
  mk_ttc dmc name b (bd_start_sect b) (u64 (bd_start_sect b + bd_nr_sects b - 1)) (if wholedisk b then EIO_DEV_WHOLE_DISK else EIO_DEV_PARTITION)
    (default (queue_mfn w !!! bd_contains b) (kept_mfn (bd_contains b) (bucket w (EIO_HASH_BDEV (bd_contains b))))).

Lemma kept_none disk l : kept_mfn disk l = None <-> ~ exists c, c ∈ l /\ on_disk disk c.
Proof.
  unfold kept_mfn. destruct (List.find _ _) as [c|] eqn:E; split; intros H; try done.
  - exfalso. apply H. apply list_find_Some in E as [? ?%Z.eqb_eq]. by exists c.
  - intros (c & Hc & Hd). apply (list_find_None _ _ E c) in Hc. apply Z.eqb_neq in Hc. done.
Qed.
Lemma kept_some disk l f : kept_mfn disk l = Some f -> exists c, c ∈ l /\ on_disk disk c /\ origmfn c = f.
Proof.
  unfold kept_mfn. destruct (List.find _ _) as [c|] eqn:E; [|done]. intros [= <-]. apply list_find_Some in E as [? ?%Z.eqb_eq]. by exists c.
Qed.

Lemma ttc_activate_run dmc name b w : ttc_ok w -> no_conflict b w ->
  exists w', eio_ttc_activate dmc name (Some b) w = Some (0, w') /\
    (forall i, bucket w' i = if decide (EIO_HASH_BDEV (bd_contains b) = i) then bucket w i ++ [activated dmc name b w] else bucket w i) /\
    (forall disk, queue_mfn w' !!! disk = if decide (bd_contains b = disk) then MfnEio else queue_mfn w !!! disk).
Proof.
  intros Hok Hn. unfold eio_ttc_activate. mrun. set (idx := EIO_HASH_BDEV (bd_contains b)). set (l := bucket w idx).
  rewrite (bind_run _ _ _ _ _ (activate_scan_run b w l (fun c Hc Hd => conj (Hn c Hc Hd) (to_cache _ Hok _ _ Hc)))). cbv beta iota zeta. cbn [Z.eqb negb].
  mrun. unfold activated. fold idx l.
  destruct (kept_mfn (bd_contains b) l) as [f|] eqn:Ek.
  - pose proof (kept_some _ _ _ Ek) as (c & Hc & Hd & Hf). pose proof (conflict_false _ _ (Hn c Hc Hd)) as (Hw & _).
    rewrite Hw. cbn [negb]. rewrite bind_assert by done. mrun. eexists. split; [reflexivity|]. cbn [default option_map]. split.
    + intros i. unfold bucket at 1. cbn. case_decide; [subst i; by rewrite lookup_total_insert_eq|by rewrite lookup_total_insert_ne].
    + intros disk. cbn. case_decide; [subst disk|done]. apply (to_queue _ Hok). by exists c.
  - mrun. eexists. split; [reflexivity|]. split.
    + intros i. unfold bucket at 1. cbn. case_decide; [subst i; by rewrite lookup_total_insert_eq|by rewrite lookup_total_insert_ne].
    + intros disk. cbn. case_decide; [subst disk; by rewrite lookup_total_insert_eq|by rewrite lookup_total_insert_ne].
Qed.

Lemma activate_effect dmc name b w w' : ttc_ok w -> no_conflict b w -> eio_ttc_activate dmc name (Some b) w = Some (0, w') ->
  (forall i, bucket w' i = if decide (EIO_HASH_BDEV (bd_contains b) = i) then bucket w i ++ [activated dmc name b w] else bucket w i) /\
  (forall disk, queue_mfn w' !!! disk = if decide (bd_contains b = disk) then MfnEio else queue_mfn w !!! disk).
Proof. intros Hok Hn E. destruct (ttc_activate_run dmc name b w Hok Hn) as (w2 & E2 & H). rewrite E in E2. by injection E2 as ->. Qed.

(** the invariant of a table whose lists and functions are given *)
Lemma activated_ok dmc name b w : ttc_ok w -> cache_ok (activated dmc name b w).
Proof.
  intros Hok. split; [done|done|done|]. cbn. destruct (kept_mfn _ _) as [f|] eqn:Ek; cbn.
  - apply kept_some in Ek as (c & Hc & _ & <-). apply (co_mfn _ (to_cache _ Hok _ _ Hc)).
  - apply kept_none in Ek. intros Hq. by apply Ek, (to_queue _ Hok).
Qed.

Lemma activated_apart dmc name b w c : ttc_ok w -> no_conflict b w -> c ∈ bucket w (EIO_HASH_BDEV (bd_contains b)) -> on_disk (bd_contains b) c ->
  ttc_apart c (activated dmc name b w).
Proof.
  intros Hok Hn Hc Hd. pose proof (conflict_false _ _ (Hn c Hc Hd)) as (Hw & Hi & Hne).
  destruct (wholedisk_info c (to_cache _ Hok _ _ Hc)) as [E1 _]. rewrite E1 in Hi. split; [done|done|]. cbn.
  destruct (kept_mfn _ _) as [f|] eqn:Ek; [|exfalso; apply kept_none in Ek; apply Ek; by exists c]. cbn.
  apply kept_some in Ek as (c' & Hc' & Hd' & <-). destruct (decide (c = c')) as [->|Hcc]; [done|].
  apply (ap_mfn _ _ (to_apart _ Hok _ _ _ Hc Hc' Hcc (eq_trans Hd (eq_sym Hd')))).
Qed.

Definition unused (dmc : Z) (w : ttc_world) : Prop := forall i c, c ∈ bucket w i -> tc_dmc c <> dmc.

Lemma ttc_activate_ok dmc name b w w' : ttc_ok w -> no_conflict b w -> unused dmc w -> eio_ttc_activate dmc name (Some b) w = Some (0, w') -> ttc_ok w'.
Proof.
  intros Hok Hn Hu Hrun. destruct (activate_effect dmc name b w w' Hok Hn Hrun) as (Hb & Hq). rename w' into w2.
  set (a := activated dmc name b w) in *. set (idx := EIO_HASH_BDEV (bd_contains b)) in *.
  assert (In' : forall i c, c ∈ bucket w2 i <-> c ∈ bucket w i \/ (i = idx /\ c = a)).
  { intros i c. rewrite Hb. case_decide as Ei; [subst i; rewrite elem_of_app, list_elem_of_singleton; intuition|split; [by left|intros [?|[? _]]; congruence]]. }
  split.
  - intros i c [Hc|[-> ->]]%In'; [by apply (to_place _ Hok)|done].
  - intros i c [Hc|[-> ->]]%In'; [by apply (to_cache _ Hok i)|by apply activated_ok].
  - intros i. rewrite Hb. case_decide; [|apply Hok]. rewrite map_app. apply NoDup_app. split_and!; [apply Hok| |apply NoDup_singleton].
    intros x (c & -> & Hc)%list_elem_of_fmap Ex%list_elem_of_singleton. by eapply Hu.
  - intros i c1 c2 [H1|[Hi1 ->]]%In' [H2|[Hi2 ->]]%In' Hne Hd.
    + by eapply (to_apart _ Hok).
    + subst i. by apply activated_apart.
    + subst i. apply apart_sym. by apply activated_apart.
    + done.
  - intros disk. rewrite Hq. case_decide as Ed.
    + subst disk. split; [intros _|done]. exists a. split; [apply In'; by right|done].
    + rewrite (to_queue _ Hok). split; intros (c & Hc & Hd).
      * exists c. split; [apply In'; by left|done].
      * apply In' in Hc as [Hc|[_ ->]]; [by exists c|]. by unfold on_disk in Hd.
Qed.

(** ** Deactivation *)
Lemma partition_scan_run c w l : (forall c1, c1 ∈ l -> tc_dmc c1 <> tc_dmc c -> on_disk (bd_contains (tc_bdev c)) c1 -> (dev_info c1 =? EIO_DEV_PARTITION) = true) ->
  partition_scan c l w = Some (existsb (fun c1 => negb (tc_dmc c1 =? tc_dmc c) && same_disk (tc_bdev c) c1) l, w).
Proof.
  induction l as [|c1 l IH]; intros H; [done|]. cbn [partition_scan existsb].
  destruct (Z.eqb_spec (tc_dmc c1) (tc_dmc c)) as [E|E]; cbn [orb negb andb].
  - apply IH. intros c2 Hc2. apply H. apply elem_of_cons. by right.
  - destruct (same_disk (tc_bdev c) c1) eqn:Es; cbn [negb orb].
    + rewrite (H c1); [done|apply elem_of_cons; by left|done|by apply same_disk_iff].
    + apply IH. intros c2 Hc2. apply H. apply elem_of_cons. by right.
Qed.

Lemma same_dmc w i c1 c2 : ttc_ok w -> c1 ∈ bucket w i -> c2 ∈ bucket w i -> tc_dmc c1 = tc_dmc c2 -> c1 = c2.
Proof.
  intros Hok. pose proof (to_ids _ Hok i) as Hn. revert Hn. generalize (bucket w i). intros l Hn [j H1]%list_elem_of_lookup [k H2]%list_elem_of_lookup E.
  assert (j = k) as ->; [|congruence]. apply (NoDup_lookup _ _ _ (tc_dmc c1) Hn); rewrite list_lookup_fmap; [by rewrite H1|by rewrite H2, E].
Qed.

Definition others (c : ttc_cache) (w : ttc_world) : list ttc_cache := List.filter (fun c1 => negb (tc_dmc c1 =? tc_dmc c)) (bucket w (EIO_HASH_BDEV (bd_contains (tc_bdev c)))).

Lemma in_others c w c1 : c1 ∈ others c w <-> c1 ∈ bucket w (EIO_HASH_BDEV (bd_contains (tc_bdev c))) /\ tc_dmc c1 <> tc_dmc c.
Proof. unfold others. rewrite list_elem_of_In, filter_In, <-list_elem_of_In, negb_true_iff, Z.eqb_neq. done. Qed.

Lemma ttc_unregister_run c w : ttc_ok w -> c ∈ bucket w (EIO_HASH_BDEV (bd_contains (tc_bdev c))) ->
  exists w', ttc_unregister c w = Some (tt, w') /\
    (forall i, bucket w' i = if decide (EIO_HASH_BDEV (bd_contains (tc_bdev c)) = i) then others c w else bucket w i) /\
    (forall disk, queue_mfn w' !!! disk =
       if decide (bd_contains (tc_bdev c) = disk /\ existsb (same_disk (tc_bdev c)) (others c w) = false) then origmfn c else queue_mfn w !!! disk).
Proof.
  intros Hok Hc. set (b := tc_bdev c) in *. set (idx := EIO_HASH_BDEV (bd_contains b)) in *.
  assert (Hpart : forall c1, c1 ∈ bucket w idx -> tc_dmc c1 <> tc_dmc c -> on_disk (bd_contains b) c1 -> ttc_apart c c1).
  { intros c1 H1 Hne Hd. apply (to_apart _ Hok idx); [done|done|congruence|done]. }
  assert (Hex : existsb (fun c1 => negb (tc_dmc c1 =? tc_dmc c) && same_disk b c1) (bucket w idx) = existsb (same_disk b) (others c w)).
  { unfold others. fold b idx. generalize (bucket w idx). intros l. induction l as [|x l IH]; [done|]. cbn. destruct (tc_dmc x =? tc_dmc c); cbn; [done|by rewrite IH]. }
  assert (Hscan : partition_scan c (bucket w idx) w = Some (existsb (same_disk b) (others c w), w)).
  { rewrite partition_scan_run; [by fold b; rewrite Hex|]. intros c1 H1 Hne Hd.
    rewrite (proj2 (wholedisk_info c1 (to_cache _ Hok _ _ H1))). by rewrite (proj2 (ap_parts _ _ (Hpart c1 H1 Hne Hd))). }
  unfold ttc_unregister. fold b idx. mrun. rewrite (proj1 (wholedisk_info c (to_cache _ Hok _ _ Hc))). fold b.
  assert (Hwhole : wholedisk b = true -> existsb (same_disk b) (others c w) = false).
  { intros Hw. destruct (existsb (same_disk b) (others c w)) eqn:E; [|done]. apply existsb_exists in E as (c1 & H1 & Hd). apply list_elem_of_In in H1. apply (in_others c w c1) in H1 as [H1 Hne].
    destruct (ap_parts _ _ (Hpart c1 H1 Hne (proj1 (same_disk_iff _ _) Hd))) as [Hp _]. fold b in Hp. congruence. }
  assert (E : (if negb (wholedisk b) then partition_scan c (bucket w idx) else ret false) w = Some (existsb (same_disk b) (others c w), w)).
  { destruct (wholedisk b); cbn [negb]; [by rewrite Hwhole|done]. }
  rewrite (bind_run _ _ _ _ _ E). cbv beta.
  destruct (existsb (same_disk b) (others c w)) eqn:Eo; cbn [negb].
  - assert (wholedisk b = false) as -> by (destruct (wholedisk b); [by rewrite Hwhole in Eo|done]). cbn [orb when]. mrun.
    eexists. split; [reflexivity|]. split; [intros i; apply bucket_insert|]. intros disk. cbn. by rewrite decide_False by (intros [_ ?]; done).
  - rewrite orb_true_r. cbn [when]. mrun. eexists. split; [reflexivity|]. split.
    { intros i. exact (bucket_insert (set_queue_mfn (<[bd_contains b := origmfn c]> (queue_mfn w)) w) idx (others c w) i). }
    intros disk. cbn. destruct (decide (bd_contains b = disk)) as [<-|Hd].
    + rewrite lookup_total_insert_eq, decide_True by done. done.
    + rewrite lookup_total_insert_ne by done. rewrite decide_False by (intros [? _]; done). done.
Qed.

Lemma ttc_unregister_ok c w w' : ttc_ok w -> c ∈ bucket w (EIO_HASH_BDEV (bd_contains (tc_bdev c))) -> ttc_unregister c w = Some (tt, w') -> ttc_ok w'.
Proof.
  intros Hok Hc Hrun. destruct (ttc_unregister_run c w Hok Hc) as (w2 & E & Hb & Hq). rewrite E in Hrun. injection Hrun as <-.
  assert (In' : forall i c1, c1 ∈ bucket w2 i -> c1 ∈ bucket w i).
  { intros i c1. rewrite Hb. destruct (decide (EIO_HASH_BDEV (bd_contains (tc_bdev c)) = i)) as [Ei|Ei]; [subst i; by intros [? _]%in_others|done]. }
  split.
  - intros i c1 H. by apply (to_place _ Hok), In'.
  - intros i c1 H. by apply (to_cache _ Hok i), In'.
  - intros i. rewrite Hb. destruct (decide (EIO_HASH_BDEV (bd_contains (tc_bdev c)) = i)) as [Ei|Ei]; [subst i|apply Hok]. apply NoDup_ListNoDup. unfold others.
    pose proof (to_ids _ Hok (EIO_HASH_BDEV (bd_contains (tc_bdev c)))) as Hn. revert Hn. generalize (bucket w (EIO_HASH_BDEV (bd_contains (tc_bdev c)))). intros l Hn.
    apply NoDup_ListNoDup. induction l as [|x l IH]; [constructor|]. cbn in *. apply NoDup_cons in Hn as [Hx Hn].
    destruct (tc_dmc x =? tc_dmc c); cbn [negb]; [by apply IH|]. apply NoDup_cons. split; [|by apply IH].
    intros (y & E1 & Hy)%list_elem_of_fmap. apply Hx. apply list_elem_of_fmap. exists y. split; [done|].
    apply list_elem_of_In, filter_In in Hy as [? _]. by apply list_elem_of_In.
  - intros i c1 c2 H1 H2. apply (to_apart _ Hok i); by apply In'.
  - intros disk. rewrite Hq. destruct (decide (bd_contains (tc_bdev c) = disk /\ existsb (same_disk (tc_bdev c)) (others c w) = false)) as [Ed|Ed].
    + destruct Ed as [<- Ho]. split; [intros Hm; by apply (co_mfn _ (to_cache _ Hok _ _ Hc)) in Hm|]. intros (c1 & H1 & Hd).
      rewrite Hb, decide_True in H1 by done. apply not_true_iff_false in Ho. exfalso. apply Ho. apply existsb_exists. exists c1.
      split; [by apply list_elem_of_In|by apply same_disk_iff].
    + rewrite (to_queue _ Hok). split; intros (c1 & H1 & Hd); [|exists c1; split; [by apply In'|done]].
      destruct (decide (bd_contains (tc_bdev c) = disk)) as [<-|Hne].
      * assert (existsb (same_disk (tc_bdev c)) (others c w) = true) as (c2 & H2 & Hd2)%existsb_exists by (destruct (existsb _ _); [done|exfalso; by apply Ed]).
        exists c2. split; [rewrite Hb, decide_True by done; by apply list_elem_of_In|by apply same_disk_iff].
      * exists c1. split; [|done]. rewrite Hb. destruct (decide _) as [Ei|Ei]; [|done]. apply in_others. rewrite Ei. split; [done|].
        intros Ec. rewrite Ei in Hc. assert (c1 = c) as -> by by eapply same_dmc. by apply Hne.
Qed.

(** ** Everything the driver does with the table *)
Inductive ttc_step : ttc_world -> ttc_world -> Prop :=
| ts_activate dmc name b ssd error w w' : unused dmc w -> eio_do_preliminary_checks name b ssd w = 0 ->
    eio_ttc_activate dmc name (Some b) w = Some (error, w') -> ttc_step w w'
| ts_deactivate c i w w' : c ∈ bucket w i -> ttc_unregister c w = Some (tt, w') -> ttc_step w w'.

Lemma ttc_step_ok w w' : ttc_ok w -> ttc_step w w' -> ttc_ok w'.
Proof.
  intros Hok Hs. destruct Hs as [dmc name b ssd error w w' Hu Hp E|c i w w' Hc E].
  - apply prelim_no_conflict in Hp. destruct (ttc_activate_run dmc name b w Hok Hp) as (w2 & E2 & _). assert (error = 0) as -> by congruence.
    by eapply ttc_activate_ok.
  - eapply ttc_unregister_ok; [done| |done]. pose proof (to_place _ Hok _ _ Hc). by subst i.
Qed.

Lemma ttc_init_ok w : (forall disk, queue_mfn w !!! disk <> MfnEio) -> ttc_ok (eio_ttc_init w).
Proof.
  intros Hq. assert (He : forall i, bucket (eio_ttc_init w) i = []).
  { intros i. unfold bucket, eio_ttc_init. cbn. unfold lookup_total, map_lookup_total. destruct (_ !! i) as [l|] eqn:E; [|done].
    apply elem_of_list_to_map_2 in E. by apply list_elem_of_fmap in E as (j & [= -> ->] & _). }
  split; [intros i c|intros i c|intros i|intros i c1 c2|]; rewrite ?He; try (by intros ?%elem_of_nil); [constructor|].
  intros disk. split; [intros E; by apply Hq in E|]. intros (c & Hc & _). rewrite He in Hc. by apply elem_of_nil in Hc.
Qed.

(** the table after any sequence of activations and deactivations *)
Lemma ttc_reachable_ok w0 w : (forall disk, queue_mfn w0 !!! disk <> MfnEio) -> rtc ttc_step (eio_ttc_init w0) w -> ttc_ok w.
Proof.
  intros Hq Hr. assert (H : forall x y, rtc ttc_step x y -> ttc_ok x -> ttc_ok y).
  { induction 1 as [|x y z Hxy _ IH]; [done|]. intros Hx. apply IH. by eapply ttc_step_ok. }
  eapply H; [done|by apply ttc_init_ok].
Qed.
