(* ===== verification/TtcRoute.v ===== *)
(** * Where the sectors of a bio go

    [sector_dest] says of one sector where it belongs: to the cache of its
    partition or disk, counted from the start of the volume, or to the request
    function the disk had before.  [eio_make_request_fn] sends every sector of a
    bio there, with the part of the bio's pages that holds it, also when the bio
    is partly in a cached partition. *)

From S2P Require Import Prelude Types World Superblock Suspend Ttc TtcReg.

(** ** The specification *)
Abbreviation slot := (Z * Z)%type.     (* a page and the offset of a sector in it *)
Inductive dest := DCache (dmc sector : Z) | DMfn (f : make_request) (sector : Z).

Definition holds_sector (disk s : Z) (c : ttc_cache) : bool :=
  (bd_contains (tc_bdev c) =? disk) && (wholedisk (tc_bdev c) || ((dev_start_sect c <=? s) && (s <=? dev_end_sect c))).
Definition owner (w : ttc_world) (disk s : Z) : option ttc_cache := List.find (holds_sector disk s) (bucket w (EIO_HASH_BDEV disk)).
(** the function of the disk below the driver *)
Definition below (w : ttc_world) (disk : Z) : make_request := default (queue_mfn w !!! disk) (kept_mfn disk (bucket w (EIO_HASH_BDEV disk))).
Definition sector_dest (w : ttc_world) (disk s : Z) : dest :=
  match owner w disk s with Some c => DCache (tc_dmc c) (s - dev_start_sect c) | None => DMfn (below w disk) s end.

Definition vec_slots (v : bio_vec) : list slot := map (fun k => (bv_page v, bv_offset v + 512 * k)) (seqZ 0 (bv_len v / 512)).
Definition bio_slots (b : bio) : list slot := concat (map vec_slots (drop (Z.to_nat (bi_idx b)) (bi_io_vec b))).
Definition bio_sectors (b : bio) : list (Z * slot) := zip (seqZ (bi_sector b) (eio_to_sector (bi_size b))) (bio_slots b).
Definition dests (w : ttc_world) (disk : Z) (l : list (Z * slot)) : list (dest * slot) := map (fun x => (sector_dest w disk x.1, x.2)) l.

(** the sectors an action serves *)
Definition served (r : routed) : list (dest * slot) :=
  match r with
  | ToCache dmc b => map (fun x => (DCache dmc x.1, x.2)) (bio_sectors (tb_bio b))
  | ToMfn f b => map (fun x => (DMfn f x.1, x.2)) (bio_sectors (tb_bio b))
  | Ended _ _ => []
  end.
(** and the bio it is about: of the same direction and flags, or ended *)
Definition same_request (b : tbio) (r : routed) : Prop :=
  match r with
  | ToCache _ b' | ToMfn _ b' => bi_dir (tb_bio b') = bi_dir (tb_bio b) /\ bi_discard (tb_bio b') = bi_discard (tb_bio b) /\ bi_flags (tb_bio b') = bi_flags (tb_bio b)
  | Ended _ _ => False
  end.

(** the bio that is passed on *)
Definition routed_bio (r : routed) : tbio := match r with ToCache _ b | ToMfn _ b | Ended b _ => b end.
Definition in_container (bc : option Z) (r : routed) : Prop := tb_bc (routed_bio r) = bc.

(** ** The conditions *)
Definition tvec_ok (v : bio_vec) : Prop := 0 < bv_len v /\ (512 | bv_len v).
Record tbio_ok (b : bio) : Prop := {
  bk_size : exists n, bi_size b = to_bytes n /\ 0 < n < 2 ^ 31;
  bk_sector : 0 <= bi_sector b /\ bi_sector b + eio_to_sector (bi_size b) <= 2 ^ 64;
  bk_idx : 0 <= bi_idx b;
  bk_vecs : Forall tvec_ok (bi_io_vec b);
  bk_slots : eio_to_sector (bi_size b) <= Z.of_nat (length (bio_slots b))
}.
(** no cached partition lies strictly inside the bio *)
Definition none_inside (b : bio) (disk : Z) (w : ttc_world) : Prop :=
  forall c, c ∈ bucket w (EIO_HASH_BDEV disk) -> on_disk disk c -> wholedisk (tc_bdev c) = false ->
    ~ (bi_sector b < dev_start_sect c /\ dev_end_sect c < bio_last b).
(** sector numbers have 64 bits, and a whole disk starts at its sector 0 *)
Definition bdev_ok (b : block_device) : Prop :=
  0 <= bd_start_sect b /\ 0 <= bd_nr_sects b /\ bd_start_sect b + bd_nr_sects b <= 2 ^ 64 /\ (wholedisk b = true -> bd_start_sect b = 0).
Definition disks_ok (w : ttc_world) : Prop := forall i c, c ∈ bucket w i -> bdev_ok (tc_bdev c).
Lemma cache_range c : cache_ok c -> bdev_ok (tc_bdev c) -> 0 <= dev_start_sect c <= dev_end_sect c + 1.
Proof.
  intros Hc (H1 & H2 & H3 & _). rewrite (co_start _ Hc), (co_end _ Hc). split; [done|]. unfold u64.
  destruct (decide (bd_start_sect (tc_bdev c) + bd_nr_sects (tc_bdev c) = 0)) as [E|E].
  - rewrite E. change ((0 - 1) mod 2 ^ 64) with (2 ^ 64 - 1). lia.
  - rewrite Z.mod_small; lia.
Qed.
Definition allocations_succeed (w : ttc_world) : Prop := Forall (fun ok => ok = true) (tt_kmalloc w).

Lemma sectors_of_bytes n : 0 <= n -> eio_to_sector (to_bytes n) = n.
Proof. intros H. unfold eio_to_sector, to_bytes, SECTOR_SHIFT. rewrite Z.shiftr_shiftl_l by lia. by rewrite Z.sub_diag, Z.shiftl_0_r. Qed.

Lemma bio_nsect b : tbio_ok b -> exists n, eio_to_sector (bi_size b) = n /\ 0 < n < 2 ^ 31 /\ bio_last b = bi_sector b + n - 1.
Proof.
  intros H. destruct (bk_size _ H) as (n & E & Hn). exists n. pose proof (bk_sector _ H) as [H1 H2]. unfold bio_last. rewrite E, sectors_of_bytes in * by lia.
  split_and!; [done|lia|lia|]. unfold u64. apply Z.mod_small. lia.
Qed.

(** ** The lookup *)
Section lookup.
Context (disk : Z) (b : bio).
Context (Hlast : bi_sector b <= bio_last b).

Definition in_bio (s : Z) : Prop := bi_sector b <= s <= bio_last b.

(** a cache the loop passes over holds none of the bio's sectors *)
Lemma passed_over c s : wholedisk (tc_bdev c) = false -> bio_overlaps b c = false -> ~ (bi_sector b < dev_start_sect c /\ dev_end_sect c < bio_last b) ->
  in_bio s -> holds_sector disk s c = false.
Proof.
  intros Hw Ho Hi Hs. unfold holds_sector, in_bio, bio_overlaps in *. rewrite Hw. cbn [orb].
  apply orb_false_iff in Ho as [[?%Z.leb_gt|?%Z.leb_gt]%andb_false_iff [?%Z.leb_gt|?%Z.leb_gt]%andb_false_iff];
    apply andb_false_iff; right; apply andb_false_iff; destruct (Z.leb_spec (dev_start_sect c) s), (Z.leb_spec s (dev_end_sect c)); auto; lia.
Qed.

Lemma within_holds c s : on_disk disk c -> bio_within b c = true -> in_bio s -> holds_sector disk s c = true.
Proof.
  unfold bio_within, holds_sector, in_bio. intros Hd [?%Z.leb_le ?%Z.leb_le]%andb_true_iff Hs.
  rewrite (proj2 (Z.eqb_eq _ _) Hd), (proj2 (Z.leb_le (dev_start_sect c) s)), (proj2 (Z.leb_le s (dev_end_sect c))) by lia. cbn. by rewrite orb_true_r.
Qed.

Definition lookup_right (orig : option make_request) (l : list ttc_cache) (f : mfn_found) : Prop :=
  match found_dmc f with
  | Some c => c ∈ l /\ found_overlap f = false /\ forall s, in_bio s -> List.find (holds_sector disk s) l = Some c
  | None => found_overlap f = true \/
      (found_origmfn f = (match orig with Some g => Some g | None => kept_mfn disk l end) /\ forall s, in_bio s -> List.find (holds_sector disk s) l = None)
  end.

(** the first element of the list answers nothing *)
Lemma lookup_right_cons orig orig' c l f : (forall s, in_bio s -> holds_sector disk s c = false) ->
  (match orig' with Some g => Some g | None => kept_mfn disk l end) = (match orig with Some g => Some g | None => kept_mfn disk (c :: l) end) ->
  lookup_right orig' l f -> lookup_right orig (c :: l) f.
Proof.
  unfold lookup_right. intros Hc Ho. destruct (found_dmc f) as [c1|].
  - intros (H1 & H2 & H3). split_and!; [apply elem_of_cons; by right|done|]. intros s Hs. cbn [List.find]. rewrite Hc by done. by apply H3.
  - intros [H|[H1 H2]]; [by left|]. right. split; [by rewrite <-Ho|]. intros s Hs. cbn [List.find]. rewrite Hc by done. by apply H2.
Qed.

Lemma mfn_lookup_right l : forall orig,
  (forall c, c ∈ l -> cache_ok c) ->
  (forall c, c ∈ l -> on_disk disk c -> wholedisk (tc_bdev c) = false -> ~ (bi_sector b < dev_start_sect c /\ dev_end_sect c < bio_last b)) ->
  lookup_right orig l (mfn_lookup disk b orig l).
Proof.
  induction l as [|c l IH]; intros orig Hok Hin; [right; split; [by destruct orig|done]|].
  assert (Hc : c ∈ c :: l) by (apply elem_of_cons; by left).
  assert (IH' : forall orig, lookup_right orig l (mfn_lookup disk b orig l)).
  { intros o. apply IH; intros c' Hc'; [apply Hok|apply Hin]; apply elem_of_cons; by right. }
  cbn [mfn_lookup]. destruct (Z.eqb_spec (bd_contains (tc_bdev c)) disk) as [Ed|Ed]; cbn [negb].
  2:{ apply (lookup_right_cons orig orig); [|unfold kept_mfn; cbn [List.find]; by rewrite (proj2 (Z.eqb_neq _ _) Ed)|apply IH'].
      intros s _. unfold holds_sector. by rewrite (proj2 (Z.eqb_neq _ _) Ed). }
  rewrite (proj1 (wholedisk_info c (Hok c Hc))). destruct (wholedisk (tc_bdev c)) eqn:Ew.
  { split_and!; [done|done|]. intros s _. cbn [List.find found_dmc]. unfold holds_sector. by rewrite (proj2 (Z.eqb_eq _ _) Ed), Ew. }
  destruct (bio_within b c) eqn:Ei.
  { split_and!; [done|done|]. intros s Hs. cbn [List.find found_dmc]. by rewrite within_holds. }
  destruct (bio_overlaps b c) eqn:Eo; [by left|].
  eapply lookup_right_cons; [| |apply IH'].
  - intros s Hs. apply passed_over; [done|done|by apply Hin|done].
  - unfold kept_mfn. cbn [List.find]. rewrite (proj2 (Z.eqb_eq _ _) Ed). by destruct orig.
Qed.
End lookup.

(** ** A bio that is not divided *)
Definition same_table (w w' : ttc_world) : Prop := eio_ttc_list w' = eio_ttc_list w /\ queue_mfn w' = queue_mfn w.

Lemma same_table_bucket w w' i : same_table w w' -> bucket w' i = bucket w i.
Proof. intros [H _]. unfold bucket. by rewrite H. Qed.
Lemma same_table_dests w w' disk l : same_table w w' -> dests w' disk l = dests w disk l.
Proof. intros H. unfold dests, sector_dest, owner, below. rewrite (same_table_bucket w w' _ H). destruct H as [_ ->]. done. Qed.

Definition routed_to (w : ttc_world) (r : routed) : ttc_world := set_tt_routed (tt_routed w ++ [r]) w.

(** [b] is sent to the owner of all of its sectors *)
Definition sent_whole (w : ttc_world) (b : tbio) (r : routed) : Prop :=
  served r = dests w (tb_bdev b) (bio_sectors (tb_bio b)) /\ same_request b r /\ in_container (tb_bc b) r.

Lemma bio_sectors_range b x : tbio_ok b -> x ∈ bio_sectors b -> in_bio b x.1.
Proof.
  intros H Hx. destruct (bio_nsect b H) as (n & En & Hn & El). unfold bio_sectors in Hx. rewrite En in Hx.
  apply list_elem_of_lookup in Hx as [k Hk]. rewrite lookup_zip_with in Hk. destruct (seqZ _ _ !! k) as [s|] eqn:Es; [|done]. cbn in Hk.
  destruct (bio_slots b !! k) as [sl|]; [|done]. injection Hk as <-. apply lookup_seqZ in Es as [-> ?]. unfold in_bio. rewrite El. cbn. lia.
Qed.

Lemma map_sectors_ext {A} b (f g : Z * slot -> A) : tbio_ok b -> (forall x, in_bio b x.1 -> f x = g x) -> map f (bio_sectors b) = map g (bio_sectors b).
Proof. intros H Hfg. apply list_fmap_ext. intros i x Hx. apply Hfg, bio_sectors_range; [done|]. by eapply list_elem_of_lookup_2. Qed.

Lemma fmap_zip_seqZ (l : list slot) n s d (g : Z * slot -> dest * slot) : 
  map g (zip (seqZ (s - d) n) l) = map (fun x => g (x.1 - d, x.2)) (zip (seqZ s n) l).
Proof.
  assert (seqZ (s - d) n = map (fun x => x - d) (seqZ s n)) as ->.
  { apply list_eq. intros i. rewrite list_lookup_fmap. destruct (seqZ (s - d) n !! i) as [y|] eqn:E.
    - apply lookup_seqZ in E as [-> ?]. assert (seqZ s n !! i = Some (s + Z.of_nat i)) as -> by (apply lookup_seqZ; lia). cbn. f_equal. lia.
    - apply lookup_seqZ_ge in E || (apply lookup_ge_None in E; rewrite length_seqZ in E; assert (seqZ s n !! i = None) as -> by (apply lookup_ge_None; rewrite length_seqZ; lia); done). }
  revert l. induction (seqZ s n) as [|x xs IH]; intros [|y l]; [done..|]. cbn. by rewrite IH.
Qed.

Lemma mfn_serve_run c b w : tbio_ok (tb_bio b) -> 0 <= dev_start_sect c -> (wholedisk (tc_bdev c) = false -> dev_start_sect c <= bi_sector (tb_bio b)) ->
  (wholedisk (tc_bdev c) = true -> dev_start_sect c = 0) ->
  exists r, mfn_serve c b w = Some (tt, routed_to w r) /\ same_request b r /\ in_container (tb_bc b) r /\
    served r = map (fun x => (DCache (tc_dmc c) (x.1 - dev_start_sect c), x.2)) (bio_sectors (tb_bio b)).
Proof.
  intros Hb H0 H1 H2. pose proof (bk_sector _ Hb) as [Hs _]. unfold mfn_serve.
  assert (Hle : dev_start_sect c <= bi_sector (tb_bio b)) by (destruct (wholedisk (tc_bdev c)); [rewrite H2 by done; lia|by apply H1]).
  destruct (Z.eqb_spec (bi_sector (tb_bio b)) 0) as [E|E]; cbn [negb].
  - eexists. split; [reflexivity|]. split; [done|]. split; [done|]. cbn [served]. apply map_ext. intros [s sl]. assert (dev_start_sect c = 0) as -> by lia. by rewrite Z.sub_0_r.
  - rewrite bind_assert by (by apply Z.leb_le). eexists. split; [reflexivity|]. split; [done|]. split; [done|]. cbn [served].
    destruct b as [b bd bc]. destruct b as [sec size idx vec dir disc fl]. cbn in *. unfold bio_sectors. cbn. apply (fmap_zip_seqZ _ _ _ _ (fun x => (DCache (tc_dmc c) x.1, x.2))).
Qed.

Lemma undivided fuel env b w : ttc_ok w -> disks_ok w -> tbio_ok (tb_bio b) -> none_inside (tb_bio b) (tb_bdev b) w ->
  found_overlap (mfn_lookup (tb_bdev b) (tb_bio b) None (bucket w (EIO_HASH_BDEV (tb_bdev b)))) = false ->
  exists r, eio_make_request_fn (S fuel) env b w = Some (tt, routed_to w r) /\ sent_whole w b r.
Proof.
  intros Hok Hz Hb Hi Hf. set (disk := tb_bdev b) in *. set (l := bucket w (EIO_HASH_BDEV disk)) in *.
  destruct (bio_nsect _ Hb) as (n & En & Hn & El).
  assert (Hl : bi_sector (tb_bio b) <= bio_last (tb_bio b)) by lia.
  pose proof (mfn_lookup_right disk (tb_bio b) Hl l None (fun c Hc => to_cache _ Hok _ _ Hc) Hi) as Hr.
  cbn [eio_make_request_fn]. mrun. unfold id. fold disk l. cbv zeta. unfold lookup_right in Hr. rewrite Hf in *.
  destruct (mfn_lookup disk (tb_bio b) None l) as [[c|] orig ov]; cbn [found_dmc found_origmfn found_overlap] in *.
  - destruct Hr as (Hc & _ & Hall). assert (Hown : forall s, in_bio (tb_bio b) s -> owner w disk s = Some c) by exact Hall.
    assert (Hhold : holds_sector disk (bi_sector (tb_bio b)) c = true).
    { apply (list_find_Some _ l). apply Hall. unfold in_bio. lia. }
    destruct (mfn_serve_run c b w) as (r & E & Hs & Hbc & Hser); [done|by apply (cache_range c (to_cache _ Hok _ _ Hc) (Hz _ _ Hc))| | |].
    + intros Hw. unfold holds_sector in Hhold. rewrite Hw in Hhold. cbn in Hhold. apply andb_true_iff in Hhold as [_ [H%Z.leb_le _]%andb_true_iff]. done.
    + intros Hw. rewrite (co_start _ (to_cache _ Hok _ _ Hc)). by apply (Hz _ _ Hc).
    + exists r. split; [done|]. split; [|by split]. rewrite Hser. unfold dests, sector_dest. fold disk.
      apply map_sectors_ext; [done|]. intros x Hx. by rewrite Hown.
  - destruct Hr as [?|[Ho Hall]]; [done|]. assert (Hown : forall s, in_bio (tb_bio b) s -> owner w disk s = None) by exact Hall.
    rewrite Ho.
    assert (Hne : is_eio (below w disk) = false).
    { unfold below. fold l. destruct (kept_mfn disk l) as [g|] eqn:Ek; cbn.
      - apply kept_some in Ek as (c & Hc & _ & <-). pose proof (co_mfn _ (to_cache _ Hok _ _ Hc)). by destruct (origmfn c).
      - destruct (queue_mfn w !!! disk) eqn:Eq; [|done]. exfalso. apply kept_none in Ek. by apply Ek, (to_queue _ Hok). }
    change (from_option (fun x : make_request => x) (queue_mfn w !!! disk) (kept_mfn disk l)) with (below w disk). rewrite Hne.
    eexists. split; [reflexivity|]. split; [|done]. cbn [served]. unfold dests, sector_dest. fold disk.
    apply map_sectors_ext; [done|]. intros x Hx. by rewrite Hown.
Qed.

(** ** A bio that is divided *)

(** the sector [s] of [b], held by the slot [sl] *)
Definition child (b : tbio) (bc : Z) (x : Z * slot) : tbio :=
  mk_tbio (mk_bio x.1 512 0 [mk_bvec x.2.1 512 x.2.2] (bi_dir (tb_bio b)) (bi_discard (tb_bio b)) (bi_flags (tb_bio b))) (tb_bdev b) (Some bc).

Definition all_true (l : list bool) : Prop := Forall (fun ok => ok = true) l.

Lemma tt_alloc_run w : all_true (tt_kmalloc w) -> exists k, tt_alloc w = Some (true, set_tt_kmalloc k w) /\ all_true k.
Proof. intros H. exists (tail (tt_kmalloc w)). unfold tt_alloc. destruct (tt_kmalloc w) as [|x k]; [done|]. by apply Forall_cons in H as [-> ?]. Qed.

(** the slots behind the position ([idx], [512 * k]) *)
Definition slots_from (vecs : list bio_vec) (v : bio_vec) (idx k : Z) : list slot :=
  drop (Z.to_nat k) (vec_slots v) ++ concat (map vec_slots (drop (S (Z.to_nat idx)) vecs)).

Lemma vec_slots_length v : tvec_ok v -> exists m, bv_len v = 512 * m /\ 0 < m /\ Z.of_nat (length (vec_slots v)) = m.
Proof.
  intros [Hl [m Em]]. exists m. split_and!; [lia|lia|]. unfold vec_slots. rewrite length_map, length_seqZ, Em, Z.div_mul by lia. lia.
Qed.

Lemma slots_from_here vecs v idx k : tvec_ok v -> 0 <= k -> 512 * k < bv_len v ->
  slots_from vecs v idx k = (bv_page v, bv_offset v + 512 * k) :: slots_from vecs v idx (k + 1).
Proof.
  intros Hv Hk Hlt. destruct (vec_slots_length v Hv) as (m & Em & Hm & Hlen). unfold slots_from.
  assert (E : vec_slots v !! Z.to_nat k = Some (bv_page v, bv_offset v + 512 * k)).
  { unfold vec_slots. rewrite list_lookup_fmap. assert (seqZ 0 (bv_len v / 512) !! Z.to_nat k = Some k) as ->; [|done].
    apply lookup_seqZ. rewrite Em, Z.mul_comm, Z.div_mul by lia. lia. }
  rewrite (drop_S _ _ _ E). cbn. by replace (Z.to_nat (k + 1)) with (S (Z.to_nat k)) by lia.
Qed.

(** at the end of a vector the next one follows *)
Lemma slots_from_end vecs v idx k : tvec_ok v -> 0 <= idx -> bv_len v = 512 * k -> slots_from vecs v idx k <> [] -> Forall tvec_ok vecs ->
  exists v', vecs !! Z.to_nat (idx + 1) = Some v' /\ tvec_ok v' /\ slots_from vecs v idx k = slots_from vecs v' (idx + 1) 0.
Proof.
  intros Hv Hi Hk Hne Hall. destruct (vec_slots_length v Hv) as (m & Em & Hm & Hlen). unfold slots_from in *.
  rewrite (drop_ge (vec_slots v)) in * by lia. rewrite app_nil_l in *.
  replace (Z.to_nat (idx + 1)) with (S (Z.to_nat idx)) by lia. destruct (vecs !! S (Z.to_nat idx)) as [v'|] eqn:E.
  - exists v'. split_and!; [done|by eapply Forall_lookup_1|]. rewrite (drop_S _ _ _ E). done.
  - exfalso. apply Hne. rewrite drop_ge by by apply lookup_ge_None. done.
Qed.

Definition bumped (k : list bool) (n : Z) (w : ttc_world) : ttc_world := set_tt_bios (tt_bios w + n) (set_tt_kmalloc k w).

(** where the position is after one more sector *)
Lemma split_new_run b bc vecs v idx k snum w : vecs = bi_io_vec (tb_bio b) -> Forall tvec_ok vecs -> 0 <= idx -> vecs !! Z.to_nat idx = Some v ->
  0 <= k -> 512 * k <= bv_len v -> slots_from vecs v idx k <> [] -> all_true (tt_kmalloc w) ->
  exists sl v' idx' k' ks, eio_split_new_bio b bc idx (512 * k) snum w = Some ((Some (child b bc (snum, sl)), (idx', 512 * k')), bumped ks 1 w) /\
    slots_from vecs v idx k = sl :: slots_from vecs v' idx' k' /\ 0 <= idx' /\ vecs !! Z.to_nat idx' = Some v' /\ 0 <= k' /\ 512 * k' <= bv_len v' /\ all_true ks.
Proof.
  intros Ev Hall Hi Hv Hk Hle Hne Ha. pose proof (Forall_lookup_1 _ _ _ _ Hall Hv) as Hok.
  destruct (vec_slots_length v Hok) as (m & Em & Hm & _).
  destruct (tt_alloc_run w Ha) as (ks & E & Hks). unfold eio_split_new_bio. cbv zeta. rewrite (bind_run _ _ _ _ _ E). cbn [negb]. mrun. rewrite <-Ev.
  rewrite Hv. cbn [lift]. rewrite (bind_run (lift (Some v)) _ _ v _ eq_refl). rewrite bind_assert by (apply Z.leb_le; lia).
  destruct (Z.leb_spec (bv_len v) (512 * k)) as [Hend|Hmid].
  - assert (Ek : bv_len v = 512 * k) by lia. destruct (slots_from_end vecs v idx k Hok Hi Ek Hne Hall) as (v' & Hv' & Hok' & Es).
    assert (Hlen : (Z.to_nat (idx + 1) < length vecs)%nat) by (apply lookup_lt_is_Some; by exists v').
    mrun. rewrite bind_assert by (apply Z.eqb_eq; lia). mrun. rewrite bind_assert by (apply Z.ltb_lt; lia). mrun. rewrite Hv'.
    rewrite (bind_run (lift (Some v')) _ _ v' _ eq_refl). cbv beta iota.
    destruct (vec_slots_length v' Hok') as (m' & Em' & Hm' & _).
    exists (bv_page v', bv_offset v'), v', (idx + 1), 1, ks. split_and!; [|rewrite Es, (slots_from_here vecs v' _ 0) by (done || lia); by rewrite Z.mul_0_r, Z.add_0_r|lia|done|lia|lia|done].
    unfold child, bumped. cbn. by rewrite Z.add_0_r.
  - mrun. rewrite Hv. rewrite (bind_run (lift (Some v)) _ _ v _ eq_refl). cbv beta iota.
    exists (bv_page v, bv_offset v + 512 * k), v, idx, (k + 1), ks. split_and!; [|by apply slots_from_here|lia|done|lia|lia|done].
    unfold child, bumped, ret. cbn. by replace (512 * (k + 1)) with (512 * k + 512) by lia.
Qed.

Lemma bumped_bumped ks ks' m n w : bumped ks' n (bumped ks m w) = bumped ks' (m + n) w.
Proof. destruct w. unfold bumped, set_tt_bios, set_tt_kmalloc. cbn. by rewrite Z.add_assoc. Qed.

Lemma split_bios_run n : forall b bc vecs v idx k snum w, vecs = bi_io_vec (tb_bio b) -> Forall tvec_ok vecs -> 0 <= idx -> vecs !! Z.to_nat idx = Some v ->
  0 <= k -> 512 * k <= bv_len v -> (n <= length (slots_from vecs v idx k))%nat -> all_true (tt_kmalloc w) ->
  exists ks, split_bios n b bc idx (512 * k) snum w = Some (map (child b bc) (zip (seqZ snum (Z.of_nat n)) (slots_from vecs v idx k)), bumped ks (Z.of_nat n) w) /\ all_true ks.
Proof.
  induction n as [|n IH]; intros b bc vecs v idx k snum w Ev Hall Hi Hv Hk Hle Hn Ha.
  { exists (tt_kmalloc w). split; [|done]. destruct w. unfold bumped. cbn. by rewrite Z.add_0_r. }
  destruct (split_new_run b bc vecs v idx k snum w) as (sl & v' & idx' & k' & ks & E & Es & Hi' & Hv' & Hk' & Hle' & Hks); [done..| |done|].
  { intros En. rewrite En in Hn. cbn in Hn. lia. }
  cbn [split_bios]. rewrite (bind_run _ _ _ _ _ E). cbv beta iota.
  destruct (IH b bc vecs v' idx' k' (snum + 1) (bumped ks 1 w)) as (ks' & E' & Hks'); [done..| |done|].
  { rewrite Es in Hn. cbn in Hn. lia. }
  rewrite (bind_run _ _ _ _ _ E'). exists ks'. split; [|done]. rewrite Es. rewrite (seqZ_cons snum) by lia.
  replace (Z.pred (Z.of_nat (S n))) with (Z.of_nat n) by lia. change (Z.succ snum) with (snum + 1). cbn [zip zip_with map].
  rewrite bumped_bumped. by replace (Z.of_nat (S n)) with (1 + Z.of_nat n) by lia.
Qed.

(** a sector is never divided again *)
Lemma child_ok b bc x : 0 <= x.1 < 2 ^ 64 -> tbio_ok (tb_bio (child b bc x)).
Proof.
  intros H. change (tb_bio (child b bc x)) with (mk_bio x.1 512 0 [mk_bvec x.2.1 512 x.2.2] (bi_dir (tb_bio b)) (bi_discard (tb_bio b)) (bi_flags (tb_bio b))).
  assert (E : eio_to_sector 512 = 1) by done. split; cbn [bi_size bi_sector bi_idx bi_io_vec].
  - exists 1. split; [done|lia].
  - rewrite E. lia.
  - done.
  - repeat constructor. by exists 1.
  - rewrite E. done.
Qed.
Lemma child_last b bc x : 0 <= x.1 < 2 ^ 64 -> bio_last (tb_bio (child b bc x)) = x.1.
Proof. intros H. unfold bio_last. cbn. change (eio_to_sector 512) with 1. unfold u64. rewrite Z.mod_small; lia. Qed.
Lemma child_sectors b bc x : bio_sectors (tb_bio (child b bc x)) = [x].
Proof.
  destruct x as [s [p o]]. unfold bio_sectors, bio_slots. cbn [child tb_bio bi_sector bi_size bi_idx bi_io_vec fst snd].
  change (eio_to_sector 512) with 1. change (Z.to_nat 0) with O. cbn [drop map concat]. unfold vec_slots. cbn [bv_len bv_page bv_offset].
  change (seqZ 0 (512 / 512)) with [0]. cbn [map app]. rewrite (seqZ_cons s) by lia. cbn [zip zip_with]. by rewrite Z.mul_0_r, Z.add_0_r.
Qed.

Lemma child_no_overlap disk b bc x orig l : 0 <= x.1 < 2 ^ 64 -> found_overlap (mfn_lookup disk (tb_bio (child b bc x)) orig l) = false.
Proof.
  intros H. revert orig. induction l as [|c l IH]; intros orig; [done|]. cbn [mfn_lookup].
  destruct (bd_contains (tc_bdev c) =? disk); cbn [negb]; [|apply IH]. destruct (dev_info c =? EIO_DEV_WHOLE_DISK); [done|].
  unfold bio_within, bio_overlaps. rewrite child_last by done. cbn [bi_sector tb_bio child].
  destruct ((dev_start_sect c <=? x.1) && (x.1 <=? dev_end_sect c)); [done|]. cbn [orb]. apply IH.
Qed.

Lemma child_routed fuel env b bc x w : ttc_ok w -> disks_ok w -> 0 <= x.1 < 2 ^ 64 ->
  exists r, eio_make_request_fn (S fuel) env (child b bc x) w = Some (tt, routed_to w r) /\
    served r = dests w (tb_bdev b) [x] /\ same_request b r /\ in_container (Some bc) r.
Proof.
  intros Hok Hz Hx. destruct (undivided fuel env (child b bc x) w) as (r & E & Hs & Hr); [done|done|by apply child_ok| |by apply child_no_overlap|].
  - intros c Hc _ _ [H1 H2]. rewrite child_last in H2 by done. pose proof (cache_range c (to_cache _ Hok _ _ Hc) (Hz _ _ Hc)). cbn in H1. lia.
  - exists r. split; [done|]. rewrite child_sectors in Hs. split; [exact Hs|]. destruct r; exact Hr.
Qed.

(** everything but the actions taken is as before *)
Definition add_routed (rs : list routed) (w : ttc_world) : ttc_world := set_tt_routed (tt_routed w ++ rs) w.
Lemma add_routed_table rs w : ttc_ok w -> disks_ok w ->
  ttc_ok (add_routed rs w) /\ disks_ok (add_routed rs w).
Proof. intros [H1 H2 H3 H4 H5] Hz. split; [by split|done]. Qed.
Lemma add_routed_add rs rs' w : add_routed rs' (add_routed rs w) = add_routed (rs ++ rs') w.
Proof. destruct w. unfold add_routed, set_tt_routed. cbn. by rewrite app_assoc. Qed.

Lemma children_routed fuel env b bc w l : ttc_ok w -> disks_ok w -> (forall x, x ∈ l -> 0 <= x.1 < 2 ^ 64) ->
  exists rs, mfor (map (child b bc) l) (eio_make_request_fn (S fuel) env) w = Some (tt, add_routed rs w) /\
    concat (map served rs) = dests w (tb_bdev b) l /\ Forall (fun r => same_request b r /\ in_container (Some bc) r) rs /\ length rs = length l.
Proof.
  intros Hok Hz. revert w Hok Hz. induction l as [|x l IH]; intros w Hok Hz Hl.
  { exists []. split; [|split_and!; [done|constructor|done]]. destruct w. unfold add_routed, set_tt_routed. cbn. by rewrite app_nil_r. }
  destruct (child_routed fuel env b bc x w Hok Hz) as (r & E & Hs & Hr); [apply Hl, elem_of_cons; by left|].
  destruct (add_routed_table [r] w Hok Hz) as (Hok' & Hz').
  destruct (IH (add_routed [r] w) Hok' Hz') as (rs & E' & Hs' & Hr' & Hl'); [intros y Hy; apply Hl, elem_of_cons; by right|].
  exists (r :: rs). cbn [map mfor]. rewrite (bind_run _ _ _ _ _ E). split; [|split_and!; [|by constructor|cbn; by rewrite Hl']].
  - exact (eq_trans E' (f_equal (fun w => Some (tt, w)) (add_routed_add [r] rs w))).
  - cbn [map concat]. rewrite Hs, Hs'. rewrite (same_table_dests w (add_routed [r] w)) by done. done.
Qed.

(** ** The whole function *)

(** the container of a divided bio *)
Lemma divided fuel env b w : ttc_ok w -> disks_ok w -> all_true (tt_kmalloc w) -> tbio_ok (tb_bio b) ->
  exists bc ks rs, let n := eio_to_sector (bi_size (tb_bio b)) in
    eio_overlap_split_bio (eio_make_request_fn (S fuel) env) b w =
      Some (tt, add_routed rs (bumped ks n (set_split_bcs (<[bc := mk_split n b 0]> (split_bcs w)) w))) /\
    split_bcs w !! bc = None /\ concat (map served rs) = dests w (tb_bdev b) (bio_sectors (tb_bio b)) /\
    Forall (fun r => same_request b r /\ in_container (Some bc) r) rs /\ Z.of_nat (length rs) = n.
Proof.
  intros Hok Hz Ha Hb. set (n := eio_to_sector (bi_size (tb_bio b))). destruct (bio_nsect _ Hb) as (n' & En & Hn & _). fold n in En. subst n'.
  destruct (tt_alloc_run w Ha) as (k1 & E1 & Hk1). destruct (tt_alloc_run (set_tt_kmalloc k1 w) Hk1) as (k2 & E2 & Hk2).
  set (bc := fresh (dom (split_bcs w))).
  set (w1 := set_split_bcs (<[bc := mk_split n b 0]> (split_bcs w)) (set_tt_kmalloc k2 (set_tt_kmalloc k1 w))).
  pose proof (bk_slots _ Hb) as Hsl. fold n in Hsl.
  assert (exists v, bi_io_vec (tb_bio b) !! Z.to_nat (bi_idx (tb_bio b)) = Some v) as [v Hv].
  { apply lookup_lt_is_Some. destruct (decide (Z.to_nat (bi_idx (tb_bio b)) < length (bi_io_vec (tb_bio b)))%nat) as [|Hge]; [done|].
    exfalso. unfold bio_slots in Hsl. rewrite drop_ge in Hsl by lia. cbn in Hsl. lia. }
  assert (Hslots : bio_slots (tb_bio b) = slots_from (bi_io_vec (tb_bio b)) v (bi_idx (tb_bio b)) 0).
  { unfold bio_slots, slots_from. by rewrite (drop_S _ _ _ Hv). }
  pose proof (Forall_lookup_1 _ _ _ _ (bk_vecs _ Hb) Hv) as [Hvl _].
  destruct (split_bios_run (Z.to_nat n) b bc (bi_io_vec (tb_bio b)) v (bi_idx (tb_bio b)) 0 (bi_sector (tb_bio b)) w1) as (ks & E3 & Hks);
    [done|apply Hb|apply Hb|done|lia|lia|rewrite <-Hslots; lia|exact Hk2|]. rewrite <-Hslots, Z2Nat.id in E3 by lia.
  fold (bio_sectors (tb_bio b)) in E3. change (zip (seqZ (bi_sector (tb_bio b)) n) (bio_slots (tb_bio b))) with (bio_sectors (tb_bio b)) in E3.
  destruct (children_routed fuel env b bc (bumped ks n w1) (bio_sectors (tb_bio b))) as (rs & E4 & Hs & Hr & Hlen).
  { by destruct Hok; split. }
  { exact Hz. }
  { intros x Hx. pose proof (bio_sectors_range _ x Hb Hx) as H. pose proof (bk_sector _ Hb). destruct (bio_nsect _ Hb) as (n' & E' & ? & El). unfold in_bio in H. rewrite El in H. lia. }
  assert (El : Z.of_nat (length (bio_sectors (tb_bio b))) = n).
  { unfold bio_sectors. fold n. rewrite length_zip_with, length_seqZ. lia. }
  exists bc, ks, rs. split_and!; [|apply not_elem_of_dom; apply is_fresh| |done|by rewrite Hlen].
  - unfold eio_overlap_split_bio. cbv zeta. fold n. rewrite (bind_run _ _ _ _ _ E1). cbn [negb]. rewrite (bind_run _ _ _ _ _ E2). cbn [negb]. mrun.
    change (split_bcs (set_tt_kmalloc k2 (set_tt_kmalloc k1 w))) with (split_bcs w). fold bc. fold w1.
    rewrite (bind_run _ _ _ _ _ E3).
    rewrite length_map, El, Z.ltb_irrefl. rewrite E4. done.
  - rewrite Hs. by apply same_table_dests.
Qed.

Lemma make_request_run fuel env b w : ttc_ok w -> disks_ok w -> all_true (tt_kmalloc w) -> tbio_ok (tb_bio b) ->
  none_inside (tb_bio b) (tb_bdev b) w -> bi_discard (tb_bio b) = false ->
  exists rs w', eio_make_request_fn (S (S fuel)) env b w = Some (tt, w') /\ tt_routed w' = tt_routed w ++ rs /\
    same_table w w' /\ concat (map served rs) = dests w (tb_bdev b) (bio_sectors (tb_bio b)) /\ Forall (same_request b) rs.
Proof.
  intros Hok Hz Ha Hb Hi Hd.
  destruct (found_overlap (mfn_lookup (tb_bdev b) (tb_bio b) None (bucket w (EIO_HASH_BDEV (tb_bdev b))))) eqn:Ef.
  - destruct (divided fuel env b w Hok Hz Ha Hb) as (bc & ks & rs & E & _ & Hs & Hr & _). exists rs. eexists. split; [|split_and!; [| |exact Hs|by eapply Forall_impl; [exact Hr|intros r [? _]]]].
    + cbn [eio_make_request_fn]. mrun. unfold id. cbv zeta. rewrite Ef, Hd. exact E.
    + done.
    + done.
  - destruct (undivided (S fuel) env b w Hok Hz Hb Hi Ef) as (r & E & Hs & Hr & _). exists [r]. eexists. split; [exact E|]. split_and!; [done|done| |by repeat constructor].
    cbn. by rewrite app_nil_r.
Qed.

(** ** The ends of the sectors *)

(** the error the container keeps *)
Definition kept_error (e0 : Z) (ends : list (tbio * Z)) : Z := foldl (fun e x => if negb (x.2 =? 0) then x.2 else e) e0 ends.

Lemma kept_error_some ends : forall e, e <> 0 -> kept_error e ends <> 0.
Proof. induction ends as [|x l IH]; intros e He; [done|]. cbn. destruct (Z.eqb_spec x.2 0); cbn; by apply IH. Qed.

Lemma kept_error_none ends : kept_error 0 ends = 0 <-> Forall (fun x => x.2 = 0) ends.
Proof.
  induction ends as [|x l IH]; [by split|]. cbn. rewrite Forall_cons. destruct (Z.eqb_spec x.2 0) as [Ex|Ex]; cbn; [by rewrite IH; intuition|].
  split; [intros H; by apply kept_error_some in H|by intros [? _]].
Qed.

Definition after_ends (bc : Z) (n : Z) (b : tbio) (e : Z) (w : ttc_world) : ttc_world :=
  set_split_bcs (delete bc (split_bcs w)) (set_tt_routed (tt_routed w ++ [Ended b e]) (set_tt_bios (tt_bios w - n) w)).

Lemma split_ended bc b ends : forall n e0 w, split_bcs w !! bc = Some (mk_split n b e0) -> Forall (fun x => tb_bc x.1 = Some bc) ends ->
  Z.of_nat (length ends) = n -> 0 < n < 2 ^ 31 ->
  mfor ends (fun x => eio_split_endio x.1 x.2) w = Some (tt, after_ends bc n b (kept_error e0 ends) w).
Proof.
  induction ends as [|x ends IH]; intros n e0 w Hs Hall Hlen Hn; [cbn in Hlen; lia|]. apply Forall_cons in Hall as [Hx Hall].
  cbn [length] in Hlen. cbn [mfor]. unfold eio_split_endio at 1. rewrite Hx. rewrite bind_bind. rewrite (bind_run (lift (Some bc)) _ _ bc _ eq_refl).
  rewrite bind_bind, (bind_eval (fun w => split_bcs w !! bc) _ w _ Hs). cbn [sp_error sp_bio sp_holdcount]. mrun.
  assert (Ei : i32 (n - 1) = n - 1).
  { unfold i32. rewrite Z.mod_small; lia. }
  rewrite Ei. set (e1 := if negb (x.2 =? 0) then x.2 else e0). unfold set_split_bcs at 1. cbn [split_bcs set_tt_bios].
  destruct (Z.eqb_spec (n - 1) 0) as [E1|E1]; cbn [when].
  - assert (ends = []) as -> by (apply length_zero_iff_nil; lia). unfold route. mrun. cbn [mfor]. unfold ret, after_ends. cbn. fold e1.
    rewrite delete_insert_eq. replace n with 1 by lia. done.
  - mrun. rewrite (IH (n - 1) e1); [|cbn; by rewrite lookup_insert_eq|done|lia|lia].
    unfold after_ends. cbn. fold e1. rewrite delete_insert_eq. do 2 f_equal. unfold set_split_bcs, set_tt_routed, set_tt_bios. cbn. f_equal. lia.
Qed.
