(* ===== verification/TtcCorrectness.v ===== *)
(** * The properties of the registration and interception, with instances

    The concrete disk has two partitions, each the source of a cache. *)

From S2P Require Import Prelude Types World Superblock Suspend Ttc TtcReg TtcRoute.

(** ** A disk with two cached partitions *)
Definition tc_disk : Z := 8 * 2 ^ 20.
Definition tc_part1 : block_device := mk_bdev (tc_disk + 1) tc_disk 2048 1000.
Definition tc_part2 : block_device := mk_bdev (tc_disk + 2) tc_disk 4096 1000.
Definition tc_ssd : block_device := mk_bdev (tc_disk + 16) (tc_disk + 16) 0 8000.
Definition tc_boot : ttc_world := mk_ttcw ∅ {[ tc_disk := MfnOther 7 ]} [] [] ∅ 0 [].
Definition tc_run {A} (m : M ttc_world A) (w : ttc_world) : ttc_world := match m w with Some (_, w') => w' | None => w end.
Definition tc_one : ttc_world := tc_run (eio_ttc_activate 1 [97] (Some tc_part1)) (eio_ttc_init tc_boot).
Definition tc_two : ttc_world := tc_run (eio_ttc_activate 2 [98] (Some tc_part2)) tc_one.
Definition tc_cache1 : ttc_cache := mk_ttc 1 [97] tc_part1 2048 3047 EIO_DEV_PARTITION (MfnOther 7).
Definition tc_cache2 : ttc_cache := mk_ttc 2 [98] tc_part2 4096 5095 EIO_DEV_PARTITION (MfnOther 7).

Lemma tc_boot_mfn disk : queue_mfn tc_boot !!! disk <> MfnEio.
Proof.
  cbn. unfold lookup_total, map_lookup_total. destruct (decide (tc_disk = disk)) as [<-|Hne]; [by rewrite lookup_singleton_eq|by rewrite lookup_singleton_ne].
Qed.
Lemma tc_init_empty i : bucket (eio_ttc_init tc_boot) i = [].
Proof.
  unfold bucket, eio_ttc_init. cbn. unfold lookup_total, map_lookup_total. destruct (_ !! i) as [l|] eqn:E; [|done].
  apply elem_of_list_to_map_2 in E. by apply list_elem_of_fmap in E as (j & [= -> ->] & _).
Qed.
Lemma tc_init_ok : ttc_ok (eio_ttc_init tc_boot).
Proof. apply ttc_init_ok, tc_boot_mfn. Qed.
Lemma tc_activated dmc name b ssd w : ttc_ok w -> eio_do_preliminary_checks name b ssd w = 0 ->
  eio_ttc_activate dmc name (Some b) w = Some (0, tc_run (eio_ttc_activate dmc name (Some b)) w).
Proof. intros Hok Hp. destruct (ttc_activate_run dmc name b w Hok (prelim_no_conflict _ _ _ _ Hp)) as (w' & E & _). unfold tc_run. by rewrite E. Qed.
Lemma tc_one_prelim : eio_do_preliminary_checks [97] tc_part1 tc_ssd (eio_ttc_init tc_boot) = 0.
Proof. vm_compute. reflexivity. Qed.
Lemma tc_one_run : eio_do_preliminary_checks [97] tc_part1 tc_ssd (eio_ttc_init tc_boot) = 0 /\ eio_ttc_activate 1 [97] (Some tc_part1) (eio_ttc_init tc_boot) = Some (0, tc_one).
Proof. split; [exact tc_one_prelim|]. exact (tc_activated 1 [97] tc_part1 tc_ssd _ tc_init_ok tc_one_prelim). Qed.
Lemma tc_one_buckets i : bucket tc_one i = if decide (EIO_HASH_BDEV tc_disk = i) then [tc_cache1] else [].
Proof.
  destruct (activate_effect 1 [97] tc_part1 _ _ tc_init_ok (prelim_no_conflict _ _ _ _ tc_one_prelim) (proj2 tc_one_run)) as (Hb & _). rewrite Hb, !tc_init_empty. change (bd_contains tc_part1) with tc_disk. case_decide; [|done].
  unfold activated. rewrite tc_init_empty. done.
Qed.
Lemma tc_one_ok : ttc_ok tc_one.
Proof.
  eapply ttc_step_ok; [apply tc_init_ok|]. eapply (ts_activate 1 [97] tc_part1 tc_ssd 0); [|apply tc_one_run|apply tc_one_run].
  intros i c Hc. rewrite tc_init_empty in Hc. by apply elem_of_nil in Hc.
Qed.
Lemma tc_two_prelim : eio_do_preliminary_checks [98] tc_part2 tc_ssd tc_one = 0.
Proof. vm_compute. reflexivity. Qed.
Lemma tc_two_run : eio_do_preliminary_checks [98] tc_part2 tc_ssd tc_one = 0 /\ eio_ttc_activate 2 [98] (Some tc_part2) tc_one = Some (0, tc_two).
Proof. split; [exact tc_two_prelim|]. exact (tc_activated 2 [98] tc_part2 tc_ssd _ tc_one_ok tc_two_prelim). Qed.
Lemma tc_two_buckets i : bucket tc_two i = if decide (EIO_HASH_BDEV tc_disk = i) then [tc_cache1; tc_cache2] else [].
Proof.
  destruct (activate_effect 2 [98] tc_part2 _ _ tc_one_ok (prelim_no_conflict _ _ _ _ tc_two_prelim) (proj2 tc_two_run)) as (Hb & _). rewrite Hb, tc_one_buckets. change (bd_contains tc_part2) with tc_disk. case_decide; [|done].
  unfold activated. rewrite !tc_one_buckets. change (bd_contains tc_part2) with tc_disk. rewrite decide_True by done. done.
Qed.
Lemma tc_reach : rtc ttc_step (eio_ttc_init tc_boot) tc_two.
Proof.
  eapply rtc_l; [|eapply rtc_l; [|apply rtc_refl]].
  - eapply (ts_activate 1 [97] tc_part1 tc_ssd 0); [|apply tc_one_run|apply tc_one_run].
    intros i c Hc. rewrite tc_init_empty in Hc. by apply elem_of_nil in Hc.
  - eapply (ts_activate 2 [98] tc_part2 tc_ssd 0); [|apply tc_two_run|apply tc_two_run].
    intros i c Hc. rewrite tc_one_buckets in Hc. case_decide; [apply list_elem_of_singleton in Hc as ->; cbn; lia|by apply elem_of_nil in Hc].
Qed.
Lemma tc_two_ok : ttc_ok tc_two.
Proof. eapply ttc_reachable_ok; [apply tc_boot_mfn|apply tc_reach]. Qed.
Lemma tc_two_disks : disks_ok tc_two.
Proof.
  intros i c Hc. rewrite tc_two_buckets in Hc. case_decide; [|by apply elem_of_nil in Hc].
  apply elem_of_cons in Hc as [->|Hc]; [|apply list_elem_of_singleton in Hc as ->]; (split_and!; [cbn; lia|cbn; lia|cbn; lia|done]).
Qed.

(** the third sector of the bio is the first of the second partition *)
Definition tc_bio (sector size : Z) : tbio := mk_tbio (mk_bio sector size 0 [mk_bvec 50 1024 0; mk_bvec 51 4096 512] READ false 0) tc_disk None.
Lemma tc_bio_ok sector n : 0 <= sector < 2 ^ 20 -> 0 < n <= 10 -> tbio_ok (tb_bio (tc_bio sector (to_bytes n))).
Proof.
  intros Hs Hn. split; cbn [tb_bio tc_bio bi_size bi_sector bi_idx bi_io_vec].
  - exists n. split; [done|lia].
  - rewrite sectors_of_bytes by lia. lia.
  - done.
  - repeat constructor; [by exists 2|by exists 8].
  - rewrite sectors_of_bytes by lia. change (bio_slots _) with (vec_slots (mk_bvec 50 1024 0) ++ vec_slots (mk_bvec 51 4096 512) ++ []). rewrite !length_app.
    change (Z.of_nat (length (vec_slots (mk_bvec 50 1024 0)) + (length (vec_slots (mk_bvec 51 4096 512)) + length (@nil (Z * Z))))) with 10. lia.
Qed.

(** ** The table *)

(** C12: whatever caches are activated, each after the preliminary checks of its
    creation, and deactivated, in any order: the caches of a disk are one cache
    of the whole disk or caches of different partitions, all of which keep the
    same original request function; the disk's queue calls the driver exactly
    while the disk has a cache; and neither operation panics. *)
Theorem registry_invariant w0 w : (forall disk, queue_mfn w0 !!! disk <> MfnEio) -> rtc ttc_step (eio_ttc_init w0) w ->
  ttc_ok w /\
  (forall dmc name b ssd, eio_do_preliminary_checks name b ssd w = 0 -> exists w', eio_ttc_activate dmc name (Some b) w = Some (0, w')) /\
  (forall i c, c ∈ bucket w i -> exists w', ttc_unregister c w = Some (tt, w')).
Proof.
  intros Hq Hr. pose proof (ttc_reachable_ok _ _ Hq Hr) as Hok. split_and!; [done| |].
  - intros dmc name b ssd Hp. destruct (ttc_activate_run dmc name b w Hok (prelim_no_conflict _ _ _ _ Hp)) as (w' & E & _). by exists w'.
  - intros i c Hc. pose proof (to_place _ Hok _ _ Hc) as ->. destruct (ttc_unregister_run c w Hok Hc) as (w' & E & _). by exists w'.
Qed.
Lemma registry_invariant_witness : ttc_ok tc_two /\
  (forall dmc name b ssd, eio_do_preliminary_checks name b ssd tc_two = 0 -> exists w', eio_ttc_activate dmc name (Some b) tc_two = Some (0, w')) /\
  (forall i c, c ∈ bucket tc_two i -> exists w', ttc_unregister c tc_two = Some (tt, w')).
Proof. apply (registry_invariant tc_boot); [apply tc_boot_mfn|apply tc_reach]. Defined.

(** deactivating a cache that was just activated gives back the table and the
    request functions of all queues. *)
Theorem activate_deactivate dmc name b w w1 : ttc_ok w -> no_conflict b w -> unused dmc w -> eio_ttc_activate dmc name (Some b) w = Some (0, w1) ->
  exists c w2, bucket w1 (EIO_HASH_BDEV (bd_contains b)) = bucket w (EIO_HASH_BDEV (bd_contains b)) ++ [c] /\
    ttc_unregister c w1 = Some (tt, w2) /\ (forall i, bucket w2 i = bucket w i) /\ (forall disk, queue_mfn w2 !!! disk = queue_mfn w !!! disk).
Proof.
  intros Hok Hn Hu Hrun. pose proof (ttc_activate_ok dmc name b w w1 Hok Hn Hu Hrun) as Hok1.
  destruct (activate_effect dmc name b w w1 Hok Hn Hrun) as (Hb & Hq).
  set (a := activated dmc name b w) in *. set (idx := EIO_HASH_BDEV (bd_contains b)) in *.
  assert (Ha : bucket w1 idx = bucket w idx ++ [a]) by by rewrite Hb, decide_True.
  assert (Ho : others a w1 = bucket w idx).
  { unfold others. change (EIO_HASH_BDEV (bd_contains (tc_bdev a))) with idx. rewrite Ha, List.filter_app. cbn. rewrite Z.eqb_refl. cbn. rewrite app_nil_r.
    assert (G : forall l, (forall c, c ∈ l -> tc_dmc c <> dmc) -> List.filter (fun c1 => negb (tc_dmc c1 =? dmc)) l = l).
    { induction l as [|x l IH]; intros H; [done|]. cbn. rewrite (proj2 (Z.eqb_neq _ _)) by (apply H, elem_of_cons; by left). cbn. f_equal. apply IH. intros c Hc. apply H, elem_of_cons. by right. }
    apply G. intros c Hc. by eapply Hu. }
  destruct (ttc_unregister_run a w1 Hok1) as (w2 & E2 & Hb2 & Hq2).
  { change (EIO_HASH_BDEV (bd_contains (tc_bdev a))) with idx. rewrite Ha. apply elem_of_app. right. by apply list_elem_of_singleton. }
  exists a, w2. split_and!; [done|done| |].
  - intros i. rewrite Hb2. change (EIO_HASH_BDEV (bd_contains (tc_bdev a))) with idx. destruct (decide (idx = i)) as [<-|Hne]; [done|]. by rewrite Hb, decide_False.
  - intros disk. rewrite Hq2, Ho. change (bd_contains (tc_bdev a)) with (bd_contains b). change (tc_bdev a) with b.
    destruct (decide (bd_contains b = disk /\ existsb (same_disk b) (bucket w idx) = false)) as [[<- Hf]|Hd].
    + cbn. destruct (kept_mfn _ _) as [f|] eqn:Ek; [|done]. exfalso. apply kept_some in Ek as (c & Hc & Hc2 & _). apply not_true_iff_false in Hf. apply Hf.
      apply existsb_exists. exists c. split; [by apply list_elem_of_In|by apply same_disk_iff].
    + rewrite Hq. destruct (decide (bd_contains b = disk)) as [<-|Hne]; [|done]. symmetry. apply (to_queue _ Hok).
      destruct (existsb (same_disk b) (bucket w idx)) eqn:Ex; [|exfalso; by apply Hd]. apply existsb_exists in Ex as (c & Hc & Hc2).
      exists c. split; [by apply list_elem_of_In|by apply same_disk_iff].
Qed.
Lemma activate_deactivate_witness : exists c w2, bucket tc_two (EIO_HASH_BDEV tc_disk) = bucket tc_one (EIO_HASH_BDEV tc_disk) ++ [c] /\
  ttc_unregister c tc_two = Some (tt, w2) /\ (forall i, bucket w2 i = bucket tc_one i) /\ (forall disk, queue_mfn w2 !!! disk = queue_mfn tc_one !!! disk).
Proof.
  apply (activate_deactivate 2 [98] tc_part2 tc_one tc_two tc_one_ok (prelim_no_conflict _ _ _ _ (proj1 tc_two_run))); [|apply tc_two_run].
  intros i c Hc. rewrite tc_one_buckets in Hc. destruct (decide _) in Hc; [apply list_elem_of_singleton in Hc as ->; cbn; lia|by apply elem_of_nil in Hc].
Defined.

(** activation alone looks at the first cache of the disk only: it takes the
    second partition again *)
Example partition_registered_twice : exists w', eio_ttc_activate 3 [99] (Some tc_part2) tc_two = Some (0, w') /\
  map tc_bdev (bucket w' (EIO_HASH_BDEV tc_disk)) = [tc_part1; tc_part2; tc_part2].
Proof. eexists. split; [vm_compute; reflexivity|vm_compute; reflexivity]. Qed.

(** ** Interception *)

(** C8: [eio_make_request_fn] sends every sector of a bio, with the part of its
    pages that holds it, to the cache that owns the sector, numbered from the
    start of the volume, or to the request function the disk had before, as
    [sector_dest] says; each bio sent keeps direction and flags.  So does a bio
    that is partly in cached partitions and is cut into its sectors.  The
    function returns, and no lookup is repeated.  No cached partition may lie
    strictly inside the bio. *)
Theorem make_request_correct fuel env b w : ttc_ok w -> disks_ok w -> all_true (tt_kmalloc w) -> tbio_ok (tb_bio b) ->
  none_inside (tb_bio b) (tb_bdev b) w -> bi_discard (tb_bio b) = false ->
  exists rs w', eio_make_request_fn (S (S fuel)) env b w = Some (tt, w') /\ tt_routed w' = tt_routed w ++ rs /\
    same_table w w' /\ concat (map served rs) = dests w (tb_bdev b) (bio_sectors (tb_bio b)) /\ Forall (same_request b) rs.
Proof. apply make_request_run. Qed.
Lemma make_request_correct_witness : exists rs w', eio_make_request_fn 2 [] (tc_bio 4094 4096) tc_two = Some (tt, w') /\ tt_routed w' = tt_routed tc_two ++ rs /\
  same_table tc_two w' /\ concat (map served rs) = dests tc_two tc_disk (bio_sectors (tb_bio (tc_bio 4094 4096))) /\ Forall (same_request (tc_bio 4094 4096)) rs.
Proof.
  apply (make_request_correct 0 [] (tc_bio 4094 4096) tc_two tc_two_ok tc_two_disks); [constructor|apply (tc_bio_ok 4094 8); lia| |done].
  intros c Hc _ _. rewrite tc_two_buckets in Hc. change (tb_bdev _) with tc_disk in Hc. rewrite decide_True in Hc by done. change (bio_last _) with 4101.
  change (bi_sector _) with 4094. apply elem_of_cons in Hc as [->|Hc]; [|apply list_elem_of_singleton in Hc as ->]; cbn; lia.
Defined.

(** where its first and its third sector go *)
Example make_request_example : dests tc_two tc_disk (take 3 (bio_sectors (tb_bio (tc_bio 4094 4096)))) =
  [(DMfn (MfnOther 7) 4094, (50, 0)); (DMfn (MfnOther 7) 4095, (50, 512)); (DCache 2 0, (51, 512))].
Proof. vm_compute. reflexivity. Qed.

(** C23: a bio that was cut into sectors ends exactly once: after the sectors have
    ended, in any order and each with success or an error, the bio has ended,
    with success exactly if all of them have, and the container and all bios
    that were allocated are free again. *)
Theorem divided_bio_ends_once fuel env b w : ttc_ok w -> disks_ok w -> all_true (tt_kmalloc w) -> tbio_ok (tb_bio b) ->
  exists rs w1, eio_overlap_split_bio (eio_make_request_fn (S fuel) env) b w = Some (tt, w1) /\ tt_routed w1 = tt_routed w ++ rs /\
    forall ends, map fst ends ≡ₚ map routed_bio rs -> exists e w2,
      mfor ends (fun x => eio_split_endio x.1 x.2) w1 = Some (tt, w2) /\ tt_routed w2 = tt_routed w1 ++ [Ended b e] /\
      (e = 0 <-> Forall (fun x => x.2 = 0) ends) /\ split_bcs w2 = split_bcs w /\ tt_bios w2 = tt_bios w.
Proof.
  intros Hok Hz Ha Hb. destruct (divided fuel env b w Hok Hz Ha Hb) as (bc & ks & rs & E & Hbc & _ & Hrs & Hlen).
  destruct (bio_nsect _ Hb) as (n & En & Hn & _). cbv zeta in E. rewrite En in *.
  exists rs. eexists. split; [exact E|]. split; [done|]. intros ends Hp. set (w1 := add_routed _ _).
  assert (Hlen' : Z.of_nat (length ends) = n) by (rewrite <-(length_map fst), (Permutation_length Hp), length_map; done).
  assert (Hin : Forall (fun x => tb_bc x.1 = Some bc) ends).
  { apply Forall_forall. intros x Hx. assert (Hm : x.1 ∈ map routed_bio rs) by (rewrite <-Hp; by apply list_elem_of_fmap_2).
    apply list_elem_of_fmap in Hm as (r & -> & Hr). rewrite Forall_forall in Hrs. by destruct (Hrs r Hr) as [_ ?]. }
  exists (kept_error 0 ends), (after_ends bc n b (kept_error 0 ends) w1). split_and!.
  - apply split_ended; [|done|done|done]. subst w1. cbn. by rewrite lookup_insert_eq.
  - done.
  - apply kept_error_none.
  - subst w1. cbn. by rewrite delete_insert_id.
  - subst w1. cbn. lia.
Qed.
Lemma divided_bio_ends_once_witness : exists rs w1, eio_overlap_split_bio (eio_make_request_fn 1 []) (tc_bio 4094 4096) tc_two = Some (tt, w1) /\ tt_routed w1 = tt_routed tc_two ++ rs /\
  forall ends, map fst ends ≡ₚ map routed_bio rs -> exists e w2,
    mfor ends (fun x => eio_split_endio x.1 x.2) w1 = Some (tt, w2) /\ tt_routed w2 = tt_routed w1 ++ [Ended (tc_bio 4094 4096) e] /\
    (e = 0 <-> Forall (fun x => x.2 = 0) ends) /\ split_bcs w2 = split_bcs tc_two /\ tt_bios w2 = tt_bios tc_two.
Proof. apply (divided_bio_ends_once 0 [] (tc_bio 4094 4096) tc_two tc_two_ok tc_two_disks); [constructor|apply (tc_bio_ok 4094 8); lia]. Defined.

(** C39: a bio in which a whole cached partition lies, and that begins before and
    ends behind it, does not count as overlapping: all of it goes to the disk's
    own function, although the cache owns the sectors in the middle. *)
Theorem contained_partition_bypassed fuel env b w c : ttc_ok w -> tbio_ok (tb_bio b) ->
  bucket w (EIO_HASH_BDEV (tb_bdev b)) = [c] -> on_disk (tb_bdev b) c -> wholedisk (tc_bdev c) = false ->
  bi_sector (tb_bio b) < dev_start_sect c -> dev_end_sect c < bio_last (tb_bio b) ->
  eio_make_request_fn (S fuel) env b w = Some (tt, routed_to w (ToMfn (origmfn c) b)) /\
  forall s, dev_start_sect c <= s <= dev_end_sect c -> sector_dest w (tb_bdev b) s = DCache (tc_dmc c) (s - dev_start_sect c).
Proof.
  intros Hok Hb Hl Hd Hw H1 H2. assert (Hc : c ∈ bucket w (EIO_HASH_BDEV (tb_bdev b))) by (rewrite Hl; by apply list_elem_of_singleton).
  pose proof (co_mfn _ (to_cache _ Hok _ _ Hc)) as Hm. split.
  - cbn [eio_make_request_fn]. mrun. unfold id. cbv zeta. rewrite Hl. cbn [mfn_lookup]. rewrite (proj2 (Z.eqb_eq _ _) Hd). cbn [negb].
    rewrite (proj1 (wholedisk_info c (to_cache _ Hok _ _ Hc))), Hw.
    unfold bio_within, bio_overlaps. rewrite (proj2 (Z.leb_gt (dev_start_sect c) (bi_sector (tb_bio b)))) by lia.
    rewrite (proj2 (Z.leb_gt (bio_last (tb_bio b)) (dev_end_sect c))) by lia. rewrite !andb_false_r. cbn. by destruct (origmfn c).
  - intros s Hs. unfold sector_dest, owner. rewrite Hl. cbn [List.find]. unfold holds_sector. rewrite (proj2 (Z.eqb_eq _ _) Hd), Hw.
    rewrite (proj2 (Z.leb_le (dev_start_sect c) s)), (proj2 (Z.leb_le s (dev_end_sect c))) by lia. done.
Qed.
Definition tc_span : tbio := mk_tbio (mk_bio 2000 (to_bytes 2000) 0 [mk_bvec 50 (to_bytes 2000) 0] READ false 0) tc_disk None.
Lemma contained_partition_bypassed_witness : eio_make_request_fn 1 [] tc_span tc_one = Some (tt, routed_to tc_one (ToMfn (MfnOther 7) tc_span)) /\
  forall s, 2048 <= s <= 3047 -> sector_dest tc_one tc_disk s = DCache 1 (s - 2048).
Proof.
  apply (contained_partition_bypassed 0 [] tc_span tc_one tc_cache1 tc_one_ok); [|by rewrite tc_one_buckets, decide_True|done|done|cbn; lia|].
  - split; [exists 2000; split; [done|lia]|split; [cbn; lia|vm_compute; discriminate]|done|repeat constructor; by exists 2000|vm_compute; discriminate].
  - change (bio_last (tb_bio tc_span)) with 3999. cbn. lia.
Defined.
