(* ===== verification/Create.v ===== *)
(** * Creating a cache ([eio_conf.c])

    [eio_cache_create] opens the two devices, checks the options, loads the
    metadata of the SSD or makes new ones, builds the sets, counts the valid and
    the dirty blocks, and activates the cache.  The labels [bad6] ... [bad1]
    undo what was done. *)

From S2P Require Import Prelude Types Mem DList SetLru Scan Policy World Dispatch Disk Clean CleanThread Lookup Thresh WbAlloc Superblock MdStore MdCreate MdLoad Suspend Recovery Sysctl Edit Ttc.

Definition EFBIG : Z := 27.
Definition EIO_MAX_ASSOC : Z := 8192.
Definition DEFAULT_CACHE_ASSOC : Z := 512.
Definition DEFAULT_CACHE_BLKSIZE : Z := 8.
Definition CACHE_MODE_DEFAULT : Z := CACHE_MODE_WT.
Definition DIRTY_HIGH_THRESH_DEF : Z := 30.
Definition DIRTY_LOW_THRESH_DEF : Z := 10.
Definition DIRTY_SET_HIGH_THRESH_DEF : Z := 100.
Definition DIRTY_SET_LOW_THRESH_DEF : Z := 30.
Definition AUTOCLEAN_THRESH_DEF : Z := 128.
Definition CLEAN_FACTOR (sectors : Z) : Z := Z.shiftr sectors 25.
Definition TIME_BASED_CLEAN_INTERVAL_DEF (cache_size : Z) : Z :=
  u32 (if negb (CLEAN_FACTOR cache_size =? 0) then CLEAN_FACTOR cache_size else 1).

(** ** The request and the world *)

(** [struct cache_rec_short]; [char] options are signed, strings end before NUL *)
Record cache_rec_short := mk_rec {
  cr_name : list Z; cr_src_devname : list Z; cr_ssd_devname : list Z; cr_ssd_uuid : list Z;
  cr_ssd_dev_size : Z; cr_ssd_sector_size : Z; cr_flags : Z;
  cr_policy : Z; cr_mode : Z; cr_persistence : Z; cr_cold_boot : Z; cr_blksize : Z; cr_assoc : Z
}.

(** a block device that was opened: its number and place, its name in the driver
    model, and what of it the driver reads *)
Record opened_dev := mk_opened {
  od_bdev : block_device;
  od_name : option (list Z);       (* dev_name(bd_disk->driverfs_dev) *)
  od_dev : ssd_dev
}.

(** the whole of a cache's administration: the cache ([ad_ctl]), the table of
    caches, [cache_list_head], and what the cache holds of the kernel *)
Record adm := mk_adm {
  ad_ctl : cache_ctl;
  ad_ttc : ttc_world;
  cache_list : list Z;             (* the chain at cache_list_head *)
  ad_names : cache_names;
  ad_dmc : bool;                   (* the memory of the cache is allocated *)
  ad_src : bool; ad_ssd : bool;    (* disk_dev and cache_dev are open *)
  ad_callback_q : bool             (* callback_q exists *)
}.
Definition set_ad_ctl v (w : adm) := {| w with ad_ctl := v |}.
Definition set_ad_ttc v (w : adm) := {| w with ad_ttc := v |}.
Definition set_cache_list v (w : adm) := {| w with cache_list := v |}.
Definition set_ad_names v (w : adm) := {| w with ad_names := v |}.
Definition set_ad_dmc v (w : adm) := {| w with ad_dmc := v |}.
Definition set_ad_src v (w : adm) := {| w with ad_src := v |}.
Definition set_ad_ssd v (w : adm) := {| w with ad_ssd := v |}.
Definition set_ad_callback_q v (w : adm) := {| w with ad_callback_q := v |}.

Definition adm_run {A} (m : M cache_ctl A) : M adm A := fun w =>
  match m (ad_ctl w) with Some (a, c) => Some (a, set_ad_ctl c w) | None => None end.
Definition ad_conf_run {A} (m : M conf_world A) : M adm A := adm_run (ct_conf_run m).
Definition ad_upd (f : cache_c -> cache_c) : M adm unit := adm_run (ct_upd f).
Definition ad_on_ttc {A} (m : M ttc_world A) : M adm A := fun w =>
  match m (ad_ttc w) with Some (a, t) => Some (a, set_ad_ttc t w) | None => None end.
Definition ad_d (w : adm) : cache_c := ct_d (ad_ctl w).

(** [kzalloc] *)
Definition zero_cache : cache_c :=
  mk_cache_c 0 0 0 0 0 0 0 0 0 0 0 0 0 0 0 0 0 0 0 0 0 0 None (mk_sysctl 0 0 0 0 0 0 0 0 0 0 0 0)
    ∅ ∅ 0 0 ∅ SpNull ∅ 0 0 [] 0 0 0 None 0 0 [] 0 ∅ no_stats (mk_errors 0 0 0 0 0 0 0).
Definition kzalloc_dmc (c : cache_ctl) : cache_ctl :=
  let s := ct_sys c in
  let w := sy_conf s in
  let cw := {| (cf_cw w) with cw_d := zero_cache; clean_dbvecs := []; clean_mdpages := [] |} in
  let w := {| w with cf_cw := cw; cf_cache_size := 0; disk_devname := []; cache_devname := []; ssd_uuid := []; cache_name := [] |} in
  let s := {| s with sy_conf := w; sysctl_pending := sysctl_active zero_cache; sysctl_handle_common := None; sysctl_handle_writeback := None;
                     sysctl_handle_invalidate := None; clean_aged_sets_delay := None |} in
  {| c with ct_sys := s; ct_dbvecs := None; ct_dbvec_count := 0; ct_mdpages := None; ct_mdpage_count := 0; ct_mdupdate_q := false; ct_clean_thread := false |}.

Section create.
Context (cr : cache_rec_short) (dmc : Z) (sizeof_cache_set : Z) (jiffies : Z -> Z) (systime HZ : Z).

(** a step answers [None] to go on, [Some error] to jump to its label *)
Definition go : option Z := None.
Definition fail {S} (error : Z) : M S (option Z) := ret (Some error).
Definition unless_failed {S} (r : option Z) (k : M S (option Z)) : M S (option Z) :=
  match r with Some e => ret (Some e) | None => k end.

(** ** Options *)
Definition set_names (w : conf_world) : conf_world :=
  {| w with disk_devname := take DEV_PATHLEN (cr_src_devname cr); cache_devname := take DEV_PATHLEN (cr_ssd_devname cr);
            cache_name := take (DEV_PATHLEN - 1) (cr_name cr); ssd_uuid := take (DEV_PATHLEN - 1) (cr_ssd_uuid cr) |}.

Definition create_options : M conf_world (option Z) :=
  conf_upd (fun d => set_policy_ops None (set_sp_cache_set SpNull (set_sp_cache_blk ∅ d))) ;;
  let policy := u32 (cr_policy cr) in
  when (negb (cr_policy cr =? 0)) (conf_upd (set_req_policy policy)) ;;
  if negb (cr_policy cr =? 0) && ((policy <? CACHE_REPL_FIFO) || (CACHE_REPL_RANDOM <? policy)) then fail (- EINVAL)
  else
    let md := u32 (cr_mode cr) in
    when (negb (cr_mode cr =? 0)) (conf_upd (set_mode md)) ;;
    if negb (cr_mode cr =? 0) && ((md <? CACHE_MODE_WB) || (CACHE_MODE_WT <? md)) then fail (- EINVAL)
    else
      conf_upd (fun d => {| d with cold_boot := u32 (cr_cold_boot cr) |}) ;;
      if negb (cr_cold_boot cr =? 0) && negb (u32 (cr_cold_boot cr) =? BOOT_FLAG_COLD_ENABLE) then fail (- EINVAL)
      else
        let persistence := u32 (cr_persistence cr) in
        if negb (cr_persistence cr =? 0) && ((persistence <? CACHE_RELOAD) || (CACHE_FORCECREATE <? persistence)) then fail (- EINVAL)
        else when (negb (cr_persistence cr =? 0)) (conf_upd (set_persistence persistence)) ;; ret go.

(** ** A reload; the second component is [persistence] *)
Definition create_load : M conf_world (option Z * Z) :=
  let persist := if negb (cr_persistence cr =? 0) then u32 (cr_persistence cr) else 0 in
  if persist =? CACHE_RELOAD then
    r <- eio_md_load ;;
    d <- gets cf_d ;;
    ret (if negb (r =? 0) then Some (- EINVAL) else go, persistence d)
  else ret (go, persist).

Definition create_policy (persist : Z) : M conf_world (option Z) :=
  conf_upd (fun d => if mode d =? 0 then set_mode CACHE_MODE_DEFAULT d else d) ;;
  error <- (if negb (persist =? CACHE_RELOAD) then
              ok <- conf_kmalloc ;; pols <- gets cf_policies ;; conf_dmc (eio_policy_init ok pols)
            else ret 0) ;;
  if negb (error =? 0) then fail error
  else when (cr_flags cr =? 1) (conf_upd (set_flag CACHE_FLAGS_INVALIDATE)) ;; ret go.

(** ** The geometry of a new cache *)
Definition set_block_size (v : Z) (d : cache_c) : cache_c := {| d with block_size := v; block_shift := u32 (ffs_1 v) |}.
Definition set_assoc (v : Z) (d : cache_c) : cache_c := {| d with assoc := v |}.
Definition pow2_or_0 (x : Z) : bool := Z.land x (u32 (x - 1)) =? 0.

Definition create_block_size : M conf_world (option Z) :=
  let blksize := if negb (cr_blksize cr =? 0) && negb (cr_ssd_sector_size cr =? 0)
                 then u32 (EIO_DIV (cr_blksize cr) (cr_ssd_sector_size cr)) else DEFAULT_CACHE_BLKSIZE in
  if negb (pow2_or_0 blksize) then fail (- EINVAL)
  else conf_upd (set_block_size (if blksize =? 0 then DEFAULT_CACHE_BLKSIZE else blksize)) ;; ret go.

(** [ssd]: the SSD, [dmc->cache_dev] *)
Definition create_size (ssd : ssd_dev) : M conf_world (option Z) :=
  let size := eio_to_sector (eio_get_device_size ssd) in
  let size := if negb (size =? 0) then size
              else if negb (cr_ssd_dev_size cr =? 0) && negb (cr_ssd_sector_size cr =? 0)
                   then EIO_DIV (cr_ssd_dev_size cr) (cr_ssd_sector_size cr) else 0 in
  if size =? 0 then fail (- EINVAL)
  else conf_upd (set_dmc_size size) ;; modify (set_cf_cache_size size) ;; ret go.

Definition create_assoc : M conf_world (option Z) :=
  d <- gets cf_d ;;
  let a := if negb (cr_assoc cr =? 0) then u32 (cr_assoc cr) else DEFAULT_CACHE_ASSOC in
  if negb (cr_assoc cr =? 0) && (negb (pow2_or_0 a) || (EIO_MAX_ASSOC <? a) || (dmc_size d <? a)) then fail (- EINVAL)
  else
    let a := if a =? 0 then DEFAULT_CACHE_ASSOC else a in
    conf_upd (set_assoc a) ;;
    conf_upd (set_index_zero (u32 (a + 1))) ;;
    ret go.

(** too many sets: [error] is still 0 at the jump to [bad5] *)
Definition create_sets_limit : M conf_world (option Z) :=
  d <- gets cf_d ;;
  if 2 ^ 32 <=? EIO_DIV (eio_to_sector (disk_dev_size d)) (u32 (assoc d * block_size d)) then fail 0
  else conf_upd (fun d => {| d with consecutive_shift := u32 (ffs_1 (assoc d)) |}) ;; ret go.

Definition default_sysctl (cache_size : Z) (s : eio_sysctl) : eio_sysctl :=
  {| s with
     dirty_high_threshold := DIRTY_HIGH_THRESH_DEF; dirty_low_threshold := DIRTY_LOW_THRESH_DEF;
     dirty_set_high_threshold := DIRTY_SET_HIGH_THRESH_DEF; dirty_set_low_threshold := DIRTY_SET_LOW_THRESH_DEF;
     autoclean_threshold := AUTOCLEAN_THRESH_DEF; time_based_clean_interval := TIME_BASED_CLEAN_INTERVAL_DEF cache_size |}.

Definition create_md (persist : Z) : M conf_world (option Z) :=
  w <- gets id ;;
  conf_upd (fun d => set_sysctl_active (default_sysctl (cf_cache_size w) (sysctl_active d)) d) ;;
  error <- eio_md_create (negb (persist =? CACHE_CREATE)) true ;;
  ret (if negb (error =? 0) then Some error else go).

Definition create_geometry (ssd : ssd_dev) (persist : Z) : M conf_world (option Z) :=
  if persist =? CACHE_RELOAD then ret go
  else
    r <- create_block_size ;;
    unless_failed r (r <- create_size ssd ;;
    unless_failed r (r <- create_assoc ;;
    unless_failed r (r <- create_sets_limit ;;
    unless_failed r (create_md persist)))).

(** ** Label [init]: the sets *)

(** [sets_ok]: [vmalloc] of the sets succeeds *)
Definition create_sets (sets_ok : bool) : M conf_world (option Z) :=
  d <- gets cf_d ;;
  let n := Z.shiftr (dmc_size d) (consecutive_shift d) in
  avail <- eio_mem_available (u64 (n * sizeof_cache_set)) ;;
  if negb avail || negb sets_ok then conf_upd vfree_cache ;; fail (- ENOMEM)
  else
    conf_upd (set_cache_sets (list_to_map (map (fun i => (i, mk_cache_set 0 0 None)) (seqZ 0 n)))) ;;
    ok <- conf_kmalloc ;;
    error <- conf_dmc (fun d => eio_repl_sets_init (policy_ops d) ok d) ;;
    if error <? 0 then conf_upd (set_cache_sets ∅) ;; conf_upd vfree_cache ;; fail error
    else conf_dmc (fun d => eio_policy_lru_pushblks (policy_ops d) d) ;; ret go.

Definition create_wb : M cache_ctl (option Z) :=
  d <- gets ct_d ;;
  if mode d =? CACHE_MODE_WB then
    error <- ct_allocate_wb ;;
    if negb (error =? 0) then ct_upd (set_cache_sets ∅) ;; ct_upd vfree_cache ;; fail error
    else ret go
  else ret go.

(** ** The counters *)
Definition inc_set_dirty (set : Z) (d : cache_c) : cache_c :=
  set_cache_sets (<[set := {| (cache_sets d !!! set) with cs_nr_dirty := u32 (cs_nr_dirty (cache_sets d !!! set) + 1) |}]> (cache_sets d)) d.

Fixpoint count_cached (prev_set : Z) (blocks : list Z) : M cache_c unit :=
  match blocks with
  | [] => ret tt
  | i :: blocks =>
    d <- gets id ;;
    when (tst (EIO_CACHE_STATE_GET d i) VALID) (modify (upd_stats inc_cached_blocks)) ;;
    if tst (EIO_CACHE_STATE_GET d i) DIRTY then
      let cur_set := EIO_DIV i (assoc d) in
      modify (inc_set_dirty cur_set) ;;
      modify (fun d => set_nr_dirty (atomic64_inc (nr_dirty d)) d) ;;
      when (negb (prev_set =? cur_set)) (eio_touch_set_lru systime cur_set) ;;
      count_cached cur_set blocks
    else count_cached prev_set blocks
  end.

Definition create_sysctl (s : eio_sysctl) : eio_sysctl :=
  {| s with fast_remove := 0; zerostats := 0; do_clean := 0; mem_limit_pct := 75 |}.

(** ** The labels *)
Definition bad1 (error : Z) : M adm Z :=
  ad_upd eio_policy_free ;; modify (set_ad_dmc false) ;; ret error.
Definition bad2 (error : Z) : M adm Z := modify (set_ad_src false) ;; bad1 error.
Definition bad3 (error : Z) : M adm Z := modify (set_ad_ssd false) ;; bad2 error.
(** [eio_kcached_client_destroy] does nothing; [callback_q] is not destroyed *)
Definition bad5 (error : Z) : M adm Z := bad3 error.
Definition bad6 (error : Z) : M adm Z :=
  adm_run (ct_run eio_procfs_dtr) ;;
  d <- gets ad_d ;;
  when (mode d =? CACHE_MODE_WB) (adm_run (eio_stop_async_tasks jiffies systime) ;; adm_run eio_free_wb_resources) ;;
  ad_upd (set_cache_sets ∅) ;;
  ad_upd vfree_cache ;;
  modify (fun w => set_cache_list (List.filter (fun c => negb (c =? dmc)) (cache_list w)) w) ;;
  bad5 error.

(** ** The last part *)
Definition create_activate (src : block_device) : M adm Z :=
  ad_upd (fun d => set_sysctl_active (create_sysctl (sysctl_active d)) d) ;;
  ad_upd (set_clean_index 0) ;;
  ad_upd (set_nr_ios 0) ;;
  modify (fun w => set_cache_list (dmc :: cache_list w) w) ;;
  d <- gets ad_d ;;
  ad_conf_run (conf_dmc (count_cached (-1) (seqZ 0 (dmc_size d)))) ;;
  ad_upd cache_built ;;
  adm_run (ct_run eio_procfs_ctr) ;;
  w <- gets id ;;
  error <- ad_on_ttc (eio_ttc_activate dmc (cache_name (ct_conf (ad_ctl w))) (Some src)) ;;
  if negb (error =? 0) then bad6 error else ret 0.

Definition init_srcdev_name (src : opened_dev) (n : cache_names) : cache_names :=
  mk_names (cn_dmc n) (default [] (od_name src)) (cache_gendisk_name n).
Definition init_ssddev_name (ssd : opened_dev) (n : cache_names) : cache_names :=
  mk_names (cn_dmc n) (cache_srcdisk_name n) (default [] (od_name ssd)).

(** with both devices open *)
Definition create_opened (src ssd : opened_dev) (callback_q_ok sets_ok : bool) : M adm Z :=
  if bool_decide (cr_name cr = []) then bad3 (- EINVAL)
  else
    ad_conf_run (modify set_names) ;;
    ad_upd (fun d => {| d with cache_dev_start_sect := eio_get_device_start_sect (od_dev ssd) |}) ;;
    w <- gets id ;;
    let error := eio_do_preliminary_checks (cache_name (ct_conf (ad_ctl w))) (od_bdev src) (od_bdev ssd) (ad_ttc w) in
    if negb (error =? 0) then bad3 error
    else
      ad_upd (eio_init_ssddev_props (od_dev ssd)) ;;
      modify (fun w => set_ad_names (init_srcdev_name src (init_ssddev_name ssd (ad_names w))) w) ;;
      modify (set_ad_callback_q callback_q_ok) ;;
      if negb callback_q_ok then bad3 (- ENOMEM)
      else
        ad_upd (set_nr_jobs 0) ;;
        r <- ad_conf_run create_options ;;
        r <- (match r with
              | Some e => fail e
              | None =>
                rp <- ad_conf_run create_load ;;
                unless_failed rp.1 (r <- ad_conf_run (create_policy rp.2) ;;
                unless_failed r (r <- ad_conf_run (create_geometry (od_dev ssd) rp.2) ;;
                unless_failed r (r <- ad_conf_run (create_sets sets_ok) ;;
                unless_failed r (adm_run create_wb))))
              end) ;;
        match r with
        | Some error => bad5 error
        | None => create_activate (od_bdev src)
        end.

(** [src], [ssd]: the devices [eio_ttc_get_device] opens, or its error; the
    pointers it allocates are never equal *)
Definition eio_cache_create (kzalloc_ok callback_q_ok sets_ok : bool) (src ssd : Z + opened_dev) : M adm Z :=
  if negb kzalloc_ok then ret (- ENOMEM)
  else
    modify (fun w => set_ad_names (mk_names dmc [] []) (set_ad_callback_q false (set_ad_ssd false (set_ad_src false (set_ad_dmc true (set_ad_ctl (kzalloc_dmc (ad_ctl w)) w)))))) ;;
    match src with
    | inl error => bad1 error
    | inr src =>
      modify (set_ad_src true) ;;
      ad_upd (fun d => {| d with disk_dev_size := sd_size (od_dev src) |}) ;;
      ad_conf_run (conf_cw (modify (fun w => set_cw_k (dev_set HDD (sd_sectors (od_dev src)) (cw_k w)) w))) ;;
      if EIO_MAX_SECTOR <=? eio_to_sector (eio_get_device_size (od_dev src)) then bad2 (- EFBIG)
      else
        match ssd with
        | inl error => bad2 error
        | inr ssd =>
          modify (set_ad_ssd true) ;;
          ad_conf_run (attach_ssd (od_dev ssd)) ;;
          create_opened src ssd callback_q_ok sets_ok
        end
    end.
End create.
