(* ===== verification/CreateNew.v ===== *)
(** * Making a new cache

    On an SSD that does not fail, [eio_md_create] of a cache that was just
    allocated ends with success: every block is invalid in memory and on the
    SSD, and the superblock describes the cache. *)

From S2P Require Import Prelude Types Mem Scan Fifo Rand Lru Policy Lookup World Dispatch Disk Clean CleanThread CleanIo CleanState CleanSet WbAlloc Hits Superblock MdStore MdCreate MdLoad PageIo LoadLoop Recovery Saved Restart Suspend Gone Resume Cold.


(** ** The blocks *)
Lemma new_pass_run : forall blocks w, CACHE_SSD_ADD_INPROG_IS_SET (cf_d w) = false -> cold_pass blocks w = Some (true, conf_with (invalidated blocks (cf_d w)) w).
Proof.
  induction blocks as [|i blocks IH]; intros w Hadd; cbn [cold_pass invalidated foldl].
  { unfold conf_with. by rewrite with_md_same. }
  rewrite bind_gets, Hadd. cbn [andb].
  rewrite (bind_run _ _ _ _ _ (conf_dmc_run' (modify (fun d => eio_invalidate_md d i)) w tt _ eq_refl)). set (w1 := conf_with (eio_invalidate_md (cf_d w) i) w).
  rewrite (IH w1); [done|]. by rewrite (inprog_kept (cf_d w)) by apply invalidate_status.
Qed.

(** only the words differ, and no block is added *)
Lemma invalidated_form : forall blocks d, (forall i, i ∈ blocks -> i ∈ md_dom d) ->
  (exists c c8, invalidated blocks d = set_cache c (set_cache_md8 c8 d)) /\ md_dom (invalidated blocks d) = md_dom d.
Proof.
  induction blocks as [|i blocks IH]; intros d Hd; [split; [exists (cache d), (cache_md8 d); by destruct d|done]|].
  change (invalidated (i :: blocks) d) with (invalidated blocks (eio_invalidate_md d i)).
  assert (E : (exists c c8, eio_invalidate_md d i = set_cache c (set_cache_md8 c8 d)) /\ md_dom (eio_invalidate_md d i) = md_dom d).
  { assert (Hi : i ∈ md_dom d) by (apply Hd, elem_of_cons; by left). pose proof (layout_md8 _ _ (invalidate_layout d i)) as E8. unfold md_dom in *. rewrite E8. unfold eio_invalidate_md.
    destruct (EIO_MD8 d); cbn [cache cache_md8 set_cache set_cache_md8].
    - split; [exists (cache d), (<[i := EIO_MD8_INVALID]> (cache_md8 d)); by destruct d|]. rewrite dom_insert_L. set_solver.
    - split; [exists (<[i := EIO_MD4_INVALID]> (cache d)), (cache_md8 d); by destruct d|]. rewrite dom_insert_L. set_solver. }
  destruct E as [(c & c8 & E) Ed]. destruct (IH (eio_invalidate_md d i)) as [(c' & c8' & E') Ed'].
  - intros j Hj. rewrite Ed. apply Hd, elem_of_cons. by right.
  - split; [|by rewrite Ed', Ed]. rewrite E', E. exists c', c8'. by destruct d.
Qed.

(** ** The superblock *)
Lemma new_sb_run w sp l : no_device (cf_d w) = false -> cw_results (cf_cw w) = [] -> names_ok w -> cf_kmalloc w = [] -> fresh_pages (sp :: l) w ->
  let d' := {| (cf_d w) with sb_state := CACHE_MD_STATE_DIRTY; sb_version := EIO_SB_VERSION |} in
  exists ssd' w', md_create_sb w = Some (0, w') /\ admin_end w (pg_live (cf_kmem w)) l d' ssd' w' /\ conf_same w w' /\
    sb_updated (on_ssd (cw_k (cf_cw w))) (sb_of (conf_with d' w)) ssd'.
Proof.
  intros Hdev Hres Hnames Hk Hf d'. unfold md_create_sb. rewrite bind_gets, Hdev.
  assert (R1 : conf_upd (fun d => {| d with sb_state := CACHE_MD_STATE_DIRTY; sb_version := EIO_SB_VERSION |}) w = Some (tt, conf_with d' w)) by exact (conf_dmc_run' (modify _) w tt d' eq_refl).
  rewrite (bind_run _ _ _ _ _ R1). set (w1 := conf_with d' w).
  destruct (eio_sb_store_ok sp l w1) as (e & w2 & E & [Hr (mem & ssd & tr & nx & Ew2 & Hsb & Hkeep & _) Hnext]).
  { exact Hdev. } { by apply (names_ok_ext w). } { destruct Hf; by constructor. } { done. }
  rewrite (bind_run _ _ _ _ _ E). assert (Hn : next_res (cf_cw w1) = IoOk) by (unfold next_res; cbn; by rewrite Hres). rewrite Hn in Hr. assert (e = 0) as -> by done.
  exists ssd, w2. split; [done|]. split; [|split].
  - constructor; [by rewrite Ew2|by rewrite Ew2|by rewrite Ew2|by rewrite Ew2|done].
  - rewrite Ew2. by eexists _, _.
  - split; [|exact Hkeep]. rewrite (Hsb Hn). by apply sb_of_ext.
Qed.

(** ** The entries and the superblock *)
Definition empty_entry : flash_cacheblock := mk_flash 0 INVALID.
Definition sb_marked (d : cache_c) : cache_c := {| d with sb_state := CACHE_MD_STATE_DIRTY; sb_version := EIO_SB_VERSION |}.
Definition emptied (d : cache_c) : cache_c := sb_marked (invalidated (seqZ 0 (dmc_size d)) d).

(** what [md_create_cold] leaves *)
Record new_end (w : conf_world) (l : list Z) (d' : cache_c) (w' : conf_world) : Prop := {
  nd_same : conf_same w w';
  nd_d : cf_d w' = d';
  nd_live : pg_live (cf_kmem w') = pg_live (cf_kmem w);
  nd_fresh : fresh_pages l w';
  nd_sb : sb_read (sb_sectors (on_ssd (cw_k (cf_cw w')))) = sb_of (conf_with d' w);
  nd_md : md_written (md_start_sect d') (fun _ => empty_entry) (on_ssd (cw_k (cf_cw w'))) (dmc_size d');
  nd_hdd : on_hdd (cw_k (cf_cw w')) = on_hdd (cw_k (cf_cw w))
}.

Lemma new_cold_run w pages sp l : no_device (cf_d w) = false -> CACHE_SSD_ADD_INPROG_IS_SET (cf_d w) = false -> 0 <= dmc_size (cf_d w) ->
  cw_results (cf_cw w) = [] -> cf_kmalloc w = [] -> names_ok w -> fresh_pages (pages ++ sp :: l) w -> pages <> [] ->
  Z.of_nat (length pages) = Z.min (bio_nr_pages (cf_d w)) MD_MAX_NR_PAGES -> EIO_SUPERBLOCK_START + 8 <= md_start_sect (cf_d w) ->
  exists w', md_create_cold w = Some (0, w') /\ new_end w l (emptied (cf_d w)) w'.
Proof.
  intros Hdev Hadd Hsz Hres Hk Hnames Hf Hne Hlen Hstart. unfold md_create_cold, emptied. rewrite bind_gets. set (d := cf_d w) in *. set (d1 := invalidated (seqZ 0 (dmc_size d)) d).
  destruct (invalidated_kept (seqZ 0 (dmc_size d)) d) as (A1 & A2 & A3 & _). fold d1 in A1, A2, A3. pose proof (layout_size _ _ A1) as Es.
  assert (Em : md_start_sect d1 = md_start_sect d) by exact (f_equal (fun x => x.1.2) A1).
  assert (Hdev1 : no_device d1 = false) by (rewrite <-Hdev; injection A2 as _ _ E1 E2 E3 _; unfold no_device; by rewrite E1, E2, E3).
  assert (HF : forall i, 0 <= i < dmc_size d -> md_slot d1 i = Some empty_entry) by (intros i Hi; apply invalidated_slot, elem_of_seqZ; lia).
  assert (E1 : cold_passes 10 (seqZ 0 (dmc_size d)) w = Some (true, conf_with d1 w)) by (cbn [cold_passes]; by rewrite (bind_run _ _ _ _ _ (new_pass_run _ w Hadd))).
  clearbody d1. rewrite (bind_run _ _ _ _ _ E1). cbn [negb]. set (w1 := conf_with d1 w).
  assert (Hf1 : fresh_pages (pages ++ sp :: l) w1) by (destruct Hf; by constructor).
  destruct (eio_alloc_pages_ok pages (sp :: l) w1 (bio_nr_pages d) Hf1 Hk Hlen Hne) as (w2 & E2 & [(cw2 & km & Ew2) (mem2 & Ec2 & _) Hlive Hfr]). rewrite (bind_run _ _ _ _ _ E2).
  assert (Ew2' : w2 = set_cf_kmem km (with_md mem2 d1 w)) by (rewrite Ew2 in Ec2; cbn in Ec2; rewrite Ew2, Ec2; done). clear Ew2 Ec2 cw2.
  assert (Ek : conf_kmalloc w2 = Some (true, w2)) by (unfold conf_kmalloc; rewrite Ew2'; cbn; by rewrite Hk). rewrite (bind_run _ _ _ _ _ Ek). cbn [negb].
  assert (Hpn : NoDup pages) by (destruct Hf as [_ Hn _]; by apply NoDup_app in Hn as [? _]). assert (Hd2 : cf_d w2 = d1) by by rewrite Ew2'.
  destruct (create_pages_ok (fun _ => empty_entry) pages w2 Hpn Hne) as (w3 & E3 & Hio & Hw); rewrite ?Hd2, ?Es; [done|done|by rewrite Ew2'|by intros i Hi; split; [by apply HF|]|].
  rewrite (bind_run _ _ _ _ _ E3). cbn [Z.eqb negb]. pose proof (io_only_d _ _ Hio) as Hd3. rewrite Hd2 in Hd3, Hw. destruct Hio as [(mem3 & ssd3 & tr3 & rs3 & Ew3) Hr3 Hn3].
  destruct (new_sb_run w3 sp l) as (ssd' & w4 & E4 & [X1 X2 X3 X4 X5] & Hsame & [Y1 Y2]).
  { by rewrite Hd3. } { apply Hn3. by rewrite Ew2'. } { apply (names_ok_ext w); [..|done]; by rewrite Ew3, Ew2'. } { by rewrite Ew3, Ew2'. } { rewrite Ew3. destruct Hfr; by constructor. }
  rewrite (bind_run _ _ _ _ _ E4). rewrite Hd3 in X1, Y1.
  destruct (put_back pages l (pg_live (cf_kmem w)) w4 Hpn) as (w5 & E5 & Ew5 & Hf5).
  { destruct Hf as [_ _ Hfree]. intros p Hp. apply Hfree, elem_of_app. by left. } { rewrite X4, Ew3. exact Hlive. } { done. }
  rewrite (bind_run _ _ _ _ _ E5). exists w5. split; [done|]. constructor.
  - transitivity w2; [rewrite Ew2'; by eexists _, _|]. transitivity w3; [rewrite Ew3; apply conf_same_cw|]. transitivity w4; [done|]. rewrite Ew5. by eexists (cf_cw w4), _; destruct w4.
  - rewrite Ew5. exact X1.
  - by rewrite Ew5.
  - done.
  - rewrite Ew5. cbn. rewrite X2, Y1. by apply sb_of_ext; rewrite ?Ew3, ?Ew2'.
  - rewrite Ew5. cbn [cf_cw set_cf_kmem]. rewrite X2. change (md_start_sect (sb_marked d1)) with (md_start_sect d1). change (dmc_size (sb_marked d1)) with (dmc_size d1). rewrite Em, Es in *.
    apply (md_written_keep _ _ _ (on_ssd (cw_k (cf_cw w3)))); [done|done|]. by rewrite Ew3 in *.
  - rewrite Ew5. cbn. by rewrite X3, Ew3, Ew2'.
Qed.

(** ** [eio_md_create] *)

(** the SSD does not already hold a cache *)
Definition no_cache_on (ssd : gmap Z sector_data) : Prop :=
  let state := sb_cache_sb_state (sb_read (sb_sectors ssd)) in
  state <> CACHE_MD_STATE_DIRTY /\ state <> CACHE_MD_STATE_CLEAN /\ state <> CACHE_MD_STATE_FASTCLEAN.

(** [m]: the memory [vmalloc] gives for the words of the blocks *)
Record new_env (force : bool) (w : conf_world) (hp : Z) (pages : list Z) (sp : Z) (l : list Z) (m : gmap Z Z) (vs : list (option (gmap Z Z))) : Prop := {
  nv_dev : no_device (cf_d w) = false;
  nv_add : CACHE_SSD_ADD_INPROG_IS_SET (cf_d w) = false;
  nv_pct : mem_limit_pct (sysctl_active (cf_d w)) = 0;
  nv_force : force = true \/ no_cache_on (on_ssd (cw_k (cf_cw w)));
  nv_res : cw_results (cf_cw w) = [];
  nv_names : names_ok w;
  nv_kmalloc : cf_kmalloc w = [];
  nv_fresh : fresh_pages (hp :: pages ++ sp :: l) w;
  nv_pages : pages <> [] /\ Z.of_nat (length pages) = Z.min (bio_nr_pages (cf_d w)) MD_MAX_NR_PAGES;
  nv_vmalloc : cf_vmalloc w = Some m :: vs;
  nv_words : forall i, i ∈ dom m <-> 0 <= i < dmc_size (create_layout (cf_d w));
  nv_blk : exists blk, cf_blk w = Some blk;
  nv_geom : mem_geom_pre (create_layout (cf_d w));
  nv_room : 0 <= md_sectors (create_layout (cf_d w)) + dmc_size (create_layout (cf_d w)) * block_size (cf_d w) <= eio_to_sector (cache_dev_size (cf_d w));
  nv_start : EIO_SUPERBLOCK_START + 8 <= md_start_sect (create_layout (cf_d w))
}.

(** the cache afterwards *)
Definition new_cache (m : gmap Z Z) (d d' : cache_c) : Prop := exists r f d2,
  eio_mem_init (create_layout d) = Some (r, mem_inited f (create_layout d)) /\
  pol_only (set_words m (mem_inited f (create_layout d))) d2 /\ d' = emptied d2.

Lemma new_alloc_run w m vs blk : CACHE_SSD_ADD_INPROG_IS_SET (cf_d w) = false -> mem_limit_pct (sysctl_active (cf_d w)) = 0 ->
  cf_vmalloc w = Some m :: vs -> cf_blk w = Some blk ->
  exists d', md_create_alloc w = Some (0, conf_with d' (set_cf_vmalloc vs w)) /\ pol_only (set_words m (cf_d w)) d'.
Proof.
  intros Hadd Hp Hv Hb. unfold md_create_alloc. rewrite bind_gets, Hadd. cbn [negb]. cbv zeta.
  assert (Ea : forall n, eio_mem_available n w = Some (true, w)) by (intros n; unfold eio_mem_available; rewrite bind_gets; unfold id; by rewrite Hp).
  rewrite (bind_run _ _ _ _ _ (Ea _)). cbn [negb andb].
  assert (Ev : conf_vmalloc w = Some (Some m, set_cf_vmalloc vs w)) by (unfold conf_vmalloc; by rewrite Hv). rewrite !bind_bind, (bind_run _ _ _ _ _ Ev).
  set (w1 := set_cf_vmalloc vs w). rewrite bind_bind, (bind_run _ _ _ _ _ (conf_dmc_run' (modify (set_words m)) w1 tt _ eq_refl)), bind_ret. cbn [negb].
  set (w2 := conf_with (set_words m (cf_d w1)) w1). rewrite bind_gets. change (cf_blk w2) with (cf_blk w). rewrite Hb.
  destruct (repl_blk_init_ok (policy_ops (cf_d w2)) blk (cf_d w2)) as (d' & E & P).
  rewrite (bind_run _ _ _ _ _ (conf_dmc_run' (fun d => eio_repl_blk_init (policy_ops d) (Some blk) d) w2 0 d' E)). cbn [Z.eqb negb].
  exists d'. by split.
Qed.

(** ** The header page and the layout *)
Definition no_cache_on_b (ssd : gmap Z sector_data) : bool :=
  let state := sb_cache_sb_state (sb_read (sb_sectors ssd)) in
  (state =? CACHE_MD_STATE_DIRTY) || (state =? CACHE_MD_STATE_CLEAN) || (state =? CACHE_MD_STATE_FASTCLEAN).
Lemma no_cache_on_iff ssd : no_cache_on ssd -> no_cache_on_b ssd = false.
Proof. unfold no_cache_on, no_cache_on_b. intros (H1 & H2 & H3). by rewrite !(proj2 (Z.eqb_neq _ _)). Qed.

Lemma no_device_kept d d' : status_kept d d' -> no_device d' = no_device d /\ CACHE_SSD_ADD_INPROG_IS_SET d' = CACHE_SSD_ADD_INPROG_IS_SET d.
Proof. intros Hs. split; [|by apply inprog_kept]. unfold status_kept, dev_status in Hs. injection Hs as _ _ E1 E2 E3 _. unfold no_device. by rewrite E1, E2, E3. Qed.

(** the header page is read: it holds the superblock of the SSD *)
Lemma header_run w hp l : no_device (cf_d w) = false -> cf_kmalloc w = [] -> cw_results (cf_cw w) = [] -> fresh_pages (hp :: l) w ->
  exists w1 w2 km mem, eio_alloc_pages 1 w = Some (Some [hp], w1) /\ no_device (cf_d w1) = false /\ eio_io_sync_vm sb_region READ [hp] w1 = Some (0, w2) /\
    w2 = set_cf_kmem km (with_md mem (cf_d w) w) /\ pg_live km = list_to_set [hp] ∪ pg_live (cf_kmem w) /\ fresh_pages l w2 /\
    sb_read (page_bytes (cw_mem (cf_cw w2)) hp) = sb_read (sb_sectors (on_ssd (cw_k (cf_cw w)))).
Proof.
  intros Hd Hk Hres Hf. destruct (eio_alloc_pages_ok [hp] l w 1 Hf Hk eq_refl) as (w1 & E1 & [(cw1 & km & Ew1) (mem1 & Ec & _ & _) Hlive Hfr]); [done|].
  assert (Ew1' : w1 = set_cf_kmem km (with_md mem1 (cf_d w) w)) by (rewrite Ew1 in Ec; cbn in Ec; rewrite Ew1, Ec; by destruct w as [[]]). clear Ew1 Ec cw1.
  assert (Hd1 : no_device (cf_d w1) = false) by by rewrite Ew1'.
  destruct (sync_read_ok EIO_SUPERBLOCK_START 8 [hp] w1 Hd1) as (e & w2 & E2 & [He (mem2 & Ew2 & Hrd & _)]); [done|by cbn|by apply NoDup_singleton|].
  assert (Er : next_res (cf_cw w1) = IoOk) by (unfold next_res; rewrite Ew1'; cbn; by rewrite Hres). rewrite Er in He. assert (e = 0) as -> by done.
  assert (Ew2' : w2 = set_cf_kmem km (with_md mem2 (cf_d w) w)) by (rewrite Ew2; unfold drop_res; rewrite Ew1'; cbn; rewrite Hres; destruct w as [[]]; cbn in *; by subst).
  exists w1, w2, km, mem2. split_and!; [done|done|done|done| |by rewrite Ew2; destruct Hfr; constructor|].
  - rewrite Ew1' in Hlive. exact Hlive.
  - f_equal. rewrite Ew2'. apply header_bytes. intros j Hj. cbn [cf_cw set_cf_kmem with_md set_cf_cw cw_mem set_cw_mem].
    rewrite (Hrd eq_refl Er j (hp, j) Hj (one_page_slot hp j Hj)). by rewrite Ew1'.
Qed.

(** the layout, the flags and the memory of the metadata *)
Lemma new_layout_run w m vs blk (rest : M conf_world Z) : no_device (cf_d w) = false -> CACHE_SSD_ADD_INPROG_IS_SET (cf_d w) = false ->
  mem_limit_pct (sysctl_active (cf_d w)) = 0 -> cf_vmalloc w = Some m :: vs -> cf_blk w = Some blk -> mem_geom_pre (create_layout (cf_d w)) ->
  0 <= md_sectors (create_layout (cf_d w)) + dmc_size (create_layout (cf_d w)) * block_size (cf_d w) <= eio_to_sector (cache_dev_size (cf_d w)) ->
  exists r f d2, eio_mem_init (create_layout (cf_d w)) = Some (r, mem_inited f (create_layout (cf_d w))) /\
    pol_only (set_words m (mem_inited f (create_layout (cf_d w)))) d2 /\ status_kept (cf_d w) d2 /\
    (conf_upd create_layout ;;
     error <- conf_dmc eio_mem_init ;;
     if error =? -1 then ret (- EINVAL)
     else
       d <- gets cf_d ;;
       if no_device d then ret (- ENODEV)
       else if eio_to_sector (cache_dev_size d) <? u64 (md_sectors d + dmc_size d * block_size d) then ret (- EINVAL)
       else
         error <- md_create_alloc ;;
         if negb (error =? 0) then ret error
         else rest) w = rest (conf_with d2 (set_cf_vmalloc vs w)).
Proof.
  intros Hdev Hadd Hp Hv Hb Hpre Hroom. set (dl := create_layout (cf_d w)) in *. destruct (eio_mem_init_form dl Hpre) as (r & f & Ei & _ & Hc).
  rewrite (bind_run _ _ _ _ _ (conf_dmc_run' (modify create_layout) w tt dl eq_refl)). set (w1 := conf_with dl w).
  rewrite (bind_run _ _ _ _ _ (conf_dmc_run' eio_mem_init w1 r _ Ei)). set (w2 := conf_with (mem_inited f dl) w1).
  assert (Er : r =? -1 = false) by (destruct Hc as [(-> & _)|(-> & _)]; done). rewrite Er, bind_gets.
  assert (K : status_kept (cf_d w) (mem_inited f dl)) by exact (mem_init_status _ _ _ Ei). destruct (no_device_kept _ _ K) as [K1 K2].
  change (cf_d w2) with (mem_inited f dl). rewrite K1, Hdev.
  assert (Hr : eio_to_sector (cache_dev_size (mem_inited f dl)) <? u64 (md_sectors (mem_inited f dl) + dmc_size (mem_inited f dl) * block_size (mem_inited f dl)) = false).
  { apply Z.ltb_ge. change (u64 (md_sectors dl + dmc_size dl * block_size (cf_d w)) <= eio_to_sector (cache_dev_size (cf_d w))).
    etransitivity; [apply Z.mod_le; [apply Hroom|lia]|apply Hroom]. }
  rewrite Hr. destruct (new_alloc_run w2 m vs blk) as (d2 & Ea & Hd2); [by rewrite <-Hadd, <-K2|done|done|done|].
  exists r, f, d2. split; [done|]. split; [exact Hd2|]. split.
  - etransitivity; [exact K|]. etransitivity; [|apply pol_only_status, Hd2]. change (cf_d w2) with (mem_inited f dl). unfold set_words. by destruct (EIO_MD8 _).
  - rewrite (bind_run _ _ _ _ _ Ea). done.
Qed.

(** the words are those of [vmalloc] until the blocks are invalidated *)
Lemma new_words_kept m f d d2 : pol_only (set_words m (mem_inited f d)) d2 ->
  dmc_size d2 = dmc_size d /\ bio_nr_pages d2 = bio_nr_pages d /\ md_start_sect d2 = md_start_sect d /\ md_dom d2 = dom m.
Proof.
  intros (r & b & x & ->). unfold md_dom, set_words. destruct (EIO_MD8 (mem_inited f d)) eqn:E8.
  - assert (E : EIO_MD8 (set_random r (set_sp_cache_blk b (set_sp_cache_set x (set_cache_md8 m (mem_inited f d))))) = true) by exact E8. by rewrite E.
  - assert (E : EIO_MD8 (set_random r (set_sp_cache_blk b (set_sp_cache_set x (set_cache m (mem_inited f d))))) = false) by exact E8. by rewrite E.
Qed.

Lemma new_md_run force w hp pages sp l m vs : new_env force w hp pages sp l m vs ->
  exists d' w', eio_md_create force true w = Some (0, w') /\ new_cache m (cf_d w) d' /\ status_kept (cf_d w) d' /\ new_end (set_cf_vmalloc vs w) l d' w'.
Proof.
  intros [Hdev Hadd Hpct Hforce Hres Hnames Hk Hf [Hne Hlen] Hv Hwords [blk Hb] Hpre Hroom Hstart]. unfold eio_md_create.
  destruct (header_run w hp (pages ++ sp :: l) Hdev Hk Hres Hf) as (w1 & w2 & km & mem & E1 & Hd1 & E2 & Ew2 & El & Hf2 & Eh).
  rewrite (bind_run _ _ _ _ _ E1). change ([hp] !!! 0%nat) with hp. unfold md_create_body. rewrite bind_bind, bind_gets, Hd1, bind_bind, (bind_run _ _ _ _ _ E2).
  cbn [Z.eqb negb]. rewrite bind_bind, bind_gets, Eh.
  assert (Ec : negb force && no_cache_on_b (on_ssd (cw_k (cf_cw w))) = false) by (destruct Hforce as [->|Hn]; [done|by rewrite (no_cache_on_iff _ Hn), andb_false_r]).
  unfold no_cache_on_b in Ec. cbv zeta in Ec. rewrite Ec. clear Ec Eh.
  assert (Hd2 : cf_d w2 = cf_d w) by by rewrite Ew2.
  destruct (new_layout_run w2 m vs blk md_create_cold) as (r & f & d2 & Ei & Hp & Hst & Erun); rewrite ?Hd2; [done|done|done|by rewrite Ew2|by rewrite Ew2|done|done|].
  rewrite Hd2 in *. unfold bind at 1. rewrite Erun. clear Erun. set (w3 := conf_with d2 (set_cf_vmalloc vs w2)).
  destruct (new_words_kept _ _ _ _ Hp) as (N1 & N2 & N3 & N4). destruct (no_device_kept _ _ Hst) as [K1 K2].
  assert (Hsz : 0 <= dmc_size (create_layout (cf_d w))).
  { destruct Hpre as [A1 _ _ A2 _ A3 A4]. rewrite A3. apply Z.mul_nonneg_nonneg; [lia|]. rewrite A2. pose proof (pow2_pos (consecutive_shift (create_layout (cf_d w))) A1). lia. }
  destruct (new_cold_run w3 pages sp l) as (w4 & E4 & [B1 B2 B3 B4 B5 B6 B7]); change (cf_d w3) with d2 in *.
  { by rewrite K1. } { by rewrite K2. } { by rewrite N1. } { rewrite <-Hres. by rewrite Ew2 || (unfold w3; rewrite Ew2). } { unfold w3. by rewrite Ew2. }
  { apply (names_ok_ext w); [..|done]; unfold w3; by rewrite Ew2. } { destruct Hf2. by constructor. } { done. } { by rewrite N2. } { by rewrite N3. }
  rewrite E4. destruct (put_back [hp] l (pg_live (cf_kmem w)) w4) as (w5 & E5 & Ew5 & Hf5); [by apply NoDup_singleton| |by rewrite B3, <-El; unfold w3; rewrite Ew2|done|].
  { destruct Hf as [_ _ F3]. intros p Hp'. apply F3. apply list_elem_of_singleton in Hp' as ->. apply elem_of_cons. by left. }
  rewrite (bind_run _ _ _ _ _ E5). exists (emptied d2), w5. split; [done|]. split; [by exists r, f, d2|]. split.
  { etransitivity; [exact Hst|]. destruct (invalidated_kept (seqZ 0 (dmc_size d2)) d2) as (_ & A2 & _). exact A2. }
  constructor.
  - transitivity w3; [unfold w3; rewrite Ew2; by eexists _, _|]. transitivity w4; [done|]. rewrite Ew5. by eexists (cf_cw w4), _; destruct w4.
  - by rewrite Ew5.
  - by rewrite Ew5.
  - done.
  - rewrite Ew5. cbn [cf_cw set_cf_kmem]. rewrite B5. apply sb_of_ext; by unfold w3; rewrite ?Ew2.
  - rewrite Ew5. exact B6.
  - rewrite Ew5. cbn [cf_cw set_cf_kmem]. rewrite B7. unfold w3. by rewrite Ew2.
Qed.

(** ** The cache it leaves *)

(** what the making of the metadata does not touch *)
Definition new_rest (d : cache_c) :=
  (assoc d, block_size d, consecutive_shift d, mode d, policy_ops d, cleanq d, clean_pendings d, cache_sets d, nr_dirty d, stats d, sysctl_active d).

Lemma emptied_facts d : (forall i, i ∈ md_dom d <-> 0 <= i < dmc_size d) ->
  geom (emptied d) = geom d /\ new_rest (emptied d) = new_rest d /\ md_dom (emptied d) = md_dom d /\ no_blocks (emptied d).
Proof.
  intros Hd. destruct (invalidated_form (seqZ 0 (dmc_size d)) d) as [(c & c8 & E) Ed]; [intros i Hi%elem_of_seqZ; apply Hd; lia|].
  destruct (invalidated_kept (seqZ 0 (dmc_size d)) d) as (L & _). pose proof (layout_geom _ _ L) as G. split; [exact G|]. split; [unfold emptied; by rewrite E|]. split; [exact Ed|].
  intros i Hi. change (dmc_size (emptied d)) with (dmc_size (invalidated (seqZ 0 (dmc_size d)) d)) in Hi. rewrite (layout_size _ _ L) in Hi.
  pose proof (invalidated_word _ d i Hi) as Hw. unfold EIO_CACHE_STATE_GET. change (EIO_MD8 (emptied d)) with (EIO_MD8 (invalidated (seqZ 0 (dmc_size d)) d)).
  rewrite (layout_md8 _ _ L). destruct (EIO_MD8 d).
  - change (cache_md8 (emptied d)) with (cache_md8 (invalidated (seqZ 0 (dmc_size d)) d)). by rewrite Hw.
  - change (cache (emptied d)) with (cache (invalidated (seqZ 0 (dmc_size d)) d)). by rewrite Hw.
Qed.

Lemma new_cache_facts m d d' : new_cache m d d' -> mem_geom_pre (create_layout d) -> (forall i, i ∈ dom m <-> 0 <= i < dmc_size (create_layout d)) ->
  wf_geom d' /\ dmc_size d' = dmc_size (create_layout d) /\ (forall i, i ∈ md_dom d' <-> 0 <= i < dmc_size d') /\ no_blocks d' /\ new_rest d' = new_rest d.
Proof.
  intros (r & f & d2 & Ei & Hp & ->) Hpre Hm. destruct (eio_mem_init_form _ Hpre) as (_ & _ & _ & Hwf & _).
  destruct (new_words_kept _ _ _ _ Hp) as (N1 & _ & _ & N4).
  destruct (emptied_facts d2) as (G & R & D & B); [intros i; by rewrite N4, N1|].
  assert (Es : dmc_size (emptied d2) = dmc_size (create_layout d)) by (destruct (geom_fields _ _ G) as (-> & _); exact N1).
  split_and!; [|done|by intros i; rewrite D, N4, Es|done|].
  - apply (wf_geom_eq (mem_inited f (create_layout d))); [|apply Hwf]. rewrite G, (pol_only_geom _ _ Hp). apply set_words_geom.
  - rewrite R. destruct Hp as (x & b & y & ->). unfold set_words. by destruct (EIO_MD8 _).
Qed.

(** ** The sets and the policy *)
Lemma policy_made d : wf_geom d -> 2 <= assoc d <= EIO_LRU_NULL -> dmc_size d < 2 ^ 31 -> policy_ops d <> None ->
  exists d1 d2, eio_repl_sets_init (policy_ops d) true d = Some (0, d1) /\ eio_policy_lru_pushblks (policy_ops d1) d1 = Some (tt, d2) /\
    pol_only d d2 /\ policy_inv d2.
Proof.
  intros Hg Ha Hs Hp. destruct (sets_init_ok (policy_ops d) d) as (d1 & E1 & P1). destruct (pushblks_ok (policy_ops d1) d1) as (d2 & E2 & P2).
  exists d1, d2. split; [done|]. split; [done|]. split; [by etransitivity|]. assert (Ep : policy_ops d1 = policy_ops d) by by destruct P1 as (? & ? & ? & ->).
  assert (Ep2 : policy_ops d2 = policy_ops d) by by rewrite <-Ep; destruct P2 as (? & ? & ? & ->). rewrite Ep in E2.
  destruct (policy_ops d) as [p|] eqn:Epo; [|done]. exists p. split; [done|]. destruct p.
  - destruct (fifo_sets_init_inv d Hg) as (d' & E & H & _). change (eio_repl_sets_init (Some PolFifo) true d) with (eio_fifo_cache_sets_init true d) in E1. rewrite E in E1.
    injection E1 as ->. by injection E2 as <-.
  - destruct (lru_pushblks_inv d Hg Ha Hs) as (d' & E & H & _). change (eio_repl_sets_init (Some PolLru) true d) with (eio_lru_cache_sets_init true d) in E1. rewrite E in E1.
    injection E1 as ->. by injection E2 as <-.
  - done.
Qed.
