(* ===== verification/CreateOk.v ===== *)
(** * A creation succeeds or leaves nothing behind

    What the steps of [eio_cache_create] keep, and how its labels end.

    ** The block_counters of a new or reloaded cache

    The loop at the end of [eio_cache_create] sets the numbers of valid and of
    dirty blocks, of the cache and of each set, and the list of the dirty sets
    to what the blocks say. *)

From S2P Require Import Prelude Types Mem Scan Policy World Dispatch Disk Clean CleanThread CleanState Thresh WbAlloc Superblock MdCreate MdLoad Suspend Recovery Sysctl Edit Ttc TtcReg Create DList SetLru.

(** * A creation succeeds or leaves nothing behind *)
(** ** What a step step_keeps *)
Section step_keeps.
Context {S : Type} (R : S -> S -> Prop) `{!PreOrder R}.

Definition step_keeps {A} (m : M S A) : Prop := forall w a w', m w = Some (a, w') -> R w w'.

Lemma keeps_ret {A} (a : A) : step_keeps (ret a).
Proof. intros w x w' [= <- <-]. reflexivity. Qed.
Lemma keeps_gets {A} (f : S -> A) : step_keeps (gets f).
Proof. intros w x w' [= <- <-]. reflexivity. Qed.
Lemma step_keeps_bind {A B} (m : M S A) (k : A -> M S B) : step_keeps m -> (forall a, step_keeps (k a)) -> step_keeps (bind m k).
Proof.
  intros Hm Hk w b w'. unfold bind. destruct (m w) as [[a w1]|] eqn:E; [|done]. intros E'. etrans; [by eapply Hm|by eapply Hk].
Qed.
Lemma step_keeps_modify (f : S -> S) : (forall w, R w (f w)) -> step_keeps (modify f).
Proof. intros H w x w' [= <- <-]. apply H. Qed.
Lemma keeps_when c (m : M S unit) : step_keeps m -> step_keeps (when c m).
Proof. intros H. destruct c; [done|]. apply keeps_ret. Qed.
End step_keeps.

(** ** What is outside of the cache's own structure *)
Record same_outside (w w' : adm) : Prop := {
  so_ttc : ad_ttc w' = ad_ttc w; so_list : cache_list w' = cache_list w; so_dmc : ad_dmc w' = ad_dmc w;
  so_src : ad_src w' = ad_src w; so_ssd : ad_ssd w' = ad_ssd w
}.
#[export] Instance same_outside_preorder : PreOrder same_outside.
Proof. split; [by intros w|]. intros w1 w2 w3 [] []. split; congruence. Qed.

Lemma adm_run_outside {A} (m : M cache_ctl A) : step_keeps same_outside (adm_run m).
Proof. intros w a w'. unfold adm_run. destruct (m (ad_ctl w)) as [[x c]|]; [|done]. intros [= <- <-]. done. Qed.

Create HintDb outside discriminated.
#[export] Hint Resolve adm_run_outside : outside.

Ltac outside_step :=
  match goal with
  | |- step_keeps _ (bind _ _) => apply step_keeps_bind; [try exact same_outside_preorder| |intros ?]
  | |- step_keeps _ (ret _) => apply (keeps_ret same_outside)
  | |- step_keeps _ (gets _) => apply (keeps_gets same_outside)
  | |- step_keeps _ (fail _) => apply (keeps_ret same_outside)
  | |- step_keeps _ (ad_upd _) => apply adm_run_outside
  | |- step_keeps _ (adm_run _) => apply adm_run_outside
  | |- step_keeps _ (ad_conf_run _) => apply adm_run_outside
  | |- step_keeps _ (when _ _) => apply (keeps_when same_outside)
  | |- step_keeps _ (unless_failed ?r _) => destruct r; cbn [unless_failed]
  | |- step_keeps _ (match ?r with _ => _ end) => destruct r
  | |- step_keeps _ (if ?b then _ else _) => destruct b
  end.
Ltac outside := repeat outside_step.

(** the cache is gone: its memory is free, its devices are closed *)
Record released (w w' : adm) : Prop := {
  rl_ttc : ad_ttc w' = ad_ttc w; rl_list : cache_list w' = cache_list w;
  rl_dmc : ad_dmc w' = false; rl_src : ad_src w' = false; rl_ssd : ad_ssd w' = false
}.

Section create.
Context (cr : cache_rec_short) (dmc : Z) (sizeof_cache_set : Z) (jiffies : Z -> Z) (systime HZ : Z).

Definition installed (w w' : adm) : Prop :=
  cache_list w' = dmc :: cache_list w /\ ad_dmc w' = true /\ ad_src w' = true /\ ad_ssd w' = true /\
  exists name b, eio_ttc_activate dmc name (Some b) (ad_ttc w) = Some (0, ad_ttc w').

Lemma bad1_ok error w r w' : ad_src w = false -> ad_ssd w = false -> bad1 error w = Some (r, w') -> r = error /\ released w w'.
Proof.
  intros H1 H2. unfold bad1, bind. destruct (ad_upd eio_policy_free w) as [[x w1]|] eqn:E; [|done]. apply adm_run_outside in E as [Et El Ed Es Ess].
  cbn. intros [= <- <-]. split; [done|]. split; cbn; congruence.
Qed.
Lemma bad2_ok error w r w' : ad_ssd w = false -> bad2 error w = Some (r, w') -> r = error /\ released w w'.
Proof. intros H. unfold bad2. rewrite bind_modify. intros (-> & [])%bad1_ok; [|done|done]. by split. Qed.
Lemma bad3_ok error w r w' : bad3 error w = Some (r, w') -> r = error /\ released w w'.
Proof. unfold bad3. rewrite bind_modify. intros (-> & [])%bad2_ok; [|done]. by split. Qed.

Lemma filter_ne_id (l : list Z) : dmc ∉ l -> List.filter (fun c => negb (c =? dmc)) l = l.
Proof.
  induction l as [|x l IH]; intros H; [done|]. apply not_elem_of_cons in H as [Hx Hl]. cbn. rewrite (proj2 (Z.eqb_neq x dmc)) by done. cbn. by rewrite IH.
Qed.

Lemma bad6_ok error w r w' : bad6 dmc jiffies systime error w = Some (r, w') ->
  r = error /\ ad_ttc w' = ad_ttc w /\ cache_list w' = List.filter (fun c => negb (c =? dmc)) (cache_list w) /\
  ad_dmc w' = false /\ ad_src w' = false /\ ad_ssd w' = false.
Proof.
  unfold bad6.
  assert (H : step_keeps same_outside (adm_run (ct_run eio_procfs_dtr) ;; d <- gets ad_d ;;
    when (mode d =? CACHE_MODE_WB) (adm_run (eio_stop_async_tasks jiffies systime) ;; adm_run eio_free_wb_resources) ;;
    ad_upd (set_cache_sets ∅) ;; ad_upd vfree_cache)) by outside.
  unfold bind in *. repeat (match goal with |- match ?x with _ => _ end = _ -> _ => destruct x as [[? ?]|] eqn:?E; [|done] end).
  match goal with E : ad_upd vfree_cache _ = Some (?u, ?w1) |- _ => assert (Hs : same_outside w w1) end.
  { eapply (H w). rewrite E. rewrite E0. rewrite E1. rewrite E2. exact E3. }
  intros Hb. cbn in E4. injection E4 as <- <-. apply bad3_ok in Hb as (-> & Hr). destruct Hr, Hs. cbn in *.
  split_and!; congruence.
Qed.

(** an activation that is refused changes nothing *)
Lemma scan_keeps b l w r : forall w', activate_scan b l w = Some (r, w') -> w' = w.
Proof.
  induction l as [|c l IH]; intros w'; cbn; [by intros [= _ ->]|]. destruct (negb (same_disk b c)); [apply IH|].
  destruct (conflict b c); [by intros [= _ ->]|]. unfold EIO_ASSERT. destruct (dev_info c =? EIO_DEV_PARTITION); [|done]. by intros [= _ ->].
Qed.
Lemma activate_refused name b w e w' : eio_ttc_activate dmc name b w = Some (e, w') -> e <> 0 -> w' = w.
Proof.
  unfold eio_ttc_activate. destruct b as [b|]; [|by intros [= _ ->]]. unfold bind at 1. cbn. unfold bind at 1.
  destruct (activate_scan b _ w) as [[[error orig] w1]|] eqn:E; [|done]. apply scan_keeps in E as ->.
  destruct (Z.eqb_spec error 0) as [->|Hne]; cbn [negb]; [|by intros [= _ ->]].
  intros Hr Hne. exfalso. revert Hr. unfold bind, gets, modify, ret. destruct orig; cbn; unfold EIO_ASSERT, ret, panic.
  - destruct (wholedisk b); cbn [negb]; [discriminate|]. intros E. apply (f_equal (option_map fst)) in E. exact (Hne (eq_sym (Some_inj _ _ E))).
  - intros E. apply (f_equal (option_map fst)) in E. exact (Hne (eq_sym (Some_inj _ _ E))).
Qed.

Lemma create_activate_ok src w r w' : dmc ∉ cache_list w -> ad_dmc w = true -> ad_src w = true -> ad_ssd w = true ->
  create_activate dmc jiffies systime src w = Some (r, w') ->
  (r = 0 /\ installed w w') \/ (r <> 0 /\ released w w').
Proof.
  intros Hnew Hd Hs Hss. unfold create_activate.
  assert (H1 : step_keeps same_outside (ad_upd (fun d => set_sysctl_active (create_sysctl (sysctl_active d)) d) ;; ad_upd (set_clean_index 0) ;; ad_upd (set_nr_ios 0))) by outside.
  unfold bind at 1. destruct (ad_upd _ w) as [[[] w1]|] eqn:E1; [|done]. unfold bind at 1. destruct (ad_upd _ w1) as [[[] w2]|] eqn:E2; [|done].
  unfold bind at 1. destruct (ad_upd _ w2) as [[[] w3]|] eqn:E3; [|done].
  assert (S3 : same_outside w w3) by (eapply (H1 w); unfold bind; rewrite E1, E2; exact E3). clear H1 E1 E2 E3.
  mrun. set (w4 := set_cache_list (dmc :: cache_list w3) w3).
  unfold bind at 1. destruct (ad_conf_run _ w4) as [[[] w5]|] eqn:E5; [|done]. unfold bind at 1. destruct (ad_upd cache_built w5) as [[[] w6]|] eqn:E6; [|done].
  unfold bind at 1. destruct (adm_run (ct_run eio_procfs_ctr) w6) as [[[] w7]|] eqn:E7; [|done].
  apply adm_run_outside in E5, E6, E7. assert (S7 : same_outside w4 w7) by (do 2 (etrans; [eassumption|]); done). clear E5 E6 E7.
  mrun. unfold bind at 1, ad_on_ttc at 1. destruct (eio_ttc_activate _ _ _ _) as [[e t]|] eqn:Ea; [|done].
  destruct S3 as [A1 A2 A3 A4 A5], S7 as [B1 B2 B3 B4 B5]. cbn in B1, B2, B3, B4, B5.
  destruct (Z.eqb_spec e 0) as [->|Hne]; cbn [negb].
  - intros [= <- <-]. left. split; [done|]. split_and!; cbn; [congruence..|]. eexists _, _. unfold id in Ea. rewrite B1, A1 in Ea. exact Ea.
  - intros Hb. apply bad6_ok in Hb as (-> & C1 & C2 & C3 & C4 & C5). right. split; [done|]. apply activate_refused in Ea; [|done]. cbn in C1, C2. unfold id in Ea.
    split; [congruence| |done..]. rewrite C2, B2, A2. cbn. rewrite Z.eqb_refl. cbn. by apply filter_ne_id.
Qed.

(** the names do not count *)
Lemma create_opened_ok src ssd q s w r w' : dmc ∉ cache_list w -> ad_dmc w = true -> ad_src w = true -> ad_ssd w = true ->
  create_opened cr dmc sizeof_cache_set jiffies systime src ssd q s w = Some (r, w') ->
  (r = 0 /\ installed w w') \/ released w w'.
Proof.
  intros Hnew Hd Hs Hss. unfold create_opened. case_bool_decide as Hname; [intros [_ H]%bad3_ok; by right|].
  unfold bind at 1. destruct (ad_conf_run _ w) as [[[] w1]|] eqn:E1; [|done]. unfold bind at 1. destruct (ad_upd _ w1) as [[[] w2]|] eqn:E2; [|done].
  apply adm_run_outside in E1, E2. assert (S2 : same_outside w w2) by by etrans. clear E1 E2. mrun.
  match goal with |- (if ?b then _ else _) _ = _ -> _ => destruct b end.
  { intros [_ []]%bad3_ok. right. destruct S2. split; congruence. }
  unfold bind at 1. destruct (ad_upd _ w2) as [[[] w3]|] eqn:E3; [|done]. apply adm_run_outside in E3. mrun.
  set (w4 := set_ad_callback_q q _). assert (S4 : same_outside w w4) by (etrans; [exact S2|]; etrans; [exact E3|]; done). clearbody w4. clear E3.
  destruct q; cbn [negb]; [|intros [_ []]%bad3_ok; right; destruct S4; split; congruence].
  match goal with |- bind ?a ?k _ = _ -> _ => assert (Hk : step_keeps same_outside a) by outside; unfold bind at 1; destruct (a w4) as [[[] w5]|] eqn:E5; [|done]; apply Hk in E5; clear Hk end.
  match goal with |- bind ?a ?k _ = _ -> _ => assert (Hk : step_keeps same_outside a) by outside; unfold bind at 1; destruct (a w5) as [[r6 w6]|] eqn:E6; [|done]; apply Hk in E6; clear Hk end.
  match goal with |- bind ?a ?k _ = _ -> _ => assert (Hk : step_keeps same_outside a) by outside; unfold bind at 1; destruct (a w6) as [[r7 w7]|] eqn:E7; [|done]; apply Hk in E7; clear Hk end.
  assert (S7 : same_outside w w7) by (do 3 (etrans; [eassumption|]); done). clear S4 E5 E6 E7. destruct S7 as [A1 A2 A3 A4 A5].
  destruct r7 as [error|].
  - intros [_ []]%bad3_ok. right. split; congruence.
  - intros [[-> (B1 & B2 & B3 & B4 & n & b & B5)]|[_ []]]%create_activate_ok; [left|right|congruence..].
    + split; [done|]. split_and!; [congruence..|]. exists n, b. by rewrite <-A1.
    + split; congruence.
Qed.

Lemma create_run_ok k q s src ssd w r w' : dmc ∉ cache_list w -> ad_dmc w = false -> ad_src w = false -> ad_ssd w = false ->
  eio_cache_create cr dmc sizeof_cache_set jiffies systime k q s src ssd w = Some (r, w') ->
  (r = 0 /\ installed w w') \/ released w w'.
Proof.
  intros Hnew Hd Hs Hss. unfold eio_cache_create. destruct k; cbn [negb]; [|intros [= <- <-]; right; by split].
  mrun. destruct src as [e|src]; [intros [_ []]%bad1_ok; [right|done|done]; by split|]. mrun.
  unfold bind at 1. destruct (ad_upd _ _) as [[[] w1]|] eqn:E1; [|done]. unfold bind at 1. destruct (ad_conf_run _ w1) as [[[] w2]|] eqn:E2; [|done].
  apply adm_run_outside in E1, E2. destruct E1 as [A1 A2 A3 A4 A5], E2 as [B1 B2 B3 B4 B5]. cbn in A1, A2, A3, A4, A5.
  match goal with |- (if ?b then _ else _) _ = _ -> _ => destruct b end; [intros [_ []]%bad2_ok; [right; split; congruence|congruence]|].
  destruct ssd as [e|ssd]; [intros [_ []]%bad2_ok; [right; split; congruence|congruence]|]. mrun.
  unfold bind at 1. destruct (ad_conf_run _ _) as [[[] w3]|] eqn:E3; [|done]. apply adm_run_outside in E3. destruct E3 as [C1 C2 C3 C4 C5]. cbn in C1, C2, C3, C4, C5.
  intros [[-> (D1 & D2 & D3 & D4 & n & b & D5)]|[]]%create_opened_ok; [left|right|congruence..].
  - split; [done|]. split_and!; [congruence..|]. exists n, b. rewrite <-A1, <-B1, <-C1. exact D5.
  - split; congruence.
Qed.
End create.

(** * The block_counters of a new or reloaded cache *)
(** what the loop changes *)
Record block_counters := mk_counters { cn_lru : option lru_ls; cn_sched : Z; cn_stats : eio_stats; cn_dirty : Z; cn_sets : gmap Z cache_set }.
Definition with_counters (c : block_counters) (d : cache_c) : cache_c :=
  set_dirty_set_lru (cn_lru c) (set_is_clean_aged_sets_sched (cn_sched c) (set_stats (cn_stats c) (set_nr_dirty (cn_dirty c) (set_cache_sets (cn_sets c) d)))).
Definition counters_of (d : cache_c) : block_counters := mk_counters (dirty_set_lru d) (is_clean_aged_sets_sched d) (stats d) (nr_dirty d) (cache_sets d).

Lemma with_counters_of d : with_counters (counters_of d) d = d.
Proof. by destruct d. Qed.

Definition block_valid (d : cache_c) (i : Z) : bool := tst (EIO_CACHE_STATE_GET d i) VALID.
Definition count_valid (d : cache_c) (l : list Z) : Z := Z.of_nat (length (List.filter (block_valid d) l)).
Definition in_set (d : cache_c) (s i : Z) : bool := i / assoc d =? s.

Lemma count_app (p : Z -> bool) l1 l2 : Z.of_nat (length (List.filter p (l1 ++ l2))) = Z.of_nat (length (List.filter p l1)) + Z.of_nat (length (List.filter p l2)).
Proof. rewrite List.filter_app, length_app. lia. Qed.
Lemma count_snoc (p : Z -> bool) l x : Z.of_nat (length (List.filter p (l ++ [x]))) = Z.of_nat (length (List.filter p l)) + (if p x then 1 else 0).
Proof. rewrite count_app. cbn. by destruct (p x). Qed.
Lemma count_le (p : Z -> bool) l : 0 <= Z.of_nat (length (List.filter p l)) <= Z.of_nat (length l).
Proof. induction l as [|x l IH]; [done|]. cbn. destruct (p x); cbn; lia. Qed.

Lemma filter_snoc_in d s l x : List.filter (in_set d s) (l ++ [x]) = List.filter (in_set d s) l ++ if in_set d s x then [x] else [].
Proof. rewrite List.filter_app. cbn. by destruct (in_set d s x). Qed.

Section count.
Context (systime : Z) (d : cache_c).
Context (Hassoc : 0 < assoc d) (Hsize : dmc_size d = num_sets d * assoc d) (Hbound : dmc_size d < 2 ^ 31).

(** [don]: the blocks visited; [prev]: the set touched last *)
Record counted_so_far (don : list Z) (prev : Z) (c : block_counters) : Prop := {
  cs_total : cn_dirty c = count_dirty d don;
  cs_valid : st_cached_blocks (cn_stats c) = count_valid d don;
  cs_sets : forall s, cs_nr_dirty (cn_sets c !!! s) = count_dirty d (List.filter (in_set d s) don) /\
    cs_flags (cn_sets c !!! s) = cs_flags (cache_sets d !!! s) /\ cs_mdreq (cn_sets c !!! s) = cs_mdreq (cache_sets d !!! s);
  cs_lru : exists l xs, cn_lru c = Some l /\ lru_rep l xs /\ ll_max l = num_sets d /\
    (forall s, s ∈ xs <-> exists i, i ∈ don /\ is_dirty d i = true /\ i / assoc d = s) /\ (prev = -1 \/ prev ∈ xs)
}.

Lemma dirty_lru_run {A} (m : M (option lru_ls) A) w a l : m (dirty_set_lru w) = Some (a, l) -> dirty_lru m w = Some (a, set_dirty_set_lru l w).
Proof. unfold dirty_lru. by intros ->. Qed.
Lemma touched_counters c l (b : bool) : exists sched,
  (if b then set_is_clean_aged_sets_sched 1 (set_dirty_set_lru l (with_counters c d)) else set_dirty_set_lru l (with_counters c d)) =
  with_counters (mk_counters l sched (cn_stats c) (cn_dirty c) (cn_sets c)) d.
Proof. destruct b; [exists 1|exists (cn_sched c)]; reflexivity. Qed.

Lemma touch_run c l xs s : cn_lru c = Some l -> lru_rep l xs -> 0 <= s < ll_max l ->
  exists l' sched, eio_touch_set_lru systime s (with_counters c d) = Some (tt, with_counters (mk_counters (Some l') sched (cn_stats c) (cn_dirty c) (cn_sets c)) d) /\
    lru_rep l' (without s xs ++ [s]) /\ ll_max l' = ll_max l.
Proof.
  intros Hl Hrep Hs. destruct (lru_touch_rep l xs s systime Hrep Hs) as (l' & E & Hrep' & Hm & _).
  assert (E1 : lru_touch s systime (dirty_set_lru (with_counters c d)) = Some (0, Some l')) by (rewrite <-E; by rewrite <-Hl).
  exists l'. unfold eio_touch_set_lru. rewrite (bind_run _ _ _ _ _ (dirty_lru_run _ _ _ _ E1)).
  edestruct touched_counters as [sched E2]. exists sched. split; [|by split]. unfold modify. rewrite <-E2. reflexivity.
Qed.

(** one block *)
Lemma count_step don prev c i rest : counted_so_far don prev c -> 0 <= i < dmc_size d -> Z.of_nat (length don) < 2 ^ 31 ->
  exists prev' c', count_cached systime prev (i :: rest) (with_counters c d) = count_cached systime prev' rest (with_counters c' d) /\ counted_so_far (don ++ [i]) prev' c'.
Proof.
  intros [H1 H2 H3 (l & xs & H4 & H5 & H6 & H7 & H8)] Hi Hlen.
  assert (Hset : 0 <= i / assoc d < num_sets d).
  { split; [apply Z.div_pos; lia|]. apply Z.div_lt_upper_bound; [lia|]. rewrite Z.mul_comm. lia. }
  pose proof (count_le (is_dirty d) don) as Bd. pose proof (count_le (block_valid d) don) as Bv.
  (* the valid block *)
  set (c1 := mk_counters (cn_lru c) (cn_sched c) (if block_valid d i then inc_cached_blocks (cn_stats c) else cn_stats c) (cn_dirty c) (cn_sets c)).
  assert (E1 : when (tst (EIO_CACHE_STATE_GET (with_counters c d) i) VALID) (modify (upd_stats inc_cached_blocks)) (with_counters c d) = Some (tt, with_counters c1 d)).
  { change (tst (EIO_CACHE_STATE_GET (with_counters c d) i) VALID) with (block_valid d i). subst c1. destruct (block_valid d i); cbn [when]; destruct c; reflexivity. }
  assert (V1 : st_cached_blocks (cn_stats c1) = count_valid d (don ++ [i])).
  { unfold count_valid in *. rewrite count_snoc. subst c1. cbn [cn_stats]. destruct (block_valid d i); [|lia].
    cbn [inc_cached_blocks st_cached_blocks]. rewrite H2. unfold atomic64_inc, i64. rewrite Z.mod_small; lia. }
  cbn [count_cached]. mrun. unfold id at 1. rewrite (bind_run _ _ _ _ _ E1).
  change (tst (EIO_CACHE_STATE_GET (id (with_counters c d)) i) DIRTY) with (is_dirty d i).
  destruct (is_dirty d i) eqn:Edi.
  2:{ exists prev, c1. split; [done|]. split; [unfold count_dirty in *; rewrite count_snoc, Edi; subst c1; cbn; lia|done| |].
      - intros s. rewrite filter_snoc_in. unfold count_dirty. rewrite count_app. destruct (H3 s) as (E & ? & ?). subst c1. cbn [cn_sets]. split_and!; [|done|done].
        rewrite E. unfold count_dirty. destruct (in_set d s i); cbn; rewrite ?Edi; cbn; lia.
      - exists l, xs. split_and!; [done|done|done| |done]. intros s. rewrite H7. split; intros (j & Hj & Hd & Hs).
        + exists j. split_and!; [apply elem_of_app; by left|done|done].
        + apply elem_of_app in Hj as [Hj|Hj%list_elem_of_singleton]; [by exists j|subst; congruence]. }
  (* a dirty block *)
  set (s := i / assoc d) in *.
  assert (Es : EIO_DIV i (assoc (id (with_counters c d))) = s) by done. rewrite Es. clear Es. mrun.
  set (sets' := <[s := {| (cn_sets c !!! s) with cs_nr_dirty := u32 (cs_nr_dirty (cn_sets c !!! s) + 1) |}]> (cn_sets c)).
  set (c2 := mk_counters (cn_lru c) (cn_sched c) (cn_stats c1) (atomic64_inc (cn_dirty c)) sets').
  assert (E2 : set_nr_dirty (atomic64_inc (nr_dirty (inc_set_dirty s (with_counters c1 d)))) (inc_set_dirty s (with_counters c1 d)) = with_counters c2 d) by done.
  rewrite E2. clear E2.
  assert (T2 : cn_dirty c2 = count_dirty d (don ++ [i])).
  { unfold count_dirty in *. rewrite count_snoc, Edi. subst c2. cbn [cn_dirty]. rewrite H1. unfold atomic64_inc, i64. rewrite Z.mod_small; lia. }
  assert (S2 : forall s', cs_nr_dirty (sets' !!! s') = count_dirty d (List.filter (in_set d s') (don ++ [i])) /\
    cs_flags (sets' !!! s') = cs_flags (cache_sets d !!! s') /\ cs_mdreq (sets' !!! s') = cs_mdreq (cache_sets d !!! s')).
  { intros s'. rewrite filter_snoc_in. unfold count_dirty. rewrite count_app. destruct (H3 s') as (E & ? & ?). unfold count_dirty in E.
    assert (Hle : Z.of_nat (length (List.filter (is_dirty d) (List.filter (in_set d s') don))) <= Z.of_nat (length don)).
    { pose proof (count_le (is_dirty d) (List.filter (in_set d s') don)). pose proof (count_le (in_set d s') don). lia. }
    unfold in_set at 2. fold s. destruct (Z.eqb_spec s s') as [<-|Hne].
    - subst sets'. rewrite lookup_total_insert_eq. cbn [cs_nr_dirty cs_flags cs_mdreq List.filter]. rewrite Edi. cbn [length]. split_and!; [|done|done].
      rewrite E. unfold u32. rewrite Z.mod_small; lia.
    - subst sets'. rewrite lookup_total_insert_ne by done. cbn [List.filter length]. split_and!; [lia|done|done]. }
  destruct (Z.eqb_spec prev s) as [Ep|Ep]; cbn [negb when].
  - mrun. exists s, c2. split; [done|]. split; [done|done|done|]. exists l, xs. subst prev. destruct H8 as [H8|H8]; [lia|].
    split_and!; [done|done|done| |by right]. intros s'. rewrite H7. split; intros (j & Hj & Hd & Hs).
    + exists j. split_and!; [apply elem_of_app; by left|done|done].
    + apply elem_of_app in Hj as [Hj|Hj%list_elem_of_singleton]; [by exists j|subst j s']. by apply H7 in H8.
  - destruct (touch_run c2 l xs s H4 H5 ltac:(rewrite H6; exact Hset)) as (l' & sched & E3 & Hrep' & Hm). rewrite (bind_run _ _ _ _ _ E3).
    eexists s, _. split; [reflexivity|]. split; [done|done|done|]. exists l', (without s xs ++ [s]).
    split_and!; [done|done|congruence| |right; apply elem_of_app; right; by apply list_elem_of_singleton].
    intros s'. rewrite elem_of_app, list_elem_of_singleton. unfold without. rewrite list_elem_of_filter, H7. split.
    + intros [(_ & j & Hj & Hd & Hs)| ->]; [exists j; split_and!; [apply elem_of_app; by left|done|done]|].
      exists i. split_and!; [apply elem_of_app; right; by apply list_elem_of_singleton|done|done].
    + intros (j & [Hj|Hj%list_elem_of_singleton]%elem_of_app & Hd & Hs); [|right; by subst j s'].
      destruct (decide (s' = s)) as [->|Hne]; [by right|]. left. split; [done|]. by exists j.
Qed.

Lemma count_all rest : forall don prev c, counted_so_far don prev c -> (forall i, i ∈ rest -> 0 <= i < dmc_size d) -> Z.of_nat (length (don ++ rest)) <= dmc_size d ->
  exists prev' c', count_cached systime prev rest (with_counters c d) = Some (tt, with_counters c' d) /\ counted_so_far (don ++ rest) prev' c'.
Proof.
  induction rest as [|i rest IH]; intros don prev c Hc Hr Hl; [exists prev, c; by rewrite app_nil_r|]. rewrite length_app in Hl. cbn in Hl.
  destruct (count_step don prev c i rest Hc) as (prev' & c' & E & Hc'); [apply Hr, elem_of_cons; by left|lia|].
  destruct (IH (don ++ [i]) prev' c' Hc') as (prev2 & c2 & E2 & Hc2); [intros j Hj; apply Hr, elem_of_cons; by right|rewrite !length_app; cbn; lia|].
  exists prev2, c2. rewrite E, E2. split; [done|]. by rewrite <-app_assoc in Hc2.
Qed.
End count.

(** the blocks of a set, in the order of the loop *)
Lemma set_blocks_count d s : wf_geom d -> dmc_size d = num_sets d * assoc d -> 0 <= s < num_sets d ->
  count_dirty d (List.filter (in_set d s) (seqZ 0 (dmc_size d))) = count_dirty d (set_blocks d s).
Proof.
  intros Hg Hsz Hs. pose proof (assoc_pos d Hg) as Ha. unfold count_dirty. f_equal. apply Permutation_length.
  assert (P : List.filter (in_set d s) (seqZ 0 (dmc_size d)) ≡ₚ set_blocks d s).
  { apply NoDup_Permutation; [| apply NoDup_seqZ|].
    - apply NoDup_ListNoDup, List.NoDup_filter, NoDup_ListNoDup, NoDup_seqZ.
    - intros i. rewrite list_elem_of_In, filter_In, <-list_elem_of_In, elem_of_seqZ, (elem_of_set_blocks d s i Hg). unfold in_set. rewrite Z.eqb_eq.
      split; [by intros [_ ?]|]. intros E. split; [|done]. pose proof (Z.div_mod i (assoc d) ltac:(lia)). pose proof (Z.mod_pos_bound i (assoc d) ltac:(lia)). nia. }
  induction P as [|x l1 l2 _ IH|x y l|l1 l2 l3 _ IH1 _ IH2]; cbn; [done|destruct (is_dirty d x); [by constructor|done]| |by etrans].
  destruct (is_dirty d x), (is_dirty d y); try done. constructor.
Qed.

Lemma count_blocks_run systime d : wf_geom d -> dmc_size d = num_sets d * assoc d -> dmc_size d < 2 ^ 31 ->
  nr_dirty d = 0 -> st_cached_blocks (stats d) = 0 -> (forall s, cs_nr_dirty (cache_sets d !!! s) = 0) ->
  (exists l, dirty_set_lru d = Some l /\ lru_rep l [] /\ ll_max l = num_sets d) ->
  exists c, count_cached systime (-1) (seqZ 0 (dmc_size d)) d = Some (tt, with_counters c d) /\
    cn_dirty c = count_dirty d (all_blocks d) /\ st_cached_blocks (cn_stats c) = count_valid d (all_blocks d) /\
    (forall s, 0 <= s < num_sets d -> cs_nr_dirty (cn_sets c !!! s) = count_dirty d (set_blocks d s)) /\
    (forall s, cs_flags (cn_sets c !!! s) = cs_flags (cache_sets d !!! s) /\ cs_mdreq (cn_sets c !!! s) = cs_mdreq (cache_sets d !!! s)) /\
    exists l xs, cn_lru c = Some l /\ lru_rep l xs /\ ll_max l = num_sets d /\
      forall s, s ∈ xs <-> exists i, i ∈ all_blocks d /\ is_dirty d i = true /\ i / assoc d = s.
Proof.
  intros Hg Hsz Hb H0 Hv Hs (l & Hl & Hrep & Hm). pose proof (assoc_pos d Hg) as Ha.
  destruct (count_all systime d Ha Hsz Hb (seqZ 0 (dmc_size d)) [] (-1) (counters_of d)) as (prev & c & E & [C1 C2 C3 (l' & xs & C4 & C5 & C6 & C7 & _)]).
  - split; [by cbn|by cbn|intros s; cbn; by rewrite Hs|]. exists l, []. split_and!; [done|done|done| |by left].
    intros s. split; [by intros ?%elem_of_nil|by intros (i & ?%elem_of_nil & _)].
  - intros i Hi. apply elem_of_seqZ in Hi. lia.
  - cbn. rewrite length_seqZ. pose proof (count_le (fun _ => true) (seqZ 0 (dmc_size d))). pose proof (num_sets_pos d Hg). nia.
  - rewrite with_counters_of in E. cbn [app] in *. exists c. split_and!; [done|done|done| |by intros s; apply C3|].
    + intros s Hs'. rewrite (proj1 (C3 s)). by apply set_blocks_count.
    + exists l', xs. by split_and!.
Qed.
