(* ===== verification/EditOk.v ===== *)
(** * Finishing the dirty blocks, switching the policy

    Lemmas about [eio_finish_nrdirty], [eio_policy_switch] and the part of
    [eio_cache_edit] that runs with application I/O blocked. *)

From S2P Require Import Prelude Types Mem DList SetLru Scan Policy Thresh World Dispatch Disk Clean CleanIo CleanState CleanSet CleanThread WbAlloc Superblock Suspend Gone Sysctl Edit.

(** ** Running the parts on the whole *)
Definition ct_with_cw (cw : cworld) (c : cache_ctl) : cache_ctl := set_ct_sys (set_sy_conf (set_cf_cw cw (ct_conf c)) (ct_sys c)) c.
Definition ct_cworld (c : cache_ctl) : cworld := cf_cw (ct_conf c).

Lemma ct_cw_run {A} (m : M cworld A) c a cw : m (ct_cworld c) = Some (a, cw) -> ct_cw m c = Some (a, ct_with_cw cw c).
Proof. intros E. unfold ct_cworld, ct_conf in E. unfold ct_cw, ct_conf_run, ct_run, sy_run, conf_cw. by rewrite E. Qed.
Lemma ct_upd_run f c : ct_upd f c = Some (tt, ct_with_cw (set_cw_d (f (ct_d c)) (ct_cworld c)) c).
Proof. done. Qed.
Lemma ct_with_cworld cw c : ct_cworld (ct_with_cw cw c) = cw.
Proof. done. Qed.
Lemma ct_with_with cw cw' c : ct_with_cw cw (ct_with_cw cw' c) = ct_with_cw cw c.
Proof. done. Qed.

(** ** Bits of [do_clean] *)
Lemma clean_start_set x : tst (Z.lor x (Z.lor EIO_CLEAN_KEEP EIO_CLEAN_START)) EIO_CLEAN_START = true.
Proof.
  change EIO_CLEAN_KEEP with (2 ^ 1). change EIO_CLEAN_START with (2 ^ 0). rewrite tst_spec by lia. rewrite !Z.lor_spec, (Z.pow2_bits_true 0) by lia. by rewrite !orb_true_r.
Qed.
Lemma clean_start_clr x : tst (clr x EIO_CLEAN_START) EIO_CLEAN_START = false.
Proof. change EIO_CLEAN_START with (2 ^ 0). rewrite tst_spec by lia. unfold clr. rewrite Z.ldiff_spec, Z.pow2_bits_true by lia. apply andb_false_r. Qed.
Lemma clr_clr x : clr (clr x EIO_CLEAN_START) EIO_CLEAN_START = clr x EIO_CLEAN_START.
Proof. unfold clr. rewrite Z.ldiff_ldiff_l. by rewrite Z.lor_diag. Qed.

(** ** The loop of [eio_finish_nrdirty] *)
Section finish.
Context (jiffies : Z -> Z).

(** the loop goes on: dirty blocks, an active cache, no fast remove, no shutdown *)
Definition still_dirty (d : cache_c) : Prop :=
  mode d = CACHE_MODE_WB /\ CACHE_FAILED_IS_SET d = false /\ fast_remove (sysctl_active d) = 0 /\ 0 < nr_dirty d /\
  tst (cache_flags d) CACHE_FLAGS_SHUTDOWN_INPROG = false.

(** a pass without the request to clean does nothing *)
Lemma idle_pass w : mode (cw_d w) = CACHE_MODE_WB -> tst (do_clean (sysctl_active (cw_d w))) EIO_CLEAN_START = false ->
  eio_clean_all jiffies w =
    Some (tt, set_cw_d (set_do_clean (clr (do_clean (sysctl_active (cw_d w))) EIO_CLEAN_START) (set_clean_index 0 (cw_d w))) w).
Proof.
  intros Hm Hs. unfold eio_clean_all. rewrite bind_gets, bind_assert by by rewrite Hm.
  rewrite (bind_run (on_cache (modify (set_clean_index 0))) _ w tt (set_cw_d (set_clean_index 0 (cw_d w)) w)) by done.
  set (w1 := set_cw_d (set_clean_index 0 (cw_d w)) w).
  assert (E : clean_all_loop (Z.to_nat (i32 (Z.shiftr (dmc_size (cw_d w)) (consecutive_shift (cw_d w))))) jiffies w1 = Some (tt, w1)).
  { assert (Ec : clean_all_cond (cw_d w1) = false).
    { unfold clean_all_cond. change (sysctl_active (cw_d w1)) with (sysctl_active (cw_d w)). rewrite Hs. by rewrite andb_false_r. }
    destruct (Z.to_nat _); cbn [clean_all_loop]; rewrite bind_gets, Ec; done. }
  rewrite (bind_run _ _ _ _ _ E). done.
Qed.

Lemma finish_spins fuel : forall c, still_dirty (ct_d c) -> tst (do_clean (sysctl_active (ct_d c))) EIO_CLEAN_START = false ->
  exists c', finish_loop jiffies fuel c = Some (None, c').
Proof.
  induction fuel as [|fuel IH]; intros c (H1 & H2 & H3 & H4 & H5) Hs; [by exists c|].
  cbn [finish_loop]. rewrite bind_gets, H2, H3. cbn [Z.eqb when].
  set (d1 := set_do_clean (clr (do_clean (sysctl_active (ct_d c))) EIO_CLEAN_START) (set_clean_index 0 (ct_d c))).
  assert (E : ct_cw (eio_clean_all jiffies) c = Some (tt, ct_with_cw (set_cw_d d1 (ct_cworld c)) c)) by (apply ct_cw_run, idle_pass; done).
  rewrite (bind_run _ _ _ _ _ E), bind_gets. change (ct_d (ct_with_cw _ c)) with d1.
  change (nr_dirty d1) with (nr_dirty (ct_d c)). change (cache_flags d1) with (cache_flags (ct_d c)). change (fast_remove (sysctl_active d1)) with (fast_remove (sysctl_active (ct_d c))).
  rewrite H3, H5, (proj2 (Z.ltb_lt _ _) H4). cbn [Z.eqb negb andb].
  apply IH; [by split_and!|]. apply clean_start_clr.
Qed.

(** one pass that leaves dirty blocks is the last that cleans *)
Lemma finish_spins_after fuel c c1 : CACHE_FAILED_IS_SET (ct_d c) = false -> fast_remove (sysctl_active (ct_d c)) = 0 ->
  ct_cw (eio_clean_all jiffies) c = Some (tt, c1) -> still_dirty (ct_d c1) ->
  exists c', finish_loop jiffies (S fuel) c = Some (None, c').
Proof.
  intros Hf Hr E Hd. cbn [finish_loop]. rewrite bind_gets, Hf, Hr. cbn [Z.eqb when]. rewrite (bind_run _ _ _ _ _ E), bind_gets.
  assert (Hd' := Hd). destruct Hd' as (H1 & H2 & H3 & H4 & H5). rewrite H3, H5, (proj2 (Z.ltb_lt _ _) H4). cbn [Z.eqb negb andb].
  apply finish_spins; [done|].
  unfold ct_cw, ct_conf_run, ct_run, sy_run, conf_cw in E. destruct (eio_clean_all jiffies (cf_cw (sy_conf (ct_sys c)))) as [[[] cw]|] eqn:E1; [|done]. injection E as <-.
  unfold eio_clean_all in E1. rewrite bind_gets in E1. apply assert_inv in E1. apply bind_inv in E1 as ([] & w2 & _ & E1). apply bind_inv in E1 as ([] & w3 & _ & E1).
  injection E1 as <-. apply clean_start_clr.
Qed.

(** ** [eio_finish_nrdirty] when the first pass cleans all *)
Definition asked (c : cache_ctl) : cache_ctl :=
  ct_with_cw (set_cw_d (set_do_clean (Z.lor (do_clean (sysctl_active (ct_d c))) (Z.lor EIO_CLEAN_KEEP EIO_CLEAN_START)) (ct_d c)) (ct_cworld c)) (set_ct_lock false (set_ct_lock true c)).

Lemma drain_idle c n : nr_ios (ct_d c) = 0 -> drain_ios n c = Some (tt, c).
Proof. intros H. destruct n; cbn [drain_ios]; rewrite bind_gets, H; done. Qed.
Lemma wait_idle c : nr_ios (ct_d c) = 0 -> wait_ios c = Some (tt, c).
Proof. intros H. unfold wait_ios. rewrite bind_gets. by apply drain_idle. Qed.

(** up to the loop *)
Lemma finish_start fuel c : ct_ttc_lock c = false -> nr_ios (ct_d c) = 0 -> tst (do_clean (sysctl_active (ct_d c))) EIO_CLEAN_START = false ->
  eio_finish_nrdirty jiffies fuel c = bind (finish_loop jiffies fuel) (fun r =>
    match r with
    | None => ret None
    | Some e =>
      ct_tune (map_do_clean (fun x => clr x EIO_CLEAN_START)) ;;
      d <- gets ct_d ;;
      ret (Some (if (tst (cache_flags d) CACHE_FLAGS_SHUTDOWN_INPROG || (FINISH_NRDIRTY_RETRY_COUNT =? 0)) && (0 <? nr_dirty d) then - EINVAL else e))
    end) (asked c).
Proof.
  intros Hl Hn Hs. unfold eio_finish_nrdirty. cbv zeta.
  rewrite (bind_run down_write _ c tt (set_ct_lock true c)) by (unfold down_write; by rewrite Hl).
  rewrite (bind_run _ _ _ _ _ (wait_idle (set_ct_lock true c) Hn)). rewrite bind_gets, bind_assert by (change (ct_d (set_ct_lock true c)) with (ct_d c); by rewrite Hs).
  unfold ct_tune. rewrite (bind_run _ _ _ _ _ (ct_upd_run _ _)). unfold up_write. rewrite bind_modify. reflexivity.
Qed.

Lemma finish_correct fuel c : ct_ttc_lock c = false -> nr_ios (ct_d c) = 0 -> tst (do_clean (sysctl_active (ct_d c))) EIO_CLEAN_START = false ->
  mode (ct_d c) = CACHE_MODE_WB -> clean_globals (ct_cworld c) -> all_ready (ct_cworld c) -> healthy (ct_cworld c) ->
  fast_remove (sysctl_active (ct_d c)) = 0 -> tst (cache_flags (ct_d c)) CACHE_FLAGS_SHUTDOWN_INPROG = false ->
  exists c', eio_finish_nrdirty jiffies (S fuel) c = Some (Some 0, c') /\ nr_dirty (ct_d c') = 0 /\ ct_ttc_lock c' = false /\
    clean_globals (ct_cworld c') /\ all_ready (ct_cworld c') /\
    forall s, 0 <= s -> volume (ct_d c') (cw_k (ct_cworld c')) s = volume (ct_d c) (cw_k (ct_cworld c)) s.
Proof.
  intros Hl Hn Hs Hm Hg Hr Hh Hf Hsd. rewrite (finish_start (S fuel) c Hl Hn Hs).
  set (f := set_do_clean (Z.lor (do_clean (sysctl_active (ct_d c))) (Z.lor EIO_CLEAN_KEEP EIO_CLEAN_START))).
  destruct (quiet_step f (ct_cworld c) Hg ltac:(done) ltac:(done)) as [_ F]. set (cw1 := set_cw_d (f (ct_d c)) (ct_cworld c)) in *.
  change (set_cw_d (f (cw_d (ct_cworld c))) (ct_cworld c)) with cw1 in F.
  assert (Hg1 := ce_globals _ _ F). assert (Hr1 := effect_all_ready _ _ F Hr).
  assert (Hw1 : clean_wanted cw1) by (split_and!; [apply clean_start_set|done|done]).
  assert (Hh1 : healthy cw1) by exact Hh.
  destruct (eio_clean_all_ok jiffies cw1 Hg1 Hr1 Hm) as (cw2 & E2 & F2 & _ & Es & _).
  destruct (eio_clean_all_none_dirty jiffies cw1 Hg1 Hr1 Hm Hh1 Hw1) as (cw2' & E2' & Hz). rewrite E2 in E2'. injection E2' as <-.
  assert (Eloop : finish_loop jiffies (S fuel) (asked c) = Some (Some 0, ct_with_cw cw2 (asked c))).
  { cbn [finish_loop]. rewrite bind_gets. change (CACHE_FAILED_IS_SET (ct_d (asked c))) with (CACHE_FAILED_IS_SET (ct_d c)).
    change (fast_remove (sysctl_active (ct_d (asked c)))) with (fast_remove (sysctl_active (ct_d c))).
    assert (CACHE_FAILED_IS_SET (ct_d c) = false) as -> by apply Hh. rewrite Hf. cbn [Z.eqb when].
    assert (E : ct_cw (eio_clean_all jiffies) (asked c) = Some (tt, ct_with_cw cw2 (asked c))) by (apply ct_cw_run; exact E2).
    rewrite (bind_run _ _ _ _ _ E), bind_gets. change (ct_d (ct_with_cw cw2 (asked c))) with (cw_d cw2). rewrite Hz. cbn [Z.ltb Z.compare]. by rewrite andb_false_r. }
  rewrite (bind_run _ _ _ _ _ Eloop). cbv iota. unfold ct_tune. rewrite (bind_run _ _ _ _ _ (ct_upd_run _ _)). rewrite bind_gets.
  set (d3 := set_sysctl_active (map_do_clean (fun x => clr x EIO_CLEAN_START) (sysctl_active (ct_d (ct_with_cw cw2 (asked c))))) (ct_d (ct_with_cw cw2 (asked c)))).
  set (c3 := ct_with_cw (set_cw_d d3 (ct_cworld (ct_with_cw cw2 (asked c)))) (ct_with_cw cw2 (asked c))).
  change (ct_d c3) with d3. change (nr_dirty d3) with (nr_dirty (cw_d cw2)). rewrite Hz. cbn [Z.ltb Z.compare]. rewrite andb_false_r.
  destruct (quiet_step (set_sysctl_active (map_do_clean (fun x => clr x EIO_CLEAN_START) (sysctl_active (cw_d cw2)))) cw2 (ce_globals _ _ F2) ltac:(apply quiet_sysctl) ltac:(done)) as [_ F3].
  exists c3. split; [done|]. split; [exact Hz|]. split; [done|]. split; [exact (ce_globals _ _ F3)|]. split; [exact (effect_all_ready _ _ F3 (effect_all_ready _ _ F2 Hr1))|].
  intros s Hs0. etrans; [exact (ce_volume _ _ F3 s Hs0)|]. etrans; [exact (ce_volume _ _ F2 s Hs0)|]. exact (ce_volume _ _ F s Hs0).
Qed.
End finish.

(** ** [eio_policy_switch] *)
Lemma pol_only_ops d d' : pol_only d d' -> policy_ops d' = policy_ops d /\ req_policy d' = req_policy d.
Proof. by intros (r & b & m & ->). Qed.

Lemma switch_out_error old e w r w' : policy_switch_out old e w = Some (r, w') -> r = e.
Proof. unfold policy_switch_out. intros (d & w1 & _ & (u & w2 & _ & (u' & w3 & _ & [= -> _])%bind_inv)%bind_inv)%bind_inv. done. Qed.

Lemma policy_switch_result policy w w' : req_policy (cf_d w) <> 0 -> eio_policy_switch policy w = Some (0, w') ->
  req_policy (cf_d w') = policy /\ policy_ops (cf_d w') <> None /\ exists ok, policy_ops (cf_d w') = eio_get_policy ok (req_policy (cf_d w)) (cf_policies w).
Proof.
  intros Hne E. unfold eio_policy_switch in E. rewrite bind_gets in E. apply assert_inv in E. cbv zeta in E.
  apply bind_inv in E as (ok & w1 & E1 & E).
  assert (K : cf_d w1 = cf_d w /\ cf_policies w1 = cf_policies w) by (unfold conf_kmalloc in E1; destruct (cf_kmalloc w); by injection E1 as _ <-). destruct K as [Kd Kp].
  rewrite bind_gets, Kp in E. apply bind_inv in E as (e & w2 & E2 & E). apply conf_dmc_inv in E2 as (d2 & E2 & Ed2 & _). rewrite Kd in E2.
  unfold eio_policy_init in E2. rewrite (proj2 (Z.eqb_neq _ 0) Hne) in E2. cbn [policy_ops set_policy_ops] in E2.
  destruct (eio_get_policy ok (req_policy (cf_d w)) (cf_policies w)) as [p|] eqn:Ep.
  2:{ injection E2 as <- _. apply switch_out_error in E. done. }
  injection E2 as <- <-. cbn [Z.eqb negb] in E. apply bind_inv in E as (blk & w3 & [= <- <-] & E).
  apply bind_inv in E as (e3 & w3 & E3 & E). apply conf_dmc_inv in E3 as (d3 & (P3a & P3b)%blk_init_pol%pol_only_ops & Ed3 & _). rewrite Ed2 in P3a, P3b.
  destruct (Z.eqb_spec e3 0); cbn [negb] in E; [|by apply switch_out_error in E].
  apply bind_inv in E as (ok4 & w4 & E4 & E). assert (K4 : cf_d w4 = d3) by (unfold conf_kmalloc in E4; destruct (cf_kmalloc w3); by injection E4 as _ <-).
  apply bind_inv in E as (e5 & w5 & E5 & E). apply conf_dmc_inv in E5 as (d5 & (P5a & P5b)%sets_init_pol%pol_only_ops & Ed5 & _). rewrite K4 in P5a, P5b.
  destruct (Z.eqb_spec e5 0); cbn [negb] in E; [|by apply switch_out_error in E].
  apply bind_inv in E as (u & w6 & E6 & E). apply conf_dmc_inv in E6 as (d6 & (P6a & P6b)%pushblks_pol%pol_only_ops & Ed6 & _). rewrite Ed5 in P6a, P6b.
  apply bind_inv in E as (u' & w7 & E7 & [= <-]). apply conf_dmc_inv in E7 as (d7 & [= _ <-] & -> & _). rewrite Ed6. cbn [req_policy policy_ops set_req_policy].
  rewrite P6a, P5a, P3a. cbn [policy_ops set_policy_ops]. split_and!; [done|done|]. by exists ok.
Qed.

(** ** A store of the superblock that fails *)
Lemma ct_conf_run_ok {A} (m : M conf_world A) c a w : m (ct_conf c) = Some (a, w) -> ct_conf_run m c = Some (a, set_ct_sys (set_sy_conf w (ct_sys c)) c).
Proof. intros E. unfold ct_conf in E. unfold ct_conf_run, ct_run, sy_run. by rewrite E. Qed.

(** between the modes without a clean thread *)
Definition plain_mode (m : Z) : Prop := m = CACHE_MODE_RO \/ m = CACHE_MODE_WT.
Lemma mode_switch_plain md c : plain_mode md -> plain_mode (mode (ct_d c)) -> mode (ct_d c) <> md ->
  eio_mode_switch md c = Some (0, ct_with_cw (set_cw_d (set_mode md (ct_d c)) (ct_cworld c)) c).
Proof.
  intros Hm Hc Hne. unfold eio_mode_switch. rewrite bind_gets, bind_assert by by rewrite (proj2 (Z.eqb_neq _ _) Hne).
  assert (E1 : (md =? CACHE_MODE_WB) = false) by (destruct Hm as [-> | ->]; done). assert (E2 : (mode (ct_d c) =? CACHE_MODE_WB) = false) by (destruct Hc as [-> | ->]; done).
  rewrite E1, E2. rewrite bind_assert by (destruct Hm as [-> | ->], Hc as [E | E]; rewrite E in *; done). by rewrite (bind_run _ _ _ _ _ (ct_upd_run _ _)).
Qed.

Lemma edit_store_fails old md c e w1 : ct_ttc_lock c = false -> nr_ios (ct_d c) = 0 -> plain_mode md -> plain_mode (mode (ct_d c)) -> mode (ct_d c) <> md ->
  let d1 := set_sysctl_active (set_interval old (sysctl_active (ct_d c))) (set_mode md (ct_d c)) in
  eio_sb_store (set_cf_cw (set_cw_d d1 (ct_cworld c)) (ct_conf c)) = Some (e, w1) -> e <> 0 ->
  exists c', edit_locked old md 0 c = Some (e, c') /\ ct_ttc_lock c' = true.
Proof.
  intros Hl Hn Hm Hc Hne d1 E He. set (c1 := set_ct_lock true c). assert (Hn1 : nr_ios (ct_d c1) = 0) by exact Hn.
  unfold edit_locked. rewrite (bind_run down_write _ c tt c1) by (unfold down_write; by rewrite Hl).
  rewrite (bind_run _ _ _ _ _ (wait_idle c1 Hn1)). rewrite bind_gets, bind_assert by by rewrite Hn1. cbn [Z.eqb negb andb]. rewrite bind_ret. cbn [Z.eqb negb].
  assert (Hm0 : negb (md =? 0) && negb (md =? mode (ct_d c1)) = true).
  { change (mode (ct_d c1)) with (mode (ct_d c)). assert ((md =? mode (ct_d c)) = false) as -> by (apply Z.eqb_neq; congruence). by destruct Hm as [-> | ->]. }
  rewrite Hm0. rewrite (bind_run _ _ _ _ _ (mode_switch_plain md c1 Hm Hc Hne)). cbn [Z.eqb negb]. unfold ct_tune. rewrite (bind_run _ _ _ _ _ (ct_upd_run _ _)).
  set (c2 := ct_with_cw _ (ct_with_cw _ c1)). assert (Ec : ct_conf c2 = set_cf_cw (set_cw_d d1 (ct_cworld c)) (ct_conf c)) by done.
  assert (E2 : eio_sb_store (ct_conf c2) = Some (e, w1)) by by rewrite Ec. rewrite (bind_run _ _ _ _ _ (ct_conf_run_ok _ _ _ _ E2)).
  rewrite (proj2 (Z.eqb_neq _ _) He). cbn [negb]. eexists. split; [reflexivity|]. done.
Qed.
