(* ===== verification/Delete.v ===== *)
(** * Deleting a cache, and the shutdown of the system ([eio_conf.c], [eio_ttc.c])

    [eio_ttc_deactivate] cleans a write-back cache and takes it out of the table;
    [eio_cache_delete] stores the metadata and frees everything.  Before a reboot
    [eio_reboot_handling] makes every cache read-only and stores its metadata;
    [eio_notify_reboot] only stores them.

    ** What a deletion leaves

    A deletion that succeeds leaves nothing of the cache outside of its own
    memory; one that fails changes nothing there. *)

From S2P Require Import Prelude Types Mem DList SetLru Scan Policy World Dispatch Disk Clean CleanThread Lookup Thresh WbAlloc Superblock MdStore MdCreate MdLoad Suspend Recovery Sysctl Edit Ttc Create PageIo LoadLoop Saved TtcReg CreateOk EditOk.

(** * Deleting a cache, and the shutdown of the system ([eio_conf.c], [eio_ttc.c]) *)
Section delete.
Context (jiffies : Z -> Z) (systime HZ : Z).

(** ** [eio_ttc_deactivate] *)

(** [c]: the cache's element of the table; [None] when [eio_finish_nrdirty] still
    runs after [fuel] rounds *)
Definition eio_ttc_deactivate (fuel : nat) (c : ttc_cache) (force : bool) : M adm (option Z) :=
  d <- gets ad_d ;;
  r <- (if negb force && (mode d =? CACHE_MODE_WB) && negb (CACHE_FAILED_IS_SET d) then adm_run (eio_finish_nrdirty jiffies fuel)
        else ret (Some 0)) ;;
  match r with
  | None => ret None
  | Some e =>
    if negb (e =? 0) then ret (Some e)
    else
      ad_on_ttc (ttc_unregister c) ;;
      adm_run wait_ios ;;
      ret (Some 0)
  end.

(** ** [eio_cache_delete] *)

(** label [out] *)
Definition delete_out (result : Z) (restart_async_task : bool) : M adm Z :=
  when restart_async_task (adm_run (r <- eio_start_clean_thread ;; ret tt)) ;;
  ad_upd (clear_flag CACHE_FLAGS_MOD_INPROG) ;;
  if result =? 0 then
    ad_upd (set_flag CACHE_FLAGS_DELETED) ;;
    ad_upd eio_policy_free ;;
    d <- gets ad_d ;;
    when (negb (tst (cache_flags d) CACHE_FLAGS_SHUTDOWN_INPROG)) (modify (set_ad_dmc false)) ;;
    ret 0
  else ret result.

(** label [force_delete] *)
Definition delete_force (fuel : nat) (c : ttc_cache) : M adm (option Z) :=
  adm_run (ct_run eio_procfs_dtr) ;;
  d <- gets ad_d ;;
  r <- (if CACHE_STALE_IS_SET d then eio_ttc_deactivate fuel c true else ret (Some 0)) ;;
  match r with
  | None => ret None
  | Some _ =>
    adm_run eio_free_wb_resources ;;
    ad_upd vfree_cache ;;
    ad_upd (set_cache_sets ∅) ;;
    modify (set_ad_src false) ;;
    modify (set_ad_ssd false) ;;
    modify (fun w => set_cache_list (List.filter (fun x => negb (x =? tc_dmc c)) (cache_list w)) w) ;;
    e <- delete_out 0 false ;; ret (Some e)
  end.

(** an ordinary delete *)
Definition delete_clean (fuel : nat) (c : ttc_cache) : M adm (option Z) :=
  adm_run (eio_stop_async_tasks jiffies systime) ;;
  r <- eio_ttc_deactivate fuel c false ;;
  match r with
  | None => ret None
  | Some e =>
    if negb (e =? 0) then
      ad_upd (set_flag CACHE_FLAGS_STALE) ;;
      e <- delete_out (- EPERM) true ;; ret (Some e)
    else
      d <- gets ad_d ;;
      EIO_ASSERT (CACHE_FAILED_IS_SET d || negb (fast_remove (sysctl_active d) =? 0) || (nr_dirty d =? 0)) ;;
      when (negb (CACHE_FAILED_IS_SET d || CACHE_DEGRADED_IS_SET d)) (ad_conf_run (r <- eio_md_store ;; ret tt)) ;;
      delete_force fuel c
  end.

(** [do_delete] is not used *)
Definition eio_cache_delete (fuel : nat) (cache_name : list Z) (do_delete : bool) : M adm (option Z) :=
  w <- gets id ;;
  match eio_cache_lookup cache_name (ad_ttc w) with
  | None => ret (Some (- EINVAL))
  | Some c =>
    let d := ad_d w in
    if tst (cache_flags d) CACHE_FLAGS_SHUTDOWN_INPROG then ret (Some (- EINVAL))
    else if tst (cache_flags d) CACHE_FLAGS_MOD_INPROG then ret (Some (- EINVAL))
    else
      ad_upd (set_flag CACHE_FLAGS_MOD_INPROG) ;;
      if CACHE_STALE_IS_SET d && CACHE_FAILED_IS_SET d then delete_force fuel c
      else if CACHE_STALE_IS_SET d && negb (nr_dirty d =? 0) then
        ad_upd (clear_flag CACHE_FLAGS_MOD_INPROG) ;; ret (Some (- EINVAL))
      else delete_clean fuel c
  end.

(** ** The shutdown of the system *)
Definition EIO_REBOOT_HANDLING_INPROG : Z := 1.
Definition EIO_REBOOT_HANDLING_DONE : Z := 2.

Record reboot_world := mk_reboot {
  eio_reboot_notified : Z;
  rb_caches : list cache_ctl            (* the caches, in the order of the walk *)
}.

(** [f] on every cache of the walk *)
Fixpoint walk (f : M cache_ctl unit) (l : list cache_ctl) : option (list cache_ctl) :=
  match l with
  | [] => Some []
  | c :: l => match f c with Some (_, c) => option_map (cons c) (walk f l) | None => None end
  end.
Definition for_each_cache (f : M cache_ctl unit) : M reboot_world unit := fun w =>
  match walk f (rb_caches w) with Some l => Some (tt, {| w with rb_caches := l |}) | None => None end.
Definition set_reboot_notified v (w : reboot_world) := {| w with eio_reboot_notified := v |}.

(** a cold cache is cleaned, unless the boot is forced to be warm *)
Definition reboot_drain : M cache_ctl unit :=
  c <- gets id ;;
  let d := ct_d c in
  when (negb (cold_boot d =? 0) && negb (nr_dirty d =? 0) && negb (eio_force_warm_boot (ct_conf c))) (ct_cw (eio_clean_for_reboot jiffies)).
Definition reboot_store : M cache_ctl unit := ct_conf_run (r <- eio_md_store ;; ret tt).

(** [while (cache_flags & MOD_INPROG) schedule_timeout]: another thread ends its
    edit or delete meanwhile *)
Fixpoint wait_mod (n : nat) : M cache_ctl unit :=
  d <- gets ct_d ;;
  if negb (tst (cache_flags d) CACHE_FLAGS_MOD_INPROG) then ret tt
  else match n with O => panic | S n => ct_conf_run conf_msleep ;; wait_mod n end.

Definition set_cache_rdonly (v : Z) (d : cache_c) : cache_c := {| d with cache_rdonly := v |}.

Definition reboot_cache : M cache_ctl unit :=
  d <- gets ct_d ;;
  if CACHE_FAILED_IS_SET d || CACHE_DEGRADED_IS_SET d then ret tt
  else
    wait_ios ;;
    d <- gets ct_d ;;
    EIO_ASSERT (nr_ios d =? 0) ;;
    EIO_ASSERT (cache_rdonly d =? 0) ;;
    EIO_ASSERT (negb (tst (cache_flags d) CACHE_FLAGS_SHUTDOWN_INPROG)) ;;
    ct_upd (set_flag CACHE_FLAGS_SHUTDOWN_INPROG) ;;
    c <- gets id ;;
    wait_mod (length (cf_sleeps (ct_conf c))) ;;
    d <- gets ct_d ;;
    if tst (cache_flags d) CACHE_FLAGS_DELETED then ret tt
    else
      let old_time_thresh := time_based_clean_interval (sysctl_active d) in
      eio_stop_async_tasks jiffies systime ;;
      ct_tune (set_interval old_time_thresh) ;;
      ct_upd (set_cache_rdonly 1) ;;
      reboot_drain ;;
      reboot_store ;;
      ct_upd (clear_flag CACHE_FLAGS_SHUTDOWN_INPROG).

Definition eio_reboot_handling : M reboot_world Z :=
  w <- gets id ;;
  if eio_reboot_notified w =? EIO_REBOOT_HANDLING_DONE then ret 0
  else
    EIO_ASSERT (eio_reboot_notified w =? 0) ;;
    modify (set_reboot_notified EIO_REBOOT_HANDLING_INPROG) ;;
    for_each_cache reboot_cache ;;
    modify (set_reboot_notified EIO_REBOOT_HANDLING_DONE) ;;
    ret 0.

Definition eio_notify_reboot : M reboot_world unit :=
  w <- gets id ;;
  if eio_reboot_notified w =? EIO_REBOOT_HANDLING_DONE then ret tt
  else
    EIO_ASSERT (eio_reboot_notified w =? 0) ;;
    modify (set_reboot_notified EIO_REBOOT_HANDLING_INPROG) ;;
    for_each_cache (
      d <- gets ct_d ;;
      if CACHE_FAILED_IS_SET d || CACHE_DEGRADED_IS_SET d then ret tt else reboot_drain ;; reboot_store) ;;
    modify (set_reboot_notified EIO_REBOOT_HANDLING_DONE).
End delete.

(** * What a deletion leaves *)
(** ** The table *)
Lemma modify_inv {S} (f : S -> S) s u s' : modify f s = Some (u, s') -> s' = f s.
Proof. unfold modify. intros E. by injection E as _ ->. Qed.
Lemma partition_scan_keeps c l w r : forall w', partition_scan c l w = Some (r, w') -> w' = w.
Proof.
  induction l as [|x l IH]; intros w'; cbn [partition_scan]; [by intros [= _ ->]|].
  destruct ((tc_dmc x =? tc_dmc c) || negb (same_disk (tc_bdev c) x)); [apply IH|]. intros E%assert_inv. by injection E as _ ->.
Qed.

Lemma unregister_buckets c w w' : ttc_unregister c w = Some (tt, w') ->
  forall i, bucket w' i = if decide (EIO_HASH_BDEV (bd_contains (tc_bdev c)) = i) then others c w else bucket w i.
Proof.
  unfold ttc_unregister. cbv zeta. rewrite bind_gets. unfold id. intros (found & w1 & E1 & E)%bind_inv.
  assert (w1 = w) as ->.
  { destruct (negb (dev_info c =? EIO_DEV_WHOLE_DISK)); [by apply partition_scan_keeps in E1|by injection E1 as _ <-]. }
  apply bind_inv in E as ([] & w2 & E2 & E). apply modify_inv in E as ->. intros i.
  assert (K : eio_ttc_list w2 = eio_ttc_list w) by (destruct ((dev_info c =? EIO_DEV_WHOLE_DISK) || negb found); cbn [when] in E2; [by apply modify_inv in E2 as ->|by injection E2 as <-]).
  unfold bucket. cbn [set_ttc_list eio_ttc_list]. rewrite K. case_decide as Ei; [subst i; by rewrite lookup_total_insert_eq|by rewrite lookup_total_insert_ne].
Qed.

Definition unlisted (c : ttc_cache) (w : ttc_world) : Prop := forall i, c ∉ bucket w i.

Lemma unregister_unlisted c w w' : (forall i, c ∈ bucket w i -> i = EIO_HASH_BDEV (bd_contains (tc_bdev c))) -> ttc_unregister c w = Some (tt, w') -> unlisted c w'.
Proof.
  intros Hp E i Hi. rewrite (unregister_buckets _ _ _ E) in Hi. destruct (decide _) as [Ei|Ei] in Hi.
  - apply (in_others c w c) in Hi as [_ ?]. done.
  - apply Ei. symmetry. by apply Hp.
Qed.
Lemma lookup_listed name w c : eio_cache_lookup name w = Some c -> exists i, c ∈ bucket w i.
Proof.
  unfold eio_cache_lookup. intros [H _]%list_find_Some. apply list_elem_of_In, in_concat in H as (l & Hl & Hc).
  apply in_map_iff in Hl as (i & <- & _). exists i. by apply list_elem_of_In.
Qed.

(** ** The parts of a deletion *)
Lemma ttc_step_inv {A} (m : M ttc_world A) w a w' : ad_on_ttc m w = Some (a, w') -> exists t, m (ad_ttc w) = Some (a, t) /\ w' = set_ad_ttc t w.
Proof. unfold ad_on_ttc. destruct (m (ad_ttc w)) as [[x t]|]; [|done]. intros [= <- <-]. by exists t. Qed.

(** everything but the table is as it was outside *)
Record same_but_table (w w' : adm) : Prop := {
  sb_list : cache_list w' = cache_list w; sb_dmc : ad_dmc w' = ad_dmc w; sb_src : ad_src w' = ad_src w; sb_ssd : ad_ssd w' = ad_ssd w
}.
Lemma outside_but_table w w' : same_outside w w' -> same_but_table w w'.
Proof. intros []. by split. Qed.

Definition in_place (c : ttc_cache) (w : ttc_world) : Prop := forall i, c ∈ bucket w i -> i = EIO_HASH_BDEV (bd_contains (tc_bdev c)).

Section delete.
Context (jiffies : Z -> Z) (systime HZ : Z).

Lemma deactivate_inv fuel c force w r w' : in_place c (ad_ttc w) -> eio_ttc_deactivate jiffies fuel c force w = Some (Some r, w') ->
  (r <> 0 /\ force = false /\ same_outside w w') \/ (r = 0 /\ unlisted c (ad_ttc w') /\ same_but_table w w').
Proof.
  intros Hp. unfold eio_ttc_deactivate. rewrite bind_gets. intros (q & w1 & E1 & E)%bind_inv.
  set (cond := negb force && (mode (ad_d w) =? CACHE_MODE_WB) && negb (CACHE_FAILED_IS_SET (ad_d w))) in E1.
  assert (K : same_outside w w1 /\ (force = true -> q = Some 0)).
  { destruct cond eqn:Ec; [|by injection E1 as <- <-]. split; [by apply adm_run_outside in E1|]. intros ->. done. }
  destruct K as [K Kf]. destruct q as [e|]; [|done]. destruct (Z.eqb_spec e 0) as [->|Hne]; cbn [negb] in E.
  - apply bind_inv in E as ([] & w2 & E2 & E). apply ttc_step_inv in E2 as (t & E2 & ->). apply bind_inv in E as ([] & w3 & E3 & [= <- <-]).
    apply adm_run_outside in E3. right. split; [done|]. destruct K as [K1 K2 K3 K4 K5], E3 as [L1 L2 L3 L4 L5]. cbn in L1, L2, L3, L4, L5. split.
    + rewrite L1. apply (unregister_unlisted c (ad_ttc w1)); [by rewrite K1|exact E2].
    + split; congruence.
  - injection E as <- <-. left. split; [done|]. split; [|done]. destruct force; [|done]. specialize (Kf eq_refl). congruence.
Qed.

(** nothing is left *)
Record deleted (c : ttc_cache) (w' : adm) : Prop := {
  dl_table : unlisted c (ad_ttc w');
  dl_list : tc_dmc c ∉ cache_list w';
  dl_src : ad_src w' = false; dl_ssd : ad_ssd w' = false;
  dl_dmc : tst (cache_flags (ad_d w')) CACHE_FLAGS_SHUTDOWN_INPROG = false -> ad_dmc w' = false
}.

Lemma delete_out_zero w r w' : delete_out 0 false w = Some (r, w') ->
  r = 0 /\ ad_ttc w' = ad_ttc w /\ cache_list w' = cache_list w /\ ad_src w' = ad_src w /\ ad_ssd w' = ad_ssd w /\
  (tst (cache_flags (ad_d w')) CACHE_FLAGS_SHUTDOWN_INPROG = false -> ad_dmc w' = false).
Proof.
  unfold delete_out. cbn [when Z.eqb]. rewrite bind_ret. intros ([] & w1 & E1%adm_run_outside & E)%bind_inv.
  apply bind_inv in E as ([] & w2 & E2%adm_run_outside & E). apply bind_inv in E as ([] & w3 & E3%adm_run_outside & E). rewrite bind_gets in E.
  assert (K : same_outside w w3) by (do 2 (etrans; [eassumption|]); done). destruct K as [K1 K2 K3 K4 K5].
  apply bind_inv in E as ([] & w4 & E4 & [= <- <-]). destruct (tst (cache_flags (ad_d w3)) CACHE_FLAGS_SHUTDOWN_INPROG) eqn:Es; cbn [negb when] in E4.
  - injection E4 as <-. split_and!; try done. by rewrite Es.
  - injection E4 as <-. by split_and!.
Qed.

Lemma delete_force_inv fuel c w r w' : in_place c (ad_ttc w) -> (CACHE_STALE_IS_SET (ad_d w) = false -> unlisted c (ad_ttc w)) ->
  (forall w1, adm_run (ct_run eio_procfs_dtr) w = Some (tt, w1) -> CACHE_STALE_IS_SET (ad_d w1) = CACHE_STALE_IS_SET (ad_d w)) ->
  delete_force jiffies fuel c w = Some (Some r, w') -> r = 0 /\ deleted c w'.
Proof.
  intros Hp Hu Hst. unfold delete_force. intros ([] & w1 & E1 & E)%bind_inv. assert (Es := Hst _ E1). apply adm_run_outside in E1. rewrite bind_gets in E.
  apply bind_inv in E as (q & w2 & E2 & E). destruct E1 as [A1 A2 A3 A4 A5].
  assert (K : unlisted c (ad_ttc w2)).
  { rewrite Es in E2. destruct (CACHE_STALE_IS_SET (ad_d w)) eqn:Est.
    - destruct q as [q|]; [|done]. destruct (deactivate_inv fuel c true w1 q w2) as [(_ & ? & _)|(_ & ? & _)]; [by rewrite A1|done|done|done].
    - injection E2 as _ <-. rewrite A1. by apply Hu. }
  destruct q as [q|]; [|done]. apply bind_inv in E as ([] & w3 & E3%adm_run_outside & E). apply bind_inv in E as ([] & w4 & E4%adm_run_outside & E).
  apply bind_inv in E as ([] & w5 & E5%adm_run_outside & E). rewrite !bind_modify in E. apply bind_inv in E as (e & w6 & E6 & [= <- <-]).
  apply delete_out_zero in E6 as (-> & B1 & B2 & B3 & B4 & B5). split; [done|].
  assert (L : same_outside w2 w5) by (do 2 (etrans; [eassumption|]); done). destruct L as [L1 L2 L3 L4 L5]. cbn in B1, B2, B3, B4.
  split; [by rewrite B1, L1| |done|done|done]. rewrite B2. intros H. apply list_elem_of_In, filter_In in H as [_ H]. by rewrite Z.eqb_refl in H.
Qed.
End delete.

(** ** Removing the files under [/proc] leaves the cache alone *)
Definition same_cache (w w' : sys_world) : Prop := sy_d w' = sy_d w.
#[export] Instance same_cache_preorder : PreOrder same_cache.
Proof. split; [done|]. intros w1 w2 w3 E1 E2. unfold same_cache in *. congruence. Qed.

Lemma kmalloc_same : step_keeps same_cache (sy_run conf_kmalloc).
Proof.
  intros w a w'. unfold sy_run, conf_kmalloc. destruct (cf_kmalloc (sy_conf w)); intros E; injection E as _ <-; done.
Qed.
Lemma cachename_same c : step_keeps same_cache (eio_cons_procfs_cachename c).
Proof.
  unfold eio_cons_procfs_cachename. apply step_keeps_bind; [exact same_cache_preorder|apply (keeps_gets same_cache)|]. intros w. cbv zeta.
  case_bool_decide; [apply (keeps_ret same_cache)|]. apply step_keeps_bind; [exact same_cache_preorder|apply kmalloc_same|]. intros ok. apply (keeps_ret same_cache).
Qed.
Lemma unfile_same c : step_keeps same_cache (proc_unfile c).
Proof.
  unfold proc_unfile. apply step_keeps_bind; [exact same_cache_preorder|apply cachename_same|]. intros [s|]; cbn [remove_proc_entry].
  - by apply step_keeps_modify.
  - by intros w a w'.
Qed.
Lemma mfor_same (cs : list (list Z)) : step_keeps same_cache (mfor cs proc_unfile).
Proof.
  induction cs as [|c cs IH]; [apply (keeps_ret same_cache)|]. cbn [mfor]. apply step_keeps_bind; [exact same_cache_preorder|apply unfile_same|]. by intros [].
Qed.
Lemma dtr_same : step_keeps same_cache eio_procfs_dtr.
Proof.
  unfold eio_procfs_dtr. repeat (apply step_keeps_bind; [exact same_cache_preorder|first [apply mfor_same|by apply step_keeps_modify]|intros _]). by apply step_keeps_modify.
Qed.
Lemma dtr_same_cache w u w' : adm_run (ct_run eio_procfs_dtr) w = Some (u, w') -> ad_d w' = ad_d w.
Proof.
  unfold adm_run, ct_run. destruct (eio_procfs_dtr (ct_sys (ad_ctl w))) as [[x s]|] eqn:E; [|done]. apply dtr_same in E. intros H. injection H as _ <-. exact E.
Qed.

(** the mark of a modification leaves the other flags *)
Lemma mod_mark_flag f : tst (Z.lor f CACHE_FLAGS_MOD_INPROG) CACHE_FLAGS_STALE = tst f CACHE_FLAGS_STALE.
Proof.
  change CACHE_FLAGS_MOD_INPROG with (2 ^ 9). change CACHE_FLAGS_STALE with (2 ^ 7). rewrite !tst_spec by lia. rewrite Z.lor_spec, Z.pow2_bits_false by lia. apply orb_false_r.
Qed.

Section whole.
Context (jiffies : Z -> Z) (systime HZ : Z).

Lemma delete_clean_inv fuel c w r w' : in_place c (ad_ttc w) -> delete_clean jiffies systime fuel c w = Some (Some r, w') ->
  (r = 0 /\ deleted c w') \/ (r <> 0 /\ same_outside w w').
Proof.
  intros Hp. unfold delete_clean. intros ([] & w1 & E1%adm_run_outside & E)%bind_inv. apply bind_inv in E as (q & w2 & E2 & E).
  destruct q as [e|]; [|done]. assert (Hp1 : in_place c (ad_ttc w1)) by by destruct E1 as [-> _ _ _ _].
  destruct (deactivate_inv jiffies fuel c false w1 e w2 Hp1 E2) as [(He & _ & K)|(-> & Hu & K)].
  - rewrite (proj2 (Z.eqb_neq _ _) He) in E. cbn [negb] in E. apply bind_inv in E as ([] & w3 & E3%adm_run_outside & E).
    apply bind_inv in E as (e' & w4 & E4 & E). injection E as -> ->. right. unfold delete_out in E4.
    apply bind_inv in E4 as ([] & w5 & E5%adm_run_outside & E4). apply bind_inv in E4 as ([] & w6 & E6%adm_run_outside & E4).
    change (- EPERM =? 0) with false in E4. cbv iota in E4. injection E4 as <- <-. split; [done|]. do 4 (etrans; [eassumption|]). done.
  - cbn [Z.eqb negb] in E. rewrite bind_gets in E. apply assert_inv in E. apply bind_inv in E as ([] & w3 & E3 & E). left.
    assert (K3 : same_outside w2 w3).
    { match type of E3 with when ?b _ _ = _ => destruct b end; cbn [when] in E3; [by apply adm_run_outside in E3|by injection E3 as <-]. }
    eapply (delete_force_inv jiffies); [| | |exact E].
    + intros i Hi. exfalso. apply (Hu i). destruct K3 as [K3 _ _ _ _]. by rewrite K3 in Hi.
    + intros _. destruct K3 as [K3 _ _ _ _]. by rewrite K3.
    + intros w4 E4. unfold CACHE_STALE_IS_SET. by rewrite (dtr_same_cache _ _ _ E4).
Qed.

Lemma delete_inv fuel name b c w r w' : ttc_ok (ad_ttc w) -> eio_cache_lookup name (ad_ttc w) = Some c ->
  eio_cache_delete jiffies systime fuel name b w = Some (Some r, w') ->
  (r = 0 /\ deleted c w') \/ (r <> 0 /\ same_outside w w').
Proof.
  intros Hok Hl. unfold eio_cache_delete. rewrite bind_gets. unfold id. rewrite Hl. cbv zeta.
  assert (Hp : in_place c (ad_ttc w)) by (intros i Hi; by apply (to_place _ Hok)).
  destruct (tst _ CACHE_FLAGS_SHUTDOWN_INPROG); [intros E; injection E as <- <-; by right|].
  destruct (tst _ CACHE_FLAGS_MOD_INPROG); [intros E; injection E as <- <-; by right|].
  intros ([] & w1 & E1 & E)%bind_inv.
  assert (Es : CACHE_STALE_IS_SET (ad_d w1) = CACHE_STALE_IS_SET (ad_d w)).
  { unfold ad_upd, adm_run in E1. rewrite ct_upd_run in E1. injection E1 as <-. apply mod_mark_flag. }
  apply adm_run_outside in E1. assert (Hp1 : in_place c (ad_ttc w1)) by by destruct E1 as [-> _ _ _ _].
  destruct (CACHE_STALE_IS_SET (ad_d w)) eqn:Est; cbn [andb] in E.
  - destruct (CACHE_FAILED_IS_SET (ad_d w)).
    + left. eapply (delete_force_inv jiffies); [exact Hp1|congruence| |exact E].
      intros w2 E2. unfold CACHE_STALE_IS_SET. by rewrite (dtr_same_cache _ _ _ E2).
    + destruct (negb (nr_dirty (ad_d w) =? 0)).
      * apply bind_inv in E as ([] & w2 & E2%adm_run_outside & E). injection E as <- <-. right. split; [done|]. by etrans.
      * destruct (delete_clean_inv fuel c w1 r w' Hp1 E) as [?|[? ?]]; [by left|right; split; [done|by etrans]].
  - destruct (delete_clean_inv fuel c w1 r w' Hp1 E) as [?|[? ?]]; [by left|right; split; [done|by etrans]].
Qed.

(** ** The thread of a stale cache *)
Definition same_thread (w w' : adm) : Prop := ct_clean_thread (ad_ctl w') = ct_clean_thread (ad_ctl w).
#[local] Instance same_thread_preorder : PreOrder same_thread.
Proof. split; [done|]. intros w1 w2 w3 E1 E2. unfold same_thread in *. congruence. Qed.

Lemma run_thread {A} (m : M sys_world A) : step_keeps same_thread (adm_run (ct_run m)).
Proof. intros w a w'. unfold adm_run, ct_run. destruct (m (ct_sys (ad_ctl w))) as [[x s]|]; [|done]. intros E. injection E as _ <-. done. Qed.
Lemma upd_thread f : step_keeps same_thread (ad_upd f).
Proof. apply run_thread. Qed.
Lemma drain_thread n : forall c a c', drain_ios n c = Some (a, c') -> ct_clean_thread c' = ct_clean_thread c.
Proof.
  induction n as [|n IH]; intros c a c'; cbn [drain_ios]; rewrite bind_gets; destruct (nr_ios (ct_d c) =? 0); try (intros E; injection E as _ <-; done).
  - done.
  - intros (u & c1 & E1 & E)%bind_inv. apply IH in E. rewrite E. unfold ct_conf_run, ct_run in E1. destruct (sy_run conf_msleep (ct_sys c)) as [[x s]|]; [|done]. injection E1 as _ <-. done.
Qed.
Lemma wait_thread : step_keeps same_thread (adm_run wait_ios).
Proof.
  intros w a w'. unfold adm_run. destruct (wait_ios (ad_ctl w)) as [[x c]|] eqn:E; [|done]. intros H. injection H as _ <-. unfold wait_ios in E. rewrite bind_gets in E.
  exact (drain_thread _ _ _ _ E).
Qed.

(** freeing the buffers does not stop it *)
Definition same_wr_thread (r r' : wb_res) : Prop := clean_thread r' = clean_thread r.
#[local] Instance same_wr_thread_preorder : PreOrder same_wr_thread.
Proof. split; [done|]. intros w1 w2 w3 E1 E2. unfold same_wr_thread in *. congruence. Qed.
Lemma on_mem_thread {A} (m : M kmem A) : step_keeps same_wr_thread (on_mem m).
Proof. intros r a r'. unfold on_mem. destruct (m (wr_mem r)) as [[x k]|]; [|done]. intros E. injection E as _ <-. done. Qed.
Ltac wr_step :=
  first [ apply step_keeps_bind; [exact same_wr_thread_preorder| |intros ?] | by apply step_keeps_modify | apply (keeps_ret same_wr_thread) | apply (keeps_gets same_wr_thread) | apply on_mem_thread ].
Lemma free_bvecs_thread : step_keeps same_wr_thread wb_free_bvecs.
Proof. unfold wb_free_bvecs. wr_step; [wr_step|]. destruct (wr_dbvecs _); [|by intros w x w']. wr_step; wr_step. Qed.
Lemma free_pages_thread : step_keeps same_wr_thread wb_free_pages.
Proof. unfold wb_free_pages. wr_step; [wr_step|]. destruct (wr_mdpages _); [|by intros w x w']. wr_step; wr_step. Qed.

Lemma free_wb_thread : step_keeps same_thread (adm_run eio_free_wb_resources).
Proof.
  intros w a w'. unfold adm_run, eio_free_wb_resources. rewrite bind_modify. unfold ct_wb_run.
  match goal with |- context [?m (wb_of (set_ct_mdupdate_q false (ad_ctl w)))] => assert (K : step_keeps same_wr_thread m); [|destruct (m _) as [[x r]|] eqn:E; [|done]] end.
  { wr_step; [wr_step|]. wr_step; [wr_step|]. wr_step; [destruct (wr_mdpages _); [wr_step; [apply free_pages_thread|wr_step]|wr_step]|].
    wr_step; [destruct (wr_dbvecs _); [wr_step; [apply free_bvecs_thread|wr_step]|wr_step]|]. wr_step; wr_step. }
  apply K in E. intros H. injection H as _ <-. exact E.
Qed.

Lemma force_keeps_thread fuel c : step_keeps same_thread (delete_force jiffies fuel c).
Proof.
  assert (Km : forall f : adm -> adm, (forall w, ad_ctl (f w) = ad_ctl w) -> step_keeps same_thread (modify f)).
  { intros f Hf. apply step_keeps_modify. intros w. unfold same_thread. by rewrite Hf. }
  unfold delete_force. apply step_keeps_bind; [exact same_thread_preorder|apply run_thread|intros _]. apply step_keeps_bind; [exact same_thread_preorder|apply (keeps_gets same_thread)|intros d].
  apply step_keeps_bind; [exact same_thread_preorder| |intros q].
  - destruct (CACHE_STALE_IS_SET d); [|apply (keeps_ret same_thread)]. unfold eio_ttc_deactivate. cbn [negb andb].
    apply step_keeps_bind; [exact same_thread_preorder|apply (keeps_gets same_thread)|intros d']. cbv beta iota.
    apply step_keeps_bind; [exact same_thread_preorder|apply (keeps_ret same_thread)|intros [e|]]; [|apply (keeps_ret same_thread)].
    destruct (negb (e =? 0)); [apply (keeps_ret same_thread)|].
    apply step_keeps_bind; [exact same_thread_preorder| |intros []]. { intros w a w' (t & _ & ->)%ttc_step_inv. done. }
    apply step_keeps_bind; [exact same_thread_preorder|apply wait_thread|intros []]. apply (keeps_ret same_thread).
  - destruct q as [q|]; [|apply (keeps_ret same_thread)].
    apply step_keeps_bind; [exact same_thread_preorder|apply free_wb_thread|intros _].
    do 2 (apply step_keeps_bind; [exact same_thread_preorder|apply upd_thread|intros _]).
    do 3 (apply step_keeps_bind; [exact same_thread_preorder|by apply Km|intros _]).
    apply step_keeps_bind; [exact same_thread_preorder| |intros e; apply (keeps_ret same_thread)].
    unfold delete_out. cbn [when Z.eqb].
    apply step_keeps_bind; [exact same_thread_preorder|apply (keeps_ret same_thread)|intros []].
    do 3 (apply step_keeps_bind; [exact same_thread_preorder|apply upd_thread|intros _]).
    apply step_keeps_bind; [exact same_thread_preorder|apply (keeps_gets same_thread)|intros d'].
    apply step_keeps_bind; [exact same_thread_preorder| |intros []; apply (keeps_ret same_thread)].
    apply (keeps_when same_thread). by apply Km.
Qed.

Lemma stale_delete_thread fuel name b c w r w' : ttc_ok (ad_ttc w) -> eio_cache_lookup name (ad_ttc w) = Some c ->
  tst (cache_flags (ad_d w)) CACHE_FLAGS_SHUTDOWN_INPROG = false -> tst (cache_flags (ad_d w)) CACHE_FLAGS_MOD_INPROG = false ->
  CACHE_STALE_IS_SET (ad_d w) = true -> CACHE_FAILED_IS_SET (ad_d w) = true ->
  eio_cache_delete jiffies systime fuel name b w = Some (Some r, w') ->
  r = 0 /\ deleted c w' /\ ct_clean_thread (ad_ctl w') = ct_clean_thread (ad_ctl w).
Proof.
  intros Hok Hl Hs Hm Hst Hf E. destruct (delete_inv fuel name b c w r w' Hok Hl E) as [[Hr Hd]|[Hr Ho]].
  - split; [done|]. split; [done|]. unfold eio_cache_delete in E. rewrite bind_gets in E. unfold id in E. rewrite Hl in E. cbv zeta in E. rewrite Hs, Hm, Hst, Hf in E. cbn [andb] in E.
    apply bind_inv in E as ([] & w1 & E1%upd_thread & E%force_keeps_thread). unfold same_thread in *. congruence.
  - exfalso. unfold eio_cache_delete in E. rewrite bind_gets in E. unfold id in E. rewrite Hl in E. cbv zeta in E. rewrite Hs, Hm, Hst, Hf in E. cbn [andb] in E.
    apply bind_inv in E as ([] & w1 & E1 & E). unfold delete_force in E.
    apply bind_inv in E as (u & w2 & _ & E). rewrite bind_gets in E. apply bind_inv in E as (q & w3 & _ & E). destruct q; [|done].
    do 6 (apply bind_inv in E as (? & ? & _ & E)). apply bind_inv in E as (e & w9 & E9 & E). injection E as -> _. by apply delete_out_zero in E9 as (? & _).
Qed.
End whole.

(** ** A deletion returns *)

(** without a failing allocation every file is removed *)
Lemma procfs_name_run c w : cf_kmalloc (sy_conf w) = [] -> cache_name (sy_conf w) <> [] ->
  exists w', proc_unfile c w = Some (tt, w') /\ sy_conf w' = sy_conf w.
Proof.
  intros Hk Hn. unfold proc_unfile, eio_cons_procfs_cachename. rewrite bind_bind, bind_gets. unfold id. rewrite bool_decide_eq_false_2 by done.
  assert (E : sy_run conf_kmalloc w = Some (true, w)) by (unfold sy_run, conf_kmalloc; rewrite Hk; by destruct w).
  rewrite bind_bind, (bind_run _ _ _ _ _ E). cbn [negb]. rewrite bind_ret. eexists. by split.
Qed.
Lemma procfs_dtr_returns w : cf_kmalloc (sy_conf w) = [] -> cache_name (sy_conf w) <> [] -> exists w', eio_procfs_dtr w = Some (tt, w').
Proof.
  intros Hk Hn. unfold eio_procfs_dtr. assert (K : forall l w, cf_kmalloc (sy_conf w) = [] -> cache_name (sy_conf w) <> [] -> exists w', mfor l proc_unfile w = Some (tt, w')).
  { intros l. induction l as [|c l IH]; intros w0 H1 H2; [by eexists|]. cbn [mfor]. destruct (procfs_name_run c w0 H1 H2) as (w1 & E & Ec).
    rewrite (bind_run _ _ _ _ _ E). apply IH; by rewrite Ec. }
  destruct (K [PROC_STATS; PROC_ERRORS; PROC_IOSZ_HIST; PROC_CONFIG; []] w Hk Hn) as (w1 & E). rewrite (bind_run _ _ _ _ _ E).
  unfold eio_sysctl_unregister_invalidate, eio_sysctl_unregister_writeback, eio_sysctl_unregister_common. rewrite !bind_modify. by eexists.
Qed.

Lemma adm_run_run {A} (m : M cache_ctl A) w a c : m (ad_ctl w) = Some (a, c) -> adm_run m w = Some (a, set_ad_ctl c w).
Proof. intros E. unfold adm_run. by rewrite E. Qed.

Lemma free_wb_returns c : ct_mdpages c = None -> ct_dbvecs c = None -> exists c', eio_free_wb_resources c = Some (tt, c').
Proof.
  intros Hm Hd. unfold eio_free_wb_resources. rewrite bind_modify. unfold ct_wb_run. rewrite bind_modify, bind_gets. unfold id.
  set (r := set_wr_d _ _). assert (E1 : wr_mdpages r = None) by exact Hm. assert (E2 : wr_dbvecs r = None) by exact Hd. rewrite E1, !bind_ret, E2, bind_ret, bind_modify. unfold modify. by eexists.
Qed.

(** a cache without clean thread, marked and with its request to stop withdrawn *)
Definition being_deleted (c : cache_ctl) : cache_ctl :=
  let c1 := ct_with_cw (set_cw_d (set_flag CACHE_FLAGS_MOD_INPROG (ct_d c)) (ct_cworld c)) c in
  ct_with_cw (set_cw_d (set_sysctl_active (set_fast_remove (if CACHE_FAST_REMOVE_IS_SET (ct_d c1) then 1 else 0) (sysctl_active (ct_d c1))) (ct_d c1)) (ct_cworld c1)) c1.

Section returns.
Context (jiffies : Z -> Z) (systime : Z).

Lemma stop_plain c c1 : c1 = ct_with_cw (set_cw_d (set_flag CACHE_FLAGS_MOD_INPROG (ct_d c)) (ct_cworld c)) c ->
  ct_clean_thread c = false -> mode (ct_d c) <> CACHE_MODE_WB -> eio_stop_async_tasks jiffies systime c1 = Some (tt, being_deleted c).
Proof.
  intros -> Ht Hm. unfold eio_stop_async_tasks. rewrite bind_gets. unfold id. change (ct_clean_thread (ct_with_cw _ c)) with (ct_clean_thread c). rewrite Ht. cbn [when]. rewrite bind_ret, bind_gets.
  unfold ct_tune. rewrite (bind_run _ _ _ _ _ (ct_upd_run _ _)). change (mode (ct_d (ct_with_cw (set_cw_d (set_flag _ _) _) c))) with (mode (ct_d c)). by rewrite (proj2 (Z.eqb_neq _ _) Hm).
Qed.

Lemma force_returns fuel c w : CACHE_STALE_IS_SET (ad_d w) = false -> cf_kmalloc (ct_conf (ad_ctl w)) = [] -> cache_name (ct_conf (ad_ctl w)) <> [] ->
  ct_mdpages (ad_ctl w) = None -> ct_dbvecs (ad_ctl w) = None -> exists r w', delete_force jiffies fuel c w = Some (Some r, w').
Proof.
  intros Hs Hk Hn Hm Hd. unfold delete_force. destruct (procfs_dtr_returns (ct_sys (ad_ctl w)) Hk Hn) as (s1 & E1).
  assert (R1 : adm_run (ct_run eio_procfs_dtr) w = Some (tt, set_ad_ctl (set_ct_sys s1 (ad_ctl w)) w)) by (apply adm_run_run; unfold ct_run; by rewrite E1).
  pose proof (dtr_same_cache _ _ _ R1) as Ed. rewrite (bind_run _ _ _ _ _ R1), bind_gets. unfold CACHE_STALE_IS_SET. rewrite Ed. fold (CACHE_STALE_IS_SET (ad_d w)). rewrite Hs, bind_ret.
  destruct (free_wb_returns (set_ct_sys s1 (ad_ctl w)) Hm Hd) as (c2 & E2).
  assert (R2 : adm_run eio_free_wb_resources (set_ad_ctl (set_ct_sys s1 (ad_ctl w)) w) = Some (tt, set_ad_ctl c2 (set_ad_ctl (set_ct_sys s1 (ad_ctl w)) w))) by (by apply adm_run_run).
  rewrite (bind_run _ _ _ _ _ R2). unfold delete_out, ad_upd. do 2 rewrite (bind_run _ _ _ _ _ (adm_run_run _ _ _ _ (ct_upd_run _ _))). rewrite !bind_modify. cbn [when Z.eqb]. rewrite !bind_bind, bind_ret, bind_bind.
  do 3 rewrite ?bind_bind, (bind_run _ _ _ _ _ (adm_run_run _ _ _ _ (ct_upd_run _ _))). rewrite bind_bind, bind_gets, bind_bind. destruct (negb _); cbn [when]; by eexists _, _.
Qed.

(** the deletion of a read-only or write-through cache that is in use and idle *)
Record deletable (c : cache_ctl) (pages : list Z) (sp : Z) (l : list Z) : Prop := {
  da_shutdown : tst (cache_flags (ct_d c)) CACHE_FLAGS_SHUTDOWN_INPROG = false;
  da_mod : tst (cache_flags (ct_d c)) CACHE_FLAGS_MOD_INPROG = false;
  da_stale : CACHE_STALE_IS_SET (ct_d c) = false;
  da_mode : mode (ct_d c) <> CACHE_MODE_WB;
  da_thread : ct_clean_thread c = false;
  da_clean : nr_dirty (ct_d c) = 0;
  da_idle : nr_ios (ct_d c) = 0;
  da_bufs : ct_mdpages c = None /\ ct_dbvecs c = None;
  da_name : cache_name (ct_conf c) <> [];
  da_store : store_world (ct_conf (being_deleted c)) pages sp l
}.

Lemma delete_returns fuel name b c w pages sp l : ttc_ok (ad_ttc w) -> eio_cache_lookup name (ad_ttc w) = Some c -> deletable (ad_ctl w) pages sp l ->
  exists w', eio_cache_delete jiffies systime fuel name b w = Some (Some 0, w').
Proof.
  intros Hok Hl [Hs Hm Hst Hmd Ht Hc Hi [Hb1 Hb2] Hn Hsw].
  assert (G : exists r w', eio_cache_delete jiffies systime fuel name b w = Some (Some r, w') /\ r = 0); [|destruct G as (r & w' & E & ->); by exists w'].
  destruct (lookup_listed name _ c Hl) as (i & Hin). assert (Hp := to_place _ Hok _ _ Hin). subst i.
  unfold eio_cache_delete. rewrite bind_gets. unfold id, ad_d. rewrite Hl. cbv zeta. rewrite Hs, Hm, Hst. cbn [andb].
  unfold ad_upd. rewrite (bind_run _ _ _ _ _ (adm_run_run _ _ _ _ (ct_upd_run _ _))). set (c1 := ct_with_cw _ (ad_ctl w)). unfold delete_clean.
  rewrite (bind_run _ _ _ _ _ (adm_run_run _ (set_ad_ctl c1 w) _ _ (stop_plain (ad_ctl w) c1 eq_refl Ht Hmd))).
  set (c2 := being_deleted (ad_ctl w)) in *. change (set_ad_ctl c2 (set_ad_ctl c1 w)) with (set_ad_ctl c2 w).
  destruct (ttc_unregister_run c (ad_ttc w) Hok Hin) as (t & Et & _).
  assert (Hst2 : CACHE_STALE_IS_SET (ct_d c2) = false) by (etrans; [apply (mod_mark_flag (cache_flags (ct_d (ad_ctl w))))|exact Hst]).
  assert (R : eio_ttc_deactivate jiffies fuel c false (set_ad_ctl c2 w) = Some (Some 0, set_ad_ttc t (set_ad_ctl c2 w))).
  { unfold eio_ttc_deactivate. rewrite bind_gets. change (mode (ad_d (set_ad_ctl c2 w))) with (mode (ct_d (ad_ctl w))). rewrite (proj2 (Z.eqb_neq _ _) Hmd). cbn [negb andb]. rewrite bind_ret. cbn [Z.eqb negb].
    assert (E1 : ad_on_ttc (ttc_unregister c) (set_ad_ctl c2 w) = Some (tt, set_ad_ttc t (set_ad_ctl c2 w))) by (unfold ad_on_ttc; change (ad_ttc (set_ad_ctl c2 w)) with (ad_ttc w); by rewrite Et).
    rewrite (bind_run _ _ _ _ _ E1). by rewrite (bind_run _ _ _ _ _ (adm_run_run _ (set_ad_ttc t (set_ad_ctl c2 w)) _ _ (wait_idle c2 Hi))). }
  rewrite (bind_run _ _ _ _ _ R). cbn [Z.eqb negb]. rewrite bind_gets. set (w2 := set_ad_ttc t (set_ad_ctl c2 w)).
  change (ad_d w2) with (ct_d c2). change (nr_dirty (ct_d c2)) with (nr_dirty (ct_d (ad_ctl w))). rewrite Hc. rewrite bind_assert by apply orb_true_r.
  destruct (sw_d _ _ _ _ Hsw) as (F1 & F2 & _). change (cf_d (ct_conf c2)) with (ct_d c2) in F1, F2. rewrite F1, F2. cbn [orb negb when].
  destruct (eio_md_store_ok _ _ _ _ Hsw) as (st & ssd' & w3 & r & E3 & [Ed3 _ _ _ _] & _ & _ & _ & _ & Hk3 & Hn3).
  assert (R3 : ad_conf_run (r <- eio_md_store ;; ret tt) w2 = Some (tt, set_ad_ctl (set_ct_sys (set_sy_conf w3 (ct_sys c2)) c2) w2)).
  { apply adm_run_run, ct_conf_run_ok. change (ad_ctl w2) with c2. by rewrite (bind_run _ _ _ _ _ E3). }
  rewrite (bind_run _ _ _ _ _ R3). set (w4 := set_ad_ctl _ w2). assert (Ed4 : ad_d w4 = set_sb_state st (ct_d c2)) by exact Ed3.
  assert (Hst4 : CACHE_STALE_IS_SET (ad_d w4) = false) by by rewrite Ed4.
  assert (Hn4 : cache_name (ct_conf (ad_ctl w4)) <> []) by (change (cache_name w3 <> []); rewrite Hn3; exact Hn).
  destruct (force_returns fuel c w4 Hst4 Hk3 Hn4 Hb1 Hb2) as (r' & w' & E'). exists r', w'. split; [exact E'|].
  refine (proj1 (delete_force_inv jiffies fuel c w4 r' w' _ _ _ E')).
  - intros i Hi'. exfalso. revert i Hi'. apply (unregister_unlisted c (ad_ttc w)); [|exact Et]. intros i. apply (to_place _ Hok).
  - intros _. apply (unregister_unlisted c (ad_ttc w)); [|exact Et]. intros i. apply (to_place _ Hok).
  - intros w5 E5. unfold CACHE_STALE_IS_SET. by rewrite (dtr_same_cache _ _ _ E5).
Qed.
End returns.
