(* ===== verification/Tunables.v ===== *)
(** * What the sysctl handlers do

    The tunables in force are always meaningful; a handler that fails leaves the
    whole cache as it was; one that succeeds changes its own tunable only.

    ** Writing a stored tunable

    A value that is accepted is stored in the superblock; if the store fails
    the cache is as it was, else the value is in force and cleaning starts where
    the new threshold asks for it. *)

From S2P Require Import Prelude Types Mem DList SetLru Scan Policy World Dispatch Disk Clean CleanThread Lookup Thresh WbAlloc Superblock MdStore MdCreate LoadLoop Recovery Suspend Gone Sysctl CleanSet CleanState Hits PageIo.

(** * What the sysctl handlers do *)
(** ** Reading and writing a tunable *)
Lemma var_get_set v x s : var_get v (var_set v x s) = x.
Proof. by destruct v. Qed.
Lemma var_get_set_ne v u x s : u <> v -> var_get u (var_set v x s) = var_get u s.
Proof. by destruct v, u. Qed.
Lemma var_set_get v s : var_set v (var_get v s) s = s.
Proof. by destruct v, s. Qed.
Lemma var_set_set v x y s : var_set v x (var_set v y s) = var_set v x s.
Proof. by destruct v. Qed.
Lemma set_active_back v x d : set_active v (var_get v (sysctl_active d)) (set_active v x d) = d.
Proof. unfold set_active. destruct d as []; cbn. by rewrite var_set_set, var_set_get. Qed.
Lemma active_set v x d : var_get v (sysctl_active (set_active v x d)) = x.
Proof. apply var_get_set. Qed.

(** every field holds a value of its type *)
Definition typed (s : eio_sysctl) : Prop := forall v, var_type v (var_get v s) = var_get v s.
Lemma var_type_idem v x : var_type v (var_type v x) = var_type v x.
Proof.
  assert (Hu : forall n y, 0 < n -> (y mod n) mod n = y mod n) by (intros; by rewrite Zmod_mod).
  assert (Hi : i32 (i32 x) = i32 x).
  { unfold i32. replace ((x + 2 ^ 31) mod 2 ^ 32 - 2 ^ 31 + 2 ^ 31) with ((x + 2 ^ 31) mod 2 ^ 32) by lia. by rewrite Zmod_mod. }
  destruct v; cbn [var_type]; try exact Hi; apply Hu; lia.
Qed.
Lemma typed_set v x s : typed s -> typed (var_set v (var_type v x) s).
Proof. intros H u. destruct (decide (u = v)) as [->|Hne]; [rewrite var_get_set; apply var_type_idem|rewrite var_get_set_ne by done; apply H]. Qed.
Lemma typed_copy v s a : typed s -> typed a -> typed (var_set v (var_get v a) s).
Proof. intros H Ha. rewrite <-(Ha v). by apply typed_set. Qed.

(** the values the driver means to be in force *)
Record tunables_ok (s : eio_sysctl) : Prop := {
  tn_typed : typed s;
  tn_dirty : dirty_low_threshold s <= dirty_high_threshold s <= 100;
  tn_set : dirty_set_low_threshold s <= dirty_set_high_threshold s <= 100;
  tn_interval : time_based_clean_interval s <= TIME_BASED_CLEAN_INTERVAL_MAX;
  tn_autoclean : 0 <= autoclean_threshold s <= AUTOCLEAN_THRESH_MAX;
  tn_mem : 0 <= mem_limit_pct s <= 100;
  tn_zero : 0 <= zerostats s <= 1;
  tn_control : 0 <= control s <= CACHE_CONTROL_FLAG_MAX;
  tn_clean : clr (do_clean s) (Z.lor EIO_CLEAN_START EIO_CLEAN_KEEP) = 0
}.

(** ** The field an entry is about *)
Definition handler_var (h : proc_handler_fn) : sysctl_var :=
  match h with
  | eio_zerostats_fn => VZerostats | eio_mem_limit_pct_fn => VMemLimit | eio_control_fn => VControl | eio_clean_fn => VDoClean
  | eio_time_based_clean_interval_fn => VInterval | eio_autoclean_threshold_fn => VAutoclean
  | eio_dirty_high_threshold_fn => VDirtyHigh | eio_dirty_low_threshold_fn => VDirtyLow
  | eio_dirty_set_high_threshold_fn => VDirtySetHigh | eio_dirty_set_low_threshold_fn => VDirtySetLow
  | eio_invalidate_fn => VInvalidate
  end.
Definition coherent (e : ctl_table) : Prop := ct_data e = Some (handler_var (proc_handler e)) /\ ct_extra1 e = true.

(** the names of the templates lead to the fields their handlers use *)
Lemma templates_coherent t : t ∈ [sysctl_template_common; sysctl_template_writeback; sysctl_template_invalidate] -> Forall coherent (sysctl_vars t).
Proof. intros H. repeat (apply elem_of_cons in H as [->|H]; [by repeat constructor|]). by apply not_elem_of_nil in H. Qed.

(** ** Programs that keep something *)
Section stable.
Context {S : Type} (R : S -> S -> Prop) `{!PreOrder R}.
Definition stable {A} (m : M S A) : Prop := forall s a s', m s = Some (a, s') -> R s s'.
Lemma st_ret {A} (a : A) : stable (ret a).
Proof. intros s b s' [= <- <-]. reflexivity. Qed.
Lemma st_panic {A} : stable (panic (A := A)).
Proof. by intros s a s'. Qed.
Lemma st_gets {A} (f : S -> A) : stable (gets f).
Proof. intros s a s' [= <- <-]. reflexivity. Qed.
Lemma st_eval {A} (f : S -> option A) : stable (eval f).
Proof. intros s a s' E. unfold eval in E. destruct (f s); [|done]. injection E as <- <-. reflexivity. Qed.
Lemma st_modify f : (forall s, R s (f s)) -> stable (modify f).
Proof. intros H s a s' [= <- <-]. apply H. Qed.
Lemma st_bind {A B} (m : M S A) (k : A -> M S B) : stable m -> (forall a, stable (k a)) -> stable (bind m k).
Proof. intros Hm Hk s b s' (a & s1 & E1 & E2)%bind_inv. etransitivity; [by eapply Hm|by eapply Hk]. Qed.
Lemma st_when b (m : M S unit) : stable m -> stable (when b m).
Proof. destruct b; [done|]. intros _. apply st_ret. Qed.
Lemma st_mfor {A} (f : A -> M S unit) l : (forall x, stable (f x)) -> stable (mfor l f).
Proof. intros H. induction l as [|x l IH]; cbn [mfor]; [apply st_ret|]. by apply st_bind. Qed.
Lemma st_mfor_until {A B} (f : A -> M S (option B)) l : (forall x, stable (f x)) -> stable (mfor_until l f).
Proof. intros H. induction l as [|x l IH]; cbn [mfor_until]; [apply st_ret|]. apply st_bind; [done|]. intros [b|]; [apply st_ret|done]. Qed.
End stable.

Ltac st_step :=
  match goal with
  | |- PreOrder _ => apply _
  | |- stable _ (bind _ _) => apply st_bind; [apply _| |intros]
  | |- stable _ (ret _) => apply st_ret; apply _
  | |- stable _ panic => apply st_panic
  | |- stable _ (gets _) => apply st_gets; apply _
  | |- stable _ (eval _) => apply st_eval; apply _
  | |- stable _ (when _ _) => apply st_when; [apply _|]
  | |- stable _ (if ?b then _ else _) => destruct b
  | |- stable _ (mfor_until _ _) => apply st_mfor_until; [apply _|intros]
  | |- stable _ (mfor _ _) => apply st_mfor; [apply _|intros]
  | |- stable _ (let '(_, _) := ?x in _) => destruct x
  | |- stable _ (match ?x with _ => _ end) => destruct x
  end.
Ltac st_steps := cbv zeta; repeat st_step.

Definition same_tunables (d d' : cache_c) : Prop := sysctl_active d' = sysctl_active d.
#[export] Instance same_tunables_pre : PreOrder same_tunables.
Proof. split; [done|]. intros d1 d2 d3 H1 H2. unfold same_tunables in *. congruence. Qed.

Lemma addto_cleanq_tunables set whole d : same_tunables d (eio_addto_cleanq set whole d).
Proof. unfold same_tunables, eio_addto_cleanq. by destruct (tst _ _). Qed.
Lemma dirty_lru_tunables {A} (m : M (option lru_ls) A) : stable same_tunables (dirty_lru m).
Proof. intros d a d' E. unfold dirty_lru in E. destruct (m _) as [[x l]|]; [|done]. by injection E as <- <-. Qed.
Lemma enqueue_tunables fuel : forall req enq, stable same_tunables (enqueue_oldest fuel req enq).
Proof.
  induction fuel as [|fuel IH]; intros req enq; cbn [enqueue_oldest]; [apply st_panic|]. st_steps; try apply IH; [apply dirty_lru_tunables|].
  apply st_modify. intros d. apply addto_cleanq_tunables.
Qed.
Lemma comply_tunables set : stable same_tunables (eio_comply_dirty_thresholds set).
Proof.
  intros d [] d'. unfold eio_comply_dirty_thresholds. destruct (CACHE_FAILED_IS_SET d); [by intros [= <-]|]. destruct (_ || _); [by intros [= <-]|].
  intros ([] & d1 & E1 & E2)%bind_inv. assert (H1 : same_tunables d d1).
  { revert E1. apply st_when; [apply _|]. apply st_modify. intros x. unfold eio_check_dirty_set_thresholds. destruct (DIRTY_SET_THRESHOLD_CROSSED _ _); [apply addto_cleanq_tunables|done]. }
  etransitivity; [exact H1|]. clear E1 H1 d. unfold eio_check_dirty_cache_thresholds in E2.
  destruct (DIRTY_CACHE_THRESHOLD_CROSSED d1); [|by injection E2 as <-]. destruct (_ || _); [by injection E2 as <-|].
  apply bind_inv in E2 as ([] & d2 & E2 & [= <-]). exact (enqueue_tunables _ _ _ _ _ _ E2).
Qed.

Lemma sb_store_same w e w' : eio_sb_store w = Some (e, w') -> cf_d w' = cf_d w.
Proof.
  intros E. destruct (k_sb_store (fun _ => True) eq w e w' E) as [H _]; [|by symmetry]. apply list.Forall_forall. done.
Qed.
Lemma conf_dmc_stable {A} (m : M cache_c A) w a w' : stable same_tunables m -> conf_dmc m w = Some (a, w') -> same_tunables (cf_d w) (cf_d w').
Proof. intros H E. destruct (conf_dmc_inv m w a w' E) as (d' & E1 & -> & _). exact (H _ _ _ E1). Qed.

(** ** The world around a cache *)

(** a pending value, and a cache, after a step *)
Definition sy_rest (w : sys_world) := (sysctl_pending w, sysctl_handle_common w, sysctl_handle_writeback w, sysctl_handle_invalidate w).
Definition sys_same (w w' : sys_world) : Prop := same_tunables (sy_d w) (sy_d w') /\ sy_rest w' = sy_rest w.
#[export] Instance sys_same_pre : PreOrder sys_same.
Proof. split; [by split|]. intros w1 w2 w3 [H1 E1] [H2 E2]. split; [by etransitivity|congruence]. Qed.

Lemma sy_run_inv {A} (m : M conf_world A) w a w' : sy_run m w = Some (a, w') -> exists c, m (sy_conf w) = Some (a, c) /\ w' = set_sy_conf c w.
Proof. unfold sy_run. destruct (m (sy_conf w)) as [[x c]|]; [|done]. intros [= <- <-]. by exists c. Qed.
Lemma st_sy_dmc {A} (m : M cache_c A) : stable same_tunables m -> stable sys_same (sy_dmc m).
Proof. intros H w a w' (c & E & ->)%sy_run_inv. split; [|done]. exact (conf_dmc_stable m _ _ _ H E). Qed.
Lemma st_sy_upd f : (forall d, same_tunables d (f d)) -> stable sys_same (sy_upd f).
Proof. intros H. apply st_sy_dmc. apply st_modify. exact H. Qed.
Lemma comply_all_stable : stable sys_same comply_all_sets.
Proof. unfold comply_all_sets. st_steps. apply st_sy_dmc, comply_tunables. Qed.
Lemma reduced_stable v m old : stable sys_same m -> stable sys_same (when_reduced v m old).
Proof. intros H. unfold when_reduced. by st_steps. Qed.
Lemma reschedule_stable HZ : stable sys_same (reschedule_aged HZ).
Proof. unfold reschedule_aged. st_steps; try (apply st_modify; done); by apply st_sy_upd. Qed.

Section runs.
Context (proc_dointvec : list Z -> Z -> Z).

(** the world after the conversion *)
Definition fetched (v : sysctl_var) (write : bool) (buffer : list Z) (w : sys_world) : sys_world :=
  if write then set_pending (var_set v (var_type v (proc_dointvec buffer (pending_of v w))) (sysctl_pending w)) w
  else set_printed (Some (active_of v w)) (set_pending (var_set v (active_of v w) (sysctl_pending w)) w).
Lemma fetch_run v table write buffer w : ct_data table = Some v -> fetch_tunable proc_dointvec v table write buffer w = Some (tt, fetched v write buffer w).
Proof.
  intros Hd. unfold fetch_tunable, do_intvec, fetched. rewrite Hd. destruct write; cbn [negb when]; [by rewrite bind_ret|].
  rewrite bind_modify. unfold modify. do 3 f_equal. unfold pending_of. cbn [sysctl_pending set_pending]. by rewrite var_get_set.
Qed.
Lemma fetched_d v write buffer w : sy_d (fetched v write buffer w) = sy_d w.
Proof. by destruct write. Qed.
Lemma fetched_active v u write buffer w : active_of u (fetched v write buffer w) = active_of u w.
Proof. by destruct write. Qed.
Lemma fetched_pending buffer v w : pending_of v (fetched v true buffer w) = var_type v (proc_dointvec buffer (pending_of v w)).
Proof. unfold pending_of. cbn [fetched sysctl_pending set_pending]. by rewrite var_get_set. Qed.
Lemma fetched_typed v write buffer w : typed (sysctl_pending w) -> typed (sysctl_active (sy_d w)) -> typed (sysctl_pending (fetched v write buffer w)).
Proof. intros Hp Ha. destruct write; [by apply typed_set|by apply typed_copy]. Qed.


(** another cache in the same world *)
Definition sy_with (d : cache_c) (w : sys_world) : sys_world := set_sy_conf (conf_with d (sy_conf w)) w.
Lemma sy_upd_run f w : sy_upd f w = Some (tt, sy_with (f (sy_d w)) w).
Proof. unfold sy_upd, sy_run, conf_upd. by rewrite (conf_dmc_run' (modify f) (sy_conf w) tt (f (sy_d w))). Qed.
Lemma activate_run v w : activate v w = Some (tt, sy_with (set_active v (pending_of v w) (sy_d w)) w).
Proof. unfold activate. rewrite bind_gets. apply sy_upd_run. Qed.

(** every end of a handler of a stored tunable *)
Lemma stored_inv v invalid apply table write buffer w r w' : ct_data table = Some v ->
  stored_sysctl proc_dointvec v invalid apply table write buffer w = Some (r, w') ->
  let w1 := fetched v write buffer w in
  (w' = w1 /\ (r = 0 \/ r = - EINVAL)) \/
  (write = true /\ mode (sy_d w) = CACHE_MODE_WB /\ invalid (sysctl_pending w1) (sysctl_active (sy_d w)) = false /\
   exists e c, eio_sb_store (sy_conf (sy_with (set_active v (pending_of v w1) (sy_d w)) w1)) = Some (e, c) /\
     cf_d c = set_active v (pending_of v w1) (sy_d w) /\
     ((e <> 0 /\ r = e /\ w' = sy_with (sy_d w) (set_sy_conf c w1)) \/
      (e = 0 /\ r = 0 /\ apply (active_of v w) (set_sy_conf c w1) = Some (tt, w')))).
Proof.
  intros Hd. unfold stored_sysctl. rewrite (bind_run _ _ _ _ _ (fetch_run v table write buffer w Hd)), bind_gets. unfold id. cbv beta zeta.
  rewrite fetched_d, fetched_active. pose proof (fetched_d v write buffer w) as Fd. set (w1 := fetched v write buffer w) in *.
  destruct (negb write) eqn:Ew; [intros [= <- <-]; left; auto|]. destruct (Z.eqb_spec (mode (sy_d w)) CACHE_MODE_WB) as [Em|]; cbn [negb]; [|intros [= <- <-]; left; auto].
  destruct (invalid _ _) eqn:Ei; [intros [= <- <-]; left; auto|]. destruct (_ =? _); [intros [= <- <-]; left; auto|].
  rewrite (bind_run _ _ _ _ _ (activate_run v w1)). rewrite Fd. intros (e & w2 & E1 & E2)%bind_inv. apply sy_run_inv in E1 as (c & E1 & ->).
  right. split; [by destruct write|]. split; [done|]. split; [done|]. exists e, c. split; [exact E1|]. pose proof (sb_store_same _ _ _ E1) as Ec. split; [exact Ec|].
  destruct (Z.eqb_spec e 0) as [->|Hne]; cbn [negb] in E2.
  - right. apply bind_inv in E2 as ([] & w3 & E2 & [= <- <-]). done.
  - left. rewrite (bind_run _ _ _ _ _ (sy_upd_run _ _)) in E2. injection E2 as <- <-. split; [done|]. split; [done|].
    change (sy_d (set_sy_conf c _)) with (cf_d c). rewrite Ec. unfold active_of.
    change (cf_d (sy_conf (sy_with ?d w1))) with d. by rewrite set_active_back.
Qed.

(** *** The invariant of the tunables *)
Record sys_ok (w : sys_world) : Prop := {
  so_pending : typed (sysctl_pending w);
  so_active : tunables_ok (sysctl_active (sy_d w));
  so_entries : Forall coherent (entries w)
}.
Lemma sys_ok_same w w' : sys_same w w' -> sys_ok w -> sys_ok w'.
Proof.
  intros [Ht Er] [H1 H2 H3]. unfold sy_rest in Er. injection Er as E1 E2 E3 E4. constructor; [by rewrite E1|by rewrite Ht|].
  unfold entries in *. by rewrite E2, E3, E4.
Qed.
Lemma fetched_ok v write buffer w : sys_ok w -> sys_ok (fetched v write buffer w).
Proof.
  intros [H1 H2 H3]. constructor; [apply fetched_typed; [done|apply (tn_typed _ H2)]|by rewrite fetched_d|by destruct write].
Qed.
Lemma sy_with_ok d w : sys_ok w -> tunables_ok (sysctl_active d) -> sys_ok (sy_with d w).
Proof. intros [H1 H2 H3] H. by constructor. Qed.

(** a value that is not refused is meaningful *)
Definition checked (v : sysctl_var) (invalid : eio_sysctl -> eio_sysctl -> bool) : Prop :=
  forall p a, typed p -> tunables_ok a -> invalid p a = false -> tunables_ok (var_set v (var_get v p) a).

Lemma stored_ok v invalid apply table write buffer w r w' : ct_data table = Some v -> checked v invalid -> (forall old, stable sys_same (apply old)) ->
  stored_sysctl proc_dointvec v invalid apply table write buffer w = Some (r, w') -> sys_ok w -> sys_ok w'.
Proof.
  intros Hd Hc Ha E Hw. pose proof (fetched_ok v write buffer w Hw) as H1.
  destruct (stored_inv _ _ _ _ _ _ _ _ _ Hd E) as [[-> _]|(_ & _ & Hi & e & c & _ & Ec & H)]; [done|]. set (w1 := fetched v write buffer w) in *. clearbody w1.
  assert (H2 : sys_ok (set_sy_conf c w1)).
  { destruct H1 as [P1 P2 P3]. constructor; [exact P1| |exact P3]. unfold sy_d. cbn [sy_conf set_sy_conf]. rewrite Ec. cbn [sysctl_active set_active set_sysctl_active].
    apply Hc; [exact P1|apply (so_active _ Hw)|exact Hi]. }
  destruct H as [(_ & _ & ->)|(_ & _ & E2)]; [apply sy_with_ok; [done|apply (so_active _ Hw)]|]. eapply sys_ok_same; [exact (Ha _ _ _ _ E2)|done].
Qed.
End runs.

(** ** Each handler keeps the invariant *)
Definition ok_step (w w' : sys_world) : Prop := sys_ok w -> sys_ok w'.
#[export] Instance ok_step_pre : PreOrder ok_step.
Proof. split; [intros w H; exact H|]. intros w1 w2 w3 H1 H2 H. exact (H2 (H1 H)). Qed.
Lemma same_ok {A} (m : M sys_world A) : stable sys_same m -> stable ok_step m.
Proof. intros H w a w' E. exact (sys_ok_same w w' (H _ _ _ E)). Qed.
Lemma upd_ok f : (forall d, same_tunables d (f d)) -> stable ok_step (sy_upd f).
Proof. intros H. by apply same_ok, st_sy_upd. Qed.
Lemma activate_ok v w : tunables_ok (var_set v (pending_of v w) (sysctl_active (sy_d w))) -> forall a w', activate v w = Some (a, w') -> ok_step w w'.
Proof. intros H a w' E. rewrite activate_run in E. injection E as <- <-. intros Hw. by apply sy_with_ok. Qed.

Lemma kmalloc_ok : stable ok_step (sy_run conf_kmalloc).
Proof.
  apply same_ok. intros w a w' (c & E & ->)%sy_run_inv. split; [|done]. unfold conf_kmalloc in E. by destruct (cf_kmalloc (sy_conf w)); injection E as <- <-.
Qed.
Lemma devname_ok : stable ok_step eio_cons_sysctl_devname.
Proof. unfold eio_cons_sysctl_devname. st_steps. apply kmalloc_ok. Qed.
Lemma sy_register_ok : stable ok_step sy_register.
Proof. apply same_ok. intros w a w' E. unfold sy_register in E. by destruct (sy_registrations w); injection E as <- <-. Qed.
Lemma register_ok template set_handle : (forall n, stable ok_step (modify (set_handle (Some (mk_dir (sysctl_vars template) n))))) ->
  stable ok_step (eio_sysctl_register template set_handle).
Proof.
  intros H. unfold eio_sysctl_register. st_steps; first [apply kmalloc_ok|apply devname_ok|apply sy_register_ok|apply H].
Qed.

Lemma entries_forall w : Forall coherent (entries w) <->
  Forall coherent (dir_vars (sysctl_handle_common w)) /\ Forall coherent (dir_vars (sysctl_handle_writeback w)) /\ Forall coherent (dir_vars (sysctl_handle_invalidate w)).
Proof. unfold entries. by rewrite !Forall_app. Qed.
(** a directory is registered or not *)
Lemma handle_ok (f : sys_world -> sys_world) : (forall w, sy_d (f w) = sy_d w /\ sysctl_pending (f w) = sysctl_pending w /\
    (Forall coherent (entries w) -> Forall coherent (entries (f w)))) -> stable ok_step (modify f).
Proof. intros H. apply st_modify. intros w [H1 H2 H3]. destruct (H w) as (E1 & E2 & E3). constructor; [by rewrite E2|by rewrite E1|by apply E3]. Qed.

Lemma common_ok : stable ok_step eio_sysctl_register_common.
Proof.
  apply register_ok. intros n. apply handle_ok. intros w. split; [done|]. split; [done|]. rewrite !entries_forall. intros (_ & H2 & H3).
  split; [|done]. apply templates_coherent. set_solver.
Qed.
Lemma writeback_ok : stable ok_step eio_sysctl_register_writeback.
Proof.
  apply register_ok. intros n. apply handle_ok. intros w. split; [done|]. split; [done|]. rewrite !entries_forall. intros (H1 & _ & H3).
  split; [done|]. split; [|done]. apply templates_coherent. set_solver.
Qed.
Lemma invalidate_ok : stable ok_step eio_sysctl_register_invalidate.
Proof.
  apply register_ok. intros n. apply handle_ok. intros w. split; [done|]. split; [done|]. rewrite !entries_forall. intros (H1 & H2 & _).
  split; [done|]. split; [done|]. apply templates_coherent. set_solver.
Qed.
Lemma unregister_ok : stable ok_step eio_sysctl_unregister_writeback /\ stable ok_step eio_sysctl_unregister_invalidate.
Proof.
  split; (apply handle_ok; intros w; split; [done|]; split; [done|]; rewrite !entries_forall; intros (H1 & H2 & H3); split_and!; try done; constructor).
Qed.

Lemma control_case_ok c : stable ok_step (control_case c).
Proof.
  unfold control_case. st_steps; try (apply upd_ok; done); try exact writeback_ok; try exact invalidate_ok; try exact (proj1 unregister_ok); exact (proj2 unregister_ok).
Qed.

(** [inval_range] does not concern the tunables *)
Lemma inval_tunables sector size : stable same_tunables (eio_inval_range sector size).
Proof.
  assert (H1 : forall a b c i, stable same_tunables (inval_step a b c i)).
  { intros a b c i. unfold inval_step. st_steps; apply st_modify; intros d; unfold same_tunables, dec_cached_blocks, EIO_CACHE_STATE_ON, EIO_CACHE_STATE_SET; by destruct (EIO_MD8 d). }
  assert (H2 : forall fuel sh a b, stable same_tunables (inval_range_loop fuel sh a b)).
  { induction fuel as [|fuel IH]; intros sh a b; cbn [inval_range_loop]; st_steps; [|apply IH]. unfold eio_inval_block_set_range. st_steps. apply H1. }
  unfold eio_inval_range. st_steps. apply H2.
Qed.

(** *** The checks of the handlers *)
Lemma typed_nonneg s : typed s -> 0 <= dirty_high_threshold s /\ 0 <= dirty_low_threshold s /\ 0 <= dirty_set_high_threshold s /\
  0 <= dirty_set_low_threshold s /\ 0 <= time_based_clean_interval s.
Proof.
  intros H. assert (Hu : forall x, 0 <= u32 x) by (intros x; unfold u32; apply Z.mod_pos_bound; lia).
  pose proof (H VDirtyHigh) as H1. pose proof (H VDirtyLow) as H2. pose proof (H VDirtySetHigh) as H3. pose proof (H VDirtySetLow) as H4. pose proof (H VInterval) as H5.
  cbn [var_type var_get] in *. rewrite <-H1, <-H2, <-H3, <-H4, <-H5. split_and!; apply Hu.
Qed.
#[local] Ltac checks := intros p a Hp Ha Hi; pose proof Ha as [T1 T2 T3 T4 T5 T6 T7 T8 T9];
  constructor; [by apply typed_copy|..]; cbn in *; try assumption; lia.

Lemma dirty_high_checked : checked VDirtyHigh (fun p a => (100 <? dirty_high_threshold p) || (dirty_high_threshold p <? dirty_low_threshold a)).
Proof. checks. Qed.
Lemma dirty_low_checked : checked VDirtyLow (fun p a => (100 <? dirty_low_threshold p) || (dirty_high_threshold a <? dirty_low_threshold p)).
Proof. checks. Qed.
Lemma dirty_set_high_checked : checked VDirtySetHigh (fun p a => (100 <? dirty_set_high_threshold p) || (dirty_set_high_threshold p <? dirty_set_low_threshold a)).
Proof. checks. Qed.
Lemma dirty_set_low_checked : checked VDirtySetLow (fun p a => (100 <? dirty_set_low_threshold p) || (dirty_set_high_threshold a <? dirty_set_low_threshold p)).
Proof. checks. Qed.
Lemma autoclean_checked : checked VAutoclean (fun p a => (autoclean_threshold p <? 0) || (AUTOCLEAN_THRESH_MAX <? autoclean_threshold p)).
Proof. checks. Qed.
Lemma interval_checked : checked VInterval (fun p a => TIME_BASED_CLEAN_INTERVAL_MAX <? time_based_clean_interval p).
Proof. checks. Qed.
Lemma zerostats_checked : checked VZerostats (fun p a => negb (zerostats p =? 0) && negb (zerostats p =? 1)).
Proof. checks. Qed.
Lemma mem_limit_checked : checked VMemLimit (fun p a => (mem_limit_pct p <? 0) || (100 <? mem_limit_pct p)).
Proof. checks. Qed.
Lemma control_checked : checked VControl (fun p a => (CACHE_CONTROL_FLAG_MAX <? control p) || (control p <? 0)).
Proof. checks. Qed.
Lemma clean_checked : checked VDoClean (fun p a => negb (clr (do_clean p) (Z.lor EIO_CLEAN_START EIO_CLEAN_KEEP) =? 0)).
Proof. checks. Qed.
Lemma invalidate_checked : checked VInvalidate (fun p a => false).
Proof. checks. Qed.

Section handlers_ok.
Context (proc_dointvec proc_doulongvec_minmax : list Z -> Z -> Z) (HZ : Z).

(** the other handlers, up to the change *)
Lemma activate_step v invalid w a w' : checked v invalid -> invalid (sysctl_pending w) (sysctl_active (sy_d w)) = false -> activate v w = Some (a, w') -> ok_step w w'.
Proof. intros Hc Hi E Hw. pose proof Hw as [H1 H2 _]. exact (activate_ok v w (Hc _ _ H1 H2 Hi) a w' E Hw). Qed.
(** a handler fetches, and if the value is right activates it and goes on *)
Lemma handler_steps {A} v invalid table write buffer (k : M sys_world A) : ct_data table = Some v -> checked v invalid ->
  (forall w a w', k w = Some (a, w') -> ok_step w w' \/
     invalid (sysctl_pending w) (sysctl_active (sy_d w)) = false /\ exists u w1 m, activate v w = Some (u, w1) /\ m w1 = Some (a, w') /\ stable ok_step m) ->
  stable ok_step (fetch_tunable proc_dointvec v table write buffer ;; k).
Proof.
  intros Hd Hc Hk w a w' E Hw. rewrite (bind_run _ _ _ _ _ (fetch_run _ _ _ _ _ _ Hd)) in E. assert (H1 := fetched_ok proc_dointvec v write buffer w Hw).
  destruct (Hk _ _ _ E) as [H|(Hi & u & w1 & m & E1 & E2 & Hm)]; [exact (H H1)|]. exact (Hm _ _ _ E2 (activate_step _ _ _ _ _ Hc Hi E1 H1)).
Qed.
#[local] Ltac refused := first [by (intros [= <- <-]; left; intros ?)|idtac].
#[local] Ltac accepted E := intros (u & w1 & E1 & E2)%bind_inv; right; split; [first [exact E|reflexivity]|exists u, w1; eexists; split; [exact E1|split; [exact E2|]]].

Lemma zerostats_ok table write buffer : ct_data table = Some VZerostats -> stable ok_step (eio_zerostats_sysctl proc_dointvec table write buffer).
Proof.
  intros Hd. apply (handler_steps VZerostats _ table write buffer _ Hd zerostats_checked). intros w a w'. rewrite bind_gets. unfold id. destruct (negb write); [refused|].
  destruct (_ && _) eqn:Ei; [refused|]. destruct (pending_of _ _ =? active_of _ _); [refused|]. accepted Ei. st_steps. by apply upd_ok.
Qed.
Lemma mem_limit_ok table write buffer : ct_data table = Some VMemLimit -> stable ok_step (eio_mem_limit_pct_sysctl proc_dointvec table write buffer).
Proof.
  intros Hd. apply (handler_steps VMemLimit _ table write buffer _ Hd mem_limit_checked). intros w a w'. rewrite bind_gets. unfold id. destruct (negb write); [refused|].
  destruct (_ || _) eqn:Ei; [refused|]. destruct (pending_of _ _ =? active_of _ _); [refused|]. accepted Ei. st_steps.
Qed.
Lemma control_ok table write buffer : ct_data table = Some VControl -> stable ok_step (eio_control_sysctl proc_dointvec table write buffer).
Proof.
  intros Hd. apply (handler_steps VControl _ table write buffer _ Hd control_checked). intros w a w'. rewrite bind_gets. unfold id. destruct (negb write); [refused|].
  destruct (_ || _) eqn:Ei; [refused|]. destruct (pending_of _ _ =? active_of _ _); [refused|]. accepted Ei. st_steps. apply control_case_ok.
Qed.
Lemma clean_start_ok d : tunables_ok (sysctl_active d) -> tunables_ok (sysctl_active (set_do_clean (Z.lor (do_clean (sysctl_active d)) EIO_CLEAN_START) d)).
Proof.
  intros Ha. pose proof Ha as [T1 T2 T3 T4 T5 T6 T7 T8 T9]. cbn [sysctl_active set_do_clean set_sysctl_active].
  assert (E : clr (Z.lor (do_clean (sysctl_active d)) EIO_CLEAN_START) (Z.lor EIO_CLEAN_START EIO_CLEAN_KEEP) = 0).
  { unfold clr in *. apply Z.bits_inj'. intros k Hk. apply (f_equal (fun x => Z.testbit x k)) in T9. rewrite ?Z.ldiff_spec, ?Z.lor_spec, Z.bits_0 in *.
    by destruct (Z.testbit (do_clean _) k), (Z.testbit EIO_CLEAN_START k), (Z.testbit EIO_CLEAN_KEEP k). }
  assert (Hr : forall x, clr x (Z.lor EIO_CLEAN_START EIO_CLEAN_KEEP) = 0 -> 0 <= x < 4).
  { intros x Hx. change (Z.lor EIO_CLEAN_START EIO_CLEAN_KEEP) with (Z.ones 2) in Hx. unfold clr in Hx. rewrite Z.ldiff_ones_r in Hx by lia.
    rewrite Z.shiftl_eq_0_iff, Z.shiftr_div_pow2 in Hx by lia. change (2 ^ 2) with 4 in Hx. Z.to_euclidean_division_equations. lia. }
  specialize (Hr _ E). assert (E2 : i32 (Z.lor (do_clean (sysctl_active d)) EIO_CLEAN_START) = Z.lor (do_clean (sysctl_active d)) EIO_CLEAN_START).
  { unfold i32. rewrite Z.mod_small by lia. lia. }
  constructor; try assumption. change {| (sysctl_active d) with do_clean := ?x |} with (var_set VDoClean x (sysctl_active d)). rewrite <-E2. by apply (typed_set VDoClean).
Qed.
Lemma clean_ok table write buffer : ct_data table = Some VDoClean -> stable ok_step (eio_clean_sysctl proc_dointvec table write buffer).
Proof.
  intros Hd. apply (handler_steps VDoClean _ table write buffer _ Hd clean_checked). intros w a w'. rewrite bind_gets. unfold id. destruct (negb write); [refused|].
  destruct (negb (mode _ =? _)); [refused|]. destruct (negb (_ =? 0)) eqn:Ei; [refused|]. destruct (pending_of _ _ =? active_of _ _); [refused|]. destruct (tst _ _); [refused|].
  accepted Ei. st_steps; [by apply upd_ok|]. intros x y x' E. rewrite sy_upd_run in E. injection E as <- <-. intros Hx.
  apply sy_with_ok; [done|]. apply clean_start_ok, Hx.
Qed.
Lemma inval_ok table write buffer : ct_data table = Some VInvalidate -> stable ok_step (eio_invalidate_sysctl proc_doulongvec_minmax table write buffer).
Proof.
  intros Hd. unfold eio_invalidate_sysctl. destruct (negb (ct_extra1 table)); [st_steps|]. unfold do_intvec. rewrite Hd. apply st_bind; [apply _| |intros _].
  - destruct write; apply st_modify; intros w [H1 H2 H3]; constructor; try done. by apply (typed_set VInvalidate).
  - destruct (negb write); [st_steps|]. apply st_bind; [apply _| |intros u].
    { intros w a w' E. by apply (activate_step VInvalidate _ w a w' invalidate_checked eq_refl). }
    st_steps; try (apply same_ok, st_modify; intros w; by split). apply same_ok, st_sy_dmc, inval_tunables.
Qed.

(** a handler of a stored tunable, written or read *)
Lemma stored_handler v invalid apply table write buffer : ct_data table = Some v -> checked v invalid -> (forall old, stable sys_same (apply old)) ->
  stable ok_step (stored_sysctl proc_dointvec v invalid apply table write buffer).
Proof. intros Hd Hc Ha w a w' E. exact (stored_ok _ _ _ _ _ _ _ _ _ _ Hd Hc Ha E). Qed.

Lemma handler_ok e write buffer : coherent e -> stable ok_step (call_handler proc_dointvec proc_doulongvec_minmax HZ e write buffer).
Proof.
  intros [Hd _]. assert (Hc : stable sys_same (sy_dmc (eio_comply_dirty_thresholds (-1)))) by apply st_sy_dmc, comply_tunables.
  unfold call_handler. destruct (proc_handler e); cbn [handler_var] in Hd.
  - by apply zerostats_ok.
  - by apply mem_limit_ok.
  - by apply control_ok.
  - by apply clean_ok.
  - apply stored_handler; [done|apply interval_checked|intros _; apply reschedule_stable].
  - apply stored_handler; [done|apply autoclean_checked|by intros _].
  - apply stored_handler; [done|apply dirty_high_checked|intros old; by apply reduced_stable].
  - apply stored_handler; [done|apply dirty_low_checked|intros old; by apply reduced_stable].
  - apply stored_handler; [done|apply dirty_set_high_checked|intros old; apply reduced_stable, comply_all_stable].
  - apply stored_handler; [done|apply dirty_set_low_checked|intros old; apply reduced_stable, comply_all_stable].
  - by apply inval_ok.
Qed.
End handlers_ok.

(** * Writing a stored tunable *)
(** ** What may follow a stored change *)

(** only the clean queue, the dirty-set LRU and the schedule of the aged sets differ *)
Definition tuned (d d' : cache_c) : Prop := exists s d1, cleanq_only d d1 /\ d' = set_is_clean_aged_sets_sched s d1.
Lemma cleanq_tuned d d' : cleanq_only d d' -> tuned d d'.
Proof. intros H. exists (is_clean_aged_sets_sched d'), d'. split; [done|]. by destruct d'. Qed.

(** the queue and the LRU are in order, and there are sets *)
Record queue_ok (inflight : list Z) (d : cache_c) : Prop := {
  qo_cleanq : cleanq_inv inflight d;
  qo_lru : mode d = CACHE_MODE_WB -> dirty_lru_inv d;
  qo_sets : num_sets d = Z.shiftr (dmc_size d) (consecutive_shift d) /\ num_sets d < 2 ^ 62
}.
Lemma queue_ok_kept inflight d d' : cleanq_only d d' -> cleanq_inv inflight d' -> (mode d = CACHE_MODE_WB -> dirty_lru_inv d') -> queue_ok inflight d -> queue_ok inflight d'.
Proof. intros (cs & q & p & x & l & -> & _) H1 H2 [_ _ H3]. constructor; [exact H1|exact H2|exact H3]. Qed.

Lemma sy_dmc_run {A} (m : M cache_c A) w a d' : m (sy_d w) = Some (a, d') -> sy_dmc m w = Some (a, sy_with d' w).
Proof. intros E. unfold sy_dmc, sy_run. by rewrite (conf_dmc_run' m (sy_conf w) a d' E). Qed.
Lemma sy_with_with d d' w : sy_with d' (sy_with d w) = sy_with d' w.
Proof. by destruct w as [[[]]]. Qed.
Lemma sy_with_d w : sy_with (sy_d w) w = w.
Proof. by destruct w as [[[]]]. Qed.

(** [apply] never fails on a cache in order, and does only this *)
Definition applies (apply : M sys_world unit) : Prop := forall inflight w, queue_ok inflight (sy_d w) ->
  exists w', apply w = Some (tt, w') /\ sy_conf w' = conf_with (sy_d w') (sy_conf w) /\ sysctl_pending w' = sysctl_pending w /\
    tuned (sy_d w) (sy_d w') /\ queue_ok inflight (sy_d w').

Lemma applies_dmc set : set = -1 -> applies (sy_dmc (eio_comply_dirty_thresholds set)).
Proof.
  intros -> inflight w Hq. destruct (comply_ok inflight (-1) (sy_d w) (proj2 (qo_sets _ _ Hq)) (qo_cleanq _ _ Hq) (qo_lru _ _ Hq)) as (d' & E & O & H1 & H2); [by left|].
  exists (sy_with d' w). split; [by apply sy_dmc_run|]. split; [done|]. split; [done|]. split; [by apply cleanq_tuned|]. by apply (queue_ok_kept inflight (sy_d w)).
Qed.
Lemma comply_sets_ok inflight : forall sets w, queue_ok inflight (sy_d w) -> (forall i, i ∈ sets -> 0 <= i < num_sets (sy_d w)) ->
  exists d', mfor sets (fun i => sy_dmc (eio_comply_dirty_thresholds i)) w = Some (tt, sy_with d' w) /\ cleanq_only (sy_d w) d' /\ queue_ok inflight d'.
Proof.
  induction sets as [|i sets IH]; intros w Hq Hi; cbn [mfor].
  { exists (sy_d w). split; [by rewrite sy_with_d|done]. }
  destruct (comply_ok inflight i (sy_d w) (proj2 (qo_sets _ _ Hq)) (qo_cleanq _ _ Hq) (qo_lru _ _ Hq)) as (d1 & E & O & H1 & H2).
  { right. apply Hi, elem_of_cons. by left. }
  assert (Hq1 : queue_ok inflight d1) by by apply (queue_ok_kept inflight (sy_d w)). rewrite (bind_run _ _ _ _ _ (sy_dmc_run _ _ _ _ E)).
  destruct (IH (sy_with d1 w)) as (d' & E' & O' & Hq'); [done| |].
  { intros j Hj. destruct (cleanq_only_fields _ _ O) as (_ & En & _). unfold sy_d at 1, cf_d. cbn. rewrite En. apply Hi, elem_of_cons. by right. }
  exists d'. split; [by rewrite E', sy_with_with|]. split; [by etransitivity|done].
Qed.
Lemma applies_all : applies comply_all_sets.
Proof.
  intros inflight w Hq. unfold comply_all_sets. rewrite bind_gets. unfold id.
  destruct (comply_sets_ok inflight (seqZ 0 (Z.shiftr (dmc_size (sy_d w)) (consecutive_shift (sy_d w)))) w Hq) as (d' & E & O & Hq').
  { intros i ?%elem_of_seqZ. rewrite (proj1 (qo_sets _ _ Hq)). lia. }
  exists (sy_with d' w). split; [exact E|]. split; [done|]. split; [done|]. split; [by apply cleanq_tuned|done].
Qed.
Lemma applies_reduced v m old : applies m -> applies (when_reduced v m old).
Proof.
  intros H inflight w Hq. unfold when_reduced. rewrite bind_gets. destruct (_ <? _); [by apply H|]. exists w. split; [done|]. split; [by destruct w as [[[]]]|].
  split; [done|]. split; [by apply cleanq_tuned|done].
Qed.
Lemma applies_reschedule HZ : applies (reschedule_aged HZ).
Proof.
  intros inflight w Hq. unfold reschedule_aged. rewrite bind_modify. rewrite (bind_run _ _ _ _ _ (sy_upd_run _ _)), bind_gets. unfold id.
  assert (K : forall s, queue_ok inflight (set_is_clean_aged_sets_sched s (sy_d w))) by (intros s; destruct Hq as [H1 H2 H3]; constructor; [by eapply cleanq_inv_ext; [..|exact H1]|exact H2|exact H3]).
  assert (T : forall s, tuned (sy_d w) (set_is_clean_aged_sets_sched s (sy_d w))) by (intros s; by exists s, (sy_d w)).
  destruct (_ && _); cbn [when].
  - rewrite bind_modify, sy_upd_run. eexists. split; [reflexivity|]. split; [by destruct w as [[[]]]|]. split; [done|]. by split; [apply (T 1)|apply (K 1)].
  - eexists. split; [reflexivity|]. split; [by destruct w as [[[]]]|]. split; [done|]. by split; [apply (T 0)|apply (K 0)].
Qed.

(** ** The six tunables that are stored: when a value is refused *)
Definition stored_check (h : proc_handler_fn) : option (eio_sysctl -> eio_sysctl -> bool) :=
  match h with
  | eio_dirty_high_threshold_fn => Some (fun p a => (100 <? dirty_high_threshold p) || (dirty_high_threshold p <? dirty_low_threshold a))
  | eio_dirty_low_threshold_fn => Some (fun p a => (100 <? dirty_low_threshold p) || (dirty_high_threshold a <? dirty_low_threshold p))
  | eio_dirty_set_high_threshold_fn => Some (fun p a => (100 <? dirty_set_high_threshold p) || (dirty_set_high_threshold p <? dirty_set_low_threshold a))
  | eio_dirty_set_low_threshold_fn => Some (fun p a => (100 <? dirty_set_low_threshold p) || (dirty_set_high_threshold a <? dirty_set_low_threshold p))
  | eio_autoclean_threshold_fn => Some (fun p a => (autoclean_threshold p <? 0) || (AUTOCLEAN_THRESH_MAX <? autoclean_threshold p))
  | eio_time_based_clean_interval_fn => Some (fun p a => TIME_BASED_CLEAN_INTERVAL_MAX <? time_based_clean_interval p)
  | _ => None
  end.

Section write.
Context (proc_dointvec proc_doulongvec_minmax : list Z -> Z -> Z) (HZ : Z).
Notation call := (call_handler proc_dointvec proc_doulongvec_minmax HZ).

Lemma stored_call e invalid : stored_check (proc_handler e) = Some invalid -> exists apply, (forall old, applies (apply old)) /\
  forall write buffer, call e write buffer = stored_sysctl proc_dointvec (handler_var (proc_handler e)) invalid apply e write buffer.
Proof.
  assert (Hc : applies (sy_dmc (eio_comply_dirty_thresholds (-1)))) by by apply applies_dmc.
  unfold call_handler. destruct (proc_handler e); intros [= <-]; (eexists; split; [|by intros write buffer]); intros old; cbv beta.
  - apply applies_reschedule.
  - exact Hc.
  - by apply applies_reduced.
  - by apply applies_reduced.
  - apply applies_reduced, applies_all.
  - apply applies_reduced, applies_all.
Qed.

(** what the kernel made of the buffer *)
Definition given (v : sysctl_var) (buffer : list Z) (w : sys_world) : Z := var_type v (proc_dointvec buffer (pending_of v w)).

(** the superblock can be stored *)
Record store_env (w : conf_world) (p : Z) (l : list Z) : Prop := {
  se_device : no_device (cf_d w) = false;
  se_names : names_ok w;
  se_pages : fresh_pages (p :: l) w;
  se_kmalloc : cf_kmalloc w = []
}.
Lemma store_env_with d w p l : no_device d = false -> store_env w p l -> store_env (conf_with d w) p l.
Proof. intros Hd [_ [N1 N2 N3 N4] [F1 F2 F3] H4]. constructor; [exact Hd|by constructor|by constructor|exact H4]. Qed.

Lemma stored_write_ok v invalid apply table buffer w inflight p l : ct_data table = Some v -> (forall old, applies (apply old)) ->
  store_env (sy_conf w) p l -> queue_ok inflight (sy_d w) -> mode (sy_d w) = CACHE_MODE_WB ->
  invalid (var_set v (given v buffer w) (sysctl_pending w)) (sysctl_active (sy_d w)) = false -> given v buffer w <> active_of v w ->
  let tuned_d := set_active v (given v buffer w) (sy_d w) in
  exists r w', stored_sysctl proc_dointvec v invalid apply table true buffer w = Some (r, w') /\ r = io_error (next_res (cf_cw (sy_conf w))) /\
    (r <> 0 -> sy_d w' = sy_d w) /\ (r = 0 -> tuned tuned_d (sy_d w') /\ queue_ok inflight (sy_d w')) /\
    (next_res (cf_cw (sy_conf w)) = IoOk -> sb_read (sb_sectors (on_ssd (cw_k (cf_cw (sy_conf w'))))) = sb_of (conf_with tuned_d (sy_conf w))) /\
    pending_of v w' = given v buffer w.
Proof.
  intros Hd Ha He Hq Hm Hi Hne. cbv zeta. set (x := given v buffer w) in *. unfold stored_sysctl.
  rewrite (bind_run _ _ _ _ _ (fetch_run proc_dointvec v table true buffer w Hd)), bind_gets. unfold id. cbv beta zeta. cbn [negb].
  pose proof (fetched_pending proc_dointvec buffer v w) as Ep. fold (given v buffer w) in Ep. fold x in Ep.
  rewrite fetched_d, fetched_active, Ep, Hm. cbn [Z.eqb]. change (negb (CACHE_MODE_WB =? CACHE_MODE_WB)) with false. cbv iota.
  change (sysctl_pending (fetched proc_dointvec v true buffer w)) with (var_set v x (sysctl_pending w)). rewrite Hi.
  destruct (Z.eqb_spec x (active_of v w)) as [|_]; [done|].
  set (w1 := fetched proc_dointvec v true buffer w) in *. assert (Ec1 : sy_conf w1 = sy_conf w) by done. assert (Ed1 : sy_d w1 = sy_d w) by done.
  rewrite (bind_run _ _ _ _ _ (activate_run v w1)), Ep, Ed1. set (d1 := set_active v x (sy_d w)). set (w2 := sy_with d1 w1).
  destruct (store_env_with d1 (sy_conf w) p l (se_device _ _ _ He) He) as [H1 H2 H3 H4].
  destruct (eio_sb_store_ok p l (sy_conf w2) H1 H2 H3 H4) as (e & c & E & [Hr (mem & ssd & tr & nx & Ew & Hsb & _) _]).
  assert (Er : sy_run eio_sb_store w2 = Some (e, set_sy_conf c w2)) by (unfold sy_run; by rewrite E). rewrite (bind_run _ _ _ _ _ Er).
  change (next_res (cf_cw (sy_conf w2))) with (next_res (cf_cw (sy_conf w))) in *. change (sy_conf w2) with (conf_with d1 (sy_conf w)) in *.
  assert (Ecd : cf_d c = d1) by (rewrite Ew; done). assert (Ek : on_ssd (cw_k (cf_cw c)) = ssd) by (rewrite Ew; done).
  assert (Epc : pending_of v (set_sy_conf c w2) = x) by exact Ep. clearbody w1. clear Er.
  destruct (Z.eqb_spec e 0) as [Hz|Hz]; cbn [negb].
  - destruct (Ha (active_of v w) inflight (set_sy_conf c w2)) as (w' & E' & E1 & E2 & Ht & Hq').
    { unfold sy_d. cbn [sy_conf set_sy_conf]. rewrite Ecd. destruct Hq as [Q1 Q2 Q3]. constructor; [by eapply cleanq_inv_ext; [..|exact Q1]|exact Q2|exact Q3]. }
    rewrite (bind_run _ _ _ _ _ E'). exists 0, w'. split; [done|]. split; [congruence|]. split; [done|]. split; [|split].
    + intros _. split; [|done]. replace d1 with (sy_d (set_sy_conf c w2)) by exact Ecd. exact Ht.
    + intros Hok. rewrite E1. change (on_ssd (cw_k (cf_cw (conf_with (sy_d w') ?y)))) with (on_ssd (cw_k (cf_cw y))). cbn [sy_conf set_sy_conf]. rewrite Ek. by apply Hsb.
    + unfold pending_of in *. by rewrite E2.
  - rewrite (bind_run _ _ _ _ _ (sy_upd_run _ _)). eexists e, _. split; [reflexivity|]. split; [done|]. split; [|split; [done|split]].
    + intros _. change (sy_d (sy_with ?d ?y)) with d. unfold sy_d at 1. cbn [sy_conf set_sy_conf]. rewrite Ecd. unfold d1, active_of. by rewrite set_active_back.
    + intros Hok. exfalso. apply Hz. rewrite Hr, Hok. done.
    + exact Epc.
Qed.
End write.
