(* ===== verification/TuneUse.v ===== *)
(** * Errors, reads, requests to clean and to invalidate

    The remaining behaviour of the handlers, one lemma for each kind of access.

    ** The files of a cache appear and disappear

    [eio_procfs_ctr] registers exactly the entries the mode and the flags of the
    cache call for; [eio_procfs_dtr] leaves none of them.  The percentages of
    [eio_stats_show] are percentages. *)

From S2P Require Import Prelude Types Mem DList SetLru Scan Policy World Dispatch Disk Clean CleanThread CleanSet CleanState Lookup Thresh WbAlloc Hits Superblock MdStore MdCreate MdLoad PageIo LoadLoop Recovery Suspend Gone Sysctl Tunables.

(** * Errors, reads, requests to clean and to invalidate *)
Section use.
Context (proc_dointvec proc_doulongvec_minmax : list Z -> Z -> Z) (HZ : Z).
Notation call := (call_handler proc_dointvec proc_doulongvec_minmax HZ).

(** ** A handler that fails *)
Lemma stored_error v invalid apply table write buffer w r w' : ct_data table = Some v ->
  stored_sysctl proc_dointvec v invalid apply table write buffer w = Some (r, w') -> r <> 0 -> sy_d w' = sy_d w.
Proof.
  intros Hd E Hr. destruct (stored_inv _ _ _ _ _ _ _ _ _ _ Hd E) as [[-> _]|(_ & _ & _ & e & c & _ & _ & H)]; [apply fetched_d|].
  destruct H as [(_ & _ & ->)|(_ & -> & _)]; done.
Qed.
#[local] Ltac plain_error := repeat match goal with
  | |- (if ?b then _ else _) _ = Some _ -> _ => destruct b; [by intros [= <- <-] _|]
  end.
Lemma handler_error e write buffer w r w' : coherent e -> call e write buffer w = Some (r, w') -> r <> 0 -> proc_handler e <> eio_control_fn -> sy_d w' = sy_d w.
Proof.
  intros [Hd Hx]. unfold call_handler. destruct (proc_handler e) eqn:Eh; cbn [handler_var] in Hd; 
    try (unfold eio_time_based_clean_interval_sysctl, eio_autoclean_threshold_sysctl, eio_dirty_high_threshold_sysctl, eio_dirty_low_threshold_sysctl,
           eio_dirty_set_high_threshold_sysctl, eio_dirty_set_low_threshold_sysctl; intros E Hr _; exact (stored_error _ _ _ _ _ _ _ _ _ Hd E Hr)).
  - unfold eio_zerostats_sysctl. rewrite (bind_run _ _ _ _ _ (fetch_run _ _ _ _ _ _ Hd)), bind_gets. intros E Hr _. revert E Hr.
    rewrite <-(fetched_d proc_dointvec VZerostats write buffer w). plain_error. intros (? & w1 & _ & E)%bind_inv. rewrite bind_gets in E. by apply bind_inv in E as (? & w2 & _ & [= <- <-]).
  - unfold eio_mem_limit_pct_sysctl. rewrite (bind_run _ _ _ _ _ (fetch_run _ _ _ _ _ _ Hd)), bind_gets. intros E Hr _. revert E Hr.
    rewrite <-(fetched_d proc_dointvec VMemLimit write buffer w). plain_error. by intros (? & w1 & _ & [= <- <-])%bind_inv.
  - done.
  - unfold eio_clean_sysctl. rewrite (bind_run _ _ _ _ _ (fetch_run _ _ _ _ _ _ Hd)), bind_gets. intros E Hr _. revert E Hr.
    rewrite <-(fetched_d proc_dointvec VDoClean write buffer w). plain_error. intros (? & w1 & _ & E)%bind_inv. rewrite bind_gets in E. by apply bind_inv in E as (? & w2 & _ & [= <- <-]).
  - unfold eio_invalidate_sysctl. rewrite Hx. cbn [negb]. intros (? & w1 & _ & E)%bind_inv Hr _. exfalso. apply Hr. destruct (negb write); [by injection E as <- <-|].
    apply bind_inv in E as (? & w2 & _ & E). rewrite bind_gets in E. destruct (negb _); [|by apply bind_inv in E as (? & w3 & _ & [= <- <-])].
    destruct (eio_invalidate_sanity_check _ _ _) as [rv n]. apply bind_inv in E as (? & w3 & _ & E). by apply bind_inv in E as (? & w4 & _ & [= <- <-]).
Qed.

(** ** Reading *)
Lemma handler_read e buffer w : coherent e -> proc_handler e <> eio_invalidate_fn ->
  exists w', call e false buffer w = Some (0, w') /\ sy_printed w' = Some (active_of (handler_var (proc_handler e)) w) /\ sy_conf w' = sy_conf w /\ entries w' = entries w.
Proof.
  intros [Hd _] Hi. exists (fetched proc_dointvec (handler_var (proc_handler e)) false buffer w). split; [|by split_and!].
  unfold call_handler. destruct (proc_handler e); cbn [handler_var] in *; try done;
    unfold eio_time_based_clean_interval_sysctl, eio_autoclean_threshold_sysctl, eio_dirty_high_threshold_sysctl, eio_dirty_low_threshold_sysctl,
      eio_dirty_set_high_threshold_sysctl, eio_dirty_set_low_threshold_sysctl, stored_sysctl, eio_zerostats_sysctl, eio_mem_limit_pct_sysctl,
      eio_control_sysctl, eio_clean_sysctl;
    by rewrite (bind_run _ _ _ _ _ (fetch_run _ _ _ _ _ _ Hd)), bind_gets.
Qed.

(** ** Asking for a clean *)
Lemma clean_request_ok e buffer w : ct_data e = Some VDoClean -> mode (sy_d w) = CACHE_MODE_WB -> tst (cache_flags (sy_d w)) CACHE_FLAGS_MOD_INPROG = false ->
  let x := given proc_dointvec VDoClean buffer w in clr x (Z.lor EIO_CLEAN_START EIO_CLEAN_KEEP) = 0 -> x <> active_of VDoClean w -> x <> 0 ->
  exists w', eio_clean_sysctl proc_dointvec e true buffer w = Some (0, w') /\
    sy_conf w' = conf_with (set_do_clean (Z.lor x EIO_CLEAN_START) (set_clean_index 0 (sy_d w))) (sy_conf w).
Proof.
  intros Hd Hm Hmod x Hx Hne H0. unfold eio_clean_sysctl. rewrite (bind_run _ _ _ _ _ (fetch_run _ _ _ _ _ _ Hd)), bind_gets. unfold id.
  rewrite fetched_d, fetched_active, fetched_pending, Hm, Hmod. change (var_type VDoClean (proc_dointvec buffer (pending_of VDoClean w))) with x. rewrite Hx. cbn [negb].
  change (negb (CACHE_MODE_WB =? CACHE_MODE_WB)) with false. change (negb (0 =? 0)) with false. cbv iota. rewrite (proj2 (Z.eqb_neq x _) Hne).
  rewrite (bind_run _ _ _ _ _ (activate_run _ _)), fetched_d, fetched_pending. change (var_type VDoClean (proc_dointvec buffer (pending_of VDoClean w))) with x.
  rewrite bind_gets. set (w1 := sy_with _ _). assert (Ea : active_of VDoClean w1 = x) by done. rewrite Ea, (proj2 (Z.eqb_neq x 0) H0). cbn [negb when].
  rewrite bind_bind, (bind_run _ _ _ _ _ (sy_upd_run _ _)), (bind_run _ _ _ _ _ (sy_upd_run _ _)). eexists. split; [reflexivity|]. done.
Qed.

(** ** Invalidating sectors: the second write *)
Lemma invalidate_range_ok e buffer w : coherent e -> proc_handler e = eio_invalidate_fn -> iv_have_sector w <> 0 ->
  let d := sy_d w in let start := iv_sector w in let n := u64 (proc_doulongvec_minmax buffer (pending_of VInvalidate w)) in
  let size := eio_to_sector (disk_dev_size d) in
  blk_inv d -> dmc_size d < 2 ^ 31 -> SECTORS_PER_SET_SHIFT d <= 22 -> 0 <= start -> size < 2 ^ 62 ->
  let cut := Z.min n (size - start) in
  start < size -> 0 < cut < 2 ^ 23 -> n < 2 ^ 63 ->
  exists w', call e true buffer w = Some (0, w') /\ iv_have_sector w' = 0 /\ inval_post start (start + cut) (set_active VInvalidate n d) (sy_d w').
Proof.
  intros [Hd Hx] Eh Hh d start n size Hinv Hsz Hsh Hst Hdisk cut Hlt Hcut Hn. unfold call_handler. rewrite Eh. unfold eio_invalidate_sysctl. rewrite Hx. cbn [negb].
  assert (E1 : do_intvec proc_doulongvec_minmax e true buffer w = Some (tt, set_pending (var_set VInvalidate n (sysctl_pending w)) w)) by (unfold do_intvec; rewrite Hd, Eh; done).
  rewrite (bind_run _ _ _ _ _ E1), (bind_run _ _ _ _ _ (activate_run _ _)), bind_gets. set (w1 := sy_with _ _). unfold id.
  assert (Ea : active_of VInvalidate w1 = n) by done. assert (Es : iv_sector w1 = start) by done. assert (Ev : iv_have_sector w1 = iv_have_sector w) by done.
  assert (Ed : sy_d w1 = set_active VInvalidate n d) by done. cbv zeta. rewrite Ea, Es, Ev, (proj2 (Z.eqb_neq _ 0) Hh). cbn [negb]. clearbody w1. clear E1.
  assert (Hn0 : 0 < n) by lia.
  assert (Ec : eio_invalidate_sanity_check (sy_d w1) start n = (0, cut)).
  { unfold eio_invalidate_sanity_check. rewrite Ed. change (disk_dev_size (set_active VInvalidate n d)) with (disk_dev_size d). fold size.
    rewrite (proj2 (Z.eqb_neq n 0)), (proj2 (Z.leb_gt size start)) by lia. unfold u64. rewrite Z.mod_small by lia. unfold cut.
    destruct (Z.ltb_spec size (start + n)); do 2 f_equal; lia. }
  rewrite Ec. cbn [Z.eqb when]. assert (Eb : u32 (to_bytes cut) = cut * 512).
  { unfold to_bytes, u32, SECTOR_SHIFT. rewrite Z.shiftl_mul_pow2 by lia. change (2 ^ 9) with 512. apply Z.mod_small. lia. }
  rewrite Eb. destruct (inval_range_ok (sy_d w1) start (cut * 512)) as (d' & E & Hp); try (rewrite Ed; done); try lia.
  { rewrite Ed. by apply (blk_inv_same d). }
  { by exists cut. }
  { rewrite Z.div_mul by lia. lia. }
  rewrite (bind_run _ _ _ _ _ (sy_dmc_run _ _ _ _ E)). rewrite bind_modify. eexists. split; [reflexivity|]. split; [done|].
  rewrite Z.div_mul in Hp by lia. rewrite Ed in Hp. exact Hp.
Qed.
End use.

(** ** What a reload takes from the superblock *)
Definition stored_vars : list sysctl_var := [VDirtyHigh; VDirtyLow; VDirtySetHigh; VDirtySetLow; VInterval; VAutoclean].
Lemma sysctl_reloaded w s v : typed (sysctl_active (cf_d w)) -> v ∈ stored_vars -> var_get v (sb_sysctl (sb_of w) s) = var_get v (sysctl_active (cf_d w)).
Proof.
  intros H Hv. assert (Hi : forall x, i32 (u32 x) = i32 x).
  { intros x. unfold i32, u32. f_equal. rewrite Zplus_mod_idemp_l. done. }
  pose proof (H v) as Hw. unfold stored_vars in Hv.
  repeat (apply elem_of_cons in Hv as [->|Hv]; [cbn [var_get var_type sb_sysctl sb_of] in *; cbn; rewrite ?Hi; exact Hw|]). by apply not_elem_of_nil in Hv.
Qed.

(** * The files of a cache appear and disappear *)
(** no allocation and no registration fails, and the cache has a name *)
Record files_env (w : sys_world) : Prop := {
  fe_kmalloc : cf_kmalloc (sy_conf w) = [];
  fe_register : sy_registrations w = [];
  fe_name : cache_name (sy_conf w) <> []
}.
Definition proc_path (name path_component : list Z) : list Z :=
  PROC_SYS_DIR_NAME ++ slash ++ name ++ (if bool_decide (path_component = []) then [] else slash ++ path_component).

Lemma sy_kmalloc_run w : files_env w -> sy_run conf_kmalloc w = Some (true, w).
Proof. intros [E _ _]. unfold sy_run, conf_kmalloc. rewrite E. by destruct w. Qed.
Lemma sy_register_run w : files_env w -> sy_register w = Some (true, w).
Proof. intros [_ E _]. unfold sy_register. by rewrite E. Qed.
Lemma cachename_run c w : files_env w -> eio_cons_procfs_cachename c w = Some (Some (proc_path (cache_name (sy_conf w)) c), w).
Proof.
  intros H. unfold eio_cons_procfs_cachename. rewrite bind_gets. unfold id. cbv zeta. rewrite bool_decide_false by apply H.
  by rewrite (bind_run _ _ _ _ _ (sy_kmalloc_run w H)).
Qed.
Lemma proc_make_run s w : files_env w -> proc_make (Some s) w = Some (true, set_proc_entries (s :: sy_proc_entries w) w).
Proof. intros H. unfold proc_make. by rewrite (bind_run _ _ _ _ _ (sy_register_run w H)). Qed.
Lemma proc_file_run c w : files_env w -> proc_file c w = Some (tt, set_proc_entries (proc_path (cache_name (sy_conf w)) c :: sy_proc_entries w) w).
Proof. intros H. unfold proc_file. rewrite (bind_run _ _ _ _ _ (cachename_run c w H)). by rewrite (bind_run _ _ _ _ _ (proc_make_run _ w H)). Qed.
Lemma files_env_entries l w : files_env w -> files_env (set_proc_entries l w).
Proof. intros []. by constructor. Qed.
Lemma proc_files_run : forall cs w, files_env w ->
  mfor cs proc_file w = Some (tt, set_proc_entries (rev (map (proc_path (cache_name (sy_conf w))) cs) ++ sy_proc_entries w) w).
Proof.
  induction cs as [|c cs IH]; intros w H; cbn [mfor map rev]; [by destruct w|]. rewrite (bind_run _ _ _ _ _ (proc_file_run c w H)).
  rewrite IH by by apply files_env_entries. cbn [sy_conf set_proc_entries sy_proc_entries]. by rewrite <-app_assoc.
Qed.

(** a directory is registered, its entries point at the values *)
Lemma register_run template set_handle w : files_env w ->
  eio_sysctl_register template set_handle w = Some (tt, set_handle (Some (mk_dir (sysctl_vars template) (Some (cache_name (sy_conf w))))) w).
Proof.
  intros H. unfold eio_sysctl_register. rewrite (bind_run _ _ _ _ _ (sy_kmalloc_run w H)). cbn [negb].
  assert (E : eio_cons_sysctl_devname w = Some (Some (cache_name (sy_conf w)), w)).
  { unfold eio_cons_sysctl_devname. rewrite bind_gets. unfold id. cbv zeta. rewrite bool_decide_false by apply H. by rewrite (bind_run _ _ _ _ _ (sy_kmalloc_run w H)). }
  rewrite (bind_run _ _ _ _ _ E). by rewrite (bind_run _ _ _ _ _ (sy_register_run w H)).
Qed.

(** the directories a cache has *)
Definition dir_of (w : sys_world) (template : list ctl_table) : option sysctl_dir := Some (mk_dir (sysctl_vars template) (Some (cache_name (sy_conf w)))).
Definition cache_files (w : sys_world) : list (list Z) :=
  map (proc_path (cache_name (sy_conf w))) [PROC_CONFIG; PROC_IOSZ_HIST; PROC_ERRORS; PROC_STATS; []].
Definition with_files (w : sys_world) : sys_world :=
  let w1 := set_handle_common (dir_of w sysctl_template_common) (set_proc_entries (cache_files w ++ sy_proc_entries w) w) in
  let w2 := if mode (sy_d w) =? CACHE_MODE_WB then set_handle_writeback (dir_of w sysctl_template_writeback) w1 else w1 in
  if CACHE_INVALIDATE_IS_SET (sy_d w) then set_handle_invalidate (dir_of w sysctl_template_invalidate) w2 else w2.

Lemma procfs_ctr_run w : files_env w -> eio_procfs_ctr w = Some (tt, with_files w).
Proof.
  intros H. unfold eio_procfs_ctr. rewrite (bind_run _ _ _ _ _ (cachename_run [] w H)). rewrite (bind_run _ _ _ _ _ (proc_make_run _ w H)). cbn [negb].
  set (name := cache_name (sy_conf w)). set (w0 := set_proc_entries _ w). assert (H0 : files_env w0) by by apply files_env_entries.
  rewrite (bind_run _ _ _ _ _ (proc_files_run _ w0 H0)). change (sy_proc_entries w0) with (proc_path name [] :: sy_proc_entries w). change (cache_name (sy_conf w0)) with name.
  set (w1 := set_proc_entries _ w0). assert (H1 : files_env w1) by by apply files_env_entries.
  unfold eio_sysctl_register_common. rewrite (bind_run _ _ _ _ _ (register_run _ set_handle_common w1 H1)). rewrite bind_gets. unfold id.
  change (cache_name (sy_conf w1)) with name. change (sy_d (set_handle_common ?h w1)) with (sy_d w).
  set (w2 := set_handle_common _ w1). assert (H2 : files_env w2) by (by destruct H1; constructor).
  unfold with_files. destruct (mode (sy_d w) =? CACHE_MODE_WB); cbn [when].
  - unfold eio_sysctl_register_writeback. rewrite (bind_run _ _ _ _ _ (register_run _ set_handle_writeback w2 H2)). set (w3 := set_handle_writeback _ w2).
    assert (H3 : files_env w3) by (by destruct H2; constructor). destruct (CACHE_INVALIDATE_IS_SET (sy_d w)); cbn [when]; [|done].
    exact (register_run _ set_handle_invalidate w3 H3).
  - rewrite bind_ret. destruct (CACHE_INVALIDATE_IS_SET (sy_d w)); cbn [when]; [|done]. exact (register_run _ set_handle_invalidate w2 H2).
Qed.

Lemma filter_none_out (l : list (list Z)) (P : list Z -> Prop) `{forall x, Decision (P x)} : (forall x, P x) -> filter P l = l.
Proof. intros Hp. induction l as [|x l IH]; [done|]. rewrite filter_cons_True by done. by rewrite IH. Qed.
Lemma unfiles_run : forall cs w, files_env w ->
  mfor cs proc_unfile w = Some (tt, set_proc_entries (filter (fun x => x ∉ map (proc_path (cache_name (sy_conf w))) cs) (sy_proc_entries w)) w).
Proof.
  induction cs as [|c cs IH]; intros w H; cbn [mfor map].
  { unfold ret. do 3 f_equal. rewrite filter_none_out; [by destruct w|]. intros x. apply not_elem_of_nil. }
  assert (E : proc_unfile c w = Some (tt, set_proc_entries (filter (fun x => x <> proc_path (cache_name (sy_conf w)) c) (sy_proc_entries w)) w)).
  { unfold proc_unfile. by rewrite (bind_run _ _ _ _ _ (cachename_run c w H)). }
  rewrite (bind_run _ _ _ _ _ E), IH by by apply files_env_entries. cbn [sy_conf set_proc_entries sy_proc_entries]. rewrite list_filter_filter.
  rewrite (list_filter_iff _ (fun x => x ∉ proc_path (cache_name (sy_conf w)) c :: map (proc_path (cache_name (sy_conf w))) cs)); [done|].
  intros x. rewrite not_elem_of_cons. tauto.
Qed.
Definition without_files (w : sys_world) : sys_world :=
  set_handle_common None (set_handle_writeback None (set_handle_invalidate None
    (set_proc_entries (filter (fun x => x ∉ cache_files w) (sy_proc_entries w)) w))).
Lemma procfs_dtr_run w : files_env w -> eio_procfs_dtr w = Some (tt, without_files w).
Proof.
  intros H. unfold eio_procfs_dtr. rewrite (bind_run _ _ _ _ _ (unfiles_run _ w H)). unfold eio_sysctl_unregister_invalidate, eio_sysctl_unregister_writeback, eio_sysctl_unregister_common.
  rewrite !bind_modify. unfold modify, without_files.
  rewrite (list_filter_iff _ (fun x => x ∉ cache_files w)); [done|]. intros x. unfold cache_files. cbn [map]. rewrite !not_elem_of_cons. tauto.
Qed.

(** ** Percentages

    The divisor is halved, with the dividend, until it fits in 32 bits. *)
Lemma pct_loop_ok : forall fuel h y r, 0 <= h < 2 ^ Z.of_nat fuel -> exists k, 0 <= k /\
  calc_pct_loop fuel h y r = (y / 2 ^ k, r / 2 ^ k) /\ h < 2 ^ k /\ (k = 0 \/ 2 ^ (k - 1) <= h).
Proof.
  induction fuel as [|fuel IH]; intros h y r Hh; cbn [calc_pct_loop].
  { exists 0. rewrite !Z.div_1_r. change (2 ^ Z.of_nat 0) with 1 in Hh. split_and!; try lia; auto. }
  destruct (Z.eqb_spec h 0) as [->|Hne].
  { exists 0. rewrite !Z.div_1_r. split_and!; try lia; auto. }
  assert (E1 : Z.shiftr h 1 = h / 2) by (by rewrite Z.shiftr_div_pow2 by lia).
  assert (Hp : 2 ^ Z.of_nat (S fuel) = 2 * 2 ^ Z.of_nat fuel) by (rewrite Nat2Z.inj_succ, Z.pow_succ_r by lia; done).
  destruct (IH (Z.shiftr h 1) (Z.shiftr y 1) (Z.shiftr r 1)) as (k & Hk & E & Hlt & Hge).
  { rewrite E1. split; [apply Z.div_pos; lia|]. apply Z.div_lt_upper_bound; lia. }
  exists (k + 1). assert (P1 : 2 ^ (k + 1) = 2 * 2 ^ k) by (rewrite Z.pow_add_r by lia; lia). pose proof (Z.pow_pos_nonneg 2 k ltac:(lia) Hk) as Pk.
  split; [lia|]. split; [|split].
  - rewrite E, !Z.shiftr_div_pow2 by lia. change (2 ^ 1) with 2. rewrite !Z.div_div by lia. by rewrite <-P1.
  - rewrite P1. rewrite E1 in Hlt. Z.to_euclidean_division_equations. lia.
  - right. replace (k + 1 - 1) with k by lia. rewrite E1 in Hge. destruct Hge as [->|Hge]; [change (2 ^ 0) with 1; lia|].
    destruct (Z.eqb_spec k 0) as [->|Hk0]; [change (2 ^ 0) with 1; lia|].
    assert (P2 : 2 ^ k = 2 * 2 ^ (k - 1)) by (replace k with (k - 1 + 1) at 1 by lia; rewrite Z.pow_add_r by lia; lia).
    Z.to_euclidean_division_equations. lia.
Qed.

(** the quotient of the halves *)
Lemma halves_quotient N T m : 0 <= N <= 100 * T -> 0 < m -> 2 ^ 31 <= T / m -> N / T <= (N / m) / (T / m) <= N / T + 1 /\ (N / m) / (T / m) <= 100.
Proof.
  intros HN Hm Hy. set (y := T / m) in *. set (r := N / m). set (q := N / T).
  assert (HT : 0 < T) by (unfold y in Hy; destruct (Z.le_gt_cases T 0); [|lia]; assert (T / m <= 0) by (apply Z.div_le_upper_bound; lia); lia).
  assert (Hq : 0 <= q <= 100) by (unfold q; split; [apply Z.div_pos; lia|apply Z.div_le_upper_bound; lia]).
  assert (H1 : y * m <= T < (y + 1) * m) by (unfold y; Z.to_euclidean_division_equations; nia).
  assert (H2 : r * m <= N < (r + 1) * m) by (unfold r; Z.to_euclidean_division_equations; nia).
  assert (H3 : q * T <= N < (q + 1) * T) by (unfold q; Z.to_euclidean_division_equations; nia).
  assert (L1 : q * y <= r) by (assert (q * y * m < (r + 1) * m) by nia; nia).
  assert (L2 : r < (q + 1) * (y + 1)) by (assert (r * m < (q + 1) * (y + 1) * m) by nia; nia).
  assert (L3 : r < 100 * (y + 1)) by (assert (r * m < 100 * (y + 1) * m) by nia; nia).
  split; [split|].
  - apply Z.div_le_lower_bound; lia.
  - assert (r / y < q + 2) by (apply Z.div_lt_upper_bound; nia). lia.
  - assert (r / y < 101) by (apply Z.div_lt_upper_bound; lia). lia.
Qed.

Lemma hit_pct_ok hits total : 0 <= hits <= total -> total < 2 ^ 57 ->
  let exact := if total =? 0 then 0 else 100 * hits / total in 0 <= hit_pct hits total <= 100 /\ exact <= hit_pct hits total <= exact + 1.
Proof.
  intros Hh Ht. unfold hit_pct. destruct (Z.ltb_spec 0 total) as [H0|H0].
  2:{ assert (total = 0) as -> by lia. cbn. lia. }
  rewrite (proj2 (Z.eqb_neq total 0)) by lia. cbv zeta. unfold EIO_CALCULATE_PERCENTAGE, EIO_DIV.
  assert (Es : Z.shiftr total 32 = total / 2 ^ 32) by (by rewrite Z.shiftr_div_pow2 by lia).
  assert (Hs : 0 <= total / 2 ^ 32 < 2 ^ 25) by (split; [apply Z.div_pos; lia|apply Z.div_lt_upper_bound; lia]).
  assert (Eu : u32 (Z.shiftr total 32) = total / 2 ^ 32) by (rewrite Es; apply Z.mod_small; lia).
  assert (En : u64 (hits * 100) = 100 * hits) by (unfold u64; rewrite Z.mod_small by lia; lia).
  rewrite Eu, En. destruct (pct_loop_ok 32 (total / 2 ^ 32) total (100 * hits)) as (k & Hk & -> & Hlt & Hge); [split; [lia|]; change (2 ^ Z.of_nat 32) with (2 ^ 32); lia|].
  pose proof (Z.pow_pos_nonneg 2 k ltac:(lia) Hk) as Pk.
  assert (Hy : total / 2 ^ k < 2 ^ 32).
  { apply Z.div_lt_upper_bound; [lia|]. assert (total < (total / 2 ^ 32 + 1) * 2 ^ 32) by (Z.to_euclidean_division_equations; lia). nia. }
  assert (Ey : u32 (total / 2 ^ k) = total / 2 ^ k) by (apply Z.mod_small; split; [apply Z.div_pos; lia|lia]). rewrite Ey.
  destruct Hge as [->|Hge].
  - change (2 ^ 0) with 1. rewrite !Z.div_1_r. assert (0 <= 100 * hits / total <= 100) by (split; [apply Z.div_pos; lia|apply Z.div_le_upper_bound; lia]). lia.
  - destruct (Z.eqb_spec k 0) as [->|Hk0]; [change (2 ^ (0 - 1)) with 0 in Hge; change (2 ^ 0) with 1 in *; rewrite !Z.div_1_r in *; 
      assert (0 <= 100 * hits / total <= 100) by (split; [apply Z.div_pos; lia|apply Z.div_le_upper_bound; lia]); lia|].
    assert (P2 : 2 ^ k = 2 * 2 ^ (k - 1)) by (replace k with (k - 1 + 1) at 1 by lia; rewrite Z.pow_add_r by lia; lia).
    destruct (halves_quotient (100 * hits) total (2 ^ k)) as [H1 H2]; [lia|lia| |].
    { apply Z.div_le_lower_bound; [lia|]. assert (total / 2 ^ 32 * 2 ^ 32 <= total) by (Z.to_euclidean_division_equations; lia).
      change (2 ^ 32) with (2 * 2 ^ 31) in *. nia. }
    assert (0 <= 100 * hits / total) by (apply Z.div_pos; lia). lia.
Qed.
