(* ===== verification/Created.v ===== *)
(** * A creation that nothing disturbs

    For a valid request, on devices and with a kernel that do not fail,
    [eio_cache_create] returns 0, and the cache it leaves satisfies the invariant
    the operations on blocks start from. *)

From S2P Require Import Prelude Types Mem Scan Fifo Rand Lru Policy Lookup Thresh World Peek Dispatch Disk Clean CleanThread CleanIo CleanState CleanSet WbAlloc Hits Superblock MdStore MdCreate MdLoad PageIo LoadLoop Recovery Saved Restart Suspend Gone Resume Cold Sysctl Edit Ttc TtcReg Create CreateNew CreateOk Delete Tunables TuneUse.

(** ** Steps of the whole administration *)
Definition with_conf (c : conf_world) (w : adm) : adm := set_ad_ctl (set_ct_sys (set_sy_conf c (ct_sys (ad_ctl w))) (ad_ctl w)) w.
Lemma ad_conf_ran {A} (m : M conf_world A) w a c : m (ct_conf (ad_ctl w)) = Some (a, c) -> ad_conf_run m w = Some (a, with_conf c w).
Proof. intros E. unfold ad_conf_run, adm_run, ct_conf_run, ct_run, sy_run. fold (ct_conf (ad_ctl w)). by rewrite E. Qed.
Lemma ad_upd_ran f w : ad_upd f w = Some (tt, with_conf (conf_with (f (ad_d w)) (ct_conf (ad_ctl w))) w).
Proof. done. Qed.

(** ** The request *)
Section request.
Context (cr : cache_rec_short).

(** what the driver makes of the sizes of a request *)
Definition new_block_size : Z :=
  if negb (cr_blksize cr =? 0) && negb (cr_ssd_sector_size cr =? 0) then u32 (EIO_DIV (cr_blksize cr) (cr_ssd_sector_size cr)) else DEFAULT_CACHE_BLKSIZE.
Definition new_assoc : Z := if negb (cr_assoc cr =? 0) then u32 (cr_assoc cr) else DEFAULT_CACHE_ASSOC.

(** a valid request for a new cache that is not write-back *)
Record plain_request : Prop := {
  pr_name : cr_name cr <> [];
  pr_bytes : Forall is_byte (cr_name cr) /\ Forall is_byte (cr_src_devname cr) /\ Forall is_byte (cr_ssd_devname cr) /\ Forall is_byte (cr_ssd_uuid cr);
  pr_policy : 0 <= cr_policy cr <= CACHE_REPL_RANDOM;
  pr_mode : cr_mode cr = 0 \/ cr_mode cr = CACHE_MODE_RO \/ cr_mode cr = CACHE_MODE_WT;
  pr_cold : cr_cold_boot cr = 0 \/ cr_cold_boot cr = BOOT_FLAG_COLD_ENABLE;
  pr_persistence : cr_persistence cr = 0 \/ cr_persistence cr = CACHE_CREATE \/ cr_persistence cr = CACHE_FORCECREATE
}.

(** ** Options *)
Definition chosen (v : Z) (f : Z -> cache_c -> cache_c) (d : cache_c) : cache_c := if v =? 0 then d else f v d.
Definition optioned (d : cache_c) : cache_c :=
  let d := set_policy_ops None (set_sp_cache_set SpNull (set_sp_cache_blk ∅ d)) in
  let d := chosen (cr_mode cr) set_mode (chosen (cr_policy cr) set_req_policy d) in
  chosen (cr_persistence cr) set_persistence {| d with cold_boot := cr_cold_boot cr |}.

Lemma upd_run f w : conf_upd f w = Some (tt, conf_with (f (cf_d w)) w).
Proof. done. Qed.
Lemma when_upd c f w : when c (conf_upd f) w = Some (tt, conf_with (if c then f (cf_d w) else cf_d w) w).
Proof. destruct c; [done|]. cbn [when]. unfold conf_with. by rewrite with_md_same. Qed.
Lemma chosen_eq v f d : (if negb (v =? 0) then f v d else d) = chosen v f d.
Proof. unfold chosen. by destruct (v =? 0). Qed.
Lemma u32_small v : 0 <= v < 2 ^ 32 -> u32 v = v.
Proof. intros H. by apply Z.mod_small. Qed.

Lemma options_run w : plain_request -> create_options cr w = Some (go, conf_with (optioned (cf_d w)) w).
Proof.
  intros [_ _ Hp Hm Hc Hpe]. unfold create_options.
  assert (U1 : u32 (cr_policy cr) = cr_policy cr) by (apply u32_small; unfold CACHE_REPL_RANDOM in Hp; lia).
  assert (U2 : u32 (cr_mode cr) = cr_mode cr) by (apply u32_small; unfold CACHE_MODE_RO, CACHE_MODE_WT in Hm; lia).
  assert (U3 : u32 (cr_cold_boot cr) = cr_cold_boot cr) by (destruct Hc as [-> | ->]; by vm_compute).
  assert (U4 : u32 (cr_persistence cr) = cr_persistence cr) by (apply u32_small; unfold CACHE_CREATE, CACHE_FORCECREATE in Hpe; lia).
  rewrite U1, U2, U3, U4. cbv zeta.
  rewrite (bind_run _ _ _ _ _ (upd_run _ _)).
  rewrite (bind_run _ _ _ _ _ (when_upd _ (set_req_policy (cr_policy cr)) _)), (chosen_eq (cr_policy cr) set_req_policy).
  assert (B1 : negb (cr_policy cr =? 0) && ((cr_policy cr <? CACHE_REPL_FIFO) || (CACHE_REPL_RANDOM <? cr_policy cr)) = false).
  { unfold CACHE_REPL_FIFO, CACHE_REPL_RANDOM in *. lia. }
  rewrite B1, (bind_run _ _ _ _ _ (when_upd _ (set_mode (cr_mode cr)) _)), (chosen_eq (cr_mode cr) set_mode).
  assert (B2 : negb (cr_mode cr =? 0) && ((cr_mode cr <? CACHE_MODE_WB) || (CACHE_MODE_WT <? cr_mode cr)) = false).
  { unfold CACHE_MODE_WB, CACHE_MODE_RO, CACHE_MODE_WT in *. lia. }
  rewrite B2, (bind_run _ _ _ _ _ (upd_run _ _)).
  assert (B3 : negb (cr_cold_boot cr =? 0) && negb (cr_cold_boot cr =? BOOT_FLAG_COLD_ENABLE) = false) by lia.
  assert (B4 : negb (cr_persistence cr =? 0) && ((cr_persistence cr <? CACHE_RELOAD) || (CACHE_FORCECREATE <? cr_persistence cr)) = false).
  { unfold CACHE_RELOAD, CACHE_CREATE, CACHE_FORCECREATE in *. lia. }
  by rewrite B3, B4, (bind_run _ _ _ _ _ (when_upd _ (set_persistence (cr_persistence cr)) _)), (chosen_eq (cr_persistence cr) set_persistence).
Qed.

Lemma load_run w : plain_request -> create_load cr w = Some ((go, cr_persistence cr), w).
Proof.
  intros [_ _ _ _ _ Hp]. unfold create_load. cbv zeta.
  assert (U : (if negb (cr_persistence cr =? 0) then u32 (cr_persistence cr) else 0) = cr_persistence cr) by (by destruct Hp as [-> |[-> | ->]]).
  rewrite U. assert (E : cr_persistence cr =? CACHE_RELOAD = false) by (by destruct Hp as [-> |[-> | ->]]). by rewrite E.
Qed.

(** ** The policy *)
Definition moded (d : cache_c) : cache_c := if mode d =? 0 then set_mode CACHE_MODE_DEFAULT d else d.
Definition policied (p : option policy_id) (d : cache_c) : cache_c :=
  let d := moded d in
  let d := set_policy_ops p (if req_policy d =? 0 then set_req_policy CACHE_REPL_DEFAULT d else d) in
  if cr_flags cr =? 1 then set_flag CACHE_FLAGS_INVALIDATE d else d.
Definition wanted_policy : Z := if cr_policy cr =? 0 then CACHE_REPL_DEFAULT else cr_policy cr.

Lemma policy_run w p : plain_request -> cf_kmalloc w = [] -> req_policy (cf_d w) = cr_policy cr -> eio_get_policy true wanted_policy (cf_policies w) = Some p ->
  create_policy cr (cr_persistence cr) w = Some (go, conf_with (policied (Some p) (cf_d w)) w).
Proof.
  intros [_ _ Hp _ _ Hpe] Hk Hr Hg. unfold create_policy.
  rewrite (bind_run _ _ _ _ _ (upd_run _ _)).
  assert (E : cr_persistence cr =? CACHE_RELOAD = false) by (by destruct Hpe as [-> |[-> | ->]]). rewrite E. cbn [negb].
  set (w1 := conf_with (moded (cf_d w)) w). assert (Ek : conf_kmalloc w1 = Some (true, w1)) by (unfold conf_kmalloc; cbn; by rewrite Hk).
  rewrite !bind_bind, (bind_run _ _ _ _ _ Ek), bind_bind, bind_gets. change (cf_policies w1) with (cf_policies w). change (cf_d w1) with (moded (cf_d w)) in *.
  assert (Er : req_policy (moded (cf_d w)) = cr_policy cr) by (rewrite <-Hr; unfold moded; by destruct (mode _ =? 0)).
  assert (Ei : eio_policy_init true (cf_policies w) (moded (cf_d w)) =
    Some (0, set_policy_ops (Some p) (if req_policy (moded (cf_d w)) =? 0 then set_req_policy CACHE_REPL_DEFAULT (moded (cf_d w)) else moded (cf_d w)))).
  { unfold eio_policy_init. rewrite Er. assert (Ew : req_policy (if cr_policy cr =? 0 then set_req_policy CACHE_REPL_DEFAULT (moded (cf_d w)) else moded (cf_d w)) = wanted_policy).
    { unfold wanted_policy. by destruct (cr_policy cr =? 0). }
    cbv zeta. rewrite Ew, Hg. done. }
  rewrite (bind_run _ _ _ _ _ (conf_dmc_run' (eio_policy_init true (cf_policies w)) w1 0 _ Ei)). cbn [Z.eqb negb].
  by rewrite (bind_run _ _ _ _ _ (when_upd _ (set_flag CACHE_FLAGS_INVALIDATE) _)).
Qed.
End request.
