(* ===== verification/AdminConcrete.v ===== *)
(** * A cache that is stored and loaded

    The cache of [CleanConcrete] with its devices, a page allocator and the
    world after a restart, in which nothing is configured.

    ** A cache whose SSD comes back

    The cache of [AdminConcrete], laid out by [create_layout] on a device of 700
    sectors, as a write-back and as a write-through cache. *)

From S2P Require Import Prelude Types Mem Scan Fifo Rand Lru Policy Lookup CleanState World Dispatch Disk Clean CleanIo CleanSet WbAlloc Hits Superblock MdStore MdCreate MdLoad PageIo LoadLoop Recovery Saved Restart Concrete CleanConcrete Suspend Gone Resume Cold Notify.

(** * A cache that is stored and loaded *)
Definition ad_policies : list eio_policy_header := [eio_fifo_ops; eio_lru_ops; eio_rand_ops].
Definition ad_kmem : kmem := mk_kmem {[1; 2]} (map Some [10; 11; 12; 13; 14; 15; 16]).
Definition ad_conf (d : cache_c) (k : disks) (vm : list (option (gmap Z Z))) : conf_world := {|
  cf_cw := mk_cworld d k ∅ [] [] [] []; cf_kmem := ad_kmem; cf_kmalloc := []; cf_vmalloc := vm; cf_blk := Some ∅;
  cf_policies := ad_policies; cf_free_bytes := 2 ^ 30; eio_force_warm_boot := false; cf_cache_size := 2048; cf_sleeps := [];
  disk_devname := [115; 100; 97]; cache_devname := [115; 100; 98]; ssd_uuid := [50]; cache_name := [67] |}.

(** running: the superblock on the SSD says the cache is in use *)
Definition ad_run : cache_c := set_sb_state CACHE_MD_STATE_DIRTY cl_md.
Definition ad_world : conf_world := ad_conf ad_run cl_disks [].
Definition conf_run {A} (m : M conf_world A) (w : conf_world) : conf_world := match m w with Some (_, w') => w' | None => w end.
(** after the superblock was stored, and after the metadata were *)
Definition ad_stored : conf_world := conf_run eio_sb_store ad_world.
Definition ad_saved : conf_world := conf_run eio_md_store ad_world.

(** a new cache, for which only the devices are known *)
Definition ad_new : cache_c := {| cl_raw with dmc_size := 0; assoc := 0; block_size := 0; block_shift := 0; consecutive_shift := 0; num_sets := 0;
  mode := 0; req_policy := CACHE_REPL_RANDOM; md_start_sect := 0; md_sectors := 0; sb_version := 0; sb_state := 0; index_zero := 1; policy_ops := None |}.
Definition ad_words : gmap Z Z := list_to_map (map (fun i => (i, 7)) (seqZ 0 64)).
Definition ad_restart (k : disks) : conf_world := ad_conf ad_new k [Some ad_words].

Lemma ad_names d k vm : names_ok (ad_conf d k vm).
Proof. constructor; repeat constructor; by unfold is_byte. Qed.
Lemma ad_fresh d k vm : fresh_pages [10; 11; 12; 13; 14; 15] (ad_conf d k vm).
Proof.
  constructor; [by exists [Some 16]|apply (NoDup_seqZ 10 6)|].
  intros p Hp. cbn. assert (H : forallb (fun p => bool_decide (p ∉ ({[1; 2]} : gset Z))) [10; 11; 12; 13; 14; 15] = true) by by vm_compute.
  rewrite forallb_forall in H. apply list_elem_of_In in Hp. by apply H, bool_decide_eq_true in Hp.
Qed.
Lemma ad_fits : sb_fits ad_run.
Proof. constructor; [apply sb_state_wf, cl_md_wf|by vm_compute|by vm_compute|by vm_compute|by vm_compute|by vm_compute]. Qed.
Lemma ad_inv : blk_inv ad_run.
Proof. apply sb_state_inv, cl_md_inv. Qed.
Lemma ad_words_dom i : i ∈ dom ad_words <-> 0 <= i < dmc_size ad_run.
Proof.
  assert (E : bool_decide (dom ad_words = list_to_set (seqZ 0 64)) = true) by by vm_compute. apply bool_decide_eq_true in E.
  rewrite E, elem_of_list_to_set, elem_of_seqZ. done.
Qed.

Lemma ad_env k : restart_env ad_world (ad_restart k) 10 [11; 12; 13; 14] 15 [].
Proof.
  constructor; [by vm_compute|by vm_compute|by eexists; vm_compute|done|apply ad_names|done| |by exists ∅|apply ad_fresh|done].
  exists ad_words, []. split; [done|exact ad_words_dom].
Qed.

(** ** The devices after a store *)
Definition sectors_okb (m : gmap Z sector_data) : bool := forallb (fun x => match x.2 with MdBlocks l => (length l <=? 32)%nat | Raw _ => true end) (map_to_list m).
Lemma sectors_okb_ok m : sectors_okb m = true -> forall s l, m !!! s = MdBlocks l -> (length l <= 32)%nat.
Proof.
  unfold sectors_okb. intros H s l E. rewrite forallb_forall in H. destruct (m !! s) as [v|] eqn:Ev.
  - rewrite (lookup_total_correct _ _ _ Ev) in E. subst v. specialize (H (s, MdBlocks l)). cbn in H. apply Nat.leb_le, H, list_elem_of_In, elem_of_map_to_list, Ev.
  - rewrite lookup_total_alt, Ev in E. done.
Qed.
Definition entries_okb (d : cache_c) (k : disks) : bool :=
  forallb (fun i => match flash_entry d k i with
    | Some f => (0 <=? fc_dbn f) && (fc_dbn f <? 2 ^ 64) && (0 <=? fc_state f) && (fc_state f <? 2 ^ 64) && (negb (tst (fc_state f) DIRTY) || (fc_state f =? ALREADY_DIRTY))
    | None => true end) (all_blocks d).
Lemma entries_okb_ok d k : entries_okb d k = true -> forall i f, 0 <= i < dmc_size d -> flash_entry d k i = Some f ->
  flash_ok f /\ (tst (fc_state f) DIRTY = true -> fc_state f = ALREADY_DIRTY).
Proof.
  unfold entries_okb. intros H i f Hi E. rewrite forallb_forall in H. specialize (H i). rewrite E, !andb_true_iff in H.
  destruct H as ((((H1 & H2) & H3) & H4) & H5); [apply list_elem_of_In, elem_of_seqZ; lia|]. split; [split; lia|]. intros Hd. rewrite Hd in H5. by apply Z.eqb_eq in H5.
Qed.
Definition image_okb (d : cache_c) (k : disks) : bool :=
  forallb (fun s => forallb (flash_okb d k) (set_blocks d s)) (seqZ 0 (num_sets d)) && entries_okb d k && sectors_okb (on_ssd k).
Lemma image_okb_ok d k : image_okb d k = true -> md_image_ok d k.
Proof.
  unfold image_okb. rewrite !andb_true_iff. intros ((H1 & H2) & H3). constructor.
  - intros set Hs. rewrite forallb_forall in H1. apply flash_okb_sound, H1, list_elem_of_In, elem_of_seqZ. lia.
  - by apply entries_okb_ok.
  - by apply sectors_okb_ok.
Qed.
Definition readable_okb (d : cache_c) : bool := forallb (fun i => match EIO_DBN_GET d i with Some b => dbn_okb d b | None => false end) (all_blocks d).
Lemma readable_okb_ok d : readable_okb d = true -> readable_ok d.
Proof.
  unfold readable_okb. intros H i Hi. rewrite forallb_forall in H. specialize (H i). destruct (EIO_DBN_GET d i) as [b|].
  - exists b. split; [done|]. apply dbn_okb_ok, H, list_elem_of_In, elem_of_seqZ. lia.
  - discriminate H. apply list_elem_of_In, elem_of_seqZ. lia.
Qed.

Definition devices (w : conf_world) : disks := cw_k (cf_cw w).
Lemma ad_stored_sb : sb_read (sb_sectors (on_ssd (devices ad_stored))) = sb_of ad_world.
Proof. by vm_compute. Qed.
Lemma ad_image : md_image_ok ad_run (devices ad_stored).
Proof. apply image_okb_ok. by vm_compute. Qed.
Lemma ad_readable : readable_ok ad_run.
Proof. apply readable_okb_ok. by vm_compute. Qed.
Lemma ad_saved_run : eio_md_store ad_world = Some (0, ad_saved).
Proof. unfold ad_saved, conf_run. assert (H : option_map fst (eio_md_store ad_world) = Some 0) by by vm_compute. by destruct (eio_md_store ad_world) as [[r w]|]; [injection H as ->|]. Qed.
Lemma ad_store_world : store_world ad_world [10; 11; 12; 13] 14 [15].
Proof.
  constructor; [split_and!; by vm_compute|by vm_compute|by constructor|by vm_compute|apply readable_ok_weak, ad_readable|apply ad_names|done|apply ad_fresh|split; [done|by vm_compute]|by vm_compute].
Qed.
Lemma ad_range : 0 <= 3 < dmc_size (cf_d ad_world).
Proof. by vm_compute. Qed.
Lemma ad_entry : flash_entry (cf_d ad_world) (cw_k (cf_cw (ad_restart (devices ad_stored)))) 3 = Some (mk_flash 16 ALREADY_DIRTY).
Proof. by vm_compute. Qed.
Lemma ad_sector : volume (cf_d ad_world) (cw_k (cf_cw (ad_restart (devices ad_stored)))) 16 = Raw 1000.
Proof. by vm_compute. Qed.
Lemma ad_kept_state : Z.land (EIO_CACHE_STATE_GET (cf_d ad_world) 3) saved_bits = ALREADY_DIRTY.
Proof. by vm_compute. Qed.
Lemma ad_data_behind : data_behind (cf_d ad_world) /\ md_before_data (cf_d ad_world).
Proof. by vm_compute. Qed.
Lemma ad_device : no_device (cf_d ad_world) = false.
Proof. by vm_compute. Qed.

(** the write of the metadata fails after one of two sectors *)
Definition ad_failing : conf_world := set_cf_cw (set_cw_results [IoFailed 5 {[144]}] (cf_cw ad_world)) ad_world.
Lemma store_world_results w rs pages sp l : store_world w pages sp l -> Forall io_result_ok rs ->
  eio_mem_available METADATA_IO_BLOCKSIZE_SECT (set_cf_cw (set_cw_results rs (cf_cw w)) w) = Some (true, set_cf_cw (set_cw_results rs (cf_cw w)) w) ->
  store_world (set_cf_cw (set_cw_results rs (cf_cw w)) w) pages sp l.
Proof. intros [A B C D E [] G [] I J] Hr Hm. by constructor. Qed.
Lemma ad_failing_world : store_world ad_failing [10; 11; 12; 13] 14 [15].
Proof. apply (store_world_results ad_world); [exact ad_store_world|by repeat constructor|by vm_compute]. Qed.

(** the policy of the cache is not registered *)
Definition ad_no_policy : conf_world := {| (ad_restart (devices ad_stored)) with cf_policies := [eio_fifo_ops] |}.
Definition ad_no_policy_cache : cache_c :=
  match eio_policy_init true [eio_fifo_ops] (sb_config (sb_read (sb_sectors (on_ssd (cw_k (cf_cw ad_no_policy))))) {| (cf_d ad_no_policy) with sb_version := EIO_SB_VERSION |}) with
  | Some (_, d) => d | None => ad_new end.
Lemma ad_no_policy_ok : (CACHE_FAILED_IS_SET (cf_d ad_no_policy) = false /\ CACHE_DEGRADED_IS_SET (cf_d ad_no_policy) = false) /\
  sb_accepted (sb_read (sb_sectors (on_ssd (cw_k (cf_cw ad_no_policy))))) /\
  eio_policy_init true (cf_policies ad_no_policy) (sb_config (sb_read (sb_sectors (on_ssd (cw_k (cf_cw ad_no_policy))))) {| (cf_d ad_no_policy) with sb_version := EIO_SB_VERSION |})
    = Some (- EINVAL, ad_no_policy_cache).
Proof. split_and!; by vm_compute. Qed.
Lemma ad_no_policy_fresh : fresh_pages [10; 11; 12; 13; 14; 15] ad_no_policy.
Proof. destruct (ad_fresh ad_new (devices ad_stored) [Some ad_words]). by constructor. Qed.

(** a new cache on a partition of 1 MiB that starts at sector 7 of its disk *)
Definition ad_fresh_cache : cache_c := {| ad_new with dmc_size := 2048; assoc := 32; block_size := 8; cache_dev_start_sect := 7 |}.
Lemma ad_create_pre : create_pre ad_fresh_cache.
Proof. constructor; by vm_compute. Qed.

(** * A cache whose SSD comes back *)
Definition sc_run : cache_c := {| ad_run with md_sectors := 176; cache_dev_start_sect := 0 |}.
Definition sc_ssd : gmap Z sector_data := foldl (fun m o => <[176 + 3 * 8 + o := Raw (1000 + o)]> m) ∅ (seqZ 0 8).
Definition sc_hdd : gmap Z sector_data := foldl (fun m s => <[s := Raw s]> m) ∅ (seqZ 0 64).
Definition sc_dev : list Z := [115; 100; 99].
Definition sc_sd : ssd_dev := mk_ssd (700 * 512) 0 32 8 sc_ssd.
(** the SSD is gone: nothing is on it *)
Definition sc_world (d : cache_c) : conf_world := set_cf_cache_size 700 (ad_conf (run (fun d => eio_suspend_caching NOTIFY_SSD_REMOVED d) d) (mk_disks ∅ sc_hdd) []).
Definition sc_wb : conf_world := sc_world sc_run.
Definition sc_wt : conf_world := sc_world {| sc_run with mode := CACHE_MODE_WT |}.

Lemma sc_wb_gone : gone_is true (mk_gone true false) (cf_d sc_wb).
Proof. split; [by vm_compute|constructor; by vm_compute]. Qed.
Lemma sc_wt_gone : gone_is false (mk_gone true false) (cf_d sc_wt).
Proof. split; [by vm_compute|constructor; by vm_compute]. Qed.
Lemma sc_run_gone : gone_is true (mk_gone false false) sc_run.
Proof. split; [by vm_compute|constructor; by vm_compute]. Qed.

Lemma sc_wf d : geom d = geom cl_md -> wf_geom d.
Proof. intros E. by apply (wf_geom_eq cl_md); [|exact cl_md_wf]. Qed.
Lemma sc_same w : cf_cache_size w = 700 -> geom (cf_d w) = geom cl_md ->
  dmc_size (cf_d w) = 64 -> md_start_sect (cf_d w) = 144 -> md_sectors (cf_d w) = 176 -> block_size (cf_d w) = 8 ->
  sb_version (cf_d w) = EIO_SB_VERSION -> EIO_MD8 (cf_d w) = true -> cache_dev_start_sect (cf_d w) = 0 ->
  create_layout (set_dmc_size 700 (cf_d w)) = cf_d w -> same_ssd w sc_sd.
Proof.
  intros H0 H1 H2 H3 H4 H5 H6 H7 H8 H9. constructor; [|exact H0|exact H8|by rewrite H0|rewrite H0, H2, H4, H5; lia].
  constructor; [by apply sc_wf|rewrite H2; lia|rewrite H3; lia|rewrite H4; lia|exact H6|rewrite H7; discriminate].
Qed.
Lemma sc_wb_same : same_ssd sc_wb sc_sd.
Proof. apply sc_same; by vm_compute. Qed.
Lemma sc_wt_same : same_ssd sc_wt sc_sd.
Proof. apply sc_same; by vm_compute. Qed.

Lemma sc_fresh d : fresh_pages [10; 11; 12; 13; 14; 15] (sc_world d).
Proof. destruct (ad_fresh d (mk_disks ∅ sc_hdd) []). by constructor. Qed.
Lemma sc_names d : names_ok (sc_world d).
Proof. destruct (ad_names d (mk_disks ∅ sc_hdd) []). by constructor. Qed.
Lemma sc_dev_ok : (length sc_dev < DEV_PATHLEN)%nat /\ Forall is_byte sc_dev.
Proof. split; [unfold DEV_PATHLEN; cbn; lia|repeat constructor; by unfold is_byte]. Qed.
Lemma sc_policy w : cf_policies w = ad_policies -> req_policy (cf_d w) = req_policy ad_run -> exists dp, eio_policy_init true (cf_policies w) (cf_d w) = Some (0, dp).
Proof.
  intros -> E. assert (G : exists dp, eio_policy_init true ad_policies ad_run = Some (0, dp)) by (eexists; by vm_compute). destruct G as [dp G].
  destruct (policy_init_again true ad_policies ad_run _ dp E G) as (p & r & H). by eexists.
Qed.
Lemma sc_wb_policy : exists dp, eio_policy_init true (cf_policies sc_wb) (cf_d sc_wb) = Some (0, dp).
Proof. apply sc_policy; by vm_compute. Qed.
Lemma sc_wt_policy : exists dp, eio_policy_init true (cf_policies sc_wt) (cf_d sc_wt) = Some (0, dp).
Proof. apply sc_policy; by vm_compute. Qed.
Lemma sc_rest d : cf_kmalloc (sc_world d) = [] /\ (exists blk, cf_blk (sc_world d) = Some blk) /\ cw_results (cf_cw (sc_world d)) = [] /\ cf_sleeps (sc_world d) = [].
Proof. split; [reflexivity|]. split; [by exists ∅|]. by split. Qed.
Lemma sc_stale : CACHE_STALE_IS_SET (cf_d sc_wb) = false /\ CACHE_STALE_IS_SET (cf_d sc_wt) = false.
Proof. by vm_compute. Qed.

Lemma sc_wb_back : back_env sc_wb sc_dev sc_sd 10 11 [12; 13; 14; 15].
Proof.
  destruct (sc_rest sc_run) as (H1 & H2 & H3 & _). constructor;
    [exact sc_wb_gone|exact (proj1 sc_stale)|exact sc_wb_same|exact sc_dev_ok|exact sc_wb_policy|exact (sc_names _)|exact H1|exact (sc_fresh _)|exact H2|].
  change (cw_results (cf_cw sc_wb)) with (@nil io_result). constructor.
Qed.
Lemma sc_idle : idle (seqZ 0 (dmc_size (cf_d sc_wt))) (cf_d sc_wt).
Proof.
  assert (H : forallb (fun i => negb (tst (EIO_CACHE_STATE_GET (cf_d sc_wt) i) BLOCK_IO_INPROG)) (seqZ 0 (dmc_size (cf_d sc_wt))) = true) by by vm_compute.
  rewrite forallb_forall in H. intros i Hi%list_elem_of_In. by apply negb_true_iff, H.
Qed.
Lemma sc_wt_pages : [11; 12; 13; 14] <> [] /\ Z.of_nat (length [11; 12; 13; 14]) = Z.min (bio_nr_pages (eio_init_ssddev_props sc_sd (cf_d sc_wt))) MD_MAX_NR_PAGES.
Proof. split; [discriminate|by vm_compute]. Qed.
Lemma sc_wt_back : cold_back sc_wt sc_dev sc_sd 10 [11; 12; 13; 14] 15 [].
Proof.
  destruct (sc_rest {| sc_run with mode := CACHE_MODE_WT |}) as (H1 & H2 & H3 & _). constructor;
    [exact sc_wt_gone|exact (proj2 sc_stale)|exact sc_wt_same|exact sc_idle|exact sc_dev_ok|exact sc_wt_policy|exact (sc_names _)|exact H1|exact (sc_fresh _)|exact sc_wt_pages|exact H2|exact H3].
Qed.

Lemma sc_inv : blk_inv (cf_d sc_wb).
Proof. apply (blk_inv_same ad_run); [split_and!; by vm_compute|exact ad_inv]. Qed.
Lemma sc_behind : data_behind (cf_d sc_wb) /\ md_before_data (cf_d sc_wb).
Proof. split; by vm_compute. Qed.
Lemma sc_sector : volume (cf_d sc_wb) (dev_set SSD sc_ssd (cw_k (cf_cw sc_wb))) 17 = Raw 1001.
Proof. by vm_compute. Qed.
