(* ===== verification/SysctlConcrete.v ===== *)
(** * A write-back cache with its files under [/proc]

    The cache of [CleanConcrete], stored on the devices of [AdminConcrete], and
    a kernel that reads decimal numbers. *)

From Stdlib Require Import String.
From S2P Require Import Prelude Types Mem DList SetLru Scan Fifo Rand Lru Policy Lookup Thresh CleanState World Dispatch Disk Clean CleanIo CleanSet CleanThread WbAlloc Hits Superblock MdStore MdCreate MdLoad PageIo LoadLoop Recovery Saved Restart Suspend Gone Sysctl Tunables TuneUse Concrete CleanConcrete AdminConcrete.
#[local] Open Scope Z_scope.
#[local] Open Scope list_scope.

(** decimal digits; anything else is no number and changes nothing *)
Definition digit (c : Z) : bool := (48 <=? c) && (c <=? 57).
Definition kernel_number (buffer : list Z) (old : Z) : Z :=
  if negb (bool_decide (buffer = [])) && forallb digit buffer then foldl (fun n c => 10 * n + (c - 48)) 0 buffer else old.

Definition tn_conf (d : cache_c) : conf_world := ad_conf (set_sb_state CACHE_MD_STATE_DIRTY d) cl_disks [].
Definition tn_dir (template : list ctl_table) : option sysctl_dir := Some (mk_dir (sysctl_vars template) (Some [67])).
Definition tn_files (d : cache_c) : sys_world := {|
  sy_conf := tn_conf d; sysctl_pending := ex_sysctl;
  sysctl_handle_common := tn_dir sysctl_template_common; sysctl_handle_writeback := tn_dir sysctl_template_writeback;
  sysctl_handle_invalidate := tn_dir sysctl_template_invalidate;
  sy_registrations := []; sy_proc_entries := []; clean_aged_sets_delay := None;
  iv_have_sector := 0; iv_sector := 0; iv_num_sectors := 0; sy_printed := None |}.
Definition tn_world : sys_world := tn_files cl_cache.

Definition entry_of (name : String.string) (h : proc_handler_fn) : ctl_table := mk_ctl name h (eio_find_sysctl_data name) true.
Definition tn_high : ctl_table := entry_of "dirty_high_threshold"%string eio_dirty_high_threshold_fn.
Definition tn_low : ctl_table := entry_of "dirty_low_threshold"%string eio_dirty_low_threshold_fn.
Definition tn_clean : ctl_table := entry_of "do_clean"%string eio_clean_fn.
Definition tn_control : ctl_table := entry_of "control"%string eio_control_fn.
Definition tn_invalidate : ctl_table := entry_of "invalidate"%string eio_invalidate_fn.

(** a user writes to, or reads from, a file *)
Definition tn_access (e : ctl_table) (write : bool) (buffer : list Z) : M sys_world Z := call_handler kernel_number kernel_number 1000 e write buffer.
Definition sy_after {A} (m : M sys_world A) (w : sys_world) : sys_world := match m w with Some (_, w') => w' | None => w end.
Definition sy_result (m : M sys_world Z) (w : sys_world) : option Z := match m w with Some (r, _) => Some r | None => None end.
Lemma sy_ran m w r : sy_result m w = Some r -> m w = Some (r, sy_after m w).
Proof. unfold sy_result, sy_after. destruct (m w) as [[x w']|]; [|done]. by intros [= <-]. Qed.

Lemma ex_typed : typed ex_sysctl.
Proof. intros v. by destruct v. Qed.
Lemma ex_tunables : tunables_ok ex_sysctl.
Proof. constructor; [apply ex_typed|..]; by vm_compute. Qed.
Lemma tn_entries d : entries (tn_files d) = sysctl_vars (sysctl_template_common ++ sysctl_template_writeback ++ sysctl_template_invalidate).
Proof. done. Qed.
Lemma tn_coherent d : Forall coherent (entries (tn_files d)).
Proof. apply entries_forall. split_and!; apply templates_coherent; set_solver. Qed.

Lemma cl_sysctl : sysctl_active cl_cache = ex_sysctl.
Proof. by vm_compute. Qed.
Lemma tn_ok d : sysctl_active d = ex_sysctl -> sys_ok (tn_files d).
Proof. intros E. constructor; [exact ex_typed| |apply tn_coherent]. unfold sy_d, cf_d. cbn. rewrite E. exact ex_tunables. Qed.

(** the cache is in order *)
Lemma tn_queue : queue_ok [] (sy_d tn_world).
Proof.
  destruct cl_cache_eq as (l & _ & E & Hrep & Hmax). unfold tn_world, tn_files, tn_conf, sy_d, cf_d. cbn [sy_conf ad_conf cf_cw cw_d]. rewrite E.
  destruct cl_md_size as (Es & En & _). pose proof cl_md_cleanq as Hq. assert (Ec : consecutive_shift cl_md = 5) by by vm_compute.
  revert Es En Hq Ec. generalize cl_md. intros d Es En Hq Ec. constructor.
  - by eapply cleanq_inv_ext; [..|exact Hq].
  - intros _. exists l, []. split; [reflexivity|]. split; [exact Hrep|]. rewrite Hmax. symmetry. exact En.
  - cbn. rewrite Es, En, Ec. split; [reflexivity|lia].
Qed.
Lemma tn_env_of d : no_device (cf_d (tn_conf d)) = false -> store_env (sy_conf (tn_files d)) 10 [11; 12; 13; 14; 15].
Proof.
  unfold tn_files, tn_conf. cbn [sy_conf]. generalize (set_sb_state CACHE_MD_STATE_DIRTY d), cl_disks. intros d' k H.
  constructor; [exact H|exact (ad_names d' k [])|exact (ad_fresh d' k [])|reflexivity].
Qed.
Lemma tn_env : store_env (sy_conf tn_world) 10 [11; 12; 13; 14; 15].
Proof. apply (tn_env_of cl_cache). by vm_compute. Qed.
Lemma tn_mode : mode (sy_d tn_world) = CACHE_MODE_WB.
Proof. by vm_compute. Qed.
Lemma with_lru_blocks l d : blk_inv d -> blk_inv (cf_d (tn_conf (set_dirty_set_lru l d))).
Proof. intros H. apply sb_state_inv. by apply (blk_inv_same d). Qed.
Lemma tn_blocks : blk_inv (sy_d tn_world).
Proof.
  destruct cl_cache_eq as (l & _ & E & _). change (blk_inv (cf_d (tn_conf cl_cache))). rewrite E. exact (with_lru_blocks (Some l) cl_md cl_md_inv).
Qed.
