(* ===== verification/AdminCorrectness.v ===== *)
(** * The cache across a shutdown and a crash

    The superblock and the metadata on the SSD are stored and loaded again:
    nothing of the volume is lost. *)

From S2P Require Import Prelude Types Mem Scan Fifo Rand Lru Policy Lookup World Dispatch Disk Clean CleanIo CleanState CleanSet WbAlloc Hits Superblock MdStore MdCreate MdLoad PageIo LoadLoop Recovery Saved Restart Concrete CleanConcrete AdminConcrete.

(** the devices of a world *)
Abbreviation dev w := (cw_k (cf_cw w)).

(** C2: crash recovery. The SSD holds the superblock of a write-back cache in
    use and metadata that are sound for it, whatever its state at the time of
    the crash. After the restart [eio_md_load] succeeds, and the cache it makes
    satisfies the invariant, keeps exactly the blocks whose entries are dirty,
    and stands for the same volume as before: no acknowledged write is lost. *)
Theorem crash_recovery_correct wx wr hp pages sp l : sb_fits (cf_d wx) -> blk_inv (cf_d wx) -> md_image_ok (cf_d wx) (dev wr) -> data_behind (cf_d wx) ->
  sb_state (cf_d wx) = CACHE_MD_STATE_DIRTY -> sb_read (sb_sectors (on_ssd (dev wr))) = sb_of wx -> restart_env wx wr hp pages sp l ->
  exists w', eio_md_load wr = Some (0, w') /\ let d' := cache_built (cf_d w') in
    blk_inv d' /\ layout d' = layout (cf_d wx) /\
    (forall i, 0 <= i < dmc_size (cf_d wx) -> exists f, flash_entry (cf_d wx) (dev wr) i = Some f /\
       EIO_CACHE_STATE_GET d' i = if tst (fc_state f) DIRTY then ALREADY_DIRTY else INVALID) /\
    (forall s, 0 <= s -> volume d' (dev w') s = volume (cf_d wx) (dev wr) s) /\
    pg_live (cf_kmem w') = pg_live (cf_kmem wr).
Proof.
  intros Hfit Hinv Hok Hb Hst Hsb Henv. set (d := cf_d wx) in *. set (F := entry_on d (dev wr)).
  assert (Hclean : sb_clean_shutdown (cf_d wr) (sb_of wx) = false).
  { unfold sb_clean_shutdown, sb_of. cbn [sb_cache_sb_state]. fold d. rewrite Hst. by destruct (_ && _). }
  destruct (restart_ok wx wr hp pages sp l F Henv Hfit Hsb) as (w' & E & [H1 H2 H3 H4 H5 H6]); [by left|by apply crash_md|rewrite Hclean; by apply crash_entries|].
  rewrite Hclean in *. exists w'. split; [done|]. split; [done|]. split; [done|]. split; [|split; [|done]].
  - intros i Hi. destruct (entry_on_spec d (dev wr) Hinv Hok i Hi) as [Ef _]. exists (F i). split; [done|]. rewrite H3 by done.
    unfold loaded_state, taken_entry. cbn [orb]. destruct (tst (fc_state (F i)) DIRTY) eqn:Et; [|done].
    by rewrite (proj2 (mo_entries d (dev wr) Hok i (F i) Hi Ef) Et).
  - intros s Hs. rewrite H5; [by apply crash_volume| |done|done]. intros i Hi. by apply entry_on_spec.
Qed.

Lemma crash_recovery_correct_witness : exists w', eio_md_load (ad_restart (devices ad_stored)) = Some (0, w') /\
  EIO_CACHE_STATE_GET (cache_built (cf_d w')) 3 = ALREADY_DIRTY /\ volume (cache_built (cf_d w')) (dev w') 16 = Raw 1000.
Proof.
  destruct (crash_recovery_correct ad_world (ad_restart (devices ad_stored)) 10 [11; 12; 13; 14] 15 [] ad_fits ad_inv ad_image (proj1 ad_data_behind) eq_refl ad_stored_sb (ad_env _))
    as (w' & E & _ & _ & H1 & H2 & _).
  exists w'. split; [exact E|]. clear E. split.
  - destruct (H1 3 ad_range) as (f & Ef & E3). rewrite ad_entry in Ef. injection Ef as <-. exact E3.
  - rewrite (H2 16 ltac:(lia)). exact ad_sector.
Defined.

(** C3: shutdown. When no allocation and no transfer fails, [eio_md_store]
    returns 0 and a later start of the cache from these devices restores every
    block: its state but for the bits of work in progress, and the sector of
    every valid block; the volume is the same. *)
Theorem shutdown_restart_correct w pages sp l : store_world w pages sp l -> cw_results (cf_cw w) = [] -> blk_inv (cf_d w) -> readable_ok (cf_d w) ->
  sb_fits (cf_d w) -> data_behind (cf_d w) -> md_before_data (cf_d w) ->
  exists w1, eio_md_store w = Some (0, w1) /\
    (sb_state (cf_d w1) = CACHE_MD_STATE_CLEAN \/ sb_state (cf_d w1) = CACHE_MD_STATE_FASTCLEAN) /\
    forall wr hp pages' sp' l', dev wr = dev w1 -> cold_boot (cf_d wr) = 0 -> restart_env w wr hp pages' sp' l' ->
    exists w', eio_md_load wr = Some (0, w') /\ let d' := cache_built (cf_d w') in
      blk_inv d' /\ layout d' = layout (cf_d w) /\
      (forall i, 0 <= i < dmc_size (cf_d w) -> EIO_CACHE_STATE_GET d' i = Z.land (EIO_CACHE_STATE_GET (cf_d w) i) saved_bits) /\
      (forall i, 0 <= i < dmc_size (cf_d w) -> EIO_CACHE_STATE_GET (cf_d w) i <> INVALID -> EIO_DBN_GET d' i = EIO_DBN_GET (cf_d w) i) /\
      (forall s, 0 <= s -> volume d' (dev w') s = volume (cf_d w) (dev w) s).
Proof.
  intros Hsw Hres Hinv Hread Hfit Hb Hm. set (d := cf_d w) in *.
  destruct (eio_md_store_ok w pages sp l Hsw) as (st & ssd' & w1 & r & E & [X1 X2 X3 X4 X5] & Hsaved & Hsb & Hkeep & Hnone & _).
  destruct (Hnone Hres) as [-> Hst]. fold d in X1, Hsaved, Hkeep, Hsb. specialize (Hsb eq_refl).
  assert (Hst2 : (st = CACHE_MD_STATE_CLEAN \/ st = CACHE_MD_STATE_FASTCLEAN) /\ md_written (md_start_sect d) (entry_now d) ssd' (dmc_size d)).
  { destruct Hsaved as [(-> & _ & H)|[(-> & _ & H)|H]]; [split; [by left|done]|split; [by right|done]|done]. }
  destruct Hst2 as [Hst2 Hwr]. exists w1. split; [done|]. split; [by rewrite X1|].
  intros wr hp pages' sp' l' Hdev Hcold Henv. set (wx := conf_with (set_sb_state st d) w) in *.
  assert (Henv' : restart_env wx wr hp pages' sp' l') by (destruct Henv; by constructor).
  assert (Hfit' : sb_fits (cf_d wx)) by by apply (sb_state_fits st d).
  assert (Hinv' : blk_inv (cf_d wx)) by by apply (sb_state_inv st d).
  assert (Hread' : readable_ok (cf_d wx)) by done.
  rewrite <-X2, <-Hdev in Hwr, Hsb. assert (Hwr' : md_written (md_start_sect (cf_d wx)) (entry_now (cf_d wx)) (on_ssd (dev wr)) (dmc_size (cf_d wx))) by exact Hwr.
  assert (Hclean : sb_clean_shutdown (cf_d wr) (sb_of wx) = true).
  { unfold sb_clean_shutdown. rewrite Hcold. unfold sb_of. cbn [sb_cache_sb_state negb Z.eqb andb]. change (sb_state (cf_d wx)) with st. by destruct Hst2 as [->| ->]. }
  destruct (restart_ok wx wr hp pages' sp' l' (entry_now (cf_d wx)) Henv' Hfit' Hsb) as (w' & E' & [H1 H2 H3 H4 H5 H6]).
  { right. exact Hst2. } { by apply saved_md. } { rewrite Hclean. by apply saved_entries. }
  rewrite Hclean in *. exists w'. split; [done|]. split; [done|]. split; [done|]. split; [|split].
  - intros i Hi. rewrite H3 by done. by apply (saved_loaded (cf_d wx)).
  - intros i Hi Hv. destruct (entry_now_eq (cf_d wx) Hread' i Hi) as (b & Eb & _ & Ee). change (EIO_DBN_GET d i) with (EIO_DBN_GET (cf_d wx) i). rewrite Eb.
    rewrite H4; [by rewrite Ee|done|]. rewrite (saved_loaded (cf_d wx)) by done.
    change (Z.land (EIO_CACHE_STATE_GET d i) saved_bits <> INVALID). destruct (bi_state d Hinv i Hi) as [?|Hv3]; [done|]. intros En.
    assert (Ez : Z.land (Z.land (EIO_CACHE_STATE_GET d i) saved_bits) 3 = VALID) by by rewrite <-Z.land_assoc. by rewrite En in Ez.
  - intros s Hs. rewrite H5; [|intros i Hi; by apply (saved_flash (cf_d wx))|done|done].
    rewrite (saved_volume (cf_d wx)) by done. change (volume (cf_d wx) (dev wr) s) with (volume d (dev wr) s). rewrite Hdev.
    apply volume_kept; try done. intros t T1 T2. rewrite X2. by apply Hkeep.
Qed.

Lemma shutdown_restart_correct_witness : exists w1 w', eio_md_store ad_world = Some (0, w1) /\ eio_md_load (ad_restart (dev w1)) = Some (0, w') /\
  EIO_CACHE_STATE_GET (cache_built (cf_d w')) 3 = ALREADY_DIRTY /\ volume (cache_built (cf_d w')) (dev w') 16 = volume ad_run cl_disks 16.
Proof.
  destruct (shutdown_restart_correct ad_world [10; 11; 12; 13] 14 [15] ad_store_world eq_refl ad_inv ad_readable ad_fits (proj1 ad_data_behind) (proj2 ad_data_behind))
    as (w1 & E1 & _ & H). exists w1.
  destruct (H (ad_restart (dev w1)) 10 [11; 12; 13; 14] 15 [] eq_refl eq_refl (ad_env _)) as (w' & E' & _ & _ & H1 & _ & H2).
  exists w'. split; [exact E1|]. split; [exact E'|]. clear E1 E' H. split; [|exact (H2 16 ltac:(lia))].
  rewrite (H1 3 ad_range). exact ad_kept_state.
Defined.

(** The superblock. When its write succeeds, reading the superblock gives
    back every field of the cache, cut to the width it has on the SSD; when it
    fails the error is returned. Nothing else on the SSD, nor the disk, changes,
    and the page comes back to the allocator. *)
Theorem eio_sb_store_correct p l w : no_device (cf_d w) = false -> names_ok w -> fresh_pages (p :: l) w -> cf_kmalloc w = [] ->
  exists e w', eio_sb_store w = Some (e, w') /\ e = io_error (next_res (cf_cw w)) /\ cf_d w' = cf_d w /\
    (next_res (cf_cw w) = IoOk -> sb_read (sb_sectors (on_ssd (dev w'))) = sb_of w) /\
    (forall t, t < EIO_SUPERBLOCK_START \/ EIO_SUPERBLOCK_START + 8 <= t -> on_ssd (dev w') !!! t = on_ssd (dev w) !!! t) /\
    on_hdd (dev w') = on_hdd (dev w) /\ pg_live (cf_kmem w') = pg_live (cf_kmem w) /\ fresh_pages l w'.
Proof.
  intros Hd Hn Hf Hk. destruct (eio_sb_store_ok p l w Hd Hn Hf Hk) as (e & w' & E & [Hr (mem & ssd & tr & nx & -> & Hsb & Hkeep & _) Hnext]).
  exists e. eexists. split; [exact E|]. split; [exact Hr|]. split; [done|]. split; [exact Hsb|]. split; [exact Hkeep|]. split; [done|]. split; [done|exact Hnext].
Qed.

Lemma eio_sb_store_correct_witness : exists w', eio_sb_store ad_world = Some (0, w') /\ sb_read (sb_sectors (on_ssd (dev w'))) = sb_of ad_world.
Proof.
  destruct (eio_sb_store_correct 10 [11; 12; 13; 14; 15] ad_world ad_device (ad_names _ _ _) (ad_fresh _ _ _) eq_refl) as (e & w' & E & -> & _ & H & _).
  exists w'. split; [exact E|exact (H eq_refl)].
Defined.



(** C40: a policy that is not registered. When the policy cannot be set up
    [eio_md_load] returns 0, as after a successful load, although no block was
    loaded: the size, the words and the devices are those before the call. *)
Theorem md_load_policy_error_lost w hp l e dp : let h := sb_read (sb_sectors (on_ssd (dev w))) in
  CACHE_FAILED_IS_SET (cf_d w) = false /\ CACHE_DEGRADED_IS_SET (cf_d w) = false -> cf_kmalloc w = [] -> cw_results (cf_cw w) = [] -> fresh_pages (hp :: l) w ->
  sb_accepted h -> eio_policy_init true (cf_policies w) (sb_config h {| (cf_d w) with sb_version := EIO_SB_VERSION |}) = Some (e, dp) -> e <> 0 ->
  exists w', eio_md_load w = Some (0, w') /\ policy_ops (cf_d w') = None /\ dmc_size (cf_d w') = dmc_size (cf_d w) /\
    cache (cf_d w') = cache (cf_d w) /\ cache_md8 (cf_d w') = cache_md8 (cf_d w) /\ dev w' = dev w /\ pg_live (cf_kmem w') = pg_live (cf_kmem w).
Proof.
  intros h Hd Hk Hres Hf Hsb Hp He. destruct (md_load_policy_fails w hp l e dp Hd Hk Hres Hf Hsb Hp He) as (w' & mem & nx & E & -> & _).
  destruct (policy_init_fails _ _ _ _ Hp He) as [r ->]. eexists. split; [exact E|]. split_and!; done.
Qed.

Lemma md_load_policy_error_lost_witness : exists w', eio_md_load ad_no_policy = Some (0, w') /\ policy_ops (cf_d w') = None /\ dmc_size (cf_d w') = 0.
Proof.
  destruct (md_load_policy_error_lost ad_no_policy 10 [11; 12; 13; 14; 15] (- EINVAL) ad_no_policy_cache (proj1 ad_no_policy_ok) eq_refl eq_refl (ad_no_policy_fresh) (proj1 (proj2 ad_no_policy_ok))
    (proj2 (proj2 ad_no_policy_ok))) as (w' & E & H1 & H2 & _); [done|]. exists w'. split; [exact E|]. split; [exact H1|exact H2].
Defined.

(** C26: the layout of a new cache. On a device large enough for its own
    metadata, the superblock, the metadata and the data do not overlap, the
    cache is a whole number of sets, it fits on the device, and metadata and
    data start on an 8 KiB boundary of the disk the device is a partition of. *)
Theorem create_layout_correct d : create_pre d -> let d' := create_layout d in
  EIO_SUPERBLOCK_START + EIO_SUPERBLOCK_SECTORS <= md_start_sect d' /\ md_before_data d' /\ data_behind d' /\
  md_sectors d' + dmc_size d' * block_size d' <= dmc_size d /\ (assoc d | dmc_size d') /\
  (16 | cache_dev_start_sect d' + md_start_sect d') /\ (16 | cache_dev_start_sect d' + md_sectors d').
Proof. exact (create_layout_ok d). Qed.

Lemma create_layout_correct_witness : let d' := create_layout ad_fresh_cache in md_start_sect d' = 153 /\ md_sectors d' = 185 /\ dmc_size d' = 224 /\ md_before_data d'.
Proof.
  destruct (create_layout_correct ad_fresh_cache ad_create_pre) as (_ & H & _). split; [by vm_compute|]. split; [by vm_compute|]. split; [by vm_compute|exact H].
Defined.
