(* ===== verification/SuspendCorrectness.v ===== *)
(** * Devices that disappear and come back

    A cache always knows which of its devices are gone; a write-back cache keeps
    its volume across the absence of its SSD, any other cache forgets what it
    had cached. *)

From S2P Require Import Prelude Types Mem Scan Fifo Rand Lru Policy Lookup World Dispatch Disk Clean CleanIo CleanState CleanSet WbAlloc Hits Superblock MdStore MdCreate MdLoad PageIo LoadLoop Recovery Saved Restart Suspend Gone Resume Cold Notify AdminConcrete.

Abbreviation dev w := (cw_k (cf_cw w)).

(** C6: the devices of a cache. In any sequence of removals of the SSD, removals
    of the source and messages that an SSD was added, whatever allocations and
    transfers fail, the flags and error counters of the cache always say which
    devices are gone: the cache follows the abstract machine [gone_step], and
    it is active exactly while both are there. A removal never fails and changes
    neither a block nor a device. *)
Theorem suspend_resume_correct wb s w : gone_is wb s (cf_d w) -> Forall keeps_status (cf_sleeps w) ->
  (forall evs w', dev_events_run evs w = Some w' -> exists s', gone_steps wb evs s s' /\ gone_is wb s' (cf_d w') /\ no_device (cf_d w') = ssd_gone s' || src_gone s') /\
  (forall ev, ev = SourceRemoved \/ ev = SsdRemoved -> exists w', dev_event_run ev w = Some (tt, w') /\ suspended (cf_d w) (cf_d w') /\ dev w' = dev w).
Proof.
  intros Hs Hsl. split; [|intros ev; by apply (removal_runs wb s)]. intros evs w' E. destruct (dev_events_sim wb evs s w w' Hs Hsl E) as (s' & H1 & H2).
  exists s'. split; [done|]. split; [done|]. by apply (gone_active wb).
Qed.

Definition sc_active : conf_world := set_cf_cache_size 700 (ad_conf sc_run (mk_disks sc_ssd sc_hdd) []).
Definition sc_events : list dev_event := [SsdRemoved; SsdAdded (Some sc_dev) (Some sc_sd); SourceRemoved].
Lemma suspend_resume_correct_witness : exists w' s', dev_events_run sc_events sc_active = Some w' /\ gone_steps true sc_events (mk_gone false false) s' /\ no_device (cf_d w') = src_gone s' || ssd_gone s'.
Proof.
  assert (H : match dev_events_run sc_events sc_active with Some _ => true | None => false end = true) by by vm_compute.
  destruct (dev_events_run sc_events sc_active) as [w'|] eqn:E; [|discriminate].
  destruct (suspend_resume_correct true (mk_gone false false) sc_active sc_run_gone (Forall_nil_2 _)) as [F _].
  destruct (F _ _ E) as (s' & H1 & _ & H2). exists w', s'. split; [done|]. split; [exact H1|]. by rewrite orb_comm.
Defined.

(** C5: a write-back cache gets its SSD back. With any transfer failing, the
    blocks, the dirty counters and both devices stay as they were, the
    superblock apart; the pages come back to the allocator. Either a transfer
    failed and the cache is still suspended, or it is active, with the layout it
    had and the contents of the volume it had before the SSD was removed. *)
Theorem resume_write_back_correct w path sd hp sp l : back_env w path sd hp sp l -> blk_inv (cf_d w) -> data_behind (cf_d w) -> md_before_data (cf_d w) ->
  exists w', eio_resume_caching (Some path) (Some sd) w = Some (tt, w') /\ block_state (cf_d w') = block_state (cf_d w) /\ on_hdd (dev w') = on_hdd (dev w) /\
    (forall t, t < EIO_SUPERBLOCK_START \/ EIO_SUPERBLOCK_START + 8 <= t -> on_ssd (dev w') !!! t = sd_sectors sd !!! t) /\ pg_live (cf_kmem w') = pg_live (cf_kmem w) /\
    ((gone_is true (mk_gone true false) (cf_d w') /\ cw_results (cf_cw w) <> []) \/
     (gone_is true (mk_gone false false) (cf_d w') /\ layout (cf_d w') = layout (cf_d w) /\
      forall s, 0 <= s -> volume (cf_d w') (dev w') s = volume (cf_d w) (dev_set SSD (sd_sectors sd) (dev w)) s)).
Proof.
  intros H Hinv Hb Hm. destruct (resume_back w path sd hp sp l H) as (w' & E & B). exists w'. split; [exact E|]. assert (B' := B). destruct B' as [H1 H2 H3 H4 H5]. split_and!; try done.
  destruct H5 as [H5|(H5 & H6 & _)]; [by left|right]. split; [done|]. split; [done|]. intros s Hs. by apply (back_volume w path sd).
Qed.

Lemma resume_write_back_correct_witness : exists w', eio_resume_caching (Some sc_dev) (Some sc_sd) sc_wb = Some (tt, w') /\ gone_is true (mk_gone false false) (cf_d w') /\ volume (cf_d w') (dev w') 17 = Raw 1001.
Proof.
  destruct (resume_write_back_correct sc_wb sc_dev sc_sd 10 11 [12; 13; 14; 15] sc_wb_back sc_inv (proj1 sc_behind) (proj2 sc_behind)) as (w' & E & _ & _ & _ & _ & [[_ H]|(H1 & _ & H2)]).
  - exfalso. apply H. reflexivity.
  - exists w'. split; [exact E|]. split; [exact H1|]. rewrite (H2 17 ltac:(lia)). exact sc_sector.
Defined.

(** C7: a cache that is not write-back gets an SSD. Whatever fails and whatever
    other threads do to its blocks meanwhile, it is afterwards either still
    suspended or active without a single cached block, so nothing stale is ever
    served; and when nothing fails and no block has I/O in progress it is
    active. *)
Theorem resume_cold_correct w path sd : gone_is false (mk_gone true false) (cf_d w) -> Forall calm (cf_sleeps w) ->
  (forall w', eio_resume_caching (Some path) (Some sd) w = Some (tt, w') ->
     gone_is false (mk_gone true false) (cf_d w') \/
     (gone_is false (mk_gone false false) (cf_d w') /\ (forall i, 0 <= i < dmc_size (cf_d w') -> EIO_CACHE_STATE_GET (cf_d w') i = INVALID) /\ stats (cf_d w') = no_stats)) /\
  (forall hp pages sp l, cold_back w path sd hp pages sp l -> exists w', eio_resume_caching (Some path) (Some sd) w = Some (tt, w') /\ no_device (cf_d w') = false).
Proof.
  intros Hg Hsl. split.
  - intros w' E. destruct (resume_empties w _ _ w' Hg Hsl E) as [H|(H1 & H2 & H3)]; [by left|right]. split; [done|]. split; [|done]. intros i Hi. apply H2, elem_of_seqZ. lia.
  - intros hp pages sp l H. destruct (resume_cold_run w path sd hp pages sp l H Hsl) as (w' & E & H1 & _). exists w'. split; [exact E|]. exact (gone_active false _ _ H1).
Qed.

Lemma resume_cold_correct_witness : exists w', eio_resume_caching (Some sc_dev) (Some sc_sd) sc_wt = Some (tt, w') /\ no_device (cf_d w') = false /\ EIO_CACHE_STATE_GET (cf_d sc_wt) 3 = ALREADY_DIRTY.
Proof.
  destruct (resume_cold_correct sc_wt sc_dev sc_sd sc_wt_gone (Forall_nil_2 _)) as [_ H].
  destruct (H 10 [11; 12; 13; 14] 15 [] sc_wt_back) as (w' & E & Hd). exists w'. split; [exact E|]. split; [exact Hd|]. by vm_compute.
Defined.



(** the removal of the source while an SSD is being added is lost for a
    write-back cache: its end makes the cache active without its source; before
    the start of the addition it is a panic *)
Theorem removal_during_resume d : gone_is true (mk_gone true false) d -> CACHE_STALE_IS_SET d = false ->
  exists d1 d2 d3, resume_start d = Some (true, d1) /\ eio_suspend_caching NOTIFY_SRC_REMOVED d1 = Some (tt, d2) /\ resume_finish 0 d2 = Some (tt, d3) /\
    no_device d3 = false /\ CACHE_SRC_IS_ABSENT d3 = true /\ forall path sd w, cf_d w = d2 -> eio_ctr_ssd_add path sd w = None.
Proof.
  intros Hg Hst. rewrite (resume_start_go d Hg Hst). destruct Hg as [Ew [H1 H2 H3 H4 H5]]. unfold write_back in Ew.
  set (d1 := set_flag CACHE_FLAGS_SSD_ADD_INPROG d). set (d2 := no_cached_blocks (set_no_source_dev 1 (set_flag CACHE_FLAGS_FAILED d1))).
  assert (Hdeg : tst (Z.lor (cache_flags d) CACHE_FLAGS_SSD_ADD_INPROG) CACHE_FLAGS_DEGRADED = false) by (revert H4; flags; by intros ->).
  assert (E2 : eio_suspend_caching NOTIFY_SRC_REMOVED d1 = Some (tt, d2)).
  { unfold eio_suspend_caching, CACHE_DEGRADED_IS_SET. rewrite bind_gets. cbn [id]. change (mode d1) with (mode d). rewrite Ew. cbn [negb andb].
    change (cache_flags d1) with (Z.lor (cache_flags d) CACHE_FLAGS_SSD_ADD_INPROG). by rewrite Hdeg. }
  exists d1, d2. eexists. split; [reflexivity|]. split; [exact E2|]. split; [|split; [|split]].
  - unfold resume_finish. cbn [Z.eqb negb]. rewrite bind_modify, bind_gets. cbn [id]. change (mode (set_no_cache_dev 0 d2)) with (mode d). rewrite Ew. cbn [negb]. reflexivity.
  - unfold no_device, CACHE_FAILED_IS_SET, CACHE_DEGRADED_IS_SET. cbn. revert Hdeg. flags. cbn. by intros ->.
  - done.
  - intros path sd w E. unfold eio_ctr_ssd_add. rewrite bind_gets, E. done.
Qed.
