(* ===== verification/SysctlCorrectness.v ===== *)
(** * Tunables, errors, requests of the user

    What a user of the files under [/proc/sys/dev/enhanceio] can rely on,
    whatever the kernel's number conversions do. *)

From stdpp Require Import relations.
From S2P Require Import Prelude Types Mem DList SetLru Scan Policy World Dispatch Disk Clean CleanThread CleanSet CleanState Lookup Thresh WbAlloc Hits Superblock MdStore MdCreate MdLoad PageIo LoadLoop Recovery Suspend Gone Sysctl Tunables TuneUse Concrete CleanConcrete AdminConcrete SysctlConcrete.

(** a user opens a file, or the rest of the driver works meanwhile: of the
    tunables it only clears the request to clean *)
Inductive sysctl_step (proc_dointvec proc_doulongvec_minmax : list Z -> Z -> Z) (HZ : Z) : sys_world -> sys_world -> Prop :=
| step_access e write buffer r w w' : e ∈ entries w ->
    call_handler proc_dointvec proc_doulongvec_minmax HZ e write buffer w = Some (r, w') -> sysctl_step proc_dointvec proc_doulongvec_minmax HZ w w'
| step_driver w w' : sysctl_pending w' = sysctl_pending w -> entries w' = entries w ->
    (sysctl_active (sy_d w') = sysctl_active (sy_d w) \/
     sysctl_active (sy_d w') = sysctl_active (set_do_clean (clr (do_clean (sysctl_active (sy_d w))) EIO_CLEAN_START) (sy_d w))) ->
    sysctl_step proc_dointvec proc_doulongvec_minmax HZ w w'.

Lemma clean_end_ok s : tunables_ok s -> tunables_ok {| s with do_clean := clr (do_clean s) EIO_CLEAN_START |}.
Proof.
  intros Ha. pose proof Ha as [T1 T2 T3 T4 T5 T6 T7 T8 T9]. set (m := Z.lor EIO_CLEAN_START EIO_CLEAN_KEEP) in *.
  assert (Hr : forall x, clr x m = 0 -> 0 <= x < 4).
  { intros x Hx. change m with (Z.ones 2) in Hx. unfold clr in Hx. rewrite Z.ldiff_ones_r in Hx by lia.
    rewrite Z.shiftl_eq_0_iff, Z.shiftr_div_pow2 in Hx by lia. change (2 ^ 2) with 4 in Hx. Z.to_euclidean_division_equations. lia. }
  assert (Hd : forall x, 0 <= x < 4 -> clr (clr x EIO_CLEAN_START) m = 0 /\ i32 (clr x EIO_CLEAN_START) = clr x EIO_CLEAN_START).
  { intros x Hx. assert (E : x = 0 \/ x = 1 \/ x = 2 \/ x = 3) by lia. by destruct E as [->|[->|[->| ->]]]. }
  destruct (Hd _ (Hr _ T9)) as [E1 E2]. constructor; try assumption.
  change (typed (var_set VDoClean (clr (do_clean s) EIO_CLEAN_START) s)). rewrite <-E2. by apply (typed_set VDoClean).
Qed.

(** C14: whatever users write to the files of a cache, in any order and with any
    buffer, whether the stores of the superblock succeed or not, and whatever
    allocation or registration fails, every tunable in force keeps a value the
    driver means it to have: each dirty threshold lies between its lower
    counterpart and 100 percent, the interval, the autoclean threshold and the
    memory limit are in their ranges, only the bits of a clean request are set.
    Every entry that is opened points at the field its handler uses. *)
Theorem tunables_invariant proc_dointvec proc_doulongvec_minmax HZ w w' : sys_ok w ->
  rtc (sysctl_step proc_dointvec proc_doulongvec_minmax HZ) w w' -> sys_ok w'.
Proof.
  intros Hw H. induction H as [w|w w1 w' Hs _ IH]; [done|]. apply IH. destruct Hs as [e write buffer r w w1 He E|w w1 Ep Ee Hs].
  - exact (handler_ok _ _ _ e write buffer (proj1 (list.Forall_forall _ _) (so_entries _ Hw) e He) _ _ _ E Hw).
  - destruct Hw as [H1 H2 H3]. constructor; [by rewrite Ep| |by rewrite Ee]. destruct Hs as [->| ->]; [done|]. by apply clean_end_ok.
Qed.

(** 60 is stored as the new upper threshold, 70 is refused as the lower one *)
Definition tn_high_60 : sys_world := sy_after (tn_access tn_high true [54; 48]) tn_world.
Definition tn_low_70 : sys_world := sy_after (tn_access tn_low true [55; 48]) tn_high_60.
Lemma tunables_invariant_witness : rtc (sysctl_step kernel_number kernel_number 1000) tn_world tn_low_70 /\ sys_ok tn_low_70 /\
  dirty_high_threshold (sysctl_active (sy_d tn_low_70)) = 60 /\ dirty_low_threshold (sysctl_active (sy_d tn_low_70)) = 10 /\
  sy_result (tn_access tn_low true [55; 48]) tn_high_60 = Some (- EINVAL).
Proof.
  assert (H : rtc (sysctl_step kernel_number kernel_number 1000) tn_world tn_low_70).
  { eapply rtc_l; [apply (step_access _ _ _ tn_high true [54; 48] 0)|apply rtc_once, (step_access _ _ _ tn_low true [55; 48] (- EINVAL))].
    - by apply list_elem_of_In; vm_compute; auto 12.
    - apply sy_ran. by vm_compute.
    - by apply list_elem_of_In; vm_compute; auto 12.
    - apply sy_ran. by vm_compute. }
  split; [exact H|]. split; [exact (tunables_invariant kernel_number kernel_number 1000 tn_world tn_low_70 (tn_ok cl_cache cl_sysctl) H)|].
  split_and!; by vm_compute.
Defined.

(** C11: an accepted write of a stored tunable of a write-back cache: the handler
    always ends; if the transfer of the superblock fails its error is returned
    and the whole cache is exactly as it was; if it succeeds the value is in
    force, every other tunable and everything but the clean queue, the LRU of
    dirty sets and the schedule of the aged sets is unchanged, and a reload from
    the superblock that is now on the SSD takes the tunables in force. *)
Theorem tunable_write_correct proc_dointvec proc_doulongvec_minmax HZ e invalid buffer w inflight p l :
  let v := handler_var (proc_handler e) in let x := given proc_dointvec v buffer w in
  e ∈ entries w -> sys_ok w -> stored_check (proc_handler e) = Some invalid -> mode (sy_d w) = CACHE_MODE_WB ->
  invalid (var_set v x (sysctl_pending w)) (sysctl_active (sy_d w)) = false -> x <> active_of v w ->
  store_env (sy_conf w) p l -> queue_ok inflight (sy_d w) -> io_result_ok (next_res (cf_cw (sy_conf w))) ->
  exists r w', call_handler proc_dointvec proc_doulongvec_minmax HZ e true buffer w = Some (r, w') /\
    (next_res (cf_cw (sy_conf w)) <> IoOk -> r <> 0 /\ sy_d w' = sy_d w) /\
    (next_res (cf_cw (sy_conf w)) = IoOk -> r = 0 /\ active_of v w' = x /\ (forall u, u <> v -> active_of u w' = active_of u w) /\
       tuned (set_active v x (sy_d w)) (sy_d w') /\ queue_ok inflight (sy_d w') /\
       forall u s, u ∈ stored_vars -> var_get u (sb_sysctl (sb_read (sb_sectors (on_ssd (cw_k (cf_cw (sy_conf w')))))) s) = active_of u w').
Proof.
  intros v x He Hw Hc Hm Hi Hne Henv Hq Hres. pose proof (proj1 (list.Forall_forall _ _) (so_entries _ Hw) e He) as [Hd _].
  destruct (stored_call proc_dointvec proc_doulongvec_minmax HZ e invalid Hc) as (apply & Ha & Ecall).
  destruct (stored_write_ok proc_dointvec v invalid apply e buffer w inflight p l Hd Ha Henv Hq Hm Hi Hne) as (r & w' & E & Hr & Hbad & Hgood & Hsb & _).
  exists r, w'. split; [by rewrite Ecall|]. split.
  - intros Hn. assert (Hr0 : r <> 0); [|by auto]. rewrite Hr. by rewrite io_error_ok.
  - intros Hok. assert (Hr0 : r = 0) by (rewrite Hr, Hok; done). destruct (Hgood Hr0) as [Ht Hq']. specialize (Hsb Hok).
    assert (Es : sysctl_active (sy_d w') = var_set v x (sysctl_active (sy_d w))).
    { destruct Ht as (s & d1 & (cs & q & p' & y & l' & -> & _) & ->). done. }
    assert (Hv : active_of v w' = x) by (unfold active_of; rewrite Es; apply var_get_set).
    split_and!; try done; [by intros u Hu; unfold active_of; rewrite Es; apply var_get_set_ne|].
    intros u s Hu. rewrite Hsb. unfold active_of. rewrite Es. apply (sysctl_reloaded (conf_with (set_active v x (sy_d w)) (sy_conf w)) s u); [|done].
    change (typed (var_set v x (sysctl_active (sy_d w)))). apply typed_set, (tn_typed _ (so_active _ Hw)).
Qed.

Lemma tunable_write_correct_witness : exists r w', tn_access tn_high true [54; 48] tn_world = Some (r, w') /\ r = 0 /\
  active_of VDirtyHigh w' = 60 /\ active_of VDirtyLow w' = active_of VDirtyLow tn_world /\
  sb_dirty_high_threshold (sb_read (sb_sectors (on_ssd (cw_k (cf_cw (sy_conf w')))))) = 60.
Proof.
  destruct (tunable_write_correct kernel_number kernel_number 1000 tn_high
    (fun p a => (100 <? dirty_high_threshold p) || (dirty_high_threshold p <? dirty_low_threshold a)) [54; 48] tn_world [] 10 [11; 12; 13; 14; 15])
    as (r & w' & E & _ & H); [by apply list_elem_of_In; vm_compute; auto 12|exact (tn_ok cl_cache cl_sysctl)|reflexivity|exact tn_mode|by vm_compute|by vm_compute|
    exact tn_env|exact tn_queue|by vm_compute|].
  destruct (H ltac:(by vm_compute)) as (H1 & H2 & H3 & _ & _ & H6). exists r, w'. split; [exact E|]. split; [exact H1|].
  assert (Ex : active_of VDirtyHigh w' = 60) by exact H2. split; [exact Ex|]. split; [by apply H3|]. rewrite <-Ex. apply (H6 VDirtyHigh ex_sysctl), elem_of_cons. by left.
Defined.

(** a handler that reports an error has changed nothing of the cache: a
    value that is refused, a store that fails, a clean asked for while the cache
    is being modified leave its tunables, its blocks and its queues as they
    were, whatever fails and in whatever state the cache is.  Only [control] is
    left out: it keeps the value it could not apply. *)
Theorem tunable_error_changes_nothing proc_dointvec proc_doulongvec_minmax HZ e write buffer w r w' : coherent e -> proc_handler e <> eio_control_fn ->
  call_handler proc_dointvec proc_doulongvec_minmax HZ e write buffer w = Some (r, w') -> r <> 0 -> sy_d w' = sy_d w.
Proof. intros He Hc E Hr. exact (handler_error _ _ _ e write buffer w r w' He E Hr Hc). Qed.

(** the superblock cannot be written: error 5 *)
Definition tn_broken : sys_world := set_sy_conf (set_cf_cw (set_cw_results [IoFailed 5 {[128]}] (cf_cw (sy_conf tn_world))) (sy_conf tn_world)) tn_world.
Lemma tunable_error_changes_nothing_witness : exists w', tn_access tn_high true [54; 48] tn_broken = Some (5, w') /\ sy_d w' = sy_d tn_broken.
Proof.
  exists (sy_after (tn_access tn_high true [54; 48]) tn_broken). assert (E : sy_result (tn_access tn_high true [54; 48]) tn_broken = Some 5) by by vm_compute.
  apply sy_ran in E. split; [exact E|]. revert E. generalize (sy_after (tn_access tn_high true [54; 48]) tn_broken). unfold tn_access. intros w' E.
  refine (tunable_error_changes_nothing kernel_number kernel_number 1000 tn_high true [54; 48] tn_broken 5 w' _ _ E _); [split; reflexivity|discriminate|lia].
Defined.

(** reading a file gives the value in force and changes neither the cache nor
    the files *)
Theorem tunable_read_correct proc_dointvec proc_doulongvec_minmax HZ e buffer w : coherent e -> proc_handler e <> eio_invalidate_fn ->
  exists w', call_handler proc_dointvec proc_doulongvec_minmax HZ e false buffer w = Some (0, w') /\
    sy_printed w' = Some (active_of (handler_var (proc_handler e)) w) /\ sy_conf w' = sy_conf w /\ entries w' = entries w.
Proof. apply handler_read. Qed.

Lemma conf_with_cw d w : cf_cw (conf_with d w) = set_cw_d d (cf_cw w).
Proof. by destruct w as [[]]. Qed.

(** C21: a request of the user to clean reaches the data: on a write-back cache
    that is not being modified, a write to [do_clean] arms the clean thread, and
    its next clean of the whole cache, if no transfer fails, leaves no dirty
    block and ends the request. *)
Theorem clean_request_correct proc_dointvec jiffies e buffer w : let x := given proc_dointvec VDoClean buffer w in
  ct_data e = Some VDoClean -> mode (sy_d w) = CACHE_MODE_WB -> tst (cache_flags (sy_d w)) CACHE_FLAGS_MOD_INPROG = false ->
  clr x (Z.lor EIO_CLEAN_START EIO_CLEAN_KEEP) = 0 -> x <> active_of VDoClean w -> x <> 0 ->
  clean_globals (cf_cw (sy_conf w)) -> all_ready (cf_cw (sy_conf w)) -> healthy (cf_cw (sy_conf w)) ->
  fast_remove (sysctl_active (sy_d w)) = 0 -> tst (cache_flags (sy_d w)) CACHE_FLAGS_SHUTDOWN_INPROG = false ->
  exists w1, eio_clean_sysctl proc_dointvec e true buffer w = Some (0, w1) /\ clean_event (sy_d w1) = true /\
    exists w2, eio_clean_all jiffies (cf_cw (sy_conf w1)) = Some (tt, w2) /\ nr_dirty (cw_d w2) = 0 /\
      tst (do_clean (sysctl_active (cw_d w2))) EIO_CLEAN_START = false /\
      forall s, 0 <= s -> volume (cw_d w2) (cw_k w2) s = volume (sy_d w) (cw_k (cf_cw (sy_conf w))) s.
Proof.
  intros x Hd Hm Hmod Hx Hne H0 Hg Hr Hh Hf Hs. destruct (clean_request_ok proc_dointvec e buffer w Hd Hm Hmod Hx Hne H0) as (w1 & E1 & Ec).
  fold x in Ec. set (f := fun d => set_do_clean (Z.lor x EIO_CLEAN_START) (set_clean_index 0 d)). set (cw := cf_cw (sy_conf w)) in *.
  assert (Ew : cf_cw (sy_conf w1) = set_cw_d (f (cw_d cw)) cw) by (rewrite Ec; apply conf_with_cw).
  destruct (quiet_step f cw Hg ltac:(done) ltac:(done)) as [_ F].
  assert (Hbit : tst (Z.lor x EIO_CLEAN_START) EIO_CLEAN_START = true).
  { change EIO_CLEAN_START with (2 ^ 0). rewrite tst_spec by lia. rewrite Z.lor_spec, Z.pow2_bits_true by lia. apply orb_true_r. }
  exists w1. split; [exact E1|]. split.
  { unfold sy_d, cf_d. rewrite Ew. unfold clean_event. assert (Hne0 : Z.lor x EIO_CLEAN_START <> 0) by (intros E; by rewrite E in Hbit).
    change (do_clean (sysctl_active (cw_d (set_cw_d (f (cw_d cw)) cw)))) with (Z.lor x EIO_CLEAN_START). rewrite (proj2 (Z.eqb_neq _ 0) Hne0). apply orb_true_r. }
  rewrite Ew. set (c := set_cw_d (f (cw_d cw)) cw) in *. assert (Hg' := ce_globals _ _ F). assert (Hr' := effect_all_ready _ _ F Hr).
  destruct (eio_clean_all_ok jiffies c Hg' Hr' Hm) as (w2 & E2 & F2 & _ & Es & _).
  destruct (eio_clean_all_none_dirty jiffies c Hg' Hr' Hm) as (w3 & E3 & Hn); [exact Hh|by split_and!|].
  rewrite E2 in E3. injection E3 as <-. exists w2. split; [exact E2|]. split; [exact Hn|]. split.
  - rewrite Es. cbn [do_clean]. change EIO_CLEAN_START with (2 ^ 0) at 2. rewrite tst_spec by lia. unfold clr. change EIO_CLEAN_START with (2 ^ 0). rewrite Z.ldiff_spec, Z.pow2_bits_true by lia. apply andb_false_r.
  - intros s Hs0. rewrite (ce_volume _ _ F2 s Hs0). exact (ce_volume _ _ F s Hs0).
Qed.

(** the small cache with one dirty block, and devices that work *)
Definition tn_dirty : sys_world := set_sy_conf (set_cf_cw (no_failures cl_world) (sy_conf tn_world)) tn_world.
Lemma clean_request_correct_witness : exists w1, eio_clean_sysctl kernel_number tn_clean true [49] tn_dirty = Some (0, w1) /\ clean_event (sy_d w1) = true /\
  exists w2, eio_clean_all (fun s => 5 + s) (cf_cw (sy_conf w1)) = Some (tt, w2) /\ nr_dirty (cw_d w2) = 0.
Proof.
  destruct (no_failures_ok cl_world cl_globals cl_ready) as [Hg Hr].
  destruct (clean_request_correct kernel_number (fun s => 5 + s) tn_clean [49] tn_dirty) as (w1 & E1 & H1 & w2 & E2 & H2 & _);
    [reflexivity|exact cl_mode|by vm_compute|by vm_compute|by vm_compute|by vm_compute|exact Hg|exact Hr|split_and!; by vm_compute|by vm_compute|by vm_compute|].
  exists w1. split; [exact E1|]. split; [exact H1|]. exists w2. by split.
Defined.


(** sectors 8 to 39 of the small cache *)
Definition tn_range : sys_world := sy_after (tn_access tn_invalidate true [51; 50]) (sy_after (tn_access tn_invalidate true [56]) tn_world).

(** the files of a cache: as long as nothing fails, [eio_procfs_ctr] registers the
    common entries, those of a write-back cache and those of the invalidation
    interface exactly when the mode and the flags call for them, each pointing at
    its own value, and [eio_procfs_dtr] leaves no entry of the cache *)
Theorem procfs_files_correct w : files_env w -> sysctl_handle_writeback w = None -> sysctl_handle_invalidate w = None ->
  exists w1 w2, eio_procfs_ctr w = Some (tt, w1) /\ Forall coherent (entries w1) /\
    map procname (entries w1) = map procname (sysctl_template_common ++ (if mode (sy_d w) =? CACHE_MODE_WB then sysctl_template_writeback else [])
      ++ (if CACHE_INVALIDATE_IS_SET (sy_d w) then sysctl_template_invalidate else [])) /\
    (forall f, f ∈ cache_files w -> f ∈ sy_proc_entries w1) /\
    eio_procfs_dtr w1 = Some (tt, w2) /\ entries w2 = [] /\ forall f, f ∈ sy_proc_entries w2 <-> f ∈ sy_proc_entries w /\ f ∉ cache_files w.
Proof.
  intros H Hw Hi. exists (with_files w), (without_files (with_files w)). split; [by apply procfs_ctr_run|].
  assert (Ef : sy_proc_entries (with_files w) = cache_files w ++ sy_proc_entries w) by (unfold with_files; destruct (_ =? _), (CACHE_INVALIDATE_IS_SET _); done).
  assert (En : cache_files (with_files w) = cache_files w) by (unfold with_files; destruct (_ =? _), (CACHE_INVALIDATE_IS_SET _); done).
  split_and!.
  - rewrite entries_forall. unfold with_files. destruct (_ =? _), (CACHE_INVALIDATE_IS_SET _); cbn [sysctl_handle_common sysctl_handle_writeback sysctl_handle_invalidate
      set_handle_common set_handle_writeback set_handle_invalidate set_proc_entries dir_vars dir_of sd_vars]; rewrite ?Hw, ?Hi; cbn [dir_vars];
      split_and!; try (apply templates_coherent; set_solver); constructor.
  - unfold with_files, entries. destruct (_ =? _), (CACHE_INVALIDATE_IS_SET _); cbn [sysctl_handle_common sysctl_handle_writeback sysctl_handle_invalidate
      set_handle_common set_handle_writeback set_handle_invalidate set_proc_entries dir_vars dir_of sd_vars]; by rewrite ?Hw, ?Hi.
  - intros f Hf. rewrite Ef. apply elem_of_app. by left.
  - apply procfs_dtr_run. unfold with_files. destruct H as [H1 H2 H3]. destruct (_ =? _), (CACHE_INVALIDATE_IS_SET _); by constructor.
  - done.
  - intros f. cbn [without_files sy_proc_entries set_handle_common set_handle_writeback set_handle_invalidate set_proc_entries].
    rewrite En, Ef, list_elem_of_filter, elem_of_app. tauto.
Qed.

(** the hit rates [eio_stats_show] prints lie between 0 and 100 for every
    pair of counters below 2^57, although their quotient is computed on halves
    when the total exceeds 32 bits, and are off by at most one percent. *)
Theorem hit_pct_bounds hits total : 0 <= hits <= total -> total < 2 ^ 57 ->
  let exact := if total =? 0 then 0 else 100 * hits / total in 0 <= hit_pct hits total <= 100 /\ exact <= hit_pct hits total <= exact + 1.
Proof. apply hit_pct_ok. Qed.

Lemma hit_pct_bounds_witness : 0 <= hit_pct (3 * 2 ^ 40) (2 ^ 42) <= 100 /\ 75 <= hit_pct (3 * 2 ^ 40) (2 ^ 42) <= 76.
Proof. apply (hit_pct_bounds (3 * 2 ^ 40) (2 ^ 42)); lia. Defined.

(** ** Three surprises, on the small cache *)

(** [control] keeps a command that it refused: the second attempt succeeds and
    does nothing *)
Example control_refused_then_accepted : let w1 := sy_after (tn_access tn_control true [54]) tn_world in
  sy_result (tn_access tn_control true [54]) tn_world = Some (-1) /\ sy_result (tn_access tn_control true [54]) w1 = Some 0 /\
  CACHE_FAST_REMOVE_IS_SET (sy_d (sy_after (tn_access tn_control true [54]) w1)) = false.
Proof. by vm_compute. Qed.

(** a value that was refused takes effect when something that is no number is
    written later *)
Example refused_value_takes_effect : let w1 := sy_after (tn_access tn_high true [53]) tn_world in
  let w2 := sy_after (tn_access tn_low true [51]) w1 in
  sy_result (tn_access tn_high true [53]) tn_world = Some (- EINVAL) /\ sy_result (tn_access tn_high true [120]) w2 = Some 0 /\
  active_of VDirtyHigh (sy_after (tn_access tn_high true [120]) w2) = 5.
Proof. by vm_compute. Qed.

(** four gigabytes and more: the number of bytes is cut to 32 bits, and nothing
    is invalidated *)
Example invalidate_too_much d : eio_inval_range 0 (u32 (to_bytes (2 ^ 23))) d = Some (tt, d).
Proof. reflexivity. Qed.
