(* ===== verification/AdmCorrectness.v ===== *)
(** * Creating, editing and deleting a cache: the properties, with instances

    What the administrative commands promise when they fail half way, and where
    they do not keep it. *)

From Stdlib Require Import String.
From S2P Require Import Prelude Types Mem DList SetLru Scan Fifo Rand Lru Policy Lookup Thresh CleanState World Dispatch Disk Clean CleanIo CleanSet CleanThread WbAlloc Hits Superblock MdStore MdCreate MdLoad PageIo LoadLoop Recovery Saved Restart Suspend Gone Sysctl Edit Ttc TtcReg Create CreateOk EditOk Delete Tunables TuneUse Concrete CleanConcrete AdminConcrete SysctlConcrete SysctlCorrectness TtcCorrectness.
#[local] Open Scope Z_scope.
#[local] Open Scope list_scope.

(** ** Concrete caches *)

(** the small write-back cache with one dirty block; its devices work, or refuse
    one transfer *)
Definition ac_ctl (s : sys_world) : cache_ctl := mk_ctl s None 0 None 0 false true [] [] false.
Definition ac_dirty : cache_ctl := ac_ctl tn_dirty.
Definition ac_refused : cache_ctl := ct_with_cw (set_cw_results [IoRefused 5] (ct_cworld ac_dirty)) ac_dirty.
Definition ac_jiffies (s : Z) : Z := 5 + s.

(** ** Leaving write-back mode *)

(** C13: [eio_finish_nrdirty], on a write-back cache without I/O in flight whose
    devices do not fail: one round of its loop is enough, it returns 0, no block
    is dirty, the lock of the device is free again, and the volume holds the same
    data as before. *)
Theorem finish_nrdirty_correct jiffies fuel c : ct_ttc_lock c = false -> nr_ios (ct_d c) = 0 -> tst (do_clean (sysctl_active (ct_d c))) EIO_CLEAN_START = false ->
  mode (ct_d c) = CACHE_MODE_WB -> clean_globals (ct_cworld c) -> all_ready (ct_cworld c) -> healthy (ct_cworld c) ->
  fast_remove (sysctl_active (ct_d c)) = 0 -> tst (cache_flags (ct_d c)) CACHE_FLAGS_SHUTDOWN_INPROG = false ->
  exists c', eio_finish_nrdirty jiffies (S fuel) c = Some (Some 0, c') /\ nr_dirty (ct_d c') = 0 /\ ct_ttc_lock c' = false /\
    clean_globals (ct_cworld c') /\ all_ready (ct_cworld c') /\
    forall s, 0 <= s -> volume (ct_d c') (cw_k (ct_cworld c')) s = volume (ct_d c) (cw_k (ct_cworld c)) s.
Proof. apply finish_correct. Qed.
Lemma finish_nrdirty_correct_witness : nr_dirty (ct_d ac_dirty) = 1 /\ exists c', eio_finish_nrdirty ac_jiffies 1 ac_dirty = Some (Some 0, c') /\ nr_dirty (ct_d c') = 0 /\ ct_ttc_lock c' = false.
Proof.
  split; [by vm_compute|]. destruct (no_failures_ok cl_world cl_globals cl_ready) as [Hg Hr].
  destruct (finish_nrdirty_correct ac_jiffies 0 ac_dirty) as (c' & E & H1 & H2 & _);
    [reflexivity|by vm_compute|by vm_compute|exact cl_mode|exact Hg|exact Hr|split_and!; by vm_compute|by vm_compute|by vm_compute|].
  exists c'. split; [exact E|]. by split.
Defined.

(** C36: a round of [eio_finish_nrdirty] that leaves a dirty block behind, for
    instance because one transfer was refused, is the last that cleans anything:
    it clears the request to clean, [retry_count] is never decremented, and the
    loop goes on for ever, whatever the devices do. *)
Theorem finish_nrdirty_spins jiffies c c1 : ct_ttc_lock c = false -> nr_ios (ct_d c) = 0 -> tst (do_clean (sysctl_active (ct_d c))) EIO_CLEAN_START = false ->
  CACHE_FAILED_IS_SET (ct_d c) = false -> fast_remove (sysctl_active (ct_d c)) = 0 ->
  ct_cw (eio_clean_all jiffies) (asked c) = Some (tt, c1) -> still_dirty (ct_d c1) ->
  forall fuel, exists c', eio_finish_nrdirty jiffies fuel c = Some (None, c').
Proof.
  intros Hl Hn Hs Hf Hr E Hd fuel. rewrite (finish_start jiffies fuel c Hl Hn Hs). destruct fuel as [|fuel]; [by exists (asked c)|].
  destruct (finish_spins_after jiffies fuel (asked c) c1) as (c' & E'); [exact Hf|exact Hr|exact E|exact Hd|].
  rewrite (bind_run _ _ _ _ _ E'). by exists c'.
Qed.

Definition ct_after {A} (m : M cache_ctl A) (c : cache_ctl) : cache_ctl := match m c with Some (_, c') => c' | None => c end.
Lemma ct_ran {A} (m : M cache_ctl A) c r : option_map fst (m c) = Some r -> m c = Some (r, ct_after m c).
Proof. unfold ct_after. destruct (m c) as [[x c']|]; [|done]. by intros [= ->]. Qed.

Definition ac_round : cache_ctl := ct_after (ct_cw (eio_clean_all ac_jiffies)) (asked ac_refused).
Lemma ac_round_run : ct_cw (eio_clean_all ac_jiffies) (asked ac_refused) = Some (tt, ac_round).
Proof. refine (ct_ran (ct_cw (eio_clean_all ac_jiffies)) (asked ac_refused) tt _). by vm_compute. Qed.
Lemma finish_nrdirty_spins_witness : nr_dirty (ct_d ac_round) = 1 /\ forall fuel, exists c', eio_finish_nrdirty ac_jiffies fuel ac_refused = Some (None, c').
Proof.
  split; [by vm_compute|]. apply (finish_nrdirty_spins ac_jiffies ac_refused ac_round); [reflexivity|by vm_compute..|exact ac_round_run|split_and!; by vm_compute].
Defined.

(** ** Switching the policy *)

(** C38: [eio_policy_switch] reports success without switching: the instance it
    makes comes from [req_policy], which it assigns only at the end, so that the
    blocks are managed by the policy the cache had before while the new one is
    shown to the user and stored in the superblock. *)
Theorem policy_switch_keeps_old_policy policy w w' : req_policy (cf_d w) <> 0 -> eio_policy_switch policy w = Some (0, w') ->
  req_policy (cf_d w') = policy /\ policy_ops (cf_d w') <> None /\ exists ok, policy_ops (cf_d w') = eio_get_policy ok (req_policy (cf_d w)) (cf_policies w).
Proof. apply policy_switch_result. Qed.
Definition ac_switched : conf_world := conf_run (eio_policy_switch CACHE_REPL_RANDOM) ad_world.
Lemma conf_ran {A} (m : M conf_world A) w r : option_map fst (m w) = Some r -> m w = Some (r, conf_run m w).
Proof. unfold conf_run. destruct (m w) as [[x w']|]; [|done]. by intros [= ->]. Qed.
Lemma ac_switched_run : eio_policy_switch CACHE_REPL_RANDOM ad_world = Some (0, ac_switched).
Proof. refine (conf_ran (eio_policy_switch CACHE_REPL_RANDOM) ad_world 0 _). by vm_compute. Qed.
(** the user asks for random replacement and keeps LRU *)
Lemma policy_switch_keeps_old_policy_witness : req_policy (cf_d ac_switched) = CACHE_REPL_RANDOM /\ policy_ops (cf_d ac_switched) = Some PolLru.
Proof.
  destruct (policy_switch_keeps_old_policy CACHE_REPL_RANDOM ad_world ac_switched) as (H1 & H2 & ok & H3); [by vm_compute|exact ac_switched_run|].
  split; [exact H1|]. revert H2. rewrite H3. destruct ok; vm_compute; [reflexivity|intros []; reflexivity].
Defined.

(** when the superblock cannot be stored [eio_cache_edit] leaves with the lock of
    the device held for writing: all I/O on the device stops *)
Theorem edit_store_failure_keeps_lock old md c e w1 : ct_ttc_lock c = false -> nr_ios (ct_d c) = 0 -> plain_mode md -> plain_mode (mode (ct_d c)) -> mode (ct_d c) <> md ->
  let d1 := set_sysctl_active (set_interval old (sysctl_active (ct_d c))) (set_mode md (ct_d c)) in
  eio_sb_store (set_cf_cw (set_cw_d d1 (ct_cworld c)) (ct_conf c)) = Some (e, w1) -> e <> 0 ->
  exists c', edit_locked old md 0 c = Some (e, c') /\ ct_ttc_lock c' = true.
Proof. apply edit_store_fails. Qed.

(** ** Creation *)

(** C10: [eio_cache_create], whatever the request, the devices and the kernel do,
    when it returns has either made the cache whole and returned 0 (the cache is
    in the list of caches and activated in the table, its memory and both devices
    are held), or it has left nothing: the table and the list are as they were, the
    memory of the cache is free and both devices are closed. *)
Theorem create_all_or_nothing cr dmc sizeof_cache_set jiffies systime kzalloc_ok callback_q_ok sets_ok src ssd w r w' :
  dmc ∉ cache_list w -> ad_dmc w = false -> ad_src w = false -> ad_ssd w = false ->
  eio_cache_create cr dmc sizeof_cache_set jiffies systime kzalloc_ok callback_q_ok sets_ok src ssd w = Some (r, w') ->
  (r = 0 /\ installed dmc w w') \/ released w w'.
Proof. apply create_run_ok. Qed.

(** a write-through cache of the first partition, on an SSD of 2048 sectors *)
Definition ac_boot : adm := mk_adm (ac_ctl tn_world) (eio_ttc_init tc_boot) [] (mk_names 0 [] []) false false false false.
Definition ac_rec (assoc : Z) : cache_rec_short := mk_rec [97] [115; 49] [115; 50] [50] 0 512 0 CACHE_REPL_LRU CACHE_MODE_WT CACHE_CREATE 0 4096 assoc.
Definition ac_dev (b : block_device) (sectors : Z) : opened_dev := mk_opened b (Some [115]) (mk_ssd (to_bytes sectors) 2048 1024 4 ∅).
(** [q]: the kernel has the memory for [callback_q] *)
#[local] Abbreviation ac_create assoc disk q :=
  (eio_cache_create (ac_rec assoc) 1 64 ac_jiffies 0 true q true (inr (ac_dev tc_part1 disk)) (inr (ac_dev tc_ssd 2048))).
Definition adm_after {A} (m : M adm A) (w : adm) : adm := match m w with Some (_, w') => w' | None => w end.
Lemma adm_ran {A} (m : M adm A) w r : option_map fst (m w) = Some r -> m w = Some (r, adm_after m w).
Proof. unfold adm_after. destruct (m w) as [[x w']|]; [|done]. by intros [= ->]. Qed.

Definition ac_made : adm := adm_after (ac_create 32 1000 true) ac_boot.
Definition ac_unmade : adm := adm_after (ac_create 32 1000 false) ac_boot.
Lemma ac_made_run : ac_create 32 1000 true ac_boot = Some (0, ac_made).
Proof. refine (adm_ran (ac_create 32 1000 true) ac_boot 0 _). by vm_compute. Qed.
Lemma ac_unmade_run : ac_create 32 1000 false ac_boot = Some (- ENOMEM, ac_unmade).
Proof. refine (adm_ran (ac_create 32 1000 false) ac_boot (- ENOMEM) _). by vm_compute. Qed.
Lemma create_all_or_nothing_witness : installed 1 ac_boot ac_made /\ released ac_boot ac_unmade.
Proof.
  split.
  - pose proof ac_made_run as R. destruct (create_all_or_nothing (ac_rec 32) 1 64 ac_jiffies 0 true true true (inr (ac_dev tc_part1 1000)) (inr (ac_dev tc_ssd 2048)) ac_boot 0 ac_made) as [[_ H]|H];
      [apply not_elem_of_nil|reflexivity..|exact R|exact H|].
    exfalso. assert (E : ad_dmc ac_made = true) by by vm_compute. by rewrite (rl_dmc _ _ H) in E.
  - pose proof ac_unmade_run as R. destruct (create_all_or_nothing (ac_rec 32) 1 64 ac_jiffies 0 true false true (inr (ac_dev tc_part1 1000)) (inr (ac_dev tc_ssd 2048)) ac_boot (- ENOMEM) ac_unmade) as [[H _]|H];
      [apply not_elem_of_nil|reflexivity..|exact R|discriminate H|exact H].
Defined.

(** with too many sets the caller is told of success, and there is no cache *)
Example create_too_many_sets : option_map (fun r => (r.1, ad_dmc r.2, cache_list r.2)) (ac_create 8 (2 ^ 40 - 1) true ac_boot) = Some (0, false, []).
Proof. by vm_compute. Qed.

(** C22: the last step of [eio_cache_create], on the blocks a reload has found:
    it ends, and the number of dirty blocks of the cache, those of each set, the
    number of cached blocks and the list of the dirty sets are what the states of
    the blocks say; everything else of the cache is as it was. *)
Theorem create_counts_correct systime d : wf_geom d -> dmc_size d < 2 ^ 31 ->
  nr_dirty d = 0 -> st_cached_blocks (stats d) = 0 -> (forall s, cs_nr_dirty (cache_sets d !!! s) = 0) ->
  (exists l, dirty_set_lru d = Some l /\ lru_rep l [] /\ ll_max l = num_sets d) ->
  exists c, count_cached systime (-1) (seqZ 0 (dmc_size d)) d = Some (tt, with_counters c d) /\
    cn_dirty c = count_dirty d (all_blocks d) /\ st_cached_blocks (cn_stats c) = count_valid d (all_blocks d) /\
    (forall s, 0 <= s < num_sets d -> cs_nr_dirty (cn_sets c !!! s) = count_dirty d (set_blocks d s)) /\
    (forall s, cs_flags (cn_sets c !!! s) = cs_flags (cache_sets d !!! s) /\ cs_mdreq (cn_sets c !!! s) = cs_mdreq (cache_sets d !!! s)) /\
    exists l xs, cn_lru c = Some l /\ lru_rep l xs /\ ll_max l = num_sets d /\
      forall s, s ∈ xs <-> exists i, i ∈ all_blocks d /\ is_dirty d i = true /\ i / assoc d = s.
Proof. intros Hg. apply count_blocks_run; [exact Hg|exact (geo_size _ Hg)]. Qed.

(** the small cache after its reload: block 3 is dirty *)
Definition ac_loaded : cache_c := no_cached_blocks (set_cache_sets ∅ (set_nr_dirty 0 cl_md)).
Definition ac_counted : cache_c := set_dirty_set_lru (match lru_init true 2 with Some (_, l) => l | None => None end) ac_loaded.
Lemma ac_counted_facts : wf_geom ac_counted /\ dmc_size ac_counted = 64 /\ count_dirty ac_counted (all_blocks ac_counted) = 1 /\
  count_dirty ac_counted (set_blocks ac_counted 0) = 1 /\ count_dirty ac_counted (set_blocks ac_counted 1) = 0 /\ num_sets ac_counted = 2.
Proof. split; [apply (wf_geom_eq cl_md); [reflexivity|exact cl_md_wf]|split_and!; by vm_compute]. Qed.
Lemma ac_counted_lru : exists l, dirty_set_lru ac_counted = Some l /\ lru_rep l [] /\ ll_max l = num_sets ac_counted.
Proof.
  destruct (lru_init_rep 2) as (l & E & H1 & H2); [lia|]. exists l. split; [unfold ac_counted; by rewrite E|]. split; [exact H1|].
  by rewrite H2, (proj2 (proj2 (proj2 (proj2 (proj2 ac_counted_facts))))).
Qed.
Lemma ac_counted_zero : dmc_size ac_counted < 2 ^ 31 /\ nr_dirty ac_counted = 0 /\ st_cached_blocks (stats ac_counted) = 0 /\ (forall s, cs_nr_dirty (cache_sets ac_counted !!! s) = 0).
Proof. split; [by rewrite (proj1 (proj2 ac_counted_facts))|]. split; [reflexivity|]. split; [reflexivity|]. intros s. reflexivity. Qed.
Lemma create_counts_correct_witness : exists c, count_cached 0 (-1) (seqZ 0 (dmc_size ac_counted)) ac_counted = Some (tt, with_counters c ac_counted) /\
  cn_dirty c = 1 /\ cs_nr_dirty (cn_sets c !!! 0) = 1 /\ cs_nr_dirty (cn_sets c !!! 1) = 0.
Proof.
  destruct ac_counted_facts as (F1 & _ & F2 & F3 & F4 & F5). destruct ac_counted_zero as (G1 & G2 & G3 & G4).
  destruct (create_counts_correct 0 ac_counted F1 G1 G2 G3 G4 ac_counted_lru) as (c & E & H1 & _ & H2 & _).
  exists c. split; [exact E|]. split; [exact (eq_trans H1 F2)|]. rewrite F5 in H2.
  split; [exact (eq_trans (H2 0 ltac:(lia)) F3)|exact (eq_trans (H2 1 ltac:(lia)) F4)].
Defined.

(** ** Deletion *)


(** the small cache in write-through mode, the first of the table *)
Definition ac_wt : cache_c := set_mode CACHE_MODE_WT (set_nr_dirty 0 (EIO_CACHE_STATE_SET cl_md 3 VALID)).
Definition ac_wt_ctl : cache_ctl :=
  mk_ctl (set_sy_conf (ad_conf (set_sb_state CACHE_MD_STATE_DIRTY ac_wt) cl_disks []) (tn_files ac_wt)) None 0 None 0 false false [] [] false.
Definition ac_wt_adm : adm := mk_adm ac_wt_ctl tc_one [1] (mk_names 1 [] []) true true true true.
Lemma ac_wt_found : eio_cache_lookup [97] tc_one = Some tc_cache1.
Proof. by vm_compute. Qed.

(** C37: when a stale write-back cache whose SSD has failed is deleted, its clean
    thread, which the failed deletion before had started again, is not stopped:
    it is still running when the memory of the cache is free. *)
Theorem stale_delete_leaves_thread jiffies systime fuel name do_delete c w r w' : ttc_ok (ad_ttc w) -> eio_cache_lookup name (ad_ttc w) = Some c ->
  tst (cache_flags (ad_d w)) CACHE_FLAGS_SHUTDOWN_INPROG = false -> tst (cache_flags (ad_d w)) CACHE_FLAGS_MOD_INPROG = false ->
  CACHE_STALE_IS_SET (ad_d w) = true -> CACHE_FAILED_IS_SET (ad_d w) = true ->
  eio_cache_delete jiffies systime fuel name do_delete w = Some (Some r, w') ->
  r = 0 /\ deleted c w' /\ ct_clean_thread (ad_ctl w') = ct_clean_thread (ad_ctl w).
Proof. apply stale_delete_thread. Qed.

Definition ac_stale_adm : adm :=
  set_ad_ctl (ct_with_cw (set_cw_d (set_flag (Z.lor CACHE_FLAGS_STALE CACHE_FLAGS_FAILED) cl_cache) (ct_cworld ac_dirty)) ac_dirty) ac_wt_adm.
Definition ac_stale_deleted : adm := adm_after (eio_cache_delete ac_jiffies 0 0 [97] true) ac_stale_adm.
Lemma ac_stale_run : eio_cache_delete ac_jiffies 0 0 [97] true ac_stale_adm = Some (Some 0, ac_stale_deleted).
Proof. refine (adm_ran (eio_cache_delete ac_jiffies 0 0 [97] true) ac_stale_adm (Some 0) _). by vm_compute. Qed.
Lemma stale_delete_leaves_thread_witness : ad_dmc ac_stale_deleted = false /\ ct_clean_thread (ad_ctl ac_stale_deleted) = true.
Proof.
  destruct (stale_delete_leaves_thread ac_jiffies 0 0 [97] true tc_cache1 ac_stale_adm 0 ac_stale_deleted) as (_ & H1 & H2);
    [exact tc_one_ok|exact ac_wt_found|by vm_compute..|exact ac_stale_run|].
  split; [apply (dl_dmc _ _ H1); by vm_compute|]. rewrite H2. reflexivity.
Defined.
