(* ===== verification/Correctness.v ===== *)
(** * The theorems

    What the components of the driver guarantee, each theorem followed by an
    instance of it on the small cache of [Concrete]. *)

From S2P Require Import Prelude Types Mem DList SetLru Scan Fifo Rand Lru Policy Thresh Lookup SetSeq World Dispatch Peek Concrete.
From Stdlib Require Import Sorting.Sorted.

(** a whole-block request for the block at sector 40, in set 1 *)
Definition ex_ebio : eio_bio := mk_ebio EB_SUBORDINATE_IO 0 1 40 4096 [] READ [] (-1) 1.
Definition ex_bc : bio_container := mk_bc 2 0 [] 0 [] [] UNCACHED_READ 0 0.

Lemma ex_ebio_ok : ebio_ok ex_cache ex_ebio.
Proof.
  refine (ebio_ok_geom ex_md ex_cache ex_ebio (proj1 ex_cache_same) _).
  apply (ebio_ok_geom ex_geom ex_md ex_ebio ex_md_geom). constructor.
  - by vm_compute.
  - by vm_compute.
  - split; by vm_compute.
  - by vm_compute.
Qed.

Lemma ex_cache_blk : blk_inv ex_cache.
Proof. exact (ci_blk _ _ ex_cache_inv). Qed.
Lemma ex_cache_geom : geom ex_cache = geom ex_md.
Proof. exact (proj1 ex_cache_same). Qed.
Lemma ex_cache_size : dmc_size ex_cache = 16.
Proof. destruct (geom_fields _ _ ex_cache_geom) as (-> & _). by vm_compute. Qed.
Lemma ex_cache_sets : num_sets ex_cache = 4.
Proof. destruct (geom_fields _ _ ex_cache_geom) as (_ & _ & _ & _ & _ & -> & _). by vm_compute. Qed.
Lemma ex_cache_shift : SECTORS_PER_SET_SHIFT ex_cache = 5.
Proof.
  destruct (geom_fields _ _ ex_cache_geom) as (_ & _ & _ & E1 & E2 & _). unfold SECTORS_PER_SET_SHIFT.
  rewrite E1, E2. by vm_compute.
Qed.
Lemma ex_cache_block : block_size ex_cache = 8.
Proof. destruct (geom_fields _ _ ex_cache_geom) as (_ & _ & -> & _). by vm_compute. Qed.

(** ** Serving a block *)

(** [eio_read_peek] never panics and keeps the cache invariant.  A block it
    reports as cached holds the sectors asked for and is either dirty or marked
    as being read; a block it reserves for a fill was free or clean, is given
    the sectors asked for, which no block held, and is marked as being read
    from the disk; every other block keeps its state and its sectors. *)
Theorem eio_read_peek_correct inflight d e bc :
  cache_inv inflight d -> ebio_ok d e ->
  exists r d', eio_read_peek e bc d = Some (r, d') /\ cache_inv inflight d' /\ read_outcome d d' e bc r.
Proof. apply read_peek_ok. Qed.

Lemma eio_read_peek_correct_witness :
  exists r d', eio_read_peek ex_ebio ex_bc ex_cache = Some (r, d') /\ cache_inv [] d' /\
    read_outcome ex_cache d' ex_ebio ex_bc r.
Proof. apply (eio_read_peek_correct [] ex_cache ex_ebio ex_bc); [exact ex_cache_inv|exact ex_ebio_ok]. Defined.

(** [eio_write_peek] never panics and keeps the cache invariant.  It only
    answers 1 when the block may become dirty: the block is dirty already, or
    the write covers the whole block, which is then marked as being written; a
    replaced block was never dirty; the metadata updates to wait for are
    counted exactly for the blocks that become dirty. *)
Theorem eio_write_peek_correct inflight d e bc :
  cache_inv inflight d -> ebio_ok d e ->
  exists r d', eio_write_peek e bc d = Some (r, d') /\ cache_inv inflight d' /\ write_outcome d d' e bc r.
Proof. apply write_peek_ok. Qed.

Lemma eio_write_peek_correct_witness :
  exists r d', eio_write_peek ex_ebio ex_bc ex_cache = Some (r, d') /\ cache_inv [] d' /\
    write_outcome ex_cache d' ex_ebio ex_bc r.
Proof. apply (eio_write_peek_correct [] ex_cache ex_ebio ex_bc); [exact ex_cache_inv|exact ex_ebio_ok]. Defined.

(** C29: [eio_lookup] finds the block that caches a sector whenever there is
    one; on a miss it returns a free block of the sector's set if there is one,
    otherwise a clean one, and says there is no room only when every block of
    the set is dirty or busy.  It changes nothing but the replacement order. *)
Theorem eio_lookup_correct d sector :
  blk_inv d -> policy_inv d -> dmc_size d < 2 ^ 32 -> 0 <= sector ->
  exists res index d', eio_lookup sector d = Some ((res, index), d') /\ pol_only d d' /\ policy_inv d' /\
    lookup_result d sector res index.
Proof. apply lookup_ok. Qed.

Lemma eio_lookup_correct_witness :
  exists res index d', eio_lookup 8 ex_cache = Some ((res, index), d') /\ pol_only ex_cache d' /\ policy_inv d' /\
    lookup_result ex_cache 8 res index.
Proof.
  apply (eio_lookup_correct ex_cache 8); [exact ex_cache_blk|exact ex_cache_policy|rewrite ex_cache_size; lia|lia].
Defined.

(** ** Invalidation *)

(** [eio_inval_range] ends and never panics; afterwards every block that
    overlaps the range and is still cached is dirty or marked [QUEUED], so no
    clean idle block of the range survives; a block outside the range keeps its
    state, and no block is moved to other sectors. *)
Theorem eio_inval_range_correct d iosector iosize :
  blk_inv d -> dmc_size d < 2 ^ 31 -> SECTORS_PER_SET_SHIFT d <= 22 ->
  0 <= iosector -> 0 < iosize < 2 ^ 32 -> (512 | iosize) -> iosector + iosize / 512 < 2 ^ 63 ->
  exists d', eio_inval_range iosector iosize d = Some (tt, d') /\
    inval_post iosector (iosector + iosize / 512) d d'.
Proof. apply inval_range_ok. Qed.

Lemma eio_inval_range_correct_witness :
  exists d', eio_inval_range 4 65536 ex_cache = Some (tt, d') /\ inval_post 4 (4 + 65536 / 512) ex_cache d'.
Proof.
  apply (eio_inval_range_correct ex_cache 4 65536); [exact ex_cache_blk|rewrite ex_cache_size; lia|
    rewrite ex_cache_shift; lia|lia|lia|by exists 128|by vm_compute].
Defined.

(** [eio_inval_block] invalidates the one block that caches the sector, or
    marks it, and returns 1 exactly when that block is busy, dirty or already
    queued. *)
Theorem eio_inval_block_correct d sector :
  blk_inv d -> dmc_size d < 2 ^ 31 -> block_size d < 2 ^ 23 -> 0 <= sector < 2 ^ 63 ->
  exists r d', eio_inval_block sector d = Some (r, d') /\
    inval_post (EIO_ROUND_SECTOR d sector) (EIO_ROUND_SECTOR d sector + block_size d) d d' /\
    (r = 1 <-> exists i, 0 <= i < dmc_size d /\ EIO_DBN_GET d i = Some (EIO_ROUND_SECTOR d sector) /\
       EIO_CACHE_STATE_GET d i <> INVALID /\ idle (EIO_CACHE_STATE_GET d i) = false).
Proof. apply inval_block_ok. Qed.

Lemma eio_inval_block_correct_witness :
  exists r d', eio_inval_block 9 ex_cache = Some (r, d') /\
    inval_post (EIO_ROUND_SECTOR ex_cache 9) (EIO_ROUND_SECTOR ex_cache 9 + block_size ex_cache) ex_cache d' /\
    (r = 1 <-> exists i, 0 <= i < dmc_size ex_cache /\ EIO_DBN_GET ex_cache i = Some (EIO_ROUND_SECTOR ex_cache 9) /\
       EIO_CACHE_STATE_GET ex_cache i <> INVALID /\ idle (EIO_CACHE_STATE_GET ex_cache i) = false).
Proof.
  apply (eio_inval_block_correct ex_cache 9); [exact ex_cache_blk|rewrite ex_cache_size; lia|rewrite ex_cache_block; lia|lia].
Defined.

(** Each piece [eio_get_iosize] cuts off a bio is not empty, lies inside
    one cache block, and ends at the end of that block unless it is the last. *)
Theorem eio_get_iosize_correct d snum biosize :
  wf_geom d -> block_size d < 2 ^ 23 -> 0 <= snum -> 0 < biosize -> (512 | biosize) ->
  let n := eio_get_iosize d snum biosize in
  0 < n <= biosize /\ (512 | n) /\ snum + n / 512 <= EIO_ROUND_SECTOR d snum + block_size d /\
  (n < biosize -> snum + n / 512 = EIO_ROUND_SECTOR d snum + block_size d).
Proof. apply iosize_ok. Qed.

Lemma eio_get_iosize_correct_witness :
  let n := eio_get_iosize ex_geom 13 8192 in
  0 < n <= 8192 /\ (512 | n) /\ 13 + n / 512 <= EIO_ROUND_SECTOR ex_geom 13 + block_size ex_geom /\
  (n < 8192 -> 13 + n / 512 = EIO_ROUND_SECTOR ex_geom 13 + block_size ex_geom).
Proof. apply (eio_get_iosize_correct ex_geom 13 8192); [exact ex_geom_wf|by vm_compute|lia|lia|by exists 16]. Defined.

(** ** Set locks *)

(** C31: [eio_acquire_set_locks] collects the sets of a bio as sequences that
    list, in strictly increasing order, exactly the sets some sector of the bio
    maps to: every set is locked once, and in the same order by every bio.  It
    fails only when an allocation fails, and then holds nothing. *)
Theorem eio_acquire_set_locks_correct d bi_sector bi_size a :
  wf_geom d -> 0 <= bi_sector -> 512 <= bi_size -> bi_sector + bi_size / 512 < 2 ^ 63 ->
  exists r span a', eio_acquire_set_span d bi_sector bi_size a = Some ((r, span), a') /\
    (r = 0 \/ r = - ENOMEM) /\ (a = [] -> r = 0 /\ a' = []) /\ (r <> 0 -> span = []) /\
    (r = 0 -> StronglySorted Z.lt (seq_sets span) /\
       forall s, s ∈ seq_sets span <-> exists t, bi_sector <= t < bi_sector + bi_size / 512 /\ dbn_set d t = s).
Proof. apply acquire_span_ok. Qed.

Lemma eio_acquire_set_locks_correct_witness :
  exists r span a', eio_acquire_set_span ex_geom 100 65536 [] = Some ((r, span), a') /\
    (r = 0 \/ r = - ENOMEM) /\ ([] = [] :> list bool -> r = 0 /\ a' = []) /\ (r <> 0 -> span = []) /\
    (r = 0 -> StronglySorted Z.lt (seq_sets span) /\
       forall s, s ∈ seq_sets span <-> exists t, 100 <= t < 100 + 65536 / 512 /\ dbn_set ex_geom t = s).
Proof. apply (eio_acquire_set_locks_correct ex_geom 100 65536 []); [exact ex_geom_wf|lia|lia|by vm_compute]. Defined.

(** ** In-core metadata *)

(** C30: [EIO_DBN_SET] and [EIO_DBN_GET] round-trip: a representable sector
    stored in a block of its own set that is not [INVALID] is read back
    exactly, in the 8-byte and in the compressed 4-byte format, and no state
    and no other block's sector changes. *)
Theorem dbn_round_trip d i dbn :
  wf_geom d -> wf_zero d -> dbn_ok d dbn ->
  0 <= i -> i / assoc d = dbn_set d dbn -> EIO_CACHE_STATE_GET d i <> INVALID ->
  exists d', EIO_DBN_SET d i dbn = Some d' /\ EIO_DBN_GET d' i = Some dbn /\
    (forall j, 0 <= j -> i <> j -> EIO_DBN_GET d' j = EIO_DBN_GET d j) /\
    (forall j, EIO_CACHE_STATE_GET d' j = EIO_CACHE_STATE_GET d j) /\ wf_zero d'.
Proof.
  intros Hg Hz Hok Hi Hset Hst. destruct (dbn_set_get d i dbn Hg Hz Hok Hi Hset Hst) as (d' & ? & _ & ? & ? & ? & ? & _).
  by exists d'.
Qed.

(** a block of set 3 in the compressed format *)
Definition ex_cell4 : cache_c := EIO_CACHE_STATE_SET ex_geom4 13 VALID.

Lemma dbn_round_trip_witness :
  exists d', EIO_DBN_SET ex_cell4 13 (2 ^ 20 + 100) = Some d' /\ EIO_DBN_GET d' 13 = Some (2 ^ 20 + 100) /\
    (forall j, 0 <= j -> 13 <> j -> EIO_DBN_GET d' j = EIO_DBN_GET ex_cell4 j) /\
    (forall j, EIO_CACHE_STATE_GET d' j = EIO_CACHE_STATE_GET ex_cell4 j) /\ wf_zero d'.
Proof.
  apply (dbn_round_trip ex_cell4 13 (2 ^ 20 + 100));
    [exact (wf_geom_eq ex_geom4 ex_cell4 eq_refl ex_geom4_wf)|split; vm_compute; intuition discriminate|
     split; vm_compute; intuition discriminate|lia|by vm_compute|by vm_compute].
Defined.

(** [eio_mem_init] fixes a sound geometry: the set number of every sector
    is in range, and it selects the compressed metadata only when there are at
    least [2^15] sets and every sector of the source volume can be compressed. *)
Theorem eio_mem_init_correct d : mem_init_pre d ->
  exists r d', eio_mem_init d = Some (r, d') /\ wf_geom d' /\ num_sets d' = dmc_size d / assoc d /\
    (forall dbn, 0 <= dbn -> exists s, eio_hash_block d' dbn = Some s /\ 0 <= s < num_sets d') /\
    ((r = 1 /\ EIO_MD8 d' = true) \/
     (r = 0 /\ EIO_MD8 d' = false /\ 2 ^ 15 <= num_sets d' /\ eio_to_sector (disk_dev_size d') <= md4_limit d')).
Proof.
  intros Hpre. destruct (eio_mem_init_ok d Hpre) as (r & d' & E & Hg & Hn & Hc). exists r, d'. split_and!; try done.
  intros dbn Hd. exists (dbn_set d' dbn). split; [by apply eio_hash_block_ok|by apply dbn_to_set_spec].
Qed.

Lemma eio_mem_init_correct_witness :
  exists r d', eio_mem_init ex_raw4 = Some (r, d') /\ wf_geom d' /\ num_sets d' = dmc_size ex_raw4 / assoc ex_raw4 /\
    (forall dbn, 0 <= dbn -> exists s, eio_hash_block d' dbn = Some s /\ 0 <= s < num_sets d') /\
    ((r = 1 /\ EIO_MD8 d' = true) \/
     (r = 0 /\ EIO_MD8 d' = false /\ 2 ^ 15 <= num_sets d' /\ eio_to_sector (disk_dev_size d') <= md4_limit d')).
Proof. apply (eio_mem_init_correct ex_raw4). exact ex_raw4_pre. Defined.

(** ** Replacement policies *)

(** C32: whatever the policy (FIFO, LRU or random), [eio_find_reclaim_dbn]
    returns a [VALID] block of the set if the set has one, and leaves the index
    unchanged otherwise; it changes only the data of the policy, whose
    invariant it keeps. *)
Theorem eio_find_reclaim_dbn_correct d set index :
  wf_geom d -> policy_inv d -> 0 <= set < num_sets d ->
  exists i d', eio_find_reclaim_dbn (policy_ops d) (set_start d set) index d = Some (i, d') /\
    pol_only d d' /\ policy_inv d' /\
    ((i ∈ set_blocks d set /\ EIO_CACHE_STATE_GET d i = VALID) \/
     (i = index /\ forall j, j ∈ set_blocks d set -> EIO_CACHE_STATE_GET d j <> VALID)).
Proof. apply find_reclaim_contract. Qed.

Lemma eio_find_reclaim_dbn_correct_witness :
  exists i d', eio_find_reclaim_dbn (policy_ops ex_fifo) (set_start ex_fifo 2) (-1) ex_fifo = Some (i, d') /\
    pol_only ex_fifo d' /\ policy_inv d' /\
    ((i ∈ set_blocks ex_fifo 2 /\ EIO_CACHE_STATE_GET ex_fifo i = VALID) \/
     (i = -1 /\ forall j, j ∈ set_blocks ex_fifo 2 -> EIO_CACHE_STATE_GET ex_fifo j <> VALID)).
Proof.
  apply (eio_find_reclaim_dbn_correct ex_fifo 2 (-1));
    [exact (wf_geom_eq ex_md ex_fifo eq_refl (bi_geom _ ex_md_inv))|exact ex_fifo_inv|by vm_compute].
Defined.

(** Whatever the policy, [eio_policy_clean_set] marks with
    [DISKWRITEINPROG] dirty idle blocks of the set and nothing else: the first
    [to_clean] of them in an order that visits every block of the set once, so
    all of them when there are fewer; it returns their number. *)
Theorem eio_policy_clean_set_correct d set to_clean :
  wf_geom d -> policy_inv d -> 0 <= set < num_sets d -> 0 <= to_clean ->
  exists order nr d' (marked := scan_marked d order (Z.to_nat to_clean)),
    order ≡ₚ set_blocks d set /\
    eio_policy_clean_set (policy_ops d) set to_clean d = Some (nr, d') /\
    nr = Z.of_nat (length marked) /\
    (forall i, EIO_CACHE_STATE_GET d' i =
       if decide (i ∈ marked) then Z.lor (EIO_CACHE_STATE_GET d i) DISKWRITEINPROG
       else EIO_CACHE_STATE_GET d i) /\
    (forall i, md_raw d' i = md_raw d i) /\ index_zero d' = index_zero d /\
    policy_inv d' /\ (exists d0, md_only d d0 /\ pol_only d0 d').
Proof.
  intros Hg Hp Hs Hn. destruct (clean_set_contract d set to_clean Hg Hp Hs Hn) as (order & nr & d' & H1 & H2 & H3 & H4 & H5 & H6 & H7 & H8).
  exists order, nr, d'. split_and!; try done. eexists. split; [apply scan_clean_md_only|exact H8].
Qed.

Lemma eio_policy_clean_set_correct_witness :
  exists order nr d' (marked := scan_marked ex_fifo order (Z.to_nat 3)),
    order ≡ₚ set_blocks ex_fifo 1 /\
    eio_policy_clean_set (policy_ops ex_fifo) 1 3 ex_fifo = Some (nr, d') /\
    nr = Z.of_nat (length marked) /\
    (forall i, EIO_CACHE_STATE_GET d' i =
       if decide (i ∈ marked) then Z.lor (EIO_CACHE_STATE_GET ex_fifo i) DISKWRITEINPROG
       else EIO_CACHE_STATE_GET ex_fifo i) /\
    (forall i, md_raw d' i = md_raw ex_fifo i) /\ index_zero d' = index_zero ex_fifo /\
    policy_inv d' /\ (exists d0, md_only ex_fifo d0 /\ pol_only d0 d').
Proof.
  apply (eio_policy_clean_set_correct ex_fifo 1 3);
    [exact (wf_geom_eq ex_md ex_fifo eq_refl (bi_geom _ ex_md_inv))|exact ex_fifo_inv|by vm_compute|lia].
Defined.

(** LRU replacement evicts the [VALID] block that comes first in the list
    of the set and moves it to the tail; the other blocks keep their order, and
    the lists of the other sets do not change. *)
Theorem eio_lru_find_reclaim_dbn_correct d set index :
  wf_geom d -> lru_inv d -> 0 <= set < num_sets d ->
  let victim := first_valid d (lru_order d set) in
  exists d', eio_lru_find_reclaim_dbn (set_start d set) index d = Some (default index victim, d') /\
    lru_only d d' /\ lru_inv d' /\
    (forall s, 0 <= s < num_sets d -> lru_order d' s =
       match victim with
       | Some i => if decide (s = set) then without i (lru_order d set) ++ [i] else lru_order d s
       | None => lru_order d s
       end).
Proof. apply lru_find_reclaim_spec. Qed.

(** an LRU cache whose block 5 is [VALID] *)
Definition ex_lru5 : cache_c :=
  EIO_CACHE_STATE_SET (eio_lru_pushblks (run (eio_lru_cache_sets_init true) ex_md)) 5 VALID.

Lemma ex_lru5_inv : wf_geom ex_lru5 /\ lru_inv ex_lru5.
Proof.
  pose proof ex_lru_only as [Ho Hi]. pose proof (bi_geom _ ex_md_inv) as Hg. unfold ex_lru5. revert Ho Hi.
  generalize (eio_lru_pushblks (run (eio_lru_cache_sets_init true) ex_md)). intros d Ho Hi.
  pose proof (state_set_md_only d 5 VALID) as (c & c8 & z & ->). split; [|by apply (lru_inv_ext d)].
  apply (wf_geom_eq d); [done|]. apply (wf_geom_eq ex_md); [by apply lru_only_geom|done].
Qed.

Lemma eio_lru_find_reclaim_dbn_correct_witness :
  let victim := first_valid ex_lru5 (lru_order ex_lru5 1) in
  exists d', eio_lru_find_reclaim_dbn (set_start ex_lru5 1) (-1) ex_lru5 = Some (default (-1) victim, d') /\
    lru_only ex_lru5 d' /\ lru_inv d' /\
    (forall s, 0 <= s < num_sets ex_lru5 -> lru_order d' s =
       match victim with
       | Some i => if decide (s = 1) then without i (lru_order ex_lru5 1) ++ [i] else lru_order ex_lru5 s
       | None => lru_order ex_lru5 s
       end).
Proof. apply (eio_lru_find_reclaim_dbn_correct ex_lru5 1 (-1)); [apply ex_lru5_inv|apply ex_lru5_inv|by vm_compute]. Defined.

(** After [eio_lru_cache_sets_init] and [eio_lru_pushblks] the list of
    every set holds the blocks of the set, each once, in increasing order. *)
Theorem eio_lru_pushblks_correct d :
  wf_geom d -> 2 <= assoc d <= EIO_LRU_NULL -> dmc_size d < 2 ^ 31 ->
  exists d1, eio_lru_cache_sets_init true d = Some (0, d1) /\
    lru_inv (eio_lru_pushblks d1) /\ lru_only d (eio_lru_pushblks d1) /\
    (forall set, 0 <= set < num_sets d -> lru_order (eio_lru_pushblks d1) set = set_blocks d set).
Proof. apply lru_pushblks_inv. Qed.

Lemma eio_lru_pushblks_correct_witness :
  exists d1, eio_lru_cache_sets_init true ex_md = Some (0, d1) /\
    lru_inv (eio_lru_pushblks d1) /\ lru_only ex_md (eio_lru_pushblks d1) /\
    (forall set, 0 <= set < num_sets ex_md -> lru_order (eio_lru_pushblks d1) set = set_blocks ex_md set).
Proof. apply (eio_lru_pushblks_correct ex_md); [exact (bi_geom _ ex_md_inv)|by vm_compute|by vm_compute]. Defined.

(** The policy registry: a registered policy is found by its name until it
    is unregistered, and a name is registered at most once. *)
Theorem policy_registry_correct h l :
  NoDup (map sph_name l) ->
  let '(r, l') := eio_register_policy h l in
  NoDup (map sph_name l') /\ (r = 0 <-> sph_name h ∉ map sph_name l) /\
  (r = 0 -> eio_get_policy true (sph_name h) l' = Some (sph_instance h) /\ eio_unregister_policy h l' = (0, l)).
Proof. apply registry_ok. Qed.

Lemma policy_registry_correct_witness :
  let '(r, l') := eio_register_policy eio_lru_ops [eio_fifo_ops; eio_rand_ops] in
  NoDup (map sph_name l') /\ (r = 0 <-> sph_name eio_lru_ops ∉ map sph_name [eio_fifo_ops; eio_rand_ops]) /\
  (r = 0 -> eio_get_policy true (sph_name eio_lru_ops) l' = Some (sph_instance eio_lru_ops) /\
            eio_unregister_policy eio_lru_ops l' = (0, [eio_fifo_ops; eio_rand_ops])).
Proof. apply (policy_registry_correct eio_lru_ops [eio_fifo_ops; eio_rand_ops]). apply (bool_decide_unpack _). by vm_compute. Defined.

(** ** The dirty-set LRU and the clean queue *)

(** [lru_touch] moves the set to the tail of the list with the new time as
    its key and keeps the rest in order; if the list was ordered by time and the
    clock did not go back, it still is. *)
Theorem lru_touch_correct l xs i now :
  SetLru.lru_rep l xs -> by_age l xs -> 0 <= i < ll_max l -> (forall j, j ∈ xs -> key_of l j <= now) ->
  exists l', lru_touch i now (Some l) = Some (0, Some l') /\ SetLru.lru_rep l' (without i xs ++ [i]) /\
    by_age l' (without i xs ++ [i]) /\ key_of l' i = now /\ (forall j, i <> j -> key_of l' j = key_of l j).
Proof.
  intros Hrep Hage Hi Hnow. destruct (lru_touch_rep l xs i now Hrep Hi) as (l' & E & Hr & _ & Hk & Hk').
  exists l'. split_and!; try done. by eapply touch_by_age.
Qed.

(** [lru_rem_head] removes and returns the set that was touched first,
    with the time it was touched; on an empty list it returns [LRU_NULL]. *)
Theorem lru_rem_head_correct l xs :
  SetLru.lru_rep l xs -> by_age l xs ->
  exists l' i t, lru_rem_head (Some l) = Some ((0, i, t), Some l') /\ SetLru.lru_rep l' (tail xs) /\ by_age l' (tail xs) /\
    (i = LRU_NULL <-> xs = []) /\ (xs <> [] -> i ∈ xs /\ t = key_of l i /\ forall j, j ∈ xs -> t <= key_of l j).
Proof. apply rem_head_oldest. Qed.

(** a list holding sets 2 and 0, touched at times 5 and 9 *)
Definition ex_lru_ls : lru_ls :=
  match (lru_touch 2 5 ;; lru_touch 0 9) (match lru_init true 4 with Some (_, l) => l | None => None end) with
  | Some (_, Some l) => l | _ => mk_lru_ls 0 0 0 0 ∅
  end.

Lemma ex_lru_ls_rep : SetLru.lru_rep ex_lru_ls [2; 0] /\ by_age ex_lru_ls [2; 0] /\ ll_max ex_lru_ls = 4.
Proof.
  destruct (lru_init_rep 4) as (l & E & R & M); [lia|].
  destruct (lru_touch_rep l [] 2 5 R) as (l1 & E1 & R1 & M1 & K1 & _); [lia|].
  destruct (lru_touch_rep l1 _ 0 9 R1) as (l2 & E2 & R2 & M2 & K2 & K2'); [lia|].
  assert (El : ex_lru_ls = l2) by (unfold ex_lru_ls; rewrite E; by rewrite (bind_run _ _ _ _ _ E1), E2).
  rewrite El. split_and!; [exact R2| |lia].
  repeat constructor. rewrite K2, K2' by done. lia.
Qed.

Lemma lru_touch_correct_witness :
  exists l', lru_touch 2 12 (Some ex_lru_ls) = Some (0, Some l') /\ SetLru.lru_rep l' (without 2 [2; 0] ++ [2]) /\
    by_age l' (without 2 [2; 0] ++ [2]) /\ key_of l' 2 = 12 /\ (forall j, 2 <> j -> key_of l' j = key_of ex_lru_ls j).
Proof.
  apply (lru_touch_correct ex_lru_ls [2; 0] 2 12); [apply ex_lru_ls_rep|apply ex_lru_ls_rep|by vm_compute|].
  intros j [->|[->|Hj%not_elem_of_nil]%elem_of_cons]%elem_of_cons; [by vm_compute|by vm_compute|destruct Hj].
Defined.

Lemma lru_rem_head_correct_witness :
  exists l' i t, lru_rem_head (Some ex_lru_ls) = Some ((0, i, t), Some l') /\ SetLru.lru_rep l' (tail [2; 0]) /\
    by_age l' (tail [2; 0]) /\ (i = LRU_NULL <-> [2; 0] = []) /\
    ([2; 0] <> [] -> i ∈ [2; 0] /\ t = key_of ex_lru_ls i /\ forall j, j ∈ [2; 0] -> t <= key_of ex_lru_ls j).
Proof. apply (lru_rem_head_correct ex_lru_ls [2; 0]); apply ex_lru_ls_rep. Defined.

(** C33: [eio_comply_dirty_thresholds] ends and never panics; it changes only
    the clean queue, its flags and the dirty-set LRU, and afterwards a set is
    still on the queue, or being cleaned, exactly when its flag says so, at
    most once, and [clean_pendings] still counts these sets. *)
Theorem eio_comply_dirty_thresholds_correct inflight set d :
  num_sets d < 2 ^ 62 -> cleanq_inv inflight d -> (mode d = CACHE_MODE_WB -> dirty_lru_inv d) ->
  (set = -1 \/ 0 <= set < num_sets d) ->
  exists d', eio_comply_dirty_thresholds set d = Some (tt, d') /\ cleanq_only d d' /\
    cleanq_inv inflight d' /\ (mode d = CACHE_MODE_WB -> dirty_lru_inv d').
Proof. apply comply_ok. Qed.

Lemma eio_comply_dirty_thresholds_correct_witness :
  exists d', eio_comply_dirty_thresholds 2 ex_cache = Some (tt, d') /\ cleanq_only ex_cache d' /\
    cleanq_inv [] d' /\ (mode ex_cache = CACHE_MODE_WB -> dirty_lru_inv d').
Proof.
  apply (eio_comply_dirty_thresholds_correct [] 2 ex_cache);
    [rewrite ex_cache_sets; lia|exact (ci_cleanq _ _ ex_cache_inv)|exact (ci_lru _ _ ex_cache_inv)|right; rewrite ex_cache_sets; lia].
Defined.

(** ** Dispatching I/O *)

(** [eio_dispatch_io], whatever the capacities the block layer gives to the
    bios, submits bios that together transfer exactly the sectors of the region
    from or to the buffers, in order: no sector is left out, sent twice or
    paired with a wrong place in memory.  The loop ends. *)
Theorem eio_dispatch_io_correct caps dev_start where_ hddio bvec :
  Forall (fun c => c <> O) caps -> bvecs_fit bvec (io_count where_) -> bvec <> [] ->
  exists bs, eio_dispatch_io caps dev_start where_ hddio bvec = Some bs /\
    flat_map bio_transfer bs =
      region_transfer (io_sector where_ + (if hddio then dev_start else 0)) (io_count where_) bvec.
Proof. apply dispatch_io_ok. Qed.

(** three pages and a half in bios of two *)
Definition ex_bvecs : list bio_vec := [mk_bvec 1 4096 0; mk_bvec 2 4096 0; mk_bvec 3 4096 0; mk_bvec 4 2048 0].

Lemma eio_dispatch_io_correct_witness :
  exists bs, eio_dispatch_io [2; 2]%nat 63 (mk_region HDD 40 28) true ex_bvecs = Some bs /\
    flat_map bio_transfer bs = region_transfer (40 + (if true then 63 else 0)) 28 ex_bvecs.
Proof.
  apply (eio_dispatch_io_correct [2; 2]%nat 63 (mk_region HDD 40 28) true ex_bvecs).
  - repeat constructor; discriminate.
  - cbn. unfold bvec_ok. cbn. repeat split; try lia; try (by exists 8); try (by exists 4); vm_compute; intuition (try discriminate).
  - discriminate.
Defined.

(** an asynchronous I/O of any number of bios notifies its issuer exactly
    once.  In every interleaving of submissions and completions, no step
    touches the context after it was freed; as long as the callback was not
    made some step is possible; when it was made, with the error of the last
    bio that failed, every bio was submitted and has ended, and nothing is left
    to happen. *)
Theorem eio_async_io_notifies_once n errs r : io_reach n errs r ->
  (forall a, enabled a r = true -> is_Some (io_act a r)) /\
  ((io_fired (ctx r) = [] /\ exists a, enabled a r = true) \/
   (io_fired (ctx r) = [last_error errs] /\ unsent r = O /\ in_flight r = O /\ forall a, enabled a r = false)).
Proof. apply async_io_ok. Qed.

(** two bios; the first ends, with an error, before the second is submitted *)
Definition ex_run : io_run := mk_run (mk_io 0 5 [5] true) 0 0 true.
Lemma ex_run_reach : io_reach 2 [5; 0] ex_run.
Proof.
  pose proof (ReachInit 2) as H. pose proof (fun a r' => ReachStep 2 _ _ a r' H) as S1.
  specialize (S1 Submit _ eq_refl eq_refl). pose proof (ReachStep 2 _ _ (End 5) _ S1 eq_refl eq_refl) as S2.
  pose proof (ReachStep 2 _ _ Submit _ S2 eq_refl eq_refl) as S3. pose proof (ReachStep 2 _ _ Drop _ S3 eq_refl eq_refl) as S4.
  exact (ReachStep 2 _ _ (End 0) _ S4 eq_refl eq_refl).
Qed.
Lemma eio_async_io_notifies_once_witness :
  (forall a, enabled a ex_run = true -> is_Some (io_act a ex_run)) /\
  ((io_fired (ctx ex_run) = [] /\ exists a, enabled a ex_run = true) \/
   (io_fired (ctx ex_run) = [last_error [5; 0]] /\ unsent ex_run = O /\ in_flight ex_run = O /\ forall a, enabled a ex_run = false)).
Proof. apply (eio_async_io_notifies_once 2 [5; 0] ex_run ex_run_reach). Defined.
