(* ===== verification/CleanCorrectness.v ===== *)
(** * The theorems about cleaning

    A clean never loses data, whatever fails and whenever the machine stops;
    the clean thread empties its queue; the buffers of a clean. *)

From S2P Require Import Prelude Types Mem DList SetLru Scan Rand Policy Thresh Lookup World Dispatch Disk Clean CleanIo CleanState CleanSet CleanThread WbAlloc Concrete CleanConcrete.

(** C4: [eio_clean_set] writes dirty blocks back without ever losing data: with
    any I/O errors at any of its transfers it does not panic; the sectors the
    cached volume stands for, dirty blocks included, do not change; and after a
    crash at any moment, even with a write half done, recovery from the
    metadata on the SSD finds the same contents.  The dirty counters, the
    states, the metadata on the SSD and the policy stay consistent, the clean
    flags of the set are cleared unless the clean was forced, and everything
    else of the cache is unchanged. *)
Theorem eio_clean_set_correct jiffies w set whole force :
  clean_globals w -> 0 <= set < num_sets (cw_d w) -> set_ready w set ->
  exists w', eio_clean_set jiffies set whole force w = Some (tt, w') /\ clean_effect w w' /\
    (forall s, set_flags_of (cw_d w') s = clean_flags force set s (set_flags_of (cw_d w) s)) /\ ctl (cw_d w') = ctl (cw_d w).
Proof. apply eio_clean_set_ok. Qed.

Lemma cl_num : num_sets (cw_d cl_world) = 2.
Proof. destruct cl_cache_eq as (l & _ & E & _). unfold cl_world. cbn [cw_d]. rewrite E. apply cl_md_size. Qed.

Lemma eio_clean_set_correct_witness :
  exists w', eio_clean_set 5 0 true false cl_world = Some (tt, w') /\ clean_effect cl_world w' /\
    (forall s, set_flags_of (cw_d w') s = clean_flags false 0 s (set_flags_of (cw_d cl_world) s)) /\ ctl (cw_d w') = ctl (cw_d cl_world).
Proof.
  apply (eio_clean_set_correct 5 cl_world 0 true false);
    [exact cl_globals|rewrite cl_num; lia|apply cl_ready; rewrite cl_num; lia].
Defined.



(** as long as no transfer fails, and the user neither stops the clean nor
    removes the cache meanwhile, [eio_clean_all] leaves no dirty block: the
    whole volume is on the disk. *)
Theorem eio_clean_all_complete jiffies w :
  clean_globals w -> all_ready w -> mode (cw_d w) = CACHE_MODE_WB -> healthy w -> clean_wanted w ->
  exists w', eio_clean_all jiffies w = Some (tt, w') /\ nr_dirty (cw_d w') = 0.
Proof. apply eio_clean_all_none_dirty. Qed.

(** the small cache, asked to clean, with devices that work *)
Definition cl_asked : cworld := no_failures (set_cw_d (set_do_clean EIO_CLEAN_START cl_cache) cl_world).

Lemma asked_ok w : clean_globals w -> all_ready w ->
  let w' := no_failures (set_cw_d (set_do_clean EIO_CLEAN_START (cw_d w)) w) in clean_globals w' /\ all_ready w'.
Proof.
  intros Hg Hr w'. destruct (quiet_step (set_do_clean EIO_CLEAN_START) w Hg ltac:(apply quiet_sysctl) ltac:(done)) as [_ F].
  split.
  - destruct (ce_globals _ _ F) as [A1 A2 A3 A4 A5 A6 A7 A8 A9]. by constructor.
  - intros s Hs. destruct (effect_all_ready _ _ F Hr s Hs). by constructor.
Qed.

Lemma eio_clean_all_complete_witness :
  exists w', eio_clean_all (fun s => 5 + s) cl_asked = Some (tt, w') /\ nr_dirty (cw_d w') = 0.
Proof.
  apply (eio_clean_all_complete (fun s => 5 + s) cl_asked);
    [apply (asked_ok cl_world cl_globals cl_ready)|apply (asked_ok cl_world cl_globals cl_ready)|exact cl_mode|split_and!; by vm_compute|split_and!; by vm_compute].
Defined.

(** The clean thread cleans, or with a fast remove gives back, every set
    that was queued when it woke up: afterwards the queue is empty, no set is
    marked as being cleaned, nothing is pending, and no data was lost. *)
Theorem clean_thread_work_correct jiffies systime w :
  clean_globals w -> all_ready w -> cleanq_inv [] (cw_d w) ->
  exists w', clean_thread_work jiffies systime w = Some (tt, w') /\ clean_effect w w' /\
    cleanq_inv [] (cw_d w') /\ cleanq (cw_d w') = [] /\ clean_pendings (cw_d w') = 0.
Proof. apply clean_thread_work_ok. Qed.

(** the small cache with set 0 on the queue *)
Definition cl_queued : cworld := set_cw_d (eio_addto_cleanq 0 true cl_cache) cl_world.

Lemma cl_cleanq : cleanq_inv [] cl_cache.
Proof.
  destruct cl_cache_eq as (l & _ & E & _). rewrite E. clear E. generalize cl_md_cleanq. generalize cl_md. intros d Hd.
  by eapply cleanq_inv_ext; [..|exact Hd].
Qed.

Lemma queued_ok w set : clean_globals w -> all_ready w -> cleanq_inv [] (cw_d w) -> 0 <= set < num_sets (cw_d w) ->
  let w' := set_cw_d (eio_addto_cleanq set true (cw_d w)) w in clean_globals w' /\ all_ready w' /\ cleanq_inv [] (cw_d w').
Proof.
  intros Hg Hr Hq Hs w'. pose proof (world_sets_small w Hg).
  assert (He : clean_effect w w').
  { apply quiet_effect; [done|apply cleanq_only_quiet, addto_cleanq_only|].
    destruct (cg_lru _ Hg) as (l & xs & H1 & H2 & H3). exists l, xs. by rewrite addto_cleanq_lru, addto_cleanq_num. }
  split_and!; [apply He|by apply (effect_all_ready w)|apply addto_cleanq_inv; [done|done|lia]].
Qed.
Lemma cl_queued_ok : clean_globals cl_queued /\ all_ready cl_queued /\ cleanq_inv [] (cw_d cl_queued).
Proof. apply (queued_ok cl_world 0 cl_globals cl_ready cl_cleanq). rewrite cl_num. lia. Qed.

Lemma clean_thread_work_correct_witness :
  exists w', clean_thread_work (fun s => 5 + s) 7 cl_queued = Some (tt, w') /\ clean_effect cl_queued w' /\
    cleanq_inv [] (cw_d w') /\ cleanq (cw_d w') = [] /\ clean_pendings (cw_d w') = 0.
Proof. apply (clean_thread_work_correct (fun s => 5 + s) 7 cl_queued); apply cl_queued_ok. Defined.

(** [eio_clean_aged_sets] ends and takes off the dirty-set LRU exactly the
    sets at its head that were not touched for [time_based_clean_interval]
    minutes, oldest first; each of them that has dirty blocks is on the clean
    queue afterwards; the queue keeps its invariant. *)
Theorem eio_clean_aged_sets_correct HZ cur inflight d l xs :
  CACHE_FAILED_IS_SET d = false -> dirty_set_lru d = Some l -> lru_rep l xs -> ll_max l = num_sets d -> num_sets d < 2 ^ 62 ->
  cleanq_inv inflight d ->
  exists again d' taken rest l', eio_clean_aged_sets HZ cur d = Some (again, d') /\ cleanq_only d d' /\ cleanq_inv inflight d' /\
    xs = taken ++ rest /\ dirty_set_lru d' = Some l' /\ lru_rep l' rest /\
    (forall s, s ∈ taken -> aged HZ cur d (key_of l s) = true /\ (0 < cs_nr_dirty (cache_sets d !!! s) -> s ∈ cleanq d' ++ inflight)) /\
    (forall s, head rest = Some s -> aged HZ cur d (key_of l s) = false) /\
    again = negb (time_based_clean_interval (sysctl_active d) =? 0).
Proof.
  intros Hf El Hrep Hmax Hn Hq. unfold eio_clean_aged_sets. rewrite bind_gets. cbn [id]. rewrite Hf.
  destruct (clean_aged_loop_ok HZ cur inflight xs (dirty_lru_fuel d) d l El Hrep Hmax Hn Hq)
    as (d' & taken & rest & l' & E & O & S & Q & Ex & El' & Hr' & _ & Ht & Hh & _).
  { unfold dirty_lru_fuel. rewrite El, (SetLru.rep_size _ _ Hrep). lia. }
  rewrite (bind_run _ _ _ _ _ E), bind_gets. exists (negb (time_based_clean_interval (sysctl_active d) =? 0)), d', taken, rest, l'.
  split_and!; try done. cbn [id]. by rewrite S.
Qed.

(** set 0 touched at time 1000, set 1 never *)
Lemma ex_touched_ok : exists l, dirty_set_lru (set_dirty_set_lru (Some l) cl_md) = Some l /\ lru_rep l [0] /\ ll_max l = 2 /\ key_of l 0 = 1000.
Proof.
  destruct (lru_init_rep 2) as (l & _ & Hl & Hm); [lia|].
  destruct (lru_touch_rep l [] 0 1000 Hl) as (l' & _ & Hr & Hm' & Hk & _); [lia|]. exists l'. split_and!; [done|exact Hr|congruence|done].
Qed.

Lemma eio_clean_aged_sets_correct_witness :
  exists l again d' taken rest l', eio_clean_aged_sets 100 500000 (set_dirty_set_lru (Some l) cl_md) = Some (again, d') /\ [0] = taken ++ rest /\
    dirty_set_lru d' = Some l' /\ lru_rep l' rest /\ again = true.
Proof.
  destruct ex_touched_ok as (l & E & Hr & Hm & Hk). exists l.
  assert (Hq : cleanq_inv [] (set_dirty_set_lru (Some l) cl_md)).
  { generalize cl_md_cleanq. generalize cl_md. intros d Hd. by eapply cleanq_inv_ext; [..|exact Hd]. }
  assert (En : num_sets (set_dirty_set_lru (Some l) cl_md) = 2) by apply cl_md_size.
  assert (Ef : CACHE_FAILED_IS_SET (set_dirty_set_lru (Some l) cl_md) = false) by by vm_compute.
  assert (Et : time_based_clean_interval (sysctl_active (set_dirty_set_lru (Some l) cl_md)) = 15) by by vm_compute.
  destruct (eio_clean_aged_sets_correct 100 500000 [] (set_dirty_set_lru (Some l) cl_md) l [0]) as (again & d' & taken & rest & l' & H).
  - exact Ef. - exact E. - exact Hr. - rewrite En. exact Hm. - rewrite En. lia. - exact Hq.
  - exists again, d', taken, rest, l'. destruct H as (H1 & _ & _ & H2 & H3 & H4 & _ & _ & H5). rewrite Et in H5. split_and!; done.
Defined.

(** ** The buffers of a clean *)


(** 34 pages before the allocator fails *)
Definition cl_kmem : kmem := mk_kmem {[500]} (map Some (seqZ 1 34) ++ [None]).
Definition cl_oracle : wb_oracle := mk_wb_oracle true true true 0 true (fun _ => mk_bvec 7 7 7) (fun _ => 7).
Definition cl_res : wb_res := mk_wb_res cl_md None 0 None 0 false false cl_kmem.



(** When the metadata-update queue cannot be created,
    [eio_allocate_wb_resources] frees the buffers of the clean and the
    dirty-set LRU and reports the error, but the clean thread it started keeps
    running; when the clean thread cannot be started, the metadata-update queue
    is still created and stays. *)
Theorem eio_allocate_wb_resources_leaks :
  (exists r', eio_allocate_wb_resources {| cl_oracle with make_workqueue := false |} cl_res = Some (- ENOMEM, r') /\
     wb_blank r' /\ dirty_set_lru (wr_d r') = None /\ clean_thread r' = true) /\
  (exists r', eio_allocate_wb_resources {| cl_oracle with start_clean_thread := - EINVAL |} cl_res = Some (- EINVAL, r') /\
     wb_blank r' /\ dirty_set_lru (wr_d r') = None /\ mdupdate_q r' = true).
Proof.
  split; (eexists; split; [vm_compute; reflexivity|]); repeat split.
Qed.
