(* ===== verification/MdCorrectness.v ===== *)
(** * The theorems about metadata updates

    A write that was acknowledged survives a crash: its blocks are dirty in the
    metadata on the SSD before its bio ends.  Every bio ends once. *)

From S2P Require Import Prelude Types Mem DList SetLru Scan Policy Thresh Lookup SetSeq World Dispatch Disk Clean CleanIo CleanState CleanSet WbAlloc IoWorld MdUpdate MdWrite MdDo Refs MdFlow Concrete CleanConcrete IoConcrete.
From Stdlib Require Import Sorting.Sorted.

Section kernel.
Context {K : Kernel}.

(** C1: a metadata update makes the write it serves durable before it ends its
    bio.  Provided no transfer of the update was refused or failed: the update
    runs; its callbacks, in whatever order, queue its end exactly once, after
    the last one; the end runs; then the blocks are dirty, and recovery from
    the SSD as it is then finds, in every sector of these blocks, the data the
    SSD held for them, and everywhere else what the cache stands for. *)
Theorem mdupdate_durable k0 held inflight jiffies w m r idx :
  mdu_ready w m r idx -> mdu_env k0 held inflight w m r idx ->
  exists w1 r1 cb, eio_do_mdupdate m w = Some (tt, w1) /\ completions w1 = completions w ++ cb /\ mdreqs w1 !! m = Some r1 /\
    (md_error r1 = 0 -> forall es, es ≡ₚ cb.*2 -> Forall (eq 0) es -> exists w2 w3,
       mfor es (fun e => eio_mdupdate_callback e m) w1 = Some (tt, w2) /\ md_queue w2 = md_queue w ++ [PostMdupdate m] /\
       bio_ended w2 = bio_ended w /\ eio_post_mdupdate jiffies m w2 = Some (tt, w3) /\
       (forall i, i ∈ idx -> EIO_CACHE_STATE_GET (io_d w3) i = ALREADY_DIRTY) /\
       (forall s, 0 <= s -> recovered (io_d w3) (cw_k (io_cw w3)) s = contents (committed (io_d w3)) (io_d w3) (cw_k (io_cw w3)) s) /\
       (forall i b o, i ∈ idx -> EIO_DBN_GET (io_d w) i = Some b -> 0 <= o < block_size (io_d w) ->
          recovered (io_d w3) (cw_k (io_cw w3)) (b + o) = block_data (io_d w) (cw_k (io_cw w)) i o) /\
       refs_ok k0 held w3).
Proof.
  intros Hq Henv. destruct (flow_ok k0 held inflight jiffies w m r idx Hq Henv) as (w1 & r1 & cb & q & E1 & O1 & Hflow).
  exists w1, r1, cb. split; [done|]. pose proof O1 as [F (st & Ed) _ _ _ _ Hsub Hrec Hsound Hcont Hsucc _ _].
  split; [by rewrite F|]. split; [rewrite F; apply lookup_insert_eq|]. intros Ee es Hes Hz.
  destruct (Hflow Ee es Hes) as (w2 & r2 & w3 & E2 & Q2 & Er2 & _ & _ & Es2 & Ec2 & _ & En2 & E3 & [(d & P & Qd) [Hk _] _ _ _ Hr3 _ _]).
  assert (Ez : md_error r2 = 0) by (rewrite Er2; apply first_error_zero; by split). rewrite Ez in P.
  assert (Hall : forall i, i ∈ idx -> i ∈ q).
  { apply Hsucc; [done|]. apply list.Forall_forall. intros c Hc. symmetry. apply (proj1 (list.Forall_forall _ _) Hz). rewrite Hes. by apply list_elem_of_fmap_2. }
  destruct Hq as [_ B _ Hset _ _ _ Hst _ _]. pose proof (bi_geom _ B) as Hg.
  assert (Ed2 : io_d w2 = set_stats st (io_d w)) by (unfold io_d; rewrite Ec2; exact Ed). rewrite Ed2 in P.
  assert (P' : posted (md_set r2) 0 idx (io_d w) d).
  { destruct P as [(c & c8 & z & cs & n & st' & ->) P2 P3 P4 P5 P6]. constructor; try done. exists c, c8, z, cs, n, st'. by destruct (io_d w). }
  pose proof (quiet_layout _ _ Qd) as El3. destruct (posted_geom _ _ _ _ _ P') as [El1 _].
  set (k1 := cw_k (io_cw w1)) in *. assert (Ek : cw_k (io_cw w3) = k1) by by rewrite Hk, Ec2.
  assert (Hrec3 : forall s, 0 <= s -> recovered (io_d w3) k1 s = contents (committed_with (io_d w) idx) (io_d w) k1 s).
  { intros s Hs. rewrite (recovered_layout d _ _ _ El3), (recovered_layout _ _ _ _ El1), (Hrec s Hs), (Hcont _ s Hs).
    apply contents_ext; [done|]. intros i _. split; [|done]. unfold committed_with. f_equal.
    apply bool_decide_ext. split; [apply Hsub|apply Hall]. }
  exists w2, w3. split; [done|]. split; [done|]. split; [done|]. split; [done|]. split; [|split; [|split]].
  - intros i Hi. rewrite (same_md_state _ _ (q_md _ _ Qd)), (po_state _ _ _ _ _ P'), bool_decide_true by done. done.
  - intros s Hs. rewrite Ek, Hrec3, <-(posted_contents _ _ _ d _ s Hg Hs P') by done. symmetry. apply contents_ext; [done|].
    intros i _. split; [|by apply same_md_dbn, Qd]. unfold committed. by rewrite (same_md_state _ _ (q_md _ _ Qd)).
  - intros i b o Hi Eb Ho. destruct (Hst i Hi) as [Hib Hs]. pose proof (set_blocks_range _ _ i Hg Hset Hib) as Hir.
    destruct (bi_dbn _ B i Hir) as (b' & Eb' & Hok & Hal & Hdset); [by rewrite Hs|]. rewrite Eb in Eb'. injection Eb' as <-.
    destruct (sector_of_block (io_d w) B b o (proj1 Hok) Hal Ho) as [Er Eset]. rewrite Ek, Hrec3, Hcont by (destruct Hok; lia).
    assert (Hin : i ∈ set_blocks (io_d w) (dbn_set (io_d w) (b + o))).
    { rewrite Eset. apply (elem_of_set_blocks _ _ _ Hg). by rewrite Hdset. }
    assert (Hp : forall j, committed_with (io_d w) idx j = true -> EIO_CACHE_STATE_GET (io_d w) j <> INVALID).
    { intros j. apply (committed_valid (io_d w) (md_set r) idx Hst idx). auto. }
    rewrite (contents_held (io_d w) B _ Hp _ (b + o) i); [|destruct Hok; lia|done|].
    + rewrite Er. by replace (b + o - b) with o by lia.
    + apply held_by_spec. rewrite Er. split; [|done]. unfold committed_with. by rewrite (bool_decide_true (i ∈ idx)), orb_true_r.
  - done.
Qed.

(** [eio_do_mdupdate] never panics and is safe at every moment: with any
    transfer refused, failed or cut short by a crash, recovery finds each block
    of the update either as it was or dirty with its new data, and everything
    else as before; the metadata stays sound for the blocks that were
    committed.  The callbacks to come are all of this request, one for each hold
    it has, unless a transfer was refused. *)
Theorem eio_do_mdupdate_correct w m r idx : mdu_ready w m r idx ->
  exists w' r' cb q, eio_do_mdupdate m w = Some (tt, w') /\ mdu_outcome w m r idx w' r' cb q.
Proof. apply eio_do_mdupdate_ok. Qed.

(** [eio_post_mdupdate] settles an update: its blocks become dirty, with
    the dirty counters of the set and the cache raised accordingly, or on an
    error invalid; every split of the update ends and is freed, and a bio ends,
    once and with the error of the update, exactly when its last split did; then
    the update starts again if other splits are pending, and is given back
    otherwise.  Nothing is written to the devices. *)
Theorem eio_post_mdupdate_correct k0 held inflight jiffies w m r idx : post_ready k0 held inflight w m r idx ->
  exists w', eio_post_mdupdate jiffies m w = Some (tt, w') /\ post_outcome k0 held inflight w m r idx w'.
Proof. apply eio_post_mdupdate_ok. Qed.

(** [eio_md_write] hands over every split of a bio exactly once.  Before the
    last of them it only adds its split to the bio's list, in ascending order of
    sets; with the last one each set of the splits has a request, the pending
    splits of each set grow by exactly those of the bio, and the requests
    started here, no others, are scheduled. *)
Theorem eio_md_write_correct w j e eb c : write_ended w j e eb c ->
  exists l w', eio_md_write j w = Some (tt, w') /\ l ≡ₚ e :: bc_mdlist c /\ Sorted (by_set (cacheset_of w)) l /\ jobs w' = delete j (jobs w) /\
    if bc_mdwait c =? 1
    then exists new rest, bc_mdreqs c = new ++ rest /\ md_queue w' = md_queue w ++ map DoMdupdate new /\
      bcs w' = <[eb_bc eb := set_bc_mdwait 0 (set_bc_mdlist [] (set_bc_mdreqs rest c))]> (bcs w) /\
      (forall s, pending_of w' s = of_set w s l ++ pending_of w s) /\
      (forall x s, x ∈ l -> cacheset_of w x = Some s -> is_Some (cs_req w' s)) /\
      (forall s m, cs_req w' s = Some m -> cs_req w s = Some m \/ cs_req w s = None /\ m ∈ new) /\ quiet (io_d w) (io_d w')
    else md_queue w' = md_queue w /\ bcs w' = <[eb_bc eb := set_bc_mdwait (bc_mdwait c - 1) (set_bc_mdlist l c)]> (bcs w) /\ io_cw w' = io_cw w.
Proof.
  intros Hw. destruct (eio_md_write_ok w j e eb c Hw) as (l & w' & E & Hp & Hs & H). exists l, w'. split; [done|]. split; [done|]. split; [done|].
  destruct (Z.eqb_spec (bc_mdwait c) 1) as [E1|_]; [|by subst w'].
  destruct H as [(q & cs & ms & bc' & F) Hq (new & rest & N1 & N2 & N3 & N4) _ Ha Hpe _].
  split; [by rewrite F|]. exists new, rest. split; [exact N1|]. split; [exact N3|]. split; [|split; [exact Hpe|split; [exact Ha|split; [|exact Hq]]]].
  - rewrite N2. cbn. rewrite insert_insert_eq. rewrite E1. by destruct c.
  - intros s m Em. destruct (N4 s m Em) as [?|(? & ? & _)]; [by left|by right].
Qed.

End kernel.

(** ** Witnesses *)
Lemma mdupdate_durable_witness :
  exists w1 r1 cb, eio_do_mdupdate 1 (md_start []) = Some (tt, w1) /\ completions w1 = [] ++ cb /\ mdreqs w1 !! 1 = Some r1 /\
    (md_error r1 = 0 -> forall es, es ≡ₚ cb.*2 -> Forall (eq 0) es -> exists w2 w3,
       mfor es (fun e => eio_mdupdate_callback e 1) w1 = Some (tt, w2) /\ md_queue w2 = [] ++ [PostMdupdate 1] /\
       bio_ended w2 = [] /\ eio_post_mdupdate 9 1 w2 = Some (tt, w3) /\
       (forall i, i ∈ [5] -> EIO_CACHE_STATE_GET (io_d w3) i = ALREADY_DIRTY) /\
       (forall s, 0 <= s -> recovered (io_d w3) (cw_k (io_cw w3)) s = contents (committed (io_d w3)) (io_d w3) (cw_k (io_cw w3)) s) /\
       (forall i b o, i ∈ [5] -> EIO_DBN_GET (io_d (md_start [])) i = Some b -> 0 <= o < block_size (io_d (md_start [])) ->
          recovered (io_d w3) (cw_k (io_cw w3)) (b + o) = block_data (io_d (md_start [])) (cw_k (io_cw (md_start []))) i o) /\
       refs_ok md_kmem0 (fun _ => 0) w3).
Proof. apply (mdupdate_durable md_kmem0 (fun _ => 0) [] 9 (md_start []) 1 md_req [5]); apply md_start_ok; constructor. Defined.

Lemma eio_do_mdupdate_correct_witness :
  exists w' r' cb q, eio_do_mdupdate 1 (md_start [IoFailed 5 {[144]}]) = Some (tt, w') /\
    mdu_outcome (md_start [IoFailed 5 {[144]}]) 1 md_req [5] w' r' cb q.
Proof. apply (eio_do_mdupdate_correct (md_start [IoFailed 5 {[144]}]) 1 md_req [5]). apply md_start_ok. by repeat constructor. Defined.


Lemma eio_post_mdupdate_correct_witness :
  exists w', eio_post_mdupdate 9 1 md_ended = Some (tt, w') /\ post_outcome md_kmem0 (fun _ => 0) [] md_ended 1 md_req_ended [5] w'.
Proof. apply (eio_post_mdupdate_correct md_kmem0 (fun _ => 0) [] 9 md_ended 1 md_req_ended [5]). apply md_ended_ok. Defined.

Lemma eio_md_write_correct_witness :
  exists l w', eio_md_write 7 md_written = Some (tt, w') /\ l ≡ₚ [1] /\ Sorted (by_set (cacheset_of md_written)) l /\ jobs w' = delete 7 (jobs md_written) /\
    exists new rest, [1] = new ++ rest /\ md_queue w' = [] ++ map DoMdupdate new /\
      bcs w' = <[1 := set_bc_mdwait 0 (set_bc_mdlist [] (set_bc_mdreqs rest md_bc_wait))]> (bcs md_written) /\
      (forall s, pending_of w' s = of_set md_written s l ++ pending_of md_written s) /\
      (forall x s, x ∈ l -> cacheset_of md_written x = Some s -> is_Some (cs_req w' s)) /\
      (forall s m, cs_req w' s = Some m -> cs_req md_written s = Some m \/ cs_req md_written s = None /\ m ∈ new) /\ quiet (io_d md_written) (io_d w').
Proof. apply (eio_md_write_correct md_written 7 1 md_ebio md_bc_wait). apply md_written_ok. Defined.

(** ** Two behaviours on errors *)

#[local] Definition end_of {A} (r : option (A * io_world)) : option io_world := option_map snd r.

(** when the write of an update is refused at its submission, the update
    never ends: it keeps a hold that no callback will drop, its end is not
    queued, and its bio stays open. *)
Theorem mdupdate_refused_stalls : exists w r,
  eio_do_mdupdate 1 (md_start [IoRefused (- ENODEV)]) = Some (tt, w) /\ completions w = [] /\ md_queue w = [] /\
  mdreqs w !! 1 = Some r /\ md_error r = - ENODEV /\ md_holdcount r = 1 /\ inprog_mdlist r = [1] /\ bio_ended w = [].
Proof.
  assert (H : option_map (fun w => (completions w, md_queue w, option_map (fun r => (md_error r, md_holdcount r, inprog_mdlist r)) (mdreqs w !! 1), bio_ended w))
    (end_of (eio_do_mdupdate 1 (md_start [IoRefused (- ENODEV)]))) = Some ([], [], Some (- ENODEV, 1, [1]), [])) by by vm_compute.
  destruct (eio_do_mdupdate _ _) as [[[] w]|]; [|done]. cbn in H. destruct (mdreqs w !! 1) as [r|] eqn:E; [|done].
  injection H as H1 H2 H3 H4 H5 H6. by exists w, r.
Qed.

(** when the write of an update reports an error although it reached the
    SSD, [eio_post_mdupdate] forgets the block: in memory it is invalid and the
    volume reads the disk, but the metadata on the SSD says the block is dirty,
    and recovery would take its data instead. *)
Theorem mdupdate_failed_stays_on_ssd : exists w,
  (eio_do_mdupdate 1 ;; eio_mdupdate_callback 5 1 ;; eio_post_mdupdate 9 1) (md_start [IoFailed 5 {[144]}]) = Some (tt, w) /\ bio_ended w = [(1, 5)] /\
  EIO_CACHE_STATE_GET (io_d w) 5 = INVALID /\ volume (io_d w) (cw_k (io_cw w)) 32 = Raw 32 /\
  recovered (io_d w) (cw_k (io_cw w)) 32 = Raw 2000.
Proof.
  assert (H : option_map (fun w => (bio_ended w, EIO_CACHE_STATE_GET (io_d w) 5, volume (io_d w) (cw_k (io_cw w)) 32, recovered (io_d w) (cw_k (io_cw w)) 32))
    (end_of ((eio_do_mdupdate 1 ;; eio_mdupdate_callback 5 1 ;; eio_post_mdupdate 9 1) (md_start [IoFailed 5 {[144]}]))) = Some ([(1, 5)], INVALID, Raw 32, Raw 2000))
    by by vm_compute.
  destruct ((_ ;; _) _) as [[[] w]|]; [|done]. cbn [end_of option_map snd] in H. injection H as H1 H2 H3 H4. by exists w.
Qed.
