(* ===== verification/IoCorrectness.v ===== *)
(** * Properties of the I/O path *)

From S2P Require Import Prelude Types Mem DList SetLru Scan Rand Policy Thresh Lookup SetSeq World Dispatch Disk Clean CleanIo CleanState CleanSet CleanThread WbAlloc IoWorld MdUpdate IoPath IoMap Refs MdFlow Split Mapping Hits Concrete CleanConcrete IoConcrete.

(** C17: [eio_map] never panics before it serves a bio, and loses nothing.  A
    bio the cache takes is either ended at once with ENOMEM, exactly once, and
    only if an allocation failed, with every object, lock and hold as before; or
    it has a new container, held once by [eio_map] and once by each split, with
    the locks of exactly the sets of its sectors in write-back mode, and splits,
    each in one block, in ascending order of blocks, that cover its sectors and
    its memory; these go to [eio_read] or [eio_write].  Either way the
    references between the objects stay consistent. *)
Theorem eio_map_correct {K : Kernel} k0 held jiffies w bio_ b :
  refs_ok k0 held w -> bios w !! bio_ = Some b -> (forall b' c', bcs w !! b' = Some c' -> bc_bio c' <> bio_) ->
  bio_ok b -> wf_geom (io_d w) -> block_size (io_d w) < 2 ^ 23 -> cacheable (io_d w) b ->
  (exists w', eio_map jiffies bio_ w = Some (DM_MAPIO_SUBMITTED, w') /\ map_given_up k0 held w bio_ w') \/
  (exists bc l w1, eio_map jiffies bio_ w = (map_rest jiffies b bc l ;; ret DM_MAPIO_SUBMITTED) w1 /\ map_divided k0 held w bio_ b bc l w1).
Proof. apply eio_map_ok. Qed.

Lemma eio_map_correct_witness :
  let w := io_world_of cl_cache (io_bio 32 8192) [] [] in
  (exists w', eio_map 9 1 w = Some (DM_MAPIO_SUBMITTED, w') /\ map_given_up io_kmem0 (fun _ => 0) w 1 w') \/
  (exists bc l w1, eio_map 9 1 w = (map_rest 9 (io_bio 32 8192) bc l ;; ret DM_MAPIO_SUBMITTED) w1 /\ map_divided io_kmem0 (fun _ => 0) w 1 (io_bio 32 8192) bc l w1).
Proof.
  intros w. apply (eio_map_correct io_kmem0 (fun _ => 0) 9 w 1 (io_bio 32 8192));
    [apply io_refs|done|intros b' c' E; destruct (lookup_empty_Some (M := gmap Z) b' c' E)|exact io_bio_ok|exact cl_cache_wf|by vm_compute|exact cl_cacheable].
Defined.

(** a discard is ended with success and changes nothing; a write to a
    read-only cache is ended with EPERM, any bio of a cache whose disk failed
    with ENODEV: once, without an object, a lock or a transfer. *)
Theorem eio_map_rejects {K : Kernel} jiffies w bio_ b err : bios w !! bio_ = Some b -> bi_idx b = 0 -> map_reject (io_d w) b err ->
  exists d', eio_map jiffies bio_ w = Some (DM_MAPIO_SUBMITTED, set_bio_ended (bio_ended w ++ [(bio_, err)]) (with_d d' w)) /\ counters (io_d w) d'.
Proof. apply map_reject_ok. Qed.

Definition failed_cache : cache_c := set_cache_flags CACHE_FLAGS_FAILED cl_cache.
Lemma eio_map_rejects_witness :
  let w := io_world_of failed_cache (io_bio 32 8192) [] [] in
  exists d', eio_map 9 1 w = Some (DM_MAPIO_SUBMITTED, set_bio_ended (bio_ended w ++ [(1, - ENODEV)]) (with_d d' w)) /\ counters (io_d w) d'.
Proof.
  intros w. apply (eio_map_rejects 9 w 1 (io_bio 32 8192)); [done|done|]. apply RejFailed; [done|by left; vm_compute|by vm_compute].
Defined.

(** the splits [eio_map] makes of a bio, or of its part before an allocation
    that failed, are the bio: taken together, in order, they transfer each
    sector of the bio with the memory the bio gives for it; each lies in one
    block, no two in the same; the elements of each fit its size; each holds the
    container once, and no other object changes. *)
Theorem map_split_correct w bio_ bc b c : bios w !! bio_ = Some b -> bcs w !! bc = Some c -> wf_geom (io_d w) -> block_size (io_d w) < 2 ^ 23 ->
  bio_ok b -> 0 <= bc_holdcount c -> bc_holdcount c + bi_size b / 512 < 2 ^ 31 ->
  exists l failed w' ebs,
    map_split (S (Z.to_nat (eio_to_sector (bi_size b)))) bio_ bc (bi_sector b) (bi_size b) 0 w = Some ((l, failed), w') /\
    split_done w bio_ bc b c l failed w' /\ Forall2 (fun e eb => ebios w' !! e = Some eb) l ebs /\
    splits_of (io_d w) bc b (bi_sector b) (bi_size b / 512) (bvec_slots (bi_io_vec b)) failed ebs.
Proof.
  intros Eb Ec Hg Hbs [Hidx Hvecs Hsec (k & Ek & Hk & Hk2 & Hend & Hlen)] Hc0 Hc.
  assert (Hsz : bi_size b / 512 = k) by (rewrite Ek, Z.mul_comm, Z.div_mul; lia). rewrite Hsz in *.
  assert (E0 : drop (Z.to_nat (bi_idx b)) (bi_io_vec b) = bi_io_vec b) by by rewrite Hidx.
  assert (Hpos : at_pos (bi_io_vec b) 0).
  { destruct (bi_io_vec b) as [|v l]; [split_and!; [constructor|done|by exists 0|done]|].
    split_and!; [done|done|by exists 0|]. by apply Forall_cons in Hvecs as [[[? _] _] _]. }
  destruct (map_split_ok (S (Z.to_nat (eio_to_sector (bi_size b)))) w bio_ bc b c (bi_sector b) k 0 Eb Ec Hg Hbs)
    as (l & failed & w' & ebs & E & D & HF & HS); rewrite ?E0, ?rest_zero; [done|done|lia|done|lia|done|done|done|rewrite sector_div; lia|].
  rewrite E0, rest_zero in HS. rewrite <-Ek in E. by exists l, failed, w', ebs.
Qed.

Lemma map_split_correct_witness :
  let w := set_bcs {[7 := mapped_bc 1 9 []]} (io_world_of cl_cache (io_bio 32 8192) [] [true; false]) in
  exists l failed w' ebs, map_split 17 1 7 32 8192 0 w = Some ((l, failed), w') /\
    split_done w 1 7 (io_bio 32 8192) (mapped_bc 1 9 []) l failed w' /\ Forall2 (fun e eb => ebios w' !! e = Some eb) l ebs /\
    splits_of (io_d w) 7 (io_bio 32 8192) 32 16 (bvec_slots (bi_io_vec (io_bio 32 8192))) failed ebs.
Proof.
  intros w. apply (map_split_correct w 1 7 (io_bio 32 8192) (mapped_bc 1 9 [])); [done|done|exact cl_cache_wf|by vm_compute|exact io_bio_ok|done|by vm_compute].
Defined.

(** C20: the two ends of a write that goes to the disk and to the SSD commute.
    For a split whose block is written by both, and was not dirty, it does not
    matter whether the end of the SSD's transfer or [eio_flag_abios] for the
    disk's comes first: both orders run without a panic to the same state, in
    which the split ended exactly once, its job is freed, and the block is valid
    or, if the SSD's transfer failed or an invalidation waited, given up. *)
Theorem uncached_write_ends_commute {K : Kernel} k0 held jiffies w e eb j jb q inv : split_writing k0 held w e eb j jb q ->
  exists w', (eio_post_io_callback jiffies j ;; flag_abio jiffies inv e) w = Some (tt, w') /\
    (flag_abio jiffies inv e ;; eio_post_io_callback jiffies j) w = Some (tt, w') /\
    refs_ok k0 held w' /\ endio_done e eb 0 (both_ended w (eb_index eb) j (job_error jb) q) w'.
Proof. apply ends_commute. Qed.

Lemma uncached_write_ends_commute_witness :
  exists w', (eio_post_io_callback 9 7 ;; flag_abio 9 false 1) wr_world = Some (tt, w') /\
    (flag_abio 9 false 1 ;; eio_post_io_callback 9 7) wr_world = Some (tt, w') /\
    refs_ok md_kmem0 (fun _ => 0) w' /\ endio_done 1 wr_ebio 0 (both_ended wr_world 5 7 5 false) w'.
Proof. apply (uncached_write_ends_commute md_kmem0 (fun _ => 0) 9 wr_world 1 wr_ebio 7 wr_job false false wr_world_ok). Defined.


(** a write to both devices that hits a dirty block reports success although
    the SSD's transfer failed, when that transfer ends before the disk's: the
    bio ends without error, but the volume still shows the old data. *)
Theorem dirty_write_error_lost : exists w,
  io_events 9 [BioArrives 1; TransferEnds 0; TransferEnds 0; CallbackWork 0; CallbackWork 0]
    (io_world_of keep_cache (io_bio 16 4096) [IoFailed 5 ∅; IoOk] []) = Some w /\
  io_quiet w = true /\ bio_ended w = [(1, 0)] /\ cw_mem (io_cw w) !! (300, 0) = Some (Raw 5000) /\
  volume (io_d w) (cw_k (io_cw w)) 16 = Raw 1000.
Proof.
  assert (H : option_map (fun w => (io_quiet w, bio_ended w, cw_mem (io_cw w) !! (300, 0), volume (io_d w) (cw_k (io_cw w)) 16))
    (io_events 9 [BioArrives 1; TransferEnds 0; TransferEnds 0; CallbackWork 0; CallbackWork 0]
      (io_world_of keep_cache (io_bio 16 4096) [IoFailed 5 ∅; IoOk] [])) = Some (true, [(1, 0)], Some (Raw 5000), Raw 1000)) by by vm_compute.
  destruct (io_events _ _ _) as [w|]; [|done]. cbn [option_map] in H. injection H as H1 H2 H3 H4. by exists w.
Qed.

(** C16: a read that hits the cache gives the volume's data.  The read of a split
    from its block is either submitted, and when its transfer ends without error
    and the block is dirty or agrees with the disk, each sector of the split's
    memory holds what the volume holds for it, and no other memory changes; or
    it is refused, or its job cannot be allocated, and the split ends at once
    with an error, the block given up unless it is dirty. *)
Theorem cached_read_correct {K : Kernel} k0 held jiffies w e eb : refs_ok k0 held w -> ebios w !! e = Some eb -> on_block (io_d w) eb ->
  NoDup (split_slots eb) -> CACHE_DEGRADED_IS_SET (io_d w) = false -> io_result_ok (next_res (io_cw w)) ->
  (exists w', eio_cached_read jiffies e w = Some (tt, w') /\ read_started w e eb w') \/
  (exists err w1 w', err <> 0 /\ eio_cached_read jiffies e w = Some (tt, w') /\ refs_ok k0 held w' /\
     hit_refused (read_refused (eb_index eb)) w w1 /\ endio_done e eb err w1 w').
Proof.
  intros R Ee H Hnd Hd Hr. destruct (eio_cached_read_ok k0 held jiffies w e eb R Ee H Hd) as [(km & d' & Hc & E0 & E)|?]; [left|by right].
  eexists. split; [exact E|]. by apply hit_read_started.
Qed.

Lemma cached_read_correct_witness :
  let w := hit_start READ (reading false) [IoFailed 5 ∅] ∅ in
  (exists w', eio_cached_read 9 1 w = Some (tt, w') /\ read_started w 1 (hit_ebio READ) w') \/
  (exists err w1 w', err <> 0 /\ eio_cached_read 9 1 w = Some (tt, w') /\ refs_ok md_kmem0 (fun _ => 0) w' /\
     hit_refused (read_refused 5) w w1 /\ endio_done 1 (hit_ebio READ) err w1 w').
Proof.
  intros w. assert (A : 0 <= (reading false) < 256 /\ Z.land (reading false) 3 = VALID) by done. destruct A as [A1 A2]. destruct (hit_on_block READ (reading false) A1 A2) as [H Hnd]. destruct (hit_cache_facts (reading false) A1 A2) as (_ & _ & _ & _ & _ & Hd).
  apply (cached_read_correct md_kmem0 (fun _ => 0) 9 w 1 (hit_ebio READ)); [apply hit_refs|exact eq_refl|exact H|exact Hnd|exact Hd|change (5 <> 0); lia].
Defined.

(** C19: the end of a read from the SSD.  The callback work of a read that
    succeeded, or of a dirty block, ends the split once, with the transfer's
    error, frees its job and settles the block: valid again, or given up if an
    invalidation waited.  A read of a clean block that failed is not reported:
    the block is marked as read from the disk and the job is queued for the work
    that repeats it there, which is scheduled. *)
Theorem cached_read_ends_correct {K : Kernel} k0 held jiffies w e eb j jb s : split_reading k0 held w e eb j jb s ->
  let err := job_error jb in let i := eb_index eb in
  exists w', eio_post_io_callback jiffies j w = Some (tt, w') /\ refs_ok k0 held w' /\
    if decide (err = 0 \/ s = ALREADY_DIRTY)
    then endio_done e eb err (set_jobs (delete j (jobs w)) (with_d (settle_read s err i (read_errs err (io_d w))) w)) w'
    else exists q, s = reading q /\ read_deferred w eb j err q w'.
Proof. apply read_ends_ok. Qed.

(** the read of [hit_ebio], job 7, and its repetition *)
Definition hit_job (action : job_action) (err : Z) : kcached_job := mk_job (Some 1) (mk_region HDD 34 4) None 5 action err.

Lemma hit_reading err : split_reading md_kmem0 (fun _ => 0) (hit_start READ (reading false) [] {[7 := hit_job READCACHE err]}) 1 (hit_ebio READ) 7 (hit_job READCACHE err) (reading false).
Proof.
  assert (A : 0 <= (reading false) < 256 /\ Z.land (reading false) 3 = VALID) by done. destruct A as [A1 A2]. destruct (hit_cache_facts (reading false) A1 A2) as (_ & Es & _). destruct (hit_on_block READ (reading false) A1 A2) as [H _].
  constructor; [apply hit_refs|exact eq_refl|cbn; lia|exact eq_refl|by split_and!|split; [exact Es|right; by exists false]|exact (on_dbn _ _ H)].
Qed.
Lemma cached_read_ends_correct_witness :
  let w := hit_start READ (reading false) [] {[7 := hit_job READCACHE 5]} in
  exists w', eio_post_io_callback 9 7 w = Some (tt, w') /\ refs_ok md_kmem0 (fun _ => 0) w' /\
    if decide (5 = 0 \/ reading false = ALREADY_DIRTY)
    then endio_done 1 (hit_ebio READ) 5 (set_jobs (delete 7 (jobs w)) (with_d (settle_read (reading false) 5 5 (read_errs 5 (io_d w))) w)) w'
    else exists q, reading false = reading q /\ read_deferred w (hit_ebio READ) 7 5 q w'.
Proof. exact (cached_read_ends_correct md_kmem0 (fun _ => 0) 9 _ 1 (hit_ebio READ) 7 (hit_job READCACHE 5) (reading false) (hit_reading 5)). Defined.

(** a read that failed on the SSD is served by the disk.  Its repetition is
    submitted to the disk, and when that ends without error the split's memory
    holds the volume's data; or it is refused, the block is given up and the
    split ends once with the error. *)
Theorem failed_read_repeated {K : Kernel} k0 held jiffies w e eb j jb q : refs_ok k0 held w -> ebios w !! e = Some eb ->
  on_block (io_d w) eb -> NoDup (split_slots eb) -> CACHE_DEGRADED_IS_SET (io_d w) = false -> io_result_ok (next_res (io_cw w)) ->
  eb_dir eb = READ -> jobs w !! j = Some jb -> job_ebio jb = Some e -> job_disk jb = mk_region HDD (eb_sector eb) (eio_to_sector (eb_size eb)) ->
  EIO_CACHE_STATE_GET (io_d w) (eb_index eb) = rereading q ->
  (exists w', eio_ssderror_diskread jiffies j w = Some (tt, w') /\ reread_started w eb j jb w') \/
  (exists err w1 w', err <> 0 /\ eio_ssderror_diskread jiffies j w = Some (tt, w') /\ refs_ok k0 held w' /\
    hit_refused (inval_one_block (eb_index eb)) (set_jobs (delete j (jobs w)) w) w1 /\ endio_done e eb err w1 w').
Proof. apply diskread_ok. Qed.

Lemma failed_read_repeated_witness :
  let w := hit_start READ (rereading false) [IoOk] {[7 := hit_job READCACHE 5]} in
  (exists w', eio_ssderror_diskread 9 7 w = Some (tt, w') /\ reread_started w (hit_ebio READ) 7 (hit_job READCACHE 5) w') \/
  (exists err w1 w', err <> 0 /\ eio_ssderror_diskread 9 7 w = Some (tt, w') /\ refs_ok md_kmem0 (fun _ => 0) w' /\
    hit_refused (inval_one_block 5) (set_jobs (delete 7 (jobs w)) w) w1 /\ endio_done 1 (hit_ebio READ) err w1 w').
Proof.
  intros w. assert (A : 0 <= (rereading false) < 256 /\ Z.land (rereading false) 3 = VALID) by done. destruct A as [A1 A2]. destruct (hit_on_block READ (rereading false) A1 A2) as [H Hnd]. destruct (hit_cache_facts (rereading false) A1 A2) as (_ & Es & _ & _ & _ & Hd).
  apply (failed_read_repeated md_kmem0 (fun _ => 0) 9 w 1 (hit_ebio READ) 7 (hit_job READCACHE 5) false);
    [apply hit_refs|exact eq_refl|exact H|exact Hnd|exact Hd|exact I|exact eq_refl|exact eq_refl|exact eq_refl|exact eq_refl|exact Es].
Defined.

(** C15: a write that only the SSD serves.  It is submitted, with its block marked
    in memory, and when its transfer ends without error the volume holds the
    split's memory for each of its sectors; or it ends at once with an error, a
    block it had marked given up.  Until the metadata of a clean block is
    written nothing has happened as far as a crash is concerned: whatever part
    of the transfer was done, recovery gives every sector what it gave before.
    The disk does not change. *)
Theorem cached_write_correct {K : Kernel} k0 held jiffies w e eb : refs_ok k0 held w -> ebios w !! e = Some eb -> on_block (io_d w) eb ->
  CACHE_DEGRADED_IS_SET (io_d w) = false -> mode (io_d w) = CACHE_MODE_WB -> io_result_ok (next_res (io_cw w)) ->
  EIO_CACHE_STATE_GET (io_d w) (eb_index eb) = ALREADY_DIRTY \/ EIO_CACHE_STATE_GET (io_d w) (eb_index eb) = Z.lor VALID CACHEWRITEINPROG ->
  (exists w', eio_cached_write jiffies e w = Some (0, w') /\ write_started w e eb w') \/
  (exists err w2 w', err <> 0 /\ eio_cached_write jiffies e w = Some (err, w') /\ refs_ok k0 held w' /\
     hit_refused (write_refused (eb_index eb)) (with_d (marked_dirty (eb_index eb) (io_d w)) w) w2 /\ endio_done e eb err w2 w').
Proof.
  intros R Ee H Hd Hm Hr Hs. destruct (eio_cached_write_ok k0 held jiffies w e eb R Ee H Hd Hm Hs) as [(km & d' & Hc & E0 & E)|?]; [left|by right].
  eexists. split; [exact E|]. by apply hit_write_started.
Qed.

Lemma cached_write_correct_witness :
  let w := hit_start WRITE (Z.lor VALID CACHEWRITEINPROG) [IoFailed 5 {[202]}] ∅ in
  (exists w', eio_cached_write 9 1 w = Some (0, w') /\ write_started w 1 (hit_ebio WRITE) w') \/
  (exists err w2 w', err <> 0 /\ eio_cached_write 9 1 w = Some (err, w') /\ refs_ok md_kmem0 (fun _ => 0) w' /\
     hit_refused (write_refused 5) (with_d (marked_dirty 5 (io_d w)) w) w2 /\ endio_done 1 (hit_ebio WRITE) err w2 w').
Proof.
  intros w. assert (A : 0 <= (Z.lor VALID CACHEWRITEINPROG) < 256 /\ Z.land (Z.lor VALID CACHEWRITEINPROG) 3 = VALID) by done. destruct A as [A1 A2]. destruct (hit_on_block WRITE (Z.lor VALID CACHEWRITEINPROG) A1 A2) as [H _].
  destruct (hit_cache_facts (Z.lor VALID CACHEWRITEINPROG) A1 A2) as (_ & Es & _ & _ & Hm & Hd).
  apply (cached_write_correct md_kmem0 (fun _ => 0) 9 w 1 (hit_ebio WRITE));
    [apply hit_refs|exact eq_refl|exact H|exact Hd|exact Hm|change (5 <> 0); lia|right; exact Es].
Defined.
